(* ===== verification/_CoqProject ===== *)
-Q . S2P
Prelude.v
GoText.v
GoTime.v
GoJson.v
GoMarshal.v
GoJsonLaws.v
GoMarshalLaws.v
GoTimeLaws.v
Types.v
Samples.v
Sha256.v
Lifecycle.v
Dag.v
Payload.v
Envelope.v
OperatorRole.v
Participant.v
Interaction.v
Continuity.v
State.v
Evolve.v
Authorization.v
WorkProfile.v
Assignment.v
WorkInvocation.v
InvocationLaws.v
Phase4Store.v
Fingerprint.v
Provenance.v
Evidence.v
Release.v
Variant.v
Escalation.v
EvidenceLaws.v
Review.v
Completion.v
ReviewLaws.v
Budget.v
Snapshot.v
PolicyModels.v
HumanPolicy.v
WorkPolicy.v
CommandPolicy.v
Evaluator.v
EvaluatorLaws.v
MemoryStore.v
Handler.v
StoreLaws.v
StoreDefects.v
CapabilityPolicy.v
Workflow.v
WorkflowAdmission.v
WorkflowTiming.v
WorkflowLaws.v
WorkflowRuns.v
AdmissionLaws.v
ExecutionCoordinator.v
ExecutionLaws.v
OperationalExecution.v
OperationalCoordinator.v
OperationalLaws.v
OperationalRuns.v
OperationalService.v
OperationalDefects.v
Base64.v
EventExport.v
EventExportLaws.v
ReleaseCoordinator.v
ReleaseCoordinatorLaws.v
ReleaseRuns.v
