(* ===== verification/Prelude.v ===== *)
(** * The Tekroo Teams kernel: a verification development

    Tekroo Teams is an event-sourced system for teams of people and software
    agents. Its core, the Go package [kernel], is a set of pure decision
    functions: a command and a snapshot of state go in, a decision (an event,
    a budget debit, a rejection) comes out; a store commits the event, and the
    state of an aggregate can be rebuilt from its events at any time. Around it
    stand the in-memory store, the command handler, the coordinators that start
    and observe executions, and the export of stored events. This library models
    them as executable functions and proves the properties the system relies on.

    ** Program parts and how they interact

    - Commands and events ([kernel/envelope.go]) carry a target, preconditions,
      causal parents and a raw JSON payload. Every handler decodes the payload
      itself, so the model starts from the bytes.
    - The evaluator ([kernel/evaluator.go]) checks a command against envelope
      rules, authority, freshness, causality, evidence and the command policies
      ([kernel/decision_policy.go], [phase4_policy.go],
      [operator_human_continuity_policy.go]) and computes the next state of its
      target ([evolveState]); the fold ([kernel/fold.go]) recomputes that state
      from the stored events. The two are written separately and must agree.
    - Fingerprints ([kernel/idempotency.go]) and provenance
      ([kernel/provenance.go]) identify a command, whatever the order of its sets
      and the spelling of its payload.
    - Work items follow the lifecycle of [kernel/lifecycle.go]; their causal graph
      is checked by [kernel/dag.go]. Completion needs a review
      ([kernel/coordination.go], [validation.go], [completion.go]) over evidence
      ([kernel/evidence.go]); alternatives are compared in variant groups
      ([kernel/variant.go]); disputes are escalated ([kernel/escalation.go]);
      results are merged by release plans ([kernel/release.go]).
    - Authority comes from grants and delegations ([kernel/authorization.go]), from
      the operator role ([kernel/operator_role.go]) and from human participants
      ([kernel/human_participant.go]), who answer questions
      ([kernel/human_interaction.go]). A team is suspended and resumed by
      [kernel/continuity.go].
    - Tasks are classified ([kernel/work_profile.go]), assigned to qualified actors
      ([kernel/assignment.go], [kernel/qualification.go]) and executed by model
      invocations authorised against budgets ([kernel/work_invocation.go],
      [kernel/budget.go]). Workflows ([kernel/workflow.go],
      [workflow_admission.go], [workflow_efficiency.go]) order them.
    - The store ([adapters/memory/store.go], [phase4.go]) commits decisions
      atomically; the handler ([application/handler.go]) loads, evaluates, commits
      and reconciles, concurrently with other handlers.
    - Execution control ([adapters/memory/execution_control.go],
      [application/execution_coordinator.go]) starts executions through an engine
      by compare-and-swap on control records. The operational coordinator
      ([application/operational_execution_coordinator.go] with
      [operational_execution.go], [role_handler_validation.go],
      [execution_evidence_recorder.go]) claims an authorised invocation, starts it
      through a boundary, observes it, and records evidence and outcome as kernel
      commands.
    - The release coordinator ([application/release_coordinator.go]) carries out
      the merges of a release plan through a provider.
    - Event export ([eventexport], [adapters/memory/event_export.go]) serves the
      stored events in pages to authenticated clients that hold signed cursors.

    ** Files

    - [Prelude]: notations for Go control flow, tactics, machine integers, facts
      on lists, sorting and maps.
    - [GoText], [GoTime], [GoJson], [GoMarshal], [Sha256], [Base64]: the parts of
      Go's [strings], [regexp], [time], [encoding/json], [crypto/sha256],
      [crypto/hmac], [encoding/base64] and [encoding/binary] that the code uses.
      [GoJsonLaws], [GoMarshalLaws], [GoTimeLaws]: what is printed is read back.
    - [Types], [Payload], [Envelope], [State], [Samples]: identifiers, payload
      helpers, commands and events, aggregate states, sample values.
    - [Lifecycle], [Dag], [OperatorRole], [Participant], [Interaction],
      [Continuity], [Authorization], [WorkProfile], [Assignment], [Release],
      [Variant], [Escalation], [Provenance], [Budget], [CapabilityPolicy]: one
      component of the kernel each, with its theorems.
    - [Evolve]: [evolveState] and [FoldAggregate].
    - [WorkInvocation], [InvocationLaws], [Phase4Store]: budgets and invocations,
      and the projections of the store.
    - [Fingerprint]: canonical JSON, fingerprints and idempotency.
    - [Evidence], [EvidenceLaws]; [Review], [Completion], [ReviewLaws]: evidence
      and the completion of work.
    - [Snapshot], [PolicyModels], [HumanPolicy], [WorkPolicy], [CommandPolicy],
      [Evaluator], [EvaluatorLaws]: the evaluator and the policies it composes.
    - [MemoryStore], [Handler], [StoreLaws], [StoreDefects]: the store and its
      concurrent handlers.
    - [Workflow], [WorkflowAdmission], [WorkflowTiming], [WorkflowLaws],
      [WorkflowRuns], [AdmissionLaws]: workflows.
    - [ExecutionCoordinator], [ExecutionLaws]: execution control.
    - [OperationalExecution], [OperationalCoordinator], [OperationalLaws],
      [OperationalRuns], [OperationalService], [OperationalDefects]: operational
      executions.
    - [EventExport], [EventExportLaws]: event export.
    - [ReleaseCoordinator], [ReleaseCoordinatorLaws], [ReleaseRuns]: the release
      coordinator.

    Definitions keep the names of the source; a Go method [T.M] is [T_M] where
    the bare name would be ambiguous, and a case of a long [switch] is a
    definition of its own, composed by the definition of the whole function.

    ** What the theorems show

    - Evaluator. An applied decision was authorised, fresh, causally valid, backed
      by evidence and allowed by the policies; it is all or nothing; folding the
      stream extended by its event gives the state it computed; who may not read a
      target learns nothing about it.
    - Store and handlers. In every interleaving of handlers, with failing calls and
      cancelled contexts, every stored state is the fold of its events, a request
      is applied at most once, and equal requests get equal answers.
    - Identity. Two commands have the same canonical text exactly when they ask for
      the same thing; fingerprints are digests; an audit log is determined by its
      last digest unless SHA-256 collides.
    - Budgets. An authorisation fits its budgets without wrap-around; over any run
      of commits an account is charged once per authorisation and an attempt budget
      counts its attempts.
    - Authority. [Authorize] is equivalent to the existence of a chain of valid,
      attenuated delegations from a valid grant.
    - State machines. Lifecycle, invocations, continuity and releases refine their
      diagrams (relations independent of the code); invocations end; merges follow
      the plan; an escalation is closed once; reviews pass on independent results.
    - Workflows. A node leaves PENDING exactly when its predecessors are satisfied;
      an unfinished workflow can be completed; proposals are admitted exactly under
      the stated conditions; the frontier respects the concurrency limits; the
      sweeps of the timing compute what their definition says.
    - Execution control. An execution is started at most once, after its
      authorisation and within the limits; a granted start reaches RUNNING.
    - Operational executions. Whatever the collaborators answer, the boundary is
      called only for claimed invocations with valid contexts; when the kernel
      decides the commands and the collaborators do their part, an authorised
      invocation reaches its observed outcome with its evidence on record.
    - Release coordinator. A merge is asked for only after its intent is recorded;
      every attempt is recorded as observed or as unknown; a plan whose provider may
      lose its answers is carried out to the last merge.
    - Export. A cursor is good exactly for the client, the source and the time it
      was issued for; a client that follows its cursors holds the first events of
      the source, each once and in order, and gets all of them when left alone.
    - Defects. Where the code does not do what it means to, a theorem states the
      behaviour: [reopen_without_carry_diverges], [StoreDefects],
      [OperationalDefects], parts of [WorkflowRuns], [Release], [EvidenceLaws].

    ** Modelling conventions

    - Strings are byte strings. A string type whose values come from JSON stays a
      string with a [Valid] test; an enumeration that only the code produces is
      an inductive type. Pointers are options. [uint64] is [Z] with [u64] the
      reduction modulo 2^64 wherever the code computes; [int] is [Z].
    - Maps are [gmap]s. Where the code ranges over a map the model takes the
      visiting order as a list, and a theorem shows that it does not matter.
    - A result with an error or a boolean is an option, a sum or a pair, as the
      Go function returns it. [Clone] copies memory and is the identity on
      immutable values. [sort.Slice] is a merge sort by the same comparison.
    - Code behind an interface is called, not assumed: the handler and the
      coordinators are trees of calls whose continuations take any answer, errors
      and cancelled contexts included; theorems quantify over the answers, or over
      interleavings with other programs on a shared store. Clocks and fresh
      identifiers are such answers.
    - The contract catalogue and the JSON schema validator are parameters. SHA-256
      is executable; no theorem assumes it injective.
    - Fuel. Loops over finite lists are structural. Kahn's loop has one unit per
      node and one more, and [kahn_spec] shows it is never exhausted. Delegation
      search is limited by the code itself to four levels. The loop of the
      operational coordinator has the number of rounds of the source. Parsers and
      regular expressions use the length of the input, each step consuming at least
      one byte; nesting of JSON is limited as in Go.
    - Counters that the code increments without a test (revisions, positions of a
      feed) wrap; theorems that need it state the bound of 2^64.

    ** Not modelled

    The loader that reads execution contexts out of the in-memory store, the
    application coordinators that only turn a kernel plan into a command
    (assignment, validation, completion, escalation, continuity) and the model
    registry; the package [organization] (role packages, manifests, messages
    between teams, federation); the contract and schema resolution. Outside the
    scope of a model: the adapters for databases, networks, files, processes and
    model providers ([adapters/mongo], [httpapi], [openhands],
    [operationalruntime] and the like), the agent runtime and its tools, and the
    commands. *)

From Stdlib Require Export ZArith Ascii String Bool.
From stdpp Require Export base decidable countable gmap strings list sorting.

(** The rest of this file is the shared prelude: notations, record
    updates, boolean reflection, machine integers and the generic facts
    on lists and sorting that the components use. *)

Global Open Scope Z_scope.
Global Open Scope bool_scope.
Global Open Scope list_scope.

#[global] Arguments String.append !_ _ / : simpl nomatch.

(** ** Notations for Go control flow *)

Declare Scope go_scope.
Delimit Scope go_scope with go.
Global Open Scope go_scope.

(** [a == b] and [a != b] are Go's comparisons on comparable values. *)
Notation "a == b" := (bool_decide (a = b))
  (at level 70, no associativity) : go_scope.
Notation "a != b" := (negb (bool_decide (a = b)))
  (at level 70, no associativity) : go_scope.

(** [when c return e ;; k]: an early return. *)
Notation "'when' c 'return' e ;; k" := (if c then e else k)
  (at level 10, c at level 99, e at level 99, k at level 200,
   only parsing) : go_scope.

(** [try x <- e ;; k]: propagate a failing sub-call. *)
Notation "'try' x <- e ;; k" :=
  (match e with Some x => k | None => None end)
  (at level 10, x binder, e at level 99, k at level 200,
   only parsing) : go_scope.

(** [call x <- e ;; k]: propagate the error of a sub-call. *)
Notation "'call' x <- e ;; k" :=
  (match e with inl err => inl err | inr x => k end)
  (at level 10, x name, e at level 99, k at level 200,
   only parsing) : go_scope.

(** A pointer comparison with [nil]. *)
Definition is_nil {A} (o : option A) : bool :=
  match o with Some _ => false | None => true end.

(** [len] of a string or of a slice, as Go's [int]. *)
Definition slen (s : string) : Z := Z.of_nat (String.length s).
Definition llen {A} (l : list A) : Z := Z.of_nat (List.length l).

(** Lookup of a missing key in a Go map yields the zero value. *)
Definition mget {K A} `{Countable K} (zero : A) (k : K) (m : gmap K A) : A :=
  match m !! k with Some v => v | None => zero end.

(** ** Functional record update *)

(** [Eta R] rebuilds a record from its projections; the setter of a
    projection is obtained by abstracting that projection. *)
Class Eta (R : Type) := eta : R -> R.
Class Setter {R T : Type} (proj : R -> T) := setf : (T -> T) -> R -> R.
Arguments setf {R T} proj {_} / f r.

Ltac derive_setter :=
  lazymatch goal with
  | |- @Setter ?R ?T ?proj =>
    let e := constr:(_ : Eta R) in
    let b := eval hnf in e in
    lazymatch eval pattern proj in b with
    | ?g _ => exact (fun (f : T -> T) (r : R) => g (fun x => f (proj x)) r)
    end
  end.
#[export] Hint Extern 1 (Setter _) => derive_setter : typeclass_instances.

Notation "r <| proj := v |>" := (setf proj (fun _ => v) r)
  (at level 1, left associativity, proj at level 99, v at level 99,
   format "r  <|  proj  :=  v  |>") : go_scope.

(** ** Boolean reflection *)

Create Rewrite HintDb gobool.
Create Rewrite HintDb gosimp.

(** Tests the code writes as conditions become propositions. *)
#[export] Hint Rewrite
  andb_true_iff orb_false_iff negb_true_iff negb_false_iff
  @bool_decide_eq_true @bool_decide_eq_false
  Z.ltb_lt Z.ltb_ge Z.leb_le Z.leb_gt Z.eqb_eq Z.eqb_neq : gobool.

Ltac bprop H := autorewrite with gobool in H.

Ltac split_ands :=
  repeat match goal with
         | H : _ /\ _ |- _ => destruct H
         end.

(** Split the early returns of a hypothesis [f x = r]; the branches
    whose result is syntactically different are closed. *)
Ltac unwhen H :=
  repeat match type of H with
         | (if ?c then _ else _) = _ =>
           let E := fresh "E" in destruct c eqn:E; try discriminate H
         end.

(** Split an accepted [option] computation into its guards. *)
Ltac accepted H :=
  repeat (first
    [ discriminate H
    | match type of H with
      | match ?x with Some _ => _ | None => _ end = _ => destruct x eqn:?; [|discriminate H]
      | (if ?c then _ else _) = _ =>
        let E := fresh "G" in destruct c eqn:E; [discriminate H|]
      | Some _ = Some _ => injection H as H
      end ]).

(** Evaluate the comparisons of literals. *)
Ltac eval_tests_in H :=
  repeat match type of H with
         | context [bool_decide (?a = ?b :> ?T)] =>
           let t := constr:(bool_decide (a = b :> T)) in
           let v := eval vm_compute in t in
           lazymatch v with true => idtac | false => idtac end;
           change t with v in H
         end.

Ltac eval_tests :=
  repeat match goal with
         | |- context [bool_decide (?a = ?b :> ?T)] =>
           let t := constr:(bool_decide (a = b :> T)) in
           let v := eval vm_compute in t in
           lazymatch v with true => idtac | false => idtac end;
           change t with v
         end.

Ltac break_match_hyp H :=
  match type of H with
  | context [match ?x with _ => _ end] =>
    let E := fresh "E" in destruct x eqn:E
  end.

Ltac break_match :=
  match goal with
  | |- context [match ?x with _ => _ end] =>
    let E := fresh "E" in destruct x eqn:E
  end.

Lemma bool_decide_refl {A} `{EqDecision A} (x : A) : (x == x) = true.
Proof. by apply bool_decide_eq_true. Qed.

Lemma neqb_refl {A} `{EqDecision A} (x : A) : (x != x) = false.
Proof. by rewrite bool_decide_refl. Qed.

#[export] Hint Rewrite @bool_decide_refl @neqb_refl : gosimp.

Lemma if_false_true (c b : bool) :
  (if c then false else b) = true <-> c = false /\ b = true.
Proof. destruct c; naive_solver. Qed.

Lemma is_nil_false {A} (o : option A) : is_nil o = false <-> exists x, o = Some x.
Proof. destruct o; naive_solver. Qed.

Lemma is_nil_true {A} (o : option A) : is_nil o = true <-> o = None.
Proof. destruct o; naive_solver. Qed.

(** ** Machine integers *)

Definition u64_mod : Z := 18446744073709551616.
Definition u32_mod : Z := 4294967296.
Definition i64_max : Z := 9223372036854775807.
Definition i64_min : Z := -9223372036854775808.

(** Wrap-around of a 64-bit unsigned result. *)
Definition u64 (z : Z) : Z := z mod u64_mod.
Definition u32 (z : Z) : Z := z mod u32_mod.

Definition is_u64 (z : Z) : Prop := 0 <= z < u64_mod.

Lemma u64_id z : is_u64 z -> u64 z = z.
Proof. intros H. apply Z.mod_small, H. Qed.

Lemma u64_range z : is_u64 (u64 z).
Proof. apply Z.mod_pos_bound. reflexivity. Qed.

(** [n + 1] at 64 bits: the successor, or 0 at the top of the range. *)
Lemma u64_succ z :
  is_u64 z ->
  u64 (z + 1) = z + 1 /\ z + 1 < u64_mod \/ u64 (z + 1) = 0 /\ z + 1 = u64_mod.
Proof.
  unfold is_u64, u64. intros [H1 H2].
  destruct (decide (z + 1 = u64_mod)) as [E|E].
  - right. rewrite E. split; [apply Z.mod_same; discriminate | reflexivity].
  - left. rewrite Z.mod_small; lia.
Qed.

Lemma u64_succ_neq z : is_u64 z -> u64 (z + 1) <> z.
Proof.
  intros H. destruct (u64_succ z H) as [[-> ?]|[-> ?]]; [lia|].
  intros <-. discriminate.
Qed.

(** ** Uniqueness loops *)

(** The loop behind the [seen] maps of the code: every element passes
    [ok] and none was met before. *)
Fixpoint check_unique {A} `{Countable A} (ok : A -> bool) (seen : gset A)
    (l : list A) : bool :=
  match l with
  | [] => true
  | x :: l' =>
    when negb (ok x) return false ;;
    when bool_decide (x ∈ seen) return false ;;
    check_unique ok ({[x]} ∪ seen) l'
  end.

Lemma check_unique_spec {A} `{Countable A} (ok : A -> bool) l seen :
  check_unique ok seen l = true <->
  Forall (fun x => ok x = true) l /\ NoDup l /\ (forall x, x ∈ l -> x ∉ seen).
Proof.
  revert seen. induction l as [|x l IH]; intros seen; simpl.
  - split; [intros _; repeat split; [done| constructor | set_solver] | done].
  - destruct (ok x) eqn:Ex; simpl.
    2: { split; [done | intros [HF _]; inversion HF; congruence]. }
    case_bool_decide as Hs.
    + split; [done | intros (_ & _ & Hn); exfalso; apply (Hn x); set_solver].
    + rewrite IH, Forall_cons, NoDup_cons. set_solver.
Qed.

Lemma check_unique_nil {A} `{Countable A} (ok : A -> bool) l :
  check_unique ok ∅ l = true <-> Forall (fun x => ok x = true) l /\ NoDup l.
Proof. rewrite check_unique_spec. set_solver. Qed.

Lemma check_unique_perm {A} `{Countable A} (ok : A -> bool) l1 l2 :
  l1 ≡ₚ l2 -> check_unique ok ∅ l1 = check_unique ok ∅ l2.
Proof.
  intros Hp. apply eq_true_iff_eq. rewrite !check_unique_nil.
  by rewrite Hp.
Qed.

(** Go's [contains] loops. *)
Definition contains {A} `{EqDecision A} (l : list A) (x : A) : bool :=
  existsb (fun y => y == x) l.

Lemma contains_spec {A} `{EqDecision A} (l : list A) x :
  contains l x = true <-> x ∈ l.
Proof.
  unfold contains. rewrite existsb_exists, list_elem_of_In.
  split; [intros (y & Hy & E); by apply bool_decide_eq_true in E as <- |].
  intros Hx. exists x. by rewrite bool_decide_refl.
Qed.

Lemma forallb_True_iff {A} (p : A -> bool) l :
  forallb p l = true <-> Forall (fun x => p x = true) l.
Proof. rewrite forallb_forall, Forall_forall. by setoid_rewrite list_elem_of_In. Qed.

Lemma filter_Permutation_bool {A} (p : A -> bool) l1 l2 :
  l1 ≡ₚ l2 -> List.filter p l1 ≡ₚ List.filter p l2.
Proof.
  induction 1 as [|x l1 l2 _ IH|x y l|l1 l2 l3 _ IH1 _ IH2]; simpl; [done| | |by etrans].
  - destruct (p x); [by constructor | done].
  - destruct (p x), (p y); try done. constructor.
Qed.

Lemma filter_sublist_bool {A} (p : A -> bool) l : List.filter p l `sublist_of` l.
Proof.
  induction l as [|x l IH]; simpl; [done|]. destruct (p x); by constructor.
Qed.

(** Distinct keys identify elements. *)
Lemma NoDup_fmap_elem {A B} (f : A -> B) l x y :
  NoDup (f <$> l) -> x ∈ l -> y ∈ l -> f x = f y -> x = y.
Proof.
  intros Hn Hx Hy E. apply list_elem_of_lookup in Hx as [i Hi], Hy as [j Hj].
  assert (i = j) as ->; [|congruence].
  apply (NoDup_lookup _ _ _ (f x) Hn).
  - by rewrite list_lookup_fmap, Hi.
  - rewrite list_lookup_fmap, Hj. simpl. by rewrite E.
Qed.

(** ** Sorting *)

(** [sort.Slice] and [sort.Strings] are modelled by merge sort. Their
    results are determined by the comparison whenever it is a total
    order, so the choice of algorithm is immaterial there. *)
Section sorting.
Context {A : Type} (R : relation A) `{!RelDecision R}.

Lemma merge_sort_unique `{!Transitive R, !Total R, !AntiSymm (=) R} l l' :
  l' ≡ₚ l -> Sorted R l' -> merge_sort R l = l'.
Proof.
  intros Hp Hs. eapply (Sorted_unique R); [by apply Sorted_merge_sort | done |].
  by rewrite merge_sort_Permutation.
Qed.

Lemma merge_sort_perm_eq `{!Transitive R, !Total R, !AntiSymm (=) R} l1 l2 :
  l1 ≡ₚ l2 -> merge_sort R l1 = merge_sort R l2.
Proof.
  intros Hp. apply merge_sort_unique; [| by apply Sorted_merge_sort].
  by rewrite merge_sort_Permutation.
Qed.
End sorting.

(** The byte-wise order of Go strings. *)
Abbreviation str_le := String.le.

Definition sort_strings (l : list string) : list string := merge_sort str_le l.

Lemma sort_strings_perm l : sort_strings l ≡ₚ l.
Proof. apply merge_sort_Permutation. Qed.

Lemma sort_strings_eq l1 l2 : l1 ≡ₚ l2 -> sort_strings l1 = sort_strings l2.
Proof. apply merge_sort_perm_eq; apply _. Qed.

Lemma sort_strings_inv l1 l2 : sort_strings l1 = sort_strings l2 -> l1 ≡ₚ l2.
Proof. intros E. rewrite <- (sort_strings_perm l1), E. apply sort_strings_perm. Qed.

(** The adjacent-duplicate loop run after a sort. *)
Fixpoint adjacent_dup {A} `{EqDecision A} (l : list A) : bool :=
  match l with
  | x :: (y :: _) as l' => (x == y) || adjacent_dup l'
  | _ => false
  end.

Lemma adjacent_dup_sorted {A} `{EqDecision A} (R : relation A)
    `{!Transitive R, !AntiSymm (=) R} l :
  Sorted R l -> adjacent_dup l = false <-> NoDup l.
Proof.
  intros Hs. apply Sorted_StronglySorted in Hs; [|done].
  induction Hs as [|x l Hs IH HF]; [split; [constructor | done]|].
  destruct l as [|y l]; [split; [intros; constructor; [set_solver | constructor] | done]|].
  rewrite NoDup_cons, <- IH. simpl. rewrite orb_false_iff, bool_decide_eq_false.
  split; [|set_solver].
  intros [Hne Hd]. split; [|done].
  rewrite elem_of_cons. intros [->|Hin]; [done|].
  apply Hne, (anti_symm R); [by inversion HF|].
  inversion Hs as [|? ? _ HF']. subst. by eapply Forall_forall in HF'.
Qed.

Lemma sort_strings_nodup l : adjacent_dup (sort_strings l) = false <-> NoDup l.
Proof.
  rewrite (adjacent_dup_sorted str_le) by (apply Sorted_merge_sort; apply _).
  by rewrite sort_strings_perm.
Qed.

(** Comparison by a first string key and then by a second one, the shape of
    the comparison functions the code passes to [sort.Slice]. *)
Section two_keys.
Context {A : Type} (f g : A -> string).

Definition key_le (a b : A) : Prop :=
  f a <> f b /\ str_le (f a) (f b) \/ f a = f b /\ str_le (g a) (g b).

#[global] Instance key_le_dec : RelDecision key_le.
Proof. intros a b. unfold key_le. apply _. Defined.

#[global] Instance key_le_total : Total key_le.
Proof.
  intros a b. unfold key_le. destruct (decide (f a = f b)) as [E|E].
  - destruct (total str_le (g a) (g b)); naive_solver.
  - destruct (total str_le (f a) (f b)); naive_solver.
Qed.

#[global] Instance key_le_trans : Transitive key_le.
Proof.
  intros a b c [[H1 H2]|[H1 H2]] [[H3 H4]|[H3 H4]].
  - left. split; [|by etrans]. intros E. apply H1, (anti_symm str_le); [done|by rewrite E].
  - left. rewrite <- H3. done.
  - left. rewrite H1. done.
  - right. split; [congruence | by etrans].
Qed.

Lemma key_le_antisymm_keys a b : key_le a b -> key_le b a -> f a = f b /\ g a = g b.
Proof.
  intros [[H1 H2]|[H1 H2]] [[H3 H4]|[H3 H4]]; try congruence.
  - destruct H1. by apply (anti_symm str_le).
  - split; [done|]. by apply (anti_symm str_le).
Qed.
End two_keys.

(** Adjacent elements with the same key, in a list sorted by that key. *)
Fixpoint adjacent_key {A B} `{EqDecision B} (key : A -> B) (l : list A) : bool :=
  match l with
  | x :: (y :: _) as l' => (key x == key y) || adjacent_key key l'
  | _ => false
  end.

Lemma adjacent_key_cons {A B} `{EqDecision B} (key : A -> B) x y l :
  adjacent_key key (x :: y :: l) = (key x == key y) || adjacent_key key (y :: l).
Proof. done. Qed.

Lemma adjacent_key_map {A B} `{EqDecision B} (key : A -> B) l :
  adjacent_key key l = adjacent_dup (key <$> l).
Proof.
  induction l as [|x [|y l] IH]; [done..|].
  by rewrite adjacent_key_cons, IH.
Qed.
