(* ===== verification/GoText.v ===== *)
(** * Go strings and regular expressions

    The parts of Go's [strings] and [regexp] packages the kernel relies on.
    A Go string is a sequence of bytes ([string], one [ascii] per byte).
    [re] is the fragment of the regular expressions used by the identifier
    patterns of [kernel/types.go] and [kernel/human_participant.go]; [remainders]
    executes it and [remainders_spec] relates it to the language it denotes. *)

From S2P Require Import Prelude.
Local Open Scope string_scope.

(** ** Byte classes *)

Definition in_range (lo hi : ascii) (c : ascii) : bool :=
  (N.leb (N_of_ascii lo) (N_of_ascii c)) && (N.leb (N_of_ascii c) (N_of_ascii hi)).

Definition is_digit : ascii -> bool := in_range "0" "9".
Definition is_lower : ascii -> bool := in_range "a" "z".
Definition is_alnum (c : ascii) : bool := is_lower c || is_digit c.
Definition is_hex (c : ascii) : bool := is_digit c || in_range "a" "f" c.

(** ** Regular expressions *)

Inductive re :=
| RClass (p : ascii -> bool)
| RSeq (a b : re)
| RAlt (a b : re)
| RRep (lo hi : nat) (a : re)
| RStar (a : re).

Definition RChar (c : ascii) : re := RClass (fun d => d == c).
Definition ROpt (a : re) : re := RRep 0 1 a.

(** The language of a regular expression. *)
Fixpoint pow (P : string -> Prop) (n : nat) (s : string) : Prop :=
  match n with
  | O => s = ""
  | S n => exists s1 s2, s = s1 ++ s2 /\ P s1 /\ pow P n s2
  end.

Fixpoint matches (r : re) (s : string) : Prop :=
  match r with
  | RClass p => exists c, s = String c "" /\ p c = true
  | RSeq a b => exists s1 s2, s = s1 ++ s2 /\ matches a s1 /\ matches b s2
  | RAlt a b => matches a s \/ matches b s
  | RRep lo hi a => exists n, (lo <= n <= hi)%nat /\ pow (matches a) n s
  | RStar a => exists n, pow (matches a) n s
  end.

(** All suffixes left over after matching a prefix. [iter_rem n] runs the
    body exactly [n] times. *)
Fixpoint iter_rem (f : string -> list string) (n : nat) (s : string) : list string :=
  match n with
  | O => [s]
  | S n => flat_map (iter_rem f n) (f s)
  end.

(** The star stops after as many iterations as there are bytes; iterations
    that consume nothing are dropped. *)
Fixpoint star_rem (f : string -> list string) (fuel : nat) (s : string) : list string :=
  s :: match fuel with
       | O => []
       | S fuel =>
         flat_map (star_rem f fuel)
           (List.filter (fun s' => Nat.ltb (String.length s') (String.length s)) (f s))
       end.

Fixpoint remainders (r : re) (s : string) : list string :=
  match r with
  | RClass p =>
    match s with String c s' => if p c then [s'] else [] | EmptyString => [] end
  | RSeq a b => flat_map (remainders b) (remainders a s)
  | RAlt a b => (remainders a s ++ remainders b s)%list
  | RRep lo hi a => flat_map (fun n => iter_rem (remainders a) n s) (seq lo (S hi - lo))
  | RStar a => star_rem (remainders a) (String.length s) s
  end.

(** [MatchString] of a pattern anchored with [^] and [$]. *)
Definition re_match (r : re) (s : string) : bool :=
  existsb (fun s' => s' == "") (remainders r s).

Lemma append_assoc (a b c : string) : (a ++ b) ++ c = a ++ (b ++ c).
Proof. induction a; simpl; congruence. Qed.

Lemma append_nil_r (a : string) : a ++ "" = a.
Proof. induction a; simpl; congruence. Qed.

Lemma append_length (a b : string) :
  String.length (a ++ b) = (String.length a + String.length b)%nat.
Proof. induction a; simpl; congruence. Qed.

Lemma append_inj_l (a b c : string) : a ++ b = a ++ c -> b = c.
Proof. induction a; simpl; naive_solver. Qed.

Definition rem_spec (f : string -> list string) (P : string -> Prop) : Prop :=
  forall s s', In s' (f s) <-> exists s1, s = s1 ++ s' /\ P s1.

Lemma iter_rem_spec f P n : rem_spec f P -> rem_spec (iter_rem f n) (pow P n).
Proof.
  intros Hf. induction n as [|n IH]; intros s s'; simpl.
  - split; [intros [->|[]]; by exists "" | intros (s1 & -> & ->); by left].
  - rewrite in_flat_map. split.
    + intros (t & Ht & Hin). apply Hf in Ht as (s1 & -> & Hs1).
      apply IH in Hin as (s2 & -> & Hs2).
      exists (s1 ++ s2). rewrite append_assoc. naive_solver.
    + intros (w & -> & s1 & s2 & -> & Hs1 & Hs2). rewrite append_assoc.
      exists (s2 ++ s'). split; [apply Hf | apply IH]; naive_solver.
Qed.

Lemma pow_prog P n s :
  pow P n s -> exists m, pow (fun t => t <> "" /\ P t) m s.
Proof.
  revert s. induction n as [|n IH]; intros s; simpl.
  - intros ->. by exists O.
  - intros (s1 & s2 & -> & Hs1 & Hs2). apply IH in Hs2 as [m Hm].
    destruct (decide (s1 = "")) as [->|Hne]; [by exists m|].
    exists (S m). simpl. naive_solver.
Qed.

Lemma star_rem_spec f P fuel s s' :
  rem_spec f P -> (String.length s <= fuel)%nat ->
  In s' (star_rem f fuel s) <-> exists s1, s = s1 ++ s' /\ exists n, pow P n s1.
Proof.
  intros Hf. revert s. induction fuel as [|fuel IH]; intros s Hlen; simpl.
  - destruct s; [|simpl in Hlen; lia]. split.
    + intros [<-|[]]. exists "". split; [done | by exists O].
    + intros (s1 & E & _). destruct s1; [by left | done].
  - rewrite in_flat_map. split.
    + intros [<-|(t & Ht & Hin)]; [exists ""; split; [done | by exists O]|].
      apply filter_In in Ht as [Ht Hlt]. apply Nat.ltb_lt in Hlt.
      apply Hf in Ht as (s1 & -> & Hs1). apply IH in Hin; [|lia].
      destruct Hin as (s2 & -> & n & Hn). exists (s1 ++ s2).
      rewrite append_assoc. split; [done|]. exists (S n). simpl. naive_solver.
    + intros (w & -> & n & Hn). apply pow_prog in Hn as [m Hm].
      destruct m as [|m]; simpl in Hm; [subst; by left | right].
      destruct Hm as (s1 & s2 & -> & [Hne Hs1] & Hs2).
      rewrite !append_assoc in *. exists (s2 ++ s').
      rewrite append_length in Hlen.
      assert (0 < String.length s1)%nat by (destruct s1; [done | simpl; lia]).
      split.
      * apply filter_In. split; [apply Hf; naive_solver|].
        apply Nat.ltb_lt. rewrite (append_length s1). lia.
      * apply IH; [lia|]. exists s2. split; [done|]. exists m.
        clear -Hs2. revert s2 Hs2. induction m; simpl; naive_solver.
Qed.

Lemma remainders_spec r : rem_spec (remainders r) (matches r).
Proof.
  induction r as [p|a IHa b IHb|a IHa b IHb|lo hi a IHa|a IHa]; intros s s'; simpl.
  - destruct s as [|c s].
    + split; [done | intros ([|? ?] & E & ? & ? & ?); simplify_eq].
    + destruct (p c) eqn:Ep; split; simpl.
      * intros [<-|[]]. exists (String c ""). naive_solver.
      * intros (s1 & E & d & -> & Hd). simplify_eq/=. by left.
      * done.
      * intros (s1 & E & d & -> & Hd). simplify_eq/=. congruence.
  - rewrite in_flat_map. split.
    + intros (t & Ht & Hin). apply IHa in Ht as (s1 & -> & H1).
      apply IHb in Hin as (s2 & -> & H2). exists (s1 ++ s2).
      rewrite append_assoc. naive_solver.
    + intros (w & -> & s1 & s2 & -> & H1 & H2). rewrite append_assoc.
      exists (s2 ++ s'). split; [apply IHa | apply IHb]; naive_solver.
  - rewrite in_app_iff, (IHa s s'), (IHb s s'). naive_solver.
  - rewrite in_flat_map. split.
    + intros (n & Hn & Hin). apply in_seq in Hn.
      apply (iter_rem_spec _ _ n IHa) in Hin as (s1 & -> & Hp).
      exists s1. split; [done|]. exists n. split; [lia | done].
    + intros (s1 & -> & n & Hn & Hp). exists n. split; [apply in_seq; lia|].
      apply (iter_rem_spec _ _ n IHa). naive_solver.
  - by apply star_rem_spec.
Qed.

(** The executable matcher accepts exactly the language of the pattern. *)
Lemma re_match_spec r s : re_match r s = true <-> matches r s.
Proof.
  unfold re_match. rewrite existsb_exists. split.
  - intros (s' & Hin & E). apply bool_decide_eq_true in E as ->.
    apply remainders_spec in Hin as (s1 & -> & Hm). by rewrite append_nil_r.
  - intros Hm. exists "". rewrite bool_decide_refl. split; [|done].
    apply remainders_spec. exists s. by rewrite append_nil_r.
Qed.

(** ** Facts about the words of a pattern *)

Fixpoint all_chars (p : ascii -> bool) (s : string) : bool :=
  match s with EmptyString => true | String c s => p c && all_chars p s end.

Lemma all_chars_app p a b : all_chars p (a ++ b) = all_chars p a && all_chars p b.
Proof. induction a; simpl; [done|]. by rewrite IHa, andb_assoc. Qed.

Lemma all_chars_impl (p q : ascii -> bool) s :
  (forall c, p c = true -> q c = true) -> all_chars p s = true -> all_chars q s = true.
Proof.
  intros Hpq. induction s; simpl; [done|]. rewrite !andb_true_iff. naive_solver.
Qed.

(** A predicate on bytes that every class of a pattern satisfies holds of
    every byte of a matching string. *)
Fixpoint re_chars (q : ascii -> Prop) (r : re) : Prop :=
  match r with
  | RClass p => forall c, p c = true -> q c
  | RSeq a b | RAlt a b => re_chars q a /\ re_chars q b
  | RRep _ _ a | RStar a => re_chars q a
  end.

Lemma pow_chars (q : ascii -> bool) P n s :
  (forall s, P s -> all_chars q s = true) -> pow P n s -> all_chars q s = true.
Proof.
  intros HP. revert s. induction n as [|n IH]; intros s; simpl; [by intros ->|].
  intros (s1 & s2 & -> & H1 & H2). rewrite all_chars_app. by rewrite HP, IH.
Qed.

Lemma matches_chars (q : ascii -> bool) r s :
  re_chars (fun c => q c = true) r -> matches r s -> all_chars q s = true.
Proof.
  revert s. induction r as [p|a IHa b IHb|a IHa b IHb|lo hi a IHa|a IHa]; intros s; simpl.
  - intros Hp (c & -> & Hc). simpl. by rewrite Hp.
  - intros [Ha Hb] (s1 & s2 & -> & H1 & H2). rewrite all_chars_app.
    by rewrite IHa, IHb.
  - naive_solver.
  - intros Ha (n & _ & Hn). eapply pow_chars; [|done]. eauto.
  - intros Ha (n & Hn). eapply pow_chars; [|done]. eauto.
Qed.

(** ** [strings] functions *)

Fixpoint has_prefix (s pre : string) {struct pre} : bool :=
  match pre, s with
  | EmptyString, _ => true
  | String c pre, String d s => (c == d) && has_prefix s pre
  | _, _ => false
  end.

Fixpoint drop (n : nat) (s : string) : string :=
  match n, s with
  | S n, String _ s => drop n s
  | _, _ => s
  end.

(** [strings.Cut]: the text around the first occurrence of the separator. *)
Fixpoint str_cut (sep s : string) : option (string * string) :=
  when has_prefix s sep return Some ("", drop (String.length sep) s) ;;
  match s with
  | EmptyString => None
  | String c s' =>
    match str_cut sep s' with
    | Some (before, after) => Some (String c before, after)
    | None => None
    end
  end.

Definition str_contains (s sub : string) : bool :=
  match str_cut sub s with Some _ => true | None => false end.

(** [s\[:strings.LastIndexByte(s, c)\]], or [None] when [c] does not occur. *)
Fixpoint before_last (c : ascii) (s : string) : option string :=
  match s with
  | EmptyString => None
  | String d s' =>
    match before_last c s' with
    | Some b => Some (String d b)
    | None => if d == c then Some "" else None
    end
  end.

Lemma before_last_none c s :
  all_chars (fun d => d != c) s = true -> before_last c s = None.
Proof.
  induction s as [|d s IH]; simpl; [done|]. rewrite andb_true_iff.
  intros [Hd Hs]. rewrite IH by done. by destruct (d == c).
Qed.

Lemma before_last_app c a b :
  all_chars (fun d => d != c) b = true -> before_last c (a ++ String c b) = Some a.
Proof.
  intros Hb. induction a as [|d a IH]; simpl.
  - rewrite before_last_none by done. by rewrite bool_decide_refl.
  - by rewrite IH.
Qed.

Lemma has_prefix_app pre s : has_prefix (pre ++ s) pre = true.
Proof. induction pre; simpl; [done|]. by rewrite bool_decide_refl. Qed.

Lemma drop_app pre s : drop (String.length pre) (pre ++ s) = s.
Proof. by induction pre. Qed.

(** Cutting at a separator whose first byte does not occur before it. *)
Lemma str_cut_here sep b : sep <> "" -> str_cut sep (sep ++ b) = Some ("", b).
Proof.
  intros Hs. destruct sep as [|c sep]; [done|].
  pose proof (has_prefix_app (String c sep) b) as E.
  pose proof (drop_app (String c sep) b) as D.
  change (String c sep ++ b) with (String c (sep ++ b)) in *.
  cbn [str_cut]. by rewrite E, D.
Qed.

Lemma str_cut_app c sep a b :
  all_chars (fun d => d != c) a = true ->
  str_cut (String c sep) (a ++ String c sep ++ b) = Some (a, b).
Proof.
  induction a as [|d a IH]; intros Ha.
  - by apply (str_cut_here (String c sep)).
  - simpl in Ha. apply andb_true_iff in Ha as [Hd Ha].
    apply negb_true_iff, bool_decide_eq_false in Hd.
    change (String d a ++ String c sep ++ b)
      with (String d (a ++ String c sep ++ b)).
    cbn [str_cut has_prefix].
    rewrite bool_decide_eq_false_2 by congruence. cbn [andb].
    by rewrite IH.
Qed.
