(* ===== verification/GoTime.v ===== *)
(** * Go's [time.Time]

    A time is an instant, in nanoseconds since 0001-01-01T00:00:00Z (Go's
    zero time), with the offset of its location in seconds: the location
    matters only when a time is printed. [parse_rfc3339] is the parser behind
    [Time.UnmarshalJSON]. *)

From S2P Require Import Prelude GoText.

Record Time := mkTime { t_nanos : Z; t_offset : Z }.

#[global] Instance Time_eq_dec : EqDecision Time.
Proof. solve_decision. Defined.

Definition zero_time : Time := mkTime 0 0.

Definition IsZero (t : Time) : bool := t_nanos t =? 0.
Definition Before (t u : Time) : bool := t_nanos t <? t_nanos u.
Definition After (t u : Time) : bool := t_nanos u <? t_nanos t.
Definition TimeEqual (t u : Time) : bool := t_nanos t =? t_nanos u.

(** ** The proleptic Gregorian calendar *)

Definition is_leap (y : Z) : bool :=
  (y mod 4 =? 0) && (negb (y mod 100 =? 0) || (y mod 400 =? 0)).

Definition days_in (m y : Z) : Z :=
  if m =? 2 then (if is_leap y then 29 else 28)
  else if (m =? 4) || (m =? 6) || (m =? 9) || (m =? 11) then 30 else 31.

(** Days from 0001-01-01 to the first day of year [y]. *)
Definition days_before_year (y : Z) : Z :=
  365 * (y - 1) + (y - 1) / 4 - (y - 1) / 100 + (y - 1) / 400.

Fixpoint days_before_month (m : nat) (y : Z) : Z :=
  match m with
  | S (S m' as m1) => days_before_month m1 y + days_in (Z.of_nat m1) y
  | _ => 0
  end.

(** [time.Date] in UTC, in nanoseconds since the zero time. *)
Definition date_nanos (y mo d h mi s ns : Z) : Z :=
  let days := days_before_year y + days_before_month (Z.to_nat mo) y + (d - 1) in
  (((days * 24 + h) * 60 + mi) * 60 + s) * 1000000000 + ns.

(** ** Parsing RFC 3339 *)

Definition digit_val (c : ascii) : Z := Z.of_N (N_of_ascii c) - 48.

(** [getnum]: one or two digits; [fixed] asks for two. *)
Definition getnum (fixed : bool) (s : string) : option (Z * string) :=
  match s with
  | String a s1 =>
    when negb (is_digit a) return None ;;
    match s1 with
    | String b s2 =>
      when is_digit b return Some (10 * digit_val a + digit_val b, s2) ;;
      when fixed return None ;;
      Some (digit_val a, s1)
    | EmptyString =>
      when fixed return None ;;
      Some (digit_val a, s1)
    end
  | EmptyString => None
  end.

Definition expect (c : ascii) (s : string) : option string :=
  match s with
  | String d s' => if d == c then Some s' else None
  | EmptyString => None
  end.

Fixpoint take_digits (s : string) : list Z * string :=
  match s with
  | String c s' =>
    if is_digit c
    then let (ds, r) := take_digits s' in (digit_val c :: ds, r)
    else ([], s)
  | EmptyString => ([], s)
  end.

(** The value of up to nine fractional digits, in nanoseconds; further
    digits are dropped. *)
Fixpoint nanos_of_digits (scale : nat) (ds : list Z) : Z :=
  match scale, ds with
  | S scale, d :: ds => d * 10 ^ Z.of_nat scale + nanos_of_digits scale ds
  | _, _ => 0
  end.

Definition parse_fraction (s : string) : Z * string :=
  match s with
  | String sep (String d _ as s1) =>
    if ((sep == "."%char) || (sep == ","%char)) && is_digit d
    then let (ds, r) := take_digits s1 in (nanos_of_digits 9 ds, r)
    else (0, s)
  | _ => (0, s)
  end.

Definition parse_zone (s : string) : option (Z * string) :=
  match s with
  | String "Z" r => Some (0, r)
  | String sign s1 =>
    when negb ((sign == "+"%char) || (sign == "-"%char)) return None ;;
    try p <- getnum true s1 ;;
    let (hr, s2) := p in
    try s3 <- expect ":" s2 ;;
    try q <- getnum true s3 ;;
    let (mm, s4) := q in
    when (24 <? hr) || (60 <? mm) return None ;;
    let off := (hr * 60 + mm) * 60 in
    Some (if sign == "-"%char then - off else off, s4)
  | EmptyString => None
  end.

Definition parse_year (s : string) : option (Z * string) :=
  match take_digits s with
  | (a :: b :: c :: d :: [], r) => Some (((a * 10 + b) * 10 + c) * 10 + d, r)
  | _ => None
  end.

(** [Parse(RFC3339, s)], as [Time.UnmarshalJSON] uses it. *)
Definition parse_rfc3339 (s : string) : option Time :=
  try p <- parse_year s ;; let (y, s) := p in
  try s <- expect "-" s ;;
  try p <- getnum true s ;; let (mo, s) := p in
  when (mo <? 1) || (12 <? mo) return None ;;
  try s <- expect "-" s ;;
  try p <- getnum true s ;; let (d, s) := p in
  when (d <? 1) || (days_in mo y <? d) return None ;;
  try s <- expect "T" s ;;
  try p <- getnum false s ;; let (h, s) := p in
  when 23 <? h return None ;;
  try s <- expect ":" s ;;
  try p <- getnum true s ;; let (mi, s) := p in
  when 59 <? mi return None ;;
  try s <- expect ":" s ;;
  try p <- getnum true s ;; let (sec, s) := p in
  when 59 <? sec return None ;;
  let (ns, s) := parse_fraction s in
  try z <- parse_zone s ;; let (off, s) := z in
  when negb (s == "") return None ;;
  Some (mkTime (date_nanos y mo d h mi sec ns - off * 1000000000) off).

Example parse_zero : parse_rfc3339 "0001-01-01T00:00:00Z" = Some zero_time.
Proof. reflexivity. Qed.

(** The Unix epoch is 62135596800 seconds after Go's zero time. *)
Example parse_epoch :
  t_nanos <$> parse_rfc3339 "1970-01-01T01:00:00.5+01:00" = Some (62135596800500000000).
Proof. reflexivity. Qed.
