(* ===== verification/GoJson.v ===== *)
(** * Go's [encoding/json], as the kernel uses it

    A payload is raw bytes. [parse_value] is the scanner and decoder of
    [json.Decoder.Decode] (the first value of the input, the rest left alone)
    and [json_parse] that of [json.Unmarshal] (nothing but white space after
    the value). Strings and numbers keep their source text: a string literal
    is decoded by [unquote] when it is read as a Go string, a number by
    [json.Number.Int64] or [strconv.ParseUint].

    The [dec_*] combinators decode a value into a Go variable of a given type
    the way [json.Unmarshal] does: [null] leaves a non-pointer variable as it
    is, unknown members are skipped, member names match case-insensitively
    when no name matches exactly, a repeated member is decoded again into the
    same variable, and a value of the wrong type is an error. *)

From S2P Require Import Prelude GoText GoTime.

Inductive json :=
| JNull
| JBool (b : bool)
| JNumber (lit : string)
| JString (raw : string)
| JArray (elems : list json)
| JObject (members : list (string * json)).

(** ** Lexical elements *)

Definition byte_of (c : ascii) : Z := Z.of_N (N_of_ascii c).
Definition chr (z : Z) : ascii := ascii_of_N (Z.to_N z).

Definition is_space (c : ascii) : bool :=
  (byte_of c =? 32) || (byte_of c =? 9) || (byte_of c =? 13) || (byte_of c =? 10).

Fixpoint skip_space (s : string) : string :=
  match s with
  | String c s' => if is_space c then skip_space s' else s
  | EmptyString => s
  end.

Definition is_hex_digit (c : ascii) : bool :=
  is_digit c || in_range "a" "f" c || in_range "A" "F" c.

Definition quote_char : ascii := chr 34.
Definition backslash : ascii := chr 92.

Definition is_escape (c : ascii) : bool :=
  (c == quote_char) || (c == backslash) || (c == "/"%char) || (c == "b"%char)
  || (c == "f"%char) || (c == "n"%char) || (c == "r"%char) || (c == "t"%char).

(** The text of a string literal up to its closing quote, still escaped. *)
Fixpoint scan_string (s : string) : option (string * string) :=
  match s with
  | EmptyString => None
  | String c s1 =>
    if c == quote_char then Some ("", s1) else
    if c == backslash then
      match s1 with
      | String e s2 =>
        if is_escape e then
          try p <- scan_string s2 ;;
          Some (String c (String e (fst p)), snd p)
        else if e == "u"%char then
          match s2 with
          | String h1 (String h2 (String h3 (String h4 s3))) =>
            if is_hex_digit h1 && is_hex_digit h2 && is_hex_digit h3 && is_hex_digit h4
            then try p <- scan_string s3 ;;
                 Some (String c (String e (String h1 (String h2 (String h3
                        (String h4 (fst p)))))), snd p)
            else None
          | _ => None
          end
        else None
      | EmptyString => None
      end
    else if byte_of c <? 32 then None
    else try p <- scan_string s1 ;; Some (String c (fst p), snd p)
  end.

Fixpoint scan_digits (s : string) : string * string :=
  match s with
  | String c s' =>
    if is_digit c then let (d, r) := scan_digits s' in (String c d, r) else ("", s)
  | EmptyString => ("", s)
  end.

(** One or more digits. *)
Definition scan_digits1 (s : string) : option (string * string) :=
  match scan_digits s with
  | (EmptyString, _) => None
  | p => Some p
  end.

Definition scan_int (s : string) : option (string * string) :=
  match s with
  | String "0" r => Some ("0", r)
  | _ => scan_digits1 s
  end.

Definition scan_frac (s : string) : option (string * string) :=
  match s with
  | String "." r => try p <- scan_digits1 r ;; Some (String "." (fst p), snd p)
  | _ => Some ("", s)
  end.

Definition scan_exp (s : string) : option (string * string) :=
  match s with
  | String e r =>
    if (e == "e"%char) || (e == "E"%char) then
      match r with
      | String g r' =>
        if (g == "+"%char) || (g == "-"%char)
        then try p <- scan_digits1 r' ;; Some (String e (String g (fst p)), snd p)
        else try p <- scan_digits1 r ;; Some (String e (fst p), snd p)
      | EmptyString => None
      end
    else Some ("", s)
  | EmptyString => Some ("", s)
  end.

(** A number literal: its text and the rest. *)
Definition scan_number (s : string) : option (string * string) :=
  let '(sign, s) := match s with String "-" r => ("-", r) | _ => ("", s) end in
  try i <- scan_int s ;;
  try f <- scan_frac (snd i) ;;
  try e <- scan_exp (snd f) ;;
  Some (sign +:+ fst i +:+ fst f +:+ fst e, snd e).

Definition scan_word (w : string) (v : json) (s : string) : option (json * string) :=
  if has_prefix s w then Some (v, drop (String.length w) s) else None.

(** ** Values *)

Definition max_depth : nat := 10000.

(** [depth] is the nesting still allowed. Every call consumes input, so a
    fuel larger than the length of the input is enough. *)
Fixpoint parse_value (fuel depth : nat) (s : string) {struct fuel} : option (json * string) :=
  match fuel with
  | O => None
  | S fuel =>
    match skip_space s with
    | EmptyString => None
    | String c r =>
      if c == quote_char then
        try p <- scan_string r ;; Some (JString (fst p), snd p)
      else if c == "{"%char then
        match depth with
        | O => None
        | S depth =>
          match skip_space r with
          | String "}" r' => Some (JObject [], r')
          | _ => try p <- parse_members fuel depth r ;; Some (JObject (fst p), snd p)
          end
        end
      else if c == "["%char then
        match depth with
        | O => None
        | S depth =>
          match skip_space r with
          | String "]" r' => Some (JArray [], r')
          | _ => try p <- parse_elems fuel depth r ;; Some (JArray (fst p), snd p)
          end
        end
      else if c == "n"%char then scan_word "null" JNull (String c r)
      else if c == "t"%char then scan_word "true" (JBool true) (String c r)
      else if c == "f"%char then scan_word "false" (JBool false) (String c r)
      else try p <- scan_number (String c r) ;; Some (JNumber (fst p), snd p)
    end
  end
with parse_members (fuel depth : nat) (s : string) {struct fuel}
    : option (list (string * json) * string) :=
  match fuel with
  | O => None
  | S fuel =>
    match skip_space s with
    | String c r =>
      when c != quote_char return None ;;
      try k <- scan_string r ;;
      match skip_space (snd k) with
      | String ":" r1 =>
        try v <- parse_value fuel depth r1 ;;
        match skip_space (snd v) with
        | String "}" r2 => Some ([(fst k, fst v)], r2)
        | String "," r2 =>
          try ms <- parse_members fuel depth r2 ;;
          Some ((fst k, fst v) :: fst ms, snd ms)
        | _ => None
        end
      | _ => None
      end
    | EmptyString => None
    end
  end
with parse_elems (fuel depth : nat) (s : string) {struct fuel}
    : option (list json * string) :=
  match fuel with
  | O => None
  | S fuel =>
    try v <- parse_value fuel depth s ;;
    match skip_space (snd v) with
    | String "]" r2 => Some ([fst v], r2)
    | String "," r2 =>
      try es <- parse_elems fuel depth r2 ;;
      Some (fst v :: fst es, snd es)
    | _ => None
    end
  end.

(** [Decoder.Decode]: the first value of the input. *)
Definition json_decode (s : string) : option (json * string) :=
  parse_value (S (S (String.length s))) max_depth s.

(** [Unmarshal]: the whole input is one value. *)
Definition json_parse (s : string) : option json :=
  try p <- json_decode s ;;
  if skip_space (snd p) == "" then Some (fst p) else None.

(** ** Strings *)

Definition hex_val (c : ascii) : Z :=
  if is_digit c then byte_of c - 48
  else if in_range "a" "f" c then byte_of c - 87
  else byte_of c - 55.

Definition hex4 (a b c d : ascii) : Z :=
  ((hex_val a * 16 + hex_val b) * 16 + hex_val c) * 16 + hex_val d.

Definition bytes_str (l : list Z) : string :=
  foldr (fun b s => String (chr b) s) "" l.

Definition replacement : Z := 65533.

(** [utf8.AppendRune] of a valid code point. *)
Definition utf8_encode (r : Z) : list Z :=
  if r <? 128 then [r]
  else if r <? 2048 then [192 + r / 64; 128 + r mod 64]
  else if r <? 65536 then [224 + r / 4096; 128 + r / 64 mod 64; 128 + r mod 64]
  else [240 + r / 262144; 128 + r / 4096 mod 64; 128 + r / 64 mod 64; 128 + r mod 64].

(** The length of the valid UTF-8 sequence at the head of a string whose
    first byte is not ASCII; 0 when there is none ([utf8.DecodeRune]). *)
Definition utf8_len (s : string) : nat :=
  let between lo hi c := (lo <=? byte_of c) && (byte_of c <=? hi) in
  match s with
  | String a r =>
    let b0 := byte_of a in
    match r with
    | String b r2 =>
      if (194 <=? b0) && (b0 <=? 223) then (if between 128 191 b then 2%nat else 0%nat)
      else
        let lo := if b0 =? 224 then 160 else if b0 =? 240 then 144 else 128 in
        let hi := if b0 =? 237 then 159 else if b0 =? 244 then 143 else 191 in
        match r2 with
        | String c r3 =>
          if (224 <=? b0) && (b0 <=? 239)
          then (if between lo hi b && between 128 191 c then 3%nat else 0%nat)
          else if (240 <=? b0) && (b0 <=? 244) then
            match r3 with
            | String d _ =>
              if between lo hi b && between 128 191 c && between 128 191 d
              then 4%nat else 0%nat
            | EmptyString => 0%nat
            end
          else 0%nat
        | EmptyString => 0%nat
        end
    | EmptyString => 0%nat
    end
  | EmptyString => 0%nat
  end.

Fixpoint str_take (n : nat) (s : string) : string :=
  match n, s with
  | S n, String c s => String c (str_take n s)
  | _, _ => ""
  end.

Definition is_surrogate (r : Z) : bool := (55296 <=? r) && (r <=? 57343).

(** The decoded value of the text of a string literal. Invalid UTF-8 and
    unpaired surrogates become U+FFFD. *)
Fixpoint unquote_aux (fuel : nat) (s : string) : string :=
  match fuel with
  | O => ""
  | S fuel =>
    match s with
    | EmptyString => ""
    | String c s1 =>
      if c == backslash then
        match s1 with
        | String "u" (String h1 (String h2 (String h3 (String h4 s3)))) =>
          let rr := hex4 h1 h2 h3 h4 in
          if is_surrogate rr then
            match s3 with
            | String e (String "u" (String g1 (String g2 (String g3 (String g4 s5))))) =>
              let rr1 := hex4 g1 g2 g3 g4 in
              if (e == backslash) && (rr <? 56320) && (56320 <=? rr1) && (rr1 <=? 57343)
                 && is_hex_digit g1 && is_hex_digit g2 && is_hex_digit g3 && is_hex_digit g4
              then bytes_str (utf8_encode ((rr - 55296) * 1024 + (rr1 - 56320) + 65536))
                     +:+ unquote_aux fuel s5
              else bytes_str (utf8_encode replacement) +:+ unquote_aux fuel s3
            | _ => bytes_str (utf8_encode replacement) +:+ unquote_aux fuel s3
            end
          else bytes_str (utf8_encode rr) +:+ unquote_aux fuel s3
        | String e s2 =>
          let d := if e == "b"%char then chr 8 else if e == "f"%char then chr 12
                   else if e == "n"%char then chr 10 else if e == "r"%char then chr 13
                   else if e == "t"%char then chr 9 else e in
          String d (unquote_aux fuel s2)
        | EmptyString => ""
        end
      else if byte_of c <? 128 then String c (unquote_aux fuel s1)
      else match utf8_len s with
           | O => bytes_str (utf8_encode replacement) +:+ unquote_aux fuel s1
           | n => str_take n s +:+ unquote_aux fuel (drop n s)
           end
    end
  end.

Definition unquote (raw : string) : string := unquote_aux (S (String.length raw)) raw.

(** ** Numbers *)

Fixpoint dec_digits_val (acc : Z) (s : string) : option Z :=
  match s with
  | EmptyString => Some acc
  | String c s' => if is_digit c then dec_digits_val (acc * 10 + digit_val c) s' else None
  end.

Definition parse_digits (s : string) : option Z :=
  match s with EmptyString => None | _ => dec_digits_val 0 s end.

(** [strconv.ParseUint(lit, 10, 64)]. *)
Definition ParseUint (lit : string) : option Z :=
  try n <- parse_digits lit ;; if n <? u64_mod then Some n else None.

(** [json.Number.Int64]. *)
Definition Int64 (lit : string) : option Z :=
  match lit with
  | String "-" r => try n <- parse_digits r ;; if - n <? i64_min then None else Some (- n)
  | _ => try n <- parse_digits lit ;; if i64_max <? n then None else Some n
  end.

(** ** Objects as [map[string]any] *)

Definition members_map (ms : list (string * json)) : gmap string json :=
  foldl (fun m kv => <[unquote (fst kv) := snd kv]> m) ∅ ms.

(** Type assertions on [any] values. *)
Definition as_string (v : option json) : option string :=
  match v with Some (JString raw) => Some (unquote raw) | _ => None end.
Definition as_number (v : option json) : option string :=
  match v with Some (JNumber lit) => Some lit | _ => None end.
Definition as_bool (v : option json) : option bool :=
  match v with Some (JBool b) => Some b | _ => None end.
Definition as_array (v : option json) : option (list json) :=
  match v with Some (JArray l) => Some l | _ => None end.
Definition as_object (v : option json) : option (gmap string json) :=
  match v with Some (JObject ms) => Some (members_map ms) | _ => None end.

(** [fmt.Sprint] of an [any] value. *)
Fixpoint sep_concat (l : list string) : string :=
  match l with
  | [] => ""
  | [x] => x
  | x :: l => x +:+ " " +:+ sep_concat l
  end.

Fixpoint sprint (v : json) : string :=
  match v with
  | JNull => "<nil>"
  | JBool true => "true"
  | JBool false => "false"
  | JNumber lit => lit
  | JString raw => unquote raw
  | JArray l => "[" +:+ sep_concat (map sprint l) +:+ "]"
  | JObject ms =>
    let m : gmap string string :=
      foldl (fun m kv => <[fst kv := snd kv]> m) ∅
        (map (fun kv => (unquote (fst kv), sprint (snd kv))) ms) in
    let keys := sort_strings (elements (dom m)) in
    "map[" +:+ sep_concat (map (fun k => k +:+ ":" +:+ mget "" k m) keys) +:+ "]"
  end.

Definition Sprint (v : option json) : string :=
  match v with Some j => sprint j | None => "<nil>" end.

(** ** Decoding into Go variables *)

Definition decoder (A : Type) : Type := json -> A -> option A.

Definition dec_string : decoder string := fun j cur =>
  match j with JString raw => Some (unquote raw) | JNull => Some cur | _ => None end.
Definition dec_bool : decoder bool := fun j cur =>
  match j with JBool b => Some b | JNull => Some cur | _ => None end.
Definition dec_u64 : decoder Z := fun j cur =>
  match j with JNumber lit => ParseUint lit | JNull => Some cur | _ => None end.
Definition dec_time : decoder Time := fun j cur =>
  match j with JString raw => parse_rfc3339 raw | JNull => Some cur | _ => None end.

Definition dec_ptr {A} (zero : A) (d : decoder A) : decoder (option A) := fun j cur =>
  match j with
  | JNull => Some None
  | _ => try v <- d j (match cur with Some x => x | None => zero end) ;; Some (Some v)
  end.

Fixpoint dec_list {A} (zero : A) (d : decoder A) (l : list json) : option (list A) :=
  match l with
  | [] => Some []
  | j :: l => try v <- d j zero ;; try vs <- dec_list zero d l ;; Some (v :: vs)
  end.

(** A slice; [nil] and the empty slice are both the empty list. *)
Definition dec_slice {A} (zero : A) (d : decoder A) : decoder (list A) := fun j cur =>
  match j with
  | JNull => Some []
  | JArray l => dec_list zero d l
  | _ => None
  end.

(** A map with string keys. *)
Fixpoint dec_entries {A} (zero : A) (d : decoder A) (ms : list (string * json))
    (cur : gmap string A) : option (gmap string A) :=
  match ms with
  | [] => Some cur
  | (k, j) :: ms => try v <- d j zero ;; dec_entries zero d ms (<[unquote k := v]> cur)
  end.

Definition dec_map {A} (zero : A) (d : decoder A) : decoder (gmap string A) := fun j cur =>
  match j with
  | JNull => Some ∅
  | JObject ms => dec_entries zero d ms cur
  | _ => None
  end.

(** Folded member names: ASCII letters in upper case, and the two other
    code points that fold to ASCII letters (U+017F and U+212A). *)
Definition upper (c : ascii) : ascii :=
  if is_lower c then chr (byte_of c - 32) else c.

Fixpoint fold_name (s : string) : string :=
  match s with
  | String a (String b (String c r as r2) as r1) =>
    if (byte_of a =? 197) && (byte_of b =? 191) then String "S" (fold_name r2)
    else if (byte_of a =? 226) && (byte_of b =? 132) && (byte_of c =? 170)
    then String "K" (fold_name r)
    else String (upper a) (fold_name r1)
  | String a (String b EmptyString) =>
    if (byte_of a =? 197) && (byte_of b =? 191) then "S"
    else String (upper a) (String (upper b) "")
  | String a EmptyString => String (upper a) ""
  | EmptyString => ""
  end.

(** A struct field: its JSON name and how a value is decoded into it. *)
Definition field (R : Type) : Type := string * (json -> R -> option R).

Definition fld {R T} (name : string) (proj : R -> T) `{!Setter proj} (d : decoder T) : field R :=
  (name, fun j r => try v <- d j (proj r) ;; Some (r <| proj := v |>)).

Definition find_field {R} (fs : list (field R)) (key : string) : option (field R) :=
  match List.find (fun f => fst f == key) fs with
  | Some f => Some f
  | None => List.find (fun f => fold_name (fst f) == fold_name key) fs
  end.

Fixpoint dec_members {R} (fs : list (field R)) (ms : list (string * json)) (r : R) : option R :=
  match ms with
  | [] => Some r
  | (k, j) :: ms =>
    match find_field fs (unquote k) with
    | Some f => try r' <- snd f j r ;; dec_members fs ms r'
    | None => dec_members fs ms r
    end
  end.

Definition dec_struct {R} (fs : list (field R)) : decoder R := fun j r =>
  match j with
  | JNull => Some r
  | JObject ms => dec_members fs ms r
  | _ => None
  end.

(** [json.Unmarshal(payload, &value)] with [value] the zero value. *)
Definition Unmarshal {R} (fs : list (field R)) (zero : R) (payload : string) : option R :=
  try j <- json_parse payload ;; dec_struct fs j zero.

Arguments Unmarshal : simpl never.

(** JSON text written with apostrophes for its double quotes. *)
Fixpoint js (s : string) : string :=
  match s with
  | EmptyString => ""
  | String c s => String (if c == chr 39 then quote_char else c) (js s)
  end.

(** ** What decoding preserves *)

Lemma ParseUint_range lit n : ParseUint lit = Some n -> is_u64 n.
Proof.
  assert (Hd : forall s acc v, 0 <= acc -> dec_digits_val acc s = Some v -> 0 <= v).
  { induction s as [|c s IH]; simpl; intros acc v Ha H; [congruence|].
    destruct (is_digit c) eqn:E; [|discriminate H]. apply IH in H; [done|].
    unfold is_digit in E. unfold digit_val, byte_of in *. apply andb_true_iff in E as [E _].
    apply N.leb_le in E. change (N_of_ascii "0") with 48%N in E. lia. }
  unfold ParseUint. destruct (parse_digits lit) as [m|] eqn:E; [|discriminate].
  destruct (m <? u64_mod) eqn:E'; [|discriminate]. intros H. injection H as <-.
  apply Z.ltb_lt in E'. split; [|done].
  destruct lit; [discriminate E|]. apply (Hd _ 0 m (Z.le_refl 0)) in E. done.
Qed.

Lemma dec_u64_range j cur v : is_u64 cur -> dec_u64 j cur = Some v -> is_u64 v.
Proof. destruct j; simpl; intros; simplify_eq; eauto using ParseUint_range. Qed.

Lemma dec_map_u64 j (cur m : gmap string Z) :
  map_Forall (fun _ v => is_u64 v) cur -> dec_map 0 dec_u64 j cur = Some m ->
  map_Forall (fun _ v => is_u64 v) m.
Proof.
  assert (H0 : is_u64 0) by (unfold is_u64, u64_mod; lia).
  destruct j as [| | | | |ms]; simpl; intros Hc H; simplify_eq; [apply map_Forall_empty|].
  revert cur Hc H. induction ms as [|[k j] ms IH]; simpl; intros cur Hc H; [by simplify_eq|].
  destruct (dec_u64 j 0) as [v|] eqn:E; [|discriminate H].
  apply IH in H; [done|]. apply map_Forall_insert_2; eauto using dec_u64_range.
Qed.

(** A property of the record that every field decoder keeps holds of the
    decoded value. *)
Lemma Unmarshal_preserves {R} (P : R -> Prop) (fs : list (field R)) zero payload v :
  Forall (fun f : field R => forall j r r', P r -> snd f j r = Some r' -> P r') fs ->
  P zero -> Unmarshal fs zero payload = Some v -> P v.
Proof.
  intros Hf Hz. unfold Unmarshal. destruct (json_parse payload) as [j|]; [|discriminate].
  destruct j as [| | | | |ms]; simpl; intros H; simplify_eq; [done|].
  revert zero Hz H. induction ms as [|[k j] ms IH]; simpl; intros r Hr H; [by simplify_eq|].
  destruct (find_field fs (unquote k)) as [f|] eqn:E; [|eauto].
  destruct (snd f j r) as [r'|] eqn:E'; [|discriminate H]. apply (IH r'); [|done].
  rewrite Forall_forall in Hf. refine (Hf f _ j r r' Hr E').
  unfold find_field in E.
  case_match; simplify_eq;
    match goal with H : List.find _ _ = Some _ |- _ => apply find_some in H as [H _] end;
    by apply list_elem_of_In.
Qed.

Lemma fld_preserves {R T} name (proj : R -> T) `{!Setter proj} (d : decoder T) (P : R -> Prop) :
  (forall j r v, P r -> d j (proj r) = Some v -> P (r <| proj := v |>)) ->
  forall j r r', P r -> snd (fld name proj d) j r = Some r' -> P r'.
Proof.
  intros H j r r' Hr. unfold fld; simpl. destruct (d j (proj r)) as [v|] eqn:E; [|discriminate].
  intros ?; simplify_eq. by apply (H j).
Qed.
