(* ===== verification/GoMarshal.v ===== *)
(** * Go's [json.Marshal]

    The encoder used for event payloads, fingerprints and digests: strings are
    escaped as [encoding/json] does with HTML escaping on, integers are
    decimal, times are RFC 3339 with the shortest fraction, struct members come
    in declaration order and map keys are sorted. *)

From S2P Require Import Prelude GoText GoTime GoJson.

(** ** Integers *)

Definition digit_char (d : Z) : ascii := chr (48 + d).

Fixpoint dec_aux (fuel : nat) (n : Z) (acc : string) : string :=
  match fuel with
  | O => acc
  | S fuel =>
    let acc := String (digit_char (n mod 10)) acc in
    if n <? 10 then acc else dec_aux fuel (n / 10) acc
  end.

(** [strconv.AppendUint]; twenty digits hold any 64-bit value. *)
Definition enc_uint (n : Z) : string := dec_aux 20 n "".

(** Exactly [w] digits. *)
Fixpoint pad_digits (w : nat) (n : Z) (acc : string) : string :=
  match w with
  | O => acc
  | S w => pad_digits w (n / 10) (String (digit_char (n mod 10)) acc)
  end.
Definition enc_fixed (w : nat) (n : Z) : string := pad_digits w n "".

(** ** Strings *)

Definition hex_char (d : Z) : ascii :=
  if d <? 10 then chr (48 + d) else chr (87 + d).

Definition str1 (c : ascii) : string := String c "".

Definition esc (s : string) : string := String backslash s.

Definition enc_ascii (c : ascii) : string :=
  let b := byte_of c in
  if (c == quote_char) || (c == backslash) then esc (str1 c)
  else if b =? 8 then esc "b" else if b =? 12 then esc "f" else if b =? 10 then esc "n"
  else if b =? 13 then esc "r" else if b =? 9 then esc "t"
  else if (b <? 32) || (c == "<"%char) || (c == ">"%char) || (c == "&"%char)
  then esc ("u00" +:+ str1 (hex_char (b / 16)) +:+ str1 (hex_char (b mod 16)))
  else str1 c.

(** U+2028 and U+2029, as their three bytes. *)
Definition is_line_sep (s : string) : option Z :=
  match s with
  | String a (String b (String c _)) =>
    if (byte_of a =? 226) && (byte_of b =? 128) && ((byte_of c =? 168) || (byte_of c =? 169))
    then Some (byte_of c - 160) else None
  | _ => None
  end.

Fixpoint enc_chars (fuel : nat) (s : string) : string :=
  match fuel with
  | O => ""
  | S fuel =>
    match s with
    | EmptyString => ""
    | String c s1 =>
      if byte_of c <? 128 then enc_ascii c +:+ enc_chars fuel s1
      else match utf8_len s with
           | O => esc "ufffd" +:+ enc_chars fuel s1
           | n =>
             match is_line_sep s with
             | Some d => esc ("u202" +:+ str1 (hex_char d)) +:+ enc_chars fuel (drop n s)
             | None => str_take n s +:+ enc_chars fuel (drop n s)
             end
           end
    end
  end.

Definition quoted (s : string) : string := String quote_char (s +:+ str1 quote_char).
Definition enc_string (s : string) : string := quoted (enc_chars (S (String.length s)) s).

(** ** Times *)

(** Year and day of the year of a number of days since 0001-01-01. *)
Definition civil_year (d : Z) : Z * Z :=
  let n400 := d / 146097 in
  let r := d mod 146097 in
  let n100 := Z.min 3 (r / 36524) in
  let r := r - n100 * 36524 in
  let n4 := r / 1461 in
  let r := r mod 1461 in
  let n1 := Z.min 3 (r / 365) in
  (400 * n400 + 100 * n100 + 4 * n4 + n1 + 1, r - n1 * 365).

Fixpoint civil_month (fuel : nat) (m y yday : Z) : Z * Z :=
  match fuel with
  | O => (m, yday + 1)
  | S fuel =>
    if yday <? days_in m y then (m, yday + 1)
    else civil_month fuel (m + 1) y (yday - days_in m y)
  end.

Fixpoint trim_zeros (fuel : nat) (n : Z) : Z * nat :=
  match fuel with
  | O => (n, O)
  | S fuel => if n mod 10 =? 0 then trim_zeros fuel (n / 10) else (n, S fuel)
  end.

(** The fraction of a second, with trailing zeros removed. *)
Definition enc_fraction (ns : Z) : string :=
  if ns =? 0 then ""
  else let (n, w) := trim_zeros 9 ns in "." +:+ enc_fixed w n.

Definition enc_zone (offset : Z) : string :=
  if offset =? 0 then "Z"
  else let m := Z.abs offset / 60 in
       (if offset <? 0 then "-" else "+") +:+ enc_fixed 2 (m / 60) +:+ ":" +:+ enc_fixed 2 (m mod 60).

(** [Time.MarshalJSON]: an error outside years 0 to 9999 and for zones of a
    day or more. *)
Definition time_text (t : Time) : option string :=
  let local := t_nanos t + t_offset t * 1000000000 in
  let secs := local / 1000000000 in
  let ns := local mod 1000000000 in
  let days := secs / 86400 in
  let sod := secs mod 86400 in
  let (y, yday) := civil_year days in
  let (m, d) := civil_month 12 1 y yday in
  when (y <? 0) || (9999 <? y) || (86400 <=? Z.abs (t_offset t)) return None ;;
  Some (enc_fixed 4 y +:+ "-" +:+ enc_fixed 2 m +:+ "-" +:+ enc_fixed 2 d +:+ "T"
    +:+ enc_fixed 2 (sod / 3600) +:+ ":" +:+ enc_fixed 2 (sod / 60 mod 60) +:+ ":"
    +:+ enc_fixed 2 (sod mod 60) +:+ enc_fraction ns +:+ enc_zone (t_offset t)).
Definition enc_time (t : Time) : option string := try text <- time_text t ;; Some (quoted text).

(** ** Composite values *)

Fixpoint commas (l : list string) : string :=
  match l with
  | [] => ""
  | [x] => x
  | x :: l => x +:+ "," +:+ commas l
  end.

Definition enc_array (l : list string) : string := "[" +:+ commas l +:+ "]".

Definition enc_member (kv : string * string) : string := enc_string (fst kv) +:+ ":" +:+ snd kv.
Definition enc_object (l : list (string * string)) : string :=
  "{" +:+ commas (map enc_member l) +:+ "}".

Definition enc_bool (b : bool) : string := if b then "true" else "false".
Definition enc_ptr {A} (enc : A -> string) (o : option A) : string :=
  match o with Some x => enc x | None => "null" end.

(** [json.Marshal] of a decoded [any]: object keys sorted, numbers verbatim. *)
Fixpoint enc_any (v : json) : string :=
  match v with
  | JNull => "null"
  | JBool b => enc_bool b
  | JNumber lit => lit
  | JString raw => enc_string (unquote raw)
  | JArray l => enc_array (map enc_any l)
  | JObject ms =>
    let m : gmap string string :=
      foldl (fun m kv => <[fst kv := snd kv]> m) ∅
        (map (fun kv => (unquote (fst kv), enc_any (snd kv))) ms) in
    enc_object (map (fun k => (k, mget "" k m)) (sort_strings (elements (dom m))))
  end.

Example enc_time_ex :
  match parse_rfc3339 "2024-02-29T23:59:58.120+05:30" with
  | Some t => enc_time t
  | None => None
  end = Some (js "'2024-02-29T23:59:58.12+05:30'").
Proof. vm_compute. reflexivity. Qed.

Example enc_string_ex : enc_string (js "a<'") = js "'a\u003c\''".
Proof. vm_compute. reflexivity. Qed.

Example enc_any_ex :
  option_map enc_any (json_parse (js "{'b':[1,2.50],'a':{'x':null}}"))
  = Some (js "{'a':{'x':null},'b':[1,2.50]}").
Proof. vm_compute. reflexivity. Qed.
