(* ===== verification/GoJsonLaws.v ===== *)
(** * Printing and parsing JSON

    [render] writes a parsed value back as compact text; [render_parse] shows
    that the parser reads it back unchanged, for every value the parser can
    produce. [any] is the Go value ([map[string]any], [[]any], [string],
    [json.Number], [bool], nil) a decoder with [UseNumber] builds, and
    [encode_any] is [json.Encoder] with HTML escaping off: it sorts the keys of
    maps. [encode_any_roundtrip] shows that decoding its output gives the value
    back, so that equal texts are equal values. *)

From S2P Require Import Prelude GoText GoTime GoJson GoMarshal.

(** ** Strings *)

Lemma str_app_nil (a : string) : a +:+ "" = a.
Proof. induction a as [|x a IH]; simpl; [done|]. by rewrite IH. Qed.

Lemma str_len_app (a b : string) : String.length (a +:+ b) = (String.length a + String.length b)%nat.
Proof. induction a as [|x a IH]; simpl; [done|]. by rewrite IH. Qed.

(** Induction on the length of a string. *)
Lemma string_length_ind (P : string -> Prop) :
  (forall s, (forall t, (String.length t < String.length s)%nat -> P t) -> P s) -> forall s, P s.
Proof.
  intros H s. remember (String.length s) as n eqn:E. revert s E.
  induction n as [n IH] using lt_wf_ind. intros s ->. apply H. intros t Ht. by eapply IH.
Qed.

(** [raw] is the text of a string literal: the scanner reads it up to the quote. *)
Definition lexed (raw : string) : Prop :=
  forall rest, scan_string (raw +:+ String quote_char rest) = Some (raw, rest).

Lemma lexed_nil : lexed "".
Proof. intros rest. cbn. by rewrite bool_decide_refl. Qed.

(** Characters that stand for themselves. *)
Definition plain_char (c : ascii) : bool :=
  (c != quote_char) && (c != backslash) && negb (byte_of c <? 32).

Lemma lexed_plain c raw : plain_char c = true -> lexed raw -> lexed (String c raw).
Proof.
  unfold plain_char. rewrite !andb_true_iff, !negb_true_iff. intros [[E1 E2] E3] H rest.
  cbn [append scan_string]. by rewrite E1, E2, E3, H.
Qed.

Lemma backslash_not_quote : (backslash == quote_char) = false.
Proof. reflexivity. Qed.

Lemma lexed_escape e raw : is_escape e = true -> lexed raw -> lexed (String backslash (String e raw)).
Proof.
  intros He H rest. cbn [append scan_string].
  by rewrite backslash_not_quote, bool_decide_refl, He, H.
Qed.

Lemma lexed_unicode h1 h2 h3 h4 raw :
  is_hex_digit h1 && is_hex_digit h2 && is_hex_digit h3 && is_hex_digit h4 = true ->
  lexed raw ->
  lexed (String backslash (String "u" (String h1 (String h2 (String h3 (String h4 raw)))))).
Proof.
  intros He H rest. cbn [append scan_string].
  rewrite backslash_not_quote, bool_decide_refl.
  change (is_escape "u") with false. cbv iota. rewrite bool_decide_refl, He, H. done.
Qed.

(** The text of string literals, character by character. *)
Inductive literal : string -> Prop :=
| literal_nil : literal ""
| literal_plain c raw : plain_char c = true -> literal raw -> literal (String c raw)
| literal_escape e raw : is_escape e = true -> literal raw -> literal (String backslash (String e raw))
| literal_unicode h1 h2 h3 h4 raw :
    is_hex_digit h1 && is_hex_digit h2 && is_hex_digit h3 && is_hex_digit h4 = true -> literal raw ->
    literal (String backslash (String "u" (String h1 (String h2 (String h3 (String h4 raw)))))).

Lemma literal_lexed raw : literal raw -> lexed raw.
Proof. induction 1; auto using lexed_nil, lexed_plain, lexed_escape, lexed_unicode. Qed.

Lemma literal_plain_app a b : forallb plain_char (list_ascii_of_string a) = true -> literal b -> literal (a +:+ b).
Proof.
  intros Ha Hb. induction a as [|c a IH]; cbn in *; [done|]. apply andb_true_iff in Ha as [Hc Ha].
  constructor; auto.
Qed.

Lemma literal_tail c s : plain_char c = true -> literal (String c s) -> literal s.
Proof. intros Hc H. inversion H; subst; [done|discriminate Hc|discriminate Hc]. Qed.

(** What the scanner returns is the text of a literal. *)
Lemma scan_string_literal s raw rest : scan_string s = Some (raw, rest) -> literal raw.
Proof.
  revert raw rest. induction s as [s IH] using string_length_ind. intros raw rest.
  destruct s as [|c s1]; cbn [scan_string]; [discriminate|].
  destruct (c == quote_char) eqn:Eq.
  { intros [= <- <-]. constructor. }
  destruct (c == backslash) eqn:Eb.
  - apply bool_decide_eq_true in Eb as ->. destruct s1 as [|e s2]; [discriminate|].
    destruct (is_escape e) eqn:Ee.
    { destruct (scan_string s2) as [[r t]|] eqn:Es; [|discriminate]. intros [= <- <-].
      constructor; [done|]. eapply IH; [|exact Es]. simpl. lia. }
    destruct (e == "u"%char) eqn:Eu; [|discriminate]. apply bool_decide_eq_true in Eu as ->.
    destruct s2 as [|h1 [|h2 [|h3 [|h4 s3]]]]; try discriminate.
    destruct (_ && _) eqn:Eh; [|discriminate].
    destruct (scan_string s3) as [[r t]|] eqn:Es; [|discriminate]. intros [= <- <-].
    constructor; [done|]. eapply IH; [|exact Es]. simpl. lia.
  - destruct (byte_of c <? 32) eqn:E3; [discriminate|].
    destruct (scan_string s1) as [[r t]|] eqn:Es; [|discriminate]. intros [= <- <-].
    constructor; [|eapply IH; [|exact Es]; simpl; lia].
    unfold plain_char. by rewrite Eq, Eb, E3.
Qed.

(** ** Numbers *)

(** The first character, if any, does not satisfy [p]. *)
Definition head_not (p : ascii -> bool) (t : string) : Prop :=
  match t with String c _ => p c = false | EmptyString => True end.

Definition is_exp_char (c : ascii) : bool := (c == "e"%char) || (c == "E"%char).
Definition is_dot (c : ascii) : bool := c == "."%char.

(** The text after a number does not continue it. *)
Definition stops (rest : string) : Prop :=
  head_not is_digit rest /\ head_not is_dot rest /\ head_not is_exp_char rest.

Lemma scan_digits_again s d r :
  scan_digits s = (d, r) -> forall t, head_not is_digit t -> scan_digits (d +:+ t) = (d, t).
Proof.
  revert d r. induction s as [|c s IH]; cbn [scan_digits]; intros d r.
  - intros [= <- <-] t Ht. cbn. destruct t as [|c t]; [done|]. cbn in *. by rewrite Ht.
  - destruct (is_digit c) eqn:E.
    + destruct (scan_digits s) as [d' r'] eqn:Es. intros [= <- <-] t Ht. cbn.
      by rewrite E, (IH d' r' eq_refl t Ht).
    + intros [= <- <-] t Ht. cbn. destruct t as [|c' t]; [done|]. cbn in *. by rewrite Ht.
Qed.

Lemma scan_digits1_again s d r :
  scan_digits1 s = Some (d, r) -> forall t, head_not is_digit t ->
  scan_digits1 (d +:+ t) = Some (d, t) /\ exists c d', d = String c d' /\ is_digit c = true /\ exists s', s = String c s'.
Proof.
  unfold scan_digits1. destruct (scan_digits s) as [d0 r0] eqn:E.
  destruct d0 as [|c d0]; [discriminate|]. intros [= <- <-] t Ht.
  rewrite (scan_digits_again s _ _ E t Ht). split; [done|]. exists c, d0. split; [done|].
  destruct s as [|c' s]; cbn in E; [discriminate|]. destruct (is_digit c') eqn:Ec; [|discriminate].
  destruct (scan_digits s). injection E as <- _ _. eauto.
Qed.

Lemma scan_int_digits c s : c <> "0"%char -> scan_int (String c s) = scan_digits1 (String c s).
Proof. intros H. destruct c as [[] [] [] [] [] [] [] []]; try done. Qed.

Lemma scan_int_again s i r :
  scan_int s = Some (i, r) -> forall t, head_not is_digit t ->
  scan_int (i +:+ t) = Some (i, t) /\ exists c i', i = String c i' /\ is_digit c = true.
Proof.
  intros H t Ht. destruct s as [|c s]; [discriminate H|].
  destruct (decide (c = "0"%char)) as [->|Hn].
  - cbn in H. injection H as <- <-. cbn. split; [done|]. by exists "0"%char, "".
  - rewrite scan_int_digits in H by done.
    destruct (scan_digits1_again _ i r H t Ht) as (Hd & c' & i' & -> & Hc & s' & [= <- <-]).
    split; [|eauto]. cbn [append] in *. by rewrite scan_int_digits.
Qed.

Lemma scan_frac_dot c s : c <> "."%char -> scan_frac (String c s) = Some ("", String c s).
Proof. intros H. destruct c as [[] [] [] [] [] [] [] []]; try done. Qed.

Lemma scan_frac_again s f r :
  scan_frac s = Some (f, r) -> forall t, head_not is_digit t -> head_not is_dot t ->
  scan_frac (f +:+ t) = Some (f, t) /\ head_not is_digit (f +:+ t).
Proof.
  intros H t Ht Hd. destruct s as [|c s].
  - injection H as <- <-. split; [|done]. destruct t as [|c t]; [done|].
    apply scan_frac_dot. cbn in Hd. by apply bool_decide_eq_false in Hd.
  - destruct (decide (c = "."%char)) as [->|Hn].
    + cbn in H. destruct (scan_digits1 s) as [[d r']|] eqn:E; [|discriminate]. injection H as <- <-.
      destruct (scan_digits1_again s d r' E t Ht) as [Hs _]. cbn. by rewrite Hs.
    + rewrite scan_frac_dot in H by done. injection H as <- <-. split; [|done].
      destruct t as [|c' t]; [done|]. apply scan_frac_dot. cbn in Hd. by apply bool_decide_eq_false in Hd.
Qed.

Lemma scan_exp_again s e r :
  scan_exp s = Some (e, r) -> forall t, stops t ->
  scan_exp (e +:+ t) = Some (e, t) /\ head_not is_digit (e +:+ t) /\ head_not is_dot (e +:+ t).
Proof.
  intros H t (Ht & Hd & He).
  assert (scan_exp ("" +:+ t) = Some ("", t)) as Hnil.
  { destruct t as [|c t]; [done|]. cbn in *. unfold is_exp_char in He. by rewrite He. }
  destruct s as [|c s]; [by injection H as <- <-|].
  cbn [scan_exp] in H. change ((c == "e"%char) || (c == "E"%char)) with (is_exp_char c) in H.
  destruct (is_exp_char c) eqn:Ec; [|by injection H as <- <-].
  assert (head_not is_digit (String c "") /\ head_not is_dot (String c "")) as [Hcd Hcp].
  { apply orb_true_iff in Ec as [Ec|Ec]; apply bool_decide_eq_true in Ec as ->; done. }
  destruct s as [|g s]; [discriminate|].
  destruct ((g == "+"%char) || (g == "-"%char)) eqn:Eg.
  - destruct (scan_digits1 s) as [[d r']|] eqn:E; [|discriminate]. injection H as <- <-.
    destruct (scan_digits1_again s d r' E t Ht) as [Hs _]. cbn.
    change ((c == "e"%char) || (c == "E"%char)) with (is_exp_char c). by rewrite Ec, Eg, Hs.
  - destruct (scan_digits1 (String g s)) as [[d r']|] eqn:E; [|discriminate]. injection H as <- <-.
    destruct (scan_digits1_again _ d r' E t Ht) as (Hs & g' & d' & -> & _ & s' & [= <- <-]). cbn in *.
    change ((c == "e"%char) || (c == "E"%char)) with (is_exp_char c). by rewrite Ec, Eg, Hs.
Qed.

(** [lit] is the text of a number: the scanner reads it whatever follows. *)
Definition number_lit (lit : string) : Prop :=
  (forall rest, stops rest -> scan_number (lit +:+ rest) = Some (lit, rest)) /\
  exists c l, lit = String c l /\ (is_digit c = true \/ c = "-"%char).

Definition strip_sign (s : string) : string * string :=
  match s with String "-" r => ("-", r) | _ => ("", s) end.

Lemma strip_sign_other c s : c <> "-"%char -> strip_sign (String c s) = ("", String c s).
Proof. intros H. destruct c as [[] [] [] [] [] [] [] []]; try done. Qed.

Lemma scan_number_unfold s :
  scan_number s =
  let '(sign, s) := strip_sign s in
  try i <- scan_int s ;; try f <- scan_frac (snd i) ;; try e <- scan_exp (snd f) ;;
  Some (sign +:+ fst i +:+ fst f +:+ fst e, snd e).
Proof. done. Qed.

Lemma scan_number_lit s lit r : scan_number s = Some (lit, r) -> number_lit lit.
Proof.
  rewrite scan_number_unfold. destruct (strip_sign s) as [sign s1] eqn:Es.
  destruct (scan_int s1) as [[i r1]|] eqn:Ei; [|discriminate]. cbn.
  destruct (scan_frac r1) as [[f r2]|] eqn:Ef; [|discriminate]. cbn.
  destruct (scan_exp r2) as [[e r3]|] eqn:Ee; [|discriminate]. cbn. intros [= <- <-].
  assert (sign = "" \/ sign = "-") as Hs.
  { destruct s as [|c s]; [injection Es as <- <-; by left|].
    destruct (decide (c = "-"%char)) as [->|Hn]; [injection Es as <- <-; by right|].
    rewrite strip_sign_other in Es by done. injection Es as <- <-. by left. }
  destruct (scan_int_again s1 i r1 Ei "" I) as [_ (ci & i' & Hi & Hci)]. split.
  - intros rest Hr. destruct (scan_exp_again r2 e r3 Ee rest Hr) as (He & Hed & Hep).
    destruct (scan_frac_again r1 f r2 Ef (e +:+ rest) Hed Hep) as [Hf Hfd].
    destruct (scan_int_again s1 i r1 Ei (f +:+ e +:+ rest) Hfd) as [Hint _].
    rewrite scan_number_unfold.
    assert (strip_sign ((sign +:+ i +:+ f +:+ e) +:+ rest) = (sign, i +:+ f +:+ e +:+ rest)) as ->.
    { rewrite !append_assoc. destruct Hs as [-> | ->]; [|done]. subst i. cbn [append].
      apply strip_sign_other. intros ->. discriminate. }
    cbv iota beta. rewrite Hint. cbn [snd fst]. rewrite Hf. cbn [snd fst]. rewrite He. done.
  - subst i. destruct Hs as [-> | ->]; cbn; [|by eauto]. exists ci, (i' +:+ f +:+ e). auto.
Qed.

(** ** Values *)

Section json_induction.
Context (P : json -> Prop).
Context (Hnull : P JNull) (Hbool : forall b, P (JBool b)) (Hnum : forall l, P (JNumber l)).
Context (Hstr : forall r, P (JString r)) (Harr : forall l, Forall P l -> P (JArray l)).
Context (Hobj : forall ms, Forall (fun kv => P (snd kv)) ms -> P (JObject ms)).

Fixpoint json_nested_ind (j : json) : P j :=
  match j with
  | JNull => Hnull
  | JBool b => Hbool b
  | JNumber l => Hnum l
  | JString r => Hstr r
  | JArray l => Harr l ((fix go l : Forall P l :=
      match l with
      | [] => Forall_nil_2 _
      | x :: l => Forall_cons_2 _ _ _ (json_nested_ind x) (go l)
      end) l)
  | JObject ms => Hobj ms ((fix go ms : Forall (fun kv => P (snd kv)) ms :=
      match ms with
      | [] => Forall_nil_2 _
      | kv :: ms => Forall_cons_2 _ _ _ (json_nested_ind (snd kv)) (go ms)
      end) ms)
  end.
End json_induction.

(** Text the parser accepts as it is, at every leaf. *)
Fixpoint json_wf (j : json) : Prop :=
  match j with
  | JNumber lit => number_lit lit
  | JString raw => literal raw
  | JArray l => foldr (fun x P => json_wf x /\ P) True l
  | JObject ms => foldr (fun kv P => (literal (fst kv) /\ json_wf (snd kv)) /\ P) True ms
  | _ => True
  end.

Definition list_max_nat (l : list nat) : nat := foldr Nat.max O l.

Fixpoint jdepth (j : json) : nat :=
  match j with
  | JArray l => S (list_max_nat (map jdepth l))
  | JObject ms => S (list_max_nat (map (fun kv => jdepth (snd kv)) ms))
  | _ => O
  end.

(** The fuel the parser spends on a value. *)
Definition seq_fuel (l : list nat) : nat := foldr (fun n m => S (Nat.max n m)) O l.

Fixpoint jfuel (j : json) : nat :=
  match j with
  | JArray l => S (seq_fuel (map jfuel l))
  | JObject ms => S (seq_fuel (map (fun kv => jfuel (snd kv)) ms))
  | _ => 1
  end.

(** Compact text. *)
Fixpoint render (j : json) : string :=
  match j with
  | JNull => "null"
  | JBool b => enc_bool b
  | JNumber lit => lit
  | JString raw => quoted raw
  | JArray l => enc_array (map render l)
  | JObject ms => "{" +:+ commas (map (fun kv => quoted (fst kv) +:+ ":" +:+ render (snd kv)) ms) +:+ "}"
  end.

Definition render_member (kv : string * json) : string := quoted (fst kv) +:+ ":" +:+ render (snd kv).

Lemma commas_cons x y l : commas (x :: y :: l) = x +:+ "," +:+ commas (y :: l).
Proof. done. Qed.

Lemma commas_length_seq_fuel (l : list (string * nat)) :
  Forall (fun p => (snd p <= String.length (fst p))%nat) l ->
  (seq_fuel (map snd l) <= String.length (commas (map fst l)) + 1)%nat.
Proof.
  induction 1 as [|[x n] l Hx HF IH]; [simpl; lia|]. destruct l as [|[y m] l].
  - simpl in *. lia.
  - cbn [map]. rewrite commas_cons, !str_len_app. cbn [map] in IH. simpl in *. lia.
Qed.

Lemma jfuel_render j : json_wf j -> (jfuel j <= String.length (render j))%nat.
Proof.
  induction j as [|b|l|r|l IH|ms IH] using json_nested_ind; cbn [json_wf jfuel render]; intros Hw.
  - simpl; lia.
  - destruct b; simpl; lia.
  - destruct Hw as [_ (c & l' & -> & _)]. simpl. lia.
  - unfold quoted. simpl. lia.
  - unfold enc_array. rewrite !str_len_app.
    pose proof (commas_length_seq_fuel (map (fun x => (render x, jfuel x)) l)) as H.
    rewrite !map_map in H. cbn in H. simpl. apply le_n_S. rewrite Nat.add_comm.
    rewrite Nat.add_comm. apply H.
    clear H. induction IH as [|x l Hx HF IH2]; simpl in *; [done|]. destruct Hw. constructor; auto.
  - rewrite !str_len_app.
    pose proof (commas_length_seq_fuel (map (fun kv => (render_member kv, jfuel (snd kv))) ms)) as H.
    rewrite !map_map in H. cbn in H. simpl. apply le_n_S. apply H.
    clear H. induction IH as [|x l Hx HF IH2]; simpl in *; [done|]. destruct Hw as [[? ?] ?].
    constructor; [|auto]. cbn. unfold render_member. rewrite !str_len_app. specialize (Hx ltac:(done)). simpl. lia.
Qed.

Lemma skip_space_char c s : is_space c = false -> skip_space (String c s) = String c s.
Proof. cbn. by intros ->. Qed.

(** ** Reading back what was written *)

Definition reads (j : json) : Prop :=
  forall fuel depth rest, (jfuel j <= fuel)%nat -> (jdepth j <= depth)%nat -> stops rest ->
  parse_value fuel depth (render j +:+ rest) = Some (j, rest).

Lemma stops_char c s :
  is_digit c = false -> is_dot c = false -> is_exp_char c = false -> stops (String c s).
Proof. done. Qed.

Lemma parse_number_char fuel depth c l rest p :
  (is_digit c = true \/ c = "-"%char) -> scan_number (String c l +:+ rest) = Some p ->
  parse_value (S fuel) depth (String c l +:+ rest) = Some (JNumber (fst p), snd p).
Proof.
  intros Hc H. cbn [append] in *. cbn [parse_value].
  assert (is_space c = false /\ (c == quote_char) = false /\ (c == "{"%char) = false /\
          (c == "["%char) = false /\ (c == "n"%char) = false /\ (c == "t"%char) = false /\
          (c == "f"%char) = false) as (E0 & E1 & E2 & E3 & E4 & E5 & E6).
  { destruct Hc as [Hc| ->]; [|done].
    destruct c as [[] [] [] [] [] [] [] []]; try discriminate Hc; done. }
  rewrite skip_space_char by done. cbv iota beta. rewrite E1, E2, E3, E4, E5, E6, H. done.
Qed.

Lemma parse_string_char fuel depth raw rest :
  literal raw -> parse_value (S fuel) depth (quoted raw +:+ rest) = Some (JString raw, rest).
Proof.
  intros H%literal_lexed. unfold quoted. cbn [append]. cbn [parse_value].
  rewrite skip_space_char by done. cbv iota beta. rewrite bool_decide_refl, append_assoc.
  cbn [append str1]. by rewrite H.
Qed.

(** The first character of a rendered value starts no white space and closes nothing. *)
Lemma render_head j :
  json_wf j -> exists c s, render j = String c s /\ is_space c = false /\ c <> "]"%char.
Proof.
  destruct j as [|b|l|r|l|ms]; cbn [json_wf render]; intros Hw.
  - by exists "n"%char, "ull".
  - destruct b; [by exists "t"%char, "rue" | by exists "f"%char, "alse"].
  - destruct Hw as [_ (c & s & -> & Hc)]. exists c, s. split; [done|].
    destruct Hc as [Hc| ->]; [|done].
    destruct c as [[] [] [] [] [] [] [] []]; try discriminate Hc; done.
  - unfold quoted. by eexists _, _.
  - unfold enc_array. by eexists _, _.
  - by eexists _, _.
Qed.

Lemma not_bracket {A} (f : string -> A) (k : A) c s :
  c <> "]"%char -> match String c s with String "]" r => f r | _ => k end = k.
Proof. intros H. destruct c as [[] [] [] [] [] [] [] []]; try done. Qed.

Lemma reads_elems l : Forall reads l -> Forall json_wf l -> l <> [] ->
  forall fuel depth rest, (seq_fuel (map jfuel l) <= fuel)%nat ->
  (list_max_nat (map jdepth l) <= depth)%nat ->
  parse_elems fuel depth (commas (map render l) +:+ String "]" rest) = Some (l, rest).
Proof.
  induction 1 as [|x l Hx HF IH]; [done|]. intros Hw _ fuel depth rest Hf Hd.
  inversion Hw as [|? ? Hwx Hwl]; subst. simpl in Hf, Hd. destruct fuel as [|fuel]; [lia|].
  cbn [parse_elems]. destruct l as [|y l].
  - cbn [map commas]. rewrite Hx by (simpl in *; try lia; done). done.
  - cbn [map]. rewrite commas_cons, !append_assoc. cbn [append].
    rewrite Hx by (simpl in *; try lia; done). cbn [snd fst].
    rewrite skip_space_char by done. cbv iota beta.
    change (render y :: map render l) with (map render (y :: l)).
    rewrite IH; [done|done|done|simpl in *; lia|simpl in *; lia].
Qed.

Lemma reads_members ms :
  Forall (fun kv => reads (snd kv)) ms -> Forall (fun kv => literal (fst kv)) ms -> ms <> [] ->
  forall fuel depth rest, (seq_fuel (map (fun kv => jfuel (snd kv)) ms) <= fuel)%nat ->
  (list_max_nat (map (fun kv => jdepth (snd kv)) ms) <= depth)%nat ->
  parse_members fuel depth (commas (map render_member ms) +:+ String "}" rest) = Some (ms, rest).
Proof.
  induction 1 as [|[k x] ms Hx HF IH]; [done|]. intros Hw _ fuel depth rest Hf Hd.
  inversion Hw as [|? ? Hk Hwl]; subst. simpl in Hf, Hd, Hx, Hk. apply literal_lexed in Hk. destruct fuel as [|fuel]; [lia|].
  assert (forall tail, stops tail -> parse_members (S fuel) depth (render_member (k, x) +:+ tail) =
    match skip_space tail with
    | String "}" r2 => Some ([(k, x)], r2)
    | String "," r2 => try q <- parse_members fuel depth r2 ;; Some ((k, x) :: fst q, snd q)
    | _ => None
    end) as Hone.
  { intros tail Ht. unfold render_member, quoted. cbn [fst snd append].
    rewrite !append_assoc. cbn [append str1]. cbn [parse_members].
    rewrite skip_space_char by done. cbv iota beta. rewrite bool_decide_refl. cbn [negb].
    rewrite Hk. cbn [fst snd]. rewrite skip_space_char by done. cbv iota beta.
    rewrite Hx by (try lia; done). done. }
  destruct ms as [|y ms].
  - cbn [map commas]. rewrite Hone by done. done.
  - cbn [map]. rewrite commas_cons, !append_assoc. cbn [append]. rewrite Hone by done.
    rewrite skip_space_char by done. cbv iota beta.
    change (render_member y :: map render_member ms) with (map render_member (y :: ms)).
    rewrite IH; [done|done|done|simpl in *; lia|simpl in *; lia].
Qed.

Lemma json_wf_array l : json_wf (JArray l) <-> Forall json_wf l.
Proof.
  cbn. induction l as [|x l IH]; cbn; [split; [constructor|done]|].
  rewrite IH, Forall_cons. done.
Qed.

Lemma json_wf_object ms :
  json_wf (JObject ms) <-> Forall (fun kv => literal (fst kv) /\ json_wf (snd kv)) ms.
Proof.
  cbn. induction ms as [|x l IH]; cbn; [split; [constructor|done]|].
  rewrite IH, Forall_cons. done.
Qed.

Lemma reads_wf j : json_wf j -> reads j.
Proof.
  induction j as [|b|l|r|l IH|ms IH] using json_nested_ind; intros Hw fuel depth rest Hf Hd Hr;
    (destruct fuel as [|fuel]; [cbn in Hf; lia|]).
  - reflexivity.
  - destruct b; reflexivity.
  - destruct Hw as [Hn (c & s & -> & Hc)]. cbn [render].
    by rewrite (parse_number_char fuel depth c s rest _ Hc (Hn rest Hr)).
  - cbn [render]. by apply parse_string_char.
  - rewrite json_wf_array in Hw. cbn [render]. unfold enc_array. rewrite !append_assoc. cbn [append].
    cbn [jdepth jfuel] in *. cbn [parse_value]. rewrite skip_space_char by done. cbv iota beta.
    eval_tests. cbv iota. destruct depth as [|depth]; [lia|]. destruct l as [|x l]; [done|].
    assert (json_wf x) as Hwx by by inversion Hw.
    destruct (render_head x Hwx) as (c & s & Ex & Hs & Hc).
    assert (exists s', commas (map render (x :: l)) +:+ String "]" rest = String c s') as [s' Es].
    { cbn [map]. destruct (map render l) as [|y l']; [|rewrite commas_cons, append_assoc];
        cbn [commas]; rewrite Ex; cbn [append]; eauto. }
    rewrite Es, skip_space_char by done.
    etrans; [exact (not_bracket (fun r' => Some (JArray [], r'))
      (try p <- parse_elems fuel depth (String c s') ;; Some (JArray (fst p), snd p)) c s' Hc)|].
    rewrite <- Es.
    rewrite reads_elems; [done| |done|done|lia|lia].
    rewrite Forall_forall in *. auto.
  - rewrite json_wf_object in Hw. cbn [render].
    change (map (fun kv => quoted (fst kv) +:+ ":" +:+ render (snd kv)) ms) with (map render_member ms).
    rewrite !append_assoc. cbn [append].
    cbn [jdepth jfuel] in *. cbn [parse_value]. rewrite skip_space_char by done. cbv iota beta.
    eval_tests. cbv iota. destruct depth as [|depth]; [lia|]. destruct ms as [|x ms]; [done|].
    assert (exists s', commas (map render_member (x :: ms)) +:+ String "}" rest = String quote_char s') as [s' Es].
    { cbn [map]. destruct (map render_member ms) as [|y l']; [|rewrite commas_cons, append_assoc];
        cbn [commas]; unfold render_member at 1, quoted; cbn [append]; eauto. }
    rewrite Es, skip_space_char by done.
    change ((try p <- parse_members fuel depth (String quote_char s') ;; Some (JObject (fst p), snd p)) =
            Some (JObject (x :: ms), rest)).
    rewrite <- Es, reads_members; [done| | |done|lia|lia].
    + rewrite Forall_forall in *. intros kv Hkv. apply IH; [done|]. by apply Hw.
    + eapply Forall_impl; [exact Hw|]. by intros kv [? _].
Qed.

(** ** What the parser produces *)

Lemma match_char {A} (a : ascii) (f : string -> A) (k : A) (m : string -> A) s :
  (forall c r, m (String c r) = if decide (c = a) then f r else k) -> m "" = k ->
  (exists r, s = String a r /\ m s = f r) \/ m s = k.
Proof.
  intros H1 H2. destruct s as [|c r]; [by right|]. rewrite H1. destruct (decide (c = a)) as [->|]; [left|by right].
  eauto.
Qed.

Ltac by_chars := let c := fresh in intros c ?; destruct c as [[] [] [] [] [] [] [] []]; reflexivity.

Definition parsed_value (depth : nat) (j : json) : Prop := json_wf j /\ (jdepth j <= depth)%nat.

Lemma parsed_elems depth l :
  Forall (parsed_value depth) l -> parsed_value (S depth) (JArray l).
Proof.
  intros H. split.
  - apply json_wf_array. eapply Forall_impl; [exact H|]. by intros ? [].
  - cbn. apply le_n_S. induction H as [|x l [_ Hx] _ IH]; simpl; lia.
Qed.

Lemma parsed_members depth ms :
  Forall (fun kv => literal (fst kv) /\ parsed_value depth (snd kv)) ms ->
  parsed_value (S depth) (JObject ms).
Proof.
  intros H. split.
  - apply json_wf_object. eapply Forall_impl; [exact H|]. by intros ? [? []].
  - cbn. apply le_n_S. induction H as [|x l [_ [_ Hx]] _ IH]; simpl; lia.
Qed.

Lemma parsed_leaf depth j : json_wf j -> jdepth j = O -> parsed_value depth j.
Proof. intros H E. split; [done|]. lia. Qed.

Definition value_ok (fuel : nat) : Prop :=
  forall depth s j r, parse_value fuel depth s = Some (j, r) -> parsed_value depth j.
Definition members_ok (fuel : nat) : Prop :=
  forall depth s ms r, parse_members fuel depth s = Some (ms, r) ->
  Forall (fun kv => literal (fst kv) /\ parsed_value depth (snd kv)) ms.
Definition elems_ok (fuel : nat) : Prop :=
  forall depth s l r, parse_elems fuel depth s = Some (l, r) -> Forall (parsed_value depth) l.

Lemma value_ok_S fuel : members_ok fuel -> elems_ok fuel -> value_ok (S fuel).
Proof.
  intros Hm He depth s j r. cbn [parse_value].
  destruct (skip_space s) as [|c r0]; [discriminate|].
  destruct (c == quote_char).
  { destruct (scan_string r0) as [[raw r1]|] eqn:E; [|discriminate]. intros [= <- <-].
    apply parsed_leaf; [|done]. by eapply scan_string_literal. }
  destruct (c == "{"%char).
  { destruct depth as [|depth]; [discriminate|].
    set (k := try p <- parse_members fuel depth r0 ;; Some (JObject (fst p), snd p)).
    destruct (match_char "}" (fun r' => Some (JObject [], r')) k
      (fun t => match t with String "}" r' => Some (JObject [], r') | _ => k end)
      (skip_space r0) ltac:(by_chars) eq_refl) as [(r' & -> & _)| ->].
    - intros [= <- <-]. by apply parsed_members.
    - subst k. destruct (parse_members fuel depth r0) as [[ms r1]|] eqn:E; [|discriminate].
      intros [= <- <-]. eapply parsed_members, Hm, E. }
  destruct (c == "["%char).
  { destruct depth as [|depth]; [discriminate|].
    set (k := try p <- parse_elems fuel depth r0 ;; Some (JArray (fst p), snd p)).
    destruct (match_char "]" (fun r' => Some (JArray [], r')) k
      (fun t => match t with String "]" r' => Some (JArray [], r') | _ => k end)
      (skip_space r0) ltac:(by_chars) eq_refl) as [(r' & -> & _)| ->].
    - intros [= <- <-]. by apply parsed_elems.
    - subst k. destruct (parse_elems fuel depth r0) as [[ms r1]|] eqn:E; [|discriminate].
      intros [= <- <-]. eapply parsed_elems, He, E. }
  unfold scan_word. repeat (case_match; [|try discriminate]); intros H'; simplify_eq; try by apply parsed_leaf.
  match goal with H : scan_number _ = Some ?p |- _ => destruct p as [lit r1]; cbn in *; simplify_eq end.
  apply parsed_leaf; [|done]. by eapply scan_number_lit.
Qed.

(** A separator or the closing character, after an element. *)
Lemma separator {A} (close : ascii) (f g : string -> option A) (m : string -> option A) s x :
  close <> ","%char ->
  (forall c r, m (String c r) = if decide (c = close) then f r else if decide (c = ","%char) then g r else None) ->
  m "" = None -> m s = Some x -> exists r, f r = Some x \/ g r = Some x.
Proof.
  intros Hc H1 H2 H. destruct s as [|c r]; [congruence|]. rewrite H1 in H. exists r.
  repeat case_decide; [by left | by right | done].
Qed.

Lemma elems_ok_S fuel : value_ok fuel -> elems_ok fuel -> elems_ok (S fuel).
Proof.
  intros Hv He depth s l r. cbn [parse_elems].
  destruct (parse_value fuel depth s) as [[v r1]|] eqn:Ev; [|discriminate]. cbn [fst snd]. intros H.
  apply Hv in Ev.
  destruct (separator "]" (fun r2 => Some ([v], r2))
    (fun r2 => try es <- parse_elems fuel depth r2 ;; Some (v :: fst es, snd es)) (fun t =>
      match t with
      | String "]" r2 => Some ([v], r2)
      | String "," r2 => try es <- parse_elems fuel depth r2 ;; Some (v :: fst es, snd es)
      | _ => None
      end) (skip_space r1) (l, r) ltac:(done) ltac:(by_chars) eq_refl H) as (r2 & [E|E]).
  - injection E as <- <-. by constructor.
  - destruct (parse_elems fuel depth r2) as [[l' r3]|] eqn:El; [|discriminate].
    injection E as <- <-. constructor; [done|]. eapply He, El.
Qed.

Lemma members_ok_S fuel : value_ok fuel -> members_ok fuel -> members_ok (S fuel).
Proof.
  intros Hv Hm depth s l r. cbn [parse_members].
  destruct (skip_space s) as [|c r0]; [discriminate|]. destruct (c != quote_char); [discriminate|].
  destruct (scan_string r0) as [[k r1]|] eqn:Ek; [|discriminate]. cbn [fst snd].
  apply scan_string_literal in Ek.
  set (body := fun r2 => try v <- parse_value fuel depth r2 ;;
    match skip_space (snd v) with
    | String "}" r3 => Some ([(k, fst v)], r3)
    | String "," r3 => try ms <- parse_members fuel depth r3 ;; Some ((k, fst v) :: fst ms, snd ms)
    | _ => None
    end).
  destruct (match_char ":" body None (fun t => match t with String ":" r2 => body r2 | _ => None end)
    (skip_space r1) ltac:(by_chars) eq_refl) as [(r2 & E0 & _)|E0]; [|intros H; exfalso].
  2: { change ((match skip_space r1 with String ":" r2 => body r2 | _ => None end) = Some (l, r)) in H.
       rewrite E0 in H. discriminate. }
  rewrite E0. unfold body. cbv beta iota.
  destruct (parse_value fuel depth r2) as [[v r3]|] eqn:Ev; [|discriminate]. cbn [fst snd]. intros H.
  apply Hv in Ev.
  destruct (separator "}" (fun r2 => Some ([(k, v)], r2))
    (fun r2 => try ms <- parse_members fuel depth r2 ;; Some ((k, v) :: fst ms, snd ms)) (fun t =>
      match t with
      | String "}" r2 => Some ([(k, v)], r2)
      | String "," r2 => try ms <- parse_members fuel depth r2 ;; Some ((k, v) :: fst ms, snd ms)
      | _ => None
      end) (skip_space r3) (l, r) ltac:(done) ltac:(by_chars) eq_refl H) as (r4 & [E|E]).
  - injection E as <- <-. constructor; [done|constructor].
  - destruct (parse_members fuel depth r4) as [[l' r5]|] eqn:El; [|discriminate].
    injection E as <- <-. constructor; [done|]. eapply Hm, El.
Qed.

Lemma parse_ok fuel : value_ok fuel /\ members_ok fuel /\ elems_ok fuel.
Proof.
  induction fuel as [|fuel (Hv & Hm & He)].
  - split_and!; intros ? ? ? ?; discriminate.
  - split_and!; [by apply value_ok_S | by apply members_ok_S | by apply elems_ok_S].
Qed.

(** Printing a value as compact text and parsing it back. *)
Lemma render_parse j :
  json_wf j -> (jdepth j <= max_depth)%nat -> json_parse (render j) = Some j.
Proof.
  intros Hw Hd. unfold json_parse, json_decode. rewrite <- (str_app_nil (render j)) at 2.
  rewrite (reads_wf j Hw); [done| |done|done]. pose proof (jfuel_render j Hw). lia.
Qed.

Lemma json_decode_ok s j r :
  json_decode s = Some (j, r) -> json_wf j /\ (jdepth j <= max_depth)%nat.
Proof. intros H. unfold json_decode in H. by apply parse_ok in H. Qed.

(** ** UTF-8 *)

(** One multi-byte sequence. *)
Definition utf8_seq (p : string) : Prop :=
  (2 <= String.length p)%nat /\ utf8_len p = String.length p /\
  match p with String c _ => (byte_of c <? 128) = false | EmptyString => False end.

Inductive utf8 : string -> Prop :=
| utf8_nil : utf8 ""
| utf8_ascii c s : (byte_of c <? 128) = true -> utf8 s -> utf8 (String c s)
| utf8_multi p s : utf8_seq p -> utf8 s -> utf8 (p +:+ s).

Lemma utf8_app a b : utf8 a -> utf8 b -> utf8 (a +:+ b).
Proof.
  intros Ha Hb. induction Ha as [|c s Hc Hs IH|p s Hp Hs IH]; cbn; [done| |].
  - by constructor.
  - rewrite append_assoc. by constructor.
Qed.

(** The scanner of sequences looks at most at four bytes. *)
Lemma utf8_len_take s n :
  utf8_len s = S n ->
  utf8_len (str_take (S n) s) = S n /\ String.length (str_take (S n) s) = S n /\ (1 <= n)%nat /\
  s = str_take (S n) s +:+ drop (S n) s.
Proof.
  intros H. unfold utf8_len in H. cbv zeta beta in H.
  destruct s as [|a [|b r2]]; try discriminate.
  destruct ((194 <=? byte_of a) && (byte_of a <=? 223)) eqn:E1.
  { destruct (_ && _) eqn:E2 in H; [|discriminate]. injection H as <-.
    split_and!; [cbn [str_take]; unfold utf8_len; cbv zeta beta; by rewrite E1, E2 | done | lia | done]. }
  destruct r2 as [|c r3]; [discriminate|].
  destruct ((224 <=? byte_of a) && (byte_of a <=? 239)) eqn:E3.
  { destruct (_ && _) eqn:E4 in H; [|discriminate]. injection H as <-.
    split_and!; [cbn [str_take]; unfold utf8_len; cbv zeta beta; by rewrite E1, E3, E4 | done | lia | done]. }
  destruct ((240 <=? byte_of a) && (byte_of a <=? 244)) eqn:E5; [|discriminate].
  destruct r3 as [|d r4]; [discriminate|].
  destruct (_ && _) eqn:E6 in H; [|discriminate]. injection H as <-.
  split_and!; [cbn [str_take]; unfold utf8_len; cbv zeta beta; by rewrite E1, E3, E5, E6 | done | lia | done].
Qed.

Lemma utf8_len_app p t : utf8_seq p -> utf8_len (p +:+ t) = String.length p.
Proof.
  intros (H1 & H2 & _). revert H2.
  destruct p as [|a [|b [|c [|d p]]]]; cbn [String.length append] in *; try lia; unfold utf8_len; cbv zeta beta.
  - destruct (_ && _); [done|discriminate].
  - destruct (_ && _); [destruct (_ && _); discriminate|]. destruct (_ && _); [done|].
    destruct (_ && _); discriminate.
  - destruct (_ && _); [destruct (_ && _); discriminate|].
    destruct (_ && _); [destruct (_ && _); discriminate|]. destruct (_ && _); [|discriminate].
    by intros ->.
Qed.

Lemma utf8_len_multi c s n :
  (byte_of c <? 128) = false -> utf8_len (String c s) = S n ->
  utf8_seq (str_take (S n) (String c s)) /\
  String c s = str_take (S n) (String c s) +:+ drop (S n) (String c s).
Proof.
  intros Hc H. apply utf8_len_take in H as (H1 & H2 & H3 & H4). split; [|done].
  split_and!; [lia|congruence|done].
Qed.

Lemma byte_of_chr z : 0 <= z < 256 -> byte_of (chr z) = z.
Proof.
  intros H. unfold byte_of, chr. rewrite N_ascii_embedding; [|lia]. rewrite Z2N.id; lia.
Qed.

Lemma byte_of_range c : 0 <= byte_of c < 256.
Proof. unfold byte_of. pose proof (N_ascii_bounded c). lia. Qed.

Ltac div_lia := Z.to_euclidean_division_equations; lia.

Ltac decide_ranges :=
  repeat match goal with
         | |- context [byte_of (chr ?z)] => rewrite (byte_of_chr z) by div_lia
         | |- context [?a <=? ?b] =>
           first [ rewrite (proj2 (Z.leb_le a b)) by div_lia
                 | rewrite (proj2 (Z.leb_gt a b)) by div_lia ]
         | |- context [?a =? ?b] => destruct (Z.eqb_spec a b)
         | |- context [?a <? ?b] =>
           first [ rewrite (proj2 (Z.ltb_lt a b)) by div_lia
                 | rewrite (proj2 (Z.ltb_ge a b)) by div_lia ]
         | _ => progress cbn [andb orb negb]
         end.

(** Valid code points are encoded as valid UTF-8. *)
Lemma utf8_encode_ok r :
  0 <= r < 1114112 -> is_surrogate r = false -> utf8 (bytes_str (utf8_encode r)).
Proof.
  intros Hr Hs. unfold is_surrogate in Hs. unfold utf8_encode.
  destruct (Z.ltb_spec r 128).
  { cbn. apply utf8_ascii; [decide_ranges; done | constructor]. }
  destruct (Z.ltb_spec r 2048).
  { rewrite <- (str_app_nil (bytes_str _)). apply utf8_multi; [|constructor].
    split_and!; cbn [bytes_str foldr String.length]; [lia| |decide_ranges; done].
    unfold utf8_len. cbv zeta beta. decide_ranges. done. }
  destruct (Z.ltb_spec r 65536).
  { rewrite <- (str_app_nil (bytes_str _)). apply utf8_multi; [|constructor].
    split_and!; cbn [bytes_str foldr String.length]; [lia| |decide_ranges; done].
    assert (r < 55296 \/ 57343 < r) as Hns.
    { apply andb_false_iff in Hs as [Hs|Hs]; apply Z.leb_gt in Hs; lia. }
    unfold utf8_len. cbv zeta beta. destruct Hns; decide_ranges; done. }
  rewrite <- (str_app_nil (bytes_str _)). apply utf8_multi; [|constructor].
  split_and!; cbn [bytes_str foldr String.length]; [lia| |decide_ranges; done].
  unfold utf8_len. cbv zeta beta. decide_ranges; done.
Qed.

Lemma hex_val_range c : is_hex_digit c = true -> 0 <= hex_val c < 16.
Proof.
  intros H. destruct c as [[] [] [] [] [] [] [] []]; try discriminate H; vm_compute; split; congruence.
Qed.

Lemma replacement_utf8 : utf8 (bytes_str (utf8_encode replacement)).
Proof. apply utf8_encode_ok; vm_compute; [split; congruence|done]. Qed.

Lemma is_escape_cases e :
  is_escape e = true -> e = quote_char \/ e = backslash \/ e = "/"%char \/ e = "b"%char \/
  e = "f"%char \/ e = "n"%char \/ e = "r"%char \/ e = "t"%char.
Proof. unfold is_escape. rewrite !orb_true_iff, !bool_decide_eq_true. tauto. Qed.

Lemma utf8_seq_high p :
  utf8_seq p -> Forall (fun c => (byte_of c <? 128) = false) (list_ascii_of_string p).
Proof.
  intros (H1 & H2 & H3). unfold utf8_len in H2. cbv zeta beta in H2.
  assert (forall lo hi c, (lo <=? byte_of c) && (byte_of c <=? hi) = true -> 128 <= lo ->
    (byte_of c <? 128) = false) as Hlo.
  { intros lo hi c [Hl _]%andb_true_iff Hb. apply Z.leb_le in Hl. apply Z.ltb_ge. lia. }
  destruct p as [|a [|b [|c [|d [|x p]]]]]; cbn [String.length] in *; try lia.
  - destruct (_ && _); [|discriminate]. destruct (_ && _) eqn:E; [|discriminate].
    repeat constructor; eauto using Z.le_refl.
  - destruct (_ && _); [by destruct (_ && _)|]. destruct (_ && _); [|by destruct (_ && _)].
    destruct (_ && _) eqn:E; [|discriminate]. apply andb_true_iff in E as [E1 E2].
    repeat constructor; [done | eapply Hlo; [exact E1|] | eapply Hlo; [exact E2|]; lia].
    repeat case_match; lia.
  - destruct (_ && _); [by destruct (_ && _)|]. destruct (_ && _); [by destruct (_ && _)|].
    destruct (_ && _); [|discriminate].
    destruct (_ && _) eqn:E; [|discriminate]. apply andb_true_iff in E as [E E3].
    apply andb_true_iff in E as [E1 E2].
    repeat constructor; [done | eapply Hlo; [exact E1|] | eapply Hlo; [exact E2|]; lia | eapply Hlo; [exact E3|]; lia].
    repeat case_match; lia.
  - repeat (destruct (_ && _); try discriminate).
Qed.

Lemma utf8_seq_plain p : utf8_seq p -> forallb plain_char (list_ascii_of_string p) = true.
Proof.
  intros Hp%utf8_seq_high. apply forallb_True_iff. eapply Forall_impl; [exact Hp|].
  intros c Hc. apply Z.ltb_ge in Hc. unfold plain_char.
  rewrite !andb_true_iff, !negb_true_iff, !bool_decide_eq_false.
  split_and!; [intros ->; vm_compute in Hc; by apply Hc | intros ->; vm_compute in Hc; by apply Hc |].
  apply Z.ltb_ge. lia.
Qed.

Lemma literal_drop_seq p s : utf8_seq p -> literal (p +:+ s) -> literal s.
Proof.
  intros Hp%utf8_seq_plain H. induction p as [|c p IH]; cbn in *; [done|].
  apply andb_true_iff in Hp as [Hc Hp]. apply IH; [done|]. by eapply literal_tail.
Qed.

Lemma hex4_range a b c d :
  is_hex_digit a && is_hex_digit b && is_hex_digit c && is_hex_digit d = true ->
  0 <= hex4 a b c d < 65536.
Proof.
  rewrite !andb_true_iff. intros [[[Ha Hb] Hc] Hd].
  apply hex_val_range in Ha, Hb, Hc, Hd. unfold hex4. lia.
Qed.

(** One step of [unquote_aux] per kind of character. *)
Section unquote_steps.
Context (fuel : nat).

Lemma unquote_ascii c s :
  c <> backslash -> (byte_of c <? 128) = true ->
  unquote_aux (S fuel) (String c s) = String c (unquote_aux fuel s).
Proof. intros Hc Hb. cbn [unquote_aux]. by rewrite bool_decide_eq_false_2, Hb. Qed.

Lemma unquote_multi p s :
  utf8_seq p -> unquote_aux (S fuel) (p +:+ s) = p +:+ unquote_aux fuel s.
Proof.
  intros Hp. pose proof (utf8_len_app p s Hp) as Hl. pose proof Hp as (H1 & _ & H3).
  destruct p as [|c p]; [done|]. cbn [append unquote_aux].
  rewrite bool_decide_eq_false_2 by (intros ->; discriminate H3). rewrite H3.
  change (String c (p +:+ s)) with (String c p +:+ s). rewrite Hl. cbn [String.length].
  assert (forall a b, str_take (String.length a) (a +:+ b) = a) as Ht.
  { induction a as [|x a IH]; intros b; cbn; [by destruct b|]. by rewrite IH. }
  change (S (String.length p)) with (String.length (String c p)).
  by rewrite Ht, drop_app.
Qed.

Lemma unquote_escape e s :
  is_escape e = true ->
  exists d, (byte_of d <? 128) = true /\
    unquote_aux (S fuel) (String backslash (String e s)) = String d (unquote_aux fuel s).
Proof.
  intros He. apply is_escape_cases in He.
  destruct He as [->|[->|[->|[->|[->|[->|[->| ->]]]]]]]; eexists; (split; [|reflexivity]); done.
Qed.
End unquote_steps.

Lemma utf8_unquote_aux fuel s :
  literal s -> (String.length s < fuel)%nat -> utf8 (unquote_aux fuel s).
Proof.
  revert s. induction fuel as [|fuel IH]; intros s Hs Hf; [constructor|].
  destruct Hs as [|c raw Hc Hr|e raw He Hr|h1 h2 h3 h4 raw Hh Hr].
  - constructor.
  - destruct (byte_of c <? 128) eqn:Hb.
    + rewrite unquote_ascii; [|intros ->; discriminate Hc|done].
      constructor; [done|]. apply IH; [done|]. simpl in Hf. lia.
    + destruct (utf8_len (String c raw)) as [|n] eqn:El.
      * cbn [unquote_aux]. rewrite bool_decide_eq_false_2 by (intros ->; discriminate Hc).
        rewrite Hb, El. apply utf8_app; [apply replacement_utf8|]. apply IH; [done|]. simpl in Hf. lia.
      * apply utf8_len_multi in El as [Hp E]; [|done]. rewrite E, unquote_multi by done.
        constructor; [done|]. rewrite E in Hf. rewrite str_len_app in Hf. destruct Hp as (Hp1 & Hp2 & Hp3).
        apply IH; [|lia]. apply (literal_drop_seq (str_take (S n) (String c raw))); [done|].
        rewrite <- E. by constructor.
  - destruct (unquote_escape fuel e raw He) as (d & Hd & ->). constructor; [done|].
    apply IH; [done|]. simpl in Hf. lia.
  - cbn [unquote_aux]. eval_tests. cbv iota beta zeta. simpl in Hf.
    pose proof (hex4_range _ _ _ _ Hh) as Hx.
    assert (utf8 (bytes_str (utf8_encode replacement) +:+ unquote_aux fuel raw)) as Hrep.
    { apply utf8_app; [apply replacement_utf8|]. apply IH; [done|lia]. }
    destruct (is_surrogate (hex4 h1 h2 h3 h4)) eqn:Es.
    2: { apply utf8_app; [apply utf8_encode_ok; [lia|done]|]. apply IH; [done|lia]. }
    destruct raw as [|e [|u [|g1 [|g2 [|g3 [|g4 s5]]]]]]; try exact Hrep;
      try (destruct u as [[] [] [] [] [] [] [] []]; exact Hrep).
    destruct (decide (u = "u"%char)) as [->|Hu];
      [|destruct u as [[] [] [] [] [] [] [] []]; try exact Hrep; by destruct Hu].
    clear Hh. destruct (_ && _) eqn:Ec; [|exact Hrep].
    rewrite !andb_true_iff in Ec. destruct Ec as [[[[[[[Ee E1] E2] E3] G1] G2] G3] G4].
    apply bool_decide_eq_true in Ee as ->. apply Z.ltb_lt in E1. apply Z.leb_le in E2, E3.
    unfold is_surrogate in Es. apply andb_true_iff in Es as [Es1 Es2]. apply Z.leb_le in Es1, Es2.
    apply utf8_app.
    + apply utf8_encode_ok; [lia|]. unfold is_surrogate. apply andb_false_iff. right. apply Z.leb_gt. lia.
    + apply IH; [|simpl in Hf; lia]. inversion Hr; subst; [discriminate|discriminate|done].
Qed.

Lemma utf8_unquote raw : literal raw -> utf8 (unquote raw).
Proof. intros H. apply utf8_unquote_aux; [done|lia]. Qed.

(** ** Writing strings *)

(** [json.Encoder] with [SetEscapeHTML(false)]: the characters of HTML stay. *)
Definition enc_plain_ascii (c : ascii) : string :=
  let b := byte_of c in
  if (c == quote_char) || (c == backslash) then esc (str1 c)
  else if b =? 8 then esc "b" else if b =? 12 then esc "f" else if b =? 10 then esc "n"
  else if b =? 13 then esc "r" else if b =? 9 then esc "t"
  else if b <? 32 then esc ("u00" +:+ str1 (hex_char (b / 16)) +:+ str1 (hex_char (b mod 16)))
  else str1 c.

(** What both escapings have in common: how one ASCII character may be written. *)
Definition escaping (enc : ascii -> string) : Prop :=
  forall c, (byte_of c <? 128) = true ->
  enc c = str1 c /\ plain_char c = true \/
  (exists e, enc c = esc (str1 e) /\ is_escape e = true /\
     forall fuel s, unquote_aux (S fuel) (String backslash (String e s)) = String c (unquote_aux fuel s)) \/
  (exists h1 h2, enc c = esc (String "u" (String "0" (String "0" (String h1 (str1 h2))))) /\
     is_hex_digit h1 = true /\ is_hex_digit h2 = true /\ hex4 "0" "0" h1 h2 = byte_of c).

Ltac escaping_by_cases :=
  let c := fresh in let H := fresh in
  intros c H; destruct c as [[] [] [] [] [] [] [] []]; try discriminate H;
    first [ left; split; reflexivity
          | right; left; eexists; split_and!; [reflexivity|reflexivity|intros; reflexivity]
          | right; right; eexists _, _; split_and!; reflexivity ].

Lemma enc_plain_escaping : escaping enc_plain_ascii.
Proof. escaping_by_cases. Qed.

Lemma enc_html_escaping : escaping enc_ascii.
Proof. escaping_by_cases. Qed.

Section writing.
Context (enc : ascii -> string) (Henc : escaping enc).

Fixpoint enc_chars_with (fuel : nat) (s : string) : string :=
  match fuel with
  | O => ""
  | S fuel =>
    match s with
    | EmptyString => ""
    | String c s1 =>
      if byte_of c <? 128 then enc c +:+ enc_chars_with fuel s1
      else match utf8_len s with
           | O => esc "ufffd" +:+ enc_chars_with fuel s1
           | n =>
             match is_line_sep s with
             | Some d => esc ("u202" +:+ str1 (hex_char d)) +:+ enc_chars_with fuel (drop n s)
             | None => str_take n s +:+ enc_chars_with fuel (drop n s)
             end
           end
    end
  end.

Lemma byte_one c : (byte_of c <? 128) = true -> bytes_str (utf8_encode (byte_of c)) = str1 c.
Proof.
  intros H. unfold utf8_encode. rewrite H. cbn. unfold chr, byte_of.
  by rewrite N2Z.id, ascii_N_embedding.
Qed.

Lemma unquote_hex fuel h1 h2 h3 h4 s :
  is_surrogate (hex4 h1 h2 h3 h4) = false ->
  unquote_aux (S fuel) (String backslash (String "u" (String h1 (String h2 (String h3 (String h4 s)))))) =
  bytes_str (utf8_encode (hex4 h1 h2 h3 h4)) +:+ unquote_aux fuel s.
Proof. intros H. cbn [unquote_aux]. eval_tests. cbv iota beta zeta. by rewrite H. Qed.

Lemma length_le_app a b : (String.length b <= String.length (a +:+ b))%nat.
Proof. rewrite str_len_app. lia. Qed.

(** Line separators are the three bytes E2 80 A8 and E2 80 A9. *)
Lemma line_sep_cases p s d :
  utf8_seq p -> is_line_sep (p +:+ s) = Some d ->
  exists h, hex_char d = h /\ is_hex_digit h = true /\
    is_surrogate (hex4 "2" "0" "2" h) = false /\ bytes_str (utf8_encode (hex4 "2" "0" "2" h)) = p.
Proof.
  intros Hp H. pose proof Hp as (H1 & H2 & _).
  destruct p as [|a [|b p]]; cbn [String.length append] in *; try lia.
  destruct (p +:+ s) as [|c t] eqn:E; cbn [is_line_sep] in H; [discriminate|].
  destruct (_ && _) eqn:G; [|discriminate]. injection H as <-. rewrite !andb_true_iff, orb_true_iff in G.
  destruct G as [[Ga Gb] Gc]. apply Z.eqb_eq in Ga, Gb.
  assert (exists p', p = String c p') as [p' ->].
  { destruct p as [|c' p]; [|injection E as -> _; eauto]. unfold utf8_len in H2. cbv zeta beta in H2.
    rewrite Ga in H2. discriminate. }
  assert (p' = "") as ->.
  { unfold utf8_len in H2. cbv zeta beta in H2. rewrite Ga in H2. cbn in H2.
    destruct p' as [|x p']; [done|]. destruct (_ && _) in H2; cbn in H2; lia. }
  assert (forall x y, byte_of x = byte_of y -> x = y) as Hinj.
  { intros x y Exy. unfold byte_of in Exy. apply N2Z.inj in Exy.
    rewrite <- (ascii_N_embedding x), Exy. apply ascii_N_embedding. }
  assert (a = chr 226) as -> by by apply Hinj. assert (b = chr 128) as -> by by apply Hinj.
  destruct Gc as [Gc|Gc]; apply Z.eqb_eq in Gc; rewrite Gc.
  - assert (c = chr 168) as -> by by apply Hinj. eexists. split_and!; reflexivity.
  - assert (c = chr 169) as -> by by apply Hinj. eexists. split_and!; reflexivity.
Qed.

Lemma enc_chars_multi fuel p s :
  utf8_seq p ->
  enc_chars_with (S fuel) (p +:+ s) =
  match is_line_sep (p +:+ s) with
  | Some d => esc ("u202" +:+ str1 (hex_char d)) +:+ enc_chars_with fuel s
  | None => p +:+ enc_chars_with fuel s
  end.
Proof.
  intros Hp. pose proof (utf8_len_app p s Hp) as Hl. pose proof Hp as (H1 & _ & H3).
  destruct p as [|c p]; [done|]. cbn [append enc_chars_with]. rewrite H3.
  change (String c (p +:+ s)) with (String c p +:+ s). rewrite Hl. cbn [String.length].
  assert (forall a b, str_take (String.length a) (a +:+ b) = a) as Ht.
  { induction a as [|x a IH]; intros b; cbn; [by destruct b|]. by rewrite IH. }
  change (S (String.length p)) with (String.length (String c p)).
  by rewrite Ht, drop_app.
Qed.

(** What is written for valid UTF-8 is a literal that reads back as the string. *)
Lemma enc_chars_ok s : utf8 s -> forall fuel, (String.length s < fuel)%nat ->
  literal (enc_chars_with fuel s) /\
  forall fuel', (String.length (enc_chars_with fuel s) < fuel')%nat ->
  unquote_aux fuel' (enc_chars_with fuel s) = s.
Proof.
  induction 1 as [|c s Hc Hs IH|p s Hp Hs IH]; intros fuel Hf; (destruct fuel as [|fuel]; [lia|]).
  - cbn. split; [constructor|]. intros [|fuel'] ?; [lia|done].
  - cbn [enc_chars_with]. rewrite Hc. destruct (IH fuel) as [Hl Hu]; [simpl in Hf; lia|].
    destruct (Henc c Hc) as [[-> Hp]|[(e & -> & He & Hd)|(h1 & h2 & -> & G1 & G2 & Hx)]];
      cbn [esc str1 append].
    + split; [by constructor|]. intros [|fuel'] Hf'; [lia|]. simpl in Hf'.
      rewrite unquote_ascii; [|intros ->; discriminate Hp|done]. by rewrite Hu by lia.
    + split; [by constructor|]. intros [|fuel'] Hf'; [lia|]. simpl in Hf'. by rewrite Hd, Hu by lia.
    + split; [constructor; [by rewrite G1, G2|done]|]. intros [|fuel'] Hf'; [lia|]. simpl in Hf'.
      rewrite unquote_hex, Hx, byte_one, Hu by (try lia; try done; rewrite Hx; unfold is_surrogate;
        apply Z.ltb_lt in Hc; apply andb_false_iff; left; apply Z.leb_gt; lia). done.
  - rewrite str_len_app in Hf. pose proof Hp as (H1 & _ & _). destruct (IH fuel) as [Hl Hu]; [lia|].
    rewrite enc_chars_multi by done. destruct (is_line_sep (p +:+ s)) as [d|] eqn:El.
    + destruct (line_sep_cases p s d Hp El) as (h & -> & Hh & Hsur & Hb). cbn [esc str1 append].
      split; [constructor; [by rewrite Hh|done]|]. intros [|fuel'] Hf'; [lia|]. simpl in Hf'.
      by rewrite unquote_hex, Hb, Hu by (try lia; done).
    + split; [apply literal_plain_app; [by apply utf8_seq_plain|done]|].
      intros [|fuel'] Hf'; [lia|]. rewrite str_len_app in Hf'.
      by rewrite unquote_multi, Hu by (try lia; done).
Qed.

End writing.

Definition enc_plain (s : string) : string := enc_chars_with enc_plain_ascii (S (String.length s)) s.

Lemma enc_chars_with_html fuel s : enc_chars fuel s = enc_chars_with enc_ascii fuel s.
Proof.
  revert s. induction fuel as [|fuel IH]; intros s; [done|]. cbn [enc_chars enc_chars_with].
  destruct s as [|c s1]; [done|]. by rewrite !IH.
Qed.

(** [json.Marshal] of a string: the text between the quotes. *)
Definition enc_html (s : string) : string := enc_chars (S (String.length s)) s.

Lemma enc_plain_literal s : utf8 s -> literal (enc_plain s).
Proof. intros H. apply enc_chars_ok; [apply enc_plain_escaping|done|lia]. Qed.

Lemma unquote_enc_plain s : utf8 s -> unquote (enc_plain s) = s.
Proof.
  intros H. unfold unquote. apply enc_chars_ok; [apply enc_plain_escaping|done|lia|]. unfold enc_plain. lia.
Qed.

Lemma enc_html_literal s : utf8 s -> literal (enc_html s).
Proof.
  intros H. unfold enc_html. rewrite enc_chars_with_html.
  apply enc_chars_ok; [apply enc_html_escaping|done|lia].
Qed.

Lemma unquote_enc_html s : utf8 s -> unquote (enc_html s) = s.
Proof.
  intros H. unfold unquote, enc_html. rewrite enc_chars_with_html.
  apply enc_chars_ok; [apply enc_html_escaping|done|lia|]. lia.
Qed.

(** ** Go values *)

(** The values a decoder with [UseNumber] stores in an [any]. A map is kept as
    its entries in the order of their keys. *)
Inductive any :=
| ANull
| ABool (b : bool)
| ANumber (lit : string)
| AString (s : string)
| AArray (elems : list any)
| AObject (entries : list (string * any)).

Section entries.
Context {A : Type}.

Definition entry_le (a b : string * A) : Prop := str_le (fst a) (fst b).
#[global] Instance entry_le_dec : RelDecision entry_le.
Proof. intros a b. unfold entry_le. apply _. Defined.
#[global] Instance entry_le_trans : Transitive entry_le.
Proof. intros a b c. unfold entry_le. apply transitivity. Qed.
#[global] Instance entry_le_total : Total entry_le.
Proof. intros a b. apply (total str_le). Qed.

(** Assigning the entries in order, and listing a map by its keys. *)
Definition assign (l : list (string * A)) : gmap string A :=
  foldl (fun m kv => <[fst kv := snd kv]> m) ∅ l.
Definition sorted_entries (m : gmap string A) : list (string * A) :=
  merge_sort entry_le (map_to_list m).

Lemma foldl_assign l (m : gmap string A) :
  NoDup (fst <$> l) -> (forall k, k ∈ fst <$> l -> m !! k = None) ->
  map_to_list (foldl (fun m kv => <[fst kv := snd kv]> m) m l) ≡ₚ map_to_list m ++ l.
Proof.
  revert m. induction l as [|[k v] l IH]; intros m Hn Hm; cbn [foldl]; [by rewrite app_nil_r|].
  apply NoDup_cons in Hn as [Hk Hn]. cbn in *. rewrite IH; [|done|].
  - rewrite map_to_list_insert by (apply Hm; by left). cbn. by rewrite Permutation_middle.
  - intros k' Hk'. rewrite lookup_insert_ne; [apply Hm; by right|]. intros ->. done.
Qed.

Lemma sorted_entries_assign l :
  NoDup (fst <$> l) -> Sorted entry_le l -> sorted_entries (assign l) = l.
Proof.
  intros Hn Hs. unfold sorted_entries, assign.
  assert (map_to_list (foldl (fun m kv => <[fst kv := snd kv]> m) ∅ l) ≡ₚ l) as Hp.
  { rewrite foldl_assign by (try done; intros; apply lookup_empty). by rewrite map_to_list_empty. }
  eapply (Sorted_unique_strong entry_le); [| apply Sorted_merge_sort; apply _ | done
    | by rewrite merge_sort_Permutation].
  intros a b Ha Hb Hab Hba. rewrite merge_sort_Permutation, Hp in Ha.
  apply (NoDup_fmap_elem fst l); [done|done|done|]. by apply (anti_symm str_le).
Qed.

Lemma sorted_entries_ok m :
  NoDup (fst <$> sorted_entries m) /\ Sorted entry_le (sorted_entries m) /\
  (forall kv, kv ∈ sorted_entries m <-> m !! fst kv = Some (snd kv)).
Proof.
  unfold sorted_entries. split_and!.
  - rewrite merge_sort_Permutation. apply NoDup_fst_map_to_list.
  - apply Sorted_merge_sort, _.
  - intros [k v]. rewrite merge_sort_Permutation. apply elem_of_map_to_list.
Qed.

Lemma assign_elem l k v (m : gmap string A) :
  foldl (fun m kv => <[fst kv := snd kv]> m) m l !! k = Some v -> (k, v) ∈ l \/ m !! k = Some v.
Proof.
  revert m. induction l as [|[k' v'] l IH]; intros m H; [by right|]. cbn in H.
  apply IH in H as [H|H]; [left; by right|].
  apply lookup_insert_Some in H as [[<- <-]|[_ H]]; [left; by left | by right].
Qed.
End entries.

Fixpoint go_value (j : json) : any :=
  match j with
  | JNull => ANull
  | JBool b => ABool b
  | JNumber lit => ANumber lit
  | JString raw => AString (unquote raw)
  | JArray l => AArray (map go_value l)
  | JObject ms =>
    AObject (sorted_entries (assign (map (fun kv => (unquote (fst kv), go_value (snd kv))) ms)))
  end.

(** The tree written for a value, with the text [enc] gives to strings. *)
Fixpoint json_by (enc : string -> string) (a : any) : json :=
  match a with
  | ANull => JNull
  | ABool b => JBool b
  | ANumber lit => JNumber lit
  | AString s => JString (enc s)
  | AArray l => JArray (map (json_by enc) l)
  | AObject l => JObject (map (fun kv => (enc (fst kv), json_by enc (snd kv))) l)
  end.
Abbreviation json_of := (json_by enc_plain).
Abbreviation html_of := (json_by enc_html).

(** [json.Encoder.Encode] with [SetEscapeHTML(false)], without the final newline. *)
Definition encode_any (a : any) : string := render (json_of a).

Fixpoint any_wf (a : any) : Prop :=
  match a with
  | ANumber lit => number_lit lit
  | AString s => utf8 s
  | AArray l => foldr (fun x P => any_wf x /\ P) True l
  | AObject l =>
    (NoDup (fst <$> l) /\ Sorted entry_le l) /\
    foldr (fun kv P => (utf8 (fst kv) /\ any_wf (snd kv)) /\ P) True l
  | _ => True
  end.

Section any_induction.
Context (P : any -> Prop).
Context (Hnull : P ANull) (Hbool : forall b, P (ABool b)) (Hnum : forall l, P (ANumber l)).
Context (Hstr : forall r, P (AString r)) (Harr : forall l, Forall P l -> P (AArray l)).
Context (Hobj : forall l, Forall (fun kv => P (snd kv)) l -> P (AObject l)).

Fixpoint any_nested_ind (a : any) : P a :=
  match a with
  | ANull => Hnull
  | ABool b => Hbool b
  | ANumber l => Hnum l
  | AString r => Hstr r
  | AArray l => Harr l ((fix go l : Forall P l :=
      match l with
      | [] => Forall_nil_2 _
      | x :: l => Forall_cons_2 _ _ _ (any_nested_ind x) (go l)
      end) l)
  | AObject l => Hobj l ((fix go l : Forall (fun kv => P (snd kv)) l :=
      match l with
      | [] => Forall_nil_2 _
      | kv :: l => Forall_cons_2 _ _ _ (any_nested_ind (snd kv)) (go l)
      end) l)
  end.
End any_induction.

Lemma any_wf_array l : any_wf (AArray l) <-> Forall any_wf l.
Proof.
  cbn. induction l as [|x l IH]; cbn; [split; [constructor|done]|]. by rewrite IH, Forall_cons.
Qed.

Lemma any_wf_object l :
  any_wf (AObject l) <-> (NoDup (fst <$> l) /\ Sorted entry_le l) /\
  Forall (fun kv => utf8 (fst kv) /\ any_wf (snd kv)) l.
Proof.
  cbn. apply and_iff_compat_l. induction l as [|x l IH]; cbn; [split; [constructor|done]|].
  by rewrite IH, Forall_cons.
Qed.

Lemma map_id_Forall {A} (f : A -> A) l : Forall (fun x => f x = x) l -> map f l = l.
Proof. induction 1 as [|x l Hx _ IH]; cbn; [done|]. by rewrite Hx, IH. Qed.

Section written.
Context (enc : string -> string).
Context (enc_literal : forall s, utf8 s -> literal (enc s)) (unquote_enc : forall s, utf8 s -> unquote (enc s) = s).

Lemma json_by_wf a : any_wf a -> json_wf (json_by enc a).
Proof.
  induction a as [|b|l|r|l IH|l IH] using any_nested_ind; try done.
  - intros H. by apply enc_literal.
  - rewrite any_wf_array. intros H. apply json_wf_array, Forall_fmap.
    rewrite Forall_forall in *. intros x Hx. cbn. auto.
  - rewrite any_wf_object. intros [_ H]. apply json_wf_object, Forall_fmap.
    rewrite Forall_forall in *. intros kv Hkv. cbn. destruct (H kv Hkv). split; [by apply enc_literal|auto].
Qed.

(** The value of what is written is the value. *)
Lemma go_value_json_by a : any_wf a -> go_value (json_by enc a) = a.
Proof.
  induction a as [|b|l|r|l IH|l IH] using any_nested_ind; try done.
  - intros H. cbn [go_value json_by]. by rewrite unquote_enc.
  - rewrite any_wf_array. intros H. cbn [go_value json_by]. f_equal. rewrite map_map. apply map_id_Forall.
    rewrite Forall_forall in *. auto.
  - rewrite any_wf_object. intros [[Hn Hs] H]. cbn [go_value json_by]. f_equal. rewrite map_map.
    assert (map (fun kv => (unquote (enc (fst kv)), go_value (json_by enc (snd kv)))) l = l) as E.
    { apply map_id_Forall. rewrite Forall_forall in *. intros [k v] Hkv. destruct (H _ Hkv) as [Hk Hv].
      cbn [fst snd] in *. rewrite unquote_enc by done. f_equal. apply (IH _ Hkv). done. }
    cbn [fst snd]. rewrite E. by apply sorted_entries_assign.
Qed.
End written.

Lemma json_of_wf a : any_wf a -> json_wf (json_of a).
Proof. apply json_by_wf, enc_plain_literal. Qed.
Lemma go_value_json_of a : any_wf a -> go_value (json_of a) = a.
Proof. apply go_value_json_by, unquote_enc_plain. Qed.
Lemma html_of_wf a : any_wf a -> json_wf (html_of a).
Proof. apply json_by_wf, enc_html_literal. Qed.
Lemma go_value_html_of a : any_wf a -> go_value (html_of a) = a.
Proof. apply go_value_json_by, unquote_enc_html. Qed.

(** The parser only builds well-formed values. *)
Lemma go_value_wf j : json_wf j -> any_wf (go_value j).
Proof.
  induction j as [|b|l|r|l IH|ms IH] using json_nested_ind; try done.
  - intros H. by apply utf8_unquote.
  - rewrite json_wf_array. intros H. cbn [go_value]. apply any_wf_array, Forall_fmap.
    rewrite Forall_forall in *. intros x Hx. cbn. auto.
  - rewrite json_wf_object. intros H. cbn [go_value]. apply any_wf_object.
    destruct (sorted_entries_ok (assign (map (fun kv => (unquote (fst kv), go_value (snd kv))) ms)))
      as (Hn & Hs & He).
    split; [done|]. apply Forall_forall. intros [k v] Hkv. apply He in Hkv.
    apply assign_elem in Hkv as [Hkv|Hkv]; [|by rewrite lookup_empty in Hkv].
    apply list_elem_of_fmap in Hkv as ([k0 j0] & [= -> ->] & Hin). rewrite Forall_forall in *.
    destruct (H _ Hin) as [Hk Hj]. cbn in *. split; [by apply utf8_unquote|]. exact (IH _ Hin Hj).
Qed.

Lemma go_value_depth enc j : (jdepth (json_by enc (go_value j)) <= jdepth j)%nat.
Proof.
  induction j as [|b|l|r|l IH|ms IH] using json_nested_ind; cbn [go_value json_by jdepth]; try lia.
  - apply le_n_S. rewrite !map_map. induction IH as [|x l Hx _ IH]; cbn; [lia|]. unfold list_max_nat in *. lia.
  - apply le_n_S. rewrite map_map. cbn.
    assert (forall l b, Forall (fun n => (n <= b)%nat) l -> (list_max_nat l <= b)%nat) as Hmax.
    { induction 1 as [|x l Hx _ IHl]; cbn; unfold list_max_nat in *; lia. }
    apply Hmax, Forall_fmap, Forall_forall. intros [k v] Hkv. cbn.
    apply sorted_entries_ok, assign_elem in Hkv as [Hkv|Hkv]; [|by rewrite lookup_empty in Hkv].
    apply list_elem_of_fmap in Hkv as ([k0 j0] & [= -> ->] & Hin). rewrite Forall_forall in IH.
    specialize (IH _ Hin). cbn in IH. etrans; [exact IH|]. clear -Hin.
    induction ms as [|y ms IHm]; [by apply elem_of_nil in Hin|]. cbn.
    apply elem_of_cons in Hin as [<-|Hin]; cbn; [lia|]. specialize (IHm Hin). unfold list_max_nat in *. lia.
Qed.

(** Decoding what was encoded gives the value back. *)
Lemma encode_any_roundtrip a :
  any_wf a -> (jdepth (json_of a) <= max_depth)%nat ->
  option_map go_value (json_parse (encode_any a)) = Some a.
Proof.
  intros Hw Hd. unfold encode_any. rewrite render_parse by (done || by apply json_of_wf).
  cbn. by rewrite go_value_json_of.
Qed.

Lemma encode_any_inj a b :
  any_wf a -> any_wf b -> (jdepth (json_of a) <= max_depth)%nat ->
  (jdepth (json_of b) <= max_depth)%nat -> encode_any a = encode_any b -> a = b.
Proof.
  intros Ha Hb Da Db E. apply (f_equal (fun s => option_map go_value (json_parse s))) in E.
  rewrite !encode_any_roundtrip in E by done. by injection E.
Qed.
