(* ===== verification/GoMarshalLaws.v ===== *)
(** * Reading back what [json.Marshal] wrote

    Decimal texts of integers are read back by [strconv.ParseUint]. A [Codec]
    pairs the tree that [json.Marshal] writes for a Go type with a reader of the
    decoded value; [CodecLaws] states that reading inverts writing, that the text
    is well formed and how deeply it nests. Instances cover strings, integers,
    booleans, pointers and slices; structs are built from [member] lookups. *)

From S2P Require Import Prelude GoText GoTime GoJson GoMarshal GoJsonLaws.

(** ** Integers *)

Lemma digit_char_ok d : 0 <= d < 10 ->
  is_digit (digit_char d) = true /\ digit_val (digit_char d) = d /\ (digit_char d = "0"%char -> d = 0).
Proof.
  intros H. assert (d = 0 \/ d = 1 \/ d = 2 \/ d = 3 \/ d = 4 \/ d = 5 \/ d = 6 \/ d = 7 \/ d = 8 \/ d = 9)
    as K by lia. decompose [or] K; subst; vm_compute; auto; split_and!; auto; discriminate.
Qed.

(** [ds] is the decimal text of [n], without leading zeros. *)
Definition decimal (n : Z) (ds : string) : Prop :=
  (exists c d, ds = String c d /\ (c = "0"%char -> ds = "0")) /\ all_chars is_digit ds = true /\
  forall acc rest, dec_digits_val acc (ds +:+ rest)
                   = dec_digits_val (acc * 10 ^ Z.of_nat (String.length ds) + n) rest.

Lemma decimal_snoc n ds : decimal (n / 10) ds -> 10 <= n -> decimal n (ds +:+ str1 (digit_char (n mod 10))).
Proof.
  intros ((c & d & -> & Hz) & Hd & Hv) Hn. set (e := digit_char (n mod 10)).
  destruct (digit_char_ok (n mod 10)) as (He & Hev & _); [by apply Z.mod_pos_bound|]. fold e in He, Hev.
  split_and!.
  - exists c, (d +:+ str1 e). split; [done|]. intros Hc. apply Hz in Hc as [= -> ->].
    specialize (Hv 0 ""). cbn in Hv. change (digit_val "0") with 0 in Hv.
    injection Hv as Hv. assert (1 <= n / 10) by (apply Z.div_le_lower_bound; lia). lia.
  - rewrite all_chars_app, Hd. cbn. by rewrite He.
  - intros acc rest. rewrite append_assoc, Hv. change (str1 e +:+ rest) with (String e rest).
    cbn [dec_digits_val]. rewrite He, Hev.
    f_equal. rewrite str_len_app. change (String.length (str1 e)) with 1%nat. rewrite Nat2Z.inj_add.
    change (Z.of_nat 1) with 1. rewrite Z.pow_add_r by lia. pose proof (Z.div_mod n 10). nia.
Qed.

Lemma decimal_digit n : 0 <= n < 10 -> decimal n (str1 (digit_char n)).
Proof.
  intros Hn. destruct (digit_char_ok n Hn) as (Hd & Hv & Hz). split_and!.
  - exists (digit_char n), "". split; [done|]. intros E. apply Hz in E as ->. done.
  - cbn. by rewrite Hd.
  - intros acc rest. cbn. rewrite Hd, Hv. done.
Qed.

Lemma dec_aux_decimal fuel n acc :
  0 <= n < 10 ^ Z.of_nat fuel -> (0 < fuel)%nat ->
  exists ds, dec_aux fuel n acc = ds +:+ acc /\ decimal n ds.
Proof.
  revert n acc. induction fuel as [|fuel IH]; intros n acc Hn Hf; [lia|]. cbn [dec_aux].
  destruct (n <? 10) eqn:E.
  - apply Z.ltb_lt in E. exists (str1 (digit_char n)). rewrite Z.mod_small by lia.
    split; [done|]. apply decimal_digit. lia.
  - apply Z.ltb_ge in E. rewrite Nat2Z.inj_succ, Z.pow_succ_r in Hn by lia.
    destruct (IH (n / 10) (String (digit_char (n mod 10)) acc)) as (ds & -> & Hd).
    + split; [apply Z.div_pos; lia|]. apply Z.div_lt_upper_bound; lia.
    + destruct fuel; [|lia]. cbn in Hn. lia.
    + exists (ds +:+ str1 (digit_char (n mod 10))). rewrite append_assoc. split; [done|].
      by apply decimal_snoc.
Qed.

Lemma enc_uint_decimal n : is_u64 n -> decimal n (enc_uint n).
Proof.
  intros Hn. unfold enc_uint. destruct (dec_aux_decimal 20 n "") as (ds & -> & Hd).
  - unfold is_u64, u64_mod in Hn. change (10 ^ Z.of_nat 20) with 100000000000000000000. lia.
  - lia.
  - by rewrite append_nil_r.
Qed.

Lemma ParseUint_enc_uint n : is_u64 n -> ParseUint (enc_uint n) = Some n.
Proof.
  intros Hn. destruct (enc_uint_decimal n Hn) as ((c & d & E & _) & _ & Hv).
  unfold ParseUint, parse_digits. rewrite E, <- E. specialize (Hv 0 "").
  rewrite append_nil_r in Hv. rewrite Hv. destruct Hn as [_ Hn]. apply Z.ltb_lt in Hn.
  cbn [dec_digits_val]. rewrite Z.mul_0_l, Z.add_0_l. cbv iota beta. by rewrite Hn.
Qed.

Lemma scan_digits_all s : all_chars is_digit s = true -> scan_digits s = (s, "").
Proof.
  induction s as [|c s IH]; cbn; [done|]. rewrite andb_true_iff. intros [-> H]. by rewrite IH.
Qed.

Lemma enc_uint_number n : is_u64 n -> number_lit (enc_uint n).
Proof.
  intros Hn. destruct (enc_uint_decimal n Hn) as ((c & d & E & Hz) & Hd & _).
  rewrite E in *. apply (scan_number_lit (String c d) _ ""). rewrite scan_number_unfold.
  assert (is_digit c = true) as Hc by (cbn in Hd; by apply andb_true_iff in Hd as [? _]).
  rewrite strip_sign_other by (intros ->; discriminate). cbv iota beta.
  destruct (decide (c = "0"%char)) as [->|Hn0].
  - specialize (Hz eq_refl) as [= ->]. done.
  - rewrite scan_int_digits by done. unfold scan_digits1. rewrite scan_digits_all by done.
    cbn [snd fst scan_frac scan_exp]. by rewrite !append_nil_r.
Qed.

(** ** Codecs *)

#[global] Arguments unquote : simpl never.
#[global] Arguments enc_html : simpl never.
#[global] Arguments enc_uint : simpl never.

(** The tree [json.Marshal] writes for a value, and a reader of the decoded
    value; [fits] is what the Go type guarantees. *)
Class Codec (A : Type) := {
  marshal : A -> json;
  read : any -> option A;
  fits : A -> Prop;
  nesting : nat
}.

Class CodecLaws (A : Type) `{Codec A} := {
  read_marshal x : fits x -> read (go_value (marshal x)) = Some x;
  marshal_wf x : fits x -> json_wf (marshal x);
  marshal_depth x : (jdepth (marshal x) <= nesting)%nat
}.
Arguments nesting A {_}.

#[export] Instance string_codec : Codec string := {|
  marshal s := JString (enc_html s);
  read v := match v with AString s => Some s | _ => None end;
  fits := utf8;
  nesting := 0
|}.
#[export] Instance string_laws : CodecLaws string.
Proof.
  split; intros s; cbn [marshal read fits nesting string_codec go_value]; [|apply enc_html_literal|cbn; lia].
  intros H. by rewrite unquote_enc_html.
Qed.

#[export] Instance u64_codec : Codec Z := {|
  marshal n := JNumber (enc_uint n);
  read v := match v with ANumber lit => ParseUint lit | _ => None end;
  fits := is_u64;
  nesting := 0
|}.
#[export] Instance u64_laws : CodecLaws Z.
Proof. split; intros n; cbn; [apply ParseUint_enc_uint|apply enc_uint_number|lia]. Qed.

#[export] Instance bool_codec : Codec bool := {|
  marshal := JBool;
  read v := match v with ABool b => Some b | _ => None end;
  fits _ := True;
  nesting := 0
|}.
#[export] Instance bool_laws : CodecLaws bool.
Proof. split; intros b; cbn; (done || lia). Qed.

(** A slice that is [nil] when it is empty. *)
Section slices.
Context {A : Type} `{CodecLaws A}.

#[export] Instance slice_codec : Codec (list A) := {|
  marshal l := match l with [] => JNull | _ => JArray (map marshal l) end;
  read v := match v with ANull => Some [] | AArray l => mapM read l | _ => None end;
  fits := Forall fits;
  nesting := S (nesting A)
|}.

#[export] Instance slice_laws : CodecLaws (list A).
Proof.
  split; intros l; cbn [marshal read fits nesting slice_codec].
  - intros Hl. destruct l as [|x l]; [done|]. cbn [go_value]. rewrite map_map.
    induction Hl as [|y l' Hy _ IH]; [done|]. cbn. rewrite read_marshal by done. cbn.
    by rewrite IH.
  - intros Hl. destruct l as [|x l]; [done|]. apply json_wf_array, Forall_fmap.
    eapply Forall_impl; [exact Hl|]. intros y. apply marshal_wf.
  - destruct l as [|x l]; [cbn; lia|]. cbn [jdepth]. apply le_n_S. generalize (x :: l). clear x l.
    induction l as [|x l IH]; cbn in *; [lia|]. pose proof (marshal_depth x). unfold list_max_nat in IH. lia.
Qed.
End slices.

(** ** Structs *)

(** The entry of a decoded object. *)
Definition member (k : string) (v : any) : option any :=
  match v with AObject l => assign l !! k | _ => None end.

Definition read_member {A} `{Codec A} (k : string) (v : any) : option A :=
  try x <- member k v ;; read x.
(** An [omitempty] pointer. *)
Definition read_omitted {A} `{Codec A} (k : string) (v : any) : option (option A) :=
  match member k v with Some x => try y <- read x ;; Some (Some y) | None => Some None end.
(** A pointer without [omitempty]. *)
Definition read_pointer {A} `{Codec A} (k : string) (v : any) : option (option A) :=
  match member k v with
  | Some ANull => Some None
  | Some x => try y <- read x ;; Some (Some y)
  | None => None
  end.

Definition marshal_pointer {A} `{Codec A} (o : option A) : json :=
  match o with Some x => marshal x | None => JNull end.
Definition omitempty {A} `{Codec A} (k : string) (o : option A) : list (string * json) :=
  match o with Some x => [(k, marshal x)] | None => [] end.

(** The value of a member in a tree whose names need no escapes. *)
Fixpoint assoc (k : string) (ms : list (string * json)) : option json :=
  match ms with
  | [] => None
  | (k', j) :: ms => if String.eqb k' k then Some j else assoc k ms
  end.

(** Distinct names that stand for themselves, checked by evaluation. *)
Definition names_ok (ks : list string) : bool :=
  forallb (fun k => String.eqb (unquote k) k && forallb plain_char (list_ascii_of_string k)) ks
  && bool_decide (NoDup ks).

Lemma plain_literal k : forallb plain_char (list_ascii_of_string k) = true -> literal k.
Proof. intros H. rewrite <- (append_nil_r k). apply literal_plain_app; [done|constructor]. Qed.

Lemma names_ok_spec ks :
  names_ok ks = true -> Forall (fun k => unquote k = k /\ literal k) ks /\ NoDup ks.
Proof.
  unfold names_ok. rewrite andb_true_iff, bool_decide_eq_true, forallb_True_iff. intros [H Hn].
  split; [|done]. eapply Forall_impl; [exact H|]. intros k Hk. cbn in Hk.
  apply andb_true_iff in Hk as [Hk Hp]. apply String.eqb_eq in Hk. split; [done|].
  by apply plain_literal.
Qed.

Lemma assign_sorted_entries {A} (m : gmap string A) : assign (sorted_entries m) = m.
Proof.
  apply map_eq. intros k. apply option_eq. intros v.
  destruct (sorted_entries_ok m) as (Hn & Hs & He). split; intros Hk.
  - apply assign_elem in Hk as [Hk|Hk]; [by apply He in Hk | by rewrite lookup_empty in Hk].
  - apply (proj2 (He (k, v))) in Hk.
    pose proof (foldl_assign (sorted_entries m) ∅ Hn) as Hp. rewrite map_to_list_empty in Hp.
    apply elem_of_map_to_list. rewrite Hp; [done|]. intros. apply lookup_empty.
Qed.

Lemma member_object k ms :
  names_ok (map fst ms) = true -> member k (go_value (JObject ms)) = go_value <$> assoc k ms.
Proof.
  intros Hok. destruct (names_ok_spec _ Hok) as [Hu Hn]. clear Hok.
  cbn [go_value member]. rewrite assign_sorted_entries.
  assert (map (fun kv => (unquote (fst kv), go_value (snd kv))) ms
          = map (fun kv => (fst kv, go_value (snd kv))) ms) as ->.
  { apply map_ext_Forall. apply Forall_fmap in Hu. eapply Forall_impl; [exact Hu|]. intros kv [E _].
    cbn in E. by rewrite E. }
  clear Hu. apply option_eq. intros v. rewrite <- elem_of_map_to_list. unfold assign. rewrite foldl_assign.
  2: by rewrite <- list_fmap_compose. 2: intros; apply lookup_empty.
  rewrite map_to_list_empty. cbn [app]. induction ms as [|[k' j] ms IH]; cbn in *.
  - split; [intros H; by apply elem_of_nil in H|done].
  - apply NoDup_cons in Hn as [Hk Hn]. rewrite elem_of_cons.
    destruct (String.eqb_spec k' k) as [Ek|Hne].
    + split; [intros [[= _ ->]|H]|by intros [= <-]; left; rewrite Ek]; [done|].
      exfalso. apply Hk. apply list_elem_of_fmap in H as ([k0 j0] & [= E1 E2] & Hin).
      apply list_elem_of_fmap. exists (k0, j0). by rewrite Ek, E1.
    + rewrite (IH Hn). split; [intros [[= -> ->]|H]; done|auto].
Qed.

Lemma object_wf ms :
  names_ok (map fst ms) = true -> Forall (fun kv => json_wf (snd kv)) ms -> json_wf (JObject ms).
Proof.
  intros Hok Hw. destruct (names_ok_spec _ Hok) as [Hu _]. apply Forall_fmap in Hu.
  apply json_wf_object. apply Forall_and. split; [|done].
  eapply Forall_impl; [exact Hu|]. intros kv [_ H]. exact H.
Qed.

Lemma read_pointer_marshal {A} `{CodecLaws A} k v (o : option A) :
  (forall x, marshal x <> JNull) -> (forall x, o = Some x -> fits x) ->
  member k v = Some (go_value (marshal_pointer o)) -> read_pointer k v = Some o.
Proof.
  intros Hn Hf E. unfold read_pointer. rewrite E. destruct o as [x|]; cbn [marshal_pointer]; [|done].
  specialize (Hf x eq_refl). rewrite read_marshal by done.
  specialize (Hn x). by destruct (marshal x).
Qed.

(** Decoding an object whose names need no escapes. *)
Fixpoint dec_plain {R} (fs : list (field R)) (ms : list (string * json)) (r : R) : option R :=
  match ms with
  | [] => Some r
  | (k, j) :: ms =>
    match find_field fs k with
    | Some f => try r' <- snd f j r ;; dec_plain fs ms r'
    | None => dec_plain fs ms r
    end
  end.

Lemma dec_struct_plain {R} (fs : list (field R)) ms r :
  names_ok (map fst ms) = true -> dec_struct fs (JObject ms) r = dec_plain fs ms r.
Proof.
  intros Hok. destruct (names_ok_spec _ Hok) as [Hu _]. clear Hok. cbn [dec_struct].
  revert r. induction ms as [|[k j] ms IH]; intros r; [done|]. cbn [map fst] in Hu.
  apply Forall_cons in Hu as [[Hk _] Hu]. cbn [dec_members dec_plain]. rewrite Hk.
  destruct (find_field fs k) as [f|]; [|by apply IH]. destruct (snd f j r); [by apply IH|done].
Qed.
