(* ===== verification/GoTimeLaws.v ===== *)
(** * Printing and parsing times

    [time_text] prints a time by the calendar and [parse_rfc3339] reads it back;
    the calendar arithmetic of the two is inverse. *)

From S2P Require Import Prelude GoText GoTime GoJson GoMarshal GoJsonLaws GoMarshalLaws.

#[local] Ltac Zify.zify_post_hook ::= Z.to_euclidean_division_equations.

(** ** The calendar *)

Definition year_length (y : Z) : Z := if is_leap y then 366 else 365.

Lemma civil_year_spec d y yday :
  civil_year d = (y, yday) -> days_before_year y + yday = d /\ 0 <= yday < year_length y.
Proof.
  unfold civil_year. intros [= Hy Hd].
  set (n400 := d / 146097) in *. set (r400 := d mod 146097) in *.
  assert (d = 146097 * n400 + r400 /\ 0 <= r400 < 146097) as [Ed Hr400] by (subst n400 r400; lia).
  set (n100 := Z.min 3 (r400 / 36524)) in *. set (r100 := r400 - n100 * 36524) in *.
  assert (0 <= n100 <= 3 /\ 0 <= r100 /\ (n100 < 3 -> r100 < 36524) /\ r100 < 36525) as (Hn100 & Hr100 & Hs100 & Hm100)
    by (subst n100 r100; lia).
  set (n4 := r100 / 1461) in *. set (r4 := r100 mod 1461) in *.
  assert (r100 = 1461 * n4 + r4 /\ 0 <= r4 < 1461 /\ 0 <= n4 <= 24) as (E100 & Hr4 & Hn4) by (subst n4 r4; lia).
  set (n1 := Z.min 3 (r4 / 365)) in *. set (r1 := r4 - n1 * 365) in *.
  assert (0 <= n1 <= 3 /\ 0 <= r1 /\ (n1 < 3 -> r1 < 365) /\ r1 < 366) as (Hn1 & Hr1 & Hs1 & Hm1) by (subst n1 r1; lia).
  assert (r4 = n1 * 365 + r1) as E4 by (subst r1; lia). assert (r400 = n100 * 36524 + r100) as E400 by (subst r100; lia).
  clearbody n400 r400 n100 r100 n4 r4 n1 r1. subst yday.
  assert ((y - 1) / 4 = 100 * n400 + 25 * n100 + n4) as D4 by (symmetry; apply (Z.div_unique _ _ _ n1); lia).
  assert ((y - 1) / 100 = 4 * n400 + n100) as D100 by (symmetry; apply (Z.div_unique _ _ _ (4 * n4 + n1)); lia).
  assert ((y - 1) / 400 = n400) as D400 by (symmetry; apply (Z.div_unique _ _ _ (100 * n100 + 4 * n4 + n1)); lia).
  unfold days_before_year. rewrite D4, D100, D400. split; [lia|].
  split; [lia|]. unfold year_length, is_leap.
  destruct (decide (r1 < 365)); [case_match; lia|].
  assert (n1 = 3) as -> by lia. assert (y mod 4 = 0) as -> by lia.
  destruct (decide (n4 = 24)) as [->|Hn]; [assert (y mod 400 = 0) as -> by lia|assert (y mod 100 <> 0) as ->%Z.eqb_neq by lia].
  - cbn. rewrite orb_true_r. lia.
  - cbn. lia.
Qed.

Lemma days_before_month_succ m y : (1 <= m)%nat -> days_before_month (S m) y = days_before_month m y + days_in (Z.of_nat m) y.
Proof. by destruct m; [lia|]. Qed.

Lemma days_before_month_13 y : days_before_month 13 y = year_length y.
Proof.
  unfold year_length. cbn [days_before_month]. unfold days_in.
  cbn -[Z.add is_leap]. by destruct (is_leap y).
Qed.

Lemma civil_month_spec fuel m y yday mo d :
  (1 <= m)%nat -> (m + fuel = 13)%nat -> 0 <= yday -> days_before_month m y + yday < year_length y ->
  civil_month fuel (Z.of_nat m) y yday = (mo, d) ->
  1 <= mo <= 12 /\ 1 <= d <= days_in mo y /\
  days_before_month (Z.to_nat mo) y + (d - 1) = days_before_month m y + yday.
Proof.
  revert m yday. induction fuel as [|fuel IH]; intros m yday Hm Hf H0 Hlt H; cbn [civil_month] in H.
  - replace m with 13%nat in * by lia. rewrite days_before_month_13 in Hlt. lia.
  - destruct (yday <? days_in (Z.of_nat m) y) eqn:E.
    + injection H as <- <-. rewrite Nat2Z.id. lia.
    + pose proof (days_before_month_succ m y Hm) as Hs.
      replace (Z.of_nat m + 1) with (Z.of_nat (S m)) in H by lia.
      apply IH in H as (H1 & H2 & H3); [lia|lia|lia|lia|lia].
Qed.

(** ** Digits *)

Fixpoint digits_of (w : nat) (n : Z) : list Z :=
  match w with O => [] | S w => digits_of w (n / 10) ++ [n mod 10] end.

Lemma pad_digits_app w n acc s : pad_digits w n acc +:+ s = pad_digits w n (acc +:+ s).
Proof. revert n acc. induction w as [|w IH]; intros n acc; [done|]. cbn [pad_digits]. by rewrite IH. Qed.

Lemma take_digits_pad w n acc :
  take_digits (pad_digits w n acc) = let (ds, r) := take_digits acc in (digits_of w n ++ ds, r).
Proof.
  revert n acc. induction w as [|w IH]; intros n acc; cbn [pad_digits digits_of]; [by destruct (take_digits acc)|].
  rewrite IH. destruct (digit_char_ok (n mod 10)) as (H1 & H2 & _); [lia|]. cbn [take_digits]. rewrite H1, H2.
  destruct (take_digits acc) as [ds r]. by rewrite <- app_assoc.
Qed.

Lemma take_digits_fixed w n c s :
  is_digit c = false -> take_digits (enc_fixed w n +:+ String c s) = (digits_of w n, String c s).
Proof.
  intros H. unfold enc_fixed. rewrite pad_digits_app, take_digits_pad. cbn [String.append append take_digits].
  cbn. rewrite H. by rewrite app_nil_r.
Qed.

Lemma getnum_fixed b n s : 0 <= n < 100 -> getnum b (enc_fixed 2 n +:+ s) = Some (n, s).
Proof.
  intros H. cbn. destruct (digit_char_ok (n / 10 mod 10)) as (H1 & H2 & _); [lia|].
  destruct (digit_char_ok (n mod 10)) as (H3 & H4 & _); [lia|]. rewrite H1, H3, H2, H4. cbn [negb].
  do 2 f_equal. lia.
Qed.

Lemma parse_year_fixed n s : 0 <= n < 10000 -> parse_year (enc_fixed 4 n +:+ String "-" s) = Some (n, String "-" s).
Proof.
  intros H. unfold parse_year. rewrite take_digits_fixed by done. cbn [digits_of app]. do 2 f_equal. lia.
Qed.

(** ** Fractions of a second *)

Lemma length_digits_of w n : length (digits_of w n) = w.
Proof. revert n. induction w as [|w IH]; intros n; [done|]. cbn [digits_of]. rewrite length_app, IH. cbn. lia. Qed.

Lemma nanos_of_digits_snoc scale l d :
  (length l < scale)%nat ->
  nanos_of_digits scale (l ++ [d]) = nanos_of_digits scale l + d * 10 ^ Z.of_nat (scale - S (length l)).
Proof.
  revert scale. induction l as [|x l IH]; intros [|scale] H; cbn in H; try lia; cbn [app nanos_of_digits length].
  - replace (S scale - 1)%nat with scale by lia. destruct scale; cbn [nanos_of_digits]; ring.
  - rewrite IH by lia. replace (S scale - S (S (length l)))%nat with (scale - S (length l))%nat by lia. ring.
Qed.

Lemma nanos_of_digits_of scale w n :
  (w <= scale)%nat -> 0 <= n < 10 ^ Z.of_nat w -> nanos_of_digits scale (digits_of w n) = n * 10 ^ Z.of_nat (scale - w).
Proof.
  revert n. induction w as [|w IH]; intros n Hw Hn.
  - cbn in *. assert (n = 0) as -> by lia. by destruct scale.
  - rewrite Nat2Z.inj_succ, Z.pow_succ_r in Hn by lia. cbn [digits_of].
    rewrite nanos_of_digits_snoc by (rewrite length_digits_of; lia). rewrite length_digits_of.
    rewrite IH; [|lia|split; [apply Z.div_pos; lia|apply Z.div_lt_upper_bound; lia]].
    replace (scale - w)%nat with (S (scale - S w)) by lia. rewrite Nat2Z.inj_succ, Z.pow_succ_r by lia.
    set (p := 10 ^ Z.of_nat (scale - S w)). pose proof (Z.div_mod n 10 ltac:(lia)) as E. rewrite E at 3. ring.
Qed.

Lemma trim_zeros_spec fuel n m w :
  0 < n < 10 ^ Z.of_nat fuel -> trim_zeros fuel n = (m, w) ->
  (1 <= w <= fuel)%nat /\ 0 < m < 10 ^ Z.of_nat w /\ n = m * 10 ^ Z.of_nat (fuel - w).
Proof.
  revert n. induction fuel as [|fuel IH]; intros n Hn H; cbn [trim_zeros] in H; [cbn in Hn; lia|].
  rewrite Nat2Z.inj_succ, Z.pow_succ_r in Hn by lia. destruct (n mod 10 =? 0) eqn:E.
  - apply Z.eqb_eq in E. pose proof (Z.div_mod n 10 ltac:(lia)) as D.
    apply IH in H as (H1 & H2 & H3); [|split; [lia|]; apply Z.div_lt_upper_bound; lia].
    split_and!; [lia|lia|lia|lia|]. replace (S fuel - w)%nat with (S (fuel - w)) by lia.
    rewrite Nat2Z.inj_succ, Z.pow_succ_r by lia. rewrite D, E, H3. ring.
  - injection H as <- <-. rewrite Nat.sub_diag, Nat2Z.inj_succ, Z.pow_succ_r by lia. split_and!; try lia.
Qed.

Lemma parse_fraction_enc ns c s :
  0 <= ns < 1000000000 -> is_digit c = false -> c <> "."%char -> c <> ","%char ->
  parse_fraction (enc_fraction ns +:+ String c s) = (ns, String c s).
Proof.
  intros Hns Hc Hdot Hcomma. unfold enc_fraction. destruct (ns =? 0) eqn:E.
  - apply Z.eqb_eq in E as ->. cbn. destruct s; [done|]. rewrite !bool_decide_false by done. done.
  - destruct (trim_zeros 9 ns) as [m w] eqn:Et. apply trim_zeros_spec in Et as (Hw & Hm & ->); [|cbn; lia].
    destruct w as [|w]; [lia|]. change (("." +:+ enc_fixed (S w) m) +:+ String c s) with (String "." (enc_fixed (S w) m +:+ String c s)).
    pose proof (take_digits_fixed (S w) m c s Hc) as Ht.
    assert (exists d r, enc_fixed (S w) m +:+ String c s = String d r /\ is_digit d = true) as (d & r & Hd & Hdig).
    { assert (length (take_digits (enc_fixed (S w) m +:+ String c s)).1 = S w) as Hl
        by (rewrite Ht; apply length_digits_of).
      destruct (enc_fixed (S w) m +:+ String c s) as [|d r]; [discriminate Hl|]. exists d, r. split; [done|].
      cbn in Hl. by destruct (is_digit d). }
    rewrite Hd in Ht |- *. cbn [parse_fraction]. rewrite Hdig. cbn [andb orb]. rewrite bool_decide_true by done. cbn [orb andb].
    rewrite Ht. f_equal. apply nanos_of_digits_of; lia.
Qed.

(** ** Zones *)

Definition whole_minutes (offset : Z) : Prop := offset mod 60 = 0 /\ Z.abs offset < 86400.

Lemma enc_zone_head offset s : exists c r, enc_zone offset +:+ s = String c r /\ is_digit c = false /\ c <> "."%char /\ c <> ","%char.
Proof. unfold enc_zone. destruct (offset =? 0); [by eexists _, _|]. cbv zeta. destruct (offset <? 0); by eexists _, _. Qed.

Lemma parse_zone_enc offset : whole_minutes offset -> parse_zone (enc_zone offset) = Some (offset, "").
Proof.
  intros [Hm Hr]. unfold enc_zone. destruct (offset =? 0) eqn:E; [by apply Z.eqb_eq in E as ->|]. cbv zeta.
  set (m := Z.abs offset / 60). assert (Z.abs offset = m * 60 /\ 0 <= m < 1440) as [Em Hb] by (subst m; lia).
  assert (forall sign, sign <> "Z"%char -> negb ((sign == "+"%char) || (sign == "-"%char)) = false ->
    parse_zone (String sign (enc_fixed 2 (m / 60) +:+ ":" +:+ enc_fixed 2 (m mod 60))) =
    Some (if sign == "-"%char then - ((m / 60 * 60 + m mod 60) * 60) else (m / 60 * 60 + m mod 60) * 60, "")) as H.
  { intros sign HZ Hs. unfold parse_zone. rewrite Hs, getnum_fixed by lia. cbn [append expect]. cbn [String.append].
    change (":" +:+ enc_fixed 2 (m mod 60)) with (String ":" (enc_fixed 2 (m mod 60))). cbn [expect].
    rewrite bool_decide_true by done. rewrite <- (append_nil_r (enc_fixed 2 (m mod 60))), getnum_fixed by lia.
    assert ((24 <? m / 60) = false /\ (60 <? m mod 60) = false) as [-> ->] by lia. cbn [orb].
    destruct sign as [[] [] [] [] [] [] [] []]; done. }
  destruct (offset <? 0) eqn:Es; cbn [append].
  - etransitivity; [by apply (H "-"%char)|]. rewrite bool_decide_true by done. do 2 f_equal. lia.
  - etransitivity; [by apply (H "+"%char)|]. rewrite bool_decide_false by done. do 2 f_equal. lia.
Qed.

(** ** The round trip *)

#[local] Opaque enc_fixed.

Lemma time_roundtrip t text :
  whole_minutes (t_offset t) -> time_text t = Some text -> parse_rfc3339 text = Some t.
Proof.
  intros Hz. unfold time_text. set (local := t_nanos t + t_offset t * 1000000000).
  set (secs := local / 1000000000). set (ns := local mod 1000000000). set (days := secs / 86400). set (sod := secs mod 86400).
  assert (local = ((days * 86400) + sod) * 1000000000 + ns /\ 0 <= ns < 1000000000 /\ 0 <= sod < 86400) as (El & Hns & Hsod)
    by (subst days sod ns secs; lia).
  destruct (civil_year days) as [y yday] eqn:Ey. apply civil_year_spec in Ey as [Ed Hyd].
  destruct (civil_month 12 1 y yday) as [m d] eqn:Em.
  apply (civil_month_spec 12 1) in Em as (Hm & Hd & Emd); [|lia..|cbn; lia].
  destruct ((y <? 0) || (9999 <? y) || (86400 <=? Z.abs (t_offset t))) eqn:Eg; [done|]. intros [= <-].
  apply orb_false_iff in Eg as [[Hy0 Hy1]%orb_false_iff _].
  assert (days_in m y <= 31) as Hdi by (unfold days_in; repeat case_match; lia).
  destruct (enc_zone_head (t_offset t) "") as (zc & zr & Hzone & Hzd & Hz1 & Hz2). rewrite append_nil_r in Hzone.
  assert (forall c r, expect c (String c r) = Some r) as Hex by (intros; cbn; by rewrite bool_decide_true).
  unfold parse_rfc3339. cbn [append].
  rewrite parse_year_fixed, Hex by lia. rewrite getnum_fixed by lia.
  assert ((m <? 1) || (12 <? m) = false) as -> by lia. rewrite Hex, getnum_fixed by lia.
  assert ((d <? 1) || (days_in m y <? d) = false) as -> by lia. rewrite Hex, getnum_fixed by lia.
  assert ((23 <? sod / 3600) = false) as -> by lia. rewrite Hex, getnum_fixed by lia.
  assert ((59 <? sod / 60 mod 60) = false) as -> by lia. rewrite Hex, getnum_fixed by lia.
  assert ((59 <? sod mod 60) = false) as -> by lia.
  rewrite Hzone, parse_fraction_enc by done. rewrite <- Hzone, parse_zone_enc by done.
  rewrite bool_decide_true by done. cbn [negb]. destruct t as [nanos offset]. cbn [t_nanos t_offset] in *.
  do 2 f_equal. unfold date_nanos. cbn in Emd. subst local. lia.
Qed.
