(* ===== verification/Types.v ===== *)
(** * Identifiers and elementary types ([kernel/types.go])

    String-typed identifiers keep their Go representation, a byte string with
    a [Valid] test; the patterns are transcribed from the source. Types that
    the code only builds from its own constants are inductive types. *)

From S2P Require Import Prelude GoText GoTime GoJson.

Definition ContractIdentity : string := "tekroo.kernel.contracts/0.12.0".

(** ** Patterns *)

Definition alnum_dash (c : ascii) : bool := is_alnum c || (c == "-"%char).

(** [(?:\[a-z0-9\]|\[a-z0-9\]\[a-z0-9-\]{0,61}\[a-z0-9\])] *)
Definition label : re :=
  RAlt (RClass is_alnum)
    (RSeq (RClass is_alnum) (RSeq (RRep 0 61 (RClass alnum_dash)) (RClass is_alnum))).

Definition instance_number : re :=
  RSeq (RClass (in_range "1" "9")) (RRep 0 19 (RClass is_digit)).

Definition actorFQNPattern : re :=
  RSeq label (RSeq (RChar ":") (RSeq (RChar ":")
    (RSeq label (RSeq (RChar "-") instance_number)))).

Definition roleFQRNPattern : re := label.

Definition hexes (n : nat) : re := RRep n n (RClass is_hex).

Definition uuidV7Pattern : re :=
  RSeq (hexes 8) (RSeq (RChar "-") (RSeq (hexes 4) (RSeq (RChar "-")
    (RSeq (RChar "7") (RSeq (hexes 3) (RSeq (RChar "-")
      (RSeq (RClass (fun c => (c == "8"%char) || (c == "9"%char) || (c == "a"%char) || (c == "b"%char)))
        (RSeq (hexes 3) (RSeq (RChar "-") (hexes 12)))))))))).

Definition digestPattern : re := hexes 64.

(** ** Identifiers *)

Definition ActorFQN := string.
Definition RoleFQRN := string.
Definition UUIDv7 := string.
Definition Digest := string.

Definition ActorFQN_Valid (f : ActorFQN) : bool := re_match actorFQNPattern f.
Definition ParseActorFQN (value : string) : option ActorFQN :=
  when negb (re_match actorFQNPattern value) return None ;; Some value.

Definition validRoleFQRN (value : string) : bool := re_match roleFQRNPattern value.
Definition RoleFQRN_Valid (f : RoleFQRN) : bool := validRoleFQRN f.
Definition ParseRoleFQRN (value : string) : option RoleFQRN :=
  when negb (validRoleFQRN value) return None ;; Some value.

Definition RoleFQRNFromActor (actor : ActorFQN) : option RoleFQRN :=
  when negb (ActorFQN_Valid actor) return None ;;
  match str_cut "::" actor with
  | None => None
  | Some (_, roleAndInstance) =>
    match before_last "-" roleAndInstance with
    | None => None
    | Some role => ParseRoleFQRN role
    end
  end.

Definition UUIDv7_Valid (id : UUIDv7) : bool := re_match uuidV7Pattern id.
Definition ParseUUIDv7 (value : string) : option UUIDv7 :=
  when negb (re_match uuidV7Pattern value) return None ;; Some value.

Definition Digest_Valid (d : Digest) : bool := re_match digestPattern d.
Definition ParseDigest (value : string) : option Digest :=
  when negb (re_match digestPattern value) return None ;; Some value.

(** ** Aggregates and principals *)

Definition AggregateKind := string.
Definition AggregateStory : AggregateKind := "story".
Definition AggregateTask : AggregateKind := "task".
Definition AggregateCompletionReview : AggregateKind := "completion-review".
Definition AggregateEscalation : AggregateKind := "escalation".
Definition AggregateReleasePlan : AggregateKind := "release-plan".
Definition AggregateVariantGroup : AggregateKind := "variant-group".
Definition AggregateHumanParticipant : AggregateKind := "human-participant".
Definition AggregateHumanInteraction : AggregateKind := "human-interaction".
Definition AggregateEvidence : AggregateKind := "evidence".
Definition AggregateExecution : AggregateKind := "execution".
Definition AggregateSystem : AggregateKind := "system".
Definition AggregateWorkBudget : AggregateKind := "work-budget-account".
Definition AggregateWorkInvocation : AggregateKind := "work-invocation".
Definition AggregateWorkflowInstance : AggregateKind := "workflow-instance".

Definition AggregateKind_Valid (k : AggregateKind) : bool :=
  contains [AggregateStory; AggregateTask; AggregateCompletionReview; AggregateEscalation;
    AggregateReleasePlan; AggregateVariantGroup; AggregateHumanParticipant;
    AggregateHumanInteraction; AggregateEvidence; AggregateExecution; AggregateSystem;
    AggregateWorkBudget; AggregateWorkInvocation; AggregateWorkflowInstance] k.

Record AggregateRef := mkRef { ref_Kind : AggregateKind; ref_ID : UUIDv7 }.

Definition AggregateRef_Valid (r : AggregateRef) : bool :=
  AggregateKind_Valid (ref_Kind r) && UUIDv7_Valid (ref_ID r).

Definition PrincipalKind := string.
Definition PrincipalActor : PrincipalKind := "ACTOR".
Definition PrincipalHuman : PrincipalKind := "HUMAN".
Definition PrincipalService : PrincipalKind := "SERVICE".
Definition PrincipalPolicy : PrincipalKind := "POLICY".

Record PrincipalRef := mkPrincipal { pr_Kind : PrincipalKind; pr_ID : string }.

Definition PrincipalRef_Valid (p : PrincipalRef) : bool :=
  when (slen (pr_ID p) <? 1) || (256 <? slen (pr_ID p)) return false ;;
  contains [PrincipalActor; PrincipalHuman; PrincipalService; PrincipalPolicy] (pr_Kind p).

Record ExecutionTuple := mkExec { ex_ExecutionID : UUIDv7; ex_FencingEpoch : Z }.

Definition ExecutionTuple_Valid (e : ExecutionTuple) : bool :=
  UUIDv7_Valid (ex_ExecutionID e) && (0 <? ex_FencingEpoch e).

Definition EdgeKind := string.
Definition EdgeCausal : EdgeKind := "CAUSAL".
Definition EdgeResponse : EdgeKind := "RESPONSE".
Definition EdgeRetry : EdgeKind := "RETRY".
Definition EdgeDerivation : EdgeKind := "DERIVATION".
Definition EdgeSupersession : EdgeKind := "SUPERSESSION".

Definition EdgeKind_Valid (k : EdgeKind) : bool :=
  contains [EdgeCausal; EdgeResponse; EdgeRetry; EdgeDerivation; EdgeSupersession] k.

Record DagParent := mkParent { dp_ParentEventID : UUIDv7; dp_EdgeKind : EdgeKind }.

Record EvidenceRef := mkEvidence { er_EvidenceID : UUIDv7; er_SHA256 : Digest }.

(** ** Lifecycle phases *)

Inductive Phase :=
| PhaseDraft | PhasePlanned | PhaseReady | PhasePlanning
| PhaseActive | PhaseCompleted | PhaseAccepted | PhaseClosed.

Inductive Condition := ConditionRunnable | ConditionBlocked.

Record Ownership := mkOwnership {
  own_OwnerFQN : option ActorFQN;
  own_OwnershipVersion : Z;
  own_AssignedEventID : option UUIDv7
}.

#[export] Instance eta_Ownership : Eta Ownership := fun r =>
  mkOwnership (own_OwnerFQN r) (own_OwnershipVersion r) (own_AssignedEventID r).

(** ** Decidable equality and countability *)

#[global] Instance AggregateRef_eq_dec : EqDecision AggregateRef.
Proof. solve_decision. Defined.
#[global] Instance PrincipalRef_eq_dec : EqDecision PrincipalRef.
Proof. solve_decision. Defined.
#[global] Instance ExecutionTuple_eq_dec : EqDecision ExecutionTuple.
Proof. solve_decision. Defined.
#[global] Instance DagParent_eq_dec : EqDecision DagParent.
Proof. solve_decision. Defined.
#[global] Instance EvidenceRef_eq_dec : EqDecision EvidenceRef.
Proof. solve_decision. Defined.
#[global] Instance Phase_eq_dec : EqDecision Phase.
Proof. solve_decision. Defined.
#[global] Instance Condition_eq_dec : EqDecision Condition.
Proof. solve_decision. Defined.
#[global] Instance Ownership_eq_dec : EqDecision Ownership.
Proof. solve_decision. Defined.

(** Pairs of strings are the keys of most maps. *)
#[global] Instance AggregateRef_countable : Countable AggregateRef.
Proof.
  apply (inj_countable' (fun r => (ref_Kind r, ref_ID r)) (fun p => mkRef p.1 p.2)).
  by intros [].
Defined.
#[global] Instance PrincipalRef_countable : Countable PrincipalRef.
Proof.
  apply (inj_countable' (fun r => (pr_Kind r, pr_ID r)) (fun p => mkPrincipal p.1 p.2)).
  by intros [].
Defined.
#[global] Instance DagParent_countable : Countable DagParent.
Proof.
  apply (inj_countable' (fun r => (dp_ParentEventID r, dp_EdgeKind r))
           (fun p => mkParent p.1 p.2)).
  by intros [].
Defined.
#[global] Instance EvidenceRef_countable : Countable EvidenceRef.
Proof.
  apply (inj_countable' (fun r => (er_EvidenceID r, er_SHA256 r))
           (fun p => mkEvidence p.1 p.2)).
  by intros [].
Defined.

(** The canonical orders of references, parents and evidence are
    antisymmetric: their two keys are all there is. *)
#[global] Instance ref_le_antisymm : AntiSymm (=) (key_le ref_Kind ref_ID).
Proof.
  intros [] [] H1 H2. destruct (key_le_antisymm_keys _ _ _ _ H1 H2). simpl in *. congruence.
Qed.
#[global] Instance parent_le_antisymm : AntiSymm (=) (key_le dp_EdgeKind dp_ParentEventID).
Proof.
  intros [] [] H1 H2. destruct (key_le_antisymm_keys _ _ _ _ H1 H2). simpl in *. congruence.
Qed.
#[global] Instance evidence_le_antisymm : AntiSymm (=) (key_le er_EvidenceID er_SHA256).
Proof.
  intros [] [] H1 H2. destruct (key_le_antisymm_keys _ _ _ _ H1 H2). simpl in *. congruence.
Qed.

(** ** Struct decoders *)

#[export] Instance eta_AggregateRef : Eta AggregateRef := fun r =>
  mkRef (ref_Kind r) (ref_ID r).
#[export] Instance eta_PrincipalRef : Eta PrincipalRef := fun r =>
  mkPrincipal (pr_Kind r) (pr_ID r).

Definition zero_ref : AggregateRef := mkRef "" "".
Definition zero_principal : PrincipalRef := mkPrincipal "" "".
Definition zero_exec : ExecutionTuple := mkExec "" 0.

Definition dec_AggregateRef : decoder AggregateRef :=
  dec_struct [fld "kind" ref_Kind dec_string; fld "id" ref_ID dec_string].
Definition dec_PrincipalRef : decoder PrincipalRef :=
  dec_struct [fld "kind" pr_Kind dec_string; fld "id" pr_ID dec_string].

(** ** Role names of actors *)

(** Every byte of a label is alphanumeric or a dash. *)
Lemma label_chars s : matches label s -> all_chars alnum_dash s = true.
Proof.
  apply matches_chars. unfold alnum_dash.
  assert (forall c, is_alnum c = true -> is_alnum c || (c == "-"%char) = true)
    by (intros c ->; done).
  simpl. naive_solver.
Qed.

Lemma label_no_colon s :
  matches label s -> all_chars (fun d => d != ":"%char) s = true.
Proof.
  intros H%label_chars. revert H. apply all_chars_impl. intros c Hc.
  apply negb_true_iff, bool_decide_eq_false. by intros ->.
Qed.

Lemma instance_number_no_dash s :
  matches instance_number s -> all_chars (fun d => d != "-"%char) s = true.
Proof.
  apply matches_chars.
  assert (forall lo hi c, in_range lo hi c = true -> in_range lo hi "-"%char = false ->
            negb (c == "-"%char) = true) as Hr.
  { intros lo hi c Hc Hd. apply negb_true_iff, bool_decide_eq_false. intros ->.
    rewrite Hc in Hd. discriminate Hd. }
  simpl. split; intros c Hc; by apply (Hr _ _ _ Hc).
Qed.

Lemma RChar_matches c s : matches (RChar c) s -> s = String c "".
Proof. intros (d & -> & E). by apply bool_decide_eq_true in E as ->. Qed.

(** The shape of a valid actor name. *)
Lemma actor_shape actor :
  ActorFQN_Valid actor = true <->
  exists team role n, actor = (team +:+ "::" +:+ role +:+ "-" +:+ n)%string /\
    matches label team /\ matches label role /\ matches instance_number n.
Proof.
  unfold ActorFQN_Valid. rewrite re_match_spec. split.
  - intros (team & s1 & -> & Ht & c1 & s2 & -> & Hc1 & c2 & s3 & -> & Hc2 &
            role & s4 & -> & Hr & c3 & n & -> & Hc3 & Hn).
    apply RChar_matches in Hc1 as ->, Hc2 as ->, Hc3 as ->.
    by exists team, role, n.
  - intros (team & role & n & -> & Ht & Hr & Hn).
    assert (forall c, matches (RChar c) (String c "")) as Hc
      by (intros c; exists c; by rewrite bool_decide_refl).
    exists team, ("::" +:+ role +:+ "-" +:+ n)%string. split_and!; [done..|].
    exists ":", (":" +:+ role +:+ "-" +:+ n)%string. split_and!; [done..|].
    exists ":", (role +:+ "-" +:+ n)%string. split_and!; [done..|].
    exists role, ("-" +:+ n)%string. split_and!; [done..|].
    by exists "-", n.
Qed.

Lemma RoleFQRNFromActor_shape team role n :
  matches label team -> matches label role -> matches instance_number n ->
  RoleFQRNFromActor (team +:+ "::" +:+ role +:+ "-" +:+ n) = Some role.
Proof.
  intros Ht Hr Hn. unfold RoleFQRNFromActor.
  assert (ActorFQN_Valid (team +:+ "::" +:+ role +:+ "-" +:+ n) = true) as ->
    by (apply actor_shape; eauto 10).
  cbn [negb].
  rewrite (str_cut_app ":" ":" team (role +:+ "-" +:+ n)) by by apply label_no_colon.
  change ("-" +:+ n) with (String "-" n).
  rewrite (before_last_app "-" role n) by by apply instance_number_no_dash.
  unfold ParseRoleFQRN, validRoleFQRN.
  assert (re_match roleFQRNPattern role = true) as -> by by apply re_match_spec.
  done.
Qed.
