(* ===== verification/Samples.v ===== *)
(** * Sample identifiers

    Well-formed identifiers and JSON text used by the concrete executions
    that accompany the theorems. *)

From S2P Require Import Prelude GoText GoTime GoJson Types.

(** UUIDs [...0] to [...f], by their last digit. *)
Definition uid (last : ascii) : UUIDv7 :=
  "01890000-0000-7000-8000-00000000000" +:+ String last "".

(** Digests made of one repeated digit. *)
Fixpoint repeat_char (n : nat) (c : ascii) : string :=
  match n with O => "" | S n => String c (repeat_char n c) end.
Definition dig (c : ascii) : Digest := repeat_char 64 c.

Definition actor_a : ActorFQN := "core::builder-1".
Definition actor_b : ActorFQN := "core::tester-2".
Definition sample_time : Time :=
  match parse_rfc3339 "2026-01-01T00:00:00Z" with Some t => t | None => zero_time end.

(** JSON text: members are written with apostrophes and turned into quotes. *)
Definition qs (s : string) : string := "'" +:+ s +:+ "'".
Fixpoint join (sep : string) (l : list string) : string :=
  match l with
  | [] => ""
  | [x] => x
  | x :: l => x +:+ sep +:+ join sep l
  end.
Definition jarr (l : list string) : string := "[" +:+ join "," l +:+ "]".
Definition jobj (l : list (string * string)) : string :=
  "{" +:+ join "," (map (fun kv => qs (fst kv) +:+ ":" +:+ snd kv) l) +:+ "}".
Definition jdoc (l : list (string * string)) : string := js (jobj l).

Example uid_valid : UUIDv7_Valid (uid "1") = true.
Proof. vm_compute. reflexivity. Qed.
Example dig_valid : Digest_Valid (dig "a") = true.
Proof. vm_compute. reflexivity. Qed.
Example actor_valid : ActorFQN_Valid actor_a = true.
Proof. vm_compute. reflexivity. Qed.
