(* ===== verification/Sha256.v ===== *)
(** * SHA-256 ([crypto/sha256])

    The hash function of Go's standard library (FIPS 180-4) on byte strings, and
    [hex.EncodeToString] of its result. Words are integers below 2^32. The message
    schedule is a sliding window of sixteen words. *)

From S2P Require Import Prelude GoText GoTime GoJson GoMarshal Types.

(** The low 32 bits. *)
Definition low32 (x : Z) : Z := Z.land x 4294967295.
Lemma low32_u32 x : low32 x = u32 x.
Proof. unfold low32, u32. change 4294967295 with (Z.ones 32). by rewrite Z.land_ones. Qed.

Definition word_add (a b : Z) : Z := low32 (a + b).
Definition rotr (n x : Z) : Z := Z.lor (Z.shiftr x n) (low32 (Z.shiftl x (32 - n))).
Definition word_not (x : Z) : Z := Z.lxor x (u32_mod - 1).

Definition choose (x y z : Z) : Z := Z.lxor (Z.land x y) (Z.land (word_not x) z).
Definition majority (x y z : Z) : Z := Z.lxor (Z.lxor (Z.land x y) (Z.land x z)) (Z.land y z).
Definition big_sigma0 (x : Z) : Z := Z.lxor (Z.lxor (rotr 2 x) (rotr 13 x)) (rotr 22 x).
Definition big_sigma1 (x : Z) : Z := Z.lxor (Z.lxor (rotr 6 x) (rotr 11 x)) (rotr 25 x).
Definition small_sigma0 (x : Z) : Z := Z.lxor (Z.lxor (rotr 7 x) (rotr 18 x)) (Z.shiftr x 3).
Definition small_sigma1 (x : Z) : Z := Z.lxor (Z.lxor (rotr 17 x) (rotr 19 x)) (Z.shiftr x 10).

(** The fractional parts of the cube roots of the first 64 primes. *)
Definition round_constants : list Z :=
  [1116352408; 1899447441; 3049323471; 3921009573; 961987163; 1508970993; 2453635748;
   2870763221; 3624381080; 310598401; 607225278; 1426881987; 1925078388; 2162078206;
   2614888103; 3248222580; 3835390401; 4022224774; 264347078; 604807628; 770255983;
   1249150122; 1555081692; 1996064986; 2554220882; 2821834349; 2952996808; 3210313671;
   3336571891; 3584528711; 113926993; 338241895; 666307205; 773529912; 1294757372; 1396182291;
   1695183700; 1986661051; 2177026350; 2456956037; 2730485921; 2820302411; 3259730800;
   3345764771; 3516065817; 3600352804; 4094571909; 275423344; 430227734; 506948616; 659060556;
   883997877; 958139571; 1322822218; 1537002063; 1747873779; 1955562222; 2024104815;
   2227730452; 2361852424; 2428436474; 2756734187; 3204031479; 3329325298].

(** The fractional parts of the square roots of the first eight primes. *)
Definition initial_hash : list Z :=
  [1779033703; 3144134277; 1013904242; 2773480762; 1359893119; 2600822924; 528734635;
   1541459225].

Definition next_word (w : list Z) : Z :=
  word_add (word_add (small_sigma1 (nth 14 w 0)) (nth 9 w 0))
           (word_add (small_sigma0 (nth 1 w 0)) (nth 0 w 0)).

Definition round (st : list Z) (k w : Z) : list Z :=
  match st with
  | [a; b; c; d; e; f; g; h] =>
    let t1 := word_add (word_add (word_add h (big_sigma1 e)) (word_add (choose e f g) k)) w in
    let t2 := word_add (big_sigma0 a) (majority a b c) in
    [word_add t1 t2; a; b; c; word_add d t1; e; f; g]
  | _ => st
  end.

(** One round per constant; [w] holds the sixteen words of the schedule from the
    current round on. *)
Fixpoint rounds (ks : list Z) (w st : list Z) : list Z :=
  match ks, w with
  | k :: ks, w0 :: ws => rounds ks (ws ++ [next_word w]) (round st k w0)
  | _, _ => st
  end.

Definition compress (st block : list Z) : list Z :=
  zip_with word_add st (rounds round_constants block st).

(** Big-endian words. *)
Fixpoint words (bytes : list Z) : list Z :=
  match bytes with
  | a :: b :: c :: d :: rest => ((a * 256 + b) * 256 + c) * 256 + d :: words rest
  | _ => []
  end.

Fixpoint big_endian (n : nat) (z : Z) (acc : list Z) : list Z :=
  match n with
  | O => acc
  | S n => big_endian n (z / 256) (z mod 256 :: acc)
  end.

(** The bit 1, zeros up to 56 bytes of a block, and the length in bits. *)
Definition pad (bytes : list Z) : list Z :=
  let n := llen bytes in
  bytes ++ 128 :: repeat 0 (Z.to_nat ((55 - n) mod 64)) ++ big_endian 8 (u64 (8 * n)) [].

Fixpoint blocks (fuel : nat) (st ws : list Z) : list Z :=
  match fuel, ws with
  | S fuel, _ :: _ => blocks fuel (compress st (firstn 16 ws)) (skipn 16 ws)
  | _, _ => st
  end.

Definition bytes_of (s : string) : list Z := map byte_of (list_ascii_of_string s).

(** [sha256.Sum256]: every block takes sixteen words, so the number of words is
    enough fuel. *)
Definition Sum256 (s : string) : list Z :=
  let ws := words (pad (bytes_of s)) in
  concat (map (fun w => big_endian 4 w []) (blocks (length ws) initial_hash ws)).

(** [hex.EncodeToString]. *)
Definition hex_encode (bytes : list Z) : string :=
  foldr (fun b s => String (hex_char (b / 16)) (String (hex_char (b mod 16)) s)) "" bytes.

Definition sha256_hex (s : string) : Digest := hex_encode (Sum256 s).

Example sha256_empty :
  sha256_hex "" = "e3b0c44298fc1c149afbf4c8996fb92427ae41e4649b934ca495991b7852b855".
Proof. vm_compute. reflexivity. Qed.
Example sha256_abc :
  sha256_hex "abc" = "ba7816bf8f01cfea414140de5dae2223b00361a396177a9cb410ff61f20015ad".
Proof. vm_compute. reflexivity. Qed.
Example sha256_two_blocks :
  sha256_hex "abcdbcdecdefdefgefghfghighijhijkijkljklmklmnlmnomnopnopq"
  = "248d6a61d20638b8e5c026930c3e6039a33ce45964ff2167f6ecedd419db06c1".
Proof. vm_compute. reflexivity. Qed.

(** ** A digest is sixty-four hexadecimal digits *)

Definition is_byte (b : Z) : Prop := 0 <= b < 256.

Lemma big_endian_bytes n z acc :
  Forall is_byte acc -> Forall is_byte (big_endian n z acc) /\ length (big_endian n z acc) = (n + length acc)%nat.
Proof.
  revert z acc. induction n as [|n IH]; intros z acc H; [done|]. cbn [big_endian].
  destruct (IH (z / 256) (z mod 256 :: acc)) as [HF HL].
  - constructor; [|done]. apply Z.mod_pos_bound. lia.
  - split; [done|]. rewrite HL. cbn. lia.
Qed.

Lemma round_length st k w : length st = 8%nat -> length (round st k w) = 8%nat.
Proof. intros H. do 8 (destruct st as [|? st]; [discriminate H|]). by destruct st. Qed.

Lemma rounds_length ks w st : length st = 8%nat -> length (rounds ks w st) = 8%nat.
Proof.
  revert w st. induction ks as [|k ks IH]; intros w st H; [done|]. destruct w as [|w0 ws]; [done|].
  cbn. by apply IH, round_length.
Qed.

Lemma blocks_length fuel st ws : length st = 8%nat -> length (blocks fuel st ws) = 8%nat.
Proof.
  revert st ws. induction fuel as [|fuel IH]; intros st ws H; [done|]. destruct ws as [|w ws]; [done|].
  cbn [blocks]. apply IH. unfold compress. by rewrite length_zip_with_l_eq; rewrite ?rounds_length.
Qed.

Lemma Sum256_bytes s : Forall is_byte (Sum256 s) /\ length (Sum256 s) = 32%nat.
Proof.
  unfold Sum256. cbv zeta. set (ws := blocks _ _ _).
  assert (length ws = 8%nat) as H by (by apply blocks_length). clearbody ws.
  change 32%nat with (4 * 8)%nat. rewrite <- H. clear H. induction ws as [|w ws [IH1 IH2]]; [done|]. cbn [map concat].
  destruct (big_endian_bytes 4 w []) as [HF HL]; [done|]. split; [by apply Forall_app|].
  rewrite length_app, HL, IH2. cbn. lia.
Qed.

Lemma hex_char_hex d : 0 <= d < 16 -> is_hex (hex_char d) = true.
Proof.
  intros H. assert (forallb (fun d => is_hex (hex_char d)) (seqZ 0 16) = true) as HF by (vm_compute; reflexivity).
  rewrite forallb_True_iff, Forall_forall in HF. apply HF, elem_of_seqZ. lia.
Qed.

Lemma hex_encode_hex l : Forall is_byte l ->
  all_chars is_hex (hex_encode l) = true /\ String.length (hex_encode l) = (2 * length l)%nat.
Proof.
  induction 1 as [|b l Hb _ [IH1 IH2]]; [done|]. unfold is_byte in Hb. cbn.
  rewrite !hex_char_hex. 2: by apply Z.mod_pos_bound.
  2: { split; [apply Z.div_pos; lia|]. apply Z.div_lt_upper_bound; lia. }
  unfold hex_encode in IH1, IH2. rewrite IH1, IH2. split; [done|]. cbn. lia.
Qed.

Lemma pow_class p s : all_chars p s = true -> pow (matches (RClass p)) (String.length s) s.
Proof.
  induction s as [|c s IH]; cbn; [done|]. rewrite andb_true_iff. intros [Hc Hs].
  exists (String c ""), s. split_and!; eauto.
Qed.

Lemma sha256_hex_valid s : Digest_Valid (sha256_hex s) = true.
Proof.
  unfold Digest_Valid. apply re_match_spec. destruct (Sum256_bytes s) as [HB HL].
  destruct (hex_encode_hex _ HB) as [Hh Hl]. rewrite HL in Hl.
  exists 64%nat. split; [lia|]. unfold sha256_hex. change 64%nat with (2 * 32)%nat. rewrite <- Hl.
  by apply pow_class.
Qed.

Lemma bytes_of_bytes s : Forall is_byte (bytes_of s).
Proof.
  unfold bytes_of. apply Forall_fmap, Forall_forall. intros c _. cbn. unfold is_byte, byte_of.
  pose proof (N_ascii_bounded c). lia.
Qed.
