(* ===== verification/Lifecycle.v ===== *)
(** * The work lifecycle ([kernel/lifecycle.go])

    The state machine of stories and tasks: [applyLifecycleAction] applies one
    action to a state or rejects it; [ApplyLifecycleActions] runs a history and
    stops at the first rejected action. [transition] is the abstract diagram
    the code implements. *)

From S2P Require Import Prelude Types.

Inductive LifecycleAction :=
| ActionAuthorize | ActionBeginPlanning | ActionMarkReady | ActionActivate
| ActionComplete | ActionAccept | ActionBlock | ActionUnblock
| ActionReopen | ActionClose.

Inductive LifecycleModel := LifecycleStory | LifecycleTask.

#[global] Instance LifecycleAction_eq_dec : EqDecision LifecycleAction.
Proof. solve_decision. Defined.
#[global] Instance LifecycleModel_eq_dec : EqDecision LifecycleModel.
Proof. solve_decision. Defined.

Definition ReasonRejectedPolicy : string := "REJECTED_POLICY".

Record LifecycleState := mkLifecycle {
  lc_Phase : Phase;
  lc_Condition : Condition;
  lc_LifecycleEpoch : Z;
  lc_Rejected : option string
}.

#[export] Instance eta_LifecycleState : Eta LifecycleState := fun r =>
  mkLifecycle (lc_Phase r) (lc_Condition r) (lc_LifecycleEpoch r) (lc_Rejected r).

Definition lifecycleTransition (model : LifecycleModel) (phase : Phase)
    (action : LifecycleAction) : option Phase :=
  match model with
  | LifecycleStory =>
    match phase, action with
    | PhaseDraft, ActionAuthorize => Some PhaseReady
    | PhaseReady, ActionBeginPlanning => Some PhasePlanning
    | PhasePlanning, ActionActivate => Some PhaseActive
    | PhaseActive, ActionComplete => Some PhaseCompleted
    | PhaseCompleted, ActionAccept => Some PhaseAccepted
    | _, _ => None
    end
  | LifecycleTask =>
    match phase, action with
    | PhasePlanned, ActionMarkReady => Some PhaseReady
    | PhaseReady, ActionActivate => Some PhaseActive
    | PhaseActive, ActionComplete => Some PhaseCompleted
    | _, _ => None
    end
  end.

(** [None]: the action is refused and the state left unchanged. *)
Definition applyLifecycleAction (model : LifecycleModel) (state : LifecycleState)
    (action : LifecycleAction) : option LifecycleState :=
  match action with
  | ActionBlock =>
    when (lc_Condition state != ConditionRunnable) || (lc_Phase state == PhaseClosed)
      return None ;;
    Some (state <| lc_Condition := ConditionBlocked |>)
  | ActionUnblock =>
    when (lc_Condition state != ConditionBlocked) || (lc_Phase state == PhaseClosed)
      return None ;;
    Some (state <| lc_Condition := ConditionRunnable |>)
  | ActionReopen =>
    let reopened :=
      state <| lc_Phase := PhaseActive |>
            <| lc_LifecycleEpoch := u64 (lc_LifecycleEpoch state + 1) |> in
    when (model == LifecycleStory)
         && ((lc_Phase state == PhaseCompleted) || (lc_Phase state == PhaseAccepted))
      return Some reopened ;;
    when (model == LifecycleTask) && (lc_Phase state == PhaseCompleted)
      return Some reopened ;;
    None
  | ActionClose =>
    when lc_Phase state == PhaseClosed return None ;;
    Some (state <| lc_Phase := PhaseClosed |>)
  | _ =>
    match lifecycleTransition model (lc_Phase state) action with
    | None => None
    | Some next => Some (state <| lc_Phase := next |>)
    end
  end.

Fixpoint apply_all (model : LifecycleModel) (state : LifecycleState)
    (actions : list LifecycleAction) : LifecycleState :=
  match actions with
  | [] => state
  | action :: rest =>
    match applyLifecycleAction model state action with
    | Some state' => apply_all model state' rest
    | None => state <| lc_Rejected := Some ReasonRejectedPolicy |>
    end
  end.

Definition ApplyLifecycleActions (model : LifecycleModel) (initial : LifecycleState)
    (actions : list LifecycleAction) : LifecycleState :=
  apply_all model (initial <| lc_Rejected := None |>) actions.

(** ** The diagram *)

(** The forward path of a model; [Block], [Unblock], [Reopen] and [Close]
    are the other arrows of [transition]. *)
Inductive forward : LifecycleModel -> LifecycleAction -> Phase -> Phase -> Prop :=
| fw_authorize : forward LifecycleStory ActionAuthorize PhaseDraft PhaseReady
| fw_plan : forward LifecycleStory ActionBeginPlanning PhaseReady PhasePlanning
| fw_story_activate : forward LifecycleStory ActionActivate PhasePlanning PhaseActive
| fw_story_complete : forward LifecycleStory ActionComplete PhaseActive PhaseCompleted
| fw_accept : forward LifecycleStory ActionAccept PhaseCompleted PhaseAccepted
| fw_ready : forward LifecycleTask ActionMarkReady PhasePlanned PhaseReady
| fw_task_activate : forward LifecycleTask ActionActivate PhaseReady PhaseActive
| fw_task_complete : forward LifecycleTask ActionComplete PhaseActive PhaseCompleted.

Inductive reopenable : LifecycleModel -> Phase -> Prop :=
| ro_completed m : reopenable m PhaseCompleted
| ro_accepted : reopenable LifecycleStory PhaseAccepted.

(** A configuration is a phase, a condition and a lifecycle epoch. *)
Definition config : Type := Phase * Condition * Z.

Inductive transition (m : LifecycleModel) : LifecycleAction -> config -> config -> Prop :=
| tr_forward a p p' c e :
    forward m a p p' -> transition m a (p, c, e) (p', c, e)
| tr_block p e :
    p <> PhaseClosed ->
    transition m ActionBlock (p, ConditionRunnable, e) (p, ConditionBlocked, e)
| tr_unblock p e :
    p <> PhaseClosed ->
    transition m ActionUnblock (p, ConditionBlocked, e) (p, ConditionRunnable, e)
| tr_reopen p c e :
    reopenable m p ->
    transition m ActionReopen (p, c, e) (PhaseActive, c, u64 (e + 1))
| tr_close p c e :
    p <> PhaseClosed -> transition m ActionClose (p, c, e) (PhaseClosed, c, e).

Definition config_of (s : LifecycleState) : config :=
  (lc_Phase s, lc_Condition s, lc_LifecycleEpoch s).

Create HintDb lifecycle.
#[export] Hint Constructors forward reopenable transition : lifecycle.

(** One accepted action is one arrow of the diagram, and conversely. *)
Lemma applyLifecycleAction_transition m s a s' :
  applyLifecycleAction m s a = Some s' <->
  transition m a (config_of s) (config_of s') /\ lc_Rejected s' = lc_Rejected s.
Proof.
  destruct s as [p c e r], s' as [p' c' e' r']. unfold config_of. simpl.
  split.
  - intros H. destruct m, a, p, c; simpl in H; simplify_eq/=;
      split; auto with lifecycle; constructor; auto with lifecycle; discriminate.
  - intros [Ht Hr]; simplify_eq/=; inversion Ht; simplify_eq/=;
      repeat match goal with
             | H : forward _ _ _ _ |- _ => inversion H; clear H; simplify_eq/=; auto
             | H : reopenable _ _ |- _ => inversion H; clear H; simplify_eq/=
             | H : ?p <> PhaseClosed |- _ => destruct p; [..|done]; clear H
             end; try done; by destruct m.
Qed.

(** Runs of the diagram. *)
Inductive run (m : LifecycleModel) : list LifecycleAction -> config -> config -> Prop :=
| run_nil x : run m [] x x
| run_cons a l x y z : transition m a x y -> run m l y z -> run m (a :: l) x z.
#[export] Hint Constructors run : lifecycle.

Lemma apply_all_run m s l s' :
  lc_Rejected s = None ->
  apply_all m s l = s' -> lc_Rejected s' = None -> run m l (config_of s) (config_of s').
Proof.
  revert s. induction l as [|a l IH]; intros s Hs Happ Hr; simpl in Happ.
  - subst. constructor.
  - destruct (applyLifecycleAction m s a) as [s1|] eqn:E.
    + apply applyLifecycleAction_transition in E as [Ht Hrej].
      econstructor; [done|]. apply IH; [congruence | done | done].
    + subst. done.
Qed.

(** The diagram is deterministic. *)
Lemma transition_det m a x y z : transition m a x y -> transition m a x z -> y = z.
Proof.
  intros H1 H2.
  destruct H1 as [a p p' c e Hf|p e Hp|p e Hp|p c e Hr|p c e Hp]; inversion H2; subst;
    try match goal with H : forward m ?b _ _ |- _ => destruct H; inversion Hf end;
    try match goal with H : forward m _ _ _ |- _ => inversion H end;
    try done; inversion Hf.
Qed.

Lemma run_apply_all m l x y s :
  run m l x y -> config_of s = x ->
  exists s', apply_all m s l = s' /\ config_of s' = y /\ lc_Rejected s' = lc_Rejected s.
Proof.
  intros Hrun. revert s. induction Hrun as [x|a l x y z Ht Hrun IH]; intros s Hs; simpl.
  - by exists s.
  - destruct y as [[p c] e].
    destruct (applyLifecycleAction m s a) as [s1|] eqn:E.
    + apply applyLifecycleAction_transition in E as [Ht1 Hr1].
      assert (config_of s1 = (p, c, e)) as E1.
      { subst x. clear -Ht Ht1. destruct s as [p0 c0 e0 r0]. unfold config_of in *.
        simpl in *. by eapply transition_det. }
      destruct (IH s1 E1) as (s' & Ha & Hc & Hr). exists s'.
      split_and!; [exact Ha | exact Hc | congruence].
    + exfalso.
      assert (applyLifecycleAction m s a = Some (mkLifecycle p c e (lc_Rejected s))) as E1.
      { apply applyLifecycleAction_transition. split; [by subst | done]. }
      congruence.
Qed.


(** ** Consequences for histories *)

(** The first phase of each model. *)
Definition initial_phase (m : LifecycleModel) : Phase :=
  match m with LifecycleStory => PhaseDraft | LifecycleTask => PhasePlanned end.

(** The forward actions a model takes to reach a phase. *)
Definition path_to (m : LifecycleModel) (p : Phase) : list LifecycleAction :=
  match m, p with
  | LifecycleStory, PhaseReady => [ActionAuthorize]
  | LifecycleStory, PhasePlanning => [ActionAuthorize; ActionBeginPlanning]
  | LifecycleStory, PhaseActive => [ActionAuthorize; ActionBeginPlanning; ActionActivate]
  | LifecycleStory, PhaseCompleted =>
    [ActionAuthorize; ActionBeginPlanning; ActionActivate; ActionComplete]
  | LifecycleStory, PhaseAccepted =>
    [ActionAuthorize; ActionBeginPlanning; ActionActivate; ActionComplete; ActionAccept]
  | LifecycleTask, PhaseReady => [ActionMarkReady]
  | LifecycleTask, PhaseActive => [ActionMarkReady; ActionActivate]
  | LifecycleTask, PhaseCompleted => [ActionMarkReady; ActionActivate; ActionComplete]
  | _, _ => []
  end.

(** The phases a model can be in. *)
Definition in_model (m : LifecycleModel) (p : Phase) : bool :=
  match m, p with
  | _, (PhaseReady | PhaseActive | PhaseCompleted | PhaseClosed) => true
  | LifecycleStory, (PhaseDraft | PhasePlanning | PhaseAccepted) => true
  | LifecycleTask, PhasePlanned => true
  | _, _ => false
  end.

Lemma transition_in_model m a x y :
  transition m a x y -> in_model m x.1.1 = true -> in_model m y.1.1 = true.
Proof.
  intros Ht Hin. destruct Ht as [a p p' c e Hf|p e Hp|p e Hp|p c e Hr|p c e Hp];
    simpl in *; [by destruct Hf | done | done | by destruct m..].
Qed.

Lemma transition_path m a x y :
  transition m a x y -> in_model m x.1.1 = true ->
  sublist (path_to m y.1.1) (path_to m x.1.1 ++ [a]).
Proof.
  intros Ht Hin. destruct Ht as [a p p' c e Hf|p e Hp|p e Hp|p c e Hr|p c e Hp]; simpl.
  - by destruct Hf.
  - by apply sublist_inserts_r.
  - by apply sublist_inserts_r.
  - destruct Hr as [m|]; [destruct m|]; repeat constructor.
  - destruct m; apply sublist_nil_l.
Qed.

Lemma run_path m l x y :
  run m l x y -> in_model m x.1.1 = true ->
  in_model m y.1.1 = true /\ sublist (path_to m y.1.1) (path_to m x.1.1 ++ l).
Proof.
  intros Hrun. induction Hrun as [x|a l x y z Ht Hrun IH]; intros Hin.
  - rewrite app_nil_r. done.
  - destruct IH as [Hz Hsub]; [by eapply transition_in_model|]. split; [done|].
    etrans; [exact Hsub|].
    rewrite (cons_middle a (path_to m x.1.1) l), app_assoc.
    apply sublist_app; [|done]. by eapply transition_path.
Qed.

(** Phases cannot be skipped: an accepted history of a new story or task
    contains, in order, every forward action on the path to the phase it ends
    in. A story that ends up accepted was authorised, planned, activated,
    completed and then accepted. *)
Theorem no_phase_skipped m e l s' :
  ApplyLifecycleActions m (mkLifecycle (initial_phase m) ConditionRunnable e None) l = s' ->
  lc_Rejected s' = None ->
  sublist (path_to m (lc_Phase s')) l.
Proof.
  intros Happ Hr.
  assert (run m l (initial_phase m, ConditionRunnable, e) (config_of s')) as Hrun.
  { by eapply (apply_all_run m (mkLifecycle _ _ _ None)). }
  apply run_path in Hrun as [_ Hsub]; [|by destruct m].
  by destruct m.
Qed.

Lemma no_phase_skipped_witness :
  sublist (path_to LifecycleStory PhaseAccepted)
    [ActionAuthorize; ActionBlock; ActionBeginPlanning; ActionActivate; ActionComplete;
     ActionReopen; ActionComplete; ActionAccept].
Proof.
  apply (no_phase_skipped LifecycleStory 1
    [ActionAuthorize; ActionBlock; ActionBeginPlanning; ActionActivate; ActionComplete;
     ActionReopen; ActionComplete; ActionAccept]
    (mkLifecycle PhaseAccepted ConditionBlocked 2 None)); vm_compute; reflexivity.
Defined.

(** The number of reopenings in a history. *)
Definition reopens (l : list LifecycleAction) : Z :=
  llen (List.filter (fun a => a == ActionReopen) l).

Lemma transition_epoch m a x y :
  transition m a x y ->
  y.2 = if a == ActionReopen then u64 (x.2 + 1) else x.2.
Proof.
  intros Ht. destruct Ht as [a p p' c e Hf|p e Hp|p e Hp|p c e Hr|p c e Hp];
    [by destruct Hf | done..].
Qed.

Lemma run_epoch m l x y :
  run m l x y -> 0 <= x.2 -> x.2 + reopens l < u64_mod -> y.2 = x.2 + reopens l.
Proof.
  intros Hrun. induction Hrun as [x|a l x y z Ht Hrun IH]; intros H0 Hlt;
    unfold reopens, llen in *; simpl in *; [lia|].
  apply transition_epoch in Ht. destruct (a == ActionReopen); simpl in *.
  - rewrite u64_id in Ht by (unfold is_u64; lia). rewrite IH; lia.
  - rewrite IH; lia.
Qed.

Lemma run_closed m l x y :
  run m l x y -> x.1.1 = PhaseClosed -> l = [] /\ y = x.
Proof.
  intros Hrun Hc. destruct Hrun as [x|a l x y z Ht Hrun]; [done|].
  destruct Ht as [a p p' c e Hf|p e Hp|p e Hp|p c e Hr|p c e Hp]; simpl in *; subst;
    try done; [inversion Hf | inversion Hr].
Qed.

(** The lifecycle epoch counts reopenings: an accepted history advances
    the epoch by exactly its number of [reopen] actions (as long as the 64-bit
    counter does not wrap), and once a lifecycle is closed no further action is
    ever accepted. *)
Theorem epoch_counts_reopens m s l s' :
  ApplyLifecycleActions m s l = s' -> lc_Rejected s' = None ->
  0 <= lc_LifecycleEpoch s -> lc_LifecycleEpoch s + reopens l < u64_mod ->
  lc_LifecycleEpoch s' = lc_LifecycleEpoch s + reopens l /\
  (lc_Phase s = PhaseClosed -> l = []).
Proof.
  intros Happ Hr H0 Hlt.
  pose proof (apply_all_run m (s <| lc_Rejected := None |>) l s' eq_refl Happ Hr) as Hrun.
  change (config_of (s <| lc_Rejected := None |>)) with (config_of s) in Hrun.
  split; [by apply (run_epoch _ _ _ _ Hrun) | intros Hc; by apply (run_closed _ _ _ _ Hrun)].
Qed.

Lemma epoch_counts_reopens_witness :
  lc_LifecycleEpoch (ApplyLifecycleActions LifecycleTask
    (mkLifecycle PhaseActive ConditionRunnable 7 None)
    [ActionComplete; ActionReopen; ActionComplete; ActionReopen]) = 9.
Proof.
  apply (epoch_counts_reopens LifecycleTask (mkLifecycle PhaseActive ConditionRunnable 7 None)
    [ActionComplete; ActionReopen; ActionComplete; ActionReopen] _ eq_refl);
    vm_compute; done.
Defined.
