(* ===== verification/Dag.v ===== *)
(** * Graph validation ([kernel/dag.go])

    [ValidateDAG] checks the nodes, then the edges, then runs Kahn's algorithm
    and compares the number of visited nodes with the number of nodes. The
    theorems relate it to acyclicity of the edge relation, without a bound on
    the size of the graph: the fuel of the queue loop is one more than the
    number of nodes, and [kahn_spec] shows it is never exhausted. *)

From stdpp Require Import relations.
From S2P Require Import Prelude.

Record GraphEdge := mkEdge { ge_Parent : string; ge_Child : string }.

#[global] Instance GraphEdge_eq_dec : EqDecision GraphEdge.
Proof. solve_decision. Defined.
#[global] Instance GraphEdge_countable : Countable GraphEdge.
Proof.
  apply (inj_countable' (fun e => (ge_Parent e, ge_Child e)) (fun p => mkEdge p.1 p.2)).
  by intros [].
Defined.

Record GraphValidation := mkGraphValidation {
  gv_Valid : bool;
  gv_Reason : option string
}.

Definition invalidGraph (reason : string) : GraphValidation :=
  mkGraphValidation false (Some reason).

(** The first loop: the set of known nodes, or the reason of failure. *)
Fixpoint known_nodes (known : gset string) (nodes : list string) : string + gset string :=
  match nodes with
  | [] => inr known
  | node :: nodes =>
    when node == "" return inl "INVALID_NODE" ;;
    when bool_decide (node ∈ known) return inl "DUPLICATE_NODE" ;;
    known_nodes ({[node]} ∪ known) nodes
  end.

(** The variables the edge loop updates. *)
Record EdgeTables := mkTables {
  et_children : gmap string (list string);
  et_indegree : gmap string Z;
  et_seenEdges : gset GraphEdge
}.

Fixpoint add_edges (known : gset string) (t : EdgeTables) (edges : list GraphEdge)
    : string + EdgeTables :=
  match edges with
  | [] => inr t
  | edge :: edges =>
    when negb (bool_decide (ge_Parent edge ∈ known)) return inl "MISSING_NODE" ;;
    when negb (bool_decide (ge_Child edge ∈ known)) return inl "MISSING_NODE" ;;
    when bool_decide (edge ∈ et_seenEdges t) return add_edges known t edges ;;
    add_edges known
      (mkTables
         (<[ge_Parent edge := mget [] (ge_Parent edge) (et_children t) ++ [ge_Child edge]]>
            (et_children t))
         (<[ge_Child edge := mget 0 (ge_Child edge) (et_indegree t) + 1]> (et_indegree t))
         ({[edge]} ∪ et_seenEdges t))
      edges
  end.

(** [for _, child := range children\[node\]]: the queue and the in-degrees. *)
Fixpoint release_children (queue : list string) (indegree : gmap string Z)
    (cs : list string) : list string * gmap string Z :=
  match cs with
  | [] => (queue, indegree)
  | child :: cs =>
    let indegree := <[child := mget 0 child indegree - 1]> indegree in
    let queue := if mget 0 child indegree =? 0 then queue ++ [child] else queue in
    release_children queue indegree cs
  end.

(** The queue loop; [None] when the fuel runs out. *)
Fixpoint kahn (fuel : nat) (children : gmap string (list string))
    (indegree : gmap string Z) (queue : list string) (visited : Z) : option Z :=
  match queue, fuel with
  | [], _ => Some visited
  | _ :: _, O => None
  | node :: queue, S fuel =>
    let (queue, indegree) := release_children queue indegree (mget [] node children) in
    kahn fuel children indegree queue (visited + 1)
  end.

Definition ValidateDAG (nodes : list string) (edges : list GraphEdge) : GraphValidation :=
  match known_nodes ∅ nodes with
  | inl reason => invalidGraph reason
  | inr known =>
    let indegree := foldl (fun m node => <[node := 0]> m) ∅ nodes in
    match add_edges known (mkTables ∅ indegree ∅) edges with
    | inl reason => invalidGraph reason
    | inr t =>
      let queue := List.filter (fun node => mget 0 node (et_indegree t) =? 0) nodes in
      when negb (bool_decide
             (kahn (S (List.length nodes)) (et_children t) (et_indegree t) queue 0
              = Some (llen nodes)))
        return invalidGraph "CYCLE" ;;
      mkGraphValidation true None
    end
  end.

(** ** Specification *)

Definition edge_of (edges : list GraphEdge) (p c : string) : Prop := mkEdge p c ∈ edges.

Definition acyclic (edges : list GraphEdge) : Prop :=
  forall x, ~ tc (edge_of edges) x x.

Definition nodes_ok (nodes : list string) : Prop := ("" ∉ nodes) /\ NoDup nodes.

Definition edges_ok (nodes : list string) (edges : list GraphEdge) : Prop :=
  forall e, e ∈ edges -> ge_Parent e ∈ nodes /\ ge_Child e ∈ nodes.

(** ** The two construction loops *)

Lemma known_nodes_spec known nodes :
  match known_nodes known nodes with
  | inr k => ("" ∉ nodes) /\ NoDup nodes /\ (forall n, n ∈ nodes -> n ∉ known) /\
             (forall n, n ∈ k <-> n ∈ known \/ n ∈ nodes)
  | inl r => (r = "INVALID_NODE" \/ r = "DUPLICATE_NODE") /\
             ~ (("" ∉ nodes) /\ NoDup nodes /\ (forall n, n ∈ nodes -> n ∉ known))
  end.
Proof.
  revert known. induction nodes as [|n nodes IH]; intros known; simpl.
  - split_and!; [set_solver | constructor | set_solver | set_solver].
  - case_bool_decide as E1; [subst; split; [by left | set_solver]|].
    case_bool_decide as E2.
    + split; [by right|]. intros (_ & _ & Hn). apply (Hn n); set_solver.
    + specialize (IH ({[n]} ∪ known)). destruct (known_nodes _ nodes) as [r|k].
      * destruct IH as [Hr Hn]. split; [done|]. rewrite NoDup_cons.
        intros (H1 & [H2 H3] & H4). apply Hn. set_solver.
      * destruct IH as (H1 & H2 & H3 & H4). rewrite NoDup_cons. set_solver.
Qed.

Definition parent_is (p : string) (e : GraphEdge) : bool := ge_Parent e == p.

(** The tables represent a duplicate-free list of edges. *)
Definition represents (t : EdgeTables) (es : list GraphEdge) : Prop :=
  NoDup es /\
  (forall e, e ∈ et_seenEdges t <-> e ∈ es) /\
  (forall p, mget [] p (et_children t) = ge_Child <$> List.filter (parent_is p) es) /\
  (forall c, mget 0 c (et_indegree t) = llen (List.filter (fun e => ge_Child e == c) es)).

Lemma mget_insert {A} (z v : A) (k k' : string) (m : gmap string A) :
  mget z k' (<[k := v]> m) = if k == k' then v else mget z k' m.
Proof.
  unfold mget. case_bool_decide as E; [subst; by rewrite lookup_insert_eq|].
  by rewrite lookup_insert_ne.
Qed.

Lemma llen_app {A} (l1 l2 : list A) : llen (l1 ++ l2) = llen l1 + llen l2.
Proof. unfold llen. rewrite length_app. lia. Qed.

Lemma represents_snoc t es e :
  represents t es -> e ∉ es ->
  represents
    (mkTables
       (<[ge_Parent e := mget [] (ge_Parent e) (et_children t) ++ [ge_Child e]]> (et_children t))
       (<[ge_Child e := mget 0 (ge_Child e) (et_indegree t) + 1]> (et_indegree t))
       ({[e]} ∪ et_seenEdges t)) (es ++ [e]).
Proof.
  intros (Hd & Hs & Hc & Hi) Hn. split_and!; simpl.
  - apply NoDup_app. split_and!; [done | | apply NoDup_singleton].
    intros x Hx ->%list_elem_of_singleton. done.
  - set_solver.
  - intros p. rewrite mget_insert, List.filter_app, fmap_app, !Hc. simpl.
    change (parent_is p e) with (ge_Parent e == p). case_bool_decide as E.
    + by subst.
    + by rewrite app_nil_r.
  - intros c. rewrite mget_insert, List.filter_app, llen_app, !Hi. simpl.
    case_bool_decide as E; [by subst|]. unfold llen; simpl; lia.
Qed.

Lemma edges_ok_cons nodes e edges :
  edges_ok nodes (e :: edges) <->
  (ge_Parent e ∈ nodes /\ ge_Child e ∈ nodes) /\ edges_ok nodes edges.
Proof. unfold edges_ok. setoid_rewrite elem_of_cons. naive_solver. Qed.

Lemma add_edges_spec (nodes : list string) known t es edges :
  (forall n, n ∈ known <-> n ∈ nodes) -> represents t es ->
  match add_edges known t edges with
  | inr t' => edges_ok nodes edges /\
              exists es', represents t' es' /\ (forall e, e ∈ es' <-> e ∈ es \/ e ∈ edges)
  | inl r => r = "MISSING_NODE" /\ ~ edges_ok nodes edges
  end.
Proof.
  intros Hk. revert t es. induction edges as [|e edges IH]; intros t es Ht; simpl.
  - split; [intros ?; set_solver|]. exists es. set_solver.
  - case_bool_decide as E1; simpl;
      [|rewrite edges_ok_cons, <- !Hk; naive_solver].
    case_bool_decide as E2; simpl;
      [|rewrite edges_ok_cons, <- !Hk; naive_solver].
    case_bool_decide as E3.
    + specialize (IH t es Ht). destruct (add_edges known t edges) as [r|t'];
        rewrite edges_ok_cons, <- !Hk; [naive_solver|].
      destruct IH as (Ho & es' & Hr & He). split; [done|].
      exists es'. split; [done|]. intros e'. rewrite He, elem_of_cons.
      destruct Ht as (_ & Hs & _). naive_solver.
    + assert (e ∉ es) as Hn by (destruct Ht as (_ & Hs & _); naive_solver).
      specialize (IH _ _ (represents_snoc t es e Ht Hn)).
      destruct (add_edges known _ edges) as [r|t'];
        rewrite edges_ok_cons, <- !Hk; [naive_solver|].
      destruct IH as (Ho & es' & Hr & He). split; [done|].
      exists es'. split; [done|]. intros e'. rewrite He. set_solver.
Qed.

Lemma represents_empty nodes :
  represents (mkTables ∅ (foldl (fun m node => <[node := 0]> m) ∅ nodes) ∅) [].
Proof.
  split_and!; simpl; [constructor | set_solver | done |].
  intros c. assert (forall m : gmap string Z, mget 0 c m = 0 ->
      mget 0 c (foldl (fun m node => <[node := 0]> m) m nodes) = 0) as H.
  { induction nodes as [|n nodes IH]; intros m Hm; simpl; [done|].
    apply IH. rewrite mget_insert. by destruct (n == c). }
  by apply H.
Qed.

(** ** The queue loop *)

Lemma release_children_spec queue ind cs :
  NoDup cs ->
  exists ind', release_children queue ind cs =
    (queue ++ List.filter (fun c => mget 0 c ind =? 1) cs, ind') /\
  forall c, mget 0 c ind' = mget 0 c ind - (if bool_decide (c ∈ cs) then 1 else 0).
Proof.
  revert queue ind. induction cs as [|c cs IH]; intros queue ind Hd; simpl.
  - exists ind. rewrite app_nil_r. split; [done|]. intros; lia.
  - apply NoDup_cons in Hd as [Hc Hd].
    set (ind1 := <[c := mget 0 c ind - 1]> ind).
    destruct (IH (if mget 0 c ind1 =? 0 then queue ++ [c] else queue) ind1 Hd)
      as (ind' & -> & Hi).
    exists ind'. subst ind1. split.
    + rewrite mget_insert, bool_decide_refl. f_equal.
      assert (List.filter (fun c' => mget 0 c' (<[c:=mget 0 c ind - 1]> ind) =? 1) cs
              = List.filter (fun c' => mget 0 c' ind =? 1) cs) as ->.
      { apply filter_ext_in. intros c' Hin%list_elem_of_In. rewrite mget_insert.
        rewrite bool_decide_eq_false_2 by (intros ->; done). done. }
      destruct (Z.eqb_spec (mget 0 c ind) 1), (Z.eqb_spec (mget 0 c ind - 1) 0); try lia;
        [by rewrite <- app_assoc | done].
    + intros c'. rewrite Hi, mget_insert. case_bool_decide as E.
      * subst. rewrite (bool_decide_eq_false_2 (c' ∈ cs)) by done.
        rewrite bool_decide_eq_true_2 by set_solver. lia.
      * by rewrite (bool_decide_ext (c' ∈ c :: cs) (c' ∈ cs)) by set_solver.
Qed.

Lemma tc_last {A} (R : relation A) x z : tc R x z -> exists y, rtc R x y /\ R y z.
Proof.
  induction 1 as [x y H|x y z H _ (w & Hw & Hz)]; [by exists x|].
  exists w. split; [by eapply rtc_l | done].
Qed.

Lemma tc_flipped {A} (R : relation A) x y : tc (flip R) x y -> tc R y x.
Proof.
  induction 1 as [x y H|x y z H _ IH]; [by apply tc_once|]. by eapply tc_r.
Qed.

Section kahn.
Context (nodes : list string) (es : list GraphEdge) (children : gmap string (list string)).
Hypothesis Hnodes : NoDup nodes.
Hypothesis Hes : NoDup es.
Hypothesis Hends : edges_ok nodes es.
Hypothesis Hchildren :
  forall p, mget [] p children = ge_Child <$> List.filter (parent_is p) es.

Definition open_parents (vis : list string) (c : string) : list GraphEdge :=
  List.filter (fun e => (ge_Child e == c) && negb (bool_decide (ge_Parent e ∈ vis))) es.

(** Visited nodes, in the order of the visit: parents come first. *)
Inductive ordered : list string -> Prop :=
| ordered_nil : ordered []
| ordered_snoc l c :
    ordered l -> (forall p, edge_of es p c -> p ∈ l) -> ordered (l ++ [c]).

Record kahn_inv (vis queue : list string) (ind : gmap string Z) : Prop := {
  ki_nodup : NoDup (vis ++ queue);
  ki_nodes : forall n, n ∈ vis ++ queue -> n ∈ nodes;
  ki_ind : forall c, mget 0 c ind = llen (open_parents vis c);
  ki_free : forall n, n ∈ nodes -> n ∈ vis ++ queue <-> mget 0 n ind = 0;
  ki_ordered : ordered vis
}.

Lemma children_nodup p : NoDup (mget [] p children).
Proof.
  rewrite Hchildren. apply NoDup_fmap_2_strong.
  - intros [p1 c1] [p2 c2] H1%list_elem_of_In H2%list_elem_of_In Ec. simpl in Ec.
    apply filter_In in H1 as [_ H1], H2 as [_ H2]. unfold parent_is in *.
    apply bool_decide_eq_true in H1, H2. simpl in *. congruence.
  - apply NoDup_ListNoDup, List.NoDup_filter, NoDup_ListNoDup, Hes.
Qed.

Lemma elem_children p c : c ∈ mget [] p children <-> mkEdge p c ∈ es.
Proof.
  rewrite Hchildren, list_elem_of_fmap. unfold parent_is. split.
  - intros ([p' c'] & -> & [H E]%list_elem_of_In%filter_In).
    apply bool_decide_eq_true in E. simpl in *. subst. by apply list_elem_of_In.
  - intros H. exists (mkEdge p c). split; [done|]. apply list_elem_of_In, filter_In.
    simpl. rewrite bool_decide_refl. split; [by apply list_elem_of_In | done].
Qed.

(** Visiting [x] removes the edge from [x], if there is one. *)
Lemma open_parents_visit vis x c :
  x ∉ vis ->
  llen (open_parents (vis ++ [x]) c) =
  llen (open_parents vis c) - (if bool_decide (c ∈ mget [] x children) then 1 else 0).
Proof.
  intros Hx. rewrite (bool_decide_ext _ _ (elem_children x c)). clear Hends Hchildren.
  unfold open_parents.
  induction Hes as [|e l He Hd IH]; [done|].
  rewrite (bool_decide_ext (mkEdge x c ∈ e :: l) (mkEdge x c = e \/ mkEdge x c ∈ l))
    by apply elem_of_cons.
  simpl. specialize (IH Hd).
  rewrite (bool_decide_ext (ge_Parent e ∈ vis ++ [x]) (ge_Parent e ∈ vis \/ ge_Parent e = x))
    by set_solver.
  destruct e as [p' c']. simpl in *.
  destruct (decide (c' = c)) as [->|Hc].
  - rewrite (bool_decide_refl c). simpl.
    destruct (decide (p' = x)) as [->|Hp].
    + rewrite !bool_decide_decide.
      repeat case_decide; try naive_solver; unfold llen in *; simpl in *; lia.
    + rewrite (bool_decide_ext (p' ∈ vis \/ p' = x) (p' ∈ vis)) by naive_solver.
      rewrite (bool_decide_ext (mkEdge x c = mkEdge p' c \/ mkEdge x c ∈ l)
                 (mkEdge x c ∈ l)) by naive_solver.
      destruct (bool_decide (p' ∈ vis)); simpl; unfold llen in *; simpl in *; lia.
  - rewrite (bool_decide_eq_false_2 (c' = c)) by done. simpl.
    rewrite (bool_decide_ext (mkEdge x c = mkEdge p' c' \/ mkEdge x c ∈ l)
               (mkEdge x c ∈ l)) by naive_solver.
    done.
Qed.

Lemma open_parents_nil vis c :
  llen (open_parents vis c) = 0 -> forall p, edge_of es p c -> p ∈ vis.
Proof.
  intros H p Hp. destruct (decide (p ∈ vis)) as [|Hn]; [done|]. exfalso.
  assert (In (mkEdge p c) (open_parents vis c)) as Hin.
  { apply filter_In. split; [by apply list_elem_of_In|]. simpl.
    rewrite bool_decide_refl. by rewrite bool_decide_eq_false_2. }
  destruct (open_parents vis c); [done|]. unfold llen in H. simpl in H. lia.
Qed.

Lemma open_parents_edge vis x c :
  x ∉ vis -> mkEdge x c ∈ es -> 1 <= llen (open_parents vis c).
Proof.
  intros Hx He. destruct (decide (llen (open_parents vis c) = 0)) as [E|E].
  - destruct Hx. by eapply open_parents_nil.
  - unfold llen in *. lia.
Qed.

Lemma kahn_step vis x queue ind :
  kahn_inv vis (x :: queue) ind ->
  kahn_inv (vis ++ [x]) (fst (release_children queue ind (mget [] x children)))
    (snd (release_children queue ind (mget [] x children))).
Proof.
  intros [Hd Hn Hi Hf Ho].
  destruct (release_children_spec queue ind _ (children_nodup x)) as (ind' & -> & Hi').
  simpl.
  assert (x ∉ vis) as Hx by (apply NoDup_app in Hd; set_solver).
  assert (mget 0 x ind = 0) as Hx0 by (apply Hf; set_solver).
  assert (forall c, c ∈ mget [] x children -> c ∈ nodes /\ c ∉ vis ++ x :: queue) as Hnew.
  { intros c Hc%elem_children. assert (c ∈ nodes) as Hcn by apply (Hends _ Hc).
    split; [done|]. rewrite (Hf c Hcn), Hi.
    pose proof (open_parents_edge vis x c Hx Hc). lia. }
  assert (forall c, c ∈ List.filter (fun c => mget 0 c ind =? 1) (mget [] x children) <->
                    c ∈ mget [] x children /\ mget 0 c ind = 1) as Hfil.
  { intros c. by rewrite !list_elem_of_In, filter_In, Z.eqb_eq. }
  split.
  - rewrite <- app_assoc. simpl. rewrite (app_comm_cons queue), app_assoc.
    apply NoDup_app. split_and!; [done | |].
    + intros c Hc Hc'. apply Hfil in Hc' as [Hc' _]. by apply Hnew in Hc' as [_ ?].
    + apply NoDup_ListNoDup, List.NoDup_filter, NoDup_ListNoDup, children_nodup.
  - intros c. rewrite !elem_of_app, Hfil. specialize (Hn c). specialize (Hnew c). set_solver.
  - intros c. by rewrite Hi', Hi, open_parents_visit.
  - intros c Hc. rewrite Hi', !elem_of_app, Hfil. specialize (Hf c Hc).
    specialize (Hnew c). rewrite elem_of_app, elem_of_cons in Hf, Hnew.
    rewrite list_elem_of_singleton. case_bool_decide as E.
    + destruct Hnew as [_ Hnew]; [done|]. split; [naive_solver lia|].
      intros. right. right. split; [done | lia].
    + rewrite Z.sub_0_r. naive_solver.
  - constructor; [done|]. apply open_parents_nil. by rewrite <- Hi.
Qed.

(** With enough fuel the loop ends with an empty queue, and the number
    of visited nodes is the size of a set closed under the algorithm. *)
Lemma kahn_spec fuel vis queue ind :
  kahn_inv vis queue ind -> (List.length nodes < fuel + List.length vis)%nat ->
  exists vis' ind', kahn fuel children ind queue (llen vis) = Some (llen vis') /\
    kahn_inv vis' [] ind'.
Proof.
  revert vis queue ind. induction fuel as [|fuel IH]; intros vis queue ind Hinv Hfuel.
  - exfalso. assert (List.length (vis ++ queue) <= List.length nodes)%nat.
    { apply submseteq_length, NoDup_submseteq; [apply Hinv|]. apply (ki_nodes _ _ _ Hinv). }
    rewrite length_app in *. lia.
  - destruct queue as [|x queue]; simpl; [by exists vis, ind|].
    apply kahn_step in Hinv.
    destruct (release_children queue ind (mget [] x children)) as [queue' ind1].
    simpl in Hinv. replace (llen vis + 1) with (llen (vis ++ [x])) by by rewrite llen_app.
    apply (IH _ _ _ Hinv). rewrite length_app. simpl. lia.
Qed.

Lemma ordered_acc l : ordered l -> forall x, x ∈ l -> Acc (edge_of es) x.
Proof.
  intros Ho. induction Ho as [|l c Ho IH Hp]; intros x; [set_solver|].
  rewrite elem_of_app, list_elem_of_singleton. intros [Hx| ->]; [by apply IH|].
  constructor. intros p Hpc. apply IH, Hp, Hpc.
Qed.

Lemma acc_no_cycle x : Acc (edge_of es) x -> ~ tc (edge_of es) x x.
Proof.
  intros Hacc. induction Hacc as [x _ IH]. intros Hc.
  destruct (tc_last _ _ _ Hc) as (p & Hxp & Hpx).
  apply (IH p Hpx). eapply tc_rtc_r; [by apply tc_once | done].
Qed.

Lemma acyclic_acc x : acyclic es -> Acc (edge_of es) x.
Proof.
  intros Hac.
  assert (sn (flip (edge_of es)) x) as Hsn.
  { apply tc_finite_sn.
    - intros y Hy. apply (Hac y). by apply tc_flipped.
    - exists nodes. intros y Hy. apply tc_flipped in Hy.
      inversion Hy as [? ? He|? ? ? He]; subst; by apply (Hends (mkEdge _ _) He). }
  exact Hsn.
Qed.

(** The loop visits every node exactly when the graph is acyclic. *)
Lemma kahn_acyclic vis ind :
  kahn_inv vis [] ind -> llen vis = llen nodes <-> acyclic es.
Proof.
  intros [Hd Hn Hi Hf Ho]. rewrite app_nil_r in *. split.
  - intros Hlen x Hx. assert (x ∈ nodes) as Hxn.
    { inversion Hx as [? ? He|? ? ? He]; subst; apply (Hends (mkEdge _ _) He). }
    assert (vis ≡ₚ nodes) as Hp.
    { apply submseteq_length_Permutation; [|unfold llen in Hlen; lia].
      by apply NoDup_submseteq. }
    eapply acc_no_cycle, Hx. eapply ordered_acc; [done|]. by rewrite Hp.
  - intros Hac.
    assert (forall x, Acc (edge_of es) x -> x ∈ nodes -> x ∈ vis) as Hall.
    { intros x Hx. induction Hx as [x _ IH]. intros Hxn. apply (Hf x Hxn). rewrite Hi.
      destruct (open_parents vis x) as [|[p c] l] eqn:E; [done|]. exfalso.
      assert (In (mkEdge p c) (open_parents vis x)) as Hin by (rewrite E; by left).
      apply filter_In in Hin as [Hin [Hc Hp]%andb_true_iff]. simpl in *.
      apply list_elem_of_In in Hin. bprop Hc. bprop Hp. subst.
      apply Hp, IH; [done|]. apply (Hends _ Hin). }
    unfold llen. f_equal. apply Permutation_length, NoDup_Permutation; [done..|].
    intros x. split; [apply Hn|]. intros Hx. apply Hall; [|done]. by apply acyclic_acc.
Qed.
End kahn.

Lemma tc_edge_ext es es' x y :
  (forall e, e ∈ es -> e ∈ es') -> tc (edge_of es) x y -> tc (edge_of es') x y.
Proof.
  intros H Ht. induction Ht as [x y Hxy|x y z Hxy Hyz IH].
  - apply tc_once. by apply H.
  - eapply tc_l; [by apply H | done].
Qed.

(** The outcome of the validation, for every input. *)
Lemma ValidateDAG_cases nodes edges :
  (nodes_ok nodes /\ edges_ok nodes edges /\ acyclic edges /\
   ValidateDAG nodes edges = mkGraphValidation true None) \/
  (nodes_ok nodes /\ edges_ok nodes edges /\ ~ acyclic edges /\
   ValidateDAG nodes edges = invalidGraph "CYCLE") \/
  (nodes_ok nodes /\ ~ edges_ok nodes edges /\
   ValidateDAG nodes edges = invalidGraph "MISSING_NODE") \/
  (~ nodes_ok nodes /\
   exists r, (r = "INVALID_NODE" \/ r = "DUPLICATE_NODE") /\
             ValidateDAG nodes edges = invalidGraph r).
Proof.
  unfold ValidateDAG, nodes_ok.
  pose proof (known_nodes_spec ∅ nodes) as Hk.
  destruct (known_nodes ∅ nodes) as [r|known].
  { right; right; right. destruct Hk as [Hr Hk]. split; [|by exists r].
    intros [H1 H2]. apply Hk. set_solver. }
  destruct Hk as (Hne & Hnd & _ & Hk).
  pose proof (add_edges_spec nodes known _ [] edges ltac:(set_solver)
                (represents_empty nodes)) as He.
  destruct (add_edges _ _ edges) as [r|t].
  { destruct He as [-> He]. right; right; left. done. }
  destruct He as (He & es & (Hd & _ & Hc & Hi) & Hel).
  assert (edges_ok nodes es) as Heo by (intros e Hin; apply He; set_solver).
  destruct (kahn_spec nodes es (et_children t) Hnd Hd Heo Hc (S (List.length nodes)) []
     (List.filter (fun n => mget 0 n (et_indegree t) =? 0) nodes) (et_indegree t))
     as (vis & ind & Hkahn & Hinv).
  - split; simpl.
    + apply NoDup_ListNoDup, List.NoDup_filter, NoDup_ListNoDup, Hnd.
    + intros n. rewrite !list_elem_of_In, filter_In. naive_solver.
    + intros c. rewrite Hi. unfold open_parents. f_equal. apply List.filter_ext.
      intros e. by rewrite andb_true_r.
    + intros n Hn. rewrite list_elem_of_In, filter_In, Z.eqb_eq, <- list_elem_of_In.
      naive_solver.
    + constructor.
  - simpl. lia.
  - change (llen []) with 0 in Hkahn. rewrite Hkahn.
    pose proof (kahn_acyclic nodes es (et_children t) Hnd Hd Heo Hc vis ind Hinv) as Hac.
    assert (acyclic es <-> acyclic edges) as Hiff.
    { unfold acyclic. split; intros H x Hx; apply (H x);
        (eapply tc_edge_ext; [|done]); set_solver. }
    rewrite Hiff in Hac. case_bool_decide as E; simpl.
    + left. naive_solver.
    + right; left. split_and!; [done.. | | done]. intros H. apply E. f_equal. by apply Hac.
Qed.

(** [C31] [ValidateDAG] decides acyclicity: a graph is reported valid exactly
    when its node names are non-empty and pairwise distinct, every edge joins
    known nodes, and no node reaches itself along one or more edges. *)
Theorem ValidateDAG_correct nodes edges :
  gv_Valid (ValidateDAG nodes edges) = true <->
  nodes_ok nodes /\ edges_ok nodes edges /\ acyclic edges.
Proof.
  destruct (ValidateDAG_cases nodes edges)
    as [(?&?&?&->)|[(?&?&?&->)|[(?&?&->)|(?&r&?&->)]]]; simpl; naive_solver.
Qed.

(** The reason reported for an invalid graph is the right one: [CYCLE]
    means the graph is well formed and some node reaches itself,
    [MISSING_NODE] that the nodes are fine and some edge leaves them, and a
    node reason that the node list is malformed; a valid graph has no reason. *)
Theorem ValidateDAG_reason nodes edges :
  match gv_Reason (ValidateDAG nodes edges) with
  | None => gv_Valid (ValidateDAG nodes edges) = true
  | Some r =>
    gv_Valid (ValidateDAG nodes edges) = false /\
    (r = "CYCLE" /\ nodes_ok nodes /\ edges_ok nodes edges /\ ~ acyclic edges \/
     r = "MISSING_NODE" /\ nodes_ok nodes /\ ~ edges_ok nodes edges \/
     (r = "INVALID_NODE" \/ r = "DUPLICATE_NODE") /\ ~ nodes_ok nodes)
  end.
Proof.
  destruct (ValidateDAG_cases nodes edges)
    as [(?&?&?&->)|[(?&?&?&->)|[(?&?&->)|(?&r&?&->)]]]; simpl; naive_solver.
Qed.
