(* ===== verification/Payload.v ===== *)
(** * Payload fields and identifier sets

    The helpers every command handler uses to read a payload object
    ([kernel/decision_policy.go], [kernel/evaluator.go]) and the validators of
    identifier lists ([kernel/work_profile.go], [kernel/coordination.go],
    [kernel/escalation.go], [kernel/authorization.go]). *)

From S2P Require Import Prelude GoText GoTime GoJson Types.

(** ** Payload objects *)

Definition object : Type := gmap string json.

(** [Decode] into a map: [null] leaves it [nil]. *)
Definition decodePayloadObject (payload : string) : option object :=
  match json_decode payload with
  | Some (JObject ms, _) => Some (members_map ms)
  | Some (JNull, _) => Some ∅
  | _ => None
  end.

Definition uint64Field (o : object) (name : string) : option Z :=
  try number <- as_number (o !! name) ;;
  try value <- Int64 number ;;
  if 0 <? value then Some value else None.

Definition nonnegativeUint64Field (o : object) (name : string) : option Z :=
  try number <- as_number (o !! name) ;;
  try value <- Int64 number ;;
  if 0 <=? value then Some value else None.

Fixpoint all_strings (values : list json) : option (list string) :=
  match values with
  | [] => Some []
  | value :: values =>
    try text <- as_string (Some value) ;;
    try rest <- all_strings values ;;
    Some (text :: rest)
  end.

Definition stringArrayField (o : object) (name : string) : option (list string) :=
  try values <- as_array (o !! name) ;; all_strings values.

Definition uuidArrayField (o : object) (name : string) : option (list UUIDv7) :=
  try values <- stringArrayField o name ;;
  if forallb UUIDv7_Valid values then Some values else None.

Definition payloadEvidenceFieldMatches (o : object) (field : string)
    (references : list EvidenceRef) : bool :=
  match uuidArrayField o field with
  | None => false
  | Some ids =>
    when llen ids != llen references return false ;;
    sort_strings ids == sort_strings (er_EvidenceID <$> references)
  end.

Definition payloadEvidenceMatches (o : object) (references : list EvidenceRef) : bool :=
  payloadEvidenceFieldMatches o "evidence_ids" references.

Definition aggregateField (o : object) (kindName idName : string) : option AggregateRef :=
  try kind <- as_string (o !! kindName) ;;
  try id <- as_string (o !! idName) ;;
  if AggregateRef_Valid (mkRef kind id) then Some (mkRef kind id) else None.

(** ** Causal parents *)

Definition containsDagParent (values : list DagParent) (eventID : UUIDv7) (edge : EdgeKind)
    : bool :=
  existsb (fun v => (dp_ParentEventID v == eventID) && (dp_EdgeKind v == edge)) values.

Fixpoint causal_path (path : list UUIDv7) (parents : list DagParent) : bool :=
  match path, parents with
  | eventID :: path, parent :: parents =>
    when (dp_ParentEventID parent != eventID) || (dp_EdgeKind parent != EdgeCausal)
      return false ;;
    causal_path path parents
  | _, _ => true
  end.

Definition causalPathMatchesCommand (path : list UUIDv7) (parents : list DagParent) : bool :=
  when (llen path == 0) || (llen path != llen parents) return false ;;
  causal_path path parents.

Definition terminalPhase (phase : Phase) : bool :=
  (phase == PhaseCompleted) || (phase == PhaseAccepted) || (phase == PhaseClosed).

(** ** Identifier lists *)

Definition short_string (value : string) : bool :=
  negb ((value == "") || (4096 <? slen value)).

Definition validUniqueStrings (values : list string) (minimum maximum : Z) : bool :=
  when (llen values <? minimum) || (maximum <? llen values) return false ;;
  when negb (forallb short_string values) return false ;;
  negb (adjacent_dup (sort_strings values)).

Definition validUniqueUUIDs (values : list UUIDv7) (minimum maximum : Z) : bool :=
  when (llen values <? minimum) || (maximum <? llen values) return false ;;
  check_unique UUIDv7_Valid ∅ values.

Definition validUUIDSet (values : list UUIDv7) (required : bool) : bool :=
  when required && (llen values == 0) return false ;;
  check_unique UUIDv7_Valid ∅ values.

Definition validUniqueBoundedStrings (values : list string) : bool :=
  when (llen values == 0) || (64 <? llen values) return false ;;
  check_unique short_string ∅ values.

Definition uniqueValidUUIDs (values : list UUIDv7) : bool :=
  check_unique UUIDv7_Valid ∅ values.

Definition uniqueNonemptyStrings (values : list string) : bool :=
  check_unique short_string ∅ values.

Definition containsString (values : list string) (target : string) : bool :=
  contains values target.
Definition containsAggregateKind (values : list AggregateKind) (target : AggregateKind) : bool :=
  contains values target.
Definition containsUUID (values : list UUIDv7) (target : UUIDv7) : bool :=
  contains values target.
Definition containsPrincipalKind (values : list PrincipalKind) (target : PrincipalKind) : bool :=
  contains values target.
Definition equalStrings (left right : list string) : bool := left == right.

(** ** Facts *)

(** The sorting loop and the set loop accept the same lists. *)
Lemma validUniqueStrings_spec values lo hi :
  validUniqueStrings values lo hi = true <->
  lo <= llen values <= hi /\ Forall (fun v => short_string v = true) values /\ NoDup values.
Proof.
  unfold validUniqueStrings. rewrite !if_false_true, negb_true_iff, negb_false_iff,
    orb_false_iff, !Z.ltb_ge, forallb_True_iff, sort_strings_nodup.
  naive_solver.
Qed.

Lemma validUniqueUUIDs_spec values lo hi :
  validUniqueUUIDs values lo hi = true <->
  lo <= llen values <= hi /\ Forall (fun v => UUIDv7_Valid v = true) values /\ NoDup values.
Proof.
  unfold validUniqueUUIDs.
  rewrite if_false_true, orb_false_iff, !Z.ltb_ge, check_unique_nil. naive_solver.
Qed.

(** The evidence of a command matches a payload field when both list the
    same evidence identifiers, in any order. *)
Lemma payloadEvidenceFieldMatches_spec o field refs :
  payloadEvidenceFieldMatches o field refs = true <->
  exists ids, uuidArrayField o field = Some ids /\ ids ≡ₚ er_EvidenceID <$> refs.
Proof.
  unfold payloadEvidenceFieldMatches. destruct (uuidArrayField o field) as [ids|];
    [|naive_solver].
  rewrite if_false_true, negb_false_iff, !bool_decide_eq_true. split.
  - intros [_ E]. exists ids. split; [done|]. by apply sort_strings_inv.
  - intros (? & [= <-] & Hp). split; [|by apply sort_strings_eq].
    unfold llen. f_equal. by rewrite (Permutation_length Hp), length_fmap.
Qed.
