(* ===== verification/Envelope.v ===== *)
(** * Commands, events and envelope checks ([kernel/envelope.go])

    The records exchanged with the kernel and the shape checks of
    [kernel/evaluator.go] that need no snapshot: [ValidateEnvelope], the
    canonical order of preconditions and parents, and the decoding of the
    ownership and execution payloads. An [error] is its message. *)

From S2P Require Import Prelude GoText GoTime GoJson Types Payload.

Record ExpectedRevision := mkExpected { xr_MustNotExist : bool; xr_Revision : Z }.
Record AggregatePrecondition := mkPre { pc_Aggregate : AggregateRef; pc_Expected : ExpectedRevision }.

Definition NewExpectedRevision (revision : Z) : ExpectedRevision := mkExpected false revision.
Definition MustNotExist : ExpectedRevision := mkExpected true 0.

#[global] Instance ExpectedRevision_eq_dec : EqDecision ExpectedRevision.
Proof. solve_decision. Defined.
#[global] Instance AggregatePrecondition_eq_dec : EqDecision AggregatePrecondition.
Proof. solve_decision. Defined.

Record KernelCommand := mkCommand {
  cmd_ContractManifest : string;
  cmd_CommandID : UUIDv7;
  cmd_CommandType : string;
  cmd_CommandVersion : string;
  cmd_Target : AggregateRef;
  cmd_Authority : PrincipalRef;
  cmd_ActorFQN : option ActorFQN;
  cmd_Execution : option ExecutionTuple;
  cmd_ExpectedRevision : ExpectedRevision;
  cmd_Preconditions : list AggregatePrecondition;
  cmd_ExpectedLifecycleEpoch : option Z;
  cmd_ExpectedPolicyRevision : Z;
  cmd_ExpectedCatalogueRevision : Z;
  cmd_IdempotencyKey : string;
  cmd_CorrelationID : UUIDv7;
  cmd_Causation : list DagParent;
  cmd_IssuedAt : option Time;
  cmd_Payload : string;
  cmd_EvidenceRefs : list EvidenceRef
}.

#[export] Instance eta_KernelCommand : Eta KernelCommand := fun r =>
  mkCommand (cmd_ContractManifest r) (cmd_CommandID r) (cmd_CommandType r)
    (cmd_CommandVersion r) (cmd_Target r) (cmd_Authority r) (cmd_ActorFQN r) (cmd_Execution r)
    (cmd_ExpectedRevision r) (cmd_Preconditions r) (cmd_ExpectedLifecycleEpoch r)
    (cmd_ExpectedPolicyRevision r) (cmd_ExpectedCatalogueRevision r) (cmd_IdempotencyKey r)
    (cmd_CorrelationID r) (cmd_Causation r) (cmd_IssuedAt r) (cmd_Payload r)
    (cmd_EvidenceRefs r).

Definition zero_command : KernelCommand :=
  mkCommand "" "" "" "" zero_ref zero_principal None None (mkExpected false 0) [] None 0 0
    "" "" [] None "" [].

Inductive OutcomeCode :=
| OutcomeApplied | OutcomeNoChange | OutcomeRejectedInvalid | OutcomeRejectedUnauthorized
| OutcomeRejectedNotFound | OutcomeRejectedConflict | OutcomeRejectedStaleExecution
| OutcomeRejectedClosed | OutcomeRejectedPolicy.

#[global] Instance OutcomeCode_eq_dec : EqDecision OutcomeCode.
Proof. solve_decision. Defined.

Record CommandReceipt := mkReceipt {
  rc_ContractManifest : string;
  rc_CommandID : UUIDv7;
  rc_CommandType : string;
  rc_Target : AggregateRef;
  rc_OutcomeCode : OutcomeCode;
  rc_ReasonCode : string;
  rc_StateChanged : bool;
  rc_ResultingRevision : option Z;
  rc_EventIDs : list UUIDv7;
  rc_ReceivedAt : Time;
  rc_DecidedAt : Time;
  rc_ProvenanceDigest : Digest
}.

Record DomainEvent := mkEvent {
  ev_ContractManifest : string;
  ev_EventID : UUIDv7;
  ev_EventType : string;
  ev_EventVersion : string;
  ev_Aggregate : AggregateRef;
  ev_AggregateRevision : Z;
  ev_LifecycleEpoch : Z;
  ev_CommandID : UUIDv7;
  ev_Authority : PrincipalRef;
  ev_ActorFQN : option ActorFQN;
  ev_Execution : option ExecutionTuple;
  ev_Parents : list DagParent;
  ev_CommittedAt : Time;
  ev_Payload : string;
  ev_ProvenanceDigest : Digest
}.

(** An event with the fields a fold reads; the others are zero. *)
Definition bare_event (id : UUIDv7) (type : string) (agg : AggregateRef) (revision epoch : Z)
    (payload : string) : DomainEvent :=
  mkEvent "" id type "" agg revision epoch "" zero_principal None None [] zero_time payload "".

Record AuthorityDecision := mkAuthority {
  ad_Principal : PrincipalRef;
  ad_Allowed : bool;
  ad_CanReadTarget : bool;
  ad_Reason : string;
  ad_PolicyDigest : Digest;
  ad_PolicyRevision : Z;
  ad_GrantDigests : list Digest;
  ad_DelegationDigests : list Digest
}.

Record OutboxIntent := mkIntent { oi_IntentID : UUIDv7; oi_EventID : UUIDv7; oi_Kind : string }.

Record AcceptedEvent := mkAccepted {
  ae_EventType : string;
  ae_Quarantined : bool;
  ae_Qualification : string
}.

Record EvidenceMetadata := mkEvidenceMeta { em_SHA256 : Digest; em_Available : bool }.

Definition reasonApplied : string := "APPLIED".
Definition reasonInvalidEnvelope : string := "INVALID_ENVELOPE".
Definition reasonInvalidPayload : string := "INVALID_PAYLOAD".
Definition reasonUnknownCommand : string := "UNKNOWN_COMMAND_TYPE".
Definition reasonUnsupportedVersion : string := "UNSUPPORTED_COMMAND_VERSION".
Definition reasonInvalidDAG : string := "INVALID_DAG_PARENT".
Definition reasonInvalidEvidence : string := "INVALID_EVIDENCE_REFERENCE".
Definition reasonUnauthorized : string := "UNAUTHORIZED".
Definition reasonNotFound : string := "TARGET_NOT_FOUND".
Definition reasonAlreadyExists : string := "TARGET_ALREADY_EXISTS".
Definition reasonRevisionConflict : string := "REVISION_CONFLICT".
Definition reasonLifecycleConflict : string := "LIFECYCLE_EPOCH_CONFLICT".
Definition reasonPolicyConflict : string := "POLICY_REVISION_CONFLICT".
Definition reasonCatalogueConflict : string := "CATALOGUE_REVISION_CONFLICT".
Definition reasonClosed : string := "TARGET_CLOSED".
Definition reasonPolicy : string := "TRANSITION_POLICY".
Definition reasonStaleExecution : string := "STALE_EXECUTION".

(** ** Canonical orders *)

Definition pre_kind (p : AggregatePrecondition) : string := ref_Kind (pc_Aggregate p).
Definition pre_id (p : AggregatePrecondition) : string := ref_ID (pc_Aggregate p).

Definition canonicalPreconditions (values : list AggregatePrecondition)
    : list AggregatePrecondition := merge_sort (key_le pre_kind pre_id) values.

Definition canonicalParents (values : list DagParent) : list DagParent :=
  merge_sort (key_le dp_EdgeKind dp_ParentEventID) values.

(** Exactly one of "must not exist" and a positive revision is asked for. *)
Definition expected_incoherent (e : ExpectedRevision) : bool :=
  Bool.eqb (xr_MustNotExist e) (0 <? xr_Revision e).

(** The loop over the vector and its canonical form, in step. *)
Fixpoint vector_loop (target : AggregateRef) (previous : option AggregatePrecondition)
    (values canonical : list AggregatePrecondition) : bool :=
  match values, canonical with
  | value :: values, canon :: canonical =>
    when negb (AggregateRef_Valid (pc_Aggregate value)) || (pc_Aggregate value == target)
         || expected_incoherent (pc_Expected value) || (value != canon)
      return false ;;
    when match previous with
         | Some p => pc_Aggregate p == pc_Aggregate value
         | None => false
         end return false ;;
    vector_loop target (Some value) values canonical
  | _, _ => true
  end.

Definition validPreconditionVector (target : AggregateRef) (values : list AggregatePrecondition)
    : bool := vector_loop target None values (canonicalPreconditions values).

Definition containsAggregatePrecondition (values : list AggregatePrecondition)
    (target : AggregateRef) : bool :=
  existsb (fun v => pc_Aggregate v == target) values.

(** ** Envelope *)

Definition parent_ok (p : DagParent) : bool :=
  UUIDv7_Valid (dp_ParentEventID p) && EdgeKind_Valid (dp_EdgeKind p).
Definition evidence_ok (e : EvidenceRef) : bool :=
  UUIDv7_Valid (er_EvidenceID e) && Digest_Valid (er_SHA256 e).

(** A loop that reports an invalid element or a duplicate. *)
Fixpoint unique_error {A} `{Countable A} (ok : A -> bool) (invalid duplicate : string)
    (seen : gset A) (l : list A) : option string :=
  match l with
  | [] => None
  | x :: l =>
    when negb (ok x) return Some invalid ;;
    when bool_decide (x ∈ seen) return Some duplicate ;;
    unique_error ok invalid duplicate ({[x]} ∪ seen) l
  end.

Definition opt_all {A} (ok : A -> bool) (o : option A) : bool :=
  match o with Some x => ok x | None => true end.

(** [None] is the nil error. *)
Definition ValidateEnvelope (c : KernelCommand) : option string :=
  when (cmd_ContractManifest c != ContractIdentity) || (cmd_CommandType c == "")
       || (cmd_CommandVersion c == "")
    return Some "contract or command identity mismatch" ;;
  when negb (UUIDv7_Valid (cmd_CommandID c)) || negb (AggregateRef_Valid (cmd_Target c))
       || negb (PrincipalRef_Valid (cmd_Authority c))
    return Some "invalid identity" ;;
  when negb (opt_all ActorFQN_Valid (cmd_ActorFQN c)) return Some "invalid actor FQN" ;;
  when negb (opt_all ExecutionTuple_Valid (cmd_Execution c))
    return Some "invalid execution tuple" ;;
  when expected_incoherent (cmd_ExpectedRevision c) return Some "invalid expected revision" ;;
  when (cmd_ExpectedPolicyRevision c == 0) || (cmd_ExpectedCatalogueRevision c == 0)
    return Some "missing expected policy or catalogue revision" ;;
  when negb (opt_all (fun e => e != 0) (cmd_ExpectedLifecycleEpoch c))
    return Some "invalid expected lifecycle epoch" ;;
  when (slen (cmd_IdempotencyKey c) <? 1) || (256 <? slen (cmd_IdempotencyKey c))
       || negb (UUIDv7_Valid (cmd_CorrelationID c))
    return Some "invalid idempotency or correlation identity" ;;
  when (64 <? llen (cmd_Causation c)) || (64 <? llen (cmd_EvidenceRefs c))
       || (64 <? llen (cmd_Preconditions c)) || (slen (cmd_Payload c) == 0)
    return Some "envelope bounds exceeded" ;;
  when negb (validPreconditionVector (cmd_Target c) (cmd_Preconditions c))
    return Some "invalid aggregate preconditions" ;;
  match unique_error parent_ok "invalid causal parent" "duplicate causal parent" ∅
          (cmd_Causation c) with
  | Some e => Some e
  | None =>
    unique_error evidence_ok "invalid evidence reference" "duplicate evidence reference" ∅
      (cmd_EvidenceRefs c)
  end.

(** ** Ownership and execution payloads *)

Record parsedOwnership := mkParsedOwnership { po_Owner : ActorFQN; po_Version : Z }.

Definition ownershipPayload (payload ownerField : string) : option parsedOwnership :=
  try o <- decodePayloadObject payload ;;
  try ownerText <- as_string (o !! ownerField) ;;
  try owner <- ParseActorFQN ownerText ;;
  let versionName :=
    if (ownerField == "owner_fqn") && negb (is_nil (o !! "ownership_version"))
    then "ownership_version" else "expected_ownership_version" in
  try number <- as_number (o !! versionName) ;;
  try version <- Int64 number ;;
  when version <? 0 return None ;;
  Some (mkParsedOwnership owner version).

Record parsedReassignment := mkParsedReassignment {
  pa_Prior : ActorFQN;
  pa_Next : ActorFQN;
  pa_Version : Z
}.

Definition reassignmentPayload (payload : string) : option parsedReassignment :=
  try o <- decodePayloadObject payload ;;
  try prior <- ParseActorFQN (Sprint (o !! "prior_owner_fqn")) ;;
  try next <- ParseActorFQN (Sprint (o !! "new_owner_fqn")) ;;
  try number <- as_number (o !! "expected_ownership_version") ;;
  try version <- Int64 number ;;
  when version <? 0 return None ;;
  Some (mkParsedReassignment prior next version).

(** The actor, the prior execution and whether the command registers it. *)
Definition executionRegistryExpectation (c : KernelCommand)
    : option (ActorFQN * ExecutionTuple * bool) :=
  when (cmd_CommandType c != "tekroo.command.execution.register")
       && (cmd_CommandType c != "tekroo.command.execution.replace")
    return None ;;
  try o <- decodePayloadObject (cmd_Payload c) ;;
  try actor <- ParseActorFQN (Sprint (o !! "actor_fqn")) ;;
  when cmd_CommandType c == "tekroo.command.execution.register"
    return Some (actor, zero_exec, true) ;;
  try priorID <- ParseUUIDv7 (Sprint (o !! "prior_execution_id")) ;;
  try number <- as_number (o !! "new_fencing_epoch") ;;
  try newEpoch <- Int64 number ;;
  when newEpoch <? 2 return None ;;
  Some (actor, mkExec priorID (newEpoch - 1), false).

Definition validateExecutionRegistryCommand (c : KernelCommand)
    (currentExecutions : gmap ActorFQN ExecutionTuple) : OutcomeCode * string :=
  match executionRegistryExpectation c with
  | None => (OutcomeApplied, reasonApplied)
  | Some (actor, prior, registering) =>
    let current := currentExecutions !! actor in
    if registering : bool then
      when negb (is_nil current) return (OutcomeRejectedConflict, reasonRevisionConflict) ;;
      (OutcomeApplied, reasonApplied)
    else
      when current != Some prior return (OutcomeRejectedStaleExecution, reasonStaleExecution) ;;
      (OutcomeApplied, reasonApplied)
  end.

Definition actorAttributionValid (c : KernelCommand)
    (currentExecutions : gmap ActorFQN ExecutionTuple) (required : bool) : bool :=
  when (pr_Kind (cmd_Authority c) == PrincipalHuman)
       && (negb (is_nil (cmd_ActorFQN c)) || negb (is_nil (cmd_Execution c)))
    return false ;;
  when (pr_Kind (cmd_Authority c) == PrincipalActor)
       && (cmd_ActorFQN c != Some (pr_ID (cmd_Authority c)))
    return false ;;
  when required && (is_nil (cmd_ActorFQN c) || is_nil (cmd_Execution c)) return false ;;
  match cmd_Execution c with
  | None => negb required
  | Some execution =>
    match cmd_ActorFQN c with
    | None => false
    | Some actor => currentExecutions !! actor == Some execution
    end
  end.

Definition validEvidenceRefs (c : KernelCommand) (evidence : gmap UUIDv7 EvidenceMetadata)
    : bool :=
  forallb (fun r =>
    match evidence !! er_EvidenceID r with
    | Some m => em_Available m && (em_SHA256 m == er_SHA256 r)
    | None => false
    end) (cmd_EvidenceRefs c).

Definition acceptedEventSet (ids : list UUIDv7) (accepted : gmap UUIDv7 AcceptedEvent) : bool :=
  forallb (fun id =>
    match accepted !! id with
    | Some e => negb (ae_Quarantined e) && (ae_EventType e != "")
    | None => false
    end) ids.

Definition acceptedValidationSet (ids : list UUIDv7) (accepted : gmap UUIDv7 AcceptedEvent)
    : bool :=
  forallb (fun id =>
    match accepted !! id with
    | Some e => negb (ae_Quarantined e)
                && (ae_EventType e == "tekroo.event.completion-review.result-recorded")
                && (ae_Qualification e == "PASS")
    | None => false
    end) ids.

(** ** Precondition vectors *)

Definition precondition_ok (target : AggregateRef) (v : AggregatePrecondition) : Prop :=
  AggregateRef_Valid (pc_Aggregate v) = true /\ pc_Aggregate v <> target /\
  expected_incoherent (pc_Expected v) = false.

Abbreviation pre_le := (key_le pre_kind pre_id).

Lemma pre_le_same a b : pre_le a b -> pre_le b a -> pc_Aggregate a = pc_Aggregate b.
Proof.
  intros H1 H2. destruct (key_le_antisymm_keys _ _ _ _ H1 H2) as [Hk Hi].
  unfold pre_kind, pre_id in *. destruct (pc_Aggregate a), (pc_Aggregate b).
  simpl in *. congruence.
Qed.

Lemma vector_loop_spec target prev vs cs :
  List.length vs = List.length cs ->
  vector_loop target prev vs cs = true <->
  vs = cs /\ Forall (precondition_ok target) vs /\
  adjacent_key pc_Aggregate (option_list prev ++ vs) = false.
Proof.
  revert prev cs. induction vs as [|v vs IH]; intros prev [|c cs] Hlen; try done.
  - simpl. destruct prev; naive_solver.
  - cbn [vector_loop]. rewrite !if_false_true, IH by (simpl in Hlen; lia).
    rewrite !orb_false_iff, !negb_false_iff, bool_decide_eq_false, bool_decide_eq_true.
    rewrite Forall_cons.
    assert (adjacent_key pc_Aggregate (option_list prev ++ v :: vs) = false <->
            match prev with
            | Some p => pc_Aggregate p == pc_Aggregate v
            | None => false
            end = false /\ adjacent_key pc_Aggregate (v :: vs) = false) as ->.
    { destruct prev as [p|]; [|naive_solver].
      change (option_list (Some p) ++ v :: vs) with (p :: v :: vs).
      by rewrite adjacent_key_cons, orb_false_iff. }
    change (option_list (Some v) ++ vs) with (v :: vs).
    split; intros H; split_ands; simplify_eq; split_and!; try done;
      match goal with H : precondition_ok _ _ |- _ => apply H end.
Qed.

Lemma Sorted_merge_sort_id vs :
  Sorted pre_le vs -> NoDup (pc_Aggregate <$> vs) -> merge_sort pre_le vs = vs.
Proof.
  intros Hs Hn.
  eapply (Sorted_unique_strong pre_le); [|apply Sorted_merge_sort; apply _ | done | ].
  2: by rewrite merge_sort_Permutation.
  intros a b Ha Hb Hab Hba. rewrite merge_sort_Permutation in Ha.
  pose proof (pre_le_same a b Hab Hba) as E. clear Hs Hab Hba.
  induction vs as [|v vs IH]; [set_solver|].
  rewrite fmap_cons, NoDup_cons in Hn. destruct Hn as [Hv Hn].
  rewrite elem_of_cons in Ha, Hb.
  destruct Ha as [->|Ha], Hb as [->|Hb]; [done | | | by apply IH].
  - destruct Hv. rewrite E. by apply list_elem_of_fmap_2.
  - destruct Hv. rewrite <- E. by apply list_elem_of_fmap_2.
Qed.

Lemma sorted_adjacent vs :
  Sorted pre_le vs -> adjacent_key pc_Aggregate vs = false <-> NoDup (pc_Aggregate <$> vs).
Proof.
  intros Hs. rewrite adjacent_key_map.
  apply (adjacent_dup_sorted (key_le ref_Kind ref_ID)).
  induction Hs as [|v vs Hs IH Hd]; simpl; constructor; [done|].
  destruct Hd; simpl; constructor. done.
Qed.

(** The aggregate preconditions a command may carry are exactly the
    vectors in strictly increasing order: every entry names a valid aggregate
    other than the target with a coherent expectation, the entries are sorted
    by kind and then by identifier, and no aggregate occurs twice. In
    particular the accepted form of a set of preconditions is unique. *)
Theorem validPreconditionVector_spec target vs :
  validPreconditionVector target vs = true <->
  Forall (precondition_ok target) vs /\ Sorted pre_le vs /\ NoDup (pc_Aggregate <$> vs).
Proof.
  unfold validPreconditionVector, canonicalPreconditions.
  rewrite vector_loop_spec.
  2: { symmetry. apply Permutation_length, merge_sort_Permutation. }
  change (option_list None ++ vs) with vs. split.
  - intros (E & Hok & Ha).
    assert (Sorted pre_le vs) as Hs by (rewrite E; apply Sorted_merge_sort; apply _).
    split_and!; [done..|]. by apply sorted_adjacent.
  - intros (Hok & Hs & Hn). split_and!; [|done|by apply sorted_adjacent].
    by rewrite Sorted_merge_sort_id.
Qed.
