(* ===== verification/OperatorRole.v ===== *)
(** * The operator role ([kernel/operator_role.go])

    The signed role profile bound to the system aggregate, and the rules that
    decide how a principal may present itself. *)

From S2P Require Import Prelude GoText GoTime GoJson Types Payload Envelope.

Record OperatorRoleProfile := mkOperatorRoleProfile {
  op_BindingID : UUIDv7;
  op_RoleID : string;
  op_OperatorActorFQN : ActorFQN;
  op_RoleBundleVersion : string;
  op_RoleBundleDigest : Digest;
  op_RoleBundleSignatureEvidenceIDs : list UUIDv7;
  op_RoleDefinitionDigest : Digest;
  op_CapabilityIDs : list string;
  op_HumanSelectionPolicyRevision : Z;
  op_HumanSelectionPolicyDigest : Digest;
  op_AuthorityPolicyRevision : Z;
  op_AuthorityPolicyDigest : Digest;
  op_ReplacesBindingID : option UUIDv7
}.

#[export] Instance eta_OperatorRoleProfile : Eta OperatorRoleProfile := fun r =>
  mkOperatorRoleProfile
    (op_BindingID r) (op_RoleID r) (op_OperatorActorFQN r) (op_RoleBundleVersion r)
    (op_RoleBundleDigest r) (op_RoleBundleSignatureEvidenceIDs r)
    (op_RoleDefinitionDigest r) (op_CapabilityIDs r) (op_HumanSelectionPolicyRevision r)
    (op_HumanSelectionPolicyDigest r) (op_AuthorityPolicyRevision r)
    (op_AuthorityPolicyDigest r) (op_ReplacesBindingID r).

Definition zero_OperatorRoleProfile : OperatorRoleProfile :=
  mkOperatorRoleProfile
    "" "" "" "" "" [] "" [] 0 "" 0 "" None.

Definition fields_OperatorRoleProfile : list (field OperatorRoleProfile) :=
  [
    fld "binding_id" op_BindingID dec_string;
    fld "role_id" op_RoleID dec_string;
    fld "operator_actor_fqn" op_OperatorActorFQN dec_string;
    fld "role_bundle_version" op_RoleBundleVersion dec_string;
    fld "role_bundle_digest" op_RoleBundleDigest dec_string;
    fld "role_bundle_signature_evidence_ids" op_RoleBundleSignatureEvidenceIDs (dec_slice "" dec_string);
    fld "role_definition_digest" op_RoleDefinitionDigest dec_string;
    fld "capability_ids" op_CapabilityIDs (dec_slice "" dec_string);
    fld "human_selection_policy_revision" op_HumanSelectionPolicyRevision dec_u64;
    fld "human_selection_policy_digest" op_HumanSelectionPolicyDigest dec_string;
    fld "authority_policy_revision" op_AuthorityPolicyRevision dec_u64;
    fld "authority_policy_digest" op_AuthorityPolicyDigest dec_string;
    fld "replaces_binding_id" op_ReplacesBindingID (dec_ptr "" dec_string)
  ].
Definition dec_OperatorRoleProfile : decoder OperatorRoleProfile := dec_struct fields_OperatorRoleProfile.

#[global] Instance OperatorRoleProfile_eq_dec : EqDecision OperatorRoleProfile.
Proof. solve_decision. Defined.

Definition validOperatorCapabilities (values : list string) : bool :=
  when negb (validUniqueStrings values 1 10) return false ;;
  forallb (contains
    ["COORDINATE_DAG"; "INSPECT_ORGANIZATION"; "INSPECT_EXECUTION"; "INVOKE_AUTHORIZED_COMMAND";
     "PREPARE_DECISION"; "PROPOSE_ASSIGNMENT"; "PROPOSE_DECOMPOSITION"; "PROPOSE_ESCALATION";
     "ROUTE_HUMAN_REQUIRED"; "SURFACE_OPERATIONAL_CONDITION"]) values.

Definition OperatorRoleProfile_Valid (p : OperatorRoleProfile) : bool :=
  UUIDv7_Valid (op_BindingID p) && (op_RoleID p == "operator")
  && ActorFQN_Valid (op_OperatorActorFQN p) && str_contains (op_OperatorActorFQN p) "::operator-"
  && (op_RoleBundleVersion p != "") && (slen (op_RoleBundleVersion p) <=? 128)
  && Digest_Valid (op_RoleBundleDigest p) && Digest_Valid (op_RoleDefinitionDigest p)
  && validUniqueUUIDs (op_RoleBundleSignatureEvidenceIDs p) 1 16
  && validOperatorCapabilities (op_CapabilityIDs p)
  && (0 <? op_HumanSelectionPolicyRevision p) && Digest_Valid (op_HumanSelectionPolicyDigest p)
  && (0 <? op_AuthorityPolicyRevision p) && Digest_Valid (op_AuthorityPolicyDigest p)
  && opt_all UUIDv7_Valid (op_ReplacesBindingID p).

Definition OperatorRoleFromPayload (payload : string) : option OperatorRoleProfile :=
  try value <- Unmarshal fields_OperatorRoleProfile zero_OperatorRoleProfile payload ;;
  when negb (OperatorRoleProfile_Valid value) return None ;;
  Some value.

Record AuthorityPresentationInput := mkPresentation {
  ap_SourceKind : string;
  ap_ClaimedKind : string;
  ap_CurrentExecution : bool;
  ap_ActorCommandAdmitted : bool;
  ap_ExplicitlyAuthorized : bool
}.

Record PolicyResult := mkPolicyResult { plr_Accepted : bool; plr_Reason : string }.

Definition refused (reason : string) : PolicyResult := mkPolicyResult false reason.

Definition EvaluateAuthorityPresentation (i : AuthorityPresentationInput) : PolicyResult :=
  when ap_SourceKind i == "CONTROL_SURFACE" return refused "ADAPTER_NOT_PRINCIPAL" ;;
  when (ap_SourceKind i == "ACTOR") && (ap_ClaimedKind i == "HUMAN")
    return refused "HUMAN_IMPERSONATION" ;;
  when ap_SourceKind i != ap_ClaimedKind i return refused "PRINCIPAL_KIND_MISMATCH" ;;
  when (ap_SourceKind i == "ACTOR") && negb (ap_CurrentExecution i)
    return refused "STALE_EXECUTION" ;;
  when (ap_SourceKind i == "ACTOR")
       && (negb (ap_ActorCommandAdmitted i) || negb (ap_ExplicitlyAuthorized i))
    return refused "AUTHORITY_REQUIRED" ;;
  when negb (ap_ExplicitlyAuthorized i) return refused "AUTHORITY_REQUIRED" ;;
  mkPolicyResult true "ACCEPTED".

Definition EvaluateHumanRequiredTarget (target : PrincipalRef) : PolicyResult :=
  when pr_Kind target != PrincipalHuman return refused "HUMAN_PRINCIPAL_REQUIRED" ;;
  mkPolicyResult true "ACCEPTED".

(** A presentation is accepted exactly when the source presents itself as
    what it is, is not an adapter, is explicitly authorised and, for an actor,
    runs as its current execution with an admitted command. *)
Lemma EvaluateAuthorityPresentation_spec i :
  plr_Accepted (EvaluateAuthorityPresentation i) = true <->
  ap_SourceKind i <> "CONTROL_SURFACE" /\ ap_SourceKind i = ap_ClaimedKind i /\
  ap_ExplicitlyAuthorized i = true /\
  (ap_SourceKind i = "ACTOR" -> ap_CurrentExecution i = true /\ ap_ActorCommandAdmitted i = true).
Proof.
  destruct i as [src claim cur adm auth]. unfold EvaluateAuthorityPresentation. simpl.
  repeat case_bool_decide; simpl; destruct cur, adm, auth; simpl; intuition congruence.
Qed.
