(* ===== verification/Participant.v ===== *)
(** * Human participants ([kernel/human_participant.go])

    A human's profile: role bindings with the commands they authorise,
    authentication bindings and delivery bindings with a confidentiality
    ceiling. *)

From S2P Require Import Prelude GoText GoTime GoJson Types Samples Payload Envelope.

Definition segment_char (c : ascii) : bool := is_alnum c.

(** [^tekroo\.command\.[a-z0-9]+(?:[.-][a-z0-9]+)*$] *)
Definition one_or_more (p : ascii -> bool) : re := RSeq (RClass p) (RStar (RClass p)).
Fixpoint re_literal (s : string) (rest : re) : re :=
  match s with
  | EmptyString => rest
  | String c s => RSeq (RChar c) (re_literal s rest)
  end.
Definition humanAuthorizedCommandPattern : re :=
  re_literal "tekroo.command."
    (RSeq (one_or_more segment_char)
       (RStar (RSeq (RClass (fun c => (c == "."%char) || (c == "-"%char)))
                 (one_or_more segment_char)))).

Definition Confidentiality := string.
Definition ConfidentialityPublic : Confidentiality := "PUBLIC".
Definition ConfidentialityInternal : Confidentiality := "INTERNAL".
Definition ConfidentialityConfidential : Confidentiality := "CONFIDENTIAL".
Definition ConfidentialityRestricted : Confidentiality := "RESTRICTED".

Definition Confidentiality_Valid (v : Confidentiality) : bool :=
  contains [ConfidentialityPublic; ConfidentialityInternal; ConfidentialityConfidential;
    ConfidentialityRestricted] v.

Definition confidentialityRank (v : Confidentiality) : Z :=
  if v == ConfidentialityPublic then 0
  else if v == ConfidentialityInternal then 1
  else if v == ConfidentialityConfidential then 2
  else if v == ConfidentialityRestricted then 3
  else -1.

Record HumanRoleBinding := mkHumanRoleBinding {
  hr_RoleBindingID : UUIDv7;
  hr_RoleClass : string;
  hr_RoleID : string;
  hr_ScopeKind : string;
  hr_ScopeID : string;
  hr_AdvisoryTopicIDs : list string;
  hr_AuthorizedCommandTypes : list string;
  hr_AuthorityPolicyRevision : Z;
  hr_AuthorityPolicyDigest : Digest;
  hr_ValidFrom : Time;
  hr_ValidUntil : option Time;
  hr_Active : bool;
  hr_EvidenceIDs : list UUIDv7
}.

#[export] Instance eta_HumanRoleBinding : Eta HumanRoleBinding := fun r =>
  mkHumanRoleBinding
    (hr_RoleBindingID r) (hr_RoleClass r) (hr_RoleID r) (hr_ScopeKind r) (hr_ScopeID r)
    (hr_AdvisoryTopicIDs r) (hr_AuthorizedCommandTypes r) (hr_AuthorityPolicyRevision r)
    (hr_AuthorityPolicyDigest r) (hr_ValidFrom r) (hr_ValidUntil r) (hr_Active r)
    (hr_EvidenceIDs r).

Definition zero_HumanRoleBinding : HumanRoleBinding :=
  mkHumanRoleBinding
    "" "" "" "" "" [] [] 0 "" zero_time None false [].

Definition fields_HumanRoleBinding : list (field HumanRoleBinding) :=
  [
    fld "role_binding_id" hr_RoleBindingID dec_string;
    fld "role_class" hr_RoleClass dec_string;
    fld "role_id" hr_RoleID dec_string;
    fld "scope_kind" hr_ScopeKind dec_string;
    fld "scope_id" hr_ScopeID dec_string;
    fld "advisory_topic_ids" hr_AdvisoryTopicIDs (dec_slice "" dec_string);
    fld "authorized_command_types" hr_AuthorizedCommandTypes (dec_slice "" dec_string);
    fld "authority_policy_revision" hr_AuthorityPolicyRevision dec_u64;
    fld "authority_policy_digest" hr_AuthorityPolicyDigest dec_string;
    fld "valid_from" hr_ValidFrom dec_time;
    fld "valid_until" hr_ValidUntil (dec_ptr zero_time dec_time);
    fld "active" hr_Active dec_bool;
    fld "evidence_ids" hr_EvidenceIDs (dec_slice "" dec_string)
  ].
Definition dec_HumanRoleBinding : decoder HumanRoleBinding := dec_struct fields_HumanRoleBinding.

#[global] Instance HumanRoleBinding_eq_dec : EqDecision HumanRoleBinding.
Proof. solve_decision. Defined.

Definition HumanRoleBinding_Current (b : HumanRoleBinding) (at_ : Time) : bool :=
  hr_Active b && negb (Before at_ (hr_ValidFrom b))
  && match hr_ValidUntil b with None => true | Some u => Before at_ u end.

Record HumanAuthenticationBinding := mkHumanAuthenticationBinding {
  ha_AuthenticationBindingID : UUIDv7;
  ha_Method : string;
  ha_IssuerDigest : Digest;
  ha_SubjectDigest : Digest;
  ha_Assurance : string;
  ha_BindingRevision : Z;
  ha_Active : bool;
  ha_EvidenceIDs : list UUIDv7
}.

#[export] Instance eta_HumanAuthenticationBinding : Eta HumanAuthenticationBinding := fun r =>
  mkHumanAuthenticationBinding
    (ha_AuthenticationBindingID r) (ha_Method r) (ha_IssuerDigest r) (ha_SubjectDigest r)
    (ha_Assurance r) (ha_BindingRevision r) (ha_Active r) (ha_EvidenceIDs r).

Definition zero_HumanAuthenticationBinding : HumanAuthenticationBinding :=
  mkHumanAuthenticationBinding
    "" "" "" "" "" 0 false [].

Definition fields_HumanAuthenticationBinding : list (field HumanAuthenticationBinding) :=
  [
    fld "authentication_binding_id" ha_AuthenticationBindingID dec_string;
    fld "method" ha_Method dec_string;
    fld "issuer_digest" ha_IssuerDigest dec_string;
    fld "subject_digest" ha_SubjectDigest dec_string;
    fld "assurance" ha_Assurance dec_string;
    fld "binding_revision" ha_BindingRevision dec_u64;
    fld "active" ha_Active dec_bool;
    fld "evidence_ids" ha_EvidenceIDs (dec_slice "" dec_string)
  ].
Definition dec_HumanAuthenticationBinding : decoder HumanAuthenticationBinding := dec_struct fields_HumanAuthenticationBinding.

#[global] Instance HumanAuthenticationBinding_eq_dec : EqDecision HumanAuthenticationBinding.
Proof. solve_decision. Defined.

Record HumanDeliveryBinding := mkHumanDeliveryBinding {
  hd_DeliveryBindingID : UUIDv7;
  hd_Channel : string;
  hd_EndpointDigest : Digest;
  hd_AdapterProfileDigest : Digest;
  hd_ConfidentialityCeiling : Confidentiality;
  hd_AuthenticationBindingIDs : list UUIDv7;
  hd_BindingRevision : Z;
  hd_Active : bool;
  hd_EvidenceIDs : list UUIDv7
}.

#[export] Instance eta_HumanDeliveryBinding : Eta HumanDeliveryBinding := fun r =>
  mkHumanDeliveryBinding
    (hd_DeliveryBindingID r) (hd_Channel r) (hd_EndpointDigest r)
    (hd_AdapterProfileDigest r) (hd_ConfidentialityCeiling r)
    (hd_AuthenticationBindingIDs r) (hd_BindingRevision r) (hd_Active r) (hd_EvidenceIDs r).

Definition zero_HumanDeliveryBinding : HumanDeliveryBinding :=
  mkHumanDeliveryBinding
    "" "" "" "" "" [] 0 false [].

Definition fields_HumanDeliveryBinding : list (field HumanDeliveryBinding) :=
  [
    fld "delivery_binding_id" hd_DeliveryBindingID dec_string;
    fld "channel" hd_Channel dec_string;
    fld "endpoint_digest" hd_EndpointDigest dec_string;
    fld "adapter_profile_digest" hd_AdapterProfileDigest dec_string;
    fld "confidentiality_ceiling" hd_ConfidentialityCeiling dec_string;
    fld "authentication_binding_ids" hd_AuthenticationBindingIDs (dec_slice "" dec_string);
    fld "binding_revision" hd_BindingRevision dec_u64;
    fld "active" hd_Active dec_bool;
    fld "evidence_ids" hd_EvidenceIDs (dec_slice "" dec_string)
  ].
Definition dec_HumanDeliveryBinding : decoder HumanDeliveryBinding := dec_struct fields_HumanDeliveryBinding.

#[global] Instance HumanDeliveryBinding_eq_dec : EqDecision HumanDeliveryBinding.
Proof. solve_decision. Defined.

Record HumanParticipantSnapshot := mkHumanParticipantSnapshot {
  hp_Participant : PrincipalRef;
  hp_Revision : Z;
  hp_ProfileID : UUIDv7;
  hp_ProfileRevision : Z;
  hp_ProfileDigest : Digest;
  hp_DisplayLabel : string;
  hp_PrivacyClassification : Confidentiality;
  hp_RoleBindings : list HumanRoleBinding;
  hp_AuthenticationBindings : list HumanAuthenticationBinding;
  hp_DeliveryBindings : list HumanDeliveryBinding;
  hp_ParticipantPolicyRevision : Z;
  hp_ParticipantPolicyDigest : Digest;
  hp_SupersedesProfileID : option UUIDv7;
  hp_Active : bool
}.

#[export] Instance eta_HumanParticipantSnapshot : Eta HumanParticipantSnapshot := fun r =>
  mkHumanParticipantSnapshot
    (hp_Participant r) (hp_Revision r) (hp_ProfileID r) (hp_ProfileRevision r)
    (hp_ProfileDigest r) (hp_DisplayLabel r) (hp_PrivacyClassification r)
    (hp_RoleBindings r) (hp_AuthenticationBindings r) (hp_DeliveryBindings r)
    (hp_ParticipantPolicyRevision r) (hp_ParticipantPolicyDigest r)
    (hp_SupersedesProfileID r) (hp_Active r).

Definition zero_HumanParticipantSnapshot : HumanParticipantSnapshot :=
  mkHumanParticipantSnapshot
    zero_principal 0 "" 0 "" "" "" [] [] [] 0 "" None false.

#[global] Instance HumanParticipantSnapshot_eq_dec : EqDecision HumanParticipantSnapshot.
Proof. solve_decision. Defined.

Definition validHumanRoleClass (value : string) : bool :=
  (value == "APPROVER") || (value == "CLIENT") || (value == "END_USER") || (value == "PRINCIPAL")
  || (value == "PROJECT_DEFINED") || (value == "SME").

Definition validHumanScopeKind (value : string) : bool :=
  (value == "DOMAIN") || (value == "PROJECT") || (value == "SYSTEM") || (value == "WORK").

Definition validAuthenticationMethod (value : string) : bool :=
  (value == "API_CREDENTIAL") || (value == "CHANNEL_IDENTITY")
  || (value == "IN_PERSON_ATTESTATION") || (value == "MAGIC_LINK") || (value == "OIDC")
  || (value == "WEBAUTHN").

Definition validDeliveryChannel (value : string) : bool :=
  (value == "EMAIL") || (value == "OTHER") || (value == "SLACK") || (value == "SMS")
  || (value == "TEAMS") || (value == "WEB_PORTAL").

Definition validAuthorizedCommandTypes (values : list string) : bool :=
  when negb (validUniqueStrings values 0 64) return false ;;
  forallb (re_match humanAuthorizedCommandPattern) values.

Definition authentication_ok (b : HumanAuthenticationBinding) : bool :=
  UUIDv7_Valid (ha_AuthenticationBindingID b) && validAuthenticationMethod (ha_Method b)
  && Digest_Valid (ha_IssuerDigest b) && Digest_Valid (ha_SubjectDigest b)
  && ((ha_Assurance b == "HIGH") || (ha_Assurance b == "STANDARD"))
  && (ha_BindingRevision b != 0) && ha_Active b && validUniqueUUIDs (ha_EvidenceIDs b) 1 64.

Definition role_ok (b : HumanRoleBinding) : bool :=
  UUIDv7_Valid (hr_RoleBindingID b) && validHumanRoleClass (hr_RoleClass b)
  && (hr_RoleID b != "") && (slen (hr_RoleID b) <=? 128) && validHumanScopeKind (hr_ScopeKind b)
  && (hr_ScopeID b != "") && (slen (hr_ScopeID b) <=? 256)
  && validUniqueStrings (hr_AdvisoryTopicIDs b) 0 64
  && validAuthorizedCommandTypes (hr_AuthorizedCommandTypes b)
  && (hr_AuthorityPolicyRevision b != 0) && Digest_Valid (hr_AuthorityPolicyDigest b)
  && negb (IsZero (hr_ValidFrom b))
  && opt_all (fun u => After u (hr_ValidFrom b)) (hr_ValidUntil b)
  && hr_Active b && validUniqueUUIDs (hr_EvidenceIDs b) 1 64.

Definition delivery_ok (b : HumanDeliveryBinding) : bool :=
  UUIDv7_Valid (hd_DeliveryBindingID b) && validDeliveryChannel (hd_Channel b)
  && Digest_Valid (hd_EndpointDigest b) && Digest_Valid (hd_AdapterProfileDigest b)
  && Confidentiality_Valid (hd_ConfidentialityCeiling b) && (hd_BindingRevision b != 0)
  && hd_Active b && validUniqueUUIDs (hd_AuthenticationBindingIDs b) 1 16
  && validUniqueUUIDs (hd_EvidenceIDs b) 1 64.

(** A binding loop: every binding passes [ok] and its identifier is new. *)
Fixpoint bindings_loop {A} (ok : A -> bool) (id : A -> UUIDv7) (seen : gset UUIDv7)
    (l : list A) : bool :=
  match l with
  | [] => true
  | b :: l =>
    when negb (ok b) || bool_decide (id b ∈ seen) return false ;;
    bindings_loop ok id ({[id b]} ∪ seen) l
  end.

Definition HumanParticipantSnapshot_Valid (s : HumanParticipantSnapshot) : bool :=
  when (pr_Kind (hp_Participant s) != PrincipalHuman)
       || negb (PrincipalRef_Valid (hp_Participant s)) || (hp_Revision s == 0)
       || negb (UUIDv7_Valid (hp_ProfileID s)) || (hp_ProfileRevision s == 0)
       || negb (Digest_Valid (hp_ProfileDigest s)) || (hp_DisplayLabel s == "")
       || (256 <? slen (hp_DisplayLabel s))
       || negb (Confidentiality_Valid (hp_PrivacyClassification s))
       || (hp_ParticipantPolicyRevision s == 0)
       || negb (Digest_Valid (hp_ParticipantPolicyDigest s))
       || negb (opt_all (fun id => UUIDv7_Valid id && (id != hp_ProfileID s))
                  (hp_SupersedesProfileID s))
       || (llen (hp_RoleBindings s) == 0) || (64 <? llen (hp_RoleBindings s))
       || (llen (hp_AuthenticationBindings s) == 0) || (32 <? llen (hp_AuthenticationBindings s))
       || (llen (hp_DeliveryBindings s) == 0) || (32 <? llen (hp_DeliveryBindings s))
    return false ;;
  when negb (bindings_loop authentication_ok ha_AuthenticationBindingID ∅
               (hp_AuthenticationBindings s)) return false ;;
  when negb (bindings_loop role_ok hr_RoleBindingID ∅ (hp_RoleBindings s)) return false ;;
  let auth := ha_AuthenticationBindingID <$> hp_AuthenticationBindings s in
  bindings_loop
    (fun b => delivery_ok b && forallb (contains auth) (hd_AuthenticationBindingIDs b))
    hd_DeliveryBindingID ∅ (hp_DeliveryBindings s).

Record participantPayload := mkparticipantPayload {
  pp_Participant : PrincipalRef;
  pp_ExpectedParticipantRevision : Z;
  pp_ProfileID : UUIDv7;
  pp_ProfileRevision : Z;
  pp_ProfileDigest : Digest;
  pp_DisplayLabel : string;
  pp_PrivacyClassification : Confidentiality;
  pp_RoleBindings : list HumanRoleBinding;
  pp_AuthenticationBindings : list HumanAuthenticationBinding;
  pp_DeliveryBindings : list HumanDeliveryBinding;
  pp_ParticipantPolicyRevision : Z;
  pp_ParticipantPolicyDigest : Digest;
  pp_SupersedesProfileID : option UUIDv7
}.

#[export] Instance eta_participantPayload : Eta participantPayload := fun r =>
  mkparticipantPayload
    (pp_Participant r) (pp_ExpectedParticipantRevision r) (pp_ProfileID r)
    (pp_ProfileRevision r) (pp_ProfileDigest r) (pp_DisplayLabel r)
    (pp_PrivacyClassification r) (pp_RoleBindings r) (pp_AuthenticationBindings r)
    (pp_DeliveryBindings r) (pp_ParticipantPolicyRevision r) (pp_ParticipantPolicyDigest r)
    (pp_SupersedesProfileID r).

Definition zero_participantPayload : participantPayload :=
  mkparticipantPayload
    zero_principal 0 "" 0 "" "" "" [] [] [] 0 "" None.

Definition fields_participantPayload : list (field participantPayload) :=
  [
    fld "participant" pp_Participant dec_PrincipalRef;
    fld "expected_participant_revision" pp_ExpectedParticipantRevision dec_u64;
    fld "profile_id" pp_ProfileID dec_string;
    fld "profile_revision" pp_ProfileRevision dec_u64;
    fld "profile_digest" pp_ProfileDigest dec_string;
    fld "display_label" pp_DisplayLabel dec_string;
    fld "privacy_classification" pp_PrivacyClassification dec_string;
    fld "role_bindings" pp_RoleBindings (dec_slice zero_HumanRoleBinding dec_HumanRoleBinding);
    fld "authentication_bindings" pp_AuthenticationBindings (dec_slice zero_HumanAuthenticationBinding dec_HumanAuthenticationBinding);
    fld "delivery_bindings" pp_DeliveryBindings (dec_slice zero_HumanDeliveryBinding dec_HumanDeliveryBinding);
    fld "participant_policy_revision" pp_ParticipantPolicyRevision dec_u64;
    fld "participant_policy_digest" pp_ParticipantPolicyDigest dec_string;
    fld "supersedes_profile_id" pp_SupersedesProfileID (dec_ptr "" dec_string)
  ].

Definition HumanParticipantFromPayload (payload : string) (revision : Z)
    : option HumanParticipantSnapshot :=
  try value <- Unmarshal fields_participantPayload zero_participantPayload payload ;;
  when (pr_Kind (pp_Participant value) != PrincipalHuman)
       || (u64 (pp_ExpectedParticipantRevision value + 1) != revision)
    return None ;;
  let snapshot :=
    mkHumanParticipantSnapshot (pp_Participant value) revision (pp_ProfileID value)
      (pp_ProfileRevision value) (pp_ProfileDigest value) (pp_DisplayLabel value)
      (pp_PrivacyClassification value) (pp_RoleBindings value) (pp_AuthenticationBindings value)
      (pp_DeliveryBindings value) (pp_ParticipantPolicyRevision value)
      (pp_ParticipantPolicyDigest value) (pp_SupersedesProfileID value) true in
  when negb (HumanParticipantSnapshot_Valid snapshot) return None ;;
  Some snapshot.

Definition Authorizes (s : HumanParticipantSnapshot) (bindingID : UUIDv7)
    (commandType scopeKind scopeID : string) (at_ : Time) : bool :=
  when negb (hp_Active s) return false ;;
  existsb (fun b =>
    (hr_RoleBindingID b == bindingID) && HumanRoleBinding_Current b at_
    && (hr_ScopeKind b == scopeKind) && (hr_ScopeID b == scopeID)
    && contains (hr_AuthorizedCommandTypes b) commandType) (hp_RoleBindings s).

Definition Authentication (s : HumanParticipantSnapshot) (id : UUIDv7)
    : option HumanAuthenticationBinding :=
  when negb (hp_Active s) return None ;;
  List.find (fun b => (ha_AuthenticationBindingID b == id) && ha_Active b)
    (hp_AuthenticationBindings s).

Definition Delivery (s : HumanParticipantSnapshot) (id : UUIDv7) (requested : Confidentiality)
    : option HumanDeliveryBinding :=
  when negb (hp_Active s) return None ;;
  List.find (fun b =>
    (hd_DeliveryBindingID b == id) && hd_Active b
    && (confidentialityRank requested <=? confidentialityRank (hd_ConfidentialityCeiling b)))
    (hp_DeliveryBindings s).

(** ** Facts *)

Lemma bindings_loop_spec {A} (ok : A -> bool) (id : A -> UUIDv7) seen l :
  bindings_loop ok id seen l = true <->
  Forall (fun b => ok b = true) l /\ NoDup (id <$> l) /\ (forall b, b ∈ l -> id b ∉ seen).
Proof.
  revert seen. induction l as [|b l IH]; intros seen; simpl.
  - split; [intros _; split_and!; [done | constructor | set_solver] | done].
  - rewrite if_false_true, IH, orb_false_iff, negb_false_iff, bool_decide_eq_false,
      Forall_cons, NoDup_cons, list_elem_of_fmap. set_solver.
Qed.

(** Delivery respects confidentiality: a delivery binding is used only if
    the participant is active, the binding is one of the profile's, and a
    question with a valid classification is no more confidential than the
    binding's ceiling; in a valid profile that binding is the only one with its
    identifier and every authentication it relies on is a registered one. *)
Theorem Delivery_respects_ceiling s id requested b :
  HumanParticipantSnapshot_Valid s = true -> Delivery s id requested = Some b ->
  hp_Active s = true /\ b ∈ hp_DeliveryBindings s /\ hd_DeliveryBindingID b = id /\
  confidentialityRank requested <= confidentialityRank (hd_ConfidentialityCeiling b) /\
  (forall b', b' ∈ hp_DeliveryBindings s -> hd_DeliveryBindingID b' = id -> b' = b) /\
  (forall a, a ∈ hd_AuthenticationBindingIDs b ->
     exists m, m ∈ hp_AuthenticationBindings s /\ ha_AuthenticationBindingID m = a).
Proof.
  intros Hv H. unfold Delivery in H. destruct (hp_Active s) eqn:Ea; [|discriminate H].
  simpl in H. apply find_some in H as [Hin Hb]. apply list_elem_of_In in Hin.
  bprop Hb. destruct Hb as [[Hid Hact] Hrank].
  unfold HumanParticipantSnapshot_Valid in Hv. rewrite !if_false_true in Hv.
  destruct Hv as (_ & _ & _ & Hd). apply bindings_loop_spec in Hd as (Hok & Hnd & _).
  rewrite Forall_forall in Hok. pose proof (Hok b Hin) as Hb.
  apply andb_true_iff in Hb as [_ Hauth]. rewrite forallb_True_iff, Forall_forall in Hauth.
  split_and!; [done..| |].
  - intros b' Hb' Eb. rewrite <- Hid in Eb.
    apply list_elem_of_lookup in Hin as [i Hi], Hb' as [j Hj].
    assert (j = i) as ->; [|congruence].
    apply (NoDup_lookup _ _ _ (hd_DeliveryBindingID b') Hnd).
    + by rewrite list_lookup_fmap, Hj.
    + rewrite list_lookup_fmap, Hi. simpl. congruence.
  - intros a Ha. specialize (Hauth a Ha). apply contains_spec, list_elem_of_fmap in Hauth.
    naive_solver.
Qed.

Definition sample_delivery_binding : HumanDeliveryBinding :=
  mkHumanDeliveryBinding (uid "3") "EMAIL" (dig "1") (dig "2") ConfidentialityConfidential
    [uid "4"] 1 true [uid "5"].

Definition sample_participant : HumanParticipantSnapshot :=
  mkHumanParticipantSnapshot (mkPrincipal PrincipalHuman "ada") 1 (uid "1") 1 (dig "3") "Ada"
    ConfidentialityInternal
    [mkHumanRoleBinding (uid "2") "SME" "domain-expert" "WORK" "story-1" ["storage"]
       ["tekroo.command.story.approve-release"] 1 (dig "4") sample_time None true [uid "5"]]
    [mkHumanAuthenticationBinding (uid "4") "OIDC" (dig "5") (dig "6") "HIGH" 1 true [uid "5"]]
    [sample_delivery_binding] 1 (dig "7") None true.

Lemma Delivery_respects_ceiling_witness :
  confidentialityRank ConfidentialityInternal
  <= confidentialityRank (hd_ConfidentialityCeiling sample_delivery_binding).
Proof.
  apply (Delivery_respects_ceiling sample_participant (uid "3") ConfidentialityInternal
           sample_delivery_binding); vm_compute; reflexivity.
Defined.
