(* ===== verification/Interaction.v ===== *)
(** * Human interactions ([kernel/human_interaction.go])

    A question put to selected humans: deliveries and responses are recorded,
    the response policy decides when it is satisfied, and it ends closed or
    expired. [ApplyHumanInteractionEvent] returns the next snapshot and whether
    the event was legal. *)

From S2P Require Import Prelude GoText GoTime GoJson Types.
From S2P Require Import Samples Payload Envelope OperatorRole Participant.

Definition HumanInteractionPhase := string.
Definition HumanInteractionOpen : HumanInteractionPhase := "OPEN".
Definition HumanInteractionCollecting : HumanInteractionPhase := "COLLECTING".
Definition HumanInteractionSatisfied : HumanInteractionPhase := "SATISFIED".
Definition HumanInteractionClosed : HumanInteractionPhase := "CLOSED".
Definition HumanInteractionExpired : HumanInteractionPhase := "EXPIRED".

Definition HumanResponsePolicyKind := string.
Definition HumanResponseExactOne : HumanResponsePolicyKind := "EXACT_ONE".
Definition HumanResponseAnyOne : HumanResponsePolicyKind := "ANY_ONE".
Definition HumanResponseAll : HumanResponsePolicyKind := "ALL".
Definition HumanResponseQuorum : HumanResponsePolicyKind := "QUORUM".

Record HumanResponsePolicy := mkHumanResponsePolicy {
  rpol_Kind : HumanResponsePolicyKind;
  rpol_Quorum : Z
}.

#[export] Instance eta_HumanResponsePolicy : Eta HumanResponsePolicy := fun r =>
  mkHumanResponsePolicy
    (rpol_Kind r) (rpol_Quorum r).

Definition zero_HumanResponsePolicy : HumanResponsePolicy :=
  mkHumanResponsePolicy
    "" 0.

Definition fields_HumanResponsePolicy : list (field HumanResponsePolicy) :=
  [
    fld "kind" rpol_Kind dec_string;
    fld "quorum" rpol_Quorum dec_u64
  ].
Definition dec_HumanResponsePolicy : decoder HumanResponsePolicy := dec_struct fields_HumanResponsePolicy.

#[global] Instance HumanResponsePolicy_eq_dec : EqDecision HumanResponsePolicy.
Proof. solve_decision. Defined.

Definition HumanResponsePolicy_Valid (p : HumanResponsePolicy) (selected : Z) : bool :=
  if rpol_Kind p == HumanResponseExactOne then (selected == 1) && (rpol_Quorum p == 0)
  else if (rpol_Kind p == HumanResponseAnyOne) || (rpol_Kind p == HumanResponseAll)
  then (0 <? selected) && (rpol_Quorum p == 0)
  else if rpol_Kind p == HumanResponseQuorum
  then (0 <? rpol_Quorum p) && (rpol_Quorum p <=? selected)
  else false.

Record HumanInteractionRecipient := mkHumanInteractionRecipient {
  rcp_Principal : PrincipalRef;
  rcp_ParticipantProfileID : UUIDv7;
  rcp_ParticipantProfileRevision : Z;
  rcp_ParticipantProfileDigest : Digest;
  rcp_RoleBindingID : UUIDv7;
  rcp_DeliveryBindingID : UUIDv7
}.

#[export] Instance eta_HumanInteractionRecipient : Eta HumanInteractionRecipient := fun r =>
  mkHumanInteractionRecipient
    (rcp_Principal r) (rcp_ParticipantProfileID r) (rcp_ParticipantProfileRevision r)
    (rcp_ParticipantProfileDigest r) (rcp_RoleBindingID r) (rcp_DeliveryBindingID r).

Definition zero_HumanInteractionRecipient : HumanInteractionRecipient :=
  mkHumanInteractionRecipient
    zero_principal "" 0 "" "" "".

Definition fields_HumanInteractionRecipient : list (field HumanInteractionRecipient) :=
  [
    fld "principal" rcp_Principal dec_PrincipalRef;
    fld "participant_profile_id" rcp_ParticipantProfileID dec_string;
    fld "participant_profile_revision" rcp_ParticipantProfileRevision dec_u64;
    fld "participant_profile_digest" rcp_ParticipantProfileDigest dec_string;
    fld "role_binding_id" rcp_RoleBindingID dec_string;
    fld "delivery_binding_id" rcp_DeliveryBindingID dec_string
  ].
Definition dec_HumanInteractionRecipient : decoder HumanInteractionRecipient := dec_struct fields_HumanInteractionRecipient.

#[global] Instance HumanInteractionRecipient_eq_dec : EqDecision HumanInteractionRecipient.
Proof. solve_decision. Defined.

Record HumanDeliveryRecord := mkHumanDeliveryRecord {
  dlv_DeliveryID : UUIDv7;
  dlv_EventID : UUIDv7;
  dlv_Recipient : PrincipalRef;
  dlv_DeliveryBindingID : UUIDv7;
  dlv_Outcome : string
}.

#[export] Instance eta_HumanDeliveryRecord : Eta HumanDeliveryRecord := fun r =>
  mkHumanDeliveryRecord
    (dlv_DeliveryID r) (dlv_EventID r) (dlv_Recipient r) (dlv_DeliveryBindingID r)
    (dlv_Outcome r).

Definition zero_HumanDeliveryRecord : HumanDeliveryRecord :=
  mkHumanDeliveryRecord
    "" "" zero_principal "" "".

#[global] Instance HumanDeliveryRecord_eq_dec : EqDecision HumanDeliveryRecord.
Proof. solve_decision. Defined.

Record HumanResponseRecord := mkHumanResponseRecord {
  rsp_EventID : UUIDv7;
  rsp_Respondent : PrincipalRef;
  rsp_ParticipantProfileID : UUIDv7;
  rsp_ParticipantProfileRevision : Z;
  rsp_RoleBindingID : UUIDv7;
  rsp_AuthenticationBindingID : UUIDv7;
  rsp_DeliveryID : UUIDv7;
  rsp_ResponseArtifactDigest : Digest;
  rsp_ResponseSpecificationDigest : Digest
}.

#[export] Instance eta_HumanResponseRecord : Eta HumanResponseRecord := fun r =>
  mkHumanResponseRecord
    (rsp_EventID r) (rsp_Respondent r) (rsp_ParticipantProfileID r)
    (rsp_ParticipantProfileRevision r) (rsp_RoleBindingID r)
    (rsp_AuthenticationBindingID r) (rsp_DeliveryID r) (rsp_ResponseArtifactDigest r)
    (rsp_ResponseSpecificationDigest r).

Definition zero_HumanResponseRecord : HumanResponseRecord :=
  mkHumanResponseRecord
    "" zero_principal "" 0 "" "" "" "" "".

#[global] Instance HumanResponseRecord_eq_dec : EqDecision HumanResponseRecord.
Proof. solve_decision. Defined.

Record HumanInteractionSnapshot := mkHumanInteractionSnapshot {
  hi_InteractionID : UUIDv7;
  hi_Revision : Z;
  hi_Phase : HumanInteractionPhase;
  hi_Subject : AggregateRef;
  hi_SubjectLifecycleEpoch : Z;
  hi_ExpectedSubjectRevision : Z;
  hi_QuestionRevision : Z;
  hi_CanonicalQuestionDigest : Digest;
  hi_ResponseSpecificationDigest : Digest;
  hi_OriginPrincipal : PrincipalRef;
  hi_OriginActorFQN : option ActorFQN;
  hi_OriginExecution : option ExecutionTuple;
  hi_Recipients : list HumanInteractionRecipient;
  hi_ResponsePolicy : HumanResponsePolicy;
  hi_Purpose : string;
  hi_DeclaredEffect : string;
  hi_Confidentiality : Confidentiality;
  hi_DeadlineAt : Time;
  hi_TimeoutPolicy : PrincipalRef;
  hi_DisclosureScopeDigest : Digest;
  hi_InteractionPolicyRevision : Z;
  hi_InteractionPolicyDigest : Digest;
  hi_PredecessorInteractionID : option UUIDv7;
  hi_Deliveries : list HumanDeliveryRecord;
  hi_Responses : list HumanResponseRecord
}.

#[export] Instance eta_HumanInteractionSnapshot : Eta HumanInteractionSnapshot := fun r =>
  mkHumanInteractionSnapshot
    (hi_InteractionID r) (hi_Revision r) (hi_Phase r) (hi_Subject r)
    (hi_SubjectLifecycleEpoch r) (hi_ExpectedSubjectRevision r) (hi_QuestionRevision r)
    (hi_CanonicalQuestionDigest r) (hi_ResponseSpecificationDigest r)
    (hi_OriginPrincipal r) (hi_OriginActorFQN r) (hi_OriginExecution r) (hi_Recipients r)
    (hi_ResponsePolicy r) (hi_Purpose r) (hi_DeclaredEffect r) (hi_Confidentiality r)
    (hi_DeadlineAt r) (hi_TimeoutPolicy r) (hi_DisclosureScopeDigest r)
    (hi_InteractionPolicyRevision r) (hi_InteractionPolicyDigest r)
    (hi_PredecessorInteractionID r) (hi_Deliveries r) (hi_Responses r).

Definition zero_HumanInteractionSnapshot : HumanInteractionSnapshot :=
  mkHumanInteractionSnapshot
    "" 0 "" zero_ref 0 0 0 "" "" zero_principal None None [] zero_HumanResponsePolicy "" ""
    "" zero_time zero_principal "" 0 "" None [] [].

#[global] Instance HumanInteractionSnapshot_eq_dec : EqDecision HumanInteractionSnapshot.
Proof. solve_decision. Defined.

Definition validHumanInteractionPurpose (value : string) : bool :=
  contains ["ADVISORY_CONSULTATION"; "AUTHORIZED_DECISION"; "EVIDENTIARY_QUESTION";
    "REQUIREMENTS_CLARIFICATION"; "ACCEPTANCE_FEEDBACK"] value.

Definition validHumanInteractionEffect (value : string) : bool :=
  (value == "ADVISORY_ONLY") || (value == "AUTHORITY_IF_AUTHORIZED") || (value == "EVIDENCE_ONLY").

Definition Selected (s : HumanInteractionSnapshot) (principal : PrincipalRef)
    : option HumanInteractionRecipient :=
  when pr_Kind principal != PrincipalHuman return None ;;
  List.find (fun r => rcp_Principal r == principal) (hi_Recipients s).

(** The humans that responded: the keys of the [accepted] map. *)
Definition accepted_humans (l : list HumanResponseRecord) : gset string :=
  list_to_set ((fun r => pr_ID (rsp_Respondent r)) <$> l).

Definition ResponsePolicySatisfied (s : HumanInteractionSnapshot) : bool :=
  let accepted := Z.of_nat (size (accepted_humans (hi_Responses s))) in
  let kind := rpol_Kind (hi_ResponsePolicy s) in
  if kind == HumanResponseExactOne then (llen (hi_Recipients s) == 1) && (accepted == 1)
  else if kind == HumanResponseAnyOne then 1 <=? accepted
  else if kind == HumanResponseAll then accepted == llen (hi_Recipients s)
  else if kind == HumanResponseQuorum then rpol_Quorum (hi_ResponsePolicy s) <=? accepted
  else false.

Definition recipient_ok (r : HumanInteractionRecipient) : bool :=
  (pr_Kind (rcp_Principal r) == PrincipalHuman) && PrincipalRef_Valid (rcp_Principal r)
  && UUIDv7_Valid (rcp_ParticipantProfileID r) && (rcp_ParticipantProfileRevision r != 0)
  && Digest_Valid (rcp_ParticipantProfileDigest r) && UUIDv7_Valid (rcp_RoleBindingID r)
  && UUIDv7_Valid (rcp_DeliveryBindingID r).

Definition delivery_outcome_ok (o : string) : bool :=
  (o == "DELIVERED") || (o == "FAILED") || (o == "UNKNOWN").

Definition delivery_record_ok (s : HumanInteractionSnapshot) (d : HumanDeliveryRecord) : bool :=
  match Selected s (dlv_Recipient d) with
  | None => false
  | Some recipient =>
    UUIDv7_Valid (dlv_DeliveryID d) && UUIDv7_Valid (dlv_EventID d)
    && (rcp_DeliveryBindingID recipient == dlv_DeliveryBindingID d)
    && delivery_outcome_ok (dlv_Outcome d)
  end.

Definition delivered_to (s : HumanInteractionSnapshot) (r : HumanResponseRecord) : bool :=
  existsb (fun d => (dlv_DeliveryID d == rsp_DeliveryID r)
                    && (dlv_Recipient d == rsp_Respondent r)
                    && (dlv_Outcome d == "DELIVERED")) (hi_Deliveries s).

Definition response_record_ok (s : HumanInteractionSnapshot) (r : HumanResponseRecord) : bool :=
  match Selected s (rsp_Respondent r) with
  | None => false
  | Some recipient =>
    UUIDv7_Valid (rsp_EventID r)
    && (rcp_ParticipantProfileID recipient == rsp_ParticipantProfileID r)
    && (rcp_ParticipantProfileRevision recipient == rsp_ParticipantProfileRevision r)
    && (rcp_RoleBindingID recipient == rsp_RoleBindingID r)
    && UUIDv7_Valid (rsp_AuthenticationBindingID r) && UUIDv7_Valid (rsp_DeliveryID r)
    && Digest_Valid (rsp_ResponseArtifactDigest r)
    && (rsp_ResponseSpecificationDigest r == hi_ResponseSpecificationDigest s)
    && delivered_to s r
  end.

(** The validation loops keep one [seen] set per key. *)
Definition recipients_loop (l : list HumanInteractionRecipient) : bool :=
  forallb recipient_ok l && bool_decide (NoDup ((fun r => pr_ID (rcp_Principal r)) <$> l)).
Definition deliveries_loop (s : HumanInteractionSnapshot) : bool :=
  forallb (delivery_record_ok s) (hi_Deliveries s)
  && bool_decide (NoDup (dlv_DeliveryID <$> hi_Deliveries s))
  && bool_decide (NoDup (dlv_EventID <$> hi_Deliveries s)).
Definition responses_loop (s : HumanInteractionSnapshot) : bool :=
  forallb (response_record_ok s) (hi_Responses s)
  && bool_decide (NoDup (rsp_EventID <$> hi_Responses s))
  && bool_decide (NoDup ((fun r => pr_ID (rsp_Respondent r)) <$> hi_Responses s))
  && bool_decide (NoDup (rsp_ResponseArtifactDigest <$> hi_Responses s)).

Definition HumanInteractionSnapshot_Valid (s : HumanInteractionSnapshot) : bool :=
  when negb (UUIDv7_Valid (hi_InteractionID s)) || (hi_Revision s == 0)
       || negb (AggregateRef_Valid (hi_Subject s)) || (hi_SubjectLifecycleEpoch s == 0)
       || (hi_ExpectedSubjectRevision s == 0) || (hi_QuestionRevision s == 0)
       || negb (Digest_Valid (hi_CanonicalQuestionDigest s))
       || negb (Digest_Valid (hi_ResponseSpecificationDigest s))
       || negb (PrincipalRef_Valid (hi_OriginPrincipal s))
       || negb (HumanResponsePolicy_Valid (hi_ResponsePolicy s) (llen (hi_Recipients s)))
       || negb (validHumanInteractionPurpose (hi_Purpose s))
       || negb (validHumanInteractionEffect (hi_DeclaredEffect s))
       || negb (Confidentiality_Valid (hi_Confidentiality s)) || IsZero (hi_DeadlineAt s)
       || (pr_Kind (hi_TimeoutPolicy s) != PrincipalPolicy)
       || negb (PrincipalRef_Valid (hi_TimeoutPolicy s))
       || negb (Digest_Valid (hi_DisclosureScopeDigest s)) || (hi_InteractionPolicyRevision s == 0)
       || negb (Digest_Valid (hi_InteractionPolicyDigest s))
       || negb (opt_all (fun id => UUIDv7_Valid id && (id != hi_InteractionID s))
                  (hi_PredecessorInteractionID s))
    return false ;;
  when (pr_Kind (hi_OriginPrincipal s) == PrincipalHuman)
       && (negb (is_nil (hi_OriginActorFQN s)) || negb (is_nil (hi_OriginExecution s)))
    return false ;;
  when (pr_Kind (hi_OriginPrincipal s) == PrincipalActor)
       && ((hi_OriginActorFQN s != Some (pr_ID (hi_OriginPrincipal s)))
           || is_nil (hi_OriginExecution s))
    return false ;;
  when negb (recipients_loop (hi_Recipients s)) return false ;;
  when negb (deliveries_loop s) return false ;;
  when negb (responses_loop s) return false ;;
  let phase := hi_Phase s in
  if phase == HumanInteractionOpen
  then (llen (hi_Deliveries s) == 0) && (llen (hi_Responses s) == 0)
  else if phase == HumanInteractionCollecting then negb (ResponsePolicySatisfied s)
  else if (phase == HumanInteractionSatisfied) || (phase == HumanInteractionClosed)
  then ResponsePolicySatisfied s
  else phase == HumanInteractionExpired.

Record interactionOpenPayload := mkinteractionOpenPayload {
  io_InteractionID : UUIDv7;
  io_SubjectKind : AggregateKind;
  io_SubjectID : UUIDv7;
  io_SubjectLifecycleEpoch : Z;
  io_ExpectedSubjectRevision : Z;
  io_QuestionRevision : Z;
  io_CanonicalQuestionDigest : Digest;
  io_ResponseSpecificationDigest : Digest;
  io_OriginPrincipal : PrincipalRef;
  io_OriginActorFQN : option ActorFQN;
  io_OriginExecutionID : option UUIDv7;
  io_OriginExecutionFencingEpoch : option Z;
  io_Recipients : list HumanInteractionRecipient;
  io_ResponsePolicy : HumanResponsePolicy;
  io_Purpose : string;
  io_DeclaredEffect : string;
  io_Confidentiality : Confidentiality;
  io_DeadlineAt : Time;
  io_TimeoutPolicy : PrincipalRef;
  io_DisclosureScopeDigest : Digest;
  io_InteractionPolicyRevision : Z;
  io_InteractionPolicyDigest : Digest;
  io_PredecessorInteractionID : option UUIDv7
}.

#[export] Instance eta_interactionOpenPayload : Eta interactionOpenPayload := fun r =>
  mkinteractionOpenPayload
    (io_InteractionID r) (io_SubjectKind r) (io_SubjectID r) (io_SubjectLifecycleEpoch r)
    (io_ExpectedSubjectRevision r) (io_QuestionRevision r) (io_CanonicalQuestionDigest r)
    (io_ResponseSpecificationDigest r) (io_OriginPrincipal r) (io_OriginActorFQN r)
    (io_OriginExecutionID r) (io_OriginExecutionFencingEpoch r) (io_Recipients r)
    (io_ResponsePolicy r) (io_Purpose r) (io_DeclaredEffect r) (io_Confidentiality r)
    (io_DeadlineAt r) (io_TimeoutPolicy r) (io_DisclosureScopeDigest r)
    (io_InteractionPolicyRevision r) (io_InteractionPolicyDigest r)
    (io_PredecessorInteractionID r).

Definition zero_interactionOpenPayload : interactionOpenPayload :=
  mkinteractionOpenPayload
    "" "" "" 0 0 0 "" "" zero_principal None None None [] zero_HumanResponsePolicy "" "" ""
    zero_time zero_principal "" 0 "" None.

Definition fields_interactionOpenPayload : list (field interactionOpenPayload) :=
  [
    fld "interaction_id" io_InteractionID dec_string;
    fld "subject_kind" io_SubjectKind dec_string;
    fld "subject_id" io_SubjectID dec_string;
    fld "subject_lifecycle_epoch" io_SubjectLifecycleEpoch dec_u64;
    fld "expected_subject_revision" io_ExpectedSubjectRevision dec_u64;
    fld "question_revision" io_QuestionRevision dec_u64;
    fld "canonical_question_digest" io_CanonicalQuestionDigest dec_string;
    fld "response_specification_digest" io_ResponseSpecificationDigest dec_string;
    fld "origin_principal" io_OriginPrincipal dec_PrincipalRef;
    fld "origin_actor_fqn" io_OriginActorFQN (dec_ptr "" dec_string);
    fld "origin_execution_id" io_OriginExecutionID (dec_ptr "" dec_string);
    fld "origin_execution_fencing_epoch" io_OriginExecutionFencingEpoch (dec_ptr 0 dec_u64);
    fld "recipients" io_Recipients (dec_slice zero_HumanInteractionRecipient dec_HumanInteractionRecipient);
    fld "response_policy" io_ResponsePolicy dec_HumanResponsePolicy;
    fld "purpose" io_Purpose dec_string;
    fld "declared_effect" io_DeclaredEffect dec_string;
    fld "confidentiality" io_Confidentiality dec_string;
    fld "deadline_at" io_DeadlineAt dec_time;
    fld "timeout_policy" io_TimeoutPolicy dec_PrincipalRef;
    fld "disclosure_scope_digest" io_DisclosureScopeDigest dec_string;
    fld "interaction_policy_revision" io_InteractionPolicyRevision dec_u64;
    fld "interaction_policy_digest" io_InteractionPolicyDigest dec_string;
    fld "predecessor_interaction_id" io_PredecessorInteractionID (dec_ptr "" dec_string)
  ].

Definition HumanInteractionFromOpenPayload (payload : string) (revision : Z)
    : option HumanInteractionSnapshot :=
  try v <- Unmarshal fields_interactionOpenPayload zero_interactionOpenPayload payload ;;
  try execution <-
    match io_OriginExecutionID v, io_OriginExecutionFencingEpoch v with
    | Some id, Some epoch => Some (Some (mkExec id epoch))
    | None, None => Some None
    | _, _ => None
    end ;;
  let snapshot :=
    mkHumanInteractionSnapshot (io_InteractionID v) revision HumanInteractionOpen
      (mkRef (io_SubjectKind v) (io_SubjectID v)) (io_SubjectLifecycleEpoch v)
      (io_ExpectedSubjectRevision v) (io_QuestionRevision v) (io_CanonicalQuestionDigest v)
      (io_ResponseSpecificationDigest v) (io_OriginPrincipal v) (io_OriginActorFQN v) execution
      (io_Recipients v) (io_ResponsePolicy v) (io_Purpose v) (io_DeclaredEffect v)
      (io_Confidentiality v) (io_DeadlineAt v) (io_TimeoutPolicy v)
      (io_DisclosureScopeDigest v) (io_InteractionPolicyRevision v)
      (io_InteractionPolicyDigest v) (io_PredecessorInteractionID v) [] [] in
  when negb (HumanInteractionSnapshot_Valid snapshot) return None ;;
  Some snapshot.

Record deliveryPayload := mkdeliveryPayload {
  dv_InteractionID : UUIDv7;
  dv_ExpectedInteractionRevision : Z;
  dv_QuestionRevision : Z;
  dv_DeliveryID : UUIDv7;
  dv_Recipient : PrincipalRef;
  dv_DeliveryBindingID : UUIDv7;
  dv_AdapterProfileDigest : Digest;
  dv_CanonicalQuestionDigest : Digest;
  dv_RenderedQuestionDigest : Digest;
  dv_PresenterActorFQN : option ActorFQN;
  dv_PresenterExecutionID : option UUIDv7;
  dv_MaterialEquivalenceEvidenceID : option UUIDv7;
  dv_Outcome : string;
  dv_AttemptedAt : Time;
  dv_ChannelProvenanceDigest : Digest
}.

#[export] Instance eta_deliveryPayload : Eta deliveryPayload := fun r =>
  mkdeliveryPayload
    (dv_InteractionID r) (dv_ExpectedInteractionRevision r) (dv_QuestionRevision r)
    (dv_DeliveryID r) (dv_Recipient r) (dv_DeliveryBindingID r) (dv_AdapterProfileDigest r)
    (dv_CanonicalQuestionDigest r) (dv_RenderedQuestionDigest r) (dv_PresenterActorFQN r)
    (dv_PresenterExecutionID r) (dv_MaterialEquivalenceEvidenceID r) (dv_Outcome r)
    (dv_AttemptedAt r) (dv_ChannelProvenanceDigest r).

Definition zero_deliveryPayload : deliveryPayload :=
  mkdeliveryPayload
    "" 0 0 "" zero_principal "" "" "" "" None None None "" zero_time "".

Definition fields_deliveryPayload : list (field deliveryPayload) :=
  [
    fld "interaction_id" dv_InteractionID dec_string;
    fld "expected_interaction_revision" dv_ExpectedInteractionRevision dec_u64;
    fld "question_revision" dv_QuestionRevision dec_u64;
    fld "delivery_id" dv_DeliveryID dec_string;
    fld "recipient" dv_Recipient dec_PrincipalRef;
    fld "delivery_binding_id" dv_DeliveryBindingID dec_string;
    fld "adapter_profile_digest" dv_AdapterProfileDigest dec_string;
    fld "canonical_question_digest" dv_CanonicalQuestionDigest dec_string;
    fld "rendered_question_digest" dv_RenderedQuestionDigest dec_string;
    fld "presenter_actor_fqn" dv_PresenterActorFQN (dec_ptr "" dec_string);
    fld "presenter_execution_id" dv_PresenterExecutionID (dec_ptr "" dec_string);
    fld "material_equivalence_evidence_id" dv_MaterialEquivalenceEvidenceID (dec_ptr "" dec_string);
    fld "outcome" dv_Outcome dec_string;
    fld "attempted_at" dv_AttemptedAt dec_time;
    fld "channel_provenance_digest" dv_ChannelProvenanceDigest dec_string
  ].

(** An interaction that has ended accepts no further event. *)
Definition ended (phase : HumanInteractionPhase) : bool :=
  (phase == HumanInteractionClosed) || (phase == HumanInteractionExpired).

Definition record_delivery (s : HumanInteractionSnapshot) (eventID : UUIDv7) (payload : string)
    : option HumanInteractionSnapshot :=
  try v <- Unmarshal fields_deliveryPayload zero_deliveryPayload payload ;;
  when ended (hi_Phase s) || (dv_InteractionID v != hi_InteractionID s)
       || (dv_ExpectedInteractionRevision v != hi_Revision s)
       || (dv_QuestionRevision v != hi_QuestionRevision s)
       || (dv_CanonicalQuestionDigest v != hi_CanonicalQuestionDigest s)
       || negb (UUIDv7_Valid (dv_DeliveryID v)) || negb (Digest_Valid (dv_AdapterProfileDigest v))
       || negb (Digest_Valid (dv_RenderedQuestionDigest v))
       || negb (Digest_Valid (dv_ChannelProvenanceDigest v)) || IsZero (dv_AttemptedAt v)
       || negb (delivery_outcome_ok (dv_Outcome v))
       || negb (Bool.eqb (is_nil (dv_PresenterActorFQN v)) (is_nil (dv_PresenterExecutionID v)))
       || negb (opt_all ActorFQN_Valid (dv_PresenterActorFQN v)
                && opt_all UUIDv7_Valid (dv_PresenterExecutionID v))
       || negb (opt_all UUIDv7_Valid (dv_MaterialEquivalenceEvidenceID v))
    return None ;;
  try recipient <- Selected s (dv_Recipient v) ;;
  when rcp_DeliveryBindingID recipient != dv_DeliveryBindingID v return None ;;
  when (dv_RenderedQuestionDigest v != dv_CanonicalQuestionDigest v)
       && is_nil (dv_MaterialEquivalenceEvidenceID v)
    return None ;;
  when existsb (fun d => dlv_DeliveryID d == dv_DeliveryID v) (hi_Deliveries s) return None ;;
  Some (s <| hi_Deliveries := hi_Deliveries s ++
               [mkHumanDeliveryRecord (dv_DeliveryID v) eventID (dv_Recipient v)
                  (dv_DeliveryBindingID v) (dv_Outcome v)] |>
          <| hi_Phase := if hi_Phase s == HumanInteractionOpen
                         then HumanInteractionCollecting else hi_Phase s |>).

Record responsePayload := mkresponsePayload {
  rv_InteractionID : UUIDv7;
  rv_ExpectedInteractionRevision : Z;
  rv_QuestionRevision : Z;
  rv_Respondent : PrincipalRef;
  rv_ParticipantProfileID : UUIDv7;
  rv_ParticipantProfileRevision : Z;
  rv_RoleBindingID : UUIDv7;
  rv_AuthenticationBindingID : UUIDv7;
  rv_DeliveryID : UUIDv7;
  rv_DeliveryEventID : UUIDv7;
  rv_ResponseArtifactDigest : Digest;
  rv_ResponseSpecificationDigest : Digest;
  rv_ResponseClassification : string;
  rv_AssertedEffect : string;
  rv_CredentialProvenanceDigest : Digest;
  rv_ChannelProvenanceDigest : Digest;
  rv_RespondedAt : Time
}.

#[export] Instance eta_responsePayload : Eta responsePayload := fun r =>
  mkresponsePayload
    (rv_InteractionID r) (rv_ExpectedInteractionRevision r) (rv_QuestionRevision r)
    (rv_Respondent r) (rv_ParticipantProfileID r) (rv_ParticipantProfileRevision r)
    (rv_RoleBindingID r) (rv_AuthenticationBindingID r) (rv_DeliveryID r)
    (rv_DeliveryEventID r) (rv_ResponseArtifactDigest r) (rv_ResponseSpecificationDigest r)
    (rv_ResponseClassification r) (rv_AssertedEffect r) (rv_CredentialProvenanceDigest r)
    (rv_ChannelProvenanceDigest r) (rv_RespondedAt r).

Definition zero_responsePayload : responsePayload :=
  mkresponsePayload
    "" 0 0 zero_principal "" 0 "" "" "" "" "" "" "" "" "" "" zero_time.

Definition fields_responsePayload : list (field responsePayload) :=
  [
    fld "interaction_id" rv_InteractionID dec_string;
    fld "expected_interaction_revision" rv_ExpectedInteractionRevision dec_u64;
    fld "question_revision" rv_QuestionRevision dec_u64;
    fld "respondent" rv_Respondent dec_PrincipalRef;
    fld "participant_profile_id" rv_ParticipantProfileID dec_string;
    fld "participant_profile_revision" rv_ParticipantProfileRevision dec_u64;
    fld "role_binding_id" rv_RoleBindingID dec_string;
    fld "authentication_binding_id" rv_AuthenticationBindingID dec_string;
    fld "delivery_id" rv_DeliveryID dec_string;
    fld "delivery_event_id" rv_DeliveryEventID dec_string;
    fld "response_artifact_digest" rv_ResponseArtifactDigest dec_string;
    fld "response_specification_digest" rv_ResponseSpecificationDigest dec_string;
    fld "response_classification" rv_ResponseClassification dec_string;
    fld "asserted_effect" rv_AssertedEffect dec_string;
    fld "credential_provenance_digest" rv_CredentialProvenanceDigest dec_string;
    fld "channel_provenance_digest" rv_ChannelProvenanceDigest dec_string;
    fld "responded_at" rv_RespondedAt dec_time
  ].

Record parsedHumanResponse := mkParsedResponse {
  ph_InteractionID : UUIDv7;
  ph_ExpectedInteractionRevision : Z;
  ph_QuestionRevision : Z;
  ph_DeliveryEventID : UUIDv7;
  ph_Record : HumanResponseRecord
}.

Definition humanResponseFromPayload (payload : string) (eventID : UUIDv7)
    : option parsedHumanResponse :=
  try v <- Unmarshal fields_responsePayload zero_responsePayload payload ;;
  when (pr_Kind (rv_Respondent v) != PrincipalHuman) || negb (UUIDv7_Valid eventID)
    return None ;;
  let record :=
    mkHumanResponseRecord eventID (rv_Respondent v) (rv_ParticipantProfileID v)
      (rv_ParticipantProfileRevision v) (rv_RoleBindingID v) (rv_AuthenticationBindingID v)
      (rv_DeliveryID v) (rv_ResponseArtifactDigest v) (rv_ResponseSpecificationDigest v) in
  let validClassification :=
    (rv_ResponseClassification v == "ANSWER") || (rv_ResponseClassification v == "DECLINE")
    || (rv_ResponseClassification v == "REQUEST_CLARIFICATION") in
  if UUIDv7_Valid (rsp_ParticipantProfileID record)
     && (0 <? rsp_ParticipantProfileRevision record) && UUIDv7_Valid (rsp_RoleBindingID record)
     && UUIDv7_Valid (rsp_AuthenticationBindingID record) && UUIDv7_Valid (rsp_DeliveryID record)
     && UUIDv7_Valid (rv_DeliveryEventID v) && Digest_Valid (rsp_ResponseArtifactDigest record)
     && Digest_Valid (rsp_ResponseSpecificationDigest record) && validClassification
     && validHumanInteractionEffect (rv_AssertedEffect v)
     && Digest_Valid (rv_CredentialProvenanceDigest v)
     && Digest_Valid (rv_ChannelProvenanceDigest v) && negb (IsZero (rv_RespondedAt v))
  then Some (mkParsedResponse (rv_InteractionID v) (rv_ExpectedInteractionRevision v)
               (rv_QuestionRevision v) (rv_DeliveryEventID v) record)
  else None.

(** The order of [sort.Slice] on responses, by respondent identifier. *)
Definition response_le (a b : HumanResponseRecord) : Prop :=
  str_le (pr_ID (rsp_Respondent a)) (pr_ID (rsp_Respondent b)).
#[global] Instance response_le_dec : RelDecision response_le.
Proof. intros a b. unfold response_le. apply _. Defined.

Definition record_response (s : HumanInteractionSnapshot) (eventID : UUIDv7) (payload : string)
    : option HumanInteractionSnapshot :=
  try response <- humanResponseFromPayload payload eventID ;;
  let record := ph_Record response in
  when ended (hi_Phase s) || (ph_ExpectedInteractionRevision response != hi_Revision s)
       || (ph_QuestionRevision response != hi_QuestionRevision s)
       || (ph_InteractionID response != hi_InteractionID s)
       || (rsp_ResponseSpecificationDigest record != hi_ResponseSpecificationDigest s)
    return None ;;
  try recipient <- Selected s (rsp_Respondent record) ;;
  when (rcp_ParticipantProfileID recipient != rsp_ParticipantProfileID record)
       || (rcp_ParticipantProfileRevision recipient != rsp_ParticipantProfileRevision record)
       || (rcp_RoleBindingID recipient != rsp_RoleBindingID record)
    return None ;;
  let deliveryFound :=
    existsb (fun d => (dlv_DeliveryID d == rsp_DeliveryID record)
                      && (dlv_EventID d == ph_DeliveryEventID response)
                      && (dlv_Recipient d == rsp_Respondent record)
                      && (dlv_Outcome d == "DELIVERED")) (hi_Deliveries s) in
  when negb deliveryFound return None ;;
  when existsb (fun e => (rsp_Respondent e == rsp_Respondent record)
                         || (rsp_ResponseArtifactDigest e == rsp_ResponseArtifactDigest record))
         (hi_Responses s)
    return None ;;
  let next := s <| hi_Responses := merge_sort response_le (hi_Responses s ++ [record]) |> in
  Some (next <| hi_Phase := if ResponsePolicySatisfied next
                            then HumanInteractionSatisfied else HumanInteractionCollecting |>).

Record closedPayload := mkclosedPayload {
  cl_InteractionID : UUIDv7;
  cl_ExpectedInteractionRevision : Z;
  cl_QuestionRevision : Z;
  cl_AcceptedResponseEventIDs : list UUIDv7;
  cl_AcceptedRespondents : list PrincipalRef;
  cl_ResponsePolicySatisfied : bool;
  cl_Outcome : string;
  cl_ResolvedEffect : string;
  cl_AuthorizationEvidenceID : option UUIDv7;
  cl_ClosedAt : Time;
  cl_ClosedBy : PrincipalRef;
  cl_Reasons : list string;
  cl_EvidenceIDs : list UUIDv7
}.

#[export] Instance eta_closedPayload : Eta closedPayload := fun r =>
  mkclosedPayload
    (cl_InteractionID r) (cl_ExpectedInteractionRevision r) (cl_QuestionRevision r)
    (cl_AcceptedResponseEventIDs r) (cl_AcceptedRespondents r)
    (cl_ResponsePolicySatisfied r) (cl_Outcome r) (cl_ResolvedEffect r)
    (cl_AuthorizationEvidenceID r) (cl_ClosedAt r) (cl_ClosedBy r) (cl_Reasons r)
    (cl_EvidenceIDs r).

Definition zero_closedPayload : closedPayload :=
  mkclosedPayload
    "" 0 0 [] [] false "" "" None zero_time zero_principal [] [].

Definition fields_closedPayload : list (field closedPayload) :=
  [
    fld "interaction_id" cl_InteractionID dec_string;
    fld "expected_interaction_revision" cl_ExpectedInteractionRevision dec_u64;
    fld "question_revision" cl_QuestionRevision dec_u64;
    fld "accepted_response_event_ids" cl_AcceptedResponseEventIDs (dec_slice "" dec_string);
    fld "accepted_respondents" cl_AcceptedRespondents (dec_slice zero_principal dec_PrincipalRef);
    fld "response_policy_satisfied" cl_ResponsePolicySatisfied dec_bool;
    fld "outcome" cl_Outcome dec_string;
    fld "resolved_effect" cl_ResolvedEffect dec_string;
    fld "authorization_evidence_id" cl_AuthorizationEvidenceID (dec_ptr "" dec_string);
    fld "closed_at" cl_ClosedAt dec_time;
    fld "closed_by" cl_ClosedBy dec_PrincipalRef;
    fld "reasons" cl_Reasons (dec_slice "" dec_string);
    fld "evidence_ids" cl_EvidenceIDs (dec_slice "" dec_string)
  ].

Definition exactAcceptedHumanResponses (responses : list HumanResponseRecord)
    (eventIDs : list UUIDv7) (respondents : list PrincipalRef) : bool :=
  when (llen responses == 0) || (llen eventIDs != llen responses)
       || (llen respondents != llen responses) || negb (validUniqueUUIDs eventIDs 1 64)
    return false ;;
  when negb (forallb (fun id => contains (rsp_EventID <$> responses) id) eventIDs)
    return false ;;
  check_unique
    (fun r => (pr_Kind r == PrincipalHuman) && PrincipalRef_Valid r
              && contains (rsp_Respondent <$> responses) r) ∅ respondents.

Definition validResolvedHumanEffect (declared resolved : string)
    (authorizationEvidenceID : option UUIDv7) (evidenceIDs : list UUIDv7) : bool :=
  if declared == "ADVISORY_ONLY"
  then (resolved == "ADVISORY_ONLY") && is_nil authorizationEvidenceID
  else if declared == "EVIDENCE_ONLY"
  then (resolved == "EVIDENCE_ONLY") && is_nil authorizationEvidenceID
  else if declared == "AUTHORITY_IF_AUTHORIZED" then
    when resolved == "EVIDENCE_ONLY" return is_nil authorizationEvidenceID ;;
    match authorizationEvidenceID with
    | Some id =>
      when (resolved != "AUTHORIZED_EFFECT") || negb (UUIDv7_Valid id) return false ;;
      contains evidenceIDs id
    | None => false
    end
  else false.

Definition close_interaction (s : HumanInteractionSnapshot) (payload : string)
    : option HumanInteractionSnapshot :=
  try v <- Unmarshal fields_closedPayload zero_closedPayload payload ;;
  when (hi_Phase s != HumanInteractionSatisfied) || negb (ResponsePolicySatisfied s)
       || negb (cl_ResponsePolicySatisfied v) || (cl_InteractionID v != hi_InteractionID s)
       || (cl_ExpectedInteractionRevision v != hi_Revision s)
       || (cl_QuestionRevision v != hi_QuestionRevision s) || (cl_Outcome v != "SATISFIED")
       || IsZero (cl_ClosedAt v) || negb (PrincipalRef_Valid (cl_ClosedBy v))
       || negb (validUniqueStrings (cl_Reasons v) 1 64)
       || negb (validUniqueUUIDs (cl_EvidenceIDs v) 1 64)
       || negb (exactAcceptedHumanResponses (hi_Responses s) (cl_AcceptedResponseEventIDs v)
                  (cl_AcceptedRespondents v))
       || negb (validResolvedHumanEffect (hi_DeclaredEffect s) (cl_ResolvedEffect v)
                  (cl_AuthorizationEvidenceID v) (cl_EvidenceIDs v))
    return None ;;
  Some (s <| hi_Phase := HumanInteractionClosed |>).

Record expiredPayload := mkexpiredPayload {
  xp_InteractionID : UUIDv7;
  xp_ExpectedInteractionRevision : Z;
  xp_QuestionRevision : Z;
  xp_DeadlineAt : Time;
  xp_ExpiredAt : Time;
  xp_SilenceIsConsent : bool;
  xp_Outcome : string;
  xp_TimeoutPolicy : PrincipalRef
}.

#[export] Instance eta_expiredPayload : Eta expiredPayload := fun r =>
  mkexpiredPayload
    (xp_InteractionID r) (xp_ExpectedInteractionRevision r) (xp_QuestionRevision r)
    (xp_DeadlineAt r) (xp_ExpiredAt r) (xp_SilenceIsConsent r) (xp_Outcome r)
    (xp_TimeoutPolicy r).

Definition zero_expiredPayload : expiredPayload :=
  mkexpiredPayload
    "" 0 0 zero_time zero_time false "" zero_principal.

Definition fields_expiredPayload : list (field expiredPayload) :=
  [
    fld "interaction_id" xp_InteractionID dec_string;
    fld "expected_interaction_revision" xp_ExpectedInteractionRevision dec_u64;
    fld "question_revision" xp_QuestionRevision dec_u64;
    fld "deadline_at" xp_DeadlineAt dec_time;
    fld "expired_at" xp_ExpiredAt dec_time;
    fld "silence_is_consent" xp_SilenceIsConsent dec_bool;
    fld "outcome" xp_Outcome dec_string;
    fld "timeout_policy" xp_TimeoutPolicy dec_PrincipalRef
  ].

Definition expire_interaction (s : HumanInteractionSnapshot) (payload : string)
    : option HumanInteractionSnapshot :=
  try v <- Unmarshal fields_expiredPayload zero_expiredPayload payload ;;
  when ended (hi_Phase s) || (xp_InteractionID v != hi_InteractionID s)
       || (xp_ExpectedInteractionRevision v != hi_Revision s)
       || (xp_QuestionRevision v != hi_QuestionRevision s)
       || negb (TimeEqual (xp_DeadlineAt v) (hi_DeadlineAt s))
       || Before (xp_ExpiredAt v) (hi_DeadlineAt s) || xp_SilenceIsConsent v
       || (xp_Outcome v != "EXPIRED") && (xp_Outcome v != "BLOCKED")
          && (xp_Outcome v != "HUMAN_REQUIRED")
       || (xp_TimeoutPolicy v != hi_TimeoutPolicy s)
    return None ;;
  Some (s <| hi_Phase := HumanInteractionExpired |>).

Definition interaction_case (s : HumanInteractionSnapshot) (event : DomainEvent)
    : option HumanInteractionSnapshot :=
  let type := ev_EventType event in
  let payload := ev_Payload event in
  if type == "tekroo.event.human-interaction.delivery-recorded"
  then record_delivery s (ev_EventID event) payload
  else if type == "tekroo.event.human-interaction.response-recorded"
  then record_response s (ev_EventID event) payload
  else if type == "tekroo.event.human-interaction.closed" then close_interaction s payload
  else if type == "tekroo.event.human-interaction.expired" then expire_interaction s payload
  else None.

Definition ApplyHumanInteractionEvent (snapshot : HumanInteractionSnapshot) (event : DomainEvent)
    : HumanInteractionSnapshot * bool :=
  when negb (HumanInteractionSnapshot_Valid snapshot)
       || (ref_Kind (ev_Aggregate event) != AggregateHumanInteraction)
       || (ref_ID (ev_Aggregate event) != hi_InteractionID snapshot)
       || (ev_AggregateRevision event != u64 (hi_Revision snapshot + 1))
    return (snapshot, false) ;;
  match interaction_case snapshot event with
  | None => (snapshot, false)
  | Some next =>
    let next := next <| hi_Revision := u64 (hi_Revision next + 1) |> in
    (next, HumanInteractionSnapshot_Valid next)
  end.

Definition EvaluateHumanResponsePolicy (policy : HumanResponsePolicy)
    (selected accepted : list string) : PolicyResult :=
  let selectedSet : gset string := list_to_set selected in
  when negb (forallb (fun id => bool_decide (id ∈ selectedSet)) accepted)
    return refused "RECIPIENT_MISMATCH" ;;
  let acceptedSet : gset string := list_to_set accepted in
  let n := Z.of_nat (size acceptedSet) in
  let satisfied :=
    (rpol_Kind policy == HumanResponseExactOne) && (Z.of_nat (size selectedSet) == 1) && (n == 1)
    || (rpol_Kind policy == HumanResponseAnyOne) && (1 <=? n)
    || (rpol_Kind policy == HumanResponseAll) && (Z.of_nat (size selectedSet) == n)
    || (rpol_Kind policy == HumanResponseQuorum) && (rpol_Quorum policy <=? n) in
  when negb satisfied return refused "RESPONSE_POLICY_UNSATISFIED" ;;
  mkPolicyResult true "RESPONSE_POLICY_SATISFIED".

(** ** Facts about valid interactions *)

Lemma Selected_some s p r :
  Selected s p = Some r -> r ∈ hi_Recipients s /\ rcp_Principal r = p /\ pr_Kind p = PrincipalHuman.
Proof.
  unfold Selected. intros H. destruct (_ != _) eqn:E in H; [discriminate H|].
  bprop E. apply find_some in H as [Hin Hp]. apply list_elem_of_In in Hin. bprop Hp. done.
Qed.

Lemma interaction_valid_parts s :
  HumanInteractionSnapshot_Valid s = true ->
  HumanResponsePolicy_Valid (hi_ResponsePolicy s) (llen (hi_Recipients s)) = true /\
  recipients_loop (hi_Recipients s) = true /\ deliveries_loop s = true /\
  responses_loop s = true /\
  (hi_Phase s = HumanInteractionSatisfied \/ hi_Phase s = HumanInteractionClosed ->
   ResponsePolicySatisfied s = true).
Proof.
  unfold HumanInteractionSnapshot_Valid. rewrite !if_false_true, !negb_false_iff.
  intros (G & _ & _ & H1 & H2 & H3 & H4). bprop G. split_ands.
  split_and!; [done..|]. intros [E|E]; rewrite E in H4; exact H4.
Qed.

Lemma responses_loop_spec s :
  responses_loop s = true ->
  NoDup ((fun r => pr_ID (rsp_Respondent r)) <$> hi_Responses s) /\
  forall x, x ∈ hi_Responses s ->
    (exists r, r ∈ hi_Recipients s /\ rcp_Principal r = rsp_Respondent x) /\
    (exists d, d ∈ hi_Deliveries s /\ dlv_DeliveryID d = rsp_DeliveryID x /\
               dlv_Recipient d = rsp_Respondent x /\ dlv_Outcome d = "DELIVERED").
Proof.
  unfold responses_loop. rewrite !andb_true_iff, forallb_True_iff, Forall_forall.
  intros [[[Hok _] Hnd] _]. apply bool_decide_eq_true in Hnd. split; [done|].
  intros x Hx. specialize (Hok x Hx). unfold response_record_ok in Hok.
  destruct (Selected s (rsp_Respondent x)) as [r|] eqn:Er; [|discriminate Hok].
  apply Selected_some in Er as (Hin & Hp & _). split; [eauto|].
  apply andb_true_iff in Hok as [_ Hd]. unfold delivered_to in Hd.
  apply existsb_exists in Hd as (d & Hdin & Hd). apply list_elem_of_In in Hdin. bprop Hd.
  exists d. naive_solver.
Qed.

Definition recipient_id (r : HumanInteractionRecipient) : string := pr_ID (rcp_Principal r).

Lemma accepted_humans_size l :
  NoDup ((fun r => pr_ID (rsp_Respondent r)) <$> l) ->
  size (accepted_humans l) = List.length l.
Proof. intros Hn. unfold accepted_humans. by rewrite size_list_to_set, length_fmap. Qed.

(** Under the policy [ALL], equally many distinct humans answered as were
    asked, and only those asked can answer: everybody answered. *)
Lemma all_answered s :
  recipients_loop (hi_Recipients s) = true -> responses_loop s = true ->
  Z.of_nat (size (accepted_humans (hi_Responses s))) = llen (hi_Recipients s) ->
  forall r, r ∈ hi_Recipients s -> exists x, x ∈ hi_Responses s /\ rsp_Respondent x = rcp_Principal r.
Proof.
  unfold recipients_loop. rewrite andb_true_iff. intros [_ Hnd] Hresp Hsize r Hr.
  apply bool_decide_eq_true in Hnd. apply responses_loop_spec in Hresp as [_ Hsel].
  assert (accepted_humans (hi_Responses s) ⊆ list_to_set (recipient_id <$> hi_Recipients s)) as Hsub.
  { intros h. unfold accepted_humans. rewrite !elem_of_list_to_set, !list_elem_of_fmap.
    intros (x & -> & Hx). destruct (Hsel x Hx) as [(r' & Hr' & Hp) _].
    exists r'. unfold recipient_id. by rewrite Hp. }
  assert (accepted_humans (hi_Responses s) ≡ list_to_set (recipient_id <$> hi_Recipients s)) as Heq.
  { apply set_subseteq_size_equiv; [done|].
    rewrite size_list_to_set, length_fmap by done. unfold llen in Hsize. lia. }
  assert (recipient_id r ∈ accepted_humans (hi_Responses s)) as Hin.
  { rewrite Heq. apply elem_of_list_to_set. by apply list_elem_of_fmap_2. }
  unfold accepted_humans in Hin. rewrite elem_of_list_to_set, list_elem_of_fmap in Hin.
  destruct Hin as (x & Hid & Hx). exists x. split; [done|].
  destruct (Hsel x Hx) as [(r' & Hr' & Hp) _]. rewrite <- Hp. f_equal.
  apply list_elem_of_lookup in Hr as [i Hi], Hr' as [j Hj].
  assert (j = i) as ->; [|congruence].
  apply (NoDup_lookup _ _ _ (recipient_id r') Hnd).
  - by rewrite list_lookup_fmap, Hj.
  - rewrite list_lookup_fmap, Hi. simpl. f_equal. unfold recipient_id in *. congruence.
Qed.

(** An interaction counts as satisfied or closed only on real answers: in
    a valid snapshot each response comes from a selected recipient, once per
    human, through a delivery that reached that recipient; under [ALL] every
    recipient answered, under [QUORUM] at least the quorum did, and otherwise
    at least one did. *)
Theorem satisfied_interaction_answered s :
  HumanInteractionSnapshot_Valid s = true ->
  hi_Phase s = HumanInteractionSatisfied \/ hi_Phase s = HumanInteractionClosed ->
  NoDup ((fun x => pr_ID (rsp_Respondent x)) <$> hi_Responses s) /\
  (forall x, x ∈ hi_Responses s ->
     (exists r, r ∈ hi_Recipients s /\ rcp_Principal r = rsp_Respondent x) /\
     (exists d, d ∈ hi_Deliveries s /\ dlv_DeliveryID d = rsp_DeliveryID x /\
                dlv_Recipient d = rsp_Respondent x /\ dlv_Outcome d = "DELIVERED")) /\
  1 <= llen (hi_Responses s) /\
  (rpol_Kind (hi_ResponsePolicy s) = HumanResponseAll ->
   forall r, r ∈ hi_Recipients s ->
     exists x, x ∈ hi_Responses s /\ rsp_Respondent x = rcp_Principal r) /\
  (rpol_Kind (hi_ResponsePolicy s) = HumanResponseQuorum ->
   rpol_Quorum (hi_ResponsePolicy s) <= llen (hi_Responses s)).
Proof.
  intros Hv Hphase. apply interaction_valid_parts in Hv as (Hpol & Hrec & _ & Hresp & Hsat).
  specialize (Hsat Hphase). pose proof (responses_loop_spec s Hresp) as [Hnd Hx].
  pose proof (all_answered s Hrec Hresp) as Hall.
  pose proof (accepted_humans_size _ Hnd) as Hsz.
  unfold ResponsePolicySatisfied in Hsat. unfold HumanResponsePolicy_Valid in Hpol.
  rewrite Hsz in Hsat, Hall. unfold llen in *. split_and!; [done..| | |].
  - repeat case_bool_decide; bprop Hsat; bprop Hpol; simpl in *; first [lia | done].
  - intros E. rewrite E in Hsat. apply bool_decide_eq_true in Hsat. by apply Hall.
  - intros E. rewrite E in Hsat. by apply Z.leb_le in Hsat.
Qed.

(** ** Transitions *)

(** What every accepted event leaves untouched: the question, whom it is
    asked, and the terms of the answer. *)
Definition same_question (s s' : HumanInteractionSnapshot) : Prop :=
  hi_InteractionID s' = hi_InteractionID s /\ hi_Subject s' = hi_Subject s /\
  hi_QuestionRevision s' = hi_QuestionRevision s /\
  hi_CanonicalQuestionDigest s' = hi_CanonicalQuestionDigest s /\
  hi_ResponseSpecificationDigest s' = hi_ResponseSpecificationDigest s /\
  hi_Recipients s' = hi_Recipients s /\ hi_ResponsePolicy s' = hi_ResponsePolicy s /\
  hi_DeclaredEffect s' = hi_DeclaredEffect s /\ hi_DeadlineAt s' = hi_DeadlineAt s.

#[global] Instance same_question_preorder : PreOrder same_question.
Proof.
  split; [by intros s; split_and!|]. unfold same_question.
  intros a b c H1 H2. split_ands. split_and!; congruence.
Qed.

Lemma interaction_case_some s e n :
  interaction_case s e = Some n ->
  ended (hi_Phase s) = false /\ same_question s n /\
  hi_Deliveries s ⊆+ hi_Deliveries n /\ hi_Responses s ⊆+ hi_Responses n /\
  hi_Revision n = hi_Revision s.
Proof.
  intros H. unfold interaction_case in H. repeat case_bool_decide; try discriminate H.
  - unfold record_delivery in H. accepted H. subst n. repeat rewrite orb_false_iff in G.
    split_ands. split_and!; try done. by apply submseteq_inserts_r.
  - unfold record_response in H. accepted H. subst n. repeat rewrite orb_false_iff in G.
    split_ands. split_and!; try done. cbn [hi_Responses setf].
    rewrite merge_sort_Permutation. by apply submseteq_inserts_r.
  - unfold close_interaction in H. accepted H. subst n. bprop G. split_ands.
    match goal with E : hi_Phase s = _ |- _ => rewrite E end. by split_and!.
  - unfold expire_interaction in H. accepted H. subst n. repeat rewrite orb_false_iff in G.
    split_ands. by split_and!.
Qed.

Lemma apply_interaction_inv s e s' :
  ApplyHumanInteractionEvent s e = (s', true) ->
  HumanInteractionSnapshot_Valid s' = true /\ ended (hi_Phase s) = false /\
  same_question s s' /\ hi_Deliveries s ⊆+ hi_Deliveries s' /\ hi_Responses s ⊆+ hi_Responses s'.
Proof.
  unfold ApplyHumanInteractionEvent. intros H. destruct (_ || _) in H; [discriminate H|].
  destruct (interaction_case s e) as [n|] eqn:E; [|discriminate H].
  injection H as <- Hv. apply interaction_case_some in E as (H1 & H2 & H3 & H4 & _).
  split_and!; done.
Qed.

(** Sequences of accepted events. *)
Inductive interaction_run : HumanInteractionSnapshot -> list DomainEvent -> HumanInteractionSnapshot -> Prop :=
| irun_nil s : interaction_run s [] s
| irun_cons s e s1 es s2 :
    ApplyHumanInteractionEvent s e = (s1, true) -> interaction_run s1 es s2 ->
    interaction_run s (e :: es) s2.

(** The record of an interaction is append-only and final: along any
    sequence of accepted events the question, its recipients and its response
    policy never change, recorded deliveries and responses are never dropped,
    the snapshot stays valid, and once closed or expired no event is accepted
    (so an expired question is never turned into an answer). *)
Theorem interaction_history_append_only s es s' :
  interaction_run s es s' -> HumanInteractionSnapshot_Valid s = true ->
  HumanInteractionSnapshot_Valid s' = true /\ same_question s s' /\
  hi_Deliveries s ⊆+ hi_Deliveries s' /\ hi_Responses s ⊆+ hi_Responses s' /\
  (ended (hi_Phase s) = true -> es = []).
Proof.
  induction 1 as [s|s e s1 es s2 Hap Hrun IH]; intros Hv; [by split_and!|].
  apply apply_interaction_inv in Hap as (Hv1 & He & Hq & Hd & Hr).
  destruct (IH Hv1) as (Hv2 & Hq2 & Hd2 & Hr2 & _).
  split_and!; [done | by etrans | by etrans | by etrans | congruence].
Qed.

(** ** A concrete interaction *)

Definition human_h : PrincipalRef := mkPrincipal PrincipalHuman "ada".

Definition sample_recipient : HumanInteractionRecipient :=
  mkHumanInteractionRecipient human_h (uid "1") 1 (dig "1") (uid "2") (uid "3").

Definition sample_interaction : HumanInteractionSnapshot :=
  mkHumanInteractionSnapshot (uid "a") 1 HumanInteractionOpen (mkRef AggregateStory (uid "b")) 1 1
    1 (dig "2") (dig "3") human_h None None [sample_recipient]
    (mkHumanResponsePolicy HumanResponseAll 0) "AUTHORIZED_DECISION" "EVIDENCE_ONLY"
    ConfidentialityInternal sample_time (mkPrincipal PrincipalPolicy "timeout") (dig "4") 1
    (dig "5") None [] [].

Definition jhuman : string := jobj [("kind", qs "HUMAN"); ("id", qs "ada")].

Definition sample_delivery_event : DomainEvent :=
  bare_event (uid "c") "tekroo.event.human-interaction.delivery-recorded"
    (mkRef AggregateHumanInteraction (uid "a")) 2 1
    (jdoc [("interaction_id", qs (uid "a")); ("expected_interaction_revision", "1");
           ("question_revision", "1"); ("delivery_id", qs (uid "d")); ("recipient", jhuman);
           ("delivery_binding_id", qs (uid "3")); ("adapter_profile_digest", qs (dig "6"));
           ("canonical_question_digest", qs (dig "2")); ("rendered_question_digest", qs (dig "2"));
           ("outcome", qs "DELIVERED"); ("attempted_at", qs "2026-01-01T00:00:00Z");
           ("channel_provenance_digest", qs (dig "7"))]).

Definition sample_response_event : DomainEvent :=
  bare_event (uid "e") "tekroo.event.human-interaction.response-recorded"
    (mkRef AggregateHumanInteraction (uid "a")) 3 1
    (jdoc [("interaction_id", qs (uid "a")); ("expected_interaction_revision", "2");
           ("question_revision", "1"); ("respondent", jhuman);
           ("participant_profile_id", qs (uid "1")); ("participant_profile_revision", "1");
           ("role_binding_id", qs (uid "2")); ("authentication_binding_id", qs (uid "4"));
           ("delivery_id", qs (uid "d")); ("delivery_event_id", qs (uid "c"));
           ("response_artifact_digest", qs (dig "8"));
           ("response_specification_digest", qs (dig "3"));
           ("response_classification", qs "ANSWER"); ("asserted_effect", qs "EVIDENCE_ONLY");
           ("credential_provenance_digest", qs (dig "9"));
           ("channel_provenance_digest", qs (dig "7"));
           ("responded_at", qs "2026-01-01T00:00:00Z")]).

Definition sample_delivered : HumanInteractionSnapshot :=
  fst (ApplyHumanInteractionEvent sample_interaction sample_delivery_event).
Definition sample_answered : HumanInteractionSnapshot :=
  fst (ApplyHumanInteractionEvent sample_delivered sample_response_event).

Example sample_answered_phase : hi_Phase sample_answered = HumanInteractionSatisfied.
Proof. vm_compute. reflexivity. Qed.

Lemma satisfied_interaction_answered_witness :
  exists x, x ∈ hi_Responses sample_answered /\ rsp_Respondent x = human_h.
Proof.
  apply (satisfied_interaction_answered sample_answered) with (r := sample_recipient).
  - vm_compute. reflexivity.
  - left. vm_compute. reflexivity.
  - vm_compute. reflexivity.
  - replace (hi_Recipients sample_answered) with [sample_recipient] by (vm_compute; reflexivity).
    apply list_elem_of_singleton. reflexivity.
Defined.

Lemma interaction_history_append_only_witness :
  HumanInteractionSnapshot_Valid sample_answered = true /\
  same_question sample_interaction sample_answered.
Proof.
  destruct (interaction_history_append_only sample_interaction
    [sample_delivery_event; sample_response_event] sample_answered) as (H1 & H2 & _).
  - apply (irun_cons _ _ sample_delivered); [vm_compute; reflexivity|].
    apply (irun_cons _ _ sample_answered); [vm_compute; reflexivity | constructor].
  - vm_compute. reflexivity.
  - split; assumption.
Defined.
