(* ===== verification/Continuity.v ===== *)
(** * Team continuity ([kernel/continuity.go])

    The power and suspension state of a team: configuration, quiescence,
    suspension, reconciliation after a suspension or an unexpected outage, and
    resumption. [ApplyContinuityEvent] returns the next snapshot and whether
    the event was legal. [continuity_step] is the abstract control diagram. *)

From S2P Require Import Prelude GoText GoTime GoJson Types Samples Payload Envelope OperatorRole.

Definition ContinuityControlState := string.
Definition ContinuityActive : ContinuityControlState := "ACTIVE".
Definition ContinuityQuiescing : ContinuityControlState := "QUIESCING".
Definition ContinuitySuspended : ContinuityControlState := "SUSPENDED".
Definition ContinuityReconciling : ContinuityControlState := "RECONCILING".

Record TeamContinuitySnapshot := mkTeamContinuitySnapshot {
  tc_Revision : Z;
  tc_OperatingPosture : string;
  tc_ControlState : ContinuityControlState;
  tc_PowerEpoch : Z;
  tc_AdmissionOpen : bool;
  tc_ContinuityPolicyRevision : Z;
  tc_ContinuityPolicyDigest : Digest;
  tc_HealthRequirementDigest : Digest;
  tc_InFlightExecutionIDs : list UUIDv7;
  tc_UnresolvedExecutionIDs : list UUIDv7;
  tc_LastTransitionEventID : UUIDv7
}.

#[export] Instance eta_TeamContinuitySnapshot : Eta TeamContinuitySnapshot := fun r =>
  mkTeamContinuitySnapshot
    (tc_Revision r) (tc_OperatingPosture r) (tc_ControlState r) (tc_PowerEpoch r)
    (tc_AdmissionOpen r) (tc_ContinuityPolicyRevision r) (tc_ContinuityPolicyDigest r)
    (tc_HealthRequirementDigest r) (tc_InFlightExecutionIDs r)
    (tc_UnresolvedExecutionIDs r) (tc_LastTransitionEventID r).

Definition zero_TeamContinuitySnapshot : TeamContinuitySnapshot :=
  mkTeamContinuitySnapshot
    0 "" "" 0 false 0 "" "" [] [] "".

#[global] Instance TeamContinuitySnapshot_eq_dec : EqDecision TeamContinuitySnapshot.
Proof. solve_decision. Defined.

Definition SuspensionDisposition := string.
Definition CancelOnSuspend : SuspensionDisposition := "CANCEL_ON_SUSPEND".
Definition CompleteQuarantined : SuspensionDisposition := "COMPLETE_AND_QUARANTINE".
Definition DetachAndReconcile : SuspensionDisposition := "DETACH_AND_RECONCILE".

Definition SuspensionOutcome := string.
Definition SuspensionCancelled : SuspensionOutcome := "CANCELLED".
Definition SuspensionTerminalCaptured : SuspensionOutcome := "TERMINAL_CAPTURED".
Definition SuspensionDetached : SuspensionOutcome := "DETACHED".
Definition SuspensionUnknown : SuspensionOutcome := "UNKNOWN".

Record SuspensionExecutionRecord := mkSuspensionExecutionRecord {
  se_ExecutionID : UUIDv7;
  se_ActorFQN : ActorFQN;
  se_ExecutionFencingEpoch : Z;
  se_ProviderProfileDigest : Digest;
  se_Disposition : SuspensionDisposition;
  se_Outcome : SuspensionOutcome;
  se_ResultEvidenceID : option UUIDv7;
  se_EvidenceIDs : list UUIDv7
}.

#[export] Instance eta_SuspensionExecutionRecord : Eta SuspensionExecutionRecord := fun r =>
  mkSuspensionExecutionRecord
    (se_ExecutionID r) (se_ActorFQN r) (se_ExecutionFencingEpoch r)
    (se_ProviderProfileDigest r) (se_Disposition r) (se_Outcome r) (se_ResultEvidenceID r)
    (se_EvidenceIDs r).

Definition zero_SuspensionExecutionRecord : SuspensionExecutionRecord :=
  mkSuspensionExecutionRecord
    "" "" 0 "" "" "" None [].

Definition fields_SuspensionExecutionRecord : list (field SuspensionExecutionRecord) :=
  [
    fld "execution_id" se_ExecutionID dec_string;
    fld "actor_fqn" se_ActorFQN dec_string;
    fld "execution_fencing_epoch" se_ExecutionFencingEpoch dec_u64;
    fld "provider_profile_digest" se_ProviderProfileDigest dec_string;
    fld "disposition" se_Disposition dec_string;
    fld "outcome" se_Outcome dec_string;
    fld "result_evidence_id" se_ResultEvidenceID (dec_ptr "" dec_string);
    fld "evidence_ids" se_EvidenceIDs (dec_slice "" dec_string)
  ].
Definition dec_SuspensionExecutionRecord : decoder SuspensionExecutionRecord := dec_struct fields_SuspensionExecutionRecord.

Definition SuspensionExecutionRecord_Valid (r : SuspensionExecutionRecord) : bool :=
  when negb (UUIDv7_Valid (se_ExecutionID r)) || negb (ActorFQN_Valid (se_ActorFQN r))
       || (se_ExecutionFencingEpoch r == 0) || negb (Digest_Valid (se_ProviderProfileDigest r))
       || negb (validUniqueUUIDs (se_EvidenceIDs r) 1 64)
       || negb (opt_all UUIDv7_Valid (se_ResultEvidenceID r))
    return false ;;
  if se_Disposition r == CancelOnSuspend then
    (se_Outcome r == SuspensionCancelled) || (se_Outcome r == SuspensionUnknown)
  else if se_Disposition r == CompleteQuarantined then
    (se_Outcome r == SuspensionTerminalCaptured) || (se_Outcome r == SuspensionUnknown)
  else if se_Disposition r == DetachAndReconcile then
    (se_Outcome r == SuspensionDetached) || (se_Outcome r == SuspensionUnknown)
  else false.

Definition ReconciliationOutcome := string.
Definition ReconciliationBlocked : ReconciliationOutcome := "BLOCKED".
Definition ReconciliationCancelled : ReconciliationOutcome := "CONFIRMED_CANCELLED".
Definition ReconciliationHumanRequired : ReconciliationOutcome := "HUMAN_REQUIRED".
Definition ReconciliationRejectedLate : ReconciliationOutcome := "REJECTED_LATE_RESULT".
Definition ReconciliationSuperseded : ReconciliationOutcome := "SUPERSEDED".
Definition ReconciliationEvidenceCaptured : ReconciliationOutcome := "TERMINAL_EVIDENCE_CAPTURED".

Record ExecutionReconciliationRecord := mkExecutionReconciliationRecord {
  rr_ExecutionID : UUIDv7;
  rr_Outcome : ReconciliationOutcome;
  rr_AuthoritativeStateDigest : Digest;
  rr_EvidenceIDs : list UUIDv7
}.

#[export] Instance eta_ExecutionReconciliationRecord : Eta ExecutionReconciliationRecord := fun r =>
  mkExecutionReconciliationRecord
    (rr_ExecutionID r) (rr_Outcome r) (rr_AuthoritativeStateDigest r) (rr_EvidenceIDs r).

Definition zero_ExecutionReconciliationRecord : ExecutionReconciliationRecord :=
  mkExecutionReconciliationRecord
    "" "" "" [].

Definition fields_ExecutionReconciliationRecord : list (field ExecutionReconciliationRecord) :=
  [
    fld "execution_id" rr_ExecutionID dec_string;
    fld "outcome" rr_Outcome dec_string;
    fld "authoritative_state_digest" rr_AuthoritativeStateDigest dec_string;
    fld "evidence_ids" rr_EvidenceIDs (dec_slice "" dec_string)
  ].
Definition dec_ExecutionReconciliationRecord : decoder ExecutionReconciliationRecord := dec_struct fields_ExecutionReconciliationRecord.

Definition ExecutionReconciliationRecord_Valid (r : ExecutionReconciliationRecord) : bool :=
  when negb (UUIDv7_Valid (rr_ExecutionID r)) || negb (Digest_Valid (rr_AuthoritativeStateDigest r))
       || negb (validUniqueUUIDs (rr_EvidenceIDs r) 1 64)
    return false ;;
  contains [ReconciliationBlocked; ReconciliationCancelled; ReconciliationHumanRequired;
    ReconciliationRejectedLate; ReconciliationSuperseded; ReconciliationEvidenceCaptured]
    (rr_Outcome r).

Definition TeamContinuitySnapshot_Valid (s : TeamContinuitySnapshot) : bool :=
  when (tc_Revision s == 0) || (tc_PowerEpoch s == 0) || (tc_ContinuityPolicyRevision s == 0)
       || negb (Digest_Valid (tc_ContinuityPolicyDigest s))
       || negb (Digest_Valid (tc_HealthRequirementDigest s))
       || negb (UUIDv7_Valid (tc_LastTransitionEventID s))
       || negb (validUniqueUUIDs (tc_InFlightExecutionIDs s) 0 1024)
       || negb (validUniqueUUIDs (tc_UnresolvedExecutionIDs s) 0 1024)
    return false ;;
  when (tc_OperatingPosture s != "CONTINUOUS")
       && (tc_OperatingPosture s != "PLANNED_SUSPEND_CAPABLE")
    return false ;;
  if tc_ControlState s == ContinuityActive then
    tc_AdmissionOpen s && (llen (tc_UnresolvedExecutionIDs s) == 0)
  else if contains [ContinuityQuiescing; ContinuitySuspended; ContinuityReconciling]
            (tc_ControlState s)
  then negb (tc_AdmissionOpen s)
  else false.

Record configurePayload := mkconfigurePayload {
  cp_ExpectedSystemRevision : Z;
  cp_InitialPowerEpoch : Z;
  cp_OperatingPosture : string;
  cp_ContinuityPolicyRevision : Z;
  cp_ContinuityPolicyDigest : Digest;
  cp_HealthRequirementDigest : Digest
}.

#[export] Instance eta_configurePayload : Eta configurePayload := fun r =>
  mkconfigurePayload
    (cp_ExpectedSystemRevision r) (cp_InitialPowerEpoch r) (cp_OperatingPosture r)
    (cp_ContinuityPolicyRevision r) (cp_ContinuityPolicyDigest r)
    (cp_HealthRequirementDigest r).

Definition zero_configurePayload : configurePayload :=
  mkconfigurePayload
    0 0 "" 0 "" "".

Definition fields_configurePayload : list (field configurePayload) :=
  [
    fld "expected_system_revision" cp_ExpectedSystemRevision dec_u64;
    fld "initial_power_epoch" cp_InitialPowerEpoch dec_u64;
    fld "operating_posture" cp_OperatingPosture dec_string;
    fld "continuity_policy_revision" cp_ContinuityPolicyRevision dec_u64;
    fld "continuity_policy_digest" cp_ContinuityPolicyDigest dec_string;
    fld "health_requirement_digest" cp_HealthRequirementDigest dec_string
  ].

Definition TeamContinuityFromConfigurePayload (payload : string) (eventID : UUIDv7)
    (revision : Z) : option TeamContinuitySnapshot :=
  try value <- Unmarshal fields_configurePayload zero_configurePayload payload ;;
  when u64 (cp_ExpectedSystemRevision value + 1) != revision return None ;;
  let snapshot :=
    mkTeamContinuitySnapshot revision (cp_OperatingPosture value) ContinuityActive
      (cp_InitialPowerEpoch value) true (cp_ContinuityPolicyRevision value)
      (cp_ContinuityPolicyDigest value) (cp_HealthRequirementDigest value) [] [] eventID in
  when negb (TeamContinuitySnapshot_Valid snapshot) return None ;;
  Some snapshot.

Definition validQuiescenceReason (value : string) : bool :=
  (value == "HOST_MAINTENANCE") || (value == "LID_CLOSE") || (value == "OPERATOR_REQUEST")
  || (value == "POWER_EVENT") || (value == "ENERGY_POLICY").

Definition validOutageKind (value : string) : bool :=
  (value == "HOST_SLEEP") || (value == "HOST_RESTART") || (value == "NETWORK_PARTITION")
  || (value == "PROCESS_LOSS") || (value == "UNKNOWN").

Definition canonicalUUIDs (values : list UUIDv7) : list UUIDv7 := sort_strings values.

Definition sameUUIDSet (left right : list UUIDv7) : bool :=
  let left := canonicalUUIDs left in
  let right := canonicalUUIDs right in
  when llen left != llen right return false ;;
  left == right.

Definition uuidSubset (values universe : list UUIDv7) : bool :=
  forallb (fun v => contains universe v) values.

Record quiescencePayload := mkquiescencePayload {
  qp_ExpectedSystemRevision : Z;
  qp_ExpectedPowerEpoch : Z;
  qp_NextPowerEpoch : Z;
  qp_InFlightExecutionIDs : list UUIDv7;
  qp_Reason : string;
  qp_RequestedBy : PrincipalRef;
  qp_DeadlineAt : Time;
  qp_DispositionPlanDigest : Digest;
  qp_EvidenceIDs : list UUIDv7
}.

#[export] Instance eta_quiescencePayload : Eta quiescencePayload := fun r =>
  mkquiescencePayload
    (qp_ExpectedSystemRevision r) (qp_ExpectedPowerEpoch r) (qp_NextPowerEpoch r)
    (qp_InFlightExecutionIDs r) (qp_Reason r) (qp_RequestedBy r) (qp_DeadlineAt r)
    (qp_DispositionPlanDigest r) (qp_EvidenceIDs r).

Definition zero_quiescencePayload : quiescencePayload :=
  mkquiescencePayload
    0 0 0 [] "" zero_principal zero_time "" [].

Definition fields_quiescencePayload : list (field quiescencePayload) :=
  [
    fld "expected_system_revision" qp_ExpectedSystemRevision dec_u64;
    fld "expected_power_epoch" qp_ExpectedPowerEpoch dec_u64;
    fld "next_power_epoch" qp_NextPowerEpoch dec_u64;
    fld "in_flight_execution_ids" qp_InFlightExecutionIDs (dec_slice "" dec_string);
    fld "reason" qp_Reason dec_string;
    fld "requested_by" qp_RequestedBy dec_PrincipalRef;
    fld "deadline_at" qp_DeadlineAt dec_time;
    fld "disposition_plan_digest" qp_DispositionPlanDigest dec_string;
    fld "evidence_ids" qp_EvidenceIDs (dec_slice "" dec_string)
  ].

Record suspendedPayload := mksuspendedPayload {
  sp_ExpectedSystemRevision : Z;
  sp_ExpectedPowerEpoch : Z;
  sp_AllRecorded : bool;
  sp_QuiescenceRequestEventID : UUIDv7;
  sp_ExecutionRecords : list SuspensionExecutionRecord;
  sp_UnresolvedExecutionIDs : list UUIDv7;
  sp_RecordedBy : PrincipalRef;
  sp_EvidenceIDs : list UUIDv7
}.

#[export] Instance eta_suspendedPayload : Eta suspendedPayload := fun r =>
  mksuspendedPayload
    (sp_ExpectedSystemRevision r) (sp_ExpectedPowerEpoch r) (sp_AllRecorded r)
    (sp_QuiescenceRequestEventID r) (sp_ExecutionRecords r) (sp_UnresolvedExecutionIDs r)
    (sp_RecordedBy r) (sp_EvidenceIDs r).

Definition zero_suspendedPayload : suspendedPayload :=
  mksuspendedPayload
    0 0 false "" [] [] zero_principal [].

Definition fields_suspendedPayload : list (field suspendedPayload) :=
  [
    fld "expected_system_revision" sp_ExpectedSystemRevision dec_u64;
    fld "expected_power_epoch" sp_ExpectedPowerEpoch dec_u64;
    fld "all_in_flight_executions_recorded" sp_AllRecorded dec_bool;
    fld "quiescence_request_event_id" sp_QuiescenceRequestEventID dec_string;
    fld "execution_records" sp_ExecutionRecords (dec_slice zero_SuspensionExecutionRecord dec_SuspensionExecutionRecord);
    fld "unresolved_execution_ids" sp_UnresolvedExecutionIDs (dec_slice "" dec_string);
    fld "recorded_by" sp_RecordedBy dec_PrincipalRef;
    fld "evidence_ids" sp_EvidenceIDs (dec_slice "" dec_string)
  ].

Record reconciliationPayload := mkreconciliationPayload {
  rp_ExpectedSystemRevision : Z;
  rp_ExpectedPowerEpoch : Z;
  rp_UnresolvedExecutionIDs : list UUIDv7;
  rp_Trigger : string;
  rp_ProviderSnapshotDigest : Digest;
  rp_InitiatedBy : PrincipalRef;
  rp_EvidenceIDs : list UUIDv7
}.

#[export] Instance eta_reconciliationPayload : Eta reconciliationPayload := fun r =>
  mkreconciliationPayload
    (rp_ExpectedSystemRevision r) (rp_ExpectedPowerEpoch r) (rp_UnresolvedExecutionIDs r)
    (rp_Trigger r) (rp_ProviderSnapshotDigest r) (rp_InitiatedBy r) (rp_EvidenceIDs r).

Definition zero_reconciliationPayload : reconciliationPayload :=
  mkreconciliationPayload
    0 0 [] "" "" zero_principal [].

Definition fields_reconciliationPayload : list (field reconciliationPayload) :=
  [
    fld "expected_system_revision" rp_ExpectedSystemRevision dec_u64;
    fld "expected_power_epoch" rp_ExpectedPowerEpoch dec_u64;
    fld "unresolved_execution_ids" rp_UnresolvedExecutionIDs (dec_slice "" dec_string);
    fld "trigger" rp_Trigger dec_string;
    fld "provider_snapshot_digest" rp_ProviderSnapshotDigest dec_string;
    fld "initiated_by" rp_InitiatedBy dec_PrincipalRef;
    fld "evidence_ids" rp_EvidenceIDs (dec_slice "" dec_string)
  ].

Record outagePayload := mkoutagePayload {
  ou_ExpectedSystemRevision : Z;
  ou_ObservedPowerEpoch : Z;
  ou_NextPowerEpoch : Z;
  ou_PreviousControlState : ContinuityControlState;
  ou_KnownInFlightExecutionIDs : list UUIDv7;
  ou_DetectedAt : Time;
  ou_OutageKind : string;
  ou_LastDurableEventID : option UUIDv7;
  ou_DetectedBy : PrincipalRef;
  ou_EvidenceIDs : list UUIDv7
}.

#[export] Instance eta_outagePayload : Eta outagePayload := fun r =>
  mkoutagePayload
    (ou_ExpectedSystemRevision r) (ou_ObservedPowerEpoch r) (ou_NextPowerEpoch r)
    (ou_PreviousControlState r) (ou_KnownInFlightExecutionIDs r) (ou_DetectedAt r)
    (ou_OutageKind r) (ou_LastDurableEventID r) (ou_DetectedBy r) (ou_EvidenceIDs r).

Definition zero_outagePayload : outagePayload :=
  mkoutagePayload
    0 0 0 "" [] zero_time "" None zero_principal [].

Definition fields_outagePayload : list (field outagePayload) :=
  [
    fld "expected_system_revision" ou_ExpectedSystemRevision dec_u64;
    fld "observed_power_epoch" ou_ObservedPowerEpoch dec_u64;
    fld "next_power_epoch" ou_NextPowerEpoch dec_u64;
    fld "previous_control_state" ou_PreviousControlState dec_string;
    fld "known_in_flight_execution_ids" ou_KnownInFlightExecutionIDs (dec_slice "" dec_string);
    fld "detected_at" ou_DetectedAt dec_time;
    fld "outage_kind" ou_OutageKind dec_string;
    fld "last_durable_event_id" ou_LastDurableEventID (dec_ptr "" dec_string);
    fld "detected_by" ou_DetectedBy dec_PrincipalRef;
    fld "evidence_ids" ou_EvidenceIDs (dec_slice "" dec_string)
  ].

Record resumedPayload := mkresumedPayload {
  rs_ExpectedSystemRevision : Z;
  rs_ExpectedPowerEpoch : Z;
  rs_ReconciliationRecords : list ExecutionReconciliationRecord;
  rs_RequiredServicesHealthy : bool;
  rs_OutboxReconciled : bool;
  rs_ChangeStreamReconciled : bool;
  rs_AdmissionReopen : bool;
  rs_ResumedBy : PrincipalRef;
  rs_EvidenceIDs : list UUIDv7
}.

#[export] Instance eta_resumedPayload : Eta resumedPayload := fun r =>
  mkresumedPayload
    (rs_ExpectedSystemRevision r) (rs_ExpectedPowerEpoch r) (rs_ReconciliationRecords r)
    (rs_RequiredServicesHealthy r) (rs_OutboxReconciled r) (rs_ChangeStreamReconciled r)
    (rs_AdmissionReopen r) (rs_ResumedBy r) (rs_EvidenceIDs r).

Definition zero_resumedPayload : resumedPayload :=
  mkresumedPayload
    0 0 [] false false false false zero_principal [].

Definition fields_resumedPayload : list (field resumedPayload) :=
  [
    fld "expected_system_revision" rs_ExpectedSystemRevision dec_u64;
    fld "expected_power_epoch" rs_ExpectedPowerEpoch dec_u64;
    fld "reconciliation_records" rs_ReconciliationRecords (dec_slice zero_ExecutionReconciliationRecord dec_ExecutionReconciliationRecord);
    fld "required_services_healthy" rs_RequiredServicesHealthy dec_bool;
    fld "outbox_reconciled" rs_OutboxReconciled dec_bool;
    fld "change_stream_reconciled" rs_ChangeStreamReconciled dec_bool;
    fld "admission_reopen" rs_AdmissionReopen dec_bool;
    fld "resumed_by" rs_ResumedBy dec_PrincipalRef;
    fld "evidence_ids" rs_EvidenceIDs (dec_slice "" dec_string)
  ].

Definition quiesce (s : TeamContinuitySnapshot) (payload : string)
    : option TeamContinuitySnapshot :=
  try value <- Unmarshal fields_quiescencePayload zero_quiescencePayload payload ;;
  when (tc_ControlState s != ContinuityActive)
       || (qp_ExpectedSystemRevision value != tc_Revision s)
       || (qp_ExpectedPowerEpoch value != tc_PowerEpoch s)
       || (qp_NextPowerEpoch value != u64 (tc_PowerEpoch s + 1))
       || negb (validUniqueUUIDs (qp_InFlightExecutionIDs value) 0 1024)
       || negb (validQuiescenceReason (qp_Reason value))
       || negb (PrincipalRef_Valid (qp_RequestedBy value)) || IsZero (qp_DeadlineAt value)
       || negb (Digest_Valid (qp_DispositionPlanDigest value))
       || negb (validUniqueUUIDs (qp_EvidenceIDs value) 1 64)
    return None ;;
  Some (s <| tc_ControlState := ContinuityQuiescing |>
          <| tc_PowerEpoch := qp_NextPowerEpoch value |>
          <| tc_AdmissionOpen := false |>
          <| tc_InFlightExecutionIDs := canonicalUUIDs (qp_InFlightExecutionIDs value) |>
          <| tc_UnresolvedExecutionIDs := [] |>).

Definition record_unresolved (r : SuspensionExecutionRecord) : bool :=
  (se_Outcome r == SuspensionDetached) || (se_Outcome r == SuspensionUnknown).

Definition suspend (s : TeamContinuitySnapshot) (payload : string)
    : option TeamContinuitySnapshot :=
  try value <- Unmarshal fields_suspendedPayload zero_suspendedPayload payload ;;
  when (tc_ControlState s != ContinuityQuiescing)
       || (sp_ExpectedSystemRevision value != tc_Revision s)
       || (sp_ExpectedPowerEpoch value != tc_PowerEpoch s)
       || (sp_QuiescenceRequestEventID value != tc_LastTransitionEventID s)
       || negb (sp_AllRecorded value)
       || negb (validUniqueUUIDs (sp_UnresolvedExecutionIDs value) 0 1024)
       || negb (PrincipalRef_Valid (sp_RecordedBy value))
       || negb (validUniqueUUIDs (sp_EvidenceIDs value) 1 64)
    return None ;;
  when negb (forallb SuspensionExecutionRecord_Valid (sp_ExecutionRecords value))
    return None ;;
  let recorded := se_ExecutionID <$> sp_ExecutionRecords value in
  let unresolved := se_ExecutionID <$> List.filter record_unresolved (sp_ExecutionRecords value) in
  when negb (sameUUIDSet recorded (tc_InFlightExecutionIDs s))
       || negb (sameUUIDSet (sp_UnresolvedExecutionIDs value) unresolved)
    return None ;;
  Some (s <| tc_ControlState := ContinuitySuspended |>
          <| tc_UnresolvedExecutionIDs := canonicalUUIDs (sp_UnresolvedExecutionIDs value) |>).

Definition begin_reconciliation (s : TeamContinuitySnapshot) (payload : string)
    : option TeamContinuitySnapshot :=
  try value <- Unmarshal fields_reconciliationPayload zero_reconciliationPayload payload ;;
  when (tc_ControlState s != ContinuitySuspended)
       || (rp_ExpectedSystemRevision value != tc_Revision s)
       || (rp_ExpectedPowerEpoch value != tc_PowerEpoch s)
       || negb (sameUUIDSet (rp_UnresolvedExecutionIDs value) (tc_UnresolvedExecutionIDs s))
       || (rp_Trigger value != "HOST_RECOVERY") && (rp_Trigger value != "OPERATOR_REQUEST")
          && (rp_Trigger value != "WAKE")
       || negb (Digest_Valid (rp_ProviderSnapshotDigest value))
       || negb (PrincipalRef_Valid (rp_InitiatedBy value))
       || negb (validUniqueUUIDs (rp_EvidenceIDs value) 1 64)
    return None ;;
  Some (s <| tc_ControlState := ContinuityReconciling |>).

Definition record_outage (s : TeamContinuitySnapshot) (payload : string)
    : option TeamContinuitySnapshot :=
  try value <- Unmarshal fields_outagePayload zero_outagePayload payload ;;
  when (ou_ExpectedSystemRevision value != tc_Revision s)
       || (ou_ObservedPowerEpoch value != tc_PowerEpoch s)
       || (ou_NextPowerEpoch value != u64 (tc_PowerEpoch s + 1))
       || (ou_PreviousControlState value != tc_ControlState s)
       || negb (validUniqueUUIDs (ou_KnownInFlightExecutionIDs value) 0 1024)
       || IsZero (ou_DetectedAt value) || negb (validOutageKind (ou_OutageKind value))
       || negb (opt_all UUIDv7_Valid (ou_LastDurableEventID value))
       || negb (PrincipalRef_Valid (ou_DetectedBy value))
       || negb (validUniqueUUIDs (ou_EvidenceIDs value) 1 64)
    return None ;;
  Some (s <| tc_ControlState := ContinuityReconciling |>
          <| tc_PowerEpoch := ou_NextPowerEpoch value |>
          <| tc_AdmissionOpen := false |>
          <| tc_InFlightExecutionIDs := canonicalUUIDs (ou_KnownInFlightExecutionIDs value) |>
          <| tc_UnresolvedExecutionIDs := canonicalUUIDs (ou_KnownInFlightExecutionIDs value) |>).

Definition resume (s : TeamContinuitySnapshot) (payload : string)
    : option TeamContinuitySnapshot :=
  try value <- Unmarshal fields_resumedPayload zero_resumedPayload payload ;;
  when (tc_ControlState s != ContinuityReconciling)
       || (rs_ExpectedSystemRevision value != tc_Revision s)
       || (rs_ExpectedPowerEpoch value != tc_PowerEpoch s)
       || negb (rs_RequiredServicesHealthy value) || negb (rs_OutboxReconciled value)
       || negb (rs_ChangeStreamReconciled value) || negb (rs_AdmissionReopen value)
       || negb (PrincipalRef_Valid (rs_ResumedBy value))
       || negb (validUniqueUUIDs (rs_EvidenceIDs value) 1 64)
    return None ;;
  when negb (forallb ExecutionReconciliationRecord_Valid (rs_ReconciliationRecords value))
    return None ;;
  let reconciled := rr_ExecutionID <$> rs_ReconciliationRecords value in
  when negb (sameUUIDSet reconciled (tc_UnresolvedExecutionIDs s)) return None ;;
  Some (s <| tc_ControlState := ContinuityActive |>
          <| tc_AdmissionOpen := true |>
          <| tc_InFlightExecutionIDs := [] |>
          <| tc_UnresolvedExecutionIDs := [] |>).

(** The switch on the event type: one function per case. *)
Definition continuity_case (s : TeamContinuitySnapshot) (event : DomainEvent)
    : option TeamContinuitySnapshot :=
  let type := ev_EventType event in
  let payload := ev_Payload event in
  if type == "tekroo.event.system.quiescence-requested" then quiesce s payload
  else if type == "tekroo.event.system.suspended" then suspend s payload
  else if type == "tekroo.event.system.reconciliation-started" then begin_reconciliation s payload
  else if type == "tekroo.event.system.unexpected-outage-recorded" then record_outage s payload
  else if type == "tekroo.event.system.resumed" then resume s payload
  else None.

Definition ApplyContinuityEvent (snapshot : TeamContinuitySnapshot) (event : DomainEvent)
    : TeamContinuitySnapshot * bool :=
  when negb (TeamContinuitySnapshot_Valid snapshot)
       || (ref_Kind (ev_Aggregate event) != AggregateSystem)
       || (ev_AggregateRevision event != u64 (tc_Revision snapshot + 1))
    return (snapshot, false) ;;
  match continuity_case snapshot event with
  | None => (snapshot, false)
  | Some next =>
    let next := next <| tc_Revision := u64 (tc_Revision next + 1) |>
                     <| tc_LastTransitionEventID := ev_EventID event |> in
    (next, TeamContinuitySnapshot_Valid next)
  end.

Definition ContinuityAction := string.
Definition ContinuityDispatch : ContinuityAction := "DISPATCH".
Definition ContinuityAcceptResult : ContinuityAction := "ACCEPT_RESULT".

Definition EvaluateContinuityAdmission (s : TeamContinuitySnapshot) (action : ContinuityAction)
    (powerEpoch : Z) : PolicyResult :=
  when powerEpoch != tc_PowerEpoch s
    return (when action == ContinuityAcceptResult
              return mkPolicyResult false "LATE_RESULT_QUARANTINED" ;;
            mkPolicyResult false "STALE_POWER_EPOCH") ;;
  when negb (tc_AdmissionOpen s) return mkPolicyResult false "ADMISSION_CLOSED" ;;
  mkPolicyResult true "ACCEPTED".

(** ** The control diagram *)

(** Control state and power epoch. Quiescence and outages start a new
    power epoch; the other arrows keep it. *)
Inductive continuity_step : string -> ContinuityControlState * Z -> ContinuityControlState * Z -> Prop :=
| cs_quiesce e :
    continuity_step "tekroo.event.system.quiescence-requested"
      (ContinuityActive, e) (ContinuityQuiescing, e + 1)
| cs_suspend e :
    continuity_step "tekroo.event.system.suspended"
      (ContinuityQuiescing, e) (ContinuitySuspended, e)
| cs_reconcile e :
    continuity_step "tekroo.event.system.reconciliation-started"
      (ContinuitySuspended, e) (ContinuityReconciling, e)
| cs_outage c e :
    continuity_step "tekroo.event.system.unexpected-outage-recorded"
      (c, e) (ContinuityReconciling, e + 1)
| cs_resume e :
    continuity_step "tekroo.event.system.resumed"
      (ContinuityReconciling, e) (ContinuityActive, e).

Definition control_of (s : TeamContinuitySnapshot) : ContinuityControlState * Z :=
  (tc_ControlState s, tc_PowerEpoch s).

(** A snapshot whose counters are 64-bit values, as decoded ones are. *)
Definition counters_ok (s : TeamContinuitySnapshot) : Prop :=
  is_u64 (tc_Revision s) /\ is_u64 (tc_PowerEpoch s).

Lemma quiesce_some s p n :
  quiesce s p = Some n ->
  tc_ControlState s = ContinuityActive /\ tc_ControlState n = ContinuityQuiescing /\
  tc_PowerEpoch n = u64 (tc_PowerEpoch s + 1) /\ tc_Revision n = tc_Revision s.
Proof.
  unfold quiesce. intros H. accepted H. bprop G. split_ands. by subst n.
Qed.

Lemma suspend_some s p n :
  suspend s p = Some n ->
  tc_ControlState s = ContinuityQuiescing /\ tc_ControlState n = ContinuitySuspended /\
  tc_PowerEpoch n = tc_PowerEpoch s /\ tc_Revision n = tc_Revision s.
Proof.
  unfold suspend. intros H. accepted H. bprop G. split_ands. by subst n.
Qed.

Lemma begin_reconciliation_some s p n :
  begin_reconciliation s p = Some n ->
  tc_ControlState s = ContinuitySuspended /\ tc_ControlState n = ContinuityReconciling /\
  tc_PowerEpoch n = tc_PowerEpoch s /\ tc_Revision n = tc_Revision s.
Proof.
  unfold begin_reconciliation. intros H. accepted H. bprop G. split_ands. by subst n.
Qed.

Lemma record_outage_some s p n :
  record_outage s p = Some n ->
  tc_ControlState n = ContinuityReconciling /\
  tc_PowerEpoch n = u64 (tc_PowerEpoch s + 1) /\ tc_Revision n = tc_Revision s.
Proof.
  unfold record_outage. intros H. accepted H. bprop G. split_ands. by subst n.
Qed.

Lemma sameUUIDSet_spec l r : sameUUIDSet l r = true <-> l ≡ₚ r.
Proof.
  unfold sameUUIDSet, canonicalUUIDs. rewrite if_false_true, negb_false_iff, !bool_decide_eq_true.
  split; [intros [_ E]; by apply sort_strings_inv|].
  intros Hp. split; [|by apply sort_strings_eq]. unfold llen. by rewrite !sort_strings_perm, Hp.
Qed.

Lemma resume_some s p n :
  resume s p = Some n ->
  tc_ControlState s = ContinuityReconciling /\ tc_ControlState n = ContinuityActive /\
  tc_PowerEpoch n = tc_PowerEpoch s /\ tc_Revision n = tc_Revision s /\
  exists v, Unmarshal fields_resumedPayload zero_resumedPayload p = Some v /\
    Forall (fun r => ExecutionReconciliationRecord_Valid r = true) (rs_ReconciliationRecords v) /\
    rr_ExecutionID <$> rs_ReconciliationRecords v ≡ₚ tc_UnresolvedExecutionIDs s.
Proof.
  unfold resume. intros H. accepted H. bprop G.
  apply negb_false_iff in G0, G1. apply forallb_True_iff in G0. apply sameUUIDSet_spec in G1.
  split_ands. subst n. eauto 10.
Qed.

Lemma valid_epoch s : TeamContinuitySnapshot_Valid s = true -> tc_PowerEpoch s <> 0 /\ tc_Revision s <> 0.
Proof.
  unfold TeamContinuitySnapshot_Valid. rewrite if_false_true. intros [G _]. bprop G. naive_solver.
Qed.

(** A successor that is not zero did not wrap. *)
Lemma u64_succ_nonzero z : is_u64 z -> u64 (z + 1) <> 0 -> u64 (z + 1) = z + 1 /\ is_u64 (z + 1).
Proof.
  intros Hz Hn. destruct (u64_succ z Hz) as [[E Hlt]|[E _]]; [|congruence].
  unfold is_u64 in *. lia.
Qed.

Lemma apply_continuity_inv s e s' :
  ApplyContinuityEvent s e = (s', true) ->
  TeamContinuitySnapshot_Valid s = true /\ TeamContinuitySnapshot_Valid s' = true /\
  exists n, continuity_case s e = Some n /\
    s' = n <| tc_Revision := u64 (tc_Revision n + 1) |>
           <| tc_LastTransitionEventID := ev_EventID e |>.
Proof.
  unfold ApplyContinuityEvent. intros H. destruct (_ || _) eqn:G in H; [discriminate H|].
  bprop G. destruct (continuity_case s e) as [n|] eqn:E; [|discriminate H].
  injection H as <- Hv. naive_solver.
Qed.

Lemma continuity_step_of s e s' :
  ApplyContinuityEvent s e = (s', true) -> counters_ok s ->
  continuity_step (ev_EventType e) (control_of s) (control_of s') /\ counters_ok s' /\
  tc_Revision s' = tc_Revision s + 1.
Proof.
  intros H [Hrev Hep]. apply apply_continuity_inv in H as (Hv & Hv' & n & Hc & ->).
  apply valid_epoch in Hv' as [He0 Hr0]. simpl in He0, Hr0.
  unfold control_of, counters_ok. cbn [tc_ControlState tc_PowerEpoch tc_Revision setf].
  assert (tc_Revision n = tc_Revision s /\
          continuity_step (ev_EventType e) (control_of s) (tc_ControlState n, tc_PowerEpoch n) /\
          is_u64 (tc_PowerEpoch n)) as (Er & Hs & Hn).
  { unfold continuity_case, control_of in *. repeat case_bool_decide; try discriminate Hc;
      match goal with H : ev_EventType e = _ |- _ => rewrite H end;
      [ apply quiesce_some in Hc as (-> & -> & Ep & ->)
      | apply suspend_some in Hc as (-> & -> & -> & ->)
      | apply begin_reconciliation_some in Hc as (-> & -> & -> & ->)
      | apply record_outage_some in Hc as (-> & Ep & ->)
      | apply resume_some in Hc as (-> & -> & -> & -> & _) ];
      try (split_and!; [done | constructor | done]);
      rewrite Ep in *; apply u64_succ_nonzero in He0 as [-> ?]; [|done| |done];
      (split_and!; [done | constructor | done]). }
  rewrite Er in *. apply u64_succ_nonzero in Hr0 as [Hr1 Hr2]; [|done].
  rewrite Hr1. done.
Qed.

(** Sequences of accepted events. *)
Inductive continuity_run : TeamContinuitySnapshot -> list DomainEvent -> TeamContinuitySnapshot -> Prop :=
| crun_nil s : continuity_run s [] s
| crun_cons s e s1 es s2 :
    ApplyContinuityEvent s e = (s1, true) -> continuity_run s1 es s2 ->
    continuity_run s (e :: es) s2.

(** Events that start a new power epoch. *)
Definition starts_epoch (e : DomainEvent) : Prop :=
  ev_EventType e = "tekroo.event.system.quiescence-requested" \/
  ev_EventType e = "tekroo.event.system.unexpected-outage-recorded".

Lemma continuity_step_epoch t x y :
  continuity_step t x y ->
  x.2 <= y.2 /\ (t = "tekroo.event.system.quiescence-requested" \/
                 t = "tekroo.event.system.unexpected-outage-recorded" -> x.2 < y.2).
Proof. intros H. destruct H; simpl; split; try lia; naive_solver lia. Qed.

Lemma continuity_run_epoch s es s' :
  continuity_run s es s' -> counters_ok s ->
  tc_PowerEpoch s <= tc_PowerEpoch s' /\
  (Exists starts_epoch es -> tc_PowerEpoch s < tc_PowerEpoch s').
Proof.
  induction 1 as [s|s e s1 es s2 Hap Hrun IH]; intros Hok.
  - split; [lia | intros He; inversion He].
  - destruct (continuity_step_of _ _ _ Hap Hok) as (Hstep & Hok1 & _).
    apply continuity_step_epoch in Hstep as [Hle Hlt]. destruct (IH Hok1) as [IH1 IH2].
    simpl in *. split; [lia|]. intros He. inversion He; subst.
    + assert (tc_PowerEpoch s < tc_PowerEpoch s1) by (apply Hlt; done). lia.
    + specialize (IH2 ltac:(done)). lia.
Qed.

(** The continuity code implements the control diagram: every accepted
    event is an arrow from the old control state and power epoch to the new
    ones (quiescence only when active, suspension only when quiescing, and so
    on; epochs never wrap), the revision advances by one and the resulting
    snapshot is valid. *)
Theorem ApplyContinuityEvent_refines s e s' :
  ApplyContinuityEvent s e = (s', true) -> counters_ok s ->
  continuity_step (ev_EventType e) (control_of s) (control_of s') /\
  tc_Revision s' = tc_Revision s + 1 /\ TeamContinuitySnapshot_Valid s' = true.
Proof.
  intros H Hok. destruct (continuity_step_of _ _ _ H Hok) as (H1 & _ & H2).
  apply apply_continuity_inv in H as (_ & Hv & _). done.
Qed.

(** Work is admitted only while the team is active, and nothing stamped
    with an earlier power epoch is admitted after a quiescence or an outage:
    along any sequence of accepted events that contains one, both dispatches
    and results carrying the epoch of the start are refused. *)
Theorem stale_epoch_never_admitted s es s' action :
  continuity_run s es s' -> counters_ok s -> Exists starts_epoch es ->
  plr_Accepted (EvaluateContinuityAdmission s' action (tc_PowerEpoch s)) = false /\
  (TeamContinuitySnapshot_Valid s' = true -> forall epoch,
   plr_Accepted (EvaluateContinuityAdmission s' action epoch) = true ->
   tc_ControlState s' = ContinuityActive).
Proof.
  intros Hrun Hok Hex. destruct (continuity_run_epoch _ _ _ Hrun Hok) as [_ Hlt].
  specialize (Hlt Hex). unfold EvaluateContinuityAdmission. split.
  - rewrite (bool_decide_eq_false_2 (tc_PowerEpoch s = tc_PowerEpoch s')) by lia.
    simpl. by destruct (action == ContinuityAcceptResult).
  - intros Hv epoch. destruct (epoch != tc_PowerEpoch s').
    { by destruct (action == ContinuityAcceptResult). }
    destruct (tc_AdmissionOpen s') eqn:Ea; [|done]. intros _.
    unfold TeamContinuitySnapshot_Valid in Hv. rewrite !if_false_true in Hv.
    destruct Hv as (_ & _ & Hv). case_bool_decide; [done|].
    rewrite Ea in Hv. by destruct (contains _ _).
Qed.

(** Admission reopens only after every unresolved execution is accounted
    for: an accepted resumption carries exactly one valid reconciliation record
    for each execution the suspension or outage left unresolved, and leaves
    none unresolved. *)
Theorem resume_reconciles_all s e s' :
  ApplyContinuityEvent s e = (s', true) ->
  ev_EventType e = "tekroo.event.system.resumed" ->
  tc_UnresolvedExecutionIDs s' = [] /\
  exists v, Unmarshal fields_resumedPayload zero_resumedPayload (ev_Payload e) = Some v /\
    Forall (fun r => ExecutionReconciliationRecord_Valid r = true) (rs_ReconciliationRecords v) /\
    rr_ExecutionID <$> rs_ReconciliationRecords v ≡ₚ tc_UnresolvedExecutionIDs s.
Proof.
  intros H Ht. apply apply_continuity_inv in H as (_ & Hv & n & Hc & ->).
  unfold continuity_case in Hc. rewrite Ht in Hc.
  apply resume_some in Hc as (_ & Ha & _ & _ & v & Hun & Hok & Hp). split; [|eauto].
  unfold TeamContinuitySnapshot_Valid in Hv. rewrite !if_false_true in Hv.
  destruct Hv as (_ & _ & Hv). cbn [tc_ControlState setf] in Hv. rewrite Ha in Hv.
  rewrite bool_decide_refl in Hv. apply andb_true_iff in Hv as [_ Hv].
  apply bool_decide_eq_true in Hv. simpl in *. by destruct (tc_UnresolvedExecutionIDs n).
Qed.

(** ** A concrete run *)

Definition sample_continuity : TeamContinuitySnapshot :=
  mkTeamContinuitySnapshot 1 "CONTINUOUS" ContinuityActive 1 true 1 (dig "a") (dig "b") [] []
    (uid "1").

Definition jservice : string := jobj [("kind", qs "SERVICE"); ("id", qs "host")].
Definition sample_system : AggregateRef := mkRef AggregateSystem (uid "9").

Definition sample_outage : DomainEvent :=
  bare_event (uid "2") "tekroo.event.system.unexpected-outage-recorded" sample_system 2 1
    (jdoc [("expected_system_revision", "1"); ("observed_power_epoch", "1");
           ("next_power_epoch", "2"); ("previous_control_state", qs "ACTIVE");
           ("known_in_flight_execution_ids", jarr [qs (uid "5")]);
           ("detected_at", qs "2026-01-01T00:00:00Z"); ("outage_kind", qs "HOST_SLEEP");
           ("detected_by", jservice); ("evidence_ids", jarr [qs (uid "6")])]).

Definition sample_resume : DomainEvent :=
  bare_event (uid "3") "tekroo.event.system.resumed" sample_system 3 1
    (jdoc [("expected_system_revision", "2"); ("expected_power_epoch", "2");
           ("reconciliation_records",
             jarr [jobj [("execution_id", qs (uid "5")); ("outcome", qs "BLOCKED");
                         ("authoritative_state_digest", qs (dig "c"));
                         ("evidence_ids", jarr [qs (uid "6")])]]);
           ("required_services_healthy", "true"); ("outbox_reconciled", "true");
           ("change_stream_reconciled", "true"); ("admission_reopen", "true");
           ("resumed_by", jservice); ("evidence_ids", jarr [qs (uid "6")])]).

Definition sample_reconciling : TeamContinuitySnapshot :=
  fst (ApplyContinuityEvent sample_continuity sample_outage).
Definition sample_resumed : TeamContinuitySnapshot :=
  fst (ApplyContinuityEvent sample_reconciling sample_resume).

Example sample_outage_ok :
  ApplyContinuityEvent sample_continuity sample_outage = (sample_reconciling, true).
Proof. vm_compute. reflexivity. Qed.
Example sample_resume_ok :
  ApplyContinuityEvent sample_reconciling sample_resume = (sample_resumed, true).
Proof. vm_compute. reflexivity. Qed.

Lemma ApplyContinuityEvent_refines_witness :
  continuity_step "tekroo.event.system.resumed" (ContinuityReconciling, 2) (ContinuityActive, 2)
  /\ tc_Revision sample_resumed = 2 + 1 /\ TeamContinuitySnapshot_Valid sample_resumed = true.
Proof.
  apply (ApplyContinuityEvent_refines sample_reconciling sample_resume sample_resumed);
    [vm_compute; reflexivity | split; vm_compute; split; congruence].
Defined.

Lemma stale_epoch_never_admitted_witness :
  plr_Accepted (EvaluateContinuityAdmission sample_resumed ContinuityAcceptResult 1) = false.
Proof.
  apply (stale_epoch_never_admitted sample_continuity [sample_outage; sample_resume]
           sample_resumed ContinuityAcceptResult).
  - apply (crun_cons _ _ sample_reconciling); [vm_compute; reflexivity|].
    apply (crun_cons _ _ sample_resumed); [vm_compute; reflexivity | constructor].
  - split; vm_compute; split; congruence.
  - apply Exists_cons_hd. right. reflexivity.
Defined.

Lemma resume_reconciles_all_witness : tc_UnresolvedExecutionIDs sample_resumed = [].
Proof.
  apply (resume_reconciles_all sample_reconciling sample_resume sample_resumed);
    vm_compute; reflexivity.
Defined.
