(* ===== verification/State.v ===== *)
(** * Aggregate states ([kernel/types.go], [kernel/envelope.go])

    The state of a story, task, system, participant or interaction aggregate.
    [Clone] copies pointers and slices; on immutable values it is the identity
    and has no definition here. *)

From S2P Require Import Prelude GoText GoTime GoJson Types.
From S2P Require Import Payload Envelope OperatorRole Participant Interaction Continuity.

Record AggregateState := mkState {
  as_Kind : AggregateKind;
  as_ID : UUIDv7;
  as_Revision : Z;
  as_LifecycleEpoch : Z;
  as_ScopeRevision : Z;
  as_Phase : Phase;
  as_Condition : Condition;
  as_Ownership : Ownership;
  as_OperatorRole : option OperatorRoleProfile;
  as_Participant : option HumanParticipantSnapshot;
  as_Interaction : option HumanInteractionSnapshot;
  as_Continuity : option TeamContinuitySnapshot
}.

#[export] Instance eta_AggregateState : Eta AggregateState := fun r =>
  mkState (as_Kind r) (as_ID r) (as_Revision r) (as_LifecycleEpoch r) (as_ScopeRevision r)
    (as_Phase r) (as_Condition r) (as_Ownership r) (as_OperatorRole r) (as_Participant r)
    (as_Interaction r) (as_Continuity r).

#[global] Instance AggregateState_eq_dec : EqDecision AggregateState.
Proof. solve_decision. Defined.

Definition no_owner : Ownership := mkOwnership None 0 None.

(** A state with the given identity and lifecycle fields; no owner and no
    attached profile. *)
Definition plain_state (kind : AggregateKind) (id : UUIDv7) (revision epoch scope : Z)
    (phase : Phase) (condition : Condition) : AggregateState :=
  mkState kind id revision epoch scope phase condition no_owner None None None None.

Record RelatedSnapshot := mkRelated {
  rel_Exists : bool;
  rel_Revision : Z;
  rel_State : option AggregateState
}.

Definition preconditionsMatch (values : list AggregatePrecondition)
    (related : gmap AggregateRef RelatedSnapshot) : bool :=
  forallb (fun v =>
    let current := related !! pc_Aggregate v in
    if xr_MustNotExist (pc_Expected v)
    then match current with Some c => negb (rel_Exists c) | None => true end
    else match current with
         | Some c => rel_Exists c && (rel_Revision c == xr_Revision (pc_Expected v))
         | None => false
         end) values.
