(* ===== verification/Evolve.v ===== *)
(** * State evolution and replay ([kernel/evaluator.go], [kernel/fold.go])

    [evolveState] computes the state a command leads to; [FoldAggregate]
    rebuilds the state from the events of an aggregate. The two must agree: the
    theorem at the end compares one step of each for every command of the
    contract's catalogue. *)

From S2P Require Import Prelude GoText GoTime GoJson Types Samples Lifecycle.
From S2P Require Import Payload Envelope OperatorRole Participant Interaction Continuity State.

(** A rejection is its outcome and reason. *)
Definition rejection : Type := OutcomeCode * string.

(** ** Classification of commands *)

Definition terminalCommandProhibited (commandType : string) (phase : Phase) : bool :=
  when (phase != PhaseCompleted) && (phase != PhaseAccepted) && (phase != PhaseClosed)
    return false ;;
  if (commandType == "tekroo.command.work.reopen")
     || (commandType == "tekroo.command.work.create-successor")
     || (commandType == "tekroo.command.record.correct") then false
  else if commandType == "tekroo.command.story.request-acceptance" then phase != PhaseCompleted
  else if commandType == "tekroo.command.story.approve-release" then phase != PhaseCompleted
  else true.

Definition payload_creates (payload field : string) : bool :=
  match decodePayloadObject payload with
  | None => false
  | Some o => nonnegativeUint64Field o field == Some 0
  end.

Definition commandCreatesAggregate (command : KernelCommand) : bool :=
  let type := cmd_CommandType command in
  if contains ["tekroo.command.story.create"; "tekroo.command.task.create";
               "tekroo.command.work-budget.create"; "tekroo.command.work-invocation.authorize";
               "tekroo.command.evidence.register"; "tekroo.command.execution.register";
               "tekroo.command.completion-review.open"; "tekroo.command.escalation.open";
               "tekroo.command.release-plan.create"; "tekroo.command.variant-group.open";
               "tekroo.command.human-interaction.open"] type then true
  else if type == "tekroo.command.human-participant.bind-profile"
  then payload_creates (cmd_Payload command) "expected_participant_revision"
  else if (type == "tekroo.command.system.bind-operator-role")
          || (type == "tekroo.command.system.configure-continuity")
  then payload_creates (cmd_Payload command) "expected_system_revision"
  else false.

Definition isOperatorHumanContinuityCreation (command : KernelCommand) : bool :=
  when negb (commandCreatesAggregate command) return false ;;
  contains ["tekroo.command.system.bind-operator-role";
            "tekroo.command.system.configure-continuity";
            "tekroo.command.human-participant.bind-profile";
            "tekroo.command.human-interaction.open"] (cmd_CommandType command).

(** A Go [switch] on strings, as a table; the first match wins. *)
Fixpoint lookup_str {A} (k : string) (table : list (string * A)) : option A :=
  match table with
  | [] => None
  | (k', v) :: table => if k == k' then Some v else lookup_str k table
  end.

Definition commandLifecycleAction (commandType : string) : option LifecycleAction :=
  lookup_str commandType
    [("tekroo.command.story.authorize", ActionAuthorize);
     ("tekroo.command.story.begin-planning", ActionBeginPlanning);
     ("tekroo.command.story.activate", ActionActivate);
     ("tekroo.command.task.activate", ActionActivate);
     ("tekroo.command.story.request-completion", ActionComplete);
     ("tekroo.command.task.request-completion", ActionComplete);
     ("tekroo.command.story.request-acceptance", ActionAccept);
     ("tekroo.command.task.mark-ready", ActionMarkReady);
     ("tekroo.command.work.block", ActionBlock);
     ("tekroo.command.work.unblock", ActionUnblock);
     ("tekroo.command.work.reopen", ActionReopen);
     ("tekroo.command.work.close", ActionClose)].

Definition eventLifecycleAction (eventType : string) : option LifecycleAction :=
  lookup_str eventType
    [("tekroo.event.story.authorized", ActionAuthorize);
     ("tekroo.event.story.planning-started", ActionBeginPlanning);
     ("tekroo.event.story.activated", ActionActivate);
     ("tekroo.event.task.activated", ActionActivate);
     ("tekroo.event.story.completed", ActionComplete);
     ("tekroo.event.task.completed", ActionComplete);
     ("tekroo.event.story.accepted", ActionAccept);
     ("tekroo.event.task.readied", ActionMarkReady);
     ("tekroo.event.work.blocked", ActionBlock);
     ("tekroo.event.work.unblocked", ActionUnblock);
     ("tekroo.event.work.reopened", ActionReopen);
     ("tekroo.event.work.closed", ActionClose)].

Definition eventOwnershipCommand (eventType : string) : string :=
  default "" (lookup_str eventType
    [("tekroo.event.task.ownership-acquired", "tekroo.command.task.acquire-ownership");
     ("tekroo.event.task.ownership-released", "tekroo.command.task.release-ownership");
     ("tekroo.event.task.handed-off", "tekroo.command.task.handoff");
     ("tekroo.event.task.force-reassigned", "tekroo.command.task.force-reassign")]).

(** The event type of the synthetic event of [evolveState]; empty for other
    commands. *)
Definition syntheticEventType (commandType : string) : string :=
  default "" (lookup_str commandType
    [("tekroo.command.system.request-quiescence", "tekroo.event.system.quiescence-requested");
     ("tekroo.command.system.record-suspended", "tekroo.event.system.suspended");
     ("tekroo.command.system.record-unexpected-outage",
      "tekroo.event.system.unexpected-outage-recorded");
     ("tekroo.command.system.begin-reconciliation", "tekroo.event.system.reconciliation-started");
     ("tekroo.command.system.resume", "tekroo.event.system.resumed");
     ("tekroo.command.human-interaction.record-delivery",
      "tekroo.event.human-interaction.delivery-recorded");
     ("tekroo.command.human-interaction.respond",
      "tekroo.event.human-interaction.response-recorded");
     ("tekroo.command.human-interaction.close", "tekroo.event.human-interaction.closed");
     ("tekroo.command.human-interaction.expire", "tekroo.event.human-interaction.expired")]).

(** ** Ownership *)

Definition ownership_conflict : rejection := (OutcomeRejectedConflict, reasonRevisionConflict).

Definition own_by (o : Ownership) (owner : option ActorFQN) (event : option UUIDv7) : Ownership :=
  mkOwnership owner (u64 (own_OwnershipVersion o + 1)) event.

Definition acquire_ownership (payload : string) (o : Ownership) (eventID : UUIDv7)
    : rejection + Ownership :=
  match ownershipPayload payload "owner_fqn" with
  | None => inl ownership_conflict
  | Some v =>
    when negb (is_nil (own_OwnerFQN o)) || (po_Version v != own_OwnershipVersion o)
      return inl ownership_conflict ;;
    inr (own_by o (Some (po_Owner v)) (Some eventID))
  end.

Definition release_ownership (payload : string) (o : Ownership) : rejection + Ownership :=
  match ownershipPayload payload "owner_fqn" with
  | None => inl ownership_conflict
  | Some v =>
    when (own_OwnerFQN o != Some (po_Owner v)) || (po_Version v != own_OwnershipVersion o)
      return inl ownership_conflict ;;
    inr (own_by o None None)
  end.

Definition reassign_ownership (payload : string) (o : Ownership) (eventID : UUIDv7)
    : rejection + Ownership :=
  match reassignmentPayload payload with
  | None => inl ownership_conflict
  | Some v =>
    when (own_OwnerFQN o != Some (pa_Prior v)) || (pa_Version v != own_OwnershipVersion o)
      return inl ownership_conflict ;;
    inr (own_by o (Some (pa_Next v)) (Some eventID))
  end.

Definition check_owner (payload : string) (o : Ownership) : rejection + Ownership :=
  match ownershipPayload payload "owner_fqn" with
  | None => inl (OutcomeRejectedPolicy, reasonPolicy)
  | Some v =>
    when (own_OwnerFQN o != Some (po_Owner v)) || (po_Version v != own_OwnershipVersion o)
      return inl (OutcomeRejectedPolicy, reasonPolicy) ;;
    inr o
  end.

Definition applyOwnership (commandType payload : string) (state : AggregateState)
    (eventID : UUIDv7) : rejection + AggregateState :=
  let o := as_Ownership state in
  call o' <-
    (if commandType == "tekroo.command.task.acquire-ownership"
     then acquire_ownership payload o eventID
     else if commandType == "tekroo.command.task.release-ownership"
     then release_ownership payload o
     else if (commandType == "tekroo.command.task.handoff")
             || (commandType == "tekroo.command.task.force-reassign")
     then reassign_ownership payload o eventID
     else if commandType == "tekroo.command.task.activate" then check_owner payload o
     else inr o) ;;
  inr (state <| as_Ownership := o' |>).

(** ** Evolution *)

Definition rejected_policy : rejection := (OutcomeRejectedPolicy, reasonPolicy).
Definition rejected_invalid : rejection := (OutcomeRejectedInvalid, reasonInvalidPayload).

Definition lifecycle_of (state : AggregateState) : LifecycleState :=
  mkLifecycle (as_Phase state) (as_Condition state) (as_LifecycleEpoch state) None.

Definition model_of (state : AggregateState) : LifecycleModel :=
  if as_Kind state == AggregateTask then LifecycleTask else LifecycleStory.

(** One lifecycle action on an aggregate state. *)
Definition act (action : LifecycleAction) (state : AggregateState) : option AggregateState :=
  let result := ApplyLifecycleActions (model_of state) (lifecycle_of state) [action] in
  when negb (is_nil (lc_Rejected result)) return None ;;
  Some (state <| as_Phase := lc_Phase result |>
              <| as_Condition := lc_Condition result |>
              <| as_LifecycleEpoch := lc_LifecycleEpoch result |>).

(** The scope revision and the owner after a reopening. *)
Definition reopen_fields (payload : string) (state : AggregateState) : AggregateState :=
  let o := default ∅ (decodePayloadObject payload) in
  let state :=
    match uint64Field o "new_scope_revision" with
    | Some scopeRevision => state <| as_ScopeRevision := scopeRevision |>
    | None => state
    end in
  when default false (as_bool (o !! "owner_carry_forward")) return state ;;
  state <| as_Ownership := mkOwnership None (own_OwnershipVersion (as_Ownership state)) None |>.

Definition evolve_lifecycle (command : KernelCommand) (state : AggregateState)
    : rejection + AggregateState :=
  match commandLifecycleAction (cmd_CommandType command) with
  | None => inr state
  | Some action =>
    match act action state with
    | None => inl rejected_policy
    | Some state =>
      if cmd_CommandType command == "tekroo.command.work.reopen"
      then inr (reopen_fields (cmd_Payload command) state) else inr state
    end
  end.

(** The continuity or the interaction of the state, advanced by an event. *)
Definition evolve_synthetic (event : DomainEvent) (state : AggregateState)
    : rejection + AggregateState :=
  when ev_EventType event == "" return inr state ;;
  match as_Continuity state with
  | Some continuity =>
    let (next, valid) := ApplyContinuityEvent continuity event in
    if valid : bool then inr (state <| as_Continuity := Some next |>) else inl rejected_policy
  | None =>
    match as_Interaction state with
    | Some interaction =>
      let (next, valid) := ApplyHumanInteractionEvent interaction event in
      if valid : bool then inr (state <| as_Interaction := Some next |>) else inl rejected_policy
    | None => inr state
    end
  end.

(** A new profile of the same participant. *)
Definition bind_participant (payload : string) (revision : Z) (state : AggregateState)
    : option AggregateState :=
  try participant <- HumanParticipantFromPayload payload revision ;;
  try current <- as_Participant state ;;
  when hp_Participant participant != hp_Participant current return None ;;
  Some (state <| as_Participant := Some participant |>).

Definition revoke_participant (revision : Z) (state : AggregateState) : option AggregateState :=
  try participant <- as_Participant state ;;
  when negb (hp_Active participant) return None ;;
  Some (state <| as_Participant :=
          Some (participant <| hp_Active := false |> <| hp_Revision := revision |>) |>).

(** A role binding that replaces the current one. *)
Definition bind_role (payload : string) (state : AggregateState) : option AggregateState :=
  try profile <- OperatorRoleFromPayload payload ;;
  try current <- as_OperatorRole state ;;
  when op_ReplacesBindingID profile != Some (op_BindingID current) return None ;;
  Some (state <| as_OperatorRole := Some profile |>).

(** A reconfiguration, of an active team only. *)
Definition configure_continuity (payload : string) (eventID : UUIDv7) (revision : Z)
    (state : AggregateState) : option AggregateState :=
  try continuity <- TeamContinuityFromConfigurePayload payload eventID revision ;;
  when match as_Continuity state with
       | Some c => tc_ControlState c != ContinuityActive
       | None => false
       end return None ;;
  Some (state <| as_Continuity := Some continuity |>).

(** A step that runs for one command type only. *)
Definition only (trigger : bool) (step : AggregateState -> option AggregateState)
    (state : AggregateState) : option AggregateState :=
  if trigger then step state else Some state.

Definition or_policy (r : option AggregateState) : rejection + AggregateState :=
  match r with Some state => inr state | None => inl rejected_policy end.

(** The command applied to an existing state, without the revision. *)
Definition evolve_existing (command : KernelCommand) (nextRevision : Z) (eventID : UUIDv7)
    (state : AggregateState) : rejection + AggregateState :=
  let type := cmd_CommandType command in
  let payload := cmd_Payload command in
  call state <- evolve_lifecycle command state ;;
  call state <- applyOwnership type payload state eventID ;;
  call state <- evolve_synthetic
      (bare_event eventID (syntheticEventType type) (cmd_Target command) nextRevision 0 payload)
      state ;;
  call state <- or_policy (only (type == "tekroo.command.human-participant.bind-profile")
      (bind_participant payload nextRevision) state) ;;
  call state <- or_policy (only (type == "tekroo.command.human-participant.revoke")
      (revoke_participant nextRevision) state) ;;
  call state <- or_policy (only (type == "tekroo.command.system.bind-operator-role")
      (bind_role payload) state) ;;
  or_policy (only (type == "tekroo.command.system.configure-continuity")
      (configure_continuity payload eventID nextRevision) state).

(** The first state of a story or a task. *)
Definition created_work (target : AggregateRef) : AggregateState :=
  plain_state (ref_Kind target) (ref_ID target) 1 1 1
    (if ref_Kind target == AggregateTask then PhasePlanned else PhaseDraft) ConditionRunnable.

(** The first state of an operator role, a continuity, a participant or an
    interaction. *)
Definition created_other (type payload : string) (target : AggregateRef) (eventID : UUIDv7)
    : option AggregateState :=
  let state :=
    plain_state (ref_Kind target) (ref_ID target) 1 1 1 PhaseDraft ConditionRunnable in
  if type == "tekroo.command.system.bind-operator-role" then
    try profile <- OperatorRoleFromPayload payload ;;
    Some (state <| as_OperatorRole := Some profile |>)
  else if type == "tekroo.command.system.configure-continuity" then
    try continuity <- TeamContinuityFromConfigurePayload payload eventID 1 ;;
    Some (state <| as_Continuity := Some continuity |>)
  else if type == "tekroo.command.human-participant.bind-profile" then
    try participant <- HumanParticipantFromPayload payload 1 ;;
    Some (state <| as_Participant := Some participant |>)
  else if type == "tekroo.command.human-interaction.open" then
    try interaction <- HumanInteractionFromOpenPayload payload 1 ;;
    when hi_InteractionID interaction != ref_ID target return None ;;
    Some (state <| as_Interaction := Some interaction |>)
  else None.

(** [evolveState]; [revision] and [state] are the two fields of the snapshot it
    reads. The result is the next state, if the aggregate has one, and the next
    revision. *)
Definition evolveState (command : KernelCommand) (revision : Z) (state : option AggregateState)
    (eventID : UUIDv7) : rejection + (option AggregateState * Z) :=
  let type := cmd_CommandType command in
  let target := cmd_Target command in
  when (type == "tekroo.command.story.create") || (type == "tekroo.command.task.create")
    return inr (Some (created_work target), 1) ;;
  when isOperatorHumanContinuityCreation command
    return (match created_other type (cmd_Payload command) target eventID with
            | Some state => inr (Some state, 1)
            | None => inl rejected_invalid
            end) ;;
  let nextRevision := u64 (revision + 1) in
  match state with
  | None =>
    when (ref_Kind target == AggregateStory) || (ref_Kind target == AggregateTask)
      return inl (OutcomeRejectedConflict, reasonRevisionConflict) ;;
    inr (None, nextRevision)
  | Some state =>
    when (as_ID state != ref_ID target) || (as_Kind state != ref_Kind target)
         || (as_Revision state != revision)
      return inl (OutcomeRejectedConflict, reasonRevisionConflict) ;;
    when terminalCommandProhibited type (as_Phase state)
      return inl (OutcomeRejectedClosed, reasonClosed) ;;
    call state <- evolve_existing command nextRevision eventID state ;;
    inr (Some (state <| as_Revision := nextRevision |>), nextRevision)
  end.

(** ** Replay *)

Definition continuityEvents : list string :=
  ["tekroo.event.system.quiescence-requested"; "tekroo.event.system.suspended";
   "tekroo.event.system.unexpected-outage-recorded"; "tekroo.event.system.reconciliation-started";
   "tekroo.event.system.resumed"].

Definition interactionEvents : list string :=
  ["tekroo.event.human-interaction.delivery-recorded";
   "tekroo.event.human-interaction.response-recorded"; "tekroo.event.human-interaction.closed";
   "tekroo.event.human-interaction.expired"].

Definition fold_continuity (event : DomainEvent) (state : AggregateState) : option AggregateState :=
  match as_Continuity state with
  | None => Some state
  | Some continuity =>
    when negb (contains continuityEvents (ev_EventType event)) return Some state ;;
    let (next, valid) := ApplyContinuityEvent continuity event in
    if valid : bool then Some (state <| as_Continuity := Some next |>) else None
  end.

Definition fold_interaction (event : DomainEvent) (state : AggregateState) : option AggregateState :=
  match as_Interaction state with
  | None => Some state
  | Some interaction =>
    when negb (contains interactionEvents (ev_EventType event)) return Some state ;;
    let (next, valid) := ApplyHumanInteractionEvent interaction event in
    if valid : bool then Some (state <| as_Interaction := Some next |>) else None
  end.

Definition fold_reopen (payload : string) (state : AggregateState) : option AggregateState :=
  try o <- decodePayloadObject payload ;;
  try scopeRevision <- uint64Field o "new_scope_revision" ;;
  when scopeRevision <=? as_ScopeRevision state return None ;;
  Some (state <| as_ScopeRevision := scopeRevision |>).

Definition fold_lifecycle (event : DomainEvent) (state : AggregateState) : option AggregateState :=
  match eventLifecycleAction (ev_EventType event) with
  | None => Some state
  | Some action => act action state
  end.

Definition fold_ownership (event : DomainEvent) (state : AggregateState) : option AggregateState :=
  let commandType := eventOwnershipCommand (ev_EventType event) in
  when commandType == "" return Some state ;;
  match applyOwnership commandType (ev_Payload event) state (ev_EventID event) with
  | inl _ => None
  | inr state => Some state
  end.

(** [foldEvent]; [None] is an error. *)
Definition foldEvent (state : AggregateState) (event : DomainEvent) : option AggregateState :=
  let type := ev_EventType event in
  let payload := ev_Payload event in
  try state <- fold_continuity event state ;;
  try state <- fold_interaction event state ;;
  try state <- only (type == "tekroo.event.human-participant.profile-bound")
      (bind_participant payload (ev_AggregateRevision event)) state ;;
  try state <- only (type == "tekroo.event.human-participant.revoked")
      (revoke_participant (ev_AggregateRevision event)) state ;;
  try state <- only (type == "tekroo.event.system.operator-role-bound") (bind_role payload) state ;;
  try state <- only (type == "tekroo.event.system.continuity-configured")
      (configure_continuity payload (ev_EventID event) (ev_AggregateRevision event)) state ;;
  try state <- only (type == "tekroo.event.work.reopened") (fold_reopen payload) state ;;
  try state <- fold_lifecycle event state ;;
  fold_ownership event state.

(** The state a creation event yields, before its revision is set. *)
Definition fold_created (aggregate : AggregateRef) (event : DomainEvent) : option AggregateState :=
  let type := ev_EventType event in
  let payload := ev_Payload event in
  let state kind phase := plain_state kind (ref_ID aggregate) 0 1 1 phase ConditionRunnable in
  if type == "tekroo.event.story.created" then Some (state AggregateStory PhaseDraft)
  else if type == "tekroo.event.task.created" then Some (state AggregateTask PhasePlanned)
  else if type == "tekroo.event.system.operator-role-bound" then
    try profile <- OperatorRoleFromPayload payload ;;
    Some ((state AggregateSystem PhaseDraft) <| as_OperatorRole := Some profile |>)
  else if type == "tekroo.event.system.continuity-configured" then
    try continuity <- TeamContinuityFromConfigurePayload payload (ev_EventID event) 1 ;;
    Some ((state AggregateSystem PhaseDraft) <| as_Continuity := Some continuity |>)
  else if type == "tekroo.event.human-participant.profile-bound" then
    try participant <- HumanParticipantFromPayload payload 1 ;;
    Some ((state AggregateHumanParticipant PhaseDraft) <| as_Participant := Some participant |>)
  else if type == "tekroo.event.human-interaction.opened" then
    try interaction <- HumanInteractionFromOpenPayload payload 1 ;;
    when hi_InteractionID interaction != ref_ID aggregate return None ;;
    Some ((state AggregateHumanInteraction PhaseDraft) <| as_Interaction := Some interaction |>)
  else None.

(** One turn of the loop; [state] is [None] before the first event. The
    revision counts the events, as a slice index and as a word. *)
Definition fold_step (aggregate : AggregateRef) (index : nat) (state : option AggregateState)
    (event : DomainEvent) : option AggregateState :=
  let expectedRevision := u64 (Z.of_nat index + 1) in
  when (ev_Aggregate event != aggregate) || (ev_AggregateRevision event != expectedRevision)
       || negb (UUIDv7_Valid (ev_EventID event)) || (ev_EventType event == "")
    return None ;;
  try state <- (if expectedRevision == 1 then fold_created aggregate event
                else try state <- state ;; foldEvent state event) ;;
  let state := state <| as_Revision := expectedRevision |> in
  when ev_LifecycleEpoch event != as_LifecycleEpoch state return None ;;
  Some state.

Fixpoint fold_loop (aggregate : AggregateRef) (index : nat) (state : option AggregateState)
    (events : list DomainEvent) : option (option AggregateState) :=
  match events with
  | [] => Some state
  | event :: events =>
    try state <- fold_step aggregate index state event ;;
    fold_loop aggregate (S index) (Some state) events
  end.

(** [FoldAggregate]: [None] is [ErrCorruptEventStream]; the inner [None] the
    nil state of an empty stream. *)
Definition FoldAggregate (events : list DomainEvent) : option (option AggregateState) :=
  match events with
  | [] => Some None
  | first :: _ => fold_loop (ev_Aggregate first) 0 None events
  end.

(** ** The catalogue

    The commands of contract 0.12.0 and the events they emit, without their
    common prefixes. *)
Definition catalogue_names : list (string * string) :=
  [("completion-review.finalize", "completion-review.finalized");
   ("completion-review.open", "completion-review.opened");
   ("completion-review.record-result", "completion-review.result-recorded");
   ("escalation.open", "escalation.opened");
   ("escalation.resolve", "escalation.resolved");
   ("evidence.register", "evidence.registered");
   ("execution.register", "execution.registered");
   ("execution.replace", "execution.replaced");
   ("human-interaction.close", "human-interaction.closed");
   ("human-interaction.expire", "human-interaction.expired");
   ("human-interaction.open", "human-interaction.opened");
   ("human-interaction.record-delivery", "human-interaction.delivery-recorded");
   ("human-interaction.respond", "human-interaction.response-recorded");
   ("human-participant.bind-profile", "human-participant.profile-bound");
   ("human-participant.revoke", "human-participant.revoked");
   ("projection.record-fault", "projection.fault-recorded");
   ("record.correct", "record.corrected");
   ("release-plan.create", "release-plan.created");
   ("release-plan.finalize", "release-plan.finalized");
   ("release-plan.record-qualification", "release-plan.qualification-recorded");
   ("release-plan.record-reconciliation", "release-plan.reconciliation-recorded");
   ("release-plan.record-result", "release-plan.result-recorded");
   ("release-plan.request-execution", "release-plan.execution-requested");
   ("story.activate", "story.activated");
   ("story.approve-release", "story.release-approved");
   ("story.authorize", "story.authorized");
   ("story.begin-planning", "story.planning-started");
   ("story.create", "story.created");
   ("story.request-acceptance", "story.accepted");
   ("story.request-completion", "story.completed");
   ("system.begin-reconciliation", "system.reconciliation-started");
   ("system.bind-operator-role", "system.operator-role-bound");
   ("system.configure-continuity", "system.continuity-configured");
   ("system.record-suspended", "system.suspended");
   ("system.record-unexpected-outage", "system.unexpected-outage-recorded");
   ("system.request-quiescence", "system.quiescence-requested");
   ("system.resume", "system.resumed");
   ("task.acquire-ownership", "task.ownership-acquired");
   ("task.activate", "task.activated");
   ("task.authorize-qualified-assignment", "task.qualified-assignment-authorized");
   ("task.bind-operational-scope", "task.operational-scope-bound");
   ("task.bind-work-budget", "task.work-budget-bound");
   ("task.bind-work-profile", "task.work-profile-bound");
   ("task.create", "task.created");
   ("task.dispatch", "task.dispatched");
   ("task.force-reassign", "task.force-reassigned");
   ("task.handoff", "task.handed-off");
   ("task.mark-ready", "task.readied");
   ("task.release-ownership", "task.ownership-released");
   ("task.request-completion", "task.completed");
   ("variant-group.open", "variant-group.opened");
   ("variant-group.record-comparison", "variant-group.comparison-recorded");
   ("variant-group.select", "variant-group.selected");
   ("variant-group.submit-candidate", "variant-group.candidate-submitted");
   ("work-budget.amend", "work-budget.amended");
   ("work-budget.create", "work-budget.created");
   ("work-invocation.authorize", "work-invocation.authorized");
   ("work-invocation.claim", "work-invocation.claimed");
   ("work-invocation.expire", "work-invocation.expired");
   ("work-invocation.record-started", "work-invocation.started");
   ("work-invocation.record-terminal", "work-invocation.terminal-recorded");
   ("work-invocation.request-cancellation", "work-invocation.cancellation-requested");
   ("work.block", "work.blocked");
   ("work.close", "work.closed");
   ("work.create-successor", "work.successor-created");
   ("work.reopen", "work.reopened");
   ("work.unblock", "work.unblocked");
   ("workflow.create", "workflow.created");
   ("workflow.propose-work", "workflow.work-admitted");
   ("workflow.propose-work", "workflow.work-rejected");
   ("workflow.record-checkpoint", "workflow.checkpoint-recorded");
   ("workflow.record-stage-result", "workflow.stage-result-recorded")].

Definition catalogue : list (string * string) :=
  map (fun ce => ("tekroo.command." +:+ ce.1, "tekroo.event." +:+ ce.2)) catalogue_names.

#[local] Arguments UUIDv7_Valid : simpl never.
#[local] Arguments u64 : simpl never.
Arguments commandLifecycleAction : simpl never.
Arguments eventLifecycleAction : simpl never.
Arguments eventOwnershipCommand : simpl never.
Arguments syntheticEventType : simpl never.
Arguments applyOwnership : simpl never.
Arguments evolve_synthetic : simpl never.
Arguments fold_continuity : simpl never.
Arguments fold_interaction : simpl never.

(** ** Both sides classify the catalogue alike *)

Definition ownershipCommands : list string :=
  ["tekroo.command.task.acquire-ownership"; "tekroo.command.task.release-ownership";
   "tekroo.command.task.handoff"; "tekroo.command.task.force-reassign"].

(** The step of [evolve_existing] that a command type runs, if any. *)
Inductive step_kind :=
| StepLifecycle | StepOwnership | StepSynthetic | StepParticipant | StepRevoke | StepRole
| StepContinuity | StepNone.
#[global] Instance step_kind_eq_dec : EqDecision step_kind.
Proof. solve_decision. Defined.

(** The command and the event type run the step [k] and no other one. *)
Record pair_agrees (c e : string) (k : step_kind) : Prop := {
  pg_lifecycle : commandLifecycleAction c = eventLifecycleAction e;
  pg_life : is_nil (commandLifecycleAction c) = (k != StepLifecycle);
  pg_reopen : (c == "tekroo.command.work.reopen") = (e == "tekroo.event.work.reopened");
  pg_reopen_life : (k != StepLifecycle) && (c == "tekroo.command.work.reopen") = false;
  pg_own : contains ownershipCommands c = (k == StepOwnership);
  pg_own_event : eventOwnershipCommand e = if k == StepOwnership then c else "";
  pg_syn : syntheticEventType c = if k == StepSynthetic then e else "";
  pg_syn_event : contains (continuityEvents ++ interactionEvents) e = (k == StepSynthetic);
  pg_part : (c == "tekroo.command.human-participant.bind-profile") = (k == StepParticipant);
  pg_part_event : (e == "tekroo.event.human-participant.profile-bound") = (k == StepParticipant);
  pg_revoke : (c == "tekroo.command.human-participant.revoke") = (k == StepRevoke);
  pg_revoke_event : (e == "tekroo.event.human-participant.revoked") = (k == StepRevoke);
  pg_role : (c == "tekroo.command.system.bind-operator-role") = (k == StepRole);
  pg_role_event : (e == "tekroo.event.system.operator-role-bound") = (k == StepRole);
  pg_conf : (c == "tekroo.command.system.configure-continuity") = (k == StepContinuity);
  pg_conf_event : (e == "tekroo.event.system.continuity-configured") = (k == StepContinuity)
}.

Definition pair_check (ce : string * string) (k : step_kind) : bool :=
  let (c, e) := ce in
  (commandLifecycleAction c == eventLifecycleAction e)
  && (is_nil (commandLifecycleAction c) == (k != StepLifecycle))
  && ((c == "tekroo.command.work.reopen") == (e == "tekroo.event.work.reopened"))
  && ((k != StepLifecycle) && (c == "tekroo.command.work.reopen") == false)
  && (contains ownershipCommands c == (k == StepOwnership))
  && (eventOwnershipCommand e == if k == StepOwnership then c else "")
  && (syntheticEventType c == if k == StepSynthetic then e else "")
  && (contains (continuityEvents ++ interactionEvents) e == (k == StepSynthetic))
  && ((c == "tekroo.command.human-participant.bind-profile") == (k == StepParticipant))
  && ((e == "tekroo.event.human-participant.profile-bound") == (k == StepParticipant))
  && ((c == "tekroo.command.human-participant.revoke") == (k == StepRevoke))
  && ((e == "tekroo.event.human-participant.revoked") == (k == StepRevoke))
  && ((c == "tekroo.command.system.bind-operator-role") == (k == StepRole))
  && ((e == "tekroo.event.system.operator-role-bound") == (k == StepRole))
  && ((c == "tekroo.command.system.configure-continuity") == (k == StepContinuity))
  && ((e == "tekroo.event.system.continuity-configured") == (k == StepContinuity)).

Lemma pair_check_agrees c e k : pair_check (c, e) k = true -> pair_agrees c e k.
Proof.
  unfold pair_check. intros H.
  repeat (apply andb_true_iff in H as [H ?%bool_decide_eq_true]).
  apply bool_decide_eq_true in H. split; assumption.
Qed.

Lemma catalogue_agrees c e : (c, e) ∈ catalogue -> exists k, pair_agrees c e k.
Proof.
  assert (H : forallb (fun ce => existsb (pair_check ce)
      [StepLifecycle; StepOwnership; StepSynthetic; StepParticipant; StepRevoke; StepRole;
       StepContinuity; StepNone]) catalogue = true) by (vm_compute; reflexivity).
  intros Hin. rewrite forallb_True_iff, Forall_forall in H. specialize (H _ Hin).
  apply existsb_exists in H as (k & _ & Hk). exists k. by apply pair_check_agrees.
Qed.

(** ** Lemmas on the steps *)

(** The transitions read only these fields of an event. *)
Definition event_view (e : DomainEvent) : DomainEvent :=
  bare_event (ev_EventID e) (ev_EventType e) (ev_Aggregate e) (ev_AggregateRevision e) 0 (ev_Payload e).

Lemma continuity_view s e : ApplyContinuityEvent s (event_view e) = ApplyContinuityEvent s e.
Proof. reflexivity. Qed.

Lemma interaction_view s e : ApplyHumanInteractionEvent s (event_view e) = ApplyHumanInteractionEvent s e.
Proof. reflexivity. Qed.

Lemma continuity_accepts s e s' :
  ApplyContinuityEvent s e = (s', true) -> ev_EventType e ∈ continuityEvents.
Proof.
  unfold ApplyContinuityEvent. intros H. unwhen H.
  destruct (continuity_case s e) as [n|] eqn:En; [|discriminate H]. clear H. unfold continuity_case in En.
  apply contains_spec. cbv zeta in En.
  repeat match type of En with
         | (if ?b then _ else _) = _ =>
           let E := fresh in destruct b eqn:E;
           [apply bool_decide_eq_true in E; rewrite E; reflexivity|clear E]
         end. discriminate En.
Qed.

Lemma interaction_accepts s e s' :
  ApplyHumanInteractionEvent s e = (s', true) -> ev_EventType e ∈ interactionEvents.
Proof.
  unfold ApplyHumanInteractionEvent. intros H. unwhen H.
  destruct (interaction_case s e) as [n|] eqn:En; [|discriminate H]. clear H. unfold interaction_case in En.
  apply contains_spec. cbv zeta in En.
  repeat match type of En with
         | (if ?b then _ else _) = _ =>
           let E := fresh in destruct b eqn:E;
           [apply bool_decide_eq_true in E; rewrite E; reflexivity|clear E]
         end. discriminate En.
Qed.

Lemma events_disjoint e : e ∈ continuityEvents -> contains interactionEvents e = false.
Proof.
  intros H. unfold continuityEvents in H.
  repeat (apply elem_of_cons in H as [->|H]; [reflexivity|]). inversion H.
Qed.

Lemma applyOwnership_neutral c p st id st' :
  contains ownershipCommands c = false -> applyOwnership c p st id = inr st' -> st' = st.
Proof.
  intros Hc. apply not_true_iff_false in Hc. rewrite contains_spec in Hc.
  unfold ownershipCommands in Hc. unfold applyOwnership.
  repeat (rewrite (bool_decide_false (c = _)) by set_solver). cbn [orb].
  case_bool_decide; [unfold check_owner; destruct (ownershipPayload _ _)|];
    intros Ha; repeat case_match; simplify_eq; by destruct st.
Qed.

Lemma act_scope a st n :
  act a (st <| as_ScopeRevision := n |>) =
  match act a st with Some s => Some (s <| as_ScopeRevision := n |>) | None => None end.
Proof. unfold act. cbn. destruct (negb _); reflexivity. Qed.

Lemma act_ownership a st s : act a st = Some s -> as_Ownership s = as_Ownership st.
Proof. unfold act. intros H. cbv zeta in H. unwhen H. by injection H as <-. Qed.

Lemma act_closed st : as_Phase st = PhaseClosed -> act ActionReopen st = None.
Proof.
  intros H. unfold act, lifecycle_of. rewrite H. by destruct (model_of st).
Qed.

Lemma fold_synthetic e st st' :
  evolve_synthetic (event_view e) st = inr st' ->
  contains (continuityEvents ++ interactionEvents) (ev_EventType e) = true ->
  exists st1, fold_continuity e st = Some st1 /\ fold_interaction e st1 = Some st'.
Proof.
  intros H Hc. unfold evolve_synthetic in H.
  destruct (ev_EventType (event_view e) == "") eqn:E.
  { apply bool_decide_eq_true in E. simpl in E. rewrite E in Hc. discriminate Hc. }
  unfold fold_continuity, fold_interaction. destruct (as_Continuity st) as [k|] eqn:Ek.
  - rewrite continuity_view in H. destruct (ApplyContinuityEvent k e) as [n v] eqn:En.
    destruct v; simplify_eq. pose proof (continuity_accepts _ _ _ En) as Hin.
    rewrite (proj2 (contains_spec _ _) Hin). cbn [negb]. eexists. split; [reflexivity|].
    rewrite (events_disjoint _ Hin). cbn. by destruct (as_Interaction st).
  - destruct (as_Interaction st) as [i|] eqn:Ei.
    + rewrite interaction_view in H. destruct (ApplyHumanInteractionEvent i e) as [n v] eqn:En.
      destruct v; simplify_eq. pose proof (interaction_accepts _ _ _ En) as Hin.
      eexists. split; [reflexivity|]. rewrite Ei, (proj2 (contains_spec _ _) Hin). cbn [negb].
      by rewrite En.
    + simplify_eq. eexists. split; [reflexivity|]. by rewrite Ei.
Qed.

Lemma fold_synthetic_idle e st :
  contains (continuityEvents ++ interactionEvents) (ev_EventType e) = false ->
  fold_continuity e st = Some st /\ fold_interaction e st = Some st.
Proof.
  intros H. unfold contains in H. rewrite existsb_app, orb_false_iff in H. destruct H as [H1 H2].
  unfold fold_continuity, fold_interaction, contains. rewrite H1, H2. cbn.
  by destruct (as_Continuity st), (as_Interaction st).
Qed.

Lemma evolve_synthetic_idle event st st' :
  ev_EventType event = "" -> evolve_synthetic event st = inr st' -> st' = st.
Proof. intros E H. unfold evolve_synthetic in H. rewrite E in H. by simplify_eq/=. Qed.

Lemma or_policy_inr r st : or_policy r = inr st <-> r = Some st.
Proof. destruct r; simpl; split; congruence. Qed.

(** An event records a command when it repeats its target and payload, carries
    the new revision, and has a type the catalogue gives for the command. *)
Record records (command : KernelCommand) (revision : Z) (eventID : UUIDv7) (event : DomainEvent)
    : Prop := {
  re_id : ev_EventID event = eventID;
  re_target : ev_Aggregate event = cmd_Target command;
  re_revision : ev_AggregateRevision event = revision;
  re_payload : ev_Payload event = cmd_Payload command;
  re_type : (cmd_CommandType command, ev_EventType event) ∈ catalogue
}.

(** A reopening raises the scope revision, as the command policy requires; it
    keeps the owner, or there is none to drop. *)
Definition reopen_carries (command : KernelCommand) (st : AggregateState) : Prop :=
  cmd_CommandType command = "tekroo.command.work.reopen" ->
  exists o n, decodePayloadObject (cmd_Payload command) = Some o /\
    uint64Field o "new_scope_revision" = Some n /\ as_ScopeRevision st < n /\
    (as_bool (o !! "owner_carry_forward") = Some true \/
     own_OwnerFQN (as_Ownership st) = None /\ own_AssignedEventID (as_Ownership st) = None).

(** The lifecycle step of both sides. *)
Lemma replay_lifecycle command event st st' a :
  commandLifecycleAction (cmd_CommandType command) = Some a ->
  eventLifecycleAction (ev_EventType event) = Some a ->
  (cmd_CommandType command == "tekroo.command.work.reopen")
    = (ev_EventType event == "tekroo.event.work.reopened") ->
  ev_Payload event = cmd_Payload command -> reopen_carries command st ->
  evolve_lifecycle command st = inr st' ->
  exists st1, only (ev_EventType event == "tekroo.event.work.reopened")
                (fold_reopen (ev_Payload event)) st = Some st1 /\ fold_lifecycle event st1 = Some st'.
Proof.
  intros Hc He Hr Hp Hro H. unfold evolve_lifecycle in H. rewrite Hc in H.
  unfold only, fold_lifecycle. rewrite <- Hr, He, Hp.
  destruct (act a st) as [s|] eqn:Ea; [|discriminate H].
  case_bool_decide as E.
  - destruct (Hro E) as (o & n & Ho & Hn & Hlt & Hcarry).
    unfold fold_reopen. rewrite Ho, Hn. destruct (n <=? as_ScopeRevision st) eqn:Hle.
    { apply Z.leb_le in Hle. lia. }
    eexists. split; [reflexivity|]. rewrite act_scope, Ea. injection H as <-. f_equal.
    unfold reopen_fields. rewrite Ho. cbn. rewrite Hn.
    destruct Hcarry as [->|[Ho1 Ho2]]; [done|]. destruct (default false _); [done|].
    rewrite <- (act_ownership _ _ _ Ea) in Ho1, Ho2. destruct s as [? ? ? ? ? ? ? [? ? ?]].
    simpl in *. by subst.
  - injection H as <-. eauto.
Qed.

(** The steps that do not run leave the state alone. *)
Lemma evolve_lifecycle_idle command st st' :
  is_nil (commandLifecycleAction (cmd_CommandType command)) = true ->
  evolve_lifecycle command st = inr st' -> st' = st.
Proof.
  intros H. apply is_nil_true in H. unfold evolve_lifecycle. rewrite H. intros ?. by simplify_eq.
Qed.

Lemma fold_lifecycle_idle event st :
  eventLifecycleAction (ev_EventType event) = None -> fold_lifecycle event st = Some st.
Proof. intros H. unfold fold_lifecycle. by rewrite H. Qed.

Lemma fold_ownership_idle event st :
  eventOwnershipCommand (ev_EventType event) = "" -> fold_ownership event st = Some st.
Proof. intros H. unfold fold_ownership. rewrite H. reflexivity. Qed.

(** What each step of an accepted [evolve_existing] did. *)
Lemma evolve_existing_steps command revision eventID st st' :
  evolve_existing command revision eventID st = inr st' ->
  let c := cmd_CommandType command in
  let p := cmd_Payload command in
  exists s1 s2 s3 s4 s5 s6,
    evolve_lifecycle command st = inr s1 /\ applyOwnership c p s1 eventID = inr s2 /\
    evolve_synthetic (bare_event eventID (syntheticEventType c) (cmd_Target command) revision 0 p) s2
      = inr s3 /\
    only (c == "tekroo.command.human-participant.bind-profile") (bind_participant p revision) s3
      = Some s4 /\
    only (c == "tekroo.command.human-participant.revoke") (revoke_participant revision) s4 = Some s5 /\
    only (c == "tekroo.command.system.bind-operator-role") (bind_role p) s5 = Some s6 /\
    only (c == "tekroo.command.system.configure-continuity")
      (configure_continuity p eventID revision) s6 = Some st'.
Proof.
  unfold evolve_existing. cbv zeta. intros H.
  destruct (evolve_lifecycle command st) as [|s1] eqn:E1; [discriminate H|].
  destruct (applyOwnership _ _ s1 eventID) as [|s2] eqn:E2; [discriminate H|].
  destruct (evolve_synthetic _ s2) as [|s3] eqn:E3; [discriminate H|].
  destruct (or_policy (only _ _ s3)) as [|s4] eqn:E4; [discriminate H|].
  destruct (or_policy (only _ _ s4)) as [|s5] eqn:E5; [discriminate H|].
  destruct (or_policy (only _ _ s5)) as [|s6] eqn:E6; [discriminate H|].
  apply or_policy_inr in E4, E5, E6, H. exists s1, s2, s3, s4, s5, s6. done.
Qed.

(** Use the facts about the steps that do not run. *)
Ltac settle :=
  repeat match goal with
         | H : ?k <> ?k -> _ |- _ => clear H
         | H : ?k <> ?j -> _ |- _ => specialize (H ltac:(discriminate))
         end;
  split_ands; subst.

Ltac quiet :=
  repeat (match goal with
          | H : ?x = Some _ |- context [?x] => rewrite H
          | H : ?b = false |- context [only ?b _ _] => rewrite H
          | H : eventLifecycleAction _ = None |- context [fold_lifecycle _ ?s] =>
            rewrite (fold_lifecycle_idle _ s H)
          | |- context [only false ?f ?s] => change (only false f s) with (Some s)
          end; cbv beta iota).

Lemma replay_existing command revision eventID event st st' :
  records command revision eventID event -> reopen_carries command st ->
  evolve_existing command revision eventID st = inr st' -> foldEvent st event = Some st'.
Proof.
  intros [Hid Hag Hrev Hpl Hty] Hro H.
  apply catalogue_agrees in Hty as [k [G1 G2 G3 G4 G5 G6 G7 G8 G9 G10 G11 G12 G13 G14 G15 G16]].
  apply evolve_existing_steps in H as (s1 & s2 & s3 & s4 & s5 & s6 & H1 & H2 & H3 & H4 & H5 & H6 & H7).
  rewrite G9 in H4. rewrite G11 in H5. rewrite G13 in H6. rewrite G15 in H7.
  unfold foldEvent. rewrite G10, G12, G14, G16.
  rewrite G7 in H3. rewrite <- Hpl in H2, H3, H4, H6, H7.
  assert (Hlife : k <> StepLifecycle -> s1 = st /\ eventLifecycleAction (ev_EventType event) = None /\
            (ev_EventType event == "tekroo.event.work.reopened") = false).
  { intros Hk. rewrite (bool_decide_false (k = StepLifecycle)) in G2, G4 by done.
    cbn [negb andb] in G2, G4.
    split_and!; [by eapply evolve_lifecycle_idle| |congruence].
    rewrite <- G1. by apply is_nil_true. }
  assert (Hown : k <> StepOwnership -> s2 = s1).
  { intros Hk. rewrite (bool_decide_false (k = StepOwnership)) in G5 by done. exact (applyOwnership_neutral _ _ _ _ _ G5 H2). }
  assert (Hsyn : k <> StepSynthetic -> s3 = s2).
  { intros Hk. rewrite (bool_decide_false (k = StepSynthetic)) in H3 by done. 
    refine (evolve_synthetic_idle _ _ _ _ H3). reflexivity. }
  assert (Hidle : k <> StepSynthetic -> fold_continuity event st = Some st /\
                                       fold_interaction event st = Some st).
  { intros Hk. apply fold_synthetic_idle. by rewrite G8, (bool_decide_false (k = StepSynthetic)). }
  assert (Hfo : k <> StepOwnership -> forall s, fold_ownership event s = Some s).
  { intros Hk s. apply fold_ownership_idle. by rewrite G6, (bool_decide_false (k = StepOwnership)). }
  destruct k; simpl in H3, H4, H5, H6, H7, G2, G6, G8 |- *; settle; simplify_eq.
  - destruct (commandLifecycleAction (cmd_CommandType command)) as [a|] eqn:Ea; [|discriminate G2].
    destruct (replay_lifecycle command event st st' a) as (r & Hr1 & Hr2); auto.
    quiet. auto.
  - quiet. unfold fold_ownership. cbv zeta. rewrite G6, H2.
    destruct (cmd_CommandType command == "") eqn:Ec; [|done].
    apply bool_decide_eq_true in Ec. rewrite Ec in G5. discriminate G5.
  - destruct (fold_synthetic event st st') as (r & Hr1 & Hr2); [|done|].
    { unfold event_view. rewrite Hag. exact H3. }
    quiet. auto.
  - quiet. auto.
  - quiet. auto.
  - quiet. auto.
  - quiet. auto.
  - quiet. auto.
Qed.

(** ** Whole streams *)

Lemma fold_loop_app aggregate i st es e :
  fold_loop aggregate i st (es ++ [e]) =
  match fold_loop aggregate i st es with
  | Some st' =>
    match fold_step aggregate (i + length es) st' e with Some s => Some (Some s) | None => None end
  | None => None
  end.
Proof.
  revert i st. induction es as [|x es IH]; intros i st; simpl.
  - rewrite Nat.add_0_r. reflexivity.
  - destruct (fold_step aggregate i st x) as [s|]; [|done]. rewrite IH.
    by rewrite <- plus_n_Sm.
Qed.

Lemma fold_loop_revision aggregate i st es s :
  es <> [] -> fold_loop aggregate i st es = Some (Some s) ->
  as_Revision s = u64 (Z.of_nat (i + length es)).
Proof.
  revert i st. induction es as [|x es IH]; intros i st Hne H; [done|]. simpl in H.
  destruct (fold_step aggregate i st x) as [s'|] eqn:E; [|discriminate H].
  destruct es as [|y es].
  - simpl in H. simplify_eq. unfold fold_step in E. cbv zeta in E. accepted E. subst. simpl.
    f_equal. lia.
  - apply IH in H; [|done]. rewrite H. f_equal. simpl. lia.
Qed.

Lemma catalogue_event_named c e : (c, e) ∈ catalogue -> e <> "".
Proof.
  assert (H : forallb (fun ce => ce.2 != "") catalogue = true) by (vm_compute; reflexivity).
  rewrite forallb_True_iff, Forall_forall in H. intros Hin. specialize (H _ Hin). simpl in H.
  apply negb_true_iff in H. by apply bool_decide_eq_false in H.
Qed.

(** The creation commands, the kind of aggregate each creates and the event it
    emits. *)
Definition creations : list (string * (string * string)) :=
  [("tekroo.command.story.create", (AggregateStory, "tekroo.event.story.created"));
   ("tekroo.command.task.create", (AggregateTask, "tekroo.event.task.created"));
   ("tekroo.command.system.bind-operator-role",
    (AggregateSystem, "tekroo.event.system.operator-role-bound"));
   ("tekroo.command.system.configure-continuity",
    (AggregateSystem, "tekroo.event.system.continuity-configured"));
   ("tekroo.command.human-participant.bind-profile",
    (AggregateHumanParticipant, "tekroo.event.human-participant.profile-bound"));
   ("tekroo.command.human-interaction.open",
    (AggregateHumanInteraction, "tekroo.event.human-interaction.opened"))].

Lemma evolve_noncreating command st eventID st' rev :
  commandCreatesAggregate command = false ->
  evolveState command (as_Revision st) (Some st) eventID = inr (Some st', rev) ->
  rev = u64 (as_Revision st + 1) /\
  exists s, evolve_existing command rev eventID st = inr s /\ st' = s <| as_Revision := rev |>.
Proof.
  intros Hc H. unfold evolveState in H.
  destruct (_ || _) eqn:E in H.
  { unfold commandCreatesAggregate in Hc. apply orb_true_iff in E as [E|E];
      apply bool_decide_eq_true in E; rewrite E in Hc; discriminate Hc. }
  unfold isOperatorHumanContinuityCreation in H. rewrite Hc in H. cbn [negb] in H. cbv zeta in H.
  unwhen H. destruct (evolve_existing _ _ _ _) as [|s] eqn:Es; [discriminate H|].
  injection H as <- <-. eauto.
Qed.

Lemma creation_folds command eventID event kind eventType st' rev :
  lookup_str (cmd_CommandType command) creations = Some (kind, eventType) ->
  ref_Kind (cmd_Target command) = kind -> ev_EventType event = eventType ->
  commandCreatesAggregate command = true ->
  evolveState command 0 None eventID = inr (Some st', rev) ->
  ev_EventID event = eventID -> ev_Payload event = cmd_Payload command ->
  rev = 1 /\ exists s, fold_created (cmd_Target command) event = Some s /\
    as_LifecycleEpoch s = 1 /\ s <| as_Revision := 1 |> = st'.
Proof.
  intros Hl Hk Ht Hc He R1 R4. unfold evolveState, isOperatorHumanContinuityCreation in He.
  rewrite Hc in He. cbn [negb] in He. unfold fold_created. rewrite Ht, R1, R4.
  unfold lookup_str, creations in Hl.
  repeat (match type of Hl with
          | (if ?b then _ else _) = _ => destruct b eqn:E
          end; [apply bool_decide_eq_true in E; rewrite E in He; injection Hl as <- <-;
                unfold created_work, created_other, contains in He; cbn [existsb] in He;
                rewrite ?Hk in He; eval_tests_in He; eval_tests; cbn [orb] in He;
                repeat case_match; simplify_eq; by eauto | clear E]).
  discriminate Hl.
Qed.

(** *** Ownership and closed work *)

Lemma step_keeps_ownership command st s :
  evolve_lifecycle command st = inr s ->
  cmd_CommandType command <> "tekroo.command.work.reopen" -> as_Ownership s = as_Ownership st.
Proof.
  intros H Hne. unfold evolve_lifecycle in H.
  destruct (commandLifecycleAction _) as [a|]; [|by simplify_eq].
  destruct (act a st) as [s'|] eqn:Ea; [|discriminate H].
  rewrite bool_decide_false in H by done. simplify_eq. by apply (act_ownership a).
Qed.

Lemma later_steps_ownership revision eventID p event (b1 b2 b3 b4 : bool) s2 s3 s4 s5 s6 s7 :
  evolve_synthetic event s2 = inr s3 -> only b1 (bind_participant p revision) s3 = Some s4 ->
  only b2 (revoke_participant revision) s4 = Some s5 -> only b3 (bind_role p) s5 = Some s6 ->
  only b4 (configure_continuity p eventID revision) s6 = Some s7 ->
  as_Ownership s7 = as_Ownership s2.
Proof.
  assert (Hbind : forall s s', bind_participant p revision s = Some s' -> as_Ownership s' = as_Ownership s).
  { unfold bind_participant. intros s s' H. accepted H. by subst. }
  assert (Hrev : forall s s', revoke_participant revision s = Some s' -> as_Ownership s' = as_Ownership s).
  { unfold revoke_participant. intros s s' H. accepted H. by subst. }
  assert (Hrole : forall s s', bind_role p s = Some s' -> as_Ownership s' = as_Ownership s).
  { unfold bind_role. intros s s' H. accepted H. by subst. }
  assert (Hconf : forall s s', configure_continuity p eventID revision s = Some s' ->
                               as_Ownership s' = as_Ownership s).
  { unfold configure_continuity. intros s s' H. accepted H. by subst. }
  intros H3 H4 H5 H6 H7. transitivity (as_Ownership s3).
  - unfold only in *. destruct b1, b2, b3, b4; simplify_eq;
      repeat match goal with
             | H : bind_participant _ _ _ = _ |- _ => apply Hbind in H
             | H : revoke_participant _ _ = _ |- _ => apply Hrev in H
             | H : bind_role _ _ = _ |- _ => apply Hrole in H
             | H : configure_continuity _ _ _ _ = _ |- _ => apply Hconf in H
             end; congruence.
  - unfold evolve_synthetic in H3. repeat case_match; by simplify_eq.
Qed.

(** An ownership transition: only a free item is acquired, only the owner's item
    is released or handed on, and each such step takes the next version. *)
Inductive ownership_step (id : UUIDv7) : Ownership -> Ownership -> Prop :=
| os_same o : ownership_step id o o
| os_acquire a v e : ownership_step id (mkOwnership None v e) (mkOwnership (Some a) (u64 (v + 1)) (Some id))
| os_release a v e : ownership_step id (mkOwnership (Some a) v e) (mkOwnership None (u64 (v + 1)) None)
| os_reassign a b v e :
    ownership_step id (mkOwnership (Some a) v e) (mkOwnership (Some b) (u64 (v + 1)) (Some id)).

Lemma applyOwnership_step c p st id st' :
  applyOwnership c p st id = inr st' -> ownership_step id (as_Ownership st) (as_Ownership st').
Proof.
  unfold applyOwnership. destruct (as_Ownership st) as [owner v e] eqn:Eo. intros H.
  match type of H with match ?x with _ => _ end = _ => destruct x as [|o'] eqn:E end;
    [discriminate H|]. injection H as <-. cbn.
  clear Eo. repeat case_bool_decide; cbn [orb] in E;
    unfold acquire_ownership, release_ownership, reassign_ownership, check_owner in E;
    repeat case_match; simplify_eq; repeat match goal with H : (_ || _) = false |- _ => bprop H end;
    split_ands; unfold own_by; simpl in *; try constructor;
    repeat match goal with H : is_nil ?x = true |- _ => apply is_nil_true in H; rewrite H end;
    repeat match goal with H : owner = _ |- _ => rewrite H end; constructor.
Qed.

Lemma fold_replays_evolution events st command eventID event st' rev :
  FoldAggregate events = Some (Some st) ->
  head (ev_Aggregate <$> events) = Some (cmd_Target command) ->
  Z.of_nat (length events) + 1 < u64_mod ->
  commandCreatesAggregate command = false ->
  evolveState command (as_Revision st) (Some st) eventID = inr (Some st', rev) ->
  records command rev eventID event -> UUIDv7_Valid eventID = true ->
  ev_LifecycleEpoch event = as_LifecycleEpoch st' -> reopen_carries command st ->
  FoldAggregate (events ++ [event]) = Some (Some st').
Proof.
  intros Hf Hh Hn Hc He Hr Hid Hep Hro.
  destruct events as [|first events]; [discriminate Hf|]. injection Hh as Hh.
  apply evolve_noncreating in He as (Hrev & s & Hs & ->); [|done].
  simpl app. unfold FoldAggregate in *. rewrite app_comm_cons, fold_loop_app, Hf.
  apply fold_loop_revision in Hf; [|done].
  assert (Hpos : (0 < length (first :: events))%nat) by (simpl; lia).
  remember (length (first :: events)) as n eqn:Elen. rewrite Nat.add_0_l in Hf |- *.
  rewrite u64_id in Hf by (unfold is_u64; lia).
  assert (Hrev' : rev = u64 (Z.of_nat n + 1)) by congruence.
  unfold fold_step. pose proof (catalogue_event_named _ _ (re_type _ _ _ _ Hr)) as Hname.
  rewrite (re_target _ _ _ _ Hr), Hh, (re_revision _ _ _ _ Hr), (re_id _ _ _ _ Hr), <- Hrev', Hid,
    !bool_decide_refl, (bool_decide_false (ev_EventType event = "")) by done.
  cbn [negb orb]. rewrite bool_decide_false.
  2: { rewrite Hrev', u64_id by (unfold is_u64; lia). lia. }
  rewrite (replay_existing _ _ _ _ _ _ Hr Hro Hs). cbv zeta.
  by rewrite Hep, bool_decide_refl.
Qed.

Lemma fold_replays_creation command eventID event kind eventType st' rev :
  lookup_str (cmd_CommandType command) creations = Some (kind, eventType) ->
  ref_Kind (cmd_Target command) = kind -> ev_EventType event = eventType ->
  commandCreatesAggregate command = true ->
  evolveState command 0 None eventID = inr (Some st', rev) ->
  records command rev eventID event -> UUIDv7_Valid eventID = true -> ev_LifecycleEpoch event = 1 ->
  FoldAggregate [event] = Some (Some st').
Proof.
  intros Hl Hk Ht Hc He [R1 R2 R3 R4 R5] Hid Hep. apply catalogue_event_named in R5 as Hname.
  destruct (creation_folds command eventID event kind eventType st' rev) as (-> & s & Hs & Hv); auto.
  unfold FoldAggregate, fold_loop, fold_step. rewrite bool_decide_refl, R1, Hid, R3.
  rewrite (bool_decide_false (ev_EventType event = "")) by done.
  change (u64 (Z.of_nat 0 + 1)) with 1. rewrite bool_decide_refl, R2, Hs.
  destruct Hv as [Hv <-]. cbn. rewrite Hv, Hep. done.
Qed.

(** ** Theorems *)

(** Replay agrees with evaluation: when a stream folds to the current state
    and a command of the catalogue that creates nothing evolves it, the stream
    extended by the event that records the command folds to the state
    [evolveState] computed. A reopening must keep the owner (or find none). *)
Theorem FoldAggregate_replays_evolveState events st command eventID event st' rev :
  FoldAggregate events = Some (Some st) ->
  head (ev_Aggregate <$> events) = Some (cmd_Target command) ->
  Z.of_nat (length events) + 1 < u64_mod ->
  commandCreatesAggregate command = false ->
  evolveState command (as_Revision st) (Some st) eventID = inr (Some st', rev) ->
  records command rev eventID event -> UUIDv7_Valid eventID = true ->
  ev_LifecycleEpoch event = as_LifecycleEpoch st' -> reopen_carries command st ->
  FoldAggregate (events ++ [event]) = Some (Some st').
Proof. intros. by eapply fold_replays_evolution. Qed.

(** A creation replays too: the event that records it folds to the state
    [evolveState] created, for the six commands whose aggregates have a state. *)
Theorem FoldAggregate_replays_creation command eventID event kind eventType st' rev :
  lookup_str (cmd_CommandType command) creations = Some (kind, eventType) ->
  ref_Kind (cmd_Target command) = kind -> ev_EventType event = eventType ->
  commandCreatesAggregate command = true ->
  evolveState command 0 None eventID = inr (Some st', rev) ->
  records command rev eventID event -> UUIDv7_Valid eventID = true -> ev_LifecycleEpoch event = 1 ->
  FoldAggregate [event] = Some (Some st').
Proof. intros. by eapply fold_replays_creation. Qed.

(** Ownership is fenced: a command other than a reopening changes the owner
    only by acquiring a free item, or releasing or reassigning one from its
    owner, and every such change takes the next ownership version. *)
Theorem evolveState_ownership_fenced command st eventID st' rev :
  commandCreatesAggregate command = false ->
  cmd_CommandType command <> "tekroo.command.work.reopen" ->
  evolveState command (as_Revision st) (Some st) eventID = inr (Some st', rev) ->
  ownership_step eventID (as_Ownership st) (as_Ownership st').
Proof.
  intros Hc Hne H. apply evolve_noncreating in H as (_ & s & Hs & ->); [|done].
  apply evolve_existing_steps in Hs as (s1 & s2 & s3 & s4 & s5 & s6 & H1 & H2 & H3 & H4 & H5 & H6 & H7).
  apply step_keeps_ownership in H1; [|done]. apply applyOwnership_step in H2.
  pose proof (later_steps_ownership _ _ _ _ _ _ _ _ _ _ _ _ _ _ H3 H4 H5 H6 H7) as H8.
  change (as_Ownership (s <| as_Revision := rev |>)) with (as_Ownership s). rewrite H8, <- H1. done.
Qed.

(** Closed work is closed: on a story or task in phase CLOSED the only
    commands [evolveState] accepts are the creation of a successor and the
    correction of a record, and they leave everything but the revision as it
    was. *)
Theorem closed_work_is_frozen command st eventID st' rev :
  as_Phase st = PhaseClosed ->
  commandCreatesAggregate command = false ->
  evolveState command (as_Revision st) (Some st) eventID = inr (Some st', rev) ->
  (cmd_CommandType command = "tekroo.command.work.create-successor" \/
   cmd_CommandType command = "tekroo.command.record.correct") /\
  st' = st <| as_Revision := rev |>.
Proof.
  intros Hp Hc H. pose proof H as H'. unfold evolveState in H'.
  apply evolve_noncreating in H as (_ & s & Hs & ->); [|done].
  assert (Ht : terminalCommandProhibited (cmd_CommandType command) PhaseClosed = false).
  { destruct (_ || _) eqn:E in H'.
    { unfold commandCreatesAggregate in Hc. apply orb_true_iff in E as [E|E];
        apply bool_decide_eq_true in E; rewrite E in Hc; discriminate Hc. }
    unfold isOperatorHumanContinuityCreation in H'. rewrite Hc, Hp in H'. cbn [negb] in H'.
    cbv zeta in H'. unwhen H'. done. }
  unfold terminalCommandProhibited in Ht. cbn in Ht.
  apply evolve_existing_steps in Hs as (s1 & s2 & s3 & s4 & s5 & s6 & H1 & H2 & H3 & H4 & H5 & H6 & H7).
  destruct (cmd_CommandType command == "tekroo.command.work.reopen") eqn:E1.
  { apply bool_decide_eq_true in E1. unfold evolve_lifecycle in H1. rewrite E1 in H1.
    change (commandLifecycleAction "tekroo.command.work.reopen") with (Some ActionReopen) in H1.
    cbv beta iota in H1.
    rewrite (act_closed _ Hp) in H1. discriminate H1. }
  assert (Hcase : cmd_CommandType command = "tekroo.command.work.create-successor" \/
                  cmd_CommandType command = "tekroo.command.record.correct").
  { cbn [orb] in Ht.
    destruct (_ == "tekroo.command.work.create-successor") eqn:E2 in Ht;
      [left; by apply bool_decide_eq_true in E2|].
    destruct (_ == "tekroo.command.record.correct") eqn:E3 in Ht;
      [right; by apply bool_decide_eq_true in E3|].
    eval_tests_in Ht. cbn [orb andb negb] in Ht.
    by repeat match type of Ht with (if ?b then _ else _) = _ => destruct b end. }
  split; [done|]. f_equal.
  assert (s1 = st) as -> by (eapply evolve_lifecycle_idle; [|exact H1]; by destruct Hcase as [-> | ->]).
  assert (s2 = st) as -> by (eapply applyOwnership_neutral; [|exact H2]; by destruct Hcase as [-> | ->]).
  assert (s3 = st) as -> by (eapply evolve_synthetic_idle; [|exact H3]; by destruct Hcase as [-> | ->]).
  destruct Hcase as [E|E]; rewrite E in *; eval_tests_in H4; eval_tests_in H5; eval_tests_in H6;
    eval_tests_in H7; unfold only in *; congruence.
Qed.

(** ** Samples and witnesses *)

Definition task_target : AggregateRef := mkRef AggregateTask (uid "a").

Definition task_command (type : string) (payload : list (string * string)) : KernelCommand :=
  zero_command <| cmd_CommandType := "tekroo.command." +:+ type |> <| cmd_Target := task_target |>
    <| cmd_Payload := jdoc payload |>.

Definition task_event (type : string) (revision epoch : Z) (payload : list (string * string))
    : DomainEvent :=
  bare_event (uid "e") ("tekroo.event." +:+ type) task_target revision epoch (jdoc payload).

Definition owned_by_a (version : string) : list (string * string) :=
  [("owner_fqn", qs actor_a); ("ownership_version", version)].

Definition completed_task : list DomainEvent :=
  [task_event "task.created" 1 1 []; task_event "task.readied" 2 1 [];
   task_event "task.ownership-acquired" 3 1 (owned_by_a "0"); task_event "task.activated" 4 1 (owned_by_a "1");
   task_event "task.completed" 5 1 []].

Definition folded (events : list DomainEvent) : AggregateState :=
  match FoldAggregate events with
  | Some (Some st) => st
  | _ => plain_state "" "" 0 0 0 PhaseDraft ConditionRunnable
  end.

Definition evolved (command : KernelCommand) (st : AggregateState) : AggregateState :=
  match evolveState command (as_Revision st) (Some st) (uid "e") with
  | inr (Some st', _) => st'
  | _ => plain_state "" "" 0 0 0 PhaseDraft ConditionRunnable
  end.

Definition reopen_payload (carry : string) : list (string * string) :=
  [("prior_epoch", "1"); ("new_scope_revision", "2"); ("owner_carry_forward", carry)].

Definition reopen_command (carry : string) : KernelCommand :=
  task_command "work.reopen" (reopen_payload carry).
Definition reopen_event (carry : string) : DomainEvent :=
  task_event "work.reopened" 6 2 (reopen_payload carry).

Lemma reopen_recorded carry : records (reopen_command carry) 6 (uid "e") (reopen_event carry).
Proof.
  split; try reflexivity. apply contains_spec. vm_compute. reflexivity.
Qed.

Lemma FoldAggregate_replays_evolveState_witness :
  FoldAggregate (completed_task ++ [reopen_event "true"]) =
  Some (Some (evolved (reopen_command "true") (folded completed_task))).
Proof.
  apply (FoldAggregate_replays_evolveState completed_task (folded completed_task)
    (reopen_command "true") (uid "e") (reopen_event "true")
    (evolved (reopen_command "true") (folded completed_task)) 6).
  - vm_compute. reflexivity.
  - reflexivity.
  - vm_compute. reflexivity.
  - vm_compute. reflexivity.
  - vm_compute. reflexivity.
  - apply reopen_recorded.
  - vm_compute. reflexivity.
  - vm_compute. reflexivity.
  - intros _. exists (default ∅ (decodePayloadObject (jdoc (reopen_payload "true")))), 2.
    split_and!; [vm_compute; reflexivity..|]. left. vm_compute. reflexivity.
Defined.

Lemma FoldAggregate_replays_creation_witness :
  FoldAggregate [task_event "task.created" 1 1 []] = Some (Some (created_work task_target)).
Proof.
  apply (FoldAggregate_replays_creation (task_command "task.create" []) (uid "e")
    (task_event "task.created" 1 1 []) AggregateTask "tekroo.event.task.created"
    (created_work task_target) 1); try reflexivity.
  split; try reflexivity. apply contains_spec. vm_compute. reflexivity.
Defined.

Definition readied_task : list DomainEvent := firstn 2 completed_task.

Lemma evolveState_ownership_fenced_witness :
  ownership_step (uid "e") (mkOwnership None 0 None) (mkOwnership (Some actor_a) 1 (Some (uid "e"))).
Proof.
  apply (evolveState_ownership_fenced (task_command "task.acquire-ownership" (owned_by_a "0"))
    (folded readied_task) (uid "e")
    (evolved (task_command "task.acquire-ownership" (owned_by_a "0")) (folded readied_task)) 3);
    [vm_compute; reflexivity | discriminate | vm_compute; reflexivity].
Defined.

Definition closed_task : AggregateState :=
  plain_state AggregateTask (uid "a") 6 1 1 PhaseClosed ConditionRunnable.

Lemma closed_work_is_frozen_witness :
  evolved (task_command "record.correct" []) closed_task = closed_task <| as_Revision := 7 |>.
Proof.
  apply (closed_work_is_frozen (task_command "record.correct" []) closed_task (uid "e")
    (evolved (task_command "record.correct" []) closed_task) 7); vm_compute; reflexivity.
Defined.

(** Where they differ: reopening an owned task without carrying the owner
    forward clears the owner in [evolveState] but not in [FoldAggregate], so the
    replayed state is not the stored one and a later acquisition, accepted by
    the evaluator, is reported as a corrupt stream. *)
Theorem reopen_without_carry_diverges :
  let stored := evolved (reopen_command "false") (folded completed_task) in
  let stream := completed_task ++ [reopen_event "false"] in
  let acquire := task_command "task.acquire-ownership" (owned_by_a "1") in
  own_OwnerFQN (as_Ownership stored) = None /\
  own_OwnerFQN (as_Ownership (folded stream)) = Some actor_a /\
  own_OwnerFQN (as_Ownership (evolved acquire stored)) = Some actor_a /\
  FoldAggregate (stream ++ [task_event "task.ownership-acquired" 7 2 (owned_by_a "1")]) = None.
Proof. vm_compute. split_and!; reflexivity. Qed.
