(* ===== verification/Authorization.v ===== *)
(** * Authorisation ([kernel/authorization.go])

    A policy grants authority to principals and lets them delegate it, at most
    four levels deep. [Authorize] searches the grants and their delegation
    trees; [delegated] is the set of delegation chains it searches. *)

From S2P Require Import Prelude GoText GoTime GoJson Types Samples Payload Envelope State.

Definition MaxDelegationDepth : nat := 4.

Record AuthorityScope := mkScope {
  sp_CommandTypes : list string;
  sp_TargetKinds : list AggregateKind;
  sp_TargetIDs : list UUIDv7;
  sp_CanReadTarget : bool;
  sp_RequiresOwner : bool;
  sp_CanReopenAccepted : bool
}.

Record AuthorityGrant := mkGrant {
  gr_GrantDigest : Digest;
  gr_Grantee : PrincipalRef;
  gr_Scope : AuthorityScope;
  gr_ExpiresAt : option Time;
  gr_Revoked : bool;
  gr_AllowDelegation : bool
}.

Record AuthorityDelegation := mkDelegation {
  dl_DelegationDigest : Digest;
  dl_ParentDigest : Digest;
  dl_From : PrincipalRef;
  dl_To : PrincipalRef;
  dl_Scope : AuthorityScope;
  dl_ExpiresAt : option Time;
  dl_Revoked : bool;
  dl_AllowFurther : bool
}.

Record DecisionPolicyRequirements := mkRequirements {
  dr_CompletionCriteriaRevision : Z;
  dr_AcceptancePolicyRevision : Z;
  dr_RequireQualifiedTree : bool;
  dr_AttemptLimits : gmap string Z;
  dr_AllowUnchangedRetry : bool
}.

Record AuthorizationPolicy := mkPolicy {
  ap_PolicyDigest : Digest;
  ap_Revision : Z;
  ap_Requirements : DecisionPolicyRequirements;
  ap_Grants : list AuthorityGrant;
  ap_Delegations : list AuthorityDelegation
}.

Record AuthorizationResult := mkAuthorization {
  ar_Allowed : bool;
  ar_CanReadTarget : bool;
  ar_ReasonCode : string;
  ar_GrantDigests : list Digest;
  ar_DelegationDigests : list Digest
}.

(** ** Scopes *)

Definition expired (expiry : option Time) (now : Time) : bool :=
  match expiry with Some e => negb (Before now e) | None => false end.

Definition owned_by_actor (command : KernelCommand) (state : option AggregateState) : bool :=
  match state, cmd_ActorFQN command with
  | Some s, Some actor => own_OwnerFQN (as_Ownership s) == Some actor
  | _, _ => false
  end.

Definition scopeAllows (scope : AuthorityScope) (command : KernelCommand)
    (state : option AggregateState) : bool :=
  when negb (containsString (sp_CommandTypes scope) (cmd_CommandType command))
       || negb (containsAggregateKind (sp_TargetKinds scope) (ref_Kind (cmd_Target command)))
    return false ;;
  when (0 <? llen (sp_TargetIDs scope))
       && negb (containsUUID (sp_TargetIDs scope) (ref_ID (cmd_Target command)))
    return false ;;
  when (cmd_CommandType command == "tekroo.command.work.reopen")
       && match state with Some s => as_Phase s == PhaseAccepted | None => false end
       && negb (sp_CanReopenAccepted scope)
    return false ;;
  when sp_RequiresOwner scope return owned_by_actor command state ;;
  true.

Definition readScopeAllows (scope : AuthorityScope) (command : KernelCommand) : bool :=
  when negb (sp_CanReadTarget scope)
       || negb (containsAggregateKind (sp_TargetKinds scope) (ref_Kind (cmd_Target command)))
    return false ;;
  (llen (sp_TargetIDs scope) == 0) || containsUUID (sp_TargetIDs scope) (ref_ID (cmd_Target command)).

Definition scopeValid (scope : AuthorityScope) : bool :=
  when (llen (sp_CommandTypes scope) == 0) || (llen (sp_TargetKinds scope) == 0) return false ;;
  forallb (fun t => t != "") (sp_CommandTypes scope)
  && forallb AggregateKind_Valid (sp_TargetKinds scope)
  && forallb UUIDv7_Valid (sp_TargetIDs scope).

Definition scopeSubset (child parent : AuthorityScope) : bool :=
  when negb (forallb (containsString (sp_CommandTypes parent)) (sp_CommandTypes child)) return false ;;
  when negb (forallb (containsAggregateKind (sp_TargetKinds parent)) (sp_TargetKinds child))
    return false ;;
  when (0 <? llen (sp_TargetIDs parent))
       && ((llen (sp_TargetIDs child) == 0)
           || negb (forallb (containsUUID (sp_TargetIDs parent)) (sp_TargetIDs child)))
    return false ;;
  when sp_CanReadTarget child && negb (sp_CanReadTarget parent) return false ;;
  when sp_RequiresOwner parent && negb (sp_RequiresOwner child) return false ;;
  when sp_CanReopenAccepted child && negb (sp_CanReopenAccepted parent) return false ;;
  true.

Definition grantValid (grant : AuthorityGrant) (now : Time) : bool :=
  Digest_Valid (gr_GrantDigest grant) && PrincipalRef_Valid (gr_Grantee grant)
  && negb (gr_Revoked grant) && negb (expired (gr_ExpiresAt grant) now) && scopeValid (gr_Scope grant).

Definition delegationValid (delegation : AuthorityDelegation) (parentScope : AuthorityScope)
    (parentExpiry : option Time) (now : Time) : bool :=
  when negb (Digest_Valid (dl_DelegationDigest delegation))
       || negb (Digest_Valid (dl_ParentDigest delegation))
       || negb (PrincipalRef_Valid (dl_From delegation)) || negb (PrincipalRef_Valid (dl_To delegation))
       || dl_Revoked delegation || expired (dl_ExpiresAt delegation) now
       || negb (scopeValid (dl_Scope delegation))
       || negb (scopeSubset (dl_Scope delegation) parentScope)
    return false ;;
  match parentExpiry with
  | None => true
  | Some parent =>
    match dl_ExpiresAt delegation with Some e => negb (After e parent) | None => false end
  end.

(** ** The search *)

(** [remaining] is [MaxDelegationDepth - depth]; the set of principals on the
    path is [path]. *)
Section Search.

Context (command : KernelCommand) (state : option AggregateState) (now : Time)
  (delegations : list AuthorityDelegation).

(** The delegations the loop does not skip. *)
Definition usable (current : PrincipalRef) (parentDigest : Digest) (parentScope : AuthorityScope)
    (parentExpiry : option Time) (path : gset PrincipalRef) (d : AuthorityDelegation) : bool :=
  when (dl_From d != current) || (dl_ParentDigest d != parentDigest)
       || negb (delegationValid d parentScope parentExpiry now)
    return false ;;
  negb (bool_decide (dl_To d ∈ path)).

(** The first result a loop body returns. *)
Fixpoint first_some {A B} (f : A -> option B) (l : list A) : option B :=
  match l with
  | [] => None
  | x :: l => match f x with Some r => Some r | None => first_some f l end
  end.

Fixpoint authorizeDelegated (remaining : nat) (current : PrincipalRef) (parentDigest : Digest)
    (parentScope : AuthorityScope) (parentExpiry : option Time) (canDelegate : bool)
    (grants chain : list Digest) (path : gset PrincipalRef) : option AuthorizationResult :=
  match remaining with
  | O => None
  | S remaining =>
    when negb canDelegate return None ;;
    first_some (fun d =>
      when negb (usable current parentDigest parentScope parentExpiry path d) return None ;;
      let nextChain := chain ++ [dl_DelegationDigest d] in
      when (dl_To d == cmd_Authority command) && scopeAllows (dl_Scope d) command state
        return Some (mkAuthorization true (sp_CanReadTarget (dl_Scope d)) "AUTHORIZED" grants nextChain) ;;
      authorizeDelegated remaining (dl_To d) (dl_DelegationDigest d) (dl_Scope d) (dl_ExpiresAt d)
        (dl_AllowFurther d) grants nextChain ({[dl_To d]} ∪ path)) delegations
  end.

Fixpoint delegatedCanRead (remaining : nat) (current : PrincipalRef) (parentDigest : Digest)
    (parentScope : AuthorityScope) (parentExpiry : option Time) (canDelegate : bool)
    (path : gset PrincipalRef) : bool :=
  match remaining with
  | O => false
  | S remaining =>
    when negb canDelegate return false ;;
    existsb (fun d =>
      when negb (usable current parentDigest parentScope parentExpiry path d) return false ;;
      when (dl_To d == cmd_Authority command) && readScopeAllows (dl_Scope d) command return true ;;
      delegatedCanRead remaining (dl_To d) (dl_DelegationDigest d) (dl_Scope d) (dl_ExpiresAt d)
        (dl_AllowFurther d) ({[dl_To d]} ∪ path)) delegations
  end.

(** The loop over the grants. *)
Fixpoint grant_loop (canRead : bool) (grants : list AuthorityGrant) : AuthorizationResult :=
  match grants with
  | [] => mkAuthorization false canRead "NO_APPLICABLE_GRANT" [] []
  | grant :: grants =>
    when negb (grantValid grant now) return grant_loop canRead grants ;;
    let canRead :=
      canRead || (gr_Grantee grant == cmd_Authority command) && readScopeAllows (gr_Scope grant) command in
    when (gr_Grantee grant == cmd_Authority command) && scopeAllows (gr_Scope grant) command state
      return mkAuthorization true (sp_CanReadTarget (gr_Scope grant)) "AUTHORIZED"
               [gr_GrantDigest grant] [] ;;
    let path : gset PrincipalRef := {[gr_Grantee grant]} in
    match authorizeDelegated MaxDelegationDepth (gr_Grantee grant) (gr_GrantDigest grant)
            (gr_Scope grant) (gr_ExpiresAt grant) (gr_AllowDelegation grant) [gr_GrantDigest grant] []
            path with
    | Some result => result
    | None =>
      grant_loop
        (canRead || delegatedCanRead MaxDelegationDepth (gr_Grantee grant) (gr_GrantDigest grant)
                      (gr_Scope grant) (gr_ExpiresAt grant) (gr_AllowDelegation grant) path) grants
    end
  end.

End Search.

Definition grant_le (a b : AuthorityGrant) : Prop := str_le (gr_GrantDigest a) (gr_GrantDigest b).
Definition delegation_le (a b : AuthorityDelegation) : Prop :=
  str_le (dl_DelegationDigest a) (dl_DelegationDigest b).
#[global] Instance grant_le_dec : RelDecision grant_le.
Proof. unfold grant_le. solve_decision. Defined.
#[global] Instance delegation_le_dec : RelDecision delegation_le.
Proof. unfold delegation_le. solve_decision. Defined.

Definition Authorize (policy : AuthorizationPolicy) (command : KernelCommand)
    (state : option AggregateState) (now : Time) : AuthorizationResult :=
  when negb (Digest_Valid (ap_PolicyDigest policy)) || (ap_Revision policy == 0) || IsZero now
    return mkAuthorization false false "INVALID_POLICY" [] [] ;;
  let grants := merge_sort grant_le (ap_Grants policy) in
  let delegations := merge_sort delegation_le (ap_Delegations policy) in
  grant_loop command state now delegations false grants.

(** ** Delegation chains *)

Section Chains.

Context (command : KernelCommand) (state : option AggregateState) (now : Time)
  (delegations : list AuthorityDelegation).

(** [delegated n p g s e b path]: from principal [p], holding the grant or
    delegation [g] with scope [s] and expiry [e], [b] if it may delegate, a chain
    of at most [n] usable delegations that visits no principal twice ends at the
    command's authority with a scope that allows the command. *)
Inductive delegated : nat -> PrincipalRef -> Digest -> AuthorityScope -> option Time -> bool ->
    gset PrincipalRef -> Prop :=
| del_last n p g s e path d :
    d ∈ delegations -> usable now p g s e path d = true -> dl_To d = cmd_Authority command ->
    scopeAllows (dl_Scope d) command state = true -> delegated (S n) p g s e true path
| del_step n p g s e path d :
    d ∈ delegations -> usable now p g s e path d = true ->
    delegated n (dl_To d) (dl_DelegationDigest d) (dl_Scope d) (dl_ExpiresAt d) (dl_AllowFurther d)
      ({[dl_To d]} ∪ path) ->
    delegated (S n) p g s e true path.

Lemma first_some_spec {A B} (f : A -> option B) l :
  (exists r, first_some f l = Some r) <-> exists x r, x ∈ l /\ f x = Some r.
Proof.
  induction l as [|x l IH]; simpl.
  - split; [intros [r H]; discriminate|]. intros (x & r & Hx & _). inversion Hx.
  - destruct (f x) as [r|] eqn:E.
    + split; [|eauto]. intros _. exists x, r. split; [constructor|done].
    + rewrite IH. split; intros (y & r & Hy & Hr).
      * exists y, r. split; [by constructor|done].
      * apply elem_of_cons in Hy as [->|Hy]; [congruence|]. eauto.
Qed.

Lemma first_some_inv {A B} (f : A -> option B) l r :
  first_some f l = Some r -> exists x, x ∈ l /\ f x = Some r.
Proof.
  induction l as [|x l IH]; simpl; [discriminate|].
  destruct (f x) as [r'|] eqn:E.
  - intros ?; simplify_eq. exists x. split; [constructor|done].
  - intros H. destruct (IH H) as (y & Hy & Hr). exists y. split; [by constructor|done].
Qed.

Lemma authorizeDelegated_spec n p g s e b grants chain path :
  (exists r, authorizeDelegated command state now delegations n p g s e b grants chain path = Some r) <->
  delegated n p g s e b path.
Proof.
  revert p g s e b chain path. induction n as [|n IH]; intros p g s e b chain path; simpl.
  { split; [intros [r H]; discriminate|inversion 1]. }
  destruct b; cbn [negb]; [|split; [intros [r H]; discriminate|inversion 1]].
  rewrite first_some_spec. split.
  - intros (d & r & Hd & H). destruct (usable _ _ _ _ _ _ d) eqn:Hu; [|discriminate H].
    cbn [negb] in H. destruct (_ && _) eqn:Ha.
    + apply andb_true_iff in Ha as [Ha%bool_decide_eq_true Hs]. eapply del_last; eauto.
    + eapply del_step; eauto. eapply IH. eauto.
  - inversion_clear 1 as [? ? ? ? ? ? d Hd Hu Ha Hs|? ? ? ? ? ? d Hd Hu Hn].
    + exists d, (mkAuthorization true (sp_CanReadTarget (dl_Scope d)) "AUTHORIZED" grants
                   (chain ++ [dl_DelegationDigest d])).
      split; [done|]. rewrite Hu, Ha, Hs, bool_decide_refl. done.
    + destruct (proj2 (IH _ _ _ _ _ (chain ++ [dl_DelegationDigest d]) _) Hn) as [r Hr].
      destruct ((dl_To d == cmd_Authority command) && scopeAllows (dl_Scope d) command state) eqn:E.
      * eexists d, _. split; [done|]. rewrite Hu, E. done.
      * exists d, r. split; [done|]. rewrite Hu, E. done.
Qed.

Lemma authorizeDelegated_allowed n p g s e b grants chain path r :
  authorizeDelegated command state now delegations n p g s e b grants chain path = Some r ->
  ar_Allowed r = true.
Proof.
  revert p g s e b chain path. induction n as [|n IH]; intros p g s e b chain path H; simpl in H; [discriminate|].
  destruct b; [|discriminate H]. apply first_some_inv in H as (d & _ & H). cbn [negb] in H.
  destruct (usable _ _ _ _ _ _ d); [|discriminate H]. cbn [negb] in H.
  destruct (_ && _); [by simplify_eq|eauto].
Qed.

(** A grant authorises the command itself or through its delegations. *)
Definition grants_command (grant : AuthorityGrant) : Prop :=
  grantValid grant now = true /\
  (gr_Grantee grant = cmd_Authority command /\ scopeAllows (gr_Scope grant) command state = true \/
   delegated MaxDelegationDepth (gr_Grantee grant) (gr_GrantDigest grant) (gr_Scope grant)
     (gr_ExpiresAt grant) (gr_AllowDelegation grant) {[gr_Grantee grant]}).

Lemma grant_loop_spec canRead grants :
  ar_Allowed (grant_loop command state now delegations canRead grants) = true <->
  exists grant, grant ∈ grants /\ grants_command grant.
Proof.
  revert canRead. induction grants as [|g grants IH]; intros canRead; cbn [grant_loop].
  { split; [discriminate|]. intros (g & Hg & _). inversion Hg. }
  unfold grants_command. setoid_rewrite elem_of_cons.
  destruct (grantValid g now) eqn:Hv; cbn [negb].
  2: { rewrite IH. split; [intros (x & ? & ?); eauto|]. intros (x & [->|?] & ? & ?); [congruence|].
       unfold grants_command. eauto. }
  destruct (_ && _) eqn:Ha.
  { split; [|done]. intros _. exists g. split; [by left|]. split; [done|]. left.
    by apply andb_true_iff in Ha as [?%bool_decide_eq_true ?]. }
  destruct (authorizeDelegated _ _ _ _ _ _ _ _ _ _ _ _ _) as [r|] eqn:Hr.
  { rewrite (authorizeDelegated_allowed _ _ _ _ _ _ _ _ _ _ Hr). split; [|done]. intros _.
    exists g. split; [by left|]. split; [done|]. right. eapply authorizeDelegated_spec. eauto. }
  rewrite IH. split; [intros (x & ? & ?); eauto|].
  intros (x & [->|Hx] & Hxv & Hg); [|unfold grants_command; eauto]. exfalso.
  destruct Hg as [[Hg1 Hg2]|Hg].
  - by rewrite Hg1, Hg2, bool_decide_refl in Ha.
  - eapply authorizeDelegated_spec in Hg as [r' Hr']. rewrite Hr in Hr'. discriminate Hr'.
Qed.

End Chains.

(** ** Attenuation *)

Lemma scopeSubset_spec child parent :
  scopeSubset child parent = true ->
  (forall t, t ∈ sp_CommandTypes child -> t ∈ sp_CommandTypes parent) /\
  (forall k, k ∈ sp_TargetKinds child -> k ∈ sp_TargetKinds parent) /\
  (sp_TargetIDs parent <> [] -> sp_TargetIDs child <> [] /\
     forall i, i ∈ sp_TargetIDs child -> i ∈ sp_TargetIDs parent) /\
  (sp_RequiresOwner parent = true -> sp_RequiresOwner child = true) /\
  (sp_CanReopenAccepted child = true -> sp_CanReopenAccepted parent = true).
Proof.
  unfold scopeSubset. intros H. unwhen H. apply negb_false_iff in E, E0.
  rewrite forallb_True_iff, Forall_forall in E, E0.
  split_and!.
  - intros t Ht. by apply contains_spec, E.
  - intros k Hk. by apply contains_spec, E0.
  - intros Hne. apply andb_false_iff in E1 as [E1|E1].
    { apply Z.ltb_ge in E1. unfold llen in E1. destruct (sp_TargetIDs parent); [done|simpl in E1; lia]. }
    apply orb_false_iff in E1 as [E1 E1']. apply bool_decide_eq_false in E1. apply negb_false_iff in E1'.
    rewrite forallb_True_iff, Forall_forall in E1'. split; [intros Heq; by rewrite Heq in E1|].
    intros i Hi. by apply contains_spec, E1'.
  - intros Hr. rewrite Hr in E3. by apply andb_false_iff in E3 as [?|?%negb_false_iff].
  - intros Hr. rewrite Hr in E4. by apply andb_false_iff in E4 as [?|?%negb_false_iff].
Qed.

(** A narrower scope allows nothing the wider one does not. *)
Lemma scopeAllows_mono child parent command state :
  scopeSubset child parent = true -> scopeAllows child command state = true ->
  scopeAllows parent command state = true.
Proof.
  intros Hs H. apply scopeSubset_spec in Hs as (H1 & H2 & H3 & H4 & H5).
  unfold scopeAllows in *. unwhen H; bprop E; destruct E as [E E'];
    apply contains_spec in E, E'; apply H1, contains_spec in E; apply H2, contains_spec in E';
    unfold containsString, containsAggregateKind in *; rewrite E, E'; cbn [negb orb].
  all: assert (Hid : (0 <? llen (sp_TargetIDs parent))
         && negb (containsUUID (sp_TargetIDs parent) (ref_ID (cmd_Target command))) = false).
  1,3: destruct (sp_TargetIDs parent) as [|i l] eqn:Ep; [done|];
    destruct (H3 ltac:(done)) as [Hne Hsub]; apply andb_false_iff; right; apply negb_false_iff;
    apply andb_false_iff in E0 as [E0|E0];
    [apply Z.ltb_ge in E0; unfold llen in E0; destruct (sp_TargetIDs child); [done|simpl in E0; lia]|];
    apply negb_false_iff in E0; apply contains_spec in E0; apply contains_spec; auto.
  all: rewrite Hid.
  all: assert (Hre : (cmd_CommandType command == "tekroo.command.work.reopen")
         && match state with Some s => as_Phase s == PhaseAccepted | None => false end
         && negb (sp_CanReopenAccepted parent) = false)
    by (apply andb_false_iff in E1 as [E1|E1]; apply andb_false_iff; [by left|right];
        rewrite H5; [done|by apply negb_false_iff]).
  all: rewrite Hre; destruct (sp_RequiresOwner parent) eqn:Ho; [|done].
  - exact H.
  - discriminate (H4 eq_refl).
Qed.

Lemma usable_spec now p g s e path d :
  usable now p g s e path d = true ->
  dl_From d = p /\ dl_ParentDigest d = g /\ scopeSubset (dl_Scope d) s = true /\
  expired (dl_ExpiresAt d) now = false /\ dl_Revoked d = false /\ dl_To d ∉ path.
Proof.
  unfold usable. intros H. unwhen H. apply negb_true_iff in H. apply bool_decide_eq_false in H.
  bprop E. split_ands. unfold delegationValid in *.
  match goal with H : (if ?c then _ else _) = true |- _ => destruct c eqn:E; [discriminate H|] end.
  bprop E. split_ands. done.
Qed.

Lemma delegated_attenuates command state now ds n p g s e b path :
  delegated command state now ds n p g s e b path -> scopeAllows s command state = true.
Proof.
  induction 1 as [n p g s e path d Hd Hu Ha Hs|n p g s e path d Hd Hu _ IH];
    apply usable_spec in Hu as (_ & _ & Hsub & _); eauto using scopeAllows_mono.
Qed.

Lemma delegated_incl command state now ds ds' n p g s e b path :
  (forall d, d ∈ ds -> d ∈ ds') ->
  delegated command state now ds n p g s e b path ->
  delegated command state now ds' n p g s e b path.
Proof.
  intros Hi. induction 1; [eapply del_last|eapply del_step]; eauto.
Qed.

Lemma grants_command_incl command state now ds ds' grant :
  (forall d, d ∈ ds -> d ∈ ds') ->
  grants_command command state now ds grant -> grants_command command state now ds' grant.
Proof. intros Hi [Hv [H|H]]; split; eauto using delegated_incl. Qed.

Lemma authorize_iff policy command state now :
  Digest_Valid (ap_PolicyDigest policy) = true -> ap_Revision policy <> 0 -> IsZero now = false ->
  ar_Allowed (Authorize policy command state now) = true <->
  exists grant, grant ∈ ap_Grants policy /\
    grants_command command state now (ap_Delegations policy) grant.
Proof.
  intros Hd Hr Hn. unfold Authorize. rewrite Hd, Hn, bool_decide_false by done. cbn [negb orb].
  rewrite grant_loop_spec. setoid_rewrite (merge_sort_Permutation grant_le).
  split; intros (g & Hg & H); exists g; (split; [done|]); eapply grants_command_incl; [|exact H| |exact H];
    intros d; by rewrite (merge_sort_Permutation delegation_le).
Qed.

Lemma authorize_invalid policy command state now :
  ar_Allowed (Authorize policy command state now) = true ->
  Digest_Valid (ap_PolicyDigest policy) = true /\ ap_Revision policy <> 0 /\ IsZero now = false.
Proof. unfold Authorize. intros H. destruct (_ || _) eqn:E; [discriminate H|]. bprop E. tauto. Qed.

(** ** Theorems *)

(** [C28] [Authorize] decides the declarative rule: a command is allowed exactly
    when a valid grant of the policy allows it for the command's own authority, or
    a chain of at most four usable delegations of such a grant does. The sort of
    grants and delegations and the depth-first search lose no chain and find no
    other. *)
Theorem Authorize_correct policy command state now :
  Digest_Valid (ap_PolicyDigest policy) = true -> ap_Revision policy <> 0 -> IsZero now = false ->
  ar_Allowed (Authorize policy command state now) = true <->
  exists grant, grant ∈ ap_Grants policy /\
    grants_command command state now (ap_Delegations policy) grant.
Proof. apply authorize_iff. Qed.

(** Delegation never widens authority: whatever [Authorize] allows, for
    whatever principal, is within the scope of a grant of the policy that is
    neither revoked nor expired. *)
Theorem Authorize_no_escalation policy command state now :
  ar_Allowed (Authorize policy command state now) = true ->
  exists grant, grant ∈ ap_Grants policy /\ gr_Revoked grant = false /\
    expired (gr_ExpiresAt grant) now = false /\ scopeAllows (gr_Scope grant) command state = true.
Proof.
  intros H. destruct (authorize_invalid _ _ _ _ H) as (H1 & H2 & H3).
  apply authorize_iff in H as (g & Hg & Hv & Hc); [|done..]. exists g. split; [done|].
  unfold grantValid in Hv. bprop Hv. split_ands.
  split_and!; [done|done|]. destruct Hc as [[_ Hc]|Hc]; [done|]. by apply delegated_attenuates in Hc.
Qed.

(** The order in which a policy lists its grants and delegations does not
    change what it allows. *)
Theorem Authorize_order_independent policy grants delegations command state now :
  grants ≡ₚ ap_Grants policy -> delegations ≡ₚ ap_Delegations policy ->
  ar_Allowed (Authorize policy command state now) =
  ar_Allowed (Authorize (mkPolicy (ap_PolicyDigest policy) (ap_Revision policy)
                           (ap_Requirements policy) grants delegations) command state now).
Proof.
  intros Hg Hd. apply Bool.eq_iff_eq_true. split; intros H; pose proof (authorize_invalid _ _ _ _ H) as Hv;
    simpl in Hv; destruct Hv as (H1 & H2 & H3); apply authorize_iff in H as (g & Hin & H); try done;
    apply authorize_iff; try done; simpl in *; exists g;
    (split; [by rewrite Hg in *|]); eapply grants_command_incl; [|exact H| |exact H]; intros d; by rewrite Hd.
Qed.

(** ** Samples and witnesses *)

Definition sample_scope_wide : AuthorityScope :=
  mkScope ["tekroo.command.task.dispatch"; "tekroo.command.work.block"] [AggregateTask] [] true false false.
Definition sample_scope_narrow : AuthorityScope :=
  mkScope ["tekroo.command.work.block"] [AggregateTask] [uid "a"] true false false.

Definition operator_principal : PrincipalRef := mkPrincipal PrincipalHuman "operator".
Definition actor_principal : PrincipalRef := mkPrincipal PrincipalActor actor_a.

Definition sample_policy : AuthorizationPolicy :=
  mkPolicy (dig "a") 1 (mkRequirements 1 1 false ∅ false)
    [mkGrant (dig "b") operator_principal sample_scope_wide None false true;
     mkGrant (dig "d") actor_principal sample_scope_wide (Some sample_time) false false]
    [mkDelegation (dig "c") (dig "b") operator_principal actor_principal sample_scope_narrow None false false].

Definition block_command : KernelCommand :=
  zero_command <| cmd_CommandType := "tekroo.command.work.block" |>
    <| cmd_Target := mkRef AggregateTask (uid "a") |> <| cmd_Authority := actor_principal |>.

Lemma Authorize_correct_witness :
  exists grant, grant ∈ ap_Grants sample_policy /\
    grants_command block_command None sample_time (ap_Delegations sample_policy) grant.
Proof.
  apply (Authorize_correct sample_policy block_command None sample_time);
    try (vm_compute; reflexivity). discriminate.
Defined.

Lemma Authorize_no_escalation_witness :
  exists grant, grant ∈ ap_Grants sample_policy /\
    scopeAllows (gr_Scope grant) block_command None = true.
Proof.
  destruct (Authorize_no_escalation sample_policy block_command None sample_time)
    as (g & Hg & _ & _ & Hs); [vm_compute; reflexivity|]. exists g. split; [exact Hg|exact Hs].
Defined.

Lemma Authorize_order_independent_witness :
  ar_Allowed (Authorize sample_policy block_command None sample_time) =
  ar_Allowed (Authorize (mkPolicy (dig "a") 1 (ap_Requirements sample_policy)
    (reverse (ap_Grants sample_policy)) (ap_Delegations sample_policy)) block_command None sample_time).
Proof.
  apply (Authorize_order_independent sample_policy (reverse (ap_Grants sample_policy))
    (ap_Delegations sample_policy)); [apply reverse_Permutation | reflexivity].
Defined.
