(* ===== verification/WorkProfile.v ===== *)
(** * Work risk profiles and verification topology

    [kernel/work_profile.go] and [kernel/verification_topology.go]: the risk
    classification bound to a task, its succession rule, and the independence
    a validator must prove from the implementer. *)

From S2P Require Import Prelude GoText GoTime GoJson Types Samples Payload Envelope State.

Definition DecisionRoute := string.
Definition RouteDeterministic : DecisionRoute := "DETERMINISTIC".
Definition RouteBoundedExecution : DecisionRoute := "BOUNDED_EXECUTION".
Definition RouteComplexReasoning : DecisionRoute := "COMPLEX_REASONING".
Definition RouteNovelReasoning : DecisionRoute := "NOVEL_REASONING".
Definition RouteHumanRequired : DecisionRoute := "HUMAN_REQUIRED".

Definition routeRank (route : DecisionRoute) : option Z :=
  if route == RouteDeterministic then Some 0
  else if route == RouteBoundedExecution then Some 1
  else if route == RouteComplexReasoning then Some 2
  else if route == RouteNovelReasoning then Some 3
  else if route == RouteHumanRequired then Some 4
  else None.

Definition DecisionRoute_Valid (route : DecisionRoute) : bool := negb (is_nil (routeRank route)).

Definition ModelExecutable (route : DecisionRoute) : bool :=
  (route == RouteBoundedExecution) || (route == RouteComplexReasoning)
  || (route == RouteNovelReasoning).

Definition Satisfies (route required : DecisionRoute) : bool :=
  match routeRank route, routeRank required with
  | Some s, Some r => r <=? s
  | _, _ => false
  end.

Definition WorkKind := string.
Definition WorkInvestigation : WorkKind := "INVESTIGATION".
Definition WorkDesign : WorkKind := "DESIGN".
Definition WorkImplementation : WorkKind := "IMPLEMENTATION".
Definition WorkDebugging : WorkKind := "DEBUGGING".
Definition WorkValidation : WorkKind := "VALIDATION".
Definition WorkSecurityReview : WorkKind := "SECURITY_REVIEW".
Definition WorkRelease : WorkKind := "RELEASE".
Definition WorkKind_Valid (k : WorkKind) : bool :=
  contains [WorkInvestigation; WorkDesign; WorkImplementation; WorkDebugging; WorkValidation;
    WorkSecurityReview; WorkRelease] k.

Definition Ambiguity := string.
Definition AmbiguityLow : Ambiguity := "LOW".
Definition AmbiguityMedium : Ambiguity := "MEDIUM".
Definition AmbiguityHigh : Ambiguity := "HIGH".
Definition AmbiguityUnknown : Ambiguity := "UNKNOWN".
Definition Ambiguity_Valid (v : Ambiguity) : bool :=
  (v == AmbiguityLow) || (v == AmbiguityMedium) || (v == AmbiguityHigh) || (v == AmbiguityUnknown).

Definition Novelty := string.
Definition NoveltyRoutine : Novelty := "ROUTINE".
Definition NoveltyUnfamiliar : Novelty := "UNFAMILIAR".
Definition NoveltyNovel : Novelty := "NOVEL".
Definition NoveltyUnknown : Novelty := "UNKNOWN".
Definition Novelty_Valid (v : Novelty) : bool :=
  (v == NoveltyRoutine) || (v == NoveltyUnfamiliar) || (v == NoveltyNovel) || (v == NoveltyUnknown).

Definition BlastRadius := string.
Definition BlastLocal : BlastRadius := "LOCAL".
Definition BlastMultiComponent : BlastRadius := "MULTI_COMPONENT".
Definition BlastArchitectural : BlastRadius := "ARCHITECTURAL".
Definition BlastExternalEffect : BlastRadius := "EXTERNAL_EFFECT".
Definition BlastUnknown : BlastRadius := "UNKNOWN".
Definition BlastRadius_Valid (v : BlastRadius) : bool :=
  (v == BlastLocal) || (v == BlastMultiComponent) || (v == BlastArchitectural)
  || (v == BlastExternalEffect) || (v == BlastUnknown).

Definition SecuritySensitivity := string.
Definition SecurityOrdinary : SecuritySensitivity := "ORDINARY".
Definition SecuritySensitive : SecuritySensitivity := "SENSITIVE".
Definition SecurityCritical : SecuritySensitivity := "CRITICAL".
Definition SecurityUnknown : SecuritySensitivity := "UNKNOWN".
Definition SecuritySensitivity_Valid (v : SecuritySensitivity) : bool :=
  (v == SecurityOrdinary) || (v == SecuritySensitive) || (v == SecurityCritical)
  || (v == SecurityUnknown).

Definition IndependenceDimension := string.
Definition IndependencePrincipal : IndependenceDimension := "PRINCIPAL".
Definition IndependenceActor : IndependenceDimension := "ACTOR".
Definition IndependenceExecution : IndependenceDimension := "EXECUTION".
Definition IndependenceContext : IndependenceDimension := "CONTEXT".
Definition IndependenceWorkspace : IndependenceDimension := "WORKSPACE".
Definition IndependenceModelProfile : IndependenceDimension := "MODEL_PROFILE".
Definition IndependenceProvider : IndependenceDimension := "PROVIDER".
Definition IndependenceMethod : IndependenceDimension := "METHOD".
Definition IndependenceHuman : IndependenceDimension := "HUMAN".
Definition IndependenceDimension_Valid (v : IndependenceDimension) : bool :=
  contains [IndependencePrincipal; IndependenceActor; IndependenceExecution; IndependenceContext;
    IndependenceWorkspace; IndependenceModelProfile; IndependenceProvider; IndependenceMethod;
    IndependenceHuman] v.

Definition validUniqueDimensions (values : list IndependenceDimension) : bool :=
  when (llen values == 0) || (9 <? llen values) return false ;;
  check_unique IndependenceDimension_Valid ∅ values.

Record WorkProfileBinding := mkWorkProfileBinding {
  wb_ProfileID : UUIDv7;
  wb_ProfileRevision : Z;
  wb_ProfileDigest : Digest;
  wb_LifecycleEpoch : Z;
  wb_ScopeRevision : Z
}.

#[export] Instance eta_WorkProfileBinding : Eta WorkProfileBinding := fun r =>
  mkWorkProfileBinding
    (wb_ProfileID r) (wb_ProfileRevision r) (wb_ProfileDigest r) (wb_LifecycleEpoch r)
    (wb_ScopeRevision r).

Definition zero_WorkProfileBinding : WorkProfileBinding :=
  mkWorkProfileBinding
    "" 0 "" 0 0.

Definition fields_WorkProfileBinding : list (field WorkProfileBinding) :=
  [
    fld "profile_id" wb_ProfileID dec_string;
    fld "profile_revision" wb_ProfileRevision dec_u64;
    fld "profile_digest" wb_ProfileDigest dec_string;
    fld "lifecycle_epoch" wb_LifecycleEpoch dec_u64;
    fld "scope_revision" wb_ScopeRevision dec_u64
  ].
Definition dec_WorkProfileBinding : decoder WorkProfileBinding := dec_struct fields_WorkProfileBinding.

#[global] Instance WorkProfileBinding_eq_dec : EqDecision WorkProfileBinding.
Proof. solve_decision. Defined.

Definition WorkProfileBinding_Valid (b : WorkProfileBinding) : bool :=
  UUIDv7_Valid (wb_ProfileID b) && (0 <? wb_ProfileRevision b) && Digest_Valid (wb_ProfileDigest b)
  && (0 <? wb_LifecycleEpoch b) && (0 <? wb_ScopeRevision b).

Definition TaskBindingMatches (b : WorkProfileBinding) (task : AggregateState) : bool :=
  WorkProfileBinding_Valid b && (as_Kind task == AggregateTask) && UUIDv7_Valid (as_ID task)
  && (wb_LifecycleEpoch b == as_LifecycleEpoch task)
  && (wb_ScopeRevision b == as_ScopeRevision task).

Record FiniteWorkBudgets := mkFiniteWorkBudgets {
  fb_AttemptLimit : Z;
  fb_ReviewRoundLimit : Z;
  fb_PromotionLimit : Z;
  fb_EscalationLimit : Z;
  fb_DeadlineAt : Time
}.

#[export] Instance eta_FiniteWorkBudgets : Eta FiniteWorkBudgets := fun r =>
  mkFiniteWorkBudgets
    (fb_AttemptLimit r) (fb_ReviewRoundLimit r) (fb_PromotionLimit r)
    (fb_EscalationLimit r) (fb_DeadlineAt r).

Definition zero_FiniteWorkBudgets : FiniteWorkBudgets :=
  mkFiniteWorkBudgets
    0 0 0 0 zero_time.

Definition fields_FiniteWorkBudgets : list (field FiniteWorkBudgets) :=
  [
    fld "attempt_limit" fb_AttemptLimit dec_u64;
    fld "review_round_limit" fb_ReviewRoundLimit dec_u64;
    fld "promotion_limit" fb_PromotionLimit dec_u64;
    fld "escalation_limit" fb_EscalationLimit dec_u64;
    fld "deadline_at" fb_DeadlineAt dec_time
  ].
Definition dec_FiniteWorkBudgets : decoder FiniteWorkBudgets := dec_struct fields_FiniteWorkBudgets.

#[global] Instance FiniteWorkBudgets_eq_dec : EqDecision FiniteWorkBudgets.
Proof. solve_decision. Defined.

Definition FiniteWorkBudgets_Valid (b : FiniteWorkBudgets) : bool :=
  (0 <? fb_AttemptLimit b) && (fb_AttemptLimit b <=? 1000)
  && (0 <? fb_ReviewRoundLimit b) && (fb_ReviewRoundLimit b <=? 1000)
  && (fb_PromotionLimit b <=? 1000)
  && (0 <? fb_EscalationLimit b) && (fb_EscalationLimit b <=? 1000)
  && negb (IsZero (fb_DeadlineAt b)).

Record WorkRiskProfile := mkWorkRiskProfile {
  wp_TaskID : UUIDv7;
  wp_ProfileID : UUIDv7;
  wp_ProfileRevision : Z;
  wp_ProfileDigest : Digest;
  wp_LifecycleEpoch : Z;
  wp_ScopeRevision : Z;
  wp_WorkKind : WorkKind;
  wp_Ambiguity : Ambiguity;
  wp_Novelty : Novelty;
  wp_BlastRadius : BlastRadius;
  wp_SecuritySensitivity : SecuritySensitivity;
  wp_MinimumDecisionRoute : DecisionRoute;
  wp_AcceptanceCriteriaDigest : Digest;
  wp_RequiredDeterministicGateIDs : list string;
  wp_RequiredValidationBranches : Z;
  wp_RequiredIndependenceDimensions : list IndependenceDimension;
  wp_ImplementationVariantCount : Z;
  wp_ValidCandidateQuorum : Z;
  wp_VerificationTopologyDigest : Digest;
  wp_ClassificationPolicyRevision : Z;
  wp_ClassificationPolicyDigest : Digest;
  wp_PromotionPolicyRevision : Z;
  wp_PromotionPolicyDigest : Digest;
  wp_Budgets : FiniteWorkBudgets;
  wp_ClassificationAuthority : PrincipalRef;
  wp_ClassificationEvidenceIDs : list UUIDv7;
  wp_SupersedesProfileID : option UUIDv7
}.

#[export] Instance eta_WorkRiskProfile : Eta WorkRiskProfile := fun r =>
  mkWorkRiskProfile
    (wp_TaskID r) (wp_ProfileID r) (wp_ProfileRevision r) (wp_ProfileDigest r)
    (wp_LifecycleEpoch r) (wp_ScopeRevision r) (wp_WorkKind r) (wp_Ambiguity r)
    (wp_Novelty r) (wp_BlastRadius r) (wp_SecuritySensitivity r)
    (wp_MinimumDecisionRoute r) (wp_AcceptanceCriteriaDigest r)
    (wp_RequiredDeterministicGateIDs r) (wp_RequiredValidationBranches r)
    (wp_RequiredIndependenceDimensions r) (wp_ImplementationVariantCount r)
    (wp_ValidCandidateQuorum r) (wp_VerificationTopologyDigest r)
    (wp_ClassificationPolicyRevision r) (wp_ClassificationPolicyDigest r)
    (wp_PromotionPolicyRevision r) (wp_PromotionPolicyDigest r) (wp_Budgets r)
    (wp_ClassificationAuthority r) (wp_ClassificationEvidenceIDs r)
    (wp_SupersedesProfileID r).

Definition zero_WorkRiskProfile : WorkRiskProfile :=
  mkWorkRiskProfile
    "" "" 0 "" 0 0 "" "" "" "" "" "" "" [] 0 [] 0 0 "" 0 "" 0 "" zero_FiniteWorkBudgets
    zero_principal [] None.

Definition fields_WorkRiskProfile : list (field WorkRiskProfile) :=
  [
    fld "task_id" wp_TaskID dec_string;
    fld "profile_id" wp_ProfileID dec_string;
    fld "profile_revision" wp_ProfileRevision dec_u64;
    fld "profile_digest" wp_ProfileDigest dec_string;
    fld "lifecycle_epoch" wp_LifecycleEpoch dec_u64;
    fld "scope_revision" wp_ScopeRevision dec_u64;
    fld "work_kind" wp_WorkKind dec_string;
    fld "ambiguity" wp_Ambiguity dec_string;
    fld "novelty" wp_Novelty dec_string;
    fld "blast_radius" wp_BlastRadius dec_string;
    fld "security_sensitivity" wp_SecuritySensitivity dec_string;
    fld "minimum_decision_route" wp_MinimumDecisionRoute dec_string;
    fld "acceptance_criteria_digest" wp_AcceptanceCriteriaDigest dec_string;
    fld "required_deterministic_gate_ids" wp_RequiredDeterministicGateIDs (dec_slice "" dec_string);
    fld "required_validation_branches" wp_RequiredValidationBranches dec_u64;
    fld "required_independence_dimensions" wp_RequiredIndependenceDimensions (dec_slice "" dec_string);
    fld "implementation_variant_count" wp_ImplementationVariantCount dec_u64;
    fld "valid_candidate_quorum" wp_ValidCandidateQuorum dec_u64;
    fld "verification_topology_digest" wp_VerificationTopologyDigest dec_string;
    fld "classification_policy_revision" wp_ClassificationPolicyRevision dec_u64;
    fld "classification_policy_digest" wp_ClassificationPolicyDigest dec_string;
    fld "promotion_policy_revision" wp_PromotionPolicyRevision dec_u64;
    fld "promotion_policy_digest" wp_PromotionPolicyDigest dec_string;
    fld "budgets" wp_Budgets dec_FiniteWorkBudgets;
    fld "classification_authority" wp_ClassificationAuthority dec_PrincipalRef;
    fld "classification_evidence_ids" wp_ClassificationEvidenceIDs (dec_slice "" dec_string);
    fld "supersedes_profile_id" wp_SupersedesProfileID (dec_ptr "" dec_string)
  ].
Definition dec_WorkRiskProfile : decoder WorkRiskProfile := dec_struct fields_WorkRiskProfile.

#[global] Instance WorkRiskProfile_eq_dec : EqDecision WorkRiskProfile.
Proof. solve_decision. Defined.

Definition Binding (p : WorkRiskProfile) : WorkProfileBinding :=
  mkWorkProfileBinding (wp_ProfileID p) (wp_ProfileRevision p) (wp_ProfileDigest p)
    (wp_LifecycleEpoch p) (wp_ScopeRevision p).

Definition WorkRiskProfile_Valid (p : WorkRiskProfile) : bool :=
  when negb (UUIDv7_Valid (wp_TaskID p)) || negb (WorkProfileBinding_Valid (Binding p))
       || negb (WorkKind_Valid (wp_WorkKind p)) || negb (Ambiguity_Valid (wp_Ambiguity p))
       || negb (Novelty_Valid (wp_Novelty p)) || negb (BlastRadius_Valid (wp_BlastRadius p))
       || negb (SecuritySensitivity_Valid (wp_SecuritySensitivity p))
       || negb (DecisionRoute_Valid (wp_MinimumDecisionRoute p))
       || negb (Digest_Valid (wp_AcceptanceCriteriaDigest p))
       || negb (Digest_Valid (wp_VerificationTopologyDigest p))
       || (wp_RequiredValidationBranches p == 0) || (32 <? wp_RequiredValidationBranches p)
       || (wp_ImplementationVariantCount p == 0) || (32 <? wp_ImplementationVariantCount p)
       || (wp_ValidCandidateQuorum p == 0)
       || (wp_ImplementationVariantCount p <? wp_ValidCandidateQuorum p)
       || (wp_ClassificationPolicyRevision p == 0)
       || negb (Digest_Valid (wp_ClassificationPolicyDigest p))
       || (wp_PromotionPolicyRevision p == 0) || negb (Digest_Valid (wp_PromotionPolicyDigest p))
       || negb (FiniteWorkBudgets_Valid (wp_Budgets p))
       || negb (PrincipalRef_Valid (wp_ClassificationAuthority p))
    return false ;;
  when negb (opt_all UUIDv7_Valid (wp_SupersedesProfileID p)) return false ;;
  when negb (validUniqueStrings (wp_RequiredDeterministicGateIDs p) 1 64)
       || negb (validUniqueDimensions (wp_RequiredIndependenceDimensions p))
       || negb (validUniqueUUIDs (wp_ClassificationEvidenceIDs p) 1 64)
    return false ;;
  true.

Definition WorkRiskProfileFromPayload (payload : string) : option WorkRiskProfile :=
  try profile <- Unmarshal fields_WorkRiskProfile zero_WorkRiskProfile payload ;;
  when negb (WorkRiskProfile_Valid profile) return None ;;
  Some profile.

Record WorkProfileSnapshot := mkProfileSnapshot {
  ws_Profile : WorkRiskProfile;
  ws_BoundEventID : UUIDv7;
  ws_TaskRevision : Z
}.

Definition WorkProfileSnapshot_Valid (s : WorkProfileSnapshot) : bool :=
  WorkRiskProfile_Valid (ws_Profile s) && UUIDv7_Valid (ws_BoundEventID s)
  && (0 <? ws_TaskRevision s).

Inductive WorkProfileBindingStatus :=
| WorkProfileReady | WorkProfileStale | WorkProfileConflict | WorkProfileInvalid.
#[global] Instance WorkProfileBindingStatus_eq_dec : EqDecision WorkProfileBindingStatus.
Proof. solve_decision. Defined.

Record WorkProfileBindingInput := mkBindingInput {
  bi_Task : AggregateState;
  bi_Profile : WorkRiskProfile;
  bi_Current : option WorkProfileSnapshot
}.

Record WorkProfileBindingDecision := mkBindingDecision {
  bd_Status : WorkProfileBindingStatus;
  bd_Reason : string;
  bd_Task : AggregateState;
  bd_Profile : WorkRiskProfile
}.

Definition PlanWorkProfileBinding (input : WorkProfileBindingInput) : WorkProfileBindingDecision :=
  let task := bi_Task input in
  let profile := bi_Profile input in
  let decide_ status reason := mkBindingDecision status reason task profile in
  when (as_Kind task != AggregateTask) || negb (UUIDv7_Valid (as_ID task))
       || (as_Revision task == 0) || (as_LifecycleEpoch task == 0) || (as_ScopeRevision task == 0)
       || negb (WorkRiskProfile_Valid profile) || (wp_TaskID profile != as_ID task)
    return decide_ WorkProfileInvalid "INVALID_WORK_PROFILE" ;;
  when (wp_LifecycleEpoch profile != as_LifecycleEpoch task)
       || (wp_ScopeRevision profile != as_ScopeRevision task)
    return decide_ WorkProfileStale "STALE_WORK_PROFILE" ;;
  when match bi_Current input with
       | None => (wp_ProfileRevision profile != 1) || negb (is_nil (wp_SupersedesProfileID profile))
       | Some snapshot =>
         let current := ws_Profile snapshot in
         negb (WorkProfileSnapshot_Valid snapshot) || (wp_TaskID current != as_ID task)
         || (wp_ProfileRevision profile != u64 (wp_ProfileRevision current + 1))
         || (wp_SupersedesProfileID profile != Some (wp_ProfileID current))
         || (wp_ProfileDigest profile == wp_ProfileDigest current)
       end
    return decide_ WorkProfileConflict "PROFILE_REVISION_CONFLICT" ;;
  decide_ WorkProfileReady "READY_TO_BIND".

(** ** Verification topology *)

Record WorkExecutionIdentity := mkWorkExecutionIdentity {
  wi_Principal : PrincipalRef;
  wi_ActorFQN : ActorFQN;
  wi_ExecutionID : UUIDv7;
  wi_FencingEpoch : Z;
  wi_ModelProfileDigest : Digest;
  wi_WorkspaceDigest : Digest;
  wi_ContextDigest : Digest
}.

#[export] Instance eta_WorkExecutionIdentity : Eta WorkExecutionIdentity := fun r =>
  mkWorkExecutionIdentity
    (wi_Principal r) (wi_ActorFQN r) (wi_ExecutionID r) (wi_FencingEpoch r)
    (wi_ModelProfileDigest r) (wi_WorkspaceDigest r) (wi_ContextDigest r).

Definition zero_WorkExecutionIdentity : WorkExecutionIdentity :=
  mkWorkExecutionIdentity
    zero_principal "" "" 0 "" "" "".

Definition fields_WorkExecutionIdentity : list (field WorkExecutionIdentity) :=
  [
    fld "principal" wi_Principal dec_PrincipalRef;
    fld "actor_fqn" wi_ActorFQN dec_string;
    fld "execution_id" wi_ExecutionID dec_string;
    fld "fencing_epoch" wi_FencingEpoch dec_u64;
    fld "model_profile_digest" wi_ModelProfileDigest dec_string;
    fld "workspace_digest" wi_WorkspaceDigest dec_string;
    fld "context_digest" wi_ContextDigest dec_string
  ].
Definition dec_WorkExecutionIdentity : decoder WorkExecutionIdentity := dec_struct fields_WorkExecutionIdentity.

#[global] Instance WorkExecutionIdentity_eq_dec : EqDecision WorkExecutionIdentity.
Proof. solve_decision. Defined.

Definition WorkExecutionIdentity_Valid (i : WorkExecutionIdentity) : bool :=
  PrincipalRef_Valid (wi_Principal i) && ActorFQN_Valid (wi_ActorFQN i)
  && UUIDv7_Valid (wi_ExecutionID i) && (0 <? wi_FencingEpoch i)
  && Digest_Valid (wi_ModelProfileDigest i) && Digest_Valid (wi_WorkspaceDigest i)
  && Digest_Valid (wi_ContextDigest i).

Definition identity_Execution (i : WorkExecutionIdentity) : ExecutionTuple :=
  mkExec (wi_ExecutionID i) (wi_FencingEpoch i).

Record IndependenceReceipt := mkIndependenceReceipt {
  ir_ProvenDimensions : list IndependenceDimension;
  ir_IdentityComparisonDigest : Digest;
  ir_MethodIDs : list string;
  ir_EvidenceIDs : list UUIDv7
}.

#[export] Instance eta_IndependenceReceipt : Eta IndependenceReceipt := fun r =>
  mkIndependenceReceipt
    (ir_ProvenDimensions r) (ir_IdentityComparisonDigest r) (ir_MethodIDs r)
    (ir_EvidenceIDs r).

Definition zero_IndependenceReceipt : IndependenceReceipt :=
  mkIndependenceReceipt
    [] "" [] [].

Definition fields_IndependenceReceipt : list (field IndependenceReceipt) :=
  [
    fld "proven_dimensions" ir_ProvenDimensions (dec_slice "" dec_string);
    fld "identity_comparison_digest" ir_IdentityComparisonDigest dec_string;
    fld "method_ids" ir_MethodIDs (dec_slice "" dec_string);
    fld "evidence_ids" ir_EvidenceIDs (dec_slice "" dec_string)
  ].
Definition dec_IndependenceReceipt : decoder IndependenceReceipt := dec_struct fields_IndependenceReceipt.

#[global] Instance IndependenceReceipt_eq_dec : EqDecision IndependenceReceipt.
Proof. solve_decision. Defined.

Definition IndependenceReceipt_Valid (r : IndependenceReceipt) : bool :=
  validUniqueDimensions (ir_ProvenDimensions r) && Digest_Valid (ir_IdentityComparisonDigest r)
  && validUniqueStrings (ir_MethodIDs r) 1 64 && validUniqueUUIDs (ir_EvidenceIDs r) 1 64.

Definition Proves (r : IndependenceReceipt) (required : list IndependenceDimension)
    (methods : list string) : bool :=
  when negb (IndependenceReceipt_Valid r) return false ;;
  when negb (forallb (contains (ir_ProvenDimensions r)) required) return false ;;
  forallb (contains (ir_MethodIDs r)) methods.

(** The loop body of the separation check, for one dimension. *)
Definition separated (implementer : WorkExecutionIdentity) (validatorPrincipal : PrincipalRef)
    (validatorActor : option ActorFQN) (validatorExecution : option ExecutionTuple)
    (dimension : IndependenceDimension) : bool :=
  if dimension == IndependencePrincipal then validatorPrincipal != wi_Principal implementer
  else if dimension == IndependenceActor then
    match validatorActor with
    | Some a => ActorFQN_Valid a && (a != wi_ActorFQN implementer)
    | None => false
    end
  else if dimension == IndependenceExecution then
    match validatorExecution with
    | Some e => ExecutionTuple_Valid e && (e != identity_Execution implementer)
    | None => false
    end
  else true.

Definition RequiredSeparationProven (implementer : WorkExecutionIdentity)
    (validatorPrincipal : PrincipalRef) (validatorActor : option ActorFQN)
    (validatorExecution : option ExecutionTuple) (required : list IndependenceDimension)
    (receipt : IndependenceReceipt) : bool :=
  when negb (WorkExecutionIdentity_Valid implementer)
       || negb (PrincipalRef_Valid validatorPrincipal) || negb (Proves receipt required [])
    return false ;;
  forallb (separated implementer validatorPrincipal validatorActor validatorExecution) required.

(** ** Profile succession *)

(** The profiles bound to a task, oldest first: each was planned against the
    previous one. *)
Inductive profile_history (task : UUIDv7) : list WorkRiskProfile -> Prop :=
| ph_first input :
    bd_Status (PlanWorkProfileBinding input) = WorkProfileReady ->
    bi_Current input = None -> as_ID (bi_Task input) = task ->
    profile_history task [bi_Profile input]
| ph_next l last input :
    profile_history task (l ++ [last]) ->
    bd_Status (PlanWorkProfileBinding input) = WorkProfileReady ->
    (exists event revision, bi_Current input = Some (mkProfileSnapshot last event revision)) ->
    as_ID (bi_Task input) = task ->
    profile_history task ((l ++ [last]) ++ [bi_Profile input]).

Lemma PlanWorkProfileBinding_ready input :
  bd_Status (PlanWorkProfileBinding input) = WorkProfileReady ->
  WorkRiskProfile_Valid (bi_Profile input) = true /\
  wp_TaskID (bi_Profile input) = as_ID (bi_Task input) /\
  wp_LifecycleEpoch (bi_Profile input) = as_LifecycleEpoch (bi_Task input) /\
  wp_ScopeRevision (bi_Profile input) = as_ScopeRevision (bi_Task input) /\
  match bi_Current input with
  | None => wp_ProfileRevision (bi_Profile input) = 1
  | Some c =>
    wp_ProfileRevision (bi_Profile input) = u64 (wp_ProfileRevision (ws_Profile c) + 1) /\
    wp_SupersedesProfileID (bi_Profile input) = Some (wp_ProfileID (ws_Profile c)) /\
    wp_ProfileDigest (bi_Profile input) <> wp_ProfileDigest (ws_Profile c)
  end.
Proof.
  unfold PlanWorkProfileBinding. intros H.
  destruct (_ || _) eqn:G1 in H; [discriminate H|].
  destruct (_ || _) eqn:G2 in H; [discriminate H|].
  bprop G1. bprop G2. split_ands. split_and!; try done.
  destruct (bi_Current input) as [c|];
    match type of H with
    | bd_Status (if ?b then _ else _) = _ => destruct b eqn:G3; [discriminate H|]
    end; bprop G3; naive_solver.
Qed.

(** Profiles of a task form a gap-free chain: whatever sequence of
    bindings the planner accepts, the n-th profile bound to a task has revision
    n (up to the 64-bit range), names the previous profile as the one it
    supersedes, and differs from it in digest. *)
Theorem profile_history_chain task l :
  profile_history task l -> llen l < u64_mod ->
  forall i p, l !! i = Some p ->
    wp_TaskID p = task /\ wp_ProfileRevision p = Z.of_nat i + 1 /\
    (forall q, 0 < Z.of_nat i -> l !! pred i = Some q ->
       wp_SupersedesProfileID p = Some (wp_ProfileID q) /\ wp_ProfileDigest p <> wp_ProfileDigest q).
Proof.
  unfold llen. induction 1 as [input H Hc Ht|l last input Hh IH H (ev & rev & Hc) Ht];
    intros Hlen i p Hi; pose proof (PlanWorkProfileBinding_ready _ H) as (Hv & HT & _ & _ & Hr);
    rewrite Hc in Hr; simpl in Hr.
  - destruct i as [|i]; [|done]. simplify_list_eq. split_and!; [done | done | lia].
  - rewrite length_app in Hlen. simpl in Hlen.
    assert (forall j q, (l ++ [last]) !! j = Some q -> wp_TaskID q = task /\
              wp_ProfileRevision q = Z.of_nat j + 1 /\
              (forall q', 0 < Z.of_nat j -> (l ++ [last]) !! pred j = Some q' ->
                 wp_SupersedesProfileID q = Some (wp_ProfileID q') /\
                 wp_ProfileDigest q <> wp_ProfileDigest q')) as IH' by (apply IH; lia).
    apply lookup_app_Some in Hi as [Hi|[Hge Hi]].
    + destruct (IH' i p Hi) as (H1 & H2 & H3). split_and!; [done..|].
      intros q Hpos Hq. apply (H3 q Hpos).
      rewrite lookup_app_l in Hq; [done|]. apply lookup_lt_Some in Hi. lia.
    + apply list_lookup_singleton_Some in Hi as [Ei <-].
      assert ((l ++ [last]) !! length l = Some last) as Hlast by apply list_lookup_middle, eq_refl.
      destruct (IH' _ _ Hlast) as (_ & Hrev & _). destruct Hr as (Hr1 & Hr2 & Hr3).
      rewrite length_app in *. simpl in *. rewrite Hr1, Hrev, u64_id by (unfold is_u64; lia).
      split_and!; [congruence | lia|]. intros q Hpos Hq.
      replace (pred i) with (length l) in Hq by lia.
      rewrite lookup_app_l in Hq by (rewrite length_app; simpl; lia).
      rewrite Hlast in Hq. injection Hq as <-. done.
Qed.

Definition sample_profile (id : ascii) (revision : Z) (digest : ascii) (previous : option UUIDv7)
    : WorkRiskProfile :=
  mkWorkRiskProfile (uid "a") (uid id) revision (dig digest) 1 1 WorkImplementation AmbiguityLow
    NoveltyRoutine BlastLocal SecurityOrdinary RouteBoundedExecution (dig "1") ["unit-tests"] 1
    [IndependenceActor] 1 1 (dig "2") 1 (dig "3") 1 (dig "4")
    (mkFiniteWorkBudgets 3 3 1 1 sample_time) (mkPrincipal PrincipalPolicy "classifier")
    [uid "e"] previous.

Definition sample_task : AggregateState :=
  plain_state AggregateTask (uid "a") 4 1 1 PhaseActive ConditionRunnable.

Definition first_profile : WorkRiskProfile := sample_profile "b" 1 "5" None.
Definition second_profile : WorkRiskProfile := sample_profile "c" 2 "6" (Some (uid "b")).

Lemma profile_history_chain_witness :
  wp_ProfileRevision second_profile = 2 /\
  wp_SupersedesProfileID second_profile = Some (wp_ProfileID first_profile).
Proof.
  destruct (profile_history_chain (uid "a") [first_profile; second_profile]) with
    (i := 1%nat) (p := second_profile) as (_ & H & H').
  - apply (ph_next _ [] first_profile
      (mkBindingInput sample_task second_profile
         (Some (mkProfileSnapshot first_profile (uid "f") 4)))).
    + apply (ph_first _ (mkBindingInput sample_task first_profile None)); vm_compute; reflexivity.
    + vm_compute. reflexivity.
    + exists (uid "f"), 4. reflexivity.
    + vm_compute. reflexivity.
  - reflexivity.
  - reflexivity.
  - split; [exact H | apply (H' first_profile); reflexivity].
Defined.
