(* ===== verification/Assignment.v ===== *)
(** * Model qualification and task assignment

    [kernel/qualification.go] (qualifications, hard constraints, qualified
    assignment authorisations) and [kernel/assignment.go]: [PlanAssignment]
    checks the task and its dependencies and selects the cheapest eligible
    actor. *)

From S2P Require Import Prelude GoText GoTime GoJson Types.
From S2P Require Import Samples Payload Envelope State WorkProfile.

(** ** Qualification *)

Definition QualificationStatus := string.
Definition QualificationPass : QualificationStatus := "PASS".
Definition QualificationFail : QualificationStatus := "FAIL".
Definition QualificationNotRun : QualificationStatus := "NOT_RUN".
Definition QualificationInconclusive : QualificationStatus := "INCONCLUSIVE".
Definition QualificationStatus_Valid (s : QualificationStatus) : bool :=
  (s == QualificationPass) || (s == QualificationFail) || (s == QualificationNotRun)
  || (s == QualificationInconclusive).

Record ModelProfileQualification := mkModelProfileQualification {
  mq_QualificationID : UUIDv7;
  mq_QualificationDigest : Digest;
  mq_QualificationCorpusDigest : Digest;
  mq_ModelProfileDigest : Digest;
  mq_DecisionRoute : DecisionRoute;
  mq_QualifiedRole : string;
  mq_QualifiedWorkKinds : list WorkKind;
  mq_Status : QualificationStatus;
  mq_ObservedAt : Time;
  mq_ExpiresAt : option Time;
  mq_RevokedAt : option Time;
  mq_EvidenceIDs : list UUIDv7
}.

#[export] Instance eta_ModelProfileQualification : Eta ModelProfileQualification := fun r =>
  mkModelProfileQualification
    (mq_QualificationID r) (mq_QualificationDigest r) (mq_QualificationCorpusDigest r)
    (mq_ModelProfileDigest r) (mq_DecisionRoute r) (mq_QualifiedRole r)
    (mq_QualifiedWorkKinds r) (mq_Status r) (mq_ObservedAt r) (mq_ExpiresAt r)
    (mq_RevokedAt r) (mq_EvidenceIDs r).

Definition zero_ModelProfileQualification : ModelProfileQualification :=
  mkModelProfileQualification
    "" "" "" "" "" "" [] "" zero_time None None [].

#[global] Instance ModelProfileQualification_eq_dec : EqDecision ModelProfileQualification.
Proof. solve_decision. Defined.

Definition ModelProfileQualification_Valid (q : ModelProfileQualification) : bool :=
  when negb (UUIDv7_Valid (mq_QualificationID q)) || negb (Digest_Valid (mq_QualificationDigest q))
       || negb (Digest_Valid (mq_QualificationCorpusDigest q))
       || negb (Digest_Valid (mq_ModelProfileDigest q))
       || negb (ModelExecutable (mq_DecisionRoute q)) || (mq_QualifiedRole q == "")
       || (256 <? slen (mq_QualifiedRole q)) || negb (QualificationStatus_Valid (mq_Status q))
       || IsZero (mq_ObservedAt q) || negb (validUniqueUUIDs (mq_EvidenceIDs q) 1 64)
       || (llen (mq_QualifiedWorkKinds q) == 0) || (7 <? llen (mq_QualifiedWorkKinds q))
    return false ;;
  when negb (check_unique WorkKind_Valid ∅ (mq_QualifiedWorkKinds q)) return false ;;
  when negb (opt_all (fun e => After e (mq_ObservedAt q)) (mq_ExpiresAt q)) return false ;;
  when negb (opt_all (fun r => negb (Before r (mq_ObservedAt q))) (mq_RevokedAt q))
    return false ;;
  true.

Definition EligibleAt (q : ModelProfileQualification) (at_ : Time) : bool :=
  when negb (ModelProfileQualification_Valid q) || (mq_Status q != QualificationPass)
       || IsZero at_ || Before at_ (mq_ObservedAt q)
       || negb (opt_all (Before at_) (mq_RevokedAt q))
       || negb (opt_all (Before at_) (mq_ExpiresAt q))
    return false ;;
  true.

Definition ConstraintOutcome := string.
Definition ConstraintPass : ConstraintOutcome := "PASS".
Definition ConstraintFail : ConstraintOutcome := "FAIL".
Definition ConstraintNotReported : ConstraintOutcome := "NOT_REPORTED".

Record HardConstraintResult := mkHardConstraintResult {
  hc_ConstraintID : string;
  hc_Outcome : ConstraintOutcome;
  hc_EvidenceIDs : list UUIDv7
}.

#[export] Instance eta_HardConstraintResult : Eta HardConstraintResult := fun r =>
  mkHardConstraintResult
    (hc_ConstraintID r) (hc_Outcome r) (hc_EvidenceIDs r).

Definition zero_HardConstraintResult : HardConstraintResult :=
  mkHardConstraintResult
    "" "" [].

Definition fields_HardConstraintResult : list (field HardConstraintResult) :=
  [
    fld "constraint_id" hc_ConstraintID dec_string;
    fld "outcome" hc_Outcome dec_string;
    fld "evidence_ids" hc_EvidenceIDs (dec_slice "" dec_string)
  ].
Definition dec_HardConstraintResult : decoder HardConstraintResult := dec_struct fields_HardConstraintResult.

#[global] Instance HardConstraintResult_eq_dec : EqDecision HardConstraintResult.
Proof. solve_decision. Defined.

Definition HardConstraintResult_Valid (r : HardConstraintResult) : bool :=
  when (hc_ConstraintID r == "") || (256 <? slen (hc_ConstraintID r))
       || negb (validUniqueUUIDs (hc_EvidenceIDs r) 1 64)
    return false ;;
  (hc_Outcome r == ConstraintPass) || (hc_Outcome r == ConstraintFail)
  || (hc_Outcome r == ConstraintNotReported).

Record CostObservation := mkCost { co_Reported : bool; co_Microunits : Z }.
#[global] Instance CostObservation_eq_dec : EqDecision CostObservation.
Proof. solve_decision. Defined.
Definition CostObservation_Valid (c : CostObservation) : bool :=
  co_Reported c || (co_Microunits c == 0).

Record AssignmentQualificationReceipt := mkAssignmentQualificationReceipt {
  qr_QualificationID : UUIDv7;
  qr_QualificationDigest : Digest;
  qr_QualificationCorpusDigest : Digest;
  qr_ModelProfileDigest : Digest;
  qr_DecisionRoute : DecisionRoute;
  qr_QualifiedRole : string;
  qr_Status : QualificationStatus;
  qr_ObservedAt : Time
}.

#[export] Instance eta_AssignmentQualificationReceipt : Eta AssignmentQualificationReceipt := fun r =>
  mkAssignmentQualificationReceipt
    (qr_QualificationID r) (qr_QualificationDigest r) (qr_QualificationCorpusDigest r)
    (qr_ModelProfileDigest r) (qr_DecisionRoute r) (qr_QualifiedRole r) (qr_Status r)
    (qr_ObservedAt r).

Definition zero_AssignmentQualificationReceipt : AssignmentQualificationReceipt :=
  mkAssignmentQualificationReceipt
    "" "" "" "" "" "" "" zero_time.

Definition fields_AssignmentQualificationReceipt : list (field AssignmentQualificationReceipt) :=
  [
    fld "qualification_id" qr_QualificationID dec_string;
    fld "qualification_digest" qr_QualificationDigest dec_string;
    fld "qualification_corpus_digest" qr_QualificationCorpusDigest dec_string;
    fld "model_profile_digest" qr_ModelProfileDigest dec_string;
    fld "decision_route" qr_DecisionRoute dec_string;
    fld "qualified_role" qr_QualifiedRole dec_string;
    fld "status" qr_Status dec_string;
    fld "observed_at" qr_ObservedAt dec_time
  ].
Definition dec_AssignmentQualificationReceipt : decoder AssignmentQualificationReceipt := dec_struct fields_AssignmentQualificationReceipt.

#[global] Instance AssignmentQualificationReceipt_eq_dec : EqDecision AssignmentQualificationReceipt.
Proof. solve_decision. Defined.

Definition AssignmentQualificationReceipt_Valid (r : AssignmentQualificationReceipt) : bool :=
  UUIDv7_Valid (qr_QualificationID r) && Digest_Valid (qr_QualificationDigest r)
  && Digest_Valid (qr_QualificationCorpusDigest r) && Digest_Valid (qr_ModelProfileDigest r)
  && ModelExecutable (qr_DecisionRoute r) && (qr_QualifiedRole r != "")
  && (slen (qr_QualifiedRole r) <=? 256) && (qr_Status r == QualificationPass)
  && negb (IsZero (qr_ObservedAt r)).

Record QualifiedAssignmentAuthorization := mkQualifiedAssignmentAuthorization {
  qa_AssignmentID : UUIDv7;
  qa_TaskID : UUIDv7;
  qa_ExpectedTaskRevision : Z;
  qa_WorkProfile : WorkProfileBinding;
  qa_RequiredDecisionRoute : DecisionRoute;
  qa_SelectedDecisionRoute : DecisionRoute;
  qa_SelectedActorFQN : ActorFQN;
  qa_SelectedExecutionID : UUIDv7;
  qa_SelectedFencingEpoch : Z;
  qa_ModelProfileDigest : Digest;
  qa_RuntimeIdentityDigest : Digest;
  qa_Qualification : AssignmentQualificationReceipt;
  qa_SelectionPolicyRevision : Z;
  qa_SelectionPolicyDigest : Digest;
  qa_HardConstraintResults : list HardConstraintResult;
  qa_SelectionReasons : list string;
  qa_EvidenceIDs : list UUIDv7;
  qa_AuthorizationEventID : UUIDv7
}.

#[export] Instance eta_QualifiedAssignmentAuthorization : Eta QualifiedAssignmentAuthorization := fun r =>
  mkQualifiedAssignmentAuthorization
    (qa_AssignmentID r) (qa_TaskID r) (qa_ExpectedTaskRevision r) (qa_WorkProfile r)
    (qa_RequiredDecisionRoute r) (qa_SelectedDecisionRoute r) (qa_SelectedActorFQN r)
    (qa_SelectedExecutionID r) (qa_SelectedFencingEpoch r) (qa_ModelProfileDigest r)
    (qa_RuntimeIdentityDigest r) (qa_Qualification r) (qa_SelectionPolicyRevision r)
    (qa_SelectionPolicyDigest r) (qa_HardConstraintResults r) (qa_SelectionReasons r)
    (qa_EvidenceIDs r) (qa_AuthorizationEventID r).

Definition zero_QualifiedAssignmentAuthorization : QualifiedAssignmentAuthorization :=
  mkQualifiedAssignmentAuthorization
    "" "" 0 zero_WorkProfileBinding "" "" "" "" 0 "" "" zero_AssignmentQualificationReceipt
    0 "" [] [] [] "".

Definition fields_QualifiedAssignmentAuthorization : list (field QualifiedAssignmentAuthorization) :=
  [
    fld "assignment_id" qa_AssignmentID dec_string;
    fld "task_id" qa_TaskID dec_string;
    fld "expected_task_revision" qa_ExpectedTaskRevision dec_u64;
    fld "work_profile" qa_WorkProfile dec_WorkProfileBinding;
    fld "required_decision_route" qa_RequiredDecisionRoute dec_string;
    fld "selected_decision_route" qa_SelectedDecisionRoute dec_string;
    fld "selected_actor_fqn" qa_SelectedActorFQN dec_string;
    fld "selected_execution_id" qa_SelectedExecutionID dec_string;
    fld "selected_fencing_epoch" qa_SelectedFencingEpoch dec_u64;
    fld "model_profile_digest" qa_ModelProfileDigest dec_string;
    fld "runtime_identity_digest" qa_RuntimeIdentityDigest dec_string;
    fld "qualification" qa_Qualification dec_AssignmentQualificationReceipt;
    fld "selection_policy_revision" qa_SelectionPolicyRevision dec_u64;
    fld "selection_policy_digest" qa_SelectionPolicyDigest dec_string;
    fld "hard_constraint_results" qa_HardConstraintResults (dec_slice zero_HardConstraintResult dec_HardConstraintResult);
    fld "selection_reasons" qa_SelectionReasons (dec_slice "" dec_string);
    fld "evidence_ids" qa_EvidenceIDs (dec_slice "" dec_string);
    fld "authorization_event_id" qa_AuthorizationEventID dec_string
  ].
Definition dec_QualifiedAssignmentAuthorization : decoder QualifiedAssignmentAuthorization := dec_struct fields_QualifiedAssignmentAuthorization.

#[global] Instance QualifiedAssignmentAuthorization_eq_dec : EqDecision QualifiedAssignmentAuthorization.
Proof. solve_decision. Defined.

Definition SelectedExecution (a : QualifiedAssignmentAuthorization) : ExecutionTuple :=
  mkExec (qa_SelectedExecutionID a) (qa_SelectedFencingEpoch a).

(** The constraint loop: passing, not repeated, backed by listed evidence. *)
Fixpoint constraints_loop (evidence : list UUIDv7) (seen : gset string)
    (l : list HardConstraintResult) : bool :=
  match l with
  | [] => true
  | r :: l =>
    when negb (HardConstraintResult_Valid r) || (hc_Outcome r != ConstraintPass) return false ;;
    when bool_decide (hc_ConstraintID r ∈ seen) return false ;;
    when negb (forallb (contains evidence) (hc_EvidenceIDs r)) return false ;;
    constraints_loop evidence ({[hc_ConstraintID r]} ∪ seen) l
  end.

Definition QualifiedAssignmentAuthorization_Valid (a : QualifiedAssignmentAuthorization) : bool :=
  when negb (UUIDv7_Valid (qa_AssignmentID a)) || negb (UUIDv7_Valid (qa_TaskID a))
       || (qa_ExpectedTaskRevision a == 0) || negb (WorkProfileBinding_Valid (qa_WorkProfile a))
       || negb (ModelExecutable (qa_RequiredDecisionRoute a))
       || negb (Satisfies (qa_SelectedDecisionRoute a) (qa_RequiredDecisionRoute a))
       || negb (ActorFQN_Valid (qa_SelectedActorFQN a))
       || negb (ExecutionTuple_Valid (SelectedExecution a))
       || negb (Digest_Valid (qa_ModelProfileDigest a))
       || negb (Digest_Valid (qa_RuntimeIdentityDigest a))
       || negb (AssignmentQualificationReceipt_Valid (qa_Qualification a))
       || (qr_ModelProfileDigest (qa_Qualification a) != qa_ModelProfileDigest a)
       || (qr_DecisionRoute (qa_Qualification a) != qa_SelectedDecisionRoute a)
       || (qa_SelectionPolicyRevision a == 0) || negb (Digest_Valid (qa_SelectionPolicyDigest a))
       || negb (validUniqueStrings (qa_SelectionReasons a) 1 64)
       || negb (validUniqueUUIDs (qa_EvidenceIDs a) 1 64)
       || (llen (qa_HardConstraintResults a) == 0) || (64 <? llen (qa_HardConstraintResults a))
       || negb (UUIDv7_Valid (qa_AuthorizationEventID a))
    return false ;;
  constraints_loop (qa_EvidenceIDs a) ∅ (qa_HardConstraintResults a).

Definition QualifiedAssignmentAuthorizationFromPayload (payload : string) (eventID : UUIDv7)
    : option QualifiedAssignmentAuthorization :=
  try value <- Unmarshal fields_QualifiedAssignmentAuthorization
                 zero_QualifiedAssignmentAuthorization payload ;;
  let value := value <| qa_AuthorizationEventID := eventID |> in
  when negb (QualifiedAssignmentAuthorization_Valid value) return None ;;
  Some value.

(** ** Assignment *)

Inductive AssignmentStatus :=
| AssignmentReady | AssignmentBlocked | AssignmentNoEligibleActor | AssignmentAlreadyOwned
| AssignmentNotRunnable | AssignmentInvalid.
#[global] Instance AssignmentStatus_eq_dec : EqDecision AssignmentStatus.
Proof. solve_decision. Defined.

Record DependencyRequirement := mkDependency {
  dr_Aggregate : AggregateRef;
  dr_RequiredPhase : Phase;
  dr_ObservedState : option AggregateState;
  dr_EvidenceEventID : UUIDv7
}.

Record AssignmentCandidate := mkCandidate {
  ac_ActorFQN : ActorFQN;
  ac_Execution : ExecutionTuple;
  ac_ActiveAssignments : Z;
  ac_ModelProfileDigest : Digest;
  ac_RuntimeIdentityDigest : Digest;
  ac_Qualification : ModelProfileQualification;
  ac_HardConstraints : list HardConstraintResult;
  ac_SelectionEvidence : list EvidenceRef;
  ac_SelectionReasons : list string;
  ac_ExpectedTotalCost : CostObservation
}.

Record AssignmentInput := mkAssignmentInput {
  ai_Task : AggregateState;
  ai_Dependencies : list DependencyRequirement;
  ai_ReadinessParents : list DagParent;
  ai_ReadiedEventID : UUIDv7;
  ai_ReadinessPolicyRevision : Z;
  ai_WorkProfile : WorkProfileSnapshot;
  ai_SelectionPolicyRevision : Z;
  ai_SelectionPolicyDigest : Digest;
  ai_DecidedAt : Time;
  ai_Candidates : list AssignmentCandidate
}.

#[export] Instance eta_AssignmentInput : Eta AssignmentInput := fun r =>
  mkAssignmentInput (ai_Task r) (ai_Dependencies r) (ai_ReadinessParents r) (ai_ReadiedEventID r)
    (ai_ReadinessPolicyRevision r) (ai_WorkProfile r) (ai_SelectionPolicyRevision r)
    (ai_SelectionPolicyDigest r) (ai_DecidedAt r) (ai_Candidates r).

Record AssignmentDecision := mkAssignmentDecision {
  asd_Status : AssignmentStatus;
  asd_Reason : string;
  asd_Task : AggregateState;
  asd_NeedsReadiness : bool;
  asd_ReadinessPolicyRevision : Z;
  asd_DependencyEventIDs : list UUIDv7;
  asd_ReadinessParents : list DagParent;
  asd_ActorFQN : option ActorFQN;
  asd_Execution : option ExecutionTuple;
  asd_WorkProfile : WorkProfileBinding;
  asd_RequiredDecisionRoute : DecisionRoute;
  asd_SelectedDecisionRoute : DecisionRoute;
  asd_ModelProfileDigest : Digest;
  asd_RuntimeIdentityDigest : Digest;
  asd_Qualification : option ModelProfileQualification;
  asd_SelectionPolicyRevision : Z;
  asd_SelectionPolicyDigest : Digest;
  asd_HardConstraints : list HardConstraintResult;
  asd_SelectionEvidence : list EvidenceRef;
  asd_SelectionReasons : list string;
  asd_ExpectedTotalCost : CostObservation
}.

#[export] Instance eta_AssignmentDecision : Eta AssignmentDecision := fun r =>
  mkAssignmentDecision
    (asd_Status r) (asd_Reason r) (asd_Task r) (asd_NeedsReadiness r)
    (asd_ReadinessPolicyRevision r) (asd_DependencyEventIDs r) (asd_ReadinessParents r)
    (asd_ActorFQN r) (asd_Execution r) (asd_WorkProfile r) (asd_RequiredDecisionRoute r)
    (asd_SelectedDecisionRoute r) (asd_ModelProfileDigest r) (asd_RuntimeIdentityDigest r)
    (asd_Qualification r) (asd_SelectionPolicyRevision r) (asd_SelectionPolicyDigest r)
    (asd_HardConstraints r) (asd_SelectionEvidence r) (asd_SelectionReasons r)
    (asd_ExpectedTotalCost r).

(** The decision before anything is decided. *)
Definition initial_decision (task : AggregateState) : AssignmentDecision :=
  mkAssignmentDecision AssignmentInvalid "INVALID_ASSIGNMENT_INPUT" task false 0 [] [] None None
    zero_WorkProfileBinding "" "" "" "" None 0 "" [] [] [] (mkCost false 0).

Definition validAssignmentTask (task : AggregateState) : bool :=
  (as_Kind task == AggregateTask) && UUIDv7_Valid (as_ID task) && (0 <? as_Revision task)
  && (0 <? as_LifecycleEpoch task) && (0 <? as_ScopeRevision task).

Definition validEvidenceSet (values : list EvidenceRef) : bool :=
  when (llen values == 0) || (64 <? llen values) return false ;;
  forallb (fun v => UUIDv7_Valid (er_EvidenceID v) && Digest_Valid (er_SHA256 v)) values
  && bool_decide (NoDup (er_EvidenceID <$> values)).

Definition containsWorkKind (values : list WorkKind) (target : WorkKind) : bool :=
  contains values target.

Definition terminalDependencyPhase (phase : Phase) : bool :=
  (phase == PhaseCompleted) || (phase == PhaseAccepted) || (phase == PhaseClosed).

Definition candidateEligible (c : AssignmentCandidate) (profile : WorkRiskProfile)
    (decidedAt : Time) : bool :=
  let q := ac_Qualification c in
  when negb (EligibleAt q decidedAt) || (mq_ModelProfileDigest q != ac_ModelProfileDigest c)
       || negb (ModelExecutable (mq_DecisionRoute q))
       || negb (Satisfies (mq_DecisionRoute q) (wp_MinimumDecisionRoute profile))
       || negb (containsWorkKind (mq_QualifiedWorkKinds q) (wp_WorkKind profile))
       || negb (validEvidenceSet (ac_SelectionEvidence c))
       || negb (validUniqueStrings (ac_SelectionReasons c) 1 64)
       || (llen (ac_HardConstraints c) == 0) || (64 <? llen (ac_HardConstraints c))
    return false ;;
  when negb (forallb (fun h => HardConstraintResult_Valid h && (hc_Outcome h == ConstraintPass))
               (ac_HardConstraints c))
    return false ;;
  CostObservation_Valid (ac_ExpectedTotalCost c).

Definition canonicalAssignmentParents (values : list DagParent) : option (list DagParent) :=
  when negb (forallb parent_ok values) return None ;;
  let parents := canonicalParents values in
  when adjacent_dup parents return None ;;
  Some parents.

Inductive dependency_verdict := DependencyOk | DependencyInvalid | DependencyBlocked.

(** The dependency loop, with the event identifiers collected so far. *)
Fixpoint dependency_loop (parentIDs : list UUIDv7) (previous : option AggregateRef)
    (ids : list UUIDv7) (l : list DependencyRequirement) : list UUIDv7 * dependency_verdict :=
  match l with
  | [] => (ids, DependencyOk)
  | d :: l =>
    when negb (AggregateRef_Valid (dr_Aggregate d))
         || negb (terminalDependencyPhase (dr_RequiredPhase d))
         || negb (UUIDv7_Valid (dr_EvidenceEventID d)) || (previous == Some (dr_Aggregate d))
      return (ids, DependencyInvalid) ;;
    let ids := ids ++ [dr_EvidenceEventID d] in
    when negb (contains parentIDs (dr_EvidenceEventID d)) return (ids, DependencyInvalid) ;;
    when match dr_ObservedState d with
         | None => true
         | Some s => (as_Kind s != ref_Kind (dr_Aggregate d)) || (as_ID s != ref_ID (dr_Aggregate d))
                     || (as_Revision s == 0) || (as_LifecycleEpoch s == 0)
                     || (as_Phase s != dr_RequiredPhase d)
         end return (ids, DependencyBlocked) ;;
    dependency_loop parentIDs (Some (dr_Aggregate d)) ids l
  end.

Definition dependency_kind (d : DependencyRequirement) : string := ref_Kind (dr_Aggregate d).
Definition dependency_id (d : DependencyRequirement) : string := ref_ID (dr_Aggregate d).

Definition candidate_ok (c : AssignmentCandidate) : bool :=
  ActorFQN_Valid (ac_ActorFQN c) && ExecutionTuple_Valid (ac_Execution c)
  && Digest_Valid (ac_ModelProfileDigest c) && Digest_Valid (ac_RuntimeIdentityDigest c).

(** The candidate loop: the eligible candidates, or [None] when one is
    malformed or an actor appears twice. *)
Fixpoint candidate_loop (profile : WorkRiskProfile) (decidedAt : Time) (seen : gset ActorFQN)
    (l : list AssignmentCandidate) : option (list AssignmentCandidate) :=
  match l with
  | [] => Some []
  | c :: l =>
    when negb (candidate_ok c) return None ;;
    when bool_decide (ac_ActorFQN c ∈ seen) return None ;;
    try rest <- candidate_loop profile decidedAt ({[ac_ActorFQN c]} ∪ seen) l ;;
    Some (if candidateEligible c profile decidedAt then c :: rest else rest)
  end.

Definition str_ltb (a b : string) : bool := bool_decide (str_le a b) && (a != b).

(** The comparison given to [sort.Slice]. *)
Definition candidate_less (a b : AssignmentCandidate) : bool :=
  let ca := ac_ExpectedTotalCost a in
  let cb := ac_ExpectedTotalCost b in
  when negb (Bool.eqb (co_Reported ca) (co_Reported cb)) return co_Reported ca ;;
  when co_Reported ca && (co_Microunits ca != co_Microunits cb)
    return co_Microunits ca <? co_Microunits cb ;;
  when ac_ActiveAssignments a != ac_ActiveAssignments b
    return ac_ActiveAssignments a <? ac_ActiveAssignments b ;;
  str_ltb (ac_ActorFQN a) (ac_ActorFQN b).

Definition candidate_le (a b : AssignmentCandidate) : Prop := candidate_less b a = false.
#[global] Instance candidate_le_dec : RelDecision candidate_le.
Proof. intros a b. unfold candidate_le. apply _. Defined.

(** From a collected and sorted dependency list on. *)
Definition select_actor (input : AssignmentInput) (decision : AssignmentDecision)
    : AssignmentDecision :=
  let task := ai_Task input in
  let profile := ws_Profile (ai_WorkProfile input) in
  match candidate_loop profile (ai_DecidedAt input) ∅ (ai_Candidates input) with
  | None => decision
  | Some eligible =>
    match merge_sort candidate_le eligible with
    | [] => decision <| asd_Status := AssignmentNoEligibleActor |>
                     <| asd_Reason := "NO_ELIGIBLE_ACTOR" |>
    | selected :: _ =>
      let needs := as_Phase task == PhasePlanned in
      decision
        <| asd_ActorFQN := Some (ac_ActorFQN selected) |>
        <| asd_Execution := Some (ac_Execution selected) |>
        <| asd_SelectedDecisionRoute := mq_DecisionRoute (ac_Qualification selected) |>
        <| asd_ModelProfileDigest := ac_ModelProfileDigest selected |>
        <| asd_RuntimeIdentityDigest := ac_RuntimeIdentityDigest selected |>
        <| asd_Qualification := Some (ac_Qualification selected) |>
        <| asd_HardConstraints := ac_HardConstraints selected |>
        <| asd_SelectionEvidence := ac_SelectionEvidence selected |>
        <| asd_SelectionReasons := ac_SelectionReasons selected |>
        <| asd_ExpectedTotalCost := ac_ExpectedTotalCost selected |>
        <| asd_NeedsReadiness := needs |>
        <| asd_ReadinessParents :=
             if needs then asd_ReadinessParents decision
             else [mkParent (ai_ReadiedEventID input) EdgeCausal] |>
        <| asd_Status := AssignmentReady |>
        <| asd_Reason := "READY_TO_ASSIGN" |>
    end
  end.

Definition PlanAssignment (input : AssignmentInput) : AssignmentDecision :=
  let task := ai_Task input in
  let snapshot := ai_WorkProfile input in
  let profile := ws_Profile snapshot in
  let decision := initial_decision task in
  when negb (validAssignmentTask task) || (ai_ReadinessPolicyRevision input == 0)
       || (ai_SelectionPolicyRevision input == 0)
       || negb (Digest_Valid (ai_SelectionPolicyDigest input)) || IsZero (ai_DecidedAt input)
       || negb (WorkProfileSnapshot_Valid snapshot) || (wp_TaskID profile != as_ID task)
       || (wp_LifecycleEpoch profile != as_LifecycleEpoch task)
       || (wp_ScopeRevision profile != as_ScopeRevision task)
       || negb (ModelExecutable (wp_MinimumDecisionRoute profile))
       || (64 <? llen (ai_Dependencies input)) || (llen (ai_ReadinessParents input) == 0)
       || (64 <? llen (ai_ReadinessParents input)) || (64 <? llen (ai_Candidates input))
    return decision ;;
  let decision := decision
    <| asd_WorkProfile := Binding profile |>
    <| asd_RequiredDecisionRoute := wp_MinimumDecisionRoute profile |>
    <| asd_SelectionPolicyRevision := ai_SelectionPolicyRevision input |>
    <| asd_SelectionPolicyDigest := ai_SelectionPolicyDigest input |> in
  match canonicalAssignmentParents (ai_ReadinessParents input) with
  | None => decision
  | Some parents =>
    let decision := decision
      <| asd_ReadinessParents := parents |>
      <| asd_ReadinessPolicyRevision := ai_ReadinessPolicyRevision input |> in
    when negb (is_nil (own_OwnerFQN (as_Ownership task)))
      return decision <| asd_Status := AssignmentAlreadyOwned |>
                      <| asd_Reason := "TASK_ALREADY_OWNED" |> ;;
    when (as_Condition task != ConditionRunnable)
         || (as_Phase task != PhasePlanned) && (as_Phase task != PhaseReady)
      return decision <| asd_Status := AssignmentNotRunnable |>
                      <| asd_Reason := "TASK_NOT_RUNNABLE" |> ;;
    when (as_Phase task == PhaseReady) && negb (UUIDv7_Valid (ai_ReadiedEventID input))
      return decision ;;
    let dependencies := merge_sort (key_le dependency_kind dependency_id) (ai_Dependencies input) in
    match dependency_loop (dp_ParentEventID <$> parents) None [] dependencies with
    | (ids, DependencyInvalid) => decision <| asd_DependencyEventIDs := ids |>
    | (ids, DependencyBlocked) =>
      decision <| asd_DependencyEventIDs := ids |>
               <| asd_Status := AssignmentBlocked |>
               <| asd_Reason := "DEPENDENCY_PREDICATE_UNSATISFIED" |>
    | (ids, DependencyOk) =>
      let decision := decision <| asd_DependencyEventIDs := sort_strings ids |> in
      when adjacent_dup (sort_strings ids)
        return decision <| asd_Status := AssignmentInvalid |>
                        <| asd_Reason := "INVALID_ASSIGNMENT_INPUT" |> ;;
      select_actor input decision
    end
  end.

(** ** The selection order *)

(** Unreported costs come last and are all alike. *)
Definition cost_rank (c : AssignmentCandidate) : Z :=
  if co_Reported (ac_ExpectedTotalCost c) then 0 else 1.
Definition cost_amount (c : AssignmentCandidate) : Z :=
  if co_Reported (ac_ExpectedTotalCost c) then co_Microunits (ac_ExpectedTotalCost c) else 0.

Definition better_or_equal (a b : AssignmentCandidate) : Prop :=
  cost_rank a < cost_rank b \/ cost_rank a = cost_rank b /\
  (cost_amount a < cost_amount b \/ cost_amount a = cost_amount b /\
   (ac_ActiveAssignments a < ac_ActiveAssignments b \/
    ac_ActiveAssignments a = ac_ActiveAssignments b /\ str_le (ac_ActorFQN a) (ac_ActorFQN b))).

Lemma str_ltb_false a b : str_ltb a b = false <-> str_le b a.
Proof.
  unfold str_ltb. rewrite andb_false_iff, negb_false_iff, bool_decide_eq_false, bool_decide_eq_true.
  split.
  - intros [Hn| ->]; [by destruct (total str_le a b) | by destruct (total str_le b b)].
  - intros Hba. destruct (decide (str_le a b)) as [Hab|Hn]; [right | by left].
    by apply (anti_symm str_le).
Qed.

Lemma candidate_le_spec a b : candidate_le a b <-> better_or_equal a b.
Proof.
  unfold candidate_le, candidate_less, better_or_equal, cost_rank, cost_amount.
  destruct (co_Reported (ac_ExpectedTotalCost a)), (co_Reported (ac_ExpectedTotalCost b)); simpl;
    repeat (case_bool_decide; simpl); rewrite ?str_ltb_false, ?Z.ltb_ge; intuition lia.
Qed.

#[global] Instance candidate_le_total : Total candidate_le.
Proof.
  intros a b. rewrite !candidate_le_spec. unfold better_or_equal.
  destruct (total str_le (ac_ActorFQN a) (ac_ActorFQN b)),
    (Z.lt_trichotomy (cost_rank a) (cost_rank b)) as [|[|]],
    (Z.lt_trichotomy (cost_amount a) (cost_amount b)) as [|[|]],
    (Z.lt_trichotomy (ac_ActiveAssignments a) (ac_ActiveAssignments b)) as [|[|]]; auto 10.
Qed.

#[global] Instance candidate_le_trans : Transitive candidate_le.
Proof.
  intros a b c. rewrite !candidate_le_spec. unfold better_or_equal. intros H1 H2.
  destruct H1 as [|(? & [|(? & [|(? & ?)])])], H2 as [|(? & [|(? & [|(? & ?)])])];
    repeat first [left; lia | right; split; [lia|]]; by etrans.
Qed.

Lemma candidate_le_actor a b :
  candidate_le a b -> candidate_le b a -> ac_ActorFQN a = ac_ActorFQN b.
Proof.
  rewrite !candidate_le_spec. unfold better_or_equal. intros H1 H2.
  destruct H1 as [|(? & [|(? & [|(? & ?)])])], H2 as [|(? & [|(? & [|(? & ?)])])];
    try lia. by apply (anti_symm str_le).
Qed.

(** ** The candidate loop *)

Lemma candidate_loop_spec profile at_ seen l :
  candidate_loop profile at_ seen l =
  if forallb candidate_ok l && bool_decide (NoDup (ac_ActorFQN <$> l))
     && bool_decide (Forall (fun c => ac_ActorFQN c ∉ seen) l)
  then Some (List.filter (fun c => candidateEligible c profile at_) l) else None.
Proof.
  revert seen. induction l as [|c l IH]; intros seen; [done|]. cbn [candidate_loop forallb].
  destruct (candidate_ok c); [|done]. cbn [negb andb].
  rewrite IH, fmap_cons.
  rewrite (bool_decide_ext _ _ (NoDup_cons (ac_ActorFQN c) (ac_ActorFQN <$> l))).
  rewrite (bool_decide_ext _ _ (Forall_cons (fun c => ac_ActorFQN c ∉ seen) c l)).
  destruct (forallb candidate_ok l); [cbn [andb]|simpl; by destruct (bool_decide (_ ∈ seen))].
  assert (Forall (fun x => ac_ActorFQN x ∉ {[ac_ActorFQN c]} ∪ seen) l <->
          (ac_ActorFQN c ∉ ac_ActorFQN <$> l) /\ Forall (fun x => ac_ActorFQN x ∉ seen) l) as E.
  { rewrite !Forall_forall, list_elem_of_fmap. set_solver. }
  rewrite (bool_decide_ext _ _ E).
  rewrite !bool_decide_and, !bool_decide_not. cbn [List.filter].
  by destruct (bool_decide (_ ∈ seen)), (bool_decide (_ ∈ _ <$> l)), (bool_decide (NoDup _)),
    (bool_decide (Forall _ l)), (candidateEligible c profile at_).
Qed.

Lemma candidate_loop_perm profile at_ l1 l2 :
  l1 ≡ₚ l2 ->
  match candidate_loop profile at_ ∅ l1, candidate_loop profile at_ ∅ l2 with
  | Some e1, Some e2 => e1 ≡ₚ e2 /\ NoDup (ac_ActorFQN <$> e1)
  | None, None => True
  | _, _ => False
  end.
Proof.
  intros Hp. rewrite !candidate_loop_spec.
  assert (forallb candidate_ok l1 = forallb candidate_ok l2) as ->
    by (apply eq_true_iff_eq; by rewrite !forallb_True_iff, Hp).
  rewrite (bool_decide_ext (NoDup (ac_ActorFQN <$> l1)) (NoDup (ac_ActorFQN <$> l2)))
    by by rewrite Hp.
  rewrite !(bool_decide_eq_true_2 (Forall (fun c => ac_ActorFQN c ∉ (∅ : gset ActorFQN)) _))
    by (apply Forall_forall; set_solver).
  destruct (forallb candidate_ok l2); [cbn [andb] | done].
  case_bool_decide as Hn; [cbn [andb] | done]. split.
  - by apply filter_Permutation_bool.
  - rewrite (filter_Permutation_bool _ _ _ Hp). eapply sublist_NoDup; [exact Hn|].
    apply fmap_sublist, filter_sublist_bool.
Qed.

Lemma merge_sort_candidates_perm e1 e2 :
  e1 ≡ₚ e2 -> NoDup (ac_ActorFQN <$> e1) ->
  merge_sort candidate_le e1 = merge_sort candidate_le e2.
Proof.
  intros Hp Hn.
  eapply (Sorted_unique_strong candidate_le); [| by apply Sorted_merge_sort; apply _
    | by apply Sorted_merge_sort; apply _ | by rewrite !merge_sort_Permutation].
  intros a b Ha Hb Hab Hba. rewrite merge_sort_Permutation in Ha.
  rewrite merge_sort_Permutation, <- Hp in Hb.
  by apply (NoDup_fmap_elem ac_ActorFQN e1 a b Hn Ha Hb), candidate_le_actor.
Qed.

(** The assignment does not depend on the order in which candidates are
    presented: permuting them leaves the whole decision unchanged, whatever
    the rest of the input. *)
Theorem PlanAssignment_order_independent input candidates :
  ai_Candidates input ≡ₚ candidates ->
  PlanAssignment (input <| ai_Candidates := candidates |>) = PlanAssignment input.
Proof.
  intros Hp. set (input' := input <| ai_Candidates := candidates |>).
  assert (forall d, select_actor input' d = select_actor input d) as Hsel.
  { intros d. unfold select_actor.
    change (ai_Candidates input') with candidates.
    change (ai_WorkProfile input') with (ai_WorkProfile input).
    change (ai_DecidedAt input') with (ai_DecidedAt input).
    change (ai_Task input') with (ai_Task input).
    change (ai_ReadiedEventID input') with (ai_ReadiedEventID input).
    pose proof (candidate_loop_perm (ws_Profile (ai_WorkProfile input)) (ai_DecidedAt input) _ _ Hp)
      as Hl.
    destruct (candidate_loop _ _ _ (ai_Candidates input)) as [e1|],
      (candidate_loop _ _ _ candidates) as [e2|]; try done.
    destruct Hl as [He Hn]. by rewrite (merge_sort_candidates_perm _ _ He Hn). }
  assert (llen (ai_Candidates input') = llen (ai_Candidates input)) as Hlen
    by (unfold llen; simpl; by rewrite Hp).
  unfold PlanAssignment. rewrite Hlen.
  change (ai_Task input') with (ai_Task input).
  change (ai_WorkProfile input') with (ai_WorkProfile input).
  change (ai_Dependencies input') with (ai_Dependencies input).
  change (ai_ReadinessParents input') with (ai_ReadinessParents input).
  change (ai_ReadiedEventID input') with (ai_ReadiedEventID input).
  change (ai_ReadinessPolicyRevision input') with (ai_ReadinessPolicyRevision input).
  change (ai_SelectionPolicyRevision input') with (ai_SelectionPolicyRevision input).
  change (ai_SelectionPolicyDigest input') with (ai_SelectionPolicyDigest input).
  change (ai_DecidedAt input') with (ai_DecidedAt input).
  clearbody input'. by repeat first [rewrite Hsel | case_match].
Qed.

Lemma select_actor_ready input d :
  asd_Status d <> AssignmentReady ->
  asd_Status (select_actor input d) = AssignmentReady ->
  exists c, c ∈ ai_Candidates input /\
    asd_ActorFQN (select_actor input d) = Some (ac_ActorFQN c) /\
    asd_Execution (select_actor input d) = Some (ac_Execution c) /\
    candidateEligible c (ws_Profile (ai_WorkProfile input)) (ai_DecidedAt input) = true /\
    (forall c', c' ∈ ai_Candidates input ->
       candidateEligible c' (ws_Profile (ai_WorkProfile input)) (ai_DecidedAt input) = true ->
       better_or_equal c c').
Proof.
  intros Hd Hs. unfold select_actor in *.
  rewrite candidate_loop_spec in *. destruct (_ && _) in *; [|done].
  set (eligible := List.filter _ _) in *.
  pose proof (merge_sort_Permutation candidate_le eligible) as Hperm.
  pose proof (Sorted_merge_sort candidate_le eligible) as Hsort.
  destruct (merge_sort candidate_le eligible) as [|c rest]; [by destruct Hd|].
  assert (forall x, x ∈ c :: rest <-> x ∈ ai_Candidates input /\
    candidateEligible x (ws_Profile (ai_WorkProfile input)) (ai_DecidedAt input) = true) as Hel.
  { intros x. rewrite Hperm. subst eligible. by rewrite list_elem_of_In, filter_In, <- list_elem_of_In. }
  exists c. destruct (proj1 (Hel c)) as [Hc He]; [set_solver|]. split_and!; try done.
  intros c' Hc' He'. apply candidate_le_spec. clear Hs.
  assert (c' ∈ c :: rest) as Hin by (by apply Hel).
  apply Sorted_StronglySorted in Hsort; [|apply _]. inversion Hsort as [|? ? _ HF]; subst.
  apply elem_of_cons in Hin as [->|Hin]; [|by eapply Forall_forall in HF].
  destruct (total candidate_le c c); done.
Qed.

Lemma plan_reaches_selection input :
  asd_Status (PlanAssignment input) = AssignmentReady ->
  own_OwnerFQN (as_Ownership (ai_Task input)) = None /\
  as_Condition (ai_Task input) = ConditionRunnable /\
  (as_Phase (ai_Task input) = PhasePlanned \/ as_Phase (ai_Task input) = PhaseReady) /\
  exists d, asd_Status d = AssignmentInvalid /\ PlanAssignment input = select_actor input d.
Proof.
  unfold PlanAssignment.
  match goal with |- asd_Status (if ?c then _ else _) = _ -> _ => destruct c; [done|] end.
  destruct (canonicalAssignmentParents _) as [parents|]; [|done].
  match goal with |- asd_Status (if ?c then _ else _) = _ -> _ =>
    destruct c eqn:G1; [done|] end.
  match goal with |- asd_Status (if ?c then _ else _) = _ -> _ =>
    destruct c eqn:G2; [done|] end.
  match goal with |- asd_Status (if ?c then _ else _) = _ -> _ => destruct c; [done|] end.
  destruct (dependency_loop _ _ _ _) as [ids []]; try done.
  destruct (adjacent_dup _); [done|]. intros H.
  apply negb_false_iff, is_nil_true in G1.
  rewrite orb_false_iff, negb_false_iff, bool_decide_eq_true, andb_false_iff,
    !negb_false_iff, !bool_decide_eq_true in G2.
  split_and!; [naive_solver..|]. eexists. split; [|reflexivity]. done.
Qed.

(** A ready assignment picks the best eligible actor: the task is unowned,
    runnable and still planned or ready; the selected actor is one of the
    candidates, qualified for the work and passing every hard constraint; and
    no other eligible candidate is cheaper, or equally cheap and less loaded,
    or equal in both with a smaller name. *)
Theorem PlanAssignment_selects_best input :
  asd_Status (PlanAssignment input) = AssignmentReady ->
  own_OwnerFQN (as_Ownership (ai_Task input)) = None /\
  as_Condition (ai_Task input) = ConditionRunnable /\
  (as_Phase (ai_Task input) = PhasePlanned \/ as_Phase (ai_Task input) = PhaseReady) /\
  exists c, c ∈ ai_Candidates input /\
    asd_ActorFQN (PlanAssignment input) = Some (ac_ActorFQN c) /\
    asd_Execution (PlanAssignment input) = Some (ac_Execution c) /\
    candidateEligible c (ws_Profile (ai_WorkProfile input)) (ai_DecidedAt input) = true /\
    (forall c', c' ∈ ai_Candidates input ->
       candidateEligible c' (ws_Profile (ai_WorkProfile input)) (ai_DecidedAt input) = true ->
       better_or_equal c c').
Proof.
  intros H. apply plan_reaches_selection in H as Hr. destruct Hr as (H1 & H2 & H3 & d & Hd & E).
  split_and!; [done..|]. rewrite E in *. apply select_actor_ready; [by rewrite Hd | done].
Qed.

(** ** A concrete assignment *)

Definition sample_qualification : ModelProfileQualification :=
  mkModelProfileQualification (uid "1") (dig "1") (dig "2") (dig "3") RouteComplexReasoning
    "builder" [WorkImplementation] QualificationPass sample_time None None [uid "2"].

Definition sample_candidate (actor : ActorFQN) (load cost : Z) : AssignmentCandidate :=
  mkCandidate actor (mkExec (uid "3") 1) load (dig "3") (dig "4") sample_qualification
    [mkHardConstraintResult "privacy" ConstraintPass [uid "2"]] [mkEvidence (uid "2") (dig "5")]
    ["qualified"] (mkCost true cost).

Definition sample_assignment (candidates : list AssignmentCandidate) : AssignmentInput :=
  mkAssignmentInput
    (plain_state AggregateTask (uid "a") 4 1 1 PhaseReady ConditionRunnable) []
    [mkParent (uid "6") EdgeCausal] (uid "7") 1 (mkProfileSnapshot first_profile (uid "8") 4) 1
    (dig "6") sample_time candidates.

Definition cheap : AssignmentCandidate := sample_candidate actor_b 2 10.
Definition costly : AssignmentCandidate := sample_candidate actor_a 0 20.

Lemma PlanAssignment_selects_best_witness :
  own_OwnerFQN (as_Ownership (ai_Task (sample_assignment [costly; cheap]))) = None /\
  asd_ActorFQN (PlanAssignment (sample_assignment [costly; cheap])) = Some actor_b.
Proof.
  split; [|vm_compute; reflexivity].
  apply (PlanAssignment_selects_best (sample_assignment [costly; cheap])).
  vm_compute. reflexivity.
Defined.

Lemma PlanAssignment_order_independent_witness :
  PlanAssignment (sample_assignment [cheap; costly]) = PlanAssignment (sample_assignment [costly; cheap]).
Proof.
  apply (PlanAssignment_order_independent (sample_assignment [costly; cheap]) [cheap; costly]).
  apply perm_swap.
Defined.
