(* ===== verification/WorkInvocation.v ===== *)
(** * Work budgets and work invocations ([kernel/work_invocation.go])

    A work budget account limits the model invocations of a piece of work, in
    total and per purpose; a task binds part of it. An invocation is authorised
    against both budgets, claimed, started and ended.
    [PlanWorkInvocationAuthorization] decides an authorisation and computes the
    budget debit; [ApplyWorkInvocationEvent] is the state machine of one
    invocation. *)

From S2P Require Import Prelude GoText GoTime GoJson GoMarshal Types.
From S2P Require Import Samples Payload Envelope State WorkProfile Assignment.

(** ** Purposes and counters *)

Definition WorkPurpose := string.
Definition PurposeInvestigation : WorkPurpose := "INVESTIGATION".
Definition PurposeImplementation : WorkPurpose := "IMPLEMENTATION".
Definition PurposeValidation : WorkPurpose := "VALIDATION".
Definition PurposeReview : WorkPurpose := "REVIEW".
Definition PurposeRepair : WorkPurpose := "REPAIR".
Definition PurposeHandoff : WorkPurpose := "HANDOFF".
Definition PurposeReplan : WorkPurpose := "REPLAN".
Definition PurposePromotion : WorkPurpose := "PROMOTION".
Definition PurposeEscalation : WorkPurpose := "ESCALATION".

Definition AllWorkPurposes : list WorkPurpose :=
  [PurposeInvestigation; PurposeImplementation; PurposeValidation; PurposeReview; PurposeRepair;
   PurposeHandoff; PurposeReplan; PurposePromotion; PurposeEscalation].

Definition WorkPurpose_Valid (p : WorkPurpose) : bool := contains AllWorkPurposes p.

Definition PurposeCounters : Type := gmap WorkPurpose Z.
Definition zero_PurposeCounters : PurposeCounters := ∅.
Definition dec_PurposeCounters : decoder PurposeCounters := dec_map 0 dec_u64.

Definition PurposeCounters_Valid (c : PurposeCounters) : bool :=
  when Z.of_nat (size c) != llen AllWorkPurposes return false ;;
  forallb (fun p => match c !! p with Some v => v <=? 1000 | None => false end) AllWorkPurposes.

Definition zeroPurposeCounters : PurposeCounters :=
  foldl (fun m p => <[p := 0]> m) ∅ AllWorkPurposes.

(** ** Budget accounts *)

Record WorkBudgetAccount := mkWorkBudgetAccount {
  ba_ID : UUIDv7;
  ba_Revision : Z;
  ba_RootWork : AggregateRef;
  ba_LifecycleEpoch : Z;
  ba_PolicyRevision : Z;
  ba_PolicyDigest : Digest;
  ba_ModelInvocationLimit : Z;
  ba_ModelInvocationsUsed : Z;
  ba_PurposeLimits : PurposeCounters;
  ba_PurposeUsed : PurposeCounters;
  ba_DeadlineAt : Time;
  ba_LastEventID : UUIDv7
}.

#[export] Instance eta_WorkBudgetAccount : Eta WorkBudgetAccount := fun r =>
  mkWorkBudgetAccount
    (ba_ID r) (ba_Revision r) (ba_RootWork r) (ba_LifecycleEpoch r) (ba_PolicyRevision r)
    (ba_PolicyDigest r) (ba_ModelInvocationLimit r) (ba_ModelInvocationsUsed r)
    (ba_PurposeLimits r) (ba_PurposeUsed r) (ba_DeadlineAt r) (ba_LastEventID r).

Definition zero_WorkBudgetAccount : WorkBudgetAccount :=
  mkWorkBudgetAccount
    "" 0 zero_ref 0 0 "" 0 0 zero_PurposeCounters zero_PurposeCounters zero_time "".

#[global] Instance WorkBudgetAccount_eq_dec : EqDecision WorkBudgetAccount.
Proof. solve_decision. Defined.

Definition WorkBudgetAccount_Ref (b : WorkBudgetAccount) : AggregateRef :=
  mkRef AggregateWorkBudget (ba_ID b).

(** Per purpose: used within the limit, and the limit within the total. *)
Definition purposes_within (used limits : PurposeCounters) (total : Z) : bool :=
  forallb (fun p => (mget 0 p used <=? mget 0 p limits) && (mget 0 p limits <=? total))
    AllWorkPurposes.

Definition WorkBudgetAccount_Valid (b : WorkBudgetAccount) : bool :=
  when negb (UUIDv7_Valid (ba_ID b)) || (ba_Revision b == 0) || (1000000 <? ba_Revision b)
       || (ref_Kind (ba_RootWork b) != AggregateStory) && (ref_Kind (ba_RootWork b) != AggregateTask)
       || negb (UUIDv7_Valid (ref_ID (ba_RootWork b))) || (ba_LifecycleEpoch b == 0)
       || (ba_PolicyRevision b == 0) || negb (Digest_Valid (ba_PolicyDigest b))
       || (ba_ModelInvocationLimit b == 0) || (1000 <? ba_ModelInvocationLimit b)
       || (ba_ModelInvocationLimit b <? ba_ModelInvocationsUsed b)
       || negb (PurposeCounters_Valid (ba_PurposeLimits b))
       || negb (PurposeCounters_Valid (ba_PurposeUsed b)) || IsZero (ba_DeadlineAt b)
       || negb (UUIDv7_Valid (ba_LastEventID b))
    return false ;;
  purposes_within (ba_PurposeUsed b) (ba_PurposeLimits b) (ba_ModelInvocationLimit b).

Definition MaximumAdditionalInvocations (b : WorkBudgetAccount) : Z :=
  when ba_ModelInvocationLimit b <=? ba_ModelInvocationsUsed b return 0 ;;
  u64 (ba_ModelInvocationLimit b - ba_ModelInvocationsUsed b).

Record WorkBudgetInheritanceDecision := mkInheritance {
  wd_Accepted : bool;
  wd_Reason : string;
  wd_AccountID : UUIDv7;
  wd_MaximumAdditionalInvocations : Z
}.

Definition PlanWorkBudgetInheritance (current : WorkBudgetAccount) (requestedAccountID : UUIDv7)
    (requestedLimit : Z) : WorkBudgetInheritanceDecision :=
  let decision accepted reason :=
    mkInheritance accepted reason (ba_ID current) (MaximumAdditionalInvocations current) in
  when negb (WorkBudgetAccount_Valid current) || negb (UUIDv7_Valid requestedAccountID)
       || (requestedLimit == 0)
    return decision false "INVALID_BUDGET" ;;
  when requestedAccountID != ba_ID current return decision false "BUDGET_RESET_PROHIBITED" ;;
  when ba_ModelInvocationLimit current <? requestedLimit
    return decision false "CAPACITY_MINT_PROHIBITED" ;;
  decision true "ACCEPTED".

Definition max_uint64 : Z := u64_mod - 1.

Fixpoint conservative_loop (total : Z) (accounts : list WorkBudgetAccount) : Z :=
  match accounts with
  | [] => total
  | account :: accounts =>
    let remaining := MaximumAdditionalInvocations account in
    when max_uint64 - total <? remaining return max_uint64 ;;
    conservative_loop (u64 (total + remaining)) accounts
  end.

Definition ConservativeMaximumAdditionalInvocations (accounts : list WorkBudgetAccount) : Z :=
  conservative_loop 0 accounts.

Record workBudgetPayload := mkworkBudgetPayload {
  bp_BudgetAccountID : UUIDv7;
  bp_RootWork : AggregateRef;
  bp_LifecycleEpoch : Z;
  bp_ExpectedEpoch : Z;
  bp_ExpectedRevision : Z;
  bp_PolicyRevision : Z;
  bp_PolicyDigest : Digest;
  bp_ModelInvocationLimit : Z;
  bp_PurposeLimits : PurposeCounters;
  bp_DeadlineAt : Time;
  bp_EvidenceIDs : list UUIDv7;
  bp_Authority : PrincipalRef
}.

#[export] Instance eta_workBudgetPayload : Eta workBudgetPayload := fun r =>
  mkworkBudgetPayload
    (bp_BudgetAccountID r) (bp_RootWork r) (bp_LifecycleEpoch r) (bp_ExpectedEpoch r)
    (bp_ExpectedRevision r) (bp_PolicyRevision r) (bp_PolicyDigest r)
    (bp_ModelInvocationLimit r) (bp_PurposeLimits r) (bp_DeadlineAt r) (bp_EvidenceIDs r)
    (bp_Authority r).

Definition zero_workBudgetPayload : workBudgetPayload :=
  mkworkBudgetPayload
    "" zero_ref 0 0 0 0 "" 0 zero_PurposeCounters zero_time [] zero_principal.

Definition fields_workBudgetPayload : list (field workBudgetPayload) :=
  [
    fld "budget_account_id" bp_BudgetAccountID dec_string;
    fld "root_work" bp_RootWork dec_AggregateRef;
    fld "lifecycle_epoch" bp_LifecycleEpoch dec_u64;
    fld "expected_lifecycle_epoch" bp_ExpectedEpoch dec_u64;
    fld "expected_budget_revision" bp_ExpectedRevision dec_u64;
    fld "policy_revision" bp_PolicyRevision dec_u64;
    fld "policy_digest" bp_PolicyDigest dec_string;
    fld "model_invocation_limit" bp_ModelInvocationLimit dec_u64;
    fld "purpose_limits" bp_PurposeLimits dec_PurposeCounters;
    fld "deadline_at" bp_DeadlineAt dec_time;
    fld "evidence_ids" bp_EvidenceIDs (dec_slice "" dec_string);
    fld "authority" bp_Authority dec_PrincipalRef
  ].

Definition WorkBudgetFromCreatePayload (payload : string) (eventID : UUIDv7)
    : option WorkBudgetAccount :=
  try value <- Unmarshal fields_workBudgetPayload zero_workBudgetPayload payload ;;
  let account :=
    mkWorkBudgetAccount (bp_BudgetAccountID value) 1 (bp_RootWork value) (bp_LifecycleEpoch value)
      (bp_PolicyRevision value) (bp_PolicyDigest value) (bp_ModelInvocationLimit value) 0
      (bp_PurposeLimits value) zeroPurposeCounters (bp_DeadlineAt value) eventID in
  when negb (WorkBudgetAccount_Valid account) || (llen (bp_EvidenceIDs value) == 0)
       || negb (PrincipalRef_Valid (bp_Authority value))
    return None ;;
  Some account.

Definition ApplyWorkBudgetAmendment (current : WorkBudgetAccount) (payload : string)
    (eventID : UUIDv7) : WorkBudgetAccount * bool :=
  match Unmarshal fields_workBudgetPayload zero_workBudgetPayload payload with
  | None => (current, false)
  | Some value =>
    when (bp_BudgetAccountID value != ba_ID current)
         || (bp_ExpectedRevision value != ba_Revision current)
         || (bp_ExpectedEpoch value != ba_LifecycleEpoch current)
         || (bp_PolicyRevision value <=? ba_PolicyRevision current)
         || (bp_ModelInvocationLimit value <? ba_ModelInvocationsUsed current)
         || Before (bp_DeadlineAt value) (ba_DeadlineAt current)
         || (llen (bp_EvidenceIDs value) == 0) || negb (PrincipalRef_Valid (bp_Authority value))
      return (current, false) ;;
    when existsb (fun p => mget 0 p (bp_PurposeLimits value) <? mget 0 p (ba_PurposeUsed current))
           AllWorkPurposes
      return (current, false) ;;
    let next := current
      <| ba_Revision := u64 (ba_Revision current + 1) |>
      <| ba_PolicyRevision := bp_PolicyRevision value |>
      <| ba_PolicyDigest := bp_PolicyDigest value |>
      <| ba_ModelInvocationLimit := bp_ModelInvocationLimit value |>
      <| ba_PurposeLimits := bp_PurposeLimits value |>
      <| ba_DeadlineAt := bp_DeadlineAt value |>
      <| ba_LastEventID := eventID |> in
    (next, WorkBudgetAccount_Valid next)
  end.

(** ** Task bindings *)

Record TaskWorkBudgetBinding := mkTaskWorkBudgetBinding {
  tb_TaskID : UUIDv7;
  tb_BudgetAccountID : UUIDv7;
  tb_TaskRevision : Z;
  tb_LifecycleEpoch : Z;
  tb_ScopeRevision : Z;
  tb_ModelInvocationLimit : Z;
  tb_ModelInvocationsUsed : Z;
  tb_PurposeLimits : PurposeCounters;
  tb_PurposeUsed : PurposeCounters;
  tb_BoundEventID : UUIDv7
}.

#[export] Instance eta_TaskWorkBudgetBinding : Eta TaskWorkBudgetBinding := fun r =>
  mkTaskWorkBudgetBinding
    (tb_TaskID r) (tb_BudgetAccountID r) (tb_TaskRevision r) (tb_LifecycleEpoch r)
    (tb_ScopeRevision r) (tb_ModelInvocationLimit r) (tb_ModelInvocationsUsed r)
    (tb_PurposeLimits r) (tb_PurposeUsed r) (tb_BoundEventID r).

Definition zero_TaskWorkBudgetBinding : TaskWorkBudgetBinding :=
  mkTaskWorkBudgetBinding
    "" "" 0 0 0 0 0 zero_PurposeCounters zero_PurposeCounters "".

#[global] Instance TaskWorkBudgetBinding_eq_dec : EqDecision TaskWorkBudgetBinding.
Proof. solve_decision. Defined.

Definition TaskWorkBudgetBinding_Valid (b : TaskWorkBudgetBinding) : bool :=
  when negb (UUIDv7_Valid (tb_TaskID b)) || negb (UUIDv7_Valid (tb_BudgetAccountID b))
       || (tb_TaskRevision b == 0) || (tb_LifecycleEpoch b == 0) || (tb_ScopeRevision b == 0)
       || (tb_ModelInvocationLimit b == 0) || (1000 <? tb_ModelInvocationLimit b)
       || (tb_ModelInvocationLimit b <? tb_ModelInvocationsUsed b)
       || negb (PurposeCounters_Valid (tb_PurposeLimits b))
       || negb (PurposeCounters_Valid (tb_PurposeUsed b)) || negb (UUIDv7_Valid (tb_BoundEventID b))
    return false ;;
  purposes_within (tb_PurposeUsed b) (tb_PurposeLimits b) (tb_ModelInvocationLimit b).

Record taskBudgetPayload := mktaskBudgetPayload {
  tp_TaskID : UUIDv7;
  tp_BudgetAccountID : UUIDv7;
  tp_ExpectedTaskRevision : Z;
  tp_LifecycleEpoch : Z;
  tp_ScopeRevision : Z;
  tp_TaskModelInvocationLimit : Z;
  tp_PurposeLimits : PurposeCounters
}.

#[export] Instance eta_taskBudgetPayload : Eta taskBudgetPayload := fun r =>
  mktaskBudgetPayload
    (tp_TaskID r) (tp_BudgetAccountID r) (tp_ExpectedTaskRevision r) (tp_LifecycleEpoch r)
    (tp_ScopeRevision r) (tp_TaskModelInvocationLimit r) (tp_PurposeLimits r).

Definition zero_taskBudgetPayload : taskBudgetPayload :=
  mktaskBudgetPayload
    "" "" 0 0 0 0 zero_PurposeCounters.

Definition fields_taskBudgetPayload : list (field taskBudgetPayload) :=
  [
    fld "task_id" tp_TaskID dec_string;
    fld "budget_account_id" tp_BudgetAccountID dec_string;
    fld "expected_task_revision" tp_ExpectedTaskRevision dec_u64;
    fld "lifecycle_epoch" tp_LifecycleEpoch dec_u64;
    fld "scope_revision" tp_ScopeRevision dec_u64;
    fld "task_model_invocation_limit" tp_TaskModelInvocationLimit dec_u64;
    fld "purpose_limits" tp_PurposeLimits dec_PurposeCounters
  ].

Definition TaskWorkBudgetBindingFromPayload (payload : string) (eventID : UUIDv7)
    : option TaskWorkBudgetBinding :=
  try value <- Unmarshal fields_taskBudgetPayload zero_taskBudgetPayload payload ;;
  let binding :=
    mkTaskWorkBudgetBinding (tp_TaskID value) (tp_BudgetAccountID value)
      (u64 (tp_ExpectedTaskRevision value + 1)) (tp_LifecycleEpoch value) (tp_ScopeRevision value)
      (tp_TaskModelInvocationLimit value) 0 (tp_PurposeLimits value) zeroPurposeCounters eventID in
  when negb (TaskWorkBudgetBinding_Valid binding) return None ;;
  Some binding.

Record TaskOperationalScope := mkTaskOperationalScope {
  os_TaskID : UUIDv7;
  os_TaskRevision : Z;
  os_LifecycleEpoch : Z;
  os_ScopeRevision : Z;
  os_OwnerFQN : ActorFQN;
  os_Execution : ExecutionTuple;
  os_WorkspaceID : string;
  os_WorktreeID : string;
  os_Branch : string;
  os_BaselineSHA : string;
  os_WritablePaths : list string;
  os_InterfaceEvidenceIDs : list UUIDv7;
  os_BoundEventID : UUIDv7
}.

#[export] Instance eta_TaskOperationalScope : Eta TaskOperationalScope := fun r =>
  mkTaskOperationalScope
    (os_TaskID r) (os_TaskRevision r) (os_LifecycleEpoch r) (os_ScopeRevision r)
    (os_OwnerFQN r) (os_Execution r) (os_WorkspaceID r) (os_WorktreeID r) (os_Branch r)
    (os_BaselineSHA r) (os_WritablePaths r) (os_InterfaceEvidenceIDs r) (os_BoundEventID r).

Definition zero_TaskOperationalScope : TaskOperationalScope :=
  mkTaskOperationalScope
    "" 0 0 0 "" zero_exec "" "" "" "" [] [] "".

#[global] Instance TaskOperationalScope_eq_dec : EqDecision TaskOperationalScope.
Proof. solve_decision. Defined.

Definition TaskOperationalScope_Valid (s : TaskOperationalScope) : bool :=
  when negb (UUIDv7_Valid (os_TaskID s)) || (os_TaskRevision s == 0) || (os_LifecycleEpoch s == 0)
       || (os_ScopeRevision s == 0) || negb (ActorFQN_Valid (os_OwnerFQN s))
       || negb (ExecutionTuple_Valid (os_Execution s)) || (os_WorkspaceID s == "")
       || (os_WorktreeID s == "") || (os_Branch s == "") || (slen (os_BaselineSHA s) != 40)
       || (llen (os_WritablePaths s) == 0) || (256 <? llen (os_WritablePaths s))
       || negb (UUIDv7_Valid (os_BoundEventID s))
    return false ;;
  let paths := sort_strings (os_WritablePaths s) in
  when contains paths "" || (paths != os_WritablePaths s) || adjacent_dup paths return false ;;
  validUniqueUUIDs (os_InterfaceEvidenceIDs s) 0 64.

Record operationalScopePayload := mkoperationalScopePayload {
  sc_TaskID : UUIDv7;
  sc_ExpectedTaskRevision : Z;
  sc_LifecycleEpoch : Z;
  sc_ScopeRevision : Z;
  sc_OwnerFQN : ActorFQN;
  sc_ExecutionID : UUIDv7;
  sc_FencingEpoch : Z;
  sc_WorkspaceID : string;
  sc_WorktreeID : string;
  sc_Branch : string;
  sc_BaselineSHA : string;
  sc_WritablePaths : list string;
  sc_InterfaceEvidenceIDs : list UUIDv7
}.

#[export] Instance eta_operationalScopePayload : Eta operationalScopePayload := fun r =>
  mkoperationalScopePayload
    (sc_TaskID r) (sc_ExpectedTaskRevision r) (sc_LifecycleEpoch r) (sc_ScopeRevision r)
    (sc_OwnerFQN r) (sc_ExecutionID r) (sc_FencingEpoch r) (sc_WorkspaceID r)
    (sc_WorktreeID r) (sc_Branch r) (sc_BaselineSHA r) (sc_WritablePaths r)
    (sc_InterfaceEvidenceIDs r).

Definition zero_operationalScopePayload : operationalScopePayload :=
  mkoperationalScopePayload
    "" 0 0 0 "" "" 0 "" "" "" "" [] [].

Definition fields_operationalScopePayload : list (field operationalScopePayload) :=
  [
    fld "task_id" sc_TaskID dec_string;
    fld "expected_task_revision" sc_ExpectedTaskRevision dec_u64;
    fld "lifecycle_epoch" sc_LifecycleEpoch dec_u64;
    fld "scope_revision" sc_ScopeRevision dec_u64;
    fld "owner_fqn" sc_OwnerFQN dec_string;
    fld "execution_id" sc_ExecutionID dec_string;
    fld "fencing_epoch" sc_FencingEpoch dec_u64;
    fld "workspace_id" sc_WorkspaceID dec_string;
    fld "worktree_id" sc_WorktreeID dec_string;
    fld "branch" sc_Branch dec_string;
    fld "baseline_sha" sc_BaselineSHA dec_string;
    fld "writable_paths" sc_WritablePaths (dec_slice "" dec_string);
    fld "interface_constraint_evidence_ids" sc_InterfaceEvidenceIDs (dec_slice "" dec_string)
  ].

Definition TaskOperationalScopeFromPayload (payload : string) (eventID : UUIDv7)
    : option TaskOperationalScope :=
  try value <- Unmarshal fields_operationalScopePayload zero_operationalScopePayload payload ;;
  let scope :=
    mkTaskOperationalScope (sc_TaskID value) (u64 (sc_ExpectedTaskRevision value + 1))
      (sc_LifecycleEpoch value) (sc_ScopeRevision value) (sc_OwnerFQN value)
      (mkExec (sc_ExecutionID value) (sc_FencingEpoch value)) (sc_WorkspaceID value)
      (sc_WorktreeID value) (sc_Branch value) (sc_BaselineSHA value)
      (sort_strings (sc_WritablePaths value)) (sc_InterfaceEvidenceIDs value) eventID in
  when negb (TaskOperationalScope_Valid scope) return None ;;
  Some scope.

(** ** Invocations *)

Definition WorkInvocationState := string.
Definition InvocationAuthorized : WorkInvocationState := "AUTHORIZED".
Definition InvocationClaimed : WorkInvocationState := "CLAIMED".
Definition InvocationStarted : WorkInvocationState := "STARTED".
Definition InvocationStartFailed : WorkInvocationState := "START_FAILED".
Definition InvocationSucceeded : WorkInvocationState := "SUCCEEDED".
Definition InvocationFailed : WorkInvocationState := "FAILED".
Definition InvocationTimedOut : WorkInvocationState := "TIMED_OUT".
Definition InvocationCancelled : WorkInvocationState := "CANCELLED".
Definition InvocationExpired : WorkInvocationState := "EXPIRED".

Definition Terminal (s : WorkInvocationState) : bool :=
  (s == InvocationStartFailed) || (s == InvocationSucceeded) || (s == InvocationFailed)
  || (s == InvocationTimedOut) || (s == InvocationCancelled) || (s == InvocationExpired).

(** A slice for which [nil] and the empty slice differ when marshalled. *)
Definition nslice (A : Type) : Type := option (list A).
Definition nslice_list {A} (s : nslice A) : list A := default [] s.
Definition dec_nstrings : decoder (nslice string) := fun j cur =>
  match j with
  | JNull => Some None
  | JArray l => try v <- dec_list "" dec_string l ;; Some (Some v)
  | _ => None
  end.
Definition zero_nstrings : nslice string := None.
Definition nstrings : Type := nslice string.

Record HandlerDispatchBinding := mkHandlerDispatchBinding {
  hb_MessageID : UUIDv7;
  hb_MessageType : string;
  hb_MessagePurpose : string;
  hb_MessageBodyDigest : Digest;
  hb_SubscriptionPurpose : string;
  hb_RoleBundleDigest : Digest;
  hb_CharterDigest : Digest;
  hb_HandlerDigest : Digest;
  hb_InputSchemaDigest : Digest;
  hb_ResultSchemaDigest : Digest;
  hb_AllowedResults : nstrings;
  hb_AllowedMessageProposals : nstrings
}.

#[export] Instance eta_HandlerDispatchBinding : Eta HandlerDispatchBinding := fun r =>
  mkHandlerDispatchBinding
    (hb_MessageID r) (hb_MessageType r) (hb_MessagePurpose r) (hb_MessageBodyDigest r)
    (hb_SubscriptionPurpose r) (hb_RoleBundleDigest r) (hb_CharterDigest r)
    (hb_HandlerDigest r) (hb_InputSchemaDigest r) (hb_ResultSchemaDigest r)
    (hb_AllowedResults r) (hb_AllowedMessageProposals r).

Definition zero_HandlerDispatchBinding : HandlerDispatchBinding :=
  mkHandlerDispatchBinding
    "" "" "" "" "" "" "" "" "" "" zero_nstrings zero_nstrings.

Definition fields_HandlerDispatchBinding : list (field HandlerDispatchBinding) :=
  [
    fld "message_id" hb_MessageID dec_string;
    fld "message_type" hb_MessageType dec_string;
    fld "message_purpose" hb_MessagePurpose dec_string;
    fld "message_body_digest" hb_MessageBodyDigest dec_string;
    fld "subscription_purpose" hb_SubscriptionPurpose dec_string;
    fld "role_bundle_digest" hb_RoleBundleDigest dec_string;
    fld "charter_digest" hb_CharterDigest dec_string;
    fld "handler_digest" hb_HandlerDigest dec_string;
    fld "input_schema_digest" hb_InputSchemaDigest dec_string;
    fld "result_schema_digest" hb_ResultSchemaDigest dec_string;
    fld "allowed_results" hb_AllowedResults dec_nstrings;
    fld "allowed_message_proposals" hb_AllowedMessageProposals dec_nstrings
  ].
Definition dec_HandlerDispatchBinding : decoder HandlerDispatchBinding := dec_struct fields_HandlerDispatchBinding.

#[global] Instance HandlerDispatchBinding_eq_dec : EqDecision HandlerDispatchBinding.
Proof. solve_decision. Defined.

Definition HandlerDispatchBinding_Valid (b : HandlerDispatchBinding) : bool :=
  when negb (UUIDv7_Valid (hb_MessageID b)) || (slen (hb_MessageType b) <=? slen "tekroo.message.")
       || (256 <? slen (hb_MessageType b)) || negb (has_prefix (hb_MessageType b) "tekroo.message.")
       || negb (Digest_Valid (hb_MessageBodyDigest b)) || (hb_SubscriptionPurpose b == "")
       || (128 <? slen (hb_SubscriptionPurpose b)) || negb (Digest_Valid (hb_RoleBundleDigest b))
       || negb (Digest_Valid (hb_CharterDigest b)) || negb (Digest_Valid (hb_HandlerDigest b))
       || negb (Digest_Valid (hb_InputSchemaDigest b))
       || negb (Digest_Valid (hb_ResultSchemaDigest b))
       || negb (validUniqueStrings (nslice_list (hb_AllowedResults b)) 1 16)
       || negb (validUniqueStrings (nslice_list (hb_AllowedMessageProposals b)) 0 64)
    return false ;;
  contains ["REQUEST"; "HANDOFF"; "EVIDENCE"; "RESPONSE"; "NOTIFICATION"] (hb_MessagePurpose b).

(** [Clone] turns a [nil] slice into an empty one. *)
Definition HandlerDispatchBinding_Clone (b : HandlerDispatchBinding) : HandlerDispatchBinding :=
  b <| hb_AllowedResults := Some (nslice_list (hb_AllowedResults b)) |>
    <| hb_AllowedMessageProposals := Some (nslice_list (hb_AllowedMessageProposals b)) |>.

Definition cloneHandlerDispatchBinding (b : option HandlerDispatchBinding)
    : option HandlerDispatchBinding :=
  match b with None => None | Some b => Some (HandlerDispatchBinding_Clone b) end.

Definition sameHandlerDispatchBinding (left right : option HandlerDispatchBinding) : bool :=
  match left, right with
  | Some l, Some r =>
    (hb_MessageID l == hb_MessageID r) && (hb_MessageType l == hb_MessageType r)
    && (hb_MessagePurpose l == hb_MessagePurpose r)
    && (hb_MessageBodyDigest l == hb_MessageBodyDigest r)
    && (hb_SubscriptionPurpose l == hb_SubscriptionPurpose r)
    && (hb_RoleBundleDigest l == hb_RoleBundleDigest r) && (hb_CharterDigest l == hb_CharterDigest r)
    && (hb_HandlerDigest l == hb_HandlerDigest r) && (hb_InputSchemaDigest l == hb_InputSchemaDigest r)
    && (hb_ResultSchemaDigest l == hb_ResultSchemaDigest r)
    && equalStrings (nslice_list (hb_AllowedResults l)) (nslice_list (hb_AllowedResults r))
    && equalStrings (nslice_list (hb_AllowedMessageProposals l))
         (nslice_list (hb_AllowedMessageProposals r))
  | None, None => true
  | _, _ => false
  end.

Record WorkInvocation := mkWorkInvocation {
  iv_ID : UUIDv7;
  iv_Revision : Z;
  iv_State : WorkInvocationState;
  iv_AuthorizationEventID : UUIDv7;
  iv_ParentEventID : UUIDv7;
  iv_TaskID : UUIDv7;
  iv_BudgetAccountID : UUIDv7;
  iv_LifecycleEpoch : Z;
  iv_ScopeRevision : Z;
  iv_TaskRevision : Z;
  iv_WorkProfile : WorkProfileBinding;
  iv_QualifiedAssignmentID : UUIDv7;
  iv_Purpose : WorkPurpose;
  iv_AttemptFamily : string;
  iv_AttemptOrdinal : Z;
  iv_ConditionDigest : Digest;
  iv_RetryOfInvocationID : option UUIDv7;
  iv_RetryOrdinal : Z;
  iv_OutputPredicateDigest : Digest;
  iv_AllowedTerminalOutcomes : list WorkInvocationState;
  iv_ToolPolicyDigest : Digest;
  iv_EffectPolicyDigest : Digest;
  iv_HandlerDispatch : option HandlerDispatchBinding;
  iv_ActorFQN : ActorFQN;
  iv_Execution : ExecutionTuple;
  iv_ModelProfileDigest : Digest;
  iv_RuntimeIdentityDigest : Digest;
  iv_WorkspaceID : string;
  iv_DeadlineAt : Time;
  iv_IdempotencyKey : string;
  iv_AdmissionPolicyRevision : Z;
  iv_AdmissionPolicyDigest : Digest;
  iv_GlobalDebitOrdinal : Z;
  iv_PurposeDebitOrdinal : Z;
  iv_RemainingGlobalBudget : Z;
  iv_RemainingPurposeBudget : Z;
  iv_ClaimID : option UUIDv7;
  iv_ClaimedAt : option Time;
  iv_ConversationID : option string;
  iv_RequestDigest : option Digest;
  iv_StartedAt : option Time;
  iv_TerminalOutcome : option WorkInvocationState;
  iv_Retryable : option bool;
  iv_TerminalEvidenceIDs : list UUIDv7;
  iv_OutputDigest : option Digest;
  iv_FinishedAt : option Time;
  iv_CancellationRequestedAt : option Time;
  iv_LastEventID : UUIDv7
}.

#[export] Instance eta_WorkInvocation : Eta WorkInvocation := fun r =>
  mkWorkInvocation
    (iv_ID r) (iv_Revision r) (iv_State r) (iv_AuthorizationEventID r) (iv_ParentEventID r)
    (iv_TaskID r) (iv_BudgetAccountID r) (iv_LifecycleEpoch r) (iv_ScopeRevision r)
    (iv_TaskRevision r) (iv_WorkProfile r) (iv_QualifiedAssignmentID r) (iv_Purpose r)
    (iv_AttemptFamily r) (iv_AttemptOrdinal r) (iv_ConditionDigest r)
    (iv_RetryOfInvocationID r) (iv_RetryOrdinal r) (iv_OutputPredicateDigest r)
    (iv_AllowedTerminalOutcomes r) (iv_ToolPolicyDigest r) (iv_EffectPolicyDigest r)
    (iv_HandlerDispatch r) (iv_ActorFQN r) (iv_Execution r) (iv_ModelProfileDigest r)
    (iv_RuntimeIdentityDigest r) (iv_WorkspaceID r) (iv_DeadlineAt r) (iv_IdempotencyKey r)
    (iv_AdmissionPolicyRevision r) (iv_AdmissionPolicyDigest r) (iv_GlobalDebitOrdinal r)
    (iv_PurposeDebitOrdinal r) (iv_RemainingGlobalBudget r) (iv_RemainingPurposeBudget r)
    (iv_ClaimID r) (iv_ClaimedAt r) (iv_ConversationID r) (iv_RequestDigest r)
    (iv_StartedAt r) (iv_TerminalOutcome r) (iv_Retryable r) (iv_TerminalEvidenceIDs r)
    (iv_OutputDigest r) (iv_FinishedAt r) (iv_CancellationRequestedAt r) (iv_LastEventID r).

Definition zero_WorkInvocation : WorkInvocation :=
  mkWorkInvocation
    "" 0 "" "" "" "" "" 0 0 0 zero_WorkProfileBinding "" "" "" 0 "" None 0 "" [] "" "" None
    "" zero_exec "" "" "" zero_time "" 0 "" 0 0 0 0 None None None None None None None []
    None None None "".

#[global] Instance WorkInvocation_eq_dec : EqDecision WorkInvocation.
Proof. solve_decision. Defined.

Definition WorkInvocation_Ref (i : WorkInvocation) : AggregateRef :=
  mkRef AggregateWorkInvocation (iv_ID i).

Definition WorkInvocation_Valid (i : WorkInvocation) : bool :=
  when negb (UUIDv7_Valid (iv_ID i)) || (iv_Revision i == 0)
       || negb (UUIDv7_Valid (iv_AuthorizationEventID i)) || negb (UUIDv7_Valid (iv_ParentEventID i))
       || negb (UUIDv7_Valid (iv_TaskID i)) || negb (UUIDv7_Valid (iv_BudgetAccountID i))
       || (iv_LifecycleEpoch i == 0) || (iv_ScopeRevision i == 0) || (iv_TaskRevision i == 0)
       || negb (WorkProfileBinding_Valid (iv_WorkProfile i))
       || negb (UUIDv7_Valid (iv_QualifiedAssignmentID i)) || negb (WorkPurpose_Valid (iv_Purpose i))
       || (iv_AttemptFamily i == "") || (iv_AttemptOrdinal i == 0)
       || negb (Digest_Valid (iv_ConditionDigest i))
       || negb (Digest_Valid (iv_OutputPredicateDigest i)) || negb (ActorFQN_Valid (iv_ActorFQN i))
       || negb (ExecutionTuple_Valid (iv_Execution i))
       || negb (Digest_Valid (iv_ModelProfileDigest i))
       || negb (Digest_Valid (iv_RuntimeIdentityDigest i)) || (iv_WorkspaceID i == "")
       || IsZero (iv_DeadlineAt i) || (iv_IdempotencyKey i == "")
       || (iv_AdmissionPolicyRevision i == 0) || negb (Digest_Valid (iv_AdmissionPolicyDigest i))
       || (iv_GlobalDebitOrdinal i == 0) || (iv_PurposeDebitOrdinal i == 0)
       || negb (UUIDv7_Valid (iv_LastEventID i)) || (llen (iv_AllowedTerminalOutcomes i) == 0)
       || negb (Digest_Valid (iv_ToolPolicyDigest i))
       || negb (Digest_Valid (iv_EffectPolicyDigest i))
       || negb (opt_all HandlerDispatchBinding_Valid (iv_HandlerDispatch i))
    return false ;;
  match iv_RetryOfInvocationID i with
  | None => iv_RetryOrdinal i == 0
  | Some id => UUIDv7_Valid id && (iv_RetryOrdinal i != 0)
  end.

Record invocationAuthorizationPayload := mkinvocationAuthorizationPayload {
  ip_InvocationID : UUIDv7;
  ip_TaskID : UUIDv7;
  ip_BudgetAccountID : UUIDv7;
  ip_ExpectedBudgetRevision : Z;
  ip_ExpectedTaskRevision : Z;
  ip_LifecycleEpoch : Z;
  ip_ScopeRevision : Z;
  ip_ParentEventID : UUIDv7;
  ip_WorkProfile : WorkProfileBinding;
  ip_QualifiedAssignmentID : UUIDv7;
  ip_Purpose : WorkPurpose;
  ip_AttemptFamily : string;
  ip_AttemptOrdinal : Z;
  ip_ConditionDigest : Digest;
  ip_RetryOfInvocationID : option UUIDv7;
  ip_RetryOrdinal : Z;
  ip_OutputPredicateDigest : Digest;
  ip_AllowedTerminalOutcomes : list WorkInvocationState;
  ip_ToolPolicyDigest : Digest;
  ip_EffectPolicyDigest : Digest;
  ip_HandlerDispatch : option HandlerDispatchBinding;
  ip_ActorFQN : ActorFQN;
  ip_ExecutionID : UUIDv7;
  ip_FencingEpoch : Z;
  ip_ModelProfileDigest : Digest;
  ip_RuntimeIdentityDigest : Digest;
  ip_WorkspaceID : string;
  ip_DeadlineAt : Time;
  ip_IdempotencyKey : string;
  ip_AdmissionPolicyRevision : Z;
  ip_AdmissionPolicyDigest : Digest;
  ip_GlobalDebitOrdinal : Z;
  ip_PurposeDebitOrdinal : Z;
  ip_RemainingGlobalBudget : Z;
  ip_RemainingPurposeBudget : Z
}.

#[export] Instance eta_invocationAuthorizationPayload : Eta invocationAuthorizationPayload := fun r =>
  mkinvocationAuthorizationPayload
    (ip_InvocationID r) (ip_TaskID r) (ip_BudgetAccountID r) (ip_ExpectedBudgetRevision r)
    (ip_ExpectedTaskRevision r) (ip_LifecycleEpoch r) (ip_ScopeRevision r)
    (ip_ParentEventID r) (ip_WorkProfile r) (ip_QualifiedAssignmentID r) (ip_Purpose r)
    (ip_AttemptFamily r) (ip_AttemptOrdinal r) (ip_ConditionDigest r)
    (ip_RetryOfInvocationID r) (ip_RetryOrdinal r) (ip_OutputPredicateDigest r)
    (ip_AllowedTerminalOutcomes r) (ip_ToolPolicyDigest r) (ip_EffectPolicyDigest r)
    (ip_HandlerDispatch r) (ip_ActorFQN r) (ip_ExecutionID r) (ip_FencingEpoch r)
    (ip_ModelProfileDigest r) (ip_RuntimeIdentityDigest r) (ip_WorkspaceID r)
    (ip_DeadlineAt r) (ip_IdempotencyKey r) (ip_AdmissionPolicyRevision r)
    (ip_AdmissionPolicyDigest r) (ip_GlobalDebitOrdinal r) (ip_PurposeDebitOrdinal r)
    (ip_RemainingGlobalBudget r) (ip_RemainingPurposeBudget r).

Definition zero_invocationAuthorizationPayload : invocationAuthorizationPayload :=
  mkinvocationAuthorizationPayload
    "" "" "" 0 0 0 0 "" zero_WorkProfileBinding "" "" "" 0 "" None 0 "" [] "" "" None "" ""
    0 "" "" "" zero_time "" 0 "" 0 0 0 0.

Definition fields_invocationAuthorizationPayload : list (field invocationAuthorizationPayload) :=
  [
    fld "invocation_id" ip_InvocationID dec_string;
    fld "task_id" ip_TaskID dec_string;
    fld "budget_account_id" ip_BudgetAccountID dec_string;
    fld "expected_budget_revision" ip_ExpectedBudgetRevision dec_u64;
    fld "expected_task_revision" ip_ExpectedTaskRevision dec_u64;
    fld "lifecycle_epoch" ip_LifecycleEpoch dec_u64;
    fld "scope_revision" ip_ScopeRevision dec_u64;
    fld "parent_event_id" ip_ParentEventID dec_string;
    fld "work_profile" ip_WorkProfile dec_WorkProfileBinding;
    fld "qualified_assignment_id" ip_QualifiedAssignmentID dec_string;
    fld "purpose" ip_Purpose dec_string;
    fld "attempt_family" ip_AttemptFamily dec_string;
    fld "attempt_ordinal" ip_AttemptOrdinal dec_u64;
    fld "condition_digest" ip_ConditionDigest dec_string;
    fld "retry_of_invocation_id" ip_RetryOfInvocationID (dec_ptr "" dec_string);
    fld "retry_ordinal" ip_RetryOrdinal dec_u64;
    fld "output_predicate_digest" ip_OutputPredicateDigest dec_string;
    fld "allowed_terminal_outcomes" ip_AllowedTerminalOutcomes (dec_slice "" dec_string);
    fld "tool_policy_digest" ip_ToolPolicyDigest dec_string;
    fld "effect_policy_digest" ip_EffectPolicyDigest dec_string;
    fld "handler_dispatch" ip_HandlerDispatch (dec_ptr zero_HandlerDispatchBinding dec_HandlerDispatchBinding);
    fld "actor_fqn" ip_ActorFQN dec_string;
    fld "execution_id" ip_ExecutionID dec_string;
    fld "fencing_epoch" ip_FencingEpoch dec_u64;
    fld "model_profile_digest" ip_ModelProfileDigest dec_string;
    fld "runtime_identity_digest" ip_RuntimeIdentityDigest dec_string;
    fld "workspace_id" ip_WorkspaceID dec_string;
    fld "deadline_at" ip_DeadlineAt dec_time;
    fld "idempotency_key" ip_IdempotencyKey dec_string;
    fld "admission_policy_revision" ip_AdmissionPolicyRevision dec_u64;
    fld "admission_policy_digest" ip_AdmissionPolicyDigest dec_string;
    fld "global_debit_ordinal" ip_GlobalDebitOrdinal dec_u64;
    fld "purpose_debit_ordinal" ip_PurposeDebitOrdinal dec_u64;
    fld "remaining_global_budget" ip_RemainingGlobalBudget dec_u64;
    fld "remaining_purpose_budget" ip_RemainingPurposeBudget dec_u64
  ].

#[global] Instance invocationAuthorizationPayload_eq_dec : EqDecision invocationAuthorizationPayload.
Proof. solve_decision. Defined.

Definition parseInvocationAuthorization (payload : string)
    : option invocationAuthorizationPayload :=
  try v <- Unmarshal fields_invocationAuthorizationPayload zero_invocationAuthorizationPayload
             payload ;;
  when negb (UUIDv7_Valid (ip_InvocationID v)) || negb (UUIDv7_Valid (ip_TaskID v))
       || negb (UUIDv7_Valid (ip_BudgetAccountID v)) || (ip_ExpectedBudgetRevision v == 0)
       || (ip_ExpectedTaskRevision v == 0) || (ip_LifecycleEpoch v == 0) || (ip_ScopeRevision v == 0)
       || negb (UUIDv7_Valid (ip_ParentEventID v))
       || negb (WorkProfileBinding_Valid (ip_WorkProfile v))
       || negb (UUIDv7_Valid (ip_QualifiedAssignmentID v)) || negb (WorkPurpose_Valid (ip_Purpose v))
       || (ip_AttemptFamily v == "") || (ip_AttemptOrdinal v == 0)
       || negb (Digest_Valid (ip_ConditionDigest v))
       || negb (Digest_Valid (ip_OutputPredicateDigest v)) || negb (ActorFQN_Valid (ip_ActorFQN v))
       || negb (UUIDv7_Valid (ip_ExecutionID v)) || (ip_FencingEpoch v == 0)
       || negb (Digest_Valid (ip_ModelProfileDigest v))
       || negb (Digest_Valid (ip_RuntimeIdentityDigest v)) || (ip_WorkspaceID v == "")
       || IsZero (ip_DeadlineAt v) || (ip_IdempotencyKey v == "")
       || (ip_AdmissionPolicyRevision v == 0) || negb (Digest_Valid (ip_AdmissionPolicyDigest v))
       || (llen (ip_AllowedTerminalOutcomes v) == 0) || negb (Digest_Valid (ip_ToolPolicyDigest v))
       || negb (Digest_Valid (ip_EffectPolicyDigest v))
       || negb (opt_all HandlerDispatchBinding_Valid (ip_HandlerDispatch v))
    return None ;;
  Some v.

(** [json.Marshal] of the authorisation payload; members marked [omitempty]
    are left out when zero. *)
Definition enc_WorkProfileBinding (b : WorkProfileBinding) : string :=
  enc_object
    [("profile_id", enc_string (wb_ProfileID b));
     ("profile_revision", enc_uint (wb_ProfileRevision b));
     ("profile_digest", enc_string (wb_ProfileDigest b));
     ("lifecycle_epoch", enc_uint (wb_LifecycleEpoch b));
     ("scope_revision", enc_uint (wb_ScopeRevision b))].

Definition enc_strings (l : list string) : string := enc_array (map enc_string l).

Definition enc_HandlerDispatchBinding (b : HandlerDispatchBinding) : string :=
  enc_object
    [("message_id", enc_string (hb_MessageID b));
     ("message_type", enc_string (hb_MessageType b));
     ("message_purpose", enc_string (hb_MessagePurpose b));
     ("message_body_digest", enc_string (hb_MessageBodyDigest b));
     ("subscription_purpose", enc_string (hb_SubscriptionPurpose b));
     ("role_bundle_digest", enc_string (hb_RoleBundleDigest b));
     ("charter_digest", enc_string (hb_CharterDigest b));
     ("handler_digest", enc_string (hb_HandlerDigest b));
     ("input_schema_digest", enc_string (hb_InputSchemaDigest b));
     ("result_schema_digest", enc_string (hb_ResultSchemaDigest b));
     ("allowed_results", enc_ptr enc_strings (hb_AllowedResults b));
     ("allowed_message_proposals", enc_ptr enc_strings (hb_AllowedMessageProposals b))].

Definition omit_zero (name : string) (n : Z) : list (string * string) :=
  if n =? 0 then [] else [(name, enc_uint n)].

Definition enc_authorization (v : invocationAuthorizationPayload) : option string :=
  try deadline <- enc_time (ip_DeadlineAt v) ;;
  Some (enc_object (
    [("invocation_id", enc_string (ip_InvocationID v));
     ("task_id", enc_string (ip_TaskID v));
     ("budget_account_id", enc_string (ip_BudgetAccountID v));
     ("expected_budget_revision", enc_uint (ip_ExpectedBudgetRevision v));
     ("expected_task_revision", enc_uint (ip_ExpectedTaskRevision v));
     ("lifecycle_epoch", enc_uint (ip_LifecycleEpoch v));
     ("scope_revision", enc_uint (ip_ScopeRevision v));
     ("parent_event_id", enc_string (ip_ParentEventID v));
     ("work_profile", enc_WorkProfileBinding (ip_WorkProfile v));
     ("qualified_assignment_id", enc_string (ip_QualifiedAssignmentID v));
     ("purpose", enc_string (ip_Purpose v));
     ("attempt_family", enc_string (ip_AttemptFamily v));
     ("attempt_ordinal", enc_uint (ip_AttemptOrdinal v));
     ("condition_digest", enc_string (ip_ConditionDigest v));
     ("retry_of_invocation_id", enc_ptr enc_string (ip_RetryOfInvocationID v));
     ("retry_ordinal", enc_uint (ip_RetryOrdinal v));
     ("output_predicate_digest", enc_string (ip_OutputPredicateDigest v));
     ("allowed_terminal_outcomes", enc_strings (ip_AllowedTerminalOutcomes v));
     ("tool_policy_digest", enc_string (ip_ToolPolicyDigest v));
     ("effect_policy_digest", enc_string (ip_EffectPolicyDigest v))]
    ++ match ip_HandlerDispatch v with
       | Some b => [("handler_dispatch", enc_HandlerDispatchBinding b)]
       | None => []
       end ++
    [("actor_fqn", enc_string (ip_ActorFQN v));
     ("execution_id", enc_string (ip_ExecutionID v));
     ("fencing_epoch", enc_uint (ip_FencingEpoch v));
     ("model_profile_digest", enc_string (ip_ModelProfileDigest v));
     ("runtime_identity_digest", enc_string (ip_RuntimeIdentityDigest v));
     ("workspace_id", enc_string (ip_WorkspaceID v));
     ("deadline_at", deadline);
     ("idempotency_key", enc_string (ip_IdempotencyKey v));
     ("admission_policy_revision", enc_uint (ip_AdmissionPolicyRevision v));
     ("admission_policy_digest", enc_string (ip_AdmissionPolicyDigest v))]
    ++ omit_zero "global_debit_ordinal" (ip_GlobalDebitOrdinal v)
    ++ omit_zero "purpose_debit_ordinal" (ip_PurposeDebitOrdinal v)
    ++ omit_zero "remaining_global_budget" (ip_RemainingGlobalBudget v)
    ++ omit_zero "remaining_purpose_budget" (ip_RemainingPurposeBudget v))).

(** ** Authorisation *)

Record WorkBudgetDebitDecision := mkDebit {
  db_Account : AggregateRef;
  db_Task : AggregateRef;
  db_Purpose : WorkPurpose;
  db_ExpectedAccountRevision : Z;
  db_ExpectedGlobalUsed : Z;
  db_ExpectedGlobalPurposeUsed : Z;
  db_ExpectedTaskUsed : Z;
  db_ExpectedTaskPurposeUsed : Z;
  db_NextGlobalUsed : Z;
  db_NextGlobalPurposeUsed : Z;
  db_NextTaskUsed : Z;
  db_NextTaskPurposeUsed : Z
}.

Definition WorkBudgetDebitDecision_Valid (d : WorkBudgetDebitDecision) : bool :=
  (ref_Kind (db_Account d) == AggregateWorkBudget) && AggregateRef_Valid (db_Account d)
  && (ref_Kind (db_Task d) == AggregateTask) && AggregateRef_Valid (db_Task d)
  && WorkPurpose_Valid (db_Purpose d) && (0 <? db_ExpectedAccountRevision d)
  && (db_NextGlobalUsed d == u64 (db_ExpectedGlobalUsed d + 1))
  && (db_NextGlobalPurposeUsed d == u64 (db_ExpectedGlobalPurposeUsed d + 1))
  && (db_NextTaskUsed d == u64 (db_ExpectedTaskUsed d + 1))
  && (db_NextTaskPurposeUsed d == u64 (db_ExpectedTaskPurposeUsed d + 1)).

Record InvocationAdmissionDecision := mkAdmission {
  iad_Accepted : bool;
  iad_Reason : string;
  iad_Invocation : WorkInvocation;
  iad_BudgetDebit : option WorkBudgetDebitDecision;
  iad_EventPayload : string
}.

Definition reject_admission (reason : string) : InvocationAdmissionDecision :=
  mkAdmission false reason zero_WorkInvocation None "".

(** The invocation an authorisation creates. *)
Definition authorized_invocation (v : invocationAuthorizationPayload) (revision : Z)
    (eventID : UUIDv7) : WorkInvocation :=
  mkWorkInvocation (ip_InvocationID v) revision InvocationAuthorized eventID (ip_ParentEventID v)
    (ip_TaskID v) (ip_BudgetAccountID v) (ip_LifecycleEpoch v) (ip_ScopeRevision v)
    (ip_ExpectedTaskRevision v) (ip_WorkProfile v) (ip_QualifiedAssignmentID v) (ip_Purpose v)
    (ip_AttemptFamily v) (ip_AttemptOrdinal v) (ip_ConditionDigest v) (ip_RetryOfInvocationID v)
    (ip_RetryOrdinal v) (ip_OutputPredicateDigest v) (ip_AllowedTerminalOutcomes v)
    (ip_ToolPolicyDigest v) (ip_EffectPolicyDigest v)
    (cloneHandlerDispatchBinding (ip_HandlerDispatch v)) (ip_ActorFQN v)
    (mkExec (ip_ExecutionID v) (ip_FencingEpoch v)) (ip_ModelProfileDigest v)
    (ip_RuntimeIdentityDigest v) (ip_WorkspaceID v) (ip_DeadlineAt v) (ip_IdempotencyKey v)
    (ip_AdmissionPolicyRevision v) (ip_AdmissionPolicyDigest v) (ip_GlobalDebitOrdinal v)
    (ip_PurposeDebitOrdinal v) (ip_RemainingGlobalBudget v) (ip_RemainingPurposeBudget v)
    None None None None None None None [] None None None eventID.

(** A later attempt wins, then a later revision. *)
Definition later (candidate latest : WorkInvocation) : bool :=
  (iv_AttemptOrdinal latest <? iv_AttemptOrdinal candidate)
  || (iv_AttemptOrdinal candidate == iv_AttemptOrdinal latest)
     && (iv_Revision latest <? iv_Revision candidate).

(** The loop over earlier invocations of the task and purpose: [None] when one
    is still active, otherwise the latest one if any. Go ranges over a map in
    an unspecified order; the list is that order. *)
Fixpoint latest_loop (taskID : UUIDv7) (purpose : WorkPurpose) (latest : option WorkInvocation)
    (l : list WorkInvocation) : option (option WorkInvocation) :=
  match l with
  | [] => Some latest
  | candidate :: l =>
    when (iv_TaskID candidate != taskID) || (iv_Purpose candidate != purpose)
      return latest_loop taskID purpose latest l ;;
    when negb (Terminal (iv_State candidate)) return None ;;
    let latest :=
      match latest with
      | None => Some candidate
      | Some x => if later candidate x then Some candidate else latest
      end in
    latest_loop taskID purpose latest l
  end.

Definition recoverable (prior : WorkInvocation) : bool :=
  (iv_State prior == InvocationTimedOut)
  || (iv_State prior == InvocationCancelled) && negb (is_nil (iv_CancellationRequestedAt prior))
  || (iv_State prior == InvocationFailed) || (iv_State prior == InvocationStartFailed).

Definition validChangedConditionContinuation (v : invocationAuthorizationPayload)
    (profile : WorkRiskProfile) (account : WorkBudgetAccount) (prior : WorkInvocation) : bool :=
  match ip_RetryOfInvocationID v with
  | None => false
  | Some retryOf =>
    when (ip_RetryOrdinal v == 0) || is_nil (wp_SupersedesProfileID profile) return false ;;
    when negb (WorkInvocation_Valid prior) || (retryOf != iv_ID prior)
         || (iv_TaskID prior != ip_TaskID v) || (iv_Purpose prior != ip_Purpose v)
         || negb (sameHandlerDispatchBinding (ip_HandlerDispatch v) (iv_HandlerDispatch prior))
         || (ip_AttemptOrdinal v != u64 (iv_AttemptOrdinal prior + 1))
         || (ip_RetryOrdinal v != u64 (iv_RetryOrdinal prior + 1))
         || (ip_ConditionDigest v == iv_ConditionDigest prior)
         || (wp_ProfileRevision profile <=? wb_ProfileRevision (iv_WorkProfile prior))
         || (ip_WorkProfile v != Binding profile)
         || negb (After (ip_DeadlineAt v) (iv_DeadlineAt prior))
         || negb (TimeEqual (fb_DeadlineAt (wp_Budgets profile)) (ip_DeadlineAt v))
         || (ba_PolicyRevision account <=? iv_AdmissionPolicyRevision prior)
         || (llen (iv_TerminalEvidenceIDs prior) == 0)
      return false ;;
    when negb (recoverable prior) return false ;;
    forallb (contains (wp_ClassificationEvidenceIDs profile)) (iv_TerminalEvidenceIDs prior)
  end.

Definition validCandidateRevalidation (v : invocationAuthorizationPayload) (prior : WorkInvocation)
    : bool :=
  when negb (contains [PurposeHandoff; PurposeValidation; PurposeReview; PurposeRepair;
                       PurposeReplan; PurposePromotion] (ip_Purpose v))
    return false ;;
  (ip_RetryOfInvocationID v == Some (iv_ID prior))
  && sameHandlerDispatchBinding (ip_HandlerDispatch v) (iv_HandlerDispatch prior)
  && (ip_RetryOrdinal v == u64 (iv_RetryOrdinal prior + 1))
  && (ip_AttemptOrdinal v == u64 (iv_AttemptOrdinal prior + 1))
  && (iv_State prior == InvocationSucceeded)
  && (ip_ConditionDigest v != iv_ConditionDigest prior).

(** The retry rule: a first attempt, or a continuation of the latest one. *)
Definition retry_reason (v : invocationAuthorizationPayload) (profile : WorkRiskProfile)
    (account : WorkBudgetAccount) (latest : option WorkInvocation) : option string :=
  match latest with
  | None =>
    if (ip_AttemptOrdinal v != 1) || negb (is_nil (ip_RetryOfInvocationID v))
       || (ip_RetryOrdinal v != 0)
    then Some "INVALID_RETRY" else None
  | Some prior =>
    when ip_ConditionDigest v == iv_ConditionDigest prior return Some "UNCHANGED_CONDITION" ;;
    when negb (validChangedConditionContinuation v profile account prior)
         && negb (validCandidateRevalidation v prior)
      return Some "INVALID_RETRY" ;;
    None
  end.

(** The checks before the budget is debited; [None] when all pass. *)
Definition admission_reason (v : invocationAuthorizationPayload) (task : AggregateState)
    (account : WorkBudgetAccount) (binding : TaskWorkBudgetBinding) (scope : TaskOperationalScope)
    (profile : WorkProfileSnapshot) (assignment : QualifiedAssignmentAuthorization)
    (currentExecution : ExecutionTuple) (now : Time) : option string :=
  let execution := mkExec (ip_ExecutionID v) (ip_FencingEpoch v) in
  when (as_Kind task != AggregateTask) || (as_ID task != ip_TaskID v)
    return Some "INVALID_INVOCATION" ;;
  when negb (WorkBudgetAccount_Valid account) || (ba_ID account != ip_BudgetAccountID v)
       || (tb_BudgetAccountID binding != ba_ID account) || (tb_TaskID binding != as_ID task)
    return Some "MISSING_BUDGET" ;;
  when ip_ExpectedBudgetRevision v != ba_Revision account return Some "STALE_BUDGET_REVISION" ;;
  when ip_ExpectedTaskRevision v != as_Revision task return Some "STALE_TASK_REVISION" ;;
  when (ip_LifecycleEpoch v != as_LifecycleEpoch task)
       || (tb_LifecycleEpoch binding != as_LifecycleEpoch task)
       || (os_LifecycleEpoch scope != as_LifecycleEpoch task)
    return Some "STALE_LIFECYCLE" ;;
  when (ip_ScopeRevision v != as_ScopeRevision task)
       || (tb_ScopeRevision binding != as_ScopeRevision task)
       || (os_ScopeRevision scope != as_ScopeRevision task)
    return Some "STALE_SCOPE" ;;
  when (as_Condition task != ConditionRunnable) || (as_Phase task != PhaseActive)
    return Some "TASK_NOT_RUNNABLE" ;;
  when negb (WorkProfileSnapshot_Valid profile) || (Binding (ws_Profile profile) != ip_WorkProfile v)
       || (qa_AssignmentID assignment != ip_QualifiedAssignmentID v)
       || (qa_WorkProfile assignment != ip_WorkProfile v) || (qa_TaskID assignment != as_ID task)
    return Some "STALE_ASSIGNMENT" ;;
  when (ip_ActorFQN v != qa_SelectedActorFQN assignment)
       || (execution != SelectedExecution assignment) || (execution != currentExecution)
       || (os_OwnerFQN scope != ip_ActorFQN v) || (os_Execution scope != execution)
       || (ip_ModelProfileDigest v != qa_ModelProfileDigest assignment)
       || (ip_RuntimeIdentityDigest v != qa_RuntimeIdentityDigest assignment)
       || (os_WorkspaceID scope != ip_WorkspaceID v)
    return Some "RUNTIME_IDENTITY_MISMATCH" ;;
  when (ip_AdmissionPolicyRevision v != ba_PolicyRevision account)
       || (ip_AdmissionPolicyDigest v != ba_PolicyDigest account)
    return Some "STALE_ADMISSION_POLICY" ;;
  when negb (Before now (ba_DeadlineAt account)) || negb (Before now (ip_DeadlineAt v))
       || After (ip_DeadlineAt v) (ba_DeadlineAt account)
    return Some "DEADLINE_EXPIRED" ;;
  when (ba_ModelInvocationLimit account <=? ba_ModelInvocationsUsed account)
       || (tb_ModelInvocationLimit binding <=? tb_ModelInvocationsUsed binding)
    return Some "BUDGET_EXHAUSTED" ;;
  when (mget 0 (ip_Purpose v) (ba_PurposeLimits account)
          <=? mget 0 (ip_Purpose v) (ba_PurposeUsed account))
       || (mget 0 (ip_Purpose v) (tb_PurposeLimits binding)
             <=? mget 0 (ip_Purpose v) (tb_PurposeUsed binding))
    return Some "PURPOSE_BUDGET_EXHAUSTED" ;;
  None.

(** The payload with the debit recorded in it. *)
Definition debited (v : invocationAuthorizationPayload) (account : WorkBudgetAccount)
    : invocationAuthorizationPayload :=
  let globalUsed := u64 (ba_ModelInvocationsUsed account + 1) in
  let purposeUsed := u64 (mget 0 (ip_Purpose v) (ba_PurposeUsed account) + 1) in
  v <| ip_GlobalDebitOrdinal := globalUsed |>
    <| ip_PurposeDebitOrdinal := purposeUsed |>
    <| ip_RemainingGlobalBudget := u64 (ba_ModelInvocationLimit account - globalUsed) |>
    <| ip_RemainingPurposeBudget :=
         u64 (mget 0 (ip_Purpose v) (ba_PurposeLimits account) - purposeUsed) |>.

Definition budget_debit (v : invocationAuthorizationPayload) (task : AggregateState)
    (account : WorkBudgetAccount) (binding : TaskWorkBudgetBinding) : WorkBudgetDebitDecision :=
  let p := ip_Purpose v in
  mkDebit (WorkBudgetAccount_Ref account) (mkRef AggregateTask (as_ID task)) p
    (ba_Revision account) (ba_ModelInvocationsUsed account) (mget 0 p (ba_PurposeUsed account))
    (tb_ModelInvocationsUsed binding) (mget 0 p (tb_PurposeUsed binding))
    (u64 (ba_ModelInvocationsUsed account + 1)) (u64 (mget 0 p (ba_PurposeUsed account) + 1))
    (u64 (tb_ModelInvocationsUsed binding + 1)) (u64 (mget 0 p (tb_PurposeUsed binding) + 1)).

Definition PlanWorkInvocationAuthorization (payload : string) (task : AggregateState)
    (account : WorkBudgetAccount) (binding : TaskWorkBudgetBinding) (scope : TaskOperationalScope)
    (profile : WorkProfileSnapshot) (assignment : QualifiedAssignmentAuthorization)
    (currentExecution : ExecutionTuple) (invocations : list WorkInvocation) (now : Time)
    (eventID : UUIDv7) : InvocationAdmissionDecision :=
  match parseInvocationAuthorization payload with
  | None => reject_admission "INVALID_INVOCATION"
  | Some v =>
    match admission_reason v task account binding scope profile assignment currentExecution now with
    | Some reason => reject_admission reason
    | None =>
      match latest_loop (as_ID task) (ip_Purpose v) None invocations with
      | None => reject_admission "ACTIVE_INVOCATION_EXISTS"
      | Some latest =>
        match retry_reason v (ws_Profile profile) account latest with
        | Some reason => reject_admission reason
        | None =>
          let v := debited v account in
          match enc_authorization v with
          | None => reject_admission "INVALID_INVOCATION"
          | Some eventPayload =>
            let invocation := authorized_invocation v 1 eventID in
            when negb (WorkInvocation_Valid invocation)
              return reject_admission "INVALID_INVOCATION" ;;
            mkAdmission true "ACCEPTED" invocation (Some (budget_debit v task account binding))
              eventPayload
          end
        end
      end
    end
  end.

Definition WorkInvocationFromAuthorizedEvent (event : DomainEvent) : option WorkInvocation :=
  try v <- parseInvocationAuthorization (ev_Payload event) ;;
  when (ip_GlobalDebitOrdinal v == 0) || (ip_PurposeDebitOrdinal v == 0) return None ;;
  let invocation := authorized_invocation v (ev_AggregateRevision event) (ev_EventID event) in
  when negb (WorkInvocation_Valid invocation) || (iv_ID invocation != ref_ID (ev_Aggregate event))
    return None ;;
  Some invocation.

(** ** The invocation state machine *)

Record claimedPayload := mkclaimedPayload {
  ck_InvocationID : UUIDv7;
  ck_ExpectedRevision : Z;
  ck_ClaimID : UUIDv7;
  ck_ActorFQN : ActorFQN;
  ck_ExecutionID : UUIDv7;
  ck_FencingEpoch : Z;
  ck_ModelProfileDigest : Digest;
  ck_RuntimeIdentityDigest : Digest;
  ck_ClaimedAt : Time
}.

#[export] Instance eta_claimedPayload : Eta claimedPayload := fun r =>
  mkclaimedPayload
    (ck_InvocationID r) (ck_ExpectedRevision r) (ck_ClaimID r) (ck_ActorFQN r)
    (ck_ExecutionID r) (ck_FencingEpoch r) (ck_ModelProfileDigest r)
    (ck_RuntimeIdentityDigest r) (ck_ClaimedAt r).

Definition zero_claimedPayload : claimedPayload :=
  mkclaimedPayload
    "" 0 "" "" "" 0 "" "" zero_time.

Definition fields_claimedPayload : list (field claimedPayload) :=
  [
    fld "invocation_id" ck_InvocationID dec_string;
    fld "expected_invocation_revision" ck_ExpectedRevision dec_u64;
    fld "claim_id" ck_ClaimID dec_string;
    fld "actor_fqn" ck_ActorFQN dec_string;
    fld "execution_id" ck_ExecutionID dec_string;
    fld "fencing_epoch" ck_FencingEpoch dec_u64;
    fld "model_profile_digest" ck_ModelProfileDigest dec_string;
    fld "runtime_identity_digest" ck_RuntimeIdentityDigest dec_string;
    fld "claimed_at" ck_ClaimedAt dec_time
  ].

Record startedPayload := mkstartedPayload {
  sd_InvocationID : UUIDv7;
  sd_ExpectedRevision : Z;
  sd_ClaimID : UUIDv7;
  sd_ConversationID : string;
  sd_RequestDigest : Digest;
  sd_StartedAt : Time
}.

#[export] Instance eta_startedPayload : Eta startedPayload := fun r =>
  mkstartedPayload
    (sd_InvocationID r) (sd_ExpectedRevision r) (sd_ClaimID r) (sd_ConversationID r)
    (sd_RequestDigest r) (sd_StartedAt r).

Definition zero_startedPayload : startedPayload :=
  mkstartedPayload
    "" 0 "" "" "" zero_time.

Definition fields_startedPayload : list (field startedPayload) :=
  [
    fld "invocation_id" sd_InvocationID dec_string;
    fld "expected_invocation_revision" sd_ExpectedRevision dec_u64;
    fld "claim_id" sd_ClaimID dec_string;
    fld "conversation_id" sd_ConversationID dec_string;
    fld "request_digest" sd_RequestDigest dec_string;
    fld "started_at" sd_StartedAt dec_time
  ].

Record terminalPayload := mkterminalPayload {
  td_InvocationID : UUIDv7;
  td_ExpectedRevision : Z;
  td_ClaimID : UUIDv7;
  td_Outcome : WorkInvocationState;
  td_Retryable : bool;
  td_EvidenceIDs : list UUIDv7;
  td_OutputDigest : Digest;
  td_FinishedAt : Time
}.

#[export] Instance eta_terminalPayload : Eta terminalPayload := fun r =>
  mkterminalPayload
    (td_InvocationID r) (td_ExpectedRevision r) (td_ClaimID r) (td_Outcome r)
    (td_Retryable r) (td_EvidenceIDs r) (td_OutputDigest r) (td_FinishedAt r).

Definition zero_terminalPayload : terminalPayload :=
  mkterminalPayload
    "" 0 "" "" false [] "" zero_time.

Definition fields_terminalPayload : list (field terminalPayload) :=
  [
    fld "invocation_id" td_InvocationID dec_string;
    fld "expected_invocation_revision" td_ExpectedRevision dec_u64;
    fld "claim_id" td_ClaimID dec_string;
    fld "outcome" td_Outcome dec_string;
    fld "retryable" td_Retryable dec_bool;
    fld "evidence_ids" td_EvidenceIDs (dec_slice "" dec_string);
    fld "output_digest" td_OutputDigest dec_string;
    fld "finished_at" td_FinishedAt dec_time
  ].

Record cancelPayload := mkcancelPayload {
  cn_InvocationID : UUIDv7;
  cn_ExpectedRevision : Z;
  cn_RequestedAt : Time
}.

#[export] Instance eta_cancelPayload : Eta cancelPayload := fun r =>
  mkcancelPayload
    (cn_InvocationID r) (cn_ExpectedRevision r) (cn_RequestedAt r).

Definition zero_cancelPayload : cancelPayload :=
  mkcancelPayload
    "" 0 zero_time.

Definition fields_cancelPayload : list (field cancelPayload) :=
  [
    fld "invocation_id" cn_InvocationID dec_string;
    fld "expected_invocation_revision" cn_ExpectedRevision dec_u64;
    fld "requested_at" cn_RequestedAt dec_time
  ].

Record invocationExpiredPayload := mkinvocationExpiredPayload {
  ep_InvocationID : UUIDv7;
  ep_ExpectedRevision : Z;
  ep_DeadlineAt : Time;
  ep_ObservedAt : Time
}.

#[export] Instance eta_invocationExpiredPayload : Eta invocationExpiredPayload := fun r =>
  mkinvocationExpiredPayload
    (ep_InvocationID r) (ep_ExpectedRevision r) (ep_DeadlineAt r) (ep_ObservedAt r).

Definition zero_invocationExpiredPayload : invocationExpiredPayload :=
  mkinvocationExpiredPayload
    "" 0 zero_time zero_time.

Definition fields_invocationExpiredPayload : list (field invocationExpiredPayload) :=
  [
    fld "invocation_id" ep_InvocationID dec_string;
    fld "expected_invocation_revision" ep_ExpectedRevision dec_u64;
    fld "deadline_at" ep_DeadlineAt dec_time;
    fld "observed_at" ep_ObservedAt dec_time
  ].

Definition containsInvocationOutcome (values : list WorkInvocationState)
    (target : WorkInvocationState) : bool := contains values target.

Definition claim_invocation (i : WorkInvocation) (payload : string) : option WorkInvocation :=
  try v <- Unmarshal fields_claimedPayload zero_claimedPayload payload ;;
  when (iv_State i != InvocationAuthorized) || (ck_InvocationID v != iv_ID i)
       || (ck_ExpectedRevision v != iv_Revision i) || negb (UUIDv7_Valid (ck_ClaimID v))
       || (ck_ActorFQN v != iv_ActorFQN i)
       || (mkExec (ck_ExecutionID v) (ck_FencingEpoch v) != iv_Execution i)
       || (ck_ModelProfileDigest v != iv_ModelProfileDigest i)
       || (ck_RuntimeIdentityDigest v != iv_RuntimeIdentityDigest i) || IsZero (ck_ClaimedAt v)
       || negb (Before (ck_ClaimedAt v) (iv_DeadlineAt i))
    return None ;;
  Some (i <| iv_State := InvocationClaimed |>
          <| iv_ClaimID := Some (ck_ClaimID v) |>
          <| iv_ClaimedAt := Some (ck_ClaimedAt v) |>).

Definition start_invocation (i : WorkInvocation) (payload : string) : option WorkInvocation :=
  try v <- Unmarshal fields_startedPayload zero_startedPayload payload ;;
  when (iv_State i != InvocationClaimed) || (sd_InvocationID v != iv_ID i)
       || (sd_ExpectedRevision v != iv_Revision i) || (iv_ClaimID i != Some (sd_ClaimID v))
       || (sd_ConversationID v == "") || negb (Digest_Valid (sd_RequestDigest v))
       || IsZero (sd_StartedAt v) || negb (Before (sd_StartedAt v) (iv_DeadlineAt i))
    return None ;;
  Some (i <| iv_State := InvocationStarted |>
          <| iv_ConversationID := Some (sd_ConversationID v) |>
          <| iv_RequestDigest := Some (sd_RequestDigest v) |>
          <| iv_StartedAt := Some (sd_StartedAt v) |>).

Definition finish_invocation (i : WorkInvocation) (payload : string) : option WorkInvocation :=
  try v <- Unmarshal fields_terminalPayload zero_terminalPayload payload ;;
  when (iv_State i != InvocationStarted)
         && negb ((iv_State i == InvocationClaimed) && (td_Outcome v == InvocationStartFailed))
       || (td_InvocationID v != iv_ID i) || (td_ExpectedRevision v != iv_Revision i)
       || (iv_ClaimID i != Some (td_ClaimID v))
       || negb (containsInvocationOutcome (iv_AllowedTerminalOutcomes i) (td_Outcome v))
       || (llen (td_EvidenceIDs v) == 0) || negb (validUniqueUUIDs (td_EvidenceIDs v) 1 64)
       || negb (Digest_Valid (td_OutputDigest v)) || IsZero (td_FinishedAt v)
    return None ;;
  Some (i <| iv_State := td_Outcome v |>
          <| iv_TerminalOutcome := Some (td_Outcome v) |>
          <| iv_Retryable := Some (td_Retryable v) |>
          <| iv_TerminalEvidenceIDs := td_EvidenceIDs v |>
          <| iv_OutputDigest := Some (td_OutputDigest v) |>
          <| iv_FinishedAt := Some (td_FinishedAt v) |>).

Definition request_cancellation (i : WorkInvocation) (payload : string) : option WorkInvocation :=
  try v <- Unmarshal fields_cancelPayload zero_cancelPayload payload ;;
  when (iv_State i != InvocationStarted) || negb (is_nil (iv_CancellationRequestedAt i))
       || (cn_InvocationID v != iv_ID i) || (cn_ExpectedRevision v != iv_Revision i)
       || IsZero (cn_RequestedAt v)
    return None ;;
  Some (i <| iv_CancellationRequestedAt := Some (cn_RequestedAt v) |>).

Definition expire_invocation (i : WorkInvocation) (payload : string) : option WorkInvocation :=
  try v <- Unmarshal fields_invocationExpiredPayload zero_invocationExpiredPayload payload ;;
  when (iv_State i != InvocationAuthorized) || (ep_InvocationID v != iv_ID i)
       || (ep_ExpectedRevision v != iv_Revision i)
       || negb (TimeEqual (ep_DeadlineAt v) (iv_DeadlineAt i))
       || Before (ep_ObservedAt v) (iv_DeadlineAt i)
    return None ;;
  Some (i <| iv_State := InvocationExpired |>
          <| iv_FinishedAt := Some (ep_ObservedAt v) |>).

Definition invocation_case (i : WorkInvocation) (event : DomainEvent) : option WorkInvocation :=
  let type := ev_EventType event in
  let payload := ev_Payload event in
  if type == "tekroo.event.work-invocation.claimed" then claim_invocation i payload
  else if type == "tekroo.event.work-invocation.started" then start_invocation i payload
  else if type == "tekroo.event.work-invocation.terminal-recorded" then finish_invocation i payload
  else if type == "tekroo.event.work-invocation.cancellation-requested"
  then request_cancellation i payload
  else if type == "tekroo.event.work-invocation.expired" then expire_invocation i payload
  else None.

Definition ApplyWorkInvocationEvent (current : WorkInvocation) (event : DomainEvent)
    : WorkInvocation * bool :=
  when (ev_Aggregate event != WorkInvocation_Ref current)
       || (ev_AggregateRevision event != u64 (iv_Revision current + 1))
       || Terminal (iv_State current)
    return (current, false) ;;
  match invocation_case current event with
  | None => (current, false)
  | Some next =>
    let next := next <| iv_Revision := ev_AggregateRevision event |>
                     <| iv_LastEventID := ev_EventID event |> in
    (next, WorkInvocation_Valid next)
  end.

(** ** The contract scenarios

    The evaluators the contract fixtures run against: the admission rule and
    the budget rule on scenario records. *)

Record InvocationAdmissionScenarioBudget := mkInvocationAdmissionScenarioBudget {
  sb_AccountID : string;
  sb_DeadlineAt : Time;
  sb_Limit : Z;
  sb_Used : Z;
  sb_PurposeLimit : Z;
  sb_PurposeUsed : Z
}.

#[export] Instance eta_InvocationAdmissionScenarioBudget : Eta InvocationAdmissionScenarioBudget := fun r =>
  mkInvocationAdmissionScenarioBudget
    (sb_AccountID r) (sb_DeadlineAt r) (sb_Limit r) (sb_Used r) (sb_PurposeLimit r)
    (sb_PurposeUsed r).

Definition zero_InvocationAdmissionScenarioBudget : InvocationAdmissionScenarioBudget :=
  mkInvocationAdmissionScenarioBudget
    "" zero_time 0 0 0 0.

Record InvocationAdmissionScenarioExact := mkInvocationAdmissionScenarioExact {
  sx_ActorFQN : string;
  sx_ExecutionID : string;
  sx_FencingEpoch : Z;
  sx_LifecycleEpoch : Z;
  sx_ScopeRevision : Z;
  sx_TaskRevision : Z;
  sx_ModelDigest : string;
  sx_RuntimeDigest : string
}.

#[export] Instance eta_InvocationAdmissionScenarioExact : Eta InvocationAdmissionScenarioExact := fun r =>
  mkInvocationAdmissionScenarioExact
    (sx_ActorFQN r) (sx_ExecutionID r) (sx_FencingEpoch r) (sx_LifecycleEpoch r)
    (sx_ScopeRevision r) (sx_TaskRevision r) (sx_ModelDigest r) (sx_RuntimeDigest r).

Definition zero_InvocationAdmissionScenarioExact : InvocationAdmissionScenarioExact :=
  mkInvocationAdmissionScenarioExact
    "" "" 0 0 0 0 "" "".

Record InvocationAdmissionScenarioTerminal := mkInvocationAdmissionScenarioTerminal {
  sm_InvocationID : string;
  sm_RetryOrdinal : Z;
  sm_Retryable : bool
}.

#[export] Instance eta_InvocationAdmissionScenarioTerminal : Eta InvocationAdmissionScenarioTerminal := fun r =>
  mkInvocationAdmissionScenarioTerminal
    (sm_InvocationID r) (sm_RetryOrdinal r) (sm_Retryable r).

Definition zero_InvocationAdmissionScenarioTerminal : InvocationAdmissionScenarioTerminal :=
  mkInvocationAdmissionScenarioTerminal
    "" 0 false.

Record InvocationAdmissionScenarioGiven := mkInvocationAdmissionScenarioGiven {
  sg_Budget : option InvocationAdmissionScenarioBudget;
  sg_Consumed : bool;
  sg_Exact : InvocationAdmissionScenarioExact;
  sg_LastConditionDigest : option string;
  sg_PriorTerminal : option InvocationAdmissionScenarioTerminal;
  sg_State : string
}.

#[export] Instance eta_InvocationAdmissionScenarioGiven : Eta InvocationAdmissionScenarioGiven := fun r =>
  mkInvocationAdmissionScenarioGiven
    (sg_Budget r) (sg_Consumed r) (sg_Exact r) (sg_LastConditionDigest r)
    (sg_PriorTerminal r) (sg_State r).

Definition zero_InvocationAdmissionScenarioGiven : InvocationAdmissionScenarioGiven :=
  mkInvocationAdmissionScenarioGiven
    None false zero_InvocationAdmissionScenarioExact None None "".

Record InvocationAdmissionScenarioAction := mkInvocationAdmissionScenarioAction {
  sa_Action : string;
  sa_ActorFQN : string;
  sa_ExecutionID : string;
  sa_FencingEpoch : Z;
  sa_LifecycleEpoch : Z;
  sa_ScopeRevision : Z;
  sa_TaskRevision : Z;
  sa_ModelDigest : string;
  sa_RuntimeDigest : string;
  sa_ConditionDigest : string;
  sa_Origin : string;
  sa_RetryOf : option string;
  sa_RetryOrdinal : Z;
  sa_BeforeDeadline : bool;
  sa_Consumed : bool;
  sa_IdentityMatches : bool;
  sa_Outcome : string;
  sa_TerminalEvidence : bool
}.

#[export] Instance eta_InvocationAdmissionScenarioAction : Eta InvocationAdmissionScenarioAction := fun r =>
  mkInvocationAdmissionScenarioAction
    (sa_Action r) (sa_ActorFQN r) (sa_ExecutionID r) (sa_FencingEpoch r)
    (sa_LifecycleEpoch r) (sa_ScopeRevision r) (sa_TaskRevision r) (sa_ModelDigest r)
    (sa_RuntimeDigest r) (sa_ConditionDigest r) (sa_Origin r) (sa_RetryOf r)
    (sa_RetryOrdinal r) (sa_BeforeDeadline r) (sa_Consumed r) (sa_IdentityMatches r)
    (sa_Outcome r) (sa_TerminalEvidence r).

Definition zero_InvocationAdmissionScenarioAction : InvocationAdmissionScenarioAction :=
  mkInvocationAdmissionScenarioAction
    "" "" "" 0 0 0 0 "" "" "" "" None 0 false false false "" false.

Record InvocationAdmissionScenarioResult := mkInvocationAdmissionScenarioResult {
  sr_Accepted : bool;
  sr_Reason : string;
  sr_State : string;
  sr_GlobalUsed : option Z;
  sr_PurposeUsed : option Z;
  sr_MaximumAdditionalInvocations : option Z;
  sr_CancellationRequested : option bool
}.

#[export] Instance eta_InvocationAdmissionScenarioResult : Eta InvocationAdmissionScenarioResult := fun r =>
  mkInvocationAdmissionScenarioResult
    (sr_Accepted r) (sr_Reason r) (sr_State r) (sr_GlobalUsed r) (sr_PurposeUsed r)
    (sr_MaximumAdditionalInvocations r) (sr_CancellationRequested r).

Definition zero_InvocationAdmissionScenarioResult : InvocationAdmissionScenarioResult :=
  mkInvocationAdmissionScenarioResult
    false "" "" None None None None.

Definition scenario_refused (state reason : string) : InvocationAdmissionScenarioResult :=
  mkInvocationAdmissionScenarioResult false reason state None None None None.

(** An unchanged condition is admitted only as the declared retry of a
    retryable invocation. *)
Definition scenario_unchanged (given : InvocationAdmissionScenarioGiven)
    (action : InvocationAdmissionScenarioAction) : bool :=
  match sg_LastConditionDigest given with
  | None => false
  | Some digest =>
    (digest == sa_ConditionDigest action) &&
    match sg_PriorTerminal given with
    | None => true
    | Some prior =>
      negb (sm_Retryable prior) || (sa_RetryOf action != Some (sm_InvocationID prior))
      || (sa_RetryOrdinal action != u64 (sm_RetryOrdinal prior + 1))
    end
  end.

Definition scenario_authorize (given : InvocationAdmissionScenarioGiven)
    (action : InvocationAdmissionScenarioAction) : InvocationAdmissionScenarioResult :=
  let exact := sg_Exact given in
  match sg_Budget given with
  | None => scenario_refused "" "MISSING_BUDGET"
  | Some budget =>
    when sa_Origin action != "TEAMS_KERNEL" return scenario_refused "" "DIRECT_WAKEUP_PROHIBITED" ;;
    when sa_TaskRevision action != sx_TaskRevision exact
      return scenario_refused "" "STALE_TASK_REVISION" ;;
    when sa_LifecycleEpoch action != sx_LifecycleEpoch exact
      return scenario_refused "" "STALE_LIFECYCLE" ;;
    when (sa_ScopeRevision action != sx_ScopeRevision exact)
         || (sa_ActorFQN action != sx_ActorFQN exact)
         || (sa_ExecutionID action != sx_ExecutionID exact)
         || (sa_FencingEpoch action != sx_FencingEpoch exact)
         || (sa_ModelDigest action != sx_ModelDigest exact)
         || (sa_RuntimeDigest action != sx_RuntimeDigest exact)
      return scenario_refused "" "RUNTIME_IDENTITY_MISMATCH" ;;
    when (sb_Limit budget <=? sb_Used budget) || (sb_PurposeLimit budget <=? sb_PurposeUsed budget)
      return scenario_refused "" "BUDGET_EXHAUSTED" ;;
    when scenario_unchanged given action return scenario_refused "" "UNCHANGED_CONDITION" ;;
    let globalUsed := u64 (sb_Used budget + 1) in
    let purposeUsed := u64 (sb_PurposeUsed budget + 1) in
    mkInvocationAdmissionScenarioResult true "ACCEPTED" "" (Some globalUsed) (Some purposeUsed)
      (Some (u64 (sb_Limit budget - globalUsed))) None
  end.

Definition EvaluateInvocationAdmissionScenario (given : InvocationAdmissionScenarioGiven)
    (action : InvocationAdmissionScenarioAction) : InvocationAdmissionScenarioResult :=
  let refused := scenario_refused (sg_State given) in
  let accepted reason state requested :=
    mkInvocationAdmissionScenarioResult true reason state None None None requested in
  if sa_Action action == "CLAIM" then
    when (sg_State given != InvocationAuthorized) || sg_Consumed given || sa_Consumed action
      return refused "PERMIT_ALREADY_CONSUMED" ;;
    when negb (sa_BeforeDeadline action) || negb (sa_IdentityMatches action)
      return refused "RUNTIME_IDENTITY_MISMATCH" ;;
    accepted "ACCEPTED" InvocationClaimed None
  else if sa_Action action == "REQUEST_CANCELLATION" then
    when sg_State given != InvocationStarted return refused "INVALID_INVOCATION_TRANSITION" ;;
    accepted "CANCELLATION_REQUESTED" (sg_State given) (Some true)
  else if sa_Action action == "RECORD_TERMINAL" then
    when (sa_Outcome action == InvocationCancelled) && negb (sa_TerminalEvidence action)
      return refused "TERMINAL_EVIDENCE_REQUIRED" ;;
    accepted "ACCEPTED" (sa_Outcome action) None
  else if sa_Action action == "AUTHORIZE" then scenario_authorize given action
  else scenario_refused "" "INVALID_ACTION".

Record WorkBudgetScenarioGiven := mkWorkBudgetScenarioGiven {
  bg_Limit : Z;
  bg_Used : Z;
  bg_RootAccountID : string;
  bg_Revision : Z
}.

#[export] Instance eta_WorkBudgetScenarioGiven : Eta WorkBudgetScenarioGiven := fun r =>
  mkWorkBudgetScenarioGiven
    (bg_Limit r) (bg_Used r) (bg_RootAccountID r) (bg_Revision r).

Definition zero_WorkBudgetScenarioGiven : WorkBudgetScenarioGiven :=
  mkWorkBudgetScenarioGiven
    0 0 "" 0.

Record WorkBudgetScenarioAction := mkWorkBudgetScenarioAction {
  bc_Action : string;
  bc_AccountID : string;
  bc_RequestedLimit : Z;
  bc_Authorized : bool;
  bc_ExpectedRevision : Z;
  bc_NewLimit : Z
}.

#[export] Instance eta_WorkBudgetScenarioAction : Eta WorkBudgetScenarioAction := fun r =>
  mkWorkBudgetScenarioAction
    (bc_Action r) (bc_AccountID r) (bc_RequestedLimit r) (bc_Authorized r)
    (bc_ExpectedRevision r) (bc_NewLimit r).

Definition zero_WorkBudgetScenarioAction : WorkBudgetScenarioAction :=
  mkWorkBudgetScenarioAction
    "" "" 0 false 0 0.

Record WorkBudgetScenarioResult := mkWorkBudgetScenarioResult {
  br_Accepted : bool;
  br_Reason : string;
  br_MaximumAdditionalInvocations : Z;
  br_Revision : option Z
}.

#[export] Instance eta_WorkBudgetScenarioResult : Eta WorkBudgetScenarioResult := fun r =>
  mkWorkBudgetScenarioResult
    (br_Accepted r) (br_Reason r) (br_MaximumAdditionalInvocations r) (br_Revision r).

Definition zero_WorkBudgetScenarioResult : WorkBudgetScenarioResult :=
  mkWorkBudgetScenarioResult
    false "" 0 None.

Definition EvaluateWorkBudgetScenario (given : WorkBudgetScenarioGiven)
    (action : WorkBudgetScenarioAction) : WorkBudgetScenarioResult :=
  let bound := u64 (bg_Limit given - bg_Used given) in
  let result accepted reason := mkWorkBudgetScenarioResult accepted reason bound None in
  if bc_Action action == "COMPUTE_BOUND" then result true "ACCEPTED"
  else if bc_Action action == "INHERIT" then
    when bc_AccountID action != bg_RootAccountID given
      return result false "BUDGET_RESET_PROHIBITED" ;;
    when bg_Limit given <? bc_RequestedLimit action
      return result false "CAPACITY_MINT_PROHIBITED" ;;
    result true "ACCEPTED"
  else if bc_Action action == "AMEND" then
    when negb (bc_Authorized action) || (bc_ExpectedRevision action != bg_Revision given)
         || (bc_NewLimit action <? bg_Used given)
      return result false "INVALID_BUDGET_AMENDMENT" ;;
    mkWorkBudgetScenarioResult true "ACCEPTED" (u64 (bc_NewLimit action - bg_Used given))
      (Some (u64 (bg_Revision given + 1)))
  else result false "INVALID_ACTION".
