(* ===== verification/InvocationLaws.v ===== *)
(** * Laws of work budgets and work invocations

    Theorems about [WorkInvocation]: an authorisation never exceeds a budget
    and continues the latest attempt; its outcome does not depend on the order
    in which earlier invocations are visited; an invocation follows its state
    diagram; an amendment keeps what was spent; the conservative bound is the
    saturated sum. *)

From S2P Require Import Prelude GoText GoTime GoJson GoMarshal Types Samples.
From S2P Require Import Dag Payload Envelope Continuity State WorkProfile Assignment WorkInvocation.

(** ** Accepted authorisations *)

Section Authorisation.

Context (payload : string) (task : AggregateState) (account : WorkBudgetAccount)
  (binding : TaskWorkBudgetBinding) (scope : TaskOperationalScope) (profile : WorkProfileSnapshot)
  (assignment : QualifiedAssignmentAuthorization) (currentExecution : ExecutionTuple) (now : Time)
  (eventID : UUIDv7).

Let plan (invocations : list WorkInvocation) : InvocationAdmissionDecision :=
  PlanWorkInvocationAuthorization payload task account binding scope profile assignment
    currentExecution invocations now eventID.

(** What an accepted authorisation went through. *)
Lemma plan_accepted invocations :
  iad_Accepted (plan invocations) = true ->
  exists v latest,
    parseInvocationAuthorization payload = Some v /\
    admission_reason v task account binding scope profile assignment currentExecution now = None /\
    latest_loop (as_ID task) (ip_Purpose v) None invocations = Some latest /\
    retry_reason v (ws_Profile profile) account latest = None /\
    iad_Invocation (plan invocations) = authorized_invocation (debited v account) 1 eventID /\
    iad_BudgetDebit (plan invocations) = Some (budget_debit (debited v account) task account binding) /\
    WorkInvocation_Valid (iad_Invocation (plan invocations)) = true.
Proof.
  unfold plan, PlanWorkInvocationAuthorization.
  destruct (parseInvocationAuthorization payload) as [v|]; [|discriminate].
  destruct (admission_reason _ _ _ _ _ _ _ _ _) eqn:E1; [discriminate|].
  destruct (latest_loop _ _ _ _) as [latest|] eqn:E2; [|discriminate].
  destruct (retry_reason _ _ _ _) eqn:E3; [discriminate|].
  destruct (enc_authorization _) as [bytes|]; [|discriminate].
  destruct (WorkInvocation_Valid _) eqn:E4; [|discriminate].
  intros _. exists v, latest. split_and!; auto.
Qed.

Lemma admission_budget v :
  admission_reason v task account binding scope profile assignment currentExecution now = None ->
  as_ID task = ip_TaskID v /\ WorkBudgetAccount_Valid account = true /\
  ba_ModelInvocationsUsed account < ba_ModelInvocationLimit account /\
  tb_ModelInvocationsUsed binding < tb_ModelInvocationLimit binding /\
  mget 0 (ip_Purpose v) (ba_PurposeUsed account) < mget 0 (ip_Purpose v) (ba_PurposeLimits account) /\
  mget 0 (ip_Purpose v) (tb_PurposeUsed binding) < mget 0 (ip_Purpose v) (tb_PurposeLimits binding).
Proof.
  unfold admission_reason. intros H. cbv zeta in H. accepted H.
  repeat match goal with G : (_ || _) = false |- _ => bprop G end.
  split_ands. split_and!; assumption.
Qed.

End Authorisation.

Lemma parse_ids payload v :
  parseInvocationAuthorization payload = Some v ->
  UUIDv7_Valid (ip_TaskID v) = true /\ WorkPurpose_Valid (ip_Purpose v) = true.
Proof.
  unfold parseInvocationAuthorization. intros H. accepted H. subst.
  bprop G. split_ands. auto.
Qed.

(** The counters of an account and of a binding are machine words. *)
Record budget_words (account : WorkBudgetAccount) (binding : TaskWorkBudgetBinding) : Prop := {
  bw_revision : is_u64 (ba_Revision account);
  bw_limit : is_u64 (ba_ModelInvocationLimit account);
  bw_used : is_u64 (ba_ModelInvocationsUsed account);
  bw_limits : forall p, is_u64 (mget 0 p (ba_PurposeLimits account));
  bw_purpose : forall p, is_u64 (mget 0 p (ba_PurposeUsed account));
  bw_task_limit : is_u64 (tb_ModelInvocationLimit binding);
  bw_task_used : is_u64 (tb_ModelInvocationsUsed binding);
  bw_task_limits : forall p, is_u64 (mget 0 p (tb_PurposeLimits binding));
  bw_task_purpose : forall p, is_u64 (mget 0 p (tb_PurposeUsed binding))
}.

(** One more use, within the limit. *)
Definition debits_one (used next limit : Z) : Prop := next = used + 1 /\ next <= limit.

(** A counter below its limit: the increment and the remainder do not wrap. *)
Lemma debit_words used limit :
  is_u64 used -> is_u64 limit -> used < limit ->
  u64 (used + 1) = used + 1 /\ u64 (limit - u64 (used + 1)) = limit - used - 1.
Proof.
  unfold is_u64. intros. rewrite (u64_id (used + 1)) by (unfold is_u64; lia).
  split; [done|]. rewrite u64_id; unfold is_u64; lia.
Qed.

Lemma account_valid_ids account :
  WorkBudgetAccount_Valid account = true -> UUIDv7_Valid (ba_ID account) = true /\ ba_Revision account <> 0.
Proof.
  unfold WorkBudgetAccount_Valid. intros H. unwhen H. bprop E. split_ands. auto.
Qed.

Lemma budget_debit_valid v task account binding :
  0 < ba_Revision account -> UUIDv7_Valid (ba_ID account) = true ->
  WorkPurpose_Valid (ip_Purpose v) = true -> UUIDv7_Valid (as_ID task) = true ->
  WorkBudgetDebitDecision_Valid (budget_debit v task account binding) = true.
Proof.
  intros Hr Hb Hp Ht. unfold WorkBudgetDebitDecision_Valid, AggregateRef_Valid.
  rewrite !andb_true_iff. split_and!; try (apply bool_decide_refl); try done.
  by apply Z.ltb_lt.
Qed.

(** ** The latest attempt *)

Definition relevant (taskID : UUIDv7) (purpose : WorkPurpose) (i : WorkInvocation) : Prop :=
  iv_TaskID i = taskID /\ iv_Purpose i = purpose.

(** [x] is a latest one of a list of invocations. *)
Definition is_latest (taskID : UUIDv7) (purpose : WorkPurpose) (l : list WorkInvocation)
    (latest : option WorkInvocation) : Prop :=
  match latest with
  | None => forall i, i ∈ l -> ~ relevant taskID purpose i
  | Some x => x ∈ l /\ relevant taskID purpose x /\
              forall i, i ∈ l -> relevant taskID purpose i -> later i x = false
  end.

Lemma later_spec a b :
  later a b = true <->
  iv_AttemptOrdinal b < iv_AttemptOrdinal a \/
  iv_AttemptOrdinal a = iv_AttemptOrdinal b /\ iv_Revision b < iv_Revision a.
Proof.
  unfold later. rewrite orb_true_iff, andb_true_iff, bool_decide_eq_true, !Z.ltb_lt. tauto.
Qed.

Lemma later_false a b : later a b = false <-> ~ later a b = true.
Proof. destruct (later a b); intuition congruence. Qed.

Lemma relevant_guard taskID purpose i :
  (iv_TaskID i != taskID) || (iv_Purpose i != purpose) = false <-> relevant taskID purpose i.
Proof.
  unfold relevant. rewrite orb_false_iff, !negb_false_iff, !bool_decide_eq_true. tauto.
Qed.

(** The loop invariant: [seen] are the invocations already visited. *)
Lemma latest_loop_spec taskID purpose seen latest l r :
  is_latest taskID purpose seen latest ->
  latest_loop taskID purpose latest l = Some r ->
  is_latest taskID purpose (seen ++ l) r /\
  forall i, i ∈ l -> relevant taskID purpose i -> Terminal (iv_State i) = true.
Proof.
  revert seen latest. induction l as [|c l IH]; intros seen latest Hl H; simpl in H.
  - injection H as <-. rewrite app_nil_r. split; [done|]. intros i Hi. inversion Hi.
  - rewrite cons_middle, app_assoc.
    destruct (_ || _) eqn:E.
    + assert (Hn : ~ relevant taskID purpose c) by (rewrite <- relevant_guard; congruence).
      destruct (IH (seen ++ [c]) latest) as [H1 H2]; [|exact H|].
      * destruct latest as [x|]; simpl in *.
        -- destruct Hl as (? & ? & Hmax). split_and!; [set_solver|done|].
           intros i [Hi|Hi%list_elem_of_singleton]%elem_of_app; [auto|by subst].
        -- intros i [Hi|Hi%list_elem_of_singleton]%elem_of_app; [auto|by subst].
      * split; [done|]. intros i [->|Hi]%elem_of_cons; [tauto|auto].
    + apply relevant_guard in E. destruct (Terminal (iv_State c)) eqn:Ht; [|discriminate H].
      cbn [negb] in H.
      edestruct (IH (seen ++ [c])) as [H1 H2]; [|exact H|].
      * destruct latest as [x|]; simpl in *.
        -- destruct Hl as (? & ? & Hmax). destruct (later c x) eqn:Hc.
           ++ split_and!; [set_solver|done|].
              intros i [Hi|Hi%list_elem_of_singleton]%elem_of_app Hr.
              ** specialize (Hmax i Hi Hr). rewrite later_false, later_spec in Hmax |- *.
                 rewrite later_spec in Hc. lia.
              ** subst. rewrite later_false, later_spec. lia.
           ++ split_and!; [set_solver|done|].
              intros i [Hi|Hi%list_elem_of_singleton]%elem_of_app Hr; [auto|by subst].
        -- split_and!; [set_solver|done|].
           intros i [Hi|Hi%list_elem_of_singleton]%elem_of_app Hr; [by destruct (Hl i)|].
           subst. rewrite later_false, later_spec. lia.
      * split; [done|]. intros i [->|Hi]%elem_of_cons; [done|auto].
Qed.

Lemma latest_loop_none taskID purpose latest l :
  latest_loop taskID purpose latest l = None <->
  exists i, i ∈ l /\ relevant taskID purpose i /\ Terminal (iv_State i) = false.
Proof.
  revert latest. induction l as [|c l IH]; intros latest; simpl.
  - split; [discriminate|]. intros (i & Hi & _). inversion Hi.
  - setoid_rewrite elem_of_cons. destruct (_ || _) eqn:E.
    + rewrite IH. split; [naive_solver|]. intros (i & [->|Hi] & Hr & Ht); [|eauto].
      apply relevant_guard in Hr. congruence.
    + apply relevant_guard in E. destruct (Terminal (iv_State c)) eqn:Ht; cbn [negb].
      * rewrite IH. split; [naive_solver|]. intros (i & [->|Hi] & Hr & Hi'); [congruence|eauto].
      * split; [|done]. intros _. eauto 6.
Qed.

(** No two invocations of the task and purpose have the same attempt number. *)
Definition distinct_attempts (taskID : UUIDv7) (purpose : WorkPurpose) (l : list WorkInvocation) : Prop :=
  forall i j, i ∈ l -> j ∈ l -> relevant taskID purpose i -> relevant taskID purpose j ->
    iv_AttemptOrdinal i = iv_AttemptOrdinal j -> i = j.

Lemma is_latest_unique taskID purpose l r1 r2 :
  distinct_attempts taskID purpose l ->
  is_latest taskID purpose l r1 -> is_latest taskID purpose l r2 -> r1 = r2.
Proof.
  intros Hd. destruct r1 as [a|], r2 as [b|]; simpl; intros H1 H2; split_ands.
  - f_equal. apply Hd; auto.
    assert (Hab : later a b = false) by auto. assert (Hba : later b a = false) by auto.
    rewrite later_false, later_spec in Hab, Hba. lia.
  - naive_solver.
  - naive_solver.
  - done.
Qed.

Lemma latest_loop_perm taskID purpose l1 l2 :
  distinct_attempts taskID purpose l1 -> l1 ≡ₚ l2 ->
  latest_loop taskID purpose None l1 = latest_loop taskID purpose None l2.
Proof.
  intros Hd Hp.
  assert (Hnil : is_latest taskID purpose [] None) by (intros i Hi; inversion Hi).
  destruct (latest_loop taskID purpose None l1) as [r1|] eqn:E1.
  - destruct (latest_loop taskID purpose None l2) as [r2|] eqn:E2.
    + f_equal. apply (is_latest_unique taskID purpose l1); [done|..].
      * by destruct (latest_loop_spec _ _ _ _ _ _ Hnil E1).
      * destruct (latest_loop_spec _ _ _ _ _ _ Hnil E2) as [H _]. simpl in H.
        destruct r2; simpl in *; by setoid_rewrite Hp.
    + apply latest_loop_none in E2. destruct E2 as (i & Hi & Hr & Ht). rewrite <- Hp in Hi.
      destruct (latest_loop_spec _ _ _ _ _ _ Hnil E1) as [_ H]. rewrite H in Ht; congruence.
  - symmetry. rewrite latest_loop_none in E1 |- *. by setoid_rewrite <- Hp.
Qed.

(** ** The state diagram of an invocation *)

Inductive invocation_step : WorkInvocationState -> WorkInvocationState -> Prop :=
| is_claim : invocation_step InvocationAuthorized InvocationClaimed
| is_expire : invocation_step InvocationAuthorized InvocationExpired
| is_start : invocation_step InvocationClaimed InvocationStarted
| is_start_failed : invocation_step InvocationClaimed InvocationStartFailed
| is_cancel_requested : invocation_step InvocationStarted InvocationStarted
| is_finish outcome : Terminal outcome = true -> invocation_step InvocationStarted outcome.

(** The fields an authorisation fixes: an event changes none of them. *)
Definition grant (i : WorkInvocation) :=
  (iv_ID i, iv_TaskID i, iv_BudgetAccountID i, iv_Purpose i, iv_ActorFQN i, iv_Execution i,
   iv_DeadlineAt i, iv_AttemptOrdinal i, iv_GlobalDebitOrdinal i, iv_AllowedTerminalOutcomes i).

(** What one case of the event switch does to the state, the claim and the
    cancellation request. *)
Inductive invocation_change (i j : WorkInvocation) : Prop :=
| ic_claim c : iv_State i = InvocationAuthorized -> iv_State j = InvocationClaimed ->
    iv_ClaimID j = Some c -> invocation_change i j
| ic_start : iv_State i = InvocationClaimed -> iv_State j = InvocationStarted ->
    iv_ClaimID j = iv_ClaimID i -> invocation_change i j
| ic_finish : iv_State i = InvocationStarted \/
              (iv_State i = InvocationClaimed /\ iv_State j = InvocationStartFailed) ->
    iv_State j ∈ iv_AllowedTerminalOutcomes i -> iv_ClaimID j = iv_ClaimID i ->
    iv_TerminalEvidenceIDs j <> [] -> invocation_change i j
| ic_cancel : iv_State i = InvocationStarted -> iv_State j = InvocationStarted ->
    iv_ClaimID j = iv_ClaimID i -> iv_CancellationRequestedAt i = None ->
    iv_CancellationRequestedAt j <> None -> invocation_change i j
| ic_expire : iv_State i = InvocationAuthorized -> iv_State j = InvocationExpired ->
    iv_ClaimID j = iv_ClaimID i -> invocation_change i j.

Lemma claim_change i p j : claim_invocation i p = Some j -> invocation_change i j /\ grant j = grant i.
Proof.
  unfold claim_invocation. intros H. accepted H. subst j. bprop G. split_ands.
  split; [|done]. eapply ic_claim; done.
Qed.

Lemma start_change i p j : start_invocation i p = Some j -> invocation_change i j /\ grant j = grant i.
Proof.
  unfold start_invocation. intros H. accepted H. subst j. bprop G. split_ands.
  split; [|done]. by apply ic_start.
Qed.

Lemma finish_change i p j : finish_invocation i p = Some j -> invocation_change i j /\ grant j = grant i.
Proof.
  unfold finish_invocation. intros H. accepted H. subst j. bprop G. split_ands.
  split; [|done]. apply ic_finish; [|by apply contains_spec| done |].
  - match goal with G : _ && negb _ = false |- _ => apply andb_false_iff in G; bprop G; destruct G as [G|G] end;
      [left; done | right; split_ands; done].
  - simpl. intros E. match goal with H : llen _ <> 0 |- _ => apply H; by rewrite E end.
Qed.

Lemma cancel_change i p j : request_cancellation i p = Some j -> invocation_change i j /\ grant j = grant i.
Proof.
  unfold request_cancellation. intros H. accepted H. subst j. bprop G. split_ands.
  split; [|done]. apply ic_cancel; try done. by apply is_nil_true.
Qed.

Lemma expire_change i p j : expire_invocation i p = Some j -> invocation_change i j /\ grant j = grant i.
Proof.
  unfold expire_invocation. intros H. accepted H. subst j. bprop G. split_ands.
  split; [|done]. by apply ic_expire.
Qed.

Lemma invocation_case_change i e j :
  invocation_case i e = Some j -> invocation_change i j /\ grant j = grant i.
Proof.
  unfold invocation_case. repeat case_match; intros H';
    eauto using claim_change, start_change, finish_change, cancel_change, expire_change; discriminate.
Qed.

(** An accepted event. *)
Lemma apply_invocation_change i e j :
  ApplyWorkInvocationEvent i e = (j, true) ->
  Terminal (iv_State i) = false /\ iv_Revision j = u64 (iv_Revision i + 1) /\
  invocation_change i j /\ grant j = grant i /\ WorkInvocation_Valid j = true.
Proof.
  unfold ApplyWorkInvocationEvent. intros H. unwhen H. bprop E. split_ands.
  destruct (invocation_case i e) as [n|] eqn:En; [|discriminate H].
  apply invocation_case_change in En as [Hc Hg]. cbv zeta in H. injection H as H Hv. subst j.
  split_and!; try done. destruct Hc; econstructor; done.
Qed.

(** Outcomes a contract lets an authorisation list. *)
Definition outcomes_terminal (i : WorkInvocation) : Prop :=
  Forall (fun s => Terminal s = true) (iv_AllowedTerminalOutcomes i).

Lemma outcomes_terminal_grant i j : grant j = grant i -> outcomes_terminal i -> outcomes_terminal j.
Proof. unfold grant, outcomes_terminal. intros H. simplify_eq. by rewrite H0. Qed.

Lemma invocation_step_of i j :
  outcomes_terminal i -> invocation_change i j -> invocation_step (iv_State i) (iv_State j).
Proof.
  intros Ho Hc. destruct Hc as [c Hi Hj _|Hi Hj _|Hi Hj _ _|Hi Hj _ _ _|Hi Hj _].
  - rewrite Hi, Hj. constructor.
  - rewrite Hi, Hj. constructor.
  - destruct Hi as [Hi|[Hi Hj']]; [|rewrite Hi, Hj'; constructor].
    rewrite Hi. constructor. eapply Forall_forall in Ho; eauto.
  - rewrite Hi, Hj. constructor.
  - rewrite Hi, Hj. constructor.
Qed.

(** A run of events; every one is accepted. *)
Inductive invocation_run : WorkInvocation -> list DomainEvent -> WorkInvocation -> Prop :=
| ir_nil i : invocation_run i [] i
| ir_cons i e j es k :
    ApplyWorkInvocationEvent i e = (j, true) -> invocation_run j es k -> invocation_run i (e :: es) k.

(** A bound on how many more events an invocation can take. *)
Definition events_left (i : WorkInvocation) : nat :=
  if Terminal (iv_State i) then 0
  else if iv_State i == InvocationAuthorized then 4
  else if iv_State i == InvocationClaimed then 3
  else if is_nil (iv_CancellationRequestedAt i) then 2 else 1.

Lemma events_left_terminal i : Terminal (iv_State i) = true -> events_left i = 0%nat.
Proof. intros H. unfold events_left. by rewrite H. Qed.

Lemma events_left_authorized i : iv_State i = InvocationAuthorized -> events_left i = 4%nat.
Proof. intros H. unfold events_left. by rewrite H. Qed.

Lemma events_left_claimed i : iv_State i = InvocationClaimed -> events_left i = 3%nat.
Proof. intros H. unfold events_left. by rewrite H. Qed.

Lemma events_left_started i :
  iv_State i = InvocationStarted ->
  events_left i = if is_nil (iv_CancellationRequestedAt i) then 2%nat else 1%nat.
Proof. intros H. unfold events_left. by rewrite H. Qed.

Lemma step_events_left i e j :
  outcomes_terminal i -> ApplyWorkInvocationEvent i e = (j, true) ->
  (events_left j < events_left i)%nat.
Proof.
  intros Ho H. apply apply_invocation_change in H as (_ & _ & Hc & _ & _).
  destruct Hc as [c Hi Hj _|Hi Hj _|Hi Hj _ _|Hi Hj _ Hn Hs|Hi Hj _].
  - rewrite (events_left_authorized i), (events_left_claimed j) by done. lia.
  - rewrite (events_left_claimed i), (events_left_started j) by done. destruct (is_nil _); lia.
  - rewrite (events_left_terminal j) by (eapply Forall_forall in Ho; eauto).
    destruct Hi as [Hi|[Hi _]].
    + rewrite (events_left_started i) by done. destruct (is_nil _); lia.
    + rewrite (events_left_claimed i) by done. lia.
  - rewrite (events_left_started i), (events_left_started j), Hn by done.
    destruct (iv_CancellationRequestedAt j); [cbn; lia|congruence].
  - rewrite (events_left_authorized i), (events_left_terminal j) by (by rewrite ?Hj). lia.
Qed.

Lemma run_events_left i es j :
  outcomes_terminal i -> invocation_run i es j -> (length es + events_left j <= events_left i)%nat.
Proof.
  intros Ho H. induction H as [i|i e j es k H Hr IH]; simpl; [lia|].
  pose proof (step_events_left i e j Ho H).
  apply apply_invocation_change in H as (_ & _ & _ & Hg & _).
  specialize (IH (outcomes_terminal_grant _ _ Hg Ho)). lia.
Qed.

(** ** Budgets *)

Lemma maximum_additional account :
  is_u64 (ba_ModelInvocationLimit account) -> is_u64 (ba_ModelInvocationsUsed account) ->
  MaximumAdditionalInvocations account =
  Z.max 0 (ba_ModelInvocationLimit account - ba_ModelInvocationsUsed account).
Proof.
  unfold MaximumAdditionalInvocations, is_u64. intros.
  destruct (_ <=? _) eqn:E; [apply Z.leb_le in E; lia|apply Z.leb_gt in E].
  rewrite u64_id; unfold is_u64; lia.
Qed.

Definition account_words (account : WorkBudgetAccount) : Prop :=
  is_u64 (ba_ModelInvocationLimit account) /\ is_u64 (ba_ModelInvocationsUsed account).

(** What the accounts still allow, added without bound. *)
Definition total_remaining (accounts : list WorkBudgetAccount) : Z :=
  foldr (fun a n => Z.max 0 (ba_ModelInvocationLimit a - ba_ModelInvocationsUsed a) + n) 0 accounts.

Lemma total_remaining_nonneg accounts : 0 <= total_remaining accounts.
Proof. induction accounts; simpl; lia. Qed.

Lemma conservative_loop_spec accounts total :
  Forall account_words accounts -> is_u64 total ->
  conservative_loop total accounts = Z.min max_uint64 (total + total_remaining accounts).
Proof.
  intros H. revert total. induction H as [|a l [Hl Hu] _ IH]; intros total Ht; simpl.
  - unfold is_u64, max_uint64 in *. lia.
  - rewrite maximum_additional by done. pose proof (total_remaining_nonneg l).
    destruct (_ <? _) eqn:E; [apply Z.ltb_lt in E; lia|apply Z.ltb_ge in E].
    unfold max_uint64 in E. unfold is_u64 in Ht, Hl, Hu.
    rewrite u64_id by (unfold is_u64; lia). rewrite IH by (unfold is_u64; lia). f_equal; lia.
Qed.

Lemma existsb_false_elem {A} (p : A -> bool) l : existsb p l = false <-> forall x, x ∈ l -> p x = false.
Proof.
  induction l as [|y l IH]; simpl; [split; [intros _ x Hx; inversion Hx|done]|].
  rewrite orb_false_iff, IH. setoid_rewrite elem_of_cons. naive_solver.
Qed.

(** ** Theorems *)

(** [C29] An accepted authorisation debits both budgets by exactly one, within
    their limits: the debit decision is valid, the new global, purpose and task
    counters are the old ones plus one and do not exceed the limits, and the
    ordinals and remainders recorded in the invocation add up to the account's
    limits (nothing wraps). *)
Theorem authorization_within_budget payload task account binding scope profile assignment exec
    invocations now eventID :
  budget_words account binding ->
  let d := PlanWorkInvocationAuthorization payload task account binding scope profile assignment
             exec invocations now eventID in
  let i := iad_Invocation d in
  let p := iv_Purpose i in
  iad_Accepted d = true ->
  exists debit, iad_BudgetDebit d = Some debit /\ WorkBudgetDebitDecision_Valid debit = true /\
    debits_one (ba_ModelInvocationsUsed account) (db_NextGlobalUsed debit)
      (ba_ModelInvocationLimit account) /\
    debits_one (mget 0 p (ba_PurposeUsed account)) (db_NextGlobalPurposeUsed debit)
      (mget 0 p (ba_PurposeLimits account)) /\
    debits_one (tb_ModelInvocationsUsed binding) (db_NextTaskUsed debit)
      (tb_ModelInvocationLimit binding) /\
    debits_one (mget 0 p (tb_PurposeUsed binding)) (db_NextTaskPurposeUsed debit)
      (mget 0 p (tb_PurposeLimits binding)) /\
    iv_GlobalDebitOrdinal i + iv_RemainingGlobalBudget i = ba_ModelInvocationLimit account /\
    iv_PurposeDebitOrdinal i + iv_RemainingPurposeBudget i = mget 0 p (ba_PurposeLimits account).
Proof.
  intros Hw d i p Ha. apply plan_accepted in Ha as (v & latest & Hp & Hr & _ & _ & Hi & Hd & _).
  apply admission_budget in Hr as (Hid & Hval & H1 & H2 & H3 & H4).
  apply parse_ids in Hp as [Hp1 Hp2]. apply account_valid_ids in Hval as [Hb1 Hb2].
  subst i p. fold d in Hi, Hd. rewrite Hi. eexists. split; [exact Hd|].
  destruct Hw.
  destruct (debit_words _ _ bw_used0 bw_limit0 H1) as [E1 E1'].
  destruct (debit_words _ _ bw_task_used0 bw_task_limit0 H2) as [E2 E2'].
  destruct (debit_words _ _ (bw_purpose0 _) (bw_limits0 _) H3) as [E3 E3'].
  destruct (debit_words _ _ (bw_task_purpose0 _) (bw_task_limits0 _) H4) as [E4 E4'].
  split.
  - apply budget_debit_valid; [|done..|by rewrite Hid].
    unfold is_u64 in bw_revision0. lia.
  - unfold debits_one. cbn. rewrite E1', E3'. lia.
Qed.

(** An accepted authorisation continues the history of its task and
    purpose: no earlier invocation of them is still active; if there is none
    at all it is attempt 1 and no retry; otherwise it retries a latest one,
    with the next attempt and retry numbers and a changed condition. *)
Theorem authorization_continues_latest payload task account binding scope profile assignment exec
    invocations now eventID :
  let d := PlanWorkInvocationAuthorization payload task account binding scope profile assignment
             exec invocations now eventID in
  let i := iad_Invocation d in
  iad_Accepted d = true ->
  iv_State i = InvocationAuthorized /\ iv_TaskID i = as_ID task /\
  (forall j, j ∈ invocations -> relevant (as_ID task) (iv_Purpose i) j -> Terminal (iv_State j) = true) /\
  ((forall j, j ∈ invocations -> ~ relevant (as_ID task) (iv_Purpose i) j) /\
     iv_AttemptOrdinal i = 1 /\ iv_RetryOfInvocationID i = None /\ iv_RetryOrdinal i = 0
   \/ exists j, is_latest (as_ID task) (iv_Purpose i) invocations (Some j) /\
     iv_RetryOfInvocationID i = Some (iv_ID j) /\
     iv_AttemptOrdinal i = u64 (iv_AttemptOrdinal j + 1) /\
     iv_RetryOrdinal i = u64 (iv_RetryOrdinal j + 1) /\
     iv_ConditionDigest i <> iv_ConditionDigest j).
Proof.
  intros d i Ha. apply plan_accepted in Ha as (v & latest & _ & Hr & Hl & Hx & Hi & _ & _).
  apply admission_budget in Hr as (Hid & _).
  subst i. fold d in Hi. rewrite Hi. cbn.
  assert (Hnil : is_latest (as_ID task) (ip_Purpose v) [] None) by (intros j Hj; inversion Hj).
  destruct (latest_loop_spec _ _ _ _ _ _ Hnil Hl) as [H1 H2]. cbn [app] in H1.
  split_and!; [done|done|exact H2|].
  destruct latest as [j|]; unfold retry_reason in Hx.
  - right. exists j. split; [exact H1|]. unwhen Hx. bprop E. apply andb_false_iff in E0.
    unfold validChangedConditionContinuation, validCandidateRevalidation in E0.
    destruct E0 as [E0|E0]; apply negb_false_iff in E0.
    + destruct (ip_RetryOfInvocationID v) as [r|] eqn:Er; [|discriminate E0].
      unwhen E0. bprop E2. split_ands. subst. done.
    + unwhen E0. bprop E0. split_ands. done.
  - left. split; [exact H1|]. unwhen Hx. bprop E. split_ands. apply is_nil_true in H3. done.
Qed.

(** The decision does not depend on the order in which the earlier
    invocations are visited (the code ranges over a Go map), when attempt
    numbers of one task and purpose are distinct. *)
Theorem authorization_order_independent payload task account binding scope profile assignment exec
    invocations invocations' now eventID :
  (forall purpose, distinct_attempts (as_ID task) purpose invocations) ->
  invocations ≡ₚ invocations' ->
  PlanWorkInvocationAuthorization payload task account binding scope profile assignment exec
    invocations now eventID =
  PlanWorkInvocationAuthorization payload task account binding scope profile assignment exec
    invocations' now eventID.
Proof.
  intros Hd Hp. unfold PlanWorkInvocationAuthorization.
  destruct (parseInvocationAuthorization payload) as [v|]; [|done].
  by rewrite (latest_loop_perm _ _ invocations invocations').
Qed.

(** An accepted event moves an invocation along its diagram (AUTHORIZED to
    CLAIMED or EXPIRED, CLAIMED to STARTED or START_FAILED, STARTED to itself on
    a cancellation request or to a terminal outcome), advances the revision by
    one, and changes nothing the authorisation fixed. *)
Theorem ApplyWorkInvocationEvent_refines i e j :
  outcomes_terminal i ->
  ApplyWorkInvocationEvent i e = (j, true) ->
  invocation_step (iv_State i) (iv_State j) /\ iv_Revision j = u64 (iv_Revision i + 1) /\
  grant j = grant i /\ WorkInvocation_Valid j = true.
Proof.
  intros Ho H. apply apply_invocation_change in H as (_ & Hr & Hc & Hg & Hv).
  split_and!; auto using invocation_step_of.
Qed.

(** [C37] An invocation takes at most four events after its authorisation, and a
    terminal one takes none: it is claimed at most once and cannot run for ever. *)
Theorem invocation_run_bounded i es j :
  outcomes_terminal i -> invocation_run i es j ->
  (length es <= 4)%nat /\ (Terminal (iv_State i) = true -> es = []).
Proof.
  intros Ho H. pose proof (run_events_left i es j Ho H) as Hb. split.
  - unfold events_left at 2 in Hb. repeat case_match; lia.
  - intros Ht. rewrite (events_left_terminal i Ht) in Hb. destruct es; simpl in *; [done|lia].
Qed.

(** An accepted amendment keeps what was spent and the identity of the
    account, never moves the deadline earlier or a limit below what was spent,
    raises the policy revision, advances the revision, and leaves a valid account. *)
Theorem ApplyWorkBudgetAmendment_keeps_spent current payload eventID next :
  ApplyWorkBudgetAmendment current payload eventID = (next, true) ->
  WorkBudgetAccount_Valid next = true /\ ba_ID next = ba_ID current /\
  ba_RootWork next = ba_RootWork current /\
  ba_ModelInvocationsUsed next = ba_ModelInvocationsUsed current /\
  ba_PurposeUsed next = ba_PurposeUsed current /\
  ba_ModelInvocationsUsed current <= ba_ModelInvocationLimit next /\
  (forall p, p ∈ AllWorkPurposes -> mget 0 p (ba_PurposeUsed current) <= mget 0 p (ba_PurposeLimits next)) /\
  t_nanos (ba_DeadlineAt current) <= t_nanos (ba_DeadlineAt next) /\
  ba_PolicyRevision current < ba_PolicyRevision next /\
  ba_Revision next = u64 (ba_Revision current + 1).
Proof.
  unfold ApplyWorkBudgetAmendment.
  destruct (Unmarshal _ _ _) as [value|]; [|discriminate]. intros H. unwhen H.
  cbv zeta in H. injection H as Hn Hv. bprop E. split_ands. subst next.
  split; [exact Hv|]. cbn. split_and!; try done.
  - intros p Hp. eapply existsb_false_elem in E0; [|exact Hp]. by apply Z.ltb_ge in E0.
  - match goal with H : Before _ _ = false |- _ => by apply Z.ltb_ge in H end.
Qed.

(** The conservative bound on further invocations is the sum of what the
    accounts still allow, saturated at the largest 64-bit value. *)
Theorem ConservativeMaximum_is_saturated_sum accounts :
  Forall account_words accounts ->
  ConservativeMaximumAdditionalInvocations accounts = Z.min max_uint64 (total_remaining accounts).
Proof.
  intros H. unfold ConservativeMaximumAdditionalInvocations.
  rewrite conservative_loop_spec; [done|done|]. unfold is_u64, u64_mod. lia.
Qed.

(** ** Samples and witnesses *)

Definition all_counters (n : Z) : PurposeCounters := foldr (fun p m => <[p := n]> m) ∅ AllWorkPurposes.
Definition later_time (s : Z) : Time := mkTime (t_nanos sample_time + s * 1000000000) 0.

Definition sample_account : WorkBudgetAccount :=
  mkWorkBudgetAccount (uid "d") 2 (mkRef AggregateStory (uid "6")) 1 1 (dig "b") 3 1
    (all_counters 2) (<[PurposeReview := 1]> zeroPurposeCounters) (later_time 3600) (uid "e").

Definition sample_binding : TaskWorkBudgetBinding :=
  mkTaskWorkBudgetBinding (uid "a") (uid "d") 4 1 1 3 0 (all_counters 2) zeroPurposeCounters (uid "e").

Definition sample_scope : TaskOperationalScope :=
  mkTaskOperationalScope (uid "a") 4 1 1 actor_a (mkExec (uid "7") 1) "ws" "wt" "main"
    "0123456789012345678901234567890123456789" ["src"] [] (uid "e").

Definition sample_authorization : QualifiedAssignmentAuthorization :=
  zero_QualifiedAssignmentAuthorization
    <| qa_AssignmentID := uid "8" |> <| qa_TaskID := uid "a" |>
    <| qa_WorkProfile := Binding first_profile |>
    <| qa_SelectedActorFQN := actor_a |> <| qa_SelectedExecutionID := uid "7" |>
    <| qa_SelectedFencingEpoch := 1 |> <| qa_ModelProfileDigest := dig "c" |>
    <| qa_RuntimeIdentityDigest := dig "d" |>.

Definition sample_request : invocationAuthorizationPayload :=
  mkinvocationAuthorizationPayload (uid "9") (uid "a") (uid "d") 2 4 1 1 (uid "f")
    (Binding first_profile) (uid "8") PurposeImplementation "build" 1 (dig "e") None 0 (dig "f")
    [InvocationSucceeded; InvocationFailed; InvocationStartFailed] (dig "a") (dig "b") None actor_a
    (uid "7") 1 (dig "c") (dig "d") "ws" (later_time 1800) "key-1" 1 (dig "b") 0 0 0 0.

Definition sample_payload : string := default "" (enc_authorization sample_request).

Definition sample_plan (invocations : list WorkInvocation) : InvocationAdmissionDecision :=
  PlanWorkInvocationAuthorization sample_payload sample_task sample_account sample_binding
    sample_scope (mkProfileSnapshot first_profile (uid "f") 4) sample_authorization
    (mkExec (uid "7") 1) invocations sample_time (uid "b").

Definition sample_invocation : WorkInvocation := iad_Invocation (sample_plan []).

Example sample_plan_accepted : iad_Reason (sample_plan []) = "ACCEPTED".
Proof. vm_compute. reflexivity. Qed.

Lemma counters_words (m : PurposeCounters) :
  forallb (fun kv => (0 <=? kv.2) && (kv.2 <? u64_mod)) (map_to_list m) = true ->
  forall p, is_u64 (mget 0 p m).
Proof.
  intros H p. unfold mget. break_match; [rename z into v|].
  - rewrite forallb_True_iff, Forall_forall in H. 
    specialize (H (p, v) (proj2 (elem_of_map_to_list m p v) E)). apply andb_true_iff in H as [H1%Z.leb_le H2%Z.ltb_lt]. simpl in *. unfold is_u64. lia.
  - unfold is_u64, u64_mod. simpl. lia.
Qed.

Ltac words := unfold is_u64, u64_mod; cbn; lia.

Lemma sample_words : budget_words sample_account sample_binding.
Proof. split; try (apply counters_words; vm_compute; reflexivity); words. Qed.

Lemma authorization_within_budget_witness :
  exists debit, iad_BudgetDebit (sample_plan []) = Some debit /\
    db_NextGlobalUsed debit = 2 /\ iv_RemainingGlobalBudget sample_invocation = 1.
Proof.
  destruct (authorization_within_budget sample_payload sample_task sample_account sample_binding
    sample_scope (mkProfileSnapshot first_profile (uid "f") 4) sample_authorization
    (mkExec (uid "7") 1) [] sample_time (uid "b") sample_words)
    as (debit & Hd & _ & [H1 _] & _); [vm_compute; reflexivity|].
  exists debit. split; [exact Hd|]. split; [exact H1|]. vm_compute. reflexivity.
Defined.

(** The earlier attempt of a task, ended, and the one that follows it. *)
Definition ended_attempt (ordinal : Z) : WorkInvocation :=
  sample_invocation <| iv_State := InvocationSucceeded |> <| iv_AttemptOrdinal := ordinal |>
    <| iv_Purpose := PurposeReview |>.

Definition revalidation : string :=
  default "" (enc_authorization
    (sample_request <| ip_Purpose := PurposeReview |> <| ip_AttemptOrdinal := 3 |>
       <| ip_RetryOfInvocationID := Some (uid "9") |> <| ip_RetryOrdinal := 1 |>
       <| ip_ConditionDigest := dig "0" |>)).

Definition revalidation_plan (invocations : list WorkInvocation) : InvocationAdmissionDecision :=
  PlanWorkInvocationAuthorization revalidation sample_task sample_account sample_binding
    sample_scope (mkProfileSnapshot first_profile (uid "f") 4) sample_authorization
    (mkExec (uid "7") 1) invocations sample_time (uid "b").

Lemma authorization_continues_latest_witness :
  iad_Accepted (revalidation_plan [ended_attempt 1; ended_attempt 2]) = true /\
  iv_State (iad_Invocation (revalidation_plan [ended_attempt 1; ended_attempt 2])) = InvocationAuthorized.
Proof.
  split; [vm_compute; reflexivity|].
  apply (authorization_continues_latest revalidation sample_task sample_account sample_binding
    sample_scope (mkProfileSnapshot first_profile (uid "f") 4) sample_authorization
    (mkExec (uid "7") 1) [ended_attempt 1; ended_attempt 2] sample_time (uid "b")).
  vm_compute. reflexivity.
Defined.

Lemma authorization_order_independent_witness :
  revalidation_plan [ended_attempt 1; ended_attempt 2] = revalidation_plan [ended_attempt 2; ended_attempt 1].
Proof.
  apply (authorization_order_independent revalidation sample_task sample_account sample_binding
    sample_scope (mkProfileSnapshot first_profile (uid "f") 4) sample_authorization
    (mkExec (uid "7") 1) [ended_attempt 1; ended_attempt 2] [ended_attempt 2; ended_attempt 1] sample_time (uid "b")).
  - intros purpose i j Hi Hj _ _ E. rewrite !elem_of_cons, elem_of_nil in Hi, Hj.
    destruct Hi as [->|[->|[]]], Hj as [->|[->|[]]]; try reflexivity; discriminate E.
  - apply Permutation_swap.
Defined.

Definition sample_event (kind : string) (revision : Z) (payload : list (string * string)) : DomainEvent :=
  bare_event (uid "c") ("tekroo.event.work-invocation." +:+ kind) (mkRef AggregateWorkInvocation (uid "9"))
    (revision + 1) 1
    (jdoc ([("invocation_id", qs (uid "9")); ("expected_invocation_revision", enc_uint revision)]
           ++ payload)).

Definition claim_event : DomainEvent :=
  sample_event "claimed" 1
    [("claim_id", qs (uid "1")); ("actor_fqn", qs actor_a); ("execution_id", qs (uid "7"));
     ("fencing_epoch", "1"); ("model_profile_digest", qs (dig "c"));
     ("runtime_identity_digest", qs (dig "d")); ("claimed_at", qs "2026-01-01T00:00:05Z")].

Definition start_event : DomainEvent :=
  sample_event "started" 2
    [("claim_id", qs (uid "1")); ("conversation_id", qs "conv"); ("request_digest", qs (dig "1"));
     ("started_at", qs "2026-01-01T00:00:06Z")].

Definition cancel_event : DomainEvent :=
  sample_event "cancellation-requested" 3 [("requested_at", qs "2026-01-01T00:00:07Z")].

Definition finish_event : DomainEvent :=
  sample_event "terminal-recorded" 4
    [("claim_id", qs (uid "1")); ("outcome", qs "SUCCEEDED"); ("retryable", "false");
     ("evidence_ids", jarr [qs (uid "2")]); ("output_digest", qs (dig "2"));
     ("finished_at", qs "2026-01-01T00:00:08Z")].

Definition after (i : WorkInvocation) (e : DomainEvent) : WorkInvocation :=
  fst (ApplyWorkInvocationEvent i e).

Lemma sample_outcomes : outcomes_terminal sample_invocation.
Proof. apply Forall_forall. vm_compute. intros s [->|[->|[->|[]%elem_of_nil]%elem_of_cons]%elem_of_cons]%elem_of_cons; reflexivity. Qed.

Lemma ApplyWorkInvocationEvent_refines_witness :
  invocation_step InvocationAuthorized (iv_State (after sample_invocation claim_event)).
Proof.
  apply (ApplyWorkInvocationEvent_refines sample_invocation claim_event
    (after sample_invocation claim_event) sample_outcomes).
  vm_compute. reflexivity.
Defined.

Lemma invocation_run_bounded_witness :
  (length [claim_event; start_event; cancel_event; finish_event] <= 4)%nat.
Proof.
  apply (invocation_run_bounded sample_invocation
    [claim_event; start_event; cancel_event; finish_event]
    (after (after (after (after sample_invocation claim_event) start_event) cancel_event) finish_event)
    sample_outcomes).
  repeat (eapply ir_cons; [vm_compute; reflexivity|]). vm_compute. constructor.
Defined.

Definition amendment : string :=
  jdoc [("budget_account_id", qs (uid "d")); ("expected_lifecycle_epoch", "1");
        ("expected_budget_revision", "2"); ("policy_revision", "2"); ("policy_digest", qs (dig "c"));
        ("model_invocation_limit", "5");
        ("purpose_limits", jobj (map (fun p => (p, "4")) AllWorkPurposes));
        ("deadline_at", qs "2026-01-02T00:00:00Z"); ("evidence_ids", jarr [qs (uid "2")]);
        ("authority", jobj [("kind", qs PrincipalPolicy); ("id", qs "budget")])].

Lemma ApplyWorkBudgetAmendment_keeps_spent_witness :
  ba_ModelInvocationsUsed (fst (ApplyWorkBudgetAmendment sample_account amendment (uid "c"))) = 1.
Proof.
  destruct (ApplyWorkBudgetAmendment_keeps_spent sample_account amendment (uid "c")
    (fst (ApplyWorkBudgetAmendment sample_account amendment (uid "c")))) as (_ & _ & _ & H & _).
  - vm_compute. reflexivity.
  - rewrite H. reflexivity.
Defined.

Lemma ConservativeMaximum_is_saturated_sum_witness :
  ConservativeMaximumAdditionalInvocations [sample_account; sample_account] = 4.
Proof.
  rewrite (ConservativeMaximum_is_saturated_sum [sample_account; sample_account]).
  - reflexivity.
  - repeat constructor; words.
Defined.
