(* ===== verification/Phase4Store.v ===== *)
(** * The budget and invocation projections of the store
    ([adapters/memory/phase4.go])

    A commit validates the budget debit of its decision against the stored
    counters, computes one projection per event from the store as it is, and
    then applies the projections in order. *)

From S2P Require Import Prelude GoText GoTime GoJson GoMarshal Types Samples.
From S2P Require Import Dag Payload Envelope State WorkProfile Assignment WorkInvocation InvocationLaws.

(** The part of the store the projections read and write. *)
Record Store := mkStore {
  workBudgetAccounts : gmap AggregateRef WorkBudgetAccount;
  taskWorkBudgets : gmap AggregateRef TaskWorkBudgetBinding;
  taskOperationalScopes : gmap AggregateRef TaskOperationalScope;
  workInvocations : gmap AggregateRef WorkInvocation
}.

#[export] Instance eta_Store : Eta Store := fun s =>
  mkStore (workBudgetAccounts s) (taskWorkBudgets s) (taskOperationalScopes s) (workInvocations s).

Definition empty_store : Store := mkStore ∅ ∅ ∅ ∅.

Inductive store_error := ErrInvalidDecision | ErrConflict.
#[global] Instance store_error_eq_dec : EqDecision store_error.
Proof. solve_decision. Defined.

Record phase4Projection := mkProjection {
  p4_budgetRef : option AggregateRef;
  p4_budget : option WorkBudgetAccount;
  p4_taskRef : option AggregateRef;
  p4_binding : option TaskWorkBudgetBinding;
  p4_scope : option TaskOperationalScope;
  p4_invocationRef : option AggregateRef;
  p4_invocation : option WorkInvocation
}.

(** Insert when both the key and the value are set. *)
Definition put {A} (k : option AggregateRef) (v : option A) (m : gmap AggregateRef A)
    : gmap AggregateRef A :=
  match k, v with Some k, Some v => <[k := v]> m | _, _ => m end.

Definition apply_projection (p : phase4Projection) (store : Store) : Store :=
  mkStore
    (put (p4_budgetRef p) (p4_budget p) (workBudgetAccounts store))
    (put (p4_taskRef p) (p4_binding p) (taskWorkBudgets store))
    (put (p4_taskRef p) (p4_scope p) (taskOperationalScopes store))
    (put (p4_invocationRef p) (p4_invocation p) (workInvocations store)).

Definition validateWorkBudgetCommit (accounts : gmap AggregateRef WorkBudgetAccount)
    (bindings : gmap AggregateRef TaskWorkBudgetBinding) (decision : WorkBudgetDebitDecision)
    : option store_error :=
  when negb (WorkBudgetDebitDecision_Valid decision) return Some ErrInvalidDecision ;;
  match accounts !! db_Account decision, bindings !! db_Task decision with
  | Some account, Some binding =>
    let p := db_Purpose decision in
    when (ba_Revision account != db_ExpectedAccountRevision decision)
         || (ba_ModelInvocationsUsed account != db_ExpectedGlobalUsed decision)
         || (mget 0 p (ba_PurposeUsed account) != db_ExpectedGlobalPurposeUsed decision)
         || (tb_ModelInvocationsUsed binding != db_ExpectedTaskUsed decision)
         || (mget 0 p (tb_PurposeUsed binding) != db_ExpectedTaskPurposeUsed decision)
      return Some ErrConflict ;;
    None
  | _, _ => Some ErrConflict
  end.

Definition budget_projection (ref : AggregateRef) (account : WorkBudgetAccount) : phase4Projection :=
  mkProjection (Some ref) (Some account) None None None None None.

Definition project_created (s : Store) (event : DomainEvent) : store_error + phase4Projection :=
  match WorkBudgetFromCreatePayload (ev_Payload event) (ev_EventID event) with
  | None => inl ErrInvalidDecision
  | Some account =>
    when (ev_Aggregate event != WorkBudgetAccount_Ref account) || (ev_AggregateRevision event != 1)
      return inl ErrInvalidDecision ;;
    when negb (is_nil (workBudgetAccounts s !! ev_Aggregate event)) return inl ErrConflict ;;
    inr (budget_projection (ev_Aggregate event) account)
  end.

Definition project_amended (s : Store) (event : DomainEvent) : store_error + phase4Projection :=
  match workBudgetAccounts s !! ev_Aggregate event with
  | None => inl ErrInvalidDecision
  | Some current =>
    when ev_AggregateRevision event != u64 (ba_Revision current + 1)
      return inl ErrInvalidDecision ;;
    let (next, valid) := ApplyWorkBudgetAmendment current (ev_Payload event) (ev_EventID event) in
    when negb valid || (ba_Revision next != ev_AggregateRevision event)
      return inl ErrInvalidDecision ;;
    inr (budget_projection (ev_Aggregate event) next)
  end.

Definition binding_projection (ref : AggregateRef) (binding : TaskWorkBudgetBinding)
    : phase4Projection :=
  mkProjection None None (Some ref) (Some binding) None None None.

Definition project_bound (s : Store) (event : DomainEvent) : store_error + phase4Projection :=
  match TaskWorkBudgetBindingFromPayload (ev_Payload event) (ev_EventID event) with
  | None => inl ErrInvalidDecision
  | Some binding =>
    when (ref_Kind (ev_Aggregate event) != AggregateTask)
         || (ref_ID (ev_Aggregate event) != tb_TaskID binding)
         || (ev_AggregateRevision event != tb_TaskRevision binding)
      return inl ErrInvalidDecision ;;
    match taskWorkBudgets s !! ev_Aggregate event with
    | None => inr (binding_projection (ev_Aggregate event) binding)
    | Some current =>
      when (tb_BudgetAccountID current != tb_BudgetAccountID binding)
           || (tb_ModelInvocationLimit binding <? tb_ModelInvocationsUsed current)
        return inl ErrConflict ;;
      when existsb (fun p => mget 0 p (tb_PurposeLimits binding) <? mget 0 p (tb_PurposeUsed current))
             AllWorkPurposes
        return inl ErrConflict ;;
      let binding := binding
        <| tb_ModelInvocationsUsed := tb_ModelInvocationsUsed current |>
        <| tb_PurposeUsed := tb_PurposeUsed current |> in
      when negb (TaskWorkBudgetBinding_Valid binding) return inl ErrConflict ;;
      inr (binding_projection (ev_Aggregate event) binding)
    end
  end.

Definition project_scope (event : DomainEvent) : store_error + phase4Projection :=
  match TaskOperationalScopeFromPayload (ev_Payload event) (ev_EventID event) with
  | None => inl ErrInvalidDecision
  | Some scope =>
    when (ref_Kind (ev_Aggregate event) != AggregateTask)
         || (ref_ID (ev_Aggregate event) != os_TaskID scope)
         || (ev_AggregateRevision event != os_TaskRevision scope)
      return inl ErrInvalidDecision ;;
    inr (mkProjection None None (Some (ev_Aggregate event)) None (Some scope) None None)
  end.

Definition debit_account (account : WorkBudgetAccount) (debit : WorkBudgetDebitDecision)
    (eventID : UUIDv7) : WorkBudgetAccount :=
  account <| ba_ModelInvocationsUsed := db_NextGlobalUsed debit |>
          <| ba_PurposeUsed :=
               <[db_Purpose debit := db_NextGlobalPurposeUsed debit]> (ba_PurposeUsed account) |>
          <| ba_LastEventID := eventID |>.

Definition debit_binding (binding : TaskWorkBudgetBinding) (debit : WorkBudgetDebitDecision)
    : TaskWorkBudgetBinding :=
  binding <| tb_ModelInvocationsUsed := db_NextTaskUsed debit |>
          <| tb_PurposeUsed :=
               <[db_Purpose debit := db_NextTaskPurposeUsed debit]> (tb_PurposeUsed binding) |>.

Definition project_authorized (s : Store) (event : DomainEvent)
    (debit : option WorkBudgetDebitDecision) : store_error + phase4Projection :=
  match debit with
  | None => inl ErrInvalidDecision
  | Some debit =>
    when negb (WorkBudgetDebitDecision_Valid debit) return inl ErrInvalidDecision ;;
    match WorkInvocationFromAuthorizedEvent event with
    | None => inl ErrInvalidDecision
    | Some invocation =>
      when (ev_Aggregate event != WorkInvocation_Ref invocation)
           || (iv_GlobalDebitOrdinal invocation != db_NextGlobalUsed debit)
           || (iv_PurposeDebitOrdinal invocation != db_NextGlobalPurposeUsed debit)
        return inl ErrInvalidDecision ;;
      let account := mget zero_WorkBudgetAccount (db_Account debit) (workBudgetAccounts s) in
      let binding := mget zero_TaskWorkBudgetBinding (db_Task debit) (taskWorkBudgets s) in
      when (iv_RemainingGlobalBudget invocation
              != u64 (ba_ModelInvocationLimit account - db_NextGlobalUsed debit))
           || (iv_RemainingPurposeBudget invocation
                 != u64 (mget 0 (db_Purpose debit) (ba_PurposeLimits account)
                         - db_NextGlobalPurposeUsed debit))
        return inl ErrInvalidDecision ;;
      inr (mkProjection
             (Some (db_Account debit)) (Some (debit_account account debit (ev_EventID event)))
             (Some (db_Task debit)) (Some (debit_binding binding debit)) None
             (Some (ev_Aggregate event)) (Some invocation))
    end
  end.

Definition project_invocation (s : Store) (event : DomainEvent) : store_error + phase4Projection :=
  match workInvocations s !! ev_Aggregate event with
  | None => inl ErrInvalidDecision
  | Some current =>
    let (next, valid) := ApplyWorkInvocationEvent current event in
    when negb valid return inl ErrInvalidDecision ;;
    inr (mkProjection None None None None None (Some (ev_Aggregate event)) (Some next))
  end.

(** The event switch; other events have no projection. *)
Definition project_event (s : Store) (event : DomainEvent) (debit : option WorkBudgetDebitDecision)
    : store_error + option phase4Projection :=
  let some r := match r with inl e => inl e | inr p => inr (Some p) end in
  let type := ev_EventType event in
  if type == "tekroo.event.work-budget.created" then some (project_created s event)
  else if type == "tekroo.event.work-budget.amended" then some (project_amended s event)
  else if type == "tekroo.event.task.work-budget-bound" then some (project_bound s event)
  else if type == "tekroo.event.task.operational-scope-bound" then some (project_scope event)
  else if type == "tekroo.event.work-invocation.authorized"
  then some (project_authorized s event debit)
  else if contains ["tekroo.event.work-invocation.claimed"; "tekroo.event.work-invocation.started";
                    "tekroo.event.work-invocation.terminal-recorded";
                    "tekroo.event.work-invocation.cancellation-requested";
                    "tekroo.event.work-invocation.expired"] type
  then some (project_invocation s event)
  else inr None.

Fixpoint preparePhase4Projections (s : Store) (events : list DomainEvent)
    (debit : option WorkBudgetDebitDecision) : store_error + list phase4Projection :=
  match events with
  | [] => inr []
  | event :: events =>
    match project_event s event debit with
    | inl e => inl e
    | inr p =>
      match preparePhase4Projections s events debit with
      | inl e => inl e
      | inr ps => inr (match p with Some p => p :: ps | None => ps end)
      end
    end
  end.

(** The steps of [Commit] that concern these projections, in its order: the
    debit is validated, all projections are prepared, then all are applied. *)
Definition commit_phase4 (s : Store) (events : list DomainEvent)
    (debit : option WorkBudgetDebitDecision) : store_error + Store :=
  match match debit with
        | Some d => validateWorkBudgetCommit (workBudgetAccounts s) (taskWorkBudgets s) d
        | None => None
        end with
  | Some e => inl e
  | None =>
    match preparePhase4Projections s events debit with
    | inl e => inl e
    | inr ps => inr (foldl (fun s p => apply_projection p s) s ps)
    end
  end.

(** ** The invariant of the store *)

Abbreviation words m := (map_Forall (fun (_ : string) (v : Z) => is_u64 v) m).

Record account_ok (a : WorkBudgetAccount) : Prop := {
  ao_valid : WorkBudgetAccount_Valid a = true;
  ao_revision : is_u64 (ba_Revision a);
  ao_limit : is_u64 (ba_ModelInvocationLimit a);
  ao_used : is_u64 (ba_ModelInvocationsUsed a);
  ao_limits : words (ba_PurposeLimits a);
  ao_purpose : words (ba_PurposeUsed a)
}.

Record binding_ok (b : TaskWorkBudgetBinding) : Prop := {
  bo_valid : TaskWorkBudgetBinding_Valid b = true;
  bo_limit : is_u64 (tb_ModelInvocationLimit b);
  bo_used : is_u64 (tb_ModelInvocationsUsed b);
  bo_limits : words (tb_PurposeLimits b);
  bo_purpose : words (tb_PurposeUsed b)
}.

Record store_ok (s : Store) : Prop := {
  so_accounts : forall ref a, workBudgetAccounts s !! ref = Some a ->
    account_ok a /\ WorkBudgetAccount_Ref a = ref;
  so_bindings : forall ref b, taskWorkBudgets s !! ref = Some b -> binding_ok b;
  so_invocations : forall ref i, workInvocations s !! ref = Some i ->
    WorkInvocation_Valid i = true /\ WorkInvocation_Ref i = ref
}.

Record projection_ok (p : phase4Projection) : Prop := {
  po_account : forall ref a, p4_budgetRef p = Some ref -> p4_budget p = Some a ->
    account_ok a /\ WorkBudgetAccount_Ref a = ref;
  po_binding : forall b, p4_binding p = Some b -> binding_ok b;
  po_invocation : forall ref i, p4_invocationRef p = Some ref -> p4_invocation p = Some i ->
    WorkInvocation_Valid i = true /\ WorkInvocation_Ref i = ref
}.

Lemma put_lookup {A} k v (m : gmap AggregateRef A) ref x :
  put k v m !! ref = Some x -> k = Some ref /\ v = Some x \/ m !! ref = Some x.
Proof.
  unfold put. destruct k as [k|], v as [v|]; try (by right).
  destruct (decide (k = ref)) as [->|Hne].
  - rewrite lookup_insert_eq. intros ?. simplify_eq. by left.
  - rewrite lookup_insert_ne by done. by right.
Qed.

Lemma apply_projection_ok p s : projection_ok p -> store_ok s -> store_ok (apply_projection p s).
Proof.
  intros [Ha Hb Hi] [Sa Sb Si]. split; simpl.
  - intros ref a [[? ?]|?]%put_lookup; eauto.
  - intros ref b [[? ?]|?]%put_lookup; eauto.
  - intros ref i [[? ?]|?]%put_lookup; eauto.
Qed.

(** *** Counters *)

Lemma mget_words (m : PurposeCounters) p : words m -> is_u64 (mget 0 p m).
Proof.
  intros H. unfold mget. break_match; [by apply (H p)|unfold is_u64, u64_mod; lia].
Qed.

Lemma counters_valid_put (c : gmap string Z) (p : string) v :
  PurposeCounters_Valid c = true -> WorkPurpose_Valid p = true -> v <= 1000 ->
  PurposeCounters_Valid (<[p := v]> c) = true.
Proof.
  unfold PurposeCounters_Valid, PurposeCounters, WorkPurpose.
  rewrite !if_false_true, !forallb_True_iff, !Forall_forall.
  intros [Hs Hv] Hp Hle. apply contains_spec in Hp. split.
  - specialize (Hv p Hp). destruct (c !! p) eqn:E; [|discriminate Hv].
    by rewrite map_size_insert_Some.
  - intros q Hq. destruct (decide (p = q)) as [->|Hne].
    + rewrite lookup_insert_eq. by apply Z.leb_le.
    + rewrite lookup_insert_ne by done. by apply Hv.
Qed.

Lemma purposes_within_put (used limits : gmap string Z) total (p : string) v :
  purposes_within used limits total = true -> v <= mget 0 p limits ->
  purposes_within (<[p := v]> used) limits total = true.
Proof.
  unfold purposes_within. rewrite !forallb_True_iff, !Forall_forall. intros H Hv q Hq.
  specialize (H q Hq). rewrite mget_insert. case_bool_decide; [subst|done].
  apply andb_true_iff in H as [_ H]. rewrite H, andb_true_r. by apply Z.leb_le.
Qed.

Lemma limits_within used limits total p :
  purposes_within used limits total = true -> WorkPurpose_Valid p = true -> mget 0 p limits <= total.
Proof.
  unfold purposes_within. rewrite forallb_True_iff, Forall_forall. intros H Hp%contains_spec.
  apply H, andb_true_iff in Hp as [_ Hp]. by apply Z.leb_le.
Qed.

(** *** The debit *)

(** The stored counters are those the debit expects, below their limits. *)
Record debit_fits (a : WorkBudgetAccount) (b : TaskWorkBudgetBinding) (d : WorkBudgetDebitDecision)
    : Prop := {
  df_global : db_ExpectedGlobalUsed d < ba_ModelInvocationLimit a;
  df_purpose : db_ExpectedGlobalPurposeUsed d < mget 0 (db_Purpose d) (ba_PurposeLimits a);
  df_task : db_ExpectedTaskUsed d < tb_ModelInvocationLimit b;
  df_task_purpose : db_ExpectedTaskPurposeUsed d < mget 0 (db_Purpose d) (tb_PurposeLimits b)
}.

Lemma debit_decision_next d :
  WorkBudgetDebitDecision_Valid d = true ->
  WorkPurpose_Valid (db_Purpose d) = true /\
  db_NextGlobalUsed d = u64 (db_ExpectedGlobalUsed d + 1) /\
  db_NextGlobalPurposeUsed d = u64 (db_ExpectedGlobalPurposeUsed d + 1) /\
  db_NextTaskUsed d = u64 (db_ExpectedTaskUsed d + 1) /\
  db_NextTaskPurposeUsed d = u64 (db_ExpectedTaskPurposeUsed d + 1).
Proof. unfold WorkBudgetDebitDecision_Valid. intros H. bprop H. tauto. Qed.

Lemma validate_commit accounts bindings d :
  validateWorkBudgetCommit accounts bindings d = None ->
  WorkBudgetDebitDecision_Valid d = true /\
  exists a b, accounts !! db_Account d = Some a /\ bindings !! db_Task d = Some b /\
    ba_Revision a = db_ExpectedAccountRevision d /\
    ba_ModelInvocationsUsed a = db_ExpectedGlobalUsed d /\
    mget 0 (db_Purpose d) (ba_PurposeUsed a) = db_ExpectedGlobalPurposeUsed d /\
    tb_ModelInvocationsUsed b = db_ExpectedTaskUsed d /\
    mget 0 (db_Purpose d) (tb_PurposeUsed b) = db_ExpectedTaskPurposeUsed d.
Proof.
  unfold validateWorkBudgetCommit. intros H.
  destruct (WorkBudgetDebitDecision_Valid d); [|discriminate H]. split; [done|]. cbn [negb] in H.
  destruct (accounts !! _) as [a|]; [|discriminate H].
  destruct (bindings !! _) as [b|]; [|discriminate H].
  exists a, b. unwhen H. bprop E. tauto.
Qed.

Lemma debit_account_ok a d id next pnext :
  account_ok a -> WorkPurpose_Valid (db_Purpose d) = true -> UUIDv7_Valid id = true ->
  db_NextGlobalUsed d = next -> db_NextGlobalPurposeUsed d = pnext -> 0 <= next -> 0 <= pnext ->
  next <= ba_ModelInvocationLimit a -> pnext <= mget 0 (db_Purpose d) (ba_PurposeLimits a) ->
  account_ok (debit_account a d id).
Proof.
  intros [Hv Hr Hl Hu Hls Hp] Hpur Hid En Epn H0 H0' Hn Hpn.
  pose proof (mget_words _ (db_Purpose d) Hls) as Hw. unfold is_u64 in Hl, Hw.
  assert (Hnw : is_u64 next) by (unfold is_u64; lia).
  assert (Hpw : is_u64 pnext) by (unfold is_u64; lia).
  split; cbn -[WorkBudgetAccount_Valid]; subst; try done; [|by apply map_Forall_insert_2].
  unfold WorkBudgetAccount_Valid in *. rewrite if_false_true in *. destruct Hv as [Hg Hin].
  split; [|by apply purposes_within_put].
  pose proof (limits_within _ _ _ _ Hin Hpur).
  cbn -[PurposeCounters_Valid UUIDv7_Valid Digest_Valid]. bprop Hg. autorewrite with gobool.
  split_ands. split_and!; try done. apply counters_valid_put; try done. lia.
Qed.

Lemma debit_binding_ok b d next pnext :
  binding_ok b -> WorkPurpose_Valid (db_Purpose d) = true ->
  db_NextTaskUsed d = next -> db_NextTaskPurposeUsed d = pnext -> 0 <= next -> 0 <= pnext ->
  next <= tb_ModelInvocationLimit b -> pnext <= mget 0 (db_Purpose d) (tb_PurposeLimits b) ->
  binding_ok (debit_binding b d).
Proof.
  intros [Hv Hl Hu Hls Hp] Hpur En Epn H0 H0' Hn Hpn.
  pose proof (mget_words _ (db_Purpose d) Hls) as Hw. unfold is_u64 in Hl, Hw.
  assert (Hnw : is_u64 next) by (unfold is_u64; lia).
  assert (Hpw : is_u64 pnext) by (unfold is_u64; lia).
  split; cbn -[TaskWorkBudgetBinding_Valid]; subst; try done; [|by apply map_Forall_insert_2].
  unfold TaskWorkBudgetBinding_Valid in *. rewrite if_false_true in *. destruct Hv as [Hg Hin].
  split; [|by apply purposes_within_put].
  pose proof (limits_within _ _ _ _ Hin Hpur).
  cbn -[PurposeCounters_Valid UUIDv7_Valid]. bprop Hg. autorewrite with gobool.
  split_ands. split_and!; try done. apply counters_valid_put; try done. lia.
Qed.

(** *** Decoded payloads hold machine words *)

Definition budget_payload_words (v : workBudgetPayload) : Prop :=
  is_u64 (bp_ModelInvocationLimit v) /\ words (bp_PurposeLimits v).

Definition task_payload_words (v : taskBudgetPayload) : Prop :=
  is_u64 (tp_TaskModelInvocationLimit v) /\ words (tp_PurposeLimits v).

Ltac payload_words P :=
  apply (Unmarshal_preserves P);
  [ repeat (constructor; [apply fld_preserves; intros ? ? ? [? ?] ?; split; simpl;
      first [assumption | eapply dec_u64_range; eassumption | eapply dec_map_u64; eassumption]|]);
    constructor
  | split; simpl; [unfold is_u64, u64_mod; lia | apply map_Forall_empty] ].

Lemma budget_payload_decodes payload v :
  Unmarshal fields_workBudgetPayload zero_workBudgetPayload payload = Some v ->
  budget_payload_words v.
Proof. payload_words budget_payload_words. Qed.

Lemma task_payload_decodes payload v :
  Unmarshal fields_taskBudgetPayload zero_taskBudgetPayload payload = Some v ->
  task_payload_words v.
Proof. payload_words task_payload_words. Qed.

Lemma zero_counters_words : words zeroPurposeCounters.
Proof.
  unfold zeroPurposeCounters. simpl.
  repeat (apply map_Forall_insert_2; [unfold is_u64, u64_mod; lia|]). apply map_Forall_empty.
Qed.

(** *** Each projection is well formed *)

Lemma created_ok s e p : project_created s e = inr p -> projection_ok p.
Proof.
  unfold project_created, WorkBudgetFromCreatePayload.
  destruct (Unmarshal _ _ _) as [v|] eqn:Ev; [|discriminate].
  apply budget_payload_decodes in Ev as [Hl Hls].
  intros H. cbv zeta in H.
  destruct (_ || _) eqn:Hg in H; [discriminate H|]. bprop Hg. split_ands.
  unwhen H. injection H as <-. bprop E. split_ands.
  split; cbn -[WorkBudgetAccount_Valid zeroPurposeCounters]; try done.
  intros ref a [= <-] [= <-]. split; [|by symmetry].
  split; cbn -[WorkBudgetAccount_Valid]; try done; try (unfold is_u64, u64_mod; lia).
  apply zero_counters_words.
Qed.

Lemma amended_ok s e p : store_ok s -> project_amended s e = inr p -> projection_ok p.
Proof.
  intros Hs. unfold project_amended.
  destruct (workBudgetAccounts s !! _) as [cur|] eqn:Ec; [|discriminate].
  destruct (so_accounts s Hs _ _ Ec) as [[Hv Hr Hl Hu Hls Hp] Href].
  destruct (ApplyWorkBudgetAmendment _ _ _) as [next valid] eqn:En. intros H. unwhen H.
  injection H as <-. bprop E0. destruct E0 as [Hval _]. subst valid.
  pose proof En as Hspec. unfold ApplyWorkBudgetAmendment in Hspec.
  destruct (Unmarshal _ _ _) as [v|] eqn:Ev; [|discriminate Hspec].
  apply budget_payload_decodes in Ev as [Wl Wls]. unwhen Hspec.
  cbv zeta in Hspec. injection Hspec as Hn Hval. subst next.
  split; try done. cbn -[WorkBudgetAccount_Valid]. intros ref a [= <-] [= <-].
  split; [|done]. split; cbn -[WorkBudgetAccount_Valid u64]; try done. apply u64_range.
Qed.

Lemma binding_from_payload payload id b :
  TaskWorkBudgetBindingFromPayload payload id = Some b -> binding_ok b.
Proof.
  unfold TaskWorkBudgetBindingFromPayload. intros H. cbv zeta in H.
  destruct (Unmarshal _ _ _) as [v|] eqn:Ev; [|discriminate H].
  apply task_payload_decodes in Ev as [Wl Wls]. unwhen H. bprop E. injection H as <-.
  split; cbn -[TaskWorkBudgetBinding_Valid]; try done; try (unfold is_u64, u64_mod; lia).
  apply zero_counters_words.
Qed.

Lemma bound_ok s e p : store_ok s -> project_bound s e = inr p -> projection_ok p.
Proof.
  intros Hs. unfold project_bound.
  destruct (TaskWorkBudgetBindingFromPayload _ _) as [b|] eqn:Eb; [|discriminate].
  apply binding_from_payload in Eb. intros H. unwhen H.
  destruct (taskWorkBudgets s !! _) as [cur|] eqn:Ec.
  - destruct (so_bindings s Hs _ _ Ec) as [Cv Cl Cu Cls Cp]. destruct Eb as [Bv Bl Bu Bls Bp].
    unwhen H. bprop E2. injection H as <-.
    split; try done. cbn -[TaskWorkBudgetBinding_Valid]. intros b' Hb'. simplify_eq.
    split; cbn -[TaskWorkBudgetBinding_Valid]; done.
  - injection H as <-. split; try done. simpl. intros b' ?. by simplify_eq.
Qed.

Lemma scope_ok e p : project_scope e = inr p -> projection_ok p.
Proof.
  unfold project_scope. destruct (TaskOperationalScopeFromPayload _ _); [|discriminate].
  intros H. unwhen H. injection H as <-. split; done.
Qed.

Lemma from_authorized_event e i :
  WorkInvocationFromAuthorizedEvent e = Some i ->
  WorkInvocation_Valid i = true /\ UUIDv7_Valid (ev_EventID e) = true /\
  iv_State i = InvocationAuthorized.
Proof.
  unfold WorkInvocationFromAuthorizedEvent. intros H. cbv zeta in H. accepted H. subst i.
  bprop G0. destruct G0 as [Hv _]. split_and!; [done| |done].
  unfold WorkInvocation_Valid in Hv. rewrite if_false_true in Hv. destruct Hv as [Hv _].
  bprop Hv. split_ands. done.
Qed.

Lemma authorized_ok s e a b d p :
  store_ok s -> validateWorkBudgetCommit (workBudgetAccounts s) (taskWorkBudgets s) d = None ->
  workBudgetAccounts s !! db_Account d = Some a -> taskWorkBudgets s !! db_Task d = Some b ->
  debit_fits a b d -> project_authorized s e (Some d) = inr p -> projection_ok p.
Proof.
  intros Hs Hd Ha Hb [F1 F2 F3 F4]. unfold project_authorized.
  apply validate_commit in Hd as (Hdv & a' & b' & Ha' & Hb' & Er & E1 & E2 & E3 & E4).
  rewrite Ha in Ha'. injection Ha' as <-. rewrite Hb in Hb'. injection Hb' as <-.
  destruct (so_accounts s Hs _ _ Ha) as [Hok Href].
  pose proof (so_bindings s Hs _ _ Hb) as Hbok.
  destruct (debit_decision_next d Hdv) as (Hp & N1 & N2 & N3 & N4). rewrite Hdv. cbn [negb].
  destruct (WorkInvocationFromAuthorizedEvent e) as [i|] eqn:Ei; [|discriminate].
  apply from_authorized_event in Ei as (Hiv & Hid & _).
  intros H. unwhen H. injection H as <-. bprop E. split_ands.
  unfold mget at 1 2. rewrite Ha, Hb.
  destruct (debit_words _ _ (ao_used _ Hok) (ao_limit _ Hok)) as [W1 _]; [lia|].
  destruct (debit_words _ _ (mget_words _ (db_Purpose d) (ao_purpose _ Hok))
              (mget_words _ (db_Purpose d) (ao_limits _ Hok))) as [W2 _]; [lia|].
  destruct (debit_words _ _ (bo_used _ Hbok) (bo_limit _ Hbok)) as [W3 _]; [lia|].
  destruct (debit_words _ _ (mget_words _ (db_Purpose d) (bo_purpose _ Hbok))
              (mget_words _ (db_Purpose d) (bo_limits _ Hbok))) as [W4 _]; [lia|].
  rewrite E1 in W1. rewrite E2 in W2. rewrite E3 in W3. rewrite E4 in W4.
  pose proof (ao_used _ Hok). pose proof (mget_words _ (db_Purpose d) (ao_purpose _ Hok)).
  pose proof (bo_used _ Hbok). pose proof (mget_words _ (db_Purpose d) (bo_purpose _ Hbok)).
  unfold is_u64 in *.
  split; cbn [p4_budgetRef p4_budget p4_binding p4_invocationRef p4_invocation].
  - intros ref a' ? ?. simplify_eq. split; [|done].
    eapply debit_account_ok; eauto; lia.
  - intros b' ?. simplify_eq. eapply debit_binding_ok; eauto; lia.
  - intros ref i' ? ?. by simplify_eq.
Qed.

Lemma invocation_ok s e p : store_ok s -> project_invocation s e = inr p -> projection_ok p.
Proof.
  intros Hs. unfold project_invocation.
  destruct (workInvocations s !! _) as [cur|] eqn:Ec; [|discriminate].
  destruct (so_invocations s Hs _ _ Ec) as [_ Href].
  destruct (ApplyWorkInvocationEvent cur e) as [next valid] eqn:En. intros H. unwhen H.
  bprop E. subst valid. injection H as <-.
  apply apply_invocation_change in En as (_ & _ & _ & Hg & Hv).
  assert (Hid : iv_ID next = iv_ID cur) by (unfold grant in Hg; congruence).
  split; try done. simpl. intros ref i [= <-] [= <-]. split; [done|].
  rewrite <- Href. unfold WorkInvocation_Ref. by rewrite Hid.
Qed.

(** A debit that was planned against the stored limits. *)
Definition debit_planned (s : Store) (debit : option WorkBudgetDebitDecision) : Prop :=
  match debit with
  | None => True
  | Some d => forall a b, workBudgetAccounts s !! db_Account d = Some a ->
      taskWorkBudgets s !! db_Task d = Some b -> debit_fits a b d
  end.

Lemma project_event_ok s e debit p :
  store_ok s -> debit_planned s debit ->
  (forall d, debit = Some d ->
     validateWorkBudgetCommit (workBudgetAccounts s) (taskWorkBudgets s) d = None) ->
  project_event s e debit = inr (Some p) -> projection_ok p.
Proof.
  intros Hs Hf Hd. unfold project_event.
  repeat (case_bool_decide; [intros ?; case_match; simplify_eq;
    eauto using created_ok, amended_ok, bound_ok, scope_ok|]).
  - destruct debit as [d|]; [|done]. specialize (Hd d eq_refl).
    destruct (validate_commit _ _ _ Hd) as (_ & a & b & Ha & Hb & _).
    eapply authorized_ok; eauto.
  - case_match; [|done]. intros ?; case_match; simplify_eq. eauto using invocation_ok.
Qed.

Lemma prepare_ok s events debit ps :
  store_ok s -> debit_planned s debit ->
  (forall d, debit = Some d ->
     validateWorkBudgetCommit (workBudgetAccounts s) (taskWorkBudgets s) d = None) ->
  preparePhase4Projections s events debit = inr ps -> Forall projection_ok ps.
Proof.
  intros Hs Hf Hd. revert ps. induction events as [|e events IH]; simpl; intros ps H.
  - injection H as <-. constructor.
  - destruct (project_event s e debit) as [|p] eqn:Ep; [discriminate H|].
    destruct (preparePhase4Projections s events debit) as [|ps']; [discriminate H|].
    injection H as <-. specialize (IH _ eq_refl).
    destruct p as [p|]; [|done]. constructor; [|done]. eauto using project_event_ok.
Qed.

Lemma apply_all_ok ps s :
  Forall projection_ok ps -> store_ok s -> store_ok (foldl (fun s p => apply_projection p s) s ps).
Proof.
  intros H. revert s. induction H as [|p ps Hp _ IH]; intros s Hs; simpl; [done|].
  auto using apply_projection_ok.
Qed.

Lemma commit_inv s events debit s' :
  commit_phase4 s events debit = inr s' ->
  (forall d, debit = Some d ->
     validateWorkBudgetCommit (workBudgetAccounts s) (taskWorkBudgets s) d = None) /\
  exists ps, preparePhase4Projections s events debit = inr ps /\
    s' = foldl (fun s p => apply_projection p s) s ps.
Proof.
  unfold commit_phase4. intros H. destruct (match debit with Some _ => _ | None => _ end) eqn:E;
    [discriminate H|].
  split; [intros d ->; exact E|].
  destruct (preparePhase4Projections s events debit) as [|ps]; [discriminate H|].
  injection H as <-. eauto.
Qed.

Lemma commit_preserves s events debit s' :
  store_ok s -> debit_planned s debit -> commit_phase4 s events debit = inr s' -> store_ok s'.
Proof.
  intros Hs Hf H. apply commit_inv in H as (Hd & ps & Hps & ->).
  apply apply_all_ok; [|done]. eauto using prepare_ok.
Qed.

(** *** What a commit does to the spent counter of one account *)

Definition spent (s : Store) (ref : AggregateRef) : option Z :=
  match workBudgetAccounts s !! ref with Some a => Some (ba_ModelInvocationsUsed a) | None => None end.

Lemma amendment_keeps_used current payload id next valid :
  ApplyWorkBudgetAmendment current payload id = (next, valid) ->
  ba_ModelInvocationsUsed next = ba_ModelInvocationsUsed current.
Proof.
  unfold ApplyWorkBudgetAmendment. destruct (Unmarshal _ _ _) as [v|]; [|by intros [= <- _]].
  intros H. repeat match type of H with (if ?c then _ else _) = _ => destruct c end;
    cbv zeta in H; by injection H as <- _.
Qed.

(** Without a debit, no event changes what an existing account has spent. *)
Lemma project_keeps_spent s e p ref a a' :
  project_event s e None = inr (Some p) -> workBudgetAccounts s !! ref = Some a ->
  p4_budgetRef p = Some ref -> p4_budget p = Some a' ->
  ba_ModelInvocationsUsed a' = ba_ModelInvocationsUsed a.
Proof.
  intros H Ha Hr Hb. unfold project_event in H.
  repeat (case_bool_decide; [case_match; simplify_eq|]).
  - unfold project_created in *.
    destruct (WorkBudgetFromCreatePayload _ _); [|discriminate].
    match goal with H : _ = inr p |- _ => unwhen H; injection H as <- end.
    simpl in *. simplify_eq. rewrite Ha in E0. discriminate E0.
  - unfold project_amended in *.
    destruct (workBudgetAccounts s !! ev_Aggregate e) as [c|] eqn:Ec; [|discriminate].
    destruct (ApplyWorkBudgetAmendment _ _ _) as [n v] eqn:En.
    match goal with H : _ = inr p |- _ => unwhen H; injection H as <- end.
    simpl in *. simplify_eq. by apply amendment_keeps_used in En.
  - unfold project_bound in *. destruct (TaskWorkBudgetBindingFromPayload _ _); [|discriminate].
    match goal with H : _ = inr p |- _ => unwhen H; case_match; unwhen H; injection H as <- end;
      discriminate Hr.
  - unfold project_scope in *. destruct (TaskOperationalScopeFromPayload _ _); [|discriminate].
    match goal with H : _ = inr p |- _ => unwhen H; injection H as <- end. discriminate Hr.
  - case_match; [|discriminate]. case_match; simplify_eq. unfold project_invocation in *.
    destruct (workInvocations s !! _); [|discriminate].
    destruct (ApplyWorkInvocationEvent _ _).
    match goal with H : _ = inr p |- _ => unwhen H; injection H as <- end. discriminate Hr.
Qed.

Lemma put_spent p s ref a :
  workBudgetAccounts s !! ref = Some a ->
  (forall a', p4_budgetRef p = Some ref -> p4_budget p = Some a' ->
     ba_ModelInvocationsUsed a' = ba_ModelInvocationsUsed a) ->
  spent (apply_projection p s) ref = Some (ba_ModelInvocationsUsed a).
Proof.
  intros Ha H. unfold spent. simpl. unfold put.
  destruct (p4_budgetRef p) as [k|], (p4_budget p) as [v|]; rewrite ?Ha; try done.
  destruct (decide (k = ref)) as [->|Hne].
  - rewrite lookup_insert_eq. f_equal. by apply H.
  - rewrite lookup_insert_ne by done. by rewrite Ha.
Qed.

(** Projections prepared without a debit leave what is spent unchanged. *)
Lemma apply_all_keeps_spent s ps ref used :
  (forall p a a', p ∈ ps -> workBudgetAccounts s !! ref = Some a -> p4_budgetRef p = Some ref ->
     p4_budget p = Some a' -> ba_ModelInvocationsUsed a' = ba_ModelInvocationsUsed a) ->
  spent s ref = Some used ->
  forall t, spent t ref = Some used ->
  spent (foldl (fun s p => apply_projection p s) t ps) ref = Some used.
Proof.
  intros H Hs. unfold spent in Hs.
  destruct (workBudgetAccounts s !! ref) as [a|] eqn:Ha; simplify_eq.
  induction ps as [|p ps IH]; intros t Ht; simpl; [done|].
  apply IH; [set_solver|]. unfold spent in Ht.
  destruct (workBudgetAccounts t !! ref) as [b|] eqn:Hb; [|discriminate Ht]. injection Ht as Ht.
  rewrite (put_spent p t ref b Hb); [by rewrite Ht|]. intros a' ? ?.
  rewrite Ht. eapply (H p a a'); set_solver.
Qed.

Lemma prepare_elem s events debit ps p :
  preparePhase4Projections s events debit = inr ps -> p ∈ ps ->
  exists e, e ∈ events /\ project_event s e debit = inr (Some p).
Proof.
  revert ps. induction events as [|e events IH]; simpl; intros ps H Hp.
  - injection H as <-. inversion Hp.
  - destruct (project_event s e debit) as [|q] eqn:Eq; [discriminate H|].
    destruct (preparePhase4Projections s events debit) as [|qs]; [discriminate H|].
    injection H as <-. destruct q as [q|].
    + apply elem_of_cons in Hp as [->|Hp]; [set_solver|].
      destruct (IH qs eq_refl Hp) as (e' & ? & ?). set_solver.
    + destruct (IH qs eq_refl Hp) as (e' & ? & ?). set_solver.
Qed.

Lemma commit_keeps_spent s events s' ref used :
  commit_phase4 s events None = inr s' -> spent s ref = Some used -> spent s' ref = Some used.
Proof.
  intros H Hs. apply commit_inv in H as (_ & ps & Hps & ->).
  apply (apply_all_keeps_spent s); [|done..].
  intros p a a' Hp Ha Hr Hb. destruct (prepare_elem _ _ _ _ _ Hps Hp) as (e & _ & He).
  by apply (project_keeps_spent s e p ref).
Qed.

(** The event a work-invocation authorisation commits. *)
Definition authorizes (e : DomainEvent) : Prop :=
  ev_EventType e = "tekroo.event.work-invocation.authorized".

Lemma commit_authorized s e d s' :
  authorizes e -> commit_phase4 s [e] (Some d) = inr s' ->
  validateWorkBudgetCommit (workBudgetAccounts s) (taskWorkBudgets s) d = None /\
  exists p, project_authorized s e (Some d) = inr p /\ s' = apply_projection p s.
Proof.
  intros He H. apply commit_inv in H as (Hd & ps & Hps & ->). split; [auto|].
  unfold preparePhase4Projections, project_event in Hps. rewrite He in Hps.
  cbn -[project_authorized] in Hps.
  destruct (project_authorized s e (Some d)) as [|p]; [discriminate Hps|].
  injection Hps as <-. exists p. done.
Qed.

Lemma authorized_projection s e d p :
  project_authorized s e (Some d) = inr p ->
  exists i, WorkInvocationFromAuthorizedEvent e = Some i /\
    p = mkProjection (Some (db_Account d))
          (Some (debit_account (mget zero_WorkBudgetAccount (db_Account d) (workBudgetAccounts s)) d
                   (ev_EventID e)))
          (Some (db_Task d))
          (Some (debit_binding (mget zero_TaskWorkBudgetBinding (db_Task d) (taskWorkBudgets s)) d))
          None (Some (ev_Aggregate e)) (Some i).
Proof.
  unfold project_authorized. intros H. unwhen H.
  destruct (WorkInvocationFromAuthorizedEvent e) as [i|]; [|discriminate H]. unwhen H.
  injection H as <-. eauto.
Qed.

(** A commit of an authorisation sets the counters the debit names and leaves
    the other accounts alone. *)
Lemma commit_authorized_spent s e d s' :
  authorizes e -> commit_phase4 s [e] (Some d) = inr s' ->
  spent s (db_Account d) = Some (db_ExpectedGlobalUsed d) /\
  spent s' (db_Account d) = Some (db_NextGlobalUsed d) /\
  (forall ref, ref <> db_Account d -> spent s' ref = spent s ref).
Proof.
  intros He H. apply commit_authorized in H as (Hd & p & Hp & ->); [|done].
  apply validate_commit in Hd as (Hdv & a & b & Ha & Hb & _ & E1 & _).
  apply authorized_projection in Hp as (i & _ & ->). unfold spent. simpl. rewrite Ha, E1.
  split_and!; [done|by rewrite lookup_insert_eq|]. intros ref Hne. by rewrite lookup_insert_ne.
Qed.

(** ** Runs of commits *)

(** A commit either carries no debit, or is an authorisation whose debit was
    planned against the limits the store holds. *)
Inductive commit_step (s : Store) : option AggregateRef -> Store -> Prop :=
| cs_plain events s' : commit_phase4 s events None = inr s' -> commit_step s None s'
| cs_authorize e d s' :
    authorizes e -> debit_planned s (Some d) -> commit_phase4 s [e] (Some d) = inr s' ->
    commit_step s (Some (db_Account d)) s'.

Inductive commit_run : Store -> list (option AggregateRef) -> Store -> Prop :=
| cr_nil s : commit_run s [] s
| cr_cons s t s' ts s'' : commit_step s t s' -> commit_run s' ts s'' -> commit_run s (t :: ts) s''.

Lemma empty_store_ok : store_ok empty_store.
Proof. split; intros ref x H; simpl in H; by rewrite lookup_empty in H. Qed.

Lemma commit_step_ok s t s' : store_ok s -> commit_step s t s' -> store_ok s'.
Proof. intros Hs H. destruct H; eauto using commit_preserves. eapply commit_preserves; eauto. done. Qed.

Definition authorisations (ref : AggregateRef) (ts : list (option AggregateRef)) : Z :=
  llen (List.filter (fun t => t == Some ref) ts).

Lemma commit_step_spent s t s' ref used :
  store_ok s -> commit_step s t s' -> spent s ref = Some used ->
  spent s' ref = Some (used + authorisations ref [t]).
Proof.
  intros Hs H Hu. destruct H as [events s' H|e d s' He Hf H].
  - unfold authorisations; simpl. rewrite (commit_keeps_spent s events s' ref used H Hu). f_equal. change (used = used + 0). lia.
  - pose proof H as H'. apply commit_authorized_spent in H as (H1 & H2 & H3); [|done].
    unfold authorisations. simpl. destruct (decide (ref = db_Account d)) as [->|Hne].
    + rewrite bool_decide_refl. rewrite H1 in Hu. injection Hu as <-. rewrite H2. f_equal.
      apply commit_inv in H' as [Hd _]. specialize (Hd d eq_refl).
      apply validate_commit in Hd as (Hdv & a & b & Ha & Hb & _ & E1 & _).
      apply debit_decision_next in Hdv as (_ & -> & _). rewrite <- E1.
      destruct (so_accounts s Hs _ _ Ha) as [Hok _].
      destruct (debit_words _ _ (ao_used _ Hok) (ao_limit _ Hok)) as [-> _]; [|reflexivity].
      rewrite E1. apply (df_global _ _ _ (Hf a b Ha Hb)).
    + rewrite bool_decide_false by congruence. rewrite H3, Hu by done. f_equal. change (used = used + 0). lia.
Qed.

Lemma authorisations_cons ref t ts :
  authorisations ref (t :: ts) = authorisations ref [t] + authorisations ref ts.
Proof. unfold authorisations, llen. simpl. destruct (t == Some ref); simpl; lia. Qed.

Lemma commit_run_spent s ts s' ref used :
  store_ok s -> commit_run s ts s' -> spent s ref = Some used ->
  store_ok s' /\ spent s' ref = Some (used + authorisations ref ts).
Proof.
  intros Hs H. revert used. induction H as [s|s t s' ts s'' Hst _ IH]; intros used Hu.
  - split; [done|]. rewrite Hu. f_equal. change (used = used + 0). lia.
  - pose proof (commit_step_ok _ _ _ Hs Hst) as Hs'.
    destruct (IH Hs' _ (commit_step_spent _ _ _ _ _ Hs Hst Hu)) as [H1 H2].
    split; [done|]. rewrite H2, (authorisations_cons ref t ts). f_equal. lia.
Qed.

Lemma account_valid_limit a :
  WorkBudgetAccount_Valid a = true -> ba_ModelInvocationsUsed a <= ba_ModelInvocationLimit a <= 1000.
Proof.
  unfold WorkBudgetAccount_Valid. intros H. unwhen H. bprop E. split_ands. lia.
Qed.

(** The stored limits are those of the snapshot an authorisation was planned
    from; a commit guarantees it by its preconditions on both aggregates. *)
Definition same_limits (account a : WorkBudgetAccount) (binding b : TaskWorkBudgetBinding) : Prop :=
  ba_ModelInvocationLimit account = ba_ModelInvocationLimit a /\
  ba_PurposeLimits account = ba_PurposeLimits a /\
  tb_ModelInvocationLimit binding = tb_ModelInvocationLimit b /\
  tb_PurposeLimits binding = tb_PurposeLimits b.

(** ** Theorems *)

(** Every commit keeps the store well formed: each account and each task
    binding is valid (in particular nothing is spent beyond its limits, in
    total or per purpose) and stored under its own reference, and each
    invocation is valid. *)
Theorem commit_phase4_preserves_store s events debit s' :
  store_ok s -> debit_planned s debit -> commit_phase4 s events debit = inr s' -> store_ok s'.
Proof. apply commit_preserves. Qed.

(** The two halves fit: the debit of an authorisation that
    [PlanWorkInvocationAuthorization] accepts on a snapshot is one the store can
    apply without overspending, whatever happened to the counters since the
    snapshot, as long as the limits are still those of the snapshot. *)
Theorem planned_authorization_fits payload task account binding scope profile assignment exec
    invocations now eventID d s :
  let plan := PlanWorkInvocationAuthorization payload task account binding scope profile assignment
                exec invocations now eventID in
  iad_Accepted plan = true -> iad_BudgetDebit plan = Some d ->
  (forall a b, workBudgetAccounts s !! db_Account d = Some a -> taskWorkBudgets s !! db_Task d = Some b ->
     same_limits account a binding b) ->
  debit_planned s (Some d).
Proof.
  intros plan Ha Hd Hlim a b Hla Hlb.
  apply plan_accepted in Ha as (v & latest & _ & Hr & _ & _ & _ & Hbd & _).
  fold plan in Hbd. rewrite Hbd in Hd. injection Hd as <-.
  apply admission_budget in Hr as (_ & _ & H1 & H2 & H3 & H4).
  destruct (Hlim a b Hla Hlb) as (E1 & E2 & E3 & E4). rewrite E1 in H1. rewrite E2 in H3.
  rewrite E3 in H2. rewrite E4 in H4. split; assumption.
Qed.

(** Two authorisations planned from the same counters of one account cannot
    both commit: after the first, the second is refused as a conflict. *)
Theorem stale_debit_conflicts s e d1 d2 s' :
  store_ok s -> debit_planned s (Some d1) -> authorizes e ->
  WorkBudgetDebitDecision_Valid d2 = true ->
  db_Account d2 = db_Account d1 -> db_ExpectedGlobalUsed d2 = db_ExpectedGlobalUsed d1 ->
  commit_phase4 s [e] (Some d1) = inr s' ->
  forall events, commit_phase4 s' events (Some d2) = inl ErrConflict.
Proof.
  intros Hs Hf He Hv Ea Eu H events. unfold commit_phase4.
  assert (Hst : commit_step s (Some (db_Account d1)) s') by (by econstructor).
  pose proof (commit_authorized_spent s e d1 s' He H) as (H1 & _ & _).
  apply (commit_step_spent s _ s' (db_Account d1) _ Hs Hst) in H1.
  unfold authorisations in H1. simpl in H1. rewrite bool_decide_refl in H1.
  unfold spent in H1. destruct (workBudgetAccounts s' !! db_Account d1) as [a|] eqn:Hla; [|done].
  injection H1 as H1. change (llen [Some (db_Account d1)]) with 1 in H1.
  unfold validateWorkBudgetCommit. rewrite Hv, Ea, Hla. cbn [negb].
  destruct (taskWorkBudgets s' !! db_Task d2) as [b|]; [|done].
  rewrite (bool_decide_false (ba_ModelInvocationsUsed a = _)) by (rewrite H1, Eu; lia).
  by rewrite orb_true_r.
Qed.


(** ** Samples and witnesses *)

Lemma words_check (m : gmap string Z) :
  forallb (fun kv => (0 <=? kv.2) && (kv.2 <? u64_mod)) (map_to_list m) = true -> words m.
Proof.
  intros H k v Hv. rewrite forallb_True_iff, Forall_forall in H.
  specialize (H (k, v) (proj2 (elem_of_map_to_list m k v) Hv)).
  apply andb_true_iff in H as [H1%Z.leb_le H2%Z.ltb_lt]. done.
Qed.

Definition account_ref : AggregateRef := mkRef AggregateWorkBudget (uid "d").
Definition task_ref : AggregateRef := mkRef AggregateTask (uid "a").

Definition sample_store : Store :=
  mkStore {[account_ref := sample_account]} {[task_ref := sample_binding]} ∅ ∅.

Definition sample_debit : WorkBudgetDebitDecision :=
  budget_debit sample_request sample_task sample_account sample_binding.

Definition authorized_event : DomainEvent :=
  bare_event (uid "b") "tekroo.event.work-invocation.authorized"
    (mkRef AggregateWorkInvocation (uid "9")) 1 1 (iad_EventPayload (sample_plan [])).

Definition sample_committed : Store :=
  match commit_phase4 sample_store [authorized_event] (Some sample_debit) with
  | inr s => s
  | inl _ => empty_store
  end.

Lemma sample_store_ok : store_ok sample_store.
Proof.
  split; simpl; intros ref x H; [| |by rewrite lookup_empty in H];
    apply lookup_singleton_Some in H as [<- <-].
  - split; [|reflexivity].
    split; [vm_compute; reflexivity | words | words | words | apply words_check; vm_compute; reflexivity..].
  - split; [vm_compute; reflexivity | words | words | apply words_check; vm_compute; reflexivity..].
Qed.

Lemma sample_planned : debit_planned sample_store (Some sample_debit).
Proof.
  intros a b Ha Hb. simpl in Ha, Hb.
  apply lookup_singleton_Some in Ha as [_ <-]. apply lookup_singleton_Some in Hb as [_ <-].
  split; vm_compute; reflexivity.
Qed.

Lemma sample_commits :
  commit_phase4 sample_store [authorized_event] (Some sample_debit) = inr sample_committed.
Proof. vm_compute. reflexivity. Qed.

Lemma commit_phase4_preserves_store_witness : store_ok sample_committed.
Proof.
  exact (commit_phase4_preserves_store sample_store [authorized_event] (Some sample_debit)
           sample_committed sample_store_ok sample_planned sample_commits).
Defined.

Lemma planned_authorization_fits_witness : debit_planned sample_store (Some sample_debit).
Proof.
  apply (planned_authorization_fits sample_payload sample_task sample_account sample_binding
    sample_scope (mkProfileSnapshot first_profile (uid "f") 4) sample_authorization
    (mkExec (uid "7") 1) [] sample_time (uid "b")).
  - vm_compute. reflexivity.
  - vm_compute. reflexivity.
  - intros a b Ha Hb. simpl in Ha, Hb.
    apply lookup_singleton_Some in Ha as [_ <-]. apply lookup_singleton_Some in Hb as [_ <-].
    split_and!; reflexivity.
Defined.

Lemma stale_debit_conflicts_witness :
  commit_phase4 sample_committed [authorized_event] (Some sample_debit) = inl ErrConflict.
Proof.
  refine (stale_debit_conflicts sample_store authorized_event sample_debit sample_debit
    sample_committed sample_store_ok sample_planned eq_refl _ eq_refl eq_refl sample_commits _).
  vm_compute. reflexivity.
Defined.

