(* ===== verification/Fingerprint.v ===== *)
(** * Fingerprints and idempotency ([kernel/idempotency.go])

    A command is fingerprinted by hashing a canonical JSON text of what it asks
    for: the value is marshalled, decoded into generic maps and encoded again
    with sorted keys and without HTML escapes. The marshalled form of a struct is
    the tree [marshal] builds, and its text is [render] of the tree. *)

From S2P Require Import Prelude GoText GoTime GoJson GoMarshal GoJsonLaws GoMarshalLaws Types Samples.
From S2P Require Import Sha256 Payload Envelope.

(** [canonicalJSON] of a value with this marshalled text; [None] when decoding fails. *)
Definition canonicalJSON (marshalled : string) : option string :=
  try p <- json_decode marshalled ;; Some (encode_any (go_value (fst p))).

(** ** The structs of a command *)

Definition obj : list (string * json) -> json := JObject.

#[export] Instance ref_codec : Codec AggregateRef := {|
  marshal r := obj [("kind", marshal (ref_Kind r)); ("id", marshal (ref_ID r))];
  read v := try k <- read_member "kind" v ;; try i <- read_member "id" v ;; Some (mkRef k i);
  fits r := utf8 (ref_Kind r) /\ utf8 (ref_ID r);
  nesting := 1
|}.

#[export] Instance principal_codec : Codec PrincipalRef := {|
  marshal p := obj [("kind", marshal (pr_Kind p)); ("id", marshal (pr_ID p))];
  read v := try k <- read_member "kind" v ;; try i <- read_member "id" v ;; Some (mkPrincipal k i);
  fits p := utf8 (pr_Kind p) /\ utf8 (pr_ID p);
  nesting := 1
|}.

#[export] Instance execution_codec : Codec ExecutionTuple := {|
  marshal e := obj [("execution_id", marshal (ex_ExecutionID e)); ("fencing_epoch", marshal (ex_FencingEpoch e))];
  read v := try i <- read_member "execution_id" v ;; try f <- read_member "fencing_epoch" v ;; Some (mkExec i f);
  fits e := utf8 (ex_ExecutionID e) /\ is_u64 (ex_FencingEpoch e);
  nesting := 1
|}.

#[export] Instance expected_codec : Codec ExpectedRevision := {|
  marshal e := obj [("must_not_exist", marshal (xr_MustNotExist e)); ("revision", marshal (xr_Revision e))];
  read v := try m <- read_member "must_not_exist" v ;; try r <- read_member "revision" v ;; Some (mkExpected m r);
  fits e := is_u64 (xr_Revision e);
  nesting := 1
|}.

#[export] Instance precondition_codec : Codec AggregatePrecondition := {|
  marshal p := obj [("aggregate", marshal (pc_Aggregate p)); ("expected", marshal (pc_Expected p))];
  read v := try a <- read_member "aggregate" v ;; try e <- read_member "expected" v ;; Some (mkPre a e);
  fits p := fits (pc_Aggregate p) /\ fits (pc_Expected p);
  nesting := 2
|}.

#[export] Instance parent_codec : Codec DagParent := {|
  marshal p := obj [("parent_event_id", marshal (dp_ParentEventID p)); ("edge_kind", marshal (dp_EdgeKind p))];
  read v := try i <- read_member "parent_event_id" v ;; try k <- read_member "edge_kind" v ;; Some (mkParent i k);
  fits p := utf8 (dp_ParentEventID p) /\ utf8 (dp_EdgeKind p);
  nesting := 1
|}.

#[export] Instance evidence_codec : Codec EvidenceRef := {|
  marshal e := obj [("evidence_id", marshal (er_EvidenceID e)); ("sha256", marshal (er_SHA256 e))];
  read v := try i <- read_member "evidence_id" v ;; try s <- read_member "sha256" v ;; Some (mkEvidence i s);
  fits e := utf8 (er_EvidenceID e) /\ utf8 (er_SHA256 e);
  nesting := 1
|}.

(** Pairs of members: the shape of all the structs above. *)
Section pairs.
Context {A B : Type} `{CodecLaws A, CodecLaws B}.
Context (ka kb : string) (Hk : names_ok [ka; kb] = true).

Lemma read_pair_with {C} (mk : A -> B -> C) (x : A) (y : B) :
  fits x -> fits y ->
  (try a <- read_member ka (go_value (obj [(ka, marshal x); (kb, marshal y)])) ;;
   try b <- read_member kb (go_value (obj [(ka, marshal x); (kb, marshal y)])) ;; Some (mk a b))
  = Some (mk x y).
Proof.
  intros Hx Hy. unfold read_member, obj. rewrite !member_object by done. cbn [assoc].
  rewrite !String.eqb_refl. apply names_ok_spec in Hk as [_ Hn]. apply NoDup_cons in Hn as [Hn _].
  destruct (String.eqb_spec ka kb) as [->|_]; [exfalso; apply Hn; by left|]. cbn [fmap option_fmap option_map].
  by rewrite !read_marshal.
Qed.

Lemma wf_pair (x : A) (y : B) : fits x -> fits y -> json_wf (obj [(ka, marshal x); (kb, marshal y)]).
Proof.
  intros Hx Hy. apply object_wf; [done|].
  repeat (constructor; [by apply marshal_wf|]). constructor.
Qed.

Lemma depth_pair (x : A) (y : B) :
  (jdepth (obj [(ka, marshal x); (kb, marshal y)]) <= S (Nat.max (nesting A) (nesting B)))%nat.
Proof. cbn. pose proof (marshal_depth x). pose proof (marshal_depth y). lia. Qed.
End pairs.

Ltac pair_laws mk ka kb :=
  assert (names_ok [ka; kb] = true) as Hk by (vm_compute; reflexivity);
  split; intros [x y];
  [ intros Hf; refine (read_pair_with ka kb Hk mk x y _ _); (apply Hf || done)
  | intros Hf; refine (wf_pair ka kb Hk x y _ _); (apply Hf || done)
  | refine (depth_pair ka kb x y) ].

#[export] Instance ref_laws : CodecLaws AggregateRef.
Proof. pair_laws mkRef "kind" "id". Qed.
#[export] Instance principal_laws : CodecLaws PrincipalRef.
Proof. pair_laws mkPrincipal "kind" "id". Qed.
#[export] Instance execution_laws : CodecLaws ExecutionTuple.
Proof. pair_laws mkExec "execution_id" "fencing_epoch". Qed.
#[export] Instance expected_laws : CodecLaws ExpectedRevision.
Proof. pair_laws mkExpected "must_not_exist" "revision". Qed.
#[export] Instance precondition_laws : CodecLaws AggregatePrecondition.
Proof. pair_laws mkPre "aggregate" "expected". Qed.
#[export] Instance parent_laws : CodecLaws DagParent.
Proof. pair_laws mkParent "parent_event_id" "edge_kind". Qed.
#[export] Instance evidence_laws : CodecLaws EvidenceRef.
Proof. pair_laws mkEvidence "evidence_id" "sha256". Qed.

(** ** Command fingerprints *)

(** The anonymous struct [semantic]. *)
Record CommandMeaning := mkMeaning {
  cm_ContractManifest : string;
  cm_CommandType : string;
  cm_CommandVersion : string;
  cm_Target : AggregateRef;
  cm_Authority : PrincipalRef;
  cm_ActorFQN : option ActorFQN;
  cm_Execution : option ExecutionTuple;
  cm_ExpectedRevision : ExpectedRevision;
  cm_Preconditions : list AggregatePrecondition;
  cm_ExpectedLifecycleEpoch : option Z;
  cm_ExpectedPolicyRevision : Z;
  cm_ExpectedCatalogueRevision : Z;
  cm_Causation : list DagParent;
  cm_Payload : any;
  cm_EvidenceRefs : list EvidenceRef
}.

(** The payload as a generic value; one that is not a single JSON value is
    represented by its bytes in hexadecimal. *)
Definition payload_value (payload : string) : any :=
  match json_parse payload with
  | Some j => go_value j
  | None => AObject [("raw_hex", AString (hex_encode (bytes_of payload)))]
  end.

Definition command_meaning (c : KernelCommand) : CommandMeaning :=
  {| cm_ContractManifest := cmd_ContractManifest c; cm_CommandType := cmd_CommandType c;
     cm_CommandVersion := cmd_CommandVersion c; cm_Target := cmd_Target c;
     cm_Authority := cmd_Authority c; cm_ActorFQN := cmd_ActorFQN c; cm_Execution := cmd_Execution c;
     cm_ExpectedRevision := cmd_ExpectedRevision c;
     cm_Preconditions := canonicalPreconditions (cmd_Preconditions c);
     cm_ExpectedLifecycleEpoch := cmd_ExpectedLifecycleEpoch c;
     cm_ExpectedPolicyRevision := cmd_ExpectedPolicyRevision c;
     cm_ExpectedCatalogueRevision := cmd_ExpectedCatalogueRevision c;
     cm_Causation := merge_sort (key_le dp_EdgeKind dp_ParentEventID) (cmd_Causation c);
     cm_Payload := payload_value (cmd_Payload c);
     cm_EvidenceRefs := merge_sort (key_le er_EvidenceID er_SHA256) (cmd_EvidenceRefs c) |}.

(** [json.Marshal] of the struct: members in order, [omitempty] members left out. *)
Definition meaning_tree (m : CommandMeaning) : json :=
  obj ([("contract_manifest", marshal (cm_ContractManifest m));
        ("command_type", marshal (cm_CommandType m));
        ("command_version", marshal (cm_CommandVersion m));
        ("target", marshal (cm_Target m)); ("authority", marshal (cm_Authority m))]
       ++ omitempty "actor_fqn" (cm_ActorFQN m) ++ omitempty "execution" (cm_Execution m)
       ++ [("expected_revision", marshal (cm_ExpectedRevision m));
           ("preconditions", marshal (cm_Preconditions m));
           ("expected_lifecycle_epoch", marshal_pointer (cm_ExpectedLifecycleEpoch m));
           ("expected_policy_revision", marshal (cm_ExpectedPolicyRevision m));
           ("expected_catalogue_revision", marshal (cm_ExpectedCatalogueRevision m));
           ("causation", marshal (cm_Causation m)); ("payload", html_of (cm_Payload m));
           ("evidence_refs", marshal (cm_EvidenceRefs m))]).

Definition command_text (c : KernelCommand) : option string :=
  canonicalJSON (render (meaning_tree (command_meaning c))).

Definition CommandFingerprint (c : KernelCommand) : option Digest :=
  try canonical <- command_text c ;; Some (sha256_hex canonical).

Definition IdempotencyScopeDigest (c : KernelCommand) : option Digest :=
  try canonical <- canonicalJSON (render
    (obj [("contract_manifest", marshal (cmd_ContractManifest c));
          ("principal_ref", marshal (cmd_Authority c)); ("command_type", marshal (cmd_CommandType c));
          ("target", marshal (cmd_Target c)); ("idempotency_key", marshal (cmd_IdempotencyKey c))])) ;;
  Some (sha256_hex canonical).

(** ** The ledger *)

Record IdempotencyReceipt := mkIdemReceipt {
  ir_Outcome : string;
  ir_Fingerprint : string;
  ir_EventCount : Z;
  ir_Reason : string
}.

Abbreviation IdempotencyLedger := (gmap string IdempotencyReceipt).
Definition NewIdempotencyLedger : IdempotencyLedger := ∅.

(** [Apply] on values whose marshalled texts are given; [None] is an error. *)
Definition IdempotencyLedger_Apply (l : IdempotencyLedger) (scope semanticRequest : string)
    : option (IdempotencyLedger * IdempotencyReceipt) :=
  try key <- canonicalJSON scope ;;
  try request <- canonicalJSON semanticRequest ;;
  let fingerprint := sha256_hex request in
  match l !! key with
  | None =>
    let receipt := mkIdemReceipt "APPLIED" fingerprint 1 "" in
    Some (<[key := receipt]> l, receipt)
  | Some prior =>
    when ir_Fingerprint prior == fingerprint return Some (l, prior) ;;
    Some (l, mkIdemReceipt "REJECTED_CONFLICT" "" 0 "IDEMPOTENCY_KEY_REUSE")
  end.

Definition DurableDecisionCount (l : IdempotencyLedger) : Z := Z.of_nat (size l).

(** ** The canonical text determines the request *)

(** What the Go types guarantee, with texts that are valid UTF-8. *)
Definition command_fits (c : KernelCommand) : Prop :=
  utf8 (cmd_ContractManifest c) /\ utf8 (cmd_CommandType c) /\ utf8 (cmd_CommandVersion c) /\
  fits (cmd_Target c) /\ fits (cmd_Authority c) /\
  (forall a, cmd_ActorFQN c = Some a -> utf8 a) /\ (forall e, cmd_Execution c = Some e -> fits e) /\
  fits (cmd_ExpectedRevision c) /\ fits (cmd_Preconditions c) /\
  (forall n, cmd_ExpectedLifecycleEpoch c = Some n -> is_u64 n) /\
  is_u64 (cmd_ExpectedPolicyRevision c) /\ is_u64 (cmd_ExpectedCatalogueRevision c) /\
  fits (cmd_Causation c) /\ fits (cmd_EvidenceRefs c).

(** The payload can be nested once more: it is a member of the hashed object. *)
Definition payload_shallow (c : KernelCommand) : Prop :=
  forall j, json_parse (cmd_Payload c) = Some j -> (jdepth j < max_depth)%nat.

Record meaning_fits (m : CommandMeaning) : Prop := {
  mf_ContractManifest : utf8 (cm_ContractManifest m);
  mf_CommandType : utf8 (cm_CommandType m);
  mf_CommandVersion : utf8 (cm_CommandVersion m);
  mf_Target : fits (cm_Target m);
  mf_Authority : fits (cm_Authority m);
  mf_ActorFQN : forall a, cm_ActorFQN m = Some a -> utf8 a;
  mf_Execution : forall e, cm_Execution m = Some e -> fits e;
  mf_ExpectedRevision : fits (cm_ExpectedRevision m);
  mf_Preconditions : fits (cm_Preconditions m);
  mf_ExpectedLifecycleEpoch : forall n, cm_ExpectedLifecycleEpoch m = Some n -> is_u64 n;
  mf_ExpectedPolicyRevision : is_u64 (cm_ExpectedPolicyRevision m);
  mf_ExpectedCatalogueRevision : is_u64 (cm_ExpectedCatalogueRevision m);
  mf_Causation : fits (cm_Causation m);
  mf_Payload : any_wf (cm_Payload m);
  mf_EvidenceRefs : fits (cm_EvidenceRefs m);
  mf_depth : (jdepth (html_of (cm_Payload m)) < max_depth)%nat
}.

Definition read_meaning (v : any) : option CommandMeaning :=
  try a <- read_member "contract_manifest" v ;; try b <- read_member "command_type" v ;;
  try c <- read_member "command_version" v ;; try d <- read_member "target" v ;;
  try e <- read_member "authority" v ;; try f <- read_omitted "actor_fqn" v ;;
  try g <- read_omitted "execution" v ;; try h <- read_member "expected_revision" v ;;
  try i <- read_member "preconditions" v ;; try j <- read_pointer "expected_lifecycle_epoch" v ;;
  try k <- read_member "expected_policy_revision" v ;;
  try l <- read_member "expected_catalogue_revision" v ;; try m <- read_member "causation" v ;;
  try n <- member "payload" v ;; try o <- read_member "evidence_refs" v ;;
  Some (mkMeaning a b c d e f g h i j k l m n o).

Lemma read_member_at {A} `{CodecLaws A} k v (x : A) :
  member k v = Some (go_value (marshal x)) -> fits x -> read_member k v = Some x.
Proof. intros E Hx. unfold read_member. rewrite E. by apply read_marshal. Qed.

Lemma read_omitted_at {A} `{CodecLaws A} k v (o : option A) :
  member k v = match o with Some x => Some (go_value (marshal x)) | None => None end ->
  (forall x, o = Some x -> fits x) -> read_omitted k v = Some o.
Proof.
  intros E Hx. unfold read_omitted. rewrite E. destruct o as [x|]; [|done]. rewrite read_marshal; auto.
Qed.

Lemma meaning_names m : names_ok (map fst (match meaning_tree m with JObject ms => ms | _ => [] end)) = true.
Proof. destruct m as [? ? ? ? ? [a|] [e|] ? ? ? ? ? ? ? ?]; vm_cast_no_check (eq_refl true). Qed.

Lemma meaning_member m k :
  member k (go_value (meaning_tree m))
  = go_value <$> assoc k (match meaning_tree m with JObject ms => ms | _ => [] end).
Proof. apply (member_object k), meaning_names. Qed.

Ltac at_member m Hf :=
  (exact Hf || (etransitivity; [apply (meaning_member m)|]; unfold meaning_tree;
                destruct (cm_ActorFQN m), (cm_Execution m); reflexivity)).

Lemma read_meaning_tree m : meaning_fits m -> read_meaning (go_value (meaning_tree m)) = Some m.
Proof.
  intros Hm. set (v := go_value (meaning_tree m)). unfold read_meaning.
  rewrite (read_member_at "contract_manifest" v (cm_ContractManifest m)) by at_member m (mf_ContractManifest m Hm).
  rewrite (read_member_at "command_type" v (cm_CommandType m)) by at_member m (mf_CommandType m Hm).
  rewrite (read_member_at "command_version" v (cm_CommandVersion m)) by at_member m (mf_CommandVersion m Hm).
  rewrite (read_member_at "target" v (cm_Target m)) by at_member m (mf_Target m Hm).
  rewrite (read_member_at "authority" v (cm_Authority m)) by at_member m (mf_Authority m Hm).
  rewrite (read_omitted_at "actor_fqn" v (cm_ActorFQN m)) by at_member m (mf_ActorFQN m Hm).
  rewrite (read_omitted_at "execution" v (cm_Execution m)) by at_member m (mf_Execution m Hm).
  rewrite (read_member_at "expected_revision" v (cm_ExpectedRevision m)) by at_member m (mf_ExpectedRevision m Hm).
  rewrite (read_member_at "preconditions" v (cm_Preconditions m)) by at_member m (mf_Preconditions m Hm).
  assert (forall n : Z, marshal n <> JNull) as Hz by (intros n; cbn; discriminate).
  rewrite (read_pointer_marshal "expected_lifecycle_epoch" v (cm_ExpectedLifecycleEpoch m))
    by (exact Hz || at_member m (mf_ExpectedLifecycleEpoch m Hm)).
  rewrite (read_member_at "expected_policy_revision" v (cm_ExpectedPolicyRevision m)) by at_member m (mf_ExpectedPolicyRevision m Hm).
  rewrite (read_member_at "expected_catalogue_revision" v (cm_ExpectedCatalogueRevision m)) by at_member m (mf_ExpectedCatalogueRevision m Hm).
  rewrite (read_member_at "causation" v (cm_Causation m)) by at_member m (mf_Causation m Hm).
  assert (member "payload" v = Some (go_value (html_of (cm_Payload m)))) as -> by at_member m Hm.
  rewrite (read_member_at "evidence_refs" v (cm_EvidenceRefs m)) by at_member m (mf_EvidenceRefs m Hm).
  rewrite go_value_html_of by apply Hm. by destruct m.
Qed.

Lemma meaning_tree_wf m : meaning_fits m -> json_wf (meaning_tree m).
Proof.
  intros Hm. apply object_wf; [apply (meaning_names m)|].
  pose proof (mf_ActorFQN m Hm) as Ha. pose proof (mf_Execution m Hm) as He.
  pose proof (mf_ExpectedLifecycleEpoch m Hm) as Hl.
  repeat rewrite Forall_app. split_and!.
  - repeat (constructor; [apply marshal_wf; apply Hm|]). constructor.
  - destruct (cm_ActorFQN m) as [x|]; [|constructor]. constructor; [|constructor]. by apply marshal_wf, Ha.
  - destruct (cm_Execution m) as [x|]; [|constructor]. constructor; [|constructor]. by apply (marshal_wf x), He.
  - constructor; [apply marshal_wf; apply Hm|]. constructor; [apply marshal_wf; apply Hm|].
    constructor; [destruct (cm_ExpectedLifecycleEpoch m); [apply marshal_wf; by apply Hl|done]|].
    constructor; [apply marshal_wf; apply (mf_ExpectedPolicyRevision m Hm)|].
    constructor; [apply marshal_wf; apply (mf_ExpectedCatalogueRevision m Hm)|].
    constructor; [apply marshal_wf; apply Hm|].
    constructor; [apply html_of_wf, Hm|]. constructor; [apply marshal_wf; apply Hm|]. constructor.
Qed.

Lemma list_max_nat_le l b : Forall (fun n => (n <= b)%nat) l -> (list_max_nat l <= b)%nat.
Proof. induction 1 as [|x l Hx _ IHl]; cbn; unfold list_max_nat in *; lia. Qed.

Lemma max_depth_large : (100 < max_depth)%nat.
Proof. apply Nat.ltb_lt. vm_compute. reflexivity. Qed.

Lemma marshal_shallow {A} `{CodecLaws A} (x : A) :
  (nesting A <? 100)%nat = true -> (jdepth (marshal x) < max_depth)%nat.
Proof. intros Hx%Nat.ltb_lt. pose proof (marshal_depth x). pose proof max_depth_large. lia. Qed.

Ltac shallow := cbn [snd]; apply marshal_shallow; reflexivity.

Lemma meaning_tree_depth m : meaning_fits m -> (jdepth (meaning_tree m) <= max_depth)%nat.
Proof.
  intros Hm. pose proof (mf_depth m Hm) as Hd. pose proof max_depth_large as Hmax. unfold meaning_tree, obj.
  set (ms := _ ++ _). cbn [jdepth]. enough (Forall (fun kv => (jdepth (snd kv) < max_depth)%nat) ms) as H.
  { apply Nat.le_succ_l, (Nat.le_lt_trans _ (max_depth - 1)%nat); [|lia].
    apply list_max_nat_le, Forall_fmap. eapply Forall_impl; [exact H|]. intros kv. cbn. lia. }
  unfold ms. repeat rewrite Forall_app. split_and!.
  - repeat (constructor; [shallow|]). constructor.
  - destruct (cm_ActorFQN m) as [x|]; [|constructor]. constructor; [shallow|constructor].
  - destruct (cm_Execution m) as [x|]; [|constructor]. constructor; [shallow|constructor].
  - constructor; [shallow|]. constructor; [shallow|].
    constructor; [destruct (cm_ExpectedLifecycleEpoch m); [shallow|cbn; lia]|].
    do 3 (constructor; [shallow|]).
    constructor; [exact Hd|]. constructor; [shallow|]. constructor.
Qed.

Lemma canonicalJSON_tree j :
  json_wf j -> (jdepth j <= max_depth)%nat ->
  canonicalJSON (render j) = Some (encode_any (go_value j)) /\
  option_map go_value (json_parse (encode_any (go_value j))) = Some (go_value j).
Proof.
  intros Hw Hd. split.
  - unfold canonicalJSON. pose proof (render_parse j Hw Hd) as H. unfold json_parse in H.
    destruct (json_decode (render j)) as [[j' r]|]; [|discriminate H]. cbn [snd fst] in *.
    destruct (skip_space r == ""); [|discriminate H]. by injection H as ->.
  - apply encode_any_roundtrip; [by apply go_value_wf|]. etrans; [apply go_value_depth|done].
Qed.

(** The canonical text of a well-formed meaning, and what its text means. *)
Lemma meaning_text m : meaning_fits m ->
  exists text, canonicalJSON (render (meaning_tree m)) = Some text /\
    (option_map go_value (json_parse text) ≫= read_meaning) = Some m.
Proof.
  intros Hm. destruct (canonicalJSON_tree (meaning_tree m)) as [H1 H2];
    [by apply meaning_tree_wf|by apply meaning_tree_depth|].
  eexists. split; [exact H1|]. rewrite H2. cbn. by apply read_meaning_tree.
Qed.

(** *** Sorting *)

Lemma merge_sort_fits {A} `{Codec A} (R : relation A) `{!RelDecision R} l :
  fits l -> fits (merge_sort R l).
Proof. cbn. by rewrite merge_sort_Permutation. Qed.

#[export] Instance parent_antisymm : AntiSymm (=) (key_le dp_EdgeKind dp_ParentEventID).
Proof.
  intros [i1 k1] [i2 k2] H1 H2. destruct (key_le_antisymm_keys _ _ _ _ H1 H2) as [E1 E2].
  cbn in *. by subst.
Qed.
#[export] Instance evidence_antisymm : AntiSymm (=) (key_le er_EvidenceID er_SHA256).
Proof.
  intros [i1 k1] [i2 k2] H1 H2. destruct (key_le_antisymm_keys _ _ _ _ H1 H2) as [E1 E2].
  cbn in *. by subst.
Qed.

Lemma merge_sort_eq_iff {A} (R : relation A) `{!RelDecision R, !Transitive R, !Total R, !AntiSymm (=) R} l1 l2 :
  merge_sort R l1 = merge_sort R l2 <-> l1 ≡ₚ l2.
Proof.
  split; [|by apply merge_sort_perm_eq; apply _]. intros E.
  by rewrite <- (merge_sort_Permutation R l1), E, merge_sort_Permutation.
Qed.

Lemma canonicalPreconditions_perm l1 l2 :
  NoDup (pc_Aggregate <$> l1) ->
  canonicalPreconditions l1 = canonicalPreconditions l2 <-> l1 ≡ₚ l2.
Proof.
  intros Hn. unfold canonicalPreconditions. split.
  - intros E. by rewrite <- (merge_sort_Permutation pre_le l1), E, merge_sort_Permutation.
  - intros Hp.
    eapply (Sorted_unique_strong pre_le); [|apply Sorted_merge_sort; apply _|apply Sorted_merge_sort; apply _|].
    2: by rewrite !merge_sort_Permutation.
    intros a b Ha Hb Hab Hba. rewrite merge_sort_Permutation in Ha.
    rewrite merge_sort_Permutation, <- Hp in Hb.
    apply (NoDup_fmap_elem pc_Aggregate l1); [done|done|done|]. by apply pre_le_same.
Qed.

Lemma utf8_of_ascii s : all_chars (fun c => byte_of c <? 128) s = true -> utf8 s.
Proof. induction s as [|c s IH]; cbn; [constructor|]. rewrite andb_true_iff. intros []. constructor; auto. Qed.

Lemma is_hex_ascii c : is_hex c = true -> (byte_of c <? 128) = true.
Proof. destruct c as [[] [] [] [] [] [] [] []]; done. Qed.

Lemma raw_hex_utf8 s : utf8 (hex_encode (bytes_of s)).
Proof.
  apply utf8_of_ascii. eapply all_chars_impl; [exact is_hex_ascii|]. apply hex_encode_hex, bytes_of_bytes.
Qed.

Lemma json_parse_ok payload j :
  json_parse payload = Some j -> json_wf j /\ (jdepth j <= max_depth)%nat.
Proof.
  unfold json_parse. destruct (json_decode payload) as [[j' r]|] eqn:Ed; [|discriminate].
  cbn. destruct (skip_space r == ""); [|discriminate]. intros [= <-]. by apply json_decode_ok in Ed.
Qed.

Lemma payload_value_wf payload : any_wf (payload_value payload).
Proof.
  unfold payload_value. destruct (json_parse payload) as [j|] eqn:E.
  - by apply go_value_wf, (json_parse_ok payload).
  - apply any_wf_object. split; [split; [apply NoDup_singleton|repeat constructor]|].
    constructor; [|constructor]. cbn [fst snd any_wf]. split; [by apply utf8_of_ascii|apply raw_hex_utf8].
Qed.

Lemma command_meaning_fits c : command_fits c -> payload_shallow c -> meaning_fits (command_meaning c).
Proof.
  intros (?&?&?&?&?&?&?&?&?&?&?&?&?&?) Hp. split; try done.
  - by apply (merge_sort_fits pre_le).
  - by apply (merge_sort_fits (key_le dp_EdgeKind dp_ParentEventID)).
  - apply payload_value_wf.
  - by apply (merge_sort_fits (key_le er_EvidenceID er_SHA256)).
  - cbn. unfold payload_value. destruct (json_parse (cmd_Payload c)) as [j|] eqn:E.
    + eapply Nat.le_lt_trans; [apply go_value_depth|]. by apply Hp.
    + cbn. pose proof max_depth_large. lia.
Qed.

(** Two requests that differ only in what does not matter: the order of
    causation, evidence and preconditions and the layout of the payload. *)
Definition same_request (c d : KernelCommand) : Prop :=
  cmd_ContractManifest c = cmd_ContractManifest d /\ cmd_CommandType c = cmd_CommandType d /\
  cmd_CommandVersion c = cmd_CommandVersion d /\ cmd_Target c = cmd_Target d /\
  cmd_Authority c = cmd_Authority d /\ cmd_ActorFQN c = cmd_ActorFQN d /\
  cmd_Execution c = cmd_Execution d /\ cmd_ExpectedRevision c = cmd_ExpectedRevision d /\
  cmd_Preconditions c ≡ₚ cmd_Preconditions d /\
  cmd_ExpectedLifecycleEpoch c = cmd_ExpectedLifecycleEpoch d /\
  cmd_ExpectedPolicyRevision c = cmd_ExpectedPolicyRevision d /\
  cmd_ExpectedCatalogueRevision c = cmd_ExpectedCatalogueRevision d /\
  cmd_Causation c ≡ₚ cmd_Causation d /\ payload_value (cmd_Payload c) = payload_value (cmd_Payload d) /\
  cmd_EvidenceRefs c ≡ₚ cmd_EvidenceRefs d.

Lemma same_meaning c d :
  NoDup (pc_Aggregate <$> cmd_Preconditions c) ->
  command_meaning c = command_meaning d <-> same_request c d.
Proof.
  intros Hn. unfold same_request. rewrite <- (canonicalPreconditions_perm _ _ Hn).
  rewrite <- (merge_sort_eq_iff (key_le dp_EdgeKind dp_ParentEventID)),
          <- (merge_sort_eq_iff (key_le er_EvidenceID er_SHA256)).
  unfold command_meaning. split; [intros [=]; split_and!; assumption|].
  intros (->&->&->&->&->&->&->&->&->&->&->&->&->&->&->). reflexivity.
Qed.

(** ** Properties *)

(** The hashed text of a command can be read back: for a command whose
    texts are valid UTF-8 and whose payload leaves room for one more level of
    nesting, fingerprinting succeeds, and parsing the canonical text recovers
    every field the fingerprint is meant to cover, the payload value included. *)
Theorem command_text_roundtrip c :
  command_fits c -> payload_shallow c ->
  exists text, command_text c = Some text /\ CommandFingerprint c = Some (sha256_hex text) /\
    (option_map go_value (json_parse text) ≫= read_meaning) = Some (command_meaning c).
Proof.
  intros Hf Hp. destruct (meaning_text _ (command_meaning_fits c Hf Hp)) as (text & Ht & Hr).
  exists text. unfold CommandFingerprint, command_text. rewrite Ht. split_and!; [reflexivity..|exact Hr].
Qed.

(** [C23] The canonical text identifies requests exactly: two commands have the
    same text, hence hash to the same fingerprint, if and only if they ask for the
    same thing, whatever the order of their causation, evidence and preconditions
    and whatever the spacing, key order and escapes of their payloads. *)
Theorem fingerprint_text_exact c d :
  command_fits c -> command_fits d -> payload_shallow c -> payload_shallow d ->
  NoDup (pc_Aggregate <$> cmd_Preconditions c) ->
  command_text c = command_text d <-> same_request c d.
Proof.
  intros Hc Hd Pc Pd Hn. rewrite <- same_meaning by done. unfold command_text.
  split; [|by intros ->].
  destruct (meaning_text _ (command_meaning_fits c Hc Pc)) as (t1 & -> & H1).
  destruct (meaning_text _ (command_meaning_fits d Hd Pd)) as (t2 & -> & H2).
  intros [= <-]. congruence.
Qed.


Definition ledger_step (l : IdempotencyLedger) (request : string * string) : IdempotencyLedger :=
  match IdempotencyLedger_Apply l (fst request) (snd request) with Some (l', _) => l' | None => l end.
Definition ledger_run : IdempotencyLedger -> list (string * string) -> IdempotencyLedger :=
  foldl ledger_step.

Lemma ledger_keeps l requests key receipt :
  l !! key = Some receipt -> ledger_run l requests !! key = Some receipt.
Proof.
  unfold ledger_run. revert l. induction requests as [|[s r] requests IH]; intros l H; [done|]. cbn [foldl].
  apply IH. unfold ledger_step, IdempotencyLedger_Apply. cbn [fst snd].
  destruct (canonicalJSON s) as [k|]; [|done]. destruct (canonicalJSON r) as [q|]; [|done].
  destruct (l !! k) as [prior|] eqn:E; [by destruct (_ == _)|].
  apply lookup_insert_Some. right. split; [|done]. intros ->. congruence.
Qed.

(** A decided request is decided once: after a request was applied in a
    scope, and whatever other requests were submitted since, submitting it again
    returns the first receipt, submitting another request in the same scope is a
    conflict, and neither changes the ledger. *)
Theorem ledger_decides_once l scope request l1 receipt requests other text :
  IdempotencyLedger_Apply l scope request = Some (l1, receipt) ->
  ir_Outcome receipt <> "REJECTED_CONFLICT" ->
  canonicalJSON other = Some text -> sha256_hex text <> ir_Fingerprint receipt ->
  let l2 := ledger_run l1 requests in
  IdempotencyLedger_Apply l2 scope request = Some (l2, receipt) /\
  IdempotencyLedger_Apply l2 scope other
    = Some (l2, mkIdemReceipt "REJECTED_CONFLICT" "" 0 "IDEMPOTENCY_KEY_REUSE").
Proof.
  unfold IdempotencyLedger_Apply. intros H Ho Ht Hd. cbv zeta.
  destruct (canonicalJSON scope) as [k|]; [|discriminate H].
  destruct (canonicalJSON request) as [q|]; [|discriminate H].
  assert (l1 !! k = Some receipt /\ ir_Fingerprint receipt = sha256_hex q) as [Hk Hf].
  { destruct (l !! k) as [prior|] eqn:E.
    - destruct (ir_Fingerprint prior == sha256_hex q) eqn:E'; [|injection H as <- <-; by destruct Ho].
      injection H as <- <-. by apply bool_decide_eq_true in E'.
    - injection H as <- <-. split; [apply lookup_insert_Some; by left|done]. }
  rewrite Ht, (ledger_keeps l1 requests k receipt Hk), Hf, bool_decide_eq_true_2 by done.
  rewrite bool_decide_eq_false_2 by congruence. done.
Qed.

Lemma ledger_decides_once_witness :
  ir_Outcome (mkIdemReceipt "APPLIED" (sha256_hex (js "{'a':1,'b':2}")) 1 "") <> "REJECTED_CONFLICT".
Proof.
  pose proof (ledger_decides_once NewIdempotencyLedger (js "{'k':1}") (js "{ 'b':2, 'a':1 }")
    {[js "{'k':1}" := mkIdemReceipt "APPLIED" (sha256_hex (js "{'a':1,'b':2}")) 1 ""]}
    (mkIdemReceipt "APPLIED" (sha256_hex (js "{'a':1,'b':2}")) 1 "")
    [(js "[3]", "null")] "null" "null") as H.
  destruct H as [_ _]; [vm_compute; reflexivity|discriminate|vm_compute; reflexivity|vm_compute; discriminate|].
  discriminate.
Defined.

(** ** Concrete commands *)

Definition sample_fingerprint_command : KernelCommand :=
  zero_command <| cmd_ContractManifest := ContractIdentity |> <| cmd_CommandType := "task.create" |>
    <| cmd_Target := mkRef "task" (uid "1") |> <| cmd_Payload := js "{'title':'a<b', 'n':1}" |>
    <| cmd_Causation := [mkParent (uid "2") "RESPONSE"; mkParent (uid "1") "CAUSAL"] |>.
Definition sample_reordered_command : KernelCommand :=
  sample_fingerprint_command <| cmd_Payload := js "{'n':1,'title':'a<b'}" |>
    <| cmd_Causation := [mkParent (uid "1") "CAUSAL"; mkParent (uid "2") "RESPONSE"] |>.

Lemma ascii_utf8 s : forallb (fun c => byte_of c <? 128) (list_ascii_of_string s) = true -> utf8 s.
Proof.
  induction s as [|c s IH]; cbn; [constructor|]. rewrite andb_true_iff. intros []. constructor; auto.
Qed.

Ltac fits_by_evaluation :=
  unfold command_fits; split_and!;
  repeat first
    [ apply ascii_utf8; vm_compute; reflexivity
    | progress intros ? [=]; subst | progress (intros ?; discriminate)
    | split; vm_compute; congruence | constructor | split ].

Lemma sample_fits : command_fits sample_fingerprint_command /\ command_fits sample_reordered_command.
Proof. split; fits_by_evaluation. Qed.

Lemma sample_shallow :
  payload_shallow sample_fingerprint_command /\ payload_shallow sample_reordered_command.
Proof.
  split; intros j H; vm_compute in H; injection H as <-; cbn; pose proof max_depth_large; lia.
Qed.

Lemma command_text_roundtrip_witness :
  exists text, command_text sample_fingerprint_command = Some text /\
    (option_map go_value (json_parse text) ≫= read_meaning) = Some (command_meaning sample_fingerprint_command).
Proof.
  destruct (command_text_roundtrip sample_fingerprint_command (proj1 sample_fits) (proj1 sample_shallow))
    as (text & H1 & _ & H2).
  exists text. split; [exact H1|exact H2].
Defined.

Lemma sample_same_request : same_request sample_fingerprint_command sample_reordered_command.
Proof.
  unfold same_request. do 12 (split; [reflexivity|]). split; [apply perm_swap|].
  split; [vm_compute; reflexivity|reflexivity].
Qed.

Lemma fingerprint_text_exact_witness :
  command_text sample_fingerprint_command = command_text sample_reordered_command.
Proof.
  apply (fingerprint_text_exact sample_fingerprint_command sample_reordered_command
    (proj1 sample_fits) (proj2 sample_fits) (proj1 sample_shallow) (proj2 sample_shallow)
    (NoDup_nil_2)), sample_same_request.
Defined.

