(* ===== verification/Provenance.v ===== *)
(** * Provenance of decisions ([kernel/provenance.go])

    The identities of source, overlay, build and runtime a decision is made with,
    their consistency, and the digest of the provenance record. [json.Marshal] of
    a struct with times is an [option] tree: a year outside 0 to 9999 is an error.
    The slices of a runtime identity are copied as they are, so [nil] and empty
    are told apart there; the other slices are rebuilt with [append]. *)

From S2P Require Import Prelude GoText GoTime GoJson GoMarshal GoJsonLaws GoMarshalLaws Types Samples.
From S2P Require Import Sha256 Payload Envelope WorkInvocation Fingerprint.

(** ** Digests of values *)

Definition DigestBytes (value : string) : Digest := sha256_hex value.

Definition digestValue (value : option json) : option Digest :=
  try tree <- value ;; try canonical <- canonicalJSON (render tree) ;; Some (DigestBytes canonical).

(** A struct whose members may fail to marshal. *)
Fixpoint marshal_members (l : list (string * option json)) : option (list (string * json)) :=
  match l with
  | [] => Some []
  | (k, v) :: l => try x <- v ;; try r <- marshal_members l ;; Some ((k, x) :: r)
  end.
Definition marshal_struct (l : list (string * option json)) : option json :=
  try ms <- marshal_members l ;; Some (obj ms).

Definition marshal_time (t : Time) : option json := try text <- time_text t ;; Some (JString text).
Definition marshal_nslice {A} `{Codec A} (s : nslice A) : json :=
  match s with None => JNull | Some l => JArray (map marshal l) end.
Definition field_of {A} `{Codec A} (k : string) (x : A) : string * option json := (k, Some (marshal x)).

(** ** Identities *)

Record SourceIdentity := mkSource {
  si_Repository : string;
  si_Commit : string;
  si_TreeDigest : Digest;
  si_Scope : string
}.

Record OverlayIdentity := mkOverlay {
  ov_SourceTreeDigest : Digest;
  ov_ChangeDigest : Digest
}.

Record BuildIdentity := mkBuild {
  bi_SourceTreeDigest : Digest;
  bi_OverlayDigest : Digest;
  bi_DependencyLockDigest : Digest;
  bi_ToolchainDigest : Digest;
  bi_BuildDefinitionDigest : Digest;
  bi_ArtifactDigest : Digest
}.

Record RuntimeIdentity := mkRuntime {
  rt_BuildArtifactDigest : Digest;
  rt_ContractManifest : string;
  rt_ConfigurationDigest : Digest;
  rt_EnvironmentDigest : Digest;
  rt_RoleLibraryDigests : nslice Digest;
  rt_Capabilities : nslice string;
  rt_ProviderIdentities : nslice string
}.

Record ProvenanceBasis := mkBasis {
  pb_CatalogueDigest : Digest;
  pb_PolicyDigest : Digest;
  pb_PolicyRevision : Z;
  pb_GrantDigests : list Digest;
  pb_DelegationDigests : list Digest;
  pb_Source : SourceIdentity;
  pb_Overlay : OverlayIdentity;
  pb_Build : BuildIdentity;
  pb_Runtime : RuntimeIdentity
}.

Record DecisionProvenance := mkProvenance {
  dv_ContractManifest : string;
  dv_CatalogueDigest : Digest;
  dv_CommandID : UUIDv7;
  dv_CommandFingerprint : Digest;
  dv_Principal : PrincipalRef;
  dv_PolicyDigest : Digest;
  dv_PolicyRevision : Z;
  dv_GrantDigests : list Digest;
  dv_DelegationDigests : list Digest;
  dv_ActorFQN : option ActorFQN;
  dv_Execution : option ExecutionTuple;
  dv_Parents : list DagParent;
  dv_EvidenceRefs : list EvidenceRef;
  dv_Source : SourceIdentity;
  dv_Overlay : OverlayIdentity;
  dv_Build : BuildIdentity;
  dv_Runtime : RuntimeIdentity;
  dv_ReceivedAt : Time;
  dv_DecidedAt : Time
}.

Record DecisionContext := mkContext {
  dc_ReceivedAt : Time;
  dc_DecidedAt : Time;
  dc_EventID : UUIDv7;
  dc_IntentID : UUIDv7;
  dc_Provenance : ProvenanceBasis;
  dc_ProvenanceDigest : Digest
}.

Definition marshal_source (s : SourceIdentity) : json :=
  obj [("repository", marshal (si_Repository s)); ("commit", marshal (si_Commit s));
       ("tree_digest", marshal (si_TreeDigest s)); ("scope", marshal (si_Scope s))].
Definition marshal_overlay (o : OverlayIdentity) : json :=
  obj [("source_tree_digest", marshal (ov_SourceTreeDigest o)); ("change_digest", marshal (ov_ChangeDigest o))].
Definition marshal_build (b : BuildIdentity) : json :=
  obj [("source_tree_digest", marshal (bi_SourceTreeDigest b)); ("overlay_digest", marshal (bi_OverlayDigest b));
       ("dependency_lock_digest", marshal (bi_DependencyLockDigest b));
       ("toolchain_digest", marshal (bi_ToolchainDigest b));
       ("build_definition_digest", marshal (bi_BuildDefinitionDigest b));
       ("artifact_digest", marshal (bi_ArtifactDigest b))].
Definition marshal_runtime (r : RuntimeIdentity) : json :=
  obj [("build_artifact_digest", marshal (rt_BuildArtifactDigest r));
       ("contract_manifest", marshal (rt_ContractManifest r));
       ("configuration_digest", marshal (rt_ConfigurationDigest r));
       ("environment_digest", marshal (rt_EnvironmentDigest r));
       ("role_library_digests", marshal_nslice (rt_RoleLibraryDigests r));
       ("capabilities", marshal_nslice (rt_Capabilities r));
       ("provider_identities", marshal_nslice (rt_ProviderIdentities r))].

Definition marshal_provenance (r : DecisionProvenance) : option json :=
  marshal_struct
    [field_of "contract_manifest" (dv_ContractManifest r); field_of "catalogue_digest" (dv_CatalogueDigest r);
     field_of "command_id" (dv_CommandID r); field_of "command_fingerprint" (dv_CommandFingerprint r);
     field_of "principal" (dv_Principal r); field_of "policy_digest" (dv_PolicyDigest r);
     field_of "policy_revision" (dv_PolicyRevision r); field_of "grant_digests" (dv_GrantDigests r);
     field_of "delegation_digests" (dv_DelegationDigests r);
     ("actor_fqn", Some (marshal_pointer (dv_ActorFQN r))); ("execution", Some (marshal_pointer (dv_Execution r)));
     field_of "parents" (dv_Parents r); field_of "evidence_refs" (dv_EvidenceRefs r);
     ("source", Some (marshal_source (dv_Source r))); ("overlay", Some (marshal_overlay (dv_Overlay r)));
     ("build", Some (marshal_build (dv_Build r))); ("runtime", Some (marshal_runtime (dv_Runtime r)));
     ("received_at", marshal_time (dv_ReceivedAt r)); ("decided_at", marshal_time (dv_DecidedAt r))].

Definition SourceIdentity_Valid (i : SourceIdentity) : bool :=
  (si_Repository i != "") && (si_Commit i != "") && (si_Scope i != "") && Digest_Valid (si_TreeDigest i).

Definition OverlayIdentity_Valid (i : OverlayIdentity) : bool :=
  Digest_Valid (ov_SourceTreeDigest i) && Digest_Valid (ov_ChangeDigest i).

Definition OverlayIdentity_Digest (i : OverlayIdentity) : option Digest := digestValue (Some (marshal_overlay i)).

Definition BuildIdentity_Valid (i : BuildIdentity) : bool :=
  Digest_Valid (bi_SourceTreeDigest i) && Digest_Valid (bi_OverlayDigest i)
  && Digest_Valid (bi_DependencyLockDigest i) && Digest_Valid (bi_ToolchainDigest i)
  && Digest_Valid (bi_BuildDefinitionDigest i) && Digest_Valid (bi_ArtifactDigest i).

Definition RuntimeIdentity_Valid (i : RuntimeIdentity) : bool :=
  when negb (Digest_Valid (rt_BuildArtifactDigest i)) || (rt_ContractManifest i != ContractIdentity)
       || negb (Digest_Valid (rt_ConfigurationDigest i)) || negb (Digest_Valid (rt_EnvironmentDigest i))
    return false ;;
  forallb Digest_Valid (nslice_list (rt_RoleLibraryDigests i)).

Definition ProvenanceBasis_Valid (b : ProvenanceBasis) : bool :=
  when negb (Digest_Valid (pb_CatalogueDigest b)) || negb (Digest_Valid (pb_PolicyDigest b))
       || (pb_PolicyRevision b == 0) || negb (SourceIdentity_Valid (pb_Source b))
       || negb (OverlayIdentity_Valid (pb_Overlay b)) || negb (BuildIdentity_Valid (pb_Build b))
       || negb (RuntimeIdentity_Valid (pb_Runtime b))
    return false ;;
  when negb (forallb Digest_Valid (pb_GrantDigests b)) return false ;;
  when negb (forallb Digest_Valid (pb_DelegationDigests b)) return false ;;
  when (ov_SourceTreeDigest (pb_Overlay b) != si_TreeDigest (pb_Source b))
       || (bi_SourceTreeDigest (pb_Build b) != si_TreeDigest (pb_Source b))
       || (rt_BuildArtifactDigest (pb_Runtime b) != bi_ArtifactDigest (pb_Build b))
       || (rt_ContractManifest (pb_Runtime b) != ContractIdentity)
    return false ;;
  match digestValue (Some (marshal_overlay (pb_Overlay b))) with
  | Some overlayDigest => bi_OverlayDigest (pb_Build b) == overlayDigest
  | None => false
  end.

Definition basisAndContextValid (c : DecisionContext) : bool :=
  ProvenanceBasis_Valid (dc_Provenance c) && negb (IsZero (dc_ReceivedAt c))
  && negb (IsZero (dc_DecidedAt c)) && negb (Before (dc_DecidedAt c) (dc_ReceivedAt c)).

(** The record and its digest; [None] is an error. *)
Definition BuildDecisionProvenance (c : KernelCommand) (fingerprint : Digest) (context : DecisionContext)
    : option (DecisionProvenance * Digest) :=
  when negb (basisAndContextValid context) || negb (Digest_Valid fingerprint) return None ;;
  let basis := dc_Provenance context in
  let record :=
    {| dv_ContractManifest := cmd_ContractManifest c; dv_CatalogueDigest := pb_CatalogueDigest basis;
       dv_CommandID := cmd_CommandID c; dv_CommandFingerprint := fingerprint;
       dv_Principal := cmd_Authority c; dv_PolicyDigest := pb_PolicyDigest basis;
       dv_PolicyRevision := pb_PolicyRevision basis; dv_GrantDigests := pb_GrantDigests basis;
       dv_DelegationDigests := pb_DelegationDigests basis; dv_ActorFQN := cmd_ActorFQN c;
       dv_Execution := cmd_Execution c; dv_Parents := canonicalParents (cmd_Causation c);
       dv_EvidenceRefs := cmd_EvidenceRefs c; dv_Source := pb_Source basis;
       dv_Overlay := pb_Overlay basis; dv_Build := pb_Build basis; dv_Runtime := pb_Runtime basis;
       dv_ReceivedAt := dc_ReceivedAt context; dv_DecidedAt := dc_DecidedAt context |} in
  try digest <- digestValue (marshal_provenance record) ;; Some (record, digest).

Definition DecisionProvenance_Digest (r : DecisionProvenance) : option Digest :=
  digestValue (marshal_provenance r).

Definition provenance_basis (r : DecisionProvenance) : ProvenanceBasis :=
  mkBasis (dv_CatalogueDigest r) (dv_PolicyDigest r) (dv_PolicyRevision r) (dv_GrantDigests r)
    (dv_DelegationDigests r) (dv_Source r) (dv_Overlay r) (dv_Build r) (dv_Runtime r).

Definition DecisionProvenance_Valid (r : DecisionProvenance) : bool :=
  when (dv_ContractManifest r != ContractIdentity) || negb (UUIDv7_Valid (dv_CommandID r))
       || negb (Digest_Valid (dv_CommandFingerprint r)) || negb (PrincipalRef_Valid (dv_Principal r))
       || negb (ProvenanceBasis_Valid (provenance_basis r)) || IsZero (dv_ReceivedAt r)
       || IsZero (dv_DecidedAt r) || Before (dv_DecidedAt r) (dv_ReceivedAt r)
    return false ;;
  when match dv_ActorFQN r with Some a => negb (ActorFQN_Valid a) | None => false end return false ;;
  when match dv_Execution r with
       | Some e => is_nil (dv_ActorFQN r) || negb (ExecutionTuple_Valid e)
       | None => false
       end return false ;;
  when negb (forallb parent_ok (dv_Parents r)) return false ;;
  forallb evidence_ok (dv_EvidenceRefs r).
