(* ===== verification/Evidence.v ===== *)
(** * Evidence registry ([kernel/evidence.go])

    Records of evidence, their raw content by digest, deletions, assessments of
    claims, an access log and a hash-chained audit log, with the projection that
    replays the audit log. [nil] raw bytes are [None]. Errors are values of
    [evidence_error], one per message of the source. *)

From S2P Require Import Prelude GoText GoTime GoJson GoMarshal GoJsonLaws GoMarshalLaws Types Samples.
From S2P Require Import Sha256 Payload Envelope WorkInvocation Fingerprint Provenance.

Definition EvidenceAvailability := string.
Definition EvidenceAvailable : EvidenceAvailability := "AVAILABLE".
Definition EvidenceUnavailable : EvidenceAvailability := "UNAVAILABLE".
Definition EvidenceDeleted : EvidenceAvailability := "DELETED_WITH_TOMBSTONE".

Definition IntegrityState := string.
Definition IntegrityUnverified : IntegrityState := "UNVERIFIED".
Definition IntegrityDigestVerified : IntegrityState := "DIGEST_VERIFIED".
Definition IntegrityMissing : IntegrityState := "MISSING".
Definition IntegrityMismatch : IntegrityState := "MISMATCH".

Inductive evidence_error :=
| ErrEvidenceAccessDenied | ErrEvidenceUnavailable | ErrAlreadyRegistered | ErrInvalidTombstone
| ErrDeletionRecorded | ErrAssessmentRegistered | ErrAssessmentUnavailable | ErrAssessmentDeleted
| ErrSupersededNotFound | ErrMustSupersede | ErrInvalidMetadata | ErrInvalidLineage
| ErrIncompleteComputation | ErrComputedWithoutSources | ErrInvalidCanonicalDigest | ErrRedactionLineage
| ErrWrongLength | ErrDigestMismatch | ErrUnavailableWithBytes | ErrInvalidAssessment
| ErrObservedClaim | ErrComputedClaim | ErrUnknownClaimClass.

Record ComputationIdentity := mkComputation {
  cx_Method : string;
  cx_BuildDigest : Digest;
  cx_ConfigurationDigest : Digest;
  cx_Deterministic : bool
}.

Record EvidenceRecord := mkEvidenceRecord {
  ev_EvidenceID : UUIDv7;
  ev_EvidenceKind : string;
  ev_RawSHA256 : Digest;
  ev_ByteLength : Z;
  ev_MediaType : string;
  ev_Locator : string;
  ev_LocatorImmutable : bool;
  ev_Availability : EvidenceAvailability;
  ev_RegisteredBy : PrincipalRef;
  ev_ProducingComponent : string;
  ev_ProducingVersion : string;
  ev_IngestedAt : Time;
  ev_SourceTimestamp : option Time;
  ev_TransportProvenance : string;
  ev_Sensitivity : string;
  ev_AccessPartition : string;
  ev_RetentionPolicy : string;
  ev_IntegrityState : IntegrityState;
  ev_SourceEvidenceIDs : nslice UUIDv7;
  ev_Computation : option ComputationIdentity;
  ev_CanonicalDigest : option Digest;
  ev_Redacts : option UUIDv7
}.

#[export] Instance eta_EvidenceRecord : Eta EvidenceRecord := fun r =>
  mkEvidenceRecord (ev_EvidenceID r) (ev_EvidenceKind r) (ev_RawSHA256 r) (ev_ByteLength r) (ev_MediaType r)
    (ev_Locator r) (ev_LocatorImmutable r) (ev_Availability r) (ev_RegisteredBy r) (ev_ProducingComponent r)
    (ev_ProducingVersion r) (ev_IngestedAt r) (ev_SourceTimestamp r) (ev_TransportProvenance r)
    (ev_Sensitivity r) (ev_AccessPartition r) (ev_RetentionPolicy r) (ev_IntegrityState r)
    (ev_SourceEvidenceIDs r) (ev_Computation r) (ev_CanonicalDigest r) (ev_Redacts r).

Record EvidenceAccessPolicy := mkAccess {
  ap_AccessPrincipal : PrincipalRef;
  ap_ReadPartitions : list string;
  ap_RegisterPartitions : list string;
  ap_CanDelete : bool
}.

Record EvidenceDeletionTombstone := mkTombstone {
  tb_EvidenceID : UUIDv7;
  tb_RawSHA256 : Digest;
  tb_Authority : PrincipalRef;
  tb_Basis : string;
  tb_DeletedAt : Time
}.

Record EvidenceAccessRecord := mkAccessRecord {
  al_EvidenceID : UUIDv7;
  al_Principal : PrincipalRef;
  al_AccessedAt : Time;
  al_Allowed : bool
}.

Record EvidenceAuditEntry := mkAuditEntry {
  ae_Position : Z;
  ae_Kind : string;
  ae_Identity : UUIDv7;
  ae_Digest : Digest;
  ae_PreviousDigest : Digest;
  ae_EntryDigest : Digest
}.

Definition ClaimClass := string.
Definition ClaimObserved : ClaimClass := "OBSERVED".
Definition ClaimComputed : ClaimClass := "COMPUTED".
Definition ClaimInferred : ClaimClass := "INFERRED".
Definition ClaimDecided : ClaimClass := "DECIDED".
Definition ClaimUnknown : ClaimClass := "UNKNOWN".

Record ClaimAssessment := mkAssessment {
  ca_AssessmentID : UUIDv7;
  ca_Claim : string;
  ca_Class : ClaimClass;
  ca_Supporting : nslice UUIDv7;
  ca_Contradicting : nslice UUIDv7;
  ca_Method : string;
  ca_Assessor : PrincipalRef;
  ca_Scope : string;
  ca_AssessedAt : Time;
  ca_Supersedes : option UUIDv7
}.

Record EvidenceRegistry := mkRegistry {
  rg_records : gmap UUIDv7 EvidenceRecord;
  rg_content : gmap Digest string;
  rg_deletions : gmap UUIDv7 EvidenceDeletionTombstone;
  rg_assessments : gmap UUIDv7 ClaimAssessment;
  rg_access : list EvidenceAccessRecord;
  rg_audit : list EvidenceAuditEntry
}.

#[export] Instance eta_EvidenceRegistry : Eta EvidenceRegistry := fun r =>
  mkRegistry (rg_records r) (rg_content r) (rg_deletions r) (rg_assessments r) (rg_access r) (rg_audit r).

Definition NewEvidenceRegistry : EvidenceRegistry := mkRegistry ∅ ∅ ∅ ∅ [] [].

(** ** Marshalled forms *)

Definition omit_time (k : string) (o : option Time) : list (string * option json) :=
  match o with Some t => [(k, marshal_time t)] | None => [] end.
Definition omit_opt {A} (k : string) (tree : A -> json) (o : option A) : list (string * option json) :=
  match o with Some x => [(k, Some (tree x))] | None => [] end.
(** An [omitempty] string. *)
Definition omit_string (k s : string) : list (string * option json) :=
  if s == "" then [] else [field_of k s].

Definition marshal_computation (c : ComputationIdentity) : json :=
  obj [("method", marshal (cx_Method c)); ("build_digest", marshal (cx_BuildDigest c));
       ("configuration_digest", marshal (cx_ConfigurationDigest c)); ("deterministic", marshal (cx_Deterministic c))].

Definition marshal_evidence (r : EvidenceRecord) : option json :=
  marshal_struct
    ([field_of "evidence_id" (ev_EvidenceID r); field_of "evidence_kind" (ev_EvidenceKind r);
      field_of "raw_sha256" (ev_RawSHA256 r); field_of "byte_length" (ev_ByteLength r);
      field_of "media_type" (ev_MediaType r); field_of "locator" (ev_Locator r);
      field_of "locator_immutable" (ev_LocatorImmutable r); field_of "availability" (ev_Availability r);
      field_of "registered_by" (ev_RegisteredBy r); field_of "producing_component" (ev_ProducingComponent r);
      field_of "producing_version" (ev_ProducingVersion r); ("ingested_at", marshal_time (ev_IngestedAt r))]
     ++ omit_time "source_timestamp" (ev_SourceTimestamp r)
     ++ [field_of "transport_provenance" (ev_TransportProvenance r); field_of "sensitivity" (ev_Sensitivity r);
         field_of "access_partition" (ev_AccessPartition r); field_of "retention_policy" (ev_RetentionPolicy r);
         field_of "integrity_state" (ev_IntegrityState r);
         ("source_evidence_ids", Some (marshal_nslice (ev_SourceEvidenceIDs r)))]
     ++ omit_opt "computation" marshal_computation (ev_Computation r)
     ++ omit_opt "canonical_digest" marshal (ev_CanonicalDigest r) ++ omit_opt "redacts" marshal (ev_Redacts r)).

Definition marshal_tombstone (t : EvidenceDeletionTombstone) : option json :=
  marshal_struct
    [field_of "evidence_id" (tb_EvidenceID t); field_of "raw_sha256" (tb_RawSHA256 t);
     field_of "authority" (tb_Authority t); field_of "basis" (tb_Basis t);
     ("deleted_at", marshal_time (tb_DeletedAt t))].

Definition marshal_assessment (a : ClaimAssessment) : option json :=
  marshal_struct
    ([field_of "assessment_id" (ca_AssessmentID a); field_of "claim" (ca_Claim a); field_of "class" (ca_Class a);
      ("supporting_evidence_ids", Some (marshal_nslice (ca_Supporting a)));
      ("contradicting_evidence_ids", Some (marshal_nslice (ca_Contradicting a)))]
     ++ omit_string "method" (ca_Method a)
     ++ [field_of "assessor" (ca_Assessor a); field_of "scope" (ca_Scope a);
         ("assessed_at", marshal_time (ca_AssessedAt a))]
     ++ omit_opt "supersedes" marshal (ca_Supersedes a)).

Definition marshal_entry (e : EvidenceAuditEntry) : option json :=
  marshal_struct
    ([field_of "position" (ae_Position e); field_of "kind" (ae_Kind e); field_of "identity" (ae_Identity e);
      field_of "digest" (ae_Digest e)] ++ omit_string "previous_digest" (ae_PreviousDigest e)).

Definition evidenceAuditEntryDigest (e : EvidenceAuditEntry) : option Digest := digestValue (marshal_entry e).

(** ** Operations *)

(** Errors of the digests are dropped, leaving the empty digest. *)
Definition appendAudit (r : EvidenceRegistry) (kind : string) (identity : UUIDv7) (value : option json)
    : EvidenceRegistry :=
  let digest := default "" (digestValue value) in
  let previous := match last (rg_audit r) with Some e => ae_EntryDigest e | None => "" end in
  let entry := mkAuditEntry (u64 (llen (rg_audit r) + 1)) kind identity digest previous "" in
  let entry := mkAuditEntry (ae_Position entry) kind identity digest previous
                 (default "" (evidenceAuditEntryDigest entry)) in
  r <| rg_audit := rg_audit r ++ [entry] |>.

(** The errors of the value are values: [None] accepts. *)
Definition EvidenceRecord_Validate (r : EvidenceRecord) (raw : option string) : option evidence_error :=
  when negb (UUIDv7_Valid (ev_EvidenceID r)) || (ev_EvidenceKind r == "") || negb (Digest_Valid (ev_RawSHA256 r))
       || (ev_MediaType r == "") || (ev_Locator r == "") || negb (ev_LocatorImmutable r)
       || negb (PrincipalRef_Valid (ev_RegisteredBy r)) || (ev_ProducingComponent r == "")
       || (ev_ProducingVersion r == "") || IsZero (ev_IngestedAt r) || (ev_TransportProvenance r == "")
       || (ev_Sensitivity r == "") || (ev_AccessPartition r == "") || (ev_RetentionPolicy r == "")
    return Some ErrInvalidMetadata ;;
  when existsb (fun source => negb (UUIDv7_Valid source) || (source == ev_EvidenceID r))
         (nslice_list (ev_SourceEvidenceIDs r))
    return Some ErrInvalidLineage ;;
  when match ev_Computation r with
       | Some c => (cx_Method c == "") || negb (Digest_Valid (cx_BuildDigest c))
                   || negb (Digest_Valid (cx_ConfigurationDigest c))
       | None => false
       end return Some ErrIncompleteComputation ;;
  when negb (is_nil (ev_Computation r)) && (llen (nslice_list (ev_SourceEvidenceIDs r)) == 0)
    return Some ErrComputedWithoutSources ;;
  when negb (opt_all Digest_Valid (ev_CanonicalDigest r)) return Some ErrInvalidCanonicalDigest ;;
  when match ev_Redacts r with
       | Some id => negb (UUIDv7_Valid id) || negb (containsUUID (nslice_list (ev_SourceEvidenceIDs r)) id)
       | None => false
       end return Some ErrRedactionLineage ;;
  if ev_Availability r == EvidenceAvailable then
    match raw with
    | None => Some ErrWrongLength
    | Some bytes =>
      when slen bytes != ev_ByteLength r return Some ErrWrongLength ;;
      when (DigestBytes bytes != ev_RawSHA256 r) || (ev_IntegrityState r != IntegrityDigestVerified)
        return Some ErrDigestMismatch ;;
      None
    end
  else when negb (is_nil raw) return Some ErrUnavailableWithBytes ;; None.

Definition ClaimAssessment_Validate (a : ClaimAssessment) : option evidence_error :=
  when negb (UUIDv7_Valid (ca_AssessmentID a)) || (ca_Claim a == "") || negb (PrincipalRef_Valid (ca_Assessor a))
       || (ca_Scope a == "") || IsZero (ca_AssessedAt a)
    return Some ErrInvalidAssessment ;;
  if ca_Class a == ClaimObserved then
    when (llen (nslice_list (ca_Supporting a)) == 0) || (ca_Method a != "") return Some ErrObservedClaim ;; None
  else if ca_Class a == ClaimComputed then
    when (llen (nslice_list (ca_Supporting a)) == 0) || (ca_Method a == "") return Some ErrComputedClaim ;; None
  else if (ca_Class a == ClaimInferred) || (ca_Class a == ClaimDecided) || (ca_Class a == ClaimUnknown)
  then None else Some ErrUnknownClaimClass.

(** A slice copied with [append] is [nil] when it is empty. *)
Definition copied {A} (s : nslice A) : nslice A := match s with Some [] => None | _ => s end.
Definition cloneEvidenceRecord (r : EvidenceRecord) : EvidenceRecord :=
  r <| ev_SourceEvidenceIDs := copied (ev_SourceEvidenceIDs r) |>.
Definition cloneClaimAssessment (a : ClaimAssessment) : ClaimAssessment :=
  mkAssessment (ca_AssessmentID a) (ca_Claim a) (ca_Class a) (copied (ca_Supporting a))
    (copied (ca_Contradicting a)) (ca_Method a) (ca_Assessor a) (ca_Scope a) (ca_AssessedAt a) (ca_Supersedes a).

(** The registry after the call, and the error. *)
Definition Register (g : EvidenceRegistry) (record : EvidenceRecord) (raw : option string)
    (access : EvidenceAccessPolicy) : EvidenceRegistry * option evidence_error :=
  when negb (PrincipalRef_Valid (ap_AccessPrincipal access)) || (ap_AccessPrincipal access != ev_RegisteredBy record)
       || negb (containsString (ap_RegisterPartitions access) (ev_AccessPartition record))
    return (g, Some ErrEvidenceAccessDenied) ;;
  match EvidenceRecord_Validate record raw with
  | Some e => (g, Some e)
  | None =>
    when negb (is_nil (rg_records g !! ev_EvidenceID record)) return (g, Some ErrAlreadyRegistered) ;;
    let content :=
      match raw with
      | Some bytes =>
        if is_nil (rg_content g !! ev_RawSHA256 record) then <[ev_RawSHA256 record := bytes]> (rg_content g)
        else rg_content g
      | None => rg_content g
      end in
    let g := g <| rg_records := <[ev_EvidenceID record := cloneEvidenceRecord record]> (rg_records g) |> <| rg_content := content |> in
    (appendAudit g "REGISTERED" (ev_EvidenceID record) (marshal_evidence record), None)
  end.

(** The registry after the call, and what is returned: the record, if access is
    allowed, with the bytes or an error. *)
Definition Read (g : EvidenceRegistry) (id : UUIDv7) (access : EvidenceAccessPolicy) (at_ : Time)
    : EvidenceRegistry * (option EvidenceRecord * (string + evidence_error)) :=
  let found := rg_records g !! id in
  let allowed :=
    match found with
    | Some record => negb (IsZero at_) && PrincipalRef_Valid (ap_AccessPrincipal access)
                     && containsString (ap_ReadPartitions access) (ev_AccessPartition record)
    | None => false
    end in
  let g' := g <| rg_access := rg_access g ++ [mkAccessRecord id (ap_AccessPrincipal access) at_ allowed] |> in
  match found with
  | Some record =>
    when negb allowed return (g', (None, inr ErrEvidenceAccessDenied)) ;;
    when negb (is_nil (rg_deletions g !! id))
      return (g', (Some (record <| ev_Availability := EvidenceDeleted |> <| ev_IntegrityState := IntegrityMissing |>),
                   inr ErrEvidenceUnavailable)) ;;
    when ev_Availability record != EvidenceAvailable return (g', (Some record, inr ErrEvidenceUnavailable)) ;;
    (g', (Some record, inl (default "" (rg_content g !! ev_RawSHA256 record))))
  | None => (g', (None, inr ErrEvidenceAccessDenied))
  end.

Definition Delete (g : EvidenceRegistry) (tombstone : EvidenceDeletionTombstone) (access : EvidenceAccessPolicy)
    : EvidenceRegistry * option evidence_error :=
  match rg_records g !! tb_EvidenceID tombstone with
  | None => (g, Some ErrEvidenceAccessDenied)
  | Some record =>
    when negb (PrincipalRef_Valid (ap_AccessPrincipal access)) || (ap_AccessPrincipal access != tb_Authority tombstone)
         || negb (ap_CanDelete access) || negb (containsString (ap_ReadPartitions access) (ev_AccessPartition record))
      return (g, Some ErrEvidenceAccessDenied) ;;
    when (tb_RawSHA256 tombstone != ev_RawSHA256 record) || (tb_Basis tombstone == "") || IsZero (tb_DeletedAt tombstone)
      return (g, Some ErrInvalidTombstone) ;;
    when negb (is_nil (rg_deletions g !! tb_EvidenceID tombstone)) return (g, Some ErrDeletionRecorded) ;;
    let deletions := <[tb_EvidenceID tombstone := tombstone]> (rg_deletions g) in
    let contentStillRequired :=
      existsb (fun kv => (fst kv != tb_EvidenceID tombstone) && (ev_RawSHA256 (snd kv) == ev_RawSHA256 record)
                         && (ev_Availability (snd kv) == EvidenceAvailable) && is_nil (deletions !! fst kv))
        (map_to_list (rg_records g)) in
    let content := if contentStillRequired then rg_content g else delete (ev_RawSHA256 record) (rg_content g) in
    (appendAudit (g <| rg_deletions := deletions |> <| rg_content := content |>) "DELETED" (tb_EvidenceID tombstone)
       (marshal_tombstone tombstone), None)
  end.

(** The loop over the evidence of an assessment. *)
Fixpoint assessment_evidence (g : EvidenceRegistry) (ids : list UUIDv7) : option evidence_error :=
  match ids with
  | [] => None
  | id :: ids =>
    match rg_records g !! id with
    | None => Some ErrAssessmentUnavailable
    | Some record =>
      when (ev_Availability record != EvidenceAvailable) || (ev_IntegrityState record != IntegrityDigestVerified)
        return Some ErrAssessmentUnavailable ;;
      when negb (is_nil (rg_deletions g !! id)) return Some ErrAssessmentDeleted ;;
      assessment_evidence g ids
    end
  end.

Definition same_claim (a b : ClaimAssessment) : bool := (ca_Claim a == ca_Claim b) && (ca_Scope a == ca_Scope b).

Definition RegisterAssessment (g : EvidenceRegistry) (a : ClaimAssessment)
    : EvidenceRegistry * option evidence_error :=
  match ClaimAssessment_Validate a with
  | Some e => (g, Some e)
  | None =>
    when negb (is_nil (rg_assessments g !! ca_AssessmentID a)) return (g, Some ErrAssessmentRegistered) ;;
    match assessment_evidence g (nslice_list (ca_Supporting a) ++ nslice_list (ca_Contradicting a)) with
    | Some e => (g, Some e)
    | None =>
      when match ca_Supersedes a with
           | Some id =>
             match rg_assessments g !! id with Some prior => negb (same_claim prior a) | None => true end
           | None => false
           end return (g, Some ErrSupersededNotFound) ;;
      when existsb (fun kv => same_claim (snd kv) a) (map_to_list (rg_assessments g)) && is_nil (ca_Supersedes a)
        return (g, Some ErrMustSupersede) ;;
      (appendAudit (g <| rg_assessments := <[ca_AssessmentID a := cloneClaimAssessment a]> (rg_assessments g) |>) "ASSESSED"
         (ca_AssessmentID a) (marshal_assessment a), None)
    end
  end.

Definition RegistrationCount (g : EvidenceRegistry) : Z := Z.of_nat (size (rg_records g)).
Definition ContentCount (g : EvidenceRegistry) : Z := Z.of_nat (size (rg_content g)).
Definition AccessLog (g : EvidenceRegistry) : list EvidenceAccessRecord := rg_access g.
Definition AuditEntries (g : EvidenceRegistry) : list EvidenceAuditEntry := rg_audit g.

(** ** The projection of the audit log *)

Record EvidenceProjection := mkProjection {
  ep_NextPosition : Z;
  ep_Entries : gmap UUIDv7 Digest;
  ep_LastEntryDigest : Digest
}.

Definition NewEvidenceProjection : EvidenceProjection := mkProjection 1 ∅ "".

Definition entry_ok (p : EvidenceProjection) (e : EvidenceAuditEntry) : bool :=
  match evidenceAuditEntryDigest e with
  | None => false
  | Some digest =>
    negb ((ae_Position e != ep_NextPosition p) || (ae_Kind e == "") || negb (UUIDv7_Valid (ae_Identity e))
      || negb (Digest_Valid (ae_Digest e)) || negb (Digest_Valid (ae_EntryDigest e))
      || (ae_EntryDigest e != digest) || (ae_PreviousDigest e != ep_LastEntryDigest p))
  end.

(** The projection after the call; entries before a refused one stay applied.
    The boolean is [err == nil]. *)
Fixpoint EvidenceProjection_Apply (p : EvidenceProjection) (entries : list EvidenceAuditEntry)
    : EvidenceProjection * bool :=
  match entries with
  | [] => (p, true)
  | e :: entries =>
    when negb (entry_ok p e) return (p, false) ;;
    EvidenceProjection_Apply
      (mkProjection (u64 (ep_NextPosition p + 1)) (<[ae_Identity e := ae_Digest e]> (ep_Entries p)) (ae_EntryDigest e))
      entries
  end.

Definition EvidenceProjection_Digest (p : EvidenceProjection) : option Digest :=
  let identities := sort_strings (map fst (map_to_list (ep_Entries p))) in
  digestValue (Some (obj
    [("next_position", marshal (ep_NextPosition p));
     ("entries", JArray (map (fun id => obj [("identity", marshal id);
                                             ("digest", marshal (default "" (ep_Entries p !! id)))]) identities));
     ("last_entry_digest", marshal (ep_LastEntryDigest p))])).
