(* ===== verification/Release.v ===== *)
(** * Release plans ([kernel/release.go])

    A release plan merges the heads of a completed story in a fixed order, one
    provider attempt at a time, with a bounded number of rounds per merge.
    [ApplyReleaseEvent] returns the next snapshot and whether the event was
    legal. [EvaluateRelease] is the contract-level model of the same transitions
    that the source carries for conformance; the theorems relate the two.

    An error is [None] where the code only tests it against [nil]. *)

From S2P Require Import Prelude GoText GoTime GoJson GoMarshal Types Samples Payload Envelope.

Definition ReleaseState := string.
Definition ReleaseAbsent : ReleaseState := "ABSENT".
Definition ReleasePlanned : ReleaseState := "PLANNED".
Definition ReleaseQualified : ReleaseState := "QUALIFIED".
Definition ReleaseExecuting : ReleaseState := "EXECUTING".
Definition ReleaseReconciling : ReleaseState := "RECONCILING".
Definition ReleaseReadyForAcceptance : ReleaseState := "READY_FOR_ACCEPTANCE".
Definition ReleaseFailed : ReleaseState := "FAILED".
Definition ReleaseBlocked : ReleaseState := "BLOCKED".
Definition ReleaseNotRequired : ReleaseState := "NO_RELEASE_REQUIRED".

Definition ReleaseMode := string.
Definition ReleaseModeCode : ReleaseMode := "CODE".
Definition ReleaseModeNotRequired : ReleaseMode := "NO_RELEASE_REQUIRED".

Definition ReleaseAction := string.
Definition ReleaseCreate : ReleaseAction := "CREATE".
Definition ReleaseQualify : ReleaseAction := "QUALIFY".
Definition ReleaseRequestExecution : ReleaseAction := "REQUEST_EXECUTION".
Definition ReleaseRecordResult : ReleaseAction := "RECORD_RESULT".
Definition ReleaseReconcile : ReleaseAction := "RECONCILE".
Definition ReleaseFinalize : ReleaseAction := "FINALIZE".

Definition ReleaseOutcome := string.
Definition ReleaseOutcomeMerged : ReleaseOutcome := "MERGED".
Definition ReleaseOutcomeAlreadyMerged : ReleaseOutcome := "ALREADY_MERGED".
Definition ReleaseOutcomeFailed : ReleaseOutcome := "FAILED".
Definition ReleaseOutcomeUnknown : ReleaseOutcome := "UNKNOWN".

Definition ReleaseProviderState := string.
Definition ReleaseProviderMerged : ReleaseProviderState := "MERGED".
Definition ReleaseProviderOpen : ReleaseProviderState := "OPEN".
Definition ReleaseProviderClosedUnmerged : ReleaseProviderState := "CLOSED_UNMERGED".
Definition ReleaseProviderMissing : ReleaseProviderState := "MISSING".
Definition ReleaseProviderUnavailable : ReleaseProviderState := "UNAVAILABLE".

(** ** The contract-level model *)

Record ReleaseSnapshot := mkReleaseSnapshot {
  rs_State : ReleaseState;
  rs_ReleaseMode : ReleaseMode;
  rs_Author : PrincipalRef;
  rs_AuthorApprovalEventID : UUIDv7;
  rs_PlanDigest : Digest;
  rs_BaseCommit : string;
  rs_HeadCommits : list string;
  rs_MergeOrder : list UUIDv7;
  rs_NextMergeIndex : Z;
  rs_ExecutionRoundLimit : Z;
  rs_NextRound : Z;
  rs_ActiveRound : Z;
  rs_ActiveMergeID : UUIDv7;
  rs_ActiveAttemptID : UUIDv7;
  rs_UnresolvedAttemptID : UUIDv7;
  rs_LatestResultEventID : UUIDv7;
  rs_QualifiedTreeDigest : string;
  rs_ProviderTreeDigest : string
}.

#[export] Instance eta_ReleaseSnapshot : Eta ReleaseSnapshot := fun r =>
  mkReleaseSnapshot
    (rs_State r) (rs_ReleaseMode r) (rs_Author r) (rs_AuthorApprovalEventID r)
    (rs_PlanDigest r) (rs_BaseCommit r) (rs_HeadCommits r) (rs_MergeOrder r)
    (rs_NextMergeIndex r) (rs_ExecutionRoundLimit r) (rs_NextRound r) (rs_ActiveRound r)
    (rs_ActiveMergeID r) (rs_ActiveAttemptID r) (rs_UnresolvedAttemptID r)
    (rs_LatestResultEventID r) (rs_QualifiedTreeDigest r) (rs_ProviderTreeDigest r).

Record ReleaseTransition := mkReleaseTransition {
  tr_Action : ReleaseAction;
  tr_Author : PrincipalRef;
  tr_AuthorApprovalEventID : UUIDv7;
  tr_PlanDigest : Digest;
  tr_BaseCommit : string;
  tr_HeadCommits : list string;
  tr_MergeID : UUIDv7;
  tr_AttemptID : UUIDv7;
  tr_Round : Z;
  tr_ResultEventID : UUIDv7;
  tr_SupersedesResultEventID : UUIDv7;
  tr_Outcome : ReleaseOutcome;
  tr_QualifiedTreeDigest : string;
  tr_ProviderTreeDigest : string;
  tr_TerminalStatus : ReleaseState
}.

#[export] Instance eta_ReleaseTransition : Eta ReleaseTransition := fun r =>
  mkReleaseTransition
    (tr_Action r) (tr_Author r) (tr_AuthorApprovalEventID r) (tr_PlanDigest r)
    (tr_BaseCommit r) (tr_HeadCommits r) (tr_MergeID r) (tr_AttemptID r) (tr_Round r)
    (tr_ResultEventID r) (tr_SupersedesResultEventID r) (tr_Outcome r)
    (tr_QualifiedTreeDigest r) (tr_ProviderTreeDigest r) (tr_TerminalStatus r).

Definition zero_ReleaseTransition : ReleaseTransition :=
  mkReleaseTransition
    "" zero_principal "" "" "" [] "" "" 0 "" "" "" "" "" "".

Record ReleaseEvaluation := mkReleaseEvaluation {
  rev_Accepted : bool;
  rev_Reason : string;
  rev_State : ReleaseState
}.

#[export] Instance eta_ReleaseEvaluation : Eta ReleaseEvaluation := fun r =>
  mkReleaseEvaluation
    (rev_Accepted r) (rev_Reason r) (rev_State r).

Definition releaseOutcomeEvaluation (current : ReleaseSnapshot) (outcome : ReleaseOutcome)
    : ReleaseEvaluation :=
  if outcome == ReleaseOutcomeUnknown then mkReleaseEvaluation true "ACCEPTED" ReleaseReconciling
  else if (outcome == ReleaseOutcomeMerged) || (outcome == ReleaseOutcomeAlreadyMerged)
  then mkReleaseEvaluation true "ACCEPTED" ReleaseQualified
  else if outcome == ReleaseOutcomeFailed then
    let state := if rs_ExecutionRoundLimit current <=? rs_ActiveRound current
                 then ReleaseFailed else ReleaseQualified in
    mkReleaseEvaluation true "ACCEPTED" state
  else mkReleaseEvaluation false "INVALID_OUTCOME" (rs_State current).

(** [order[i] != id], reached only when [i] is in range. *)
Definition merge_at (order : list UUIDv7) (i : Z) (id : UUIDv7) : bool :=
  order !! Z.to_nat i == Some id.

Definition EvaluateRelease (current : ReleaseSnapshot) (t : ReleaseTransition)
    : ReleaseEvaluation :=
  let reject reason := mkReleaseEvaluation false reason (rs_State current) in
  let accept state := mkReleaseEvaluation true "ACCEPTED" state in
  let state := rs_State current in
  when (state == ReleaseReadyForAcceptance) || (state == ReleaseFailed)
       || (state == ReleaseBlocked) || (state == ReleaseNotRequired)
    return reject "RELEASE_TERMINAL" ;;
  when (tr_PlanDigest t != "") && (tr_PlanDigest t != rs_PlanDigest current)
    return reject "PLAN_DIGEST_MISMATCH" ;;
  if tr_Action t == ReleaseCreate then
    when state != ReleaseAbsent return reject "INVALID_RELEASE_STATE" ;;
    when (tr_Author t != rs_Author current)
         || (tr_AuthorApprovalEventID t != rs_AuthorApprovalEventID current)
      return reject "AUTHOR_APPROVAL_MISMATCH" ;;
    accept ReleasePlanned
  else if tr_Action t == ReleaseQualify then
    when (rs_ReleaseMode current != ReleaseModeCode) || (state != ReleasePlanned)
      return reject "INVALID_RELEASE_STATE" ;;
    when (tr_BaseCommit t != rs_BaseCommit current)
         || negb (equalStrings (tr_HeadCommits t) (rs_HeadCommits current))
      return reject "QUALIFICATION_INPUT_MISMATCH" ;;
    accept ReleaseQualified
  else if tr_Action t == ReleaseRequestExecution then
    when state == ReleaseReconciling return reject "RECONCILIATION_REQUIRED" ;;
    when state == ReleaseExecuting return reject "EXECUTION_IN_PROGRESS" ;;
    when state != ReleaseQualified return reject "QUALIFICATION_REQUIRED" ;;
    when (llen (rs_MergeOrder current) <=? rs_NextMergeIndex current)
         || negb (merge_at (rs_MergeOrder current) (rs_NextMergeIndex current) (tr_MergeID t))
      return reject "MERGE_ORDER_CONFLICT" ;;
    when (rs_ExecutionRoundLimit current <? rs_NextRound current)
         || (rs_ExecutionRoundLimit current <? tr_Round t)
      return reject "RETRY_BUDGET_EXHAUSTED" ;;
    when tr_Round t != rs_NextRound current return reject "ROUND_CONFLICT" ;;
    accept ReleaseExecuting
  else if tr_Action t == ReleaseRecordResult then
    when (state != ReleaseExecuting) || (rs_ActiveAttemptID current != tr_AttemptID t)
      return reject "ATTEMPT_MISMATCH" ;;
    releaseOutcomeEvaluation current (tr_Outcome t)
  else if tr_Action t == ReleaseReconcile then
    when (state != ReleaseReconciling) || (rs_UnresolvedAttemptID current != tr_AttemptID t)
      return reject "ATTEMPT_MISMATCH" ;;
    when rs_LatestResultEventID current != tr_SupersedesResultEventID t
      return reject "RESULT_SUPERSESSION_MISMATCH" ;;
    releaseOutcomeEvaluation current (tr_Outcome t)
  else if tr_Action t == ReleaseFinalize then
    when rs_ReleaseMode current == ReleaseModeNotRequired return
      (when (state == ReleasePlanned) && (tr_TerminalStatus t == ReleaseNotRequired)
         return accept ReleaseNotRequired ;;
       reject "INVALID_RELEASE_STATE") ;;
    when (state != ReleaseQualified)
         || (rs_NextMergeIndex current != llen (rs_MergeOrder current))
      return reject "RELEASE_INCOMPLETE" ;;
    when tr_ProviderTreeDigest t != rs_QualifiedTreeDigest current
      return reject "TREE_MISMATCH" ;;
    accept (tr_TerminalStatus t)
  else reject "INVALID_ACTION".

(** ** Release plans *)

Record ReleasePlanKey := mkReleasePlanKey {
  rk_Story : AggregateRef;
  rk_LifecycleEpoch : Z
}.

#[export] Instance eta_ReleasePlanKey : Eta ReleasePlanKey := fun r =>
  mkReleasePlanKey
    (rk_Story r) (rk_LifecycleEpoch r).

#[global] Instance ReleasePlanKey_eq_dec : EqDecision ReleasePlanKey.
Proof. solve_decision. Defined.

Definition ReleasePlanKey_Valid (key : ReleasePlanKey) : bool :=
  (ref_Kind (rk_Story key) == AggregateStory) && AggregateRef_Valid (rk_Story key)
  && (0 <? rk_LifecycleEpoch key).

Record ReleaseMergePlan := mkReleaseMergePlan {
  rm_MergeID : UUIDv7;
  rm_ChangeRef : string;
  rm_HeadCommit : string;
  rm_Role : string
}.

#[export] Instance eta_ReleaseMergePlan : Eta ReleaseMergePlan := fun r =>
  mkReleaseMergePlan
    (rm_MergeID r) (rm_ChangeRef r) (rm_HeadCommit r) (rm_Role r).

Definition zero_ReleaseMergePlan : ReleaseMergePlan :=
  mkReleaseMergePlan
    "" "" "" "".

Definition fields_ReleaseMergePlan : list (field ReleaseMergePlan) :=
  [
    fld "merge_id" rm_MergeID dec_string;
    fld "change_ref" rm_ChangeRef dec_string;
    fld "head_commit" rm_HeadCommit dec_string;
    fld "role" rm_Role dec_string
  ].
Definition dec_ReleaseMergePlan : decoder ReleaseMergePlan := dec_struct fields_ReleaseMergePlan.

Record ReleaseQualification := mkReleaseQualification {
  rq_EventID : UUIDv7;
  rq_QualificationID : UUIDv7;
  rq_QualifiedBaseCommit : string;
  rq_OrderedHeadCommits : list string;
  rq_QualifiedTreeDigest : string;
  rq_GateDefinition : Digest;
  rq_Toolchain : Digest;
  rq_DependencyLock : Digest;
  rq_ArtifactDigests : list Digest
}.

#[export] Instance eta_ReleaseQualification : Eta ReleaseQualification := fun r =>
  mkReleaseQualification
    (rq_EventID r) (rq_QualificationID r) (rq_QualifiedBaseCommit r)
    (rq_OrderedHeadCommits r) (rq_QualifiedTreeDigest r) (rq_GateDefinition r)
    (rq_Toolchain r) (rq_DependencyLock r) (rq_ArtifactDigests r).

Record ReleaseAttempt := mkReleaseAttempt {
  ra_MergeID : UUIDv7;
  ra_AttemptID : UUIDv7;
  ra_Round : Z;
  ra_ProviderIdempotencyKey : string;
  ra_RequestEventID : UUIDv7
}.

#[export] Instance eta_ReleaseAttempt : Eta ReleaseAttempt := fun r =>
  mkReleaseAttempt
    (ra_MergeID r) (ra_AttemptID r) (ra_Round r) (ra_ProviderIdempotencyKey r)
    (ra_RequestEventID r).

Record ReleaseResult := mkReleaseResult {
  rr_MergeID : UUIDv7;
  rr_AttemptID : UUIDv7;
  rr_Outcome : ReleaseOutcome;
  rr_ResultEventID : UUIDv7;
  rr_ObservedTree : string;
  rr_Reconciled : bool;
  rr_ReconciliationEventID : UUIDv7
}.

#[export] Instance eta_ReleaseResult : Eta ReleaseResult := fun r =>
  mkReleaseResult
    (rr_MergeID r) (rr_AttemptID r) (rr_Outcome r) (rr_ResultEventID r) (rr_ObservedTree r)
    (rr_Reconciled r) (rr_ReconciliationEventID r).

(** The map of results; [None] is Go's nil map. *)
Definition ReleaseResults := option (gmap UUIDv7 ReleaseResult).

Record ReleasePlanSnapshot := mkReleasePlanSnapshot {
  rp_ReleasePlanID : UUIDv7;
  rp_OpeningEventID : UUIDv7;
  rp_Revision : Z;
  rp_State : ReleaseState;
  rp_Mode : ReleaseMode;
  rp_Story : AggregateRef;
  rp_StoryLifecycleEpoch : Z;
  rp_ExpectedStoryRevision : Z;
  rp_Author : PrincipalRef;
  rp_AuthorApprovalEventID : UUIDv7;
  rp_AuthorApprovalRevision : Z;
  rp_PolicyRevision : Z;
  rp_PlanDigest : Digest;
  rp_EvidenceIDs : list UUIDv7;
  rp_RepositoryURL : string;
  rp_BaseRef : string;
  rp_BaseCommit : string;
  rp_OrderedMerges : list ReleaseMergePlan;
  rp_MergeStrategy : string;
  rp_GitVersion : string;
  rp_ConflictPolicy : string;
  rp_ContractManifest : string;
  rp_ManifestSHA256 : Digest;
  rp_RequiredProfiles : list string;
  rp_ExpectedQualifiedTree : string;
  rp_ExecutionRoundLimit : Z;
  rp_NoReleaseReason : string;
  rp_Qualification : option ReleaseQualification;
  rp_NextMergeIndex : Z;
  rp_NextRound : Z;
  rp_ActiveAttempt : option ReleaseAttempt;
  rp_Results : ReleaseResults;
  rp_FinalizationEventID : UUIDv7;
  rp_ProviderTreeDigest : string
}.

#[export] Instance eta_ReleasePlanSnapshot : Eta ReleasePlanSnapshot := fun r =>
  mkReleasePlanSnapshot
    (rp_ReleasePlanID r) (rp_OpeningEventID r) (rp_Revision r) (rp_State r) (rp_Mode r)
    (rp_Story r) (rp_StoryLifecycleEpoch r) (rp_ExpectedStoryRevision r) (rp_Author r)
    (rp_AuthorApprovalEventID r) (rp_AuthorApprovalRevision r) (rp_PolicyRevision r)
    (rp_PlanDigest r) (rp_EvidenceIDs r) (rp_RepositoryURL r) (rp_BaseRef r)
    (rp_BaseCommit r) (rp_OrderedMerges r) (rp_MergeStrategy r) (rp_GitVersion r)
    (rp_ConflictPolicy r) (rp_ContractManifest r) (rp_ManifestSHA256 r)
    (rp_RequiredProfiles r) (rp_ExpectedQualifiedTree r) (rp_ExecutionRoundLimit r)
    (rp_NoReleaseReason r) (rp_Qualification r) (rp_NextMergeIndex r) (rp_NextRound r)
    (rp_ActiveAttempt r) (rp_Results r) (rp_FinalizationEventID r)
    (rp_ProviderTreeDigest r).

Definition zero_ReleasePlanSnapshot : ReleasePlanSnapshot :=
  mkReleasePlanSnapshot "" "" 0 "" "" zero_ref 0 0 zero_principal "" 0 0 "" [] "" "" "" [] ""
    "" "" "" "" [] "" 0 "" None 0 0 None None "" "".

(** The entries of a map of results; a nil map has none. *)
Definition results (s : ReleasePlanSnapshot) : gmap UUIDv7 ReleaseResult :=
  match rp_Results s with Some m => m | None => ∅ end.

Definition Key (s : ReleasePlanSnapshot) : ReleasePlanKey :=
  mkReleasePlanKey (rp_Story s) (rp_StoryLifecycleEpoch s).

Definition head_commits (s : ReleasePlanSnapshot) : list string :=
  map rm_HeadCommit (rp_OrderedMerges s).

Fixpoint merges_loop (seen : gset UUIDv7) (merges : list ReleaseMergePlan) : bool :=
  match merges with
  | [] => true
  | m :: merges =>
    when negb (UUIDv7_Valid (rm_MergeID m)) || (rm_ChangeRef m == "") || (rm_HeadCommit m == "")
         || (rm_Role m == "")
      return false ;;
    when bool_decide (rm_MergeID m ∈ seen) return false ;;
    merges_loop ({[rm_MergeID m]} ∪ seen) merges
  end.

Definition known_outcome (o : ReleaseOutcome) : bool :=
  (o == ReleaseOutcomeMerged) || (o == ReleaseOutcomeAlreadyMerged)
  || (o == ReleaseOutcomeFailed) || (o == ReleaseOutcomeUnknown).

Definition result_entry_ok (entry : UUIDv7 * ReleaseResult) : bool :=
  let '(mergeID, r) := entry in
  (mergeID == rr_MergeID r) && UUIDv7_Valid (rr_MergeID r) && UUIDv7_Valid (rr_AttemptID r)
  && UUIDv7_Valid (rr_ResultEventID r) && known_outcome (rr_Outcome r)
  && negb (rr_Reconciled r && negb (UUIDv7_Valid (rr_ReconciliationEventID r))).

Definition qualification_ok (s : ReleasePlanSnapshot) (q : ReleaseQualification) : bool :=
  UUIDv7_Valid (rq_EventID q) && UUIDv7_Valid (rq_QualificationID q)
  && (rq_QualifiedBaseCommit q == rp_BaseCommit s)
  && equalStrings (rq_OrderedHeadCommits q) (head_commits s)
  && (rq_QualifiedTreeDigest q == rp_ExpectedQualifiedTree s).

Definition attempt_ok (a : ReleaseAttempt) : bool :=
  UUIDv7_Valid (ra_MergeID a) && UUIDv7_Valid (ra_AttemptID a) && (0 <? ra_Round a)
  && (ra_ProviderIdempotencyKey a != "") && UUIDv7_Valid (ra_RequestEventID a).

Definition no_release_valid (s : ReleasePlanSnapshot) : bool :=
  when (rp_NoReleaseReason s == "") || (llen (rp_OrderedMerges s) != 0)
       || (rp_NextMergeIndex s != 0) || (rp_NextRound s != 1)
       || negb (is_nil (rp_ActiveAttempt s)) || negb (is_nil (rp_Qualification s))
       || negb (size (results s) == O)
    return false ;;
  if rp_State s == ReleasePlanned
  then (rp_FinalizationEventID s == "") && (rp_ProviderTreeDigest s == "")
  else (rp_State s == ReleaseNotRequired) && UUIDv7_Valid (rp_FinalizationEventID s)
       && (rp_ProviderTreeDigest s == "").

Definition state_valid (s : ReleasePlanSnapshot) : bool :=
  if rp_State s == ReleasePlanned
  then is_nil (rp_Qualification s) && is_nil (rp_ActiveAttempt s)
       && (rp_NextMergeIndex s == 0) && (rp_FinalizationEventID s == "")
  else if rp_State s == ReleaseQualified
  then is_nil (rp_ActiveAttempt s) && (rp_FinalizationEventID s == "")
  else if (rp_State s == ReleaseExecuting) || (rp_State s == ReleaseReconciling)
  then match rp_ActiveAttempt s with Some a => attempt_ok a | None => false end
       && (rp_FinalizationEventID s == "")
  else if rp_State s == ReleaseReadyForAcceptance
  then is_nil (rp_ActiveAttempt s) && (rp_NextMergeIndex s == llen (rp_OrderedMerges s))
       && UUIDv7_Valid (rp_FinalizationEventID s)
       && (rp_ProviderTreeDigest s == rp_ExpectedQualifiedTree s)
  else if rp_State s == ReleaseFailed
  then is_nil (rp_ActiveAttempt s) && (rp_FinalizationEventID s == "")
  else false.

Definition ReleasePlanSnapshot_Valid (s : ReleasePlanSnapshot) : bool :=
  when negb (UUIDv7_Valid (rp_ReleasePlanID s)) || negb (UUIDv7_Valid (rp_OpeningEventID s))
       || (rp_Revision s == 0) || negb (ReleasePlanKey_Valid (Key s))
       || (rp_ExpectedStoryRevision s == 0) || negb (PrincipalRef_Valid (rp_Author s))
       || negb (UUIDv7_Valid (rp_AuthorApprovalEventID s)) || (rp_AuthorApprovalRevision s == 0)
       || (rp_PolicyRevision s == 0) || negb (Digest_Valid (rp_PlanDigest s))
       || (llen (rp_EvidenceIDs s) == 0) || negb (uniqueValidUUIDs (rp_EvidenceIDs s))
       || is_nil (rp_Results s)
    return false ;;
  when rp_Mode s == ReleaseModeNotRequired return no_release_valid s ;;
  when (rp_Mode s != ReleaseModeCode) || (rp_RepositoryURL s == "") || (rp_BaseRef s == "")
       || (rp_BaseCommit s == "") || (llen (rp_OrderedMerges s) == 0)
       || (rp_MergeStrategy s != "FF_ONLY_ORDERED")
       || (rp_ConflictPolicy s != "FAIL_NO_IMPROVISATION")
       || (rp_ContractManifest s != ContractIdentity) || negb (Digest_Valid (rp_ManifestSHA256 s))
       || (rp_ExpectedQualifiedTree s == "") || (rp_ExecutionRoundLimit s == 0)
       || (1000 <? rp_ExecutionRoundLimit s)
    return false ;;
  when negb (merges_loop ∅ (rp_OrderedMerges s)) return false ;;
  when (llen (rp_OrderedMerges s) <? rp_NextMergeIndex s) || (rp_NextRound s == 0)
       || (rp_ExecutionRoundLimit s <? rp_NextRound s)
    return false ;;
  when negb (forallb result_entry_ok (map_to_list (results s))) return false ;;
  when (rp_State s != ReleasePlanned) && is_nil (rp_Qualification s) return false ;;
  when match rp_Qualification s with Some q => negb (qualification_ok s q) | None => false end
    return false ;;
  state_valid s.

(** ** Payloads *)

Record releaseCreatePayload := mkreleaseCreatePayload {
  rcp_ReleasePlanID : UUIDv7;
  rcp_StoryID : UUIDv7;
  rcp_StoryLifecycleEpoch : Z;
  rcp_ExpectedStoryRevision : Z;
  rcp_Author : PrincipalRef;
  rcp_AuthorApprovalEventID : UUIDv7;
  rcp_AuthorApprovalRevision : Z;
  rcp_PolicyRevision : Z;
  rcp_PlanDigest : Digest;
  rcp_EvidenceIDs : list UUIDv7;
  rcp_Mode : ReleaseMode;
  rcp_RepositoryURL : string;
  rcp_BaseRef : string;
  rcp_BaseCommit : string;
  rcp_OrderedMerges : list ReleaseMergePlan;
  rcp_MergeStrategy : string;
  rcp_GitVersion : string;
  rcp_ConflictPolicy : string;
  rcp_ContractManifest : string;
  rcp_ManifestSHA256 : Digest;
  rcp_RequiredProfiles : list string;
  rcp_ExpectedQualifiedTree : string;
  rcp_ExecutionRoundLimit : Z;
  rcp_NoReleaseReason : string
}.

#[export] Instance eta_releaseCreatePayload : Eta releaseCreatePayload := fun r =>
  mkreleaseCreatePayload
    (rcp_ReleasePlanID r) (rcp_StoryID r) (rcp_StoryLifecycleEpoch r)
    (rcp_ExpectedStoryRevision r) (rcp_Author r) (rcp_AuthorApprovalEventID r)
    (rcp_AuthorApprovalRevision r) (rcp_PolicyRevision r) (rcp_PlanDigest r)
    (rcp_EvidenceIDs r) (rcp_Mode r) (rcp_RepositoryURL r) (rcp_BaseRef r) (rcp_BaseCommit r)
    (rcp_OrderedMerges r) (rcp_MergeStrategy r) (rcp_GitVersion r) (rcp_ConflictPolicy r)
    (rcp_ContractManifest r) (rcp_ManifestSHA256 r) (rcp_RequiredProfiles r)
    (rcp_ExpectedQualifiedTree r) (rcp_ExecutionRoundLimit r) (rcp_NoReleaseReason r).

Definition zero_releaseCreatePayload : releaseCreatePayload :=
  mkreleaseCreatePayload
    "" "" 0 0 zero_principal "" 0 0 "" [] "" "" "" "" [] "" "" "" "" "" [] "" 0 "".

Definition fields_releaseCreatePayload : list (field releaseCreatePayload) :=
  [
    fld "release_plan_id" rcp_ReleasePlanID dec_string;
    fld "story_id" rcp_StoryID dec_string;
    fld "story_lifecycle_epoch" rcp_StoryLifecycleEpoch dec_u64;
    fld "expected_story_revision" rcp_ExpectedStoryRevision dec_u64;
    fld "author" rcp_Author dec_PrincipalRef;
    fld "author_approval_event_id" rcp_AuthorApprovalEventID dec_string;
    fld "author_approval_revision" rcp_AuthorApprovalRevision dec_u64;
    fld "release_policy_revision" rcp_PolicyRevision dec_u64;
    fld "plan_digest" rcp_PlanDigest dec_string;
    fld "evidence_ids" rcp_EvidenceIDs (dec_slice "" dec_string);
    fld "release_mode" rcp_Mode dec_string;
    fld "repository_url" rcp_RepositoryURL dec_string;
    fld "base_ref" rcp_BaseRef dec_string;
    fld "base_commit" rcp_BaseCommit dec_string;
    fld "ordered_merges" rcp_OrderedMerges (dec_slice zero_ReleaseMergePlan dec_ReleaseMergePlan);
    fld "merge_strategy" rcp_MergeStrategy dec_string;
    fld "git_version" rcp_GitVersion dec_string;
    fld "conflict_policy" rcp_ConflictPolicy dec_string;
    fld "contract_manifest" rcp_ContractManifest dec_string;
    fld "manifest_sha256" rcp_ManifestSHA256 dec_string;
    fld "required_profiles" rcp_RequiredProfiles (dec_slice "" dec_string);
    fld "expected_qualified_tree" rcp_ExpectedQualifiedTree dec_string;
    fld "execution_round_limit" rcp_ExecutionRoundLimit dec_u64;
    fld "no_release_reason" rcp_NoReleaseReason dec_string
  ].

Definition ReleasePlanFromCreatePayload (payload : string) (openingEventID : UUIDv7)
    : option ReleasePlanSnapshot :=
  try v <- Unmarshal fields_releaseCreatePayload zero_releaseCreatePayload payload ;;
  let snapshot :=
    mkReleasePlanSnapshot (rcp_ReleasePlanID v) openingEventID 1 ReleasePlanned (rcp_Mode v)
      (mkRef AggregateStory (rcp_StoryID v)) (rcp_StoryLifecycleEpoch v)
      (rcp_ExpectedStoryRevision v) (rcp_Author v) (rcp_AuthorApprovalEventID v)
      (rcp_AuthorApprovalRevision v) (rcp_PolicyRevision v) (rcp_PlanDigest v) (rcp_EvidenceIDs v)
      (rcp_RepositoryURL v) (rcp_BaseRef v) (rcp_BaseCommit v) (rcp_OrderedMerges v)
      (rcp_MergeStrategy v) (rcp_GitVersion v) (rcp_ConflictPolicy v) (rcp_ContractManifest v)
      (rcp_ManifestSHA256 v) (rcp_RequiredProfiles v) (rcp_ExpectedQualifiedTree v)
      (rcp_ExecutionRoundLimit v) (rcp_NoReleaseReason v) None 0 1 None (Some ∅) "" "" in
  when negb (ReleasePlanSnapshot_Valid snapshot) return None ;;
  Some snapshot.

Record releaseKeyPayload := mkreleaseKeyPayload {
  rkp_StoryID : UUIDv7;
  rkp_StoryLifecycleEpoch : Z
}.

#[export] Instance eta_releaseKeyPayload : Eta releaseKeyPayload := fun r =>
  mkreleaseKeyPayload
    (rkp_StoryID r) (rkp_StoryLifecycleEpoch r).

Definition zero_releaseKeyPayload : releaseKeyPayload :=
  mkreleaseKeyPayload
    "" 0.

Definition fields_releaseKeyPayload : list (field releaseKeyPayload) :=
  [
    fld "story_id" rkp_StoryID dec_string;
    fld "story_lifecycle_epoch" rkp_StoryLifecycleEpoch dec_u64
  ].

Definition ReleasePlanKeyFromCreatePayload (payload : string) : option ReleasePlanKey :=
  try v <- Unmarshal fields_releaseKeyPayload zero_releaseKeyPayload payload ;;
  let key := mkReleasePlanKey (mkRef AggregateStory (rkp_StoryID v)) (rkp_StoryLifecycleEpoch v) in
  when negb (ReleasePlanKey_Valid key) return None ;;
  Some key.

(** The payload has the fields of the transition it is copied to. *)
Record ReleaseQualificationTransition := mkReleaseQualificationTransition {
  rqt_ExpectedRevision : Z;
  rqt_PlanDigest : Digest;
  rqt_QualificationID : UUIDv7;
  rqt_QualifiedBaseCommit : string;
  rqt_OrderedHeadCommits : list string;
  rqt_QualifiedTreeDigest : string;
  rqt_GateDefinition : Digest;
  rqt_Toolchain : Digest;
  rqt_DependencyLock : Digest;
  rqt_ArtifactDigests : list Digest;
  rqt_EvidenceIDs : list UUIDv7;
  rqt_ContractManifest : string;
  rqt_ManifestSHA256 : Digest;
  rqt_RequiredProfiles : list string
}.

#[export] Instance eta_ReleaseQualificationTransition : Eta ReleaseQualificationTransition := fun r =>
  mkReleaseQualificationTransition
    (rqt_ExpectedRevision r) (rqt_PlanDigest r) (rqt_QualificationID r)
    (rqt_QualifiedBaseCommit r) (rqt_OrderedHeadCommits r) (rqt_QualifiedTreeDigest r)
    (rqt_GateDefinition r) (rqt_Toolchain r) (rqt_DependencyLock r) (rqt_ArtifactDigests r)
    (rqt_EvidenceIDs r) (rqt_ContractManifest r) (rqt_ManifestSHA256 r)
    (rqt_RequiredProfiles r).

Definition zero_ReleaseQualificationTransition : ReleaseQualificationTransition :=
  mkReleaseQualificationTransition
    0 "" "" "" [] "" "" "" "" [] [] "" "" [].

Definition fields_ReleaseQualificationTransition : list (field ReleaseQualificationTransition) :=
  [
    fld "expected_release_revision" rqt_ExpectedRevision dec_u64;
    fld "plan_digest" rqt_PlanDigest dec_string;
    fld "qualification_id" rqt_QualificationID dec_string;
    fld "qualified_base_commit" rqt_QualifiedBaseCommit dec_string;
    fld "ordered_head_commits" rqt_OrderedHeadCommits (dec_slice "" dec_string);
    fld "qualified_tree_digest" rqt_QualifiedTreeDigest dec_string;
    fld "gate_definition_digest" rqt_GateDefinition dec_string;
    fld "toolchain_digest" rqt_Toolchain dec_string;
    fld "dependency_lock_digest" rqt_DependencyLock dec_string;
    fld "artifact_digests" rqt_ArtifactDigests (dec_slice "" dec_string);
    fld "evidence_ids" rqt_EvidenceIDs (dec_slice "" dec_string);
    fld "contract_manifest" rqt_ContractManifest dec_string;
    fld "manifest_sha256" rqt_ManifestSHA256 dec_string;
    fld "required_profiles" rqt_RequiredProfiles (dec_slice "" dec_string)
  ].

Definition ReleaseQualificationFromPayload (payload : string)
    : option ReleaseQualificationTransition :=
  try v <- Unmarshal fields_ReleaseQualificationTransition zero_ReleaseQualificationTransition payload ;;
  when (rqt_ExpectedRevision v == 0) || negb (Digest_Valid (rqt_PlanDigest v))
       || negb (UUIDv7_Valid (rqt_QualificationID v)) || (rqt_QualifiedBaseCommit v == "")
       || (llen (rqt_OrderedHeadCommits v) == 0) || (rqt_QualifiedTreeDigest v == "")
       || negb (Digest_Valid (rqt_GateDefinition v)) || negb (Digest_Valid (rqt_Toolchain v))
       || negb (Digest_Valid (rqt_DependencyLock v)) || (llen (rqt_ArtifactDigests v) == 0)
       || (llen (rqt_EvidenceIDs v) == 0) || (rqt_ContractManifest v != ContractIdentity)
       || negb (Digest_Valid (rqt_ManifestSHA256 v)) || (llen (rqt_RequiredProfiles v) == 0)
    return None ;;
  Some v.

Record releaseAttemptPayload := mkreleaseAttemptPayload {
  rap_ReleasePlanID : UUIDv7;
  rap_ExpectedRevision : Z;
  rap_PlanDigest : Digest;
  rap_MergeID : UUIDv7;
  rap_AttemptID : UUIDv7;
  rap_Round : Z;
  rap_Key : string;
  rap_EvidenceIDs : list UUIDv7
}.

#[export] Instance eta_releaseAttemptPayload : Eta releaseAttemptPayload := fun r =>
  mkreleaseAttemptPayload
    (rap_ReleasePlanID r) (rap_ExpectedRevision r) (rap_PlanDigest r) (rap_MergeID r)
    (rap_AttemptID r) (rap_Round r) (rap_Key r) (rap_EvidenceIDs r).

Definition zero_releaseAttemptPayload : releaseAttemptPayload :=
  mkreleaseAttemptPayload
    "" 0 "" "" "" 0 "" [].

Definition fields_releaseAttemptPayload : list (field releaseAttemptPayload) :=
  [
    fld "release_plan_id" rap_ReleasePlanID dec_string;
    fld "expected_release_revision" rap_ExpectedRevision dec_u64;
    fld "plan_digest" rap_PlanDigest dec_string;
    fld "merge_id" rap_MergeID dec_string;
    fld "attempt_id" rap_AttemptID dec_string;
    fld "round" rap_Round dec_u64;
    fld "provider_idempotency_key" rap_Key dec_string;
    fld "evidence_ids" rap_EvidenceIDs (dec_slice "" dec_string)
  ].

Definition ReleaseAttemptFromPayload (payload : string)
    : option (ReleaseAttempt * UUIDv7 * Z * Digest * list UUIDv7) :=
  try v <- Unmarshal fields_releaseAttemptPayload zero_releaseAttemptPayload payload ;;
  let attempt := mkReleaseAttempt (rap_MergeID v) (rap_AttemptID v) (rap_Round v) (rap_Key v) "" in
  when negb (UUIDv7_Valid (rap_ReleasePlanID v)) || (rap_ExpectedRevision v == 0)
       || negb (Digest_Valid (rap_PlanDigest v)) || negb (UUIDv7_Valid (ra_MergeID attempt))
       || negb (UUIDv7_Valid (ra_AttemptID attempt)) || (ra_Round attempt == 0)
       || (ra_ProviderIdempotencyKey attempt == "") || (llen (rap_EvidenceIDs v) == 0)
    return None ;;
  Some (attempt, rap_ReleasePlanID v, rap_ExpectedRevision v, rap_PlanDigest v, rap_EvidenceIDs v).

Record ReleaseResultTransition := mkReleaseResultTransition {
  rt_ReleasePlanID : UUIDv7;
  rt_ExpectedRevision : Z;
  rt_PlanDigest : Digest;
  rt_MergeID : UUIDv7;
  rt_AttemptID : UUIDv7;
  rt_Outcome : ReleaseOutcome;
  rt_EvidenceIDs : list UUIDv7;
  rt_SupersedesResultEventID : UUIDv7;
  rt_ReconciliationID : UUIDv7;
  rt_ProviderState : string;
  rt_ObservedBase : string;
  rt_ObservedHead : string;
  rt_ObservedTree : string
}.

#[export] Instance eta_ReleaseResultTransition : Eta ReleaseResultTransition := fun r =>
  mkReleaseResultTransition
    (rt_ReleasePlanID r) (rt_ExpectedRevision r) (rt_PlanDigest r) (rt_MergeID r)
    (rt_AttemptID r) (rt_Outcome r) (rt_EvidenceIDs r) (rt_SupersedesResultEventID r)
    (rt_ReconciliationID r) (rt_ProviderState r) (rt_ObservedBase r) (rt_ObservedHead r)
    (rt_ObservedTree r).

Definition zero_ReleaseResultTransition : ReleaseResultTransition :=
  mkReleaseResultTransition
    "" 0 "" "" "" "" [] "" "" "" "" "" "".

Definition fields_ReleaseResultTransition : list (field ReleaseResultTransition) :=
  [
    fld "release_plan_id" rt_ReleasePlanID dec_string;
    fld "expected_release_revision" rt_ExpectedRevision dec_u64;
    fld "plan_digest" rt_PlanDigest dec_string;
    fld "merge_id" rt_MergeID dec_string;
    fld "attempt_id" rt_AttemptID dec_string;
    fld "outcome" rt_Outcome dec_string;
    fld "evidence_ids" rt_EvidenceIDs (dec_slice "" dec_string);
    fld "supersedes_result_event_id" rt_SupersedesResultEventID dec_string;
    fld "reconciliation_id" rt_ReconciliationID dec_string;
    fld "provider_state" rt_ProviderState dec_string;
    fld "observed_base_commit" rt_ObservedBase dec_string;
    fld "observed_head_commit" rt_ObservedHead dec_string;
    fld "observed_tree_digest" rt_ObservedTree dec_string
  ].

Definition merged (o : ReleaseOutcome) : bool :=
  (o == ReleaseOutcomeMerged) || (o == ReleaseOutcomeAlreadyMerged).

Definition ReleaseResultFromPayload (payload : string) (reconciliation : bool)
    : option ReleaseResultTransition :=
  try v <- Unmarshal fields_ReleaseResultTransition zero_ReleaseResultTransition payload ;;
  when negb (UUIDv7_Valid (rt_ReleasePlanID v)) || (rt_ExpectedRevision v == 0)
       || negb (Digest_Valid (rt_PlanDigest v)) || negb (UUIDv7_Valid (rt_MergeID v))
       || negb (UUIDv7_Valid (rt_AttemptID v)) || (llen (rt_EvidenceIDs v) == 0)
       || negb (known_outcome (rt_Outcome v))
    return None ;;
  when reconciliation && (negb (UUIDv7_Valid (rt_SupersedesResultEventID v))
                          || negb (UUIDv7_Valid (rt_ReconciliationID v)))
    return None ;;
  when (if merged (rt_Outcome v)
        then (rt_ObservedBase v == "") || (rt_ObservedHead v == "") || (rt_ObservedTree v == "")
             || reconciliation && (rt_ProviderState v != ReleaseProviderMerged)
        else (rt_ObservedBase v != "") || (rt_ObservedHead v != "") || (rt_ObservedTree v != ""))
    return None ;;
  when reconciliation && (rt_Outcome v == ReleaseOutcomeFailed)
       && (rt_ProviderState v != ReleaseProviderOpen)
       && (rt_ProviderState v != ReleaseProviderClosedUnmerged)
       && (rt_ProviderState v != ReleaseProviderMissing)
    return None ;;
  when reconciliation && (rt_Outcome v == ReleaseOutcomeUnknown)
       && (rt_ProviderState v != ReleaseProviderUnavailable)
    return None ;;
  Some v.

(** ** Transitions *)

Definition applyReleaseOutcome (next : ReleasePlanSnapshot) (result : ReleaseResult) (round : Z)
    : ReleasePlanSnapshot :=
  if rr_Outcome result == ReleaseOutcomeUnknown then next <| rp_State := ReleaseReconciling |>
  else if merged (rr_Outcome result) then
    next <| rp_State := ReleaseQualified |>
         <| rp_ProviderTreeDigest := rr_ObservedTree result |>
         <| rp_NextMergeIndex := u64 (rp_NextMergeIndex next + 1) |>
         <| rp_NextRound := 1 |>
         <| rp_ActiveAttempt := None |>
  else if rr_Outcome result == ReleaseOutcomeFailed then
    let next := next <| rp_ActiveAttempt := None |> in
    if rp_ExecutionRoundLimit next <=? round then next <| rp_State := ReleaseFailed |>
    else next <| rp_State := ReleaseQualified |> <| rp_NextRound := u64 (round + 1) |>
  else next.

(** [snapshot.OrderedMerges[snapshot.NextMergeIndex]]; out of range the callers
    have already returned. *)
Definition next_merge (s : ReleasePlanSnapshot) : option ReleaseMergePlan :=
  when llen (rp_OrderedMerges s) <=? rp_NextMergeIndex s return None ;;
  rp_OrderedMerges s !! Z.to_nat (rp_NextMergeIndex s).

Definition releaseResultIdentityMatches (s : ReleasePlanSnapshot) (v : ReleaseResultTransition)
    : bool :=
  match next_merge s with
  | None => false
  | Some merge =>
    when rt_MergeID v != rm_MergeID merge return false ;;
    when merged (rt_Outcome v)
      return (rt_ObservedBase v == rp_BaseCommit s) && (rt_ObservedHead v == rm_HeadCommit merge) ;;
    true
  end.

(** [None] is the nil slice returned when a merge has no merged result. *)
Fixpoint effective_loop (m : gmap UUIDv7 ReleaseResult) (merges : list ReleaseMergePlan)
    : option (list UUIDv7) :=
  match merges with
  | [] => Some []
  | merge :: merges =>
    try r <- m !! rm_MergeID merge ;;
    when negb (merged (rr_Outcome r)) return None ;;
    let eventID := if rr_Reconciled r then rr_ReconciliationEventID r else rr_ResultEventID r in
    try ids <- effective_loop m merges ;;
    Some (eventID :: ids)
  end.

Definition effectiveReleaseResultEventIDs (s : ReleasePlanSnapshot) : list UUIDv7 :=
  match effective_loop (results s) (rp_OrderedMerges s) with Some ids => ids | None => [] end.

Definition equalUUIDs (left right : list UUIDv7) : bool := left == right.

Definition record_qualification (s : ReleasePlanSnapshot) (event : DomainEvent)
    : option ReleasePlanSnapshot :=
  try v <- ReleaseQualificationFromPayload (ev_Payload event) ;;
  when (rqt_ExpectedRevision v != rp_Revision s) || (rqt_PlanDigest v != rp_PlanDigest s)
       || (rqt_QualifiedBaseCommit v != rp_BaseCommit s)
       || negb (equalStrings (rqt_OrderedHeadCommits v) (head_commits s))
       || (rqt_QualifiedTreeDigest v != rp_ExpectedQualifiedTree s)
       || (rqt_ContractManifest v != rp_ContractManifest s)
       || (rqt_ManifestSHA256 v != rp_ManifestSHA256 s)
       || negb (equalStrings (rqt_RequiredProfiles v) (rp_RequiredProfiles s))
       || (rp_State s != ReleasePlanned)
    return None ;;
  Some (s <| rp_State := ReleaseQualified |>
          <| rp_Qualification := Some (mkReleaseQualification (ev_EventID event)
               (rqt_QualificationID v) (rqt_QualifiedBaseCommit v) (rqt_OrderedHeadCommits v)
               (rqt_QualifiedTreeDigest v) (rqt_GateDefinition v) (rqt_Toolchain v)
               (rqt_DependencyLock v) (rqt_ArtifactDigests v)) |>).

Definition request_execution (s : ReleasePlanSnapshot) (event : DomainEvent)
    : option ReleasePlanSnapshot :=
  try p <- ReleaseAttemptFromPayload (ev_Payload event) ;;
  let '(attempt, releasePlanID, revision, plan, _) := p in
  when (releasePlanID != rp_ReleasePlanID s) || (revision != rp_Revision s)
       || (plan != rp_PlanDigest s) || (rp_State s != ReleaseQualified)
       || (llen (rp_OrderedMerges s) <=? rp_NextMergeIndex s)
       || negb ((rm_MergeID <$> next_merge s) == Some (ra_MergeID attempt))
       || (ra_Round attempt != rp_NextRound s)
       || (rp_ExecutionRoundLimit s <? ra_Round attempt)
    return None ;;
  Some (s <| rp_State := ReleaseExecuting |>
          <| rp_ActiveAttempt := Some (attempt <| ra_RequestEventID := ev_EventID event |>) |>).

Definition record_result (s : ReleasePlanSnapshot) (event : DomainEvent)
    : option ReleasePlanSnapshot :=
  try v <- ReleaseResultFromPayload (ev_Payload event) false ;;
  try active <- rp_ActiveAttempt s ;;
  when (rt_ReleasePlanID v != rp_ReleasePlanID s) || (rt_ExpectedRevision v != rp_Revision s)
       || (rt_PlanDigest v != rp_PlanDigest s) || (ra_AttemptID active != rt_AttemptID v)
       || (ra_MergeID active != rt_MergeID v) || (rp_State s != ReleaseExecuting)
       || negb (releaseResultIdentityMatches s v)
    return None ;;
  let result := mkReleaseResult (rt_MergeID v) (rt_AttemptID v) (rt_Outcome v) (ev_EventID event)
                  (rt_ObservedTree v) false "" in
  let next := s <| rp_Results := Some (<[rt_MergeID v := result]> (results s)) |> in
  Some (applyReleaseOutcome next result (ra_Round active)).

Definition record_reconciliation (s : ReleasePlanSnapshot) (event : DomainEvent)
    : option ReleasePlanSnapshot :=
  try v <- ReleaseResultFromPayload (ev_Payload event) true ;;
  try prior <- results s !! rt_MergeID v ;;
  try active <- rp_ActiveAttempt s ;;
  when (rt_ReleasePlanID v != rp_ReleasePlanID s) || (rt_ExpectedRevision v != rp_Revision s)
       || (rt_PlanDigest v != rp_PlanDigest s) || (rp_State s != ReleaseReconciling)
       || (ra_AttemptID active != rt_AttemptID v)
       || (rr_ResultEventID prior != rt_SupersedesResultEventID v)
       || (rr_Outcome prior != ReleaseOutcomeUnknown)
       || negb (releaseResultIdentityMatches s v)
    return None ;;
  let result := mkReleaseResult (rt_MergeID v) (rt_AttemptID v) (rt_Outcome v)
                  (rr_ResultEventID prior) (rt_ObservedTree v) true (ev_EventID event) in
  let next := s <| rp_Results := Some (<[rt_MergeID v := result]> (results s)) |> in
  Some (applyReleaseOutcome next result (ra_Round active)).

Record finalizedPayload := mkfinalizedPayload {
  fp_ReleasePlanID : UUIDv7;
  fp_ExpectedRevision : Z;
  fp_PlanDigest : Digest;
  fp_Mode : ReleaseMode;
  fp_TerminalStatus : ReleaseState;
  fp_ProviderTree : string;
  fp_QualifiedTree : string;
  fp_QualificationEventID : UUIDv7;
  fp_ResultEventIDs : list UUIDv7
}.

#[export] Instance eta_finalizedPayload : Eta finalizedPayload := fun r =>
  mkfinalizedPayload
    (fp_ReleasePlanID r) (fp_ExpectedRevision r) (fp_PlanDigest r) (fp_Mode r)
    (fp_TerminalStatus r) (fp_ProviderTree r) (fp_QualifiedTree r)
    (fp_QualificationEventID r) (fp_ResultEventIDs r).

Definition zero_finalizedPayload : finalizedPayload :=
  mkfinalizedPayload
    "" 0 "" "" "" "" "" "" [].

Definition fields_finalizedPayload : list (field finalizedPayload) :=
  [
    fld "release_plan_id" fp_ReleasePlanID dec_string;
    fld "expected_release_revision" fp_ExpectedRevision dec_u64;
    fld "plan_digest" fp_PlanDigest dec_string;
    fld "release_mode" fp_Mode dec_string;
    fld "terminal_status" fp_TerminalStatus dec_string;
    fld "provider_tree_digest" fp_ProviderTree dec_string;
    fld "qualified_tree_digest" fp_QualifiedTree dec_string;
    fld "qualification_event_id" fp_QualificationEventID dec_string;
    fld "result_event_ids" fp_ResultEventIDs (dec_slice "" dec_string)
  ].

Definition finalize (s : ReleasePlanSnapshot) (event : DomainEvent) : option ReleasePlanSnapshot :=
  try v <- Unmarshal fields_finalizedPayload zero_finalizedPayload (ev_Payload event) ;;
  when (fp_ReleasePlanID v != rp_ReleasePlanID s) || (fp_ExpectedRevision v != rp_Revision s)
       || (fp_PlanDigest v != rp_PlanDigest s) || (fp_Mode v != rp_Mode s)
    return None ;;
  when (rp_Mode s == ReleaseModeCode)
       && ((rp_State s != ReleaseQualified)
           || (rp_NextMergeIndex s != llen (rp_OrderedMerges s))
           || negb ((rq_EventID <$> rp_Qualification s) == Some (fp_QualificationEventID v))
           || (fp_QualifiedTree v != rp_ExpectedQualifiedTree s)
           || (fp_TerminalStatus v != ReleaseReadyForAcceptance)
           || (fp_ProviderTree v != rp_ExpectedQualifiedTree s)
           || (rp_ProviderTreeDigest s != rp_ExpectedQualifiedTree s)
           || negb (equalUUIDs (fp_ResultEventIDs v) (effectiveReleaseResultEventIDs s)))
    return None ;;
  when (rp_Mode s == ReleaseModeNotRequired)
       && ((fp_TerminalStatus v != ReleaseNotRequired) || (llen (fp_ResultEventIDs v) != 0)
           || (fp_QualificationEventID v != "") || (fp_QualifiedTree v != "")
           || (fp_ProviderTree v != ""))
    return None ;;
  Some (s <| rp_State := fp_TerminalStatus v |>
          <| rp_FinalizationEventID := ev_EventID event |>
          <| rp_ProviderTreeDigest := fp_ProviderTree v |>).

Definition qualification_recorded : string := "tekroo.event.release-plan.qualification-recorded".
Definition execution_requested : string := "tekroo.event.release-plan.execution-requested".
Definition result_recorded : string := "tekroo.event.release-plan.result-recorded".
Definition reconciliation_recorded : string := "tekroo.event.release-plan.reconciliation-recorded".
Definition finalized : string := "tekroo.event.release-plan.finalized".

Definition release_case (s : ReleasePlanSnapshot) (event : DomainEvent)
    : option ReleasePlanSnapshot :=
  let type := ev_EventType event in
  if type == qualification_recorded then record_qualification s event
  else if type == execution_requested then request_execution s event
  else if type == result_recorded then record_result s event
  else if type == reconciliation_recorded then record_reconciliation s event
  else if type == finalized then finalize s event
  else None.

Definition ApplyReleaseEvent (s : ReleasePlanSnapshot) (event : DomainEvent)
    : ReleasePlanSnapshot * bool :=
  when negb (ReleasePlanSnapshot_Valid s) || (ref_ID (ev_Aggregate event) != rp_ReleasePlanID s)
       || (ev_AggregateRevision event != u64 (rp_Revision s + 1))
       || negb (UUIDv7_Valid (ev_EventID event)) || IsZero (ev_CommittedAt event)
    return (zero_ReleasePlanSnapshot, false) ;;
  match release_case s event with
  | None => (zero_ReleasePlanSnapshot, false)
  | Some next =>
    let next := next <| rp_Revision := u64 (rp_Revision next + 1) |> in
    (next, ReleasePlanSnapshot_Valid next)
  end.

Definition releaseEventTypeForCommand (commandType : string) : option string :=
  if commandType == "tekroo.command.release-plan.record-qualification"
  then Some qualification_recorded
  else if commandType == "tekroo.command.release-plan.request-execution"
  then Some execution_requested
  else if commandType == "tekroo.command.release-plan.record-result"
  then Some result_recorded
  else if commandType == "tekroo.command.release-plan.record-reconciliation"
  then Some reconciliation_recorded
  else if commandType == "tekroo.command.release-plan.finalize" then Some finalized
  else None.

(** ** Facts about valid plans *)

(** What no event changes: the plan as it was created. *)
Definition plan_part (s : ReleasePlanSnapshot) : ReleasePlanSnapshot :=
  s <| rp_Revision := 0 |> <| rp_State := "" |> <| rp_Qualification := None |>
    <| rp_NextMergeIndex := 0 |> <| rp_NextRound := 0 |> <| rp_ActiveAttempt := None |>
    <| rp_Results := None |> <| rp_FinalizationEventID := "" |> <| rp_ProviderTreeDigest := "" |>.

Lemma plan_part_fields s s' :
  plan_part s' = plan_part s ->
  rp_OrderedMerges s' = rp_OrderedMerges s /\ rp_ExecutionRoundLimit s' = rp_ExecutionRoundLimit s /\
  rp_Mode s' = rp_Mode s /\ rp_ExpectedQualifiedTree s' = rp_ExpectedQualifiedTree s.
Proof. destruct s, s'. unfold plan_part. cbn. intros [=]. by subst. Qed.

Lemma merges_loop_unique seen merges :
  merges_loop seen merges = true ->
  NoDup (rm_MergeID <$> merges) /\ (forall m, m ∈ merges -> rm_MergeID m ∉ seen).
Proof.
  revert seen. induction merges as [|m ms IH]; intros seen; cbn [merges_loop fmap list_fmap].
  { intros _. split; [constructor | set_solver]. }
  intros H. unwhen H. apply bool_decide_eq_false in E0. apply IH in H as [Hn Hs].
  split.
  - constructor; [|done]. rewrite list_elem_of_fmap. intros (m' & E' & Hin).
    apply (Hs m' Hin). set_solver.
  - intros m' [->|Hin]%elem_of_cons; [done|]. specialize (Hs m' Hin). set_solver.
Qed.

Lemma valid_no_release s :
  ReleasePlanSnapshot_Valid s = true -> rp_Mode s = ReleaseModeNotRequired ->
  rp_OrderedMerges s = [] /\ rp_NextMergeIndex s = 0 /\ rp_NextRound s = 1 /\ results s = ∅ /\
  rp_Qualification s = None /\ rp_ActiveAttempt s = None /\
  (rp_State s = ReleasePlanned \/ rp_State s = ReleaseNotRequired).
Proof.
  unfold ReleasePlanSnapshot_Valid. intros H Hm. destruct (_ || _) in H; [discriminate|].
  rewrite (bool_decide_eq_true_2 _ Hm) in H. unfold no_release_valid in H.
  destruct (_ || _) eqn:G in H; [discriminate|]. bprop G. split_ands.
  split_and!; try done.
  - destruct (rp_OrderedMerges s); [done|]. unfold llen in *. simpl in *. lia.
  - by apply map_size_empty_iff.
  - by apply is_nil_true.
  - by apply is_nil_true.
  - case_bool_decide; [by left|right]. bprop H. by split_ands.
Qed.

Lemma valid_code s :
  ReleasePlanSnapshot_Valid s = true -> rp_Mode s <> ReleaseModeNotRequired ->
  rp_Mode s = ReleaseModeCode /\ NoDup (rm_MergeID <$> rp_OrderedMerges s) /\
  rp_NextMergeIndex s <= llen (rp_OrderedMerges s) /\ rp_NextRound s <= rp_ExecutionRoundLimit s /\
  rp_ExecutionRoundLimit s <= 1000 /\ rp_NextRound s <> 0 /\
  (forall q, rp_Qualification s = Some q -> qualification_ok s q = true) /\ state_valid s = true.
Proof.
  unfold ReleasePlanSnapshot_Valid. intros H Hm. destruct (_ || _) in H; [discriminate|].
  rewrite (bool_decide_eq_false_2 _ Hm) in H. unwhen H. bprop E. bprop E1. bprop E0. split_ands.
  apply merges_loop_unique in E0 as [Hn _]. split_and!; try done; try lia.
  intros q Hq. rewrite Hq in E4. by apply negb_false_iff in E4.
Qed.

Lemma valid_unique_merges s :
  ReleasePlanSnapshot_Valid s = true -> NoDup (rm_MergeID <$> rp_OrderedMerges s).
Proof.
  intros H. destruct (decide (rp_Mode s = ReleaseModeNotRequired)) as [E|E].
  - apply valid_no_release in E as (-> & _); [constructor | done].
  - by apply valid_code in E as (_ & ? & _).
Qed.

Lemma merge_id_inj s i j m m' :
  ReleasePlanSnapshot_Valid s = true -> rp_OrderedMerges s !! i = Some m ->
  rp_OrderedMerges s !! j = Some m' -> rm_MergeID m = rm_MergeID m' -> i = j.
Proof.
  intros Hv Hi Hj E. apply (NoDup_lookup (rm_MergeID <$> rp_OrderedMerges s) i j (rm_MergeID m)).
  - by apply valid_unique_merges.
  - by rewrite list_lookup_fmap, Hi.
  - rewrite list_lookup_fmap, Hj. simpl. by rewrite E.
Qed.

Lemma next_merge_some s m :
  next_merge s = Some m ->
  rp_NextMergeIndex s < llen (rp_OrderedMerges s) /\
  rp_OrderedMerges s !! Z.to_nat (rp_NextMergeIndex s) = Some m.
Proof. unfold next_merge. intros H. unwhen H. apply Z.leb_gt in E. done. Qed.

(** ** One event *)

(** The effect of each kind of event, as a relation. [outcome_recorded] is
    shared by results and reconciliations. *)
Inductive release_effect (s : ReleasePlanSnapshot) (e : DomainEvent) : ReleasePlanSnapshot -> Prop :=
| effect_qualified q :
    ev_EventType e = qualification_recorded -> rp_State s = ReleasePlanned ->
    release_effect s e (s <| rp_State := ReleaseQualified |> <| rp_Qualification := Some q |>)
| effect_requested a m :
    ev_EventType e = execution_requested -> rp_State s = ReleaseQualified ->
    next_merge s = Some m -> ra_Round a = rp_NextRound s ->
    release_effect s e (s <| rp_State := ReleaseExecuting |> <| rp_ActiveAttempt := Some a |>)
| effect_outcome a m r :
    ev_EventType e = result_recorded /\ rp_State s = ReleaseExecuting \/
    ev_EventType e = reconciliation_recorded /\ rp_State s = ReleaseReconciling ->
    rp_ActiveAttempt s = Some a -> next_merge s = Some m -> rr_MergeID r = rm_MergeID m ->
    known_outcome (rr_Outcome r) = true ->
    release_effect s e
      (applyReleaseOutcome (s <| rp_Results := Some (<[rm_MergeID m := r]> (results s)) |>) r (ra_Round a))
| effect_released :
    ev_EventType e = finalized -> rp_Mode s = ReleaseModeCode -> rp_State s = ReleaseQualified ->
    rp_NextMergeIndex s = llen (rp_OrderedMerges s) ->
    rp_ProviderTreeDigest s = rp_ExpectedQualifiedTree s ->
    release_effect s e
      (s <| rp_State := ReleaseReadyForAcceptance |> <| rp_FinalizationEventID := ev_EventID e |>)
| effect_not_required :
    ev_EventType e = finalized -> rp_Mode s = ReleaseModeNotRequired ->
    release_effect s e
      (s <| rp_State := ReleaseNotRequired |> <| rp_FinalizationEventID := ev_EventID e |>
         <| rp_ProviderTreeDigest := "" |>).

Lemma ReleaseResultFromPayload_known payload b v :
  ReleaseResultFromPayload payload b = Some v -> known_outcome (rt_Outcome v) = true.
Proof.
  unfold ReleaseResultFromPayload. intros H. accepted H. subst. bprop G. by split_ands.
Qed.

Lemma identity_matches_inv s v :
  releaseResultIdentityMatches s v = true ->
  exists m, next_merge s = Some m /\ rt_MergeID v = rm_MergeID m.
Proof.
  unfold releaseResultIdentityMatches. destruct (next_merge s) as [m|]; [|discriminate].
  intros H. unwhen H; bprop E; by exists m.
Qed.

Lemma finalize_effect s e n :
  ReleasePlanSnapshot_Valid s = true -> ev_EventType e = finalized -> finalize s e = Some n ->
  release_effect s e n.
Proof.
  unfold finalize. intros Hv Ht H. destruct (Unmarshal _ _ _) as [v|]; [|discriminate].
  destruct (_ || _) in H; [discriminate|]. destruct (decide (rp_Mode s = ReleaseModeNotRequired)) as [E|E].
  - rewrite (bool_decide_eq_true_2 _ E) in H.
    rewrite bool_decide_eq_false_2 in H by (rewrite E; discriminate). cbn [andb] in H.
    destruct (_ || _) eqn:G in H; [discriminate|]. bprop G. split_ands. injection H as <-.
    match goal with E1 : fp_TerminalStatus v = _, E2 : fp_ProviderTree v = _ |- _ => rewrite E1, E2 end.
    by constructor.
  - rewrite (bool_decide_eq_false_2 _ E) in H. apply valid_code in Hv as (Hm & _); [|done].
    rewrite (bool_decide_eq_true_2 _ Hm) in H. cbn [andb] in H.
    destruct (_ || _) eqn:G in H; [discriminate|]. bprop G. split_ands. injection H as <-.
    match goal with
    | E1 : fp_TerminalStatus v = _, E2 : fp_ProviderTree v = _, E3 : rp_ProviderTreeDigest s = _ |- _ =>
      rewrite E1, E2; pose proof (effect_released s e Ht Hm ltac:(done) ltac:(done) E3) as K;
      cbn in K; rewrite E3 in K; exact K
    end.
Qed.

Lemma release_case_effect s e n :
  ReleasePlanSnapshot_Valid s = true -> release_case s e = Some n -> release_effect s e n.
Proof.
  unfold release_case. intros Hv H. case_bool_decide as T1.
  { unfold record_qualification in H. accepted H. bprop G. split_ands. subst n. by constructor. }
  case_bool_decide as T2.
  { unfold request_execution in H. destruct (ReleaseAttemptFromPayload _) as [p|]; [|discriminate].
    destruct p as [[[[a id] rev] plan] ev]. destruct (_ || _) eqn:G in H; [discriminate|].
    injection H as <-. bprop G. split_ands.
    destruct (next_merge s) as [m|] eqn:Em; [|discriminate]. by econstructor. }
  case_bool_decide as T3.
  { unfold record_result in H. destruct (ReleaseResultFromPayload _ _) as [v|] eqn:Ev; [|discriminate].
    destruct (rp_ActiveAttempt s) as [a|] eqn:Ea; [|discriminate].
    destruct (_ || _) eqn:G in H; [discriminate|]. injection H as <-. bprop G. split_ands.
    apply ReleaseResultFromPayload_known in Ev.
    match goal with H : releaseResultIdentityMatches _ _ = true |- _ =>
      apply identity_matches_inv in H as (m & Hm & Em) end.
    rewrite Em. eapply effect_outcome; eauto. }
  case_bool_decide as T4.
  { unfold record_reconciliation in H.
    destruct (ReleaseResultFromPayload _ _) as [v|] eqn:Ev; [|discriminate].
    destruct (results s !! _) as [prior|]; [|discriminate].
    destruct (rp_ActiveAttempt s) as [a|] eqn:Ea; [|discriminate].
    destruct (_ || _) eqn:G in H; [discriminate|]. injection H as <-. bprop G. split_ands.
    apply ReleaseResultFromPayload_known in Ev.
    match goal with H : releaseResultIdentityMatches _ _ = true |- _ =>
      apply identity_matches_inv in H as (m & Hm & Em) end.
    rewrite Em. eapply effect_outcome; eauto. }
  case_bool_decide as T5; [|discriminate]. by apply finalize_effect.
Qed.

Lemma ApplyReleaseEvent_inv s e s' :
  ApplyReleaseEvent s e = (s', true) ->
  ReleasePlanSnapshot_Valid s = true /\ ReleasePlanSnapshot_Valid s' = true /\
  exists n, release_case s e = Some n /\ release_effect s e n /\
            s' = n <| rp_Revision := u64 (rp_Revision n + 1) |>.
Proof.
  unfold ApplyReleaseEvent. intros H. destruct (_ || _) eqn:G in H; [discriminate|].
  bprop G. split_ands. destruct (release_case s e) as [n|] eqn:En; [|discriminate].
  injection H as <- Hv. split_and!; [done|done|]. exists n. split_and!; [done| |done].
  by apply release_case_effect.
Qed.

(** An outcome ends the attempt, except an unknown one. *)
Lemma applyReleaseOutcome_cases s r round :
  known_outcome (rr_Outcome r) = true ->
  rr_Outcome r = ReleaseOutcomeUnknown /\
    applyReleaseOutcome s r round = s <| rp_State := ReleaseReconciling |> \/
  merged (rr_Outcome r) = true /\
    applyReleaseOutcome s r round =
      s <| rp_State := ReleaseQualified |> <| rp_ProviderTreeDigest := rr_ObservedTree r |>
        <| rp_NextMergeIndex := u64 (rp_NextMergeIndex s + 1) |> <| rp_NextRound := 1 |>
        <| rp_ActiveAttempt := None |> \/
  rr_Outcome r = ReleaseOutcomeFailed /\ rp_ExecutionRoundLimit s <= round /\
    applyReleaseOutcome s r round =
      s <| rp_ActiveAttempt := None |> <| rp_State := ReleaseFailed |> \/
  rr_Outcome r = ReleaseOutcomeFailed /\ round < rp_ExecutionRoundLimit s /\
    applyReleaseOutcome s r round =
      s <| rp_ActiveAttempt := None |> <| rp_State := ReleaseQualified |>
        <| rp_NextRound := u64 (round + 1) |>.
Proof.
  unfold known_outcome, applyReleaseOutcome, merged. intros H.
  destruct (decide (rr_Outcome r = ReleaseOutcomeUnknown)) as [->|E1]; [by left|].
  destruct (decide (rr_Outcome r = ReleaseOutcomeMerged)) as [->|E2]; [by right; left|].
  destruct (decide (rr_Outcome r = ReleaseOutcomeAlreadyMerged)) as [->|E3]; [by right; left|].
  rewrite (bool_decide_eq_false_2 _ E1), (bool_decide_eq_false_2 _ E2), (bool_decide_eq_false_2 _ E3) in H.
  rewrite orb_false_r in H. cbn [orb] in H.
  apply bool_decide_eq_true in H as ->. right. right. eval_tests. cbv iota zeta. cbn.
  destruct (Z.leb_spec (rp_ExecutionRoundLimit s) round); [by left | by right].
Qed.

Lemma outcome_plan_part s r round : plan_part (applyReleaseOutcome s r round) = plan_part s.
Proof. unfold applyReleaseOutcome. destruct s. repeat case_match; reflexivity. Qed.

Lemma effect_plan_part s e n : release_effect s e n -> plan_part n = plan_part s.
Proof. destruct 1; rewrite ?outcome_plan_part; by destruct s. Qed.

(** ** Progress of the merges *)

(** An attempt is under way, or the last one failed for good. *)
Definition attempting (st : ReleaseState) : bool :=
  (st == ReleaseExecuting) || (st == ReleaseReconciling) || (st == ReleaseFailed).

(** [done_before s i]: the first [i] merges are merged. *)
Definition done_before (s : ReleasePlanSnapshot) (i : Z) : Prop :=
  forall j m, rp_OrderedMerges s !! j = Some m -> Z.of_nat j < i ->
  exists r, results s !! rm_MergeID m = Some r /\ merged (rr_Outcome r) = true.

Record release_inv (s : ReleasePlanSnapshot) : Prop := {
  ri_index : 0 <= rp_NextMergeIndex s <= llen (rp_OrderedMerges s);
  ri_done : done_before s (rp_NextMergeIndex s);
  ri_results : forall k r, results s !! k = Some r -> exists i m,
    rp_OrderedMerges s !! i = Some m /\ rm_MergeID m = k /\ Z.of_nat i <= rp_NextMergeIndex s;
  ri_tree : 0 < rp_NextMergeIndex s -> exists m r,
    rp_OrderedMerges s !! Z.to_nat (rp_NextMergeIndex s - 1) = Some m /\
    results s !! rm_MergeID m = Some r /\ rr_ObservedTree r = rp_ProviderTreeDigest s;
  ri_active : forall a, rp_ActiveAttempt s = Some a -> ra_Round a = rp_NextRound s;
  ri_round : 1 <= rp_NextRound s;
  ri_open : attempting (rp_State s) = true \/ rp_NextRound s <> 1 ->
    rp_NextMergeIndex s < llen (rp_OrderedMerges s)
}.

(** The invariant does not depend on the revision or the finalisation. *)
Lemma release_inv_revision s z : release_inv s -> release_inv (s <| rp_Revision := z |>).
Proof. intros []. by constructor. Qed.

Lemma attempting_active s a :
  ReleasePlanSnapshot_Valid s = true -> rp_ActiveAttempt s = Some a -> attempting (rp_State s) = true.
Proof.
  intros Hv Ha. destruct (decide (rp_Mode s = ReleaseModeNotRequired)) as [E|E].
  - apply valid_no_release in E as (_&_&_&_&_&?&_); congruence.
  - apply valid_code in E as (_&_&_&_&_&_&_&Hs); [|done]. unfold state_valid in Hs.
    rewrite Ha in Hs. unfold attempting. revert Hs.
    destruct (rp_State s == ReleaseExecuting), (rp_State s == ReleaseReconciling),
      (rp_State s == ReleaseFailed), (rp_State s == ReleasePlanned), (rp_State s == ReleaseQualified),
      (rp_State s == ReleaseReadyForAcceptance); try done.
    all: cbn; by rewrite andb_false_r.
Qed.

Lemma next_merge_lookup_other s i m m' :
  ReleasePlanSnapshot_Valid s = true -> next_merge s = Some m ->
  rp_OrderedMerges s !! i = Some m' -> Z.of_nat i <> rp_NextMergeIndex s -> 0 <= rp_NextMergeIndex s ->
  rm_MergeID m <> rm_MergeID m'.
Proof.
  intros Hv Hm Hi Hne H0 E. apply next_merge_some in Hm as [_ Hm].
  apply Hne. rewrite (merge_id_inj s i _ m' m Hv Hi Hm ltac:(done)). lia.
Qed.

Section outcome.
Context (s : ReleasePlanSnapshot) (m : ReleaseMergePlan) (r : ReleaseResult).
Context (Hv : ReleasePlanSnapshot_Valid s = true) (Hi : release_inv s).
Context (Hm : next_merge s = Some m) (Hr : rr_MergeID r = rm_MergeID m).

Let s1 := s <| rp_Results := Some (<[rm_MergeID m := r]> (results s)) |>.

Lemma recorded_done : done_before s1 (rp_NextMergeIndex s).
Proof using Hv Hi Hm.
  intros j m' Hj Hlt. change (results s1) with (<[rm_MergeID m := r]> (results s)).
  rewrite lookup_insert_ne; [exact (ri_done s Hi j m' Hj Hlt)|].
  apply (next_merge_lookup_other s j m m' Hv Hm Hj); [lia | apply Hi].
Qed.

Lemma recorded_results k r' : results s1 !! k = Some r' -> exists i m',
  rp_OrderedMerges s !! i = Some m' /\ rm_MergeID m' = k /\ Z.of_nat i <= rp_NextMergeIndex s.
Proof using Hi Hm.
  change (results s1) with (<[rm_MergeID m := r]> (results s)).
  destruct (ri_index s Hi). destruct (decide (rm_MergeID m = k)) as [E|E].
  - intros _. apply next_merge_some in Hm as [? ?]. exists (Z.to_nat (rp_NextMergeIndex s)), m.
    split_and!; [done|done|lia].
  - rewrite lookup_insert_ne by done. apply (ri_results s Hi).
Qed.

Lemma recorded_tree : 0 < rp_NextMergeIndex s -> exists m' r',
  rp_OrderedMerges s !! Z.to_nat (rp_NextMergeIndex s - 1) = Some m' /\
  results s1 !! rm_MergeID m' = Some r' /\ rr_ObservedTree r' = rp_ProviderTreeDigest s.
Proof using Hv Hi Hm.
  intros H0. destruct (ri_tree s Hi H0) as (m' & r' & Hl & Hr' & Ht). exists m', r'.
  split_and!; [done| |done]. change (results s1) with (<[rm_MergeID m := r]> (results s)).
  rewrite lookup_insert_ne; [done|].
  apply (next_merge_lookup_other s _ m m' Hv Hm Hl); lia.
Qed.

(** Recording a merged result advances the index by one. *)
Lemma merged_done :
  merged (rr_Outcome r) = true -> done_before s1 (rp_NextMergeIndex s + 1).
Proof using Hv Hi Hm.
  intros Ho j m' Hj Hlt. destruct (decide (Z.of_nat j < rp_NextMergeIndex s)) as [E|E].
  { by apply (recorded_done j m' Hj). }
  destruct (ri_index s Hi). apply next_merge_some in Hm as [_ Hm'].
  replace (Z.to_nat (rp_NextMergeIndex s)) with j in Hm' by lia.
  change (rp_OrderedMerges s !! j = Some m') in Hj.
  assert (m' = m) as -> by congruence. exists r. split; [|done].
  change (results s1) with (<[rm_MergeID m := r]> (results s)). by rewrite lookup_insert_eq.
Qed.

Lemma outcome_inv round :
  known_outcome (rr_Outcome r) = true -> llen (rp_OrderedMerges s) < u64_mod ->
  rp_ExecutionRoundLimit s <= 1000 -> round = rp_NextRound s ->
  (exists a, rp_ActiveAttempt s = Some a /\ ra_Round a = round) ->
  release_inv (applyReleaseOutcome s1 r round).
Proof using Hv Hi Hm.
  intros Hk Hlen Hl -> (a & Ha & Hround). pose proof (next_merge_some s m Hm) as [Hlt Hat].
  destruct (ri_index s Hi) as [H0 _]. pose proof (ri_round s Hi).
  destruct (applyReleaseOutcome_cases s1 r (rp_NextRound s) Hk)
    as [[Ho ->]|[[Ho ->]|[(Ho & Hge & ->)|(Ho & Hge & ->)]]].
  - constructor; cbn; [lia | apply recorded_done | apply recorded_results | apply recorded_tree
      | intros a'; rewrite Ha; congruence | lia | done].
  - assert (u64 (rp_NextMergeIndex s + 1) = rp_NextMergeIndex s + 1) as E.
    { apply u64_id. unfold is_u64. lia. }
    constructor; cbn; rewrite ?E; [lia | by apply merged_done | | | done | lia | intros [[=]|[]]; done].
    + intros k r' Hk'. apply recorded_results in Hk' as (i & m' & ? & ? & ?).
      exists i, m'. split_and!; [done|done|lia].
    + intros _. exists m, r. replace (rp_NextMergeIndex s + 1 - 1) with (rp_NextMergeIndex s) by lia.
      split_and!; [done | | done].
      change (<[rm_MergeID m := r]> (results s) !! rm_MergeID m = Some r). by rewrite lookup_insert_eq.
  - constructor; cbn; [lia | apply recorded_done | apply recorded_results | apply recorded_tree
      | done | lia | done].
  - cbn in Hge. assert (u64 (rp_NextRound s + 1) = rp_NextRound s + 1) as E.
    { apply u64_id. unfold is_u64, u64_mod. lia. }
    constructor; cbn; rewrite ?E; [lia | apply recorded_done | apply recorded_results | apply recorded_tree
      | done | lia | done].
Qed.
End outcome.

Lemma effect_release_inv s e n :
  ReleasePlanSnapshot_Valid s = true -> llen (rp_OrderedMerges s) < u64_mod ->
  release_inv s -> release_effect s e n -> release_inv n.
Proof.
  intros Hv Hlen Hi [q _ Hs|a m _ Hs Hm Ha|a m r Hs Ha Hm Hr Hk|_ Hm Hs Hn Ht|_ Hm].
  - destruct Hi as [? ? ? ? ? ? Ho]. constructor; try done. cbn. intros [[=]|Hne]. apply Ho. by right.
  - pose proof (next_merge_some s m Hm) as [Hlt _]. destruct Hi. constructor; try done.
    cbn. intros a' [= <-]. done.
  - assert (rp_Mode s <> ReleaseModeNotRequired) as E.
    { intros E. apply valid_no_release in E as (_&_&_&_&_&?&_); congruence. }
    apply valid_code in E as (_&_&_&_&Hl&_); [|done].
    apply outcome_inv; eauto using ri_active.
  - destruct Hi as [? ? ? ? ? ? Ho]. constructor; try done. cbn. intros [[=]|Hne]. apply Ho. by right.
  - apply valid_no_release in Hm as (Hm & Hz & Hr & He & _); [|done]. destruct Hi.
    constructor; try done; cbn; rewrite ?Hz, ?Hr; [lia|]. by intros [[=]|[]].
Qed.

Lemma created_inv payload id s :
  ReleasePlanFromCreatePayload payload id = Some s ->
  ReleasePlanSnapshot_Valid s = true /\ release_inv s /\ rp_State s = ReleasePlanned /\
  rp_NextMergeIndex s = 0 /\ rp_NextRound s = 1.
Proof.
  unfold ReleasePlanFromCreatePayload. intros H. accepted H. apply negb_false_iff in G.
  subst s. split_and!; try done. constructor; cbn; try done; try lia.
  - unfold llen. lia.
  - intros j m _ Hj. lia.
  - by intros [[=]|[]].
Qed.

(** ** Runs *)

Inductive release_run : ReleasePlanSnapshot -> list DomainEvent -> ReleasePlanSnapshot -> Prop :=
| rrun_nil s : release_run s [] s
| rrun_cons s e s1 es s2 :
    ApplyReleaseEvent s e = (s1, true) -> release_run s1 es s2 -> release_run s (e :: es) s2.

(** One accepted event keeps the plan, the invariant and validity. *)
Lemma release_step_inv s e s' :
  llen (rp_OrderedMerges s) < u64_mod -> release_inv s -> ApplyReleaseEvent s e = (s', true) ->
  ReleasePlanSnapshot_Valid s' = true /\ release_inv s' /\ plan_part s' = plan_part s.
Proof.
  intros Hlen Hi H. apply ApplyReleaseEvent_inv in H as (Hv & Hv' & n & _ & He & ->).
  split_and!; [done | | ].
  - apply release_inv_revision. exact (effect_release_inv s e n Hv Hlen Hi He).
  - rewrite <- (effect_plan_part s e n He). by destruct n.
Qed.

Lemma release_run_inv s es s' :
  release_run s es s' -> llen (rp_OrderedMerges s) < u64_mod ->
  ReleasePlanSnapshot_Valid s = true -> release_inv s ->
  ReleasePlanSnapshot_Valid s' = true /\ release_inv s' /\ plan_part s' = plan_part s.
Proof.
  induction 1 as [s|s e s1 es s2 Ha Hr IH]; intros Hlen Hv Hi; [done|].
  apply release_step_inv in Ha as (Hv1 & Hi1 & Hp); [|done|done].
  destruct IH as (? & ? & Hp2); [|done|done|].
  - by apply plan_part_fields in Hp as (-> & _).
  - split_and!; [done|done|congruence].
Qed.

Lemma valid_ready s :
  ReleasePlanSnapshot_Valid s = true -> rp_State s = ReleaseReadyForAcceptance ->
  rp_NextMergeIndex s = llen (rp_OrderedMerges s) /\
  rp_ProviderTreeDigest s = rp_ExpectedQualifiedTree s.
Proof.
  intros Hv Hs. destruct (decide (rp_Mode s = ReleaseModeNotRequired)) as [E|E].
  - destruct (valid_no_release s Hv E) as (_&_&_&_&_&_&[E'|E']); rewrite Hs in E'; discriminate E'.
  - apply valid_code in E as (_&_&_&_&_&_&_&Ht); [|done]. unfold state_valid in Ht.
    rewrite Hs in Ht. eval_tests_in Ht. cbn [orb] in Ht. cbv iota in Ht. bprop Ht. by split_ands.
Qed.

Lemma valid_ready_code s :
  ReleasePlanSnapshot_Valid s = true -> rp_State s = ReleaseReadyForAcceptance ->
  rp_Mode s = ReleaseModeCode /\ rp_OrderedMerges s <> [] /\
  exists q, rp_Qualification s = Some q /\ rq_OrderedHeadCommits q = head_commits s /\
            rq_QualifiedTreeDigest q = rp_ExpectedQualifiedTree s.
Proof.
  intros Hv Hs. assert (rp_Mode s <> ReleaseModeNotRequired) as E.
  { intros E. destruct (valid_no_release s Hv E) as (_&_&_&_&_&_&[E'|E']); rewrite Hs in E'; discriminate E'. }
  pose proof (valid_code s Hv E) as (Hm&_&_&_&_&_&Hq&_). split; [done|].
  unfold ReleasePlanSnapshot_Valid in Hv. destruct (_ || _) in Hv; [discriminate|].
  rewrite (bool_decide_eq_false_2 _ E) in Hv. unwhen Hv. bprop E0. split_ands. split.
  - intros Hn. rewrite Hn in *. by unfold llen in *.
  - rewrite Hs in E4. eval_tests_in E4. cbn [negb andb] in E4. apply is_nil_false in E4 as [q Eq].
    exists q. specialize (Hq q Eq). unfold qualification_ok, equalStrings in Hq. bprop Hq.
    by split_ands.
Qed.

(** ** Theorems *)

(** [C35] Merges are executed in the planned order, and a release is ready for
    acceptance only when all of them are in: along any sequence of accepted events
    from the creation of a plan, a merge has a recorded result only after every
    earlier merge was merged; and a plan that is ready for acceptance is the plan
    that was created, was qualified for exactly its head commits, has a merged
    result for every one of its merges, and its last merge was observed to produce
    the qualified tree. (The bound on the number of merges is the range of Go's
    [len].) *)
Theorem release_merges_in_order payload id s0 es s :
  ReleasePlanFromCreatePayload payload id = Some s0 ->
  llen (rp_OrderedMerges s0) < u64_mod -> release_run s0 es s ->
  plan_part s = plan_part s0 /\
  (forall i m r, rp_OrderedMerges s !! i = Some m -> results s !! rm_MergeID m = Some r ->
   done_before s (Z.of_nat i)) /\
  (rp_State s = ReleaseReadyForAcceptance ->
   done_before s (llen (rp_OrderedMerges s)) /\
   (exists q, rp_Qualification s = Some q /\ rq_OrderedHeadCommits q = head_commits s) /\
   exists m r, last (rp_OrderedMerges s) = Some m /\ results s !! rm_MergeID m = Some r /\
               rr_ObservedTree r = rp_ExpectedQualifiedTree s).
Proof.
  intros Hc Hlen Hr. apply created_inv in Hc as (Hv0 & Hi0 & _).
  apply release_run_inv in Hr as (Hv & Hi & Hp); [|done..]. split_and!; [done| |].
  - intros i m r Hm Hr j m' Hj Hlt. apply (ri_results s Hi) in Hr as (i' & m2 & Hm2 & E & Hle).
    rewrite (merge_id_inj s i i' m m2 Hv Hm Hm2 ltac:(done)) in Hlt.
    apply (ri_done s Hi j m' Hj). lia.
  - intros Hs. apply valid_ready in Hs as Hr; [|done]. destruct Hr as [Hn Ht].
    apply valid_ready_code in Hs as (_ & Hne & q & Hq & Hh & _); [|done]. split_and!.
    + rewrite <- Hn. apply (ri_done s Hi).
    + by exists q.
    + assert (0 < rp_NextMergeIndex s) as H0.
      { rewrite Hn. unfold llen. destruct (rp_OrderedMerges s); [done|]. simpl. lia. }
      destruct (ri_tree s Hi H0) as (m & r & Hl & Hr & Ho). exists m, r.
      rewrite last_lookup. rewrite Hn in Hl. unfold llen in Hl.
      replace (Init.Nat.pred (length (rp_OrderedMerges s))) with
        (Z.to_nat (Z.of_nat (length (rp_OrderedMerges s)) - 1)) by lia.
      split_and!; [done|done|congruence].
Qed.

(** Attempts used so far: full rounds of the merges already in, the finished
    rounds of the current one, and the attempt under way. *)
Definition attempts_at (index limit round : Z) (st : ReleaseState) : Z :=
  index * limit + (round - 1) + (if attempting st then 1 else 0).
Definition attempts_used (s : ReleasePlanSnapshot) : Z :=
  attempts_at (rp_NextMergeIndex s) (rp_ExecutionRoundLimit s) (rp_NextRound s) (rp_State s).

Lemma attempting_yes st :
  st = ReleaseExecuting \/ st = ReleaseReconciling \/ st = ReleaseFailed -> attempting st = true.
Proof. by intros [->|[->| ->]]. Qed.

Lemma attempting_no st :
  st = ReleasePlanned \/ st = ReleaseQualified \/ st = ReleaseReadyForAcceptance \/
  st = ReleaseNotRequired -> attempting st = false.
Proof. by intros [->|[->|[->| ->]]]. Qed.

Definition requests (es : list DomainEvent) : Z :=
  llen (List.filter (fun e => ev_EventType e == execution_requested) es).

Lemma attempts_used_bound s :
  ReleasePlanSnapshot_Valid s = true -> release_inv s ->
  attempts_used s <= llen (rp_OrderedMerges s) * rp_ExecutionRoundLimit s.
Proof.
  intros Hv Hi. pose proof (ri_index s Hi) as Hix. pose proof (ri_round s Hi) as Hr1.
  unfold attempts_used, attempts_at. destruct (decide (rp_NextMergeIndex s < llen (rp_OrderedMerges s))) as [E|E].
  - assert (rp_Mode s <> ReleaseModeNotRequired) as Hm.
    { intros Hm. destruct (valid_no_release s Hv Hm) as (Hn & Hz & _).
      rewrite Hn, Hz in E. unfold llen in E. simpl in E. lia. }
    apply valid_code in Hm as (_&_&_&Hl&_); [|done].
    destruct (attempting _); nia.
  - assert (rp_NextMergeIndex s = llen (rp_OrderedMerges s)) as -> by lia.
    destruct (attempting _) eqn:Ea; [by destruct E; apply (ri_open s Hi); left|].
    destruct (decide (rp_NextRound s = 1)) as [->|Hn]; [lia|].
    by destruct E; apply (ri_open s Hi); right.
Qed.

(** An event uses at most what it requests. *)
Lemma outcome_attempts s m r :
  ReleasePlanSnapshot_Valid s = true -> llen (rp_OrderedMerges s) < u64_mod -> release_inv s ->
  next_merge s = Some m -> known_outcome (rr_Outcome r) = true -> is_Some (rp_ActiveAttempt s) ->
  attempts_used s <= attempts_used (applyReleaseOutcome
    (s <| rp_Results := Some (<[rm_MergeID m := r]> (results s)) |>) r (rp_NextRound s)).
Proof.
  intros Hv Hlen Hi Hm Hk [a Ha]. pose proof (ri_index s Hi). pose proof (ri_round s Hi).
  assert (rp_Mode s <> ReleaseModeNotRequired) as E.
  { intros E. destruct (valid_no_release s Hv E) as (_&_&_&_&_&?&_); congruence. }
  apply valid_code in E as (_&_&_&Hl&Hl2&_); [|done].
  pose proof (next_merge_some s m Hm) as [Hlt _].
  unfold attempts_used at 1, attempts_at. rewrite (attempting_active s a Hv Ha).
  destruct (applyReleaseOutcome_cases (s <| rp_Results := Some (<[rm_MergeID m := r]> (results s)) |>)
              r (rp_NextRound s) Hk) as [[Ho ->]|[[Ho ->]|[(Ho & Hge & ->)|(Ho & Hge & ->)]]].
  - change (rp_NextMergeIndex s * rp_ExecutionRoundLimit s + (rp_NextRound s - 1) + 1 <=
      attempts_at (rp_NextMergeIndex s) (rp_ExecutionRoundLimit s) (rp_NextRound s) ReleaseReconciling).
    unfold attempts_at. rewrite attempting_yes by auto. lia.
  - change (rp_NextMergeIndex s * rp_ExecutionRoundLimit s + (rp_NextRound s - 1) + 1 <=
      attempts_at (u64 (rp_NextMergeIndex s + 1)) (rp_ExecutionRoundLimit s) 1 ReleaseQualified).
    unfold attempts_at. rewrite attempting_no by auto.
    rewrite u64_id by (unfold is_u64; lia). nia.
  - change (rp_NextMergeIndex s * rp_ExecutionRoundLimit s + (rp_NextRound s - 1) + 1 <=
      attempts_at (rp_NextMergeIndex s) (rp_ExecutionRoundLimit s) (rp_NextRound s) ReleaseFailed).
    unfold attempts_at. rewrite attempting_yes by auto. lia.
  - change (rp_NextRound s < rp_ExecutionRoundLimit s) in Hge.
    change (rp_NextMergeIndex s * rp_ExecutionRoundLimit s + (rp_NextRound s - 1) + 1 <=
      attempts_at (rp_NextMergeIndex s) (rp_ExecutionRoundLimit s) (u64 (rp_NextRound s + 1)) ReleaseQualified).
    unfold attempts_at. rewrite attempting_no by auto.
    rewrite u64_id by (unfold is_u64, u64_mod; lia). lia.
Qed.

Lemma effect_attempts s e n :
  ReleasePlanSnapshot_Valid s = true -> llen (rp_OrderedMerges s) < u64_mod ->
  release_inv s -> release_effect s e n ->
  attempts_used s + (if ev_EventType e == execution_requested then 1 else 0) <= attempts_used n.
Proof.
  intros Hv Hlen Hi He.
  destruct He as [q Ht Hs|a m Ht Hs Hm Ha|a m r Hst Ha Hm Hr Hk|Ht Hm Hs Hn Hd|Ht Hm].
  1,2,4: rewrite Ht; unfold attempts_used; rewrite Hs.
  - change (attempts_at (rp_NextMergeIndex s) (rp_ExecutionRoundLimit s) (rp_NextRound s) ReleasePlanned + 0 <=
      attempts_at (rp_NextMergeIndex s) (rp_ExecutionRoundLimit s) (rp_NextRound s) ReleaseQualified).
    unfold attempts_at. rewrite !attempting_no by auto. lia.
  - change (attempts_at (rp_NextMergeIndex s) (rp_ExecutionRoundLimit s) (rp_NextRound s) ReleaseQualified + 1 <=
      attempts_at (rp_NextMergeIndex s) (rp_ExecutionRoundLimit s) (rp_NextRound s) ReleaseExecuting).
    unfold attempts_at. rewrite attempting_no, attempting_yes by auto. lia.
  - change (attempts_at (rp_NextMergeIndex s) (rp_ExecutionRoundLimit s) (rp_NextRound s) ReleaseQualified + 0 <=
      attempts_at (rp_NextMergeIndex s) (rp_ExecutionRoundLimit s) (rp_NextRound s) ReleaseReadyForAcceptance).
    unfold attempts_at. rewrite !attempting_no by auto. lia.
  - replace (ev_EventType e == execution_requested) with false
      by (destruct Hst as [[-> _]|[-> _]]; reflexivity).
    rewrite (ri_active s Hi a Ha), Z.add_0_r. apply outcome_attempts; eauto.
  - rewrite Ht. unfold attempts_used at 1.
    change (attempts_at (rp_NextMergeIndex s) (rp_ExecutionRoundLimit s) (rp_NextRound s) (rp_State s) + 0 <=
      attempts_at (rp_NextMergeIndex s) (rp_ExecutionRoundLimit s) (rp_NextRound s) ReleaseNotRequired).
    destruct (valid_no_release s Hv Hm) as (_&_&_&_&_&_&Hs).
    unfold attempts_at. rewrite !attempting_no by intuition auto. lia.
Qed.

Lemma requests_cons e es :
  requests (e :: es) = (if ev_EventType e == execution_requested then 1 else 0) + requests es.
Proof. unfold requests, llen. cbn. destruct (_ == _); simpl length; lia. Qed.

Lemma run_requests s es s' :
  release_run s es s' -> llen (rp_OrderedMerges s) < u64_mod ->
  ReleasePlanSnapshot_Valid s = true -> release_inv s ->
  attempts_used s + requests es <= attempts_used s'.
Proof.
  induction 1 as [s|s e s1 es s2 Ha Hr IH]; intros Hlen Hv Hi; [unfold requests, llen; simpl; lia|].
  pose proof (release_step_inv s e s1 Hlen Hi Ha) as (Hv1 & Hi1 & Hp).
  apply ApplyReleaseEvent_inv in Ha as (_ & _ & n & _ & He & Hn).
  pose proof (effect_attempts s e n Hv Hlen Hi He) as Hstep.
  assert (attempts_used s1 = attempts_used n) as E by (subst s1; done).
  rewrite requests_cons.
  assert (attempts_used s1 + requests es <= attempts_used s2); [|lia].
  apply IH; [|done|done]. by apply plan_part_fields in Hp as (-> & _).
Qed.

(** Attempts are bounded: from the creation of a plan, any sequence of
    accepted events asks the provider for at most [ExecutionRoundLimit] attempts
    per merge, whatever results and reconciliations come in between. *)
Theorem release_attempts_bounded payload id s0 es s :
  ReleasePlanFromCreatePayload payload id = Some s0 ->
  llen (rp_OrderedMerges s0) < u64_mod -> release_run s0 es s ->
  requests es <= llen (rp_OrderedMerges s0) * rp_ExecutionRoundLimit s0.
Proof.
  intros Hc Hlen Hr. apply created_inv in Hc as (Hv0 & Hi0 & Hs0 & Hn0 & Hr0).
  pose proof (run_requests s0 es s Hr Hlen Hv0 Hi0) as Hq.
  apply release_run_inv in Hr as (Hv & Hi & Hp); [|done..].
  apply plan_part_fields in Hp as (<- & <- & _).
  pose proof (attempts_used_bound s Hv Hi). unfold attempts_used at 1 in Hq.
  unfold attempts_at in Hq. rewrite Hs0, Hn0, Hr0, attempting_no in Hq by auto. lia.
Qed.

(** ** Refinement of the contract-level model *)

(** The contract-level view of a plan. *)
Definition abs (s : ReleasePlanSnapshot) : ReleaseSnapshot :=
  mkReleaseSnapshot (rp_State s) (rp_Mode s) (rp_Author s) (rp_AuthorApprovalEventID s)
    (rp_PlanDigest s) (rp_BaseCommit s) (head_commits s) (rm_MergeID <$> rp_OrderedMerges s)
    (rp_NextMergeIndex s) (rp_ExecutionRoundLimit s) (rp_NextRound s)
    (from_option ra_Round 0 (rp_ActiveAttempt s)) (from_option ra_MergeID "" (rp_ActiveAttempt s))
    (from_option ra_AttemptID "" (rp_ActiveAttempt s))
    (from_option ra_AttemptID "" (rp_ActiveAttempt s))
    (from_option rr_ResultEventID "" (m ← next_merge s; results s !! rm_MergeID m))
    (rp_ExpectedQualifiedTree s) (rp_ProviderTreeDigest s).

(** The contract-level reading of an event. *)
Definition transition_of (e : DomainEvent) : option ReleaseTransition :=
  let payload := ev_Payload e in
  if ev_EventType e == qualification_recorded then
    v ← ReleaseQualificationFromPayload payload;
    Some (zero_ReleaseTransition <| tr_Action := ReleaseQualify |>
            <| tr_PlanDigest := rqt_PlanDigest v |> <| tr_BaseCommit := rqt_QualifiedBaseCommit v |>
            <| tr_HeadCommits := rqt_OrderedHeadCommits v |>)
  else if ev_EventType e == execution_requested then
    p ← ReleaseAttemptFromPayload payload;
    let '(a, _, _, plan, _) := p in
    Some (zero_ReleaseTransition <| tr_Action := ReleaseRequestExecution |>
            <| tr_PlanDigest := plan |> <| tr_MergeID := ra_MergeID a |> <| tr_Round := ra_Round a |>)
  else if ev_EventType e == result_recorded then
    v ← ReleaseResultFromPayload payload false;
    Some (zero_ReleaseTransition <| tr_Action := ReleaseRecordResult |>
            <| tr_PlanDigest := rt_PlanDigest v |> <| tr_AttemptID := rt_AttemptID v |>
            <| tr_Outcome := rt_Outcome v |>)
  else if ev_EventType e == reconciliation_recorded then
    v ← ReleaseResultFromPayload payload true;
    Some (zero_ReleaseTransition <| tr_Action := ReleaseReconcile |>
            <| tr_PlanDigest := rt_PlanDigest v |> <| tr_AttemptID := rt_AttemptID v |>
            <| tr_SupersedesResultEventID := rt_SupersedesResultEventID v |>
            <| tr_Outcome := rt_Outcome v |>)
  else if ev_EventType e == finalized then
    v ← Unmarshal fields_finalizedPayload zero_finalizedPayload payload;
    Some (zero_ReleaseTransition <| tr_Action := ReleaseFinalize |>
            <| tr_PlanDigest := fp_PlanDigest v |> <| tr_TerminalStatus := fp_TerminalStatus v |>
            <| tr_ProviderTreeDigest := fp_ProviderTree v |>)
  else None.

(** When the contract-level model accepts, action by action. *)
Section evaluate.
Context (c : ReleaseSnapshot) (t : ReleaseTransition).
Context (Hplan : tr_PlanDigest t = rs_PlanDigest c).

Definition accepts (st : ReleaseState) : Prop :=
  EvaluateRelease c t = mkReleaseEvaluation true "ACCEPTED" st.

Ltac evaluate :=
  unfold accepts, EvaluateRelease, equalStrings, merge_at; cbv zeta; rewrite ?Hplan;
  repeat match goal with E : _ = _ |- _ => progress rewrite ?E; clear E end;
  autorewrite with gosimp; rewrite ?andb_false_r; eval_tests; cbn [orb andb negb].

Lemma accept_qualify :
  tr_Action t = ReleaseQualify -> rs_State c = ReleasePlanned -> rs_ReleaseMode c = ReleaseModeCode ->
  tr_BaseCommit t = rs_BaseCommit c -> tr_HeadCommits t = rs_HeadCommits c -> accepts ReleaseQualified.
Proof using Hplan. intros Ha Hs Hm Hb Hh. evaluate. reflexivity. Qed.

Lemma accept_request :
  tr_Action t = ReleaseRequestExecution -> rs_State c = ReleaseQualified ->
  rs_NextMergeIndex c < llen (rs_MergeOrder c) ->
  rs_MergeOrder c !! Z.to_nat (rs_NextMergeIndex c) = Some (tr_MergeID t) ->
  tr_Round t = rs_NextRound c -> rs_NextRound c <= rs_ExecutionRoundLimit c ->
  accepts ReleaseExecuting.
Proof using Hplan.
  intros Ha Hs Hi Hl Hr Hn. apply Z.leb_gt in Hi. apply Z.ltb_ge in Hn.
  pose proof Hn as Hn'. rewrite <- Hr in Hn'. evaluate. reflexivity.
Qed.

Lemma accept_outcome :
  tr_Action t = ReleaseRecordResult /\ rs_State c = ReleaseExecuting /\
    rs_ActiveAttemptID c = tr_AttemptID t \/
  tr_Action t = ReleaseReconcile /\ rs_State c = ReleaseReconciling /\
    rs_UnresolvedAttemptID c = tr_AttemptID t /\
    rs_LatestResultEventID c = tr_SupersedesResultEventID t ->
  EvaluateRelease c t = releaseOutcomeEvaluation c (tr_Outcome t).
Proof using Hplan.
  intros [(Ha & Hs & Hi)|(Ha & Hs & Hi & Hl)]; evaluate; reflexivity.
Qed.

Lemma accept_release :
  tr_Action t = ReleaseFinalize -> rs_State c = ReleaseQualified -> rs_ReleaseMode c = ReleaseModeCode ->
  rs_NextMergeIndex c = llen (rs_MergeOrder c) -> tr_ProviderTreeDigest t = rs_QualifiedTreeDigest c ->
  forall st, tr_TerminalStatus t = st -> accepts st.
Proof using Hplan. intros Ha Hs Hm Hi Ht st Hst. evaluate. reflexivity. Qed.

Lemma accept_no_release :
  tr_Action t = ReleaseFinalize -> rs_State c = ReleasePlanned ->
  rs_ReleaseMode c = ReleaseModeNotRequired -> tr_TerminalStatus t = ReleaseNotRequired ->
  accepts ReleaseNotRequired.
Proof using Hplan. intros Ha Hs Hm Ht. evaluate. reflexivity. Qed.
End evaluate.

Lemma outcome_state s r round :
  known_outcome (rr_Outcome r) = true -> from_option ra_Round 0 (rp_ActiveAttempt s) = round ->
  releaseOutcomeEvaluation (abs s) (rr_Outcome r) =
  mkReleaseEvaluation true "ACCEPTED"
    (rp_State (applyReleaseOutcome (s <| rp_Results := Some (<[rr_MergeID r := r]> (results s)) |>) r round)).
Proof.
  intros Hk <-. unfold known_outcome in Hk. unfold releaseOutcomeEvaluation, applyReleaseOutcome, merged.
  destruct (rr_Outcome r == ReleaseOutcomeUnknown); [done|].
  destruct (rr_Outcome r == ReleaseOutcomeMerged); [done|].
  destruct (rr_Outcome r == ReleaseOutcomeAlreadyMerged); [done|].
  destruct (rr_Outcome r == ReleaseOutcomeFailed); [|done].
  cbn. by destruct (_ <=? _).
Qed.

(** One lemma per kind of event: an accepted event is an accepted transition of
    the contract-level model to the same state. *)
Section refines.
Context (s n : ReleasePlanSnapshot) (e : DomainEvent).
Context (Hv : ReleasePlanSnapshot_Valid s = true).

Definition simulated : Prop :=
  exists t, transition_of e = Some t /\ accepts (abs s) t (rp_State n).

Lemma qualification_simulated :
  rp_Mode s = ReleaseModeCode -> ev_EventType e = qualification_recorded ->
  record_qualification s e = Some n -> simulated.
Proof using Hv.
  unfold record_qualification, simulated, transition_of. intros Hn ->. eval_tests. cbv iota.
  destruct (ReleaseQualificationFromPayload _) as [v|]; [|discriminate]. intros H.
  destruct (_ || _) eqn:G in H; [discriminate|]. unfold equalStrings in G. bprop G. split_ands.
  injection H as <-. eexists. split; [reflexivity|]. by apply accept_qualify.
Qed.

Lemma qualified_code z :
  ReleasePlanSnapshot_Valid (n <| rp_Revision := z |>) = true -> release_effect s e n ->
  ev_EventType e = qualification_recorded -> rp_Mode s = ReleaseModeCode.
Proof using Hv.
  intros Hn He T. destruct (decide (rp_Mode s = ReleaseModeNotRequired)) as [E|E].
  - destruct He as [q _ _|? ? Ht|? ? ? [[Ht _]|[Ht _]]|Ht|Ht]; try (rewrite Ht in T; discriminate T).
    by destruct (valid_no_release _ Hn E) as (_&_&_&_&[=]&_).
  - by apply valid_code in E as (? & _).
Qed.

Lemma request_simulated :
  ev_EventType e = execution_requested -> request_execution s e = Some n -> simulated.
Proof using Hv.
  unfold request_execution, simulated, transition_of. intros ->. eval_tests. cbv iota.
  destruct (ReleaseAttemptFromPayload _) as [[[[[a id] rev] plan] ids]|]; [|discriminate]. intros H.
  destruct (_ || _) eqn:G in H; [discriminate|]. bprop G. split_ands. injection H as <-.
  eexists. split; [reflexivity|].
  destruct (next_merge s) as [m|] eqn:Em; [|discriminate].
  pose proof (next_merge_some s m Em) as [Hlt Hat].
  apply accept_request; try done; cbn.
  - unfold llen in *. by rewrite length_fmap.
  - rewrite list_lookup_fmap, Hat. done.
  - lia.
Qed.

Lemma result_simulated :
  ev_EventType e = result_recorded -> record_result s e = Some n -> simulated.
Proof using Hv.
  unfold record_result, simulated, transition_of. intros ->. eval_tests. cbv iota.
  destruct (ReleaseResultFromPayload _ _) as [v|] eqn:Ev; [|discriminate].
  destruct (rp_ActiveAttempt s) as [a|] eqn:Ea; [|discriminate]. intros H.
  destruct (_ || _) eqn:G in H; [discriminate|]. bprop G. split_ands. injection H as <-.
  eexists. split; [reflexivity|]. unfold accepts. rewrite accept_outcome; try done.
  - apply (outcome_state s (mkReleaseResult (rt_MergeID v) (rt_AttemptID v) (rt_Outcome v)
      (ev_EventID e) (rt_ObservedTree v) false "")); [|by rewrite Ea].
    by eapply ReleaseResultFromPayload_known.
  - left. cbn. by rewrite Ea.
Qed.

Lemma reconciliation_simulated :
  ev_EventType e = reconciliation_recorded -> record_reconciliation s e = Some n -> simulated.
Proof using Hv.
  unfold record_reconciliation, simulated, transition_of. intros ->. eval_tests. cbv iota.
  destruct (ReleaseResultFromPayload _ _) as [v|] eqn:Ev; [|discriminate].
  destruct (results s !! rt_MergeID v) as [prior|] eqn:Ep; [|discriminate].
  destruct (rp_ActiveAttempt s) as [a|] eqn:Ea; [|discriminate]. intros H.
  destruct (_ || _) eqn:G in H; [discriminate|]. bprop G. split_ands. injection H as <-.
  eexists. split; [reflexivity|]. unfold accepts. rewrite accept_outcome; try done.
  - apply (outcome_state s (mkReleaseResult (rt_MergeID v) (rt_AttemptID v) (rt_Outcome v)
      (rr_ResultEventID prior) (rt_ObservedTree v) true (ev_EventID e))); [|by rewrite Ea].
    by eapply ReleaseResultFromPayload_known.
  - right. match goal with H : releaseResultIdentityMatches _ _ = true |- _ =>
      apply identity_matches_inv in H as (m & Hm & Em) end.
    cbn. rewrite Ea, Hm. cbn. rewrite <- Em, Ep. done.
Qed.

Lemma finalization_simulated :
  rp_State s <> ReleaseNotRequired ->
  ev_EventType e = finalized -> finalize s e = Some n -> simulated.
Proof using Hv.
  intros Hst. unfold finalize, simulated, transition_of. intros ->. eval_tests. cbv iota.
  destruct (Unmarshal _ _ _) as [v|]; [|discriminate]. intros H.
  destruct (_ || _) eqn:G in H; [discriminate|]. bprop G. split_ands.
  destruct (decide (rp_Mode s = ReleaseModeNotRequired)) as [E|E].
  - rewrite (bool_decide_eq_true_2 _ E) in H.
    rewrite bool_decide_eq_false_2 in H by (rewrite E; discriminate). cbn [andb] in H.
    destruct (_ || _) eqn:G in H; [discriminate|]. bprop G. split_ands. injection H as <-.
    eexists. split; [reflexivity|]. cbn.
    destruct (valid_no_release s Hv E) as (_&_&_&_&_&_&[Hp|Hp]); [|done].
    match goal with K : fp_TerminalStatus v = _ |- _ => rewrite K at 2 end. by apply accept_no_release.
  - rewrite (bool_decide_eq_false_2 _ E) in H. destruct (valid_code s Hv E) as (Hm & _).
    rewrite (bool_decide_eq_true_2 _ Hm) in H. cbn [andb] in H.
    destruct (_ || _) eqn:G in H; [discriminate|]. bprop G. split_ands. injection H as <-.
    eexists. split; [reflexivity|]. apply accept_release; try done.
    cbn. unfold llen in *. by rewrite length_fmap.
Qed.
End refines.


(** ** Concrete plans *)

Definition plan_head : list (string * string) :=
  [("release_plan_id", qs (uid "1")); ("story_id", qs (uid "2")); ("story_lifecycle_epoch", "1");
   ("expected_story_revision", "5"); ("author", jobj [("kind", qs PrincipalHuman); ("id", qs "ada")]);
   ("author_approval_event_id", qs (uid "3")); ("author_approval_revision", "1");
   ("release_policy_revision", "1"); ("plan_digest", qs (dig "a")); ("evidence_ids", jarr [qs (uid "4")])].

Definition merge_json (id : ascii) (head : string) : string :=
  jobj [("merge_id", qs (uid id)); ("change_ref", qs "change"); ("head_commit", qs head); ("role", qs "code")].

Definition code_payload : string :=
  jdoc (plan_head ++
    [("release_mode", qs ReleaseModeCode); ("repository_url", qs "url"); ("base_ref", qs "main");
     ("base_commit", qs "b0"); ("ordered_merges", jarr [merge_json "5" "h1"; merge_json "6" "h2"]);
     ("merge_strategy", qs "FF_ONLY_ORDERED"); ("conflict_policy", qs "FAIL_NO_IMPROVISATION");
     ("contract_manifest", qs ContractIdentity); ("manifest_sha256", qs (dig "b"));
     ("required_profiles", jarr [qs "core"]); ("expected_qualified_tree", qs "tree");
     ("execution_round_limit", "2")]).

Definition plan_event (type : string) (revision : Z) (id : ascii) (fields : list (string * string))
    : DomainEvent :=
  mkEvent "" (uid id) type "" (mkRef AggregateReleasePlan (uid "1")) (revision + 1) 1 ""
    zero_principal None None [] sample_time
    (jdoc (("release_plan_id", qs (uid "1")) :: ("expected_release_revision", enc_uint revision)
           :: ("plan_digest", qs (dig "a")) :: ("evidence_ids", jarr [qs (uid "4")]) :: fields)) "".

Definition qualification_fields : list (string * string) :=
  [("qualification_id", qs (uid "7")); ("qualified_base_commit", qs "b0");
   ("ordered_head_commits", jarr [qs "h1"; qs "h2"]); ("qualified_tree_digest", qs "tree");
   ("gate_definition_digest", qs (dig "c")); ("toolchain_digest", qs (dig "d"));
   ("dependency_lock_digest", qs (dig "e")); ("artifact_digests", jarr [qs (dig "f")]);
   ("contract_manifest", qs ContractIdentity); ("manifest_sha256", qs (dig "b"));
   ("required_profiles", jarr [qs "core"])].
Definition attempt_fields (merge attempt : ascii) (round : Z) : list (string * string) :=
  [("merge_id", qs (uid merge)); ("attempt_id", qs (uid attempt)); ("round", enc_uint round);
   ("provider_idempotency_key", qs "key")].
Definition outcome_fields (merge attempt : ascii) (outcome : string) : list (string * string) :=
  [("merge_id", qs (uid merge)); ("attempt_id", qs (uid attempt)); ("outcome", qs outcome)].
Definition observed_fields (head tree : string) : list (string * string) :=
  [("observed_base_commit", qs "b0"); ("observed_head_commit", qs head); ("observed_tree_digest", qs tree)].

(** A failed first round, an unknown second one reconciled as merged, and then
    the second merge. *)
Definition release_events : list DomainEvent :=
  [plan_event qualification_recorded 1 "8" qualification_fields;
   plan_event execution_requested 2 "9" (attempt_fields "5" "a" 1);
   plan_event result_recorded 3 "b" (outcome_fields "5" "a" ReleaseOutcomeFailed);
   plan_event execution_requested 4 "9" (attempt_fields "5" "c" 2);
   plan_event result_recorded 5 "d" (outcome_fields "5" "c" ReleaseOutcomeUnknown);
   plan_event reconciliation_recorded 6 "e"
     (outcome_fields "5" "c" ReleaseOutcomeMerged ++ observed_fields "h1" "t1" ++
      [("supersedes_result_event_id", qs (uid "d")); ("reconciliation_id", qs (uid "f"));
       ("provider_state", qs ReleaseProviderMerged)]);
   plan_event execution_requested 7 "9" (attempt_fields "6" "c" 1);
   plan_event result_recorded 8 "0"
     (outcome_fields "6" "c" ReleaseOutcomeAlreadyMerged ++ observed_fields "h2" "tree");
   plan_event finalized 9 "2"
     [("release_mode", qs ReleaseModeCode); ("terminal_status", qs ReleaseReadyForAcceptance);
      ("provider_tree_digest", qs "tree"); ("qualified_tree_digest", qs "tree");
      ("qualification_event_id", qs (uid "8")); ("result_event_ids", jarr [qs (uid "e"); qs (uid "0")])]].

Definition created (payload : string) : ReleasePlanSnapshot :=
  match ReleasePlanFromCreatePayload payload (uid "0") with
  | Some s => s
  | None => zero_ReleasePlanSnapshot
  end.
Definition code_plan : ReleasePlanSnapshot := Eval vm_compute in created code_payload.
Fixpoint replay (s : ReleasePlanSnapshot) (es : list DomainEvent) : option ReleasePlanSnapshot :=
  match es with
  | [] => Some s
  | e :: es => let '(s1, ok) := ApplyReleaseEvent s e in if ok then replay s1 es else None
  end.
Definition released_plan : ReleasePlanSnapshot :=
  Eval vm_compute in default code_plan (replay code_plan release_events).

Lemma code_plan_created : ReleasePlanFromCreatePayload code_payload (uid "0") = Some code_plan.
Proof. vm_compute. reflexivity. Qed.

Lemma replay_run s es s' : replay s es = Some s' -> release_run s es s'.
Proof.
  revert s. induction es as [|e es IH]; intros s H; cbn in H.
  - injection H as <-. constructor.
  - destruct (ApplyReleaseEvent s e) as [s1 []] eqn:E; [|discriminate].
    eapply rrun_cons; [exact E | by apply IH].
Qed.

Lemma release_events_run : release_run code_plan release_events released_plan.
Proof. apply replay_run. vm_compute. reflexivity. Qed.

Lemma release_merges_in_order_witness :
  rp_State released_plan = ReleaseReadyForAcceptance /\ done_before released_plan 2.
Proof.
  split; [reflexivity|].
  apply (release_merges_in_order code_payload (uid "0") code_plan release_events released_plan
    code_plan_created); [reflexivity | exact release_events_run | reflexivity].
Defined.

Lemma release_attempts_bounded_witness : requests release_events = 3 /\ requests release_events <= 4.
Proof.
  split; [vm_compute; reflexivity|].
  exact (release_attempts_bounded code_payload (uid "0") code_plan release_events released_plan
    code_plan_created eq_refl release_events_run).
Defined.

Definition first_event : DomainEvent := plan_event qualification_recorded 1 "8" qualification_fields.
Definition qualified_plan : ReleasePlanSnapshot :=
  Eval vm_compute in fst (ApplyReleaseEvent code_plan first_event).


(** A plan that needs no release, and its finalisation. *)
Definition no_release_payload : string :=
  jdoc (plan_head ++
    [("release_mode", qs ReleaseModeNotRequired); ("no_release_reason", qs "documentation only")]).
Definition no_release_plan : ReleasePlanSnapshot := Eval vm_compute in created no_release_payload.
Definition closing_event (revision : Z) (id : ascii) : DomainEvent :=
  plan_event finalized revision id
    [("release_mode", qs ReleaseModeNotRequired); ("terminal_status", qs ReleaseNotRequired)].
Definition closed_plan : ReleasePlanSnapshot :=
  Eval vm_compute in fst (ApplyReleaseEvent no_release_plan (closing_event 1 "8")).
Definition reclosed_plan : ReleasePlanSnapshot :=
  Eval vm_compute in fst (ApplyReleaseEvent closed_plan (closing_event 2 "9")).

(** A plan closed as "no release required" can be finalised again: the
    second finalisation is accepted and replaces the recorded finalisation event,
    although the contract-level model rejects every action on such a plan. *)
Theorem closed_plan_finalized_again :
  ReleasePlanFromCreatePayload no_release_payload (uid "0") = Some no_release_plan /\
  ApplyReleaseEvent no_release_plan (closing_event 1 "8") = (closed_plan, true) /\
  rp_State closed_plan = ReleaseNotRequired /\ rp_FinalizationEventID closed_plan = uid "8" /\
  ApplyReleaseEvent closed_plan (closing_event 2 "9") = (reclosed_plan, true) /\
  rp_FinalizationEventID reclosed_plan = uid "9" /\
  (forall t, EvaluateRelease (abs closed_plan) t =
             mkReleaseEvaluation false "RELEASE_TERMINAL" ReleaseNotRequired).
Proof. split_and!; try (vm_compute; reflexivity). Qed.
