(* ===== verification/Variant.v ===== *)
(** * Variant groups ([kernel/variant.go])

    Several independent candidates for one task are submitted, compared and
    adjudicated. [ApplyVariantEvent] returns the next snapshot and whether the
    event was legal. A nil map of candidates is the empty map: the code only
    reads it, counts it and copies it. *)

From S2P Require Import Prelude GoText GoTime GoJson GoMarshal Types Samples Payload Envelope.
From S2P Require Import State WorkProfile.

Definition VariantState := string.
Definition VariantOpen : VariantState := "OPEN".
Definition VariantCompared : VariantState := "COMPARED".
Definition VariantTerminal : VariantState := "TERMINAL".

Definition VariantClassification := string.
Definition VariantMaterialAgreement : VariantClassification := "MATERIAL_AGREEMENT".
Definition VariantNonMaterialVariation : VariantClassification := "NON_MATERIAL_VARIATION".
Definition VariantMaterialDisagreement : VariantClassification := "MATERIAL_DISAGREEMENT".
Definition VariantInsufficientCandidates : VariantClassification := "INSUFFICIENT_VALID_CANDIDATES".
Definition VariantInconclusive : VariantClassification := "INCONCLUSIVE".
Definition VariantClassification_Valid (c : VariantClassification) : bool :=
  contains [VariantMaterialAgreement; VariantNonMaterialVariation; VariantMaterialDisagreement;
    VariantInsufficientCandidates; VariantInconclusive] c.

Definition VariantSelectionOutcome := string.
Definition VariantSelectCandidate : VariantSelectionOutcome := "SELECT_CANDIDATE".
Definition VariantRejectAll : VariantSelectionOutcome := "REJECT_ALL".
Definition VariantRedesign : VariantSelectionOutcome := "REDESIGN".
Definition VariantSplit : VariantSelectionOutcome := "SPLIT".
Definition VariantHumanRequired : VariantSelectionOutcome := "HUMAN_REQUIRED".
Definition VariantEscalate : VariantSelectionOutcome := "ESCALATE".
Definition VariantSelectionOutcome_Valid (o : VariantSelectionOutcome) : bool :=
  contains [VariantSelectCandidate; VariantRejectAll; VariantRedesign; VariantSplit;
    VariantHumanRequired; VariantEscalate] o.

Record VariantGroupKey := mkVariantGroupKey {
  vk_TaskID : UUIDv7;
  vk_LifecycleEpoch : Z;
  vk_ScopeRevision : Z;
  vk_WorkProfileDigest : Digest
}.

#[export] Instance eta_VariantGroupKey : Eta VariantGroupKey := fun r =>
  mkVariantGroupKey
    (vk_TaskID r) (vk_LifecycleEpoch r) (vk_ScopeRevision r) (vk_WorkProfileDigest r).

#[global] Instance VariantGroupKey_eq_dec : EqDecision VariantGroupKey.
Proof. solve_decision. Defined.

Definition VariantGroupKey_Valid (k : VariantGroupKey) : bool :=
  UUIDv7_Valid (vk_TaskID k) && (0 <? vk_LifecycleEpoch k) && (0 <? vk_ScopeRevision k)
  && Digest_Valid (vk_WorkProfileDigest k).

#[export] Instance eta_ExecutionTuple : Eta ExecutionTuple := fun r =>
  mkExec (ex_ExecutionID r) (ex_FencingEpoch r).
Definition fields_ExecutionTuple : list (field ExecutionTuple) :=
  [fld "execution_id" ex_ExecutionID dec_string; fld "fencing_epoch" ex_FencingEpoch dec_u64].
Definition dec_ExecutionTuple : decoder ExecutionTuple := dec_struct fields_ExecutionTuple.

Record VariantCandidate := mkVariantCandidate {
  vc_CandidateID : UUIDv7;
  vc_ActorFQN : ActorFQN;
  vc_Execution : ExecutionTuple;
  vc_ModelProfileDigest : Digest;
  vc_RuntimeIdentityDigest : Digest;
  vc_ContextDigest : Digest;
  vc_WorkspaceDigest : Digest;
  vc_ArtifactDigest : Digest;
  vc_ChangedFileInventoryDigest : Digest;
  vc_DeterministicGateReceiptIDs : list UUIDv7;
  vc_Assumptions : list string;
  vc_UnresolvedExceptions : list string;
  vc_EvidenceIDs : list UUIDv7;
  vc_SubmissionEventID : UUIDv7
}.

#[export] Instance eta_VariantCandidate : Eta VariantCandidate := fun r =>
  mkVariantCandidate
    (vc_CandidateID r) (vc_ActorFQN r) (vc_Execution r) (vc_ModelProfileDigest r)
    (vc_RuntimeIdentityDigest r) (vc_ContextDigest r) (vc_WorkspaceDigest r)
    (vc_ArtifactDigest r) (vc_ChangedFileInventoryDigest r)
    (vc_DeterministicGateReceiptIDs r) (vc_Assumptions r) (vc_UnresolvedExceptions r)
    (vc_EvidenceIDs r) (vc_SubmissionEventID r).

Definition zero_VariantCandidate : VariantCandidate :=
  mkVariantCandidate
    "" "" zero_exec "" "" "" "" "" "" [] [] [] [] "".

Definition fields_VariantCandidate : list (field VariantCandidate) :=
  [
    fld "candidate_id" vc_CandidateID dec_string;
    fld "actor_fqn" vc_ActorFQN dec_string;
    fld "execution" vc_Execution dec_ExecutionTuple;
    fld "model_profile_digest" vc_ModelProfileDigest dec_string;
    fld "runtime_identity_digest" vc_RuntimeIdentityDigest dec_string;
    fld "context_digest" vc_ContextDigest dec_string;
    fld "workspace_digest" vc_WorkspaceDigest dec_string;
    fld "artifact_digest" vc_ArtifactDigest dec_string;
    fld "changed_file_inventory_digest" vc_ChangedFileInventoryDigest dec_string;
    fld "deterministic_gate_receipt_ids" vc_DeterministicGateReceiptIDs (dec_slice "" dec_string);
    fld "assumptions" vc_Assumptions (dec_slice "" dec_string);
    fld "unresolved_exceptions" vc_UnresolvedExceptions (dec_slice "" dec_string);
    fld "evidence_ids" vc_EvidenceIDs (dec_slice "" dec_string);
    fld "submission_event_id" vc_SubmissionEventID dec_string
  ].
Definition dec_VariantCandidate : decoder VariantCandidate := dec_struct fields_VariantCandidate.

Definition VariantCandidate_Valid (c : VariantCandidate) : bool :=
  UUIDv7_Valid (vc_CandidateID c) && ActorFQN_Valid (vc_ActorFQN c)
  && ExecutionTuple_Valid (vc_Execution c) && Digest_Valid (vc_ModelProfileDigest c)
  && Digest_Valid (vc_RuntimeIdentityDigest c) && Digest_Valid (vc_ContextDigest c)
  && Digest_Valid (vc_WorkspaceDigest c) && Digest_Valid (vc_ArtifactDigest c)
  && Digest_Valid (vc_ChangedFileInventoryDigest c)
  && validUniqueUUIDs (vc_DeterministicGateReceiptIDs c) 1 64
  && validUniqueStrings (vc_Assumptions c) 0 64
  && validUniqueStrings (vc_UnresolvedExceptions c) 0 64
  && validUniqueUUIDs (vc_EvidenceIDs c) 1 64 && UUIDv7_Valid (vc_SubmissionEventID c).

Record VariantComparison := mkVariantComparison {
  cmp_Comparator : PrincipalRef;
  cmp_ComparatorExecutionID : UUIDv7;
  cmp_CandidateIDs : list UUIDv7;
  cmp_Classification : VariantClassification;
  cmp_ComparisonMethodID : string;
  cmp_ComparisonReceiptDigest : Digest;
  cmp_Reasons : list string;
  cmp_EvidenceIDs : list UUIDv7;
  cmp_EventID : UUIDv7
}.

#[export] Instance eta_VariantComparison : Eta VariantComparison := fun r =>
  mkVariantComparison
    (cmp_Comparator r) (cmp_ComparatorExecutionID r) (cmp_CandidateIDs r)
    (cmp_Classification r) (cmp_ComparisonMethodID r) (cmp_ComparisonReceiptDigest r)
    (cmp_Reasons r) (cmp_EvidenceIDs r) (cmp_EventID r).

Definition zero_VariantComparison : VariantComparison :=
  mkVariantComparison
    zero_principal "" [] "" "" "" [] [] "".

Definition fields_VariantComparison : list (field VariantComparison) :=
  [
    fld "comparator" cmp_Comparator dec_PrincipalRef;
    fld "comparator_execution_id" cmp_ComparatorExecutionID dec_string;
    fld "candidate_ids" cmp_CandidateIDs (dec_slice "" dec_string);
    fld "classification" cmp_Classification dec_string;
    fld "comparison_method_id" cmp_ComparisonMethodID dec_string;
    fld "comparison_receipt_digest" cmp_ComparisonReceiptDigest dec_string;
    fld "reasons" cmp_Reasons (dec_slice "" dec_string);
    fld "evidence_ids" cmp_EvidenceIDs (dec_slice "" dec_string);
    fld "event_id" cmp_EventID dec_string
  ].
Definition dec_VariantComparison : decoder VariantComparison := dec_struct fields_VariantComparison.

Definition VariantComparison_Valid (c : VariantComparison) : bool :=
  PrincipalRef_Valid (cmp_Comparator c) && UUIDv7_Valid (cmp_ComparatorExecutionID c)
  && validUniqueUUIDs (cmp_CandidateIDs c) 2 32
  && VariantClassification_Valid (cmp_Classification c) && (cmp_ComparisonMethodID c != "")
  && (slen (cmp_ComparisonMethodID c) <=? 256) && Digest_Valid (cmp_ComparisonReceiptDigest c)
  && validUniqueStrings (cmp_Reasons c) 1 64 && validUniqueUUIDs (cmp_EvidenceIDs c) 1 64
  && UUIDv7_Valid (cmp_EventID c).

Record VariantSelection := mkVariantSelection {
  vs_ComparisonEventID : UUIDv7;
  vs_Adjudicator : PrincipalRef;
  vs_Outcome : VariantSelectionOutcome;
  vs_SelectedCandidateID : option UUIDv7;
  vs_Reasons : list string;
  vs_EvidenceIDs : list UUIDv7;
  vs_EventID : UUIDv7
}.

#[export] Instance eta_VariantSelection : Eta VariantSelection := fun r =>
  mkVariantSelection
    (vs_ComparisonEventID r) (vs_Adjudicator r) (vs_Outcome r) (vs_SelectedCandidateID r)
    (vs_Reasons r) (vs_EvidenceIDs r) (vs_EventID r).

Definition zero_VariantSelection : VariantSelection :=
  mkVariantSelection
    "" zero_principal "" None [] [] "".

Definition fields_VariantSelection : list (field VariantSelection) :=
  [
    fld "comparison_event_id" vs_ComparisonEventID dec_string;
    fld "adjudicator" vs_Adjudicator dec_PrincipalRef;
    fld "outcome" vs_Outcome dec_string;
    fld "selected_candidate_id" vs_SelectedCandidateID (dec_ptr "" dec_string);
    fld "reasons" vs_Reasons (dec_slice "" dec_string);
    fld "evidence_ids" vs_EvidenceIDs (dec_slice "" dec_string);
    fld "event_id" vs_EventID dec_string
  ].
Definition dec_VariantSelection : decoder VariantSelection := dec_struct fields_VariantSelection.

Definition VariantSelection_Valid (s : VariantSelection) : bool :=
  when negb (UUIDv7_Valid (vs_ComparisonEventID s)) || negb (PrincipalRef_Valid (vs_Adjudicator s))
       || negb (VariantSelectionOutcome_Valid (vs_Outcome s))
       || negb (validUniqueStrings (vs_Reasons s) 1 64)
       || negb (validUniqueUUIDs (vs_EvidenceIDs s) 1 64) || negb (UUIDv7_Valid (vs_EventID s))
    return false ;;
  (vs_Outcome s == VariantSelectCandidate)
    && match vs_SelectedCandidateID s with Some id => UUIDv7_Valid id | None => false end
  || (vs_Outcome s != VariantSelectCandidate) && is_nil (vs_SelectedCandidateID s).

Definition VariantCandidates := gmap UUIDv7 VariantCandidate.
Definition dec_VariantCandidates : decoder VariantCandidates :=
  dec_map zero_VariantCandidate dec_VariantCandidate.
Definition zero_VariantCandidates : VariantCandidates := ∅.

Record VariantGroupSnapshot := mkVariantGroupSnapshot {
  vg_VariantGroupID : UUIDv7;
  vg_Revision : Z;
  vg_State : VariantState;
  vg_TaskID : UUIDv7;
  vg_WorkProfile : WorkProfileBinding;
  vg_BaseArtifactDigest : Digest;
  vg_InputEvidenceSetDigest : Digest;
  vg_ToolchainDigest : Digest;
  vg_DependencyLockDigest : Digest;
  vg_AcceptanceManifestDigest : Digest;
  vg_CandidateCount : Z;
  vg_ValidCandidateQuorum : Z;
  vg_RequiredIndependenceDimensions : list string;
  vg_ComparisonMethodID : string;
  vg_ComparisonPolicyDigest : Digest;
  vg_MaterialityPolicyDigest : Digest;
  vg_Comparator : PrincipalRef;
  vg_Adjudicator : PrincipalRef;
  vg_SubmissionDeadlineAt : Time;
  vg_DecisionDeadlineAt : Time;
  vg_ReplacementBudget : Z;
  vg_EvidenceIDs : list UUIDv7;
  vg_Candidates : VariantCandidates;
  vg_Comparison : option VariantComparison;
  vg_Selection : option VariantSelection
}.

#[export] Instance eta_VariantGroupSnapshot : Eta VariantGroupSnapshot := fun r =>
  mkVariantGroupSnapshot
    (vg_VariantGroupID r) (vg_Revision r) (vg_State r) (vg_TaskID r) (vg_WorkProfile r)
    (vg_BaseArtifactDigest r) (vg_InputEvidenceSetDigest r) (vg_ToolchainDigest r)
    (vg_DependencyLockDigest r) (vg_AcceptanceManifestDigest r) (vg_CandidateCount r)
    (vg_ValidCandidateQuorum r) (vg_RequiredIndependenceDimensions r)
    (vg_ComparisonMethodID r) (vg_ComparisonPolicyDigest r) (vg_MaterialityPolicyDigest r)
    (vg_Comparator r) (vg_Adjudicator r) (vg_SubmissionDeadlineAt r)
    (vg_DecisionDeadlineAt r) (vg_ReplacementBudget r) (vg_EvidenceIDs r) (vg_Candidates r)
    (vg_Comparison r) (vg_Selection r).

Definition zero_VariantGroupSnapshot : VariantGroupSnapshot :=
  mkVariantGroupSnapshot
    "" 0 "" "" zero_WorkProfileBinding "" "" "" "" "" 0 0 [] "" "" "" zero_principal
    zero_principal zero_time zero_time 0 [] zero_VariantCandidates None None.

Definition fields_VariantGroupSnapshot : list (field VariantGroupSnapshot) :=
  [
    fld "variant_group_id" vg_VariantGroupID dec_string;
    fld "revision" vg_Revision dec_u64;
    fld "state" vg_State dec_string;
    fld "task_id" vg_TaskID dec_string;
    fld "work_profile" vg_WorkProfile dec_WorkProfileBinding;
    fld "base_artifact_digest" vg_BaseArtifactDigest dec_string;
    fld "input_evidence_set_digest" vg_InputEvidenceSetDigest dec_string;
    fld "toolchain_digest" vg_ToolchainDigest dec_string;
    fld "dependency_lock_digest" vg_DependencyLockDigest dec_string;
    fld "acceptance_manifest_digest" vg_AcceptanceManifestDigest dec_string;
    fld "candidate_count" vg_CandidateCount dec_u64;
    fld "valid_candidate_quorum" vg_ValidCandidateQuorum dec_u64;
    fld "required_independence_dimensions" vg_RequiredIndependenceDimensions (dec_slice "" dec_string);
    fld "comparison_method_id" vg_ComparisonMethodID dec_string;
    fld "comparison_policy_digest" vg_ComparisonPolicyDigest dec_string;
    fld "materiality_policy_digest" vg_MaterialityPolicyDigest dec_string;
    fld "comparator" vg_Comparator dec_PrincipalRef;
    fld "adjudicator" vg_Adjudicator dec_PrincipalRef;
    fld "submission_deadline_at" vg_SubmissionDeadlineAt dec_time;
    fld "decision_deadline_at" vg_DecisionDeadlineAt dec_time;
    fld "replacement_budget" vg_ReplacementBudget dec_u64;
    fld "evidence_ids" vg_EvidenceIDs (dec_slice "" dec_string);
    fld "candidates" vg_Candidates dec_VariantCandidates;
    fld "comparison" vg_Comparison (dec_ptr zero_VariantComparison dec_VariantComparison);
    fld "selection" vg_Selection (dec_ptr zero_VariantSelection dec_VariantSelection)
  ].

Definition VariantGroup_Key (s : VariantGroupSnapshot) : VariantGroupKey :=
  mkVariantGroupKey (vg_TaskID s) (wb_LifecycleEpoch (vg_WorkProfile s))
    (wb_ScopeRevision (vg_WorkProfile s)) (wb_ProfileDigest (vg_WorkProfile s)).

(** Every required dimension is listed. *)
Definition requiredVariantIsolation (values : list IndependenceDimension) : bool :=
  forallb (contains values)
    [IndependenceActor; IndependenceExecution; IndependenceContext; IndependenceWorkspace].

(** [len(candidates)] and the bound on it, at the width of [uint64]. *)
Definition candidate_count (s : VariantGroupSnapshot) : Z := Z.of_nat (size (vg_Candidates s)).
Definition candidate_limit (s : VariantGroupSnapshot) : Z :=
  u64 (vg_CandidateCount s + vg_ReplacementBudget s).

Definition VariantGroupSnapshot_Valid (s : VariantGroupSnapshot) : bool :=
  when negb (UUIDv7_Valid (vg_VariantGroupID s)) || (vg_Revision s == 0)
       || negb (VariantGroupKey_Valid (VariantGroup_Key s))
       || negb (Digest_Valid (vg_BaseArtifactDigest s))
       || negb (Digest_Valid (vg_InputEvidenceSetDigest s))
       || negb (Digest_Valid (vg_ToolchainDigest s)) || negb (Digest_Valid (vg_DependencyLockDigest s))
       || negb (Digest_Valid (vg_AcceptanceManifestDigest s)) || (vg_CandidateCount s <? 2)
       || (32 <? vg_CandidateCount s) || (vg_ValidCandidateQuorum s <? 2)
       || (vg_CandidateCount s <? vg_ValidCandidateQuorum s)
       || negb (validUniqueDimensions (vg_RequiredIndependenceDimensions s))
       || negb (requiredVariantIsolation (vg_RequiredIndependenceDimensions s))
       || (vg_ComparisonMethodID s == "") || (256 <? slen (vg_ComparisonMethodID s))
       || negb (Digest_Valid (vg_ComparisonPolicyDigest s))
       || negb (Digest_Valid (vg_MaterialityPolicyDigest s))
       || negb (PrincipalRef_Valid (vg_Comparator s)) || negb (PrincipalRef_Valid (vg_Adjudicator s))
       || IsZero (vg_SubmissionDeadlineAt s)
       || negb (After (vg_DecisionDeadlineAt s) (vg_SubmissionDeadlineAt s))
       || (32 <? vg_ReplacementBudget s) || negb (validUniqueUUIDs (vg_EvidenceIDs s) 1 64)
       || (candidate_limit s <? candidate_count s)
    return false ;;
  (vg_State s == VariantOpen)
  || (vg_State s == VariantCompared) && negb (is_nil (vg_Comparison s))
  || (vg_State s == VariantTerminal) && negb (is_nil (vg_Comparison s))
     && negb (is_nil (vg_Selection s)).

Definition VariantGroupFromOpenPayload (payload : string) (eventID : UUIDv7)
    : option VariantGroupSnapshot :=
  try v <- Unmarshal fields_VariantGroupSnapshot zero_VariantGroupSnapshot payload ;;
  let snapshot := v <| vg_Revision := 1 |> <| vg_State := VariantOpen |>
    <| vg_Candidates := ∅ |> <| vg_Comparison := None |> <| vg_Selection := None |> in
  when negb (UUIDv7_Valid eventID) || negb (VariantGroupSnapshot_Valid snapshot) return None ;;
  Some snapshot.

Record candidatePayload := mkcandidatePayload {
  cp_CandidateID : UUIDv7;
  cp_ActorFQN : ActorFQN;
  cp_ExecutionID : UUIDv7;
  cp_FencingEpoch : Z;
  cp_ModelProfileDigest : Digest;
  cp_RuntimeIdentityDigest : Digest;
  cp_ContextDigest : Digest;
  cp_WorkspaceDigest : Digest;
  cp_ArtifactDigest : Digest;
  cp_ChangedFileInventoryDigest : Digest;
  cp_DeterministicGateReceiptIDs : list UUIDv7;
  cp_Assumptions : list string;
  cp_UnresolvedExceptions : list string;
  cp_EvidenceIDs : list UUIDv7
}.

#[export] Instance eta_candidatePayload : Eta candidatePayload := fun r =>
  mkcandidatePayload
    (cp_CandidateID r) (cp_ActorFQN r) (cp_ExecutionID r) (cp_FencingEpoch r)
    (cp_ModelProfileDigest r) (cp_RuntimeIdentityDigest r) (cp_ContextDigest r)
    (cp_WorkspaceDigest r) (cp_ArtifactDigest r) (cp_ChangedFileInventoryDigest r)
    (cp_DeterministicGateReceiptIDs r) (cp_Assumptions r) (cp_UnresolvedExceptions r)
    (cp_EvidenceIDs r).

Definition zero_candidatePayload : candidatePayload :=
  mkcandidatePayload
    "" "" "" 0 "" "" "" "" "" "" [] [] [] [].

Definition fields_candidatePayload : list (field candidatePayload) :=
  [
    fld "candidate_id" cp_CandidateID dec_string;
    fld "actor_fqn" cp_ActorFQN dec_string;
    fld "execution_id" cp_ExecutionID dec_string;
    fld "fencing_epoch" cp_FencingEpoch dec_u64;
    fld "model_profile_digest" cp_ModelProfileDigest dec_string;
    fld "runtime_identity_digest" cp_RuntimeIdentityDigest dec_string;
    fld "context_digest" cp_ContextDigest dec_string;
    fld "workspace_digest" cp_WorkspaceDigest dec_string;
    fld "artifact_digest" cp_ArtifactDigest dec_string;
    fld "changed_file_inventory_digest" cp_ChangedFileInventoryDigest dec_string;
    fld "deterministic_gate_receipt_ids" cp_DeterministicGateReceiptIDs (dec_slice "" dec_string);
    fld "assumptions" cp_Assumptions (dec_slice "" dec_string);
    fld "unresolved_exceptions" cp_UnresolvedExceptions (dec_slice "" dec_string);
    fld "evidence_ids" cp_EvidenceIDs (dec_slice "" dec_string)
  ].

(** The [(value, bool)] results below are options: every caller returns when
    the flag is false. *)
Definition variantCandidateFromPayload (payload : string) (eventID : UUIDv7)
    : option VariantCandidate :=
  try v <- Unmarshal fields_candidatePayload zero_candidatePayload payload ;;
  let candidate :=
    mkVariantCandidate (cp_CandidateID v) (cp_ActorFQN v)
      (mkExec (cp_ExecutionID v) (cp_FencingEpoch v)) (cp_ModelProfileDigest v)
      (cp_RuntimeIdentityDigest v) (cp_ContextDigest v) (cp_WorkspaceDigest v)
      (cp_ArtifactDigest v) (cp_ChangedFileInventoryDigest v)
      (cp_DeterministicGateReceiptIDs v) (cp_Assumptions v) (cp_UnresolvedExceptions v)
      (cp_EvidenceIDs v) eventID in
  when negb (VariantCandidate_Valid candidate) return None ;;
  Some candidate.

Definition variantComparisonFromPayload (payload : string) (eventID : UUIDv7)
    : option VariantComparison :=
  try v <- Unmarshal fields_VariantComparison zero_VariantComparison payload ;;
  let comparison := v <| cmp_EventID := eventID |>
                      <| cmp_CandidateIDs := sort_strings (cmp_CandidateIDs v) |> in
  when negb (VariantComparison_Valid comparison) return None ;;
  Some comparison.

Definition variantSelectionFromPayload (payload : string) (eventID : UUIDv7)
    : option VariantSelection :=
  try v <- Unmarshal fields_VariantSelection zero_VariantSelection payload ;;
  let selection := v <| vs_EventID := eventID |> in
  when negb (VariantSelection_Valid selection) return None ;;
  Some selection.

Definition shares_identity (prior candidate : VariantCandidate) : bool :=
  (vc_ActorFQN prior == vc_ActorFQN candidate) || (vc_Execution prior == vc_Execution candidate)
  || (vc_ContextDigest prior == vc_ContextDigest candidate)
  || (vc_WorkspaceDigest prior == vc_WorkspaceDigest candidate)
  || (vc_ArtifactDigest prior == vc_ArtifactDigest candidate).

Definition variantCandidateIndependent (existing : VariantCandidates) (candidate : VariantCandidate)
    : bool :=
  when negb (is_nil (existing !! vc_CandidateID candidate)) return false ;;
  forallb (fun entry => negb (shares_identity entry.2 candidate)) (map_to_list existing).

Definition exactCandidateSet (ids : list UUIDv7) (candidates : VariantCandidates) : bool :=
  when llen ids != Z.of_nat (size candidates) return false ;;
  forallb (fun id => negb (is_nil (candidates !! id))) ids.

Definition submit_candidate (s : VariantGroupSnapshot) (event : DomainEvent)
    : option VariantGroupSnapshot :=
  try candidate <- variantCandidateFromPayload (ev_Payload event) (ev_EventID event) ;;
  when (vg_State s != VariantOpen) || After (ev_CommittedAt event) (vg_SubmissionDeadlineAt s)
       || (candidate_limit s <=? candidate_count s)
       || negb (variantCandidateIndependent (vg_Candidates s) candidate)
    return None ;;
  Some (s <| vg_Candidates := <[vc_CandidateID candidate := candidate]> (vg_Candidates s) |>).

Definition record_comparison (s : VariantGroupSnapshot) (event : DomainEvent)
    : option VariantGroupSnapshot :=
  try comparison <- variantComparisonFromPayload (ev_Payload event) (ev_EventID event) ;;
  when (vg_State s != VariantOpen) || (candidate_count s <? vg_ValidCandidateQuorum s)
       || After (ev_CommittedAt event) (vg_DecisionDeadlineAt s)
       || (cmp_Comparator comparison != vg_Comparator s)
       || (cmp_ComparisonMethodID comparison != vg_ComparisonMethodID s)
       || negb (exactCandidateSet (cmp_CandidateIDs comparison) (vg_Candidates s))
    return None ;;
  Some (s <| vg_Comparison := Some comparison |> <| vg_State := VariantCompared |>).

(** The candidate named by a selection may be selected; [None] stands for the
    nil pointer a valid selection does not have here. *)
Definition selectable (s : VariantGroupSnapshot) (comparison : VariantComparison)
    (selection : VariantSelection) : bool :=
  match vs_SelectedCandidateID selection ≫= fun id => vg_Candidates s !! id with
  | None => false
  | Some candidate =>
    negb ((cmp_Classification comparison == VariantMaterialDisagreement)
          || (pr_Kind (vg_Comparator s) == PrincipalActor)
             && (pr_ID (vg_Comparator s) == vc_ActorFQN candidate))
  end.

Definition record_selection (s : VariantGroupSnapshot) (event : DomainEvent)
    : option VariantGroupSnapshot :=
  try selection <- variantSelectionFromPayload (ev_Payload event) (ev_EventID event) ;;
  when vg_State s != VariantCompared return None ;;
  try comparison <- vg_Comparison s ;;
  when (vs_ComparisonEventID selection != cmp_EventID comparison)
       || (vs_Adjudicator selection != vg_Adjudicator s)
       || After (ev_CommittedAt event) (vg_DecisionDeadlineAt s)
    return None ;;
  when (cmp_Classification comparison == VariantMaterialDisagreement)
       && (vs_Outcome selection != VariantEscalate)
    return None ;;
  when (vs_Outcome selection == VariantSelectCandidate)
       && negb (selectable s comparison selection)
    return None ;;
  Some (s <| vg_Selection := Some selection |> <| vg_State := VariantTerminal |>).

Definition variant_case (s : VariantGroupSnapshot) (event : DomainEvent)
    : option VariantGroupSnapshot :=
  let type := ev_EventType event in
  if type == "tekroo.event.variant-group.candidate-submitted" then submit_candidate s event
  else if type == "tekroo.event.variant-group.comparison-recorded" then record_comparison s event
  else if type == "tekroo.event.variant-group.selected" then record_selection s event
  else None.

Definition ApplyVariantEvent (s : VariantGroupSnapshot) (event : DomainEvent)
    : VariantGroupSnapshot * bool :=
  when negb (VariantGroupSnapshot_Valid s)
       || (ref_Kind (ev_Aggregate event) != AggregateVariantGroup)
       || (ref_ID (ev_Aggregate event) != vg_VariantGroupID s)
       || (ev_AggregateRevision event != u64 (vg_Revision s + 1))
       || negb (UUIDv7_Valid (ev_EventID event))
    return (s, false) ;;
  match variant_case s event with
  | None => (s, false)
  | Some next =>
    let next := next <| vg_Revision := u64 (vg_Revision next + 1) |> in
    (next, VariantGroupSnapshot_Valid next)
  end.

(** ** Facts *)

(** A duplicate-free list of keys as long as the map lists all of them. *)
Lemma keys_exact {A} (ids : list string) (m : gmap string A) :
  NoDup ids -> Forall (fun id => is_Some (m !! id)) ids -> length ids = size m ->
  forall id, id ∈ ids <-> is_Some (m !! id).
Proof.
  intros Hn H E id.
  assert (list_to_set ids = dom m) as Hd.
  { apply set_subseteq_size_eq.
    - intros x Hx. apply elem_of_list_to_set in Hx. rewrite Forall_forall in H.
      by apply elem_of_dom, H.
    - rewrite size_dom, size_list_to_set by done. lia. }
  rewrite <- elem_of_dom, <- Hd. by rewrite elem_of_list_to_set.
Qed.

Lemma exactCandidateSet_spec ids (m : VariantCandidates) :
  NoDup ids -> exactCandidateSet ids m = true -> forall id, id ∈ ids <-> is_Some (m !! id).
Proof.
  unfold exactCandidateSet. intros Hn H. unwhen H. bprop E. rewrite forallb_True_iff in H.
  apply keys_exact; [done| |apply Nat2Z.inj; exact E].
  eapply Forall_impl; [exact H|]. intros x Hx. by apply negb_true_iff, is_nil_false in Hx.
Qed.

Lemma shares_identity_false p c :
  shares_identity p c = false <->
  vc_ActorFQN p <> vc_ActorFQN c /\ vc_Execution p <> vc_Execution c /\
  vc_ContextDigest p <> vc_ContextDigest c /\ vc_WorkspaceDigest p <> vc_WorkspaceDigest c /\
  vc_ArtifactDigest p <> vc_ArtifactDigest c.
Proof. unfold shares_identity. rewrite !orb_false_iff, !bool_decide_eq_false. tauto. Qed.

Lemma shares_identity_sym p c : shares_identity p c = shares_identity c p.
Proof.
  apply eq_true_iff_eq. rewrite <- !not_false_iff_true, !shares_identity_false.
  split; intros H K; apply H; naive_solver.
Qed.

Lemma variantCandidateIndependent_spec m c :
  variantCandidateIndependent m c = true ->
  m !! vc_CandidateID c = None /\
  forall id p, m !! id = Some p -> shares_identity p c = false.
Proof.
  unfold variantCandidateIndependent. intros H. unwhen H. apply negb_false_iff, is_nil_true in E.
  rewrite forallb_True_iff, Forall_forall in H. split; [done|]. intros id p Hp.
  apply elem_of_map_to_list in Hp. apply H in Hp. by apply negb_true_iff in Hp.
Qed.

(** ** Runs *)

Inductive variant_run : VariantGroupSnapshot -> list DomainEvent -> VariantGroupSnapshot -> Prop :=
| vrun_nil s : variant_run s [] s
| vrun_cons s e s1 es s2 :
    ApplyVariantEvent s e = (s1, true) -> variant_run s1 es s2 -> variant_run s (e :: es) s2.

(** Any two candidates differ in actor, execution, context, workspace and artifact. *)
Definition independent_candidates (m : VariantCandidates) : Prop :=
  forall id1 id2 c1 c2, m !! id1 = Some c1 -> m !! id2 = Some c2 -> id1 <> id2 ->
  shares_identity c1 c2 = false.

(** A comparison covers exactly the candidates, a quorum of them, and comes from
    the appointed comparator. *)
Definition comparison_sound (s : VariantGroupSnapshot) (c : VariantComparison) : Prop :=
  cmp_Comparator c = vg_Comparator s /\ vg_ValidCandidateQuorum s <= candidate_count s /\
  forall id, id ∈ cmp_CandidateIDs c <-> is_Some (vg_Candidates s !! id).

(** A selection comes from the adjudicator and answers the comparison; after a
    material disagreement it only escalates; a selected candidate was compared and
    was not written by the comparator. *)
Definition selection_sound (s : VariantGroupSnapshot) (c : VariantComparison) (sel : VariantSelection)
    : Prop :=
  vs_Adjudicator sel = vg_Adjudicator s /\ vs_ComparisonEventID sel = cmp_EventID c /\
  (cmp_Classification c = VariantMaterialDisagreement -> vs_Outcome sel = VariantEscalate) /\
  (vs_Outcome sel = VariantSelectCandidate -> exists id cand,
     vs_SelectedCandidateID sel = Some id /\ vg_Candidates s !! id = Some cand /\
     id ∈ cmp_CandidateIDs c /\
     ~ (pr_Kind (vg_Comparator s) = PrincipalActor /\ pr_ID (vg_Comparator s) = vc_ActorFQN cand)).

Record variant_inv (s : VariantGroupSnapshot) : Prop := {
  vi_keys : forall id c, vg_Candidates s !! id = Some c ->
    vc_CandidateID c = id /\ VariantCandidate_Valid c = true;
  vi_independent : independent_candidates (vg_Candidates s);
  vi_comparison : forall c, vg_Comparison s = Some c -> comparison_sound s c;
  vi_open : vg_State s = VariantOpen -> vg_Comparison s = None /\ vg_Selection s = None;
  vi_unselected : vg_State s = VariantCompared -> vg_Selection s = None;
  vi_selection : forall sel, vg_Selection s = Some sel ->
    exists c, vg_Comparison s = Some c /\ selection_sound s c sel
}.

Lemma submit_inv s e n : variant_inv s -> submit_candidate s e = Some n -> variant_inv n.
Proof.
  intros [Hk Hi Hc Ho Hu Hs] H. unfold submit_candidate in H.
  destruct (variantCandidateFromPayload _ _) as [c|] eqn:Ec; [|discriminate].
  destruct (_ || _) eqn:G in H; [discriminate|]. injection H as <-. bprop G. split_ands.
  match goal with K : variantCandidateIndependent _ _ = true |- _ =>
    apply variantCandidateIndependent_spec in K as [Hnew Hind] end.
  destruct Ho as [Hcn Hsn]; [done|].
  assert (VariantCandidate_Valid c = true) as Hv.
  { unfold variantCandidateFromPayload in Ec. accepted Ec. apply negb_false_iff in G. by subst c. }
  constructor; cbn.
  - intros id c' [[<- <-]|[_ Hl]]%lookup_insert_Some; [done | by apply Hk].
  - intros i1 i2 c1 c2 [[<- <-]|[_ L1]]%lookup_insert_Some [[<- <-]|[_ L2]]%lookup_insert_Some Hne;
      [done | | by eapply Hind | by eapply Hi].
    rewrite shares_identity_sym. by eapply Hind.
  - intros c'. by rewrite Hcn.
  - done.
  - intros E. congruence.
  - intros sel. by rewrite Hsn.
Qed.

Lemma comparison_inv s e n : variant_inv s -> record_comparison s e = Some n -> variant_inv n.
Proof.
  intros [Hk Hi Hc Ho Hu Hs] H. unfold record_comparison in H.
  destruct (variantComparisonFromPayload _ _) as [c|] eqn:Ec; [|discriminate].
  destruct (_ || _) eqn:G in H; [discriminate|]. injection H as <-. bprop G. split_ands.
  destruct Ho as [Hcn Hsn]; [done|].
  assert (NoDup (cmp_CandidateIDs c)) as Hn.
  { unfold variantComparisonFromPayload in Ec. accepted Ec. apply negb_false_iff in G.
    subst c. unfold VariantComparison_Valid in G. bprop G. split_ands.
    match goal with K : validUniqueUUIDs (cmp_CandidateIDs _) _ _ = true |- _ =>
      unfold validUniqueUUIDs in K; unwhen K; by apply check_unique_nil in K as [_ ?] end. }
  constructor; cbn; try done.
  - intros c' [= <-]. split_and!; [done|done|]. by apply exactCandidateSet_spec.
  - intros sel. by rewrite Hsn.
Qed.

Lemma selection_inv s e n : variant_inv s -> record_selection s e = Some n -> variant_inv n.
Proof.
  intros [Hk Hi Hc Ho Hu Hs] H. unfold record_selection in H.
  destruct (variantSelectionFromPayload _ _) as [sel|] eqn:Esel; [|discriminate].
  destruct (_ != VariantCompared) in H; [discriminate|].
  destruct (vg_Comparison s) as [c|] eqn:Ec; [|discriminate].
  destruct (_ || _) eqn:G in H; [discriminate|]. bprop G. split_ands.
  unwhen H. injection H as <-. destruct (Hc c eq_refl) as (_ & _ & Hset).
  constructor; cbn; rewrite ?Ec; try done.
  intros sel' [= <-]. exists c. split; [done|]. split_and!; [done|done| |].
  - intros Hm. rewrite (bool_decide_eq_true_2 _ Hm) in E. cbn [andb] in E. by bprop E.
  - intros Hsel. rewrite (bool_decide_eq_true_2 _ Hsel) in E0. cbn [andb] in E0. apply negb_false_iff in E0.
    unfold selectable in E0. destruct (vs_SelectedCandidateID sel) as [id|]; [|discriminate].
    cbn in E0. destruct (vg_Candidates s !! id) as [cand|] eqn:El; [|discriminate].
    exists id, cand. split_and!; [done|done| by apply Hset |].
    bprop E0. destruct E0 as [_ E0]. intros [K1 K2].
    rewrite (bool_decide_eq_true_2 _ K1), (bool_decide_eq_true_2 _ K2) in E0. done.
Qed.

Lemma variant_inv_revision s z : variant_inv s -> variant_inv (s <| vg_Revision := z |>).
Proof. intros []. by constructor. Qed.

Ltac state_clash :=
  match goal with
  | H : vg_State ?s = ?a, K : vg_State ?s = ?b |- _ => rewrite H in K; discriminate K
  end.

Lemma variant_step_inv s e s' :
  variant_inv s -> ApplyVariantEvent s e = (s', true) ->
  variant_inv s' /\ VariantGroupSnapshot_Valid s' = true /\ vg_State s <> VariantTerminal.
Proof.
  intros Hi H. unfold ApplyVariantEvent in H. destruct (_ || _) in H; [discriminate|].
  destruct (variant_case s e) as [n|] eqn:En; [|discriminate]. injection H as <- Hv.
  assert (variant_inv n /\ vg_State s <> VariantTerminal) as [Hn Ht].
  { unfold variant_case in En. repeat case_bool_decide; [| | |discriminate].
    - split; [by eapply submit_inv|]. unfold submit_candidate in En. accepted En. bprop G. split_ands.
      intros E. state_clash.
    - split; [by eapply comparison_inv|]. unfold record_comparison in En. accepted En. bprop G. split_ands.
      intros E. state_clash.
    - split; [by eapply selection_inv|]. unfold record_selection in En. accepted En. bprop G.
      intros E. state_clash. }
  split_and!; [by apply variant_inv_revision|done|done].
Qed.

Lemma variant_run_inv s es s' :
  variant_run s es s' -> variant_inv s -> VariantGroupSnapshot_Valid s = true ->
  variant_inv s' /\ VariantGroupSnapshot_Valid s' = true.
Proof.
  induction 1 as [s|s e s1 es s2 Ha Hr IH]; intros Hi Hv; [done|].
  apply variant_step_inv in Ha as (? & ? & _); auto.
Qed.

Lemma opened_inv payload id s :
  VariantGroupFromOpenPayload payload id = Some s ->
  variant_inv s /\ VariantGroupSnapshot_Valid s = true.
Proof.
  unfold VariantGroupFromOpenPayload. intros H. accepted H. bprop G. destruct G as [_ G].
  subst s. split; [|done]. constructor; cbn; try done.
Qed.

(** [C33] Adjudication of variants is sound: along any sequence of accepted events
    from the opening of a group, no two candidates share an actor, an execution, a
    context, a workspace or an artifact, and there are never more of them than the
    group allows; a recorded comparison comes from the appointed comparator and
    covers exactly the submitted candidates, at least a quorum; and once the group
    is terminal its selection answers that comparison, comes from the appointed
    adjudicator, only escalates after a material disagreement, and a candidate it
    selects was compared and not written by the comparator. *)
Theorem variant_selection_sound payload id s0 es s :
  VariantGroupFromOpenPayload payload id = Some s0 -> variant_run s0 es s ->
  independent_candidates (vg_Candidates s) /\ candidate_count s <= candidate_limit s /\
  (forall c, vg_Comparison s = Some c -> comparison_sound s c) /\
  (vg_State s = VariantTerminal -> exists c sel,
     vg_Comparison s = Some c /\ vg_Selection s = Some sel /\ selection_sound s c sel).
Proof.
  intros Ho Hr. apply opened_inv in Ho as [Hi0 Hv0].
  destruct (variant_run_inv s0 es s Hr Hi0 Hv0) as [Hi Hv].
  unfold VariantGroupSnapshot_Valid in Hv. destruct (_ || _) eqn:G in Hv; [discriminate|].
  bprop G. destruct G as [_ G].
  split_and!; [apply Hi | done | apply Hi |]. intros Ht. rewrite Ht in Hv.
  eval_tests_in Hv. cbn [orb andb] in Hv. apply andb_true_iff in Hv as [_ Hs].
  apply negb_true_iff, is_nil_false in Hs as [sel Hs].
  destruct (vi_selection s Hi sel Hs) as (c & Hc & Hsound). by exists c, sel.
Qed.

(** ** A concrete group *)

Definition group_payload : string :=
  jdoc [("variant_group_id", qs (uid "1")); ("task_id", qs (uid "2"));
        ("work_profile", jobj [("profile_id", qs (uid "3")); ("profile_revision", "1");
           ("profile_digest", qs (dig "a")); ("lifecycle_epoch", "1"); ("scope_revision", "1")]);
        ("base_artifact_digest", qs (dig "b")); ("input_evidence_set_digest", qs (dig "b"));
        ("toolchain_digest", qs (dig "b")); ("dependency_lock_digest", qs (dig "b"));
        ("acceptance_manifest_digest", qs (dig "b")); ("candidate_count", "2");
        ("valid_candidate_quorum", "2");
        ("required_independence_dimensions",
         jarr (map qs [IndependenceActor; IndependenceExecution; IndependenceContext; IndependenceWorkspace]));
        ("comparison_method_id", qs "diff"); ("comparison_policy_digest", qs (dig "b"));
        ("materiality_policy_digest", qs (dig "b"));
        ("comparator", jobj [("kind", qs PrincipalPolicy); ("id", qs "compare")]);
        ("adjudicator", jobj [("kind", qs PrincipalHuman); ("id", qs "ada")]);
        ("submission_deadline_at", qs "2026-02-01T00:00:00Z");
        ("decision_deadline_at", qs "2026-03-01T00:00:00Z"); ("replacement_budget", "0");
        ("evidence_ids", jarr [qs (uid "4")])].

Definition group_event (type : string) (revision : Z) (id : ascii) (fields : list (string * string))
    : DomainEvent :=
  mkEvent "" (uid id) type "" (mkRef AggregateVariantGroup (uid "1")) (revision + 1) 1 ""
    zero_principal None None [] sample_time (jdoc (("evidence_ids", jarr [qs (uid "4")]) :: fields)) "".

Definition candidate_event (revision : Z) (id candidate : ascii) (actor : ActorFQN) (d : ascii)
    : DomainEvent :=
  group_event "tekroo.event.variant-group.candidate-submitted" revision id
    [("candidate_id", qs (uid candidate)); ("actor_fqn", qs actor); ("execution_id", qs (uid candidate));
     ("fencing_epoch", "1"); ("model_profile_digest", qs (dig d)); ("runtime_identity_digest", qs (dig d));
     ("context_digest", qs (dig d)); ("workspace_digest", qs (dig d)); ("artifact_digest", qs (dig d));
     ("changed_file_inventory_digest", qs (dig d)); ("deterministic_gate_receipt_ids", jarr [qs (uid "5")])].

Definition group_events : list DomainEvent :=
  [candidate_event 1 "6" "a" actor_a "c"; candidate_event 2 "7" "b" actor_b "d";
   group_event "tekroo.event.variant-group.comparison-recorded" 3 "8"
     [("comparator", jobj [("kind", qs PrincipalPolicy); ("id", qs "compare")]);
      ("comparator_execution_id", qs (uid "9")); ("candidate_ids", jarr [qs (uid "b"); qs (uid "a")]);
      ("classification", qs VariantNonMaterialVariation); ("comparison_method_id", qs "diff");
      ("comparison_receipt_digest", qs (dig "e")); ("reasons", jarr [qs "small"])];
   group_event "tekroo.event.variant-group.selected" 4 "9"
     [("comparison_event_id", qs (uid "8"));
      ("adjudicator", jobj [("kind", qs PrincipalHuman); ("id", qs "ada")]);
      ("outcome", qs VariantSelectCandidate); ("selected_candidate_id", qs (uid "b"));
      ("reasons", jarr [qs "simpler"])]].

Fixpoint variant_replay (s : VariantGroupSnapshot) (es : list DomainEvent) : option VariantGroupSnapshot :=
  match es with
  | [] => Some s
  | e :: es => let '(s1, ok) := ApplyVariantEvent s e in if ok then variant_replay s1 es else None
  end.

Lemma variant_replay_run s es s' : variant_replay s es = Some s' -> variant_run s es s'.
Proof.
  revert s. induction es as [|e es IH]; intros s H; cbn in H.
  - injection H as <-. constructor.
  - destruct (ApplyVariantEvent s e) as [s1 []] eqn:E; [|discriminate].
    eapply vrun_cons; [exact E | by apply IH].
Qed.

Definition open_group : VariantGroupSnapshot :=
  Eval vm_compute in default zero_VariantGroupSnapshot (VariantGroupFromOpenPayload group_payload (uid "0")).
Definition decided_group : VariantGroupSnapshot :=
  Eval vm_compute in default open_group (variant_replay open_group group_events).

Lemma variant_selection_sound_witness :
  vg_State decided_group = VariantTerminal /\ independent_candidates (vg_Candidates decided_group).
Proof.
  split; [reflexivity|].
  apply (variant_selection_sound group_payload (uid "0") open_group group_events decided_group).
  - vm_compute. reflexivity.
  - apply variant_replay_run. vm_compute. reflexivity.
Defined.
