(* ===== verification/Escalation.v ===== *)
(** * Escalations ([kernel/escalation.go], [kernel/escalation_planning.go])

    An unresolved question about a story or a task is put to one adjudicator,
    with a deadline after which only the timeout policy may close it.
    [EvaluateEscalation] adjudicates a transition, [ApplyEscalationResolution]
    applies a recorded resolution, and the planners prepare an opening and a
    resolution. An error is [None] where the code only tests it against [nil]. *)

From S2P Require Import Prelude GoText GoTime GoJson GoMarshal Types Samples Payload Envelope.
From S2P Require Import State GoJsonLaws GoMarshalLaws Fingerprint.

Definition EscalationState := string.
Definition EscalationOpen : EscalationState := "OPEN".
Definition EscalationTerminal : EscalationState := "TERMINAL".

Definition EscalationAction := string.
Definition EscalationActionOpen : EscalationAction := "OPEN".
Definition EscalationActionResolve : EscalationAction := "RESOLVE".
Definition EscalationActionReroute : EscalationAction := "REROUTE".

Definition EscalationSourceRole := string.
Definition EscalationSourceAdjudicator : EscalationSourceRole := "ADJUDICATOR".
Definition EscalationSourcePolicyTimeout : EscalationSourceRole := "POLICY_TIMEOUT".

Definition EscalationTrigger := string.
Definition EscalationRetryExhausted : EscalationTrigger := "RETRY_EXHAUSTED".
Definition EscalationValidationConflict : EscalationTrigger := "VALIDATION_CONFLICT".
Definition EscalationValidationInconclusive : EscalationTrigger := "VALIDATION_INCONCLUSIVE".
Definition EscalationValidationBudgetExhausted : EscalationTrigger := "VALIDATION_BUDGET_EXHAUSTED".
Definition EscalationValidationDeadlineExpired : EscalationTrigger := "VALIDATION_DEADLINE_EXPIRED".
Definition EscalationHandoffCycleDetected : EscalationTrigger := "HANDOFF_CYCLE_DETECTED".
Definition EscalationHandoffBudgetExhausted : EscalationTrigger := "HANDOFF_BUDGET_EXHAUSTED".
Definition EscalationRequirementContradiction : EscalationTrigger := "REQUIREMENT_CONTRADICTION".
Definition EscalationArchitectureAmbiguity : EscalationTrigger := "ARCHITECTURE_AMBIGUITY".
Definition EscalationMaterialVariantDisagreement : EscalationTrigger := "MATERIAL_VARIANT_DISAGREEMENT".
Definition EscalationCapabilityMismatch : EscalationTrigger := "CAPABILITY_MISMATCH".
Definition EscalationRiskProfileBreach : EscalationTrigger := "RISK_PROFILE_BREACH".
Definition EscalationBlastRadiusExceeded : EscalationTrigger := "BLAST_RADIUS_EXCEEDED".
Definition EscalationSecurityClassificationElevated : EscalationTrigger := "SECURITY_CLASSIFICATION_ELEVATED".
Definition EscalationRootCauseUnresolved : EscalationTrigger := "ROOT_CAUSE_UNRESOLVED".
Definition EscalationRequiredToolUnavailable : EscalationTrigger := "REQUIRED_TOOL_UNAVAILABLE".
Definition EscalationNoveltyReclassified : EscalationTrigger := "NOVELTY_RECLASSIFIED".
Definition EscalationTrigger_Valid (t : EscalationTrigger) : bool :=
  contains [EscalationRetryExhausted; EscalationValidationConflict; EscalationValidationInconclusive;
    EscalationValidationBudgetExhausted; EscalationValidationDeadlineExpired;
    EscalationHandoffCycleDetected; EscalationHandoffBudgetExhausted;
    EscalationRequirementContradiction; EscalationArchitectureAmbiguity;
    EscalationMaterialVariantDisagreement; EscalationCapabilityMismatch; EscalationRiskProfileBreach;
    EscalationBlastRadiusExceeded; EscalationSecurityClassificationElevated;
    EscalationRootCauseUnresolved; EscalationRequiredToolUnavailable; EscalationNoveltyReclassified] t.

Definition EscalationOutcome := string.
Definition EscalationResolved : EscalationOutcome := "RESOLVED".
Definition EscalationRejected : EscalationOutcome := "REJECTED".
Definition EscalationSplit : EscalationOutcome := "SPLIT".
Definition EscalationBlocked : EscalationOutcome := "BLOCKED".
Definition EscalationHumanRequired : EscalationOutcome := "HUMAN_REQUIRED".
Definition EscalationOutcome_Valid (o : EscalationOutcome) : bool :=
  contains [EscalationResolved; EscalationRejected; EscalationSplit; EscalationBlocked;
    EscalationHumanRequired] o.

Record EscalationKey := mkEscalationKey {
  ek_Subject : AggregateRef;
  ek_LifecycleEpoch : Z;
  ek_Trigger : EscalationTrigger;
  ek_ConditionDigest : Digest
}.

#[export] Instance eta_EscalationKey : Eta EscalationKey := fun r =>
  mkEscalationKey
    (ek_Subject r) (ek_LifecycleEpoch r) (ek_Trigger r) (ek_ConditionDigest r).

#[global] Instance EscalationKey_eq_dec : EqDecision EscalationKey.
Proof. solve_decision. Defined.

Definition EscalationKey_Valid (k : EscalationKey) : bool :=
  ((ref_Kind (ek_Subject k) == AggregateStory) || (ref_Kind (ek_Subject k) == AggregateTask))
  && AggregateRef_Valid (ek_Subject k) && (0 <? ek_LifecycleEpoch k)
  && EscalationTrigger_Valid (ek_Trigger k) && Digest_Valid (ek_ConditionDigest k).

Record EscalationSnapshot := mkEscalationSnapshot {
  es_EscalationID : UUIDv7;
  es_OpeningEventID : UUIDv7;
  es_Revision : Z;
  es_State : EscalationState;
  es_Subject : AggregateRef;
  es_SubjectLifecycleEpoch : Z;
  es_ExpectedSubjectRevision : Z;
  es_Trigger : EscalationTrigger;
  es_ConditionDigest : Digest;
  es_Adjudicator : PrincipalRef;
  es_TimeoutPolicy : PrincipalRef;
  es_ResolutionOwnerFQN : ActorFQN;
  es_DeadlineAt : Time;
  es_ResolutionRoundLimit : Z;
  es_RouteLimit : Z;
  es_PolicyRevision : Z;
  es_CausalPathEventIDs : list UUIDv7;
  es_UnresolvedQuestion : string;
  es_EvidenceIDs : list UUIDv7;
  es_TerminalOutcome : EscalationOutcome;
  es_ResolutionEventID : UUIDv7
}.

#[export] Instance eta_EscalationSnapshot : Eta EscalationSnapshot := fun r =>
  mkEscalationSnapshot
    (es_EscalationID r) (es_OpeningEventID r) (es_Revision r) (es_State r) (es_Subject r)
    (es_SubjectLifecycleEpoch r) (es_ExpectedSubjectRevision r) (es_Trigger r)
    (es_ConditionDigest r) (es_Adjudicator r) (es_TimeoutPolicy r)
    (es_ResolutionOwnerFQN r) (es_DeadlineAt r) (es_ResolutionRoundLimit r)
    (es_RouteLimit r) (es_PolicyRevision r) (es_CausalPathEventIDs r)
    (es_UnresolvedQuestion r) (es_EvidenceIDs r) (es_TerminalOutcome r)
    (es_ResolutionEventID r).

Definition zero_EscalationSnapshot : EscalationSnapshot :=
  mkEscalationSnapshot
    "" "" 0 "" zero_ref 0 0 "" "" zero_principal zero_principal "" zero_time 0 0 0 [] "" []
    "" "".

Definition Escalation_Key (s : EscalationSnapshot) : EscalationKey :=
  mkEscalationKey (es_Subject s) (es_SubjectLifecycleEpoch s) (es_Trigger s) (es_ConditionDigest s).

Definition EscalationSnapshot_Valid (s : EscalationSnapshot) : bool :=
  when negb (UUIDv7_Valid (es_EscalationID s))
       || (es_OpeningEventID s != "") && negb (UUIDv7_Valid (es_OpeningEventID s))
       || (es_Revision s == 0) || negb (EscalationKey_Valid (Escalation_Key s))
       || (es_ExpectedSubjectRevision s == 0) || negb (PrincipalRef_Valid (es_Adjudicator s))
       || (pr_Kind (es_TimeoutPolicy s) != PrincipalPolicy)
       || negb (PrincipalRef_Valid (es_TimeoutPolicy s))
       || negb (ActorFQN_Valid (es_ResolutionOwnerFQN s)) || IsZero (es_DeadlineAt s)
       || (es_ResolutionRoundLimit s == 0) || (1000 <? es_ResolutionRoundLimit s)
       || (es_RouteLimit s != 1) || (es_PolicyRevision s == 0)
       || (llen (es_CausalPathEventIDs s) == 0) || (64 <? llen (es_CausalPathEventIDs s))
       || (slen (es_UnresolvedQuestion s) == 0) || (4096 <? slen (es_UnresolvedQuestion s))
       || (llen (es_EvidenceIDs s) == 0) || (64 <? llen (es_EvidenceIDs s))
    return false ;;
  when negb (uniqueValidUUIDs (es_CausalPathEventIDs s)) || negb (uniqueValidUUIDs (es_EvidenceIDs s))
    return false ;;
  if es_State s == EscalationOpen
  then (es_TerminalOutcome s == "") && (es_ResolutionEventID s == "")
  else if es_State s == EscalationTerminal
  then EscalationOutcome_Valid (es_TerminalOutcome s) && UUIDv7_Valid (es_ResolutionEventID s)
  else false.

Record EscalationTransition := mkEscalationTransition {
  et_Action : EscalationAction;
  et_EscalationID : UUIDv7;
  et_Subject : AggregateRef;
  et_Authority : PrincipalRef;
  et_SourceRole : EscalationSourceRole;
  et_SubjectLifecycleEpoch : Z;
  et_ExpectedRevision : Z;
  et_DecidedAt : Time;
  et_Round : Z;
  et_Outcome : EscalationOutcome;
  et_Reasons : list string;
  et_EvidenceIDs : list UUIDv7
}.

#[export] Instance eta_EscalationTransition : Eta EscalationTransition := fun r =>
  mkEscalationTransition
    (et_Action r) (et_EscalationID r) (et_Subject r) (et_Authority r) (et_SourceRole r)
    (et_SubjectLifecycleEpoch r) (et_ExpectedRevision r) (et_DecidedAt r) (et_Round r)
    (et_Outcome r) (et_Reasons r) (et_EvidenceIDs r).

Definition zero_EscalationTransition : EscalationTransition :=
  mkEscalationTransition
    "" "" zero_ref zero_principal "" 0 0 zero_time 0 "" [] [].

Record EscalationDecision := mkEscalationDecision {
  ed_Accepted : bool;
  ed_Reason : string;
  ed_State : EscalationState
}.

#[export] Instance eta_EscalationDecision : Eta EscalationDecision := fun r =>
  mkEscalationDecision
    (ed_Accepted r) (ed_Reason r) (ed_State r).

Definition EvaluateEscalation (s : EscalationSnapshot) (t : EscalationTransition)
    : EscalationDecision :=
  let reject reason := mkEscalationDecision false reason (es_State s) in
  let accept := mkEscalationDecision true "ACCEPTED" EscalationTerminal in
  when es_State s == EscalationTerminal return reject "ESCALATION_TERMINAL" ;;
  when et_Action t == EscalationActionOpen return reject "ESCALATION_ALREADY_OPEN" ;;
  when et_Action t == EscalationActionReroute return reject "REROUTE_PROHIBITED" ;;
  when et_Action t != EscalationActionResolve return reject "INVALID_ACTION" ;;
  when et_SubjectLifecycleEpoch t != es_SubjectLifecycleEpoch s
    return reject "LIFECYCLE_EPOCH_MISMATCH" ;;
  when negb (EscalationOutcome_Valid (et_Outcome t)) return reject "INVALID_TERMINAL_OUTCOME" ;;
  if et_SourceRole t == EscalationSourceAdjudicator then
    when et_Authority t != es_Adjudicator s return reject "ADJUDICATOR_MISMATCH" ;;
    when (et_Round t == 0) || (es_ResolutionRoundLimit s <? et_Round t)
      return reject "RESOLUTION_BUDGET_EXHAUSTED" ;;
    when After (et_DecidedAt t) (es_DeadlineAt s) return reject "ADJUDICATOR_DEADLINE_EXCEEDED" ;;
    accept
  else if et_SourceRole t == EscalationSourcePolicyTimeout then
    when et_Authority t != es_TimeoutPolicy s return reject "TIMEOUT_POLICY_MISMATCH" ;;
    when negb (After (et_DecidedAt t) (es_DeadlineAt s)) return reject "DEADLINE_NOT_REACHED" ;;
    when (et_Outcome t != EscalationBlocked) && (et_Outcome t != EscalationHumanRequired)
      return reject "INVALID_TIMEOUT_OUTCOME" ;;
    accept
  else reject "INVALID_SOURCE_ROLE".

Record escalationOpenPayload := mkescalationOpenPayload {
  eo_EscalationID : UUIDv7;
  eo_SubjectKind : string;
  eo_SubjectID : UUIDv7;
  eo_SubjectLifecycleEpoch : Z;
  eo_ExpectedSubjectRevision : Z;
  eo_Trigger : EscalationTrigger;
  eo_ConditionDigest : Digest;
  eo_Adjudicator : PrincipalRef;
  eo_TimeoutPolicy : PrincipalRef;
  eo_ResolutionOwnerFQN : ActorFQN;
  eo_DeadlineAt : Time;
  eo_ResolutionRoundLimit : Z;
  eo_RouteLimit : Z;
  eo_PolicyRevision : Z;
  eo_CausalPathEventIDs : list UUIDv7;
  eo_UnresolvedQuestion : string;
  eo_EvidenceIDs : list UUIDv7
}.

#[export] Instance eta_escalationOpenPayload : Eta escalationOpenPayload := fun r =>
  mkescalationOpenPayload
    (eo_EscalationID r) (eo_SubjectKind r) (eo_SubjectID r) (eo_SubjectLifecycleEpoch r)
    (eo_ExpectedSubjectRevision r) (eo_Trigger r) (eo_ConditionDigest r) (eo_Adjudicator r)
    (eo_TimeoutPolicy r) (eo_ResolutionOwnerFQN r) (eo_DeadlineAt r)
    (eo_ResolutionRoundLimit r) (eo_RouteLimit r) (eo_PolicyRevision r)
    (eo_CausalPathEventIDs r) (eo_UnresolvedQuestion r) (eo_EvidenceIDs r).

Definition zero_escalationOpenPayload : escalationOpenPayload :=
  mkescalationOpenPayload
    "" "" "" 0 0 "" "" zero_principal zero_principal "" zero_time 0 0 0 [] "" [].

Definition fields_escalationOpenPayload : list (field escalationOpenPayload) :=
  [
    fld "escalation_id" eo_EscalationID dec_string;
    fld "subject_kind" eo_SubjectKind dec_string;
    fld "subject_id" eo_SubjectID dec_string;
    fld "subject_lifecycle_epoch" eo_SubjectLifecycleEpoch dec_u64;
    fld "expected_subject_revision" eo_ExpectedSubjectRevision dec_u64;
    fld "trigger" eo_Trigger dec_string;
    fld "triggering_condition_digest" eo_ConditionDigest dec_string;
    fld "adjudicator" eo_Adjudicator dec_PrincipalRef;
    fld "timeout_policy" eo_TimeoutPolicy dec_PrincipalRef;
    fld "resolution_owner_fqn" eo_ResolutionOwnerFQN dec_string;
    fld "deadline_at" eo_DeadlineAt dec_time;
    fld "resolution_round_limit" eo_ResolutionRoundLimit dec_u64;
    fld "route_limit" eo_RouteLimit dec_u64;
    fld "escalation_policy_revision" eo_PolicyRevision dec_u64;
    fld "causal_path_event_ids" eo_CausalPathEventIDs (dec_slice "" dec_string);
    fld "unresolved_question" eo_UnresolvedQuestion dec_string;
    fld "evidence_ids" eo_EvidenceIDs (dec_slice "" dec_string)
  ].

Definition EscalationFromOpenPayload (payload : string) : option EscalationSnapshot :=
  try v <- Unmarshal fields_escalationOpenPayload zero_escalationOpenPayload payload ;;
  let snapshot :=
    mkEscalationSnapshot (eo_EscalationID v) "" 1 EscalationOpen
      (mkRef (eo_SubjectKind v) (eo_SubjectID v)) (eo_SubjectLifecycleEpoch v)
      (eo_ExpectedSubjectRevision v) (eo_Trigger v) (eo_ConditionDigest v) (eo_Adjudicator v)
      (eo_TimeoutPolicy v) (eo_ResolutionOwnerFQN v) (eo_DeadlineAt v) (eo_ResolutionRoundLimit v)
      (eo_RouteLimit v) (eo_PolicyRevision v) (eo_CausalPathEventIDs v) (eo_UnresolvedQuestion v)
      (eo_EvidenceIDs v) "" "" in
  when negb (EscalationSnapshot_Valid snapshot) return None ;;
  Some snapshot.

Record escalationResolvePayload := mkescalationResolvePayload {
  er_EscalationID : UUIDv7;
  er_SubjectKind : string;
  er_SubjectID : UUIDv7;
  er_SubjectLifecycleEpoch : Z;
  er_ExpectedRevision : Z;
  er_SourceRole : EscalationSourceRole;
  er_Round : Z;
  er_Outcome : EscalationOutcome;
  er_Reasons : list string;
  er_EvidenceIDs : list UUIDv7;
  er_DecidedAt : Time
}.

#[export] Instance eta_escalationResolvePayload : Eta escalationResolvePayload := fun r =>
  mkescalationResolvePayload
    (er_EscalationID r) (er_SubjectKind r) (er_SubjectID r) (er_SubjectLifecycleEpoch r)
    (er_ExpectedRevision r) (er_SourceRole r) (er_Round r) (er_Outcome r) (er_Reasons r)
    (er_EvidenceIDs r) (er_DecidedAt r).

Definition zero_escalationResolvePayload : escalationResolvePayload :=
  mkescalationResolvePayload
    "" "" "" 0 0 "" 0 "" [] [] zero_time.

Definition fields_escalationResolvePayload : list (field escalationResolvePayload) :=
  [
    fld "escalation_id" er_EscalationID dec_string;
    fld "subject_kind" er_SubjectKind dec_string;
    fld "subject_id" er_SubjectID dec_string;
    fld "subject_lifecycle_epoch" er_SubjectLifecycleEpoch dec_u64;
    fld "expected_escalation_revision" er_ExpectedRevision dec_u64;
    fld "source_role" er_SourceRole dec_string;
    fld "round" er_Round dec_u64;
    fld "outcome" er_Outcome dec_string;
    fld "reasons" er_Reasons (dec_slice "" dec_string);
    fld "evidence_ids" er_EvidenceIDs (dec_slice "" dec_string);
    fld "decided_at" er_DecidedAt dec_time
  ].

Definition EscalationTransitionFromResolvePayload (payload : string) : option EscalationTransition :=
  try v <- Unmarshal fields_escalationResolvePayload zero_escalationResolvePayload payload ;;
  let t :=
    mkEscalationTransition EscalationActionResolve (er_EscalationID v)
      (mkRef (er_SubjectKind v) (er_SubjectID v)) zero_principal (er_SourceRole v)
      (er_SubjectLifecycleEpoch v) (er_ExpectedRevision v) (er_DecidedAt v) (er_Round v)
      (er_Outcome v) (er_Reasons v) (er_EvidenceIDs v) in
  when negb (UUIDv7_Valid (et_EscalationID t)) || negb (AggregateRef_Valid (et_Subject t))
       || (ref_Kind (et_Subject t) != AggregateStory) && (ref_Kind (et_Subject t) != AggregateTask)
       || (et_SubjectLifecycleEpoch t == 0) || (et_ExpectedRevision t == 0)
       || (et_SourceRole t != EscalationSourceAdjudicator)
          && (et_SourceRole t != EscalationSourcePolicyTimeout)
       || (et_Round t == 0) || (1000 <? et_Round t) || negb (EscalationOutcome_Valid (et_Outcome t))
       || (llen (et_Reasons t) == 0) || (64 <? llen (et_Reasons t))
       || negb (uniqueNonemptyStrings (et_Reasons t)) || (llen (et_EvidenceIDs t) == 0)
       || (64 <? llen (et_EvidenceIDs t)) || negb (uniqueValidUUIDs (et_EvidenceIDs t))
       || IsZero (et_DecidedAt t)
    return None ;;
  Some t.

Definition ApplyEscalationResolution (s : EscalationSnapshot) (authority : PrincipalRef)
    (eventID : UUIDv7) (committedAt : Time) (payload : string) : EscalationSnapshot * bool :=
  let fail := (zero_EscalationSnapshot, false) in
  match EscalationTransitionFromResolvePayload payload with
  | None => fail
  | Some t =>
    when negb (EscalationSnapshot_Valid s) || (es_State s != EscalationOpen)
         || (et_EscalationID t != es_EscalationID s) || (et_Subject t != es_Subject s)
         || (et_SubjectLifecycleEpoch t != es_SubjectLifecycleEpoch s)
         || (et_ExpectedRevision t != es_Revision s) || negb (UUIDv7_Valid eventID)
         || IsZero committedAt
      return fail ;;
    let t := t <| et_Authority := authority |> <| et_DecidedAt := committedAt |> in
    when negb (ed_Accepted (EvaluateEscalation s t)) return fail ;;
    let next := s <| es_Revision := u64 (es_Revision s + 1) |> <| es_State := EscalationTerminal |>
                  <| es_TerminalOutcome := et_Outcome t |> <| es_ResolutionEventID := eventID |> in
    (next, EscalationSnapshot_Valid next)
  end.

(** ** Planning *)

Inductive EscalationPlanStatus := EscalationPlanReady | EscalationPlanNoEffect.

Record EscalationOpeningInput := mkOpeningInput {
  oi_EscalationID : UUIDv7;
  oi_Subject : AggregateState;
  oi_Trigger : EscalationTrigger;
  oi_ConditionDigest : Digest;
  oi_Adjudicator : PrincipalRef;
  oi_TimeoutPolicy : PrincipalRef;
  oi_ResolutionOwnerFQN : ActorFQN;
  oi_OpenedAt : Time;
  oi_DeadlineAt : Time;
  oi_ResolutionRoundLimit : Z;
  oi_PolicyRevision : Z;
  oi_CausalPathEventIDs : list UUIDv7;
  oi_UnresolvedQuestion : string;
  oi_EvidenceRefs : list EvidenceRef;
  oi_EquivalentEscalationRef : option AggregateRef
}.

Record EscalationOpeningDecision := mkOpeningDecision {
  od_Status : EscalationPlanStatus;
  od_Reason : string;
  od_Escalation : EscalationSnapshot;
  od_EvidenceRefs : list EvidenceRef
}.

(** The order of [sort.Slice]; equal identifiers are refused afterwards. *)
Definition evidence_le (a b : EvidenceRef) : Prop := str_le (er_EvidenceID a) (er_EvidenceID b).
#[global] Instance evidence_le_dec : RelDecision evidence_le.
Proof. intros a b. unfold evidence_le. apply _. Defined.

Definition canonicalEvidenceRefs (values : list EvidenceRef) : option (list EvidenceRef) :=
  when 64 <? llen values return None ;;
  let result := merge_sort evidence_le values in
  when existsb (fun v => negb (UUIDv7_Valid (er_EvidenceID v)) || negb (Digest_Valid (er_SHA256 v)))
         result
       || adjacent_key er_EvidenceID result
    return None ;;
  Some result.

Definition canonicalResolutionParents (openingEventID : UUIDv7) (values : list DagParent)
    : option (list DagParent) :=
  let parents := canonicalParents (values ++ [mkParent openingEventID EdgeResponse]) in
  when 64 <? llen parents return None ;;
  when existsb (fun p => negb (UUIDv7_Valid (dp_ParentEventID p)) || negb (EdgeKind_Valid (dp_EdgeKind p)))
         parents
       || adjacent_dup parents
    return None ;;
  Some parents.

Definition PlanEscalationOpening (input : EscalationOpeningInput) : EscalationOpeningDecision :=
  let noEffect reason := mkOpeningDecision EscalationPlanNoEffect reason zero_EscalationSnapshot [] in
  let subject := oi_Subject input in
  when negb (is_nil (oi_EquivalentEscalationRef input))
    return noEffect "EQUIVALENT_ESCALATION_EXISTS" ;;
  when negb (UUIDv7_Valid (oi_EscalationID input)) || negb (UUIDv7_Valid (as_ID subject))
       || (as_Kind subject != AggregateStory) && (as_Kind subject != AggregateTask)
       || (as_Revision subject == 0) || (as_LifecycleEpoch subject == 0)
       || terminalPhase (as_Phase subject) || negb (EscalationTrigger_Valid (oi_Trigger input))
       || negb (Digest_Valid (oi_ConditionDigest input))
       || negb (PrincipalRef_Valid (oi_Adjudicator input))
       || (pr_Kind (oi_TimeoutPolicy input) != PrincipalPolicy)
       || negb (PrincipalRef_Valid (oi_TimeoutPolicy input))
       || negb (ActorFQN_Valid (oi_ResolutionOwnerFQN input)) || IsZero (oi_OpenedAt input)
       || negb (After (oi_DeadlineAt input) (oi_OpenedAt input))
       || (oi_ResolutionRoundLimit input == 0) || (1000 <? oi_ResolutionRoundLimit input)
       || (oi_PolicyRevision input == 0) || (llen (oi_CausalPathEventIDs input) == 0)
       || (64 <? llen (oi_CausalPathEventIDs input))
       || negb (uniqueValidUUIDs (oi_CausalPathEventIDs input))
       || (oi_UnresolvedQuestion input == "") || (4096 <? slen (oi_UnresolvedQuestion input))
    return noEffect "INVALID_ESCALATION_OPENING" ;;
  match canonicalEvidenceRefs (oi_EvidenceRefs input) with
  | None | Some [] => noEffect "INVALID_ESCALATION_EVIDENCE"
  | Some evidence =>
    let escalation :=
      mkEscalationSnapshot (oi_EscalationID input) "" 1 EscalationOpen
        (mkRef (as_Kind subject) (as_ID subject)) (as_LifecycleEpoch subject) (as_Revision subject)
        (oi_Trigger input) (oi_ConditionDigest input) (oi_Adjudicator input) (oi_TimeoutPolicy input)
        (oi_ResolutionOwnerFQN input) (oi_DeadlineAt input) (oi_ResolutionRoundLimit input) 1
        (oi_PolicyRevision input) (oi_CausalPathEventIDs input) (oi_UnresolvedQuestion input)
        (map er_EvidenceID evidence) "" "" in
    when negb (EscalationSnapshot_Valid escalation) return noEffect "INVALID_ESCALATION_OPENING" ;;
    mkOpeningDecision EscalationPlanReady "READY" escalation evidence
  end.

Record EscalationResolutionInput := mkResolutionInput {
  ri_Escalation : EscalationSnapshot;
  ri_Subject : AggregateState;
  ri_Authority : PrincipalRef;
  ri_SourceRole : EscalationSourceRole;
  ri_Round : Z;
  ri_Outcome : EscalationOutcome;
  ri_Reasons : list string;
  ri_EvidenceRefs : list EvidenceRef;
  ri_DecidedAt : Time;
  ri_Parents : list DagParent
}.

(** The escalation and the subject of a decision without effect are zero values. *)
Record EscalationResolutionDecision := mkResolutionDecision {
  rd_Status : EscalationPlanStatus;
  rd_Reason : string;
  rd_Escalation : EscalationSnapshot;
  rd_Subject : option AggregateState;
  rd_Transition : EscalationTransition;
  rd_EvidenceRefs : list EvidenceRef;
  rd_Parents : list DagParent
}.

Definition PlanEscalationResolution (input : EscalationResolutionInput) : EscalationResolutionDecision :=
  let noEffect reason :=
    mkResolutionDecision EscalationPlanNoEffect reason zero_EscalationSnapshot None
      zero_EscalationTransition [] [] in
  let e := ri_Escalation input in
  let subject := ri_Subject input in
  when negb (EscalationSnapshot_Valid e) || (es_State e != EscalationOpen)
       || negb (UUIDv7_Valid (es_OpeningEventID e)) || (as_Kind subject != ref_Kind (es_Subject e))
       || (as_ID subject != ref_ID (es_Subject e)) || (as_Revision subject == 0)
       || (as_LifecycleEpoch subject != es_SubjectLifecycleEpoch e)
       || terminalPhase (as_Phase subject) || negb (PrincipalRef_Valid (ri_Authority input))
       || IsZero (ri_DecidedAt input) || negb (EscalationOutcome_Valid (ri_Outcome input))
       || (llen (ri_Reasons input) == 0) || (64 <? llen (ri_Reasons input))
       || negb (uniqueNonemptyStrings (ri_Reasons input))
    return noEffect "INVALID_ESCALATION_RESOLUTION" ;;
  match canonicalEvidenceRefs (ri_EvidenceRefs input) with
  | None | Some [] => noEffect "INVALID_ESCALATION_EVIDENCE"
  | Some evidence =>
    match canonicalResolutionParents (es_OpeningEventID e) (ri_Parents input) with
    | None => noEffect "INVALID_ESCALATION_CAUSATION"
    | Some parents =>
      let transition :=
        mkEscalationTransition EscalationActionResolve (es_EscalationID e) (es_Subject e)
          (ri_Authority input) (ri_SourceRole input) (as_LifecycleEpoch subject) (es_Revision e)
          (ri_DecidedAt input) (ri_Round input) (ri_Outcome input)
          (sort_strings (ri_Reasons input)) (map er_EvidenceID evidence) in
      let result := EvaluateEscalation e transition in
      when negb (ed_Accepted result) return noEffect (ed_Reason result) ;;
      mkResolutionDecision EscalationPlanReady "READY" e (Some subject) transition evidence parents
    end
  end.

(** ** Properties *)

(** Who may close an escalation, and how. *)
Definition may_resolve (s : EscalationSnapshot) (authority : PrincipalRef) (at_ : Time) (round : Z)
    (outcome : EscalationOutcome) : Prop :=
  (authority = es_Adjudicator s /\ After at_ (es_DeadlineAt s) = false /\
   round <> 0 /\ round <= es_ResolutionRoundLimit s) \/
  (authority = es_TimeoutPolicy s /\ After at_ (es_DeadlineAt s) = true /\
   (outcome = EscalationBlocked \/ outcome = EscalationHumanRequired)).

(** The reference reading of the evaluation. *)
Lemma EvaluateEscalation_accepted s t :
  ed_Accepted (EvaluateEscalation s t) = true <->
  es_State s <> EscalationTerminal /\ et_Action t = EscalationActionResolve /\
  et_SubjectLifecycleEpoch t = es_SubjectLifecycleEpoch s /\ EscalationOutcome_Valid (et_Outcome t) = true /\
  ((et_SourceRole t = EscalationSourceAdjudicator /\ et_Authority t = es_Adjudicator s /\
    After (et_DecidedAt t) (es_DeadlineAt s) = false /\
    et_Round t <> 0 /\ et_Round t <= es_ResolutionRoundLimit s) \/
   (et_SourceRole t = EscalationSourcePolicyTimeout /\ et_Authority t = es_TimeoutPolicy s /\
    After (et_DecidedAt t) (es_DeadlineAt s) = true /\
    (et_Outcome t = EscalationBlocked \/ et_Outcome t = EscalationHumanRequired))).
Proof.
  unfold EvaluateEscalation. cbv zeta. split.
  - intros H.
    repeat match type of H with
           | ed_Accepted (if ?c then _ else _) = _ => destruct c eqn:?; try discriminate H
           end; clear H;
      repeat match goal with H : _ = _ :> bool |- _ => progress bprop H end;
      (split_and!; [tauto..|]); [left|right]; split_and!; try tauto; try lia.
    destruct (decide (et_Outcome t = EscalationBlocked)); [by left|]. right.
    destruct (decide (et_Outcome t = EscalationHumanRequired)); [done|].
    match goal with H : _ && _ = false |- _ =>
      rewrite !bool_decide_eq_false_2 in H by done; discriminate H end.
  - intros (Hs & Ea & Ee & Ho & Hc). rewrite Ea, Ee, Ho.
    rewrite (bool_decide_eq_false_2 _ Hs), !bool_decide_refl. cbn [negb].
    eval_tests. destruct Hc as [(Er & Eu & Hd & H0 & Hl)|(Er & Eu & Hd & Hc)]; rewrite Er, Eu, Hd.
    + rewrite !bool_decide_refl, (bool_decide_eq_false_2 _ H0). cbn [negb orb].
      destruct (Z.ltb_spec (es_ResolutionRoundLimit s) (et_Round t)); [lia|]. done.
    + rewrite !bool_decide_refl. cbn [negb]. destruct Hc as [-> | ->]; done.
Qed.

Lemma ApplyEscalationResolution_accepted s authority eventID at_ payload next :
  ApplyEscalationResolution s authority eventID at_ payload = (next, true) ->
  exists t, EscalationTransitionFromResolvePayload payload = Some t /\
    EscalationSnapshot_Valid s = true /\ es_State s = EscalationOpen /\
    et_EscalationID t = es_EscalationID s /\ et_Subject t = es_Subject s /\
    et_ExpectedRevision t = es_Revision s /\ EscalationSnapshot_Valid next = true /\
    ed_Accepted (EvaluateEscalation s (t <| et_Authority := authority |> <| et_DecidedAt := at_ |>)) = true /\
    next = s <| es_Revision := u64 (es_Revision s + 1) |> <| es_State := EscalationTerminal |>
             <| es_TerminalOutcome := et_Outcome t |> <| es_ResolutionEventID := eventID |>.
Proof.
  unfold ApplyEscalationResolution. cbv zeta. intros H.
  destruct (EscalationTransitionFromResolvePayload payload) as [t|]; [|discriminate H].
  destruct (_ || _) eqn:G in H; [discriminate H|]. bprop G.
  destruct (negb _) eqn:G2 in H; [discriminate H|]. apply negb_false_iff in G2.
  injection H as <- Hv. exists t. split_ands. split_and!; done.
Qed.

(** [C32] An escalation is closed once, by the right authority and in time: an
    accepted resolution finds the escalation open and leaves it valid and
    terminal at the next revision, with the subject, trigger and condition it was
    opened for; it comes from the adjudicator no later than the deadline and within
    the round limit, or from the timeout policy after the deadline and then only
    blocks or asks a human. No later resolution is accepted. *)
Theorem escalation_resolution_sound s authority eventID at_ payload next :
  ApplyEscalationResolution s authority eventID at_ payload = (next, true) ->
  es_State s = EscalationOpen /\ EscalationSnapshot_Valid next = true /\
  es_State next = EscalationTerminal /\ es_Revision next = u64 (es_Revision s + 1) /\
  Escalation_Key next = Escalation_Key s /\ es_ResolutionEventID next = eventID /\
  (exists round, may_resolve s authority at_ round (es_TerminalOutcome next)) /\
  forall authority' eventID' at' payload',
    snd (ApplyEscalationResolution next authority' eventID' at' payload') = false.
Proof.
  intros H. destruct (ApplyEscalationResolution_accepted _ _ _ _ _ _ H)
    as (t & _ & _ & Hs & _ & _ & _ & Hv & Ha & E).
  apply EvaluateEscalation_accepted in Ha as (_ & _ & _ & _ & Hc). cbn in Hc.
  split_and!; try (subst next; done).
  - exists (et_Round t). subst next. unfold may_resolve. cbn. tauto.
  - intros a' e' t' p'. destruct (ApplyEscalationResolution next a' e' t' p') as [n' []] eqn:E'; [|done].
    apply ApplyEscalationResolution_accepted in E' as (? & _ & _ & K & _). subst next. discriminate K.
Qed.

(** ** Liveness *)

Lemma UUIDv7_utf8 id : UUIDv7_Valid id = true -> utf8 id.
Proof.
  intros H. apply re_match_spec in H. apply utf8_of_ascii.
  eapply (matches_chars (fun c => byte_of c <? 128)); [|exact H].
  assert (forall c, is_hex c = true -> (byte_of c <? 128) = true) as Hh by exact is_hex_ascii.
  assert (forall d c, (byte_of d <? 128) = true -> (c == d) = true -> (byte_of c <? 128) = true) as Hc.
  { intros d c Hd E. by apply bool_decide_eq_true in E as ->. }
  cbn. split_and!; try exact Hh; intros c Hx; try by eapply Hc; [|exact Hx].
  repeat (apply orb_true_iff in Hx as [Hx|Hx]); by eapply Hc; [|exact Hx].
Qed.

(** A resolution of [s] in the first round, with one reason and one piece of evidence. *)
Definition resolution_tree (s : EscalationSnapshot) (role outcome : string) : json :=
  JObject [("escalation_id", marshal (es_EscalationID s));
           ("subject_kind", JString (ref_Kind (es_Subject s)));
           ("subject_id", marshal (ref_ID (es_Subject s)));
           ("subject_lifecycle_epoch", marshal (es_SubjectLifecycleEpoch s));
           ("expected_escalation_revision", marshal (es_Revision s));
           ("source_role", JString role); ("round", JNumber "1"); ("outcome", JString outcome);
           ("reasons", JArray [JString "review"]);
           ("evidence_ids", JArray [marshal (es_EscalationID s)]);
           ("decided_at", JString "2026-01-01T00:00:00Z")].

(** Decoding a resolution with these texts. *)
Lemma decode_resolution a kind b m n role outcome :
  dec_struct fields_escalationResolvePayload
    (JObject [("escalation_id", JString a); ("subject_kind", JString kind); ("subject_id", JString b);
              ("subject_lifecycle_epoch", JNumber m); ("expected_escalation_revision", JNumber n);
              ("source_role", JString role); ("round", JNumber "1"); ("outcome", JString outcome);
              ("reasons", JArray [JString "review"]); ("evidence_ids", JArray [JString a]);
              ("decided_at", JString "2026-01-01T00:00:00Z")]) zero_escalationResolvePayload
  = try e <- ParseUint m ;; try r <- ParseUint n ;;
    Some (mkescalationResolvePayload (unquote a) (unquote kind) (unquote b) e r (unquote role) 1
            (unquote outcome) ["review"] [unquote a] sample_time).
Proof.
  rewrite dec_struct_plain by (vm_compute; reflexivity). lazy -[ParseUint unquote].
  destruct (ParseUint m), (ParseUint n); reflexivity.
Qed.

Lemma valid_escalation_facts s : EscalationSnapshot_Valid s = true ->
  UUIDv7_Valid (es_EscalationID s) = true /\ AggregateRef_Valid (es_Subject s) = true /\
  (ref_Kind (es_Subject s) = AggregateStory \/ ref_Kind (es_Subject s) = AggregateTask) /\
  0 < es_SubjectLifecycleEpoch s /\ es_Revision s <> 0 /\ es_ResolutionRoundLimit s <> 0.
Proof.
  unfold EscalationSnapshot_Valid. intros Hv.
  destruct (_ || _) eqn:G in Hv; [discriminate Hv|]. clear Hv. bprop G. split_ands.
  match goal with H : EscalationKey_Valid _ = true |- _ => unfold EscalationKey_Valid in H; bprop H end.
  split_ands. split_and!; try done.
  match goal with H : _ || _ = true |- _ => apply orb_true_iff in H; rewrite !bool_decide_eq_true in H end. done.
Qed.

(** The text of the resolution is read as the transition it describes. *)
Lemma resolution_tree_reads s role outcome :
  EscalationSnapshot_Valid s = true -> is_u64 (es_SubjectLifecycleEpoch s) -> is_u64 (es_Revision s) ->
  (role = EscalationSourceAdjudicator \/ role = EscalationSourcePolicyTimeout) ->
  outcome = EscalationBlocked ->
  EscalationTransitionFromResolvePayload (render (resolution_tree s role outcome))
  = Some (mkEscalationTransition EscalationActionResolve (es_EscalationID s) (es_Subject s) zero_principal
            role (es_SubjectLifecycleEpoch s) (es_Revision s) sample_time 1 outcome ["review"]
            [es_EscalationID s]).
Proof.
  intros Hv He Hr Hrole ->. destruct (valid_escalation_facts s Hv) as (Hi & Hs & Hk & He0 & Hr0 & _).
  pose proof (UUIDv7_utf8 _ Hi) as Ui.
  assert (utf8 (ref_ID (es_Subject s))) as Us.
  { unfold AggregateRef_Valid in Hs. apply andb_true_iff in Hs as [_ Hs]. by apply UUIDv7_utf8. }
  assert (unquote role = role /\ literal role /\ unquote (ref_Kind (es_Subject s)) = ref_Kind (es_Subject s)
          /\ literal (ref_Kind (es_Subject s))) as (Q1 & L1 & Q2 & L2).
  { split_and!; [destruct Hrole as [-> | ->]; reflexivity
      | destruct Hrole as [-> | ->]; apply plain_literal; reflexivity
      | destruct Hk as [-> | ->]; reflexivity
      | destruct Hk as [-> | ->]; apply plain_literal; reflexivity]. }
  unfold EscalationTransitionFromResolvePayload, Unmarshal. rewrite render_parse.
  - unfold resolution_tree. cbn [marshal string_codec u64_codec].
    rewrite decode_resolution, !ParseUint_enc_uint, !unquote_enc_html, Q1, Q2 by done.
    unfold et_EscalationID. cbv iota beta zeta. unfold et_Subject, et_SubjectLifecycleEpoch, et_ExpectedRevision,
      et_SourceRole, et_Round, et_Outcome, et_Reasons, et_EvidenceIDs, et_DecidedAt.
    cbn [er_EscalationID er_SubjectKind er_SubjectID er_SubjectLifecycleEpoch er_ExpectedRevision
         er_SourceRole er_Round er_Outcome er_Reasons er_EvidenceIDs er_DecidedAt].
    replace (mkRef (ref_Kind (es_Subject s)) (ref_ID (es_Subject s))) with (es_Subject s) by (by destruct (es_Subject s)).
    match goal with |- context [uniqueValidUUIDs ?l] =>
      replace (uniqueValidUUIDs l) with true by (unfold uniqueValidUUIDs; cbn [check_unique]; by rewrite Hi) end.
    rewrite Hi, Hs, (bool_decide_eq_false_2 _ Hr0), (bool_decide_eq_false_2 (es_SubjectLifecycleEpoch s = 0)) by lia.
    replace ((ref_Kind (es_Subject s) != AggregateStory) && (ref_Kind (es_Subject s) != AggregateTask))
      with false by (destruct Hk as [-> | ->]; reflexivity).
    replace ((role != EscalationSourceAdjudicator) && (role != EscalationSourcePolicyTimeout))
      with false by (destruct Hrole as [-> | ->]; reflexivity).
    change (unquote EscalationBlocked) with EscalationBlocked. reflexivity.
  - apply object_wf; [vm_compute; reflexivity|].
    repeat (apply Forall_cons_2; [first [exact L1 | exact L2 | apply marshal_wf; done
      | apply plain_literal; reflexivity | idtac]|]); [..|apply Forall_nil_2].
    + apply (scan_number_lit "1" _ ""). reflexivity.
    + apply json_wf_array. repeat constructor.
    + apply json_wf_array. constructor; [|constructor]. by apply marshal_wf.
  - pose proof max_depth_large. cbn. lia.
Qed.

(** Closing keeps a snapshot valid. *)
Lemma closed_valid s revision outcome eventID :
  EscalationSnapshot_Valid s = true -> revision <> 0 -> EscalationOutcome_Valid outcome = true ->
  UUIDv7_Valid eventID = true ->
  EscalationSnapshot_Valid (s <| es_Revision := revision |> <| es_State := EscalationTerminal |>
    <| es_TerminalOutcome := outcome |> <| es_ResolutionEventID := eventID |>) = true.
Proof.
  intros Hv Hr Ho Hi. destruct s. unfold EscalationSnapshot_Valid, Escalation_Key in *. cbv [setf eta_EscalationSnapshot eta
    es_EscalationID es_OpeningEventID es_Revision es_State es_Subject es_SubjectLifecycleEpoch es_ExpectedSubjectRevision es_Trigger es_ConditionDigest es_Adjudicator es_TimeoutPolicy es_ResolutionOwnerFQN es_DeadlineAt es_ResolutionRoundLimit es_RouteLimit es_PolicyRevision es_CausalPathEventIDs es_UnresolvedQuestion es_EvidenceIDs es_TerminalOutcome es_ResolutionEventID] in *.
  destruct (_ || _) eqn:G in Hv; [discriminate Hv|]. destruct (_ || _) eqn:G2 in Hv; [discriminate Hv|].
  rewrite G2, Ho, Hi, (bool_decide_eq_false_2 _ Hr). rewrite !orb_false_iff in G. destruct_and! G.
  repeat match goal with H : _ = false |- _ => rewrite H; clear H end. reflexivity.
Qed.

(** No escalation stays open for want of a decision: at every instant, a
    valid open escalation whose revision can still grow has a resolution payload
    that closes it, from the adjudicator until the deadline and from the timeout
    policy after it. *)
Theorem open_escalation_can_close s eventID at_ :
  EscalationSnapshot_Valid s = true -> es_State s = EscalationOpen ->
  is_u64 (es_SubjectLifecycleEpoch s) -> 0 < es_Revision s -> es_Revision s + 1 < u64_mod ->
  0 < es_ResolutionRoundLimit s -> UUIDv7_Valid eventID = true -> IsZero at_ = false ->
  exists payload next,
    ApplyEscalationResolution s (if After at_ (es_DeadlineAt s) then es_TimeoutPolicy s else es_Adjudicator s)
      eventID at_ payload = (next, true) /\ es_State next = EscalationTerminal.
Proof.
  intros Hv Ho He Hr Hr1 Hl Hi Hz. destruct (valid_escalation_facts s Hv) as (_ & _ & _ & _ & Hr0 & _).
  set (late := After at_ (es_DeadlineAt s)).
  set (role := if late then EscalationSourcePolicyTimeout else EscalationSourceAdjudicator).
  assert (role = EscalationSourceAdjudicator \/ role = EscalationSourcePolicyTimeout) as Hrole
    by (unfold role; destruct late; auto).
  exists (render (resolution_tree s role EscalationBlocked)). eexists. split.
  - unfold ApplyEscalationResolution. rewrite resolution_tree_reads by (done || (unfold is_u64; lia)). cbv zeta.
    cbn [et_EscalationID et_Subject et_SubjectLifecycleEpoch et_ExpectedRevision].
    rewrite Hv, Ho, Hi, Hz, !bool_decide_refl. cbn [negb orb].
    rewrite (proj2 (EvaluateEscalation_accepted s _)).
    + cbn [negb et_Outcome]. f_equal. apply closed_valid; [done| |done|done].
      unfold u64. rewrite Z.mod_small by lia. lia.
    + cbn. rewrite Ho. split_and!; [discriminate|done|done|done|]. unfold role. fold late.
      destruct late; [right|left]; split_and!; try done; [by left|lia].
  - done.
Qed.

(** ** A concrete escalation *)

Definition sample_escalation : EscalationSnapshot :=
  Eval vm_compute in
  mkEscalationSnapshot (uid "1") (uid "2") 1 EscalationOpen (mkRef AggregateTask (uid "3")) 2 5
    EscalationRetryExhausted (dig "a") (mkPrincipal PrincipalHuman "lead")
    (mkPrincipal PrincipalPolicy "timeouts") actor_a sample_time 3 1 7 [uid "2"] "Which interface?"
    [uid "4"] "" "".
Definition before_deadline : Time := mkTime (t_nanos sample_time - 1) 0.
Definition sample_resolution : string :=
  Eval vm_compute in render (resolution_tree sample_escalation EscalationSourceAdjudicator EscalationResolved).
Definition sample_closed : EscalationSnapshot :=
  Eval vm_compute in
  fst (ApplyEscalationResolution sample_escalation (mkPrincipal PrincipalHuman "lead") (uid "5")
         before_deadline sample_resolution).

Lemma escalation_resolution_sound_witness :
  es_State sample_closed = EscalationTerminal /\ es_TerminalOutcome sample_closed = EscalationResolved.
Proof.
  destruct (escalation_resolution_sound sample_escalation (mkPrincipal PrincipalHuman "lead") (uid "5")
    before_deadline sample_resolution sample_closed) as (_ & _ & H & _); [vm_compute; reflexivity|].
  split; [exact H|reflexivity].
Defined.

Lemma open_escalation_can_close_witness :
  exists payload next,
    ApplyEscalationResolution sample_escalation (mkPrincipal PrincipalPolicy "timeouts") (uid "5")
      (mkTime (t_nanos sample_time + 1) 0) payload = (next, true) /\ es_State next = EscalationTerminal.
Proof.
  apply (open_escalation_can_close sample_escalation (uid "5") (mkTime (t_nanos sample_time + 1) 0));
    try (vm_compute; reflexivity). split; vm_compute; congruence.
Defined.
