(* ===== verification/EvidenceLaws.v ===== *)
(** * What the evidence registry guarantees

    Raw bytes are kept exactly while some live record refers to them and always
    have the digest they are filed under; the audit log is a hash chain that its
    projection accepts, and that cannot be rewritten without a hash collision. *)

From S2P Require Import Prelude GoText GoTime GoJson GoMarshal GoJsonLaws GoMarshalLaws Types Samples.
From S2P Require Import Sha256 Payload Envelope WorkInvocation Fingerprint Provenance Escalation Evidence.

(** ** Content *)

(** A record whose bytes can still be read. *)
Definition live (g : EvidenceRegistry) (id : UUIDv7) (r : EvidenceRecord) : Prop :=
  rg_records g !! id = Some r /\ ev_Availability r = EvidenceAvailable /\ rg_deletions g !! id = None.

Record content_inv (g : EvidenceRegistry) : Prop := {
  ci_ids : forall id r, rg_records g !! id = Some r -> ev_EvidenceID r = id /\ UUIDv7_Valid id = true;
  ci_deleted : forall id t, rg_deletions g !! id = Some t -> is_Some (rg_records g !! id);
  ci_addressed : forall d bytes, rg_content g !! d = Some bytes -> DigestBytes bytes = d;
  ci_exact : forall d, is_Some (rg_content g !! d) <-> exists id r, live g id r /\ ev_RawSHA256 r = d
}.

Inductive registry_step : EvidenceRegistry -> EvidenceRegistry -> Prop :=
| step_register g record raw access g' : Register g record raw access = (g', None) -> registry_step g g'
| step_read g id access at_ g' out : Read g id access at_ = (g', out) -> registry_step g g'
| step_delete g tombstone access g' : Delete g tombstone access = (g', None) -> registry_step g g'
| step_assess g a g' : RegisterAssessment g a = (g', None) -> registry_step g g'.

Inductive registry_reachable : EvidenceRegistry -> Prop :=
| registry_new : registry_reachable NewEvidenceRegistry
| registry_next g g' : registry_reachable g -> registry_step g g' -> registry_reachable g'.

(** What an accepted registration did. *)
Lemma Register_accepted g record raw access g' :
  Register g record raw access = (g', None) ->
  EvidenceRecord_Validate record raw = None /\ rg_records g !! ev_EvidenceID record = None /\
  g' = appendAudit
         (g <| rg_records := <[ev_EvidenceID record := cloneEvidenceRecord record]> (rg_records g) |>
            <| rg_content := match raw with
                             | Some bytes =>
                               if is_nil (rg_content g !! ev_RawSHA256 record)
                               then <[ev_RawSHA256 record := bytes]> (rg_content g) else rg_content g
                             | None => rg_content g
                             end |>)
         "REGISTERED" (ev_EvidenceID record) (marshal_evidence record).
Proof.
  unfold Register. intros H. destruct (_ || _) in H; [discriminate H|].
  destruct (EvidenceRecord_Validate record raw) as [e|]; [discriminate H|].
  destruct (negb _) eqn:E in H; [discriminate H|]. cbv zeta in H. injection H as <-.
  apply negb_false_iff, is_nil_true in E. done.
Qed.

Lemma validate_accepted record raw :
  EvidenceRecord_Validate record raw = None ->
  UUIDv7_Valid (ev_EvidenceID record) = true /\ Digest_Valid (ev_RawSHA256 record) = true /\
  (ev_Availability record = EvidenceAvailable ->
   exists bytes, raw = Some bytes /\ slen bytes = ev_ByteLength record /\ DigestBytes bytes = ev_RawSHA256 record /\
     ev_IntegrityState record = IntegrityDigestVerified) /\
  (ev_Availability record <> EvidenceAvailable -> raw = None).
Proof.
  unfold EvidenceRecord_Validate. intros H.
  destruct (_ || _) eqn:E0 in H; [discriminate H|]. bprop E0. split_ands.
  do 5 (match type of H with (if ?c then _ else _) = _ => destruct c; [discriminate H|] end).
  split_and!; try done.
  - intros Ha. rewrite Ha, bool_decide_refl in H. destruct raw as [bytes|]; [|discriminate H].
    destruct (_ != _) eqn:E1 in H; [discriminate H|]. bprop E1.
    destruct (_ || _) eqn:E2 in H; [discriminate H|]. bprop E2. destruct E2. eauto 10.
  - intros Ha. rewrite (bool_decide_eq_false_2 _ Ha) in H. destruct raw; [discriminate H|done].
Qed.

Lemma register_content g record raw access g' :
  content_inv g -> Register g record raw access = (g', None) -> content_inv g'.
Proof.
  intros [Hid Hdel Had Hex] H. apply Register_accepted in H as (Hv & Hnew & ->).
  apply validate_accepted in Hv as (Hu & _ & Hav & Hun).
  assert (rg_deletions g !! ev_EvidenceID record = None) as Hnd.
  { destruct (rg_deletions g !! ev_EvidenceID record) as [t|] eqn:E; [|done].
    apply Hdel in E as [? E]. congruence. }
  split; cbn [rg_records rg_content rg_deletions appendAudit setf eta eta_EvidenceRegistry].
  - intros id r Hr. apply lookup_insert_Some in Hr as [[<- <-]|[_ Hr]]; [done|by apply Hid].
  - intros id t Ht. apply lookup_insert_is_Some'. right. by eapply Hdel.
  - intros d bytes Hd. destruct raw as [b|]; [|by apply Had].
    destruct (is_nil _); [|by apply Had]. apply lookup_insert_Some in Hd as [[<- <-]|[_ Hd]]; [|by apply Had].
    destruct (decide (ev_Availability record = EvidenceAvailable)) as [Ea|Ea]; [|by apply Hun in Ea].
    by destruct (Hav Ea) as (b' & [= <-] & _ & Hb & _).
  - intros d. set (g' := appendAudit _ _ _ _).
    assert (forall id r, live g' id r <->
      (id = ev_EvidenceID record /\ r = cloneEvidenceRecord record /\ ev_Availability record = EvidenceAvailable)
      \/ live g id r) as Hlive.
    { intros id r. unfold live. cbn [g' rg_records rg_deletions appendAudit setf eta eta_EvidenceRegistry].
      destruct (decide (id = ev_EvidenceID record)) as [->|Hn].
      - rewrite lookup_insert_eq, Hnew, Hnd. split; [intros ([= <-] & Ha & _); by left|].
        intros [(_ & -> & Ha)|(? & _)]; [by split_and!|done].
      - rewrite lookup_insert_ne by done. naive_solver. }
    assert ((exists id r, live g' id r /\ ev_RawSHA256 r = d) <->
      (ev_Availability record = EvidenceAvailable /\ ev_RawSHA256 record = d) \/ is_Some (rg_content g !! d)) as ->.
    { rewrite Hex. split.
      - intros (id & r & Hl & Hd). apply Hlive in Hl as [(-> & -> & Ha)|Hl]; [by left|right; eauto].
      - intros [[Ha Hd]|(id & r & Hl & Hd)]; [|exists id, r; rewrite Hlive; eauto].
        exists (ev_EvidenceID record), (cloneEvidenceRecord record). rewrite Hlive. split; [by left|done]. }
    clear Hlive g'. destruct (decide (ev_Availability record = EvidenceAvailable)) as [Ea|Ea].
    + destruct (Hav Ea) as (b & -> & _). destruct (rg_content g !! ev_RawSHA256 record) as [b'|] eqn:Ec; cbn [is_nil].
      * naive_solver.
      * rewrite lookup_insert_is_Some. destruct (decide (ev_RawSHA256 record = d)); naive_solver.
    + rewrite (Hun Ea). naive_solver.
Qed.

Lemma delete_content g tombstone access g' :
  content_inv g -> Delete g tombstone access = (g', None) -> content_inv g'.
Proof.
  intros [Hid Hdel Had Hex] H. unfold Delete in H.
  destruct (rg_records g !! tb_EvidenceID tombstone) as [record|] eqn:Er; [|discriminate H].
  destruct (_ || _) eqn:E1 in H; [discriminate H|]. destruct (_ || _) eqn:E2 in H; [discriminate H|].
  destruct (negb (is_nil _)) eqn:E3 in H; [discriminate H|]. cbv zeta in H. injection H as <-.
  set (id0 := tb_EvidenceID tombstone) in *. set (deletions := <[id0 := tombstone]> (rg_deletions g)).
  set (needed := existsb _ _).
  assert (needed = true <-> exists id r, rg_records g !! id = Some r /\ ev_Availability r = EvidenceAvailable /\
            deletions !! id = None /\ ev_RawSHA256 r = ev_RawSHA256 record) as Hneed.
  { unfold needed. rewrite existsb_exists. split.
    - intros ([id r] & Hin & Hc). apply list_elem_of_In, elem_of_map_to_list in Hin. cbn in Hc. bprop Hc. split_ands.
      exists id, r. split_and!; try done. by apply is_nil_true.
    - intros (id & r & Hr & Ha & Hd & Hs). exists (id, r). split; [by apply list_elem_of_In, elem_of_map_to_list|].
      cbn. rewrite Hs, Ha, Hd, !bool_decide_refl. cbn. rewrite !andb_true_r.
      apply negb_true_iff, bool_decide_eq_false. intros E. apply lookup_insert_None in Hd as [_ Hd]. congruence. }
  split; cbn [rg_records rg_content rg_deletions appendAudit setf eta eta_EvidenceRegistry].
  - done.
  - intros id t Ht. apply lookup_insert_Some in Ht as [[<- <-]|[_ Ht]]; [by rewrite Er|by eapply Hdel].
  - intros d bytes Hd. destruct needed; [by apply Had|]. apply lookup_delete_Some in Hd as [_ Hd]. by apply Had.
  - intros d. unfold live. cbn [rg_records rg_deletions appendAudit setf eta eta_EvidenceRegistry]. fold deletions.
    assert (forall id, deletions !! id = None <-> id <> id0 /\ rg_deletions g !! id = None) as Hdn.
    { intros id. unfold deletions. rewrite lookup_insert_None. naive_solver. }
    assert (is_Some ((if needed then rg_content g else delete (ev_RawSHA256 record) (rg_content g)) !! d) <->
      is_Some (rg_content g !! d) /\ (needed = true \/ d <> ev_RawSHA256 record)) as ->.
    { destruct needed; [naive_solver|]. rewrite lookup_delete_is_Some. naive_solver. }
    rewrite Hex. split.
    + intros [(id & r & (Hr & Ha & Hnd) & Hd) Hor]. destruct (decide (id = id0)) as [->|Hn].
      * destruct Hor as [Hn|Hn]; [|congruence]. apply Hneed in Hn as (id' & r' & Hr' & Ha' & Hd' & Hs).
        exists id', r'. split; [done|]. congruence.
      * exists id, r. split; [|done]. split_and!; [done|done|]. by apply Hdn.
    + intros (id & r & (Hr & Ha & Hnd) & Hd). split.
      * exists id, r. split; [|done]. split_and!; [done|done|]. apply Hdn in Hnd. by destruct Hnd.
      * destruct (decide (d = ev_RawSHA256 record)) as [->|Hn]; [left|by right]. apply Hneed. eauto 10.
Qed.

Lemma step_content g g' : content_inv g -> registry_step g g' -> content_inv g'.
Proof.
  intros Hi Hs. destruct Hs as [g record raw access g' H|g id access at_ g' out H|g t access g' H|g a g' H].
  - by eapply register_content.
  - unfold Read in H. destruct Hi as [H1 H2 H3 H4]. cbv zeta in H.
    assert (g' = g <| rg_access := rg_access g' |>) as ->; [|by split].
    destruct (rg_records g !! id) as [record|]; [|injection H as <- _; by destruct g].
    repeat (match type of H with (if ?c then _ else _) = _ => destruct c; [injection H as <- _; by destruct g|] end).
    injection H as <- _. by destruct g.
  - by eapply delete_content.
  - unfold RegisterAssessment in H. destruct Hi as [H1 H2 H3 H4].
    destruct (ClaimAssessment_Validate a); [discriminate H|]. destruct (negb _) in H; [discriminate H|].
    destruct (assessment_evidence _ _); [discriminate H|].
    destruct (match ca_Supersedes a with Some _ => _ | None => _ end) in H; [discriminate H|].
    destruct (_ && _) in H; [discriminate H|]. injection H as <-. by split.
Qed.

Lemma reachable_content g : registry_reachable g -> content_inv g.
Proof.
  induction 1 as [|g g' _ IH Hs]; [|by eapply step_content]. split; cbn.
  - intros id r Hr. by rewrite lookup_empty in Hr.
  - intros id t Ht. by rewrite lookup_empty in Ht.
  - intros d b Hb. by rewrite lookup_empty in Hb.
  - intros d. rewrite lookup_empty. split; [by intros []|]. intros (id & r & (Hr & _) & _). cbn in Hr. by rewrite lookup_empty in Hr.
Qed.

(** The registry keeps exactly the bytes it should: after any history of
    registrations, reads, deletions and assessments, raw content is stored under
    a digest if and only if some record with that digest is available and not
    deleted, and what is stored hashes to that digest. Deleting the last such
    record erases the bytes. *)
Theorem evidence_content_exact g :
  registry_reachable g ->
  (forall d, is_Some (rg_content g !! d) <-> exists id r, live g id r /\ ev_RawSHA256 r = d) /\
  (forall d bytes, rg_content g !! d = Some bytes -> DigestBytes bytes = d).
Proof. intros Hr. destruct (reachable_content g Hr). done. Qed.

(** Reading evidence is sound: after any history, bytes are only returned to
    a principal allowed to read the record's partition, for a record that was not
    deleted, and they hash to the record's digest; every attempt is appended to the
    access log, and nothing else changes. *)
Theorem evidence_read_sound g id access at_ g' record bytes :
  registry_reachable g -> Read g id access at_ = (g', (Some record, inl bytes)) ->
  live g id record /\ DigestBytes bytes = ev_RawSHA256 record /\
  PrincipalRef_Valid (ap_AccessPrincipal access) = true /\
  ev_AccessPartition record ∈ ap_ReadPartitions access /\
  g' = g <| rg_access := rg_access g ++ [mkAccessRecord id (ap_AccessPrincipal access) at_ true] |>.
Proof.
  intros Hr H. destruct (reachable_content g Hr) as [_ _ Had Hex]. unfold Read in H. cbv zeta in H.
  destruct (rg_records g !! id) as [r|] eqn:Er; [|discriminate H].
  destruct (negb _) eqn:E1 in H; [discriminate H|]. apply negb_false_iff in E1.
  destruct (negb _) eqn:E2 in H; [discriminate H|]. apply negb_false_iff, is_nil_true in E2.
  destruct (_ != _) eqn:E3 in H; [discriminate H|]. bprop E3. injection H as <- <- <-.
  assert (live g id r) as Hl by done. rewrite E1. bprop E1. split_ands.
  split_and!; try done.
  - destruct (proj2 (Hex (ev_RawSHA256 r))) as [b Hb]; [eauto|]. rewrite Hb. cbn. by apply Had.
  - by apply contains_spec.
Qed.

(** ** The audit chain *)

(** The texts in an entry. *)
Record entry_fits (e : EvidenceAuditEntry) : Prop := {
  ef_Position : is_u64 (ae_Position e);
  ef_Kind : utf8 (ae_Kind e);
  ef_Identity : utf8 (ae_Identity e);
  ef_Digest : utf8 (ae_Digest e);
  ef_Previous : utf8 (ae_PreviousDigest e)
}.

Definition omit_member (k s : string) : list (string * json) := if s == "" then [] else [(k, marshal s)].

(** The hashed members of an entry. *)
Definition entry_members (e : EvidenceAuditEntry) : list (string * json) :=
  [("position", marshal (ae_Position e)); ("kind", marshal (ae_Kind e)); ("identity", marshal (ae_Identity e));
   ("digest", marshal (ae_Digest e))]
  ++ omit_member "previous_digest" (ae_PreviousDigest e).

Lemma entry_tree e : marshal_entry e = Some (obj (entry_members e)).
Proof.
  unfold marshal_entry, marshal_struct, omit_string, entry_members, omit_member.
  destruct (_ == _); reflexivity.
Qed.

Lemma entry_names e : names_ok (map fst (entry_members e)) = true.
Proof. unfold entry_members, omit_member. destruct (_ == _); vm_cast_no_check (eq_refl true). Qed.

Lemma entry_wf e : entry_fits e -> json_wf (obj (entry_members e)) /\ (jdepth (obj (entry_members e)) <= max_depth)%nat.
Proof.
  intros [H1 H2 H3 H4 H5]. split.
  - apply object_wf; [apply entry_names|]. apply Forall_app. split.
    + repeat (apply Forall_cons_2; [by apply marshal_wf|]). apply Forall_nil_2.
    + unfold omit_member. destruct (_ == _); [apply Forall_nil_2|]. apply Forall_cons_2; [by apply marshal_wf|apply Forall_nil_2].
  - pose proof max_depth_large. unfold entry_members, omit_member. destruct (_ == _); cbn; lia.
Qed.

(** The digest of an entry is the hash of a text from which the entry can be read. *)
Lemma entry_digest e : entry_fits e ->
  exists text, evidenceAuditEntryDigest e = Some (sha256_hex text) /\
    text = encode_any (go_value (obj (entry_members e))).
Proof.
  intros He. destruct (entry_wf e He) as [Hw Hd]. destruct (canonicalJSON_tree _ Hw Hd) as [Hc _].
  eexists. split; [|reflexivity]. unfold evidenceAuditEntryDigest, digestValue. rewrite entry_tree. cbn [option_map].
  by rewrite Hc.
Qed.

Definition read_entry (v : any) : option (Z * string * string * string * string) :=
  try position <- read_member "position" v ;; try kind <- read_member "kind" v ;;
  try identity <- read_member "identity" v ;; try digest <- read_member "digest" v ;;
  try previous <- read_omitted "previous_digest" v ;;
  Some (position, kind, identity, digest, default "" previous).

Definition entry_fields (e : EvidenceAuditEntry) : Z * string * string * string * string :=
  (ae_Position e, ae_Kind e, ae_Identity e, ae_Digest e, ae_PreviousDigest e).

Lemma entry_member e k : member k (go_value (obj (entry_members e))) = go_value <$> assoc k (entry_members e).
Proof. apply (member_object k), entry_names. Qed.

Lemma read_entry_members e :
  entry_fits e -> read_entry (go_value (obj (entry_members e))) = Some (entry_fields e).
Proof.
  intros [H1 H2 H3 H4 H5]. unfold read_entry.
  rewrite (read_member_at "position" _ (ae_Position e)) by (done || apply (entry_member e)).
  rewrite (read_member_at "kind" _ (ae_Kind e)) by (done || apply (entry_member e)).
  rewrite (read_member_at "identity" _ (ae_Identity e)) by (done || apply (entry_member e)).
  rewrite (read_member_at "digest" _ (ae_Digest e)) by (done || apply (entry_member e)).
  set (previous := if ae_PreviousDigest e == "" then None else Some (ae_PreviousDigest e)).
  rewrite (read_omitted_at "previous_digest" _ previous).
  - unfold entry_fields, previous. destruct (ae_PreviousDigest e == "") eqn:E; [|done].
    apply bool_decide_eq_true in E. by rewrite E.
  - rewrite entry_member. unfold previous, entry_members, omit_member.
    destruct (ae_PreviousDigest e == "") eqn:E.
    + apply bool_decide_eq_true in E. rewrite E. reflexivity.
    + apply bool_decide_eq_false in E. rewrite bool_decide_eq_false_2 by done. reflexivity.
  - unfold previous. destruct (_ == _); [done|]. by intros x [= <-].
Qed.

(** Entries with the same hashed text have the same fields. *)
Lemma entry_text_inj e1 e2 :
  entry_fits e1 -> entry_fits e2 ->
  encode_any (go_value (obj (entry_members e1))) = encode_any (go_value (obj (entry_members e2))) ->
  entry_fields e1 = entry_fields e2.
Proof.
  intros H1 H2 E. destruct (entry_wf e1 H1) as [W1 D1], (entry_wf e2 H2) as [W2 D2].
  apply encode_any_inj in E; [|by apply go_value_wf|by apply go_value_wf|etrans; [apply go_value_depth|done]..].
  pose proof (read_entry_members e1 H1) as R1. rewrite E, read_entry_members in R1 by done. congruence.
Qed.

Definition project (p : EvidenceProjection) (e : EvidenceAuditEntry) : EvidenceProjection :=
  mkProjection (u64 (ep_NextPosition p + 1)) (<[ae_Identity e := ae_Digest e]> (ep_Entries p)) (ae_EntryDigest e).

Lemma Apply_snoc p l e p' :
  EvidenceProjection_Apply p (l ++ [e]) = (p', true) <->
  exists q, EvidenceProjection_Apply p l = (q, true) /\ entry_ok q e = true /\ p' = project q e.
Proof.
  revert p. induction l as [|x l IH]; intros p; cbn [app EvidenceProjection_Apply].
  - destruct (entry_ok p e) eqn:E; cbn [negb].
    + split; [intros [= <-]; eauto|]. by intros (q & [= <-] & _ & ->).
    + split; [discriminate|]. intros (q & [= <-] & Ho & _). congruence.
  - destruct (entry_ok p x) eqn:E; cbn [negb]; [apply IH|]. split; [discriminate|]. intros (q & [=] & _).
Qed.

(** What acceptance of an entry says. *)
Lemma entry_ok_spec p e :
  entry_ok p e = true <->
  (exists d, evidenceAuditEntryDigest e = Some d /\ ae_EntryDigest e = d) /\ ae_Position e = ep_NextPosition p /\
  ae_Kind e <> "" /\ UUIDv7_Valid (ae_Identity e) = true /\ Digest_Valid (ae_Digest e) = true /\
  Digest_Valid (ae_EntryDigest e) = true /\ ae_PreviousDigest e = ep_LastEntryDigest p.
Proof.
  unfold entry_ok. destruct (evidenceAuditEntryDigest e) as [d|]; [|split; [done|by intros ((d & [=] & _) & _)]].
  rewrite negb_true_iff, !orb_false_iff, !negb_false_iff, !bool_decide_eq_true, bool_decide_eq_false. split.
  - intros [[[[[[A1 A2] A3] A4] A5] A6] A7]. split_and!; eauto.
  - intros ((d' & [= <-] & E) & B1 & B2 & B3 & B4 & B5 & B6). split_and!; done.
Qed.

Lemma Digest_utf8 d : Digest_Valid d = true -> utf8 d.
Proof.
  intros H. apply re_match_spec in H. apply utf8_of_ascii. eapply all_chars_impl; [exact is_hex_ascii|].
  eapply (matches_chars is_hex); [|exact H]. cbn. auto.
Qed.

(** The projection after accepting a log. *)
Lemma Apply_state l p :
  EvidenceProjection_Apply NewEvidenceProjection l = (p, true) ->
  ep_NextPosition p = u64 (llen l + 1) /\
  ep_LastEntryDigest p = match last l with Some e => ae_EntryDigest e | None => "" end /\
  (ep_LastEntryDigest p = "" \/ Digest_Valid (ep_LastEntryDigest p) = true).
Proof.
  revert p. induction l as [|e l IH] using rev_ind; intros p H.
  - injection H as <-. cbn. split_and!; [reflexivity|done|by left].
  - apply Apply_snoc in H as (q & Hq & Ho & ->). destruct (IH q Hq) as (Hn & _ & _).
    apply entry_ok_spec in Ho as (_ & _ & _ & _ & _ & Hv & _). rewrite last_snoc. cbn.
    split_and!; [|done|by right]. rewrite Hn. unfold llen. rewrite length_app. cbn. unfold u64.
    rewrite Zplus_mod_idemp_l. f_equal. lia.
Qed.

Lemma accepted_entry_fits l p e :
  EvidenceProjection_Apply NewEvidenceProjection l = (p, true) -> entry_ok p e = true -> utf8 (ae_Kind e) ->
  entry_fits e.
Proof.
  intros Hl Ho Hk. destruct (Apply_state l p Hl) as (Hn & _ & Hd).
  apply entry_ok_spec in Ho as (_ & Hp & _ & Hi & Hg & _ & Hpr). split; [|done|by apply UUIDv7_utf8|by apply Digest_utf8|].
  - rewrite Hp, Hn. unfold u64, is_u64. apply Z.mod_pos_bound. unfold u64_mod. lia.
  - rewrite Hpr. destruct Hd as [->|Hd]; [constructor|by apply Digest_utf8].
Qed.

(** The text whose hash is the digest of an entry. *)
Definition entry_text (e : EvidenceAuditEntry) : string := encode_any (go_value (obj (entry_members e))).

Lemma accepted_digest e d : entry_fits e -> evidenceAuditEntryDigest e = Some d -> d = sha256_hex (entry_text e).
Proof. intros He Hd. destruct (entry_digest e He) as (t & Ht & ->). unfold entry_text. congruence. Qed.

(** Two entries that collide: their digests agree though the hashed texts differ. *)
Definition collide (e1 e2 : EvidenceAuditEntry) : Prop :=
  entry_text e1 <> entry_text e2 /\ sha256_hex (entry_text e1) = sha256_hex (entry_text e2).

(** [C25] The audit log is tamper-evident: two logs that the projection accepts
    and that end in the same entry digest are the same log, entry by entry, unless
    an entry of one and an entry of the other are a collision of SHA-256. *)
Theorem audit_log_binding l1 l2 p1 p2 :
  Forall (fun e => utf8 (ae_Kind e)) (l1 ++ l2) ->
  EvidenceProjection_Apply NewEvidenceProjection l1 = (p1, true) ->
  EvidenceProjection_Apply NewEvidenceProjection l2 = (p2, true) ->
  ep_LastEntryDigest p1 = ep_LastEntryDigest p2 ->
  l1 = l2 \/ exists e1 e2, e1 ∈ l1 /\ e2 ∈ l2 /\ collide e1 e2.
Proof.
  revert l2 p1 p2. induction l1 as [|e1 l1 IH] using rev_ind; intros l2 p1 p2 HF H1 H2 E;
    destruct l2 as [|e2 l2 _] using rev_ind; [by left| | |].
  - exfalso. injection H1 as <-. apply Apply_snoc in H2 as (q & _ & Ho & ->).
    apply entry_ok_spec in Ho as (_ & _ & _ & _ & _ & Hv & _). cbn in E. by rewrite <- E in Hv.
  - exfalso. injection H2 as <-. apply Apply_snoc in H1 as (q & _ & Ho & ->).
    apply entry_ok_spec in Ho as (_ & _ & _ & _ & _ & Hv & _). cbn in E. by rewrite E in Hv.
  - apply Apply_snoc in H1 as (q1 & Hq1 & Ho1 & ->), H2 as (q2 & Hq2 & Ho2 & ->). cbn in E.
    rewrite !Forall_app, !Forall_singleton in HF. destruct HF as [[F1 K1] [F2 K2]].
    pose proof (accepted_entry_fits l1 q1 e1 Hq1 Ho1 K1) as Fit1.
    pose proof (accepted_entry_fits l2 q2 e2 Hq2 Ho2 K2) as Fit2.
    apply entry_ok_spec in Ho1 as ((d1 & D1 & X1) & _ & _ & _ & _ & _ & P1).
    apply entry_ok_spec in Ho2 as ((d2 & D2 & X2) & _ & _ & _ & _ & _ & P2).
    apply accepted_digest in D1, D2; [|done..].
    destruct (decide (entry_text e1 = entry_text e2)) as [Et|Ht].
    2:{ right. exists e1, e2. split_and!; [set_solver..|]. split; [done|congruence]. }
    apply entry_text_inj in Et; [|done|done]. injection Et as A1 A2 A3 A4 A5.
    destruct (IH l2 q1 q2) as [->|(x & y & Hx & Hy & C)]; [by apply Forall_app|done|done|congruence| |].
    + left. f_equal. f_equal. destruct e1, e2. cbn in *. congruence.
    + right. exists x, y. set_solver.
Qed.

(** ** The registry writes a log its projection accepts *)

(** What a step does to the maps and to the audit log. *)
Inductive audited (g g' : EvidenceRegistry) : Prop :=
| audited_none : rg_audit g' = rg_audit g -> rg_records g' = rg_records g -> rg_assessments g' = rg_assessments g ->
    audited g g'
| audited_entry kind id value h :
    kind = "REGISTERED" \/ kind = "DELETED" \/ kind = "ASSESSED" -> UUIDv7_Valid id = true ->
    g' = appendAudit h kind id value -> rg_audit h = rg_audit g ->
    (forall k, is_Some (rg_records h !! k) -> k = id \/ is_Some (rg_records g !! k)) ->
    (forall k, is_Some (rg_assessments h !! k) -> k = id \/ is_Some (rg_assessments g !! k)) ->
    audited g g'.

Lemma step_audited g g' : content_inv g -> registry_step g g' -> audited g g'.
Proof.
  intros Hi Hs. destruct Hs as [g record raw access g' H|g id access at_ g' out H|g t access g' H|g a g' H].
  - apply Register_accepted in H as (Hv & _ & ->). apply validate_accepted in Hv as (Hu & _).
    eapply audited_entry; [by left|exact Hu|reflexivity|reflexivity| |by right].
    intros k Hk. cbn in Hk. apply lookup_insert_is_Some in Hk as [->|[_ Hk]]; [by left|by right].
  - unfold Read in H. cbv zeta in H. apply audited_none; destruct (rg_records g !! id) as [record|];
      repeat (match type of H with (if ?c then _ else _) = _ => destruct c end); by injection H as <- _.
  - unfold Delete in H. destruct (rg_records g !! tb_EvidenceID t) as [record|] eqn:Er; [|discriminate H].
    destruct (_ || _) in H; [discriminate H|]. destruct (_ || _) in H; [discriminate H|].
    destruct (negb (is_nil _)) in H; [discriminate H|]. cbv zeta in H. injection H as <-.
    eapply audited_entry; [by right; left| |reflexivity|reflexivity|by right|by right].
    by apply (ci_ids g Hi) in Er as [_ Hu].
  - unfold RegisterAssessment in H. destruct (ClaimAssessment_Validate a) eqn:Ev; [discriminate H|].
    destruct (negb _) in H; [discriminate H|]. destruct (assessment_evidence _ _); [discriminate H|].
    destruct (match ca_Supersedes a with Some _ => _ | None => _ end) in H; [discriminate H|].
    destruct (_ && _) in H; [discriminate H|]. injection H as <-.
    eapply audited_entry; [by right; right| |reflexivity|reflexivity|by right|].
    + unfold ClaimAssessment_Validate in Ev. destruct (_ || _) eqn:E in Ev; [discriminate Ev|]. bprop E. by split_ands.
    + intros k Hk. cbn in Hk. apply lookup_insert_is_Some in Hk as [->|[_ Hk]]; [by left|by right].
Qed.

Lemma digestValue_valid v d : digestValue v = Some d -> Digest_Valid d = true.
Proof.
  unfold digestValue. destruct v; [|discriminate]. cbn. destruct (canonicalJSON _); [|discriminate]. cbn.
  intros [= <-]. apply sha256_hex_valid.
Qed.

(** The projection that the log of a registry leads to. *)
Record projected (g : EvidenceRegistry) (p : EvidenceProjection) : Prop := {
  pj_accepted : EvidenceProjection_Apply NewEvidenceProjection (AuditEntries g) = (p, true);
  pj_records : forall k, is_Some (rg_records g !! k) -> is_Some (ep_Entries p !! k);
  pj_assessments : forall k, is_Some (rg_assessments g !! k) -> is_Some (ep_Entries p !! k)
}.

(** Every entry has a digest: the value it records could be marshalled. *)
Definition digested (g : EvidenceRegistry) : Prop := Forall (fun e => ae_Digest e <> "") (AuditEntries g).

Lemma appended_entry_ok g kind id value p :
  kind = "REGISTERED" \/ kind = "DELETED" \/ kind = "ASSESSED" -> UUIDv7_Valid id = true ->
  EvidenceProjection_Apply NewEvidenceProjection (rg_audit g) = (p, true) ->
  digested (appendAudit g kind id value) ->
  exists e, rg_audit (appendAudit g kind id value) = rg_audit g ++ [e] /\ ae_Identity e = id /\ entry_ok p e = true.
Proof.
  intros Hk Hu Hp Hd. destruct (Apply_state _ _ Hp) as (Hn & Hl & Hv).
  unfold digested, AuditEntries, appendAudit in Hd. cbv zeta in Hd. cbn [rg_audit setf eta eta_EvidenceRegistry] in Hd.
  apply Forall_app in Hd as [_ Hd]. rewrite Forall_singleton in Hd. cbn [ae_Digest] in Hd.
  destruct (digestValue value) as [d|] eqn:Ed; [|by destruct Hd]. apply digestValue_valid in Ed as Hdv.
  unfold appendAudit. cbv zeta. rewrite Ed. cbn [rg_audit setf eta eta_EvidenceRegistry default ae_Position].
  eexists. split; [reflexivity|]. split; [reflexivity|].
  cbn [ae_Position]. change (default "" (Some d)) with d.
  set (previous := match last _ with Some _ => _ | None => _ end) in *.
  set (bare := mkAuditEntry (u64 (llen (rg_audit g) + 1)) kind id d previous "").
  assert (entry_fits bare) as Hf.
  { split; cbn.
    - unfold u64, is_u64. apply Z.mod_pos_bound. unfold u64_mod. lia.
    - destruct Hk as [-> | [-> | ->]]; apply utf8_of_ascii; reflexivity.
    - by apply UUIDv7_utf8.
    - by apply Digest_utf8.
    - rewrite <- Hl. destruct Hv as [->|Hv]; [constructor|by apply Digest_utf8]. }
  destruct (entry_digest bare Hf) as (t & Ht & _). apply entry_ok_spec. cbn -[evidenceAuditEntryDigest UUIDv7_Valid Digest_Valid].
  fold bare. rewrite Ht. change (default "" (Some (sha256_hex t))) with (sha256_hex t).
  split_and!; [exists (sha256_hex t); by split|by rewrite Hn|by destruct Hk as [-> | [-> | ->]]|done|done|apply sha256_hex_valid|done].
Qed.

Lemma audited_projected g g' p : audited g g' -> projected g p -> digested g' -> exists p', projected g' p'.
Proof.
  intros [Ha Hr Hs|kind id value h Hk Hu -> Ha Hr Hs] [P1 P2 P3] Hd.
  - exists p. split; unfold AuditEntries; rewrite ?Ha, ?Hr, ?Hs; done.
  - unfold AuditEntries in P1. rewrite <- Ha in P1.
    destruct (appended_entry_ok h kind id value p Hk Hu P1 Hd) as (e & He & Hi & Ho).
    exists (project p e). split.
    + unfold AuditEntries. rewrite He. apply Apply_snoc. eauto.
    + intros k Hrk. apply Hr in Hrk. cbn. rewrite Hi. apply lookup_insert_is_Some'. destruct Hrk; [by left|right; eauto].
    + intros k Hrk. apply Hs in Hrk. cbn. rewrite Hi. apply lookup_insert_is_Some'. destruct Hrk; [by left|right; eauto].
Qed.

Lemma audited_digested g g' : audited g g' -> digested g' -> digested g.
Proof.
  intros [Ha _ _|kind id value h _ _ -> Ha _ _]; unfold digested, AuditEntries; [by rewrite Ha|].
  unfold appendAudit. cbv zeta. cbn [rg_audit setf eta eta_EvidenceRegistry]. rewrite Ha. intros Hd.
  by apply Forall_app in Hd as [Hd _].
Qed.

(** The registry and its projection agree: after any history in which
    every recorded value could be marshalled, replaying the audit log from scratch
    succeeds, ends at the next free position and at the last entry's digest, and
    knows every registered record and assessment. *)
Theorem audit_log_accepted g :
  registry_reachable g -> digested g ->
  exists p, EvidenceProjection_Apply NewEvidenceProjection (AuditEntries g) = (p, true) /\
    ep_NextPosition p = u64 (llen (AuditEntries g) + 1) /\
    ep_LastEntryDigest p = match last (AuditEntries g) with Some e => ae_EntryDigest e | None => "" end /\
    forall k, is_Some (rg_records g !! k) \/ is_Some (rg_assessments g !! k) -> is_Some (ep_Entries p !! k).
Proof.
  intros Hr Hd. assert (exists p, projected g p) as [p [P1 P2 P3]].
  { induction Hr as [|g g' Hr IH Hs].
    - exists NewEvidenceProjection. split; [reflexivity| |]; intros k Hk; cbn in Hk; by rewrite lookup_empty in Hk.
    - pose proof (step_audited g g' (reachable_content g Hr) Hs) as Ha.
      destruct (IH (audited_digested _ _ Ha Hd)) as [p Hp]. by eapply audited_projected. }
  destruct (Apply_state _ _ P1) as (Hn & Hl & _). exists p. split_and!; try done. intros k []; auto.
Qed.

(** ** Concrete histories *)

Definition sample_registrar : PrincipalRef := mkPrincipal PrincipalService "registry".
Definition sample_policy : EvidenceAccessPolicy := mkAccess sample_registrar ["team"] ["team"] true.
Definition sample_record (ingested : Time) : EvidenceRecord :=
  mkEvidenceRecord (uid "1") "test-report" (DigestBytes "passed") 6 "text/plain" "store://1" true EvidenceAvailable
    sample_registrar "runner" "1.0" ingested None "local" "internal" "team" "year" IntegrityDigestVerified
    None None None None.
Definition sample_registry (ingested : Time) : EvidenceRegistry :=
  fst (Register NewEvidenceRegistry (sample_record ingested) (Some "passed") sample_policy).
Definition sample_assessment : ClaimAssessment :=
  mkAssessment (uid "2") "tests pass" ClaimObserved (Some [uid "1"]) None "" sample_registrar "build" sample_time None.
Definition sample_assessed : EvidenceRegistry :=
  Eval vm_compute in fst (RegisterAssessment (sample_registry sample_time) sample_assessment).

Lemma sample_registered ingested :
  Register NewEvidenceRegistry (sample_record ingested) (Some "passed") sample_policy = (sample_registry ingested, None) ->
  registry_reachable (sample_registry ingested).
Proof. intros H. apply (registry_next NewEvidenceRegistry); [constructor|]. by eapply step_register. Qed.

Lemma sample_assessed_reachable : registry_reachable sample_assessed.
Proof.
  apply (registry_next (sample_registry sample_time)); [apply sample_registered; vm_compute; reflexivity|].
  apply (step_assess _ sample_assessment). vm_cast_no_check (eq_refl (sample_assessed, @None evidence_error)).
Qed.

Lemma evidence_content_exact_witness :
  is_Some (rg_content sample_assessed !! DigestBytes "passed").
Proof.
  apply (evidence_content_exact sample_assessed sample_assessed_reachable).
  exists (uid "1"), (sample_record sample_time). split; [split_and!|]; vm_compute; reflexivity.
Defined.

Lemma evidence_read_sound_witness :
  DigestBytes "passed" = ev_RawSHA256 (sample_record sample_time) /\
  ev_AccessPartition (sample_record sample_time) ∈ ap_ReadPartitions sample_policy.
Proof.
  destruct (evidence_read_sound sample_assessed (uid "1") sample_policy sample_time
    (fst (Read sample_assessed (uid "1") sample_policy sample_time)) (sample_record sample_time) "passed"
    sample_assessed_reachable) as (_ & H1 & _ & H2 & _); [vm_compute; reflexivity|].
  split; assumption.
Defined.

Lemma audit_log_accepted_witness :
  exists p, EvidenceProjection_Apply NewEvidenceProjection (AuditEntries sample_assessed) = (p, true) /\
    ep_NextPosition p = 3.
Proof.
  destruct (audit_log_accepted sample_assessed sample_assessed_reachable) as (p & Hp & Hn & _).
  - unfold digested. cbn [AuditEntries rg_audit sample_assessed].
    do 2 (apply Forall_cons_2; [discriminate|]). apply Forall_nil_2.
  - exists p. split; [exact Hp|]. rewrite Hn. vm_compute. reflexivity.
Defined.

Lemma audit_log_binding_witness :
  AuditEntries sample_assessed = AuditEntries sample_assessed \/
  exists e1 e2, e1 ∈ AuditEntries sample_assessed /\ e2 ∈ AuditEntries sample_assessed /\ collide e1 e2.
Proof.
  eapply (audit_log_binding _ _ (fst (EvidenceProjection_Apply NewEvidenceProjection (AuditEntries sample_assessed)))
            (fst (EvidenceProjection_Apply NewEvidenceProjection (AuditEntries sample_assessed)))).
  - cbn [AuditEntries rg_audit sample_assessed app].
    do 4 (apply Forall_cons_2; [apply utf8_of_ascii; reflexivity|]). apply Forall_nil_2.
  - vm_compute. reflexivity.
  - vm_compute. reflexivity.
  - reflexivity.
Defined.

(** An instant in the year 12000, which [time.Time] can hold but not marshal. *)
Definition far_future : Time := mkTime (12000 * 365 * 86400 * 1000000000) 0.

(** A record the registry accepts can break its audit log: with an ingestion
    time after the year 9999 the registration succeeds, but the record cannot be
    marshalled, the error of its digest is dropped, and the projection refuses the
    log from then on. *)
Theorem unmarshalable_record_breaks_audit :
  snd (Register NewEvidenceRegistry (sample_record far_future) (Some "passed") sample_policy) = None /\
  ae_Digest <$> AuditEntries (sample_registry far_future) = [""] /\
  snd (EvidenceProjection_Apply NewEvidenceProjection (AuditEntries (sample_registry far_future))) = false /\
  snd (EvidenceProjection_Apply NewEvidenceProjection (AuditEntries (sample_registry sample_time))) = true.
Proof. split_and!; vm_compute; reflexivity. Qed.
