(* ===== verification/Review.v ===== *)
(** * Completion reviews ([kernel/coordination.go], [kernel/validation.go], [kernel/completion.go])

    A review asks several branches for a verdict on finished work and joins them.
    A bounded review names the validator of each branch, its deadline and rounds
    and the independence it must prove; a legacy review only names the branches.
    The loops over Go maps are folds over [map_to_list]; their results do not
    depend on the order. *)

From S2P Require Import Prelude GoText GoTime GoJson GoMarshal Types Samples Payload Envelope State.
From S2P Require Import WorkProfile Variant.

Record ReviewFinding := mkReviewFinding {
  rf_FindingID : UUIDv7;
  rf_FindingKey : Digest;
  rf_Classification : string;
  rf_Summary : string;
  rf_EvidenceIDs : list UUIDv7
}.

#[export] Instance eta_ReviewFinding : Eta ReviewFinding := fun r =>
  mkReviewFinding
    (rf_FindingID r) (rf_FindingKey r) (rf_Classification r) (rf_Summary r)
    (rf_EvidenceIDs r).

Definition zero_ReviewFinding : ReviewFinding :=
  mkReviewFinding
    "" "" "" "" [].

Definition fields_ReviewFinding : list (field ReviewFinding) :=
  [
    fld "finding_id" rf_FindingID dec_string;
    fld "finding_key" rf_FindingKey dec_string;
    fld "classification" rf_Classification dec_string;
    fld "summary" rf_Summary dec_string;
    fld "evidence_ids" rf_EvidenceIDs (dec_slice "" dec_string)
  ].
Definition dec_ReviewFinding : decoder ReviewFinding := dec_struct fields_ReviewFinding.

#[global] Instance ReviewFinding_eq_dec : EqDecision ReviewFinding.
Proof. solve_decision. Defined.

Record ReviewBranchResult := mkReviewBranchResult {
  vr_BranchID : string;
  vr_SourceRole : string;
  vr_Authority : PrincipalRef;
  vr_Round : Z;
  vr_Result : string;
  vr_Reasons : list string;
  vr_EvidenceIDs : list UUIDv7;
  vr_Findings : list ReviewFinding;
  vr_SupersedesResultEventIDs : list UUIDv7;
  vr_ChangedConditionEvidenceIDs : list UUIDv7;
  vr_EventID : UUIDv7;
  vr_DecidedAt : Time;
  vr_CandidateArtifactDigest : Digest;
  vr_IndependenceReceipt : IndependenceReceipt;
  vr_ActorFQN : option ActorFQN;
  vr_Execution : option ExecutionTuple
}.

#[export] Instance eta_ReviewBranchResult : Eta ReviewBranchResult := fun r =>
  mkReviewBranchResult
    (vr_BranchID r) (vr_SourceRole r) (vr_Authority r) (vr_Round r) (vr_Result r)
    (vr_Reasons r) (vr_EvidenceIDs r) (vr_Findings r) (vr_SupersedesResultEventIDs r)
    (vr_ChangedConditionEvidenceIDs r) (vr_EventID r) (vr_DecidedAt r)
    (vr_CandidateArtifactDigest r) (vr_IndependenceReceipt r) (vr_ActorFQN r)
    (vr_Execution r).

Definition zero_ReviewBranchResult : ReviewBranchResult :=
  mkReviewBranchResult
    "" "" zero_principal 0 "" [] [] [] [] [] "" zero_time "" zero_IndependenceReceipt None
    None.

#[global] Instance ReviewBranchResult_eq_dec : EqDecision ReviewBranchResult.
Proof. solve_decision. Defined.

Record ReviewBranchSpec := mkReviewBranchSpec {
  bs_BranchID : string;
  bs_Validator : PrincipalRef;
  bs_ResolutionOwnerFQN : ActorFQN;
  bs_AcceptanceCriteria : list string;
  bs_InputEvidenceIDs : list UUIDv7;
  bs_DeadlineAt : Time;
  bs_RoundLimit : Z;
  bs_RequiredIndependenceDimensions : list IndependenceDimension;
  bs_RequiredMethodIDs : list string
}.

#[export] Instance eta_ReviewBranchSpec : Eta ReviewBranchSpec := fun r =>
  mkReviewBranchSpec
    (bs_BranchID r) (bs_Validator r) (bs_ResolutionOwnerFQN r) (bs_AcceptanceCriteria r)
    (bs_InputEvidenceIDs r) (bs_DeadlineAt r) (bs_RoundLimit r)
    (bs_RequiredIndependenceDimensions r) (bs_RequiredMethodIDs r).

Definition zero_ReviewBranchSpec : ReviewBranchSpec :=
  mkReviewBranchSpec
    "" zero_principal "" [] [] zero_time 0 [] [].

Definition fields_ReviewBranchSpec : list (field ReviewBranchSpec) :=
  [
    fld "branch_id" bs_BranchID dec_string;
    fld "validator" bs_Validator dec_PrincipalRef;
    fld "resolution_owner_fqn" bs_ResolutionOwnerFQN dec_string;
    fld "acceptance_criteria" bs_AcceptanceCriteria (dec_slice "" dec_string);
    fld "input_evidence_ids" bs_InputEvidenceIDs (dec_slice "" dec_string);
    fld "deadline_at" bs_DeadlineAt dec_time;
    fld "round_limit" bs_RoundLimit dec_u64;
    fld "required_independence_dimensions" bs_RequiredIndependenceDimensions (dec_slice "" dec_string);
    fld "required_method_ids" bs_RequiredMethodIDs (dec_slice "" dec_string)
  ].
Definition dec_ReviewBranchSpec : decoder ReviewBranchSpec := dec_struct fields_ReviewBranchSpec.

Record ReviewAdjudication := mkReviewAdjudication {
  rj_Adjudicator : PrincipalRef;
  rj_DeadlineAt : Time;
  rj_RoundLimit : Z
}.

#[export] Instance eta_ReviewAdjudication : Eta ReviewAdjudication := fun r =>
  mkReviewAdjudication
    (rj_Adjudicator r) (rj_DeadlineAt r) (rj_RoundLimit r).

Definition zero_ReviewAdjudication : ReviewAdjudication :=
  mkReviewAdjudication
    zero_principal zero_time 0.

Definition fields_ReviewAdjudication : list (field ReviewAdjudication) :=
  [
    fld "adjudicator" rj_Adjudicator dec_PrincipalRef;
    fld "deadline_at" rj_DeadlineAt dec_time;
    fld "round_limit" rj_RoundLimit dec_u64
  ].
Definition dec_ReviewAdjudication : decoder ReviewAdjudication := dec_struct fields_ReviewAdjudication.

Record ReviewFinalization := mkReviewFinalization {
  rz_EventID : UUIDv7;
  rz_ReviewRevision : Z;
  rz_TerminalStatus : string;
  rz_ResultEventIDs : list UUIDv7;
  rz_EvidenceIDs : list UUIDv7;
  rz_ScopeRevision : Z;
  rz_WorkProfile : WorkProfileBinding;
  rz_CandidateArtifactDigest : Digest;
  rz_VerificationTopologyDigest : Digest
}.

#[export] Instance eta_ReviewFinalization : Eta ReviewFinalization := fun r =>
  mkReviewFinalization
    (rz_EventID r) (rz_ReviewRevision r) (rz_TerminalStatus r) (rz_ResultEventIDs r)
    (rz_EvidenceIDs r) (rz_ScopeRevision r) (rz_WorkProfile r)
    (rz_CandidateArtifactDigest r) (rz_VerificationTopologyDigest r).

Definition zero_ReviewFinalization : ReviewFinalization :=
  mkReviewFinalization
    "" 0 "" [] [] 0 zero_WorkProfileBinding "" "".

Record ReviewJoinResult := mkJoin { jn_Complete : bool; jn_Status : string }.

#[global] Instance ReviewJoinResult_eq_dec : EqDecision ReviewJoinResult.
Proof. solve_decision. Defined.

Abbreviation ReviewBranches := (gmap string ReviewBranchSpec).
Abbreviation ReviewVerdicts := (gmap string string).
Abbreviation ReviewRecords := (gmap string ReviewBranchResult).
Abbreviation ReviewFindings := (gmap Digest ReviewFinding).
Abbreviation ReviewFinalized := (option ReviewFinalization).

Record CompletionReviewSnapshot := mkCompletionReviewSnapshot {
  cr_ReviewID : UUIDv7;
  cr_Subject : AggregateRef;
  cr_LifecycleEpoch : Z;
  cr_CriteriaRevision : Z;
  cr_EvidenceSetDigest : Digest;
  cr_BranchPolicyRevision : Z;
  cr_RequiredBranchIDs : list string;
  cr_Branches : ReviewBranches;
  cr_Adjudication : ReviewAdjudication;
  cr_PartialResultPolicy : string;
  cr_Results : ReviewVerdicts;
  cr_ResultRecords : ReviewRecords;
  cr_KnownResultEvents : ReviewRecords;
  cr_CurrentFindings : ReviewFindings;
  cr_ReviewRevision : Z;
  cr_Finalization : ReviewFinalized;
  cr_Join : ReviewJoinResult;
  cr_TopologyBound : bool;
  cr_ScopeRevision : Z;
  cr_WorkProfile : WorkProfileBinding;
  cr_CandidateArtifactDigest : Digest;
  cr_Implementer : WorkExecutionIdentity;
  cr_VerificationTopologyDigest : Digest;
  cr_VariantGroupID : option UUIDv7
}.

#[export] Instance eta_CompletionReviewSnapshot : Eta CompletionReviewSnapshot := fun r =>
  mkCompletionReviewSnapshot
    (cr_ReviewID r) (cr_Subject r) (cr_LifecycleEpoch r) (cr_CriteriaRevision r)
    (cr_EvidenceSetDigest r) (cr_BranchPolicyRevision r) (cr_RequiredBranchIDs r)
    (cr_Branches r) (cr_Adjudication r) (cr_PartialResultPolicy r) (cr_Results r)
    (cr_ResultRecords r) (cr_KnownResultEvents r) (cr_CurrentFindings r)
    (cr_ReviewRevision r) (cr_Finalization r) (cr_Join r) (cr_TopologyBound r)
    (cr_ScopeRevision r) (cr_WorkProfile r) (cr_CandidateArtifactDigest r)
    (cr_Implementer r) (cr_VerificationTopologyDigest r) (cr_VariantGroupID r).

Definition zero_CompletionReviewSnapshot : CompletionReviewSnapshot :=
  mkCompletionReviewSnapshot
    "" zero_ref 0 0 "" 0 [] ∅ zero_ReviewAdjudication "" ∅ ∅ ∅ ∅ 0 None (mkJoin false "")
    false 0 zero_WorkProfileBinding "" zero_WorkExecutionIdentity "" None.

(** ** Joining verdicts *)

Definition validReviewResult (value : string) : bool :=
  contains ["PASS"; "FAIL"; "BLOCKED"; "INCONCLUSIVE"; "SUPERSEDED"; "CANCELLED"] value.

(** The first failure kind, in order of precedence, among the verdicts; [""] without failures. *)
Definition deterministicReviewFailure (results : ReviewVerdicts) : string :=
  default "" (List.find (fun candidate => contains (map snd (map_to_list results)) candidate)
    ["FAIL"; "BLOCKED"; "INCONCLUSIVE"; "CANCELLED"; "SUPERSEDED"]).

(** The loop over the results; [None] is a conflict. *)
Fixpoint observe (required : gset string) (observed : ReviewVerdicts) (results : list ReviewBranchResult)
    : option ReviewVerdicts :=
  match results with
  | [] => Some observed
  | result :: results =>
    when negb (validReviewResult (vr_Result result)) return None ;;
    when negb (bool_decide (vr_BranchID result ∈ required)) return None ;;
    when match observed !! vr_BranchID result with
         | Some prior => prior != vr_Result result
         | None => false
         end return None ;;
    observe required (<[vr_BranchID result := vr_Result result]> observed) results
  end.

Definition EvaluateReviewJoin (required : list string) (partialResultPolicy : string)
    (results : list ReviewBranchResult) : ReviewJoinResult :=
  let conflict := mkJoin false "CONFLICT" in
  when (partialResultPolicy != "WAIT_ALL") && (partialResultPolicy != "FAIL_FAST") return conflict ;;
  when (llen required == 0) || (32 <? llen required) || (64 <? llen results) return conflict ;;
  when negb (check_unique short_string ∅ required) return conflict ;;
  match observe (list_to_set required) ∅ results with
  | None => conflict
  | Some observed =>
    let terminal := deterministicReviewFailure observed in
    when (terminal != "") && (partialResultPolicy == "FAIL_FAST") return mkJoin true terminal ;;
    when negb (Z.of_nat (size observed) =? Z.of_nat (size (list_to_set required : gset string)))
      return mkJoin false "PENDING" ;;
    when terminal != "" return mkJoin true terminal ;;
    mkJoin true "PASS"
  end.

Definition EvaluateAllPassJoin (required : list string) (results : list ReviewBranchResult)
    : ReviewJoinResult := EvaluateReviewJoin required "WAIT_ALL" results.

Definition canonicalValidationBranches (values : list string) : option (list string) :=
  when (llen values == 0) || (32 <? llen values) return None ;;
  when negb (forallb short_string values) return None ;;
  let branches := sort_strings values in
  when adjacent_dup branches return None ;;
  Some branches.

(** ** Opening a review *)

Record reviewOpenPayload := mkreviewOpenPayload {
  ro_SubjectKind : string;
  ro_SubjectID : UUIDv7;
  ro_LifecycleEpoch : Z;
  ro_CriteriaRevision : Z;
  ro_EvidenceSetDigest : Digest;
  ro_BranchPolicyRevision : Z;
  ro_RequiredBranchIDs : list string;
  ro_Branches : list ReviewBranchSpec;
  ro_Adjudication : ReviewAdjudication;
  ro_JoinRule : string;
  ro_PartialResultPolicy : string;
  ro_ScopeRevision : Z;
  ro_WorkProfile : WorkProfileBinding;
  ro_CandidateArtifactDigest : Digest;
  ro_Implementer : WorkExecutionIdentity;
  ro_VerificationTopologyDigest : Digest;
  ro_VariantGroupID : option UUIDv7
}.

#[export] Instance eta_reviewOpenPayload : Eta reviewOpenPayload := fun r =>
  mkreviewOpenPayload
    (ro_SubjectKind r) (ro_SubjectID r) (ro_LifecycleEpoch r) (ro_CriteriaRevision r)
    (ro_EvidenceSetDigest r) (ro_BranchPolicyRevision r) (ro_RequiredBranchIDs r)
    (ro_Branches r) (ro_Adjudication r) (ro_JoinRule r) (ro_PartialResultPolicy r)
    (ro_ScopeRevision r) (ro_WorkProfile r) (ro_CandidateArtifactDigest r)
    (ro_Implementer r) (ro_VerificationTopologyDigest r) (ro_VariantGroupID r).

Definition zero_reviewOpenPayload : reviewOpenPayload :=
  mkreviewOpenPayload
    "" "" 0 0 "" 0 [] [] zero_ReviewAdjudication "" "" 0 zero_WorkProfileBinding ""
    zero_WorkExecutionIdentity "" None.

Definition fields_reviewOpenPayload : list (field reviewOpenPayload) :=
  [
    fld "subject_kind" ro_SubjectKind dec_string;
    fld "subject_id" ro_SubjectID dec_string;
    fld "lifecycle_epoch" ro_LifecycleEpoch dec_u64;
    fld "criteria_revision" ro_CriteriaRevision dec_u64;
    fld "evidence_set_digest" ro_EvidenceSetDigest dec_string;
    fld "branch_policy_revision" ro_BranchPolicyRevision dec_u64;
    fld "required_branch_ids" ro_RequiredBranchIDs (dec_slice "" dec_string);
    fld "branches" ro_Branches (dec_slice zero_ReviewBranchSpec dec_ReviewBranchSpec);
    fld "adjudication" ro_Adjudication dec_ReviewAdjudication;
    fld "join_rule" ro_JoinRule dec_string;
    fld "partial_result_policy" ro_PartialResultPolicy dec_string;
    fld "scope_revision" ro_ScopeRevision dec_u64;
    fld "work_profile" ro_WorkProfile dec_WorkProfileBinding;
    fld "candidate_artifact_digest" ro_CandidateArtifactDigest dec_string;
    fld "implementer" ro_Implementer dec_WorkExecutionIdentity;
    fld "verification_topology_digest" ro_VerificationTopologyDigest dec_string;
    fld "variant_group_id" ro_VariantGroupID (dec_ptr "" dec_string)
  ].

Definition branch_ok (topologyBound : bool) (b : ReviewBranchSpec) : bool :=
  negb ((bs_BranchID b == "") || negb (PrincipalRef_Valid (bs_Validator b))
    || negb (ActorFQN_Valid (bs_ResolutionOwnerFQN b))
    || negb (validUniqueBoundedStrings (bs_AcceptanceCriteria b))
    || negb (validUUIDSet (bs_InputEvidenceIDs b) true) || IsZero (bs_DeadlineAt b)
    || (bs_RoundLimit b == 0) || (1000 <? bs_RoundLimit b)
    || topologyBound && (negb (validUniqueDimensions (bs_RequiredIndependenceDimensions b))
                         || negb (validUniqueStrings (bs_RequiredMethodIDs b) 1 64))).

Definition sorted_spec (b : ReviewBranchSpec) : ReviewBranchSpec :=
  b <| bs_AcceptanceCriteria := sort_strings (bs_AcceptanceCriteria b) |>
    <| bs_InputEvidenceIDs := sort_strings (bs_InputEvidenceIDs b) |>.

(** The loop over the branches: the specifications and the required branches. *)
Fixpoint open_branches (topologyBound : bool) (branches : ReviewBranches) (required : list string)
    (values : list ReviewBranchSpec) : option (ReviewBranches * list string) :=
  match values with
  | [] => Some (branches, required)
  | b :: values =>
    when negb (branch_ok topologyBound b) return None ;;
    when negb (is_nil (branches !! bs_BranchID b)) return None ;;
    open_branches topologyBound (<[bs_BranchID b := sorted_spec b]> branches)
      (required ++ [bs_BranchID b]) values
  end.

Definition adjudication_ok (a : ReviewAdjudication) : bool :=
  negb (negb (PrincipalRef_Valid (rj_Adjudicator a)) || IsZero (rj_DeadlineAt a)
    || (rj_RoundLimit a == 0) || (1000 <? rj_RoundLimit a)).

Definition CompletionReviewFromPayload (payload : string) : option CompletionReviewSnapshot :=
  try v <- Unmarshal fields_reviewOpenPayload zero_reviewOpenPayload payload ;;
  let subject := mkRef (ro_SubjectKind v) (ro_SubjectID v) in
  when negb (AggregateRef_Valid subject) || (ro_LifecycleEpoch v == 0) || (ro_CriteriaRevision v == 0)
       || negb (Digest_Valid (ro_EvidenceSetDigest v)) || (ro_BranchPolicyRevision v == 0)
       || (ro_JoinRule v != "ALL_PASS")
       || (ro_PartialResultPolicy v != "WAIT_ALL") && (ro_PartialResultPolicy v != "FAIL_FAST")
    return None ;;
  let topologyBound :=
    (0 <? ro_ScopeRevision v) || (wb_ProfileID (ro_WorkProfile v) != "")
    || (ro_CandidateArtifactDigest v != "") || (ro_VerificationTopologyDigest v != "") in
  when topologyBound
       && ((ro_ScopeRevision v == 0) || negb (WorkProfileBinding_Valid (ro_WorkProfile v))
           || (wb_LifecycleEpoch (ro_WorkProfile v) != ro_LifecycleEpoch v)
           || (wb_ScopeRevision (ro_WorkProfile v) != ro_ScopeRevision v)
           || negb (Digest_Valid (ro_CandidateArtifactDigest v))
           || negb (WorkExecutionIdentity_Valid (ro_Implementer v))
           || negb (Digest_Valid (ro_VerificationTopologyDigest v))
           || negb (opt_all UUIDv7_Valid (ro_VariantGroupID v)))
    return None ;;
  let legacy := llen (ro_Branches v) == 0 in
  when legacy && (llen (ro_RequiredBranchIDs v) == 0) return None ;;
  try opened <-
    (if legacy then Some (∅, ro_RequiredBranchIDs v)
     else
       try o <- open_branches topologyBound ∅ [] (ro_Branches v) ;;
       when negb (adjudication_ok (ro_Adjudication v)) return None ;;
       Some o) ;;
  let '(branches, required) := opened in
  let join := EvaluateReviewJoin required (ro_PartialResultPolicy v) [] in
  when jn_Status join == "CONFLICT" return None ;;
  let required := default [] (canonicalValidationBranches required) in
  Some {| cr_ReviewID := ""; cr_Subject := subject; cr_LifecycleEpoch := ro_LifecycleEpoch v;
          cr_CriteriaRevision := ro_CriteriaRevision v; cr_EvidenceSetDigest := ro_EvidenceSetDigest v;
          cr_BranchPolicyRevision := ro_BranchPolicyRevision v; cr_RequiredBranchIDs := required;
          cr_Branches := branches; cr_Adjudication := ro_Adjudication v;
          cr_PartialResultPolicy := ro_PartialResultPolicy v; cr_Results := ∅; cr_ResultRecords := ∅;
          cr_KnownResultEvents := ∅; cr_CurrentFindings := ∅; cr_ReviewRevision := 1;
          cr_Finalization := None; cr_Join := join; cr_TopologyBound := topologyBound;
          cr_ScopeRevision := ro_ScopeRevision v; cr_WorkProfile := ro_WorkProfile v;
          cr_CandidateArtifactDigest := ro_CandidateArtifactDigest v; cr_Implementer := ro_Implementer v;
          cr_VerificationTopologyDigest := ro_VerificationTopologyDigest v;
          cr_VariantGroupID := ro_VariantGroupID v |}.

(** ** Branch results *)

Record branchResultPayload := mkbranchResultPayload {
  bp_ReviewID : UUIDv7;
  bp_BranchID : string;
  bp_BranchPolicyRevision : Z;
  bp_SourceRole : string;
  bp_Round : Z;
  bp_Result : string;
  bp_Reasons : list string;
  bp_EvidenceIDs : list UUIDv7;
  bp_Findings : list ReviewFinding;
  bp_SupersedesResultEventIDs : list UUIDv7;
  bp_ChangedConditionEvidenceIDs : list UUIDv7;
  bp_CandidateArtifactDigest : Digest;
  bp_IndependenceReceipt : IndependenceReceipt
}.

#[export] Instance eta_branchResultPayload : Eta branchResultPayload := fun r =>
  mkbranchResultPayload
    (bp_ReviewID r) (bp_BranchID r) (bp_BranchPolicyRevision r) (bp_SourceRole r)
    (bp_Round r) (bp_Result r) (bp_Reasons r) (bp_EvidenceIDs r) (bp_Findings r)
    (bp_SupersedesResultEventIDs r) (bp_ChangedConditionEvidenceIDs r)
    (bp_CandidateArtifactDigest r) (bp_IndependenceReceipt r).

Definition zero_branchResultPayload : branchResultPayload :=
  mkbranchResultPayload
    "" "" 0 "" 0 "" [] [] [] [] [] "" zero_IndependenceReceipt.

Definition fields_branchResultPayload : list (field branchResultPayload) :=
  [
    fld "review_id" bp_ReviewID dec_string;
    fld "branch_id" bp_BranchID dec_string;
    fld "branch_policy_revision" bp_BranchPolicyRevision dec_u64;
    fld "source_role" bp_SourceRole dec_string;
    fld "round" bp_Round dec_u64;
    fld "result" bp_Result dec_string;
    fld "reasons" bp_Reasons (dec_slice "" dec_string);
    fld "evidence_ids" bp_EvidenceIDs (dec_slice "" dec_string);
    fld "findings" bp_Findings (dec_slice zero_ReviewFinding dec_ReviewFinding);
    fld "supersedes_result_event_ids" bp_SupersedesResultEventIDs (dec_slice "" dec_string);
    fld "changed_condition_evidence_ids" bp_ChangedConditionEvidenceIDs (dec_slice "" dec_string);
    fld "candidate_artifact_digest" bp_CandidateArtifactDigest dec_string;
    fld "independence_receipt" bp_IndependenceReceipt dec_IndependenceReceipt
  ].

(** The loop over the findings; [None] is an error. *)
Fixpoint read_findings (seen : gset Digest) (acc values : list ReviewFinding) : option (list ReviewFinding) :=
  match values with
  | [] => Some acc
  | f :: values =>
    when negb (UUIDv7_Valid (rf_FindingID f)) || negb (Digest_Valid (rf_FindingKey f))
         || (rf_Summary f == "") || negb (validUUIDSet (rf_EvidenceIDs f) true)
      return None ;;
    when bool_decide (rf_FindingKey f ∈ seen) return None ;;
    read_findings ({[rf_FindingKey f]} ∪ seen)
      (acc ++ [f <| rf_EvidenceIDs := sort_strings (rf_EvidenceIDs f) |>]) values
  end.

Definition finding_le (a b : ReviewFinding) : Prop := str_le (rf_FindingKey a) (rf_FindingKey b).
#[global] Instance finding_le_dec : RelDecision finding_le.
Proof. intros a b. unfold finding_le. apply _. Defined.

Definition ReviewBranchResultFromPayload (payload : string) : option (UUIDv7 * Z * ReviewBranchResult) :=
  try v <- Unmarshal fields_branchResultPayload zero_branchResultPayload payload ;;
  when negb (UUIDv7_Valid (bp_ReviewID v)) || (bp_BranchID v == "") || (bp_BranchPolicyRevision v == 0)
       || negb (validReviewResult (bp_Result v))
    return None ;;
  try findings <- read_findings ∅ [] (bp_Findings v) ;;
  when (bp_SourceRole v != "")
       && ((bp_Round v == 0) || (1000 <? bp_Round v) || negb (validUUIDSet (bp_EvidenceIDs v) true)
           || negb (validUUIDSet (bp_SupersedesResultEventIDs v) false)
           || negb (validUUIDSet (bp_ChangedConditionEvidenceIDs v) false))
    return None ;;
  Some (bp_ReviewID v, bp_BranchPolicyRevision v,
    {| vr_BranchID := bp_BranchID v; vr_SourceRole := bp_SourceRole v; vr_Authority := zero_principal;
       vr_Round := bp_Round v; vr_Result := bp_Result v; vr_Reasons := sort_strings (bp_Reasons v);
       vr_EvidenceIDs := sort_strings (bp_EvidenceIDs v); vr_Findings := merge_sort finding_le findings;
       vr_SupersedesResultEventIDs := sort_strings (bp_SupersedesResultEventIDs v);
       vr_ChangedConditionEvidenceIDs := sort_strings (bp_ChangedConditionEvidenceIDs v);
       vr_EventID := ""; vr_DecidedAt := zero_time;
       vr_CandidateArtifactDigest := bp_CandidateArtifactDigest v;
       vr_IndependenceReceipt := bp_IndependenceReceipt v; vr_ActorFQN := None; vr_Execution := None |}).

(** The findings of one result added to those seen; [None] is a conflict. *)
Fixpoint add_findings (findings : ReviewFindings) (values : list ReviewFinding) : option ReviewFindings :=
  match values with
  | [] => Some findings
  | f :: values =>
    match findings !! rf_FindingKey f with
    | Some prior => when prior != f return None ;; add_findings findings values
    | None => add_findings (<[rf_FindingKey f := f]> findings) values
    end
  end.

Fixpoint finding_set (findings : ReviewFindings) (results : list ReviewBranchResult) : option ReviewFindings :=
  match results with
  | [] => Some findings
  | r :: results => try next <- add_findings findings (vr_Findings r) ;; finding_set next results
  end.

Definition currentFindingSet (results : ReviewRecords) : option ReviewFindings :=
  finding_set ∅ (map snd (map_to_list results)).

(** The check of the role a result is given in; [""] accepts. *)
Definition source_role_reason (s : CompletionReviewSnapshot) (spec : ReviewBranchSpec)
    (r : ReviewBranchResult) : string :=
  if vr_SourceRole r == "VALIDATOR" then
    when vr_Authority r != bs_Validator spec return "VALIDATOR_MISMATCH" ;;
    when bs_RoundLimit spec <? vr_Round r return "BRANCH_ROUND_EXHAUSTED" ;;
    when After (vr_DecidedAt r) (bs_DeadlineAt spec) return "BRANCH_DEADLINE_EXCEEDED" ;;
    ""
  else if vr_SourceRole r == "ADJUDICATOR" then
    when vr_Authority r != rj_Adjudicator (cr_Adjudication s) return "ADJUDICATOR_MISMATCH" ;;
    when rj_RoundLimit (cr_Adjudication s) <? vr_Round r return "ADJUDICATION_EXHAUSTED" ;;
    when After (vr_DecidedAt r) (rj_DeadlineAt (cr_Adjudication s)) return "ADJUDICATION_DEADLINE_EXCEEDED" ;;
    ""
  else if vr_SourceRole r == "POLICY_TIMEOUT" then
    when pr_Kind (vr_Authority r) != PrincipalPolicy return "POLICY_AUTHORITY_REQUIRED" ;;
    when negb (After (vr_DecidedAt r) (bs_DeadlineAt spec)) return "DEADLINE_NOT_REACHED" ;;
    when (vr_Result r != "BLOCKED") && (vr_Result r != "CANCELLED") return "INVALID_TIMEOUT_RESULT" ;;
    ""
  else "INVALID_SOURCE_ROLE".

Definition BoundedReviewResultReason (s : CompletionReviewSnapshot) (r : ReviewBranchResult) : string :=
  when negb (is_nil (cr_Finalization s)) return "REVIEW_ALREADY_FINALIZED" ;;
  match cr_Branches s !! vr_BranchID r with
  | None => "INVALID_REVIEW_RESULT"
  | Some spec =>
    when negb (UUIDv7_Valid (vr_EventID r)) || IsZero (vr_DecidedAt r)
         || negb (PrincipalRef_Valid (vr_Authority r)) || (vr_Round r == 0)
         || negb (validReviewResult (vr_Result r)) || negb (validUUIDSet (vr_EvidenceIDs r) true)
      return "INVALID_REVIEW_RESULT" ;;
    when cr_TopologyBound s && (vr_CandidateArtifactDigest r != cr_CandidateArtifactDigest s)
      return "INDEPENDENCE_NOT_PROVEN" ;;
    when cr_TopologyBound s && (vr_SourceRole r != "POLICY_TIMEOUT")
         && (negb (Proves (vr_IndependenceReceipt r) (bs_RequiredIndependenceDimensions spec)
                     (bs_RequiredMethodIDs spec))
             || negb (RequiredSeparationProven (cr_Implementer s) (vr_Authority r) (vr_ActorFQN r)
                        (vr_Execution r) (bs_RequiredIndependenceDimensions spec)
                        (vr_IndependenceReceipt r)))
      return "INDEPENDENCE_NOT_PROVEN" ;;
    let role := source_role_reason s spec r in
    when role != "" return role ;;
    when negb (is_nil (cr_KnownResultEvents s !! vr_EventID r)) return "DUPLICATE_RESULT_EVENT" ;;
    let superseding :=
      match cr_ResultRecords s !! vr_BranchID r with
      | Some prior =>
        when (vr_SupersedesResultEventIDs r != [vr_EventID prior])
             || (llen (vr_ChangedConditionEvidenceIDs r) == 0)
             || (vr_SourceRole r == vr_SourceRole prior) && (vr_Round r <=? vr_Round prior)
          return "CHANGED_CONDITION_REQUIRED" ;;
        ""
      | None => when llen (vr_SupersedesResultEventIDs r) != 0 return "UNKNOWN_SUPERSEDED_RESULT" ;; ""
      end in
    when superseding != "" return superseding ;;
    when is_nil (currentFindingSet (<[vr_BranchID r := r]> (cr_ResultRecords s)))
      return "FINDING_KEY_CONFLICT" ;;
    ""
  end.

(** The verdicts as the join takes them. *)
Definition verdict_list (results : ReviewVerdicts) : list ReviewBranchResult :=
  map (fun kv => zero_ReviewBranchResult <| vr_BranchID := fst kv |> <| vr_Result := snd kv |>)
    (map_to_list results).

Definition ApplyBoundedReviewBranchResult (s : CompletionReviewSnapshot) (r : ReviewBranchResult)
    : CompletionReviewSnapshot * bool :=
  when BoundedReviewResultReason s r != "" return (s, false) ;;
  let records : ReviewRecords := <[vr_BranchID r := r]> (cr_ResultRecords s) in
  let results : ReviewVerdicts := <[vr_BranchID r := vr_Result r]> (cr_Results s) in
  let join := EvaluateReviewJoin (cr_RequiredBranchIDs s) (cr_PartialResultPolicy s) (verdict_list results) in
  let next :=
    s <| cr_ResultRecords := records |>
      <| cr_KnownResultEvents := <[vr_EventID r := r]> (cr_KnownResultEvents s) |>
      <| cr_CurrentFindings := default ∅ (currentFindingSet records) |>
      <| cr_Results := results |> <| cr_ReviewRevision := u64 (cr_ReviewRevision s + 1) |>
      <| cr_Join := join |> in
  (next, jn_Status join != "CONFLICT").

Definition ApplyReviewBranchResult (s : CompletionReviewSnapshot) (r : ReviewBranchResult)
    : CompletionReviewSnapshot * bool :=
  when negb (bool_decide (cr_Branches s = ∅)) return ApplyBoundedReviewBranchResult s r ;;
  when negb (contains (cr_RequiredBranchIDs s) (vr_BranchID r)) return (s, false) ;;
  when match cr_Results s !! vr_BranchID r with Some prior => prior != vr_Result r | None => false end
    return (s, false) ;;
  let results : ReviewVerdicts := <[vr_BranchID r := vr_Result r]> (cr_Results s) in
  let join := EvaluateReviewJoin (cr_RequiredBranchIDs s) (cr_PartialResultPolicy s) (verdict_list results) in
  (s <| cr_Results := results |> <| cr_Join := join |>, jn_Status join != "CONFLICT").

(** ** Finalisation *)

Record reviewFinalizePayload := mkreviewFinalizePayload {
  fz_ReviewID : UUIDv7;
  fz_SubjectKind : string;
  fz_SubjectID : UUIDv7;
  fz_LifecycleEpoch : Z;
  fz_BranchPolicyRevision : Z;
  fz_ExpectedReviewRevision : Z;
  fz_TerminalStatus : string;
  fz_ResultEventIDs : list UUIDv7;
  fz_EvidenceIDs : list UUIDv7;
  fz_ScopeRevision : Z;
  fz_WorkProfile : WorkProfileBinding;
  fz_CandidateArtifactDigest : Digest;
  fz_VerificationTopologyDigest : Digest
}.

#[export] Instance eta_reviewFinalizePayload : Eta reviewFinalizePayload := fun r =>
  mkreviewFinalizePayload
    (fz_ReviewID r) (fz_SubjectKind r) (fz_SubjectID r) (fz_LifecycleEpoch r)
    (fz_BranchPolicyRevision r) (fz_ExpectedReviewRevision r) (fz_TerminalStatus r)
    (fz_ResultEventIDs r) (fz_EvidenceIDs r) (fz_ScopeRevision r) (fz_WorkProfile r)
    (fz_CandidateArtifactDigest r) (fz_VerificationTopologyDigest r).

Definition zero_reviewFinalizePayload : reviewFinalizePayload :=
  mkreviewFinalizePayload
    "" "" "" 0 0 0 "" [] [] 0 zero_WorkProfileBinding "" "".

Definition fields_reviewFinalizePayload : list (field reviewFinalizePayload) :=
  [
    fld "review_id" fz_ReviewID dec_string;
    fld "subject_kind" fz_SubjectKind dec_string;
    fld "subject_id" fz_SubjectID dec_string;
    fld "lifecycle_epoch" fz_LifecycleEpoch dec_u64;
    fld "branch_policy_revision" fz_BranchPolicyRevision dec_u64;
    fld "expected_review_revision" fz_ExpectedReviewRevision dec_u64;
    fld "terminal_status" fz_TerminalStatus dec_string;
    fld "result_event_ids" fz_ResultEventIDs (dec_slice "" dec_string);
    fld "evidence_ids" fz_EvidenceIDs (dec_slice "" dec_string);
    fld "scope_revision" fz_ScopeRevision dec_u64;
    fld "work_profile" fz_WorkProfile dec_WorkProfileBinding;
    fld "candidate_artifact_digest" fz_CandidateArtifactDigest dec_string;
    fld "verification_topology_digest" fz_VerificationTopologyDigest dec_string
  ].

Definition ApplyReviewFinalization (s : CompletionReviewSnapshot) (eventID : UUIDv7) (payload : string)
    : CompletionReviewSnapshot * bool :=
  match Unmarshal fields_reviewFinalizePayload zero_reviewFinalizePayload payload with
  | None => (s, false)
  | Some v =>
    let subject := mkRef (fz_SubjectKind v) (fz_SubjectID v) in
    when negb (UUIDv7_Valid (fz_ReviewID v)) || negb (UUIDv7_Valid eventID)
         || negb (is_nil (cr_Finalization s)) || (subject != cr_Subject s)
         || (fz_LifecycleEpoch v != cr_LifecycleEpoch s)
         || (fz_BranchPolicyRevision v != cr_BranchPolicyRevision s)
         || (fz_ExpectedReviewRevision v != cr_ReviewRevision s) || negb (jn_Complete (cr_Join s))
         || (fz_TerminalStatus v != jn_Status (cr_Join s)) || negb (validUUIDSet (fz_ResultEventIDs v) true)
         || negb (validUUIDSet (fz_EvidenceIDs v) true)
      return (s, false) ;;
    when cr_TopologyBound s
         && ((fz_ScopeRevision v != cr_ScopeRevision s) || (fz_WorkProfile v != cr_WorkProfile s)
             || (fz_CandidateArtifactDigest v != cr_CandidateArtifactDigest s)
             || (fz_VerificationTopologyDigest v != cr_VerificationTopologyDigest s))
      return (s, false) ;;
    let want := sort_strings (map (fun kv => vr_EventID (snd kv)) (map_to_list (cr_ResultRecords s))) in
    let got := sort_strings (fz_ResultEventIDs v) in
    when want != got return (s, false) ;;
    (s <| cr_Finalization := Some
            {| rz_EventID := eventID; rz_ReviewRevision := fz_ExpectedReviewRevision v;
               rz_TerminalStatus := fz_TerminalStatus v; rz_ResultEventIDs := got;
               rz_EvidenceIDs := fz_EvidenceIDs v; rz_ScopeRevision := fz_ScopeRevision v;
               rz_WorkProfile := fz_WorkProfile v; rz_CandidateArtifactDigest := fz_CandidateArtifactDigest v;
               rz_VerificationTopologyDigest := fz_VerificationTopologyDigest v |} |>, true)
  end.

(** The loop of [CanonicalSuccessorIDs]: valid and strictly increasing. *)
Fixpoint increasing_ids (previous : option UUIDv7) (ids : list UUIDv7) : bool :=
  match ids with
  | [] => true
  | id :: ids =>
    when negb (UUIDv7_Valid id) return false ;;
    when match previous with Some p => bool_decide (str_le id p) | None => false end return false ;;
    increasing_ids (Some id) ids
  end.

(** [sort.SliceIsSorted]: no element is below its predecessor. *)
Fixpoint slice_is_sorted (ids : list UUIDv7) : bool :=
  match ids with
  | a :: ((b :: _) as rest) => bool_decide (str_le a b) && slice_is_sorted rest
  | _ => true
  end.

Definition CanonicalSuccessorIDs (ids : list UUIDv7) : bool :=
  when llen ids == 0 return false ;;
  when negb (increasing_ids None ids) return false ;;
  slice_is_sorted ids.

Definition SchemaVersion : string := "1.6.0".

Definition CompatibilityOutcome (sourceVersion : string) (exactContextAvailable : bool) : string :=
  when (sourceVersion == SchemaVersion) && exactContextAvailable return "ACCEPTED" ;;
  "MIGRATION_REQUIRED".

(** ** Planning a validation review *)

Inductive ValidationOpeningStatus := ValidationOpeningReady | ValidationOpeningInvalid.

Record ValidationReviewInput := mkReviewInput {
  vi_ReviewID : UUIDv7;
  vi_Subject : AggregateState;
  vi_CriteriaRevision : Z;
  vi_EvidenceSetDigest : Digest;
  vi_BranchPolicyRevision : Z;
  vi_RequiredBranchIDs : list string;
  vi_Branches : list ReviewBranchSpec;
  vi_Adjudication : ReviewAdjudication;
  vi_PartialResultPolicy : string;
  vi_WorkProfile : WorkProfileBinding;
  vi_CandidateArtifactDigest : Digest;
  vi_Implementer : WorkExecutionIdentity;
  vi_VerificationTopologyDigest : Digest;
  vi_VariantGroupID : option UUIDv7;
  vi_VariantGroupRevision : Z;
  vi_VariantSelectionEventID : UUIDv7;
  vi_Parents : list DagParent
}.

Record ValidationReviewDecision := mkReviewDecision {
  vd_Status : ValidationOpeningStatus;
  vd_Reason : string;
  vd_ReviewID : UUIDv7;
  vd_Subject : AggregateState;
  vd_CriteriaRevision : Z;
  vd_EvidenceSetDigest : Digest;
  vd_BranchPolicyRevision : Z;
  vd_RequiredBranchIDs : list string;
  vd_Branches : list ReviewBranchSpec;
  vd_Adjudication : ReviewAdjudication;
  vd_PartialResultPolicy : string;
  vd_WorkProfile : WorkProfileBinding;
  vd_CandidateArtifactDigest : Digest;
  vd_Implementer : WorkExecutionIdentity;
  vd_VerificationTopologyDigest : Digest;
  vd_VariantGroupID : option UUIDv7;
  vd_VariantGroupRevision : Z;
  vd_VariantSelectionEventID : UUIDv7;
  vd_Parents : list DagParent
}.

(** The checks of one branch, with its criteria sorted. *)
Definition canonical_branch (b : ReviewBranchSpec) : option ReviewBranchSpec :=
  when (bs_BranchID b == "") || (4096 <? slen (bs_BranchID b)) || negb (PrincipalRef_Valid (bs_Validator b))
       || negb (ActorFQN_Valid (bs_ResolutionOwnerFQN b)) || (llen (bs_AcceptanceCriteria b) == 0)
       || (64 <? llen (bs_AcceptanceCriteria b)) || negb (validUUIDSet (bs_InputEvidenceIDs b) true)
       || IsZero (bs_DeadlineAt b) || (bs_RoundLimit b == 0) || (1000 <? bs_RoundLimit b)
       || negb (validUniqueDimensions (bs_RequiredIndependenceDimensions b))
       || negb (validUniqueStrings (bs_RequiredMethodIDs b) 1 64)
    return None ;;
  let criteria := sort_strings (bs_AcceptanceCriteria b) in
  when negb (forallb short_string criteria) || adjacent_dup criteria return None ;;
  Some (sorted_spec b).

Definition branch_le (a b : ReviewBranchSpec) : Prop := str_le (bs_BranchID a) (bs_BranchID b).
#[global] Instance branch_le_dec : RelDecision branch_le.
Proof. intros a b. unfold branch_le. apply _. Defined.

Definition canonicalReviewBranchSpecs (values : list ReviewBranchSpec) : option (list ReviewBranchSpec) :=
  when (llen values == 0) || (32 <? llen values) return None ;;
  try branches <- mapM canonical_branch values ;;
  let branches := merge_sort branch_le branches in
  when adjacent_key bs_BranchID branches return None ;;
  Some branches.

Definition canonicalValidationParents (values : list DagParent) : option (list DagParent) :=
  when (llen values == 0) || (64 <? llen values) return None ;;
  when negb (forallb parent_ok values) return None ;;
  let parents := canonicalParents values in
  when adjacent_dup parents return None ;;
  Some parents.

Definition variant_coherent (input : ValidationReviewInput) : bool :=
  match vi_VariantGroupID input with
  | Some group =>
    negb (negb (UUIDv7_Valid group) || (vi_VariantGroupRevision input == 0)
          || negb (UUIDv7_Valid (vi_VariantSelectionEventID input)))
  | None => negb ((vi_VariantGroupRevision input != 0) || (vi_VariantSelectionEventID input != ""))
  end.

(** The ready decision, or [None] where the code returns the invalid one. *)
Definition plan_review (input : ValidationReviewInput) : option ValidationReviewDecision :=
  let subject := vi_Subject input in
  when negb (UUIDv7_Valid (vi_ReviewID input))
       || (as_Kind subject != AggregateTask) && (as_Kind subject != AggregateStory)
       || negb (UUIDv7_Valid (as_ID subject)) || (as_Revision subject == 0)
       || (as_LifecycleEpoch subject == 0) || (as_ScopeRevision subject == 0)
       || (as_Phase subject != PhaseActive) || (as_Condition subject != ConditionRunnable)
       || (vi_CriteriaRevision input == 0) || negb (Digest_Valid (vi_EvidenceSetDigest input))
       || (vi_BranchPolicyRevision input == 0)
       || (vi_PartialResultPolicy input != "WAIT_ALL") && (vi_PartialResultPolicy input != "FAIL_FAST")
       || negb (WorkProfileBinding_Valid (vi_WorkProfile input))
       || (wb_LifecycleEpoch (vi_WorkProfile input) != as_LifecycleEpoch subject)
       || (wb_ScopeRevision (vi_WorkProfile input) != as_ScopeRevision subject)
       || negb (Digest_Valid (vi_CandidateArtifactDigest input))
       || negb (WorkExecutionIdentity_Valid (vi_Implementer input))
       || negb (Digest_Valid (vi_VerificationTopologyDigest input)) || negb (variant_coherent input)
    return None ;;
  try specs <- canonicalReviewBranchSpecs (vi_Branches input) ;;
  let branchIDs := map bs_BranchID specs in
  when (0 <? llen (vi_RequiredBranchIDs input))
       && negb (canonicalValidationBranches (vi_RequiredBranchIDs input) == Some branchIDs)
    return None ;;
  try branches <- canonicalValidationBranches branchIDs ;;
  when negb (adjudication_ok (vi_Adjudication input)) return None ;;
  try parents <- canonicalValidationParents (vi_Parents input) ;;
  when negb (is_nil (vi_VariantGroupID input))
       && negb (containsDagParent parents (vi_VariantSelectionEventID input) EdgeResponse)
    return None ;;
  Some
    {| vd_Status := ValidationOpeningReady; vd_Reason := "READY_TO_OPEN"; vd_ReviewID := vi_ReviewID input;
       vd_Subject := subject; vd_CriteriaRevision := vi_CriteriaRevision input;
       vd_EvidenceSetDigest := vi_EvidenceSetDigest input;
       vd_BranchPolicyRevision := vi_BranchPolicyRevision input; vd_RequiredBranchIDs := branches;
       vd_Branches := specs; vd_Adjudication := vi_Adjudication input;
       vd_PartialResultPolicy := vi_PartialResultPolicy input; vd_WorkProfile := vi_WorkProfile input;
       vd_CandidateArtifactDigest := vi_CandidateArtifactDigest input;
       vd_Implementer := vi_Implementer input;
       vd_VerificationTopologyDigest := vi_VerificationTopologyDigest input;
       vd_VariantGroupID := vi_VariantGroupID input;
       vd_VariantGroupRevision :=
         (if is_nil (vi_VariantGroupID input) then 0 else vi_VariantGroupRevision input);
       vd_VariantSelectionEventID :=
         (if is_nil (vi_VariantGroupID input) then "" else vi_VariantSelectionEventID input);
       vd_Parents := parents |}.

Definition PlanValidationReview (input : ValidationReviewInput) : ValidationReviewDecision :=
  match plan_review input with
  | Some decision => decision
  | None =>
    {| vd_Status := ValidationOpeningInvalid; vd_Reason := "INVALID_VALIDATION_REVIEW_INPUT";
       vd_ReviewID := vi_ReviewID input; vd_Subject := vi_Subject input; vd_CriteriaRevision := 0;
       vd_EvidenceSetDigest := ""; vd_BranchPolicyRevision := 0; vd_RequiredBranchIDs := [];
       vd_Branches := []; vd_Adjudication := zero_ReviewAdjudication; vd_PartialResultPolicy := "";
       vd_WorkProfile := zero_WorkProfileBinding; vd_CandidateArtifactDigest := "";
       vd_Implementer := zero_WorkExecutionIdentity; vd_VerificationTopologyDigest := "";
       vd_VariantGroupID := None; vd_VariantGroupRevision := 0; vd_VariantSelectionEventID := "";
       vd_Parents := [] |}
  end.

Record ValidationJoinDecision := mkJoinDecision {
  vj_Complete : bool;
  vj_Status : string;
  vj_RequiredBranchIDs : list string;
  vj_MissingBranchIDs : list string;
  vj_Results : list ReviewBranchResult
}.

Definition verdict_le (a b : ReviewBranchResult) : Prop := str_le (vr_BranchID a) (vr_BranchID b).
#[global] Instance verdict_le_dec : RelDecision verdict_le.
Proof. intros a b. unfold verdict_le. apply _. Defined.

Definition PlanValidationJoin (s : CompletionReviewSnapshot) : ValidationJoinDecision :=
  let conflict := mkJoinDecision false "CONFLICT" [] [] [] in
  match canonicalValidationBranches (cr_RequiredBranchIDs s) with
  | None => conflict
  | Some branches =>
    when (cr_BranchPolicyRevision s == 0)
         || (cr_PartialResultPolicy s != "WAIT_ALL") && (cr_PartialResultPolicy s != "FAIL_FAST")
         || (32 <? Z.of_nat (size (cr_Results s)))
      return conflict ;;
    let results := merge_sort verdict_le (verdict_list (cr_Results s)) in
    let join := EvaluateReviewJoin branches (cr_PartialResultPolicy s) results in
    when jn_Status join == "CONFLICT" return conflict ;;
    let observed : gset string := list_to_set (map vr_BranchID results) in
    let missing := List.filter (fun branch => negb (bool_decide (branch ∈ observed))) branches in
    mkJoinDecision (jn_Complete join) (jn_Status join) branches missing results
  end.
