(* ===== verification/Completion.v ===== *)
(** * Planning completion and reopening ([kernel/completion.go])

    [PlanCompletion] decides whether finished work may be completed on the
    strength of a finalised review, [PlanReopening] whether completed work may be
    reopened with a larger scope. *)

From S2P Require Import Prelude GoText GoTime GoJson GoMarshal Types Samples Payload Envelope State.
From S2P Require Import WorkProfile Variant Review.

Inductive CompletionPlanningStatus :=
| CompletionReady | CompletionNotReady | CompletionAlreadyComplete | CompletionInvalid.

Record CompletionInput := mkCompletionInput {
  ci_Work : AggregateState;
  ci_ReviewID : UUIDv7;
  ci_Review : CompletionReviewSnapshot;
  ci_EvidenceRefs : list EvidenceRef;
  ci_ArtifactDigests : list Digest;
  ci_UnresolvedExceptions : list string;
  ci_DependencyTasks : list AggregateState;
  ci_Parents : list DagParent
}.

Record CompletionDecision := mkCompletionDecision {
  cd_Status : CompletionPlanningStatus;
  cd_Reason : string;
  cd_Work : AggregateState;
  cd_ReviewID : UUIDv7;
  cd_ReviewRevision : Z;
  cd_BranchPolicyRevision : Z;
  cd_CriteriaRevision : Z;
  cd_FinalizedEventID : UUIDv7;
  cd_EvidenceRefs : list EvidenceRef;
  cd_ArtifactDigests : list Digest;
  cd_DependencyTasks : list AggregateState;
  cd_Parents : list DagParent
}.

Definition canonicalCompletionEvidence (values : list EvidenceRef) : option (list EvidenceRef) :=
  when (llen values == 0) || (64 <? llen values) return None ;;
  when negb (forallb evidence_ok values) return None ;;
  let result := merge_sort (key_le er_EvidenceID er_SHA256) values in
  when adjacent_key er_EvidenceID result return None ;;
  Some result.

Definition canonicalCompletionDigests (values : list Digest) : option (list Digest) :=
  when 64 <? llen values return None ;;
  when negb (forallb Digest_Valid values) return None ;;
  let result := sort_strings values in
  when adjacent_dup result return None ;;
  Some result.

Definition state_le (a b : AggregateState) : Prop := str_le (as_ID a) (as_ID b).
#[global] Instance state_le_dec : RelDecision state_le.
Proof. intros a b. unfold state_le. apply _. Defined.

Definition dependency_complete (v : AggregateState) : bool :=
  negb ((as_Kind v != AggregateTask) || negb (UUIDv7_Valid (as_ID v)) || (as_Revision v == 0)
        || (as_Phase v != PhaseCompleted)).

Definition canonicalCompletionDependencies (kind : AggregateKind) (values : list AggregateState)
    : option (list AggregateState) :=
  if kind == AggregateTask then (if llen values == 0 then Some [] else None) else
  when 64 <? llen values return None ;;
  when negb (forallb dependency_complete values) return None ;;
  let result := merge_sort state_le values in
  when adjacent_key as_ID result return None ;;
  Some result.

(** The review speaks about this work as it is now. *)
Definition review_current (input : CompletionInput) : bool :=
  let review := ci_Review input in
  let work := ci_Work input in
  negb ((cr_ReviewID review != ci_ReviewID input) || (cr_Subject review != mkRef (as_Kind work) (as_ID work))
    || (cr_LifecycleEpoch review != as_LifecycleEpoch work) || (cr_CriteriaRevision review == 0)
    || (cr_BranchPolicyRevision review == 0) || (cr_ReviewRevision review == 0)).

Definition topology_current (input : CompletionInput) : bool :=
  let review := ci_Review input in
  let work := ci_Work input in
  negb (cr_TopologyBound review
    && ((as_ScopeRevision work == 0) || (cr_ScopeRevision review != as_ScopeRevision work)
        || (wb_LifecycleEpoch (cr_WorkProfile review) != as_LifecycleEpoch work)
        || (wb_ScopeRevision (cr_WorkProfile review) != as_ScopeRevision work)
        || negb (Digest_Valid (cr_CandidateArtifactDigest review))
        || negb (Digest_Valid (cr_VerificationTopologyDigest review)))).

Definition PlanCompletion (input : CompletionInput) : CompletionDecision :=
  let work := ci_Work input in
  let review := ci_Review input in
  let decide status reason :=
    mkCompletionDecision status reason work (ci_ReviewID input) 0 0 0 "" [] [] [] [] in
  let invalid := decide CompletionInvalid "INVALID_COMPLETION_INPUT" in
  when (as_Kind work != AggregateTask) && (as_Kind work != AggregateStory) || negb (UUIDv7_Valid (as_ID work))
       || (as_Revision work == 0) || (as_LifecycleEpoch work == 0) || negb (UUIDv7_Valid (ci_ReviewID input))
    return invalid ;;
  when (as_Phase work == PhaseCompleted) || (as_Phase work == PhaseAccepted)
    return decide CompletionAlreadyComplete "WORK_ALREADY_COMPLETE" ;;
  when (as_Phase work != PhaseActive) || (as_Condition work != ConditionRunnable)
    return decide CompletionNotReady "WORK_NOT_ACTIVE_RUNNABLE" ;;
  when 0 <? llen (ci_UnresolvedExceptions input)
    return decide CompletionNotReady "UNRESOLVED_EXCEPTIONS" ;;
  when negb (review_current input) return decide CompletionNotReady "STALE_COMPLETION_REVIEW" ;;
  when negb (topology_current input) return decide CompletionNotReady "STALE_VERIFICATION_TOPOLOGY" ;;
  match cr_Finalization review with
  | None => decide CompletionNotReady "REVIEW_NOT_FINALIZED"
  | Some finalization =>
    when negb (UUIDv7_Valid (rz_EventID finalization)) || (rz_ReviewRevision finalization != cr_ReviewRevision review)
      return decide CompletionNotReady "REVIEW_NOT_FINALIZED" ;;
    when (rz_TerminalStatus finalization != "PASS") || negb (jn_Complete (cr_Join review))
         || (jn_Status (cr_Join review) != "PASS")
      return decide CompletionNotReady "REVIEW_NOT_PASS" ;;
    match canonicalCompletionEvidence (ci_EvidenceRefs input) with
    | None => invalid
    | Some evidence =>
      match canonicalCompletionDigests (ci_ArtifactDigests input) with
      | None => invalid
      | Some artifacts =>
        match canonicalCompletionDependencies (as_Kind work) (ci_DependencyTasks input) with
        | None => decide CompletionNotReady "DEPENDENCY_NOT_READY"
        | Some dependencies =>
          match canonicalValidationParents
                  (ci_Parents input ++ [mkParent (rz_EventID finalization) EdgeCausal]) with
          | None => invalid
          | Some parents =>
            mkCompletionDecision CompletionReady "READY_TO_COMPLETE" work (ci_ReviewID input)
              (cr_ReviewRevision review) (cr_BranchPolicyRevision review) (cr_CriteriaRevision review)
              (rz_EventID finalization) evidence artifacts dependencies parents
          end
        end
      end
    end
  end.

(** ** Reopening *)

Inductive ReopeningPlanningStatus := ReopeningReady | ReopeningNotEligible | ReopeningInvalid.

Record ReopeningInput := mkReopeningInput {
  oi_Work : AggregateState;
  oi_NewScopeRevision : Z;
  oi_Reason : string;
  oi_OwnerCarryForward : bool;
  oi_ReopenEvidence : list EvidenceRef;
  oi_ReopenParents : list DagParent
}.

Record ReopeningDecision := mkReopeningDecision {
  od_ReopenStatus : ReopeningPlanningStatus;
  od_ReopenReason : string;
  od_Work : AggregateState;
  od_NewScopeRevision : Z;
  od_ReopeningReason : string;
  od_OwnerCarryForward : bool;
  od_ReopenEvidence : list EvidenceRef;
  od_ReopenParents : list DagParent
}.

Definition PlanReopening (input : ReopeningInput) : ReopeningDecision :=
  let work := oi_Work input in
  let decide status reason := mkReopeningDecision status reason work 0 "" false [] [] in
  let invalid := decide ReopeningInvalid "INVALID_REOPENING_INPUT" in
  when (as_Kind work != AggregateTask) && (as_Kind work != AggregateStory) || negb (UUIDv7_Valid (as_ID work))
       || (as_Revision work == 0) || (as_LifecycleEpoch work == 0) || (oi_NewScopeRevision input == 0)
       || (oi_NewScopeRevision input <=? as_ScopeRevision work) || (oi_Reason input == "")
       || (4096 <? slen (oi_Reason input))
    return invalid ;;
  when negb ((as_Phase work == PhaseCompleted)
             || (as_Kind work == AggregateStory) && (as_Phase work == PhaseAccepted))
    return decide ReopeningNotEligible "WORK_NOT_REOPENABLE" ;;
  when oi_OwnerCarryForward input && is_nil (own_OwnerFQN (as_Ownership work)) return invalid ;;
  match canonicalCompletionEvidence (oi_ReopenEvidence input) with
  | None => invalid
  | Some evidence =>
    match canonicalValidationParents (oi_ReopenParents input) with
    | None => invalid
    | Some parents =>
      mkReopeningDecision ReopeningReady "READY_TO_REOPEN" work (oi_NewScopeRevision input) (oi_Reason input)
        (oi_OwnerCarryForward input) evidence parents
    end
  end.
