(* ===== verification/ReviewLaws.v ===== *)
(** * What a review guarantees

    The join of the verdicts against its specification, the invariant of bounded
    reviews over all their transitions, and what a passed review proves about the
    work it was opened for. *)

From S2P Require Import Prelude GoText GoTime GoJson GoMarshal Types Samples Payload Envelope State.
From S2P Require Import WorkProfile Variant Review Completion.

(** ** The join *)

(** The verdicts are admissible and [m] records them. *)
Record observed_as (required : gset string) (start : ReviewVerdicts) (results : list ReviewBranchResult)
    (m : ReviewVerdicts) : Prop := {
  oa_ok : Forall (fun r => validReviewResult (vr_Result r) = true /\ vr_BranchID r ∈ required) results;
  oa_recorded : Forall (fun r => m !! vr_BranchID r = Some (vr_Result r)) results;
  oa_start : start ⊆ m;
  oa_only : forall b v, m !! b = Some v ->
    start !! b = Some v \/ Exists (fun r => vr_BranchID r = b /\ vr_Result r = v) results
}.

Lemma observe_spec required start results m :
  observe required start results = Some m <-> observed_as required start results m.
Proof.
  revert start. induction results as [|r results IH]; intros start; cbn [observe].
  - split.
    + intros [= ->]. split; [constructor|constructor|done|by left].
    + intros [_ _ Hs Ho]. f_equal. apply map_eq. intros b. apply option_eq. intros v. split.
      * intros H. by eapply lookup_weaken.
      * intros H. apply Ho in H as [H|H]; [done|by apply Exists_nil in H].
  - split.
    + intros H. destruct (negb (validReviewResult _)) eqn:E1; [discriminate H|].
      destruct (negb (bool_decide _)) eqn:E2; [discriminate H|].
      apply negb_false_iff in E1, E2. apply bool_decide_eq_true in E2.
      destruct (match start !! _ with Some _ => _ | None => _ end) eqn:E3; [discriminate H|].
      apply IH in H as [H1 H2 H3 H4].
      assert (start ⊆ <[vr_BranchID r := vr_Result r]> start) as Hs.
      { apply map_subseteq_spec. intros b v Hb. destruct (decide (b = vr_BranchID r)) as [->|Hn].
        - rewrite Hb in E3. bprop E3. by rewrite lookup_insert_eq, E3.
        - by rewrite lookup_insert_ne. }
      split.
      * by constructor.
      * constructor; [|done]. eapply lookup_weaken; [|exact H3]. apply lookup_insert_eq.
      * by etrans.
      * intros b v Hb. apply H4 in Hb as [Hb|Hb]; [|right; by right].
        apply lookup_insert_Some in Hb as [[<- <-]|[_ Hb]]; [right; by left|by left].
    + intros [H1 H2 H3 H4]. apply Forall_cons in H1 as [[Hv Hr] H1]. apply Forall_cons in H2 as [Hm H2].
      rewrite Hv, bool_decide_eq_true_2 by done. cbn [negb].
      assert (forall p, start !! vr_BranchID r = Some p -> p = vr_Result r) as Hp.
      { intros p Hp. eapply lookup_weaken in Hp; [|exact H3]. congruence. }
      replace (match start !! vr_BranchID r with Some prior => prior != vr_Result r | None => false end)
        with false.
      2: { destruct (start !! vr_BranchID r) as [p|]; [|done]. by rewrite (Hp p), bool_decide_refl. }
      apply IH. split; [done|done| |].
      * by apply insert_subseteq_l.
      * intros b v Hb. apply H4 in Hb as [Hb|Hb].
        -- left. destruct (decide (b = vr_BranchID r)) as [->|Hn]; [|by rewrite lookup_insert_ne].
           rewrite lookup_insert_eq. by rewrite (Hp v Hb).
        -- apply Exists_cons in Hb as [[<- <-]|Hb]; [|by right]. left. by rewrite lookup_insert_eq.
Qed.

Lemma observed_as_perm required start r1 r2 m :
  r1 ≡ₚ r2 -> observed_as required start r1 m -> observed_as required start r2 m.
Proof. intros Hp [H1 H2 H3 H4]. split; [by rewrite <- Hp|by rewrite <- Hp|done|]. intros b v Hb. rewrite <- Hp. auto. Qed.

Lemma observe_perm required start r1 r2 :
  r1 ≡ₚ r2 -> observe required start r1 = observe required start r2.
Proof.
  intros Hp. destruct (observe required start r1) as [m|] eqn:E1.
  - apply observe_spec in E1. symmetry. apply observe_spec. by eapply observed_as_perm.
  - destruct (observe required start r2) as [m|] eqn:E2; [|done]. apply observe_spec in E2.
    symmetry in Hp. eapply observed_as_perm, observe_spec in E2; [|exact Hp]. congruence.
Qed.

(** Joining verdicts does not depend on the order in which they arrive. *)
Theorem review_join_order_independent required policy r1 r2 :
  r1 ≡ₚ r2 -> EvaluateReviewJoin required policy r1 = EvaluateReviewJoin required policy r2.
Proof.
  intros Hp. unfold EvaluateReviewJoin, llen. by rewrite (observe_perm _ _ r1 r2 Hp), (Permutation_length Hp).
Qed.

Definition failures : list string := ["FAIL"; "BLOCKED"; "INCONCLUSIVE"; "CANCELLED"; "SUPERSEDED"].

Lemma no_failure (m : ReviewVerdicts) :
  deterministicReviewFailure m = "" -> forall b v, m !! b = Some v -> ~ v ∈ failures.
Proof.
  unfold deterministicReviewFailure. intros H b v Hb Hv.
  destruct (List.find _ _) as [c|] eqn:E.
  - cbn in H. subst c. apply find_some in E as [E _]. cbn in E. naive_solver.
  - apply (find_none _ _) with (x := v) in E; [|by apply list_elem_of_In].
    apply not_true_iff_false in E. apply E, contains_spec, list_elem_of_fmap.
    exists (b, v). split; [done|]. by apply elem_of_map_to_list.
Qed.

Lemma verdict_list_observed required (results : ReviewVerdicts) m :
  observe required ∅ (verdict_list results) = Some m ->
  m = results /\ forall b v, results !! b = Some v -> validReviewResult v = true /\ b ∈ required.
Proof.
  intros H. apply observe_spec in H as [H1 H2 _ H4]. unfold verdict_list in *.
  rewrite Forall_fmap in H1, H2. rewrite Forall_forall in H1, H2. split.
  - apply map_eq. intros b. apply option_eq. intros v. split.
    + intros Hb. apply H4 in Hb as [Hb|Hb]; [by rewrite lookup_empty in Hb|].
      apply Exists_exists in Hb as (r & Hr & <- & <-). apply list_elem_of_fmap in Hr as ([b v] & -> & Hr).
      cbn. by apply elem_of_map_to_list.
    + intros Hb. apply elem_of_map_to_list in Hb. by apply H2 in Hb.
  - intros b v Hb. apply elem_of_map_to_list in Hb. by apply H1 in Hb.
Qed.

(** A join that passes has a passing verdict of every required branch, and no
    other verdicts. *)
Lemma join_pass required policy results :
  EvaluateReviewJoin required policy (verdict_list results) = mkJoin true "PASS" ->
  forall b, b ∈ required -> results !! b = Some "PASS".
Proof.
  unfold EvaluateReviewJoin. intros H b Hb.
  destruct (_ && _) eqn:? in H; [discriminate H|]. destruct (_ || _) eqn:? in H; [discriminate H|].
  destruct (negb (check_unique _ _ _)) eqn:? in H; [discriminate H|].
  destruct (observe _ _ _) as [m|] eqn:E in H; [|discriminate H].
  apply verdict_list_observed in E as [-> Hr]. cbv zeta in H.
  destruct (deterministicReviewFailure results != "") eqn:Et; cbn [andb] in H.
  - exfalso. assert (deterministicReviewFailure results <> "PASS") as Hp.
    { unfold deterministicReviewFailure. destruct (List.find _ _) as [c|] eqn:E; [|discriminate].
      cbn. apply find_some in E as [E _]. cbn in E. naive_solver. }
    destruct (policy == "FAIL_FAST"); [injection H as H; done|].
    destruct (negb (_ =? _)); [discriminate H|]. injection H as H. done.
  - destruct (negb (_ =? _)) eqn:Es in H; [discriminate H|]. clear H.
    apply negb_false_iff, Z.eqb_eq, Nat2Z.inj in Es. bprop Et.
    assert (dom results = list_to_set required) as Hd.
    { apply set_subseteq_size_eq; [|rewrite size_dom; lia].
      intros x Hx. apply elem_of_dom in Hx as [v Hv]. by apply (Hr x v). }
    assert (b ∈ dom results) as Hbd by (rewrite Hd; by apply elem_of_list_to_set).
    apply elem_of_dom in Hbd as [v Hv]. rewrite Hv. f_equal.
    destruct (Hr b v Hv) as [Hval _]. pose proof (no_failure results Et b v Hv) as Hf.
    apply contains_spec in Hval. unfold failures in Hf. set_solver.
Qed.

(** ** The invariant of bounded reviews *)

(** A result is one the review may take for its branch: it comes in a role that
    may give it, and when the review is bound to a verification topology it is
    about the reviewed artifact and, unless it closes an expired branch,
    independent of the implementer. *)
Record admissible_result (s : CompletionReviewSnapshot) (spec : ReviewBranchSpec) (r : ReviewBranchResult) : Prop := {
  ad_event : UUIDv7_Valid (vr_EventID r) = true;
  ad_result : validReviewResult (vr_Result r) = true;
  ad_role : source_role_reason s spec r = "";
  ad_artifact : cr_TopologyBound s = true -> vr_CandidateArtifactDigest r = cr_CandidateArtifactDigest s;
  ad_independent : cr_TopologyBound s = true -> vr_SourceRole r <> "POLICY_TIMEOUT" ->
    RequiredSeparationProven (cr_Implementer s) (vr_Authority r) (vr_ActorFQN r) (vr_Execution r)
      (bs_RequiredIndependenceDimensions spec) (vr_IndependenceReceipt r) = true
}.

Lemma BoundedReviewResultReason_accepted s r :
  BoundedReviewResultReason s r = "" ->
  cr_Finalization s = None /\ cr_KnownResultEvents s !! vr_EventID r = None /\
  (exists spec, cr_Branches s !! vr_BranchID r = Some spec /\ admissible_result s spec r) /\
  is_Some (currentFindingSet (<[vr_BranchID r := r]> (cr_ResultRecords s))) /\
  (forall prior, cr_ResultRecords s !! vr_BranchID r = Some prior ->
     vr_SupersedesResultEventIDs r = [vr_EventID prior] /\ vr_ChangedConditionEvidenceIDs r <> []).
Proof.
  unfold BoundedReviewResultReason. intros H.
  destruct (negb (is_nil (cr_Finalization s))) eqn:E0; [discriminate H|].
  destruct (cr_Branches s !! vr_BranchID r) as [spec|] eqn:Eb; [|discriminate H].
  destruct (_ || _) eqn:E1 in H; [discriminate H|]. bprop E1. split_ands.
  destruct (_ && _) eqn:E2 in H; [discriminate H|].
  destruct (_ && _) eqn:E3 in H; [discriminate H|]. cbv zeta in H.
  destruct (source_role_reason s spec r != "") eqn:E4 in H; [rewrite H in E4; discriminate E4|]. bprop E4.
  destruct (negb (is_nil (cr_KnownResultEvents s !! vr_EventID r))) eqn:E5 in H; [discriminate H|].
  destruct (_ != "") eqn:E6 in H; [rewrite H in E6; discriminate E6|]. apply negb_false_iff, bool_decide_eq_true in E6.
  destruct (is_nil (currentFindingSet _)) eqn:E7 in H; [discriminate H|]. clear H.
  apply negb_false_iff, is_nil_true in E0, E5. split_and!; try done.
  - exists spec. split; [done|]. split; try done.
    + intros Ht. rewrite Ht in E2. cbn [andb] in E2. by bprop E2.
    + intros Ht Hr. rewrite Ht in E3. cbn [andb] in E3. rewrite (bool_decide_eq_false_2 _ Hr) in E3.
      cbn [negb andb] in E3. bprop E3. tauto.
  - by apply is_nil_false in E7.
  - intros prior Hp. rewrite Hp in E6. destruct (_ || _) eqn:E8 in E6; [discriminate E6|].
    rewrite !orb_false_iff in E8. destruct E8 as [[E8 E9] _]. bprop E8. split; [done|].
    intros E'. rewrite E' in E9. discriminate E9.
Qed.

(** The state of a bounded review that only its own transitions produce. *)
Record review_inv (s : CompletionReviewSnapshot) : Prop := {
  ri_branches : forall b, b ∈ cr_RequiredBranchIDs s <-> is_Some (cr_Branches s !! b);
  ri_results : cr_Results s = vr_Result <$> cr_ResultRecords s;
  ri_records : forall b r, cr_ResultRecords s !! b = Some r ->
    vr_BranchID r = b /\ (exists spec, cr_Branches s !! b = Some spec /\ admissible_result s spec r) /\
    cr_KnownResultEvents s !! vr_EventID r = Some r;
  ri_findings : currentFindingSet (cr_ResultRecords s) = Some (cr_CurrentFindings s);
  ri_join : cr_Join s
    = EvaluateReviewJoin (cr_RequiredBranchIDs s) (cr_PartialResultPolicy s) (verdict_list (cr_Results s));
  ri_final : forall z, cr_Finalization s = Some z ->
    cr_Join s = mkJoin true (rz_TerminalStatus z) /\ rz_ReviewRevision z = cr_ReviewRevision s /\
    rz_ResultEventIDs z = sort_strings (map (fun kv => vr_EventID (snd kv)) (map_to_list (cr_ResultRecords s))) /\
    (cr_TopologyBound s = true -> rz_CandidateArtifactDigest z = cr_CandidateArtifactDigest s)
}.

(** One accepted event of a bounded review. *)
Inductive review_step : CompletionReviewSnapshot -> CompletionReviewSnapshot -> Prop :=
| step_result s r s' : ApplyReviewBranchResult s r = (s', true) -> review_step s s'
| step_finalize s eventID payload s' : ApplyReviewFinalization s eventID payload = (s', true) -> review_step s s'.

Lemma bounded_result_inv s r s' :
  review_inv s -> ApplyBoundedReviewBranchResult s r = (s', true) -> review_inv s'.
Proof.
  intros [Hb Hr Hrec Hf Hj Hz] H. unfold ApplyBoundedReviewBranchResult in H.
  destruct (_ != "") eqn:E in H; [discriminate H|]. apply negb_false_iff, bool_decide_eq_true in E.
  apply BoundedReviewResultReason_accepted in E as (Hz0 & Hk & (spec & Hs & Ha) & Hset & _).
  cbv zeta in H. injection H as H _. subst s'.
  split; cbn [cr_RequiredBranchIDs cr_Branches cr_Results cr_ResultRecords cr_KnownResultEvents
    cr_CurrentFindings cr_Join cr_Finalization setf eta eta_CompletionReviewSnapshot]; try done.
  - by rewrite Hr, fmap_insert.
  - intros b r' Hr'. apply lookup_insert_Some in Hr' as [[<- <-]|[Hne Hr']].
    + split_and!; [done| |by apply lookup_insert_eq]. exists spec. split; [done|]. by destruct Ha; split.
    + destruct (Hrec b r' Hr') as (Hid & (spec' & Hs' & Ha') & Hk').
      split_and!; [done|exists spec'; split; [done|by destruct Ha'; split]|].
      rewrite lookup_insert_ne; [done|]. intros E. rewrite E in Hk. congruence.
  - destruct Hset as [m Hm]. by rewrite Hm.
  - intros z Hz'. change (cr_Finalization s = Some z) in Hz'. congruence.
Qed.

Lemma finalization_inv s eventID payload s' :
  review_inv s -> ApplyReviewFinalization s eventID payload = (s', true) -> review_inv s'.
Proof.
  intros [Hb Hr Hrec Hf Hj Hz] H. unfold ApplyReviewFinalization in H.
  destruct (Unmarshal _ _ _) as [v|]; [|discriminate H]. cbv zeta in H.
  destruct (_ || _) eqn:E1 in H; [discriminate H|]. bprop E1. split_ands.
  destruct (_ && _) eqn:E2 in H; [discriminate H|]. destruct (_ != _) eqn:E3 in H; [discriminate H|].
  bprop E3. injection H as H. subst s'. split; try done.
  - intros b r' Hr'. destruct (Hrec b r' Hr') as (Hid & (spec' & Hs' & Ha') & Hk').
    split_and!; [done|exists spec'; split; [done|by destruct Ha'; split]|done].
  - cbn. intros z [= <-]. cbn. split_and!; [| congruence | by rewrite E3 |].
    + destruct (cr_Join s) as [c st]. cbn in *. congruence.
    + intros Ht. rewrite Ht in E2. cbn [andb] in E2. bprop E2. tauto.
Qed.

Lemma review_step_branches s s' : review_step s s' -> cr_Branches s' = cr_Branches s.
Proof.
  destruct 1 as [s r s' H|s e p s' H].
  - unfold ApplyReviewBranchResult in H. destruct (negb _) in H.
    + unfold ApplyBoundedReviewBranchResult in H. destruct (_ != "") in H; [discriminate H|].
      cbv zeta in H. by injection H as <- _.
    + destruct (negb _) in H; [discriminate H|]. destruct (match _ with Some _ => _ | None => _ end) in H;
        [discriminate H|]. cbv zeta in H. by injection H as <- _.
  - unfold ApplyReviewFinalization in H. destruct (Unmarshal _ _ _) as [v|]; [|discriminate H]. cbv zeta in H.
    repeat (destruct (_ : bool) in H; [discriminate H|]). by injection H as <-.
Qed.

(** The states of a bounded review; the store that keeps it adds its identifier. *)
Inductive review_reachable : CompletionReviewSnapshot -> Prop :=
| reach_open payload s id :
    CompletionReviewFromPayload payload = Some s -> cr_Branches s <> ∅ ->
    review_reachable (s <| cr_ReviewID := id |>)
| reach_step s s' : review_reachable s -> review_step s s' -> review_reachable s'.

Lemma join_required_perm q1 q2 policy results :
  q1 ≡ₚ q2 -> EvaluateReviewJoin q1 policy results = EvaluateReviewJoin q2 policy results.
Proof.
  intros Hp. unfold EvaluateReviewJoin, llen. rewrite (Permutation_length Hp).
  rewrite (check_unique_perm short_string q1 q2 Hp).
  assert (list_to_set q1 =@{gset string} list_to_set q2) as ->; [|done].
  apply set_eq. intros x. by rewrite !elem_of_list_to_set, Hp.
Qed.

Lemma join_open_branches required policy results :
  jn_Status (EvaluateReviewJoin required policy results) <> "CONFLICT" ->
  canonicalValidationBranches required = Some (sort_strings required).
Proof.
  unfold EvaluateReviewJoin. intros H.
  destruct (_ && _) eqn:? in H; [by destruct H|]. destruct (_ || _) eqn:E in H; [by destruct H|].
  destruct (negb (check_unique _ _ _)) eqn:E2 in H; [by destruct H|]. clear H.
  apply negb_false_iff, check_unique_nil in E2 as [Hs Hn]. rewrite orb_false_iff in E. destruct E as [E _].
  unfold canonicalValidationBranches. rewrite E. apply forallb_True_iff in Hs. rewrite Hs. cbn [negb].
  by rewrite (proj2 (sort_strings_nodup required)).
Qed.

Lemma open_branches_spec bound values branches required branches' required' :
  open_branches bound branches required values = Some (branches', required') ->
  (forall b, b ∈ required <-> is_Some (branches !! b)) ->
  forall b, b ∈ required' <-> is_Some (branches' !! b).
Proof.
  revert branches required. induction values as [|v values IH]; intros branches required H Hb; cbn in H.
  - by injection H as <- <-.
  - destruct (negb (branch_ok bound v)); [discriminate H|]. destruct (negb (is_nil _)); [discriminate H|].
    eapply IH; [exact H|]. intros b. rewrite elem_of_app, list_elem_of_singleton, Hb, lookup_insert_is_Some.
    destruct (decide (b = bs_BranchID v)) as [->|Hn]; naive_solver.
Qed.

Lemma open_inv payload s :
  CompletionReviewFromPayload payload = Some s -> cr_Branches s <> ∅ -> review_inv s.
Proof.
  unfold CompletionReviewFromPayload. intros H Hne.
  destruct (Unmarshal _ _ _) as [v|]; [|discriminate H]. cbv zeta in H.
  destruct (_ || _) eqn:? in H; [discriminate H|]. destruct (_ && _) eqn:? in H; [discriminate H|].
  destruct (_ && _) eqn:? in H; [discriminate H|].
  destruct (if llen (ro_Branches v) == 0 then _ else _) as [[branches required]|] eqn:E in H; [|discriminate H].
  destruct (_ == "CONFLICT") eqn:Ec in H; [discriminate H|]. apply bool_decide_eq_false in Ec.
  injection H as <-. cbn in Hne. rewrite (join_open_branches _ _ _ Ec). cbn [default].
  assert (forall b, b ∈ required <-> is_Some (branches !! b)) as Hb.
  { destruct (llen (ro_Branches v) == 0); [by injection E as <- <-|].
    destruct (open_branches _ _ _ _) as [[br rq]|] eqn:Eo; [|discriminate E].
    cbn in E. destruct (negb (adjudication_ok _)) in E; [discriminate E|]. injection E as <- <-.
    eapply open_branches_spec; [exact Eo|]. intros b. rewrite lookup_empty. split; [|by intros []].
    intros Hx. by apply elem_of_nil in Hx. }
  split; cbn [cr_RequiredBranchIDs cr_Branches cr_Results cr_ResultRecords cr_KnownResultEvents
    cr_CurrentFindings cr_Join cr_Finalization cr_PartialResultPolicy].
  - intros b. by rewrite sort_strings_perm, Hb.
  - by rewrite fmap_empty.
  - intros b r Hr. by rewrite lookup_empty in Hr.
  - reflexivity.
  - unfold verdict_list. rewrite map_to_list_empty. cbn [map].
    by rewrite (join_required_perm _ _ _ _ (sort_strings_perm required)).
  - discriminate.
Qed.

Lemma reachable_inv s : review_reachable s -> review_inv s /\ cr_Branches s <> ∅.
Proof.
  induction 1 as [payload s id H Hne|s s' _ [IH Hne] Hstep].
  - split; [|done]. destruct (open_inv payload s H Hne) as [H1 H2 H3 H4 H5 H6].
    split; try done. intros b r Hr. destruct (H3 b r Hr) as (? & (spec & ? & [????? ]) & ?).
    split_and!; [done| |done]. exists spec. split; [done|]. by split.
  - split; [|by rewrite (review_step_branches s s' Hstep)].
    destruct Hstep as [s r s' H|s e p s' H]; [|by eapply finalization_inv].
    unfold ApplyReviewBranchResult in H. rewrite (bool_decide_eq_false_2 _ Hne) in H. cbn [negb] in H.
    by eapply bounded_result_inv.
Qed.

(** What a passing branch rests on. *)
Definition branch_passed (s : CompletionReviewSnapshot) (spec : ReviewBranchSpec) (r : ReviewBranchResult) : Prop :=
  vr_Result r = "PASS" /\
  ((vr_SourceRole r = "VALIDATOR" /\ vr_Authority r = bs_Validator spec /\ vr_Round r <= bs_RoundLimit spec /\
    After (vr_DecidedAt r) (bs_DeadlineAt spec) = false) \/
   (vr_SourceRole r = "ADJUDICATOR" /\ vr_Authority r = rj_Adjudicator (cr_Adjudication s) /\
    vr_Round r <= rj_RoundLimit (cr_Adjudication s) /\
    After (vr_DecidedAt r) (rj_DeadlineAt (cr_Adjudication s)) = false)) /\
  (cr_TopologyBound s = true ->
   vr_CandidateArtifactDigest r = cr_CandidateArtifactDigest s /\
   RequiredSeparationProven (cr_Implementer s) (vr_Authority r) (vr_ActorFQN r) (vr_Execution r)
     (bs_RequiredIndependenceDimensions spec) (vr_IndependenceReceipt r) = true).

Lemma admissible_pass s spec r :
  admissible_result s spec r -> vr_Result r = "PASS" -> branch_passed s spec r.
Proof.
  intros [_ _ Hr Ha Hi] Hp. split; [done|]. unfold source_role_reason in Hr.
  destruct (vr_SourceRole r == "VALIDATOR") eqn:E1; [|destruct (vr_SourceRole r == "ADJUDICATOR") eqn:E2;
    [|destruct (vr_SourceRole r == "POLICY_TIMEOUT") eqn:E3]]; unwhen Hr; try discriminate Hr.
  all: repeat match goal with H : _ = _ :> bool |- _ => progress bprop H end.
  - split; [left; split_and!; [done|done|lia|done]|]. intros Ht. split; [by apply Ha|]. apply Hi; [done|].
    rewrite E1. discriminate.
  - split; [right; split_and!; [done|done|lia|done]|]. intros Ht. split; [by apply Ha|]. apply Hi; [done|].
    rewrite E2. discriminate.
  - exfalso. match goal with H : _ && _ = false |- _ => rewrite Hp in H; discriminate H end.
Qed.

Lemma passed_branches s z :
  review_reachable s -> cr_Finalization s = Some z -> rz_TerminalStatus z = "PASS" ->
  forall b, b ∈ cr_RequiredBranchIDs s ->
  exists spec r, cr_Branches s !! b = Some spec /\ cr_ResultRecords s !! b = Some r /\
    vr_BranchID r = b /\ vr_EventID r ∈ rz_ResultEventIDs z /\ branch_passed s spec r.
Proof.
  intros Hr Hz Hp b Hb. destruct (reachable_inv s Hr) as [[_ Hres Hrec _ Hj Hf] _].
  destruct (Hf z Hz) as (Hjoin & _ & Hids & _). rewrite Hp, Hj in Hjoin.
  pose proof (join_pass _ _ _ Hjoin b Hb) as Hv. rewrite Hres, lookup_fmap in Hv.
  apply fmap_Some in Hv as (r & Hr' & Hpass).
  destruct (Hrec b r Hr') as (Hid & (spec & Hs & Ha) & _). exists spec, r. split_and!; try done.
  - rewrite Hids, sort_strings_perm. apply list_elem_of_fmap. exists (b, r). split; [done|].
    by apply elem_of_map_to_list.
  - by apply admissible_pass.
Qed.

(** [C24] A passed review means what it says. In every state a bounded review can
    reach through accepted results and finalisation, a finalisation with status
    PASS implies that every required branch has a passing result on record, given
    by its validator or by the adjudicator, in time and within the round limit,
    listed in the finalisation, and, when the review is bound to a verification
    topology, about the very artifact under review and proven independent of its
    implementer. A timeout never passes a branch. *)
Theorem review_pass_sound s z :
  review_reachable s -> cr_Finalization s = Some z -> rz_TerminalStatus z = "PASS" ->
  forall b, b ∈ cr_RequiredBranchIDs s ->
  exists spec r, cr_Branches s !! b = Some spec /\ cr_ResultRecords s !! b = Some r /\
    vr_BranchID r = b /\ vr_EventID r ∈ rz_ResultEventIDs z /\ branch_passed s spec r.
Proof. apply passed_branches. Qed.

(** A finalised review is closed: no later result and no second
    finalisation is accepted, whatever their content. *)
Theorem finalized_review_is_closed s z :
  review_reachable s -> cr_Finalization s = Some z ->
  (forall r, snd (ApplyReviewBranchResult s r) = false) /\
  (forall eventID payload, snd (ApplyReviewFinalization s eventID payload) = false).
Proof.
  intros Hr Hz. destruct (reachable_inv s Hr) as [_ Hne]. split.
  - intros r. unfold ApplyReviewBranchResult. rewrite (bool_decide_eq_false_2 _ Hne). cbn [negb].
    unfold ApplyBoundedReviewBranchResult, BoundedReviewResultReason. by rewrite Hz.
  - intros e p. unfold ApplyReviewFinalization. destruct (Unmarshal _ _ _) as [v|]; [|done].
    cbv zeta. rewrite Hz. cbn [is_nil negb]. rewrite orb_true_r. done.
Qed.

Lemma canonicalValidationParents_perm l parents :
  canonicalValidationParents l = Some parents -> parents ≡ₚ l.
Proof.
  unfold canonicalValidationParents. intros H. accepted H. subst parents. apply merge_sort_Permutation.
Qed.

Lemma story_dependencies values deps :
  canonicalCompletionDependencies AggregateStory values = Some deps ->
  deps ≡ₚ values /\ Forall (fun t => as_Kind t = AggregateTask /\ as_Phase t = PhaseCompleted) values.
Proof.
  unfold canonicalCompletionDependencies. intros H. change (AggregateStory == AggregateTask) with false in H. cbv iota in H. accepted H. subst deps.
  split; [apply merge_sort_Permutation|].
  match goal with H : negb (forallb _ _) = false |- _ => apply negb_false_iff, forallb_True_iff in H; rename H into HF end.
  eapply Forall_impl; [exact HF|]. intros t Ht. unfold dependency_complete in Ht. bprop Ht. tauto.
Qed.

(** [C27] Work is only planned for completion on a passed review of that very
    work: the work is active, runnable and without open exceptions, the review is
    of its current lifecycle epoch (and of its current scope when bound to a
    topology), every required branch passed, the dependencies of a story are
    distinct completed tasks, and the finalisation is among the causes. *)
Theorem completion_rests_on_review input :
  review_reachable (ci_Review input) -> cd_Status (PlanCompletion input) = CompletionReady ->
  let work := ci_Work input in
  let review := ci_Review input in
  let plan := PlanCompletion input in
  as_Phase work = PhaseActive /\ as_Condition work = ConditionRunnable /\ ci_UnresolvedExceptions input = [] /\
  cr_Subject review = mkRef (as_Kind work) (as_ID work) /\ cr_LifecycleEpoch review = as_LifecycleEpoch work /\
  (cr_TopologyBound review = true -> cr_ScopeRevision review = as_ScopeRevision work) /\
  (forall b, b ∈ cr_RequiredBranchIDs review -> exists spec r,
     cr_Branches review !! b = Some spec /\ cr_ResultRecords review !! b = Some r /\ branch_passed review spec r) /\
  (as_Kind work = AggregateStory -> cd_DependencyTasks plan ≡ₚ ci_DependencyTasks input /\
     Forall (fun t => as_Kind t = AggregateTask /\ as_Phase t = PhaseCompleted) (ci_DependencyTasks input)) /\
  mkParent (cd_FinalizedEventID plan) EdgeCausal ∈ cd_Parents plan.
Proof.
  intros Hr H. cbv zeta. unfold PlanCompletion in *. cbv zeta in *.
  destruct (_ || _) eqn:E0 in H |- *; [discriminate H|].
  destruct (_ || _) eqn:E1 in H |- *; [discriminate H|].
  destruct (_ || _) eqn:E2 in H |- *; [discriminate H|].
  destruct (0 <? _) eqn:E3 in H |- *; [discriminate H|].
  destruct (negb (review_current input)) eqn:E4 in H |- *; [discriminate H|].
  destruct (negb (topology_current input)) eqn:E5 in H |- *; [discriminate H|].
  destruct (cr_Finalization (ci_Review input)) as [z|] eqn:Ez; [|discriminate H].
  destruct (_ || _) eqn:E6 in H |- *; [discriminate H|].
  destruct (_ || _) eqn:E7 in H |- *; [discriminate H|].
  destruct (canonicalCompletionEvidence _) as [ev|] in H |- *; [|discriminate H].
  destruct (canonicalCompletionDigests _) as [ar|] in H |- *; [|discriminate H].
  destruct (canonicalCompletionDependencies _ _) as [deps|] eqn:Ed in H |- *; [|discriminate H].
  destruct (canonicalValidationParents _) as [parents|] eqn:Ep in H |- *; [|discriminate H].
  clear H. cbn [cd_DependencyTasks cd_FinalizedEventID cd_Parents].
  unfold review_current in E4. unfold topology_current in E5.
  bprop E2. bprop E4. bprop E7. rewrite negb_involutive in E5. split_ands. split_and!; try done.
  - destruct (ci_UnresolvedExceptions input); [done|discriminate E3].
  - intros Ht. rewrite Ht in E5. cbn [andb] in E5. bprop E5. tauto.
  - intros b Hb. destruct (passed_branches (ci_Review input) z Hr Ez ltac:(done) b Hb)
      as (spec & r & ? & ? & _ & _ & ?). eauto.
  - intros Hk. rewrite Hk in Ed. by apply story_dependencies.
  - rewrite (canonicalValidationParents_perm _ _ Ep). apply elem_of_app. right. by left.
Qed.

(** ** A concrete review *)

Definition sample_review_payload : string :=
  jdoc [("subject_kind", qs "task"); ("subject_id", qs (uid "1")); ("lifecycle_epoch", "1");
        ("criteria_revision", "1"); ("evidence_set_digest", qs (dig "a")); ("branch_policy_revision", "1");
        ("branches", jarr [jobj
           [("branch_id", qs "tests"); ("validator", jobj [("kind", qs "HUMAN"); ("id", qs "reviewer")]);
            ("resolution_owner_fqn", qs actor_a); ("acceptance_criteria", jarr [qs "green"]);
            ("input_evidence_ids", jarr [qs (uid "2")]); ("deadline_at", qs "2026-01-02T00:00:00Z");
            ("round_limit", "2"); ("required_independence_dimensions", jarr [qs "PRINCIPAL"]);
            ("required_method_ids", jarr [qs "unit-tests"])]]);
        ("adjudication", jobj [("adjudicator", jobj [("kind", qs "HUMAN"); ("id", qs "lead")]);
                               ("deadline_at", qs "2026-01-03T00:00:00Z"); ("round_limit", "1")]);
        ("join_rule", qs "ALL_PASS"); ("partial_result_policy", qs "WAIT_ALL"); ("scope_revision", "1");
        ("work_profile", jobj [("profile_id", qs (uid "3")); ("profile_revision", "1");
                               ("profile_digest", qs (dig "b")); ("lifecycle_epoch", "1"); ("scope_revision", "1")]);
        ("candidate_artifact_digest", qs (dig "c"));
        ("implementer", jobj [("principal", jobj [("kind", qs "ACTOR"); ("id", qs actor_a)]);
                              ("actor_fqn", qs actor_a); ("execution_id", qs (uid "4")); ("fencing_epoch", "1");
                              ("model_profile_digest", qs (dig "d")); ("workspace_digest", qs (dig "e"));
                              ("context_digest", qs (dig "f"))]);
        ("verification_topology_digest", qs (dig "0"))].

Definition sample_opened : CompletionReviewSnapshot :=
  Eval vm_compute in
  match CompletionReviewFromPayload sample_review_payload with Some s => s | None => zero_CompletionReviewSnapshot end.
Definition sample_named : CompletionReviewSnapshot := sample_opened <| cr_ReviewID := uid "9" |>.

Definition sample_verdict : ReviewBranchResult :=
  zero_ReviewBranchResult <| vr_BranchID := "tests" |> <| vr_SourceRole := "VALIDATOR" |>
    <| vr_Authority := mkPrincipal "HUMAN" "reviewer" |> <| vr_Round := 1 |> <| vr_Result := "PASS" |>
    <| vr_EvidenceIDs := [uid "5"] |> <| vr_EventID := uid "6" |> <| vr_DecidedAt := sample_time |>
    <| vr_CandidateArtifactDigest := dig "c" |>
    <| vr_IndependenceReceipt := mkIndependenceReceipt ["PRINCIPAL"] (dig "1") ["unit-tests"] [uid "5"] |>.
Definition sample_judged : CompletionReviewSnapshot :=
  Eval vm_compute in fst (ApplyReviewBranchResult sample_named sample_verdict).
Definition sample_finalize_payload : string :=
  jdoc [("review_id", qs (uid "9")); ("subject_kind", qs "task"); ("subject_id", qs (uid "1"));
        ("lifecycle_epoch", "1"); ("branch_policy_revision", "1"); ("expected_review_revision", "2");
        ("terminal_status", qs "PASS"); ("result_event_ids", jarr [qs (uid "6")]);
        ("evidence_ids", jarr [qs (uid "5")]); ("scope_revision", "1");
        ("work_profile", jobj [("profile_id", qs (uid "3")); ("profile_revision", "1");
                               ("profile_digest", qs (dig "b")); ("lifecycle_epoch", "1"); ("scope_revision", "1")]);
        ("candidate_artifact_digest", qs (dig "c")); ("verification_topology_digest", qs (dig "0"))].
Definition sample_final : CompletionReviewSnapshot :=
  Eval vm_compute in fst (ApplyReviewFinalization sample_judged (uid "7") sample_finalize_payload).

Lemma sample_reachable : review_reachable sample_final.
Proof.
  apply (reach_step sample_judged).
  - apply (reach_step sample_named).
    + apply (reach_open sample_review_payload); [vm_compute; reflexivity|discriminate].
    + apply (step_result _ sample_verdict). vm_compute. reflexivity.
  - apply (step_finalize _ (uid "7") sample_finalize_payload). vm_compute. reflexivity.
Qed.

Definition sample_finalization : ReviewFinalization :=
  Eval vm_compute in match cr_Finalization sample_final with Some z => z | None => zero_ReviewFinalization end.

Lemma review_pass_sound_witness :
  exists spec r, cr_Branches sample_final !! "tests" = Some spec /\
    cr_ResultRecords sample_final !! "tests" = Some r /\ branch_passed sample_final spec r.
Proof.
  destruct (review_pass_sound sample_final sample_finalization sample_reachable eq_refl eq_refl "tests")
    as (spec & r & H1 & H2 & _ & _ & H3); [by left|].
  exists spec, r. split_and!; assumption.
Defined.

Lemma finalized_review_is_closed_witness :
  snd (ApplyReviewBranchResult sample_final (sample_verdict <| vr_EventID := uid "8" |>)) = false.
Proof. apply (finalized_review_is_closed sample_final sample_finalization sample_reachable eq_refl). Defined.

Lemma review_join_order_independent_witness :
  EvaluateReviewJoin ["a"; "b"] "WAIT_ALL"
    [zero_ReviewBranchResult <| vr_BranchID := "b" |> <| vr_Result := "PASS" |>;
     zero_ReviewBranchResult <| vr_BranchID := "a" |> <| vr_Result := "FAIL" |>]
  = mkJoin true "FAIL".
Proof.
  rewrite (review_join_order_independent _ _ _
    [zero_ReviewBranchResult <| vr_BranchID := "a" |> <| vr_Result := "FAIL" |>;
     zero_ReviewBranchResult <| vr_BranchID := "b" |> <| vr_Result := "PASS" |>]).
  - vm_compute. reflexivity.
  - apply perm_swap.
Defined.

Definition sample_completion : CompletionInput :=
  mkCompletionInput (plain_state AggregateTask (uid "1") 4 1 1 PhaseActive ConditionRunnable) (uid "9")
    sample_final [mkEvidence (uid "5") (dig "2")] [dig "c"] [] [] [mkParent (uid "8") EdgeResponse].

Lemma completion_rests_on_review_witness :
  mkParent (cd_FinalizedEventID (PlanCompletion sample_completion)) EdgeCausal
  ∈ cd_Parents (PlanCompletion sample_completion).
Proof. apply (completion_rests_on_review sample_completion sample_reachable). vm_compute. reflexivity. Defined.
