(* ===== verification/Budget.v ===== *)
(** * Attempt budgets ([kernel/budget.go])

    How often an operation may be attempted on a subject: an attempt is recorded
    under its key with a digest of its conditions, at most [Limit] of them. *)

From S2P Require Import Prelude GoText GoTime GoJson Types Samples Sha256 Envelope Fingerprint.

Inductive BudgetOutcome := BudgetConsumed | BudgetDuplicate | BudgetExhausted | BudgetRejected.

#[global] Instance BudgetOutcome_eq_dec : EqDecision BudgetOutcome.
Proof. solve_decision. Defined.

Record AttemptBudget := mkBudget {
  bu_Limit : Z;
  bu_Used : Z;
  bu_attempts : gmap string Digest
}.

Record AttemptBudgetKey := mkBudgetKey { abk_Subject : AggregateRef; abk_Operation : string }.

#[global] Instance AttemptBudgetKey_eq_dec : EqDecision AttemptBudgetKey.
Proof. solve_decision. Defined.
#[global] Instance AttemptBudgetKey_countable : Countable AttemptBudgetKey.
Proof.
  apply (inj_countable' (fun r => (abk_Subject r, abk_Operation r)) (fun p => mkBudgetKey p.1 p.2)).
  by intros [].
Defined.

Record AttemptBudgetSnapshot := mkBudgetSnapshot {
  abs_Limit : Z;
  abs_Used : Z;
  abs_Attempts : gmap string Digest
}.

Record AttemptBudgetDecision := mkBudgetDecision {
  abd_Key : AttemptBudgetKey;
  abd_ExpectedUsed : Z;
  abd_Limit : Z;
  abd_AttemptKey : string;
  abd_ConditionDigest : Digest
}.

Definition NewAttemptBudget (limit : Z) : AttemptBudget := mkBudget limit 0 ∅.

(** The budget after the call and the outcome; [uint32] arithmetic wraps. *)
Definition Consume (b : AttemptBudget) (attemptKey : string) (conditionDigest : Digest)
    (changedCondition authorizedOverride : bool) : AttemptBudget * BudgetOutcome :=
  match bu_attempts b !! attemptKey with
  | Some prior => (b, if prior == conditionDigest then BudgetDuplicate else BudgetRejected)
  | None =>
    when (attemptKey == "") || negb (Digest_Valid conditionDigest)
         || negb changedCondition && negb authorizedOverride
      return (b, BudgetRejected) ;;
    when (bu_Limit b == 0) || (bu_Limit b <=? bu_Used b) return (b, BudgetExhausted) ;;
    (mkBudget (bu_Limit b) ((bu_Used b + 1) mod 2 ^ 32) (<[attemptKey := conditionDigest]> (bu_attempts b)),
     BudgetConsumed)
  end.

Definition AttemptBudgetDecision_Valid (d : AttemptBudgetDecision) : bool :=
  negb (negb (AggregateRef_Valid (abk_Subject (abd_Key d))) || (abk_Operation (abd_Key d) == "")
        || (abd_Limit d == 0) || (abd_Limit d <=? abd_ExpectedUsed d) || (abd_AttemptKey d == "")
        || negb (Digest_Valid (abd_ConditionDigest d))).

(** The policy of an operation: [limit] is its entry in [AttemptLimits], if any,
    [budgets] the budgets of the snapshot. The decision, or the refusal. *)
Definition evaluateAttemptPolicy (command : KernelCommand) (limits : gmap string Z) (allowUnchanged : bool)
    (budgets : gmap AttemptBudgetKey AttemptBudgetSnapshot)
    : option AttemptBudgetDecision * (OutcomeCode * string) :=
  match limits !! cmd_CommandType command with
  | None => (None, (OutcomeApplied, reasonApplied))
  | Some limit =>
    when limit == 0 return (None, (OutcomeRejectedPolicy, "RETRY_BUDGET_EXHAUSTED")) ;;
    let key := mkBudgetKey (cmd_Target command) (cmd_CommandType command) in
    let current := default (mkBudgetSnapshot limit 0 ∅) (budgets !! key) in
    when (abs_Limit current != limit) || (abs_Limit current <? abs_Used current)
      return (None, (OutcomeRejectedConflict, reasonPolicyConflict)) ;;
    match CommandFingerprint (command <| cmd_Causation := [] |>) with
    | None => (None, (OutcomeRejectedInvalid, reasonInvalidEnvelope))
    | Some conditionDigest =>
      let changed := negb (existsb (fun kv => snd kv == conditionDigest) (map_to_list (abs_Attempts current))) in
      let budget := mkBudget (abs_Limit current) (abs_Used current) (abs_Attempts current) in
      match snd (Consume budget (cmd_CommandID command) conditionDigest changed allowUnchanged) with
      | BudgetConsumed =>
        (Some (mkBudgetDecision key (abs_Used current) limit (cmd_CommandID command) conditionDigest),
         (OutcomeApplied, reasonApplied))
      | BudgetExhausted => (None, (OutcomeRejectedPolicy, "RETRY_BUDGET_EXHAUSTED"))
      | BudgetDuplicate => (None, (OutcomeRejectedConflict, "DOMAIN_ATTEMPT_REPLAY"))
      | BudgetRejected => (None, (OutcomeRejectedPolicy, "RETRY_CONDITION_UNCHANGED"))
      end
    end
  end.

(** ** Commit ([adapters/memory/store.go]) *)

Inductive budget_error := BudgetInvalidDecision | BudgetConflict | BudgetAlreadyCommitted.

(** [None] accepts. *)
Definition validateAttemptBudgetCommit (budgets : gmap AttemptBudgetKey AttemptBudgetSnapshot)
    (decision : AttemptBudgetDecision) : option budget_error :=
  when negb (AttemptBudgetDecision_Valid decision) return Some BudgetInvalidDecision ;;
  match budgets !! abd_Key decision with
  | None => when abd_ExpectedUsed decision != 0 return Some BudgetConflict ;; None
  | Some current =>
    when (abs_Limit current != abd_Limit decision) || (abs_Used current != abd_ExpectedUsed decision)
      return Some BudgetConflict ;;
    match abs_Attempts current !! abd_AttemptKey decision with
    | Some prior =>
      when prior != abd_ConditionDigest decision return Some BudgetConflict ;; Some BudgetAlreadyCommitted
    | None => None
    end
  end.

Definition applyAttemptBudget (budgets : gmap AttemptBudgetKey AttemptBudgetSnapshot)
    (decision : AttemptBudgetDecision) : gmap AttemptBudgetKey AttemptBudgetSnapshot :=
  let current := default (mkBudgetSnapshot (abd_Limit decision) 0 ∅) (budgets !! abd_Key decision) in
  <[abd_Key decision :=
      mkBudgetSnapshot (abs_Limit current) ((abs_Used current + 1) mod 2 ^ 32)
        (<[abd_AttemptKey decision := abd_ConditionDigest decision]> (abs_Attempts current))]> budgets.

(** ** Guarantees *)

(** The limits fit in [uint32]. *)
Definition is_u32 (z : Z) : Prop := 0 <= z < 2 ^ 32.

(** One recorded attempt per use, and no more than the limit. *)
Record budget_ok (b : AttemptBudgetSnapshot) : Prop := {
  bk_used : abs_Used b = Z.of_nat (size (abs_Attempts b));
  bk_limit : abs_Used b <= abs_Limit b < 2 ^ 32;
  bk_digests : map_Forall (fun _ d => Digest_Valid d = true) (abs_Attempts b)
}.

(** What the store can hold: accepted decisions of any origin, in any order. *)
Inductive budgets_reachable : gmap AttemptBudgetKey AttemptBudgetSnapshot -> Prop :=
| budgets_none : budgets_reachable ∅
| budgets_commit budgets d : budgets_reachable budgets -> is_u32 (abd_Limit d) ->
    0 <= abd_ExpectedUsed d -> validateAttemptBudgetCommit budgets d = None ->
    budgets_reachable (applyAttemptBudget budgets d).

Lemma decision_valid_spec d :
  AttemptBudgetDecision_Valid d = true <->
  AggregateRef_Valid (abk_Subject (abd_Key d)) = true /\ abk_Operation (abd_Key d) <> "" /\
  abd_Limit d <> 0 /\ abd_ExpectedUsed d < abd_Limit d /\ abd_AttemptKey d <> "" /\
  Digest_Valid (abd_ConditionDigest d) = true.
Proof.
  unfold AttemptBudgetDecision_Valid.
  rewrite negb_true_iff, !orb_false_iff, !negb_false_iff, !bool_decide_eq_false, Z.leb_gt. tauto.
Qed.

(** What an accepted commit found. *)
Lemma commit_found budgets d :
  validateAttemptBudgetCommit budgets d = None ->
  AttemptBudgetDecision_Valid d = true /\
  let current := default (mkBudgetSnapshot (abd_Limit d) 0 ∅) (budgets !! abd_Key d) in
  abs_Limit current = abd_Limit d /\ abs_Used current = abd_ExpectedUsed d /\
  abs_Attempts current !! abd_AttemptKey d = None.
Proof.
  unfold validateAttemptBudgetCommit. intros H. destruct (negb _) eqn:Ev in H; [discriminate H|].
  apply negb_false_iff in Ev. split; [done|]. destruct (budgets !! abd_Key d) as [b|]; cbn.
  - destruct (_ || _) eqn:E in H; [discriminate H|]. bprop E.
    destruct (abs_Attempts b !! abd_AttemptKey d); [destruct (_ != _) in H; discriminate H|].
    destruct E as [E1 E2]. done.
  - destruct (_ != _) eqn:E in H; [discriminate H|]. bprop E. done.
Qed.

Lemma reachable_budgets_ok budgets : budgets_reachable budgets -> map_Forall (fun _ b => budget_ok b) budgets.
Proof.
  induction 1 as [|budgets d _ IH Hl Hu Hv]; [apply map_Forall_empty|].
  apply commit_found in Hv as (Hv & H1 & H2 & H3). apply decision_valid_spec in Hv as (_ & _ & _ & Hlt & _ & Hd).
  unfold applyAttemptBudget. set (current := default _ _) in *.
  assert (budget_ok current) as [Ou Ol Od].
  { unfold current. destruct (budgets !! abd_Key d) as [b|] eqn:E; [by apply IH in E|]. split; cbn.
    - done.
    - unfold is_u32 in Hl. lia.
    - apply map_Forall_empty. }
  apply map_Forall_insert_2; [|done]. unfold is_u32 in Hl. split; cbn.
  - rewrite map_size_insert, H3. rewrite Z.mod_small by lia. lia.
  - rewrite Z.mod_small by lia. lia.
  - by apply map_Forall_insert_2.
Qed.

(** [C34] Attempts are bounded: whatever decisions are committed and in whatever
    order, stale or repeated ones included, every budget of the store counts
    exactly its recorded attempts, which have well-formed condition digests, and
    never more than its limit. *)
Theorem attempts_bounded budgets key b :
  budgets_reachable budgets -> budgets !! key = Some b ->
  abs_Used b = Z.of_nat (size (abs_Attempts b)) /\ abs_Used b <= abs_Limit b /\
  map_Forall (fun _ d => Digest_Valid d = true) (abs_Attempts b).
Proof. intros Hr Hb. apply reachable_budgets_ok in Hr. destruct (Hr _ _ Hb). split_and!; [done|lia|done]. Qed.

(** The decision to charge an attempt. *)
Lemma attempt_charged command limits allow budgets d out :
  evaluateAttemptPolicy command limits allow budgets = (Some d, out) ->
  let current := default (mkBudgetSnapshot (abd_Limit d) 0 ∅) (budgets !! abd_Key d) in
  limits !! cmd_CommandType command = Some (abd_Limit d) /\ abd_Limit d <> 0 /\
  abd_Key d = mkBudgetKey (cmd_Target command) (cmd_CommandType command) /\
  abd_AttemptKey d = cmd_CommandID command /\ abd_ExpectedUsed d = abs_Used current /\
  CommandFingerprint (command <| cmd_Causation := [] |>) = Some (abd_ConditionDigest d) /\
  abs_Limit current = abd_Limit d /\ abs_Used current < abs_Limit current /\ cmd_CommandID command <> "" /\
  abs_Attempts current !! cmd_CommandID command = None /\ Digest_Valid (abd_ConditionDigest d) = true /\
  (allow = true \/ map_Forall (fun _ prior => prior <> abd_ConditionDigest d) (abs_Attempts current)) /\
  out = (OutcomeApplied, reasonApplied).
Proof.
  unfold evaluateAttemptPolicy. intros H. destruct (limits !! cmd_CommandType command) as [limit|] eqn:El; [|discriminate H].
  destruct (limit == 0) eqn:E0 in H; [discriminate H|]. apply bool_decide_eq_false in E0. cbv zeta in H.
  set (key := mkBudgetKey _ _) in H. set (current := default (mkBudgetSnapshot limit 0 ∅) (budgets !! key)) in H.
  destruct (_ || _) eqn:E1 in H; [discriminate H|]. apply orb_false_iff in E1 as [E1 _].
  apply negb_false_iff, bool_decide_eq_true in E1.
  destruct (CommandFingerprint _) as [digest|] eqn:Ef; [|discriminate H].
  unfold Consume in H. cbn [bu_attempts bu_Limit bu_Used snd fst] in H.
  destruct (abs_Attempts current !! _) as [prior|] eqn:Ea in H.
  { cbn [snd] in H. destruct (_ == _) in H; discriminate H. }
  destruct (_ || _) eqn:E2 in H; cbn [snd] in H; [discriminate H|].
  destruct (_ || _) eqn:E3 in H; cbn [snd] in H; [discriminate H|]. injection H as <- <-. cbn [abd_Limit abd_Key abd_AttemptKey abd_ExpectedUsed abd_ConditionDigest].
  fold current. bprop E2. apply orb_false_iff in E3 as [_ E3]. apply Z.leb_gt in E3. destruct E2 as [[Ei Ed] Ec].
  split_and!; try assumption; try reflexivity. apply andb_false_iff in Ec as [Ec|Ec]; apply negb_false_iff in Ec; [right|by left].
  apply negb_true_iff in Ec. intros k p Hp ->. apply not_true_iff_false in Ec. apply Ec, existsb_exists.
  exists (k, digest). split; [by apply list_elem_of_In, elem_of_map_to_list|]. apply bool_decide_refl.
Qed.

(** Charging an attempt is exact: when the policy charges a command, the
    store accepts the charge for the budgets it was evaluated on, which adds the
    command's attempt and one use; the same charge is refused from then on, as is
    every other charge evaluated on the old budgets; and the command's conditions
    are new to the budget unless unchanged retries are allowed. *)
Theorem attempt_charge_exact command limits allow budgets d out :
  budgets_reachable budgets -> map_Forall (fun _ l => is_u32 l) limits -> AggregateRef_Valid (cmd_Target command) = true ->
  cmd_CommandType command <> "" ->
  evaluateAttemptPolicy command limits allow budgets = (Some d, out) ->
  validateAttemptBudgetCommit budgets d = None /\
  (exists b, applyAttemptBudget budgets d !! abd_Key d = Some b /\ abs_Used b = abd_ExpectedUsed d + 1 /\
     abs_Attempts b !! cmd_CommandID command = Some (abd_ConditionDigest d)) /\
  (forall stale, abd_Key stale = abd_Key d -> abd_ExpectedUsed stale = abd_ExpectedUsed d ->
     is_Some (validateAttemptBudgetCommit (applyAttemptBudget budgets d) stale)) /\
  (allow = true \/ forall b, budgets !! abd_Key d = Some b ->
     map_Forall (fun _ prior => prior <> abd_ConditionDigest d) (abs_Attempts b)).
Proof.
  intros Hr Hlim Ht Hty H. apply attempt_charged in H as (L & L0 & K & A & U & F & E & Lt & Id & N & D & C & _).
  pose proof (Hlim _ _ L) as Hl. unfold is_u32 in Hl. apply reachable_budgets_ok in Hr.
  set (current := default _ _) in *.
  assert (0 <= abs_Used current) as Hu.
  { unfold current. destruct (budgets !! abd_Key d) as [b|] eqn:Eb; [apply Hr in Eb as [Hb _ _]; cbn; lia|cbn; lia]. }
  split_and!.
  - unfold validateAttemptBudgetCommit.
    assert (AttemptBudgetDecision_Valid d = true) as ->; [|cbn [negb]].
    { apply decision_valid_spec. rewrite K, A, U. cbn -[Digest_Valid]. split_and!; try assumption. lia. }
    unfold current in *. destruct (budgets !! abd_Key d) as [b|]; cbn in *.
    + rewrite E, U, !bool_decide_refl. cbn. enough (abs_Attempts b !! abd_AttemptKey d = None) as -> by done. rewrite A. exact N.
    + by rewrite U.
  - eexists. unfold applyAttemptBudget. rewrite lookup_insert_eq. fold current. split; [reflexivity|]. cbn.
    rewrite Z.mod_small, A, lookup_insert_eq by lia. split; [lia|done].
  - intros stale Hk Hs. unfold validateAttemptBudgetCommit, applyAttemptBudget. rewrite Hk, lookup_insert_eq.
    fold current. destruct (negb _); [eauto|]. cbn [abs_Limit abs_Used]. rewrite Hs, U.
    rewrite (bool_decide_eq_false_2 ((abs_Used current + 1) mod 2 ^ 32 = _)) by (rewrite Z.mod_small; lia).
    rewrite orb_true_r. eauto.
  - destruct C as [C|C]; [by left|right]. intros b Hb. unfold current in C. by rewrite Hb in C.
Qed.

(** ** Concrete attempts *)

Definition sample_attempt (id : UUIDv7) : KernelCommand :=
  zero_command <| cmd_ContractManifest := ContractIdentity |> <| cmd_CommandID := id |>
    <| cmd_CommandType := "tekroo.command.task.start" |> <| cmd_Target := mkRef AggregateTask (uid "1") |>
    <| cmd_Payload := "{}" |>.
Definition sample_limits : gmap string Z := {[ "tekroo.command.task.start" := 2 ]}.
Definition sample_charge : AttemptBudgetDecision :=
  Eval vm_compute in
    match fst (evaluateAttemptPolicy (sample_attempt (uid "2")) sample_limits true ∅) with
    | Some d => d
    | None => mkBudgetDecision (mkBudgetKey zero_ref "") 0 0 "" ""
    end.

Lemma attempt_charge_exact_witness :
  validateAttemptBudgetCommit ∅ sample_charge = None /\
  is_Some (validateAttemptBudgetCommit (applyAttemptBudget ∅ sample_charge) sample_charge).
Proof.
  destruct (attempt_charge_exact (sample_attempt (uid "2")) sample_limits true ∅ sample_charge
    (OutcomeApplied, reasonApplied)) as (H1 & _ & H2 & _).
  - constructor.
  - apply map_Forall_singleton. unfold is_u32. lia.
  - vm_compute. reflexivity.
  - discriminate.
  - vm_compute. reflexivity.
  - split; [exact H1|]. apply H2; reflexivity.
Defined.

Lemma attempts_bounded_witness :
  exists b, applyAttemptBudget ∅ sample_charge !! abd_Key sample_charge = Some b /\ abs_Used b <= abs_Limit b.
Proof.
  exists (mkBudgetSnapshot 2 1 {[abd_AttemptKey sample_charge := abd_ConditionDigest sample_charge]}).
  split; [vm_compute; reflexivity|].
  apply (attempts_bounded (applyAttemptBudget ∅ sample_charge) (abd_Key sample_charge)).
  - apply budgets_commit; [constructor|vm_compute; split; [discriminate|reflexivity]|vm_compute; discriminate|].
    vm_compute. reflexivity.
  - vm_compute. reflexivity.
Defined.
