(* ===== verification/Snapshot.v ===== *)
(** * Snapshots and decisions ([kernel/envelope.go], [kernel/decision_policy.go], [kernel/catalogue.go])

    What the evaluator reads and what it produces. A snapshot is a consistent
    view of the store around one command; a decision is everything the store has
    to commit, with the guards that must still hold then. *)

From S2P Require Import Prelude GoText GoTime GoJson Types Payload Envelope State Authorization WorkProfile Assignment.
From S2P Require Import WorkInvocation Fingerprint Provenance Release Variant Escalation Review Budget.

Record CompletionReviewKey := mkReviewKey {
  rvk_Subject : AggregateRef;
  rvk_LifecycleEpoch : Z;
  rvk_CriteriaRevision : Z;
  rvk_EvidenceSetDigest : Digest
}.

#[global] Instance CompletionReviewKey_eq_dec : EqDecision CompletionReviewKey.
Proof. solve_decision. Defined.
#[global] Instance CompletionReviewKey_countable : Countable CompletionReviewKey.
Proof.
  apply (inj_countable'
    (fun k => (rvk_Subject k, rvk_LifecycleEpoch k, rvk_CriteriaRevision k, rvk_EvidenceSetDigest k))
    (fun p => mkReviewKey p.1.1.1 p.1.1.2 p.1.2 p.2)).
  by intros [].
Defined.
#[global] Instance EscalationKey_countable : Countable EscalationKey.
Proof.
  apply (inj_countable' (fun k => (ek_Subject k, ek_LifecycleEpoch k, ek_Trigger k, ek_ConditionDigest k))
    (fun p => mkEscalationKey p.1.1.1 p.1.1.2 p.1.2 p.2)).
  by intros [].
Defined.
#[global] Instance ReleasePlanKey_countable : Countable ReleasePlanKey.
Proof.
  apply (inj_countable' (fun k => (rk_Story k, rk_LifecycleEpoch k)) (fun p => mkReleasePlanKey p.1 p.2)).
  by intros [].
Defined.
#[global] Instance VariantGroupKey_countable : Countable VariantGroupKey.
Proof.
  apply (inj_countable' (fun k => (vk_TaskID k, vk_LifecycleEpoch k, vk_ScopeRevision k, vk_WorkProfileDigest k))
    (fun p => mkVariantGroupKey p.1.1.1 p.1.1.2 p.1.2 p.2)).
  by intros [].
Defined.

Definition CompletionReviewKeyFromPayload (payload : string) : option CompletionReviewKey :=
  try o <- decodePayloadObject payload ;;
  try subject <- aggregateField o "subject_kind" "subject_id" ;;
  try epoch <- uint64Field o "lifecycle_epoch" ;;
  try criteria <- uint64Field o "criteria_revision" ;;
  try digest <- as_string (o !! "evidence_set_digest") ;;
  when negb (Digest_Valid digest) return None ;;
  Some (mkReviewKey subject epoch criteria digest).

Record Snapshot := mkSnapshot {
  sn_Exists : bool;
  sn_Revision : Z;
  sn_State : option AggregateState;
  sn_AcceptedEvents : gmap UUIDv7 AcceptedEvent;
  sn_CurrentExecutions : gmap ActorFQN ExecutionTuple;
  sn_Evidence : gmap UUIDv7 EvidenceMetadata;
  sn_Related : gmap AggregateRef RelatedSnapshot;
  sn_Authorization : AuthorizationPolicy;
  sn_OpenReviews : gmap CompletionReviewKey AggregateRef;
  sn_Reviews : gmap AggregateRef CompletionReviewSnapshot;
  sn_Escalations : gmap AggregateRef EscalationSnapshot;
  sn_EscalationKeys : gmap EscalationKey AggregateRef;
  sn_ReleasePlans : gmap AggregateRef ReleasePlanSnapshot;
  sn_ReleasePlanKeys : gmap ReleasePlanKey AggregateRef;
  sn_AttemptBudgets : gmap AttemptBudgetKey AttemptBudgetSnapshot;
  sn_WorkProfiles : gmap AggregateRef WorkProfileSnapshot;
  sn_WorkProfileHistory : gmap UUIDv7 WorkRiskProfile;
  sn_QualifiedAssignments : gmap AggregateRef QualifiedAssignmentAuthorization;
  sn_VariantGroups : gmap AggregateRef VariantGroupSnapshot;
  sn_VariantGroupKeys : gmap VariantGroupKey AggregateRef;
  sn_WorkBudgetAccounts : gmap AggregateRef WorkBudgetAccount;
  sn_TaskWorkBudgets : gmap AggregateRef TaskWorkBudgetBinding;
  sn_TaskOperationalScopes : gmap AggregateRef TaskOperationalScope;
  sn_WorkInvocations : gmap AggregateRef WorkInvocation
}.

#[export] Instance eta_Snapshot : Eta Snapshot := fun r =>
  mkSnapshot (sn_Exists r) (sn_Revision r) (sn_State r) (sn_AcceptedEvents r) (sn_CurrentExecutions r)
    (sn_Evidence r) (sn_Related r) (sn_Authorization r) (sn_OpenReviews r) (sn_Reviews r) (sn_Escalations r)
    (sn_EscalationKeys r) (sn_ReleasePlans r) (sn_ReleasePlanKeys r) (sn_AttemptBudgets r) (sn_WorkProfiles r)
    (sn_WorkProfileHistory r) (sn_QualifiedAssignments r) (sn_VariantGroups r) (sn_VariantGroupKeys r)
    (sn_WorkBudgetAccounts r) (sn_TaskWorkBudgets r) (sn_TaskOperationalScopes r) (sn_WorkInvocations r).

Record DecisionGuards := mkGuards {
  gd_Executions : gmap ActorFQN ExecutionTuple;
  gd_AbsentExecutions : list ActorFQN;
  gd_ParentIDs : list UUIDv7;
  gd_EvidenceRefs : list EvidenceRef;
  gd_Preconditions : list AggregatePrecondition;
  gd_PolicyDigest : Digest;
  gd_PolicyRevision : Z;
  gd_AbsentReviewKeys : list CompletionReviewKey;
  gd_AbsentEscalationKeys : list EscalationKey;
  gd_AbsentReleaseKeys : list ReleasePlanKey;
  gd_AbsentVariantKeys : list VariantGroupKey
}.

#[export] Instance eta_DecisionGuards : Eta DecisionGuards := fun r =>
  mkGuards (gd_Executions r) (gd_AbsentExecutions r) (gd_ParentIDs r) (gd_EvidenceRefs r) (gd_Preconditions r)
    (gd_PolicyDigest r) (gd_PolicyRevision r) (gd_AbsentReviewKeys r) (gd_AbsentEscalationKeys r)
    (gd_AbsentReleaseKeys r) (gd_AbsentVariantKeys r).

Definition zero_guards : DecisionGuards := mkGuards ∅ [] [] [] [] "" 0 [] [] [] [].

Record Decision := mkDecision {
  de_CommandFingerprint : Digest;
  de_IdempotencyScope : Digest;
  de_NextState : option AggregateState;
  de_Events : list DomainEvent;
  de_Receipt : CommandReceipt;
  de_Authority : AuthorityDecision;
  de_Outbox : list OutboxIntent;
  de_Guards : DecisionGuards;
  de_Provenance : DecisionProvenance;
  de_AttemptBudget : option AttemptBudgetDecision;
  de_WorkBudget : option WorkBudgetDebitDecision
}.

(** A command's entry in the catalogue. The catalogue itself, which checks
    payloads against JSON schemas, is an interface to the evaluator. *)
Record CommandDefinition := mkDefinition {
  cf_TypeID : string;
  cf_Version : string;
  cf_TargetKinds : list AggregateKind;
  cf_AuthorityKinds : list PrincipalKind;
  cf_ExecutionRequired : bool;
  cf_EventTypes : list string;
  cf_RootAllowed : bool;
  cf_AllowedParentEdges : list EdgeKind
}.

Record EventDefinition := mkEventDefinition {
  ef_TypeID : string;
  ef_Version : string;
  ef_TargetKinds : list AggregateKind
}.

Inductive catalogue_error := ErrUnknownCommand | ErrUnsupportedVersion | ErrInvalidTarget | ErrInvalidPayload | ErrUnknownEvent | ErrCatalogueOther.

(** The interface [CatalogueSnapshot]. *)
Record CatalogueSnapshot := mkCatalogue {
  cg_Revision : Z;
  cg_ResolveCommand : string -> string -> AggregateKind -> string -> catalogue_error + CommandDefinition;
  cg_ResolveEvent : string -> string -> AggregateKind -> string -> catalogue_error + EventDefinition
}.
