(* ===== verification/PolicyModels.v ===== *)
(** * Policy models of participants, interactions and continuity ([kernel/operator_continuity_models.go])

    Decision tables the contract's scenarios are evaluated with. The theorems
    compare the continuity table with [ApplyContinuityEvent], which changes the
    state of the system: the table accepts whatever the state machine accepts and
    predicts the result. *)

From S2P Require Import Prelude GoText GoTime GoJson Types Samples Payload Envelope OperatorRole Participant Interaction Continuity.

(** ** Participants *)

Definition HumanParticipantPolicyAction := string.
Definition HumanParticipantResolveRecipients : HumanParticipantPolicyAction := "RESOLVE_RECIPIENTS".
Definition HumanParticipantAuthorize : HumanParticipantPolicyAction := "AUTHORIZE".
Definition HumanParticipantAuthenticate : HumanParticipantPolicyAction := "AUTHENTICATE".
Definition HumanParticipantValidateBindings : HumanParticipantPolicyAction := "VALIDATE_PROFILE_BINDINGS".
Definition HumanParticipantSelectRoute : HumanParticipantPolicyAction := "SELECT_DELIVERY_ROUTE".

Record HumanParticipantPolicyInput := mkParticipantInput {
  pin_Action : HumanParticipantPolicyAction;
  pin_ParticipantIDs : list string;
  pin_Active : bool;
  pin_RoleCurrent : bool;
  pin_RoleCurrentSpecified : bool;
  pin_ScopeMatches : bool;
  pin_CommandAuthorized : bool;
  pin_BindingActive : bool;
  pin_SubjectMatches : bool;
  pin_AssuranceSufficient : bool;
  pin_ActiveAuthenticationBindingIDs : list UUIDv7;
  pin_DeliveryAuthenticationBindingIDs : list UUIDv7;
  pin_RequestedConfidentiality : Confidentiality;
  pin_RouteCeiling : Confidentiality
}.

Record HumanParticipantPolicyResult := mkParticipantResult {
  pres_Accepted : bool;
  pres_Reason : string;
  pres_RecipientIDs : list string
}.

Definition participant_refused (reason : string) : HumanParticipantPolicyResult := mkParticipantResult false reason [].
Definition participant_accepted : HumanParticipantPolicyResult := mkParticipantResult true "ACCEPTED" [].

(** No identifier is empty or repeated. *)
Fixpoint distinct_recipients (seen : gset string) (ids : list string) : bool :=
  match ids with
  | [] => true
  | id :: ids =>
    when (id == "") || bool_decide (id ∈ seen) return false ;;
    distinct_recipients ({[id]} ∪ seen) ids
  end.

Definition EvaluateHumanParticipantPolicy (i : HumanParticipantPolicyInput) : HumanParticipantPolicyResult :=
  if pin_Action i == HumanParticipantResolveRecipients then
    when negb (distinct_recipients ∅ (pin_ParticipantIDs i)) return participant_refused "DUPLICATE_HUMAN_IDENTITY" ;;
    mkParticipantResult true "ACCEPTED" (pin_ParticipantIDs i)
  else if pin_Action i == HumanParticipantAuthorize then
    when negb (pin_Active i) return participant_refused "PARTICIPANT_REVOKED" ;;
    when pin_RoleCurrentSpecified i && negb (pin_RoleCurrent i) return participant_refused "ROLE_BINDING_EXPIRED" ;;
    when negb (pin_ScopeMatches i) return participant_refused "ROLE_SCOPE_MISMATCH" ;;
    when negb (pin_CommandAuthorized i) return participant_refused "SCOPED_AUTHORITY_REQUIRED" ;;
    participant_accepted
  else if pin_Action i == HumanParticipantAuthenticate then
    when negb (pin_BindingActive i) return participant_refused "AUTHENTICATION_BINDING_INACTIVE" ;;
    when negb (pin_SubjectMatches i) return participant_refused "AUTHENTICATION_SUBJECT_MISMATCH" ;;
    when negb (pin_AssuranceSufficient i) return participant_refused "AUTHENTICATION_ASSURANCE_INSUFFICIENT" ;;
    participant_accepted
  else if pin_Action i == HumanParticipantValidateBindings then
    let active : gset UUIDv7 := list_to_set (pin_ActiveAuthenticationBindingIDs i) in
    when negb (forallb (fun id => bool_decide (id ∈ active)) (pin_DeliveryAuthenticationBindingIDs i))
      return participant_refused "AUTHENTICATION_BINDING_REFERENCE_INVALID" ;;
    participant_accepted
  else if pin_Action i == HumanParticipantSelectRoute then
    when negb (Confidentiality_Valid (pin_RequestedConfidentiality i)) || negb (Confidentiality_Valid (pin_RouteCeiling i))
         || (confidentialityRank (pin_RouteCeiling i) <? confidentialityRank (pin_RequestedConfidentiality i))
      return participant_refused "CONFIDENTIALITY_CEILING_EXCEEDED" ;;
    participant_accepted
  else participant_refused "INVALID_ACTION".

(** ** Interactions *)

Definition HumanInteractionPolicyAction := string.
Definition HumanInteractionOpenPolicy : HumanInteractionPolicyAction := "OPEN".
Definition HumanInteractionRespondPolicy : HumanInteractionPolicyAction := "RESPOND".
Definition HumanInteractionDeliveryPolicy : HumanInteractionPolicyAction := "RECORD_DELIVERY".
Definition HumanInteractionCapabilityPolicy : HumanInteractionPolicyAction := "ACCEPT_RESPONSE_CAPABILITY".
Definition HumanInteractionResponsePolicy : HumanInteractionPolicyAction := "EVALUATE_RESPONSE_POLICY".
Definition HumanInteractionEffectPolicy : HumanInteractionPolicyAction := "EVALUATE_EFFECT".
Definition HumanInteractionExpirePolicy : HumanInteractionPolicyAction := "EXPIRE".

Record HumanInteractionPolicyInput := mkInteractionInput {
  iin_Action : HumanInteractionPolicyAction;
  iin_OriginKind : PrincipalKind;
  iin_OriginActorPresent : bool;
  iin_OriginExecutionPresent : bool;
  iin_SourceKind : PrincipalKind;
  iin_ActorFQNPresent : bool;
  iin_SelectedHumanIDs : list string;
  iin_AcceptedHumanIDs : list string;
  iin_RespondentID : string;
  iin_QuestionRevision : Z;
  iin_PresentedQuestionRevision : Z;
  iin_ParticipantActive : bool;
  iin_AuthenticationValid : bool;
  iin_ResponseSpecificationMatch : bool;
  iin_Duplicate : bool;
  iin_RenderedDiffers : bool;
  iin_MaterialEquivalenceProven : bool;
  iin_CredentialVerified : bool;
  iin_CommitSucceeded : bool;
  iin_ResponsePolicy : HumanResponsePolicy;
  iin_DeclaredEffect : string;
  iin_ScopedCommandAuthority : bool;
  iin_DeadlineExpired : bool;
  iin_SilenceIsConsent : bool
}.

Record HumanInteractionPolicyResult := mkInteractionResult {
  ires_Accepted : bool;
  ires_Reason : string;
  ires_ResponsePolicySatisfied : option bool;
  ires_CapabilityConsumed : option bool;
  ires_ResolvedEffect : string;
  ires_State : string
}.

Definition interaction_result (accepted : bool) (reason : string) : HumanInteractionPolicyResult :=
  mkInteractionResult accepted reason None None "" "".

(** The answer to a response, the longest of the cases. *)
Definition respond_policy (i : HumanInteractionPolicyInput) : HumanInteractionPolicyResult :=
  when iin_SourceKind i != PrincipalHuman return interaction_result false "HUMAN_AUTHORITY_REQUIRED" ;;
  when iin_ActorFQNPresent i return interaction_result false "HUMAN_ACTOR_ATTRIBUTION" ;;
  when negb (containsString (iin_SelectedHumanIDs i) (iin_RespondentID i))
    return interaction_result false "RECIPIENT_MISMATCH" ;;
  when iin_PresentedQuestionRevision i != iin_QuestionRevision i
    return interaction_result false "QUESTION_REVISION_MISMATCH" ;;
  when negb (iin_ParticipantActive i) return interaction_result false "PARTICIPANT_REVOKED" ;;
  when negb (iin_AuthenticationValid i) return interaction_result false "AUTHENTICATION_REQUIRED" ;;
  when negb (iin_ResponseSpecificationMatch i) return interaction_result false "RESPONSE_SPECIFICATION_MISMATCH" ;;
  when iin_Duplicate i return interaction_result false "DUPLICATE_RESPONSE" ;;
  interaction_result true "ACCEPTED".

Definition EvaluateHumanInteractionPolicy (i : HumanInteractionPolicyInput) : HumanInteractionPolicyResult :=
  if iin_Action i == HumanInteractionOpenPolicy then
    when (iin_OriginKind i == PrincipalHuman) && (iin_OriginActorPresent i || iin_OriginExecutionPresent i)
      return interaction_result false "HUMAN_ACTOR_ATTRIBUTION" ;;
    when (iin_OriginKind i == PrincipalActor) && (negb (iin_OriginActorPresent i) || negb (iin_OriginExecutionPresent i))
      return interaction_result false "ACTOR_EXECUTION_REQUIRED" ;;
    interaction_result true "ACCEPTED"
  else if iin_Action i == HumanInteractionRespondPolicy then respond_policy i
  else if iin_Action i == HumanInteractionDeliveryPolicy then
    when iin_RenderedDiffers i && negb (iin_MaterialEquivalenceProven i)
      return interaction_result false "PRESENTATION_EQUIVALENCE_REQUIRED" ;;
    mkInteractionResult true "DELIVERY_RECORDED" (Some false) None "" ""
  else if iin_Action i == HumanInteractionCapabilityPolicy then
    when negb (iin_CredentialVerified i)
      return mkInteractionResult false "AUTHENTICATION_REQUIRED" None (Some false) "" "" ;;
    when negb (iin_CommitSucceeded i) return mkInteractionResult false "COMMIT_FAILED" None (Some false) "" "" ;;
    mkInteractionResult true "ACCEPTED" None (Some true) "" ""
  else if iin_Action i == HumanInteractionResponsePolicy then
    let result := EvaluateHumanResponsePolicy (iin_ResponsePolicy i) (iin_SelectedHumanIDs i) (iin_AcceptedHumanIDs i) in
    interaction_result (plr_Accepted result) (plr_Reason result)
  else if iin_Action i == HumanInteractionEffectPolicy then
    if iin_DeclaredEffect i == "ADVISORY_ONLY" then
      mkInteractionResult true "RECORDED_AS_ADVISORY" None None "ADVISORY_ONLY" ""
    else if iin_DeclaredEffect i == "EVIDENCE_ONLY" then
      mkInteractionResult true "RECORDED_AS_EVIDENCE" None None "EVIDENCE_ONLY" ""
    else
      when negb (iin_ScopedCommandAuthority i)
        return mkInteractionResult false "SCOPED_AUTHORITY_REQUIRED" None None "EVIDENCE_ONLY" "" ;;
      mkInteractionResult true "AUTHORIZED_EFFECT" None None "AUTHORIZED_EFFECT" ""
  else if iin_Action i == HumanInteractionExpirePolicy then
    when negb (iin_DeadlineExpired i) return interaction_result false "DEADLINE_NOT_EXPIRED" ;;
    when iin_SilenceIsConsent i return interaction_result false "SILENCE_CANNOT_AUTHORIZE" ;;
    mkInteractionResult true "EXPIRED_WITHOUT_CONSENT" None None "" "EXPIRED"
  else interaction_result false "INVALID_ACTION".

(** ** Continuity *)

Definition TeamContinuityPolicyAction := string.
Definition TeamContinuityRequestQuiescence : TeamContinuityPolicyAction := "REQUEST_QUIESCENCE".
Definition TeamContinuityDispatch : TeamContinuityPolicyAction := "DISPATCH".
Definition TeamContinuityAcceptResult : TeamContinuityPolicyAction := "ACCEPT_RESULT".
Definition TeamContinuityRecordSuspended : TeamContinuityPolicyAction := "RECORD_SUSPENDED".
Definition TeamContinuityBeginReconcile : TeamContinuityPolicyAction := "BEGIN_RECONCILIATION".
Definition TeamContinuityUnexpectedOutage : TeamContinuityPolicyAction := "RECORD_UNEXPECTED_OUTAGE".
Definition TeamContinuityResume : TeamContinuityPolicyAction := "RESUME".
Definition TeamContinuityObserveContinuous : TeamContinuityPolicyAction := "OBSERVE_CONTINUOUS".

Record TeamContinuityPolicyInput := mkContinuityInput {
  cin_Action : TeamContinuityPolicyAction;
  cin_State : ContinuityControlState;
  cin_PowerEpoch : Z;
  cin_AdmissionOpen : bool;
  cin_OperatingPosture : string;
  cin_UnresolvedExecutionIDs : list UUIDv7;
  cin_RecordedUnresolvedIDs : list UUIDv7;
  cin_PresentedPowerEpoch : Z;
  cin_NextPowerEpoch : Z;
  cin_AllExecutionsRecorded : bool;
  cin_ReconciledExecutionIDs : list UUIDv7;
  cin_KnownInFlightIDs : list UUIDv7;
  cin_ServicesHealthy : bool;
  cin_OutboxReconciled : bool;
  cin_ChangeStreamReconciled : bool
}.

Record TeamContinuityPolicyResult := mkContinuityResult {
  cres_Accepted : bool;
  cres_Reason : string;
  cres_State : option ContinuityControlState;
  cres_PowerEpoch : option Z;
  cres_AdmissionOpen : option bool;
  cres_UnresolvedExecutionIDs : option (list UUIDv7)
}.

Definition stateResult (accepted : bool) (reason : string) (state : ContinuityControlState) : TeamContinuityPolicyResult :=
  mkContinuityResult accepted reason (Some state) None None None.

Definition continuityAdmissionResult (r : PolicyResult) : TeamContinuityPolicyResult :=
  mkContinuityResult (plr_Accepted r) (plr_Reason r) None None None None.

Definition quiescence_policy (i : TeamContinuityPolicyInput) : TeamContinuityPolicyResult :=
  when cin_State i != ContinuityActive
    return mkContinuityResult false "INVALID_CONTROL_STATE" (Some (cin_State i)) (Some (cin_PowerEpoch i))
             (Some (cin_AdmissionOpen i)) None ;;
  when cin_NextPowerEpoch i != u64 (cin_PowerEpoch i + 1)
    return mkContinuityResult false "POWER_EPOCH_MISMATCH" (Some (cin_State i)) (Some (cin_PowerEpoch i))
             (Some (cin_AdmissionOpen i)) None ;;
  mkContinuityResult true "ACCEPTED" (Some ContinuityQuiescing) (Some (cin_NextPowerEpoch i)) (Some false) None.

Definition resume_policy (i : TeamContinuityPolicyInput) : TeamContinuityPolicyResult :=
  when cin_State i != ContinuityReconciling return stateResult false "RECONCILIATION_REQUIRED" (cin_State i) ;;
  when cin_PresentedPowerEpoch i != cin_PowerEpoch i return stateResult false "POWER_EPOCH_MISMATCH" (cin_State i) ;;
  when negb (sameUUIDSet (cin_UnresolvedExecutionIDs i) (cin_ReconciledExecutionIDs i))
    return stateResult false "UNRESOLVED_EXECUTIONS" (cin_State i) ;;
  when negb (cin_ServicesHealthy i) || negb (cin_OutboxReconciled i) || negb (cin_ChangeStreamReconciled i)
    return stateResult false "RESUME_PRECONDITION_FAILED" (cin_State i) ;;
  mkContinuityResult true "ACCEPTED" (Some ContinuityActive) (Some (cin_PowerEpoch i)) (Some true) (Some []).

(** The snapshot a continuity admission is evaluated on: the other fields are zero. *)
Definition admission_snapshot (i : TeamContinuityPolicyInput) : TeamContinuitySnapshot :=
  mkTeamContinuitySnapshot 0 "" "" (cin_PowerEpoch i) (cin_AdmissionOpen i) 0 "" "" [] [] "".

Definition EvaluateTeamContinuityPolicy (i : TeamContinuityPolicyInput) : TeamContinuityPolicyResult :=
  if cin_Action i == TeamContinuityRequestQuiescence then quiescence_policy i
  else if (cin_Action i == TeamContinuityDispatch) || (cin_Action i == TeamContinuityAcceptResult) then
    let action := if cin_Action i == TeamContinuityAcceptResult then ContinuityAcceptResult else ContinuityDispatch in
    continuityAdmissionResult (EvaluateContinuityAdmission (admission_snapshot i) action (cin_PresentedPowerEpoch i))
  else if cin_Action i == TeamContinuityRecordSuspended then
    when cin_State i != ContinuityQuiescing return stateResult false "INVALID_CONTROL_STATE" (cin_State i) ;;
    when negb (cin_AllExecutionsRecorded i) return stateResult false "EXECUTION_INVENTORY_INCOMPLETE" (cin_State i) ;;
    mkContinuityResult true "ACCEPTED" (Some ContinuitySuspended) None (Some false) (Some (cin_RecordedUnresolvedIDs i))
  else if cin_Action i == TeamContinuityBeginReconcile then
    when (cin_State i != ContinuitySuspended) || (cin_PresentedPowerEpoch i != cin_PowerEpoch i)
      return stateResult false "RECONCILIATION_PRECONDITION_FAILED" (cin_State i) ;;
    mkContinuityResult true "ACCEPTED" (Some ContinuityReconciling) None (Some false) (Some (cin_UnresolvedExecutionIDs i))
  else if cin_Action i == TeamContinuityUnexpectedOutage then
    when cin_NextPowerEpoch i != u64 (cin_PowerEpoch i + 1)
      return stateResult false "POWER_EPOCH_MISMATCH" (cin_State i) ;;
    mkContinuityResult true "ACCEPTED" (Some ContinuityReconciling) (Some (cin_NextPowerEpoch i)) (Some false)
      (Some (cin_KnownInFlightIDs i))
  else if cin_Action i == TeamContinuityResume then resume_policy i
  else if cin_Action i == TeamContinuityObserveContinuous then
    when negb (cin_ServicesHealthy i) return mkContinuityResult false "HOST_CONTINUITY_LOST" None None None None ;;
    mkContinuityResult true "ACCEPTED" None None None None
  else mkContinuityResult false "INVALID_ACTION" None None None None.

(** ** The table and the state machine *)

(** The event each action of the table stands for. *)
Definition action_event (action : TeamContinuityPolicyAction) : option string :=
  if action == TeamContinuityRequestQuiescence then Some "tekroo.event.system.quiescence-requested"
  else if action == TeamContinuityRecordSuspended then Some "tekroo.event.system.suspended"
  else if action == TeamContinuityBeginReconcile then Some "tekroo.event.system.reconciliation-started"
  else if action == TeamContinuityUnexpectedOutage then Some "tekroo.event.system.unexpected-outage-recorded"
  else if action == TeamContinuityResume then Some "tekroo.event.system.resumed"
  else None.

(** The control state and power epoch a result predicts for an input. *)
Definition predicted (i : TeamContinuityPolicyInput) (r : TeamContinuityPolicyResult) : ContinuityControlState * Z :=
  (default (cin_State i) (cres_State r), default (cin_PowerEpoch i) (cres_PowerEpoch r)).

Lemma action_event_inv action event :
  action_event action = Some event ->
  (action, event) ∈ [(TeamContinuityRequestQuiescence, "tekroo.event.system.quiescence-requested");
                     (TeamContinuityRecordSuspended, "tekroo.event.system.suspended");
                     (TeamContinuityBeginReconcile, "tekroo.event.system.reconciliation-started");
                     (TeamContinuityUnexpectedOutage, "tekroo.event.system.unexpected-outage-recorded");
                     (TeamContinuityResume, "tekroo.event.system.resumed")].
Proof.
  unfold action_event. intros H.
  repeat (destruct (_ == _) eqn:E in H;
    [apply bool_decide_eq_true in E; subst; injection H as <-; set_solver|clear E]). discriminate H.
Qed.

(** An input that meets every condition but the control state. *)
Definition ideal_input (action : TeamContinuityPolicyAction) (c : ContinuityControlState) (e : Z)
    : TeamContinuityPolicyInput :=
  mkContinuityInput action c e true "" [] [] e (e + 1) true [] [] true true true.

Ltac eval_table :=
  unfold predicted, EvaluateTeamContinuityPolicy, quiescence_policy, resume_policy;
  cbn [ideal_input cin_Action cin_State cin_PowerEpoch cin_NextPowerEpoch cin_PresentedPowerEpoch
       cin_AllExecutionsRecorded cin_UnresolvedExecutionIDs cin_ReconciledExecutionIDs cin_ServicesHealthy
       cin_OutboxReconciled cin_ChangeStreamReconciled];
  rewrite ?u64_id, ?bool_decide_refl by assumption; eval_tests; cbn [negb orb andb].

(** The continuity table decides the control diagram: on a system in some
    control state and power epoch below the largest, a transition of the diagram is
    possible if and only if the table accepts the action for some further input,
    and the table predicts where it leads. *)
Theorem continuity_table_exact action event c e next :
  action_event action = Some event -> is_u64 (e + 1) ->
  continuity_step event (c, e) next <->
  exists i, cin_Action i = action /\ cin_State i = c /\ cin_PowerEpoch i = e /\
    cres_Accepted (EvaluateTeamContinuityPolicy i) = true /\ predicted i (EvaluateTeamContinuityPolicy i) = next.
Proof.
  intros Ha He. assert (u64 (e + 1) = e + 1) as Hu by (by apply u64_id). apply action_event_inv in Ha. split.
  - intros Hs. exists (ideal_input action c e). split_and!; [reflexivity..| |];
      repeat (apply elem_of_cons in Ha as [[= -> ->]|Ha]); try (by apply elem_of_nil in Ha);
      inversion Hs; subst; eval_table; reflexivity.
  - intros (i & Hi & Hc & Hp & Hacc & Hn).
    repeat (apply elem_of_cons in Ha as [[= -> ->]|Ha]); try (by apply elem_of_nil in Ha); revert Hacc Hn;
      unfold predicted, EvaluateTeamContinuityPolicy, quiescence_policy, resume_policy; rewrite Hi, Hc, Hp, ?Hu;
      eval_tests; cbn [orb].
    all: repeat (match goal with |- context [if ?b then _ else _] => let E := fresh "E" in destruct b eqn:E; [discriminate|bprop E] end);
      intros _ <-; cbn [cres_State cres_PowerEpoch default id]; split_ands; subst;
      repeat match goal with E : cin_State _ = _ |- _ => rewrite E | E : cin_NextPowerEpoch _ = _ |- _ => rewrite E end;
      constructor.
Qed.

Lemma continuity_table_exact_witness :
  continuity_step "tekroo.event.system.quiescence-requested" (ContinuityActive, 1) (ContinuityQuiescing, 2).
Proof.
  apply (continuity_table_exact TeamContinuityRequestQuiescence); [reflexivity|split; [discriminate|reflexivity]|].
  exists (ideal_input TeamContinuityRequestQuiescence ContinuityActive 1). split_and!; vm_compute; reflexivity.
Defined.
