(* ===== verification/HumanPolicy.v ===== *)
(** * Policy of operator, human and continuity commands ([kernel/operator_human_continuity_policy.go])

    A verdict is an outcome and a reason; [None] where the source does not handle
    the command. Go iterates maps in an unspecified order: the search for a
    participant's profile takes the order as an argument. *)

From S2P Require Import Prelude GoText GoTime GoJson Types Samples Payload Envelope OperatorRole Participant Interaction.
From S2P Require Import Continuity State Evolve Fingerprint Provenance Snapshot.

Definition verdict : Type := OutcomeCode * string.
Definition pass : verdict := (OutcomeApplied, reasonApplied).
Definition conflict : verdict := (OutcomeRejectedConflict, reasonRevisionConflict).
Definition against_policy : verdict := (OutcomeRejectedPolicy, reasonPolicy).
Definition unauthorized : verdict := (OutcomeRejectedUnauthorized, reasonUnauthorized).
Definition stale_execution : verdict := (OutcomeRejectedStaleExecution, reasonStaleExecution).
Definition invalid_payload : verdict := (OutcomeRejectedInvalid, reasonInvalidPayload).

(** The order in which a [range] loop visits the entries of a map. *)
Definition iteration : Type := gmap AggregateRef RelatedSnapshot -> list (AggregateRef * RelatedSnapshot).
Definition iterates (order : iteration) : Prop := forall m, order m ≡ₚ map_to_list m.

Definition evidenceIDsCovered (ids : list UUIDv7) (refs : list EvidenceRef) : bool :=
  let covered : gset UUIDv7 := list_to_set (er_EvidenceID <$> refs) in
  forallb (fun id => bool_decide (id ∈ covered)) ids.

Definition participantEvidenceCovered (p : HumanParticipantSnapshot) (refs : list EvidenceRef) : bool :=
  forallb (fun b => evidenceIDsCovered (hr_EvidenceIDs b) refs) (hp_RoleBindings p)
  && forallb (fun b => evidenceIDsCovered (ha_EvidenceIDs b) refs) (hp_AuthenticationBindings p)
  && forallb (fun b => evidenceIDsCovered (hd_EvidenceIDs b) refs) (hp_DeliveryBindings p).

Definition principalObjectField (o : object) (name : string) : option PrincipalRef :=
  try value <- as_object (o !! name) ;;
  try kind <- as_string (value !! "kind") ;;
  try id <- as_string (value !! "id") ;;
  let principal := mkPrincipal kind id in
  when negb (PrincipalRef_Valid principal) return None ;;
  Some principal.

(** Both lists sorted, the identifiers must be those of causal parents. *)
Fixpoint causal_ids (ids : list UUIDv7) (parents : list DagParent) : bool :=
  match ids, parents with
  | id :: ids, p :: parents =>
    when (dp_ParentEventID p != id) || (dp_EdgeKind p != EdgeCausal) return false ;;
    causal_ids ids parents
  | _, _ => true
  end.

Definition causalPathMatchesCommandField (o : object) (parents : list DagParent) : bool :=
  match uuidArrayField o "causal_path_event_ids" with
  | None => false
  | Some ids =>
    when llen ids != llen parents return false ;;
    causal_ids (sort_strings ids) (canonicalParents parents)
  end.

Definition profile_of (principal : PrincipalRef) (value : RelatedSnapshot) : option HumanParticipantSnapshot :=
  try state <- rel_State value ;;
  try p <- as_Participant state ;;
  when hp_Participant p != principal return None ;;
  Some p.

Fixpoint find_profile (principal : PrincipalRef) (entries : list (AggregateRef * RelatedSnapshot))
    : option HumanParticipantSnapshot :=
  match entries with
  | [] => None
  | (_, value) :: entries =>
    match profile_of principal value with Some p => Some p | None => find_profile principal entries end
  end.

Definition findParticipantProfile (order : iteration) (related : gmap AggregateRef RelatedSnapshot)
    (principal : PrincipalRef) : option HumanParticipantSnapshot :=
  find_profile principal (order related).

Definition profileHasRole (p : HumanParticipantSnapshot) (roleID : UUIDv7) (at_ : Time) : bool :=
  existsb (fun r => (hr_RoleBindingID r == roleID) && HumanRoleBinding_Current r at_) (hp_RoleBindings p).

Record revokePayload := mkrevokePayload {
  rvp_Participant : PrincipalRef;
  rvp_ExpectedParticipantRevision : Z;
  rvp_ExpectedProfileID : UUIDv7;
  rvp_RevokedBy : PrincipalRef;
  rvp_RevokedAt : Time;
  rvp_Reason : string
}.

#[export] Instance eta_revokePayload : Eta revokePayload := fun r =>
  mkrevokePayload
    (rvp_Participant r) (rvp_ExpectedParticipantRevision r) (rvp_ExpectedProfileID r)
    (rvp_RevokedBy r) (rvp_RevokedAt r) (rvp_Reason r).

Definition zero_revokePayload : revokePayload :=
  mkrevokePayload
    zero_principal 0 "" zero_principal zero_time "".

Definition fields_revokePayload : list (field revokePayload) :=
  [
    fld "participant" rvp_Participant dec_PrincipalRef;
    fld "expected_participant_revision" rvp_ExpectedParticipantRevision dec_u64;
    fld "expected_profile_id" rvp_ExpectedProfileID dec_string;
    fld "revoked_by" rvp_RevokedBy dec_PrincipalRef;
    fld "revoked_at" rvp_RevokedAt dec_time;
    fld "reason" rvp_Reason dec_string
  ].

Definition continuityEventType (type : string) : option string :=
  lookup_str type
    [("tekroo.command.system.request-quiescence", "tekroo.event.system.quiescence-requested");
     ("tekroo.command.system.record-suspended", "tekroo.event.system.suspended");
     ("tekroo.command.system.record-unexpected-outage", "tekroo.event.system.unexpected-outage-recorded");
     ("tekroo.command.system.begin-reconciliation", "tekroo.event.system.reconciliation-started");
     ("tekroo.command.system.resume", "tekroo.event.system.resumed")].

Definition interactionEventType (type : string) : option string :=
  lookup_str type
    [("tekroo.command.human-interaction.record-delivery", "tekroo.event.human-interaction.delivery-recorded");
     ("tekroo.command.human-interaction.respond", "tekroo.event.human-interaction.response-recorded");
     ("tekroo.command.human-interaction.close", "tekroo.event.human-interaction.closed");
     ("tekroo.command.human-interaction.expire", "tekroo.event.human-interaction.expired")].

(** ** The cases *)

Section Cases.

Context (order : iteration) (c : KernelCommand) (s : Snapshot) (context : DecisionContext) (o : object).

Definition bind_role_policy : verdict :=
  match OperatorRoleFromPayload (cmd_Payload c), nonnegativeUint64Field o "expected_system_revision" with
  | Some profile, Some expected =>
    when (expected != sn_Revision s) || negb (payloadEvidenceMatches o (cmd_EvidenceRefs c))
         || negb (evidenceIDsCovered (op_RoleBundleSignatureEvidenceIDs profile) (cmd_EvidenceRefs c))
      return conflict ;;
    when negb (sn_Exists s) && negb (is_nil (op_ReplacesBindingID profile))
         || sn_Exists s && match sn_State s ≫= as_OperatorRole, op_ReplacesBindingID profile with
                           | Some role, Some replaced => replaced != op_BindingID role
                           | _, _ => true
                           end
      return against_policy ;;
    pass
  | _, _ => conflict
  end.

Definition configure_policy : verdict :=
  match nonnegativeUint64Field o "expected_system_revision", principalObjectField o "configured_by" with
  | Some expected, Some configuredBy =>
    when (expected != sn_Revision s) || (configuredBy != cmd_Authority c)
         || negb (payloadEvidenceMatches o (cmd_EvidenceRefs c))
      return conflict ;;
    when sn_Exists s && match sn_State s with
                        | None => true
                        | Some state => match as_Continuity state with
                                        | Some continuity => tc_ControlState continuity != ContinuityActive
                                        | None => false
                                        end
                        end
      return against_policy ;;
    pass
  | _, _ => conflict
  end.

(** The event a command would commit, as the policy checks it. *)
Definition next_event (eventType : string) : DomainEvent :=
  bare_event (dc_EventID context) eventType (cmd_Target c) (u64 (sn_Revision s + 1)) 0 (cmd_Payload c).

Definition continuity_policy (eventType : string) : verdict :=
  match sn_State s ≫= as_Continuity with
  | None => against_policy
  | Some continuity =>
    when negb (payloadEvidenceMatches o (cmd_EvidenceRefs c)) return against_policy ;;
    when negb (snd (ApplyContinuityEvent continuity (next_event eventType))) return against_policy ;;
    pass
  end.

Definition bind_profile_policy : verdict :=
  match HumanParticipantFromPayload (cmd_Payload c) (u64 (sn_Revision s + 1)) with
  | None => invalid_payload
  | Some participant =>
    when negb (payloadEvidenceMatches o (cmd_EvidenceRefs c))
         || negb (participantEvidenceCovered participant (cmd_EvidenceRefs c))
      return invalid_payload ;;
    when negb (sn_Exists s) && ((hp_ProfileRevision participant != 1) || negb (is_nil (hp_SupersedesProfileID participant)))
         || sn_Exists s
            && match sn_State s ≫= as_Participant, hp_SupersedesProfileID participant with
               | Some current, Some superseded =>
                 (hp_Participant participant != hp_Participant current)
                 || (hp_ProfileRevision participant != u64 (hp_ProfileRevision current + 1))
                 || (superseded != hp_ProfileID current)
               | _, _ => true
               end
      return conflict ;;
    pass
  end.

Definition revoke_policy : verdict :=
  match Unmarshal fields_revokePayload zero_revokePayload (cmd_Payload c), sn_State s ≫= as_Participant with
  | Some v, Some p =>
    when negb (hp_Active p) || (rvp_Participant v != hp_Participant p)
         || (rvp_ExpectedParticipantRevision v != sn_Revision s) || (rvp_ExpectedProfileID v != hp_ProfileID p)
         || (rvp_RevokedBy v != cmd_Authority c) || IsZero (rvp_RevokedAt v) || (rvp_Reason v == "")
         || (4096 <? slen (rvp_Reason v)) || negb (payloadEvidenceMatches o (cmd_EvidenceRefs c))
      return conflict ;;
    pass
  | _, _ => conflict
  end.

(** Whether a recipient of an interaction has an active profile with the route and role it names. *)
Definition recipient_current (interaction : HumanInteractionSnapshot) (r : HumanInteractionRecipient) : bool :=
  match findParticipantProfile order (sn_Related s) (rcp_Principal r) with
  | None => false
  | Some profile =>
    when negb (hp_Active profile) || (hp_ProfileID profile != rcp_ParticipantProfileID r)
         || (hp_ProfileRevision profile != rcp_ParticipantProfileRevision r)
         || (hp_ProfileDigest profile != rcp_ParticipantProfileDigest r)
      return false ;;
    negb (is_nil (Delivery profile (rcp_DeliveryBindingID r) (hi_Confidentiality interaction)))
    && profileHasRole profile (rcp_RoleBindingID r) (dc_DecidedAt context)
  end.

Definition open_interaction_policy : verdict :=
  match HumanInteractionFromOpenPayload (cmd_Payload c) 1 with
  | None => invalid_payload
  | Some i =>
    when (hi_InteractionID i != ref_ID (cmd_Target c)) || (hi_OriginPrincipal i != cmd_Authority c)
         || negb (payloadEvidenceMatches o (cmd_EvidenceRefs c))
         || negb (causalPathMatchesCommandField o (cmd_Causation c))
      return invalid_payload ;;
    when (pr_Kind (hi_OriginPrincipal i) == PrincipalActor)
         && match cmd_ActorFQN c, cmd_Execution c, hi_OriginActorFQN i, hi_OriginExecution i with
            | Some actor, Some execution, Some origin, Some originExecution =>
              (actor != origin) || (execution != originExecution)
              || (sn_CurrentExecutions s !! actor != Some execution)
            | _, _, _, _ => true
            end
      return stale_execution ;;
    match sn_Related s !! hi_Subject i with
    | None => conflict
    | Some related =>
      when negb (rel_Exists related) || (rel_Revision related != hi_ExpectedSubjectRevision i)
           || match rel_State related with
              | Some state => as_LifecycleEpoch state != hi_SubjectLifecycleEpoch i
              | None => true
              end
           || negb (containsAggregatePrecondition (cmd_Preconditions c) (hi_Subject i))
        return conflict ;;
      when negb (forallb (recipient_current i) (hi_Recipients i)) return against_policy ;;
      pass
    end
  end.

(** Who may answer: a selected recipient, in person, with an active profile, role and credential. *)
Definition respondent_ok (interaction : HumanInteractionSnapshot) : bool :=
  when (pr_Kind (cmd_Authority c) != PrincipalHuman) || negb (is_nil (cmd_ActorFQN c))
       || negb (is_nil (cmd_Execution c))
    return false ;;
  match humanResponseFromPayload (cmd_Payload c) (dc_EventID context) with
  | None => false
  | Some response =>
    let record := ph_Record response in
    when rsp_Respondent record != cmd_Authority c return false ;;
    match Selected interaction (rsp_Respondent record) with
    | None => false
    | Some recipient =>
      match findParticipantProfile order (sn_Related s) (rcp_Principal recipient) with
      | None => false
      | Some profile =>
        when negb (hp_Active profile) || (hp_ProfileID profile != rsp_ParticipantProfileID record)
             || (hp_ProfileRevision profile != rsp_ParticipantProfileRevision record)
             || negb (profileHasRole profile (rsp_RoleBindingID record) (dc_DecidedAt context))
          return false ;;
        negb (is_nil (Authentication profile (rsp_AuthenticationBindingID record)))
      end
    end
  end.

Definition interaction_policy (eventType : string) : verdict :=
  match sn_State s ≫= as_Interaction with
  | None => against_policy
  | Some interaction =>
    when negb (payloadEvidenceMatches o (cmd_EvidenceRefs c)) return against_policy ;;
    when (cmd_CommandType c == "tekroo.command.human-interaction.respond") && negb (respondent_ok interaction)
      return unauthorized ;;
    when negb (snd (ApplyHumanInteractionEvent interaction (next_event eventType))) return against_policy ;;
    pass
  end.

End Cases.

Definition validateOperatorHumanContinuityCommand (order : iteration) (c : KernelCommand) (s : Snapshot)
    (context : DecisionContext) : option verdict :=
  match decodePayloadObject (cmd_Payload c) with
  | None => Some invalid_payload
  | Some o =>
    let type := cmd_CommandType c in
    if type == "tekroo.command.system.bind-operator-role" then Some (bind_role_policy c s o)
    else if type == "tekroo.command.system.configure-continuity" then Some (configure_policy c s o)
    else match continuityEventType type with
    | Some eventType => Some (continuity_policy c s context o eventType)
    | None =>
      if type == "tekroo.command.human-participant.bind-profile" then Some (bind_profile_policy c s o)
      else if type == "tekroo.command.human-participant.revoke" then Some (revoke_policy c s o)
      else if type == "tekroo.command.human-interaction.open" then Some (open_interaction_policy order c s context o)
      else match interactionEventType type with
      | Some eventType => Some (interaction_policy order c s context o eventType)
      | None => None
      end
    end
  end.
