(* ===== verification/WorkPolicy.v ===== *)
(** * Policy of budgets, scopes and invocations ([kernel/phase4_policy.go])

    [None] where the source does not handle the command; otherwise a rejection or
    the payload, budget debit and lifecycle epoch of the event to commit. *)

From S2P Require Import Prelude GoText GoTime GoJson Types Samples Payload Envelope State Evolve WorkProfile Assignment.
From S2P Require Import WorkInvocation InvocationLaws Fingerprint Provenance Snapshot HumanPolicy.

Record phase4PolicyDecision := mkPhase4 {
  p4d_EventPayload : string;
  p4d_WorkBudget : option WorkBudgetDebitDecision;
  p4d_LifecycleEpoch : Z
}.

Record authorityPayload := mkauthorityPayload {
  aup_Authority : PrincipalRef
}.

#[export] Instance eta_authorityPayload : Eta authorityPayload := fun r =>
  mkauthorityPayload
    (aup_Authority r).

Definition zero_authorityPayload : authorityPayload :=
  mkauthorityPayload
    zero_principal.

Definition fields_authorityPayload : list (field authorityPayload) :=
  [
    fld "authority" aup_Authority dec_PrincipalRef
  ].

Definition payloadEvidenceMatchesObject (payload : string) (references : list EvidenceRef) : bool :=
  match decodePayloadObject payload with Some o => payloadEvidenceMatches o references | None => false end.
Definition payloadEvidenceFieldMatchesObject (payload field : string) (references : list EvidenceRef) : bool :=
  match decodePayloadObject payload with Some o => payloadEvidenceFieldMatches o field references | None => false end.
Definition payloadAuthorityMatches (payload : string) (authority : PrincipalRef) : bool :=
  match Unmarshal fields_authorityPayload zero_authorityPayload payload with
  | Some v => aup_Authority v == authority
  | None => false
  end.

Definition invocationEventType (type : string) : option string :=
  lookup_str type
    [("tekroo.command.work-invocation.claim", "tekroo.event.work-invocation.claimed");
     ("tekroo.command.work-invocation.record-started", "tekroo.event.work-invocation.started");
     ("tekroo.command.work-invocation.record-terminal", "tekroo.event.work-invocation.terminal-recorded");
     ("tekroo.command.work-invocation.request-cancellation", "tekroo.event.work-invocation.cancellation-requested");
     ("tekroo.command.work-invocation.expire", "tekroo.event.work-invocation.expired")].

Section Cases.

Context (c : KernelCommand) (s : Snapshot) (context : DecisionContext).

(** The command's payload becomes the event's, and no budget is debited. *)
Definition plain_event (epoch : Z) : rejection + phase4PolicyDecision := inr (mkPhase4 (cmd_Payload c) None epoch).

Definition create_budget_policy : rejection + phase4PolicyDecision :=
  match WorkBudgetFromCreatePayload (cmd_Payload c) (dc_EventID context) with
  | None => inl invalid_payload
  | Some account =>
    when (ba_ID account != ref_ID (cmd_Target c))
         || negb (payloadEvidenceMatchesObject (cmd_Payload c) (cmd_EvidenceRefs c))
         || negb (payloadAuthorityMatches (cmd_Payload c) (cmd_Authority c))
      return inl invalid_payload ;;
    when match sn_Related s !! ba_RootWork account with
         | None => true
         | Some root =>
           negb (rel_Exists root)
           || match rel_State root with
              | Some state => as_LifecycleEpoch state != ba_LifecycleEpoch account
              | None => true
              end
           || negb (containsAggregatePrecondition (cmd_Preconditions c) (ba_RootWork account))
           || negb (Before (dc_DecidedAt context) (ba_DeadlineAt account))
         end
      return inl (OutcomeRejectedConflict, "INVALID_ROOT_BUDGET") ;;
    plain_event (ba_LifecycleEpoch account)
  end.

Definition amend_budget_policy : rejection + phase4PolicyDecision :=
  match sn_WorkBudgetAccounts s !! cmd_Target c with
  | None => inl (OutcomeRejectedConflict, "MISSING_BUDGET")
  | Some current =>
    when negb (WorkBudgetAccount_Valid current) return inl (OutcomeRejectedConflict, "MISSING_BUDGET") ;;
    when negb (snd (ApplyWorkBudgetAmendment current (cmd_Payload c) (dc_EventID context)))
         || negb (payloadEvidenceMatchesObject (cmd_Payload c) (cmd_EvidenceRefs c))
         || negb (payloadAuthorityMatches (cmd_Payload c) (cmd_Authority c))
      return inl (OutcomeRejectedPolicy, "INVALID_BUDGET_AMENDMENT") ;;
    plain_event (ba_LifecycleEpoch current)
  end.

(** No capacity is minted: limits cover what was used and stay within the account's. *)
Definition covers (limits used : PurposeCounters) : bool :=
  negb (existsb (fun p => mget 0 p limits <? mget 0 p used) AllWorkPurposes).

Definition rebinding_reason (binding : TaskWorkBudgetBinding) : option string :=
  match sn_TaskWorkBudgets s !! cmd_Target c with
  | None => None
  | Some current =>
    when tb_BudgetAccountID current != tb_BudgetAccountID binding return Some "BUDGET_RESET_PROHIBITED" ;;
    when tb_ModelInvocationLimit binding <? tb_ModelInvocationsUsed current return Some "CAPACITY_MINT_PROHIBITED" ;;
    when negb (covers (tb_PurposeLimits binding) (tb_PurposeUsed current)) return Some "CAPACITY_MINT_PROHIBITED" ;;
    None
  end.

Definition bind_budget_policy : rejection + phase4PolicyDecision :=
  match TaskWorkBudgetBindingFromPayload (cmd_Payload c) (dc_EventID context), sn_State s with
  | Some binding, Some state =>
    let accountRef := mkRef AggregateWorkBudget (tb_BudgetAccountID binding) in
    match sn_WorkBudgetAccounts s !! accountRef with
    | None => inl (OutcomeRejectedConflict, "INVALID_BUDGET_BINDING")
    | Some account =>
      when (tb_TaskID binding != ref_ID (cmd_Target c)) || (tb_TaskRevision binding != u64 (sn_Revision s + 1))
           || (tb_LifecycleEpoch binding != as_LifecycleEpoch state)
           || (tb_ScopeRevision binding != as_ScopeRevision state)
           || negb (WorkBudgetAccount_Valid account)
           || negb (containsAggregatePrecondition (cmd_Preconditions c) accountRef)
           || negb (payloadEvidenceMatchesObject (cmd_Payload c) (cmd_EvidenceRefs c))
        return inl (OutcomeRejectedConflict, "INVALID_BUDGET_BINDING") ;;
      match rebinding_reason binding with
      | Some reason => inl (OutcomeRejectedPolicy, reason)
      | None =>
        when (ba_ModelInvocationLimit account <? tb_ModelInvocationLimit binding)
             || negb (covers (ba_PurposeLimits account) (tb_PurposeLimits binding))
          return inl (OutcomeRejectedPolicy, "CAPACITY_MINT_PROHIBITED") ;;
        plain_event (tb_LifecycleEpoch binding)
      end
    end
  | _, _ => inl (OutcomeRejectedConflict, "INVALID_BUDGET_BINDING")
  end.

Definition bind_scope_policy : rejection + phase4PolicyDecision :=
  match TaskOperationalScopeFromPayload (cmd_Payload c) (dc_EventID context), sn_State s with
  | Some scope, Some state =>
    when (os_TaskID scope != ref_ID (cmd_Target c)) || (os_TaskRevision scope != u64 (sn_Revision s + 1))
         || (os_LifecycleEpoch scope != as_LifecycleEpoch state)
         || (os_ScopeRevision scope != as_ScopeRevision state)
         || (own_OwnerFQN (as_Ownership state) != Some (os_OwnerFQN scope))
         || (default zero_exec (sn_CurrentExecutions s !! os_OwnerFQN scope) != os_Execution scope)
         || negb (payloadEvidenceFieldMatchesObject (cmd_Payload c) "interface_constraint_evidence_ids" (cmd_EvidenceRefs c))
      return inl (OutcomeRejectedConflict, "INVALID_OPERATIONAL_SCOPE") ;;
    plain_event (os_LifecycleEpoch scope)
  | _, _ => inl (OutcomeRejectedConflict, "INVALID_OPERATIONAL_SCOPE")
  end.

(** The plan made from the snapshot; the invocations are visited in any order, see
    [InvocationLaws]. *)
Definition authorization_plan (value : invocationAuthorizationPayload) (task : AggregateState)
    (account : WorkBudgetAccount) (binding : TaskWorkBudgetBinding) (scope : TaskOperationalScope)
    (profile : WorkProfileSnapshot) (assignment : QualifiedAssignmentAuthorization) : InvocationAdmissionDecision :=
  PlanWorkInvocationAuthorization (cmd_Payload c) task account binding scope profile assignment
    (default zero_exec (sn_CurrentExecutions s !! ip_ActorFQN value)) (map snd (map_to_list (sn_WorkInvocations s)))
    (dc_DecidedAt context) (dc_EventID context).

Definition authorize_policy : rejection + phase4PolicyDecision :=
  match parseInvocationAuthorization (cmd_Payload c) with
  | None => inl (OutcomeRejectedInvalid, "INVALID_INVOCATION")
  | Some value =>
    when (ip_InvocationID value != ref_ID (cmd_Target c)) || (cmd_IdempotencyKey c != ip_IdempotencyKey value)
         || negb (containsDagParent (cmd_Causation c) (ip_ParentEventID value) EdgeCausal)
      return inl (OutcomeRejectedInvalid, "INVALID_INVOCATION") ;;
    let taskRef := mkRef AggregateTask (ip_TaskID value) in
    let budgetRef := mkRef AggregateWorkBudget (ip_BudgetAccountID value) in
    match sn_Related s !! taskRef ≫= rel_State, sn_WorkBudgetAccounts s !! budgetRef,
          sn_TaskWorkBudgets s !! taskRef, sn_TaskOperationalScopes s !! taskRef,
          sn_WorkProfiles s !! taskRef, sn_QualifiedAssignments s !! taskRef with
    | Some task, Some account, Some binding, Some scope, Some profile, Some assignment =>
      when negb (containsAggregatePrecondition (cmd_Preconditions c) taskRef)
           || negb (containsAggregatePrecondition (cmd_Preconditions c) budgetRef)
        return inl (OutcomeRejectedPolicy, "MISSING_BUDGET") ;;
      let decision := authorization_plan value task account binding scope profile assignment in
      when negb (iad_Accepted decision) return inl (OutcomeRejectedPolicy, iad_Reason decision) ;;
      inr (mkPhase4 (iad_EventPayload decision) (iad_BudgetDebit decision) (iv_LifecycleEpoch (iad_Invocation decision)))
    | _, _, _, _, _, _ => inl (OutcomeRejectedPolicy, "MISSING_BUDGET")
    end
  end.

Definition invocation_policy (eventType : string) : rejection + phase4PolicyDecision :=
  match sn_WorkInvocations s !! cmd_Target c with
  | None => inl (OutcomeRejectedNotFound, reasonNotFound)
  | Some current =>
    when negb (WorkInvocation_Valid current) return inl (OutcomeRejectedNotFound, reasonNotFound) ;;
    when negb (snd (ApplyWorkInvocationEvent current (next_event c s context eventType)))
      return (when (cmd_CommandType c == "tekroo.command.work-invocation.claim")
                   && (iv_State current != InvocationAuthorized)
                return inl (OutcomeRejectedConflict, "PERMIT_ALREADY_CONSUMED") ;;
              when cmd_CommandType c == "tekroo.command.work-invocation.record-terminal"
                return inl (OutcomeRejectedPolicy, "TERMINAL_EVIDENCE_REQUIRED") ;;
              inl (OutcomeRejectedConflict, "INVALID_INVOCATION_TRANSITION")) ;;
    plain_event (iv_LifecycleEpoch current)
  end.

End Cases.

Definition evaluatePhase4Command (c : KernelCommand) (s : Snapshot) (context : DecisionContext)
    : option (rejection + phase4PolicyDecision) :=
  let type := cmd_CommandType c in
  if type == "tekroo.command.work-budget.create" then Some (create_budget_policy c s context)
  else if type == "tekroo.command.work-budget.amend" then Some (amend_budget_policy c s context)
  else if type == "tekroo.command.task.bind-work-budget" then Some (bind_budget_policy c s context)
  else if type == "tekroo.command.task.bind-operational-scope" then Some (bind_scope_policy c s context)
  else if type == "tekroo.command.work-invocation.authorize" then Some (authorize_policy c s context)
  else match invocationEventType type with
  | Some eventType => Some (invocation_policy c s context eventType)
  | None => None
  end.
