(* ===== verification/CommandPolicy.v ===== *)
(** * Command policy ([kernel/decision_policy.go])

    What each command demands of the snapshot beyond its envelope: a function per
    case of the switch in [validateCommandPolicy]. *)

From S2P Require Import Prelude GoText GoTime GoJson Types Samples Payload Envelope State Evolve Authorization WorkProfile.
From S2P Require Import Assignment WorkInvocation Fingerprint Provenance Release Variant Escalation Review Snapshot HumanPolicy.

Definition reasonCriteriaRevisionConflict : string := "CRITERIA_REVISION_CONFLICT".
Definition reasonDependencyNotReady : string := "DEPENDENCY_NOT_READY".
Definition reasonValidationIncomplete : string := "VALIDATION_INCOMPLETE".
Definition reasonUnresolvedExceptions : string := "UNRESOLVED_EXCEPTIONS".
Definition reasonAcceptanceGateFailed : string := "ACCEPTANCE_GATE_FAILED".
Definition reasonStaleLifecycleEpoch : string := "STALE_LIFECYCLE_EPOCH".
Definition reasonInvalidSuccessor : string := "INVALID_SUCCESSOR".
Definition reasonCorrectionTarget : string := "CORRECTION_TARGET_NOT_FOUND".
Definition reasonReviewAlreadyOpen : string := "REVIEW_ALREADY_OPEN".
Definition reasonReviewNotFinalized : string := "REVIEW_NOT_FINALIZED".
Definition reasonEscalationAlreadyExists : string := "ESCALATION_ALREADY_EXISTS".
Definition reasonEscalationNotFound : string := "ESCALATION_NOT_FOUND".
Definition reasonReleaseAlreadyExists : string := "RELEASE_ALREADY_EXISTS".
Definition reasonReleaseNotFound : string := "RELEASE_NOT_FOUND".
Definition reasonReleaseGateFailed : string := "RELEASE_GATE_FAILED".

Definition release_gate : verdict := (OutcomeRejectedPolicy, reasonReleaseGateFailed).
Definition stale_epoch : verdict := (OutcomeRejectedConflict, reasonStaleLifecycleEpoch).
Definition invalid_evidence : verdict := (OutcomeRejectedInvalid, reasonInvalidEvidence).
Definition incomplete : verdict := (OutcomeRejectedPolicy, reasonValidationIncomplete).

Definition work_exempt (type : string) : bool :=
  contains ["tekroo.command.story.create"; "tekroo.command.task.create"; "tekroo.command.record.correct"] type.

Definition commandRequiresLifecycleEpoch (c : KernelCommand) : bool :=
  when work_exempt (cmd_CommandType c) return false ;;
  (ref_Kind (cmd_Target c) == AggregateStory) || (ref_Kind (cmd_Target c) == AggregateTask).

Definition expectedLifecycleEpochMatches (c : KernelCommand) (s : Snapshot) : bool :=
  if (ref_Kind (cmd_Target c) == AggregateStory) || (ref_Kind (cmd_Target c) == AggregateTask) then
    when work_exempt (cmd_CommandType c) return is_nil (cmd_ExpectedLifecycleEpoch c) ;;
    when xr_MustNotExist (cmd_ExpectedRevision c) return false ;;
    match cmd_ExpectedLifecycleEpoch c, sn_State s with
    | Some epoch, Some state => epoch == as_LifecycleEpoch state
    | _, _ => false
    end
  else is_nil (cmd_ExpectedLifecycleEpoch c).

Definition acceptedFinalizedReview (o : object) (subject : AggregateRef) (s : Snapshot) : bool :=
  match as_string (o !! "completion_review_id"), uint64Field o "completion_review_revision",
        uint64Field o "branch_policy_revision", as_string (o !! "validation_finalized_event_id"),
        uint64Field o "criteria_revision", uint64Field o "lifecycle_epoch" with
  | Some reviewText, Some reviewRevision, Some branchRevision, Some finalizedID, Some criteria, Some epoch =>
    let reviewRef := mkRef AggregateCompletionReview reviewText in
    match sn_Reviews s !! reviewRef, sn_AcceptedEvents s !! (finalizedID : UUIDv7) with
    | Some review, Some event =>
      AggregateRef_Valid reviewRef && UUIDv7_Valid finalizedID && (cr_Subject review == subject)
      && (cr_LifecycleEpoch review == epoch) && (cr_CriteriaRevision review == criteria)
      && (cr_BranchPolicyRevision review == branchRevision) && (cr_ReviewRevision review == reviewRevision)
      && match cr_Finalization review with
         | Some z => (rz_EventID z == finalizedID) && (rz_ReviewRevision z == reviewRevision)
                     && (rz_TerminalStatus z == "PASS")
         | None => false
         end
      && negb (ae_Quarantined event) && (ae_EventType event == "tekroo.event.completion-review.finalized")
    | _, _ => false
    end
  | _, _, _, _, _, _ => false
  end.

Definition state_is (s : option AggregateState) (p : AggregateState -> bool) : bool :=
  match s with Some state => p state | None => false end.

Record approvePayload := mkapprovePayload {
  apy_StoryID : UUIDv7;
  apy_LifecycleEpoch : Z;
  apy_ExpectedStoryRevision : Z;
  apy_Author : PrincipalRef;
  apy_EvidenceIDs : list UUIDv7
}.

#[export] Instance eta_approvePayload : Eta approvePayload := fun r =>
  mkapprovePayload
    (apy_StoryID r) (apy_LifecycleEpoch r) (apy_ExpectedStoryRevision r) (apy_Author r)
    (apy_EvidenceIDs r).

Definition zero_approvePayload : approvePayload :=
  mkapprovePayload
    "" 0 0 zero_principal [].

Definition fields_approvePayload : list (field approvePayload) :=
  [
    fld "story_id" apy_StoryID dec_string;
    fld "lifecycle_epoch" apy_LifecycleEpoch dec_u64;
    fld "expected_story_revision" apy_ExpectedStoryRevision dec_u64;
    fld "author" apy_Author dec_PrincipalRef;
    fld "evidence_ids" apy_EvidenceIDs (dec_slice "" dec_string)
  ].

Record acceptancePayload := mkacceptancePayload {
  acy_ReleaseMode : ReleaseMode;
  acy_ReleasePlanID : UUIDv7;
  acy_ReleasePlanRevision : Z;
  acy_ReleaseFinalizedEventID : UUIDv7;
  acy_QualifiedTreeDigest : string
}.

#[export] Instance eta_acceptancePayload : Eta acceptancePayload := fun r =>
  mkacceptancePayload
    (acy_ReleaseMode r) (acy_ReleasePlanID r) (acy_ReleasePlanRevision r)
    (acy_ReleaseFinalizedEventID r) (acy_QualifiedTreeDigest r).

Definition zero_acceptancePayload : acceptancePayload :=
  mkacceptancePayload
    "" "" 0 "" "".

Definition fields_acceptancePayload : list (field acceptancePayload) :=
  [
    fld "release_mode" acy_ReleaseMode dec_string;
    fld "release_plan_id" acy_ReleasePlanID dec_string;
    fld "release_plan_revision" acy_ReleasePlanRevision dec_u64;
    fld "release_finalized_event_id" acy_ReleaseFinalizedEventID dec_string;
    fld "qualified_tree_digest" acy_QualifiedTreeDigest dec_string
  ].

(** ** The cases *)

Section Cases.

Context (c : KernelCommand) (s : Snapshot) (context : DecisionContext) (o : object).

Definition evidence_matches : bool := payloadEvidenceMatches o (cmd_EvidenceRefs c).
Definition authority_kind : PrincipalKind := pr_Kind (cmd_Authority c).

(** The event a command would commit, with its time. *)
Definition dated_event (eventType : string) : DomainEvent :=
  mkEvent "" (dc_EventID context) eventType "" (cmd_Target c) (u64 (sn_Revision s + 1)) 0 "" zero_principal None None
    [] (dc_DecidedAt context) (cmd_Payload c) "".

Definition bind_work_profile_policy : verdict :=
  match sn_State s with
  | None => unauthorized
  | Some state =>
    when (authority_kind != PrincipalPolicy) && (authority_kind != PrincipalHuman)
         || negb (payloadEvidenceFieldMatches o "classification_evidence_ids" (cmd_EvidenceRefs c))
      return unauthorized ;;
    match WorkRiskProfileFromPayload (cmd_Payload c) with
    | None => invalid_payload
    | Some profile =>
      let decision := PlanWorkProfileBinding (mkBindingInput state profile (sn_WorkProfiles s !! cmd_Target c)) in
      when bd_Status decision != WorkProfileReady return (OutcomeRejectedConflict, bd_Reason decision) ;;
      pass
    end
  end.

(** The profile of the target is valid and is the one a binding names. *)
Definition profile_bound (ref : AggregateRef) (binding : WorkProfileBinding) : bool :=
  match sn_WorkProfiles s !! ref with
  | Some profile => WorkProfileSnapshot_Valid profile && (Binding (ws_Profile profile) == binding)
  | None => false
  end.

Definition authorize_assignment_policy : verdict :=
  match QualifiedAssignmentAuthorizationFromPayload (cmd_Payload c) (dc_EventID context), sn_State s with
  | Some a, Some state =>
    when (qa_TaskID a != ref_ID (cmd_Target c)) || (qa_ExpectedTaskRevision a != sn_Revision s)
         || negb (TaskBindingMatches (qa_WorkProfile a) state) || negb (profile_bound (cmd_Target c) (qa_WorkProfile a))
         || match sn_WorkProfiles s !! cmd_Target c with
            | Some profile => qa_RequiredDecisionRoute a != wp_MinimumDecisionRoute (ws_Profile profile)
            | None => true
            end
         || negb evidence_matches
      return conflict ;;
    when sn_CurrentExecutions s !! qa_SelectedActorFQN a != Some (SelectedExecution a) return stale_execution ;;
    pass
  | _, _ => conflict
  end.

Definition dispatch_policy : verdict :=
  match sn_QualifiedAssignments s !! cmd_Target c, sn_State s with
  | Some a, Some state =>
    when negb (QualifiedAssignmentAuthorization_Valid a) || (u64 (qa_ExpectedTaskRevision a + 1) != sn_Revision s)
         || negb (TaskBindingMatches (qa_WorkProfile a) state) || negb (profile_bound (cmd_Target c) (qa_WorkProfile a))
         || (as_string (o !! "destination") != Some (qa_SelectedActorFQN a : string))
         || negb (containsDagParent (cmd_Causation c) (qa_AuthorizationEventID a) EdgeCausal)
      return against_policy ;;
    when sn_CurrentExecutions s !! qa_SelectedActorFQN a != Some (SelectedExecution a) return stale_execution ;;
    pass
  | _, _ => against_policy
  end.

Definition open_variant_policy : verdict :=
  when (authority_kind != PrincipalPolicy) || negb evidence_matches return unauthorized ;;
  match VariantGroupFromOpenPayload (cmd_Payload c) (dc_EventID context) with
  | None => conflict
  | Some group =>
    let taskRef := mkRef AggregateTask (vg_TaskID group) in
    when (vg_VariantGroupID group != ref_ID (cmd_Target c))
         || negb (state_is (sn_Related s !! taskRef ≫= rel_State) (fun task =>
              (as_LifecycleEpoch task == wb_LifecycleEpoch (vg_WorkProfile group))
              && (as_ScopeRevision task == wb_ScopeRevision (vg_WorkProfile group))))
         || match sn_WorkProfiles s !! taskRef with
            | Some profile => Binding (ws_Profile profile) != vg_WorkProfile group
            | None => true
            end
         || negb (containsAggregatePrecondition (cmd_Preconditions c) taskRef)
      return conflict ;;
    when negb (is_nil (sn_VariantGroupKeys s !! VariantGroup_Key group)) return conflict ;;
    pass
  end.

Definition variantEventType (type : string) : option string :=
  lookup_str type
    [("tekroo.command.variant-group.submit-candidate", "tekroo.event.variant-group.candidate-submitted");
     ("tekroo.command.variant-group.record-comparison", "tekroo.event.variant-group.comparison-recorded");
     ("tekroo.command.variant-group.select", "tekroo.event.variant-group.selected")].

(** Candidates come from the executing actor, comparisons and selections from their appointed principals. *)
Definition variant_author_ok (group : VariantGroupSnapshot) : bool :=
  if cmd_CommandType c == "tekroo.command.variant-group.submit-candidate" then
    match variantCandidateFromPayload (cmd_Payload c) (dc_EventID context) with
    | Some candidate => (cmd_ActorFQN c == Some (vc_ActorFQN candidate)) && (cmd_Execution c == Some (vc_Execution candidate))
    | None => false
    end
  else if cmd_CommandType c == "tekroo.command.variant-group.record-comparison" then
    cmd_Authority c == vg_Comparator group
  else if cmd_CommandType c == "tekroo.command.variant-group.select" then cmd_Authority c == vg_Adjudicator group
  else true.

Definition variant_policy (eventType : string) : verdict :=
  match sn_VariantGroups s !! cmd_Target c with
  | None => conflict
  | Some group =>
    when (vg_Revision group != sn_Revision s) || negb evidence_matches return conflict ;;
    when negb (variant_author_ok group) return unauthorized ;;
    when negb (snd (ApplyVariantEvent group (dated_event eventType))) return against_policy ;;
    pass
  end.

Definition approve_release_policy : verdict :=
  match Unmarshal fields_approvePayload zero_approvePayload (cmd_Payload c) with
  | None => release_gate
  | Some v =>
    when (apy_StoryID v != ref_ID (cmd_Target c)) || (apy_Author v != cmd_Authority c)
         || negb (state_is (sn_State s) (fun state =>
              (as_Phase state == PhaseCompleted) && (as_LifecycleEpoch state == apy_LifecycleEpoch v)))
         || (sn_Revision s != apy_ExpectedStoryRevision v) || negb evidence_matches
      return release_gate ;;
    pass
  end.

Definition create_release_policy : verdict :=
  match ReleasePlanFromCreatePayload (cmd_Payload c) (dc_EventID context) with
  | None => invalid_payload
  | Some plan =>
    when (authority_kind != PrincipalPolicy) || (rp_ReleasePlanID plan != ref_ID (cmd_Target c)) || negb evidence_matches
      return invalid_payload ;;
    when match sn_Related s !! rp_Story plan with
         | None => true
         | Some story =>
           negb (rel_Exists story) || (rel_Revision story != rp_ExpectedStoryRevision plan)
           || negb (state_is (rel_State story) (fun state =>
                (as_LifecycleEpoch state == rp_StoryLifecycleEpoch plan) && (as_Phase state == PhaseCompleted)))
         end
         || negb (containsAggregatePrecondition (cmd_Preconditions c) (rp_Story plan))
         || match sn_AcceptedEvents s !! rp_AuthorApprovalEventID plan with
            | Some approval => ae_EventType approval != "tekroo.event.story.release-approved"
            | None => true
            end
         || negb (containsDagParent (cmd_Causation c) (rp_AuthorApprovalEventID plan) EdgeResponse)
      return release_gate ;;
    when negb (is_nil (sn_ReleasePlanKeys s !! Release.Key plan))
      return (OutcomeRejectedConflict, reasonReleaseAlreadyExists) ;;
    pass
  end.

Definition release_policy : verdict :=
  match sn_ReleasePlans s !! cmd_Target c, releaseEventTypeForCommand (cmd_CommandType c) with
  | Some plan, Some eventType =>
    when (rp_Revision plan != sn_Revision s) || negb evidence_matches
      return (OutcomeRejectedConflict, reasonReleaseNotFound) ;;
    when negb (snd (ApplyReleaseEvent plan (dated_event eventType))) return release_gate ;;
    pass
  | _, _ => (OutcomeRejectedConflict, reasonReleaseNotFound)
  end.

(** The subject of an escalation is open and in the escalation's epoch. *)
Definition subject_current (related : RelatedSnapshot) (epoch : Z) : bool :=
  rel_Exists related
  && state_is (rel_State related) (fun state => (as_LifecycleEpoch state == epoch) && negb (terminalPhase (as_Phase state))).

Definition open_escalation_policy : verdict :=
  when (authority_kind != PrincipalPolicy) || negb evidence_matches return unauthorized ;;
  match EscalationFromOpenPayload (cmd_Payload c) with
  | None => invalid_payload
  | Some e =>
    when (es_EscalationID e != ref_ID (cmd_Target c)) || negb (Before (dc_DecidedAt context) (es_DeadlineAt e))
         || negb (causalPathMatchesCommand (es_CausalPathEventIDs e) (cmd_Causation c))
      return invalid_payload ;;
    when match sn_Related s !! es_Subject e with
         | None => true
         | Some related =>
           (rel_Revision related != es_ExpectedSubjectRevision e) || negb (subject_current related (es_SubjectLifecycleEpoch e))
         end
         || negb (containsAggregatePrecondition (cmd_Preconditions c) (es_Subject e))
      return stale_epoch ;;
    when negb (is_nil (sn_EscalationKeys s !! Escalation_Key e))
      return (OutcomeRejectedConflict, reasonEscalationAlreadyExists) ;;
    pass
  end.

Definition resolve_escalation_policy : verdict :=
  when negb evidence_matches return invalid_evidence ;;
  match EscalationTransitionFromResolvePayload (cmd_Payload c), sn_Escalations s !! cmd_Target c with
  | Some t, Some e =>
    when (es_EscalationID e != ref_ID (cmd_Target c)) || (es_Revision e != sn_Revision s)
         || (et_EscalationID t != ref_ID (cmd_Target c)) || (et_ExpectedRevision t != sn_Revision s)
         || (et_Subject t != es_Subject e) || (et_SubjectLifecycleEpoch t != es_SubjectLifecycleEpoch e)
      return (OutcomeRejectedConflict, reasonEscalationNotFound) ;;
    when match sn_Related s !! es_Subject e with
         | None => true
         | Some related => negb (subject_current related (es_SubjectLifecycleEpoch e))
         end
         || negb (containsAggregatePrecondition (cmd_Preconditions c) (es_Subject e))
         || negb (containsDagParent (cmd_Causation c) (es_OpeningEventID e) EdgeResponse)
      return stale_epoch ;;
    let result := EvaluateEscalation e (t <| et_Authority := cmd_Authority c |> <| et_DecidedAt := dc_DecidedAt context |>) in
    when negb (ed_Accepted result) return (OutcomeRejectedPolicy, ed_Reason result) ;;
    pass
  | _, _ => (OutcomeRejectedConflict, reasonEscalationNotFound)
  end.

(** The criteria named are the ones the policy requires, if it requires any. *)
Definition criteria_current : bool :=
  let required := dr_CompletionCriteriaRevision (ap_Requirements (sn_Authorization s)) in
  match uint64Field o "criteria_revision" with
  | Some revision => negb ((0 <? required) && (revision != required))
  | None => false
  end.

Definition complete_task_policy : verdict :=
  when negb evidence_matches return invalid_evidence ;;
  when negb criteria_current return (OutcomeRejectedConflict, reasonCriteriaRevisionConflict) ;;
  when stringArrayField o "unresolved_exceptions" != Some [] return (OutcomeRejectedPolicy, reasonUnresolvedExceptions) ;;
  when negb (acceptedFinalizedReview o (cmd_Target c) s) return (OutcomeRejectedPolicy, reasonReviewNotFinalized) ;;
  when state_is (sn_State s) (fun state =>
         match own_OwnerFQN (as_Ownership state) with
         | Some owner => (authority_kind == PrincipalActor) && (cmd_ActorFQN c != Some owner)
         | None => false
         end)
    return unauthorized ;;
  pass.

Definition complete_story_policy : verdict :=
  when negb evidence_matches return invalid_evidence ;;
  when negb criteria_current return (OutcomeRejectedConflict, reasonCriteriaRevisionConflict) ;;
  when negb (acceptedFinalizedReview o (cmd_Target c) s) return (OutcomeRejectedPolicy, reasonReviewNotFinalized) ;;
  when existsb (fun p => (ref_Kind (pc_Aggregate p) == AggregateTask)
                         && negb (state_is (sn_Related s !! pc_Aggregate p ≫= rel_State)
                                    (fun state => as_Phase state == PhaseCompleted)))
         (cmd_Preconditions c)
    return (OutcomeRejectedPolicy, reasonDependencyNotReady) ;;
  pass.

Definition accept_story_policy : verdict :=
  match Unmarshal fields_acceptancePayload zero_acceptancePayload (cmd_Payload c) with
  | None => invalid_payload
  | Some v =>
    when negb evidence_matches return invalid_payload ;;
    let planRef := mkRef AggregateReleasePlan (acy_ReleasePlanID v) in
    match sn_ReleasePlans s !! planRef with
    | None => release_gate
    | Some plan =>
      when (rp_Story plan != cmd_Target c) || (rp_Revision plan != acy_ReleasePlanRevision v)
           || (rp_FinalizationEventID plan != acy_ReleaseFinalizedEventID v) || (rp_Mode plan != acy_ReleaseMode v)
           || negb (containsAggregatePrecondition (cmd_Preconditions c) planRef)
           || negb (containsDagParent (cmd_Causation c) (acy_ReleaseFinalizedEventID v) EdgeResponse)
        return release_gate ;;
      when (acy_ReleaseMode v == ReleaseModeCode)
           && ((rp_State plan != ReleaseReadyForAcceptance) || (rp_ExpectedQualifiedTree plan != acy_QualifiedTreeDigest v)
               || (rp_ProviderTreeDigest plan != acy_QualifiedTreeDigest v))
        return release_gate ;;
      when (acy_ReleaseMode v == ReleaseModeNotRequired) && (rp_State plan != ReleaseNotRequired) return release_gate ;;
      pass
    end
  end.

(** A review of a selected variant examines the artifact that was selected. *)
Definition variant_selected (review : CompletionReviewSnapshot) (groupID : UUIDv7) : bool :=
  let groupRef := mkRef AggregateVariantGroup groupID in
  match sn_VariantGroups s !! groupRef with
  | None => false
  | Some group =>
    match vg_Selection group with
    | None => false
    | Some selection =>
      match vs_SelectedCandidateID selection with
      | None => false
      | Some candidateID =>
        (vg_State group == VariantTerminal) && (vs_Outcome selection == VariantSelectCandidate)
        && containsAggregatePrecondition (cmd_Preconditions c) groupRef
        && containsDagParent (cmd_Causation c) (vs_EventID selection) EdgeResponse
        && match vg_Candidates group !! candidateID with
           | Some candidate => (vc_ArtifactDigest candidate == cr_CandidateArtifactDigest review)
                               && (vg_WorkProfile group == cr_WorkProfile review)
           | None => false
           end
      end
    end
  end.

Definition open_review_policy : verdict :=
  when authority_kind != PrincipalPolicy return unauthorized ;;
  match aggregateField o "subject_kind" "subject_id", uint64Field o "lifecycle_epoch" with
  | Some subject, Some epoch =>
    match CompletionReviewFromPayload (cmd_Payload c), sn_Related s !! subject ≫= rel_State with
    | Some review, Some state =>
      when (as_LifecycleEpoch state != epoch) || (as_Phase state != PhaseActive)
           || negb (containsAggregatePrecondition (cmd_Preconditions c) subject) || (cr_Subject review != subject)
           || (cr_ScopeRevision review != as_ScopeRevision state)
        return stale_epoch ;;
      when (ref_Kind subject == AggregateTask) && negb (profile_bound subject (cr_WorkProfile review))
        return (OutcomeRejectedConflict, "STALE_WORK_PROFILE") ;;
      when match cr_VariantGroupID review with Some id => negb (variant_selected review id) | None => false end
        return incomplete ;;
      match CompletionReviewKeyFromPayload (cmd_Payload c) with
      | None => invalid_payload
      | Some key =>
        when negb (is_nil (sn_OpenReviews s !! key)) return (OutcomeRejectedConflict, reasonReviewAlreadyOpen) ;;
        pass
      end
    | _, _ => stale_epoch
    end
  | _, _ => invalid_payload
  end.

Definition record_review_policy : verdict :=
  when negb evidence_matches return invalid_evidence ;;
  match ReviewBranchResultFromPayload (cmd_Payload c), sn_Reviews s !! cmd_Target c with
  | Some (reviewID, policyRevision, result), Some review =>
    when (reviewID != ref_ID (cmd_Target c)) || (cr_BranchPolicyRevision review != policyRevision)
      return (OutcomeRejectedConflict, reasonCriteriaRevisionConflict) ;;
    let result := result <| vr_Authority := cmd_Authority c |> <| vr_EventID := dc_EventID context |>
                         <| vr_DecidedAt := dc_DecidedAt context |> <| vr_ActorFQN := cmd_ActorFQN c |>
                         <| vr_Execution := cmd_Execution c |> in
    if negb (bool_decide (cr_Branches review = ∅)) then
      let reason := BoundedReviewResultReason review result in
      when reason != "" return (OutcomeRejectedConflict, reason) ;;
      pass
    else
      when negb (snd (ApplyReviewBranchResult review result)) return (OutcomeRejectedConflict, reasonValidationIncomplete) ;;
      pass
  | _, _ => (OutcomeRejectedConflict, reasonCriteriaRevisionConflict)
  end.

Definition finalize_review_policy : verdict :=
  when (authority_kind != PrincipalPolicy) || negb evidence_matches return unauthorized ;;
  match as_string (o !! "review_id"), sn_Reviews s !! cmd_Target c with
  | Some reviewID, Some review =>
    when reviewID != ref_ID (cmd_Target c) return (OutcomeRejectedConflict, reasonValidationIncomplete) ;;
    when negb (snd (ApplyReviewFinalization review (dc_EventID context) (cmd_Payload c)))
      return (OutcomeRejectedConflict, reasonValidationIncomplete) ;;
    pass
  | _, _ => (OutcomeRejectedConflict, reasonValidationIncomplete)
  end.

Definition reopen_policy : verdict :=
  when negb evidence_matches return invalid_evidence ;;
  match uint64Field o "prior_epoch", uint64Field o "new_scope_revision", sn_State s with
  | Some prior, Some scope, Some state =>
    when (prior != as_LifecycleEpoch state) || (scope <=? as_ScopeRevision state)
      return (OutcomeRejectedClosed, reasonStaleLifecycleEpoch) ;;
    pass
  | _, _, _ => (OutcomeRejectedClosed, reasonStaleLifecycleEpoch)
  end.

Definition successor_policy : verdict :=
  match uuidArrayField o "successor_ids", sn_State s with
  | Some values, Some state =>
    when negb (CanonicalSuccessorIDs values) || containsUUID values (ref_ID (cmd_Target c))
         || negb (terminalPhase (as_Phase state))
      return (OutcomeRejectedPolicy, reasonInvalidSuccessor) ;;
    pass
  | _, _ => (OutcomeRejectedPolicy, reasonInvalidSuccessor)
  end.

Definition correct_policy : verdict :=
  when negb evidence_matches return invalid_evidence ;;
  match as_string (o !! "target_event_id") with
  | None => (OutcomeRejectedPolicy, reasonCorrectionTarget)
  | Some value =>
    when negb (UUIDv7_Valid value)
         || match sn_AcceptedEvents s !! (value : UUIDv7) with Some e => ae_Quarantined e | None => true end
      return (OutcomeRejectedPolicy, reasonCorrectionTarget) ;;
    pass
  end.

End Cases.

(** The switch on the command type; other commands pass. *)
Definition command_case (c : KernelCommand) (s : Snapshot) (context : DecisionContext) (o : object) : verdict :=
  let type := cmd_CommandType c in
  if type == "tekroo.command.task.bind-work-profile" then bind_work_profile_policy c s o
  else if type == "tekroo.command.task.authorize-qualified-assignment" then authorize_assignment_policy c s context o
  else if type == "tekroo.command.task.dispatch" then dispatch_policy c s o
  else if type == "tekroo.command.variant-group.open" then open_variant_policy c s context o
  else match variantEventType type with
  | Some eventType => variant_policy c s context o eventType
  | None =>
    if type == "tekroo.command.story.approve-release" then approve_release_policy c s o
    else if type == "tekroo.command.release-plan.create" then create_release_policy c s context o
    else if contains ["tekroo.command.release-plan.record-qualification"; "tekroo.command.release-plan.request-execution";
                      "tekroo.command.release-plan.record-result"; "tekroo.command.release-plan.record-reconciliation";
                      "tekroo.command.release-plan.finalize"] type then release_policy c s context o
    else if type == "tekroo.command.escalation.open" then open_escalation_policy c s context o
    else if type == "tekroo.command.escalation.resolve" then resolve_escalation_policy c s context o
    else if type == "tekroo.command.task.request-completion" then complete_task_policy c s o
    else if type == "tekroo.command.story.request-completion" then complete_story_policy c s o
    else if type == "tekroo.command.story.request-acceptance" then accept_story_policy c s o
    else if type == "tekroo.command.completion-review.open" then open_review_policy c s o
    else if type == "tekroo.command.completion-review.record-result" then record_review_policy c s context o
    else if type == "tekroo.command.completion-review.finalize" then finalize_review_policy c s context o
    else if type == "tekroo.command.work.reopen" then reopen_policy c s o
    else if type == "tekroo.command.work.create-successor" then successor_policy c s o
    else if type == "tekroo.command.record.correct" then correct_policy c s o
    else pass
  end.

Definition validateCommandPolicy (order : iteration) (c : KernelCommand) (s : Snapshot) (context : DecisionContext)
    : verdict :=
  match decodePayloadObject (cmd_Payload c) with
  | None => invalid_payload
  | Some o =>
    when negb (is_nil (o !! "lifecycle_epoch")) && commandRequiresLifecycleEpoch c
         && match uint64Field o "lifecycle_epoch", cmd_ExpectedLifecycleEpoch c with
            | Some epoch, Some expected => epoch != expected
            | _, _ => true
            end
      return stale_epoch ;;
    match validateOperatorHumanContinuityCommand order c s context with
    | Some v => v
    | None => command_case c s context o
    end
  end.
