(* ===== verification/Evaluator.v ===== *)
(** * The evaluator ([kernel/evaluator.go], [kernel/replay.go])

    [Evaluate] decides a command on a snapshot: it composes the envelope checks,
    the catalogue, authorisation, freshness, causality, evidence, the policies and
    the evolution of the state into one decision. [inl] is an error, which decides
    nothing; a rejection is a decision. *)

From S2P Require Import Prelude GoText GoTime GoJson Types Samples Payload Envelope State Evolve Authorization WorkProfile.
From S2P Require Import Assignment WorkInvocation Fingerprint Provenance Release Variant Escalation Review Budget Snapshot.
From S2P Require Import HumanPolicy WorkPolicy CommandPolicy.

#[export] Instance eta_ProvenanceBasis : Eta ProvenanceBasis := fun r =>
  mkBasis (pb_CatalogueDigest r) (pb_PolicyDigest r) (pb_PolicyRevision r) (pb_GrantDigests r)
    (pb_DelegationDigests r) (pb_Source r) (pb_Overlay r) (pb_Build r) (pb_Runtime r).
#[export] Instance eta_DecisionContext : Eta DecisionContext := fun r =>
  mkContext (dc_ReceivedAt r) (dc_DecidedAt r) (dc_EventID r) (dc_IntentID r) (dc_Provenance r) (dc_ProvenanceDigest r).

Inductive evaluate_error :=
| ErrCatalogueUnavailable | ErrInvalidDecisionContext | ErrFingerprint | ErrProvenance | ErrScope
| ErrAuthorizedProvenance.

Definition validateDecisionContext (x : DecisionContext) : bool :=
  when IsZero (dc_ReceivedAt x) || IsZero (dc_DecidedAt x) || Before (dc_DecidedAt x) (dc_ReceivedAt x) return false ;;
  UUIDv7_Valid (dc_EventID x) && UUIDv7_Valid (dc_IntentID x) && ProvenanceBasis_Valid (dc_Provenance x).

(** ** Receipts and rejections *)

Definition zero_provenance : DecisionProvenance :=
  mkProvenance "" "" "" "" zero_principal "" 0 [] [] None None [] [] (mkSource "" "" "" "") (mkOverlay "" "")
    (mkBuild "" "" "" "" "" "") (mkRuntime "" "" "" "" None None None) zero_time zero_time.

Definition receiptFor (c : KernelCommand) (x : DecisionContext) (outcome : OutcomeCode) (reason : string) (changed : bool)
    (revision : option Z) (eventIDs : list UUIDv7) : CommandReceipt :=
  mkReceipt ContractIdentity (cmd_CommandID c) (cmd_CommandType c) (cmd_Target c) outcome reason changed revision
    eventIDs (dc_ReceivedAt x) (dc_DecidedAt x) (dc_ProvenanceDigest x).

Definition rejectedDecision (c : KernelCommand) (x : DecisionContext) (fingerprint : Digest) (outcome : OutcomeCode)
    (reason : string) : Decision :=
  {| de_CommandFingerprint := fingerprint;
     de_IdempotencyScope := default "" (IdempotencyScopeDigest c);
     de_NextState := None; de_Events := [];
     de_Receipt := receiptFor c x outcome reason false None [];
     de_Authority := mkAuthority (cmd_Authority c) (outcome != OutcomeRejectedUnauthorized) false reason "" 0 [] [];
     de_Outbox := []; de_Guards := zero_guards;
     de_Provenance := match BuildDecisionProvenance c fingerprint x with Some (p, _) => p | None => zero_provenance end;
     de_AttemptBudget := None; de_WorkBudget := None |}.

Definition rejectedAuthorizedDecision (c : KernelCommand) (x : DecisionContext) (fingerprint : Digest)
    (outcome : OutcomeCode) (reason : string) (authority : AuthorityDecision) : Decision :=
  let d := rejectedDecision c x fingerprint outcome reason in
  {| de_CommandFingerprint := de_CommandFingerprint d; de_IdempotencyScope := de_IdempotencyScope d;
     de_NextState := de_NextState d; de_Events := de_Events d; de_Receipt := de_Receipt d;
     de_Authority := authority; de_Outbox := de_Outbox d;
     de_Guards := zero_guards <| gd_Preconditions := cmd_Preconditions c |>
                    <| gd_PolicyDigest := ad_PolicyDigest authority |> <| gd_PolicyRevision := ad_PolicyRevision authority |>;
     de_Provenance := de_Provenance d; de_AttemptBudget := de_AttemptBudget d; de_WorkBudget := de_WorkBudget d |}.

(** ** Guards *)

Definition outboxKindForCommand (commandType : string) : string :=
  when commandType == "tekroo.command.work-invocation.authorize" return "WORK_INVOCATION_AUTHORIZED" ;; "DOMAIN_EVENT".

Definition guarded_executions (c : KernelCommand) : gmap ActorFQN ExecutionTuple * list ActorFQN :=
  let executions : gmap ActorFQN ExecutionTuple :=
    match cmd_ActorFQN c, cmd_Execution c with Some actor, Some execution => {[actor := execution]} | _, _ => ∅ end in
  match executionRegistryExpectation c with
  | Some (actor, _, true) => (executions, [actor])
  | Some (actor, prior, false) => (<[actor := prior]> executions, [])
  | None => (executions, [])
  end.

(** A key that must still be absent, for the commands of one type. *)
Definition absent_key {K} (c : KernelCommand) (type : string) (key : option K) : list K :=
  if cmd_CommandType c == type then match key with Some k => [k] | None => [] end else [].

Definition decisionGuards (c : KernelCommand) (authority : AuthorityDecision) : DecisionGuards :=
  {| gd_Executions := fst (guarded_executions c); gd_AbsentExecutions := snd (guarded_executions c);
     gd_ParentIDs := dp_ParentEventID <$> canonicalParents (cmd_Causation c);
     gd_EvidenceRefs := cmd_EvidenceRefs c; gd_Preconditions := cmd_Preconditions c;
     gd_PolicyDigest := ad_PolicyDigest authority; gd_PolicyRevision := ad_PolicyRevision authority;
     gd_AbsentReviewKeys := absent_key c "tekroo.command.completion-review.open" (CompletionReviewKeyFromPayload (cmd_Payload c));
     gd_AbsentEscalationKeys :=
       absent_key c "tekroo.command.escalation.open" (Escalation_Key <$> EscalationFromOpenPayload (cmd_Payload c));
     gd_AbsentReleaseKeys := absent_key c "tekroo.command.release-plan.create" (ReleasePlanKeyFromCreatePayload (cmd_Payload c));
     gd_AbsentVariantKeys :=
       absent_key c "tekroo.command.variant-group.open"
         (VariantGroup_Key <$> VariantGroupFromOpenPayload (cmd_Payload c) (cmd_CommandID c)) |}.

Definition validDAGParents (c : KernelCommand) (definition : CommandDefinition) (s : Snapshot) : bool :=
  when llen (cmd_Causation c) == 0 return cf_RootAllowed definition ;;
  let allowed : gset EdgeKind := list_to_set (cf_AllowedParentEdges definition) in
  forallb (fun parent =>
    bool_decide (dp_EdgeKind parent ∈ allowed)
    && match sn_AcceptedEvents s !! dp_ParentEventID parent with
       | Some accepted => negb (ae_Quarantined accepted) && (ae_EventType accepted != "")
       | None => false
       end) (cmd_Causation c).

(** ** Evaluation *)

(** The freshness of the target: [None], or how to refuse. The flag tells the
    refusals that would reveal the target, which are masked from those who may not
    read it. *)
Definition freshness (c : KernelCommand) (s : Snapshot) : option (bool * verdict) :=
  when negb (eqb (commandCreatesAggregate c) (xr_MustNotExist (cmd_ExpectedRevision c))) return Some (false, conflict) ;;
  when xr_MustNotExist (cmd_ExpectedRevision c) && sn_Exists s
    return Some (true, (OutcomeRejectedConflict, reasonAlreadyExists)) ;;
  when negb (xr_MustNotExist (cmd_ExpectedRevision c)) && negb (sn_Exists s)
    return Some (true, (OutcomeRejectedNotFound, reasonNotFound)) ;;
  when negb (xr_MustNotExist (cmd_ExpectedRevision c)) && (sn_Revision s != xr_Revision (cmd_ExpectedRevision c))
    return Some (true, conflict) ;;
  when negb (expectedLifecycleEpochMatches c s)
    return Some (true, (OutcomeRejectedConflict, reasonLifecycleConflict)) ;;
  when negb (preconditionsMatch (cmd_Preconditions c) (sn_Related s)) return Some (true, conflict) ;;
  None.

(** The refusal as its author sees it. *)
Definition masked (canRead : bool) (refusal : bool * verdict) : verdict :=
  if fst refusal && negb canRead then unauthorized else snd refusal.

(** The work policy's answer: nothing, if it does not handle the command. *)
Definition phase4_outcome (r : option (rejection + phase4PolicyDecision)) : rejection + option phase4PolicyDecision :=
  match r with None => inr None | Some (inl v) => inl v | Some (inr p) => inr (Some p) end.

(** The checks from the actor's attribution to the evolution of the state. An
    accepted command gives the next state and revision, the attempt to charge and
    the decision of the work policy. *)
Definition decide_command (order : iteration) (c : KernelCommand) (s : Snapshot) (x : DecisionContext)
    (definition : CommandDefinition) (canRead : bool)
    : verdict + (option AggregateState * Z * option AttemptBudgetDecision * option phase4PolicyDecision) :=
  when negb (actorAttributionValid c (sn_CurrentExecutions s) (cf_ExecutionRequired definition)) return inl stale_execution ;;
  match freshness c s with
  | Some refusal => inl (masked canRead refusal)
  | None =>
    let registry := validateExecutionRegistryCommand c (sn_CurrentExecutions s) in
    when fst registry != OutcomeApplied return inl registry ;;
    when negb (validDAGParents c definition s) return inl (OutcomeRejectedInvalid, reasonInvalidDAG) ;;
    when negb (validEvidenceRefs c (sn_Evidence s)) return inl (OutcomeRejectedInvalid, reasonInvalidEvidence) ;;
    call phase4 <- phase4_outcome (evaluatePhase4Command c s x) ;;
    let policy := validateCommandPolicy order c s x in
    when fst policy != OutcomeApplied return inl policy ;;
    let requirements := ap_Requirements (sn_Authorization s) in
    let attempt := evaluateAttemptPolicy c (dr_AttemptLimits requirements) (dr_AllowUnchangedRetry requirements)
                     (sn_AttemptBudgets s) in
    when fst (snd attempt) != OutcomeApplied return inl (snd attempt) ;;
    call next <- evolveState c (sn_Revision s) (sn_State s) (dc_EventID x) ;;
    when llen (cf_EventTypes definition) != 1 return inl (OutcomeRejectedInvalid, reasonInvalidEnvelope) ;;
    inr (next.1, next.2, fst attempt, phase4)
  end.

Definition committed_event (c : KernelCommand) (x : DecisionContext) (definition : CommandDefinition)
    (state : option AggregateState) (revision : Z) (phase4 : option phase4PolicyDecision) : DomainEvent :=
  {| ev_ContractManifest := ContractIdentity; ev_EventID := dc_EventID x;
     ev_EventType := default "" (head (cf_EventTypes definition)); ev_EventVersion := cf_Version definition;
     ev_Aggregate := cmd_Target c; ev_AggregateRevision := revision;
     ev_LifecycleEpoch := match state, phase4 with
                          | Some st, _ => as_LifecycleEpoch st
                          | None, Some p => p4d_LifecycleEpoch p
                          | None, None => 1
                          end;
     ev_CommandID := cmd_CommandID c; ev_Authority := cmd_Authority c; ev_ActorFQN := cmd_ActorFQN c;
     ev_Execution := cmd_Execution c; ev_Parents := canonicalParents (cmd_Causation c);
     ev_CommittedAt := dc_DecidedAt x;
     ev_Payload := match phase4 with Some p => p4d_EventPayload p | None => cmd_Payload c end;
     ev_ProvenanceDigest := dc_ProvenanceDigest x |}.

Definition appliedDecision (c : KernelCommand) (x : DecisionContext) (fingerprint scope : Digest)
    (provenance : DecisionProvenance) (authority : AuthorityDecision) (definition : CommandDefinition)
    (state : option AggregateState) (revision : Z) (attempt : option AttemptBudgetDecision)
    (phase4 : option phase4PolicyDecision) : Decision :=
  {| de_CommandFingerprint := fingerprint; de_IdempotencyScope := scope; de_NextState := state;
     de_Events := [committed_event c x definition state revision phase4];
     de_Receipt := receiptFor c x OutcomeApplied reasonApplied true (Some revision) [dc_EventID x];
     de_Authority := authority;
     de_Outbox := [mkIntent (dc_IntentID x) (dc_EventID x) (outboxKindForCommand (cmd_CommandType c))];
     de_Guards := decisionGuards c authority; de_Provenance := provenance; de_AttemptBudget := attempt;
     de_WorkBudget := phase4 ≫= p4d_WorkBudget |}.

Definition catalogue_reason (e : catalogue_error) : string :=
  match e with
  | ErrUnknownCommand => reasonUnknownCommand
  | ErrUnsupportedVersion => reasonUnsupportedVersion
  | _ => reasonInvalidPayload
  end.

Definition authorityDecision (c : KernelCommand) (policy : AuthorizationPolicy) (a : AuthorizationResult) : AuthorityDecision :=
  mkAuthority (cmd_Authority c) (ar_Allowed a) (ar_CanReadTarget a) (ar_ReasonCode a) (ap_PolicyDigest policy)
    (ap_Revision policy) (ar_GrantDigests a) (ar_DelegationDigests a).

(** The context with the digests of the grants and delegations that were used. *)
Definition with_grants (x : DecisionContext) (grants delegations : list Digest) : DecisionContext :=
  let basis := dc_Provenance x in
  x <| dc_Provenance := (basis <| pb_GrantDigests := grants |> <| pb_DelegationDigests := delegations |>) |>.

Definition Evaluate (order : iteration) (catalogue : option CatalogueSnapshot) (c : KernelCommand) (s : Snapshot)
    (x : DecisionContext) : evaluate_error + Decision :=
  match catalogue with
  | None => inl ErrCatalogueUnavailable
  | Some catalogue =>
    when negb (validateDecisionContext x) return inl ErrInvalidDecisionContext ;;
    match CommandFingerprint c with
    | None => inl ErrFingerprint
    | Some fingerprint =>
      let x := with_grants x [] [] in
      match BuildDecisionProvenance c fingerprint x with
      | None => inl ErrProvenance
      | Some (_, provenanceDigest) =>
        let x := x <| dc_ProvenanceDigest := provenanceDigest |> in
        match IdempotencyScopeDigest c with
        | None => inl ErrScope
        | Some idempotencyScope =>
          when negb (is_nil (ValidateEnvelope c))
            return inr (rejectedDecision c x fingerprint OutcomeRejectedInvalid reasonInvalidEnvelope) ;;
          match cg_ResolveCommand catalogue (cmd_CommandType c) (cmd_CommandVersion c) (ref_Kind (cmd_Target c)) (cmd_Payload c) with
          | inl e => inr (rejectedDecision c x fingerprint OutcomeRejectedInvalid (catalogue_reason e))
          | inr definition =>
            when negb (containsPrincipalKind (cf_AuthorityKinds definition) (pr_Kind (cmd_Authority c)))
              return inr (rejectedDecision c x fingerprint OutcomeRejectedUnauthorized reasonUnauthorized) ;;
            when cmd_ExpectedCatalogueRevision c != cg_Revision catalogue
              return inr (rejectedDecision c x fingerprint OutcomeRejectedConflict reasonCatalogueConflict) ;;
            let policy := sn_Authorization s in
            let authorization := Authorize policy c (sn_State s) (dc_DecidedAt x) in
            let x := with_grants x (ar_GrantDigests authorization) (ar_DelegationDigests authorization) in
            match BuildDecisionProvenance c fingerprint x with
            | None => inl ErrAuthorizedProvenance
            | Some (provenance, provenanceDigest) =>
              let x := x <| dc_ProvenanceDigest := provenanceDigest |> in
              let authority := authorityDecision c policy authorization in
              let reject v := inr (rejectedAuthorizedDecision c x fingerprint (fst v) (snd v) authority) in
              when (cmd_ExpectedPolicyRevision c != ap_Revision policy)
                   || (ap_PolicyDigest policy != pb_PolicyDigest (dc_Provenance x))
                   || (ap_Revision policy != pb_PolicyRevision (dc_Provenance x))
                return reject (OutcomeRejectedConflict, reasonPolicyConflict) ;;
              when negb (ar_Allowed authorization) return reject unauthorized ;;
              match decide_command order c s x definition (ar_CanReadTarget authorization) with
              | inl v => reject v
              | inr (state, revision, attempt, phase4) =>
                inr (appliedDecision c x fingerprint idempotencyScope provenance authority definition state revision attempt phase4)
              end
            end
          end
        end
      end
    end
  end.

(** ** Replay of a stored stream *)

Definition ReplayApplied : string := "APPLIED".
Definition ReplayQuarantined : string := "QUARANTINED".

Record ReplayResult := mkReplay {
  rpl_Status : string;
  rpl_LastRevision : Z;
  rpl_State : option AggregateState;
  rpl_QuarantinedEvent : option DomainEvent;
  rpl_Reason : string
}.

Definition replay_reason (e : catalogue_error) : string :=
  match e with
  | ErrUnknownEvent => "UNKNOWN_EVENT_TYPE"
  | ErrUnsupportedVersion => "UNSUPPORTED_EVENT_VERSION"
  | _ => "INVALID_EVENT"
  end.

(** The events that resolved, and the first that did not. *)
Fixpoint resolve_events (catalogue : CatalogueSnapshot) (resolved events : list DomainEvent)
    : list DomainEvent * option (DomainEvent * catalogue_error) :=
  match events with
  | [] => (resolved, None)
  | e :: events =>
    match cg_ResolveEvent catalogue (ev_EventType e) (ev_EventVersion e) (ref_Kind (ev_Aggregate e)) (ev_Payload e) with
    | inr _ => resolve_events catalogue (resolved ++ [e]) events
    | inl err => (resolved, Some (e, err))
    end
  end.

Definition ReplayAuthoritative (catalogue : CatalogueSnapshot) (events : list DomainEvent) : ReplayResult :=
  match resolve_events catalogue [] events with
  | (resolved, Some (e, err)) =>
    mkReplay ReplayQuarantined (llen resolved) (match FoldAggregate resolved with Some st => st | None => None end)
      (Some e) (replay_reason err)
  | (_, None) =>
    match FoldAggregate events with
    | None => mkReplay ReplayQuarantined 0 None None "CORRUPT_EVENT_STREAM"
    | Some state => mkReplay ReplayApplied (llen events) state None ""
    end
  end.
