(* ===== verification/EvaluatorLaws.v ===== *)
(** * What the evaluator guarantees

    Every decision is all or nothing; an applied one was authorised, fresh and
    allowed by the policies, and its event replays to its state; a refusal reveals
    nothing of a target that its author may not read. *)

From S2P Require Import Prelude GoText GoTime GoJson Types Samples Lifecycle Payload Envelope OperatorRole Participant.
From S2P Require Import Interaction Continuity State Evolve Authorization WorkProfile Assignment WorkInvocation.
From S2P Require Import Fingerprint Provenance Release Variant Escalation Review Budget Snapshot.
From S2P Require Import HumanPolicy WorkPolicy CommandPolicy Evaluator.

(** ** Refusals are refusals *)

(** A computation whose refusals are not [OutcomeApplied]. *)
Definition refuses {A} (r : rejection + A) : Prop := forall v, r = inl v -> fst v <> OutcomeApplied.

Lemma refuses_inr {A} (x : A) : refuses (inr x).
Proof. intros v [=]. Qed.
Lemma refuses_inl {A} v : fst v <> OutcomeApplied -> @refuses A (inl v).
Proof. by intros H w [= <-]. Qed.
Lemma refuses_call {A B} (e : rejection + A) (k : A -> rejection + B) :
  refuses e -> (forall x, refuses (k x)) -> refuses (call x <- e ;; k x).
Proof. intros He Hk. destruct e as [v|x]; [by apply refuses_inl, He|apply Hk]. Qed.

Create HintDb refusal.
#[export] Hint Resolve refuses_inr : refusal.
#[export] Hint Extern 2 (refuses (inl _)) => (apply refuses_inl; discriminate) : refusal.

(** Follow the branches of a definition. *)
Ltac refusal :=
  repeat first
    [ solve [eauto with refusal]
    | progress (cbv zeta)
    | apply refuses_call; [|intros ?]
    | match goal with
      | |- refuses (match ?x with _ => _ end) => destruct x
      | |- refuses (let (_, _) := ?x in _) => destruct x
      end ].

Lemma or_policy_refuses r : refuses (or_policy r).
Proof. unfold or_policy. refusal. Qed.
Lemma applyOwnership_refuses type payload st id : refuses (applyOwnership type payload st id).
Proof.
  unfold applyOwnership, acquire_ownership, release_ownership, reassign_ownership, check_owner, ownership_conflict. refusal.
Qed.
Lemma evolve_lifecycle_refuses c st : refuses (evolve_lifecycle c st).
Proof. unfold evolve_lifecycle, rejected_policy. refusal. Qed.
Lemma evolve_synthetic_refuses e st : refuses (evolve_synthetic e st).
Proof. unfold evolve_synthetic, rejected_policy. refusal. Qed.
#[export] Hint Resolve or_policy_refuses applyOwnership_refuses evolve_lifecycle_refuses evolve_synthetic_refuses : refusal.

Lemma evolveState_refuses c rev st id : refuses (evolveState c rev st id).
Proof. unfold evolveState, evolve_existing, rejected_invalid. refusal. Qed.

Lemma phase4_refuses c s x : refuses (phase4_outcome (evaluatePhase4Command c s x)).
Proof.
  assert (forall r : rejection + phase4PolicyDecision, refuses r -> refuses (phase4_outcome (Some r))) as Hs.
  { intros [v|p] H; [apply refuses_inl; by apply H|apply refuses_inr]. }
  unfold evaluatePhase4Command.
  repeat (match goal with |- refuses (phase4_outcome (if ?b then _ else _)) => destruct b; [apply Hs|] end).
  6: destruct (invocationEventType _); [apply Hs|apply refuses_inr].
  all: unfold create_budget_policy, amend_budget_policy, bind_budget_policy, bind_scope_policy, authorize_policy,
    invocation_policy, plain_event, invalid_payload; refusal.
Qed.

(** ** What a decision went through *)

(** The conditions of an accepted command. *)
Record accepted_command (order : iteration) (c : KernelCommand) (s : Snapshot) (x : DecisionContext)
    (definition : CommandDefinition) (state : option AggregateState) (revision : Z)
    (attempt : option AttemptBudgetDecision) (phase4 : option phase4PolicyDecision) : Prop := {
  ok_actor : actorAttributionValid c (sn_CurrentExecutions s) (cf_ExecutionRequired definition) = true;
  ok_fresh : freshness c s = None;
  ok_registry : fst (validateExecutionRegistryCommand c (sn_CurrentExecutions s)) = OutcomeApplied;
  ok_parents : validDAGParents c definition s = true;
  ok_evidence : validEvidenceRefs c (sn_Evidence s) = true;
  ok_phase4 : phase4_outcome (evaluatePhase4Command c s x) = inr phase4;
  ok_policy : fst (validateCommandPolicy order c s x) = OutcomeApplied;
  ok_attempt : exists v, fst v = OutcomeApplied /\
    evaluateAttemptPolicy c (dr_AttemptLimits (ap_Requirements (sn_Authorization s)))
      (dr_AllowUnchangedRetry (ap_Requirements (sn_Authorization s))) (sn_AttemptBudgets s) = (attempt, v);
  ok_evolved : evolveState c (sn_Revision s) (sn_State s) (dc_EventID x) = inr (state, revision);
  ok_event : exists type, cf_EventTypes definition = [type]
}.

Lemma freshness_refuses c s refusal canRead : freshness c s = Some refusal -> fst (masked canRead refusal) <> OutcomeApplied.
Proof.
  unfold freshness. intros H.
  repeat (match type of H with (if ?b then _ else _) = _ => destruct b; [injection H as <-; unfold masked; cbn; by destruct canRead|] end).
  discriminate H.
Qed.

Lemma decide_command_cases order c s x definition canRead :
  match decide_command order c s x definition canRead with
  | inl v => fst v <> OutcomeApplied
  | inr (state, revision, attempt, phase4) => accepted_command order c s x definition state revision attempt phase4
  end.
Proof.
  unfold decide_command. destruct (negb (actorAttributionValid _ _ _)) eqn:E1; [discriminate|].
  destruct (freshness c s) as [refusal|] eqn:E2; [by eapply freshness_refuses|]. cbv zeta.
  destruct (_ != OutcomeApplied) eqn:E3; [by bprop E3|].
  destruct (negb (validDAGParents _ _ _)) eqn:E4; [discriminate|].
  destruct (negb (validEvidenceRefs _ _)) eqn:E5; [discriminate|].
  pose proof (phase4_refuses c s x) as Hp. destruct (phase4_outcome _) as [v|phase4] eqn:E6; [by apply Hp|].
  destruct (fst (validateCommandPolicy _ _ _ _) != OutcomeApplied) eqn:E7; [by bprop E7|].
  destruct (evaluateAttemptPolicy _ _ _ _) as [attempt v] eqn:E8. cbn [fst snd].
  destruct (fst v != OutcomeApplied) eqn:E9; [by bprop E9|].
  pose proof (evolveState_refuses c (sn_Revision s) (sn_State s) (dc_EventID x)) as He.
  destruct (evolveState _ _ _ _) as [w|[state revision]] eqn:E10; [by apply He|].
  destruct (_ != 1) eqn:E11; [discriminate|]. cbn [fst snd].
  apply negb_false_iff in E1, E4, E5. bprop E3. bprop E7. bprop E9. bprop E11.
  split; try assumption; [eauto|]. destruct (cf_EventTypes definition) as [|t [|]]; [discriminate E11|eauto|unfold llen in E11; cbn in E11; lia].
Qed.

(** How a decision came about: refused before authorisation, refused after it, or applied. *)
Inductive decided (order : iteration) (catalogue : CatalogueSnapshot) (c : KernelCommand) (s : Snapshot)
    (x : DecisionContext) (fingerprint : Digest) : DecisionContext -> Decision -> Prop :=
| decided_early x' outcome reason provenance :
    outcome <> OutcomeApplied -> BuildDecisionProvenance c fingerprint x' = Some (provenance, dc_ProvenanceDigest x') ->
    decided order catalogue c s x fingerprint x' (rejectedDecision c x' fingerprint outcome reason)
| decided_late x' v provenance :
    fst v <> OutcomeApplied -> BuildDecisionProvenance c fingerprint x' = Some (provenance, dc_ProvenanceDigest x') ->
    decided order catalogue c s x fingerprint x'
      (rejectedAuthorizedDecision c x' fingerprint (fst v) (snd v)
         (authorityDecision c (sn_Authorization s) (Authorize (sn_Authorization s) c (sn_State s) (dc_DecidedAt x))))
| decided_applied x' scope provenance definition state revision attempt phase4 :
    let authorization := Authorize (sn_Authorization s) c (sn_State s) (dc_DecidedAt x) in
    BuildDecisionProvenance c fingerprint x' = Some (provenance, dc_ProvenanceDigest x') ->
    IdempotencyScopeDigest c = Some scope -> ValidateEnvelope c = None ->
    cg_ResolveCommand catalogue (cmd_CommandType c) (cmd_CommandVersion c) (ref_Kind (cmd_Target c)) (cmd_Payload c)
      = inr definition ->
    containsPrincipalKind (cf_AuthorityKinds definition) (pr_Kind (cmd_Authority c)) = true ->
    cmd_ExpectedCatalogueRevision c = cg_Revision catalogue ->
    cmd_ExpectedPolicyRevision c = ap_Revision (sn_Authorization s) -> ar_Allowed authorization = true ->
    ap_PolicyDigest (sn_Authorization s) = pb_PolicyDigest (dc_Provenance x) ->
    accepted_command order c s x' definition state revision attempt phase4 ->
    decided order catalogue c s x fingerprint x'
      (appliedDecision c x' fingerprint scope provenance (authorityDecision c (sn_Authorization s) authorization)
         definition state revision attempt phase4).

(** The context a decision was made in differs only in its provenance. *)
Definition same_context (x y : DecisionContext) : Prop :=
  dc_EventID x = dc_EventID y /\ dc_IntentID x = dc_IntentID y /\ dc_ReceivedAt x = dc_ReceivedAt y /\
  dc_DecidedAt x = dc_DecidedAt y.

Lemma Build_digest_irrelevant c f x d :
  BuildDecisionProvenance c f (x <| dc_ProvenanceDigest := d |>) = BuildDecisionProvenance c f x.
Proof. reflexivity. Qed.

Lemma Evaluate_decided order catalogue c s x d :
  Evaluate order catalogue c s x = inr d ->
  exists cat f x', catalogue = Some cat /\ validateDecisionContext x = true /\ CommandFingerprint c = Some f /\
    same_context x' x /\ decided order cat c s x f x' d.
Proof.
  unfold Evaluate. intros H. destruct catalogue as [cat|]; [|discriminate H]. exists cat.
  destruct (negb _) eqn:Ev in H; [discriminate H|]. apply negb_false_iff in Ev.
  destruct (CommandFingerprint c) as [f|]; [|discriminate H]. exists f. cbv zeta in H.
  set (x1 := with_grants x [] []) in H. destruct (BuildDecisionProvenance c f x1) as [[p1 g1]|] eqn:E1; [|discriminate H].
  set (x2 := x1 <| dc_ProvenanceDigest := g1 |>) in H.
  assert (BuildDecisionProvenance c f x2 = Some (p1, dc_ProvenanceDigest x2)) as B2 by exact E1.
  assert (forall o r, o <> OutcomeApplied -> d = rejectedDecision c x2 f o r ->
    exists x', Some cat = Some cat /\ validateDecisionContext x = true /\ Some f = Some f /\ same_context x' x /\
      decided order cat c s x f x' d) as Hearly.
  { intros o r Ho ->. exists x2. split_and!; [reflexivity|assumption|reflexivity|repeat split|by eapply decided_early]. }
  destruct (IdempotencyScopeDigest c) as [scope|] eqn:Es; [|discriminate H].
  destruct (negb (is_nil (ValidateEnvelope c))) eqn:E2 in H; [injection H as <-; eapply Hearly; [|reflexivity]; discriminate|].
  destruct (cg_ResolveCommand _ _ _ _ _) as [e|definition] eqn:E3; [injection H as <-; eapply Hearly; [|reflexivity]; discriminate|].
  destruct (negb _) eqn:E4 in H; [injection H as <-; eapply Hearly; [|reflexivity]; discriminate|].
  destruct (_ != cg_Revision cat) eqn:E5 in H; [injection H as <-; eapply Hearly; [|reflexivity]; discriminate|].
  change (dc_DecidedAt x2) with (dc_DecidedAt x) in H.
  set (authorization := Authorize _ c _ _) in *. set (x3 := with_grants x2 _ _) in H.
  destruct (BuildDecisionProvenance c f x3) as [[p3 g3]|] eqn:E6; [|discriminate H].
  set (x4 := x3 <| dc_ProvenanceDigest := g3 |>) in H.
  assert (BuildDecisionProvenance c f x4 = Some (p3, dc_ProvenanceDigest x4)) as B4 by exact E6.
  exists x4. split_and!; [reflexivity|assumption|reflexivity|repeat split|].
  destruct (_ || _) eqn:E7 in H; [injection H as <-; eapply (decided_late _ _ _ _ _ _ _ (_, _)); [discriminate|exact B4]|].
  destruct (negb (ar_Allowed _)) eqn:E8 in H; [injection H as <-; eapply (decided_late _ _ _ _ _ _ _ unauthorized); [discriminate|exact B4]|].
  pose proof (decide_command_cases order c s x4 definition (ar_CanReadTarget authorization)) as Hd.
  destruct (decide_command _ _ _ _ _ _) as [v|[[[state revision] attempt] phase4]]; injection H as <-.
  - eapply decided_late; [exact Hd|exact B4].
  - bprop E7. bprop E5. apply negb_false_iff in E2, E4, E8. apply is_nil_true in E2. destruct E7 as [[E7 E9] _].
    apply decided_applied; assumption.
Qed.

(** ** Theorems *)

(** [C17] A decision is all or nothing: it identifies its command and the
    provenance it was made under, and either applies it, with exactly one event on
    the target, one outbox intent for that event and a receipt that names both the
    event and the new revision, or changes nothing at all: no state, no event, no
    outbox intent, no attempt and no budget debit. *)
Theorem decision_all_or_nothing order catalogue c s x d :
  Evaluate order catalogue c s x = inr d ->
  let r := de_Receipt d in
  rc_CommandID r = cmd_CommandID c /\ rc_Target r = cmd_Target c /\
  CommandFingerprint c = Some (de_CommandFingerprint d) /\
  DecisionProvenance_Digest (de_Provenance d) = Some (rc_ProvenanceDigest r) /\
  ((rc_OutcomeCode r = OutcomeApplied /\ rc_StateChanged r = true /\
    exists e, de_Events d = [e] /\ ev_EventID e = dc_EventID x /\ ev_Aggregate e = cmd_Target c /\
      ev_CommandID e = cmd_CommandID c /\ ev_ProvenanceDigest e = rc_ProvenanceDigest r /\
      rc_EventIDs r = [ev_EventID e] /\ rc_ResultingRevision r = Some (ev_AggregateRevision e) /\
      de_Outbox d = [mkIntent (dc_IntentID x) (ev_EventID e) (outboxKindForCommand (cmd_CommandType c))]) \/
   (rc_OutcomeCode r <> OutcomeApplied /\ rc_StateChanged r = false /\ rc_ResultingRevision r = None /\
    rc_EventIDs r = [] /\ de_NextState d = None /\ de_Events d = [] /\ de_Outbox d = [] /\
    de_AttemptBudget d = None /\ de_WorkBudget d = None)).
Proof.
  intros H. apply Evaluate_decided in H as (cat & f & x' & _ & _ & Hf & (C1 & C2 & _) & Hd). rewrite Hf.
  assert (forall p g, BuildDecisionProvenance c f x' = Some (p, g) -> DecisionProvenance_Digest p = Some g) as Hp.
  { unfold BuildDecisionProvenance, DecisionProvenance_Digest. intros p g. destruct (_ || _); [discriminate|]. cbv zeta.
    destruct (digestValue _) eqn:E; [|discriminate]. by intros [= <- <-]. }
  destruct Hd as [x' o r p Ho Hb|x' v p Hv Hb|x' scope p definition state revision attempt phase4 authorization Hb].
  - cbn. rewrite Hb. split_and!; try reflexivity; [eapply Hp; exact Hb|]. right. split_and!; try reflexivity; assumption.
  - cbn. rewrite Hb. split_and!; try reflexivity; [eapply Hp; exact Hb|]. right. split_and!; try reflexivity; assumption.
  - cbn. split_and!; try reflexivity; [eapply Hp; exact Hb|]. left. split_and!; [reflexivity..|]. eexists. split_and!; try reflexivity.
    + exact C1.
    + by rewrite C2.
Qed.

(** The parts of freshness. *)
Lemma fresh_spec c s :
  freshness c s = None ->
  commandCreatesAggregate c = xr_MustNotExist (cmd_ExpectedRevision c) /\
  (if xr_MustNotExist (cmd_ExpectedRevision c) then sn_Exists s = false
   else sn_Exists s = true /\ sn_Revision s = xr_Revision (cmd_ExpectedRevision c)) /\
  expectedLifecycleEpochMatches c s = true /\ preconditionsMatch (cmd_Preconditions c) (sn_Related s) = true.
Proof.
  unfold freshness. intros H. destruct (negb (eqb _ _)) eqn:E1 in H; [discriminate H|].
  apply negb_false_iff, eqb_prop in E1. rewrite E1.
  destruct (xr_MustNotExist _), (sn_Exists s); cbn [andb negb] in H; try discriminate H.
  - do 2 (destruct (negb _) eqn:? in H; [discriminate H|]). split_and!; try done; by apply negb_false_iff.
  - destruct (_ != _) eqn:E2 in H; [discriminate H|]. bprop E2.
    do 2 (destruct (negb _) eqn:? in H; [discriminate H|]). split_and!; try done; by apply negb_false_iff.
Qed.

(** [C12] What is applied was allowed: an applied decision was authorised by the
    current policy; its target was absent, or present at the very revision the
    command expects; the preconditions held; the acting execution was current; every
    causal parent is an accepted event, not quarantined; every evidence reference is
    available with its digest; the policies passed; and the state and revision
    committed are those the command leads to. *)
Theorem applied_decision_sound order catalogue c s x d :
  Evaluate order catalogue c s x = inr d -> rc_OutcomeCode (de_Receipt d) = OutcomeApplied ->
  ar_Allowed (Authorize (sn_Authorization s) c (sn_State s) (dc_DecidedAt x)) = true /\
  (if xr_MustNotExist (cmd_ExpectedRevision c) then sn_Exists s = false
   else sn_Exists s = true /\ sn_Revision s = xr_Revision (cmd_ExpectedRevision c)) /\
  preconditionsMatch (cmd_Preconditions c) (sn_Related s) = true /\
  (forall actor execution, cmd_ActorFQN c = Some actor -> cmd_Execution c = Some execution ->
     sn_CurrentExecutions s !! actor = Some execution) /\
  (forall p, p ∈ cmd_Causation c -> exists a, sn_AcceptedEvents s !! dp_ParentEventID p = Some a /\ ae_Quarantined a = false) /\
  (forall r, r ∈ cmd_EvidenceRefs c -> exists m, sn_Evidence s !! er_EvidenceID r = Some m /\ em_Available m = true /\
     em_SHA256 m = er_SHA256 r) /\
  (exists x', same_context x' x /\ fst (validateCommandPolicy order c s x') = OutcomeApplied) /\
  exists revision, rc_ResultingRevision (de_Receipt d) = Some revision /\
    evolveState c (sn_Revision s) (sn_State s) (dc_EventID x) = inr (de_NextState d, revision).
Proof.
  intros H Ho. apply Evaluate_decided in H as (cat & f & x' & _ & _ & _ & Hc & Hd).
  destruct Hd as [x' o r p Hn _|x' v p Hn _|x' scope p definition state revision attempt phase4 authorization
    _ _ _ _ _ _ _ Hallow _ [A1 A2 A3 A4 A5 A6 A7 A8 A9 A10]]; [by cbn in Ho..|].
  apply fresh_spec in A2 as (_ & F1 & _ & F2). destruct Hc as (C1 & C2 & C3 & C4).
  split_and!; [exact Hallow|exact F1|exact F2| | | | |].
  - intros actor execution Ha He. unfold actorAttributionValid in A1. rewrite Ha, He in A1.
    do 3 (match type of A1 with (if ?b then _ else _) = _ => destruct b; [discriminate A1|] end).
    by apply bool_decide_eq_true in A1.
  - intros p' Hp. unfold validDAGParents in A4. destruct (_ == 0) eqn:E in A4.
    { bprop E. unfold llen in E. destruct (cmd_Causation c); [by apply elem_of_nil in Hp|cbn in E; lia]. }
    apply forallb_True, Is_true_true in A4 || rewrite forallb_forall in A4. apply list_elem_of_In in Hp. apply A4 in Hp.
    bprop Hp. destruct Hp as [_ Hp]. destruct (sn_AcceptedEvents s !! _) as [a|]; [|discriminate Hp].
    exists a. split; [done|]. bprop Hp. by destruct Hp.
  - intros r Hr. unfold validEvidenceRefs in A5. rewrite forallb_forall in A5. apply list_elem_of_In, A5 in Hr.
    destruct (sn_Evidence s !! _) as [m|]; [|discriminate Hr]. exists m. bprop Hr. destruct Hr. done.
  - exists x'. split; [by split_and!|exact A7].
  - exists revision. split; [reflexivity|]. rewrite <- C1. exact A9.
Qed.


(** ** Evaluation and replay *)

(** What the evaluator relies on: the events the catalogue gives for a command are
    those of the contract. *)
Definition follows_contract (cat : CatalogueSnapshot) : Prop :=
  forall type version kind payload definition event,
    cg_ResolveCommand cat type version kind payload = inr definition -> event ∈ cf_EventTypes definition ->
    (type, event) ∈ Evolve.catalogue.

(** The owner is carried over a reopening, or there is none. *)
Definition owner_carried (c : KernelCommand) (st : AggregateState) : Prop :=
  cmd_CommandType c = "tekroo.command.work.reopen" ->
  (exists o, decodePayloadObject (cmd_Payload c) = Some o /\ as_bool (o !! "owner_carry_forward") = Some true) \/
  own_OwnerFQN (as_Ownership st) = None /\ own_AssignedEventID (as_Ownership st) = None.

(** Only an authorisation rewrites the payload. *)
Lemma plain_payload c s x p :
  commandCreatesAggregate c = false -> phase4_outcome (evaluatePhase4Command c s x) = inr (Some p) ->
  p4d_EventPayload p = cmd_Payload c.
Proof.
  intros Hc. assert (forall r : rejection + phase4PolicyDecision,
    (forall q, r = inr q -> p4d_EventPayload q = cmd_Payload c) -> phase4_outcome (Some r) = inr (Some p) ->
    p4d_EventPayload p = cmd_Payload c) as Hr.
  { intros [v|q] H; [discriminate|]. intros [= <-]. by apply H. }
  unfold evaluatePhase4Command.
  assert (Hn : (cmd_CommandType c == "tekroo.command.work-invocation.authorize") = false).
  { apply bool_decide_eq_false. intros E. unfold commandCreatesAggregate in Hc. rewrite E in Hc. discriminate Hc. }
  rewrite Hn.
  repeat (match goal with |- context [if cmd_CommandType c == ?t then _ else _] => destruct (cmd_CommandType c == t); [apply Hr|] end).
  5: destruct (invocationEventType _); [apply Hr|discriminate].
  all: intros q; unfold create_budget_policy, amend_budget_policy, bind_budget_policy, bind_scope_policy, invocation_policy,
    plain_event; intros H; repeat (case_match; try discriminate H); by injection H as <-.
Qed.

(** The policy of a reopening demands a larger scope revision. *)
Lemma reopen_scope order c s x st :
  fst (validateCommandPolicy order c s x) = OutcomeApplied -> cmd_CommandType c = "tekroo.command.work.reopen" ->
  sn_State s = Some st ->
  exists o n, decodePayloadObject (cmd_Payload c) = Some o /\ uint64Field o "new_scope_revision" = Some n /\
    as_ScopeRevision st < n.
Proof.
  intros H Ht Hs. unfold validateCommandPolicy in H. destruct (decodePayloadObject (cmd_Payload c)) as [o|] eqn:Eo; [|discriminate H].
  destruct (_ && _) in H; [discriminate H|]. unfold validateOperatorHumanContinuityCommand in H. rewrite Eo in H.
  cbv zeta in H. unfold command_case in H. cbv zeta in H. rewrite Ht in H. unfold continuityEventType, interactionEventType, variantEventType in H.
  cbn [lookup_str contains existsb] in H. eval_tests_in H. cbn [orb] in H.
  unfold reopen_policy in H. destruct (negb _) in H; [discriminate H|].
  destruct (uint64Field o "prior_epoch") as [prior|]; [|discriminate H].
  destruct (uint64Field o "new_scope_revision") as [n|] eqn:En; [|discriminate H]. rewrite Hs in H.
  destruct (_ || _) eqn:E in H; [discriminate H|]. apply orb_false_iff in E as [_ E]. apply Z.leb_gt in E. eauto.
Qed.

(** An evolution starts from the revision of its state. *)
Lemma evolves_from_current c revision st eventID next :
  commandCreatesAggregate c = false -> evolveState c revision (Some st) eventID = inr next -> revision = as_Revision st.
Proof.
  intros Hc H. unfold evolveState in H. destruct (_ || _) eqn:E in H.
  { unfold commandCreatesAggregate in Hc. apply orb_true_iff in E as [E|E];
      apply bool_decide_eq_true in E; rewrite E in Hc; discriminate Hc. }
  unfold isOperatorHumanContinuityCreation in H. rewrite Hc in H. cbn [negb] in H. cbv zeta in H.
  destruct (_ || _) eqn:E2 in H; [discriminate H|]. bprop E2. by split_ands.
Qed.

Lemma decision_replays order cat c s x d events st st' :
  Evaluate order (Some cat) c s x = inr d -> rc_OutcomeCode (de_Receipt d) = OutcomeApplied ->
  follows_contract cat -> xr_MustNotExist (cmd_ExpectedRevision c) = false ->
  sn_State s = Some st -> FoldAggregate events = Some (Some st) ->
  head (ev_Aggregate <$> events) = Some (cmd_Target c) -> Z.of_nat (length events) + 1 < u64_mod ->
  owner_carried c st -> de_NextState d = Some st' ->
  FoldAggregate (events ++ de_Events d) = Some (Some st').
Proof.
  intros H Ho Hcat Hm Hs Hf Hh Hlen Hcarry Hn. apply Evaluate_decided in H as (cat' & f & x' & [= <-] & Hctx & _ & Hc & Hd).
  destruct Hd as [x' o r p Hne _|x' v p Hne _|x' scope p definition state revision attempt phase4 authorization
    _ _ _ Hres _ _ _ _ _ [A1 A2 A3 A4 A5 A6 A7 A8 A9 [type A10]]]; [by cbn in Ho..|].
  apply fresh_spec in A2 as (Hcreate & _). rewrite Hm in Hcreate. cbn [de_NextState appliedDecision] in Hn. subst state.
  rewrite Hs in A9. cbn [de_Events appliedDecision].
  assert (sn_Revision s = as_Revision st) as Hrev by (by eapply evolves_from_current).
  rewrite Hrev in A9. eapply (fold_replays_evolution events st c (dc_EventID x')); [exact Hf|exact Hh|exact Hlen|exact Hcreate|exact A9| | |reflexivity|].
  - split; [reflexivity..| |].
    + cbn [ev_Payload committed_event]. destruct phase4; [by eapply plain_payload|reflexivity].
    + cbn [ev_EventType committed_event]. rewrite A10. cbn. eapply Hcat; [exact Hres|]. rewrite A10. by left.
  - destruct Hc as (-> & _). unfold validateDecisionContext in Hctx. destruct (_ || _) in Hctx; [discriminate Hctx|].
    bprop Hctx. by split_ands.
  - intros Ht. destruct (reopen_scope order c s x' st A7 Ht Hs) as (ob & n & Eo & En & Hlt). exists ob, n.
    split_and!; [exact Eo|exact En|exact Hlt|]. destruct (Hcarry Ht) as [(o' & Eo' & Hb)|Hnone]; [left; congruence|by right].
Qed.


(** ** A concrete decision *)

Definition sample_human : PrincipalRef := mkPrincipal PrincipalHuman "alice".
Definition sample_story : AggregateRef := mkRef AggregateStory (uid "1").
Definition sample_created : DomainEvent :=
  bare_event (uid "2") "tekroo.event.story.created" sample_story 1 1 "{}".
Definition sample_story_state : AggregateState := plain_state AggregateStory (uid "1") 1 1 1 PhaseDraft ConditionRunnable.

Definition sample_command : KernelCommand :=
  zero_command <| cmd_ContractManifest := ContractIdentity |> <| cmd_CommandID := uid "3" |>
    <| cmd_CommandType := "tekroo.command.story.authorize" |> <| cmd_CommandVersion := "1" |>
    <| cmd_Target := sample_story |> <| cmd_Authority := sample_human |>
    <| cmd_ExpectedRevision := NewExpectedRevision 1 |> <| cmd_ExpectedLifecycleEpoch := Some 1 |>
    <| cmd_ExpectedPolicyRevision := 1 |> <| cmd_ExpectedCatalogueRevision := 1 |>
    <| cmd_IdempotencyKey := "k" |> <| cmd_CorrelationID := uid "4" |>
    <| cmd_Causation := [mkParent (uid "2") EdgeCausal] |> <| cmd_Payload := "{}" |>.

Definition sample_policy (readable : bool) : AuthorizationPolicy :=
  mkPolicy (dig "a") 1 (mkRequirements 0 0 false ∅ false)
    [mkGrant (dig "b") sample_human (mkScope ["tekroo.command.story.authorize"] [AggregateStory] [uid "1"] readable false false)
       None false false] [].

Definition sample_snapshot (readable : bool) : Snapshot :=
  mkSnapshot true 1 (Some sample_story_state) {[uid "2" := mkAccepted "tekroo.event.story.created" false ""]} ∅ ∅ ∅
    (sample_policy readable) ∅ ∅ ∅ ∅ ∅ ∅ ∅ ∅ ∅ ∅ ∅ ∅ ∅ ∅ ∅ ∅.

Definition sample_catalogue : CatalogueSnapshot :=
  mkCatalogue 1
    (fun type _ _ _ =>
       if type == "tekroo.command.story.authorize"
       then inr (mkDefinition type "1" [AggregateStory] [PrincipalHuman] false ["tekroo.event.story.authorized"] false [EdgeCausal])
       else inl ErrUnknownCommand)
    (fun _ _ _ _ => inl ErrUnknownEvent).

Definition sample_overlay : OverlayIdentity := mkOverlay (dig "1") (dig "2").
Definition sample_overlay_digest : Digest := Eval vm_compute in default "" (OverlayIdentity_Digest sample_overlay).
Definition sample_context : DecisionContext :=
  mkContext sample_time sample_time (uid "5") (uid "6")
    (mkBasis (dig "c") (dig "a") 1 [] [] (mkSource "repo" "commit" (dig "1") "all") sample_overlay
       (mkBuild (dig "1") sample_overlay_digest (dig "3") (dig "4") (dig "5") (dig "6"))
       (mkRuntime (dig "6") ContractIdentity (dig "7") (dig "8") None None None)) "".

Definition sample_order : iteration := map_to_list.
Definition sample_decision : Decision :=
  Eval vm_compute in
    match Evaluate sample_order (Some sample_catalogue) sample_command (sample_snapshot true) sample_context with
    | inr d => d
    | inl _ => rejectedDecision sample_command sample_context "" OutcomeRejectedInvalid ""
    end.

Lemma sample_evaluated :
  Evaluate sample_order (Some sample_catalogue) sample_command (sample_snapshot true) sample_context = inr sample_decision.
Proof. vm_compute. reflexivity. Qed.

Example sample_applied : rc_OutcomeCode (de_Receipt sample_decision) = OutcomeApplied.
Proof. reflexivity. Qed.

Lemma decision_all_or_nothing_witness :
  CommandFingerprint sample_command = Some (de_CommandFingerprint sample_decision).
Proof.
  destruct (decision_all_or_nothing sample_order (Some sample_catalogue) sample_command (sample_snapshot true) sample_context
    sample_decision sample_evaluated) as (_ & _ & H & _).
  exact H.
Defined.

Lemma applied_decision_sound_witness :
  sn_Revision (sample_snapshot true) = 1 /\
  exists a, sn_AcceptedEvents (sample_snapshot true) !! uid "2" = Some a /\ ae_Quarantined a = false.
Proof.
  destruct (applied_decision_sound sample_order (Some sample_catalogue) sample_command (sample_snapshot true) sample_context
    sample_decision sample_evaluated sample_applied) as (_ & (_ & H1) & _ & _ & H2 & _).
  split; [exact H1|]. apply (H2 (mkParent (uid "2") EdgeCausal)). left.
Defined.

Lemma sample_follows : follows_contract sample_catalogue.
Proof.
  intros type version kind payload definition event. unfold sample_catalogue. cbn [cg_ResolveCommand].
  destruct (type == "tekroo.command.story.authorize") eqn:E; [|discriminate]. apply bool_decide_eq_true in E. subst type.
  intros [= <-] He. cbn [cf_EventTypes] in He. apply list_elem_of_singleton in He as ->.
  apply list_elem_of_In. vm_compute. tauto.
Qed.


(** The story at another revision, and no story at all. *)
Definition sample_moved : Snapshot := (sample_snapshot false) <| sn_Revision := 2 |>.
Definition sample_missing : Snapshot := (sample_snapshot false) <| sn_Exists := false |>.

