(* ===== verification/MemoryStore.v ===== *)
(** * The in-memory store ([adapters/memory/store.go])

    The reference implementation of the kernel's decision store: everything that
    was decided, the projections of it that snapshots are made of, and [Commit],
    which checks a decision against the current content and applies it under one
    lock. A call returns the store it leaves, with its result. *)

From S2P Require Import Prelude GoText GoTime GoJson Types Payload Envelope State Authorization WorkProfile Assignment.
From S2P Require Import WorkInvocation Evolve Phase4Store Fingerprint Provenance Release Variant Escalation Review Budget Snapshot.

(** [ctx.Err()] when the call begins. *)
Inductive context_error := Canceled | DeadlineExceeded.
Abbreviation Context := (option context_error).

Inductive FaultPoint :=
| FaultNone | FaultBeforeState | FaultBeforeEvents | FaultBeforeReceipt | FaultBeforeAuthority | FaultBeforeOutbox
| FaultAfterCommitBeforeAck.

(** [ErrStore] holds the two errors that the projections return too. *)
Inductive commit_error :=
| ErrContext (e : context_error) | ErrStore (e : store_error) | ErrReceiptConflict | ErrCommandIdentityConflict
| ErrIdempotencyKeyConflict | ErrReceiptAccessDenied | ErrDecisionAlreadyCommitted | ErrInjectedFault (point : FaultPoint)
| ErrCommitUncertain | ErrCorruptEventStream | ErrFingerprintCommand.

Abbreviation invalid_decision := (ErrStore ErrInvalidDecision).
Abbreviation conflicting := (ErrStore ErrConflict).

Record decisionIdentity := mkIdentity { di_CommandID : UUIDv7; di_Fingerprint : Digest; di_Scope : Digest }.
Definition zero_identity : decisionIdentity := mkIdentity "" "" "".

Record IdentityConflictAudit := mkConflictAudit {
  ic_CommandID : UUIDv7;
  ic_IdempotencyScope : Digest;
  ic_Fingerprint : Digest;
  ic_ReasonCode : string;
  ic_ObservedAt : Time;
  ic_ProvenanceDigest : Digest
}.

(** [Store]; its budgets and invocations are the store of [Phase4Store]. *)
Record MemStore := mkMemStore {
  ms_states : gmap AggregateRef AggregateState;
  ms_revisions : gmap AggregateRef Z;
  ms_receipts : gmap UUIDv7 CommandReceipt;
  ms_commandBindings : gmap UUIDv7 decisionIdentity;
  ms_idempotency : gmap Digest decisionIdentity;
  ms_events : gmap UUIDv7 DomainEvent;
  ms_executions : gmap ActorFQN ExecutionTuple;
  ms_evidence : gmap UUIDv7 EvidenceMetadata;
  ms_authority : gmap UUIDv7 AuthorityDecision;
  ms_outbox : gmap UUIDv7 OutboxIntent;
  ms_identityConflicts : list IdentityConflictAudit;
  ms_provenance : gmap Digest DecisionProvenance;
  ms_authorizationPolicy : AuthorizationPolicy;
  ms_openReviews : gmap CompletionReviewKey AggregateRef;
  ms_reviews : gmap AggregateRef CompletionReviewSnapshot;
  ms_escalations : gmap AggregateRef EscalationSnapshot;
  ms_escalationKeys : gmap EscalationKey AggregateRef;
  ms_releasePlans : gmap AggregateRef ReleasePlanSnapshot;
  ms_releasePlanKeys : gmap ReleasePlanKey AggregateRef;
  ms_eventQualifications : gmap UUIDv7 string;
  ms_attemptBudgets : gmap AttemptBudgetKey AttemptBudgetSnapshot;
  ms_workProfiles : gmap AggregateRef WorkProfileSnapshot;
  ms_workProfileHistory : gmap UUIDv7 WorkRiskProfile;
  ms_qualifiedAssignments : gmap AggregateRef QualifiedAssignmentAuthorization;
  ms_variantGroups : gmap AggregateRef VariantGroupSnapshot;
  ms_variantGroupKeys : gmap VariantGroupKey AggregateRef;
  ms_phase4 : Store;
  ms_faultPoint : FaultPoint
}.

#[export] Instance eta_MemStore : Eta MemStore := fun s =>
  mkMemStore (ms_states s) (ms_revisions s) (ms_receipts s) (ms_commandBindings s) (ms_idempotency s) (ms_events s)
    (ms_executions s) (ms_evidence s) (ms_authority s) (ms_outbox s) (ms_identityConflicts s) (ms_provenance s)
    (ms_authorizationPolicy s) (ms_openReviews s) (ms_reviews s) (ms_escalations s) (ms_escalationKeys s)
    (ms_releasePlans s) (ms_releasePlanKeys s) (ms_eventQualifications s) (ms_attemptBudgets s) (ms_workProfiles s)
    (ms_workProfileHistory s) (ms_qualifiedAssignments s) (ms_variantGroups s) (ms_variantGroupKeys s) (ms_phase4 s)
    (ms_faultPoint s).

Definition zero_policy : AuthorizationPolicy := mkPolicy "" 0 (mkRequirements 0 0 false ∅ false) [] [].

Definition NewStore (policy : list AuthorizationPolicy) : MemStore :=
  mkMemStore ∅ ∅ ∅ ∅ ∅ ∅ ∅ ∅ ∅ ∅ [] ∅ (match policy with [p] => p | _ => zero_policy end) ∅ ∅ ∅ ∅ ∅ ∅ ∅ ∅ ∅ ∅ ∅ ∅ ∅
    empty_store FaultNone.
Definition NewStoreWithFault (point : FaultPoint) (policy : list AuthorizationPolicy) : MemStore :=
  (NewStore policy) <| ms_faultPoint := point |>.

Definition SetAuthorizationPolicy (s : MemStore) (policy : AuthorizationPolicy) : MemStore :=
  s <| ms_authorizationPolicy := policy |>.

Definition RecordIdentityConflict (ctx : Context) (s : MemStore) (audit : IdentityConflictAudit)
    : MemStore * option commit_error :=
  match ctx with
  | Some e => (s, Some (ErrContext e))
  | None =>
    when negb (UUIDv7_Valid (ic_CommandID audit)) || negb (Digest_Valid (ic_IdempotencyScope audit))
         || negb (Digest_Valid (ic_Fingerprint audit)) || (ic_ReasonCode audit == "") || IsZero (ic_ObservedAt audit)
         || negb (Digest_Valid (ic_ProvenanceDigest audit))
      return (s, Some invalid_decision) ;;
    (s <| ms_identityConflicts := ms_identityConflicts s ++ [audit] |>, None)
  end.

(** ** Reading *)

(** A related aggregate as a precondition sees it. *)
Definition related_snapshot (s : MemStore) (ref : AggregateRef) : RelatedSnapshot :=
  mkRelated (negb (is_nil (ms_revisions s !! ref))) (mget 0 ref (ms_revisions s)) (ms_states s !! ref).

Definition loadLocked (s : MemStore) (target : AggregateRef) (preconditions : list AggregatePrecondition) : Snapshot :=
  let found := negb (is_nil (ms_revisions s !! target)) in
  {| sn_Exists := found; sn_Revision := mget 0 target (ms_revisions s);
     sn_State := if found then ms_states s !! target else None;
     sn_AcceptedEvents :=
       map_imap (fun id e => Some (mkAccepted (ev_EventType e) false (mget "" id (ms_eventQualifications s)))) (ms_events s);
     sn_CurrentExecutions := ms_executions s; sn_Evidence := ms_evidence s;
     sn_Related := foldl (fun m p => <[pc_Aggregate p := related_snapshot s (pc_Aggregate p)]> m) ∅ preconditions;
     sn_Authorization := ms_authorizationPolicy s;
     sn_OpenReviews := ms_openReviews s; sn_Reviews := ms_reviews s; sn_Escalations := ms_escalations s;
     sn_EscalationKeys := ms_escalationKeys s; sn_ReleasePlans := ms_releasePlans s;
     sn_ReleasePlanKeys := ms_releasePlanKeys s; sn_AttemptBudgets := ms_attemptBudgets s;
     sn_WorkProfiles := ms_workProfiles s; sn_WorkProfileHistory := ms_workProfileHistory s;
     sn_QualifiedAssignments := ms_qualifiedAssignments s; sn_VariantGroups := ms_variantGroups s;
     sn_VariantGroupKeys := ms_variantGroupKeys s; sn_WorkBudgetAccounts := workBudgetAccounts (ms_phase4 s);
     sn_TaskWorkBudgets := taskWorkBudgets (ms_phase4 s);
     sn_TaskOperationalScopes := taskOperationalScopes (ms_phase4 s);
     sn_WorkInvocations := workInvocations (ms_phase4 s) |}.

Definition LoadDecision (ctx : Context) (s : MemStore) (command : KernelCommand) : commit_error + Snapshot :=
  match ctx with
  | Some e => inl (ErrContext e)
  | None => inr (loadLocked s (cmd_Target command) (cmd_Preconditions command))
  end.

Definition Load (ctx : Context) (s : MemStore) (target : AggregateRef) : commit_error + Snapshot :=
  match ctx with Some e => inl (ErrContext e) | None => inr (loadLocked s target []) end.

Definition canReadReceipt (s : MemStore) (command : KernelCommand) (at_ : Time) : bool :=
  ar_CanReadTarget (Authorize (ms_authorizationPolicy s) command (ms_states s !! cmd_Target command) at_).

(** The receipt, if there is one. The command a scope is bound to always has a
    receipt ([bound_scope] below), so the second lookup of a receipt does not fail. *)
Definition LookupReceipt (ctx : Context) (s : MemStore) (command : KernelCommand) (at_ : Time)
    : commit_error + option CommandReceipt :=
  match ctx with
  | Some e => inl (ErrContext e)
  | None =>
    match CommandFingerprint command, IdempotencyScopeDigest command with
    | Some fingerprint, Some scope =>
      match ms_receipts s !! cmd_CommandID command with
      | Some receipt =>
        when negb (canReadReceipt s command at_) return inl ErrReceiptAccessDenied ;;
        let binding := mget zero_identity (cmd_CommandID command) (ms_commandBindings s) in
        when (di_Fingerprint binding != fingerprint) || (di_Scope binding != scope)
          return inl ErrCommandIdentityConflict ;;
        inr (Some receipt)
      | None =>
        match ms_idempotency s !! scope with
        | Some prior =>
          when negb (canReadReceipt s command at_) return inl ErrReceiptAccessDenied ;;
          when di_Fingerprint prior != fingerprint return inl ErrIdempotencyKeyConflict ;;
          inr (ms_receipts s !! di_CommandID prior)
        | None => inr None
        end
      end
    | _, _ => inl ErrFingerprintCommand
    end
  end.

(** ** Projections

    Each group of events has a projection that is prepared from the store as it
    is, so that a decision with a bad event is refused before anything is
    changed. *)

Record projection (K A : Type) := mkProjection { pj_reference : AggregateRef; pj_snapshot : A; pj_newKey : option K }.
Arguments mkProjection {K A} _ _ _.
Arguments pj_reference {K A} _.
Arguments pj_snapshot {K A} _.
Arguments pj_newKey {K A} _.

(** The loop over the events: one [project] per event, which may skip it. *)
Fixpoint prepare {P} (project : DomainEvent -> store_error + option P) (events : list DomainEvent)
    : store_error + list P :=
  match events with
  | [] => inr []
  | event :: events =>
    call p <- project event ;;
    call ps <- prepare project events ;;
    inr (match p with Some p => p :: ps | None => ps end)
  end.

Definition escalation_opened (s : MemStore) (event : DomainEvent)
    : store_error + option (projection EscalationKey EscalationSnapshot) :=
  when (ref_Kind (ev_Aggregate event) != AggregateEscalation) || (ev_AggregateRevision event != 1)
    return inl ErrInvalidDecision ;;
  match EscalationFromOpenPayload (ev_Payload event) with
  | None => inl ErrInvalidDecision
  | Some value =>
    when es_EscalationID value != ref_ID (ev_Aggregate event) return inl ErrInvalidDecision ;;
    let value := value <| es_OpeningEventID := ev_EventID event |> <| es_Revision := ev_AggregateRevision event |> in
    when negb (EscalationSnapshot_Valid value) return inl ErrInvalidDecision ;;
    let key := Escalation_Key value in
    when negb (is_nil (ms_escalationKeys s !! key)) return inl ErrConflict ;;
    inr (Some (mkProjection (ev_Aggregate event) value (Some key)))
  end.

Definition escalation_resolved (s : MemStore) (event : DomainEvent)
    : store_error + option (projection EscalationKey EscalationSnapshot) :=
  match ms_escalations s !! ev_Aggregate event with
  | None => inl ErrInvalidDecision
  | Some current =>
    when u64 (es_Revision current + 1) != ev_AggregateRevision event return inl ErrInvalidDecision ;;
    let (next, valid) := ApplyEscalationResolution current (ev_Authority event) (ev_EventID event)
                           (ev_CommittedAt event) (ev_Payload event) in
    when negb valid || (es_Revision next != ev_AggregateRevision event) return inl ErrInvalidDecision ;;
    inr (Some (mkProjection (ev_Aggregate event) next None))
  end.

Definition prepareEscalationProjections (s : MemStore) : list DomainEvent -> store_error + list (projection EscalationKey EscalationSnapshot) :=
  prepare (fun event =>
    if ev_EventType event == "tekroo.event.escalation.opened" then escalation_opened s event
    else if ev_EventType event == "tekroo.event.escalation.resolved" then escalation_resolved s event
    else inr None).

Definition release_created (s : MemStore) (event : DomainEvent)
    : store_error + option (projection ReleasePlanKey ReleasePlanSnapshot) :=
  when (ref_Kind (ev_Aggregate event) != AggregateReleasePlan) || (ev_AggregateRevision event != 1)
    return inl ErrInvalidDecision ;;
  match ReleasePlanFromCreatePayload (ev_Payload event) (ev_EventID event) with
  | None => inl ErrInvalidDecision
  | Some value =>
    when rp_ReleasePlanID value != ref_ID (ev_Aggregate event) return inl ErrInvalidDecision ;;
    let key := Release.Key value in
    when negb (is_nil (ms_releasePlanKeys s !! key)) return inl ErrConflict ;;
    inr (Some (mkProjection (ev_Aggregate event) value (Some key)))
  end.

Definition release_advanced (s : MemStore) (event : DomainEvent)
    : store_error + option (projection ReleasePlanKey ReleasePlanSnapshot) :=
  match ms_releasePlans s !! ev_Aggregate event with
  | None => inl ErrInvalidDecision
  | Some current =>
    when u64 (rp_Revision current + 1) != ev_AggregateRevision event return inl ErrInvalidDecision ;;
    let (next, valid) := ApplyReleaseEvent current event in
    when negb valid || (rp_Revision next != ev_AggregateRevision event) return inl ErrInvalidDecision ;;
    inr (Some (mkProjection (ev_Aggregate event) next None))
  end.

Definition prepareReleaseProjections (s : MemStore) : list DomainEvent -> store_error + list (projection ReleasePlanKey ReleasePlanSnapshot) :=
  prepare (fun event =>
    if ev_EventType event == "tekroo.event.release-plan.created" then release_created s event
    else if contains ["tekroo.event.release-plan.qualification-recorded"; "tekroo.event.release-plan.execution-requested";
                      "tekroo.event.release-plan.result-recorded"; "tekroo.event.release-plan.reconciliation-recorded";
                      "tekroo.event.release-plan.finalized"] (ev_EventType event)
    then release_advanced s event
    else inr None).

Record capabilityProjection := mkCapability {
  cp_reference : AggregateRef;
  cp_profile : option WorkProfileSnapshot;
  cp_authorization : option QualifiedAssignmentAuthorization
}.

Definition work_profile_bound (event : DomainEvent) : store_error + option capabilityProjection :=
  when ref_Kind (ev_Aggregate event) != AggregateTask return inl ErrInvalidDecision ;;
  match WorkRiskProfileFromPayload (ev_Payload event) with
  | None => inl ErrInvalidDecision
  | Some profile =>
    when wp_TaskID profile != ref_ID (ev_Aggregate event) return inl ErrInvalidDecision ;;
    let snapshot := mkProfileSnapshot profile (ev_EventID event) (ev_AggregateRevision event) in
    when negb (WorkProfileSnapshot_Valid snapshot) return inl ErrInvalidDecision ;;
    inr (Some (mkCapability (ev_Aggregate event) (Some snapshot) None))
  end.

Definition assignment_authorized (event : DomainEvent) : store_error + option capabilityProjection :=
  when ref_Kind (ev_Aggregate event) != AggregateTask return inl ErrInvalidDecision ;;
  match QualifiedAssignmentAuthorizationFromPayload (ev_Payload event) (ev_EventID event) with
  | None => inl ErrInvalidDecision
  | Some authorization =>
    when (qa_TaskID authorization != ref_ID (ev_Aggregate event))
         || (u64 (qa_ExpectedTaskRevision authorization + 1) != ev_AggregateRevision event)
      return inl ErrInvalidDecision ;;
    inr (Some (mkCapability (ev_Aggregate event) None (Some authorization)))
  end.

Definition prepareCapabilityProjections : list DomainEvent -> store_error + list capabilityProjection :=
  prepare (fun event =>
    if ev_EventType event == "tekroo.event.task.work-profile-bound" then work_profile_bound event
    else if ev_EventType event == "tekroo.event.task.qualified-assignment-authorized" then assignment_authorized event
    else inr None).

Definition variant_opened (s : MemStore) (event : DomainEvent)
    : store_error + option (projection VariantGroupKey VariantGroupSnapshot) :=
  when (ref_Kind (ev_Aggregate event) != AggregateVariantGroup) || (ev_AggregateRevision event != 1)
    return inl ErrInvalidDecision ;;
  match VariantGroupFromOpenPayload (ev_Payload event) (ev_EventID event) with
  | None => inl ErrInvalidDecision
  | Some group =>
    when vg_VariantGroupID group != ref_ID (ev_Aggregate event) return inl ErrInvalidDecision ;;
    let key := VariantGroup_Key group in
    when negb (is_nil (ms_variantGroupKeys s !! key)) return inl ErrConflict ;;
    inr (Some (mkProjection (ev_Aggregate event) group (Some key)))
  end.

Definition variant_advanced (s : MemStore) (event : DomainEvent)
    : store_error + option (projection VariantGroupKey VariantGroupSnapshot) :=
  match ms_variantGroups s !! ev_Aggregate event with
  | None => inl ErrInvalidDecision
  | Some current =>
    when u64 (vg_Revision current + 1) != ev_AggregateRevision event return inl ErrInvalidDecision ;;
    let (next, valid) := ApplyVariantEvent current event in
    when negb valid || (vg_Revision next != ev_AggregateRevision event) return inl ErrInvalidDecision ;;
    inr (Some (mkProjection (ev_Aggregate event) next None))
  end.

Definition prepareVariantProjections (s : MemStore) : list DomainEvent -> store_error + list (projection VariantGroupKey VariantGroupSnapshot) :=
  prepare (fun event =>
    if ev_EventType event == "tekroo.event.variant-group.opened" then variant_opened s event
    else if contains ["tekroo.event.variant-group.candidate-submitted"; "tekroo.event.variant-group.comparison-recorded";
                      "tekroo.event.variant-group.selected"] (ev_EventType event)
    then variant_advanced s event
    else inr None).

(** ** Events that change the registries and the reviews *)

Record registeredPayload := mkRegistered { rgp_ActorFQN : ActorFQN; rgp_ExecutionID : UUIDv7; rgp_FencingEpoch : Z }.
#[export] Instance eta_registeredPayload : Eta registeredPayload := fun r =>
  mkRegistered (rgp_ActorFQN r) (rgp_ExecutionID r) (rgp_FencingEpoch r).
Definition fields_registered : list (field registeredPayload) :=
  [fld "actor_fqn" rgp_ActorFQN dec_string; fld "execution_id" rgp_ExecutionID dec_string;
   fld "fencing_epoch" rgp_FencingEpoch dec_u64].
Definition fields_replaced : list (field registeredPayload) :=
  [fld "actor_fqn" rgp_ActorFQN dec_string; fld "new_execution_id" rgp_ExecutionID dec_string;
   fld "new_fencing_epoch" rgp_FencingEpoch dec_u64].

Record evidencePayload := mkEvidencePayload { evp_SHA256 : Digest }.
#[export] Instance eta_evidencePayload : Eta evidencePayload := fun r => mkEvidencePayload (evp_SHA256 r).
Definition fields_evidence : list (field evidencePayload) := [fld "sha256" evp_SHA256 dec_string].

Definition register_execution (fields : list (field registeredPayload)) (event : DomainEvent) (s : MemStore) : MemStore :=
  match Unmarshal fields (mkRegistered "" "" 0) (ev_Payload event) with
  | Some p =>
    s <| ms_executions := <[rgp_ActorFQN p := mkExec (rgp_ExecutionID p) (rgp_FencingEpoch p)]> (ms_executions s) |>
  | None => s
  end.

Definition applyRegistryEvent (event : DomainEvent) (s : MemStore) : MemStore :=
  if ev_EventType event == "tekroo.event.execution.registered" then register_execution fields_registered event s
  else if ev_EventType event == "tekroo.event.execution.replaced" then register_execution fields_replaced event s
  else if ev_EventType event == "tekroo.event.evidence.registered" then
    match Unmarshal fields_evidence (mkEvidencePayload "") (ev_Payload event) with
    | Some p => s <| ms_evidence := <[ref_ID (ev_Aggregate event) := mkEvidenceMeta (evp_SHA256 p) true]> (ms_evidence s) |>
    | None => s
    end
  else s.

Definition open_review (event : DomainEvent) (s : MemStore) : MemStore :=
  let s := match CompletionReviewKeyFromPayload (ev_Payload event) with
           | Some key => s <| ms_openReviews := <[key := ev_Aggregate event]> (ms_openReviews s) |>
           | None => s
           end in
  match CompletionReviewFromPayload (ev_Payload event) with
  | Some review =>
    s <| ms_reviews := <[ev_Aggregate event := review <| cr_ReviewID := ref_ID (ev_Aggregate event) |>]> (ms_reviews s) |>
  | None => s
  end.

(** A review that moved on, and the status its event qualifies for. *)
Definition advance_review (event : DomainEvent) (next : CompletionReviewSnapshot * bool) (s : MemStore) : MemStore :=
  if snd next then
    s <| ms_reviews := <[ev_Aggregate event := fst next]> (ms_reviews s) |>
      <| ms_eventQualifications := <[ev_EventID event := jn_Status (cr_Join (fst next))]> (ms_eventQualifications s) |>
  else s.

(** The result of a branch as the event records it. *)
Definition recorded_result (event : DomainEvent) (r : ReviewBranchResult) : ReviewBranchResult :=
  r <| vr_Authority := ev_Authority event |> <| vr_EventID := ev_EventID event |>
    <| vr_DecidedAt := ev_CommittedAt event |>.

Definition record_review_result (event : DomainEvent) (s : MemStore) : MemStore :=
  match ReviewBranchResultFromPayload (ev_Payload event), ms_reviews s !! ev_Aggregate event with
  | Some (reviewID, policyRevision, result), Some current =>
    when (reviewID != ref_ID (ev_Aggregate event)) || (cr_BranchPolicyRevision current != policyRevision) return s ;;
    advance_review event (ApplyReviewBranchResult current (recorded_result event result)) s
  | _, _ => s
  end.

Definition finalize_review (event : DomainEvent) (s : MemStore) : MemStore :=
  match ms_reviews s !! ev_Aggregate event with
  | Some current => advance_review event (ApplyReviewFinalization current (ev_EventID event) (ev_Payload event)) s
  | None => s
  end.

Definition applyReviewEvent (event : DomainEvent) (s : MemStore) : MemStore :=
  if ev_EventType event == "tekroo.event.completion-review.opened" then open_review event s
  else if ev_EventType event == "tekroo.event.completion-review.result-recorded" then record_review_result event s
  else if ev_EventType event == "tekroo.event.completion-review.finalized" then finalize_review event s
  else s.

(** ** Commit *)

(** The loop of [validDecisionTuple]; [seen] are the identities of the events and
    of the intents so far. *)
Fixpoint tuple_loop (target : AggregateRef) (revision : Z) (seen : gset UUIDv7 * gset UUIDv7) (events : list DomainEvent)
    (ids : list UUIDv7) (outbox : list OutboxIntent) : bool :=
  match events, ids, outbox with
  | event :: events, id :: ids, intent :: outbox =>
    when negb (UUIDv7_Valid (ev_EventID event)) || (ev_Aggregate event != target)
         || (ev_AggregateRevision event != u64 (revision + 1)) || (ev_LifecycleEpoch event == 0)
         || (id != ev_EventID event)
      return false ;;
    when bool_decide (ev_EventID event ∈ fst seen) return false ;;
    when negb (UUIDv7_Valid (oi_IntentID intent)) || (oi_EventID intent != ev_EventID event) || (oi_Kind intent == "")
      return false ;;
    when bool_decide (oi_IntentID intent ∈ snd seen) return false ;;
    tuple_loop target (u64 (revision + 1)) ({[ev_EventID event]} ∪ fst seen, {[oi_IntentID intent]} ∪ snd seen)
      events ids outbox
  | _, _, _ => true
  end.

Definition validDecisionTuple (expected : Snapshot) (d : Decision) : bool :=
  let r := de_Receipt d in
  when negb (UUIDv7_Valid (rc_CommandID r)) || negb (AggregateRef_Valid (rc_Target r))
       || negb (PrincipalRef_Valid (ad_Principal (de_Authority d)))
    return false ;;
  when match de_AttemptBudget d with
       | Some b => negb (AttemptBudgetDecision_Valid b) || (abk_Subject (abd_Key b) != rc_Target r)
       | None => false
       end return false ;;
  when match de_WorkBudget d with
       | Some b => negb (WorkBudgetDebitDecision_Valid b)
                   || (rc_CommandType r != "tekroo.command.work-invocation.authorize")
       | None => false
       end return false ;;
  when llen (de_Events d) == 0
    return is_nil (de_NextState d) && is_nil (rc_ResultingRevision r) && (llen (rc_EventIDs r) == 0)
           && (llen (de_Outbox d) == 0) && (rc_OutcomeCode r != OutcomeApplied) ;;
  when (llen (de_Events d) != llen (rc_EventIDs r)) || (llen (de_Outbox d) != llen (de_Events d)) return false ;;
  tuple_loop (rc_Target r) (sn_Revision expected) (∅, ∅) (de_Events d) (rc_EventIDs r) (de_Outbox d).

(** The checks that concern the decision alone. *)
Definition decision_coherent (expected : Snapshot) (d : Decision) : bool :=
  let r := de_Receipt d in
  when negb (Digest_Valid (de_CommandFingerprint d)) || negb (Digest_Valid (de_IdempotencyScope d)) return false ;;
  when negb (validDecisionTuple expected d) return false ;;
  match DecisionProvenance_Digest (de_Provenance d) with
  | None => false
  | Some digest =>
    when negb (DecisionProvenance_Valid (de_Provenance d)) || negb (Digest_Valid digest)
         || (digest != rc_ProvenanceDigest r) || (dv_CommandID (de_Provenance d) != rc_CommandID r)
         || (dv_CommandFingerprint (de_Provenance d) != de_CommandFingerprint d)
      return false ;;
    when Digest_Valid (ad_PolicyDigest (de_Authority d))
         && ((ad_PolicyDigest (de_Authority d) != dv_PolicyDigest (de_Provenance d))
             || (ad_PolicyRevision (de_Authority d) != dv_PolicyRevision (de_Provenance d))
             || (ad_GrantDigests (de_Authority d) != dv_GrantDigests (de_Provenance d))
             || (ad_DelegationDigests (de_Authority d) != dv_DelegationDigests (de_Provenance d)))
      return false ;;
    when existsb (fun e => ev_ProvenanceDigest e != digest) (de_Events d) return false ;;
    when match de_NextState d with
         | Some st => match rc_ResultingRevision r with Some v => as_Revision st != v | None => true end
         | None => false
         end return false ;;
    match rc_ResultingRevision r with Some v => v != 0 | None => true end
  end.

(** The decision was committed before, or its identity is taken. *)
Definition identity_taken (s : MemStore) (d : Decision) : option commit_error :=
  match ms_receipts s !! rc_CommandID (de_Receipt d) with
  | Some _ =>
    let binding := mget zero_identity (rc_CommandID (de_Receipt d)) (ms_commandBindings s) in
    Some (if (di_Fingerprint binding == de_CommandFingerprint d) && (di_Scope binding == de_IdempotencyScope d)
          then ErrDecisionAlreadyCommitted else ErrReceiptConflict)
  | None =>
    match ms_idempotency s !! de_IdempotencyScope d with
    | Some prior => Some (if di_Fingerprint prior == de_CommandFingerprint d then ErrDecisionAlreadyCommitted
                          else ErrIdempotencyKeyConflict)
    | None => None
    end
  end.

Definition precondition_holds (s : MemStore) (p : AggregatePrecondition) : bool :=
  match ms_revisions s !! pc_Aggregate p with
  | Some current => negb (xr_MustNotExist (pc_Expected p)) && (current == xr_Revision (pc_Expected p))
  | None => xr_MustNotExist (pc_Expected p)
  end.

Definition evidence_current (s : MemStore) (r : EvidenceRef) : bool :=
  match ms_evidence s !! er_EvidenceID r with
  | Some m => em_Available m && (em_SHA256 m == er_SHA256 r)
  | None => false
  end.

(** The revision and the guards that the decision was made under still hold; the
    order of the tests does not matter, they all answer [ErrConflict]. *)
Definition guards_hold (s : MemStore) (expected : Snapshot) (d : Decision) : bool :=
  let g := de_Guards d in
  match ms_revisions s !! rc_Target (de_Receipt d) with
  | Some current => sn_Exists expected && (current == sn_Revision expected)
  | None => negb (sn_Exists expected)
  end
  && forallb (fun e => is_nil (ms_events s !! ev_EventID e)) (de_Events d)
  && forallb (fun kv => ms_executions s !! fst kv == Some (snd kv)) (map_to_list (gd_Executions g))
  && forallb (fun actor => is_nil (ms_executions s !! actor)) (gd_AbsentExecutions g)
  && forallb (fun id => negb (is_nil (ms_events s !! id))) (gd_ParentIDs g)
  && forallb (evidence_current s) (gd_EvidenceRefs g)
  && forallb (precondition_holds s) (gd_Preconditions g)
  && negb (Digest_Valid (gd_PolicyDigest g)
           && ((ap_PolicyDigest (ms_authorizationPolicy s) != gd_PolicyDigest g)
               || (ap_Revision (ms_authorizationPolicy s) != gd_PolicyRevision g)))
  && forallb (fun k => is_nil (ms_openReviews s !! k)) (gd_AbsentReviewKeys g)
  && forallb (fun k => is_nil (ms_escalationKeys s !! k)) (gd_AbsentEscalationKeys g)
  && forallb (fun k => is_nil (ms_releasePlanKeys s !! k)) (gd_AbsentReleaseKeys g)
  && forallb (fun k => is_nil (ms_variantGroupKeys s !! k)) (gd_AbsentVariantKeys g).

Definition budget_commit_error (e : budget_error) : commit_error :=
  match e with
  | BudgetInvalidDecision => invalid_decision
  | BudgetConflict => conflicting
  | BudgetAlreadyCommitted => ErrDecisionAlreadyCommitted
  end.

(** Everything that is prepared before the first change. *)
Record prepared := mkPrepared {
  pp_escalations : list (projection EscalationKey EscalationSnapshot);
  pp_releases : list (projection ReleasePlanKey ReleasePlanSnapshot);
  pp_capabilities : list capabilityProjection;
  pp_variants : list (projection VariantGroupKey VariantGroupSnapshot);
  pp_phase4 : list phase4Projection
}.

Definition as_commit {A} (r : store_error + A) : commit_error + A :=
  match r with inl e => inl (ErrStore e) | inr x => inr x end.

Definition prepare_commit (s : MemStore) (d : Decision) : commit_error + prepared :=
  match match de_AttemptBudget d with Some b => validateAttemptBudgetCommit (ms_attemptBudgets s) b | None => None end with
  | Some e => inl (budget_commit_error e)
  | None =>
    match match de_WorkBudget d with
          | Some b => validateWorkBudgetCommit (workBudgetAccounts (ms_phase4 s)) (taskWorkBudgets (ms_phase4 s)) b
          | None => None
          end with
    | Some e => inl (ErrStore e)
    | None =>
      call escalations <- as_commit (prepareEscalationProjections s (de_Events d)) ;;
      call releases <- as_commit (prepareReleaseProjections s (de_Events d)) ;;
      call capabilities <- as_commit (prepareCapabilityProjections (de_Events d)) ;;
      call variants <- as_commit (prepareVariantProjections s (de_Events d)) ;;
      call phase4 <- as_commit (preparePhase4Projections (ms_phase4 s) (de_Events d) (de_WorkBudget d)) ;;
      inr (mkPrepared escalations releases capabilities variants phase4)
    end
  end.

(** A projection puts its snapshot under its reference, and its reference under a
    new key. *)
Definition put_snapshots {K A} (ps : list (projection K A)) (m : gmap AggregateRef A) : gmap AggregateRef A :=
  foldl (fun m p => <[pj_reference p := pj_snapshot p]> m) m ps.
Definition put_keys {K A} `{Countable K} (ps : list (projection K A)) (m : gmap K AggregateRef) : gmap K AggregateRef :=
  foldl (fun m p => match pj_newKey p with Some key => <[key := pj_reference p]> m | None => m end) m ps.

Definition put_capability (s : MemStore) (p : capabilityProjection) : MemStore :=
  let s := match cp_profile p with
           | Some profile =>
             s <| ms_workProfiles := <[cp_reference p := profile]> (ms_workProfiles s) |>
               <| ms_workProfileHistory := <[wp_ProfileID (ws_Profile profile) := ws_Profile profile]> (ms_workProfileHistory s) |>
           | None => s
           end in
  match cp_authorization p with
  | Some a => s <| ms_qualifiedAssignments := <[cp_reference p := a]> (ms_qualifiedAssignments s) |>
  | None => s
  end.

Definition apply_projections (p : prepared) (s : MemStore) : MemStore :=
  let s := s <| ms_escalations := put_snapshots (pp_escalations p) (ms_escalations s) |>
             <| ms_escalationKeys := put_keys (pp_escalations p) (ms_escalationKeys s) |>
             <| ms_releasePlans := put_snapshots (pp_releases p) (ms_releasePlans s) |>
             <| ms_releasePlanKeys := put_keys (pp_releases p) (ms_releasePlanKeys s) |> in
  let s := foldl put_capability s (pp_capabilities p) in
  s <| ms_variantGroups := put_snapshots (pp_variants p) (ms_variantGroups s) |>
    <| ms_variantGroupKeys := put_keys (pp_variants p) (ms_variantGroupKeys s) |>
    <| ms_phase4 := foldl (fun s p => apply_projection p s) (ms_phase4 s) (pp_phase4 p) |>.

Definition apply_event (s : MemStore) (event : DomainEvent) : MemStore :=
  applyReviewEvent event (applyRegistryEvent event (s <| ms_events := <[ev_EventID event := event]> (ms_events s) |>)).

(** The state, the revision and the events of the target. *)
Definition apply_events (d : Decision) (s : MemStore) : MemStore :=
  let target := rc_Target (de_Receipt d) in
  let s := match de_NextState d with Some st => s <| ms_states := <[target := st]> (ms_states s) |> | None => s end in
  let s := match rc_ResultingRevision (de_Receipt d) with
           | Some v => s <| ms_revisions := <[target := v]> (ms_revisions s) |>
           | None => s
           end in
  foldl apply_event s (de_Events d).

(** The receipt and the records of how the decision was made. *)
Definition apply_records (d : Decision) (digest : Digest) (s : MemStore) : MemStore :=
  let id := rc_CommandID (de_Receipt d) in
  let binding := mkIdentity id (de_CommandFingerprint d) (de_IdempotencyScope d) in
  s <| ms_attemptBudgets := match de_AttemptBudget d with
                            | Some b => applyAttemptBudget (ms_attemptBudgets s) b
                            | None => ms_attemptBudgets s
                            end |>
    <| ms_receipts := <[id := de_Receipt d]> (ms_receipts s) |>
    <| ms_commandBindings := <[id := binding]> (ms_commandBindings s) |>
    <| ms_idempotency := <[de_IdempotencyScope d := binding]> (ms_idempotency s) |>
    <| ms_authority := <[id := de_Authority d]> (ms_authority s) |>
    <| ms_provenance := <[digest := de_Provenance d]> (ms_provenance s) |>
    <| ms_outbox := foldl (fun m i => <[oi_IntentID i := i]> m) (ms_outbox s) (de_Outbox d) |>.

Definition fault_before (point : FaultPoint) : bool :=
  match point with
  | FaultBeforeState | FaultBeforeEvents | FaultBeforeReceipt | FaultBeforeAuthority | FaultBeforeOutbox => true
  | FaultNone | FaultAfterCommitBeforeAck => false
  end.

Definition Commit (ctx : Context) (s : MemStore) (expected : Snapshot) (d : Decision) : MemStore * option commit_error :=
  match ctx with
  | Some e => (s, Some (ErrContext e))
  | None =>
    when negb (decision_coherent expected d) return (s, Some invalid_decision) ;;
    match identity_taken s d with
    | Some e => (s, Some e)
    | None =>
      when negb (guards_hold s expected d) return (s, Some conflicting) ;;
      match prepare_commit s d with
      | inl e => (s, Some e)
      | inr p =>
        when fault_before (ms_faultPoint s) return (s, Some (ErrInjectedFault (ms_faultPoint s))) ;;
        let s' := apply_records d (rc_ProvenanceDigest (de_Receipt d)) (apply_projections p (apply_events d s)) in
        (s', match ms_faultPoint s with FaultAfterCommitBeforeAck => Some ErrCommitUncertain | _ => None end)
      end
    end
  end.

(** ** Verification of an aggregate *)

Definition revision_le (a b : DomainEvent) : Prop := ev_AggregateRevision a <= ev_AggregateRevision b.
#[global] Instance revision_le_dec : RelDecision revision_le.
Proof. unfold revision_le. intros a b. apply _. Defined.

(** [visited] is the content of the event map in the order in which it is visited. *)
Definition VerifyAggregate (ctx : Context) (s : MemStore) (visited : list DomainEvent) (target : AggregateRef)
    : option commit_error :=
  match ctx with
  | Some e => Some (ErrContext e)
  | None =>
    let events := filter (fun e => ev_Aggregate e = target) visited in
    match ms_states s !! target with
    | None => Some invalid_decision
    | Some stored =>
      match FoldAggregate (merge_sort revision_le events) with
      | None => Some ErrCorruptEventStream
      | Some folded => if folded == Some stored then None else Some invalid_decision
      end
    end
  end.

(** The read accessors of [phase4.go]. *)
Definition FindWorkBudgetAccount (s : MemStore) (ref : AggregateRef) : option WorkBudgetAccount := workBudgetAccounts (ms_phase4 s) !! ref.
Definition FindWorkInvocation (s : MemStore) (ref : AggregateRef) : option WorkInvocation := workInvocations (ms_phase4 s) !! ref.

Definition EventCount (s : MemStore) : Z := Z.of_nat (size (ms_events s)).
Definition IdentityConflictCount (s : MemStore) : Z := llen (ms_identityConflicts s).
Definition AtomicRecordCounts (s : MemStore) : Z * Z * Z * Z * Z :=
  (Z.of_nat (size (ms_states s)), Z.of_nat (size (ms_events s)), Z.of_nat (size (ms_receipts s)),
   Z.of_nat (size (ms_authority s)), Z.of_nat (size (ms_outbox s))).
