(* ===== verification/Handler.v ===== *)
(** * The command handler ([application/handler.go])

    [Handle] answers a command: it looks for an earlier receipt, loads a snapshot,
    evaluates, commits, and reconciles when the commit turns out to have happened
    already or is uncertain. Every call of the store takes its lock, so a handler
    is a program whose steps are atomic on the store, and several handlers
    interleave between the steps. *)

From S2P Require Import Prelude GoText GoTime GoJson Types Envelope State Evolve Authorization Phase4Store.
From S2P Require Import Fingerprint Provenance Snapshot HumanPolicy CommandPolicy Evaluator MemoryStore.

(** Programs over the store: resumptions of atomic steps. *)
Inductive prog (A : Type) : Type :=
| Ret (a : A)
| Atomic (step : MemStore -> MemStore * prog A).
Arguments Ret {A} a.
Arguments Atomic {A} step.

(** A read of the store. *)
Definition reads {A} (k : MemStore -> prog A) : prog A := Atomic (fun s => (s, k s)).

(** Undisturbed execution. *)
Fixpoint run {A} (p : prog A) (s : MemStore) : MemStore * A :=
  match p with
  | Ret a => (s, a)
  | Atomic step => let (s', p') := step s in run p' s'
  end.

(** What the surroundings answer: the n-th check of the context, the n-th reading
    of the clock, the n-th identity, and the order in which the evaluator visits
    a map. *)
Record Env := mkEnv {
  en_ctx : nat -> Context;
  en_now : nat -> Time;
  en_id : nat -> option UUIDv7;
  en_order : iteration
}.

Inductive handle_error :=
| HandleContext (e : context_error) | LookupFailed (e : commit_error) | LoadFailed (e : commit_error)
| AllocateFailed | EvaluateFailed (e : evaluate_error) | CommitFailed (e : commit_error) | ReconcileFailed (e : commit_error)
| ConflictFingerprint | ConflictScope | ConflictProvenance | RecordFailed (e : commit_error).

Abbreviation answer := (handle_error + CommandReceipt)%type.

Section handler.
Variable catalogue : option CatalogueSnapshot.

Definition conflict_reason (byCommand : bool) : string :=
  if byCommand then "COMMAND_ID_REUSE" else "IDEMPOTENCY_KEY_REUSE".

Definition recordIdentityConflict (env : Env) (c : KernelCommand) (provenance : ProvenanceBasis) (byCommand : bool)
    : prog answer :=
  match CommandFingerprint c with
  | None => Ret (inl ConflictFingerprint)
  | Some fingerprint =>
    match IdempotencyScopeDigest c with
    | None => Ret (inl ConflictScope)
    | Some scope =>
      let observedAt := en_now env 1 in
      let x := mkContext observedAt (en_now env 2) (cmd_CommandID c) (cmd_CorrelationID c) provenance "" in
      match BuildDecisionProvenance c fingerprint x with
      | None => Ret (inl ConflictProvenance)
      | Some (_, digest) =>
        let receipt := mkReceipt (cmd_ContractManifest c) (cmd_CommandID c) (cmd_CommandType c) (cmd_Target c)
          OutcomeRejectedConflict (conflict_reason byCommand) false None [] observedAt (dc_DecidedAt x) digest in
        Atomic (fun s =>
          match RecordIdentityConflict (en_ctx env 2) s
                  (mkConflictAudit (cmd_CommandID c) scope fingerprint (conflict_reason byCommand) (rc_DecidedAt receipt) digest) with
          | (s, Some e) => (s, Ret (inl (RecordFailed e)))
          | (s, None) => (s, Ret (inr receipt))
          end)
      end
    end
  end.

(** After a commit that may have happened before. *)
Definition reconcile (env : Env) (c : KernelCommand) (e : commit_error) : prog answer :=
  reads (fun s =>
    match LookupReceipt (en_ctx env 4) s c (en_now env 3) with
    | inl e => Ret (inl (ReconcileFailed e))
    | inr (Some receipt) => Ret (inr receipt)
    | inr None => Ret (inl (CommitFailed e))
    end).

Definition commit_decision (env : Env) (c : KernelCommand) (expected : Snapshot) (d : Decision) : prog answer :=
  Atomic (fun s =>
    match Commit (en_ctx env 3) s expected d with
    | (s, None) => (s, Ret (inr (de_Receipt d)))
    | (s, Some ErrDecisionAlreadyCommitted) => (s, reconcile env c ErrDecisionAlreadyCommitted)
    | (s, Some ErrCommitUncertain) => (s, reconcile env c ErrCommitUncertain)
    | (s, Some e) => (s, Ret (inl (CommitFailed e)))
    end).

Definition decide_loaded (env : Env) (c : KernelCommand) (provenance : ProvenanceBasis) (snapshot : Snapshot) : prog answer :=
  match en_id env 0, en_id env 1 with
  | Some eventID, Some intentID =>
    match Evaluate (en_order env) catalogue c snapshot
            (mkContext (en_now env 1) (en_now env 2) eventID intentID provenance "") with
    | inl e => Ret (inl (EvaluateFailed e))
    | inr d => commit_decision env c snapshot d
    end
  | _, _ => Ret (inl AllocateFailed)
  end.

Definition load_snapshot (env : Env) (c : KernelCommand) (provenance : ProvenanceBasis) : prog answer :=
  reads (fun s =>
    match LoadDecision (en_ctx env 2) s c with
    | inl e => Ret (inl (LoadFailed e))
    | inr snapshot => decide_loaded env c provenance snapshot
    end).

Definition Handle (env : Env) (c : KernelCommand) (provenance : ProvenanceBasis) : prog answer :=
  match en_ctx env 0 with
  | Some e => Ret (inl (HandleContext e))
  | None =>
    reads (fun s =>
      match LookupReceipt (en_ctx env 1) s c (en_now env 0) with
      | inl ErrCommandIdentityConflict => recordIdentityConflict env c provenance true
      | inl ErrIdempotencyKeyConflict => recordIdentityConflict env c provenance false
      | inl e => Ret (inl (LookupFailed e))
      | inr (Some receipt) => Ret (inr receipt)
      | inr None => load_snapshot env c provenance
      end)
  end.

(** ** Several handlers on one store *)

Record System := mkSystem { sys_store : MemStore; sys_threads : list (KernelCommand * prog answer) }.

(** A request of an admissible command arrives, a handler takes its next step,
    or an administrator replaces the policy. *)
Inductive sys_step (admissible : KernelCommand -> Prop) : System -> System -> Prop :=
| step_arrive s ts env c provenance :
    admissible c -> sys_step admissible (mkSystem s ts) (mkSystem s (ts ++ [(c, Handle env c provenance)]))
| step_run s ts i c step s' p :
    ts !! i = Some (c, Atomic step) -> step s = (s', p) ->
    sys_step admissible (mkSystem s ts) (mkSystem s' (<[i := (c, p)]> ts))
| step_policy s ts policy :
    sys_step admissible (mkSystem s ts) (mkSystem (SetAuthorizationPolicy s policy) ts).

Definition initial (point : FaultPoint) (policy : list AuthorizationPolicy) : System :=
  mkSystem (NewStoreWithFault point policy) [].

Definition reachable (admissible : KernelCommand -> Prop) (sys : System) : Prop :=
  exists point policy, rtc (sys_step admissible) (initial point policy) sys.
End handler.
