(* ===== verification/StoreLaws.v ===== *)
(** * Theorems on the store and its handlers

    What holds in every system of concurrent handlers on one store: stored states
    are the replay of their events, a request is applied at most once, and the
    answers are the stored receipts. *)

From S2P Require Import Prelude GoText GoTime GoJson Types Samples Payload Envelope State Evolve Authorization Phase4Store.
From S2P Require Import Fingerprint Provenance Review Budget Snapshot HumanPolicy WorkPolicy CommandPolicy Evaluator EvaluatorLaws.
From S2P Require Import MemoryStore Handler.

(** ** What a commit changes *)

(** The fields the laws are about; projections leave them alone. *)
Definition core (s : MemStore) :=
  (ms_states s, ms_revisions s, ms_receipts s, ms_commandBindings s, ms_idempotency s).

Lemma core_registry e s : core (applyRegistryEvent e s) = core s /\ ms_events (applyRegistryEvent e s) = ms_events s.
Proof. unfold applyRegistryEvent, register_execution. repeat case_match; by split. Qed.

Lemma core_review e s : core (applyReviewEvent e s) = core s /\ ms_events (applyReviewEvent e s) = ms_events s.
Proof.
  unfold applyReviewEvent, open_review, record_review_result, finalize_review, advance_review.
  repeat case_match; by split.
Qed.

Lemma core_event s e : core (apply_event s e) = core s /\ ms_events (apply_event s e) = <[ev_EventID e := e]> (ms_events s).
Proof.
  unfold apply_event. set (s1 := s <| ms_events := _ |>).
  destruct (core_review e (applyRegistryEvent e s1)) as [-> ->], (core_registry e s1) as [-> ->]. by split.
Qed.

Lemma core_capabilities ps s : core (foldl put_capability s ps) = core s /\ ms_events (foldl put_capability s ps) = ms_events s.
Proof.
  revert s. induction ps as [|p ps IH]; [by split|]. intros s. cbn [foldl].
  destruct (IH (put_capability s p)) as [-> ->]. unfold put_capability. repeat case_match; by split.
Qed.

Lemma core_projections p s : core (apply_projections p s) = core s /\ ms_events (apply_projections p s) = ms_events s.
Proof.
  unfold apply_projections. cbv zeta. match goal with |- context [foldl put_capability ?s0 ?ps] => pose proof (core_capabilities ps s0) as [H1 H2] end.
  split; [exact H1|exact H2].
Qed.

(** The store after a commit, as far as the laws need it. *)
Record committed (s : MemStore) (d : Decision) (s' : MemStore) : Prop := {
  cm_states : ms_states s' = match de_NextState d with Some st => <[rc_Target (de_Receipt d) := st]> (ms_states s) | None => ms_states s end;
  cm_revisions : ms_revisions s' = match rc_ResultingRevision (de_Receipt d) with
                                   | Some v => <[rc_Target (de_Receipt d) := v]> (ms_revisions s)
                                   | None => ms_revisions s
                                   end;
  cm_events : ms_events s' = foldl (fun m e => <[ev_EventID e := e]> m) (ms_events s) (de_Events d);
  cm_receipts : ms_receipts s' = <[rc_CommandID (de_Receipt d) := de_Receipt d]> (ms_receipts s);
  cm_bindings : ms_commandBindings s' = <[rc_CommandID (de_Receipt d) :=
    mkIdentity (rc_CommandID (de_Receipt d)) (de_CommandFingerprint d) (de_IdempotencyScope d)]> (ms_commandBindings s);
  cm_idempotency : ms_idempotency s' = <[de_IdempotencyScope d :=
    mkIdentity (rc_CommandID (de_Receipt d)) (de_CommandFingerprint d) (de_IdempotencyScope d)]> (ms_idempotency s)
}.

Lemma core_events d s :
  let s' := apply_events d s in
  ms_states s' = match de_NextState d with Some st => <[rc_Target (de_Receipt d) := st]> (ms_states s) | None => ms_states s end /\
  ms_revisions s' = match rc_ResultingRevision (de_Receipt d) with
                    | Some v => <[rc_Target (de_Receipt d) := v]> (ms_revisions s)
                    | None => ms_revisions s
                    end /\
  ms_events s' = foldl (fun m e => <[ev_EventID e := e]> m) (ms_events s) (de_Events d) /\
  ms_receipts s' = ms_receipts s /\ ms_commandBindings s' = ms_commandBindings s /\ ms_idempotency s' = ms_idempotency s.
Proof.
  cbv zeta. unfold apply_events. set (s1 := match de_NextState d with Some _ => _ | None => s end).
  set (s2 := match rc_ResultingRevision _ with Some _ => _ | None => s1 end).
  assert (forall es s, core (foldl apply_event s es) = core s /\
    ms_events (foldl apply_event s es) = foldl (fun m e => <[ev_EventID e := e]> m) (ms_events s) es) as H.
  { intros es. induction es as [|e es IH]; [by split|]. intros s0. cbn [foldl].
    destruct (IH (apply_event s0 e)) as [-> ->], (core_event s0 e) as [-> ->]. by split. }
  destruct (H (de_Events d) s2) as [Hc He]. unfold core in Hc. injection Hc as -> -> -> -> ->. rewrite He.
  subst s1 s2. destruct (de_NextState d), (rc_ResultingRevision _); by split_and!.
Qed.

Lemma Commit_effect ctx s expected d s' r :
  Commit ctx s expected d = (s', r) ->
  s' = s /\ r <> None /\ r <> Some ErrCommitUncertain \/
  (decision_coherent expected d = true /\ identity_taken s d = None /\ guards_hold s expected d = true /\
   (r = None \/ r = Some ErrCommitUncertain) /\ committed s d s').
Proof.
  unfold Commit. destruct ctx; [intros [= <- <-]; left; done|].
  destruct (decision_coherent expected d) eqn:E1; [|intros [= <- <-]; left; done]. cbn [negb].
  destruct (identity_taken s d) as [e|] eqn:E2.
  { intros [= <- <-]. left. split_and!; [done..|]. intros [= ->]. unfold identity_taken in E2. repeat case_match; discriminate E2. }
  destruct (guards_hold s expected d) eqn:E3; [|intros [= <- <-]; left; done]. cbn [negb].
  destruct (prepare_commit s d) as [e|p] eqn:E4.
  { intros [= <- <-]. left. split_and!; [done..|]. intros [= ->]. unfold prepare_commit, as_commit, budget_commit_error in E4.
    repeat case_match; simplify_eq. }
  destruct (fault_before _); [intros [= <- <-]; left; done|]. cbv zeta. intros [= <- <-]. right.
  split_and!; [done..|by case_match; auto|].
  destruct (core_events d s) as (H1 & H2 & H3 & H4 & H5 & H6).
  destruct (core_projections p (apply_events d s)) as [Hc He].
  set (s2 := apply_projections p (apply_events d s)) in *. clearbody s2. unfold core in Hc.
  injection Hc as C1 C2 C3 C4 C5. split; cbn.
  - by rewrite C1.
  - by rewrite C2.
  - by rewrite He.
  - by rewrite C3, H4.
  - by rewrite C4, H5.
  - by rewrite C5, H6.
Qed.

(** ** What the evaluator decides *)

(** An applied decision: one event, at the revision of its receipt. *)
Record applied (c : KernelCommand) (s : Snapshot) (d : Decision) (e : DomainEvent) (revision : Z) : Prop := {
  ap_events : de_Events d = [e];
  ap_ids : rc_EventIDs (de_Receipt d) = [ev_EventID e];
  ap_resulting : rc_ResultingRevision (de_Receipt d) = Some revision;
  ap_revision : ev_AggregateRevision e = revision;
  ap_aggregate : ev_Aggregate e = cmd_Target c;
  ap_command : ev_CommandID e = cmd_CommandID c;
  ap_outcome : rc_OutcomeCode (de_Receipt d) = OutcomeApplied;
  ap_creates : commandCreatesAggregate c = xr_MustNotExist (cmd_ExpectedRevision c);
  ap_exists : xr_MustNotExist (cmd_ExpectedRevision c) = negb (sn_Exists s);
  ap_evolved : evolveState c (sn_Revision s) (sn_State s) (ev_EventID e) = inr (de_NextState d, revision)
}.

(** A refusal changes nothing. *)
Record refused (d : Decision) : Prop := {
  rf_events : de_Events d = [];
  rf_state : de_NextState d = None;
  rf_resulting : rc_ResultingRevision (de_Receipt d) = None
}.

Lemma evaluated_shape order cat c s x d :
  Evaluate order cat c s x = inr d ->
  rc_CommandID (de_Receipt d) = cmd_CommandID c /\ rc_Target (de_Receipt d) = cmd_Target c /\
  CommandFingerprint c = Some (de_CommandFingerprint d) /\
  (Digest_Valid (de_IdempotencyScope d) = true -> IdempotencyScopeDigest c = Some (de_IdempotencyScope d)) /\
  (refused d \/ exists e revision, applied c s d e revision).
Proof.
  intros H. apply Evaluate_decided in H as (cat' & f & x' & _ & _ & Hf & _ & Hd).
  assert (forall v, v = default "" (IdempotencyScopeDigest c) -> Digest_Valid v = true -> IdempotencyScopeDigest c = Some v) as Hs.
  { intros v ->. by destruct (IdempotencyScopeDigest c). }
  destruct Hd as [x' o r p _ _|x' v p _ _|x' scope p definition state revision attempt phase4 authorization
    _ Hsc _ _ _ _ _ _ _ [_ A2 _ _ _ _ _ _ A9 _]].
  - split_and!; [reflexivity|reflexivity|exact Hf|apply Hs; reflexivity|left; split; reflexivity].
  - split_and!; [reflexivity|reflexivity|exact Hf|apply Hs; reflexivity|left; split; reflexivity].
  - split_and!; [reflexivity|reflexivity|exact Hf|intros _; exact Hsc|right]. eexists _, revision.
    apply fresh_spec in A2 as (F1 & F2 & _).
    split; try reflexivity; [exact F1| |exact A9]. destruct (xr_MustNotExist _); [by rewrite F2|by destruct F2 as [-> _]].
Qed.

(** The kind of aggregate each creation creates. *)
Definition creates_own_kind (cat : CatalogueSnapshot) : Prop :=
  forall type version kind payload definition own event,
    cg_ResolveCommand cat type version kind payload = inr definition ->
    lookup_str type creations = Some (own, event) -> kind = own.

Lemma creation_known c eventID st revision :
  commandCreatesAggregate c = true -> evolveState c 0 None eventID = inr (Some st, revision) ->
  exists kind event, lookup_str (cmd_CommandType c) creations = Some (kind, event).
Proof.
  intros Hc H. unfold evolveState, isOperatorHumanContinuityCreation in H. rewrite Hc in H. cbn [negb] in H.
  destruct (_ || _) eqn:E1 in H.
  { apply orb_true_iff in E1 as [E1|E1]; apply bool_decide_eq_true in E1; rewrite E1; eauto. }
  destruct (contains _ _) eqn:E2 in H.
  - apply contains_spec in E2. repeat (apply elem_of_cons in E2 as [E2|E2]; [rewrite E2; eauto|]). by apply not_elem_of_nil in E2.
  - cbv zeta in H. by destruct (_ || _) in H.
Qed.

Lemma creation_event type kind event event' :
  lookup_str type creations = Some (kind, event) -> (type, event') ∈ Evolve.catalogue -> event' = event.
Proof.
  assert (forallb (fun ce => match lookup_str (fst ce) creations with Some (_, e) => e == snd ce | None => true end)
    Evolve.catalogue = true) as H by (vm_compute; reflexivity).
  rewrite forallb_True_iff, Forall_forall in H. intros Hl Hin. specialize (H _ Hin). cbn [fst snd] in H. rewrite Hl in H.
  by apply bool_decide_eq_true in H.
Qed.

Lemma creation_not_phase4 c s x kind event :
  lookup_str (cmd_CommandType c) creations = Some (kind, event) -> evaluatePhase4Command c s x = None.
Proof.
  unfold lookup_str, creations. intros H.
  repeat (match type of H with (if cmd_CommandType c == ?t then _ else _) = _ =>
            destruct (cmd_CommandType c == t) eqn:E; [apply bool_decide_eq_true in E; unfold evaluatePhase4Command; rewrite E;
              eval_tests; vm_compute; reflexivity|clear E] end).
  discriminate H.
Qed.

(** The event of a creation folds to the state it created. *)
Lemma creation_replays order cat c s x d e revision st :
  Evaluate order (Some cat) c s x = inr d -> applied c s d e revision ->
  follows_contract cat -> creates_own_kind cat ->
  xr_MustNotExist (cmd_ExpectedRevision c) = true -> sn_Revision s = 0 -> sn_State s = None ->
  de_NextState d = Some st -> FoldAggregate [e] = Some (Some st).
Proof.
  intros H [P1 _ P3 _ _ _ Ho P8 _ _] Hcat Hkind Hm Hr Hs Hn.
  apply Evaluate_decided in H as (cat' & f & x' & [= <-] & Hctx & _ & Hc & Hd).
  destruct Hd as [x' o r p Hne _|x' v p Hne _|x' scope p definition state revision' attempt phase4 authorization
    _ _ _ Hres _ _ _ _ _ [A1 A2 A3 A4 A5 A6 A7 A8 A9 [type A10]]]; [by cbn in Ho..|].
  cbn in Hn, P1, P3. subst state. injection P1 as <-. injection P3 as ->. rewrite Hm in P8. rewrite Hr, Hs in A9.
  destruct (creation_known _ _ _ _ P8 A9) as (kind & event & Hl).
  rewrite (creation_not_phase4 _ _ _ _ _ Hl) in A6. injection A6 as <-.
  assert ((cmd_CommandType c, type) ∈ Evolve.catalogue) as Hin.
  { eapply Hcat; [exact Hres|]. rewrite A10. by left. }
  assert (type = event) as -> by (by eapply creation_event).
  assert (UUIDv7_Valid (dc_EventID x') = true) as Hid.
  { destruct Hc as (-> & _). unfold validateDecisionContext in Hctx. destruct (_ || _) in Hctx; [discriminate Hctx|].
    bprop Hctx. by split_ands. }
  assert (as_LifecycleEpoch st = 1) as Hep.
  { destruct (creation_folds c (dc_EventID x') (committed_event c x' definition (Some st) revision None) kind event st revision)
      as (_ & s0 & _ & <- & <-); try reflexivity; try assumption; [by eapply Hkind|]. cbn. by rewrite A10. }
  eapply (fold_replays_creation c (dc_EventID x')); [exact Hl|by eapply Hkind| |exact P8|exact A9| |exact Hid|exact Hep].
  - cbn. by rewrite A10.
  - split; try reflexivity. cbn. by rewrite A10.
Qed.

(** ** The stored history of an aggregate *)

#[global] Instance revision_le_total : Total revision_le.
Proof. intros a b. unfold revision_le. lia. Qed.
#[global] Instance revision_le_trans : Transitive revision_le.
Proof. intros a b c. unfold revision_le. lia. Qed.

Lemma sorted_revisions_unique l1 l2 :
  NoDup (ev_AggregateRevision <$> l1) -> StronglySorted revision_le l1 -> StronglySorted revision_le l2 ->
  l1 ≡ₚ l2 -> l1 = l2.
Proof.
  revert l2. induction l1 as [|a l1 IH]; intros l2 Hn H1 H2 Hp; [by apply Permutation_nil in Hp|].
  destruct l2 as [|b l2]; [by apply symmetry, Permutation_nil in Hp|].
  apply StronglySorted_inv in H1 as [H1 Ha], H2 as [H2 Hb]. rewrite Forall_forall in Ha, Hb.
  cbn in Hn. apply NoDup_cons in Hn as [Hna Hn].
  assert (a = b) as ->.
  { assert (b ∈ a :: l1) as Hin by (rewrite Hp; left). apply elem_of_cons in Hin as [->|Hin]; [done|].
    assert (a ∈ b :: l2) as Hin2 by (rewrite <- Hp; left). apply elem_of_cons in Hin2 as [->|Hin2]; [done|].
    specialize (Ha _ Hin). specialize (Hb _ Hin2). unfold revision_le in *. exfalso. apply Hna.
    replace (ev_AggregateRevision a) with (ev_AggregateRevision b) by lia. by apply list_elem_of_fmap_2. }
  f_equal. apply IH; try done. by apply Permutation_cons_inv in Hp.
Qed.

Definition stored (s : MemStore) : list DomainEvent := (map_to_list (ms_events s)).*2.
Abbreviation stream_of t l := (filter (fun e => ev_Aggregate e = t) l).

(** [es] are the events of [t], at the revisions 1, 2, ... *)
Record history (s : MemStore) (t : AggregateRef) (es : list DomainEvent) : Prop := {
  hi_perm : es ≡ₚ stream_of t (stored s);
  hi_revisions : ev_AggregateRevision <$> es = seqZ 1 (Z.of_nat (length es));
  hi_current : ms_revisions s !! t = (if decide (es = []) then None else Some (Z.of_nat (length es)));
  hi_state : forall st, ms_states s !! t = Some st -> FoldAggregate es = Some (Some st)
}.

Lemma seqZ_revisions_sorted es n :
  ev_AggregateRevision <$> es = seqZ n (Z.of_nat (length es)) -> StronglySorted revision_le es.
Proof.
  revert n. induction es as [|e es IH]; [constructor|]. intros n H.
  rewrite seqZ_cons in H by (cbn; lia). cbn in H. injection H as He H.
  replace (Z.pred (Z.of_nat (S (length es)))) with (Z.of_nat (length es)) in H by lia.
  constructor; [by eapply IH|]. apply Forall_forall. intros e' Hin. unfold revision_le.
  apply (list_elem_of_fmap_2 ev_AggregateRevision) in Hin. rewrite H, elem_of_seqZ in Hin. lia.
Qed.

Lemma history_sorted s t es visited :
  history s t es -> visited ≡ₚ stored s -> merge_sort revision_le (stream_of t visited) = es.
Proof.
  intros [Hp Hr _ _] Hv. symmetry. apply sorted_revisions_unique.
  - rewrite Hr. apply NoDup_seqZ.
  - by eapply seqZ_revisions_sorted.
  - apply StronglySorted_merge_sort; apply _.
  - rewrite Hp. rewrite merge_sort_Permutation. by rewrite Hv.
Qed.

(** ** Commits keep the history *)

(** The revision of an aggregate, zero when it does not exist. *)
Abbreviation revision s t := (mget 0 t (ms_revisions s)).

(** [s] is a later store than [s0]: revisions have grown, and an aggregate at the
    same revision has the same state. *)
Definition grows (s0 s : MemStore) : Prop := forall t,
  revision s0 t <= revision s t /\ (revision s0 t = revision s t -> ms_states s0 !! t = ms_states s !! t).

Lemma grows_refl s : grows s s.
Proof. intros t. split; [lia|done]. Qed.
Lemma grows_trans s1 s2 s3 : grows s1 s2 -> grows s2 s3 -> grows s1 s3.
Proof.
  intros H1 H2 t. destruct (H1 t) as [L1 E1], (H2 t) as [L2 E2]. split; [lia|]. intros E. rewrite E1, E2; [done|lia..].
Qed.

Lemma coherent_revision expected d e :
  decision_coherent expected d = true -> de_Events d = [e] -> ev_AggregateRevision e = u64 (sn_Revision expected + 1).
Proof.
  unfold decision_coherent. intros H He. cbv zeta in H. destruct (_ || _) in H; [discriminate H|].
  destruct (validDecisionTuple expected d) eqn:E; [|discriminate H]. clear H. unfold validDecisionTuple in E. rewrite He in E.
  cbv zeta in E.
  destruct (_ || _) in E; [discriminate E|]. destruct (match de_AttemptBudget d with Some _ => _ | None => _ end) in E; [discriminate E|].
  destruct (match de_WorkBudget d with Some _ => _ | None => _ end) in E; [discriminate E|]. cbn [llen] in E.
  change (llen [e] == 0) with false in E. cbn [llen] in E. destruct (_ || _) eqn:E2 in E; [discriminate E|]. bprop E2.
  destruct E2 as [E2 E3]. unfold llen in E2, E3. cbn in E2, E3.
  destruct (rc_EventIDs _) as [|id [|]]; [cbn in E2; lia| |cbn in E2; lia].
  destruct (de_Outbox d) as [|i [|]]; [cbn in E3; lia| |cbn in E3; lia].
  cbn [tuple_loop] in E. destruct (_ || _) eqn:E4 in E; [discriminate E|]. bprop E4. by split_ands.
Qed.

Lemma evolve_stateful c rev st id next rev' : evolveState c rev (Some st) id = inr (next, rev') -> is_Some next.
Proof.
  unfold evolveState. intros H. cbv zeta in H. destruct (_ || _) in H; [injection H as <- _; eauto|].
  destruct (isOperatorHumanContinuityCreation c); [destruct (created_other _ _ _ _); [injection H as <- _; eauto|discriminate H]|].
  destruct (_ || _) in H; [discriminate H|]. destruct (terminalCommandProhibited _ _); [discriminate H|].
  destruct (evolve_existing _ _ _ _); [discriminate H|]. injection H as <- _. eauto.
Qed.

Lemma evolve_stateless c rev id next rev' :
  commandCreatesAggregate c = false -> evolveState c rev None id = inr (next, rev') -> next = None.
Proof.
  intros Hc. unfold evolveState, isOperatorHumanContinuityCreation. rewrite Hc. cbn [negb]. destruct (_ || _) eqn:E.
  { unfold commandCreatesAggregate in Hc. apply orb_true_iff in E as [E|E];
      apply bool_decide_eq_true in E; rewrite E in Hc; discriminate Hc. }
  cbv beta iota zeta. clear E. intros H. destruct (_ || _) in H; [discriminate H|]. by injection H as <- _.
Qed.

Definition histories (s : MemStore) : Prop := forall t, exists es, history s t es.

Lemma stored_insert s s' e :
  ms_events s' = <[ev_EventID e := e]> (ms_events s) -> ms_events s !! ev_EventID e = None -> stored s' ≡ₚ e :: stored s.
Proof. intros H Hn. unfold stored. rewrite H, map_to_list_insert by done. done. Qed.

Lemma history_length s t es : history s t es -> (length es <= size (ms_events s))%nat.
Proof.
  intros [Hp _ _ _]. rewrite Hp. unfold stored. rewrite length_filter, length_fmap. by rewrite length_map_to_list.
Qed.

Lemma history_revision s t es : history s t es -> revision s t = Z.of_nat (length es).
Proof. intros [_ _ H _]. unfold mget. rewrite H. by destruct (decide (es = [])) as [->|]. Qed.

(** A reopening carries the owner over. *)
Definition carries_owner (c : KernelCommand) : Prop :=
  cmd_CommandType c = "tekroo.command.work.reopen" ->
  exists o, decodePayloadObject (cmd_Payload c) = Some o /\ as_bool (o !! "owner_carry_forward") = Some true.

(** A history extended by the event of a decision made on the current state. *)
Lemma history_extended order cat c pre s0 s x d e rev s' es :
  let t := cmd_Target c in
  follows_contract cat -> creates_own_kind cat -> carries_owner c ->
  Evaluate order (Some cat) c (loadLocked s0 t pre) x = inr d -> applied c (loadLocked s0 t pre) d e rev ->
  rev = revision s t + 1 -> revision s0 t = revision s t -> ms_states s0 !! t = ms_states s !! t ->
  negb (is_nil (ms_revisions s0 !! t)) = negb (is_nil (ms_revisions s !! t)) ->
  history s t es -> Z.of_nat (length es) + 1 < u64_mod ->
  stored s' ≡ₚ e :: stored s -> ms_revisions s' !! t = Some rev ->
  ms_states s' !! t = match de_NextState d with Some st => Some st | None => ms_states s !! t end ->
  history s' t (es ++ [e]).
Proof.
  cbv zeta. set (t := cmd_Target c). set (sn := loadLocked s0 t pre).
  intros Hcat Hkind Hcarry He Ha Hrev Hr Hs Hx Hh Hlen Hst Hrv Hns.
  pose proof (history_revision _ _ _ Hh) as Hlen'. destruct Hh as [P R C S]. pose proof Ha as [A1 A2 A3 A4 A5 A6 A7 A8 A9 A10].
  split.
  - rewrite Hst. rewrite filter_cons_True by exact A5. rewrite <- P. symmetry. apply Permutation_cons_append.
  - rewrite fmap_app, R, length_app. cbn. rewrite Nat2Z.inj_add, seqZ_app by lia. f_equal.
    rewrite A4, Hrev, Hlen', (seqZ_cons _ (Z.of_nat 1)) by lia. cbn. f_equal. lia.
  - rewrite Hrv, length_app, decide_False by (by destruct es). f_equal. cbn. lia.
  - rewrite Hns. intros st Hst'. assert (sn_State sn = if sn_Exists sn then ms_states s !! t else None) as Esn.
    { subst sn. unfold loadLocked. cbn [sn_State sn_Exists]. by rewrite Hs. }
    assert (sn_Exists sn = negb (is_nil (ms_revisions s !! t))) as Eex by exact Hx.
    assert (sn_Revision sn = revision s t) as Erv by exact Hr.
    destruct (sn_Exists sn) eqn:Ee; cbn in A9; rewrite A9 in A8.
    + destruct (ms_states s !! t) as [cur|] eqn:Ecur; rewrite Esn in A10.
      * apply evolve_stateful in A10 as Hn. destruct Hn as [st' Hn]. rewrite Hn in Hst'. injection Hst' as ->.
        rewrite <- A1. eapply (decision_replays order cat c sn x d es cur); [exact He|exact A7|exact Hcat|exact A9|exact Esn|by apply S| |exact Hlen| |exact Hn].
        -- specialize (S _ eq_refl). destruct es as [|first es]; [discriminate S|]. cbn. f_equal.
           assert (first ∈ stream_of t (stored s)) as Hin by (rewrite <- P; left). by apply list_elem_of_filter in Hin as [Hin _].
        -- intros Ht. left. by apply Hcarry.
      * apply evolve_stateless in A10; [|exact A8]. rewrite A10 in Hst'. discriminate Hst'.
    + assert (es = []) as ->.
      { destruct (decide (es = [])) as [|Hne]; [done|]. rewrite C in Eex. discriminate Eex. }
      destruct (de_NextState d) as [st'|] eqn:Hn.
      * injection Hst' as ->. cbn [app]. eapply (creation_replays order cat c sn x d e rev st); try eassumption.
        rewrite Erv, Hlen'. reflexivity.
      * specialize (S _ Hst'). discriminate S.
Qed.

Lemma guards_current s expected d :
  guards_hold s expected d = true ->
  sn_Exists expected = negb (is_nil (ms_revisions s !! rc_Target (de_Receipt d))) /\
  (sn_Exists expected = true -> sn_Revision expected = revision s (rc_Target (de_Receipt d))) /\
  forall e, de_Events d = [e] -> ms_events s !! ev_EventID e = None.
Proof.
  unfold guards_hold. cbv zeta. intros H. do 10 (apply andb_true_iff in H as [H _]). apply andb_true_iff in H as [H1 H2].
  split_and!.
  - unfold mget. destruct (_ !! _); [by apply andb_true_iff in H1 as [-> _]|]. by apply negb_true_iff in H1 as ->.
  - unfold mget. destruct (_ !! _); [|by apply negb_true_iff in H1 as ->].
    apply andb_true_iff in H1 as [_ H1%bool_decide_eq_true]. done.
  - intros e He. rewrite He in H2. cbn in H2. rewrite andb_true_r in H2. by apply is_nil_true in H2.
Qed.

(** The decision a commit is called with was made on an earlier content of the
    store. *)
Record decided_on (cat : CatalogueSnapshot) (c : KernelCommand) (s0 : MemStore) (expected : Snapshot) (d : Decision) : Prop := {
  dn_expected : expected = loadLocked s0 (cmd_Target c) (cmd_Preconditions c);
  dn_evaluated : exists order x, Evaluate order (Some cat) c expected x = inr d
}.

(** A commit that changes something: a refusal is recorded, or an event added. *)
Lemma commit_cases cat c s0 s expected d s' :
  decided_on cat c s0 expected d -> decision_coherent expected d = true -> guards_hold s expected d = true -> committed s d s' ->
  (refused d /\ ms_states s' = ms_states s /\ ms_revisions s' = ms_revisions s /\ ms_events s' = ms_events s) \/
  (exists e rev, applied c expected d e rev /\ rev = u64 (revision s0 (cmd_Target c) + 1) /\
     ms_events s' = <[ev_EventID e := e]> (ms_events s) /\ ms_events s !! ev_EventID e = None /\
     ms_revisions s' = <[cmd_Target c := rev]> (ms_revisions s) /\
     ms_states s' = match de_NextState d with Some st => <[cmd_Target c := st]> (ms_states s) | None => ms_states s end).
Proof.
  intros [Hx (order & x & He)] Hc Hg [C1 C2 C3 _ _ _]. destruct (evaluated_shape _ _ _ _ _ _ He) as (_ & Ht & _ & _ & Hd).
  rewrite Ht in C1, C2. destruct Hd as [Hr|(e & rev & Ha)].
  - left. pose proof Hr as [R1 R2 R3]. rewrite R2 in C1. rewrite R3 in C2. rewrite R1 in C3. by split_and!.
  - right. exists e, rev. pose proof Ha as [A1 _ A3 A4 _ _ _ _ _ _]. rewrite A3 in C2. rewrite A1 in C3.
    apply guards_current in Hg as (_ & _ & Hf). split_and!; [done| |done|by apply Hf|done|done].
    rewrite <- A4, (coherent_revision _ _ _ Hc A1), Hx. done.
Qed.

Lemma commit_events cat c s0 s expected d ctx s' r :
  decided_on cat c s0 expected d -> Commit ctx s expected d = (s', r) -> ms_events s ⊆ ms_events s'.
Proof.
  intros Hd H. apply Commit_effect in H as [(-> & _)|(Hc & _ & Hg & _ & Hm)]; [done|].
  destruct (commit_cases _ _ _ _ _ _ _ Hd Hc Hg Hm) as [(_ & _ & _ & ->)|(e & rev & _ & _ & -> & Hn & _)]; [done|].
  by apply insert_subseteq.
Qed.

Lemma commit_histories cat c s0 s expected d ctx s' r :
  follows_contract cat -> creates_own_kind cat -> carries_owner c ->
  decided_on cat c s0 expected d -> grows s0 s -> histories s -> Commit ctx s expected d = (s', r) ->
  Z.of_nat (size (ms_events s')) < u64_mod -> histories s' /\ grows s s'.
Proof.
  intros Hcat Hkind Hcarry Hd Hgr Hh H Hsize. apply Commit_effect in H as [(-> & _)|(Hc & _ & Hg & _ & Hm)];
    [split; [done|apply grows_refl]|].
  destruct (commit_cases _ _ _ _ _ _ _ Hd Hc Hg Hm) as [(_ & Es & Er & Ee)|(e & rev & Ha & Hrev & Ee & Hn & Er & Es)].
  { split.
    - intros t. destruct (Hh t) as [es [P R C S]]. exists es. split; [by unfold stored; rewrite Ee|done|by rewrite Er|by rewrite Es].
    - intros t. rewrite Er, Es. split; [lia|done]. }
  destruct Hd as [Hx (order & x & He)]. destruct (evaluated_shape _ _ _ _ _ _ He) as (_ & Ht & _).
  apply guards_current in Hg as (Hex & Hrv & _). rewrite Ht in Hex, Hrv. subst expected. cbn [sn_Exists sn_Revision loadLocked] in Hex, Hrv.
  assert (revision s0 (cmd_Target c) = revision s (cmd_Target c)) as Heq.
  { revert Hex Hrv. unfold mget. destruct (ms_revisions s0 !! _), (ms_revisions s !! _); cbn; try discriminate; auto. }
  destruct (Hh (cmd_Target c)) as [es Hes]. apply history_revision in Hes as Hlen. apply history_length in Hes as Hlen'.
  rewrite Ee, map_size_insert_None in Hsize by done.
  assert (rev = revision s (cmd_Target c) + 1) as Hrev'.
  { rewrite Hrev, Heq. apply u64_id. unfold is_u64. lia. }
  split.
  - intros t. destruct (decide (t = cmd_Target c)) as [->|Hne].
    + exists (es ++ [e]). eapply (history_extended order cat c (cmd_Preconditions c) s0 s x d e rev s' es); try eassumption.
      * by apply Hgr.
      * lia.
      * by apply stored_insert.
      * by rewrite Er, lookup_insert_eq.
      * rewrite Es. destruct (de_NextState d); [by rewrite lookup_insert_eq|done].
    + destruct (Hh t) as [es' [P R C S]]. exists es'. split; [|done| |].
      * rewrite (stored_insert s s' e) by done. rewrite filter_cons_False; [exact P|].
        intros E. apply Hne. rewrite <- E. apply (ap_aggregate _ _ _ _ _ Ha).
      * by rewrite Er, lookup_insert_ne.
      * rewrite Es. destruct (de_NextState d); [by rewrite lookup_insert_ne|done].
  - intros t. unfold mget. rewrite Er, Es. destruct (decide (t = cmd_Target c)) as [->|Hne].
    + rewrite lookup_insert_eq. fold (revision s (cmd_Target c)). lia.
    + rewrite lookup_insert_ne by done. split; [lia|]. intros _. destruct (de_NextState d); [by rewrite lookup_insert_ne|done].
Qed.

(** ** Invariants of concurrent handlers

    To show that something holds in every system it is enough to show that the
    changes a handler can make keep it, and that every answer is right when it is
    given; how handlers interleave is dealt with once, here. *)

(** The receipt of a request that reuses a command identity or an idempotency key. *)
Definition identity_conflict (r : CommandReceipt) : Prop :=
  rc_OutcomeCode r = OutcomeRejectedConflict /\ rc_EventIDs r = [] /\
  (rc_ReasonCode r = "COMMAND_ID_REUSE" \/ rc_ReasonCode r = "IDEMPOTENCY_KEY_REUSE").

Opaque BuildDecisionProvenance CommandFingerprint IdempotencyScopeDigest Evaluate.

Section invariants.
Context (cat : CatalogueSnapshot) (admissible : KernelCommand -> Prop).
Context (inv : MemStore -> Prop) (older : MemStore -> MemStore -> Prop).
Context (ok : MemStore -> KernelCommand -> answer -> Prop).

(** What can happen to the store. *)
Inductive change (s : MemStore) : MemStore -> Prop :=
| change_quiet s' : core s' = core s -> ms_events s' = ms_events s -> change s s'
| change_commit c s0 expected d ctx s' r :
    admissible c -> decided_on cat c s0 expected d -> older s0 s -> Commit ctx s expected d = (s', r) -> change s s'.

(** Where a handler can be. *)
Inductive at_point (s : MemStore) (c : KernelCommand) : prog answer -> Prop :=
| at_start env basis : at_point s c (Handle (Some cat) env c basis)
| at_load env basis : at_point s c (load_snapshot (Some cat) env c basis)
| at_commit env s0 expected d :
    decided_on cat c s0 expected d -> older s0 s -> at_point s c (commit_decision env c expected d)
| at_reconcile env e : at_point s c (reconcile env c e)
| at_conflict env basis byCommand : at_point s c (recordIdentityConflict env c basis byCommand)
| at_done a : ok s c a -> at_point s c (Ret a).

Hypothesis older_refl : forall s, older s s.
Hypothesis inv_initial : forall point policy, inv (NewStoreWithFault point policy).
Hypothesis inv_change : forall s s', inv s -> change s s' -> inv s'.
Hypothesis older_change : forall s0 s s', inv s -> older s0 s -> change s s' -> older s0 s'.
Hypothesis ok_change : forall s s' c a, inv s -> ok s c a -> change s s' -> ok s' c a.
Hypothesis ok_error : forall s c e, ok s c (inl e).
Hypothesis ok_conflict : forall s c r, identity_conflict r -> ok s c (inr r).
Hypothesis ok_lookup : forall ctx s c at_ r, inv s -> LookupReceipt ctx s c at_ = inr (Some r) -> ok s c (inr r).
Hypothesis ok_commit : forall ctx s s0 c expected d s', inv s -> decided_on cat c s0 expected d ->
  Commit ctx s expected d = (s', None) -> ok s' c (inr (de_Receipt d)).

Lemma change_refl s : change s s.
Proof. by constructor. Qed.

Lemma loaded_point env s c basis : at_point s c (decide_loaded (Some cat) env c basis (loadLocked s (cmd_Target c) (cmd_Preconditions c))).
Proof.
  unfold decide_loaded. destruct (en_id env 0) as [eventID|]; [|apply at_done, ok_error].
  destruct (en_id env 1) as [intentID|]; [|apply at_done, ok_error].
  destruct (Evaluate _ _ _ _ _) eqn:E; [apply at_done, ok_error|].
  eapply (at_commit _ _ _ s); [split; [reflexivity|eauto]|apply older_refl].
Qed.

(** A step leads on: the store changed in a known way, the handler is at a known point. *)
Definition leads (s : MemStore) (c : KernelCommand) (next : MemStore * prog answer) : Prop :=
  change s (fst next) /\ at_point (fst next) c (snd next).

Lemma leads_reading s c p : at_point s c p -> leads s c (s, p).
Proof. intros H. split; [apply change_refl|exact H]. Qed.
Lemma leads_failed s c e : leads s c (s, Ret (inl e)).
Proof. apply leads_reading, at_done, ok_error. Qed.

Lemma lookup_leads s c ctx at_ (k : commit_error + option CommandReceipt -> prog answer) :
  inv s -> (forall r, k (inr (Some r)) = Ret (inr r)) -> (forall e, at_point s c (k (inl e))) -> at_point s c (k (inr None)) ->
  leads s c (s, k (LookupReceipt ctx s c at_)).
Proof.
  intros Hi H1 H2 H3. apply leads_reading. destruct (LookupReceipt ctx s c at_) as [err|[r|]] eqn:E; [apply H2| |exact H3].
  rewrite H1. apply at_done. by eapply ok_lookup.
Qed.

Lemma commit_leads s c env s0 expected d :
  inv s -> admissible c -> decided_on cat c s0 expected d -> older s0 s ->
  forall step, commit_decision env c expected d = Atomic step -> leads s c (step s).
Proof.
  intros Hi Ha Hd Ho step Hstep. injection Hstep as <-. destruct (Commit (en_ctx env 3) s expected d) as [s1 r] eqn:E.
  assert (change s s1) as Hch by (by eapply change_commit).
  destruct r as [err|]; [|split; [exact Hch|apply at_done; by eapply ok_commit]].
  destruct err; (split; [exact Hch|]); solve [apply at_reconcile|apply at_done, ok_error].
Qed.

Lemma conflict_leads s c env basis byCommand :
  forall step, recordIdentityConflict env c basis byCommand = Atomic step -> leads s c (step s).
Proof.
  intros step Hp. unfold recordIdentityConflict in Hp. destruct (CommandFingerprint c) as [f|]; [|discriminate Hp].
  destruct (IdempotencyScopeDigest c) as [scope|]; [|discriminate Hp]. cbv zeta in Hp.
  destruct (BuildDecisionProvenance _ _ _) as [[p g]|]; [|discriminate Hp]. injection Hp as <-.
  unfold RecordIdentityConflict. destruct (en_ctx env 2); [apply leads_failed|].
  destruct (_ || _); [apply leads_failed|]. split; [by constructor|]. apply at_done, ok_conflict.
  split_and!; [done|done|]. destruct byCommand; [left|right]; reflexivity.
Qed.

(** One step of a handler. *)
Lemma point_step s c p : inv s -> admissible c -> at_point s c p -> forall step, p = Atomic step -> leads s c (step s).
Proof.
  intros Hi Ha [env basis|env basis|env s0 expected d Hd Ho|env e|env basis b|a Hok] step Hp.
  - unfold Handle in Hp. destruct (en_ctx env 0); [discriminate Hp|]. injection Hp as <-.
    apply (lookup_leads _ _ _ _ (fun l => match l with
      | inl ErrCommandIdentityConflict => _ | inl ErrIdempotencyKeyConflict => _ | inl _ => _ | inr (Some receipt) => _
      | inr None => _ end)); [exact Hi|reflexivity| |apply at_load].
    intros []; solve [apply at_conflict|apply at_done, ok_error].
  - injection Hp as <-. unfold LoadDecision. destruct (en_ctx env 2); [apply leads_failed|apply leads_reading, loaded_point].
  - by eapply commit_leads.
  - injection Hp as <-.
    apply (lookup_leads _ _ _ _ (fun l => match l with inl e => _ | inr (Some receipt) => _ | inr None => _ end));
      [exact Hi|reflexivity|intros ?; apply at_done, ok_error|apply at_done, ok_error].
  - by eapply conflict_leads.
  - discriminate Hp.
Qed.

Lemma point_change s s' c p : inv s -> change s s' -> at_point s c p -> at_point s' c p.
Proof. intros Hi Hc []; econstructor; eauto. Qed.

Theorem system_invariant sys :
  reachable (Some cat) admissible sys ->
  inv (sys_store sys) /\ Forall (fun cp => admissible (fst cp) /\ at_point (sys_store sys) (fst cp) (snd cp)) (sys_threads sys).
Proof.
  intros (point & policy & H). revert sys H. apply (rtc_ind_r _ (initial point policy)).
  - split; [apply inv_initial|constructor].
  - intros s1 s2 _ Hstep [Hi Ht]. destruct Hstep as [s ts env c basis Hc|s ts i c step s' p Hl Hs|s ts policy']; cbn in *.
    + split; [done|]. apply Forall_app. split; [done|]. apply Forall_singleton. split; [done|apply at_start].
    + pose proof (Forall_lookup_1 _ _ _ _ Ht Hl) as [Ha Hp]. cbn in Ha, Hp.
      destruct (point_step _ _ _ Hi Ha Hp _ eq_refl) as [Hch Hp']. rewrite Hs in Hch, Hp'. cbn [fst snd] in Hch, Hp'. split; [by eapply inv_change|].
      apply Forall_insert; [|done]. eapply Forall_impl; [exact Ht|]. intros [c' p1] [H1 H2]. split; [done|]. by eapply point_change.
    + assert (change s (SetAuthorizationPolicy s policy')) as Hch by (by constructor).
      split; [by eapply inv_change|]. eapply Forall_impl; [exact Ht|]. intros [c' p1] [H1 H2]. split; [done|]. by eapply point_change.
Qed.
End invariants.

(** ** Identities and receipts *)

(** Receipts, bindings and scopes agree, and every event belongs to the receipt of
    its command. *)
Record records (s : MemStore) : Prop := {
  rd_receipt : forall id r, ms_receipts s !! id = Some r ->
    exists b, ms_commandBindings s !! id = Some b /\ di_CommandID b = id /\ ms_idempotency s !! di_Scope b = Some b;
  rd_scope : forall scope b, ms_idempotency s !! scope = Some b ->
    di_Scope b = scope /\ ms_commandBindings s !! di_CommandID b = Some b /\ is_Some (ms_receipts s !! di_CommandID b);
  rd_event : forall id e, ms_events s !! id = Some e ->
    ev_EventID e = id /\ exists r, ms_receipts s !! ev_CommandID e = Some r /\ rc_EventIDs r = [id]
}.

(** [r] is the stored answer to the request of [c]. *)
Definition answered (s : MemStore) (c : KernelCommand) (r : CommandReceipt) : Prop :=
  exists scope b, IdempotencyScopeDigest c = Some scope /\ ms_idempotency s !! scope = Some b /\
    CommandFingerprint c = Some (di_Fingerprint b) /\ ms_receipts s !! di_CommandID b = Some r.

Lemma identity_free s d :
  identity_taken s d = None ->
  ms_receipts s !! rc_CommandID (de_Receipt d) = None /\ ms_idempotency s !! de_IdempotencyScope d = None.
Proof. unfold identity_taken. repeat case_match; try discriminate. by split. Qed.

Section committed.
Context (cat : CatalogueSnapshot) (c : KernelCommand) (s0 s s' : MemStore) (expected : Snapshot) (d : Decision).
Hypothesis Hdecided : decided_on cat c s0 expected d.
Hypothesis Hcoherent : decision_coherent expected d = true.
Hypothesis Hfree : identity_taken s d = None.
Hypothesis Hguards : guards_hold s expected d = true.
Hypothesis Hcommitted : committed s d s'.

Lemma committed_records : records s -> records s'.
Proof.
  intros [R1 R2 R3]. destruct (identity_free _ _ Hfree) as [F1 F2]. pose proof Hcommitted as [_ _ _ C4 C5 C6].
  split.
  - intros id r. rewrite C4, C5, C6. destruct (decide (id = rc_CommandID (de_Receipt d))) as [->|Hne].
    + rewrite !lookup_insert_eq. intros _. eexists. split_and!; [reflexivity|reflexivity|apply lookup_insert_eq].
    + rewrite !lookup_insert_ne by done. intros H. apply R1 in H as (b & B1 & B2 & B3). exists b. split_and!; [done..|].
      rewrite lookup_insert_ne; [done|]. intros E. rewrite E in F2. congruence.
  - intros scope b. rewrite C4, C5, C6. destruct (decide (scope = de_IdempotencyScope d)) as [->|Hne].
    + rewrite lookup_insert_eq. intros [= <-]. cbn. rewrite !lookup_insert_eq. eauto.
    + rewrite lookup_insert_ne by done. intros H. apply R2 in H as (B1 & B2 & B3).
      assert (rc_CommandID (de_Receipt d) <> di_CommandID b) by (intros E; rewrite <- E, F1 in B3; by destruct B3).
      by rewrite !lookup_insert_ne by done.
  - intros id e. rewrite C4. destruct (commit_cases _ _ _ _ _ _ _ Hdecided Hcoherent Hguards Hcommitted)
      as [(_ & _ & _ & ->)|(e' & rev & Ha & _ & -> & _)].
    + intros H. apply R3 in H as (-> & r & H1 & H2). split; [done|]. exists r. rewrite lookup_insert_ne; [done|]. congruence.
    + destruct (decide (id = ev_EventID e')) as [->|Hne].
      * rewrite lookup_insert_eq. intros [= <-]. split; [done|]. exists (de_Receipt d).
        destruct Hdecided as [_ (order & x & He)]. destruct (evaluated_shape _ _ _ _ _ _ He) as (Hid & _).
        destruct Ha as [_ A2 _ _ _ A6 _ _ _ _]. rewrite A6, <- Hid, lookup_insert_eq. done.
      * rewrite lookup_insert_ne by done. intros H. apply R3 in H as (-> & r & H1 & H2). split; [done|].
        exists r. rewrite lookup_insert_ne; [done|]. congruence.
Qed.

Lemma committed_answered : answered s' c (de_Receipt d).
Proof.
  pose proof Hcommitted as [_ _ _ C4 _ C6]. destruct Hdecided as [_ (order & x & He)].
  destruct (evaluated_shape _ _ _ _ _ _ He) as (_ & _ & Hf & Hs & _). eexists _, _. rewrite C4, C6.
  split_and!; [apply Hs|apply lookup_insert_eq|exact Hf|apply lookup_insert_eq].
  unfold decision_coherent in Hcoherent. cbv zeta in Hcoherent.
  destruct (Digest_Valid (de_IdempotencyScope d)); [reflexivity|]. by rewrite orb_true_r in Hcoherent.
Qed.

Lemma committed_keeps other r : answered s other r -> answered s' other r.
Proof.
  intros (scope & b & H1 & H2 & H3 & H4). destruct (identity_free _ _ Hfree) as [F1 F2].
  pose proof Hcommitted as [_ _ _ C4 _ C6]. exists scope, b. rewrite C4, C6, !lookup_insert_ne.
  - split_and!; assumption.
  - intros E. rewrite <- E, F1 in H4. discriminate H4.
  - intros E. rewrite <- E, F2 in H2. discriminate H2.
Qed.
End committed.

Lemma quiet_core s s' :
  core s' = core s -> ms_events s' = ms_events s ->
  (records s -> records s') /\ (histories s -> histories s') /\ (forall c r, answered s c r -> answered s' c r) /\ grows s s'.
Proof.
  unfold core. intros [= E1 E2 E3 E4 E5] Ee. split_and!.
  - intros [R1 R2 R3]. split; rewrite ?E3, ?E4, ?E5, ?Ee; assumption.
  - intros H t. destruct (H t) as [es [P R C S]]. exists es. split; [by unfold stored; rewrite Ee|done|by rewrite E2|by rewrite E1].
  - intros c r. unfold answered. by rewrite E3, E5.
  - intros t. rewrite E1, E2. split; [lia|done].
Qed.

(** ** Theorems *)

(** Fewer than 2^64 events are stored. *)
Abbreviation small s := (Z.of_nat (size (ms_events s)) < u64_mod).

Lemma small_mono s s' : ms_events s ⊆ ms_events s' -> small s' -> small s.
Proof. intros H%map_subseteq_size. lia. Qed.

Lemma empty_histories point policy : histories (NewStoreWithFault point policy).
Proof. intros t. exists []. by split. Qed.

Lemma system_histories cat sys :
  follows_contract cat -> creates_own_kind cat -> reachable (Some cat) carries_owner sys ->
  small (sys_store sys) -> histories (sys_store sys).
Proof.
  intros Hcat Hkind Hr. set (older := fun s0 s => small s -> grows s0 s).
  assert (forall s s', change cat carries_owner older s s' ->
    (small s -> histories s) -> small s' -> small s /\ histories s' /\ grows s s') as Hchange.
  { intros s s' [s1 Hc He|c s0 expected d ctx s1 r Hc Hd Ho Hcm] Hi Hsm.
    - assert (small s) as Hs by (by rewrite <- He). destruct (quiet_core _ _ Hc He) as (_ & H1 & _ & H2). auto.
    - assert (small s) as Hs by (by eapply small_mono, Hsm; eapply commit_events).
      destruct (commit_histories cat c s0 s expected d ctx s1 r) as [H1 H2]; auto. }
  refine (proj1 (system_invariant cat carries_owner (fun s => small s -> histories s) older (fun _ _ _ => True)
    _ _ _ _ _ _ _ _ _ sys Hr)); try (by intros).
  - intros. apply empty_histories.
  - intros s s' Hi Hch Hs. by apply (Hchange s s').
  - intros s1 s s' Hi Ho Hch Hs. destruct (Hchange s s' Hch Hi Hs) as (H1 & _ & H2).
    eapply grows_trans; [by apply Ho|exact H2].
Qed.


Lemma lookup_answered ctx s c at_ r :
  records s -> LookupReceipt ctx s c at_ = inr (Some r) -> answered s c r.
Proof.
  intros [R1 R2 _] H. unfold LookupReceipt in H. destruct ctx; [discriminate H|]. unfold answered.
  destruct (CommandFingerprint c) as [f|]; [|discriminate H]. destruct (IdempotencyScopeDigest c) as [scope|]; [|discriminate H].
  destruct (ms_receipts s !! cmd_CommandID c) as [receipt|] eqn:E1.
  - destruct (negb _) in H; [discriminate H|]. cbv zeta in H. destruct (_ || _) eqn:E2 in H; [discriminate H|]. injection H as ->.
    destruct (R1 _ _ E1) as (b & B1 & B2 & B3). unfold mget in E2. rewrite B1 in E2. bprop E2. destruct E2 as [<- <-].
    exists (di_Scope b), b. rewrite B2. by split_and!.
  - destruct (ms_idempotency s !! scope) as [b|] eqn:E2; [|discriminate H]. destruct (negb _) in H; [discriminate H|].
    destruct (_ != _) eqn:E3 in H; [discriminate H|]. bprop E3. injection H as H. exists scope, b. by rewrite E3.
Qed.

(** A handler that has answered. *)
Lemma done_answer cat older ok s c a : at_point cat older ok s c (Ret a) -> (forall e, ok s c (inl e)) -> ok s c a.
Proof.
  intros H He. remember (Ret a) as p eqn:Ep. destruct H as [env basis|env basis|env s0 expected d Hd Ho|env e|env basis b|a' Hok].
  - unfold Handle in Ep. destruct (en_ctx env 0); [|discriminate Ep]. injection Ep as <-. apply He.
  - discriminate Ep.
  - discriminate Ep.
  - discriminate Ep.
  - unfold recordIdentityConflict in Ep. destruct (CommandFingerprint c); [|injection Ep as <-; apply He].
    destruct (IdempotencyScopeDigest c); [|injection Ep as <-; apply He]. cbv zeta in Ep.
    destruct (BuildDecisionProvenance _ _ _) as [[]|]; [discriminate Ep|injection Ep as <-; apply He].
  - injection Ep as ->. exact Hok.
Qed.

Lemma system_records cat sys :
  reachable (Some cat) (fun _ => True) sys ->
  records (sys_store sys) /\
  forall c r, (c, Ret (inr r)) ∈ sys_threads sys -> identity_conflict r \/ answered (sys_store sys) c r.
Proof.
  set (older := fun _ _ : MemStore => True).
  set (ok := fun s c (a : answer) => forall r, a = inr r -> identity_conflict r \/ answered s c r).
  intros Hr. destruct (system_invariant cat (fun _ => True) records older ok) with (sys := sys) as [H1 H2]; try (by intros).
  - intros s s' Hi [s1 Hc He|c s0 expected d ctx s1 r Hc Hd Ho Hcm]; [by apply (quiet_core _ _ Hc He)|].
    apply Commit_effect in Hcm as [(-> & _)|(? & ? & ? & _ & ?)]; [done|by eapply committed_records].
  - intros s s' c a Hi Hok [s1 Hc He|c1 s0 expected d ctx s1 r Hc Hd Ho Hcm] r' Ha.
    all: destruct (Hok r' Ha) as [Hx|Hx]; [by left|right].
    + by apply (quiet_core _ _ Hc He).
    + apply Commit_effect in Hcm as [(-> & _)|(? & ? & ? & _ & ?)]; [exact Hx|by eapply committed_keeps].
  - intros s c r Hx r' [= <-]. by left.
  - intros ctx s c at_ r Hi Hl r' [= <-]. right. by eapply lookup_answered.
  - intros ctx s s0 c expected d s' Hi Hd Hcm r' [= <-]. right.
    apply Commit_effect in Hcm as [(_ & H & _)|(? & ? & ? & _ & ?)]; [done|by eapply committed_answered].
  - split; [exact H1|]. intros c r Hin. rewrite Forall_forall in H2. apply H2 in Hin as [_ Hp]. cbn [fst snd] in Hp.
    eapply (done_answer cat older ok); [exact Hp|by intros e ? [=]|reflexivity].
Qed.

(** [C2] A request is applied at most once: in every system of concurrent handlers
    each stored event belongs to the one receipt of its command, whose scope is
    bound to that command, and two events of commands with the same idempotency
    scope are the same event. *)
Theorem applied_at_most_once cat sys :
  reachable (Some cat) (fun _ => True) sys ->
  let s := sys_store sys in
  (forall id e, ms_events s !! id = Some e ->
     exists b r, ms_commandBindings s !! ev_CommandID e = Some b /\ ms_idempotency s !! di_Scope b = Some b /\
       ms_receipts s !! ev_CommandID e = Some r /\ rc_EventIDs r = [id]) /\
  (forall id1 id2 e1 e2 b1 b2, ms_events s !! id1 = Some e1 -> ms_events s !! id2 = Some e2 ->
     ms_commandBindings s !! ev_CommandID e1 = Some b1 -> ms_commandBindings s !! ev_CommandID e2 = Some b2 ->
     di_Scope b1 = di_Scope b2 -> e1 = e2).
Proof.
  intros Hr. destruct (system_records cat sys Hr) as [[R1 R2 R3] _]. cbv zeta. split.
  - intros id e He. destruct (R3 _ _ He) as (_ & r & H1 & H2). destruct (R1 _ _ H1) as (b & B1 & _ & B3).
    exists b, r. by split_and!.
  - intros id1 id2 e1 e2 b1 b2 H1 H2 B1 B2 Hs. destruct (R3 _ _ H1) as (_ & r1 & T1 & I1), (R3 _ _ H2) as (_ & r2 & T2 & I2).
    destruct (R1 _ _ T1) as (b1' & B1' & C1 & S1), (R1 _ _ T2) as (b2' & B2' & C2 & S2). simplify_eq.
    assert (ev_CommandID e1 = ev_CommandID e2) as E by congruence. rewrite E, T2 in T1. injection T1 as ->. congruence.
Qed.

(** [C18] Answers agree: whichever handlers have answered requests with the same
    idempotency scope, unless they reported the reuse of an identity they have
    answered with the same receipt, which is the stored one, to the same request. *)
Theorem answers_agree cat sys c1 c2 r1 r2 :
  reachable (Some cat) (fun _ => True) sys ->
  (c1, Ret (inr r1)) ∈ sys_threads sys -> (c2, Ret (inr r2)) ∈ sys_threads sys ->
  IdempotencyScopeDigest c1 = IdempotencyScopeDigest c2 -> ~ identity_conflict r1 -> ~ identity_conflict r2 ->
  r1 = r2 /\ CommandFingerprint c1 = CommandFingerprint c2 /\ answered (sys_store sys) c1 r1.
Proof.
  intros Hr H1 H2 Hs N1 N2. destruct (system_records cat sys Hr) as [_ Ha].
  destruct (Ha _ _ H1) as [?|A1]; [contradiction|]. destruct (Ha _ _ H2) as [?|A2]; [contradiction|].
  destruct A1 as (sc1 & b1 & S1 & I1 & F1 & T1), A2 as (sc2 & b2 & S2 & I2 & F2 & T2).
  rewrite Hs, S2 in S1. injection S1 as <-. rewrite I2 in I1. injection I1 as <-. rewrite T2 in T1. injection T1 as <-.
  split_and!; [reflexivity|congruence|]. exists sc2, b2. rewrite Hs. split_and!; assumption.
Qed.

(** ** A concrete system *)

(** A handler that runs undisturbed. *)
Lemma run_alone catalogue admissible c p : forall s ts i,
  ts !! i = Some (c, p) ->
  rtc (sys_step catalogue admissible) (mkSystem s ts) (mkSystem (fst (run p s)) (<[i := (c, Ret (snd (run p s)))]> ts)).
Proof.
  revert p. fix IH 1. intros [a|step] s ts i Hi; cbn [run fst snd].
  - rewrite list_insert_id by exact Hi. apply rtc_refl.
  - destruct (step s) as [s' p'] eqn:E. eapply rtc_l; [by eapply step_run|].
    rewrite <- (list_insert_insert_eq ts i (c, Ret (snd (run p' s'))) (c, p')). apply IH.
    apply list_lookup_insert_eq. by eapply lookup_lt_Some.
Qed.

Lemma handled_alone catalogue (admissible : KernelCommand -> Prop) sys env c basis :
  admissible c -> reachable catalogue admissible sys ->
  let p := Handle catalogue env c basis in
  reachable catalogue admissible
    (mkSystem (fst (run p (sys_store sys))) (sys_threads sys ++ [(c, Ret (snd (run p (sys_store sys))))])).
Proof.
  intros Hc (point & policy & H). exists point, policy. etrans; [exact H|]. destruct sys as [s ts].
  eapply rtc_l; [by apply step_arrive|]. cbn [sys_store sys_threads].
  pose proof (run_alone catalogue admissible c (Handle catalogue env c basis) s
    (ts ++ [(c, Handle catalogue env c basis)]) (length ts)) as Hrun.
  rewrite insert_app_r_alt, Nat.sub_diag in Hrun by lia. apply Hrun. by apply list_lookup_middle.
Qed.

Transparent BuildDecisionProvenance CommandFingerprint IdempotencyScopeDigest Evaluate.

Definition create_story : KernelCommand :=
  sample_command <| cmd_CommandType := "tekroo.command.story.create" |> <| cmd_ExpectedRevision := MustNotExist |>
    <| cmd_ExpectedLifecycleEpoch := None |> <| cmd_Causation := [] |>.
Definition create_policy : AuthorizationPolicy :=
  mkPolicy (dig "a") 1 (mkRequirements 0 0 false ∅ false)
    [mkGrant (dig "b") sample_human (mkScope ["tekroo.command.story.create"] [AggregateStory] [uid "1"] true false false)
       None false false] [].
Definition create_catalogue : CatalogueSnapshot :=
  mkCatalogue 1
    (fun type _ kind _ =>
       if (type == "tekroo.command.story.create") && (kind == AggregateStory)
       then inr (mkDefinition type "1" [AggregateStory] [PrincipalHuman] false ["tekroo.event.story.created"] true [])
       else inl ErrUnknownCommand)
    (fun _ _ _ _ => inl ErrUnknownEvent).
Definition sample_env : Env :=
  mkEnv (fun _ => None) (fun _ => sample_time) (fun n => Some (match n with O => uid "5" | _ => uid "6" end)) sample_order.

(** The handler of the command, on a store whose acknowledgements get lost. *)
Definition create_run : MemStore * answer :=
  Eval vm_compute in
    run (Handle (Some create_catalogue) sample_env create_story (dc_Provenance sample_context))
      (NewStoreWithFault FaultAfterCommitBeforeAck [create_policy]).

Lemma create_reachable admissible : admissible create_story ->
  reachable (Some create_catalogue) admissible (mkSystem (fst create_run) [(create_story, Ret (snd create_run))]).
Proof.
  intros Hc. pose proof (handled_alone (Some create_catalogue) admissible
    (initial FaultAfterCommitBeforeAck [create_policy]) sample_env create_story (dc_Provenance sample_context) Hc) as H.
  cbv zeta in H. change (sys_store (initial FaultAfterCommitBeforeAck [create_policy]))
    with (NewStoreWithFault FaultAfterCommitBeforeAck [create_policy]) in H.
  assert (run (Handle (Some create_catalogue) sample_env create_story (dc_Provenance sample_context))
    (NewStoreWithFault FaultAfterCommitBeforeAck [create_policy]) = create_run) as E by (vm_compute; reflexivity).
  rewrite E in H. apply H. exists FaultAfterCommitBeforeAck, [create_policy]. apply rtc_refl.
Qed.

Lemma create_contract : follows_contract create_catalogue /\ creates_own_kind create_catalogue.
Proof.
  unfold follows_contract, creates_own_kind, create_catalogue. cbn [cg_ResolveCommand]. split.
  - intros type version kind payload definition event. destruct (_ && _) eqn:E; [|discriminate].
    apply andb_true_iff in E as [->%bool_decide_eq_true _]. intros [= <-] He. apply list_elem_of_singleton in He as ->.
    apply list_elem_of_In. vm_compute. tauto.
  - intros type version kind payload definition own event. destruct (_ && _) eqn:E; [|discriminate].
    apply andb_true_iff in E as [->%bool_decide_eq_true ->%bool_decide_eq_true]. intros _ H. vm_compute in H. injection H as <- _. reflexivity.
Qed.


Lemma applied_at_most_once_witness :
  exists b r, ms_commandBindings (fst create_run) !! uid "3" = Some b /\ ms_idempotency (fst create_run) !! di_Scope b = Some b /\
    ms_receipts (fst create_run) !! uid "3" = Some r /\ rc_EventIDs r = [uid "5"].
Proof.
  destruct (applied_at_most_once create_catalogue (mkSystem (fst create_run) [(create_story, Ret (snd create_run))])
    (create_reachable (fun _ => True) I)) as [H _].
  destruct (ms_events (fst create_run) !! uid "5") as [e|] eqn:E; [|vm_compute in E; discriminate E].
  destruct (H _ _ E) as (b & r & H1 & H2 & H3 & H4). vm_compute in E. injection E as <-. exists b, r.
  split_and!; [exact H1|exact H2|exact H3|exact H4].
Defined.

(** The receipt of the run: applied, although the acknowledgement was lost. *)
Definition create_receipt : CommandReceipt :=
  Eval vm_compute in match snd create_run with
                     | inr r => r
                     | inl _ => de_Receipt sample_decision
                     end.
Example create_answered : snd create_run = inr create_receipt /\ rc_OutcomeCode create_receipt = OutcomeApplied.
Proof. split; reflexivity. Qed.

Lemma answers_agree_witness : answered (fst create_run) create_story create_receipt.
Proof.
  assert (~ identity_conflict create_receipt) as N by (intros [H _]; discriminate H).
  destruct (answers_agree create_catalogue (mkSystem (fst create_run) [(create_story, Ret (snd create_run))])
    create_story create_story create_receipt create_receipt) as (_ & _ & H); try exact N.
  - by apply create_reachable.
  - left.
  - left.
  - reflexivity.
  - exact H.
Defined.
