(* ===== verification/StoreDefects.v ===== *)
(** * Where the in-memory store does not do what it means to

    Two executions on which the store and the kernel disagree about a decision. *)

From S2P Require Import Prelude GoText GoTime GoJson Types Samples Payload Envelope State Authorization WorkProfile Phase4Store.
From S2P Require Import Fingerprint Provenance Review ReviewLaws Snapshot Evaluator EvaluatorLaws MemoryStore Handler StoreLaws.

Lemma payload_result_anonymous payload id revision r :
  ReviewBranchResultFromPayload payload = Some (id, revision, r) -> vr_ActorFQN r = None.
Proof.
  unfold ReviewBranchResultFromPayload. intros H. repeat case_match; by simplify_eq.
Qed.

(** Results that need an independent actor are lost: for a review bound to a
    verification topology and a branch that requires the validator to be another
    actor than the implementer, the event that records a result changes nothing in
    the store, also when the command policy accepted that result from an independent
    actor, because the store does not copy the actor from the event. *)
Theorem independent_results_lost event s review id revision r spec :
  ev_EventType event = "tekroo.event.completion-review.result-recorded" ->
  ms_reviews s !! ev_Aggregate event = Some review ->
  ReviewBranchResultFromPayload (ev_Payload event) = Some (id, revision, r) ->
  cr_TopologyBound review = true -> cr_Branches review !! vr_BranchID r = Some spec ->
  IndependenceActor ∈ bs_RequiredIndependenceDimensions spec -> vr_SourceRole r <> "POLICY_TIMEOUT" ->
  applyReviewEvent event s = s.
Proof.
  intros Ht Hr Hp Hb Hs Hd Hn. unfold applyReviewEvent. rewrite Ht. eval_tests. unfold record_review_result. rewrite Hp, Hr.
  destruct (_ || _); [reflexivity|]. set (result := recorded_result event r).
  assert (snd (ApplyReviewBranchResult review result) = false) as E; [|unfold advance_review; by rewrite E].
  unfold ApplyReviewBranchResult. rewrite bool_decide_false by (intros E; rewrite E, lookup_empty in Hs; discriminate Hs).
  cbn [negb]. unfold ApplyBoundedReviewBranchResult.
  assert (BoundedReviewResultReason review result <> "") as E; [|by rewrite (bool_decide_false _ E)].
  unfold BoundedReviewResultReason. destruct (negb (is_nil _)); [discriminate|].
  change (vr_BranchID result) with (vr_BranchID r). rewrite Hs. destruct (_ || _); [discriminate|]. rewrite Hb. cbn [andb].
  destruct (_ != cr_CandidateArtifactDigest review); [discriminate|].
  change (vr_SourceRole result) with (vr_SourceRole r). rewrite (bool_decide_false _ Hn). cbn [negb andb].
  assert (forall receipt, RequiredSeparationProven (cr_Implementer review) (vr_Authority result) (vr_ActorFQN result) (vr_Execution result)
    (bs_RequiredIndependenceDimensions spec) receipt = false) as ->.
  { intros receipt. unfold RequiredSeparationProven. destruct (_ || _); [reflexivity|]. apply not_true_iff_false. intros H.
    rewrite forallb_True_iff, Forall_forall in H. specialize (H _ Hd). change (vr_ActorFQN result) with (vr_ActorFQN r) in H.
    rewrite (payload_result_anonymous _ _ _ _ Hp) in H. discriminate H. }
  cbn [negb]. rewrite orb_true_r. discriminate.
Qed.

(** ** A concrete review *)

Definition actor_spec (spec : ReviewBranchSpec) : ReviewBranchSpec :=
  spec <| bs_RequiredIndependenceDimensions := [IndependenceActor] |>.
Definition actor_review : CompletionReviewSnapshot :=
  Eval vm_compute in sample_named <| cr_Branches := actor_spec <$> cr_Branches sample_named |>.
Definition actor_result_payload : string :=
  jdoc [("review_id", qs (uid "9")); ("branch_policy_revision", "1"); ("branch_id", qs "tests"); ("source_role", qs "VALIDATOR");
        ("round", "1"); ("result", qs "PASS"); ("reasons", jarr []); ("evidence_ids", jarr [qs (uid "5")]);
        ("findings", jarr []); ("supersedes_result_event_ids", jarr []); ("changed_condition_evidence_ids", jarr []);
        ("candidate_artifact_digest", qs (dig "c"));
        ("independence_receipt", jobj [("proven_dimensions", jarr [qs "ACTOR"]); ("identity_comparison_digest", qs (dig "1"));
                                       ("method_ids", jarr [qs "unit-tests"]); ("evidence_ids", jarr [qs (uid "5")])])].
Definition actor_result : ReviewBranchResult :=
  Eval vm_compute in match ReviewBranchResultFromPayload actor_result_payload with
                     | Some (_, _, r) => r
                     | None => zero_ReviewBranchResult
                     end.
Definition actor_event : DomainEvent :=
  mkEvent ContractIdentity (uid "6") "tekroo.event.completion-review.result-recorded" "1"
    (mkRef AggregateCompletionReview (uid "9")) 2 1 (uid "3") (mkPrincipal "HUMAN" "reviewer") (Some "core::reviewer-1") None []
    sample_time actor_result_payload (dig "1").

(** The policy accepts the result from the actor of the event; the store loses it. *)
Definition policy_result : ReviewBranchResult :=
  (recorded_result actor_event actor_result) <| vr_ActorFQN := ev_ActorFQN actor_event |>.
Definition actor_store : MemStore :=
  (NewStore [create_policy]) <| ms_reviews := {[ev_Aggregate actor_event := actor_review]} |>.

Lemma independent_results_lost_witness :
  BoundedReviewResultReason actor_review policy_result = "" /\ snd (ApplyReviewBranchResult actor_review policy_result) = true /\
  applyReviewEvent actor_event actor_store = actor_store.
Proof.
  split_and!; [vm_compute; reflexivity|vm_compute; reflexivity|].
  assert (exists spec, cr_Branches actor_review !! "tests" = Some spec /\
    bs_RequiredIndependenceDimensions spec = [IndependenceActor]) as (spec & Hs & Hd)
    by (vm_compute; eexists; split; reflexivity).
  apply (independent_results_lost actor_event actor_store actor_review (uid "9") 1 actor_result spec).
  - reflexivity.
  - vm_compute. reflexivity.
  - vm_compute. reflexivity.
  - reflexivity.
  - exact Hs.
  - rewrite Hd. left.
  - discriminate.
Defined.

(** ** A stale policy digest *)

(** The provenance basis of a process that still has the previous policy. *)
Definition stale_basis : ProvenanceBasis := (dc_Provenance sample_context) <| pb_PolicyDigest := dig "9" |>.
Definition stale_decision : evaluate_error + Decision :=
  Evaluate sample_order (Some create_catalogue) create_story
    (loadLocked (NewStore [create_policy]) (cmd_Target create_story) [])
    (mkContext sample_time sample_time (uid "5") (uid "6") stale_basis "").

(** A policy conflict is decided but never answered: when the policy in the
    provenance of the process differs from that of the store, the evaluator rejects
    the command with a receipt for a policy conflict, but the store refuses the
    decision as invalid, so that the handler fails and no receipt is stored. *)
Theorem stale_policy_unanswered :
  (exists d, stale_decision = inr d /\ rc_OutcomeCode (de_Receipt d) = OutcomeRejectedConflict /\
     rc_ReasonCode (de_Receipt d) = reasonPolicyConflict) /\
  run (Handle (Some create_catalogue) sample_env create_story stale_basis) (NewStore [create_policy])
  = (NewStore [create_policy], inl (CommitFailed invalid_decision)).
Proof.
  split.
  - eexists. split; [vm_compute; reflexivity|]. split; reflexivity.
  - vm_compute. reflexivity.
Qed.
