(* ===== verification/CapabilityPolicy.v ===== *)
(** * The capability policy ([kernel/model_capability_policy.go])

    The decision table the capability fixtures are evaluated with. *)

From S2P Require Import Prelude GoText GoTime Types Payload WorkProfile Assignment Variant.

Definition ModelCapabilityPolicyAction := string.
Definition CapabilityBindProfile : ModelCapabilityPolicyAction := "BIND_PROFILE".
Definition CapabilityAuthorizeAssignment : ModelCapabilityPolicyAction := "AUTHORIZE_ASSIGNMENT".
Definition CapabilityFinalizeReview : ModelCapabilityPolicyAction := "FINALIZE_REVIEW".
Definition CapabilityEscalate : ModelCapabilityPolicyAction := "ESCALATE".
Definition CapabilitySelect : ModelCapabilityPolicyAction := "SELECT".

Record ModelCapabilityPolicyInput := mkCapabilityInput {
  mci_Action : ModelCapabilityPolicyAction;
  mci_ScopeRevision : Z;
  mci_ProfileScopeRevision : Z;
  mci_RequiredRoute : DecisionRoute;
  mci_SelectedRoute : DecisionRoute;
  mci_QualificationStatus : QualificationStatus;
  mci_QualificationRevoked : bool;
  mci_HardConstraintsPass : bool;
  mci_RequiredDimensions : list IndependenceDimension;
  mci_ProvenDimensions : list IndependenceDimension;
  mci_VariantClassification : VariantClassification;
  mci_SubmittedCandidateIDs : list UUIDv7;
  mci_SelectedCandidateID : UUIDv7
}.

Record ModelCapabilityPolicyResult := mkCapabilityResult {
  mcr_Accepted : bool;
  mcr_Reason : string
}.

Definition containsIndependenceDimension (values : list IndependenceDimension)
    (target : IndependenceDimension) : bool := existsb (fun value => value == target) values.

Definition capabilityContainsUUID (values : list UUIDv7) (target : UUIDv7) : bool :=
  existsb (fun value => value == target) values.

Definition EvaluateModelCapabilityPolicy (input : ModelCapabilityPolicyInput)
    : ModelCapabilityPolicyResult :=
  let reject reason := mkCapabilityResult false reason in
  let accept := mkCapabilityResult true "ACCEPTED" in
  let action := mci_Action input in
  if action == CapabilityBindProfile then
    when (mci_ScopeRevision input =? 0)
        || negb (mci_ProfileScopeRevision input =? mci_ScopeRevision input)
      return reject "STALE_WORK_PROFILE" ;;
    accept
  else if action == CapabilityAuthorizeAssignment then
    when mci_QualificationRevoked input return reject "QUALIFICATION_REVOKED" ;;
    when mci_QualificationStatus input != QualificationPass return reject "QUALIFICATION_NOT_PASSING" ;;
    when negb (mci_HardConstraintsPass input) return reject "HARD_CONSTRAINT_FAILED" ;;
    when negb (Satisfies (mci_SelectedRoute input) (mci_RequiredRoute input))
      return reject "CAPABILITY_MISMATCH" ;;
    accept
  else if action == CapabilityFinalizeReview then
    when existsb (fun required => negb (containsIndependenceDimension (mci_ProvenDimensions input) required))
           (mci_RequiredDimensions input)
      return reject "INDEPENDENCE_NOT_PROVEN" ;;
    accept
  else if action == CapabilityEscalate then
    when mci_VariantClassification input != VariantMaterialDisagreement
      return reject "ESCALATION_NOT_REQUIRED" ;;
    mkCapabilityResult true "ESCALATION_REQUIRED"
  else if action == CapabilitySelect then
    when mci_VariantClassification input == VariantMaterialDisagreement
      return reject "MATERIAL_DISAGREEMENT" ;;
    when negb (capabilityContainsUUID (mci_SubmittedCandidateIDs input) (mci_SelectedCandidateID input))
      return reject "CANDIDATE_NOT_SUBMITTED" ;;
    accept
  else reject "UNKNOWN_ACTION".
