(* ===== verification/Workflow.v ===== *)
(** * Workflow definitions and instances ([kernel/workflow.go])

    A definition is a versioned graph of stages, identified by the SHA-256 of
    its JSON text; an instance is a graph of nodes, each working for one stage.
    The whole file is translated: validation of definitions and instances, the
    ready frontier, the expansion of a placeholder node, the fold of recorded
    transitions.

    An error of a function that has one error only is [false]; the others return
    a sum. A pointer into the node slice is the index of the node with its value,
    and a write through it replaces that entry. *)

From S2P Require Import Prelude GoText GoTime GoJson GoJsonLaws GoMarshal GoMarshalLaws Types Sha256 Dag Fingerprint Assignment.

Definition WorkflowDefinitionSchemaVersion : string := "1.0.0".

Inductive WorkflowError :=
| ErrInvalidWorkflowInstance
| ErrInvalidWorkflowTransition.

(** [^\[a-z0-9\](?:\[a-z0-9.-\]{0,126}\[a-z0-9\])?$] *)
Definition workflowNamePattern : re :=
  RSeq (RClass is_alnum)
    (ROpt (RSeq (RRep 0 126 (RClass (fun c => is_alnum c || (c == "."%char) || (c == "-"%char))))
      (RClass is_alnum))).

Definition digits : re := RSeq (RClass is_digit) (RStar (RClass is_digit)).

(** [^\[0-9\]+\.\[0-9\]+\.\[0-9\]+$] *)
Definition semanticVersionPattern : re :=
  RSeq digits (RSeq (RChar ".") (RSeq digits (RSeq (RChar ".") digits))).

(** ** Enumerations *)

Definition WorkflowPurpose := string.
Definition WorkflowPurposeHandoff : WorkflowPurpose := "HANDOFF".
Definition WorkflowPurposeImplementation : WorkflowPurpose := "IMPLEMENTATION".
Definition WorkflowPurposeValidation : WorkflowPurpose := "VALIDATION".
Definition WorkflowPurposeReview : WorkflowPurpose := "REVIEW".
Definition WorkflowPurposeRepair : WorkflowPurpose := "REPAIR".
Definition WorkflowPurposeReplan : WorkflowPurpose := "REPLAN".
Definition WorkflowPurposePromotion : WorkflowPurpose := "PROMOTION".

Definition WorkflowPurpose_Valid (purpose : WorkflowPurpose) : bool :=
  contains [WorkflowPurposeHandoff; WorkflowPurposeImplementation; WorkflowPurposeValidation;
    WorkflowPurposeReview; WorkflowPurposeRepair; WorkflowPurposeReplan; WorkflowPurposePromotion]
    purpose.

Definition WorkflowRisk := string.
Definition WorkflowRiskLow : WorkflowRisk := "LOW".
Definition WorkflowRiskModerate : WorkflowRisk := "MODERATE".
Definition WorkflowRiskHigh : WorkflowRisk := "HIGH".
Definition WorkflowRiskCritical : WorkflowRisk := "CRITICAL".

Definition WorkflowRisk_Valid (risk : WorkflowRisk) : bool :=
  (risk == WorkflowRiskLow) || (risk == WorkflowRiskModerate) || (risk == WorkflowRiskHigh)
  || (risk == WorkflowRiskCritical).

Definition WorkflowTargetSelection := string.
Definition WorkflowTargetExactActor : WorkflowTargetSelection := "EXACT_ACTOR".
Definition WorkflowTargetCapability : WorkflowTargetSelection := "CAPABILITY".
Definition WorkflowTargetOperator : WorkflowTargetSelection := "OPERATOR".
Definition WorkflowTargetNone : WorkflowTargetSelection := "NONE".

Definition WorkflowTargetSelection_Valid (selection : WorkflowTargetSelection) : bool :=
  (selection == WorkflowTargetExactActor) || (selection == WorkflowTargetCapability)
  || (selection == WorkflowTargetOperator) || (selection == WorkflowTargetNone).

Definition WorkflowValidationPolicy := string.
Definition WorkflowValidationDeterministic : WorkflowValidationPolicy := "DETERMINISTIC_ONLY".
Definition WorkflowValidationRiskSelected : WorkflowValidationPolicy := "RISK_SELECTED".
Definition WorkflowValidationSpecialized : WorkflowValidationPolicy := "SPECIALIZED".
Definition WorkflowValidationOperatorApproved : WorkflowValidationPolicy := "OPERATOR_APPROVED".

Definition WorkflowValidationPolicy_Valid (policy : WorkflowValidationPolicy) : bool :=
  (policy == WorkflowValidationDeterministic) || (policy == WorkflowValidationRiskSelected)
  || (policy == WorkflowValidationSpecialized) || (policy == WorkflowValidationOperatorApproved).

(** ** Definitions *)

(** A string slice whose [nil] value marshals as [null] and whose empty value
    marshals as [\[\]]. *)
Definition strings := option (list string).
Definition els (s : strings) : list string := match s with Some l => l | None => [] end.

Record WorkflowBudgetLimits := mkWorkflowBudgetLimits {
  wl_MaximumModelInvocations : Z;
  wl_MaximumHops : Z;
  wl_MaximumAttempts : Z;
  wl_MaximumTokens : Z;
  wl_MaximumElapsedSeconds : Z
}.

#[export] Instance eta_WorkflowBudgetLimits : Eta WorkflowBudgetLimits := fun r =>
  mkWorkflowBudgetLimits
    (wl_MaximumModelInvocations r) (wl_MaximumHops r) (wl_MaximumAttempts r)
    (wl_MaximumTokens r) (wl_MaximumElapsedSeconds r).

Definition zero_WorkflowBudgetLimits : WorkflowBudgetLimits :=
  mkWorkflowBudgetLimits
    0 0 0 0 0.

Definition WorkflowBudgetLimits_Valid (limits : WorkflowBudgetLimits) : bool :=
  (0 <? wl_MaximumHops limits) && (0 <? wl_MaximumAttempts limits).

Record WorkflowStageDefinition := mkWorkflowStageDefinition {
  ws_StageID : string;
  ws_Optional : bool;
  ws_DependsOn : strings;
  ws_InputSchema : string;
  ws_OutputSchema : string;
  ws_RequiredCapabilities : strings;
  ws_PreferredFQRNs : list string;
  ws_Purpose : WorkflowPurpose;
  ws_Risk : WorkflowRisk;
  ws_ComplexityMinimum : Z;
  ws_ComplexityMaximum : Z;
  ws_ConcurrencyGroup : string;
  ws_MaximumParallelism : Z;
  ws_AttemptLimit : Z;
  ws_ReviewRoundLimit : Z;
  ws_TimeoutSeconds : Z;
  ws_TokenBudget : Z;
  ws_AllowedOutgoingPurposes : strings;
  ws_TargetSelection : WorkflowTargetSelection;
  ws_ValidationPolicy : WorkflowValidationPolicy;
  ws_CompletionCondition : string;
  ws_FailureCondition : string
}.

#[export] Instance eta_WorkflowStageDefinition : Eta WorkflowStageDefinition := fun r =>
  mkWorkflowStageDefinition
    (ws_StageID r) (ws_Optional r) (ws_DependsOn r) (ws_InputSchema r) (ws_OutputSchema r)
    (ws_RequiredCapabilities r) (ws_PreferredFQRNs r) (ws_Purpose r) (ws_Risk r)
    (ws_ComplexityMinimum r) (ws_ComplexityMaximum r) (ws_ConcurrencyGroup r)
    (ws_MaximumParallelism r) (ws_AttemptLimit r) (ws_ReviewRoundLimit r)
    (ws_TimeoutSeconds r) (ws_TokenBudget r) (ws_AllowedOutgoingPurposes r)
    (ws_TargetSelection r) (ws_ValidationPolicy r) (ws_CompletionCondition r)
    (ws_FailureCondition r).

Definition zero_WorkflowStageDefinition : WorkflowStageDefinition :=
  mkWorkflowStageDefinition
    "" false None "" "" None [] "" "" 0 0 "" 0 0 0 0 0 None "" "" "" "".

(** Neither loop stops early in a way that shows: the first bad entry decides. *)
Fixpoint ascending (previous : string) (values : list string) : bool :=
  match values with
  | [] => true
  | value :: rest =>
    if (value == "") || negb (str_ltb previous value) then false else ascending value rest
  end.

Definition sortedUniqueStrings (values : list string) (allowEmpty : bool) : bool :=
  match values with
  | [] => allowEmpty
  | value :: rest => (value != "") && ascending value rest
  end.

(** [PreferredFQRNs\[index\] <= PreferredFQRNs\[index-1\]] refuses the stage. *)
Fixpoint ascending_roles (values : list string) : bool :=
  match values with
  | a :: ((b :: _) as rest) => if negb (str_ltb a b) then false else ascending_roles rest
  | _ => true
  end.

Definition WorkflowStageDefinition_valid (stage : WorkflowStageDefinition) : bool :=
  when negb (re_match workflowNamePattern (ws_StageID stage)) || (ws_InputSchema stage == "")
      || (1024 <? slen (ws_InputSchema stage)) || (ws_OutputSchema stage == "")
      || (1024 <? slen (ws_OutputSchema stage)) || negb (WorkflowPurpose_Valid (ws_Purpose stage))
      || negb (WorkflowRisk_Valid (ws_Risk stage))
      || negb (re_match workflowNamePattern (ws_ConcurrencyGroup stage))
      || (ws_MaximumParallelism stage =? 0) || (1024 <? ws_MaximumParallelism stage)
      || (ws_AttemptLimit stage =? 0) || (32 <? ws_AttemptLimit stage)
      || (16 <? ws_ReviewRoundLimit stage) || (604800 <? ws_TimeoutSeconds stage)
      || negb (WorkflowTargetSelection_Valid (ws_TargetSelection stage))
      || negb (WorkflowValidationPolicy_Valid (ws_ValidationPolicy stage))
      || (4096 <? slen (ws_CompletionCondition stage)) || (4096 <? slen (ws_FailureCondition stage))
    return false ;;
  when (5 <? ws_ComplexityMinimum stage) || (5 <? ws_ComplexityMaximum stage)
      || (0 <? ws_ComplexityMinimum stage) && (0 <? ws_ComplexityMaximum stage)
         && (ws_ComplexityMaximum stage <? ws_ComplexityMinimum stage)
    return false ;;
  when (255 <? llen (els (ws_DependsOn stage))) || (64 <? llen (els (ws_RequiredCapabilities stage)))
      || (32 <? llen (ws_PreferredFQRNs stage)) || (5 <? llen (els (ws_AllowedOutgoingPurposes stage)))
      || negb (sortedUniqueStrings (els (ws_DependsOn stage)) true)
      || negb (sortedUniqueStrings (els (ws_RequiredCapabilities stage)) false)
      || negb (sortedUniqueStrings (els (ws_AllowedOutgoingPurposes stage)) true)
    return false ;;
  when negb (forallb (re_match workflowNamePattern) (els (ws_RequiredCapabilities stage))) return false ;;
  when negb (forallb RoleFQRN_Valid (ws_PreferredFQRNs stage)) return false ;;
  when negb (ascending_roles (ws_PreferredFQRNs stage)) return false ;;
  when negb (forallb (contains ["REQUEST"; "HANDOFF"; "EVIDENCE"; "RESPONSE"; "NOTIFICATION"])
              (els (ws_AllowedOutgoingPurposes stage))) return false ;;
  true.

(** A definition needs a stage to be valid, so the [null] a [nil] stage slice
    would marshal to is not told from [\[\]]. *)
Record WorkflowDefinition := mkWorkflowDefinition {
  wd_SchemaVersion : string;
  wd_Name : string;
  wd_Version : string;
  wd_ContentDigest : Digest;
  wd_TriggerTypes : strings;
  wd_Stages : list WorkflowStageDefinition;
  wd_RootBudgets : WorkflowBudgetLimits;
  wd_ProjectionRules : strings
}.

#[export] Instance eta_WorkflowDefinition : Eta WorkflowDefinition := fun r =>
  mkWorkflowDefinition
    (wd_SchemaVersion r) (wd_Name r) (wd_Version r) (wd_ContentDigest r)
    (wd_TriggerTypes r) (wd_Stages r) (wd_RootBudgets r) (wd_ProjectionRules r).

Definition zero_WorkflowDefinition : WorkflowDefinition :=
  mkWorkflowDefinition
    "" "" "" "" None [] zero_WorkflowBudgetLimits None.

(** ** The digest of a definition *)

Definition json_strings (s : strings) : json :=
  match s with Some l => JArray (map marshal l) | None => JNull end.
Definition omit_text (k v : string) : list (string * json) :=
  if v == "" then [] else [(k, marshal v)].
Definition omit_number (k : string) (v : Z) : list (string * json) :=
  if v =? 0 then [] else [(k, marshal v)].
Definition omit_bool (k : string) (v : bool) : list (string * json) :=
  if v then [(k, marshal v)] else [].
Definition omit_list (k : string) (v : list string) : list (string * json) :=
  match v with [] => [] | _ => [(k, JArray (map marshal v))] end.

Definition json_WorkflowBudgetLimits (l : WorkflowBudgetLimits) : json :=
  obj ([("maximum_model_invocations", marshal (wl_MaximumModelInvocations l));
        ("maximum_hops", marshal (wl_MaximumHops l));
        ("maximum_attempts", marshal (wl_MaximumAttempts l))]
       ++ omit_number "maximum_tokens" (wl_MaximumTokens l)
       ++ omit_number "maximum_elapsed_seconds" (wl_MaximumElapsedSeconds l)).

Definition json_WorkflowStageDefinition (s : WorkflowStageDefinition) : json :=
  obj ([("stage_id", marshal (ws_StageID s))]
       ++ omit_bool "optional" (ws_Optional s)
       ++ [("depends_on", json_strings (ws_DependsOn s));
           ("input_schema", marshal (ws_InputSchema s));
           ("output_schema", marshal (ws_OutputSchema s));
           ("required_capabilities", json_strings (ws_RequiredCapabilities s))]
       ++ omit_list "preferred_fqrns" (ws_PreferredFQRNs s)
       ++ [("purpose", marshal (ws_Purpose s)); ("risk", marshal (ws_Risk s))]
       ++ omit_number "complexity_minimum" (ws_ComplexityMinimum s)
       ++ omit_number "complexity_maximum" (ws_ComplexityMaximum s)
       ++ [("concurrency_group", marshal (ws_ConcurrencyGroup s));
           ("maximum_parallelism", marshal (ws_MaximumParallelism s));
           ("attempt_limit", marshal (ws_AttemptLimit s))]
       ++ omit_number "review_round_limit" (ws_ReviewRoundLimit s)
       ++ omit_number "timeout_seconds" (ws_TimeoutSeconds s)
       ++ omit_number "token_budget" (ws_TokenBudget s)
       ++ [("allowed_outgoing_purposes", json_strings (ws_AllowedOutgoingPurposes s));
           ("target_selection", marshal (ws_TargetSelection s));
           ("validation_policy", marshal (ws_ValidationPolicy s))]
       ++ omit_text "completion_condition" (ws_CompletionCondition s)
       ++ omit_text "failure_condition" (ws_FailureCondition s)).

Definition json_WorkflowDefinition (d : WorkflowDefinition) : json :=
  obj [("schema_version", marshal (wd_SchemaVersion d)); ("name", marshal (wd_Name d));
       ("version", marshal (wd_Version d)); ("content_digest", marshal (wd_ContentDigest d));
       ("trigger_types", json_strings (wd_TriggerTypes d));
       ("stages", JArray (map json_WorkflowStageDefinition (wd_Stages d)));
       ("root_budgets", json_WorkflowBudgetLimits (wd_RootBudgets d));
       ("projection_rules", json_strings (wd_ProjectionRules d))].

(** Marshalling strings, numbers, booleans and slices of them never fails. *)
Definition CalculatedDigest (definition : WorkflowDefinition) : Digest :=
  sha256_hex (render (json_WorkflowDefinition (definition <| wd_ContentDigest := "" |>))).

(** ** Validation of a definition *)

(** The stages in order: their identities, or [None] at the first stage that is
    invalid or repeats an identity. *)
Fixpoint stage_names (known : gset string) (stages : list WorkflowStageDefinition)
    : option (list string) :=
  match stages with
  | [] => Some []
  | stage :: rest =>
    when negb (WorkflowStageDefinition_valid stage) return None ;;
    when bool_decide (ws_StageID stage ∈ known) return None ;;
    try names <- stage_names ({[ws_StageID stage]} ∪ known) rest ;;
    Some (ws_StageID stage :: names)
  end.

Definition stage_edges (stage : WorkflowStageDefinition) : list GraphEdge :=
  map (fun predecessor => mkEdge predecessor (ws_StageID stage)) (els (ws_DependsOn stage)).

Definition dependencies_known (names : list string) (stage : WorkflowStageDefinition) : bool :=
  forallb (fun predecessor => contains names predecessor && (predecessor != ws_StageID stage))
    (els (ws_DependsOn stage)).

Definition WorkflowDefinition_Validate (definition : WorkflowDefinition) : bool :=
  when (wd_SchemaVersion definition != WorkflowDefinitionSchemaVersion)
      || negb (re_match workflowNamePattern (wd_Name definition))
      || negb (re_match semanticVersionPattern (wd_Version definition))
      || negb (Digest_Valid (wd_ContentDigest definition))
      || negb (WorkflowBudgetLimits_Valid (wd_RootBudgets definition))
      || negb (sortedUniqueStrings (els (wd_TriggerTypes definition)) false)
      || (64 <? llen (els (wd_TriggerTypes definition)))
      || negb (sortedUniqueStrings (els (wd_ProjectionRules definition)) true)
      || (64 <? llen (els (wd_ProjectionRules definition)))
      || (llen (wd_Stages definition) =? 0) || (256 <? llen (wd_Stages definition))
    return false ;;
  when negb (forallb (fun trigger => negb (256 <? slen trigger)) (els (wd_TriggerTypes definition)))
    return false ;;
  when negb (forallb (contains ["FEATURE"; "STORY"; "TASK"; "MESSAGE"; "STATUS"])
              (els (wd_ProjectionRules definition)))
    return false ;;
  when CalculatedDigest definition != wd_ContentDigest definition return false ;;
  match stage_names ∅ (wd_Stages definition) with
  | None => false
  | Some nodes =>
    when negb (forallb (dependencies_known nodes) (wd_Stages definition)) return false ;;
    gv_Valid (ValidateDAG nodes (flat_map stage_edges (wd_Stages definition)))
  end.

Definition workflowStageByID (definition : WorkflowDefinition) (stageID : string)
    : option WorkflowStageDefinition :=
  List.find (fun stage => ws_StageID stage == stageID) (wd_Stages definition).

Definition workflowStageExists (definition : WorkflowDefinition) (stageID : string) : bool :=
  existsb (fun stage => ws_StageID stage == stageID) (wd_Stages definition).

Definition workflowSkippableStage (definition : WorkflowDefinition) (stageID : string) : bool :=
  match workflowStageByID definition stageID with Some stage => ws_Optional stage | None => false end.

(** ** Instances *)

Definition WorkflowInstanceState := string.
Definition WorkflowPending : WorkflowInstanceState := "PENDING".
Definition WorkflowActive : WorkflowInstanceState := "ACTIVE".
Definition WorkflowBlocked : WorkflowInstanceState := "BLOCKED".
Definition WorkflowCompleted : WorkflowInstanceState := "COMPLETED".
Definition WorkflowFailed : WorkflowInstanceState := "FAILED".
Definition WorkflowCancelled : WorkflowInstanceState := "CANCELLED".

Definition WorkflowInstanceState_terminal (state : WorkflowInstanceState) : bool :=
  (state == WorkflowCompleted) || (state == WorkflowFailed) || (state == WorkflowCancelled).

Definition WorkflowInstanceState_Valid (state : WorkflowInstanceState) : bool :=
  (state == WorkflowPending) || (state == WorkflowActive) || (state == WorkflowBlocked)
  || (state == WorkflowCompleted) || (state == WorkflowFailed) || (state == WorkflowCancelled).

Definition WorkflowNodeState := string.
Definition WorkflowNodePending : WorkflowNodeState := "PENDING".
Definition WorkflowNodeReady : WorkflowNodeState := "READY".
Definition WorkflowNodeAdmitted : WorkflowNodeState := "ADMITTED".
Definition WorkflowNodeRunning : WorkflowNodeState := "RUNNING".
Definition WorkflowNodeBlocked : WorkflowNodeState := "BLOCKED".
Definition WorkflowNodeCompleted : WorkflowNodeState := "COMPLETED".
Definition WorkflowNodeSkipped : WorkflowNodeState := "SKIPPED".
Definition WorkflowNodeFailed : WorkflowNodeState := "FAILED".
Definition WorkflowNodeCancelled : WorkflowNodeState := "CANCELLED".

Definition WorkflowNodeState_Valid (state : WorkflowNodeState) : bool :=
  contains [WorkflowNodePending; WorkflowNodeReady; WorkflowNodeAdmitted; WorkflowNodeRunning;
    WorkflowNodeBlocked; WorkflowNodeCompleted; WorkflowNodeSkipped; WorkflowNodeFailed;
    WorkflowNodeCancelled] state.

Definition WorkflowFailureClassification := string.
Definition WorkflowFailureNone : WorkflowFailureClassification := "NONE".
Definition WorkflowFailureRecoverableTransport : WorkflowFailureClassification := "RECOVERABLE_TRANSPORT".
Definition WorkflowFailureCorrectableWork : WorkflowFailureClassification := "CORRECTABLE_WORK".
Definition WorkflowFailureTerminalPolicy : WorkflowFailureClassification := "TERMINAL_POLICY".
Definition WorkflowFailureCancelled : WorkflowFailureClassification := "CANCELLED".

Definition WorkflowFailureClassification_Valid (c : WorkflowFailureClassification) : bool :=
  contains [WorkflowFailureNone; WorkflowFailureRecoverableTransport; WorkflowFailureCorrectableWork;
    WorkflowFailureTerminalPolicy; WorkflowFailureCancelled] c.

Record WorkflowNode := mkWorkflowNode {
  wn_NodeID : UUIDv7;
  wn_StageID : string;
  wn_PredecessorNodeIDs : list UUIDv7;
  wn_State : WorkflowNodeState;
  wn_Attempt : Z;
  wn_ActorFQN : option ActorFQN;
  wn_InvocationID : option UUIDv7;
  wn_InputEvidenceIDs : list UUIDv7;
  wn_OutputEvidenceIDs : list UUIDv7;
  wn_ProgressDigest : option Digest;
  wn_CheckpointID : option UUIDv7;
  wn_FailureClassification : WorkflowFailureClassification;
  wn_ContinuationNodeID : option UUIDv7;
  wn_BlockedFrom : option WorkflowNodeState
}.

#[export] Instance eta_WorkflowNode : Eta WorkflowNode := fun r =>
  mkWorkflowNode
    (wn_NodeID r) (wn_StageID r) (wn_PredecessorNodeIDs r) (wn_State r) (wn_Attempt r)
    (wn_ActorFQN r) (wn_InvocationID r) (wn_InputEvidenceIDs r) (wn_OutputEvidenceIDs r)
    (wn_ProgressDigest r) (wn_CheckpointID r) (wn_FailureClassification r)
    (wn_ContinuationNodeID r) (wn_BlockedFrom r).

Definition zero_WorkflowNode : WorkflowNode :=
  mkWorkflowNode
    "" "" [] "" 0 None None [] [] None None "" None None.

Record WorkflowInstance := mkWorkflowInstance {
  wi_SchemaVersion : string;
  wi_InstanceID : UUIDv7;
  wi_Revision : Z;
  wi_DefinitionName : string;
  wi_DefinitionVersion : string;
  wi_DefinitionDigest : Digest;
  wi_RootRequest : AggregateRef;
  wi_BudgetAccountID : UUIDv7;
  wi_State : WorkflowInstanceState;
  wi_Nodes : list WorkflowNode;
  wi_ProposedMessageIDs : list UUIDv7;
  wi_AcceptedMessageIDs : list UUIDv7;
  wi_LastEventID : option UUIDv7
}.

#[export] Instance eta_WorkflowInstance : Eta WorkflowInstance := fun r =>
  mkWorkflowInstance
    (wi_SchemaVersion r) (wi_InstanceID r) (wi_Revision r) (wi_DefinitionName r)
    (wi_DefinitionVersion r) (wi_DefinitionDigest r) (wi_RootRequest r)
    (wi_BudgetAccountID r) (wi_State r) (wi_Nodes r) (wi_ProposedMessageIDs r)
    (wi_AcceptedMessageIDs r) (wi_LastEventID r).

Definition zero_WorkflowInstance : WorkflowInstance :=
  mkWorkflowInstance
    "" "" 0 "" "" "" zero_ref "" "" [] [] [] None.

Definition node_in (nodes : list WorkflowNode) (id : UUIDv7) : option (nat * WorkflowNode) :=
  list_find (fun node => wn_NodeID node = id) nodes.

Definition workflowNodeByID (instance : WorkflowInstance) (id : UUIDv7)
    : option (nat * WorkflowNode) :=
  node_in (wi_Nodes instance) id.

Definition workflowValidUUIDSet (values : list UUIDv7) : bool := check_unique UUIDv7_Valid ∅ values.

(** ** Readiness *)

Definition node_state_in (nodes : list WorkflowNode) (states : list WorkflowNodeState) (id : UUIDv7)
    : bool :=
  match node_in nodes id with
  | Some (_, node) => contains states (wn_State node)
  | None => false
  end.

Definition predecessorsCompleted (instance : WorkflowInstance) (node : WorkflowNode) : bool :=
  forallb (node_state_in (wi_Nodes instance) [WorkflowNodeCompleted]) (wn_PredecessorNodeIDs node).

Definition recovery_purpose (purpose : WorkflowPurpose) : bool :=
  (purpose == WorkflowPurposeRepair) || (purpose == WorkflowPurposeReplan).

Definition predecessorsSatisfied (definition : WorkflowDefinition) (instance : WorkflowInstance)
    (node : WorkflowNode) : bool :=
  match workflowStageByID definition (wn_StageID node) with
  | None => predecessorsCompleted instance node
  | Some stage =>
    when ws_Optional stage
      return forallb (node_state_in (wi_Nodes instance) [WorkflowNodeCompleted; WorkflowNodeSkipped])
               (wn_PredecessorNodeIDs node) ;;
    when negb (recovery_purpose (ws_Purpose stage)) return predecessorsCompleted instance node ;;
    when llen (wn_PredecessorNodeIDs node) =? 0 return false ;;
    when negb (forallb (node_state_in (wi_Nodes instance) [WorkflowNodeCompleted; WorkflowNodeFailed])
                (wn_PredecessorNodeIDs node)) return false ;;
    existsb (node_state_in (wi_Nodes instance) [WorkflowNodeFailed]) (wn_PredecessorNodeIDs node)
  end.

(** ** Validation of an instance *)

(** What the first loop over the nodes gathers. *)
Record NodeTally := mkTally {
  nt_knownNodes : gset UUIDv7;
  nt_stageCounts : gmap string Z;
  nt_nodeNames : list string;
  nt_completedNodes : Z;
  nt_skippedNodes : Z;
  nt_failedNodes : Z;
  nt_cancelledNodes : Z;
  nt_blockedNodes : Z
}.

#[export] Instance eta_NodeTally : Eta NodeTally := fun t =>
  mkTally (nt_knownNodes t) (nt_stageCounts t) (nt_nodeNames t) (nt_completedNodes t)
    (nt_skippedNodes t) (nt_failedNodes t) (nt_cancelledNodes t) (nt_blockedNodes t).

Definition zero_tally : NodeTally := mkTally ∅ ∅ [] 0 0 0 0 0.

Definition count_state (state : WorkflowNodeState) (t : NodeTally) : NodeTally :=
  if state == WorkflowNodeCompleted then t <| nt_completedNodes := nt_completedNodes t + 1 |>
  else if state == WorkflowNodeSkipped then t <| nt_skippedNodes := nt_skippedNodes t + 1 |>
  else if state == WorkflowNodeFailed then t <| nt_failedNodes := nt_failedNodes t + 1 |>
  else if state == WorkflowNodeCancelled then t <| nt_cancelledNodes := nt_cancelledNodes t + 1 |>
  else if state == WorkflowNodeBlocked then t <| nt_blockedNodes := nt_blockedNodes t + 1 |>
  else t.

Definition node_fields_valid (node : WorkflowNode) : bool :=
  negb (negb (UUIDv7_Valid (wn_NodeID node)) || negb (re_match workflowNamePattern (wn_StageID node))
    || negb (WorkflowNodeState_Valid (wn_State node))
    || negb (WorkflowFailureClassification_Valid (wn_FailureClassification node))
    || (255 <? llen (wn_PredecessorNodeIDs node)) || (1024 <? llen (wn_InputEvidenceIDs node))
    || (1024 <? llen (wn_OutputEvidenceIDs node))
    || negb (workflowValidUUIDSet (wn_PredecessorNodeIDs node))
    || negb (workflowValidUUIDSet (wn_InputEvidenceIDs node))
    || negb (workflowValidUUIDSet (wn_OutputEvidenceIDs node))).

Definition add_node (t : NodeTally) (node : WorkflowNode) : NodeTally :=
  count_state (wn_State node)
    (t <| nt_knownNodes := {[wn_NodeID node]} ∪ nt_knownNodes t |>
       <| nt_stageCounts := <[wn_StageID node := mget 0 (wn_StageID node) (nt_stageCounts t) + 1]>
            (nt_stageCounts t) |>
       <| nt_nodeNames := nt_nodeNames t ++ [wn_NodeID node] |>).

Fixpoint tally_nodes (definition : WorkflowDefinition) (t : NodeTally) (nodes : list WorkflowNode)
    : option NodeTally :=
  match nodes with
  | [] => Some t
  | node :: rest =>
    when negb (node_fields_valid node) return None ;;
    when bool_decide (wn_NodeID node ∈ nt_knownNodes t) return None ;;
    when is_nil (workflowStageByID definition (wn_StageID node)) return None ;;
    tally_nodes definition (add_node t node) rest
  end.

(** The checks of the second loop on the predecessors of a node. *)
Definition predecessor_valid (definition : WorkflowDefinition) (nodes : list WorkflowNode)
    (known : gset UUIDv7) (node : WorkflowNode) (predecessor : UUIDv7) : bool :=
  when negb (bool_decide (predecessor ∈ known)) || (predecessor == wn_NodeID node) return false ;;
  match node_in nodes predecessor with
  | None => false
  | Some (_, predecessorNode) =>
    (wn_StageID predecessorNode == wn_StageID node)
    || match workflowStageByID definition (wn_StageID node) with
       | Some stage => contains (els (ws_DependsOn stage)) (wn_StageID predecessorNode)
       | None => false
       end
  end.

Definition pointer_valid {A} (valid : A -> bool) (p : option A) : bool :=
  match p with Some x => valid x | None => true end.

Definition unassigned (node : WorkflowNode) : bool :=
  is_nil (wn_ActorFQN node) && is_nil (wn_InvocationID node) && (wn_Attempt node =? 0).
Definition assigned (node : WorkflowNode) : bool :=
  negb (is_nil (wn_ActorFQN node) || is_nil (wn_InvocationID node) || (wn_Attempt node =? 0)).

(** [node.BlockedFrom] names a state the node can resume. *)
Definition blocked_from_valid (node : WorkflowNode) : bool :=
  match wn_BlockedFrom node with
  | None => wn_State node != WorkflowNodeBlocked
  | Some from =>
    WorkflowNodeState_Valid from && (from != WorkflowNodeBlocked) && (wn_State node == WorkflowNodeBlocked)
    && (negb ((from == WorkflowNodeAdmitted) || (from == WorkflowNodeRunning)) || assigned node)
    && (negb (from == WorkflowNodeReady) || unassigned node)
  end.

(** The state of a node against its other fields. *)
Definition node_state_valid (definition : WorkflowDefinition) (instance : WorkflowInstance)
    (node : WorkflowNode) : bool :=
  when contains [WorkflowNodeAdmitted; WorkflowNodeRunning; WorkflowNodeCompleted; WorkflowNodeFailed]
         (wn_State node) && negb (assigned node) return false ;;
  when contains [WorkflowNodePending; WorkflowNodeReady; WorkflowNodeSkipped] (wn_State node)
      && negb (unassigned node) return false ;;
  when (wn_State node == WorkflowNodeSkipped)
      && (negb (workflowSkippableStage definition (wn_StageID node))
          || negb (is_nil (wn_ProgressDigest node)) || negb (is_nil (wn_CheckpointID node))
          || negb (is_nil (wn_ContinuationNodeID node)) || (llen (wn_OutputEvidenceIDs node) !=  0)
          || (wn_FailureClassification node != WorkflowFailureNone)) return false ;;
  when (wn_State node == WorkflowNodeReady) && negb (predecessorsSatisfied definition instance node)
      || (wn_State node == WorkflowNodePending) && predecessorsSatisfied definition instance node
    return false ;;
  when (wn_State node == WorkflowNodeFailed)
      && (is_nil (wn_ProgressDigest node) || (wn_FailureClassification node == WorkflowFailureNone)
          || (wn_FailureClassification node == WorkflowFailureCancelled)) return false ;;
  when (wn_State node == WorkflowNodeCancelled)
      && (wn_FailureClassification node != WorkflowFailureCancelled) return false ;;
  true.

Definition node_valid (definition : WorkflowDefinition) (instance : WorkflowInstance)
    (known : gset UUIDv7) (node : WorkflowNode) : bool :=
  when negb (forallb (predecessor_valid definition (wi_Nodes instance) known node)
              (wn_PredecessorNodeIDs node)) return false ;;
  when negb (pointer_valid ActorFQN_Valid (wn_ActorFQN node))
      || negb (pointer_valid UUIDv7_Valid (wn_InvocationID node))
      || negb (pointer_valid Digest_Valid (wn_ProgressDigest node))
      || negb (pointer_valid UUIDv7_Valid (wn_CheckpointID node))
      || negb (pointer_valid UUIDv7_Valid (wn_ContinuationNodeID node)) return false ;;
  when negb (blocked_from_valid node) return false ;;
  node_state_valid definition instance node.

Definition node_edges (node : WorkflowNode) : list GraphEdge :=
  map (fun predecessor => mkEdge predecessor (wn_NodeID node)) (wn_PredecessorNodeIDs node).

(** The state of the instance against the states of its nodes. *)
Definition instance_state_valid (instance : WorkflowInstance) (t : NodeTally) : bool :=
  let settled := nt_completedNodes t + nt_skippedNodes t in
  let total := llen (wi_Nodes instance) in
  when (wi_State instance == WorkflowCompleted) && negb (settled =? total)
      || (settled =? total) && (wi_State instance != WorkflowCompleted) return false ;;
  when (wi_State instance == WorkflowFailed) && (nt_failedNodes t =? 0)
      || (wi_State instance == WorkflowCancelled)
         && negb (nt_completedNodes t + nt_cancelledNodes t =? total)
      || (wi_State instance == WorkflowBlocked) && (nt_blockedNodes t =? 0) return false ;;
  true.

Definition instance_fields_valid (definition : WorkflowDefinition) (instance : WorkflowInstance) : bool :=
  negb (negb (WorkflowDefinition_Validate definition)
    || (wi_SchemaVersion instance != WorkflowDefinitionSchemaVersion)
    || negb (UUIDv7_Valid (wi_InstanceID instance)) || (wi_Revision instance =? 0)
    || (wi_DefinitionName instance != wd_Name definition)
    || (wi_DefinitionVersion instance != wd_Version definition)
    || (wi_DefinitionDigest instance != wd_ContentDigest definition)
    || negb (AggregateRef_Valid (wi_RootRequest instance))
    || negb (UUIDv7_Valid (wi_BudgetAccountID instance))
    || negb (WorkflowInstanceState_Valid (wi_State instance))
    || (llen (wi_Nodes instance) <? llen (wd_Stages definition)) || (4096 <? llen (wi_Nodes instance))
    || (4096 <? llen (wi_ProposedMessageIDs instance)) || (4096 <? llen (wi_AcceptedMessageIDs instance))
    || negb (workflowValidUUIDSet (wi_ProposedMessageIDs instance))
    || negb (workflowValidUUIDSet (wi_AcceptedMessageIDs instance))
    || negb (pointer_valid UUIDv7_Valid (wi_LastEventID instance))).

Definition WorkflowInstance_Validate (instance : WorkflowInstance) (definition : WorkflowDefinition)
    : bool :=
  when negb (instance_fields_valid definition instance) return false ;;
  match tally_nodes definition zero_tally (wi_Nodes instance) with
  | None => false
  | Some t =>
    when existsb (fun stage => mget 0 (ws_StageID stage) (nt_stageCounts t) =? 0) (wd_Stages definition)
      return false ;;
    when negb (forallb (node_valid definition instance (nt_knownNodes t)) (wi_Nodes instance))
      return false ;;
    when negb (gv_Valid (ValidateDAG (nt_nodeNames t) (flat_map node_edges (wi_Nodes instance))))
      return false ;;
    instance_state_valid instance t
  end.

(** ** Creation *)

(** The ranges over the map only reject: their order does not show. *)
Fixpoint initial_nodes (byStage : gmap string UUIDv7) (stages : list WorkflowStageDefinition)
    : option (list WorkflowNode) :=
  match stages with
  | [] => Some []
  | stage :: rest =>
    try nodeID <- byStage !! ws_StageID stage ;;
    let predecessors := map (fun predecessor => mget "" predecessor byStage) (els (ws_DependsOn stage)) in
    let state := if llen predecessors =? 0 then WorkflowNodeReady else WorkflowNodePending in
    try nodes <- initial_nodes byStage rest ;;
    Some (zero_WorkflowNode <| wn_NodeID := nodeID |> <| wn_StageID := ws_StageID stage |>
            <| wn_PredecessorNodeIDs := predecessors |> <| wn_State := state |>
            <| wn_FailureClassification := WorkflowFailureNone |> :: nodes)
  end.

Definition NewWorkflowInstance (definition : WorkflowDefinition) (instanceID : UUIDv7)
    (root : AggregateRef) (budgetAccountID : UUIDv7) (nodeIDs : gmap string UUIDv7)
    : WorkflowError + WorkflowInstance :=
  when negb (WorkflowDefinition_Validate definition) || negb (UUIDv7_Valid instanceID)
      || negb (AggregateRef_Valid root) || negb (UUIDv7_Valid budgetAccountID)
      || negb (Z.of_nat (size nodeIDs) =? llen (wd_Stages definition))
    return inl ErrInvalidWorkflowInstance ;;
  when negb (forallb (fun entry => UUIDv7_Valid (snd entry)) (map_to_list nodeIDs))
    return inl ErrInvalidWorkflowInstance ;;
  match initial_nodes nodeIDs (wd_Stages definition) with
  | None => inl ErrInvalidWorkflowInstance
  | Some nodes =>
    let instance := zero_WorkflowInstance
      <| wi_SchemaVersion := WorkflowDefinitionSchemaVersion |> <| wi_InstanceID := instanceID |>
      <| wi_Revision := 1 |> <| wi_DefinitionName := wd_Name definition |>
      <| wi_DefinitionVersion := wd_Version definition |>
      <| wi_DefinitionDigest := wd_ContentDigest definition |> <| wi_RootRequest := root |>
      <| wi_BudgetAccountID := budgetAccountID |> <| wi_State := WorkflowActive |>
      <| wi_Nodes := nodes |> in
    when negb (WorkflowInstance_Validate instance definition) return inl ErrInvalidWorkflowInstance ;;
    inr instance
  end.

(** ** The ready frontier *)

Definition ReadyNodes (instance : WorkflowInstance) : list WorkflowNode :=
  List.filter (fun node => wn_State node == WorkflowNodeReady) (wi_Nodes instance).

Definition count_group (group : string) (counts : gmap string Z) : gmap string Z :=
  <[group := u32 (mget 0 group counts + 1)]> counts.

Definition active_by_group (definition : WorkflowDefinition) (nodes : list WorkflowNode) : gmap string Z :=
  foldl (fun counts node =>
    when (wn_State node != WorkflowNodeAdmitted) && (wn_State node != WorkflowNodeRunning) return counts ;;
    match workflowStageByID definition (wn_StageID node) with
    | Some stage => count_group (ws_ConcurrencyGroup stage) counts
    | None => counts
    end) ∅ nodes.

Fixpoint admissible (definition : WorkflowDefinition) (active selected : gmap string Z)
    (nodes : list WorkflowNode) : list WorkflowNode :=
  match nodes with
  | [] => []
  | node :: rest =>
    when wn_State node != WorkflowNodeReady return admissible definition active selected rest ;;
    match workflowStageByID definition (wn_StageID node) with
    | None => admissible definition active selected rest
    | Some stage =>
      let group := ws_ConcurrencyGroup stage in
      when ws_MaximumParallelism stage <=? u32 (mget 0 group active + mget 0 group selected)
        return admissible definition active selected rest ;;
      node :: admissible definition active (count_group group selected) rest
    end
  end.

Definition AdmissibleReadyNodes (instance : WorkflowInstance) (definition : WorkflowDefinition)
    : list WorkflowNode :=
  when negb (WorkflowInstance_Validate instance definition) return [] ;;
  admissible definition (active_by_group definition (wi_Nodes instance)) ∅ (wi_Nodes instance).

(** ** Updates of the node slice *)

(** [for index := range nodes]: each entry is examined in the slice as the
    earlier iterations left it. *)
Definition sweep (change : list WorkflowNode -> WorkflowNode -> WorkflowNode) (nodes : list WorkflowNode)
    : list WorkflowNode :=
  foldl (fun nodes index =>
    match nodes !! index with
    | Some node => <[index := change nodes node]> nodes
    | None => nodes
    end) nodes (seq 0 (List.length nodes)).

Definition make_ready (definition : WorkflowDefinition) (instance : WorkflowInstance)
    (nodes : list WorkflowNode) (node : WorkflowNode) : WorkflowNode :=
  if (wn_State node == WorkflowNodePending)
     && predecessorsSatisfied definition (instance <| wi_Nodes := nodes |>) node
  then node <| wn_State := WorkflowNodeReady |> else node.

Definition settled_state (state : WorkflowNodeState) : bool :=
  (state == WorkflowNodeCompleted) || (state == WorkflowNodeSkipped).

(** The loop counts the settled nodes as it goes; it settles none itself. *)
Definition refreshWorkflowReadiness (definition : WorkflowDefinition) (instance : WorkflowInstance)
    : WorkflowInstance :=
  let completed := llen (List.filter (fun node => settled_state (wn_State node)) (wi_Nodes instance)) in
  let instance := instance <| wi_Nodes := sweep (make_ready definition instance) (wi_Nodes instance) |> in
  if completed =? llen (wi_Nodes instance) then instance <| wi_State := WorkflowCompleted |> else instance.

(** ** Expansion of a placeholder *)

Record WorkflowNodeSpec := mkNodeSpec {
  sp_NodeID : UUIDv7;
  sp_PredecessorNodeIDs : list UUIDv7;
  sp_InputEvidenceIDs : list UUIDv7
}.

(** The entries of [replacementIDs] not reached yet are empty; the test reads the
    written prefix only. *)
Fixpoint specs_valid (written : list UUIDv7) (specs : list WorkflowNodeSpec) : bool :=
  match specs with
  | [] => true
  | spec :: rest =>
    when negb (UUIDv7_Valid (sp_NodeID spec)) || negb (workflowValidUUIDSet (sp_PredecessorNodeIDs spec))
        || negb (workflowValidUUIDSet (sp_InputEvidenceIDs spec)) || contains written (sp_NodeID spec)
      return false ;;
    specs_valid (written ++ [sp_NodeID spec]) rest
  end.

Definition node_of_spec (stageID : string) (spec : WorkflowNodeSpec) : WorkflowNode :=
  zero_WorkflowNode <| wn_NodeID := sp_NodeID spec |> <| wn_StageID := stageID |>
    <| wn_PredecessorNodeIDs := sp_PredecessorNodeIDs spec |> <| wn_State := WorkflowNodePending |>
    <| wn_InputEvidenceIDs := sp_InputEvidenceIDs spec |>
    <| wn_FailureClassification := WorkflowFailureNone |>.

Definition replace_id (id : UUIDv7) (replacements ids : list UUIDv7) : list UUIDv7 :=
  flat_map (fun x => if x == id then replacements else [x]) ids.

Definition expand_node (placeholder : WorkflowNode) (specs : list WorkflowNodeSpec) (node : WorkflowNode)
    : list WorkflowNode :=
  when wn_NodeID node == wn_NodeID placeholder
    return map (node_of_spec (wn_StageID placeholder)) specs ;;
  when contains (wn_PredecessorNodeIDs node) (wn_NodeID placeholder)
    return [node <| wn_PredecessorNodeIDs :=
              replace_id (wn_NodeID placeholder) (map sp_NodeID specs) (wn_PredecessorNodeIDs node) |>] ;;
  [node].

Definition ExpandWorkflowNode (definition : WorkflowDefinition) (current : WorkflowInstance)
    (placeholderID eventID : UUIDv7) (specs : list WorkflowNodeSpec) : WorkflowError + WorkflowInstance :=
  when negb (WorkflowInstance_Validate current definition) || negb (UUIDv7_Valid placeholderID)
      || negb (UUIDv7_Valid eventID) || (llen specs =? 0)
      || (4096 <? llen (wi_Nodes current) - 1 + llen specs)
    return inl ErrInvalidWorkflowTransition ;;
  match workflowNodeByID current placeholderID with
  | None => inl ErrInvalidWorkflowTransition
  | Some (_, placeholder) =>
    when (wn_State placeholder != WorkflowNodePending) && (wn_State placeholder != WorkflowNodeReady)
      return inl ErrInvalidWorkflowTransition ;;
    when negb (specs_valid [] specs) return inl ErrInvalidWorkflowTransition ;;
    let nodes := flat_map (expand_node placeholder specs) (wi_Nodes current) in
    let next := current <| wi_Nodes := sweep (make_ready definition current) nodes |>
      <| wi_Revision := u64 (wi_Revision current + 1) |> <| wi_LastEventID := Some eventID |> in
    when negb (WorkflowInstance_Validate next definition) return inl ErrInvalidWorkflowTransition ;;
    inr next
  end.

(** ** Transitions *)

Definition WorkflowTransitionKind := string.
Definition WorkflowTransitionAdmit : WorkflowTransitionKind := "ADMIT".
Definition WorkflowTransitionStart : WorkflowTransitionKind := "START".
Definition WorkflowTransitionComplete : WorkflowTransitionKind := "COMPLETE".
Definition WorkflowTransitionSkip : WorkflowTransitionKind := "SKIP".
Definition WorkflowTransitionFail : WorkflowTransitionKind := "FAIL".
Definition WorkflowTransitionBlock : WorkflowTransitionKind := "BLOCK".
Definition WorkflowTransitionReady : WorkflowTransitionKind := "READY".
Definition WorkflowTransitionCancel : WorkflowTransitionKind := "CANCEL".
Definition WorkflowTransitionCheckpoint : WorkflowTransitionKind := "CHECKPOINT".

Record WorkflowTransition := mkWorkflowTransition {
  wt_Revision : Z;
  wt_EventID : UUIDv7;
  wt_Kind : WorkflowTransitionKind;
  wt_NodeID : UUIDv7;
  wt_ActorFQN : ActorFQN;
  wt_InvocationID : UUIDv7;
  wt_EvidenceIDs : list UUIDv7;
  wt_ProgressDigest : Digest;
  wt_CheckpointID : UUIDv7;
  wt_FailureClassification : WorkflowFailureClassification;
  wt_RecordedAt : Time
}.

#[export] Instance eta_WorkflowTransition : Eta WorkflowTransition := fun r =>
  mkWorkflowTransition
    (wt_Revision r) (wt_EventID r) (wt_Kind r) (wt_NodeID r) (wt_ActorFQN r)
    (wt_InvocationID r) (wt_EvidenceIDs r) (wt_ProgressDigest r) (wt_CheckpointID r)
    (wt_FailureClassification r) (wt_RecordedAt r).

Definition zero_WorkflowTransition : WorkflowTransition :=
  mkWorkflowTransition
    0 "" "" "" "" "" [] "" "" "" zero_time.

(** [node.InvocationID == nil || *node.InvocationID != transition.InvocationID] *)
Definition other_invocation (node : WorkflowNode) (transition : WorkflowTransition) : bool :=
  match wn_InvocationID node with Some id => id != wt_InvocationID transition | None => true end.

Definition cancel_node (node : WorkflowNode) : WorkflowNode :=
  if wn_State node != WorkflowNodeCompleted
  then node <| wn_State := WorkflowNodeCancelled |> <| wn_FailureClassification := WorkflowFailureCancelled |>
  else node.

Definition cancel_transition (instance : WorkflowInstance) : WorkflowInstance :=
  instance <| wi_Nodes := map cancel_node (wi_Nodes instance) |> <| wi_State := WorkflowCancelled |>.

(** One function per case of the switch: [node] is the entry at [index], and
    [None] the error. *)
Definition put_node (instance : WorkflowInstance) (index : nat) (node : WorkflowNode) : WorkflowInstance :=
  instance <| wi_Nodes := <[index := node]> (wi_Nodes instance) |>.

Definition admit_transition (instance : WorkflowInstance) (index : nat) (node : WorkflowNode)
    (transition : WorkflowTransition) : option WorkflowInstance :=
  when (wn_State node != WorkflowNodeReady) || negb (ActorFQN_Valid (wt_ActorFQN transition))
      || negb (UUIDv7_Valid (wt_InvocationID transition)) return None ;;
  Some (put_node instance index
    (node <| wn_State := WorkflowNodeAdmitted |> <| wn_Attempt := u32 (wn_Attempt node + 1) |>
          <| wn_ActorFQN := Some (wt_ActorFQN transition) |>
          <| wn_InvocationID := Some (wt_InvocationID transition) |>)).

Definition start_transition (instance : WorkflowInstance) (index : nat) (node : WorkflowNode)
    (transition : WorkflowTransition) : option WorkflowInstance :=
  when (wn_State node != WorkflowNodeAdmitted) || other_invocation node transition return None ;;
  Some (put_node instance index (node <| wn_State := WorkflowNodeRunning |>)).

Definition complete_transition (definition : WorkflowDefinition) (instance : WorkflowInstance)
    (index : nat) (node : WorkflowNode) (transition : WorkflowTransition) : option WorkflowInstance :=
  when (wn_State node != WorkflowNodeRunning) || other_invocation node transition
      || negb (Digest_Valid (wt_ProgressDigest transition))
      || negb (workflowValidUUIDSet (wt_EvidenceIDs transition)) return None ;;
  Some (refreshWorkflowReadiness definition (put_node instance index
    (node <| wn_State := WorkflowNodeCompleted |> <| wn_OutputEvidenceIDs := wt_EvidenceIDs transition |>
          <| wn_ProgressDigest := Some (wt_ProgressDigest transition) |>
          <| wn_FailureClassification := WorkflowFailureNone |>))).

Definition skip_transition (definition : WorkflowDefinition) (instance : WorkflowInstance)
    (index : nat) (node : WorkflowNode) (transition : WorkflowTransition) : option WorkflowInstance :=
  when (wn_State node != WorkflowNodeReady) || negb (workflowSkippableStage definition (wn_StageID node))
      || (wt_ActorFQN transition != "") || (wt_InvocationID transition != "")
      || (wt_ProgressDigest transition != "") || (wt_CheckpointID transition != "")
      || (wt_FailureClassification transition != "") || negb (llen (wt_EvidenceIDs transition) =? 0)
    return None ;;
  Some (refreshWorkflowReadiness definition (put_node instance index
    (node <| wn_State := WorkflowNodeSkipped |>))).

Definition failed_node (node : WorkflowNode) (transition : WorkflowTransition) : WorkflowNode :=
  node <| wn_State := WorkflowNodeFailed |> <| wn_ProgressDigest := Some (wt_ProgressDigest transition) |>
       <| wn_FailureClassification := wt_FailureClassification transition |>.

Definition fail_transition (definition : WorkflowDefinition) (instance : WorkflowInstance)
    (index : nat) (node : WorkflowNode) (transition : WorkflowTransition) : option WorkflowInstance :=
  when (wn_State node != WorkflowNodeRunning) || other_invocation node transition
      || negb (Digest_Valid (wt_ProgressDigest transition))
      || negb (WorkflowFailureClassification_Valid (wt_FailureClassification transition))
      || (wt_FailureClassification transition == WorkflowFailureNone) return None ;;
  let instance := put_node instance index (failed_node node transition) in
  if wt_FailureClassification transition == WorkflowFailureTerminalPolicy
  then Some (instance <| wi_State := WorkflowFailed |>)
  else Some (refreshWorkflowReadiness definition instance).

Definition block_transition (instance : WorkflowInstance) (index : nat) (node : WorkflowNode)
    : option WorkflowInstance :=
  when (wn_State node != WorkflowNodeReady) && (wn_State node != WorkflowNodeAdmitted)
      && (wn_State node != WorkflowNodeRunning) return None ;;
  Some ((put_node instance index
    (node <| wn_BlockedFrom := Some (wn_State node) |> <| wn_State := WorkflowNodeBlocked |>))
      <| wi_State := WorkflowBlocked |>).

Definition ready_transition (definition : WorkflowDefinition) (instance : WorkflowInstance)
    (index : nat) (node : WorkflowNode) : option WorkflowInstance :=
  match wn_BlockedFrom node with
  | None => None
  | Some from =>
    when (wn_State node != WorkflowNodeBlocked) || negb (predecessorsSatisfied definition instance node)
      return None ;;
    Some ((put_node instance index (node <| wn_State := from |> <| wn_BlockedFrom := None |>))
      <| wi_State := WorkflowActive |>)
  end.

Definition checkpoint_transition (instance : WorkflowInstance) (index : nat) (node : WorkflowNode)
    (transition : WorkflowTransition) : option WorkflowInstance :=
  when (wn_State node != WorkflowNodeAdmitted) && (wn_State node != WorkflowNodeRunning)
      && (wn_State node != WorkflowNodeBlocked) || negb (UUIDv7_Valid (wt_CheckpointID transition))
    return None ;;
  Some (put_node instance index (node <| wn_CheckpointID := Some (wt_CheckpointID transition) |>)).

Definition node_transition (definition : WorkflowDefinition) (instance : WorkflowInstance)
    (index : nat) (node : WorkflowNode) (transition : WorkflowTransition) : option WorkflowInstance :=
  let kind := wt_Kind transition in
  if kind == WorkflowTransitionAdmit then admit_transition instance index node transition
  else if kind == WorkflowTransitionStart then start_transition instance index node transition
  else if kind == WorkflowTransitionComplete then complete_transition definition instance index node transition
  else if kind == WorkflowTransitionSkip then skip_transition definition instance index node transition
  else if kind == WorkflowTransitionFail then fail_transition definition instance index node transition
  else if kind == WorkflowTransitionBlock then block_transition instance index node
  else if kind == WorkflowTransitionReady then ready_transition definition instance index node
  else if kind == WorkflowTransitionCheckpoint then checkpoint_transition instance index node transition
  else None.

Definition applyWorkflowTransition (definition : WorkflowDefinition) (instance : WorkflowInstance)
    (transition : WorkflowTransition) : WorkflowError + WorkflowInstance :=
  when WorkflowInstanceState_terminal (wi_State instance) return inl ErrInvalidWorkflowTransition ;;
  when wt_Kind transition == WorkflowTransitionCancel return inr (cancel_transition instance) ;;
  match workflowNodeByID instance (wt_NodeID transition) with
  | None => inl ErrInvalidWorkflowTransition
  | Some (index, node) =>
    match node_transition definition instance index node transition with
    | Some next => inr next
    | None => inl ErrInvalidWorkflowTransition
    end
  end.

(** One iteration of the fold. *)
Definition fold_transition (definition : WorkflowDefinition) (state : WorkflowInstance)
    (transition : WorkflowTransition) : WorkflowError + WorkflowInstance :=
  when negb (wt_Revision transition =? u64 (wi_Revision state + 1))
      || negb (UUIDv7_Valid (wt_EventID transition)) || IsZero (wt_RecordedAt transition)
    return inl ErrInvalidWorkflowTransition ;;
  call next <- applyWorkflowTransition definition state transition ;;
  inr (next <| wi_Revision := wt_Revision transition |> <| wi_LastEventID := Some (wt_EventID transition) |>).

Fixpoint fold_transitions (definition : WorkflowDefinition) (state : WorkflowInstance)
    (transitions : list WorkflowTransition) : WorkflowError + WorkflowInstance :=
  match transitions with
  | [] => inr state
  | transition :: rest =>
    call next <- fold_transition definition state transition ;; fold_transitions definition next rest
  end.

Definition FoldWorkflowInstance (definition : WorkflowDefinition) (initial : WorkflowInstance)
    (transitions : list WorkflowTransition) : WorkflowError + WorkflowInstance :=
  when negb (WorkflowInstance_Validate initial definition) return inl ErrInvalidWorkflowInstance ;;
  call state <- fold_transitions definition initial transitions ;;
  when negb (WorkflowInstance_Validate state definition) return inl ErrInvalidWorkflowInstance ;;
  inr state.
