(* ===== verification/WorkflowAdmission.v ===== *)
(** * Admission of proposed work ([kernel/workflow_admission.go])

    A proposal names a node of an instance; the evaluation answers it, accepted
    or refused with a reason, and returns the next instance. The facts about the
    actor, the budget, the causation and the changed condition come from the
    caller, as they do in the code. *)

From S2P Require Import Prelude GoText GoTime Types Samples Workflow.

Definition WorkProposalSchemaVersion : string := "1.0.0".

Record WorkProposal := mkWorkProposal {
  wp_SchemaVersion : string;
  wp_ProposalID : UUIDv7;
  wp_MessageID : UUIDv7;
  wp_WorkflowInstanceID : UUIDv7;
  wp_StageID : string;
  wp_NodeID : UUIDv7;
  wp_ActorFQN : ActorFQN;
  wp_Execution : ExecutionTuple;
  wp_BudgetAccountID : UUIDv7;
  wp_CausationEventIDs : list UUIDv7;
  wp_InputEvidenceIDs : list UUIDv7;
  wp_ProposedAt : Time
}.

#[export] Instance eta_WorkProposal : Eta WorkProposal := fun r =>
  mkWorkProposal
    (wp_SchemaVersion r) (wp_ProposalID r) (wp_MessageID r) (wp_WorkflowInstanceID r)
    (wp_StageID r) (wp_NodeID r) (wp_ActorFQN r) (wp_Execution r) (wp_BudgetAccountID r)
    (wp_CausationEventIDs r) (wp_InputEvidenceIDs r) (wp_ProposedAt r).

Definition zero_WorkProposal : WorkProposal :=
  mkWorkProposal
    "" "" "" "" "" "" "" zero_exec "" [] [] zero_time.

Definition WorkProposal_Valid (proposal : WorkProposal) : bool :=
  (wp_SchemaVersion proposal == WorkProposalSchemaVersion) && UUIDv7_Valid (wp_ProposalID proposal)
  && UUIDv7_Valid (wp_MessageID proposal) && UUIDv7_Valid (wp_WorkflowInstanceID proposal)
  && re_match workflowNamePattern (wp_StageID proposal) && UUIDv7_Valid (wp_NodeID proposal)
  && ActorFQN_Valid (wp_ActorFQN proposal) && ExecutionTuple_Valid (wp_Execution proposal)
  && UUIDv7_Valid (wp_BudgetAccountID proposal) && (0 <? llen (wp_CausationEventIDs proposal))
  && (llen (wp_CausationEventIDs proposal) <=? 64) && workflowValidUUIDSet (wp_CausationEventIDs proposal)
  && (llen (wp_InputEvidenceIDs proposal) <=? 1024) && workflowValidUUIDSet (wp_InputEvidenceIDs proposal)
  && negb (IsZero (wp_ProposedAt proposal)).

Definition WorkAdmissionOutcome := string.
Definition WorkAdmitted : WorkAdmissionOutcome := "ADMITTED".
Definition WorkRejected : WorkAdmissionOutcome := "REJECTED".

Definition WorkAdmissionReason := string.
Definition AdmissionAccepted : WorkAdmissionReason := "ADMITTED".
Definition AdmissionUndeclaredTransition : WorkAdmissionReason := "UNDECLARED_TRANSITION".
Definition AdmissionPredecessorIncomplete : WorkAdmissionReason := "PREDECESSOR_INCOMPLETE".
Definition AdmissionDuplicateNode : WorkAdmissionReason := "DUPLICATE_NODE".
Definition AdmissionCausationInvalid : WorkAdmissionReason := "CAUSATION_INVALID".
Definition AdmissionActorIneligible : WorkAdmissionReason := "ACTOR_INELIGIBLE".
Definition AdmissionBudgetExhausted : WorkAdmissionReason := "BUDGET_EXHAUSTED".
Definition AdmissionNoProgress : WorkAdmissionReason := "NO_PROGRESS".
Definition AdmissionWorkflowTerminal : WorkAdmissionReason := "WORKFLOW_TERMINAL".

Record WorkAdmissionResult := mkWorkAdmissionResult {
  ar_SchemaVersion : string;
  ar_ProposalID : UUIDv7;
  ar_WorkflowInstanceID : UUIDv7;
  ar_NodeID : UUIDv7;
  ar_Outcome : WorkAdmissionOutcome;
  ar_ReasonCode : WorkAdmissionReason;
  ar_RecordedEventID : UUIDv7;
  ar_AuthorizedInvocationID : option UUIDv7;
  ar_RecordedAt : Time
}.

#[export] Instance eta_WorkAdmissionResult : Eta WorkAdmissionResult := fun r =>
  mkWorkAdmissionResult
    (ar_SchemaVersion r) (ar_ProposalID r) (ar_WorkflowInstanceID r) (ar_NodeID r)
    (ar_Outcome r) (ar_ReasonCode r) (ar_RecordedEventID r) (ar_AuthorizedInvocationID r)
    (ar_RecordedAt r).

Definition zero_WorkAdmissionResult : WorkAdmissionResult :=
  mkWorkAdmissionResult
    "" "" "" "" "" "" "" None zero_time.

Definition WorkAdmissionResult_Valid (result : WorkAdmissionResult) : bool :=
  when (ar_SchemaVersion result != WorkProposalSchemaVersion) || negb (UUIDv7_Valid (ar_ProposalID result))
      || negb (UUIDv7_Valid (ar_WorkflowInstanceID result)) || negb (UUIDv7_Valid (ar_NodeID result))
      || negb (UUIDv7_Valid (ar_RecordedEventID result)) || IsZero (ar_RecordedAt result)
    return false ;;
  when ar_Outcome result == WorkAdmitted
    return (ar_ReasonCode result == AdmissionAccepted)
           && match ar_AuthorizedInvocationID result with Some id => UUIDv7_Valid id | None => false end ;;
  (ar_Outcome result == WorkRejected) && (ar_ReasonCode result != AdmissionAccepted)
  && is_nil (ar_AuthorizedInvocationID result).

Record WorkflowAdmissionFacts := mkAdmissionFacts {
  af_ActorEligible : bool;
  af_BudgetAvailable : bool;
  af_CausationValid : bool;
  af_ChangedConditionProven : bool
}.

Record WorkflowAdmissionEvaluation := mkAdmissionEvaluation {
  ae_Result : WorkAdmissionResult;
  ae_NextInstance : WorkflowInstance
}.

Definition workflowHasFailedPredecessor (instance : WorkflowInstance) (node : WorkflowNode) : bool :=
  existsb (node_state_in (wi_Nodes instance) [WorkflowNodeFailed]) (wn_PredecessorNodeIDs node).

Definition workflowAdmissionReason (definition : WorkflowDefinition) (current : WorkflowInstance)
    (proposal : WorkProposal) (facts : WorkflowAdmissionFacts) : WorkAdmissionReason :=
  when WorkflowInstanceState_terminal (wi_State current) return AdmissionWorkflowTerminal ;;
  when contains (wi_ProposedMessageIDs current) (wp_MessageID proposal)
      || contains (wi_AcceptedMessageIDs current) (wp_MessageID proposal)
    return AdmissionDuplicateNode ;;
  match workflowNodeByID current (wp_NodeID proposal) with
  | None => AdmissionUndeclaredTransition
  | Some (_, node) =>
    when (wn_StageID node != wp_StageID proposal)
        || negb (workflowStageExists definition (wp_StageID proposal))
      return AdmissionUndeclaredTransition ;;
    when wn_State node == WorkflowNodePending return AdmissionPredecessorIncomplete ;;
    when wn_State node != WorkflowNodeReady return AdmissionDuplicateNode ;;
    when negb (af_CausationValid facts) return AdmissionCausationInvalid ;;
    when negb (af_ActorEligible facts) return AdmissionActorIneligible ;;
    when negb (af_BudgetAvailable facts) return AdmissionBudgetExhausted ;;
    when match workflowStageByID definition (wp_StageID proposal) with
         | Some stage => recovery_purpose (ws_Purpose stage)
                         && workflowHasFailedPredecessor current node
                         && negb (af_ChangedConditionProven facts)
         | None => false
         end
      return AdmissionNoProgress ;;
    AdmissionAccepted
  end.

Definition appendUniqueUUID (values : list UUIDv7) (value : UUIDv7) : list UUIDv7 :=
  if contains values value then values else values ++ [value].

(** The instance after the answer, before its revision is set. *)
Definition admit_proposal (definition : WorkflowDefinition) (next : WorkflowInstance)
    (proposal : WorkProposal) (transition : WorkflowTransition) : option WorkflowInstance :=
  match applyWorkflowTransition definition next transition with
  | inl _ => None
  | inr next => Some (next <| wi_AcceptedMessageIDs :=
                        appendUniqueUUID (wi_AcceptedMessageIDs next) (wp_MessageID proposal) |>)
  end.

(** [None] is [ErrInvalidWorkProposal]. *)
Definition EvaluateWorkflowAdmission (definition : WorkflowDefinition) (current : WorkflowInstance)
    (proposal : WorkProposal) (facts : WorkflowAdmissionFacts)
    (recordedEventID authorizedInvocationID : UUIDv7) (recordedAt : Time)
    : option WorkflowAdmissionEvaluation :=
  when negb (WorkflowDefinition_Validate definition) || negb (WorkflowInstance_Validate current definition)
      || negb (WorkProposal_Valid proposal) || negb (UUIDv7_Valid recordedEventID)
      || negb (UUIDv7_Valid authorizedInvocationID) || IsZero recordedAt
      || (wp_WorkflowInstanceID proposal != wi_InstanceID current)
      || (wp_BudgetAccountID proposal != wi_BudgetAccountID current)
      || After (wp_ProposedAt proposal) recordedAt
    return None ;;
  let reason := workflowAdmissionReason definition current proposal facts in
  let result := zero_WorkAdmissionResult
    <| ar_SchemaVersion := WorkProposalSchemaVersion |> <| ar_ProposalID := wp_ProposalID proposal |>
    <| ar_WorkflowInstanceID := wi_InstanceID current |> <| ar_NodeID := wp_NodeID proposal |>
    <| ar_Outcome := WorkRejected |> <| ar_ReasonCode := reason |>
    <| ar_RecordedEventID := recordedEventID |> <| ar_RecordedAt := recordedAt |> in
  let next := current <| wi_ProposedMessageIDs :=
    appendUniqueUUID (wi_ProposedMessageIDs current) (wp_MessageID proposal) |> in
  let transition := zero_WorkflowTransition
    <| wt_Revision := u64 (wi_Revision current + 1) |> <| wt_EventID := recordedEventID |>
    <| wt_Kind := WorkflowTransitionAdmit |> <| wt_NodeID := wp_NodeID proposal |>
    <| wt_ActorFQN := wp_ActorFQN proposal |> <| wt_InvocationID := authorizedInvocationID |>
    <| wt_RecordedAt := recordedAt |> in
  try answered <-
    (if reason == AdmissionAccepted
     then try next <- admit_proposal definition next proposal transition ;;
          Some (result <| ar_Outcome := WorkAdmitted |>
                       <| ar_AuthorizedInvocationID := Some authorizedInvocationID |>, next)
     else Some (result, next)) ;;
  let '(result, next) := answered in
  let next := next <| wi_Revision := u64 (wi_Revision current + 1) |>
                   <| wi_LastEventID := Some recordedEventID |> in
  when negb (WorkflowInstance_Validate next definition) || negb (WorkAdmissionResult_Valid result)
    return None ;;
  Some (mkAdmissionEvaluation result next).
