(* ===== verification/WorkflowTiming.v ===== *)
(** * Workflow timing and validation selection ([kernel/workflow_efficiency.go])

    Wall-clock times derived from the recorded invocations, and the choice of the
    validation to run. A [time.Duration] is a signed 64-bit count of nanoseconds:
    [Sub] saturates and sums wrap around, as in Go. *)

From S2P Require Import Prelude GoText GoTime Types Samples WorkInvocation Workflow.

Definition Duration := Z.
Definition i64 (z : Z) : Z := (z + 2 ^ 63) mod 2 ^ 64 - 2 ^ 63.

(** [time.Time.Sub]. *)
Definition Sub (t u : Time) : Duration :=
  Z.max (- 2 ^ 63) (Z.min (2 ^ 63 - 1) (t_nanos t - t_nanos u)).

Record WorkflowTiming := mkWorkflowTiming {
  tm_CriticalPathTime : Z;
  tm_DesignWallTime : Z;
  tm_ImplementationWallTime : Z;
  tm_ValidationWallTime : Z;
  tm_AggregateModelTime : Z;
  tm_NonSuccessfulModelTime : Z;
  tm_QueueTime : Z;
  tm_LogicalTaskCount : Z;
  tm_InvocationCount : Z;
  tm_RetryInvocationCount : Z;
  tm_RecoveryInvocationCount : Z;
  tm_NonSuccessfulCount : Z;
  tm_ActiveInvocationCount : Z;
  tm_ModelTokens : option Z;
  tm_EvidenceReused : option Z;
  tm_DuplicateChecksAvoided : option Z;
  tm_PeakParallelism : Z
}.

#[export] Instance eta_WorkflowTiming : Eta WorkflowTiming := fun r =>
  mkWorkflowTiming
    (tm_CriticalPathTime r) (tm_DesignWallTime r) (tm_ImplementationWallTime r)
    (tm_ValidationWallTime r) (tm_AggregateModelTime r) (tm_NonSuccessfulModelTime r)
    (tm_QueueTime r) (tm_LogicalTaskCount r) (tm_InvocationCount r)
    (tm_RetryInvocationCount r) (tm_RecoveryInvocationCount r) (tm_NonSuccessfulCount r)
    (tm_ActiveInvocationCount r) (tm_ModelTokens r) (tm_EvidenceReused r)
    (tm_DuplicateChecksAvoided r) (tm_PeakParallelism r).

Definition zero_WorkflowTiming : WorkflowTiming :=
  mkWorkflowTiming
    0 0 0 0 0 0 0 0 0 0 0 0 0 None None None 0.

Record workflowInterval := mkInterval { in_start : Time; in_end : Time }.

(** ** Spans, unions and peaks *)

Definition workflowSpanDuration (intervals : list workflowInterval) : Duration :=
  match intervals with
  | [] => 0
  | first :: rest =>
    let '(s, e) := foldl (fun '(s, e) interval =>
      (if Before (in_start interval) s then in_start interval else s,
       if After (in_end interval) e then in_end interval else e)) (in_start first, in_end first) rest in
    Sub e s
  end.

Definition interval_less (left right : workflowInterval) : bool :=
  if TimeEqual (in_start left) (in_start right) then Before (in_end left) (in_end right)
  else Before (in_start left) (in_start right).
Definition interval_le (left right : workflowInterval) : Prop := interval_less right left = false.
#[global] Instance interval_le_dec : RelDecision interval_le.
Proof. intros a b. unfold interval_le. apply _. Defined.

Fixpoint union_loop (start finish : Time) (total : Duration) (intervals : list workflowInterval) : Duration :=
  match intervals with
  | [] => i64 (total + Sub finish start)
  | interval :: rest =>
    if negb (After (in_start interval) finish)
    then union_loop start (if After (in_end interval) finish then in_end interval else finish) total rest
    else union_loop (in_start interval) (in_end interval) (i64 (total + Sub finish start)) rest
  end.

Definition unionWorkflowDuration (intervals : list workflowInterval) : Duration :=
  match merge_sort interval_le intervals with
  | [] => 0
  | first :: rest => union_loop (in_start first) (in_end first) 0 rest
  end.

Record boundary := mkBoundary { bd_at : Time; bd_delta : Z }.

Definition boundary_less (left right : boundary) : bool :=
  if TimeEqual (bd_at left) (bd_at right) then bd_delta left <? bd_delta right
  else Before (bd_at left) (bd_at right).
Definition boundary_le (left right : boundary) : Prop := boundary_less right left = false.
#[global] Instance boundary_le_dec : RelDecision boundary_le.
Proof. intros a b. unfold boundary_le. apply _. Defined.

Definition boundaries_of (intervals : list workflowInterval) : list boundary :=
  flat_map (fun interval => [mkBoundary (in_start interval) 1; mkBoundary (in_end interval) (-1)]) intervals.

Definition peak_step (acc : Z * Z) (item : boundary) : Z * Z :=
  let '(current, peak) := acc in
  let current := current + bd_delta item in
  (current, if peak <? current then current else peak).

(** [current] and [peak] are ints: two boundaries per interval keep them small. *)
Definition peakWorkflowParallelism (intervals : list workflowInterval) : Z :=
  u32 (snd (foldl peak_step (0, 0) (merge_sort boundary_le (boundaries_of intervals)))).

(** ** The measurement *)

Record TimingState := mkTimingState {
  ts_result : WorkflowTiming;
  ts_categories : gmap WorkPurpose (list workflowInterval);
  ts_tasks : gset UUIDv7;
  ts_all : list workflowInterval
}.

Definition increment (n : Z) : Z := u32 (n + 1).

Definition unsuccessful (invocation : WorkInvocation) : bool :=
  Terminal (iv_State invocation) && (iv_State invocation != InvocationSucceeded).

(** The counters of one iteration, before its interval. *)
Definition count_invocation (invocation : WorkInvocation) (r : WorkflowTiming) : WorkflowTiming :=
  let r := r <| tm_InvocationCount := increment (tm_InvocationCount r) |> in
  let r := if (1 <? iv_AttemptOrdinal invocation) || negb (is_nil (iv_RetryOfInvocationID invocation))
           then r <| tm_RetryInvocationCount := increment (tm_RetryInvocationCount r) |> else r in
  let r := if (iv_Purpose invocation == PurposeRepair) || (iv_Purpose invocation == PurposeReplan)
           then r <| tm_RecoveryInvocationCount := increment (tm_RecoveryInvocationCount r) |> else r in
  let r := if unsuccessful invocation
           then r <| tm_NonSuccessfulCount := increment (tm_NonSuccessfulCount r) |>
           else if negb (Terminal (iv_State invocation))
           then r <| tm_ActiveInvocationCount := increment (tm_ActiveInvocationCount r) |> else r in
  match iv_ClaimedAt invocation, iv_StartedAt invocation with
  | Some claimed, Some started =>
    if negb (Before started claimed)
    then r <| tm_QueueTime := i64 (tm_QueueTime r + Sub started claimed) |> else r
  | _, _ => r
  end.

Definition invocation_interval (observedAt : Time) (invocation : WorkInvocation) : option workflowInterval :=
  match iv_StartedAt invocation with
  | None => None
  | Some started =>
    let finish := match iv_FinishedAt invocation with Some finished => finished | None => observedAt end in
    when Before finish started return None ;;
    Some (mkInterval started finish)
  end.

Definition measure_step (observedAt : Time) (st : TimingState) (invocation : WorkInvocation) : TimingState :=
  let r := count_invocation invocation (ts_result st) in
  let tasks := if UUIDv7_Valid (iv_TaskID invocation)
               then {[iv_TaskID invocation]} ∪ ts_tasks st else ts_tasks st in
  match invocation_interval observedAt invocation with
  | None => mkTimingState r (ts_categories st) tasks (ts_all st)
  | Some interval =>
    let spent := Sub (in_end interval) (in_start interval) in
    let r := r <| tm_AggregateModelTime := i64 (tm_AggregateModelTime r + spent) |> in
    let r := if unsuccessful invocation
             then r <| tm_NonSuccessfulModelTime := i64 (tm_NonSuccessfulModelTime r + spent) |> else r in
    mkTimingState r
      (<[iv_Purpose invocation := mget [] (iv_Purpose invocation) (ts_categories st) ++ [interval]]>
         (ts_categories st)) tasks (ts_all st ++ [interval])
  end.

Definition category (st : TimingState) (purpose : WorkPurpose) : list workflowInterval :=
  mget [] purpose (ts_categories st).

Definition MeasureWorkflowTiming (invocations : list WorkInvocation) (observedAt : Time) : WorkflowTiming :=
  when IsZero observedAt return zero_WorkflowTiming ;;
  let st := foldl (measure_step observedAt) (mkTimingState zero_WorkflowTiming ∅ ∅ []) invocations in
  (ts_result st)
    <| tm_LogicalTaskCount := u32 (Z.of_nat (size (ts_tasks st))) |>
    <| tm_DesignWallTime := unionWorkflowDuration
         (category st PurposeHandoff ++ category st PurposeReplan ++ category st PurposeInvestigation) |>
    <| tm_ImplementationWallTime := unionWorkflowDuration
         (category st PurposeImplementation ++ category st PurposeRepair) |>
    <| tm_ValidationWallTime := unionWorkflowDuration
         (category st PurposeValidation ++ category st PurposeReview ++ category st PurposePromotion) |>
    <| tm_CriticalPathTime := workflowSpanDuration (ts_all st) |>
    <| tm_PeakParallelism := peakWorkflowParallelism (ts_all st) |>.

(** ** The validation to run *)

Record ValidationTimingDecision := mkTimingDecision {
  vd_AdmitAdditionalValidation : bool;
  vd_AboveTarget : bool;
  vd_AtHardCeiling : bool
}.

Definition EvaluateValidationTiming (timing : WorkflowTiming) : ValidationTimingDecision :=
  let productive := i64 (tm_DesignWallTime timing + tm_ImplementationWallTime timing) in
  when productive <=? 0 return mkTimingDecision false false false ;;
  mkTimingDecision (tm_ValidationWallTime timing <? productive)
    (productive <? i64 (tm_ValidationWallTime timing * 2))
    (productive <=? tm_ValidationWallTime timing).

Record ValidationEvidenceKey := mkEvidenceKey {
  vk_CandidateDigest : Digest;
  vk_CriterionDigest : Digest;
  vk_ToolchainDigest : Digest;
  vk_EnvironmentDigest : Digest
}.
#[global] Instance ValidationEvidenceKey_eq_dec : EqDecision ValidationEvidenceKey.
Proof. solve_decision. Defined.

Definition ValidationEvidenceKey_Valid (key : ValidationEvidenceKey) : bool :=
  Digest_Valid (vk_CandidateDigest key) && Digest_Valid (vk_CriterionDigest key)
  && Digest_Valid (vk_ToolchainDigest key) && Digest_Valid (vk_EnvironmentDigest key).

Record ValidationEvidence := mkValidationEvidence {
  ve_Key : ValidationEvidenceKey;
  ve_EvidenceID : UUIDv7;
  ve_Passed : bool
}.

Record ValidationSelection := mkValidationSelection {
  vs_ReuseEvidence : bool;
  vs_RunDeterministic : bool;
  vs_RunIndependentModel : bool;
  vs_RunSpecialized : bool;
  vs_Reason : string
}.

#[export] Instance eta_ValidationSelection : Eta ValidationSelection := fun r =>
  mkValidationSelection
    (vs_ReuseEvidence r) (vs_RunDeterministic r) (vs_RunIndependentModel r)
    (vs_RunSpecialized r) (vs_Reason r).

Definition zero_ValidationSelection : ValidationSelection :=
  mkValidationSelection
    false false false false "".

Definition SelectValidation (risk : WorkflowRisk) (policy : WorkflowValidationPolicy)
    (key : ValidationEvidenceKey) (existing : option ValidationEvidence) (changedCondition : bool)
    (timing : WorkflowTiming) : ValidationSelection :=
  when negb (WorkflowRisk_Valid risk) || negb (WorkflowValidationPolicy_Valid policy)
      || negb (ValidationEvidenceKey_Valid key)
    return zero_ValidationSelection <| vs_Reason := "INVALID_VALIDATION_REQUEST" |> ;;
  when match existing with
       | Some e => ve_Passed e && (ve_Key e == key) && negb changedCondition
       | None => false
       end
    return zero_ValidationSelection <| vs_ReuseEvidence := true |>
             <| vs_Reason := "UNCHANGED_PASSING_EVIDENCE" |> ;;
  let selection := zero_ValidationSelection <| vs_RunDeterministic := true |>
                     <| vs_Reason := "VALIDATION_SELECTED" |> in
  when vd_AtHardCeiling (EvaluateValidationTiming timing)
    return zero_ValidationSelection <| vs_Reason := "VALIDATION_TIME_CEILING" |> ;;
  if policy == WorkflowValidationRiskSelected
  then selection <| vs_RunIndependentModel :=
         (risk == WorkflowRiskModerate) || (risk == WorkflowRiskHigh) || (risk == WorkflowRiskCritical) |>
  else if policy == WorkflowValidationSpecialized
  then selection <| vs_RunSpecialized := true |>
  else if policy == WorkflowValidationOperatorApproved
  then selection <| vs_Reason := "OPERATOR_APPROVAL_REQUIRED" |>
  else selection.

(** ** Wall time is the measure of the union *)

(** An interval that does not run backwards, inside a window. *)
Definition within (lo hi : Z) (i : workflowInterval) : Prop :=
  lo <= t_nanos (in_start i) <= t_nanos (in_end i) /\ t_nanos (in_end i) <= hi.

Definition contains_instant (i : workflowInterval) (t : Z) : Prop := t_nanos (in_start i) <= t < t_nanos (in_end i).

Lemma i64_id z : - 2 ^ 63 <= z < 2 ^ 63 -> i64 z = z.
Proof. intros H. unfold i64. rewrite Z.mod_small; lia. Qed.

Lemma Sub_exact t u : - 2 ^ 63 <= t_nanos t - t_nanos u < 2 ^ 63 -> Sub t u = t_nanos t - t_nanos u.
Proof. unfold Sub. lia. Qed.

Lemma interval_le_spec a b :
  interval_le a b <-> t_nanos (in_start a) < t_nanos (in_start b) \/
    t_nanos (in_start a) = t_nanos (in_start b) /\ t_nanos (in_end a) <= t_nanos (in_end b).
Proof.
  unfold interval_le, interval_less, TimeEqual, Before.
  destruct (Z.eqb_spec (t_nanos (in_start b)) (t_nanos (in_start a))); rewrite Z.ltb_ge; lia.
Qed.

#[global] Instance interval_le_total : Total interval_le.
Proof. intros a b. rewrite !interval_le_spec. lia. Qed.
#[global] Instance interval_le_trans : Transitive interval_le.
Proof. intros a b c. rewrite !interval_le_spec. lia. Qed.

(** The nanoseconds from [a] to [b], [b] excluded. *)
Lemma seqZ_between a b t : t ∈ seqZ a (b - a) <-> a <= t < b.
Proof. rewrite elem_of_seqZ. lia. Qed.

(** Nanoseconds counted so far, all before the open interval. *)
Record counted (lo : Z) (past : list Z) (start : Z) : Prop := mkCounted {
  cn_once : NoDup past;
  cn_before : forall t, t ∈ past -> t < start;
  cn_size : llen past <= start - lo
}.

Lemma counted_close lo past s e :
  counted lo past s -> s <= e ->
  counted lo (past ++ seqZ s (e - s)) e /\ llen (past ++ seqZ s (e - s)) = llen past + (e - s).
Proof.
  intros [Hn Hb Hs] Hle.
  assert (llen (past ++ seqZ s (e - s)) = llen past + (e - s)) as El.
  { unfold llen. rewrite length_app, length_seqZ. lia. }
  split; [|done]. constructor.
  - apply NoDup_app. split_and!; [done| |apply NoDup_seqZ]. intros t Ht. rewrite seqZ_between. specialize (Hb t Ht). lia.
  - intros t. rewrite elem_of_app, seqZ_between. intros [Ht|Ht]; [specialize (Hb t Ht); lia|lia].
  - lia.
Qed.

Lemma counted_mono lo past s s' : counted lo past s -> s <= s' -> counted lo past s'.
Proof. intros [Hn Hb Hs] Hle. constructor; [done| |lia]. intros t Ht. specialize (Hb t Ht). lia. Qed.

Lemma union_loop_spec lo hi rest : forall s e past,
  hi - lo < 2 ^ 63 -> lo <= t_nanos s <= t_nanos e -> t_nanos e <= hi -> counted lo past (t_nanos s) ->
  Forall (within lo hi) rest -> Forall (fun i => t_nanos s <= t_nanos (in_start i)) rest ->
  StronglySorted interval_le rest ->
  exists covered, NoDup covered /\ union_loop s e (llen past) rest = llen covered /\
    forall t, t ∈ covered <-> t ∈ past \/ t_nanos s <= t < t_nanos e \/ exists i, i ∈ rest /\ contains_instant i t.
Proof.
  induction rest as [|i rest IH]; intros s e past Hw Hse Hhi Hc Hin Hfrom Hsort.
  - destruct (counted_close lo past _ _ Hc (proj2 Hse)) as [[Hn _ Hsz] El]. eexists. split; [exact Hn|]. cbn. split.
    + rewrite Sub_exact, El by (unfold llen in *; lia). apply i64_id. unfold llen in *. lia.
    + intros t. rewrite elem_of_app, seqZ_between. set_solver.
  - apply Forall_cons in Hin as [[Hi1 Hi2] Hin]. apply Forall_cons in Hfrom as [Hfi Hfrom].
    apply StronglySorted_inv in Hsort as [Hsort Hall].
    assert (Forall (fun j => t_nanos (in_start i) <= t_nanos (in_start j)) rest) as Hnext.
    { eapply Forall_impl; [exact Hall|]. intros j Hj. cbn in Hj. apply interval_le_spec in Hj. lia. }
    cbn [union_loop]. unfold After. destruct (Z.ltb_spec (t_nanos e) (t_nanos (in_start i))) as [Hgap|Hmeet]; cbn [negb].
    + destruct (counted_close lo past _ _ Hc (proj2 Hse)) as [Hc' El].
      assert (i64 (llen past + Sub e s) = llen (past ++ seqZ (t_nanos s) (t_nanos e - t_nanos s))) as ->.
      { rewrite El, Sub_exact by lia. apply i64_id. destruct Hc as [_ _ Hsz]. unfold llen in *. lia. }
      destruct (IH (in_start i) (in_end i) (past ++ seqZ (t_nanos s) (t_nanos e - t_nanos s)))
        as (cov & Hn & -> & Hcov); try done; try lia.
      { eapply counted_mono; [exact Hc'|lia]. }
      exists cov. split_and!; [done..|]. intros t. rewrite Hcov, elem_of_app, seqZ_between.
      setoid_rewrite elem_of_cons. unfold contains_instant. naive_solver.
    + set (e' := if t_nanos e <? t_nanos (in_end i) then in_end i else e).
      assert (t_nanos e' = Z.max (t_nanos e) (t_nanos (in_end i))) as Ee.
      { unfold e'. destruct (Z.ltb_spec (t_nanos e) (t_nanos (in_end i))); lia. }
      destruct (IH s e' past) as (cov & Hn & Hlen & Hcov); try done; try lia.
      exists cov. split_and!; [done..|]. intros t. rewrite Hcov, Ee. setoid_rewrite elem_of_cons.
      assert (t_nanos s <= t < Z.max (t_nanos e) (t_nanos (in_end i)) <-> t_nanos s <= t < t_nanos e \/ contains_instant i t) as ->
        by (unfold contains_instant; lia). naive_solver.
Qed.

Lemma merge_sorted {A} (R : A -> A -> Prop) `{!RelDecision R, !Total R, !Transitive R} l :
  StronglySorted R (merge_sort R l).
Proof. apply Sorted_StronglySorted; [apply _|]. apply Sorted_merge_sort. apply _. Qed.

(** The wall time of a category is the number of distinct nanoseconds during
    which some invocation of it ran: overlapping invocations are counted once, in
    whatever order they come, as long as the window they span fits the 64-bit
    duration. *)
Theorem union_counts_covered_time lo hi intervals :
  hi - lo < 2 ^ 63 -> Forall (within lo hi) intervals ->
  exists covered, NoDup covered /\ unionWorkflowDuration intervals = llen covered /\
    forall t, t ∈ covered <-> exists i, i ∈ intervals /\ contains_instant i t.
Proof.
  intros Hw Hin. unfold unionWorkflowDuration. pose proof (merge_sort_Permutation interval_le intervals) as Hp.
  pose proof (merge_sorted interval_le intervals) as Hs.
  destruct (merge_sort interval_le intervals) as [|first rest] eqn:E.
  { apply Permutation_nil_l in Hp as <-. exists []. split_and!; [constructor|done|set_solver]. }
  assert (Forall (within lo hi) (first :: rest)) as Hin' by (by rewrite Hp).
  apply Forall_cons in Hin' as [[H1 H2] Hrest]. apply StronglySorted_inv in Hs as [Hs Hall].
  destruct (union_loop_spec lo hi rest (in_start first) (in_end first) []) as (cov & Hn & Hlen & Hcov); try done.
  { constructor; [constructor|set_solver|]. unfold llen. cbn. lia. }
  { eapply Forall_impl; [exact Hall|]. intros j Hj. cbn in Hj. apply interval_le_spec in Hj. lia. }
  exists cov. split_and!; [done|exact Hlen|]. intros t. rewrite Hcov. setoid_rewrite <- Hp. setoid_rewrite elem_of_cons.
  unfold contains_instant. set_solver.
Qed.

(** ** Peak parallelism is the largest overlap *)

Lemma boundary_le_spec a b :
  boundary_le a b <-> t_nanos (bd_at a) < t_nanos (bd_at b) \/
    t_nanos (bd_at a) = t_nanos (bd_at b) /\ bd_delta a <= bd_delta b.
Proof.
  unfold boundary_le, boundary_less, TimeEqual, Before.
  destruct (Z.eqb_spec (t_nanos (bd_at b)) (t_nanos (bd_at a))); rewrite Z.ltb_ge; lia.
Qed.

#[global] Instance boundary_le_total : Total boundary_le.
Proof. intros a b. rewrite !boundary_le_spec. lia. Qed.
#[global] Instance boundary_le_trans : Transitive boundary_le.
Proof. intros a b c. rewrite !boundary_le_spec. lia. Qed.

Definition deltas (l : list boundary) : Z := foldr (fun b z => bd_delta b + z) 0 l.
Definition reached (t : Z) (b : boundary) : bool := t_nanos (bd_at b) <=? t.

Lemma deltas_nil : deltas [] = 0.
Proof. done. Qed.
Lemma deltas_cons b l : deltas (b :: l) = bd_delta b + deltas l.
Proof. done. Qed.
#[local] Opaque deltas.

Lemma deltas_app l1 l2 : deltas (l1 ++ l2) = deltas l1 + deltas l2.
Proof. induction l1 as [|b l1 IH]; cbn; rewrite ?deltas_cons, ?deltas_nil; lia. Qed.

Lemma deltas_perm l1 l2 : l1 ≡ₚ l2 -> deltas l1 = deltas l2.
Proof. induction 1; rewrite ?deltas_cons; lia. Qed.

(** The loop returns the largest sum of a prefix. *)
Lemma peak_fold l : forall c p, c <= p ->
  let r := foldl peak_step (c, p) l in
  fst r = c + deltas l /\ p <= snd r /\
  (forall before after, l = before ++ after -> c + deltas before <= snd r) /\
  (snd r = p \/ exists before b after, l = before ++ b :: after /\ snd r = c + deltas (before ++ [b]) /\
     c + deltas before < snd r).
Proof.
  induction l as [|b l IH]; intros c p Hcp; cbn zeta.
  { cbn. rewrite deltas_nil. split_and!; [lia|done| |by left]. intros [|] after; [rewrite deltas_nil; lia|done]. }
  set (p' := if p <? c + bd_delta b then c + bd_delta b else p).
  assert (p' = Z.max p (c + bd_delta b)) as Ep by (unfold p'; destruct (Z.ltb_spec p (c + bd_delta b)); lia).
  change (foldl peak_step (c, p) (b :: l)) with (foldl peak_step (c + bd_delta b, p') l).
  destruct (IH (c + bd_delta b) p' ltac:(lia)) as (H1 & H2 & H3 & H4). split_and!.
  - rewrite H1, deltas_cons. lia.
  - lia.
  - intros [|b' before] after; [rewrite deltas_nil; lia|]. intros [= <- Hl].
    specialize (H3 before after Hl). rewrite deltas_cons. lia.
  - destruct H4 as [H4|(before & b' & after & Hl & H4 & H5)].
    + destruct (Z.le_gt_cases (c + bd_delta b) p) as [Hle|Hgt]; [left; lia|]. right. exists [], b, l.
      change ([] ++ [b]) with [b]. rewrite deltas_cons, deltas_nil. split_and!; [done|lia|lia].
    + right. exists (b :: before), b', after. 
      change ((b :: before) ++ [b']) with (b :: (before ++ [b'])). rewrite !deltas_cons. split_and!; [by rewrite Hl|lia|lia].
Qed.

Lemma sorted_split t l :
  StronglySorted boundary_le l ->
  l = List.filter (reached t) l ++ List.filter (fun b => negb (reached t b)) l.
Proof.
  induction 1 as [|b l Hs IH Hall]; [done|]. cbn [List.filter]. destruct (reached t b) eqn:E; cbn [negb].
  { cbn. by rewrite <- IH. }
  assert (List.filter (reached t) l = []) as E0.
  { destruct (List.filter (reached t) l) as [|x r] eqn:Ex; [done|]. exfalso.
    assert (In x (List.filter (reached t) l)) as Hx by (rewrite Ex; by left). apply filter_In in Hx as [Hx Hr].
    rewrite Forall_forall in Hall. apply list_elem_of_In, Hall, boundary_le_spec in Hx. unfold reached in *. lia. }
  rewrite E0 in *. cbn in *. by rewrite <- IH.
Qed.

(** The intervals open at an instant. *)
Definition overlap (intervals : list workflowInterval) (t : Z) : Z :=
  llen (List.filter (fun i => (t_nanos (in_start i) <=? t) && (t <? t_nanos (in_end i))) intervals).

Lemma overlap_cons i intervals t :
  overlap (i :: intervals) t
  = (if (t_nanos (in_start i) <=? t) && (t <? t_nanos (in_end i)) then 1 else 0) + overlap intervals t.
Proof. unfold overlap, llen. cbn [List.filter]. destruct (_ && _); cbn [List.length]; lia. Qed.

Lemma deltas_reached intervals t :
  Forall (fun i => t_nanos (in_start i) <= t_nanos (in_end i)) intervals ->
  deltas (List.filter (reached t) (boundaries_of intervals)) = overlap intervals t.
Proof.
  induction 1 as [|i intervals Hi Hall IH]; [done|]. rewrite overlap_cons, <- IH.
  change (boundaries_of (i :: intervals))
    with (mkBoundary (in_start i) 1 :: mkBoundary (in_end i) (-1) :: boundaries_of intervals).
  assert (forall x d, reached t (mkBoundary x d) = (t_nanos x <=? t)) as Hr by done.
  cbn [List.filter]. rewrite !Hr.
  destruct (Z.leb_spec (t_nanos (in_start i)) t), (Z.leb_spec (t_nanos (in_end i)) t), (Z.ltb_spec t (t_nanos (in_end i)));
    rewrite ?deltas_cons; cbn [bd_delta andb]; lia.
Qed.

Lemma filter_perm {A} (p : A -> bool) l1 l2 : l1 ≡ₚ l2 -> List.filter p l1 ≡ₚ List.filter p l2.
Proof. apply filter_Permutation_bool. Qed.

Lemma boundary_delta intervals b : b ∈ boundaries_of intervals -> bd_delta b = 1 \/ bd_delta b = -1.
Proof.
  unfold boundaries_of. rewrite list_elem_of_In, in_flat_map. intros (i & _ & Hb). cbn in Hb. naive_solver.
Qed.

Lemma overlap_bound intervals t : 0 <= overlap intervals t <= llen intervals.
Proof.
  induction intervals as [|i l IH]; [done|]. rewrite overlap_cons. unfold llen in *. cbn [List.length].
  destruct (_ && _); lia.
Qed.

(** After a rise, what remains at the same instant only rises. *)
Lemma tail_rises intervals before b after :
  StronglySorted boundary_le (before ++ b :: after) -> (before ++ b :: after) ≡ₚ boundaries_of intervals ->
  bd_delta b = 1 ->
  deltas (before ++ [b]) <= deltas (List.filter (reached (t_nanos (bd_at b))) (before ++ b :: after)).
Proof.
  intros Hs Hp Hb. set (t := t_nanos (bd_at b)).
  assert (forall x, x ∈ before -> reached t x = true) as Hbefore.
  { intros x Hx. assert (boundary_le x b) as Hle by (eapply StronglySorted_app_1_elem_of; [exact Hs|done|set_solver]).
    apply boundary_le_spec in Hle. unfold reached, t. lia. }
  rewrite List.filter_app. cbn [List.filter].
  assert (reached t b = true) as -> by (unfold reached, t; lia).
  assert (List.filter (reached t) before = before) as ->.
  { clear -Hbefore. induction before as [|x l IH]; [done|]. cbn. rewrite Hbefore by set_solver. f_equal.
    apply IH. intros y Hy. apply Hbefore. set_solver. }
  change (b :: List.filter (reached t) after) with ([b] ++ List.filter (reached t) after).
  rewrite app_assoc, (deltas_app (before ++ [b])).
  assert (Forall (fun x => 0 <= bd_delta x) (List.filter (reached t) after)) as Hpos.
  { apply Forall_forall. intros x Hx. apply list_elem_of_In, filter_In in Hx as [Hx Hr].
    apply StronglySorted_app_1_r, StronglySorted_inv in Hs as [_ Hs].
    rewrite Forall_forall in Hs. apply list_elem_of_In, Hs, boundary_le_spec in Hx. unfold reached, t in Hr. lia. }
  assert (0 <= deltas (List.filter (reached t) after)); [|lia].
  induction Hpos as [|x l Hx _ IH]; rewrite ?deltas_cons, ?deltas_nil; lia.
Qed.

(** The peak parallelism is the largest number of intervals that contain one
    instant, ends excluded: no instant has more, and when it is not zero some
    instant has as many. *)
Theorem peak_is_largest_overlap intervals :
  Forall (fun i => t_nanos (in_start i) <= t_nanos (in_end i)) intervals -> llen intervals < 2 ^ 32 ->
  (forall t, overlap intervals t <= peakWorkflowParallelism intervals) /\
  (peakWorkflowParallelism intervals = 0 \/ exists t, overlap intervals t = peakWorkflowParallelism intervals).
Proof.
  intros Hall Hlen. unfold peakWorkflowParallelism. set (l := merge_sort boundary_le (boundaries_of intervals)).
  assert (l ≡ₚ boundaries_of intervals) as Hp by apply merge_sort_Permutation.
  assert (StronglySorted boundary_le l) as Hs by apply (merge_sorted boundary_le).
  destruct (peak_fold l 0 0 ltac:(lia)) as (_ & H0 & Hmax & Hatt). set (peak := snd (foldl peak_step (0, 0) l)) in *.
  assert (forall t, deltas (List.filter (reached t) l) = overlap intervals t) as Hov.
  { intros t. rewrite <- deltas_reached by done. by apply deltas_perm, filter_perm. }
  assert (forall t, overlap intervals t <= peak) as Hle.
  { intros t. rewrite <- Hov. specialize (Hmax _ _ (sorted_split t l Hs)). lia. }
  assert (peak = 0 \/ exists t, overlap intervals t = peak) as Hex.
  { destruct Hatt as [->|(before & b & after & Hl & Heq & Hlt)]; [by left|]. right. exists (t_nanos (bd_at b)).
    rewrite deltas_app, deltas_cons, deltas_nil in Heq. assert (bd_delta b = 1) as Hb.
    { destruct (boundary_delta intervals b) as [|E]; [rewrite <- Hp, Hl; set_solver|done|]. lia. }
    pose proof (Hle (t_nanos (bd_at b))) as Hu. rewrite Hl in Hs, Hp.
    pose proof (tail_rises intervals before b after Hs Hp Hb) as Hd. rewrite <- Hl, Hov, deltas_app, deltas_cons, deltas_nil in Hd. lia. }
  assert (u32 peak = peak) as ->; [|done]. apply Z.mod_small. unfold u32_mod.
  destruct Hex as [->|[t Ht]]; [lia|]. pose proof (overlap_bound intervals t). lia.
Qed.

Definition sample_interval (s e : Z) : workflowInterval := mkInterval (mkTime s 0) (mkTime e 0).
Definition sample_intervals : list workflowInterval :=
  [sample_interval 10 20; sample_interval 0 5; sample_interval 15 30].

Lemma union_counts_covered_time_witness :
  unionWorkflowDuration sample_intervals = 25 /\
  exists covered, unionWorkflowDuration sample_intervals = llen covered /\
    forall t, t ∈ covered <-> exists i, i ∈ sample_intervals /\ contains_instant i t.
Proof.
  split; [vm_compute; reflexivity|].
  destruct (union_counts_covered_time 0 30 sample_intervals) as (cov & _ & H1 & H2).
  - lia.
  - repeat constructor; vm_compute; discriminate.
  - exists cov. split; [exact H1|exact H2].
Defined.

Lemma peak_is_largest_overlap_witness :
  exists t, overlap sample_intervals t = peakWorkflowParallelism sample_intervals.
Proof.
  destruct (peak_is_largest_overlap sample_intervals) as [_ [H|H]];
    [repeat constructor; vm_compute; discriminate|vm_compute; reflexivity|vm_compute in H; discriminate H|exact H].
Defined.
