(* ===== verification/WorkflowLaws.v ===== *)
(** * Workflow instances: theorems

    What an instance is validated for, as propositions; that the transitions keep
    it; what the reachable instances have in common; when a workflow can finish,
    and the workflows that cannot. *)

From S2P Require Import Prelude GoText GoTime Types Samples Dag Workflow WorkflowAdmission.

(** The definition of a workflow is examined through its stages only: its own
    validation never needs to be unfolded. *)
#[local] Opaque WorkflowDefinition_Validate UUIDv7_Valid Digest_Valid ActorFQN_Valid AggregateRef_Valid
  re_match workflowValidUUIDSet WorkflowInstanceState_Valid.

(** ** Nodes by identity *)

Definition ids (nodes : list WorkflowNode) : list UUIDv7 := map wn_NodeID nodes.

(** The state of the node with this identity. *)
Definition state_of (nodes : list WorkflowNode) (id : UUIDv7) : option WorkflowNodeState :=
  match node_in nodes id with Some (_, node) => Some (wn_State node) | None => None end.

Lemma node_in_spec nodes id k node :
  NoDup (ids nodes) ->
  node_in nodes id = Some (k, node) <-> nodes !! k = Some node /\ wn_NodeID node = id.
Proof.
  intros Hnd. unfold node_in. rewrite list_find_Some. split; [tauto|].
  intros [Hk Hid]. split_and!; [done..|]. intros j y Hj Hlt Hy.
  assert (j = k); [|lia].
  eapply (NoDup_lookup (ids nodes)); [done|..]; unfold ids; rewrite list_lookup_fmap.
  - rewrite Hj. cbn. by rewrite Hy.
  - rewrite Hk. cbn. by rewrite Hid.
Qed.

Lemma node_in_elem nodes id k node :
  node_in nodes id = Some (k, node) -> nodes !! k = Some node /\ wn_NodeID node = id.
Proof. unfold node_in. rewrite list_find_Some. tauto. Qed.

Lemma node_in_none nodes id : node_in nodes id = None <-> id ∉ ids nodes.
Proof.
  unfold node_in. rewrite list_find_None, Forall_forall. unfold ids. split.
  - intros H (n & -> & Hn)%list_elem_of_fmap. exact (H n Hn eq_refl).
  - intros H n Hn <-. apply H. by apply list_elem_of_fmap_2.
Qed.

Lemma state_of_elem nodes node :
  NoDup (ids nodes) -> node ∈ nodes -> state_of nodes (wn_NodeID node) = Some (wn_State node).
Proof.
  intros Hnd [k Hk]%list_elem_of_lookup. unfold state_of.
  by rewrite (proj2 (node_in_spec nodes (wn_NodeID node) k node Hnd)).
Qed.

Lemma state_of_some nodes id st :
  state_of nodes id = Some st -> exists node, node ∈ nodes /\ wn_NodeID node = id /\ wn_State node = st.
Proof.
  unfold state_of. destruct (node_in nodes id) as [[k node]|] eqn:E; [|done].
  intros [= <-]. apply node_in_elem in E as [Hk Hid]. exists node.
  split; [by eapply list_elem_of_lookup_2|done].
Qed.

Lemma node_state_in_spec nodes states id :
  node_state_in nodes states id = true <-> exists st, state_of nodes id = Some st /\ st ∈ states.
Proof.
  unfold node_state_in, state_of. destruct (node_in nodes id) as [[k node]|].
  - rewrite contains_spec. naive_solver.
  - naive_solver.
Qed.

(** ** Readiness as a proposition *)

Definition ready_by (definition : WorkflowDefinition) (nodes : list WorkflowNode) (node : WorkflowNode)
    : bool :=
  predecessorsSatisfied definition (zero_WorkflowInstance <| wi_Nodes := nodes |>) node.

Lemma satisfied_nodes definition instance node :
  predecessorsSatisfied definition instance node = ready_by definition (wi_Nodes instance) node.
Proof. reflexivity. Qed.

Definition lasting : list WorkflowNodeState :=
  [WorkflowNodeCompleted; WorkflowNodeSkipped; WorkflowNodeFailed].

(** Every lasting state in [nodes] is the same in [nodes']. *)
Definition keeps_lasting (nodes nodes' : list WorkflowNode) : Prop :=
  forall id st, st ∈ lasting -> state_of nodes id = Some st -> state_of nodes' id = Some st.

Lemma node_state_in_mono nodes nodes' states id :
  keeps_lasting nodes nodes' -> (forall st, st ∈ states -> st ∈ lasting) ->
  node_state_in nodes states id = true -> node_state_in nodes' states id = true.
Proof.
  intros Hk Hs. rewrite !node_state_in_spec. intros (st & Hst & Hin). exists st. split; [|done].
  apply Hk; auto.
Qed.

Lemma forallb_mono {A} (p q : A -> bool) l :
  (forall x, p x = true -> q x = true) -> forallb p l = true -> forallb q l = true.
Proof. intros H. rewrite !forallb_True_iff. intros Hl. eapply Forall_impl; [exact Hl|done]. Qed.

Lemma existsb_mono {A} (p q : A -> bool) l :
  (forall x, p x = true -> q x = true) -> existsb p l = true -> existsb q l = true.
Proof. intros H. rewrite !existsb_exists. naive_solver. Qed.

Lemma ready_by_mono definition nodes nodes' node :
  keeps_lasting nodes nodes' -> ready_by definition nodes node = true ->
  ready_by definition nodes' node = true.
Proof.
  intros Hk. unfold ready_by, predecessorsSatisfied, predecessorsCompleted. cbn [wi_Nodes].
  assert (forall states id, (forall st, st ∈ states -> st ∈ lasting) ->
    node_state_in nodes states id = true -> node_state_in nodes' states id = true) as Hm.
  { intros states id. by apply node_state_in_mono. }
  destruct (workflowStageByID definition (wn_StageID node)) as [stage|]; cbn.
  - destruct (ws_Optional stage). { apply forallb_mono. intros id. apply Hm. set_solver. }
    destruct (negb (recovery_purpose _)). { apply forallb_mono. intros id. apply Hm. set_solver. }
    destruct (_ =? 0); [done|].
    destruct (forallb _ _) eqn:E; [|done]. cbn.
    rewrite (forallb_mono _ (node_state_in nodes' [WorkflowNodeCompleted; WorkflowNodeFailed]) _) by
      first [exact E | intros id; apply Hm; set_solver].
    cbn. apply existsb_mono. intros id. apply Hm. set_solver.
  - apply forallb_mono. intros id. apply Hm. set_solver.
Qed.

Lemma ready_by_agree definition nodes nodes' node :
  keeps_lasting nodes nodes' -> keeps_lasting nodes' nodes ->
  ready_by definition nodes node = ready_by definition nodes' node.
Proof. intros H1 H2. apply eq_true_iff_eq. split; by apply ready_by_mono. Qed.

(** A node is looked at through its stage and its predecessors. *)
Definition same_node (node node' : WorkflowNode) : Prop :=
  wn_NodeID node' = wn_NodeID node /\ wn_StageID node' = wn_StageID node /\
  wn_PredecessorNodeIDs node' = wn_PredecessorNodeIDs node.

Lemma ready_by_same definition nodes node node' :
  same_node node node' -> ready_by definition nodes node' = ready_by definition nodes node.
Proof.
  intros (_ & Hs & Hp). unfold ready_by, predecessorsSatisfied, predecessorsCompleted. by rewrite Hs, Hp.
Qed.

(** ** Slices with the same nodes *)

Abbreviation same_nodes := (Forall2 same_node).

Lemma same_node_refl node : same_node node node.
Proof. done. Qed.

Lemma same_nodes_refl nodes : same_nodes nodes nodes.
Proof. induction nodes; constructor; [done|done]. Qed.

Lemma same_nodes_ids nodes nodes' : same_nodes nodes nodes' -> ids nodes' = ids nodes.
Proof. induction 1 as [|n n' l l' (Hid & _) _ IH]; [done|]. unfold ids in *. cbn. congruence. Qed.

Lemma same_nodes_map f nodes : (forall n, same_node n (f n)) -> same_nodes nodes (map f nodes).
Proof. intros H. induction nodes; constructor; [apply H | done]. Qed.

Lemma same_nodes_insert nodes k node node' :
  nodes !! k = Some node -> same_node node node' -> same_nodes nodes (<[k := node']> nodes).
Proof.
  revert k. induction nodes as [|n nodes IH]; intros [|k] Hk Hs; try done; cbn in *.
  - injection Hk as ->. constructor; [done|apply same_nodes_refl].
  - constructor; [done|]. by apply IH.
Qed.

Lemma same_nodes_trans nodes nodes' nodes'' :
  same_nodes nodes nodes' -> same_nodes nodes' nodes'' -> same_nodes nodes nodes''.
Proof.
  intros H. revert nodes''. induction H as [|n n' l l' H1 _ IH]; inversion 1; subst; constructor.
  - destruct H1 as (?&?&?), H3 as (?&?&?). repeat split; congruence.
  - by apply IH.
Qed.

Lemma same_nodes_lookup nodes nodes' k node' :
  same_nodes nodes nodes' -> nodes' !! k = Some node' ->
  exists node, nodes !! k = Some node /\ same_node node node'.
Proof. intros H Hk. destruct (Forall2_lookup_r _ _ _ _ _ H Hk) as (x & Hx & Hs). eauto. Qed.

Lemma same_nodes_in nodes nodes' id :
  same_nodes nodes nodes' -> NoDup (ids nodes) ->
  node_in nodes' id = match node_in nodes id with
                      | Some (k, _) => match nodes' !! k with Some n' => Some (k, n') | None => None end
                      | None => None
                      end.
Proof.
  intros H Hnd. destruct (node_in nodes id) as [[k n]|] eqn:E.
  - apply node_in_elem in E as [Hk Hid].
    destruct (Forall2_lookup_l _ _ _ _ _ H Hk) as (n' & Hk' & Hs). rewrite Hk'.
    apply node_in_spec; [by rewrite (same_nodes_ids _ _ H)|]. split; [done|]. destruct Hs as (? & _). congruence.
  - apply node_in_none. rewrite (same_nodes_ids _ _ H). by apply node_in_none.
Qed.

(** Lasting states are kept when each entry keeps its own. *)
Lemma keeps_lasting_pointwise nodes nodes' :
  same_nodes nodes nodes' -> NoDup (ids nodes) ->
  (forall k n n', nodes !! k = Some n -> nodes' !! k = Some n' -> wn_State n ∈ lasting ->
     wn_State n' = wn_State n) ->
  keeps_lasting nodes nodes'.
Proof.
  intros H Hnd Hl id st Hst. unfold state_of. rewrite (same_nodes_in _ _ id H Hnd).
  destruct (node_in nodes id) as [[k n]|] eqn:E; [|done]. intros [= <-].
  apply node_in_elem in E as [Hk Hid]. destruct (Forall2_lookup_l _ _ _ _ _ H Hk) as (n' & Hk' & Hs).
  rewrite Hk'. f_equal. eauto.
Qed.

(** ** The readiness sweep *)

(** A sweep whose change does not see the entries it has already changed is a map. *)
Lemma sweep_map (change : list WorkflowNode -> WorkflowNode -> WorkflowNode) (nodes : list WorkflowNode) :
  (forall done node, (done <= List.length nodes)%nat ->
     change (map (change nodes) (take done nodes) ++ skipn done nodes) node = change nodes node) ->
  sweep change nodes = map (change nodes) nodes.
Proof.
  intros H. unfold sweep.
  assert (forall n, (n <= List.length nodes)%nat ->
    foldl (fun ns index => match ns !! index with
                           | Some node => <[index := change ns node]> ns
                           | None => ns
                           end) nodes (seq 0 n)
    = map (change nodes) (take n nodes) ++ skipn n nodes) as Hn.
  { induction n as [|n IH]; intros Hle; [by rewrite drop_0|].
    rewrite seq_S, foldl_app, IH by lia. cbn.
    destruct (lookup_lt_is_Some_2 nodes n) as [x Hx]; [lia|].
    rewrite lookup_app_r; rewrite length_fmap, length_take, Nat.min_l by lia; [|lia].
    rewrite Nat.sub_diag, lookup_drop, Nat.add_0_r, Hx.
    rewrite H by lia. rewrite (take_S_r _ _ x), map_app by done.
    rewrite insert_app_r_alt by (rewrite length_fmap, length_take; lia).
    rewrite length_fmap, length_take, Nat.min_l, Nat.sub_diag by lia.
    rewrite (drop_S nodes x n) by done. cbn. by rewrite <- app_assoc. }
  rewrite Hn, drop_all, take_ge, app_nil_r by lia. done.
Qed.

Lemma make_ready_eq definition instance nodes node :
  make_ready definition instance nodes node
  = if (wn_State node == WorkflowNodePending) && ready_by definition nodes node
    then node <| wn_State := WorkflowNodeReady |> else node.
Proof. reflexivity. Qed.

Lemma make_ready_same definition instance nodes node : same_node node (make_ready definition instance nodes node).
Proof. unfold make_ready. by destruct (_ && _). Qed.

Lemma make_ready_state definition instance nodes node :
  let node' := make_ready definition instance nodes node in
  node' = node \/ (wn_State node = WorkflowNodePending /\ ready_by definition nodes node = true /\
                   node' = node <| wn_State := WorkflowNodeReady |>).
Proof.
  cbn zeta. rewrite make_ready_eq. destruct (_ && _) eqn:E; [|by left].
  right. bprop E. tauto.
Qed.

Lemma make_ready_lasting definition instance nodes node st :
  st ∈ lasting -> wn_State node = st <-> wn_State (make_ready definition instance nodes node) = st.
Proof.
  intros Hst. destruct (make_ready_state definition instance nodes node) as [->|(E & _ & ->)]; [done|].
  cbn. rewrite E. unfold lasting in Hst. split; intros <-; exfalso; revert Hst; rewrite <- contains_spec; vm_compute; done.
Qed.

(** Partly swept slices have the same lasting states. *)
Lemma swept_agree definition instance base nodes n :
  NoDup (ids nodes) ->
  let nodes' := map (make_ready definition instance base) (take n nodes) ++ skipn n nodes in
  same_nodes nodes nodes' /\ keeps_lasting nodes nodes' /\ keeps_lasting nodes' nodes.
Proof.
  intros Hnd nodes'.
  assert (same_nodes nodes nodes') as Hs.
  { rewrite <- (take_drop n nodes) at 1. unfold nodes'. apply Forall2_app; [|apply same_nodes_refl].
    apply same_nodes_map. intros x. apply make_ready_same. }
  assert (forall k a b, nodes !! k = Some a -> nodes' !! k = Some b ->
    forall st, st ∈ lasting -> wn_State a = st <-> wn_State b = st) as Hp.
  { intros k a b Ha Hb st Hst. unfold nodes' in Hb.
    apply lookup_app_Some in Hb as [Hb|[Hlen Hb]].
    - change (map ?f ?l !! k) with ((f <$> l) !! k) in Hb. rewrite list_lookup_fmap in Hb.
      apply fmap_Some in Hb as (x & Hx & ->). apply lookup_take_Some in Hx as [Hx _].
      replace x with a by congruence. by apply make_ready_lasting.
    - rewrite lookup_drop in Hb. rewrite length_fmap, length_take in *.
      destruct (decide (n <= List.length nodes)%nat).
      + rewrite Nat.min_l in * by done. replace (n + (k - n))%nat with k in Hb by lia.
        assert (b = a) as -> by congruence. done.
      + apply lookup_lt_Some in Ha. lia. }
  split_and!; [done| |].
  - apply keeps_lasting_pointwise; [done..|]. intros k a b Ha Hb Hl. symmetry.
    symmetry. by apply (Hp k a b Ha Hb _ Hl).
  - intros id st Hst. unfold state_of. rewrite (same_nodes_in _ _ id Hs Hnd).
    destruct (node_in nodes id) as [[k a]|] eqn:E; [|done].
    apply node_in_elem in E as [Hk _]. destruct (nodes' !! k) as [b|] eqn:Hb; [|done].
    intros [= <-]. f_equal. by apply (Hp k a b Hk Hb _ Hst).
Qed.

Lemma sweep_ready definition instance nodes :
  NoDup (ids nodes) ->
  sweep (make_ready definition instance) nodes = map (make_ready definition instance nodes) nodes.
Proof.
  intros Hnd. apply sweep_map. intros n node _.
  destruct (swept_agree definition instance nodes nodes n Hnd) as (_ & H1 & H2).
  rewrite !make_ready_eq. by rewrite (ready_by_agree definition _ _ node H1 H2).
Qed.

Lemma map_ready_agree definition instance nodes :
  NoDup (ids nodes) ->
  let nodes' := map (make_ready definition instance nodes) nodes in
  same_nodes nodes nodes' /\ keeps_lasting nodes nodes' /\ keeps_lasting nodes' nodes.
Proof.
  intros Hnd. pose proof (swept_agree definition instance nodes nodes (List.length nodes) Hnd) as H.
  rewrite take_ge, drop_all, app_nil_r in H by lia. exact H.
Qed.

(** ** What validation establishes *)

Definition node_declared (definition : WorkflowDefinition) (node : WorkflowNode) : Prop :=
  node_fields_valid node = true /\ workflowStageByID definition (wn_StageID node) <> None.

Lemma tally_nodes_spec definition nodes t t' :
  tally_nodes definition t nodes = Some t' <->
  Forall (node_declared definition) nodes /\ NoDup (ids nodes) /\
  (forall id, id ∈ ids nodes -> id ∉ nt_knownNodes t) /\ t' = foldl add_node t nodes.
Proof.
  revert t. induction nodes as [|node nodes IH]; intros t; cbn.
  - split; [intros [= ->]; split_and!; [done|constructor|intros ? []%not_elem_of_nil|done]|].
    by intros (_ & _ & _ & ->).
  - unfold ids in *. cbn.
    assert (nt_knownNodes (add_node t node) = {[wn_NodeID node]} ∪ nt_knownNodes t) as Hk.
    { unfold add_node, count_state. repeat case_bool_decide; done. }
    rewrite Forall_cons, NoDup_cons. unfold node_declared at 1.
    destruct (node_fields_valid node); [cbn|naive_solver].
    case_bool_decide as Hin; [split; [done|]; intros (_ & _ & H & _); exfalso; apply (H (wn_NodeID node)); set_solver|].
    destruct (workflowStageByID definition (wn_StageID node)); [cbn|naive_solver].
    rewrite IH, Hk. split.
    + intros (H1 & H2 & H3 & H4). split_and!; try done; set_solver.
    + intros ((_ & H1) & (H2 & H3) & H4 & H5). split_and!; try done. set_solver.
Qed.

Definition tally (nodes : list WorkflowNode) : NodeTally := foldl add_node zero_tally nodes.
Definition count (p : WorkflowNode -> bool) (nodes : list WorkflowNode) : Z := llen (List.filter p nodes).
Definition in_state (st : WorkflowNodeState) (node : WorkflowNode) : bool := wn_State node == st.

Lemma count_cons p node nodes : count p (node :: nodes) = (if p node then 1 else 0) + count p nodes.
Proof. unfold count, llen. cbn. destruct (p node); cbn; lia. Qed.

Lemma count_bounds p nodes : 0 <= count p nodes <= llen nodes.
Proof.
  induction nodes as [|node nodes IH]; [done|]. rewrite count_cons. unfold llen in *. cbn [List.length].
  destruct (p node); lia.
Qed.

Lemma count_zero p nodes : count p nodes = 0 <-> forall node, node ∈ nodes -> p node = false.
Proof.
  induction nodes as [|node nodes IH]; [set_solver|]. rewrite count_cons. pose proof (count_bounds p nodes).
  setoid_rewrite elem_of_cons. destruct (p node) eqn:E.
  - split; [lia|]. intros Hf. specialize (Hf node (or_introl eq_refl)). congruence.
  - rewrite Z.add_0_l, IH. naive_solver.
Qed.

Lemma count_some p nodes : count p nodes <> 0 <-> exists node, node ∈ nodes /\ p node = true.
Proof.
  rewrite count_zero. split.
  - intros H. destruct (existsb p nodes) eqn:E.
    + apply existsb_exists in E as (n & Hn & Hp). exists n. by rewrite list_elem_of_In.
    + exfalso. apply H. intros n Hn%list_elem_of_In. destruct (p n) eqn:Ep; [|done].
      rewrite <- E. symmetry. apply existsb_exists. eauto.
  - intros (n & Hn & Hp) H. specialize (H n Hn). congruence.
Qed.

Lemma count_either p q nodes :
  (forall node, p node && q node = false) ->
  count p nodes + count q nodes = llen nodes <-> Forall (fun node => p node || q node = true) nodes.
Proof.
  intros Hd. induction nodes as [|node nodes IH]; [by rewrite Forall_nil|].
  rewrite !count_cons, Forall_cons, <- IH.
  assert (count p nodes + count q nodes <= llen nodes) as Hle.
  { clear IH. induction nodes as [|n nodes IH]; [done|]. rewrite !count_cons. specialize (Hd n).
    unfold llen in *. cbn [List.length]. destruct (p n), (q n); cbn in *; lia || done. }
  specialize (Hd node). unfold llen in *. cbn [List.length].
  destruct (p node), (q node); cbn in *; (naive_solver lia || done).
Qed.

Lemma tally_counts nodes t :
  let t' := foldl add_node t nodes in
  nt_completedNodes t' = nt_completedNodes t + count (in_state WorkflowNodeCompleted) nodes /\
  nt_skippedNodes t' = nt_skippedNodes t + count (in_state WorkflowNodeSkipped) nodes /\
  nt_failedNodes t' = nt_failedNodes t + count (in_state WorkflowNodeFailed) nodes /\
  nt_cancelledNodes t' = nt_cancelledNodes t + count (in_state WorkflowNodeCancelled) nodes /\
  nt_blockedNodes t' = nt_blockedNodes t + count (in_state WorkflowNodeBlocked) nodes.
Proof.
  revert t. induction nodes as [|node nodes IH]; intros t; cbn zeta; [unfold count, llen; cbn; lia|].
  cbn [foldl]. specialize (IH (add_node t node)). cbn zeta in IH.
  destruct IH as (-> & -> & -> & -> & ->). rewrite !count_cons. unfold in_state, add_node, count_state.
  generalize (wn_State node) as st. intros st.
  repeat (case_bool_decide; [subst st; eval_tests; cbn; lia|]). cbn. lia.
Qed.

Lemma tally_shape nodes t :
  let t' := foldl add_node t nodes in
  nt_nodeNames t' = nt_nodeNames t ++ ids nodes /\
  nt_knownNodes t' = list_to_set (ids nodes) ∪ nt_knownNodes t /\
  (forall s, mget 0 s (nt_stageCounts t')
             = mget 0 s (nt_stageCounts t) + count (fun node => wn_StageID node == s) nodes).
Proof.
  revert t. induction nodes as [|node nodes IH]; intros t; cbn zeta.
  - cbn. rewrite app_nil_r. split_and!; [done|set_solver|]. intros s. symmetry. apply Z.add_0_r.
  - cbn [foldl]. specialize (IH (add_node t node)). cbn zeta in IH. destruct IH as (-> & -> & H).
    assert (nt_nodeNames (add_node t node) = nt_nodeNames t ++ [wn_NodeID node] /\
      nt_knownNodes (add_node t node) = {[wn_NodeID node]} ∪ nt_knownNodes t /\
      nt_stageCounts (add_node t node)
      = <[wn_StageID node := mget 0 (wn_StageID node) (nt_stageCounts t) + 1]> (nt_stageCounts t))
      as (-> & -> & Hs).
    { unfold add_node, count_state. by repeat case_bool_decide. }
    split_and!.
    + unfold ids. cbn. by rewrite <- app_assoc.
    + unfold ids. cbn. set_solver.
    + intros s. rewrite H, Hs, count_cons. unfold mget.
      destruct (decide (wn_StageID node = s)) as [<-|Hne].
      * rewrite lookup_insert_eq, bool_decide_refl. lia.
      * rewrite lookup_insert_ne by done. by rewrite (bool_decide_eq_false_2 _ Hne).
Qed.

(** The checks on one node that do not look at the others. *)
Definition pointers_ok (node : WorkflowNode) : bool :=
  pointer_valid ActorFQN_Valid (wn_ActorFQN node) && pointer_valid UUIDv7_Valid (wn_InvocationID node)
  && pointer_valid Digest_Valid (wn_ProgressDigest node) && pointer_valid UUIDv7_Valid (wn_CheckpointID node)
  && pointer_valid UUIDv7_Valid (wn_ContinuationNodeID node).

(** A node skipped with nothing recorded on it. *)
Definition untouched (node : WorkflowNode) : bool :=
  is_nil (wn_ProgressDigest node) && is_nil (wn_CheckpointID node) && is_nil (wn_ContinuationNodeID node)
  && (llen (wn_OutputEvidenceIDs node) == 0) && (wn_FailureClassification node == WorkflowFailureNone).

Definition classified (node : WorkflowNode) : bool :=
  negb (is_nil (wn_ProgressDigest node)) && (wn_FailureClassification node != WorkflowFailureNone)
  && (wn_FailureClassification node != WorkflowFailureCancelled).

Definition state_fields_ok (definition : WorkflowDefinition) (node : WorkflowNode) : Prop :=
  (wn_State node ∈ [WorkflowNodeAdmitted; WorkflowNodeRunning; WorkflowNodeCompleted; WorkflowNodeFailed] ->
     assigned node = true) /\
  (wn_State node ∈ [WorkflowNodePending; WorkflowNodeReady; WorkflowNodeSkipped] -> unassigned node = true) /\
  (wn_State node = WorkflowNodeSkipped ->
     workflowSkippableStage definition (wn_StageID node) = true /\ untouched node = true) /\
  (wn_State node = WorkflowNodeFailed -> classified node = true) /\
  (wn_State node = WorkflowNodeCancelled -> wn_FailureClassification node = WorkflowFailureCancelled).

Definition readiness_ok (definition : WorkflowDefinition) (nodes : list WorkflowNode) (node : WorkflowNode) : Prop :=
  (wn_State node = WorkflowNodeReady -> ready_by definition nodes node = true) /\
  (wn_State node = WorkflowNodePending -> ready_by definition nodes node = false).

Definition preds_ok (definition : WorkflowDefinition) (nodes : list WorkflowNode) (node : WorkflowNode) : Prop :=
  forallb (predecessor_valid definition nodes (list_to_set (ids nodes)) node) (wn_PredecessorNodeIDs node) = true.

Definition node_ok (definition : WorkflowDefinition) (nodes : list WorkflowNode) (node : WorkflowNode) : Prop :=
  preds_ok definition nodes node /\ pointers_ok node = true /\ blocked_from_valid node = true /\
  state_fields_ok definition node /\ readiness_ok definition nodes node.

(** A guard [c && negb d] that refuses says [c] implies [d]. *)
Lemma guard_implies (c d : bool) (P : Prop) :
  (c = true <-> P) -> c && negb d = false <-> (P -> d = true).
Proof. destruct c, d; cbn; intuition congruence. Qed.

Lemma guard_iff {A} `{EqDecision A} (x y : A) (a b : Z) :
  (x == y) && negb (a =? b) || (a =? b) && (x != y) = false <-> (x = y <-> a = b).
Proof. case_bool_decide; destruct (Z.eqb_spec a b); cbn; tauto || (split; [done|tauto]). Qed.

Lemma guard_nonzero {A} `{EqDecision A} (x y : A) (a : Z) :
  (x == y) && (a =? 0) = false <-> (x = y -> a <> 0).
Proof. case_bool_decide; destruct (Z.eqb_spec a 0); cbn; tauto || (split; [done|tauto]). Qed.

Lemma skipped_guard definition node :
  negb (workflowSkippableStage definition (wn_StageID node))
  || negb (is_nil (wn_ProgressDigest node)) || negb (is_nil (wn_CheckpointID node))
  || negb (is_nil (wn_ContinuationNodeID node)) || (llen (wn_OutputEvidenceIDs node) !=  0)
  || (wn_FailureClassification node != WorkflowFailureNone)
  = negb (workflowSkippableStage definition (wn_StageID node) && untouched node).
Proof. unfold untouched. rewrite !negb_andb. by rewrite !orb_assoc. Qed.

Lemma failed_guard node :
  is_nil (wn_ProgressDigest node) || (wn_FailureClassification node == WorkflowFailureNone)
  || (wn_FailureClassification node == WorkflowFailureCancelled) = negb (classified node).
Proof. unfold classified. by rewrite !negb_andb, !negb_involutive. Qed.

Lemma node_state_valid_spec definition instance node :
  node_state_valid definition instance node = true <->
  state_fields_ok definition node /\ readiness_ok definition (wi_Nodes instance) node.
Proof.
  unfold node_state_valid, state_fields_ok, readiness_ok.
  rewrite skipped_guard, failed_guard, !satisfied_nodes, !if_false_true, orb_false_iff.
  rewrite (guard_implies _ _ _ (contains_spec _ _)), (guard_implies _ _ _ (contains_spec _ _)).
  rewrite (guard_implies (wn_State node == WorkflowNodeSkipped) _ _ (bool_decide_eq_true _)).
  rewrite (guard_implies (wn_State node == WorkflowNodeReady) _ _ (bool_decide_eq_true _)).
  rewrite (guard_implies (wn_State node == WorkflowNodeFailed) _ _ (bool_decide_eq_true _)).
  rewrite (guard_implies (wn_State node == WorkflowNodeCancelled) _ _ (bool_decide_eq_true _)).
  rewrite andb_true_iff, bool_decide_eq_true.
  assert ((wn_State node == WorkflowNodePending) && ready_by definition (wi_Nodes instance) node = false <->
    (wn_State node = WorkflowNodePending -> ready_by definition (wi_Nodes instance) node = false)) as ->.
  { case_bool_decide; cbn; destruct (ready_by _ _ _); naive_solver. }
  tauto.
Qed.

Lemma node_valid_spec definition instance node :
  node_valid definition instance (list_to_set (ids (wi_Nodes instance))) node = true <->
  node_ok definition (wi_Nodes instance) node.
Proof.
  unfold node_valid, node_ok, preds_ok, pointers_ok. rewrite !if_false_true, node_state_valid_spec.
  rewrite !orb_false_iff, !negb_false_iff, !andb_true_iff. tauto.
Qed.

Definition state_ok (instance : WorkflowInstance) : Prop :=
  (wi_State instance = WorkflowCompleted <-> Forall (fun n => settled_state (wn_State n) = true) (wi_Nodes instance)) /\
  (wi_State instance = WorkflowFailed -> exists n, n ∈ wi_Nodes instance /\ wn_State n = WorkflowNodeFailed) /\
  (wi_State instance = WorkflowCancelled ->
     Forall (fun n => wn_State n = WorkflowNodeCompleted \/ wn_State n = WorkflowNodeCancelled) (wi_Nodes instance)) /\
  (wi_State instance = WorkflowBlocked -> exists n, n ∈ wi_Nodes instance /\ wn_State n = WorkflowNodeBlocked).

Lemma in_state_some st nodes :
  count (in_state st) nodes <> 0 <-> exists n, n ∈ nodes /\ wn_State n = st.
Proof. rewrite count_some. unfold in_state. by setoid_rewrite bool_decide_eq_true. Qed.

Lemma states_disjoint st st' node : st <> st' -> in_state st node && in_state st' node = false.
Proof. intros Hne. unfold in_state. repeat case_bool_decide; cbn; congruence. Qed.

Lemma instance_state_valid_spec instance :
  instance_state_valid instance (tally (wi_Nodes instance)) = true <-> state_ok instance.
Proof.
  unfold instance_state_valid, tally.
  destruct (tally_counts (wi_Nodes instance) zero_tally) as (-> & -> & -> & -> & ->).
  cbn [zero_tally nt_completedNodes nt_skippedNodes nt_failedNodes nt_cancelledNodes nt_blockedNodes].
  rewrite !Z.add_0_l, !if_false_true. set (ns := wi_Nodes instance).
  pose proof (count_either (in_state WorkflowNodeCompleted) (in_state WorkflowNodeSkipped) ns
    (fun n => states_disjoint WorkflowNodeCompleted WorkflowNodeSkipped n ltac:(discriminate))) as Hs.
  pose proof (count_either (in_state WorkflowNodeCompleted) (in_state WorkflowNodeCancelled) ns
    (fun n => states_disjoint WorkflowNodeCompleted WorkflowNodeCancelled n ltac:(discriminate))) as Hc.
  pose proof (in_state_some WorkflowNodeFailed ns) as Hf.
  pose proof (in_state_some WorkflowNodeBlocked ns) as Hb.
  unfold state_ok. fold ns. rewrite <- Hf, <- Hb.
  assert (forall n, in_state WorkflowNodeCompleted n || in_state WorkflowNodeCancelled n = true <->
    wn_State n = WorkflowNodeCompleted \/ wn_State n = WorkflowNodeCancelled) as He.
  { intros n. unfold in_state. by rewrite orb_true_iff, !bool_decide_eq_true. }
  rewrite (Forall_iff _ _ _ He) in Hc. change (fun n => settled_state (wn_State n) = true)
    with (fun n => in_state WorkflowNodeCompleted n || in_state WorkflowNodeSkipped n = true).
  rewrite <- Hs, <- Hc.
  rewrite guard_iff, !orb_false_iff, guard_nonzero, guard_nonzero, guard_implies by apply bool_decide_eq_true.
  rewrite Z.eqb_eq. tauto.
Qed.

Record instance_ok (definition : WorkflowDefinition) (instance : WorkflowInstance) : Prop := mkInstanceOk {
  ok_fields : instance_fields_valid definition instance = true;
  ok_declared : Forall (node_declared definition) (wi_Nodes instance);
  ok_ids : NoDup (ids (wi_Nodes instance));
  ok_stages : forall stage, stage ∈ wd_Stages definition ->
    exists node, node ∈ wi_Nodes instance /\ wn_StageID node = ws_StageID stage;
  ok_nodes : Forall (node_ok definition (wi_Nodes instance)) (wi_Nodes instance);
  ok_graph : gv_Valid (ValidateDAG (ids (wi_Nodes instance)) (flat_map node_edges (wi_Nodes instance))) = true;
  ok_state : state_ok instance
}.

Lemma stages_counted definition nodes :
  existsb (fun stage => mget 0 (ws_StageID stage) (nt_stageCounts (tally nodes)) =? 0) (wd_Stages definition)
  = false <->
  forall stage, stage ∈ wd_Stages definition -> exists node, node ∈ nodes /\ wn_StageID node = ws_StageID stage.
Proof.
  assert (forall stage, (mget 0 (ws_StageID stage) (nt_stageCounts (tally nodes)) =? 0) = false <->
    exists node, node ∈ nodes /\ wn_StageID node = ws_StageID stage) as H.
  { intros stage. unfold tally. destruct (tally_shape nodes zero_tally) as (_ & _ & ->).
    rewrite Z.eqb_neq. cbn [zero_tally nt_stageCounts]. unfold mget. rewrite lookup_empty, Z.add_0_l, count_some.
    by setoid_rewrite bool_decide_eq_true. }
  setoid_rewrite <- H. rewrite <- not_true_iff_false, existsb_exists. setoid_rewrite list_elem_of_In. split.
  - intros Hn s Hs. destruct (_ =? 0) eqn:E; [|done]. exfalso. eauto.
  - intros Hn (s & Hs & E). rewrite (Hn s Hs) in E. done.
Qed.

Lemma Validate_spec definition instance :
  WorkflowInstance_Validate instance definition = true <-> instance_ok definition instance.
Proof.
  unfold WorkflowInstance_Validate. rewrite if_false_true, negb_false_iff.
  set (ns := wi_Nodes instance).
  destruct (tally_nodes definition zero_tally ns) as [t|] eqn:E.
  - apply tally_nodes_spec in E as (Hd & Hn & _ & Et). fold (tally ns) in Et. subst t.
    assert (nt_knownNodes (tally ns) = list_to_set (ids ns) /\ nt_nodeNames (tally ns) = ids ns) as [-> ->].
    { unfold tally. destruct (tally_shape ns zero_tally) as (-> & -> & _). cbn. set_solver. }
    rewrite !if_false_true, stages_counted, !negb_false_iff, forallb_True_iff.
    unfold ns in *. rewrite (Forall_iff _ _ _ (node_valid_spec definition instance)).
    rewrite instance_state_valid_spec. split; [|intros []; tauto].
    intros (? & ? & ? & ? & ?). by constructor.
  - split; [naive_solver|]. intros [Hf Hd Hn _ _ _ _]. exfalso.
    assert (tally_nodes definition zero_tally ns = Some (tally ns)); [|congruence].
    apply tally_nodes_spec. split_and!; done.
Qed.

(** ** Updates that keep the graph *)

Definition alone_ok (definition : WorkflowDefinition) (node : WorkflowNode) : Prop :=
  node_fields_valid node = true /\ pointers_ok node = true /\ blocked_from_valid node = true /\
  state_fields_ok definition node.

Lemma preds_ok_same definition nodes nodes' node node' :
  same_nodes nodes nodes' -> NoDup (ids nodes) -> same_node node node' ->
  preds_ok definition nodes node -> preds_ok definition nodes' node'.
Proof.
  intros Hs Hnd (Hid & Hst & Hp). unfold preds_ok. rewrite Hp, (same_nodes_ids _ _ Hs).
  apply forallb_mono. intros p. unfold predecessor_valid. rewrite Hid, Hst, (same_nodes_in _ _ p Hs Hnd).
  destruct (_ || _); [done|]. destruct (node_in nodes p) as [[k n]|] eqn:E; [|done].
  apply node_in_elem in E as [Hk _]. destruct (Forall2_lookup_l _ _ _ _ _ Hs Hk) as (n' & Hk' & (_ & Hs' & _)).
  by rewrite Hk', Hs'.
Qed.

Lemma same_nodes_edges nodes nodes' :
  same_nodes nodes nodes' -> flat_map node_edges nodes' = flat_map node_edges nodes.
Proof.
  induction 1 as [|n n' l l' (Hid & _ & Hp) _ IH]; [done|]. cbn. unfold node_edges at 1 3. by rewrite IH, Hid, Hp.
Qed.

Lemma same_nodes_elem nodes nodes' node' :
  same_nodes nodes nodes' -> node' ∈ nodes' -> exists node, node ∈ nodes /\ same_node node node'.
Proof.
  intros Hs [k Hk]%list_elem_of_lookup. destruct (same_nodes_lookup _ _ _ _ Hs Hk) as (n & Hn & ?).
  exists n. split; [by eapply list_elem_of_lookup_2|done].
Qed.

Lemma same_nodes_sym nodes nodes' : same_nodes nodes nodes' -> same_nodes nodes' nodes.
Proof. intros H. apply Forall2_flip. eapply Forall2_impl; [exact H|]. intros a b (?&?&?). by repeat split. Qed.

(** After such an update an instance is valid when each node is, its readiness is
    exact and its state fits its nodes. *)
Lemma instance_ok_update definition instance instance' :
  instance_ok definition instance -> same_nodes (wi_Nodes instance) (wi_Nodes instance') ->
  instance_fields_valid definition instance' = true ->
  instance_ok definition instance' <->
  Forall (fun n => alone_ok definition n /\ readiness_ok definition (wi_Nodes instance') n) (wi_Nodes instance')
  /\ state_ok instance'.
Proof.
  intros Ho Hs Hf. set (ns' := wi_Nodes instance') in *. pose proof (ok_ids _ _ Ho) as Hnd. split.
  - intros [_ Hd _ _ Hn _ Hst]. split; [|done]. apply Forall_forall. intros n Hin.
    destruct (proj1 (Forall_forall _ _) Hd n Hin) as [? _].
    destruct (proj1 (Forall_forall _ _) Hn n Hin) as (_ & ? & ? & ? & ?). done.
  - intros [Hn Hst]. constructor; fold ns'.
    + done.
    + apply Forall_forall. intros n' Hin'.
      destruct (proj1 (Forall_forall _ _) Hn n' Hin') as [(? & _) _]. split; [done|].
      destruct (same_nodes_elem _ _ _ Hs Hin') as (n & Hin & (_ & -> & _)).
      by apply (proj1 (Forall_forall _ _) (ok_declared _ _ Ho) n Hin).
    + by rewrite (same_nodes_ids _ _ Hs).
    + intros stage Hstage. destruct (ok_stages _ _ Ho stage Hstage) as (n & Hin & E).
      destruct (same_nodes_elem _ _ _ (same_nodes_sym _ _ Hs) Hin) as (n' & Hin' & (_ & ? & _)).
      exists n'. split; [done|congruence].
    + apply Forall_forall. intros n' Hin'.
      destruct (proj1 (Forall_forall _ _) Hn n' Hin') as [(? & ? & ? & ?) ?].
      destruct (same_nodes_elem _ _ _ Hs Hin') as (n & Hin & Hsn). split; [|done].
      eapply preds_ok_same; [done..|]. by apply (proj1 (Forall_forall _ _) (ok_nodes _ _ Ho) n Hin).
    + rewrite (same_nodes_ids _ _ Hs), (same_nodes_edges _ _ Hs). apply (ok_graph _ _ Ho).
    + done.
Qed.

Lemma ok_alone definition instance node :
  instance_ok definition instance -> node ∈ wi_Nodes instance ->
  alone_ok definition node /\ readiness_ok definition (wi_Nodes instance) node.
Proof.
  intros Ho Hin. destruct (proj1 (Forall_forall _ _) (ok_nodes _ _ Ho) _ Hin) as (_ & ? & ? & ? & ?).
  destruct (proj1 (Forall_forall _ _) (ok_declared _ _ Ho) _ Hin) as [? _]. done.
Qed.

(** The identifying fields of an instance after an update. *)
Definition recorded (instance : WorkflowInstance) (revision : Z) (event : UUIDv7) : WorkflowInstance :=
  instance <| wi_Revision := revision |> <| wi_LastEventID := Some event |>.

Lemma fields_recorded definition instance nodes st revision event :
  instance_fields_valid definition instance = true -> List.length nodes = List.length (wi_Nodes instance) ->
  WorkflowInstanceState_Valid st = true -> revision <> 0 -> UUIDv7_Valid event = true ->
  instance_fields_valid definition
    (recorded (instance <| wi_Nodes := nodes |> <| wi_State := st |>) revision event) = true.
Proof.
  intros H Hlen Hst Hr He. unfold instance_fields_valid in *. cbn. unfold llen in *. rewrite Hlen, Hst, He.
  rewrite (proj2 (Z.eqb_neq revision 0) Hr). rewrite negb_true_iff in *.
  repeat (rewrite orb_false_iff in H; destruct H as [H ?]).
  repeat match goal with E : _ = false |- _ => rewrite E; clear E end. reflexivity.
Qed.

(** ** One node changed *)

(** Membership of a literal state in a literal list. *)
Ltac literal H :=
  exfalso; revert H; rewrite <- contains_spec; vm_compute; discriminate.

Lemma fields_update node node' :
  same_node node node' -> wn_InputEvidenceIDs node' = wn_InputEvidenceIDs node ->
  node_fields_valid node = true ->
  node_fields_valid node' = WorkflowNodeState_Valid (wn_State node')
    && WorkflowFailureClassification_Valid (wn_FailureClassification node')
    && negb (1024 <? llen (wn_OutputEvidenceIDs node')) && workflowValidUUIDSet (wn_OutputEvidenceIDs node').
Proof.
  intros (Hid & Hst & Hp) Hi H. unfold node_fields_valid in *. rewrite Hid, Hst, Hp, Hi. rewrite negb_true_iff in H.
  repeat (rewrite orb_false_iff in H; destruct H as [H ?]).
  repeat match goal with E : _ = false |- _ => rewrite E; clear E end. cbn [orb].
  by rewrite !orb_false_r, !negb_orb, !negb_involutive.
Qed.

Lemma fields_node node :
  node_fields_valid node = true ->
  WorkflowNodeState_Valid (wn_State node) = true /\
  WorkflowFailureClassification_Valid (wn_FailureClassification node) = true /\
  (1024 <? llen (wn_OutputEvidenceIDs node)) = false /\
  workflowValidUUIDSet (wn_OutputEvidenceIDs node) = true.
Proof. intros H. rewrite (fields_update node node) in H by done. rewrite !andb_true_iff, negb_true_iff in H. tauto. Qed.

Lemma fields_classified node node' :
  same_node node node' -> wn_InputEvidenceIDs node' = wn_InputEvidenceIDs node ->
  wn_OutputEvidenceIDs node' = wn_OutputEvidenceIDs node ->
  WorkflowFailureClassification_Valid (wn_FailureClassification node') = true ->
  WorkflowNodeState_Valid (wn_State node') = true ->
  node_fields_valid node = true -> node_fields_valid node' = true.
Proof.
  intros Hs Hi Ho Hc Hst Hf. destruct (fields_node _ Hf) as (_ & _ & H2 & H3).
  rewrite (fields_update node node') by done. by rewrite Ho, Hc, Hst, H2, H3.
Qed.

Lemma fields_state node node' :
  same_node node node' -> wn_InputEvidenceIDs node' = wn_InputEvidenceIDs node ->
  wn_OutputEvidenceIDs node' = wn_OutputEvidenceIDs node ->
  wn_FailureClassification node' = wn_FailureClassification node ->
  WorkflowNodeState_Valid (wn_State node') = true ->
  node_fields_valid node = true -> node_fields_valid node' = true.
Proof.
  intros Hs Hi Ho Hc Hst Hf. apply (fields_classified node node'); try done.
  rewrite Hc. by apply fields_node.
Qed.

Ltac by_state E :=
  unfold state_fields_ok; rewrite E; split;
  [ intros (H1 & H2 & H3 & H4 & H5); try (first [apply H1 | apply H2]; apply contains_spec; reflexivity)
  | intros H0; split_and!; intros Hin; first [discriminate Hin | literal Hin | exact H0 | idtac]].

Lemma assigned_state definition node :
  wn_State node ∈ [WorkflowNodeAdmitted; WorkflowNodeRunning; WorkflowNodeCompleted] ->
  state_fields_ok definition node <-> assigned node = true.
Proof.
  rewrite !elem_of_cons, elem_of_nil. intros [E|[E|[E|[]]]]; by_state E.
Qed.

Lemma unassigned_state definition node :
  wn_State node ∈ [WorkflowNodePending; WorkflowNodeReady] ->
  state_fields_ok definition node <-> unassigned node = true.
Proof. rewrite !elem_of_cons, elem_of_nil. intros [E|[E|[]]]; by_state E. Qed.

Lemma blocked_state definition node : wn_State node = WorkflowNodeBlocked -> state_fields_ok definition node.
Proof. intros E. unfold state_fields_ok. rewrite E. split_and!; intros Hin; first [discriminate Hin | literal Hin]. Qed.

Lemma failed_state definition node :
  wn_State node = WorkflowNodeFailed ->
  state_fields_ok definition node <-> assigned node = true /\ classified node = true.
Proof.
  intros E. by_state E.
  - split; [apply H1, contains_spec; reflexivity | by apply H4].
  - by destruct H0.
  - by destruct H0.
Qed.

Lemma skipped_state definition node :
  wn_State node = WorkflowNodeSkipped ->
  state_fields_ok definition node <->
  unassigned node = true /\ workflowSkippableStage definition (wn_StageID node) = true /\ untouched node = true.
Proof.
  intros E. by_state E.
  - split; [apply H2, contains_spec; reflexivity | by apply H3].
  - by destruct H0.
  - by destruct H0.
Qed.

Lemma cancelled_state definition node :
  wn_State node = WorkflowNodeCancelled ->
  state_fields_ok definition node <-> wn_FailureClassification node = WorkflowFailureCancelled.
Proof. intros E. by_state E. by apply H5. Qed.

Definition open_state (st : WorkflowInstanceState) : Prop :=
  WorkflowInstanceState_terminal st = false /\ WorkflowInstanceState_Valid st = true.

(** A state that is not terminal fits nodes of which one is not settled. *)
Lemma state_ok_open instance :
  open_state (wi_State instance) ->
  (exists n, n ∈ wi_Nodes instance /\ settled_state (wn_State n) = false) ->
  (wi_State instance = WorkflowBlocked -> exists n, n ∈ wi_Nodes instance /\ wn_State n = WorkflowNodeBlocked) ->
  state_ok instance.
Proof.
  intros [Ht _] (n & Hn & Hs) Hb. unfold WorkflowInstanceState_terminal in Ht. bprop Ht.
  destruct Ht as [[? ?] ?]. split_and!; try done. split; [done|]. intros Hf.
  rewrite Forall_forall in Hf. rewrite (Hf n Hn) in Hs. done.
Qed.

Lemma keeps_lasting_put nodes k node node' :
  NoDup (ids nodes) -> nodes !! k = Some node -> same_node node node' -> wn_State node ∉ lasting ->
  keeps_lasting nodes (<[k := node']> nodes).
Proof.
  intros Hnd Hk Hs Hl. apply keeps_lasting_pointwise; [by eapply same_nodes_insert|done|].
  intros j a b Ha Hb Hla. destruct (decide (j = k)) as [->|Hne]; [congruence|].
  rewrite list_lookup_insert_ne in Hb by done. congruence.
Qed.

Lemma keeps_lasting_unput nodes k node node' :
  NoDup (ids nodes) -> nodes !! k = Some node -> same_node node node' -> wn_State node' ∉ lasting ->
  keeps_lasting (<[k := node']> nodes) nodes.
Proof.
  intros Hnd Hk Hs Hl. pose proof (same_nodes_insert _ _ _ _ Hk Hs) as H.
  apply keeps_lasting_pointwise; [by apply same_nodes_sym|by rewrite (same_nodes_ids _ _ H)|].
  intros j a b Ha Hb Hla. destruct (decide (j = k)) as [->|Hne].
  - rewrite list_lookup_insert_eq in Ha by (by eapply lookup_lt_Some). congruence.
  - rewrite list_lookup_insert_ne in Ha by done. congruence.
Qed.

(** A change that settles nothing. *)
Lemma quiet_update definition instance k node node' st revision event :
  let instance' := recorded (instance <| wi_Nodes := <[k := node']> (wi_Nodes instance) |> <| wi_State := st |>)
                     revision event in
  instance_ok definition instance -> wi_Nodes instance !! k = Some node -> same_node node node' ->
  wn_State node ∉ lasting -> wn_State node' ∉ lasting ->
  alone_ok definition node' -> readiness_ok definition (wi_Nodes instance) node' ->
  WorkflowInstanceState_Valid st = true -> revision <> 0 -> UUIDv7_Valid event = true ->
  state_ok instance' -> instance_ok definition instance'.
Proof.
  intros instance' Ho Hk Hs Hl Hl' Ha Hr Hst Hrev He Hso.
  pose proof (ok_ids _ _ Ho) as Hnd. pose proof (same_nodes_insert _ _ _ _ Hk Hs) as Hsn.
  assert (forall n, ready_by definition (<[k := node']> (wi_Nodes instance)) n
                    = ready_by definition (wi_Nodes instance) n) as Hrb.
  { intros n. apply ready_by_agree; [by eapply keeps_lasting_unput|by eapply keeps_lasting_put]. }
  apply (instance_ok_update definition instance instance' Ho Hsn).
  { apply fields_recorded; [apply (ok_fields _ _ Ho)|apply length_insert|done..]. }
  split; [|done]. apply Forall_forall. intros n [j Hj]%list_elem_of_lookup.
  change (wi_Nodes instance') with (<[k := node']> (wi_Nodes instance)) in *.
  unfold readiness_ok. rewrite Hrb. apply list_lookup_insert_Some in Hj as [(_ & <- & _)|[_ Hj]]; [done|].
  apply (ok_alone definition instance); [done|by eapply list_elem_of_lookup_2].
Qed.

Lemma blocked_from_iff node :
  blocked_from_valid node = true -> wn_BlockedFrom node = None <-> wn_State node <> WorkflowNodeBlocked.
Proof.
  unfold blocked_from_valid. destruct (wn_BlockedFrom node) as [from|].
  - rewrite !andb_true_iff, (bool_decide_eq_true (wn_State node = _)). intuition congruence.
  - rewrite negb_true_iff, bool_decide_eq_false. tauto.
Qed.

(** ** The transitions that settle nothing *)

Definition resumable (node : WorkflowNode) : Prop :=
  match wn_BlockedFrom node with
  | Some from => from ∈ [WorkflowNodeReady; WorkflowNodeAdmitted; WorkflowNodeRunning]
  | None => True
  end.

Section transition.
Context (definition : WorkflowDefinition) (instance : WorkflowInstance).
Context (Ho : instance_ok definition instance) (Hopen : open_state (wi_State instance)).
Context (k : nat) (node : WorkflowNode) (Hk : wi_Nodes instance !! k = Some node).
Context (revision : Z) (event : UUIDv7) (Hrev : revision <> 0) (He : UUIDv7_Valid event = true).

Let nodes := wi_Nodes instance.

Lemma node_member : node ∈ nodes.
Proof. by eapply list_elem_of_lookup_2. Qed.

Lemma put_member node' : node' ∈ <[k := node']> nodes.
Proof. apply list_elem_of_lookup. exists k. apply list_lookup_insert_eq. by eapply lookup_lt_Some. Qed.

Lemma blocked_kept node' :
  wn_State node <> WorkflowNodeBlocked \/ wn_State node' = WorkflowNodeBlocked ->
  wi_State instance = WorkflowBlocked ->
  exists n, n ∈ <[k := node']> nodes /\ wn_State n = WorkflowNodeBlocked.
Proof.
  intros Hb E. destruct (ok_state _ _ Ho) as (_ & _ & _ & H).
  destruct (H E) as (n & [j Hj]%list_elem_of_lookup & Hn).
  destruct (decide (j = k)) as [->|Hne].
  - destruct Hb as [Hb|Hb]; [congruence|]. exists node'. split; [apply put_member|done].
  - exists n. split; [|done]. apply list_elem_of_lookup. exists j. by rewrite list_lookup_insert_ne.
Qed.

Lemma put_node_open node' :
  same_node node node' -> wn_State node ∉ lasting -> wn_State node' ∉ lasting ->
  wn_State node <> WorkflowNodeBlocked \/ wn_State node' = WorkflowNodeBlocked ->
  alone_ok definition node' -> readiness_ok definition nodes node' ->
  instance_ok definition (recorded (put_node instance k node') revision event).
Proof.
  intros Hs Hl Hl' Hb Ha Hr.
  replace (put_node instance k node') with
    (instance <| wi_Nodes := <[k := node']> nodes |> <| wi_State := wi_State instance |>)
    by (unfold nodes; by destruct instance).
  eapply quiet_update; try done; [apply Hopen|]. apply state_ok_open; [done| |by apply blocked_kept].
  exists node'. split; [apply put_member|]. unfold settled_state.
  apply orb_false_iff. split; apply bool_decide_eq_false; intros E; apply Hl'; rewrite E; set_solver.
Qed.

Ltac open_node := let H := fresh in intros H; literal H.

Lemma admit_valid transition next :
  admit_transition instance k node transition = Some next ->
  instance_ok definition (recorded next revision event).
Proof.
  unfold admit_transition. destruct (_ || _) eqn:G; [done|]. intros [= <-]. bprop G.
  destruct G as [[Est Hact] Hinv].
  destruct (ok_alone _ _ _ Ho node_member) as [(Hf & Hp & Hb & Hs) _].
  apply unassigned_state in Hs; [|rewrite Est; set_solver]. unfold unassigned in Hs. bprop Hs.
  destruct Hs as [[_ _] Hat]. unfold blocked_from_valid in Hb. rewrite Est in Hb.
  destruct (wn_BlockedFrom node) as [from|] eqn:Efrom.
  { rewrite !andb_true_iff in Hb. destruct Hb as [[[_ Hb] _] _]. by apply bool_decide_eq_true in Hb. }
  apply put_node_open; [done|rewrite Est; open_node|open_node|left; rewrite Est; done| |].
  - split_and!.
    + by apply (fields_state node).
    + unfold pointers_ok in *. cbn. rewrite Hact, Hinv. rewrite !andb_true_iff in *. tauto.
    + unfold blocked_from_valid. cbn. done.
    + apply assigned_state; [set_solver|]. unfold assigned. cbn. by rewrite Hat.
  - split; discriminate.
Qed.

Lemma start_valid transition next :
  start_transition instance k node transition = Some next ->
  instance_ok definition (recorded next revision event).
Proof.
  unfold start_transition. destruct (_ || _) eqn:G; [done|]. intros [= <-]. bprop G. destruct G as [Est _].
  destruct (ok_alone _ _ _ Ho node_member) as [(Hf & Hp & Hb & Hs) _].
  apply put_node_open; [done|rewrite Est; open_node|open_node|left; rewrite Est; done| |split; discriminate].
  split_and!; [|done| |].
  - by apply (fields_state node).
  - unfold blocked_from_valid in *. cbn in *. rewrite Est in Hb. destruct (wn_BlockedFrom node) as [from|]; [|done].
    by rewrite !andb_false_r in Hb.
  - apply assigned_state; [set_solver|]. apply assigned_state in Hs; [done|]. rewrite Est. set_solver.
Qed.

Lemma checkpoint_valid transition next :
  checkpoint_transition instance k node transition = Some next ->
  instance_ok definition (recorded next revision event).
Proof.
  unfold checkpoint_transition. destruct (_ || _) eqn:G; [done|]. intros [= <-].
  apply orb_false_iff in G as [Gst Gc]. rewrite negb_false_iff in Gc.
  assert (wn_State node = WorkflowNodeAdmitted \/ wn_State node = WorkflowNodeRunning
          \/ wn_State node = WorkflowNodeBlocked) as Est.
  { revert Gst. repeat case_bool_decide; cbn; try discriminate; auto. }
  destruct (ok_alone _ _ _ Ho node_member) as [(Hf & Hp & Hb & Hs) Hr].
  assert (wn_State node ∉ lasting) by (destruct Est as [->|[->| ->]]; open_node).
  apply put_node_open; try done.
  - cbn. destruct (decide (wn_State node = WorkflowNodeBlocked)); tauto.
  - split_and!; try done.
    + unfold pointers_ok in *. cbn. rewrite !andb_true_iff in *. tauto.
    + destruct Hs as (? & ? & Hsk & ? & ?). split_and!; try done. cbn.
      intros E. rewrite E in Est. destruct Est as [Est|[Est|Est]]; discriminate Est.
Qed.

Lemma block_valid next :
  block_transition instance k node = Some next ->
  instance_ok definition (recorded next revision event).
Proof.
  unfold block_transition. destruct (_ && _) eqn:G; [done|]. intros [= <-].
  assert (wn_State node = WorkflowNodeReady \/ wn_State node = WorkflowNodeAdmitted
          \/ wn_State node = WorkflowNodeRunning) as Est.
  { revert G. repeat case_bool_decide; cbn; try discriminate; auto. }
  destruct (ok_alone _ _ _ Ho node_member) as [(Hf & Hp & Hb & Hs) Hr].
  eapply quiet_update; try done.
  - destruct Est as [->|[->| ->]]; open_node.
  - open_node.
  - split_and!; [by apply (fields_state node)|done| |by apply blocked_state].
    unfold blocked_from_valid. cbn. destruct Est as [E|[E|E]]; rewrite E; eval_tests;
      cbn -[assigned unassigned]; rewrite ?andb_true_r.
    + apply unassigned_state in Hs; [|rewrite E; set_solver]. exact Hs.
    + apply assigned_state in Hs; [|rewrite E; set_solver]. exact Hs.
    + apply assigned_state in Hs; [|rewrite E; set_solver]. exact Hs.
  - apply state_ok_open; [done| |]; [|intros _]; eexists; (split; [apply put_member|done]).
Qed.

Lemma ready_valid next :
  resumable node -> ready_transition definition instance k node = Some next ->
  instance_ok definition (recorded next revision event).
Proof.
  unfold ready_transition, resumable. intros Hres. destruct (wn_BlockedFrom node) as [from|] eqn:Efrom; [|done].
  destruct (_ || _) eqn:G; [done|]. intros [= <-]. bprop G. destruct G as [Est Hsat].
  destruct (ok_alone _ _ _ Ho node_member) as [(Hf & Hp & Hb & Hs) Hr].
  unfold blocked_from_valid in Hb. rewrite Efrom, Est, !andb_true_iff in Hb. destruct Hb as [[[[Hv _] _] Ha] Hu].
  assert ((from ∉ lasting) /\ from <> WorkflowNodeBlocked /\ settled_state from = false) as (Hl & Hnb & Hns).
  { rewrite !elem_of_cons, elem_of_nil in Hres.
    destruct Hres as [->|[->|[->|[]]]]; (split_and!; [open_node|discriminate|reflexivity]). }
  eapply quiet_update; try done.
  - rewrite Est. open_node.
  - split_and!; [by apply (fields_state node)|done| |].
    + unfold blocked_from_valid. cbn. by apply negb_true_iff, bool_decide_eq_false.
    + rewrite !elem_of_cons, elem_of_nil in Hres. destruct Hres as [->|[->|[->|[]]]].
      * apply unassigned_state; [set_solver|]. exact Hu.
      * apply assigned_state; [set_solver|]. exact Ha.
      * apply assigned_state; [set_solver|]. exact Ha.
  - split; cbn; [intros _; exact Hsat|]. intros ->. exfalso. apply Hl. revert Hres.
    rewrite <- contains_spec. vm_compute. discriminate.
  - apply state_ok_open; [done| |discriminate]. eexists. split; [apply put_member|]. exact Hns.
Qed.

(** ** The transitions that settle a node *)

Section settled.
Context (node' : WorkflowNode) (Hsame : same_node node node') (Hfresh : wn_State node ∉ lasting)
  (Hlast : wn_State node' ∈ lasting) (Hnb : wn_State node <> WorkflowNodeBlocked).

Let settled_nodes := <[k := node']> nodes.
Let swept := map (make_ready definition (put_node instance k node') settled_nodes) settled_nodes.

Lemma settled_ids : NoDup (ids settled_nodes).
Proof.
  unfold settled_nodes. rewrite (same_nodes_ids nodes) by (by eapply same_nodes_insert). apply (ok_ids _ _ Ho).
Qed.

Lemma settled_member a : a ∈ settled_nodes -> a = node' \/ a ∈ nodes.
Proof.
  intros [j Hj]%list_elem_of_lookup. apply list_lookup_insert_Some in Hj as [(_ & <- & _)|[_ Hj]]; [by left|right].
  by eapply list_elem_of_lookup_2.
Qed.

Lemma swept_ready a : ready_by definition swept a = ready_by definition settled_nodes a.
Proof.
  destruct (map_ready_agree definition (put_node instance k node') settled_nodes settled_ids) as (_ & H1 & H2).
  by apply ready_by_agree.
Qed.

Lemma settled_ready a : a ∈ nodes -> wn_State a = WorkflowNodeReady -> ready_by definition settled_nodes a = true.
Proof.
  intros Ha Est. apply (ready_by_mono _ nodes).
  - eapply keeps_lasting_put; try done. apply (ok_ids _ _ Ho).
  - by apply (ok_alone _ _ _ Ho Ha).
Qed.

Lemma last_not_pending : wn_State node' <> WorkflowNodePending /\ wn_State node' <> WorkflowNodeReady.
Proof. split; intros E; rewrite E in Hlast; literal Hlast. Qed.

Lemma swept_alone a :
  a ∈ settled_nodes -> alone_ok definition node' ->
  alone_ok definition (make_ready definition (put_node instance k node') settled_nodes a) /\
  readiness_ok definition swept (make_ready definition (put_node instance k node') settled_nodes a).
Proof.
  intros Ha Hn'. destruct last_not_pending as [Hnp Hnr].
  assert (alone_ok definition a) as Hal.
  { destruct (settled_member _ Ha) as [->|Hin]; [done|]. by apply (ok_alone _ _ _ Ho). }
  unfold readiness_ok. rewrite swept_ready, (ready_by_same _ _ a) by apply make_ready_same.
  rewrite make_ready_eq. destruct (_ && _) eqn:E.
  - bprop E. destruct E as [Ep Er]. split; [|by split]. destruct Hal as (Hf & Hp & Hb & Hs).
    split_and!; [by apply (fields_state a)|done| |].
    + unfold blocked_from_valid in *. cbn. rewrite Ep in Hb. destruct (wn_BlockedFrom a); [|done].
      by rewrite !andb_false_r in Hb.
    + apply unassigned_state; [set_solver|]. apply unassigned_state in Hs; [done|]. rewrite Ep. set_solver.
  - split; [done|]. split.
    + intros Er. destruct (settled_member _ Ha) as [->|Hin]; [done|]. by apply settled_ready.
    + intros Ep. rewrite Ep, bool_decide_refl in E. exact E.
Qed.

Lemma swept_settled :
  (count (fun n => settled_state (wn_State n)) settled_nodes =? llen settled_nodes) = true <->
  Forall (fun n => settled_state (wn_State n) = true) swept.
Proof.
  pose proof (count_either (fun n => settled_state (wn_State n)) (fun _ => false) settled_nodes
    ltac:(intros; apply andb_false_r)) as H.
  assert (count (fun _ => false) settled_nodes = 0) as E0 by (by apply count_zero). rewrite E0, Z.add_0_r in H.
  rewrite Z.eqb_eq, H. unfold swept. change (map ?f ?l) with (f <$> l). rewrite Forall_fmap. apply Forall_iff. intros n. cbn.
  rewrite orb_false_r, make_ready_eq. destruct (_ && _) eqn:E; [|done].
  bprop E. destruct E as [-> _]. cbn. done.
Qed.

Lemma settle_refresh :
  instance_ok definition (recorded (refreshWorkflowReadiness definition (put_node instance k node')) revision event)
  <-> alone_ok definition node'.
Proof.
  set (st := if count (fun n => settled_state (wn_State n)) settled_nodes =? llen settled_nodes
             then WorkflowCompleted else wi_State instance).
  assert (refreshWorkflowReadiness definition (put_node instance k node')
          = instance <| wi_Nodes := swept |> <| wi_State := st |>) as ->.
  { unfold refreshWorkflowReadiness. change (wi_Nodes (put_node instance k node')) with settled_nodes.
    rewrite sweep_ready by apply settled_ids. fold swept. unfold st, count.
    change (wi_Nodes (put_node instance k node') <| wi_Nodes := swept |>) with swept.
    assert (llen swept = llen settled_nodes) as -> by (unfold swept, llen; by rewrite length_fmap).
    destruct (_ =? _); by destruct instance. }
  assert (same_nodes nodes swept) as Hs.
  { eapply same_nodes_trans; [by eapply same_nodes_insert|]. by apply map_ready_agree, settled_ids. }
  assert (WorkflowInstanceState_Valid st = true) as Hst by (unfold st; destruct (_ =? _); [done|apply Hopen]).
  set (next := recorded _ _ _). change swept with (wi_Nodes next) in Hs.
  rewrite (instance_ok_update definition instance next Ho Hs); cycle 1.
  { apply fields_recorded; try done; [apply (ok_fields _ _ Ho)|]. symmetry. exact (Forall2_length _ _ _ Hs). }
  change (wi_Nodes next) with swept. split.
  - intros [Hf _]. rewrite Forall_forall in Hf.
    destruct (Hf (make_ready definition (put_node instance k node') settled_nodes node')) as [H _].
    { apply list_elem_of_fmap_2, put_member. }
    rewrite make_ready_eq in H. rewrite (bool_decide_eq_false_2 _ (proj1 last_not_pending)) in H. exact H.
  - intros Hn'. split.
    { apply Forall_fmap, Forall_forall. intros a Ha. by apply swept_alone. }
    unfold st. destruct (_ =? _) eqn:E.
    { apply swept_settled in E. split_and!; try discriminate. by split. }
    apply state_ok_open; [done| |].
    + assert (¬ Forall (fun n => settled_state (wn_State n) = true) swept) as Hn.
      { intros H%swept_settled. congruence. }
      apply not_Forall_Exists in Hn; [|intros n; apply _]. apply Exists_exists in Hn as (n & Hin & Hns).
      exists n. split; [done|]. by apply not_true_is_false.
    + intros Eb. destruct (blocked_kept node') as (n & Hin & Hbl); [by left|done|].
      exists (make_ready definition (put_node instance k node') settled_nodes n).
      split; [by apply list_elem_of_fmap_2|]. rewrite make_ready_eq, Hbl. done.
Qed.

(** Without the sweep, when the instance fails: no pending node may have become ready. *)
Lemma settle_failed :
  wn_State node' = WorkflowNodeFailed ->
  instance_ok definition (recorded ((put_node instance k node') <| wi_State := WorkflowFailed |>) revision event)
  <-> alone_ok definition node' /\
      existsb (fun n => in_state WorkflowNodePending n && ready_by definition settled_nodes n) settled_nodes = false.
Proof.
  intros Ef. change ((put_node instance k node') <| wi_State := WorkflowFailed |>)
    with (instance <| wi_Nodes := settled_nodes |> <| wi_State := WorkflowFailed |>).
  assert (same_nodes nodes settled_nodes) as Hs by (by eapply same_nodes_insert).
  set (next := recorded _ _ _). change settled_nodes with (wi_Nodes next) in Hs.
  rewrite (instance_ok_update definition instance next Ho Hs); cycle 1.
  { apply fields_recorded; try done; [apply (ok_fields _ _ Ho)|]. symmetry. exact (Forall2_length _ _ _ Hs). }
  change (wi_Nodes next) with settled_nodes.
  rewrite <- not_true_iff_false, existsb_exists. setoid_rewrite <- list_elem_of_In. split.
  - intros [Hf _]. rewrite Forall_forall in Hf. split; [by apply (Hf node'), put_member|].
    intros (n & Hin & H). unfold in_state in H. bprop H. destruct H as [Hp Hr].
    destruct (Hf n Hin) as [_ [_ H]]. rewrite (H Hp) in Hr. done.
  - intros [Hn' Hno]. split.
    + apply Forall_forall. intros a Ha. destruct (settled_member _ Ha) as [->|Hin].
      { split; [done|]. destruct last_not_pending. split; tauto. }
      split; [by apply (ok_alone _ _ _ Ho)|]. split; [by apply settled_ready|].
      intros Hp. destruct (ready_by _ _ a) eqn:Er; [|done]. exfalso. apply Hno. exists a. split; [done|].
      unfold in_state. by rewrite Hp, Er.
    + split_and!; try discriminate.
      * split; [discriminate|]. intros Hall. rewrite Forall_forall in Hall.
        specialize (Hall node' (put_member node')). rewrite Ef in Hall. discriminate.
      * intros _. exists node'. split; [apply put_member|done].
Qed.
End settled.

(** The checks on the node that a settling transition leaves. *)
Lemma assigned_running : wn_State node = WorkflowNodeRunning -> assigned node = true.
Proof.
  intros E. destruct (ok_alone _ _ _ Ho node_member) as [(_ & _ & _ & Hs) _].
  apply assigned_state in Hs; [done|]. rewrite E. set_solver.
Qed.

Lemma not_blocked_from : wn_State node <> WorkflowNodeBlocked -> wn_BlockedFrom node = None.
Proof.
  intros E. destruct (ok_alone _ _ _ Ho node_member) as [(_ & _ & Hb & _) _]. by apply blocked_from_iff.
Qed.

Lemma complete_exact transition next :
  complete_transition definition instance k node transition = Some next ->
  instance_ok definition (recorded next revision event) <->
  (1024 <? llen (wt_EvidenceIDs transition)) = false.
Proof.
  unfold complete_transition. destruct (_ || _) eqn:G; [done|]. intros [= <-]. bprop G.
  destruct G as [[[Est _] Hd] Hset].
  rewrite settle_refresh; try done; try (rewrite Est; first [open_node | discriminate]); [|apply contains_spec; reflexivity].
  destruct (ok_alone _ _ _ Ho node_member) as [(Hf & Hp & Hb & Hs) _]. unfold alone_ok.
  rewrite (fields_update node) by done. cbn [wn_State wn_FailureClassification wn_OutputEvidenceIDs].
  change (wn_OutputEvidenceIDs _) with (wt_EvidenceIDs transition). rewrite Hset.
  change (WorkflowNodeState_Valid _) with true. change (WorkflowFailureClassification_Valid _) with true.
  cbn [andb]. rewrite andb_true_r, negb_true_iff. split; [tauto|]. intros H. split_and!; [done| | |].
  - unfold pointers_ok in *. cbn. rewrite Hd. rewrite !andb_true_iff in *. tauto.
  - unfold blocked_from_valid. cbn. by rewrite not_blocked_from by (rewrite Est; discriminate).
  - apply assigned_state; [set_solver|]. by apply assigned_running.
Qed.

Lemma skip_exact transition next :
  skip_transition definition instance k node transition = Some next ->
  instance_ok definition (recorded next revision event) <-> untouched node = true.
Proof.
  unfold skip_transition. destruct (_ || _) eqn:G; [done|]. intros [= <-].
  repeat (apply orb_false_iff in G; destruct G as [G ?]).
  apply negb_false_iff, bool_decide_eq_true in G as Est.
  rewrite settle_refresh; try done; try (rewrite Est; first [open_node | discriminate]); [|apply contains_spec; reflexivity].
  destruct (ok_alone _ _ _ Ho node_member) as [(Hf & Hp & Hb & Hs) _]. unfold alone_ok.
  rewrite skipped_state by done. split; [tauto|]. intros Hu. split_and!; try done.
  - by apply (fields_state node).
  - unfold blocked_from_valid. cbn. by rewrite not_blocked_from by (rewrite Est; discriminate).
  - apply unassigned_state in Hs; [done|]. rewrite Est. set_solver.
  - cbn. by apply negb_false_iff.
Qed.

Definition wakes (transition : WorkflowTransition) : bool :=
  let failed := <[k := failed_node node transition]> nodes in
  existsb (fun n => in_state WorkflowNodePending n && ready_by definition failed n) failed.

Lemma fail_exact transition next :
  fail_transition definition instance k node transition = Some next ->
  instance_ok definition (recorded next revision event) <->
  (wt_FailureClassification transition == WorkflowFailureCancelled)
  || (wt_FailureClassification transition == WorkflowFailureTerminalPolicy) && wakes transition = false.
Proof.
  unfold fail_transition. destruct (_ || _) eqn:G; [done|].
  apply orb_false_iff in G as [G Hnone]. bprop G. bprop Hnone. destruct G as [[[Est _] Hd] Hcv].
  destruct (ok_alone _ _ _ Ho node_member) as [(Hf & Hp & Hb & Hs) _].
  set (node' := failed_node node transition).
  assert (alone_ok definition node' <-> (wt_FailureClassification transition == WorkflowFailureCancelled) = false)
    as Hal.
  { unfold alone_ok. rewrite failed_state by done. destruct (fields_node _ Hf) as (_ & _ & H2 & H3).
    assert (classified node' = (wt_FailureClassification transition != WorkflowFailureCancelled)) as Hc.
    { unfold classified. cbn. by rewrite (bool_decide_eq_false_2 _ Hnone). }
    rewrite Hc, <- negb_true_iff. split; [tauto|]. intros H. split_and!; try done.
    - by apply (fields_classified node).
    - unfold pointers_ok in *. cbn. rewrite Hd. rewrite !andb_true_iff in *. tauto.
    - unfold blocked_from_valid. cbn. by rewrite not_blocked_from by (rewrite Est; discriminate).
    - by apply assigned_running. }
  assert (wn_State node ∉ lasting) as Hl by (rewrite Est; open_node).
  assert (wn_State node' ∈ lasting) as Hl' by (apply contains_spec; reflexivity).
  destruct (wt_FailureClassification transition == WorkflowFailureTerminalPolicy);
    intros Hn; apply (inj Some) in Hn; subst next; rewrite orb_false_iff.
  - rewrite settle_failed by (done || (rewrite Est; discriminate)). rewrite Hal. done.
  - rewrite settle_refresh by (done || (rewrite Est; discriminate)). rewrite Hal. cbn. tauto.
Qed.
End transition.

Lemma cancel_exact definition instance revision event :
  instance_ok definition instance -> open_state (wi_State instance) ->
  revision <> 0 -> UUIDv7_Valid event = true ->
  instance_ok definition (recorded (cancel_transition instance) revision event) <->
  existsb (in_state WorkflowNodeBlocked) (wi_Nodes instance) = false.
Proof.
  intros Ho Hopen Hrev He. set (next := recorded _ _ _).
  assert (same_nodes (wi_Nodes instance) (wi_Nodes next)) as Hs.
  { apply same_nodes_map. intros n. unfold cancel_node. by case_bool_decide. }
  rewrite (instance_ok_update definition instance next Ho Hs); cycle 1.
  { apply fields_recorded; try done; [apply (ok_fields _ _ Ho)|apply length_map]. }
  change (wi_Nodes next) with (cancel_node <$> wi_Nodes instance).
  rewrite <- not_true_iff_false, existsb_exists. setoid_rewrite <- list_elem_of_In. rewrite Forall_fmap. split.
  - intros [Hf _] (n & Hin & Hb). rewrite Forall_forall in Hf. destruct (Hf n Hin) as [(_ & _ & H & _) _].
    destruct (ok_alone _ _ _ Ho Hin) as [(_ & _ & Hbf & _) _]. apply bool_decide_eq_true in Hb.
    apply blocked_from_iff in H, Hbf. unfold cancel_node in H. rewrite Hb in H. cbn in H.
    assert (WorkflowNodeCancelled <> WorkflowNodeBlocked) by discriminate. tauto.
  - intros Hno. split.
    + apply Forall_forall. intros n Hin. destruct (ok_alone _ _ _ Ho Hin) as [(Hf & Hp & Hb & Hsf) Hr]. cbn.
      unfold cancel_node. case_bool_decide as Ec; cbn [negb].
      { split; [done|]. split; rewrite Ec; discriminate. }
      split; [|split; discriminate]. destruct (fields_node _ Hf) as (_ & _ & H2 & H3). split_and!; try done.
      * by apply (fields_classified n).
      * apply blocked_from_iff in Hb. destruct (decide (wn_State n = WorkflowNodeBlocked)) as [E|E].
        { exfalso. apply Hno. exists n. split; [done|]. by apply bool_decide_eq_true. }
        apply Hb in E. unfold blocked_from_valid. cbn. by rewrite E.
      * by apply cancelled_state.
    + destruct (ok_state _ _ Ho) as (Hc & _). destruct Hopen as [Ht _].
      split_and!; try discriminate; [split; [discriminate|]|].
      * intros Hall. exfalso. unfold WorkflowInstanceState_terminal in Ht. bprop Ht. destruct Ht as [[Ht _] _]. apply Ht, Hc.
        change (wi_Nodes next) with (cancel_node <$> wi_Nodes instance) in Hall. rewrite Forall_fmap in Hall.
        eapply Forall_impl; [exact Hall|]. intros n. cbn. unfold cancel_node. case_bool_decide as E; [by rewrite E|done].
      * intros _. apply Forall_fmap, Forall_forall. intros n _. cbn. unfold cancel_node. case_bool_decide; [by left|by right].
Qed.

(** ** Which transitions leave a valid instance *)

(** The accepted transitions after which the instance no longer validates. *)
Definition snagged (definition : WorkflowDefinition) (instance : WorkflowInstance)
    (transition : WorkflowTransition) : bool :=
  let kind := wt_Kind transition in
  if kind == WorkflowTransitionCancel then existsb (in_state WorkflowNodeBlocked) (wi_Nodes instance)
  else match workflowNodeByID instance (wt_NodeID transition) with
  | None => false
  | Some (k, node) =>
    if kind == WorkflowTransitionComplete then 1024 <? llen (wt_EvidenceIDs transition)
    else if kind == WorkflowTransitionSkip then negb (untouched node)
    else if kind == WorkflowTransitionFail then
      (wt_FailureClassification transition == WorkflowFailureCancelled)
      || (wt_FailureClassification transition == WorkflowFailureTerminalPolicy)
         && wakes definition instance k node transition
    else false
  end.

Lemma valid_open definition instance :
  instance_ok definition instance -> WorkflowInstanceState_terminal (wi_State instance) = false ->
  open_state (wi_State instance).
Proof.
  intros Ho Ht. split; [done|]. pose proof (ok_fields _ _ Ho) as H. unfold instance_fields_valid in H.
  rewrite negb_true_iff in H. repeat (rewrite orb_false_iff in H; destruct H as [H ?]).
  by match goal with E : negb (WorkflowInstanceState_Valid _) = false |- _ => apply negb_false_iff in E end.
Qed.

Lemma node_transition_exact definition instance k node transition next revision event :
  instance_ok definition instance -> open_state (wi_State instance) -> resumable node ->
  workflowNodeByID instance (wt_NodeID transition) = Some (k, node) ->
  wt_Kind transition <> WorkflowTransitionCancel ->
  node_transition definition instance k node transition = Some next ->
  revision <> 0 -> UUIDv7_Valid event = true ->
  instance_ok definition (recorded next revision event) <-> snagged definition instance transition = false.
Proof.
  intros Ho Hopen Hres Hin Hkind H Hrev He. pose proof (node_in_elem _ _ _ _ Hin) as [Hk _].
  unfold snagged. rewrite (bool_decide_eq_false_2 _ Hkind), Hin. unfold node_transition in H.
  case_bool_decide as E1. { rewrite E1. eval_tests. split; [done|]. intros _. by eapply admit_valid. }
  case_bool_decide as E2. { rewrite E2. eval_tests. split; [done|]. intros _. by eapply start_valid. }
  case_bool_decide as E3. { by eapply complete_exact. }
  case_bool_decide as E4. { rewrite negb_false_iff. by eapply skip_exact. }
  case_bool_decide as E5. { by eapply fail_exact. }
  split; [done|]. intros _.
  case_bool_decide as E6. { by eapply block_valid. }
  case_bool_decide as E7. { by eapply ready_valid. }
  case_bool_decide as E8; [|done]. by eapply checkpoint_valid.
Qed.

Lemma fold_transition_exact definition instance transition next :
  instance_ok definition instance -> Forall resumable (wi_Nodes instance) ->
  u64 (wi_Revision instance + 1) <> 0 ->
  fold_transition definition instance transition = inr next ->
  instance_ok definition next <-> snagged definition instance transition = false.
Proof.
  intros Ho Hres Hrev H. unfold fold_transition in H. destruct (_ || _) eqn:G; [done|].
  bprop G. destruct G as [[Hr He] _]. rewrite <- Hr in Hrev.
  unfold applyWorkflowTransition in H. destruct (WorkflowInstanceState_terminal _) eqn:Ht; [done|].
  pose proof (valid_open _ _ Ho Ht) as Hopen.
  case_bool_decide as Ec.
  - injection H as <-. unfold snagged. rewrite (bool_decide_eq_true_2 _ Ec).
    by apply (cancel_exact definition instance (wt_Revision transition) (wt_EventID transition)).
  - destruct (workflowNodeByID instance (wt_NodeID transition)) as [[k node]|] eqn:En; [|done].
    destruct (node_transition definition instance k node transition) as [nx|] eqn:Et; [|done].
    injection H as <-. apply (node_transition_exact definition instance k node transition nx
      (wt_Revision transition) (wt_EventID transition)); try done.
    apply (proj1 (Forall_forall _ _) Hres). apply node_in_elem in En as [Hk _]. by eapply list_elem_of_lookup_2.
Qed.
