(* ===== verification/WorkflowRuns.v ===== *)
(** * Workflow instances over time: theorems

    The instances that creation, recorded transitions, expansion and admission
    can produce; the order in which their nodes work; the transitions they accept;
    when they can finish. *)

From S2P Require Import Prelude GoText GoTime Types Samples Dag Workflow WorkflowAdmission WorkflowLaws.

#[local] Opaque WorkflowDefinition_Validate UUIDv7_Valid Digest_Valid ActorFQN_Valid AggregateRef_Valid
  re_match workflowValidUUIDSet WorkflowInstanceState_Valid.

(** ** Reachable instances *)

Inductive reachable (definition : WorkflowDefinition) : WorkflowInstance -> Prop :=
| reach_new instanceID root account nodeIDs instance :
    NewWorkflowInstance definition instanceID root account nodeIDs = inr instance ->
    reachable definition instance
| reach_fold instance transitions next :
    reachable definition instance ->
    FoldWorkflowInstance definition instance transitions = inr next -> reachable definition next
| reach_expand instance placeholder event specs next :
    reachable definition instance ->
    ExpandWorkflowNode definition instance placeholder event specs = inr next -> reachable definition next
| reach_admit instance proposal facts event invocation recordedAt evaluation :
    reachable definition instance ->
    EvaluateWorkflowAdmission definition instance proposal facts event invocation recordedAt = Some evaluation ->
    reachable definition (ae_NextInstance evaluation).

Lemma when_some {A} (c : bool) (x r : A) : (if negb c then None else Some x) = Some r -> c = true /\ x = r.
Proof. destruct c; naive_solver. Qed.

Lemma FoldWorkflowInstance_inv definition instance transitions next :
  FoldWorkflowInstance definition instance transitions = inr next ->
  fold_transitions definition instance transitions = inr next /\ instance_ok definition next.
Proof.
  unfold FoldWorkflowInstance. destruct (WorkflowInstance_Validate instance definition); [cbn|done].
  destruct (fold_transitions definition instance transitions) as [|st]; [done|].
  destruct (WorkflowInstance_Validate st definition) eqn:E; [cbn|done]. intros [= <-]. by rewrite <- Validate_spec.
Qed.

Lemma reachable_ok definition instance : reachable definition instance -> instance_ok definition instance.
Proof.
  induction 1 as [id root account nodeIDs instance H|instance ts next _ _ H|instance p e specs next _ _ H
                 |instance p f e v t ev _ _ H].
  - unfold NewWorkflowInstance in H. destruct (_ || _); [done|]. destruct (negb _); [done|].
    destruct (initial_nodes _ _) as [nodes|]; [|done].
    destruct (WorkflowInstance_Validate _ definition) eqn:E; [|done]. cbn in H. injection H as <-. by apply Validate_spec.
  - by apply FoldWorkflowInstance_inv in H as [_ ?].
  - unfold ExpandWorkflowNode in H. destruct (_ || _); [done|].
    destruct (workflowNodeByID _ _) as [[k n]|]; [|done]. destruct (_ && _); [done|]. destruct (negb _); [done|].
    destruct (WorkflowInstance_Validate _ definition) eqn:E; [|done]. cbn in H. injection H as <-. by apply Validate_spec.
  - unfold EvaluateWorkflowAdmission in H. destruct (_ || _); [done|].
    match type of H with match ?x with _ => _ end = _ => destruct x as [[result next]|]; [|done] end. destruct (negb _ || negb _) eqn:E; [done|].
    injection H as <-. apply orb_false_iff in E as [E _]. cbn. by apply Validate_spec, negb_false_iff.
Qed.

(** ** What every transition keeps *)

(** A node that has not been admitted, or waits to resume as such. *)
Definition fresh (node : WorkflowNode) : Prop :=
  wn_State node = WorkflowNodePending \/ wn_State node = WorkflowNodeReady \/
  (wn_State node = WorkflowNodeBlocked /\ wn_BlockedFrom node = Some WorkflowNodeReady).

Definition phase_ok (node : WorkflowNode) : Prop :=
  resumable node /\ 0 <= wn_Attempt node <= 1 /\ (fresh node -> wn_Attempt node = 0).

Definition in_order (definition : WorkflowDefinition) (nodes : list WorkflowNode) : Prop :=
  forall node, node ∈ nodes -> wn_State node <> WorkflowNodeCancelled /\
    (wn_State node <> WorkflowNodePending -> ready_by definition nodes node = true).

Record worked (definition : WorkflowDefinition) (instance : WorkflowInstance) : Prop := mkWorked {
  wk_ids : NoDup (ids (wi_Nodes instance));
  wk_phase : Forall phase_ok (wi_Nodes instance);
  wk_order : wi_State instance = WorkflowCancelled \/ in_order definition (wi_Nodes instance)
}.

Lemma in_order_put definition nodes k node node' :
  NoDup (ids nodes) -> in_order definition nodes -> nodes !! k = Some node -> same_node node node' ->
  wn_State node ∉ lasting -> wn_State node <> WorkflowNodePending -> wn_State node' <> WorkflowNodeCancelled ->
  in_order definition (<[k := node']> nodes).
Proof.
  intros Hnd Ho Hk Hs Hl Hp Hc a [j Hj]%list_elem_of_lookup.
  pose proof (keeps_lasting_put nodes k node node' Hnd Hk Hs Hl) as Hkeep.
  apply list_lookup_insert_Some in Hj as [(_ & <- & _)|[_ Hj]].
  - split; [done|]. intros _. apply (ready_by_mono _ nodes); [done|]. rewrite (ready_by_same _ _ node) by done.
    apply Ho; [by eapply list_elem_of_lookup_2|done].
  - destruct (Ho a) as [? Hr]; [by eapply list_elem_of_lookup_2|]. split; [done|]. intros Ha.
    apply (ready_by_mono _ nodes); auto.
Qed.

Lemma in_order_sweep definition instance nodes :
  NoDup (ids nodes) -> in_order definition nodes ->
  in_order definition (sweep (make_ready definition instance) nodes).
Proof.
  intros Hnd Ho. rewrite sweep_ready by done.
  destruct (map_ready_agree definition instance nodes Hnd) as (Hs & Hk & _). intros b Hb.
  apply list_elem_of_fmap in Hb as (a & -> & Ha). destruct (Ho a Ha) as [Hc Hr].
  rewrite (ready_by_same _ _ a) by apply make_ready_same.
  destruct (make_ready_state definition instance nodes a) as [->|(_ & Hready & ->)].
  - split; [done|]. intros Hp. apply (ready_by_mono _ nodes); auto.
  - split; [discriminate|]. intros _. by apply (ready_by_mono _ nodes).
Qed.

Lemma phase_sweep definition instance nodes :
  NoDup (ids nodes) -> Forall phase_ok nodes -> Forall phase_ok (sweep (make_ready definition instance) nodes).
Proof.
  intros Hnd Hf. rewrite sweep_ready by done. apply Forall_fmap. eapply Forall_impl; [exact Hf|]. intros a Ha. cbn.
  destruct (make_ready_state definition instance nodes a) as [->|(Ep & _ & ->)]; [done|].
  destruct Ha as (H1 & H2 & H3). split_and!; try done; [apply H2..|]. intros _. cbn. apply H3. by left.
Qed.

Lemma sweep_same definition instance nodes :
  NoDup (ids nodes) -> same_nodes nodes (sweep (make_ready definition instance) nodes).
Proof. intros Hnd. rewrite sweep_ready by done. by apply map_ready_agree. Qed.

(** The part of [worked] an instance that is not cancelled has. *)
Definition orderly (definition : WorkflowDefinition) (nodes : list WorkflowNode) : Prop :=
  NoDup (ids nodes) /\ Forall phase_ok nodes /\ in_order definition nodes.

Lemma orderly_worked definition instance : orderly definition (wi_Nodes instance) -> worked definition instance.
Proof. intros (?&?&?). constructor; try done. by right. Qed.

Lemma orderly_put definition nodes k node node' :
  orderly definition nodes -> nodes !! k = Some node -> same_node node node' ->
  wn_State node ∉ lasting -> wn_State node <> WorkflowNodePending -> wn_State node' <> WorkflowNodeCancelled ->
  phase_ok node' -> orderly definition (<[k := node']> nodes).
Proof.
  intros (Hnd & Hf & Ho) Hk Hs Hl Hp Hc Hph. split_and!.
  - by rewrite (same_nodes_ids nodes) by (by eapply same_nodes_insert).
  - by apply Forall_insert.
  - by eapply in_order_put.
Qed.

Lemma orderly_refresh definition instance :
  orderly definition (wi_Nodes instance) ->
  orderly definition (wi_Nodes (refreshWorkflowReadiness definition instance)).
Proof.
  intros (Hnd & Hf & Ho).
  assert (wi_Nodes (refreshWorkflowReadiness definition instance)
          = sweep (make_ready definition instance) (wi_Nodes instance)) as ->.
  { unfold refreshWorkflowReadiness. by destruct (_ =? _). }
  split_and!; [|by apply phase_sweep|by apply in_order_sweep].
  by rewrite (same_nodes_ids (wi_Nodes instance)) by (by apply sweep_same).
Qed.

Ltac not_lasting E := rewrite E; let H := fresh in intros H; literal H.

(** The phase of a node that has left [READY]. *)
Ltac past_ready Hat :=
  split_and!; [done | apply Hat | apply Hat | let E := fresh in intros [E|[E|[E _]]]; discriminate E].

Lemma state_in (states : list WorkflowNodeState) (st st' : WorkflowNodeState) :
  st ∈ states -> contains states st' = false -> st <> st'.
Proof. intros H E ->. apply contains_spec in H. congruence. Qed.

Section step.
Context (definition : WorkflowDefinition) (instance : WorkflowInstance) (k : nat) (node : WorkflowNode).
Context (Ho : orderly definition (wi_Nodes instance)) (Hk : wi_Nodes instance !! k = Some node).

Lemma node_phase : phase_ok node.
Proof. apply (proj1 (Forall_forall _ _) (proj1 (proj2 Ho))). by eapply list_elem_of_lookup_2. Qed.

Lemma orderly_block next :
  block_transition instance k node = Some next -> orderly definition (wi_Nodes next).
Proof.
  unfold block_transition. destruct (_ && _) eqn:G; [done|]. intros [= <-].
  destruct node_phase as (Hres & Hat & Hfr).
  assert (wn_State node ∈ [WorkflowNodeReady; WorkflowNodeAdmitted; WorkflowNodeRunning]) as Est.
  { revert G. rewrite !elem_of_cons. repeat case_bool_decide; cbn; auto; discriminate. }
  eapply orderly_put; try done; [|by eapply state_in|].
  - intros Hl. unfold lasting in Hl. rewrite !elem_of_cons, elem_of_nil in Hl.
    destruct Hl as [E|[E|[E|[]]]]; revert E; by eapply state_in.
  - split_and!; try done; try apply Hat. intros [E|[E|[_ E]]]; try discriminate E.
    cbn in E. injection E as E. apply Hfr. right. by left.
Qed.

Lemma orderly_ready next :
  ready_transition definition instance k node = Some next -> orderly definition (wi_Nodes next).
Proof.
  destruct node_phase as (Hres & Hat & Hfr). unfold ready_transition, resumable in *.
  destruct (wn_BlockedFrom node) as [from|] eqn:Ef; [|done].
  destruct (_ || _) eqn:G; [done|]. intros [= <-]. bprop G. destruct G as [Est _].
  eapply orderly_put; try done; [not_lasting Est|by rewrite Est|by eapply state_in|].
  split_and!; try done; try apply Hat. cbn. intros [E|[E|[E _]]].
  - by eapply state_in in E.
  - apply Hfr. right. right. cbn in E. by rewrite <- E.
  - by eapply state_in in E.
Qed.

Lemma orderly_checkpoint transition next :
  checkpoint_transition instance k node transition = Some next -> orderly definition (wi_Nodes next).
Proof.
  unfold checkpoint_transition. destruct (_ || _) eqn:G; [done|]. intros [= <-]. apply orb_false_iff in G as [G _].
  assert (wn_State node ∈ [WorkflowNodeAdmitted; WorkflowNodeRunning; WorkflowNodeBlocked]) as Est.
  { revert G. rewrite !elem_of_cons. repeat case_bool_decide; cbn; auto; discriminate. }
  eapply orderly_put; try done; [|by eapply state_in|by eapply state_in|apply node_phase].
  intros Hl. unfold lasting in Hl. rewrite !elem_of_cons, elem_of_nil in Hl.
  destruct Hl as [E|[E|[E|[]]]]; revert E; by eapply state_in.
Qed.

(** Every case of the switch keeps the nodes in order. *)
Lemma orderly_transition transition next :
  node_transition definition instance k node transition = Some next ->
  orderly definition (wi_Nodes next).
Proof.
  intros H. destruct node_phase as (Hres & Hat & Hfr).
  unfold node_transition in H.
  repeat case_bool_decide; try discriminate H.
  - unfold admit_transition in H. accepted H. subst next. bprop G. destruct G as [[Est _] _].
    eapply orderly_put; try done; [not_lasting Est|by rewrite Est|]. split_and!; [done|..].
    + cbn. rewrite Hfr by (right; by left). done.
    + cbn. rewrite Hfr by (right; by left). done.
    + intros [E|[E|[E _]]]; discriminate E.
  - unfold start_transition in H. accepted H. subst next. bprop G. destruct G as [Est _].
    eapply orderly_put; try done; [not_lasting Est|by rewrite Est|]. past_ready Hat.
  - unfold complete_transition in H. accepted H. subst next. bprop G. destruct G as [[[Est _] _] _].
    apply orderly_refresh. eapply orderly_put; try done; [not_lasting Est|by rewrite Est|]. past_ready Hat.
  - unfold skip_transition in H. accepted H. subst next.
    repeat (apply orb_false_iff in G; destruct G as [G ?]). apply negb_false_iff, bool_decide_eq_true in G as Est.
    apply orderly_refresh. eapply orderly_put; try done; [not_lasting Est|by rewrite Est|]. past_ready Hat.
  - unfold fail_transition in H. destruct (_ || _) eqn:G; [discriminate H|].
    apply orb_false_iff in G as [G _]. bprop G. destruct G as [[[Est _] _] _].
    assert (orderly definition (wi_Nodes (put_node instance k (failed_node node transition)))) as Hp.
    { eapply orderly_put; try done; [not_lasting Est|by rewrite Est|]. past_ready Hat. }
    case_bool_decide; injection H as <-; [exact Hp|by apply orderly_refresh].
  - by eapply orderly_block.
  - by eapply orderly_ready.
  - by eapply orderly_checkpoint.
Qed.
End step.

Lemma worked_apply definition instance transition next :
  worked definition instance -> applyWorkflowTransition definition instance transition = inr next ->
  worked definition next.
Proof.
  intros [Hnd Hf Ho] H. unfold applyWorkflowTransition in H.
  destruct (WorkflowInstanceState_terminal _) eqn:Ht; [done|]. case_bool_decide.
  - injection H as <-. constructor; cbn; [| |by left].
    + rewrite (same_nodes_ids (wi_Nodes instance)); [done|]. apply same_nodes_map. intros n. unfold cancel_node.
      by case_bool_decide.
    + apply Forall_fmap. eapply Forall_impl; [exact Hf|]. intros n (H1 & H2 & H3). cbn. unfold cancel_node.
      case_bool_decide; cbn; [done|]. split_and!; try done; try apply H2. intros [E|[E|[E _]]]; discriminate E.
  - destruct (workflowNodeByID _ _) as [[k node]|] eqn:En; [|done].
    destruct (node_transition _ _ _ _ _) as [nx|] eqn:Et; [|done]. injection H as <-.
    apply orderly_worked. eapply orderly_transition; [|by eapply node_in_elem|exact Et]. split_and!; try done.
    destruct Ho as [Ec|]; [|done]. rewrite Ec in Ht. discriminate Ht.
Qed.

Lemma worked_fold definition transitions instance next :
  worked definition instance -> fold_transitions definition instance transitions = inr next ->
  worked definition next.
Proof.
  revert instance. induction transitions as [|t ts IH]; intros instance Hw; cbn; [by intros [= <-]|].
  unfold fold_transition. destruct (_ || _); [done|].
  destruct (applyWorkflowTransition definition instance t) as [|nx] eqn:Ea; [done|]. apply IH.
  destruct (worked_apply _ _ _ _ Hw Ea) as [? ? ?]. by constructor.
Qed.

(** ** Creation *)

Lemma initial_nodes_fresh byStage stages nodes :
  initial_nodes byStage stages = Some nodes ->
  Forall (fun n => (wn_State n = WorkflowNodeReady \/ wn_State n = WorkflowNodePending) /\
                   wn_Attempt n = 0 /\ wn_BlockedFrom n = None) nodes.
Proof.
  revert nodes. induction stages as [|stage stages IH]; intros nodes; cbn; [by intros [= <-]|].
  destruct (byStage !! _); [|done]. destruct (initial_nodes byStage stages) as [l|]; [|done]. intros [= <-].
  constructor; [|by apply IH]. cbn. destruct (_ =? 0); auto.
Qed.

Lemma worked_new definition instanceID root account nodeIDs instance :
  NewWorkflowInstance definition instanceID root account nodeIDs = inr instance ->
  instance_ok definition instance -> worked definition instance.
Proof.
  unfold NewWorkflowInstance. destruct (_ || _); [done|]. destruct (negb _); [done|].
  destruct (initial_nodes _ _) as [nodes|] eqn:En; [|done]. destruct (negb _); [done|]. intros [= <-] Ho.
  apply initial_nodes_fresh in En. apply orderly_worked. split_and!; [apply (ok_ids _ _ Ho)| |].
  - eapply Forall_impl; [exact En|]. intros n (_ & Ha & Hb). unfold phase_ok, resumable. by rewrite Ha, Hb.
  - intros n Hn. destruct (proj1 (Forall_forall _ _) En n Hn) as ([E|E] & _).
    + rewrite E. split; [done|]. intros _. by apply (ok_alone _ _ _ Ho Hn).
    + rewrite E. done.
Qed.

(** ** Expansion *)

Lemma sweep_ids (change : list WorkflowNode -> WorkflowNode -> WorkflowNode) nodes :
  (forall l n, wn_NodeID (change l n) = wn_NodeID n) -> ids (sweep change nodes) = ids nodes.
Proof.
  intros H. unfold sweep. generalize (seq 0 (List.length nodes)) as l. intros l. revert nodes.
  induction l as [|i l IH]; intros nodes; [done|]. cbn. rewrite IH. destruct (nodes !! i) as [n|] eqn:E; [|done].
  unfold ids. change (map ?f ?x) with (f <$> x). rewrite list_fmap_insert, H.
  apply list_insert_id. by rewrite list_lookup_fmap, E.
Qed.

Lemma ready_by_lasting definition nodes node p :
  ready_by definition nodes node = true -> p ∈ wn_PredecessorNodeIDs node ->
  exists st, state_of nodes p = Some st /\ st ∈ lasting.
Proof.
  intros H Hp.
  assert (exists states, (forall st, st ∈ states -> st ∈ lasting) /\
    forallb (node_state_in nodes states) (wn_PredecessorNodeIDs node) = true) as (states & Hs & Hf).
  { unfold ready_by, predecessorsSatisfied, predecessorsCompleted in H. cbn [wi_Nodes] in H.
    destruct (workflowStageByID definition (wn_StageID node)) as [stage|]; [|by exists [WorkflowNodeCompleted]; split; [set_solver|]].
    destruct (ws_Optional stage); [by exists [WorkflowNodeCompleted; WorkflowNodeSkipped]; split; [set_solver|]|].
    destruct (negb (recovery_purpose _)); [by exists [WorkflowNodeCompleted]; split; [set_solver|]|].
    destruct (_ =? 0); [done|]. destruct (negb _) eqn:E; [done|]. apply negb_false_iff in E.
    by exists [WorkflowNodeCompleted; WorkflowNodeFailed]; split; [set_solver|]. }
  rewrite forallb_True_iff, Forall_forall in Hf. destruct (proj1 (node_state_in_spec _ _ _) (Hf p Hp)) as (st & ? & ?). eauto.
Qed.

Section expansion.
Context (definition : WorkflowDefinition) (nodes : list WorkflowNode) (placeholder : WorkflowNode)
  (specs : list WorkflowNodeSpec).
Context (Ho : orderly definition nodes) (Hph : placeholder ∈ nodes)
  (Hst : wn_State placeholder = WorkflowNodePending \/ wn_State placeholder = WorkflowNodeReady).

Let expanded := flat_map (expand_node placeholder specs) nodes.
Context (Hnd : NoDup (ids expanded)).

Lemma expanded_elem a :
  a ∈ expanded -> (exists spec, a = node_of_spec (wn_StageID placeholder) spec) \/
  exists n, n ∈ nodes /\ wn_NodeID n <> wn_NodeID placeholder /\ expand_node placeholder specs n = [a] /\
    wn_State a = wn_State n /\ wn_Attempt a = wn_Attempt n /\ wn_BlockedFrom a = wn_BlockedFrom n.
Proof.
  unfold expanded. rewrite list_elem_of_In, in_flat_map. setoid_rewrite <- list_elem_of_In. intros (n & Hn & Ha).
  destruct (decide (wn_NodeID n = wn_NodeID placeholder)) as [E|E].
  - left. unfold expand_node in Ha. rewrite (bool_decide_eq_true_2 _ E) in Ha.
    apply list_elem_of_fmap in Ha as (spec & -> & _). eauto.
  - right. exists n. split; [done|]. split; [done|]. unfold expand_node in *.
    rewrite (bool_decide_eq_false_2 _ E) in *.
    destruct (contains _ _); apply list_elem_of_singleton in Ha as ->; done.
Qed.

Lemma expanded_keeps n :
  n ∈ nodes -> wn_NodeID n <> wn_NodeID placeholder ->
  exists a, a ∈ expanded /\ wn_NodeID a = wn_NodeID n /\ wn_State a = wn_State n.
Proof.
  intros Hn Hne. unfold expanded. setoid_rewrite list_elem_of_In. setoid_rewrite in_flat_map.
  unfold expand_node. destruct (contains (wn_PredecessorNodeIDs n) (wn_NodeID placeholder)) eqn:E.
  - eexists. split; [exists n; split; [by apply list_elem_of_In|]|].
    + rewrite (bool_decide_eq_false_2 _ Hne), E. by left.
    + done.
  - exists n. split; [exists n; split; [by apply list_elem_of_In|]|done].
    rewrite (bool_decide_eq_false_2 _ Hne), E. by left.
Qed.

Lemma placeholder_state : state_of nodes (wn_NodeID placeholder) = Some (wn_State placeholder).
Proof. by apply state_of_elem; [apply Ho|]. Qed.

Lemma placeholder_not_lasting : wn_State placeholder ∉ lasting.
Proof. destruct Hst as [E|E]; not_lasting E. Qed.

Lemma expanded_lasting : keeps_lasting nodes expanded.
Proof.
  intros id st Hl Hs. destruct (state_of_some _ _ _ Hs) as (n & Hn & <- & <-).
  destruct (expanded_keeps n Hn) as (a & Ha & <- & <-); [|by apply state_of_elem].
  intros E. rewrite E, placeholder_state in Hs. injection Hs as Hs. rewrite <- Hs in Hl. by apply placeholder_not_lasting.
Qed.

Lemma orderly_expanded : orderly definition expanded.
Proof.
  destruct Ho as (_ & Hf & Hin). split_and!; [done| |].
  - apply Forall_forall. intros a Ha. destruct (expanded_elem a Ha) as [(spec & ->)|(n & Hn & _ & _ & Es & Eat & Eb)].
    + by split_and!.
    + destruct (proj1 (Forall_forall _ _) Hf n Hn) as (H1 & H2 & H3).
      unfold phase_ok, resumable, fresh in *. by rewrite Es, Eat, Eb.
  - intros a Ha. destruct (expanded_elem a Ha) as [(spec & ->)|(n & Hn & Hne & Ee & Es & _ & _)]; [done|].
    destruct (Hin n Hn) as [Hc Hr]. rewrite Es. split; [done|]. intros Hp. specialize (Hr Hp).
    unfold expand_node in Ee. rewrite (bool_decide_eq_false_2 _ Hne) in Ee.
    destruct (contains _ _) eqn:Ec.
    { apply contains_spec in Ec. destruct (ready_by_lasting _ _ _ _ Hr Ec) as (st & Hs & Hl).
      rewrite placeholder_state in Hs. injection Hs as <-. by apply placeholder_not_lasting in Hl. }
    injection Ee as <-. apply (ready_by_mono _ nodes); [apply expanded_lasting|done].
Qed.
End expansion.

Lemma worked_expand definition instance placeholderID event specs next :
  worked definition instance -> instance_ok definition instance ->
  ExpandWorkflowNode definition instance placeholderID event specs = inr next ->
  worked definition next.
Proof.
  intros [Hnd Hf Hord] Ho H. unfold ExpandWorkflowNode in H. destruct (_ || _); [done|].
  destruct (workflowNodeByID _ _) as [[k n]|] eqn:En; [|done]. destruct (_ && _) eqn:Gs; [done|].
  destruct (negb (specs_valid _ _)); [done|].
  destruct (WorkflowInstance_Validate _ definition) eqn:E; [|done]. cbn in H. injection H as <-.
  apply Validate_spec, ok_ids in E. cbn [wi_Nodes] in E. apply node_in_elem in En as [Hk _].
  assert (n ∈ wi_Nodes instance) as Hn by (by eapply list_elem_of_lookup_2).
  assert (wn_State n = WorkflowNodePending \/ wn_State n = WorkflowNodeReady) as Hst.
  { revert Gs. repeat case_bool_decide; cbn; try discriminate; auto. }
  destruct Hord as [Hc|Hord].
  { destruct (ok_state _ _ Ho) as (_ & _ & Hall & _). specialize (Hall Hc). rewrite Forall_forall in Hall.
    destruct (Hall n Hn) as [Ex|Ex], Hst as [Ey|Ey]; rewrite Ex in Ey; discriminate Ey. }
  assert (NoDup (ids (flat_map (expand_node n specs) (wi_Nodes instance)))) as Hnd'.
  { erewrite <- sweep_ids; [exact E|]. intros l a. apply make_ready_same. }
  destruct (orderly_expanded definition (wi_Nodes instance) n specs) as (H1 & H2 & H3); try done.
  apply orderly_worked. split_and!; [exact E|by apply phase_sweep|by apply in_order_sweep].
Qed.

(** ** Admission *)

Lemma worked_ext definition instance instance' :
  wi_Nodes instance' = wi_Nodes instance -> wi_State instance' = wi_State instance ->
  worked definition instance -> worked definition instance'.
Proof. intros En Es [? ? ?]. constructor; by rewrite ?En, ?Es. Qed.

(** The transition an accepted proposal records. *)
Definition admission_of (current : WorkflowInstance) (proposal : WorkProposal) (event invocation : UUIDv7)
    (recordedAt : Time) : WorkflowTransition :=
  zero_WorkflowTransition
    <| wt_Revision := u64 (wi_Revision current + 1) |> <| wt_EventID := event |>
    <| wt_Kind := WorkflowTransitionAdmit |> <| wt_NodeID := wp_NodeID proposal |>
    <| wt_ActorFQN := wp_ActorFQN proposal |> <| wt_InvocationID := invocation |>
    <| wt_RecordedAt := recordedAt |>.

Definition proposed (current : WorkflowInstance) (proposal : WorkProposal) : WorkflowInstance :=
  current <| wi_ProposedMessageIDs := appendUniqueUUID (wi_ProposedMessageIDs current) (wp_MessageID proposal) |>.

(** The answer and the next instance of an evaluation. *)
Lemma admission_inv definition current proposal facts event invocation recordedAt evaluation :
  EvaluateWorkflowAdmission definition current proposal facts event invocation recordedAt = Some evaluation ->
  let reason := workflowAdmissionReason definition current proposal facts in
  instance_ok definition current /\ WorkProposal_Valid proposal = true /\
  ar_ReasonCode (ae_Result evaluation) = reason /\
  ((reason <> AdmissionAccepted /\ ar_Outcome (ae_Result evaluation) = WorkRejected /\
    ar_AuthorizedInvocationID (ae_Result evaluation) = None /\
    ae_NextInstance evaluation = recorded (proposed current proposal) (u64 (wi_Revision current + 1)) event) \/
   (reason = AdmissionAccepted /\ ar_Outcome (ae_Result evaluation) = WorkAdmitted /\
    ar_AuthorizedInvocationID (ae_Result evaluation) = Some invocation /\
    exists next, applyWorkflowTransition definition (proposed current proposal)
                   (admission_of current proposal event invocation recordedAt) = inr next /\
      ae_NextInstance evaluation
      = recorded (next <| wi_AcceptedMessageIDs :=
                    appendUniqueUUID (wi_AcceptedMessageIDs next) (wp_MessageID proposal) |>)
          (u64 (wi_Revision current + 1)) event)).
Proof.
  unfold EvaluateWorkflowAdmission. destruct (_ || _) eqn:G; [done|].
  repeat (apply orb_false_iff in G; destruct G as [G ?]).
  fold (admission_of current proposal event invocation recordedAt). fold (proposed current proposal).
  set (reason := workflowAdmissionReason definition current proposal facts). cbn zeta.
  assert (instance_ok definition current) as Hok by (by apply Validate_spec, negb_false_iff).
  assert (WorkProposal_Valid proposal = true) as Hv by (by apply negb_false_iff).
  destruct (decide (reason = AdmissionAccepted)) as [E|E].
  - rewrite (bool_decide_eq_true_2 _ E). unfold admit_proposal.
    destruct (applyWorkflowTransition _ _ _) as [|next] eqn:Ea; [done|].
    destruct (negb _ || negb _); [done|]. intros [= <-]. split_and!; try done. right. split_and!; try done. eauto.
  - rewrite (bool_decide_eq_false_2 _ E). destruct (negb _ || negb _); [done|]. intros [= <-].
    split_and!; try done. left. by split_and!.
Qed.

Lemma reachable_worked definition instance : reachable definition instance -> worked definition instance.
Proof.
  induction 1 as [id root account nodeIDs instance H|instance ts next Hr IH H|instance p e specs next Hr IH H
                 |instance p f e v t ev Hr IH H].
  - eapply worked_new; [exact H|]. apply reachable_ok. by eapply reach_new.
  - apply FoldWorkflowInstance_inv in H as [H _]. by eapply worked_fold.
  - eapply worked_expand; [done|by apply reachable_ok|exact H].
  - apply admission_inv in H as (_ & _ & _ & [(_ & _ & _ & ->)|(_ & _ & _ & next & Ha & ->)]).
    + by eapply worked_ext; [..|exact IH].
    + apply (worked_ext definition next); [reflexivity..|]. eapply worked_apply; [|exact Ha].
      by eapply worked_ext; [..|exact IH].
Qed.

(** ** Work follows its predecessors *)

(** [C19] In every instance that creation, recorded transitions, expansion and
    admission can produce, unless it is cancelled, a node has left [PENDING]
    exactly when its predecessors are satisfied: no node is ready, admitted,
    running, finished or skipped before they are, and none is held back after. *)
Theorem work_follows_predecessors definition instance :
  reachable definition instance -> wi_State instance <> WorkflowCancelled ->
  forall node, node ∈ wi_Nodes instance ->
    wn_State node <> WorkflowNodePending <-> predecessorsSatisfied definition instance node = true.
Proof.
  intros Hr Hc node Hn. rewrite satisfied_nodes.
  destruct (wk_order _ _ (reachable_worked _ _ Hr)) as [|Ho]; [done|]. split; [apply (Ho node Hn)|].
  intros Hs E. destruct (ok_alone _ _ _ (reachable_ok _ _ Hr) Hn) as [_ [_ Hp]]. rewrite (Hp E) in Hs. done.
Qed.

(** No node is admitted twice: its attempt counter is 0 until it is admitted
    and 1 from then on, whatever the attempt limit of its stage. *)
Theorem node_admitted_once definition instance :
  reachable definition instance ->
  forall node, node ∈ wi_Nodes instance ->
    0 <= wn_Attempt node <= 1 /\
    (wn_State node ∈ [WorkflowNodePending; WorkflowNodeReady; WorkflowNodeSkipped] -> wn_Attempt node = 0) /\
    (wn_State node ∈ [WorkflowNodeAdmitted; WorkflowNodeRunning; WorkflowNodeCompleted; WorkflowNodeFailed] ->
       wn_Attempt node = 1).
Proof.
  intros Hr node Hn. destruct (proj1 (Forall_forall _ _) (wk_phase _ _ (reachable_worked _ _ Hr)) _ Hn) as (_ & Ha & _).
  destruct (ok_alone _ _ _ (reachable_ok _ _ Hr) Hn) as [(_ & _ & _ & Hs1 & Hs2 & _) _]. split_and!; try apply Ha.
  - intros H. apply Hs2 in H. unfold unassigned in H. bprop H. tauto.
  - intros H. apply Hs1 in H. unfold assigned in H. rewrite negb_true_iff, !orb_false_iff, Z.eqb_neq in H. lia.
Qed.

(** A definition with a mandatory [REPAIR] or [REPLAN] stage has no instance
    that completes: the node of that stage works only after a predecessor has
    failed, and a failed node never settles. *)
Theorem mandatory_recovery_never_completes definition instance stage :
  reachable definition instance -> workflowStageByID definition (ws_StageID stage) = Some stage ->
  ws_Optional stage = false -> recovery_purpose (ws_Purpose stage) = true ->
  wi_State instance <> WorkflowCompleted.
Proof.
  intros Hr Hst Hopt Hrec Hc. pose proof (reachable_ok _ _ Hr) as Hok.
  assert (stage ∈ wd_Stages definition) as Hin by (apply find_some in Hst as [? _]; by apply list_elem_of_In).
  destruct (ok_stages _ _ Hok stage Hin) as (node & Hn & Es).
  destruct (ok_state _ _ Hok) as (Hall & _). apply Hall in Hc as Hsettled. rewrite Forall_forall in Hsettled.
  destruct (wk_order _ _ (reachable_worked _ _ Hr)) as [E|Ho]; [rewrite E in Hc; discriminate|].
  assert (ready_by definition (wi_Nodes instance) node = true) as H.
  { apply (Ho node Hn). intros E. specialize (Hsettled node Hn). rewrite E in Hsettled. discriminate. }
  unfold ready_by, predecessorsSatisfied in H. rewrite Es, Hst, Hopt, Hrec in H. cbn [negb] in H.
  destruct (_ =? 0); [done|]. destruct (negb _); [done|]. apply existsb_exists in H as (p & _ & Hp).
  apply node_state_in_spec in Hp as (st & Hp & Hst'). apply list_elem_of_singleton in Hst' as ->.
  apply state_of_some in Hp as (n & Hn' & _ & E). specialize (Hsettled n Hn'). rewrite E in Hsettled. discriminate.
Qed.

Lemma reachable_exact definition instance transition next :
  reachable definition instance -> u64 (wi_Revision instance + 1) <> 0 ->
  fold_transition definition instance transition = inr next ->
  instance_ok definition next <-> snagged definition instance transition = false.
Proof.
  intros Hr Hrev H. apply fold_transition_exact; try done; [by apply reachable_ok|].
  eapply Forall_impl; [exact (wk_phase _ _ (reachable_worked _ _ Hr))|]. by intros n (? & _).
Qed.

(** [C21] On a reachable instance, an accepted transition leaves an instance that
    validates except in five cases: cancelling while a node is blocked, failing a
    node as [CANCELLED], failing it by policy when that satisfies a pending
    recovery node, skipping a node that carries a record, and completing with
    more than 1024 pieces of evidence. *)
Theorem transition_validity_exact definition instance transition next :
  reachable definition instance -> u64 (wi_Revision instance + 1) <> 0 ->
  fold_transition definition instance transition = inr next ->
  WorkflowInstance_Validate next definition = negb (snagged definition instance transition).
Proof.
  intros Hr Hrev H. apply eq_true_iff_eq. rewrite Validate_spec, negb_true_iff. by apply reachable_exact.
Qed.

(** ** Workflows that can finish *)

Lemma graph_acc nodes edges x : gv_Valid (ValidateDAG nodes edges) = true -> Acc (edge_of edges) x.
Proof.
  intros H. destruct (ValidateDAG_cases nodes edges) as [(Hn & He & Hac & _)|[(_ & _ & _ & E)|[(_ & _ & E)|(_ & r & _ & E)]]];
    [|rewrite E in H; discriminate H..].
  by eapply acyclic_acc.
Qed.

Lemma edge_in nodes node p :
  node ∈ nodes -> p ∈ wn_PredecessorNodeIDs node -> edge_of (flat_map node_edges nodes) p (wn_NodeID node).
Proof.
  intros Hn Hp. unfold edge_of. apply list_elem_of_In, in_flat_map. exists node.
  split; [by apply list_elem_of_In|]. apply list_elem_of_In, (list_elem_of_fmap_2 (fun q => mkEdge q _)). done.
Qed.

Definition done_before (nodes : list WorkflowNode) (node : WorkflowNode) : Prop :=
  Forall (fun p => state_of nodes p = Some WorkflowNodeCompleted) (wn_PredecessorNodeIDs node).

(** Some node that is not completed has only completed predecessors. *)
Lemma frontier definition instance node :
  instance_ok definition instance -> node ∈ wi_Nodes instance -> wn_State node <> WorkflowNodeCompleted ->
  exists first, first ∈ wi_Nodes instance /\ wn_State first <> WorkflowNodeCompleted /\
    done_before (wi_Nodes instance) first.
Proof.
  intros Ho. pose proof (graph_acc _ _ (wn_NodeID node) (ok_graph _ _ Ho)) as Hacc.
  remember (wn_NodeID node) as id eqn:Eid. revert node Eid.
  induction Hacc as [id _ IH]; intros node -> Hn Hs.
  destruct (decide (done_before (wi_Nodes instance) node)) as [|Hno]; [eauto|].
  apply not_Forall_Exists in Hno; [|intros q; apply _]. apply Exists_exists in Hno as (p & Hp & Hps).
  assert (exists n, n ∈ wi_Nodes instance /\ wn_NodeID n = p) as (n & Hin & <-).
  { destruct (proj1 (Forall_forall _ _) (ok_nodes _ _ Ho) _ Hn) as (Hpreds & _). unfold preds_ok in Hpreds.
    rewrite forallb_True_iff, Forall_forall in Hpreds. specialize (Hpreds p Hp). unfold predecessor_valid in Hpreds.
    destruct (_ || _); [done|]. destruct (node_in (wi_Nodes instance) p) as [[k n]|] eqn:E; [|done].
    apply node_in_elem in E as [Hk Hid]. exists n. split; [by eapply list_elem_of_lookup_2|done]. }
  eapply (IH (wn_NodeID n)); [by apply edge_in|reflexivity|done|]. intros E. apply Hps.
  rewrite <- E. apply state_of_elem; [apply (ok_ids _ _ Ho)|done].
Qed.

(** A stage whose nodes wait for nothing but completed work. *)
Definition completable (definition : WorkflowDefinition) : Prop :=
  forall stage, stage ∈ wd_Stages definition -> ws_Optional stage = true \/ recovery_purpose (ws_Purpose stage) = false.

Lemma done_ready definition nodes node :
  completable definition -> done_before nodes node -> ready_by definition nodes node = true.
Proof.
  intros Hc Hd.
  assert (forall states, WorkflowNodeCompleted ∈ states ->
    forallb (node_state_in nodes states) (wn_PredecessorNodeIDs node) = true) as H.
  { intros states Hin. apply forallb_True_iff. eapply Forall_impl; [exact Hd|]. intros p Hp.
    apply node_state_in_spec. by exists WorkflowNodeCompleted. }
  unfold ready_by, predecessorsSatisfied, predecessorsCompleted. cbn [wi_Nodes].
  destruct (workflowStageByID definition (wn_StageID node)) as [stage|] eqn:E; [|apply H; set_solver].
  apply find_some in E as [E _]. apply list_elem_of_In in E. destruct (ws_Optional stage) eqn:Eo; [apply H; set_solver|].
  destruct (Hc stage E) as [?| ->]; [congruence|]. apply H. set_solver.
Qed.

(** The steps a node still needs. *)
Definition steps_left (node : WorkflowNode) : nat :=
  let steps st : nat := (if st == WorkflowNodePending then 4 else if st == WorkflowNodeReady then 3
    else if st == WorkflowNodeAdmitted then 2 else if st == WorkflowNodeRunning then 1 else 0)%nat in
  match wn_BlockedFrom node with
  | Some from => S (steps from)
  | None => steps (wn_State node)
  end.

Definition work_left (nodes : list WorkflowNode) : nat := sum_list_with steps_left nodes.

Lemma work_left_put nodes k node node' :
  nodes !! k = Some node -> (steps_left node' < steps_left node)%nat ->
  (work_left (<[k := node']> nodes) < work_left nodes)%nat.
Proof.
  unfold work_left. revert k.
  induction nodes as [|a nodes IH]; intros [|k]; cbn -[steps_left]; intros Hk Hlt; try discriminate Hk.
  - injection Hk as ->. lia.
  - apply Nat.add_lt_mono_l, (IH k Hk Hlt).
Qed.

Lemma work_left_sweep definition instance nodes :
  NoDup (ids nodes) -> (work_left (sweep (make_ready definition instance) nodes) <= work_left nodes)%nat.
Proof.
  intros Hnd. rewrite sweep_ready by done. generalize (make_ready_state definition instance nodes) as H.
  generalize (make_ready definition instance nodes) as f. clear Hnd. intros f H.
  assert (forall a, (steps_left (f a) <= steps_left a)%nat) as Hf.
  { intros a. destruct (H a) as [->|(Ep & _ & ->)]; [done|].
    unfold steps_left. cbn. destruct (wn_BlockedFrom a); [done|]. rewrite Ep. vm_compute. lia. }
  unfold work_left. clear H. induction nodes as [|a l IH]; cbn -[steps_left]; [done|]. specialize (Hf a). lia.
Qed.

Lemma sample_time_set : IsZero sample_time = false.
Proof. vm_compute. reflexivity. Qed.

(** The next step of a node at the frontier. *)
Definition step_kind (node : WorkflowNode) : WorkflowTransitionKind :=
  if wn_State node == WorkflowNodeReady then WorkflowTransitionAdmit
  else if wn_State node == WorkflowNodeAdmitted then WorkflowTransitionStart
  else if wn_State node == WorkflowNodeRunning then WorkflowTransitionComplete
  else WorkflowTransitionReady.

Definition step_of (instance : WorkflowInstance) (node : WorkflowNode) : WorkflowTransition :=
  zero_WorkflowTransition
    <| wt_Revision := u64 (wi_Revision instance + 1) |> <| wt_EventID := uid "1" |>
    <| wt_Kind := step_kind node |> <| wt_NodeID := wn_NodeID node |> <| wt_ActorFQN := actor_a |>
    <| wt_InvocationID := match wn_InvocationID node with Some id => id | None => uid "2" end |>
    <| wt_ProgressDigest := dig "a" |> <| wt_RecordedAt := sample_time |>.

Lemma step_revision instance node : wt_Revision (step_of instance node) = u64 (wi_Revision instance + 1).
Proof. reflexivity. Qed.
Lemma step_event instance node : wt_EventID (step_of instance node) = uid "1".
Proof. reflexivity. Qed.
Lemma step_time instance node : wt_RecordedAt (step_of instance node) = sample_time.
Proof. reflexivity. Qed.
Lemma step_kind_of instance node : wt_Kind (step_of instance node) = step_kind node.
Proof. reflexivity. Qed.
Lemma step_actor instance node : wt_ActorFQN (step_of instance node) = actor_a.
Proof. reflexivity. Qed.
Lemma step_invocation instance node :
  wt_InvocationID (step_of instance node) = match wn_InvocationID node with Some id => id | None => uid "2" end.
Proof. reflexivity. Qed.
Lemma step_digest instance node : wt_ProgressDigest (step_of instance node) = dig "a".
Proof. reflexivity. Qed.
Lemma uid_two_valid : UUIDv7_Valid (uid "2") = true.
Proof. vm_compute. reflexivity. Qed.
Lemma no_uuids_valid : workflowValidUUIDSet [] = true.
Proof. vm_compute. reflexivity. Qed.
Lemma step_evidence instance node : wt_EvidenceIDs (step_of instance node) = [].
Proof. reflexivity. Qed.

(** Nothing was given up. *)
Definition kept_alive (node : WorkflowNode) : Prop :=
  wn_State node ∉ [WorkflowNodeSkipped; WorkflowNodeFailed; WorkflowNodeCancelled].

Ltac open_state_literal := let H := fresh in intros H; literal H.

Section advance.
Context (definition : WorkflowDefinition) (instance : WorkflowInstance).
Context (Hr : reachable definition instance) (Hc : completable definition)
  (Hkept : Forall kept_alive (wi_Nodes instance)).
Context (k : nat) (node : WorkflowNode) (Hk : wi_Nodes instance !! k = Some node)
  (Hnc : wn_State node <> WorkflowNodeCompleted) (Hd : done_before (wi_Nodes instance) node).

Let Ho := reachable_ok _ _ Hr.
Let Hn : node ∈ wi_Nodes instance := list_elem_of_lookup_2 _ _ _ Hk.

Lemma frontier_state :
  wn_State node ∈ [WorkflowNodeReady; WorkflowNodeAdmitted; WorkflowNodeRunning; WorkflowNodeBlocked].
Proof.
  destruct (ok_alone _ _ _ Ho Hn) as [(Hf & _) [_ Hp]]. apply fields_node in Hf as (Hv & _).
  pose proof (proj1 (Forall_forall _ _) Hkept _ Hn) as Ha. unfold kept_alive in Ha.
  assert (wn_State node <> WorkflowNodePending) as Hnp.
  { intros E. specialize (Hp E). rewrite done_ready in Hp by done. discriminate. }
  unfold WorkflowNodeState_Valid in Hv. apply contains_spec in Hv. set_solver.
Qed.

Lemma still_open : WorkflowInstanceState_terminal (wi_State instance) = false.
Proof.
  destruct (ok_state _ _ Ho) as (H1 & H2 & H3 & _). unfold WorkflowInstanceState_terminal.
  rewrite !orb_false_iff, !bool_decide_eq_false.
  assert (wi_State instance <> WorkflowCompleted) as Hnot.
  { intros E%H1. rewrite Forall_forall in E. specialize (E node Hn). unfold settled_state in E.
    rewrite (bool_decide_eq_false_2 _ Hnc) in E. apply bool_decide_eq_true in E.
    apply (proj1 (Forall_forall _ _) Hkept _ Hn). rewrite E. set_solver. }
  split_and!; [done|..].
  - intros (n & Hin & E)%H2. apply (proj1 (Forall_forall _ _) Hkept _ Hin). rewrite E. set_solver.
  - intros E%H3. rewrite Forall_forall in E. destruct (E node Hn) as [|E']; [done|].
    apply (proj1 (Forall_forall _ _) Hkept _ Hn). rewrite E'. set_solver.
Qed.

(** What a step leaves at the frontier. *)
Definition stepped (nodes : list WorkflowNode) (next : WorkflowInstance) (node' : WorkflowNode) : Prop :=
  (wi_Nodes next = <[k := node']> nodes \/
   wi_Nodes next = sweep (make_ready definition (put_node instance k node')) (<[k := node']> nodes)) /\
  same_node node node' /\ (steps_left node' < steps_left node)%nat /\ kept_alive node'.

Lemma assigned_invocation : assigned node = true -> other_invocation node (step_of instance node) = false.
Proof.
  unfold assigned, other_invocation, step_of. cbn. destruct (wn_InvocationID node); [by rewrite neqb_refl|].
  by rewrite orb_true_r.
Qed.

Lemma steps_state st :
  wn_State node = st -> st <> WorkflowNodeBlocked ->
  steps_left node = steps_left (zero_WorkflowNode <| wn_State := st |>).
Proof.
  intros <- E. unfold steps_left. cbn. destruct (ok_alone _ _ _ Ho Hn) as [(_ & _ & Hb & _) _].
  by rewrite (proj2 (blocked_from_iff _ Hb) E).
Qed.

Lemma unblocked_from : wn_State node <> WorkflowNodeBlocked -> wn_BlockedFrom node = None.
Proof. intros E. destruct (ok_alone _ _ _ Ho Hn) as [(_ & _ & Hb & _) _]. by apply blocked_from_iff. Qed.

Lemma advance_node :
  exists next node', node_transition definition instance k node (step_of instance node) = Some next /\
    stepped (wi_Nodes instance) next node'.
Proof.
  destruct (ok_alone _ _ _ Ho Hn) as [(_ & _ & Hb & Hs) _].
  pose proof frontier_state as Hst. rewrite !elem_of_cons, elem_of_nil in Hst.
  unfold node_transition. rewrite step_kind_of. unfold step_kind.
  destruct Hst as [E|[E|[E|[E|[]]]]]; rewrite E; eval_tests; cbn iota.
  - unfold admit_transition. rewrite E.
    apply unassigned_state in Hs; [|rewrite E; set_solver]. unfold unassigned in Hs. bprop Hs.
    destruct Hs as [[_ Hi] _]. apply is_nil_true in Hi.
    rewrite step_actor, actor_valid, step_invocation, Hi, uid_two_valid.
    eval_tests. cbn [negb orb].
    do 2 eexists. split; [reflexivity|]. split_and!; [by left|done| |open_state_literal].
    unfold steps_left. cbn. rewrite unblocked_from by (rewrite E; discriminate). rewrite E. vm_compute. lia.
  - unfold start_transition. rewrite E, assigned_invocation by (apply assigned_state in Hs; [done|rewrite E; set_solver]).
    cbn. do 2 eexists. split; [reflexivity|]. split_and!; [by left|done| |open_state_literal].
    unfold steps_left. cbn. rewrite unblocked_from by (rewrite E; discriminate). rewrite E. vm_compute. lia.
  - unfold complete_transition. rewrite E, assigned_invocation by (apply assigned_state in Hs; [done|rewrite E; set_solver]).
    rewrite step_digest, dig_valid, step_evidence, no_uuids_valid.
    cbn [negb orb]. eval_tests. cbn [negb orb].
    do 2 eexists. split; [reflexivity|]. split_and!;
      [right; unfold refreshWorkflowReadiness; by destruct (_ =? _)|done| |open_state_literal].
    unfold steps_left. cbn. rewrite unblocked_from by (rewrite E; discriminate). rewrite E. vm_compute. lia.
  - unfold ready_transition. destruct (wn_BlockedFrom node) as [from|] eqn:Ef; cycle 1.
    { apply blocked_from_iff in Hb. by apply Hb in Ef. }
    rewrite E, satisfied_nodes, done_ready by done. cbn [negb orb]. eval_tests. cbn [negb orb].
    pose proof (proj1 (Forall_forall _ _) (wk_phase _ _ (reachable_worked _ _ Hr)) _ Hn) as (Hres & _).
    unfold resumable in Hres. rewrite Ef in Hres. do 2 eexists. split; [reflexivity|]. split_and!; [by left|done| |].
    + unfold steps_left. cbn. rewrite Ef. lia.
    + unfold kept_alive. cbn. rewrite !elem_of_cons, elem_of_nil in Hres.
      destruct Hres as [->|[->|[->|[]]]]; open_state_literal.
Qed.

Lemma advance :
  u64 (wi_Revision instance + 1) <> 0 ->
  exists transition next, fold_transition definition instance transition = inr next /\
    snagged definition instance transition = false /\ (work_left (wi_Nodes next) < work_left (wi_Nodes instance))%nat /\
    Forall kept_alive (wi_Nodes next) /\ wi_Revision next = u64 (wi_Revision instance + 1).
Proof.
  intros Hrev. destruct advance_node as (nx & node' & Ht & Hnodes & Hsame & Hlt & Hka). exists (step_of instance node).
  pose proof (ok_ids _ _ Ho) as Hnd.
  assert (workflowNodeByID instance (wt_NodeID (step_of instance node)) = Some (k, node)) as Hin by (by apply node_in_spec).
  assert (step_kind node <> WorkflowTransitionCancel) as Hkind.
  { unfold step_kind. by repeat case_bool_decide. }
  eexists. split; [|split].
  - unfold fold_transition. rewrite step_revision, step_event, step_time, Z.eqb_refl, uid_valid, sample_time_set.
    cbn [negb orb]. unfold applyWorkflowTransition. rewrite still_open, Hin, Ht, step_kind_of, (bool_decide_eq_false_2 _ Hkind).
    reflexivity.
  - unfold snagged. rewrite step_kind_of, (bool_decide_eq_false_2 _ Hkind), Hin, step_evidence. unfold step_kind.
    destruct (wn_State node == WorkflowNodeReady); [reflexivity|]. destruct (wn_State node == WorkflowNodeAdmitted); [reflexivity|].
    destruct (wn_State node == WorkflowNodeRunning); reflexivity.
  - change (wi_Nodes (nx <| wi_Revision := _ |> <| wi_LastEventID := _ |>)) with (wi_Nodes nx).
    pose proof (same_nodes_insert _ _ _ _ Hk Hsame) as Hsn.
    assert (NoDup (ids (<[k := node']> (wi_Nodes instance)))) as Hnd' by (by rewrite (same_nodes_ids _ _ Hsn)).
    assert (Forall kept_alive (<[k := node']> (wi_Nodes instance))) as Hka' by (by apply Forall_insert).
    pose proof (work_left_put _ _ _ _ Hk Hlt) as Hw. destruct Hnodes as [-> | ->]; [done|]. split_and!; [|..|done].
    + eapply Nat.le_lt_trans; [by apply work_left_sweep|done].
    + rewrite sweep_ready by done. apply Forall_fmap. eapply Forall_impl; [exact Hka'|]. intros a Ha. cbn.
      destruct (make_ready_state definition (put_node instance k node') (<[k := node']> (wi_Nodes instance)) a)
        as [->|(_ & _ & ->)]; [done|open_state_literal].
Qed.
End advance.

Lemma fold_single definition instance transition next :
  instance_ok definition instance -> fold_transition definition instance transition = inr next ->
  FoldWorkflowInstance definition instance [transition]
  = if WorkflowInstance_Validate next definition then inr next else inl ErrInvalidWorkflowInstance.
Proof.
  intros Ho H. unfold FoldWorkflowInstance. rewrite (proj2 (Validate_spec _ _) Ho). cbn. rewrite H.
  by destruct (WorkflowInstance_Validate next definition).
Qed.

Lemma fold_cons definition instance transition next transitions :
  instance_ok definition instance -> fold_transition definition instance transition = inr next ->
  instance_ok definition next ->
  FoldWorkflowInstance definition instance (transition :: transitions)
  = FoldWorkflowInstance definition next transitions.
Proof.
  intros Ho H Hn. unfold FoldWorkflowInstance.
  rewrite (proj2 (Validate_spec _ _) Ho), (proj2 (Validate_spec _ _) Hn). cbn. by rewrite H.
Qed.

Lemma all_completed definition instance :
  instance_ok definition instance -> Forall (fun n => wn_State n = WorkflowNodeCompleted) (wi_Nodes instance) ->
  wi_State instance = WorkflowCompleted.
Proof.
  intros Ho Hall. apply (ok_state _ _ Ho). eapply Forall_impl; [exact Hall|]. intros n E. cbn in E. by rewrite E.
Qed.

(** [C20] A workflow whose stages all wait for completed work can always be brought
    to its end: from every reachable instance in which nothing failed, was
    skipped or cancelled, some sequence of transitions folds to [COMPLETED],
    blocked nodes included. The graph of the nodes has no cycle, so some node
    that is not completed has only completed predecessors. *)
Theorem workflow_can_complete definition instance :
  reachable definition instance -> completable definition -> Forall kept_alive (wi_Nodes instance) ->
  0 <= wi_Revision instance -> wi_Revision instance + 1 + Z.of_nat (work_left (wi_Nodes instance)) < u64_mod ->
  exists transitions next, FoldWorkflowInstance definition instance transitions = inr next /\
    wi_State next = WorkflowCompleted.
Proof.
  intros Hr Hc. remember (work_left (wi_Nodes instance)) as n eqn:En. revert instance Hr En.
  induction (lt_wf n) as [n _ IH]. intros instance Hr -> Hk Hrev Hlt. pose proof (reachable_ok _ _ Hr) as Ho.
  destruct (decide (Forall (fun m => wn_State m = WorkflowNodeCompleted) (wi_Nodes instance))) as [Hall|Hnot].
  { exists [], instance. split; [|by eapply all_completed]. unfold FoldWorkflowInstance.
    rewrite (proj2 (Validate_spec _ _) Ho). cbn. by rewrite (proj2 (Validate_spec _ _) Ho). }
  apply not_Forall_Exists in Hnot; [|intros m; apply _]. apply Exists_exists in Hnot as (m & Hm & Hmc).
  destruct (frontier definition instance m Ho Hm Hmc) as (first & Hf & Hfc & Hfd).
  apply list_elem_of_lookup in Hf as [k Hf].
  assert (u64 (wi_Revision instance + 1) = wi_Revision instance + 1) as Eu
    by (apply u64_id; unfold is_u64, u64_mod in *; lia).
  destruct (advance definition instance Hr Hc Hk k first Hf Hfc Hfd) as (t & next & Ht & Hs & Hw & Hk' & Hv); [lia|].
  assert (instance_ok definition next) as Hn by (eapply reachable_exact; [..|exact Hs]; try done; lia).
  destruct (IH (work_left (wi_Nodes next)) Hw next) as (ts & final & Hfold & Hfin); try done; try lia.
  { eapply reach_fold; [exact Hr|]. rewrite (fold_single _ _ _ _ Ho Ht). by rewrite (proj2 (Validate_spec _ _) Hn). }
  exists (t :: ts), final. split; [|done]. by rewrite (fold_cons _ _ _ _ _ Ho Ht Hn).
Qed.

(** A workflow with a blocked node cannot be cancelled: the transition is
    accepted, but the cancelled node keeps the state it was blocked from, which
    validation refuses, so the fold returns an error. *)
Theorem blocked_workflow_cannot_be_cancelled definition instance transition node :
  reachable definition instance -> u64 (wi_Revision instance + 1) <> 0 ->
  node ∈ wi_Nodes instance -> wn_State node = WorkflowNodeBlocked ->
  wt_Kind transition = WorkflowTransitionCancel ->
  exists err, FoldWorkflowInstance definition instance [transition] = inl err.
Proof.
  intros Hr Hrev Hn Hb Hkind. pose proof (reachable_ok _ _ Hr) as Ho.
  destruct (fold_transition definition instance transition) as [err|next] eqn:Ht.
  { exists err. unfold FoldWorkflowInstance. rewrite (proj2 (Validate_spec _ _) Ho). cbn. by rewrite Ht. }
  exists ErrInvalidWorkflowInstance. rewrite (fold_single _ _ _ _ Ho Ht).
  destruct (WorkflowInstance_Validate next definition) eqn:E; [|done]. exfalso.
  apply Validate_spec, (reachable_exact _ _ _ _ Hr Hrev Ht) in E. unfold snagged in E.
  rewrite (bool_decide_eq_true_2 _ Hkind) in E. apply not_true_iff_false in E. apply E, existsb_exists.
  exists node. split; [by apply list_elem_of_In|]. by apply bool_decide_eq_true.
Qed.
