(* ===== verification/AdmissionLaws.v ===== *)
(** * Admission into a workflow: theorems

    Which proposals are admitted, what the answer changes, and how much work the
    ready frontier offers at once; the concrete workflows that accompany the
    theorems about instances. *)

From S2P Require Import Prelude GoText GoTime Types Samples Dag Workflow WorkflowAdmission WorkflowLaws WorkflowRuns.

#[local] Opaque WorkflowDefinition_Validate UUIDv7_Valid Digest_Valid ActorFQN_Valid AggregateRef_Valid
  re_match WorkflowInstanceState_Valid.

(** ** The message lists *)

Lemma uuid_set_spec values :
  workflowValidUUIDSet values = true <-> Forall (fun v => UUIDv7_Valid v = true) values /\ NoDup values.
Proof. apply check_unique_nil. Qed.

Lemma append_unique_valid values value :
  workflowValidUUIDSet values = true -> UUIDv7_Valid value = true ->
  workflowValidUUIDSet (appendUniqueUUID values value) = true.
Proof.
  unfold appendUniqueUUID. destruct (contains values value) eqn:E; [done|]. rewrite !uuid_set_spec.
  intros [Hf Hn] Hv. rewrite Forall_app, NoDup_app, Forall_singleton. split_and!; try done; [|apply NoDup_singleton].
  intros x Hx ->%list_elem_of_singleton. apply contains_spec in Hx. congruence.
Qed.

Lemma append_unique_length values value :
  llen values < 4096 -> (4096 <? llen (appendUniqueUUID values value)) = false.
Proof.
  unfold appendUniqueUUID, llen. intros H. apply Z.ltb_ge. destruct (contains values value); [lia|].
  rewrite length_app. cbn. lia.
Qed.

Lemma append_unique_elem values value : value ∈ appendUniqueUUID values value.
Proof. unfold appendUniqueUUID. destruct (contains values value) eqn:E; [by apply contains_spec|set_solver]. Qed.

#[local] Opaque workflowValidUUIDSet appendUniqueUUID.

Lemma instance_fields definition instance :
  instance_fields_valid definition instance = true ->
  workflowValidUUIDSet (wi_ProposedMessageIDs instance) = true /\
  workflowValidUUIDSet (wi_AcceptedMessageIDs instance) = true /\ UUIDv7_Valid (wi_InstanceID instance) = true /\
  WorkflowDefinition_Validate definition = true.
Proof.
  unfold instance_fields_valid. rewrite negb_true_iff. intros H.
  repeat (rewrite orb_false_iff in H; destruct H as [H ?]). rewrite !negb_false_iff in *. tauto.
Qed.

(** Recording a message keeps an instance valid. *)
Lemma proposed_ok definition instance proposal :
  instance_ok definition instance -> UUIDv7_Valid (wp_MessageID proposal) = true ->
  llen (wi_ProposedMessageIDs instance) < 4096 -> instance_ok definition (proposed instance proposal).
Proof.
  intros [Hf Hd Hn Hs Hnodes Hg Hst] Hv Hlen. constructor; try done.
  destruct (instance_fields _ _ Hf) as (Hp & _).
  unfold instance_fields_valid, proposed in *. cbn. rewrite (append_unique_length _ _ Hlen), (append_unique_valid _ _ Hp Hv).
  rewrite negb_true_iff in *. repeat (rewrite orb_false_iff in Hf; destruct Hf as [Hf ?]).
  repeat match goal with E : _ = false |- _ => rewrite E; clear E end. reflexivity.
Qed.

Definition accepted_message (instance : WorkflowInstance) (proposal : WorkProposal) : WorkflowInstance :=
  instance <| wi_AcceptedMessageIDs := appendUniqueUUID (wi_AcceptedMessageIDs instance) (wp_MessageID proposal) |>.

Lemma accepted_ok definition instance proposal :
  instance_ok definition instance -> UUIDv7_Valid (wp_MessageID proposal) = true ->
  llen (wi_AcceptedMessageIDs instance) < 4096 -> instance_ok definition (accepted_message instance proposal).
Proof.
  intros [Hf Hd Hn Hs Hnodes Hg Hst] Hv Hlen. constructor; try done.
  destruct (instance_fields _ _ Hf) as (_ & Hp & _).
  unfold instance_fields_valid, accepted_message in *. cbn.
  rewrite (append_unique_length _ _ Hlen), (append_unique_valid _ _ Hp Hv).
  rewrite negb_true_iff in *. repeat (rewrite orb_false_iff in Hf; destruct Hf as [Hf ?]).
  repeat match goal with E : _ = false |- _ => rewrite E; clear E end. reflexivity.
Qed.

Lemma recorded_ok definition instance revision event :
  instance_ok definition instance -> revision <> 0 -> UUIDv7_Valid event = true ->
  instance_ok definition (recorded instance revision event).
Proof.
  intros [Hf Hd Hn Hs Hnodes Hg Hst] Hr He. constructor; try done.
  unfold instance_fields_valid, recorded in *. cbn. rewrite He, (proj2 (Z.eqb_neq _ _) Hr).
  rewrite negb_true_iff in *. repeat (rewrite orb_false_iff in Hf; destruct Hf as [Hf ?]).
  repeat match goal with E : _ = false |- _ => rewrite E; clear E end. reflexivity.
Qed.

(** ** The decision *)

(** What admission asks of a proposal. *)
Definition admissible_proposal (definition : WorkflowDefinition) (current : WorkflowInstance)
    (proposal : WorkProposal) (facts : WorkflowAdmissionFacts) : Prop :=
  WorkflowInstanceState_terminal (wi_State current) = false /\
  (wp_MessageID proposal ∉ wi_ProposedMessageIDs current) /\
  (wp_MessageID proposal ∉ wi_AcceptedMessageIDs current) /\
  af_CausationValid facts = true /\ af_ActorEligible facts = true /\ af_BudgetAvailable facts = true /\
  exists node, node ∈ wi_Nodes current /\ wn_NodeID node = wp_NodeID proposal /\
    wn_StageID node = wp_StageID proposal /\ wn_State node = WorkflowNodeReady /\
    (forall stage, workflowStageByID definition (wn_StageID node) = Some stage ->
       recovery_purpose (ws_Purpose stage) = true -> workflowHasFailedPredecessor current node = true ->
       af_ChangedConditionProven facts = true).

Lemma stage_exists definition stageID :
  workflowStageExists definition stageID = negb (is_nil (workflowStageByID definition stageID)).
Proof.
  unfold workflowStageExists, workflowStageByID. induction (wd_Stages definition) as [|s l IH]; [done|].
  cbn. by destruct (ws_StageID s == stageID).
Qed.

(** The last guard of the reason, as an implication. *)
Lemma no_progress_guard definition current facts node stageID :
  match workflowStageByID definition stageID with
  | Some stage => recovery_purpose (ws_Purpose stage) && workflowHasFailedPredecessor current node
                  && negb (af_ChangedConditionProven facts)
  | None => false
  end = false <->
  (forall stage, workflowStageByID definition stageID = Some stage ->
     recovery_purpose (ws_Purpose stage) = true -> workflowHasFailedPredecessor current node = true ->
     af_ChangedConditionProven facts = true).
Proof.
  destruct (workflowStageByID definition stageID) as [stage|]; [|naive_solver]. split.
  - intros H s [= <-] H1 H2. rewrite H1, H2 in H. by apply negb_false_iff.
  - intros H. specialize (H stage eq_refl).
    destruct (recovery_purpose _), (workflowHasFailedPredecessor _ _), (af_ChangedConditionProven _); cbn; try done.
    by specialize (H eq_refl eq_refl).
Qed.

Lemma accepted_sound definition current proposal facts :
  workflowAdmissionReason definition current proposal facts = AdmissionAccepted ->
  admissible_proposal definition current proposal facts.
Proof.
  unfold workflowAdmissionReason. intros H. destruct (WorkflowInstanceState_terminal _) eqn:Ht; [discriminate H|].
  destruct (contains (wi_ProposedMessageIDs _) _) eqn:Hp; [discriminate H|].
  destruct (contains (wi_AcceptedMessageIDs _) _) eqn:Ha; [discriminate H|]. cbn [orb] in H.
  destruct (workflowNodeByID _ _) as [[k node]|] eqn:En; [|discriminate H].
  destruct (_ || _) eqn:Gs in H; [discriminate H|]. apply orb_false_iff in Gs as [Gs _].
  apply negb_false_iff, bool_decide_eq_true in Gs.
  case_bool_decide; [discriminate H|]. destruct (wn_State node != WorkflowNodeReady) eqn:Gr; [discriminate H|].
  apply negb_false_iff, bool_decide_eq_true in Gr.
  destruct (af_CausationValid facts) eqn:F1; [cbn in H|discriminate H].
  destruct (af_ActorEligible facts) eqn:F2; [cbn in H|discriminate H].
  destruct (af_BudgetAvailable facts) eqn:F3; [cbn in H|discriminate H].
  destruct (match workflowStageByID _ _ with Some _ => _ | None => _ end) eqn:Gp; [discriminate H|].
  pose proof (proj1 (no_progress_guard definition current facts node (wp_StageID proposal)) Gp) as Hprog.
  apply node_in_elem in En as [Hk Hid].
  apply not_true_iff_false in Hp, Ha. rewrite contains_spec in Hp, Ha.
  unfold admissible_proposal. split_and!; try done. exists node.
  split_and!; [by eapply list_elem_of_lookup_2|done..|]. by rewrite Gs.
Qed.

Lemma accepted_complete definition current proposal facts :
  instance_ok definition current -> admissible_proposal definition current proposal facts ->
  workflowAdmissionReason definition current proposal facts = AdmissionAccepted.
Proof.
  intros Ho (Ht & Hp & Ha & F1 & F2 & F3 & node & Hn & Hid & Hs & Hst & Hprog).
  rewrite <- contains_spec, not_true_iff_false in Hp, Ha. unfold workflowAdmissionReason. rewrite Ht, Hp, Ha. cbn [orb].
  apply list_elem_of_lookup in Hn as [k Hk]. pose proof (list_elem_of_lookup_2 _ _ _ Hk) as Hn.
  unfold workflowNodeByID. rewrite (proj2 (node_in_spec _ _ k node (ok_ids _ _ Ho)) (conj Hk Hid)).
  destruct (proj1 (Forall_forall _ _) (ok_declared _ _ Ho) _ Hn) as [_ Hstage].
  rewrite Hs, neqb_refl, stage_exists, <- Hs.
  assert (is_nil (workflowStageByID definition (wn_StageID node)) = false) as ->.
  { by destruct (workflowStageByID definition (wn_StageID node)). }
  rewrite Hst, F1, F2, F3. eval_tests. cbn [negb orb].
  by rewrite (proj2 (no_progress_guard definition current facts node (wn_StageID node)) Hprog).
Qed.

Lemma admission_accepted_iff definition current proposal facts :
  instance_ok definition current ->
  workflowAdmissionReason definition current proposal facts = AdmissionAccepted <->
  admissible_proposal definition current proposal facts.
Proof. intros Ho. split; [apply accepted_sound|by apply accepted_complete]. Qed.

(** ** The evaluation *)

(** Transitions leave the message lists alone. *)
Lemma apply_keeps_messages definition instance transition next :
  applyWorkflowTransition definition instance transition = inr next ->
  wi_ProposedMessageIDs next = wi_ProposedMessageIDs instance.
Proof.
  unfold applyWorkflowTransition. destruct (WorkflowInstanceState_terminal _); [done|].
  case_bool_decide; [by intros [= <-]|]. destruct (workflowNodeByID _ _) as [[k node]|]; [|done].
  destruct (node_transition _ _ _ _ _) as [nx|] eqn:E; [|done]. intros [= <-]. unfold node_transition in E.
  assert (forall i, wi_ProposedMessageIDs (refreshWorkflowReadiness definition i) = wi_ProposedMessageIDs i) as Hr.
  { intros i. unfold refreshWorkflowReadiness. by destruct (_ =? _). }
  unfold admit_transition, start_transition, complete_transition, skip_transition, fail_transition,
    block_transition, ready_transition, checkpoint_transition in E.
  repeat case_bool_decide; try discriminate E; destruct (wn_BlockedFrom node); unwhen E; try discriminate E;
    injection E as <-; rewrite ?Hr; reflexivity.
Qed.

(** Well-formed arguments addressed to the instance, with room for one message. *)
Record admission_input (current : WorkflowInstance) (proposal : WorkProposal) (event invocation : UUIDv7)
    (recordedAt : Time) : Prop := mkAdmissionInput {
  in_proposal : WorkProposal_Valid proposal = true;
  in_event : UUIDv7_Valid event = true;
  in_invocation : UUIDv7_Valid invocation = true;
  in_recordedAt : IsZero recordedAt = false;
  in_instance : wp_WorkflowInstanceID proposal = wi_InstanceID current;
  in_account : wp_BudgetAccountID proposal = wi_BudgetAccountID current;
  in_past : After (wp_ProposedAt proposal) recordedAt = false;
  in_proposed : llen (wi_ProposedMessageIDs current) < 4096;
  in_accepted : llen (wi_AcceptedMessageIDs current) < 4096;
  in_revision : u64 (wi_Revision current + 1) <> 0
}.

Lemma proposal_valid proposal :
  WorkProposal_Valid proposal = true ->
  UUIDv7_Valid (wp_ProposalID proposal) = true /\ UUIDv7_Valid (wp_MessageID proposal) = true /\
  UUIDv7_Valid (wp_NodeID proposal) = true /\ ActorFQN_Valid (wp_ActorFQN proposal) = true.
Proof. unfold WorkProposal_Valid. rewrite !andb_true_iff. tauto. Qed.

(** The node after admission. *)
Definition admitted_node (node : WorkflowNode) (proposal : WorkProposal) (invocation : UUIDv7) : WorkflowNode :=
  node <| wn_State := WorkflowNodeAdmitted |> <| wn_Attempt := u32 (wn_Attempt node + 1) |>
       <| wn_ActorFQN := Some (wp_ActorFQN proposal) |> <| wn_InvocationID := Some invocation |>.

Section evaluation.
Context (definition : WorkflowDefinition) (current : WorkflowInstance) (proposal : WorkProposal)
  (facts : WorkflowAdmissionFacts) (event invocation : UUIDv7) (recordedAt : Time).
Context (Ho : instance_ok definition current)
  (Hin : admission_input current proposal event invocation recordedAt).

Let revision := u64 (wi_Revision current + 1).
Let transition := admission_of current proposal event invocation recordedAt.

Lemma result_valid reason outcome authorized :
  (if outcome == WorkAdmitted then (reason == AdmissionAccepted) && (authorized == Some invocation)
   else (outcome == WorkRejected) && (reason != AdmissionAccepted) && is_nil authorized) = true ->
  WorkAdmissionResult_Valid
    (mkWorkAdmissionResult WorkProposalSchemaVersion (wp_ProposalID proposal) (wi_InstanceID current)
       (wp_NodeID proposal) outcome reason event authorized recordedAt) = true.
Proof.
  intros H. unfold WorkAdmissionResult_Valid. cbn [ar_SchemaVersion ar_ProposalID ar_WorkflowInstanceID ar_NodeID
    ar_Outcome ar_ReasonCode ar_RecordedEventID ar_AuthorizedInvocationID ar_RecordedAt].
  destruct (proposal_valid _ (in_proposal _ _ _ _ _ Hin)) as (-> & _ & -> & _).
  destruct (instance_fields _ _ (ok_fields _ _ Ho)) as (_ & _ & -> & _).
  rewrite (in_event _ _ _ _ _ Hin), (in_recordedAt _ _ _ _ _ Hin), neqb_refl. cbn [negb orb].
  case_bool_decide; [|done]. apply andb_true_iff in H as [-> H]. apply bool_decide_eq_true in H as ->.
  apply (in_invocation _ _ _ _ _ Hin).
Qed.

Lemma evaluation_guard :
  negb (WorkflowDefinition_Validate definition) || negb (WorkflowInstance_Validate current definition)
  || negb (WorkProposal_Valid proposal) || negb (UUIDv7_Valid event) || negb (UUIDv7_Valid invocation)
  || IsZero recordedAt || (wp_WorkflowInstanceID proposal != wi_InstanceID current)
  || (wp_BudgetAccountID proposal != wi_BudgetAccountID current) || After (wp_ProposedAt proposal) recordedAt = false.
Proof.
  destruct Hin as [-> -> -> -> -> -> -> _ _ _]. rewrite !neqb_refl, (proj2 (Validate_spec _ _) Ho).
  by destruct (instance_fields _ _ (ok_fields _ _ Ho)) as (_ & _ & _ & ->).
Qed.

Lemma rejected_evaluates :
  workflowAdmissionReason definition current proposal facts <> AdmissionAccepted ->
  exists evaluation,
    EvaluateWorkflowAdmission definition current proposal facts event invocation recordedAt = Some evaluation.
Proof.
  intros Hr. unfold EvaluateWorkflowAdmission. rewrite evaluation_guard. cbn zeta.
  rewrite (bool_decide_eq_false_2 _ Hr). cbn beta iota.
  assert (instance_ok definition (recorded (proposed current proposal) revision event)) as Hok.
  { apply recorded_ok; [|apply Hin|apply Hin]. apply proposed_ok; [done| |apply Hin]. by apply proposal_valid, Hin. }
  match goal with |- context [WorkflowInstance_Validate ?i definition] =>
    change i with (recorded (proposed current proposal) revision event) end.
  rewrite (proj2 (Validate_spec _ _) Hok).
  assert (forall r, WorkAdmissionResult_Valid r = true -> (negb true || negb (WorkAdmissionResult_Valid r)) = false)
    as Hg by (by intros r ->).
  rewrite Hg; [eauto|]. apply result_valid. rewrite (bool_decide_eq_false_2 _ Hr). reflexivity.
Qed.

Lemma admitted_evaluates :
  workflowAdmissionReason definition current proposal facts = AdmissionAccepted ->
  exists k node evaluation,
    EvaluateWorkflowAdmission definition current proposal facts event invocation recordedAt = Some evaluation /\
    wi_Nodes current !! k = Some node /\ wn_NodeID node = wp_NodeID proposal /\
    wi_Nodes (ae_NextInstance evaluation) = <[k := admitted_node node proposal invocation]> (wi_Nodes current).
Proof.
  intros Hr. pose proof (accepted_sound _ _ _ _ Hr) as (Ht & _ & _ & _ & _ & _ & node & Hn & Hid & _ & Hst & _).
  apply list_elem_of_lookup in Hn as [k Hk]. exists k, node.
  destruct (proposal_valid _ (in_proposal _ _ _ _ _ Hin)) as (_ & Hm & _ & Ha).
  assert (instance_ok definition (proposed current proposal)) as Hp by (by apply proposed_ok; [..|apply Hin]).
  set (next := put_node (proposed current proposal) k (admitted_node node proposal invocation)).
  assert (admit_transition (proposed current proposal) k node transition = Some next) as Hadmit.
  { unfold admit_transition. rewrite Hst. change (wt_ActorFQN transition) with (wp_ActorFQN proposal).
    change (wt_InvocationID transition) with invocation. rewrite Ha, (in_invocation _ _ _ _ _ Hin). reflexivity. }
  assert (applyWorkflowTransition definition (proposed current proposal) transition = inr next) as Happly.
  { unfold applyWorkflowTransition. change (wi_State (proposed current proposal)) with (wi_State current). rewrite Ht.
    change (wt_Kind transition) with WorkflowTransitionAdmit. eval_tests. cbn iota.
    unfold workflowNodeByID. change (wi_Nodes (proposed current proposal)) with (wi_Nodes current).
    change (wt_NodeID transition) with (wp_NodeID proposal).
    rewrite (proj2 (node_in_spec _ _ k node (ok_ids _ _ Ho)) (conj Hk Hid)). unfold node_transition.
    change (wt_Kind transition) with WorkflowTransitionAdmit. eval_tests. cbn iota. by rewrite Hadmit. }
  assert (instance_ok definition (recorded (accepted_message next proposal) revision event)) as Hok.
  { change (recorded (accepted_message next proposal) revision event)
      with (accepted_message (recorded next revision event) proposal).
    apply accepted_ok; [|done|apply Hin]. eapply admit_valid; [exact Hp|by eapply valid_open|exact Hk|apply Hin|apply Hin|exact Hadmit]. }
  unfold EvaluateWorkflowAdmission. rewrite evaluation_guard. cbn zeta. rewrite (bool_decide_eq_true_2 _ Hr).
  unfold admit_proposal.
  match goal with |- context [applyWorkflowTransition definition ?i ?t] =>
    change (applyWorkflowTransition definition i t)
      with (applyWorkflowTransition definition (proposed current proposal) transition) end.
  rewrite Happly. cbn beta iota.
  match goal with |- context [WorkflowInstance_Validate ?i definition] =>
    change i with (recorded (accepted_message next proposal) revision event) end.
  rewrite (proj2 (Validate_spec _ _) Hok).
  match goal with |- context [WorkAdmissionResult_Valid ?r] => assert (WorkAdmissionResult_Valid r = true) as -> end.
  { apply result_valid. rewrite Hr, (bool_decide_refl (Some invocation)). reflexivity. }
  eexists. split; [reflexivity|]. done.
Qed.
End evaluation.

(** [C22] A well-formed proposal is always answered, and it is admitted exactly
    when the workflow is open, its message is new, its node is declared for the
    stage and ready, the facts hold, and a recovery after a failure proves a
    changed condition. An admitted proposal assigns that node alone; a refused
    one changes no node. The message is recorded either way, so a second
    proposal with it is refused. *)
Theorem admission_exact definition current proposal facts event invocation recordedAt :
  reachable definition current -> admission_input current proposal event invocation recordedAt ->
  exists evaluation,
    EvaluateWorkflowAdmission definition current proposal facts event invocation recordedAt = Some evaluation /\
    (ar_Outcome (ae_Result evaluation) = WorkAdmitted <-> admissible_proposal definition current proposal facts) /\
    (ar_Outcome (ae_Result evaluation) = WorkAdmitted ->
       exists k node, wi_Nodes current !! k = Some node /\ wn_NodeID node = wp_NodeID proposal /\
         wi_Nodes (ae_NextInstance evaluation) = <[k := admitted_node node proposal invocation]> (wi_Nodes current)) /\
    (ar_Outcome (ae_Result evaluation) <> WorkAdmitted ->
       wi_Nodes (ae_NextInstance evaluation) = wi_Nodes current /\
       wi_AcceptedMessageIDs (ae_NextInstance evaluation) = wi_AcceptedMessageIDs current) /\
    wp_MessageID proposal ∈ wi_ProposedMessageIDs (ae_NextInstance evaluation).
Proof.
  intros Hr Hin. pose proof (reachable_ok _ _ Hr) as Ho. setoid_rewrite <- admission_accepted_iff; [|done].
  destruct (decide (workflowAdmissionReason definition current proposal facts = AdmissionAccepted)) as [E|E].
  - destruct (admitted_evaluates definition current proposal facts event invocation recordedAt Ho Hin E)
      as (k & node & ev & Hev & Hk & Hid & Hnodes). exists ev.
    destruct (admission_inv _ _ _ _ _ _ _ _ Hev) as (_ & _ & _ & [(? & _)|(_ & Hout & _ & next & Ha & Hnext)]); [done|].
    split_and!; try done; [naive_solver|]. rewrite Hnext.
    change (wp_MessageID proposal ∈ wi_ProposedMessageIDs next). rewrite (apply_keeps_messages _ _ _ _ Ha).
    apply append_unique_elem.
  - destruct (rejected_evaluates definition current proposal facts event invocation recordedAt Ho Hin E) as (ev & Hev).
    exists ev. destruct (admission_inv _ _ _ _ _ _ _ _ Hev) as (_ & _ & _ & [(_ & Hout & _ & Hnext)|(? & _)]); [|done].
    split_and!; try done; try (rewrite Hout; done); rewrite Hnext; try done. apply append_unique_elem.
Qed.

(** ** The ready frontier *)

Definition in_group (definition : WorkflowDefinition) (group : string) (node : WorkflowNode) : bool :=
  match workflowStageByID definition (wn_StageID node) with
  | Some stage => ws_ConcurrencyGroup stage == group
  | None => false
  end.

Definition busy (node : WorkflowNode) : bool :=
  (wn_State node == WorkflowNodeAdmitted) || (wn_State node == WorkflowNodeRunning).

Definition active_in (definition : WorkflowDefinition) (nodes : list WorkflowNode) (group : string) : Z :=
  count (fun n => busy n && in_group definition group n) nodes.

(** A table of small counts. *)
Definition counts (table : gmap string Z) (c : string -> Z) (bound : Z) : Prop :=
  forall group, mget 0 group table = c group /\ 0 <= c group <= bound.

Lemma counts_group table c bound group :
  counts table c bound -> bound < 4294967295 ->
  counts (count_group group table) (fun g => c g + (if group == g then 1 else 0)) (bound + 1).
Proof.
  intros H Hb g. unfold count_group. destruct (H g) as [Eg Hg]. destruct (H group) as [Ec Hc].
  unfold mget. destruct (decide (group = g)) as [<-|Hne].
  - rewrite lookup_insert_eq, bool_decide_refl. fold (mget 0 group table). rewrite Ec.
    split; [|lia]. unfold u32, u32_mod. apply Z.mod_small. lia.
  - rewrite lookup_insert_ne by done. fold (mget 0 g table). rewrite (bool_decide_eq_false_2 _ Hne). lia.
Qed.

Lemma count_app p l1 l2 : count p (l1 ++ l2) = count p l1 + count p l2.
Proof. unfold count, llen. rewrite List.filter_app, length_app. lia. Qed.

Lemma active_by_group_spec definition nodes table c bound :
  counts table c bound -> bound + llen nodes < 4294967295 ->
  counts (foldl (fun counts node =>
      when (wn_State node != WorkflowNodeAdmitted) && (wn_State node != WorkflowNodeRunning) return counts ;;
      match workflowStageByID definition (wn_StageID node) with
      | Some stage => count_group (ws_ConcurrencyGroup stage) counts
      | None => counts
      end) table nodes)
    (fun g => c g + active_in definition nodes g) (bound + llen nodes).
Proof.
  revert table c bound. induction nodes as [|n nodes IH]; intros table c bound Hc Hb.
  - cbn. intros g. destruct (Hc g). unfold active_in, count, llen. cbn. lia.
  - assert (llen (n :: nodes) = 1 + llen nodes) as Hl by (unfold llen; cbn [List.length]; lia). cbn [foldl].
    assert (0 <= llen nodes) by (unfold llen; lia).
    assert ((wn_State n != WorkflowNodeAdmitted) && (wn_State n != WorkflowNodeRunning) = negb (busy n)) as ->.
    { unfold busy. by rewrite negb_orb. }
    assert (forall g, active_in definition (n :: nodes) g
      = (if busy n && in_group definition g n then 1 else 0) + active_in definition nodes g) as Ha.
    { intros g. unfold active_in. by rewrite count_cons. }
    destruct (busy n) eqn:Eb; cbn [negb].
    2: { intros g. destruct (IH table c bound Hc ltac:(lia) g) as [-> ?]. rewrite Ha. cbn. lia. }
    unfold in_group in Ha. destruct (workflowStageByID definition (wn_StageID n)) as [stage|].
    + pose proof (counts_group _ _ _ (ws_ConcurrencyGroup stage) Hc ltac:(lia)) as Hc'. intros g.
      destruct (IH _ _ _ Hc' ltac:(lia) g) as [-> ?]. rewrite Ha. cbn. lia.
    + intros g. destruct (IH table c bound Hc ltac:(lia) g) as [-> ?]. rewrite Ha. cbn. lia.
Qed.

Lemma admissible_spec definition active a nodes : forall selected sel,
  counts active a 4096 ->
  counts selected (fun g => count (in_group definition g) sel) (llen sel) -> llen sel + llen nodes <= 4096 ->
  let result := admissible definition active selected nodes in
  result `sublist_of` List.filter (fun n => wn_State n == WorkflowNodeReady) nodes /\
  (forall before n after stage, result = before ++ n :: after ->
     workflowStageByID definition (wn_StageID n) = Some stage ->
     a (ws_ConcurrencyGroup stage) + count (in_group definition (ws_ConcurrencyGroup stage)) (sel ++ before)
     < ws_MaximumParallelism stage) /\
  (forall n stage, n ∈ nodes -> wn_State n = WorkflowNodeReady -> n ∉ result ->
     workflowStageByID definition (wn_StageID n) = Some stage ->
     ws_MaximumParallelism stage
     <= a (ws_ConcurrencyGroup stage) + count (in_group definition (ws_ConcurrencyGroup stage)) (sel ++ result)).
Proof.
  induction nodes as [|n nodes IH]; intros selected sel Ha Hs Hlen; cbn zeta.
  { cbn. split_and!; [done| |set_solver]. intros before ? ? ? H. by destruct before. }
  assert (llen (n :: nodes) = 1 + llen nodes) as Hl by (unfold llen; cbn [List.length]; lia).
  cbn [admissible List.filter]. case_bool_decide as Er; cbn [negb].
  2: { destruct (IH selected sel Ha Hs ltac:(lia)) as (H1 & H2 & H3). split_and!; [done|done|].
       intros m stage [->|Hm]%elem_of_cons; [done|]. by apply H3. }
  destruct (workflowStageByID definition (wn_StageID n)) as [stage|] eqn:Est.
  2: { destruct (IH selected sel Ha Hs ltac:(lia)) as (H1 & H2 & H3). split_and!; [by apply sublist_cons|done|].
       intros m st [->|Hm]%elem_of_cons; [congruence|]. by apply H3. }
  set (g := ws_ConcurrencyGroup stage). destruct (Ha g) as [Eag Hag]. destruct (Hs g) as [Esg Hsg].
  assert (u32 (mget 0 g active + mget 0 g selected) = a g + count (in_group definition g) sel) as ->.
  { rewrite Eag, Esg. unfold u32, u32_mod. apply Z.mod_small. unfold llen in *. lia. }
  destruct (Z.leb_spec (ws_MaximumParallelism stage) (a g + count (in_group definition g) sel)) as [Hfull|Hroom].
  - destruct (IH selected sel Ha Hs ltac:(lia)) as (H1 & H2 & H3). split_and!; [by apply sublist_cons|done|].
    intros m st [->|Hm]%elem_of_cons; [|by apply H3]. intros _ _. rewrite Est. intros [= <-]. fold g.
    rewrite count_app. pose proof (count_bounds (in_group definition g) (admissible definition active selected nodes)). lia.
  - assert (counts (count_group g selected) (fun h => count (in_group definition h) (sel ++ [n])) (llen (sel ++ [n]))) as Hs'.
    { pose proof (counts_group _ _ _ g Hs ltac:(unfold llen in *; lia)) as H. intros h. destruct (H h) as [-> Hb].
      rewrite count_app, count_cons.
      assert (in_group definition h n = (g == h)) as -> by (unfold in_group; by rewrite Est).
      change (count (in_group definition h) []) with 0. unfold llen in *. rewrite length_app. cbn [List.length]. lia. }
    destruct (IH (count_group g selected) (sel ++ [n]) Ha Hs') as (H1 & H2 & H3).
    { unfold llen in *. rewrite length_app. cbn [List.length]. lia. }
    split_and!; [by apply sublist_skip| |].
    + intros before m after st Eq Em. destruct before as [|b before]; injection Eq as <- Eq.
      * rewrite Est in Em. injection Em as <-. fold g. by rewrite app_nil_r.
      * specialize (H2 before m after st Eq Em). by rewrite <- app_assoc in H2.
    + intros m st [->|Hm]%elem_of_cons Hr Hno Em; [set_solver|].
      specialize (H3 m st Hm Hr ltac:(set_solver) Em). by rewrite <- app_assoc in H3.
Qed.

(** The admissible frontier of a valid instance is as large as the limits
    allow and no larger: its nodes are ready ones in order, each still finds a
    free place in its concurrency group beside the working nodes and the nodes
    offered before it, and every ready node that is left out has its group full. *)
Theorem frontier_within_limits instance definition :
  WorkflowInstance_Validate instance definition = true ->
  let result := AdmissibleReadyNodes instance definition in
  let active := active_in definition (wi_Nodes instance) in
  result `sublist_of` ReadyNodes instance /\
  (forall before n after stage, result = before ++ n :: after ->
     workflowStageByID definition (wn_StageID n) = Some stage ->
     active (ws_ConcurrencyGroup stage) + count (in_group definition (ws_ConcurrencyGroup stage)) before
     < ws_MaximumParallelism stage) /\
  (forall n stage, n ∈ ReadyNodes instance -> n ∉ result ->
     workflowStageByID definition (wn_StageID n) = Some stage ->
     ws_MaximumParallelism stage
     <= active (ws_ConcurrencyGroup stage) + count (in_group definition (ws_ConcurrencyGroup stage)) result).
Proof.
  intros Hv. unfold AdmissibleReadyNodes. rewrite Hv. cbn [negb]. cbn zeta.
  assert (llen (wi_Nodes instance) <= 4096) as Hlen.
  { apply Validate_spec, ok_fields in Hv. unfold instance_fields_valid in Hv. rewrite negb_true_iff in Hv.
    repeat (rewrite orb_false_iff in Hv; destruct Hv as [Hv ?]). by apply Z.ltb_ge. }
  assert (counts ∅ (fun _ => 0) 0) as H0 by (intros g; unfold mget; rewrite lookup_empty; lia).
  pose proof (active_by_group_spec definition (wi_Nodes instance) ∅ _ 0 H0 ltac:(lia)) as Ha.
  destruct (admissible_spec definition (active_by_group definition (wi_Nodes instance))
    (active_in definition (wi_Nodes instance)) (wi_Nodes instance) ∅ []) as (H1 & H2 & H3).
  { intros g. destruct (Ha g) as [Eg Hg]. unfold active_by_group. rewrite Eg. lia. }
  { intros g. unfold mget. rewrite lookup_empty. done. }
  { exact Hlen. }
  split_and!; [exact H1|exact H2|]. intros n stage Hn. unfold ReadyNodes in Hn.
  apply list_elem_of_In, filter_In in Hn as [Hn Hr]. apply bool_decide_eq_true in Hr. apply H3; [by apply list_elem_of_In|done].
Qed.

(** ** Concrete workflows *)

Definition sample_stage (id : string) (dependsOn : list string) (purpose : WorkflowPurpose)
    : WorkflowStageDefinition :=
  zero_WorkflowStageDefinition
    <| ws_StageID := id |> <| ws_DependsOn := Some dependsOn |> <| ws_InputSchema := "input/v1" |>
    <| ws_OutputSchema := "output/v1" |> <| ws_RequiredCapabilities := Some ["build"] |>
    <| ws_Purpose := purpose |> <| ws_Risk := WorkflowRiskLow |> <| ws_ConcurrencyGroup := "work" |>
    <| ws_MaximumParallelism := 2 |> <| ws_AttemptLimit := 2 |> <| ws_AllowedOutgoingPurposes := Some [] |>
    <| ws_TargetSelection := WorkflowTargetCapability |>
    <| ws_ValidationPolicy := WorkflowValidationDeterministic |>.

Definition sample_definition (stages : list WorkflowStageDefinition) : WorkflowDefinition :=
  let definition := zero_WorkflowDefinition
    <| wd_SchemaVersion := "1.0.0" |> <| wd_Name := "document-flow" |> <| wd_Version := "1.0.0" |>
    <| wd_TriggerTypes := Some ["document.requested"] |> <| wd_Stages := stages |>
    <| wd_RootBudgets := mkWorkflowBudgetLimits 8 8 8 0 0 |> <| wd_ProjectionRules := Some ["STATUS"] |> in
  definition <| wd_ContentDigest := CalculatedDigest definition |>.

Definition build_stage := sample_stage "build" [] WorkflowPurposeImplementation.
Definition review_stage := sample_stage "review" ["build"] WorkflowPurposeReview.
Definition repair_stage := sample_stage "repair" ["build"] WorkflowPurposeRepair.

Definition review_flow : WorkflowDefinition := sample_definition [build_stage; review_stage].
Definition repair_flow : WorkflowDefinition := sample_definition [build_stage; repair_stage].

Definition sample_new (definition : WorkflowDefinition) (second : string) : WorkflowError + WorkflowInstance :=
  NewWorkflowInstance definition (uid "1") (mkRef AggregateTask (uid "2")) (uid "3")
    (list_to_map [("build", uid "4"); (second, uid "5")]).

Definition instance_or_zero (r : WorkflowError + WorkflowInstance) : WorkflowInstance :=
  match r with inr i => i | inl _ => zero_WorkflowInstance end.

Definition review_created : WorkflowInstance := instance_or_zero (sample_new review_flow "review").
Definition repair_created : WorkflowInstance := instance_or_zero (sample_new repair_flow "repair").

Definition sample_transition (revision : Z) (kind : WorkflowTransitionKind) : WorkflowTransition :=
  zero_WorkflowTransition <| wt_Revision := revision |> <| wt_EventID := uid "6" |> <| wt_Kind := kind |>
    <| wt_NodeID := uid "4" |> <| wt_ActorFQN := actor_a |> <| wt_InvocationID := uid "7" |>
    <| wt_ProgressDigest := dig "a" |> <| wt_RecordedAt := sample_time |>.

Definition review_blocked : WorkflowInstance :=
  instance_or_zero (FoldWorkflowInstance review_flow review_created
    [sample_transition 2 WorkflowTransitionAdmit; sample_transition 3 WorkflowTransitionStart;
     sample_transition 4 WorkflowTransitionBlock]).

Definition blocking : list WorkflowTransition :=
  [sample_transition 2 WorkflowTransitionAdmit; sample_transition 3 WorkflowTransitionStart;
   sample_transition 4 WorkflowTransitionBlock].

Lemma review_new : sample_new review_flow "review" = inr review_created.
Proof. vm_compute. reflexivity. Qed.

Lemma repair_new : sample_new repair_flow "repair" = inr repair_created.
Proof. vm_compute. reflexivity. Qed.

Lemma review_blocks : FoldWorkflowInstance review_flow review_created blocking = inr review_blocked.
Proof. vm_compute. reflexivity. Qed.

Lemma review_reachable : reachable review_flow review_created.
Proof. exact (reach_new _ _ _ _ _ _ review_new). Qed.

Lemma repair_reachable : reachable repair_flow repair_created.
Proof. exact (reach_new _ _ _ _ _ _ repair_new). Qed.

Lemma blocked_reachable : reachable review_flow review_blocked.
Proof. exact (reach_fold _ _ _ _ review_reachable review_blocks). Qed.

Definition blocked_node : WorkflowNode :=
  match wi_Nodes review_blocked with node :: _ => node | [] => zero_WorkflowNode end.

Lemma blocked_member : blocked_node ∈ wi_Nodes review_blocked.
Proof. apply (list_elem_of_lookup_2 _ 0). vm_compute. reflexivity. Qed.

Definition cancellation : WorkflowTransition := sample_transition 5 WorkflowTransitionCancel.

Definition sample_proposal : WorkProposal :=
  zero_WorkProposal <| wp_SchemaVersion := "1.0.0" |> <| wp_ProposalID := uid "8" |> <| wp_MessageID := uid "9" |>
    <| wp_WorkflowInstanceID := uid "1" |> <| wp_StageID := "build" |> <| wp_NodeID := uid "4" |>
    <| wp_ActorFQN := actor_a |> <| wp_Execution := mkExec (uid "a") 1 |> <| wp_BudgetAccountID := uid "3" |>
    <| wp_CausationEventIDs := [uid "b"] |> <| wp_ProposedAt := sample_time |>.

Lemma sample_input : admission_input review_created sample_proposal (uid "c") (uid "d") sample_time.
Proof. constructor; vm_compute; congruence. Qed.

Lemma review_completable : completable review_flow.
Proof.
  intros stage Hs. change (wd_Stages review_flow) with [build_stage; review_stage] in Hs.
  rewrite !elem_of_cons, elem_of_nil in Hs. destruct Hs as [->|[->|[]]]; right; reflexivity.
Qed.

#[global] Instance kept_alive_dec node : Decision (kept_alive node).
Proof. unfold kept_alive. apply _. Defined.

Lemma work_follows_predecessors_witness :
  wn_State blocked_node <> WorkflowNodePending <->
  predecessorsSatisfied review_flow review_blocked blocked_node = true.
Proof.
  apply (work_follows_predecessors review_flow review_blocked); [exact blocked_reachable| |exact blocked_member].
  vm_compute. discriminate.
Defined.

Lemma node_admitted_once_witness : 0 <= wn_Attempt blocked_node <= 1.
Proof. apply (node_admitted_once review_flow review_blocked blocked_reachable blocked_node blocked_member). Defined.

Lemma mandatory_recovery_never_completes_witness : wi_State repair_created <> WorkflowCompleted.
Proof.
  apply (mandatory_recovery_never_completes repair_flow repair_created repair_stage repair_reachable);
    vm_compute; reflexivity.
Defined.

Lemma transition_validity_exact_witness :
  WorkflowInstance_Validate (instance_or_zero (fold_transition review_flow review_blocked cancellation)) review_flow
  = negb (snagged review_flow review_blocked cancellation).
Proof.
  apply (transition_validity_exact review_flow review_blocked cancellation _ blocked_reachable);
    vm_compute; [discriminate|reflexivity].
Defined.

Lemma workflow_can_complete_witness :
  exists transitions next, FoldWorkflowInstance review_flow review_blocked transitions = inr next /\
    wi_State next = WorkflowCompleted.
Proof.
  apply (workflow_can_complete review_flow review_blocked blocked_reachable review_completable).
  - apply (bool_decide_unpack _). vm_compute. exact I.
  - vm_compute. discriminate.
  - vm_compute. reflexivity.
Defined.

Lemma blocked_workflow_cannot_be_cancelled_witness :
  exists err, FoldWorkflowInstance review_flow review_blocked [cancellation] = inl err.
Proof.
  apply (blocked_workflow_cannot_be_cancelled review_flow review_blocked cancellation blocked_node
           blocked_reachable); [|exact blocked_member| |]; vm_compute; first [discriminate | reflexivity].
Defined.

Lemma admission_exact_witness :
  exists evaluation,
    EvaluateWorkflowAdmission review_flow review_created sample_proposal (mkAdmissionFacts true true true false)
      (uid "c") (uid "d") sample_time = Some evaluation /\
    wp_MessageID sample_proposal ∈ wi_ProposedMessageIDs (ae_NextInstance evaluation).
Proof.
  destruct (admission_exact review_flow review_created sample_proposal (mkAdmissionFacts true true true false)
    (uid "c") (uid "d") sample_time review_reachable sample_input) as (ev & Hev & _ & _ & _ & Hm).
  exists ev. split; [exact Hev|exact Hm].
Defined.

Lemma frontier_within_limits_witness :
  AdmissibleReadyNodes review_created review_flow `sublist_of` ReadyNodes review_created.
Proof. apply (frontier_within_limits review_created review_flow). vm_compute. reflexivity. Defined.

(** A running node of the repair flow: a failure by policy cannot be recorded,
    because the repair node would have become ready. *)
Definition repair_running : WorkflowInstance :=
  instance_or_zero (FoldWorkflowInstance repair_flow repair_created
    [sample_transition 2 WorkflowTransitionAdmit; sample_transition 3 WorkflowTransitionStart]).

Example policy_failure_refused :
  FoldWorkflowInstance repair_flow repair_running
    [(sample_transition 4 WorkflowTransitionFail) <| wt_FailureClassification := WorkflowFailureTerminalPolicy |>]
  = inl ErrInvalidWorkflowInstance /\
  wi_State (instance_or_zero (FoldWorkflowInstance repair_flow repair_running
    [(sample_transition 4 WorkflowTransitionFail) <| wt_FailureClassification := WorkflowFailureCorrectableWork |>]))
  = WorkflowActive.
Proof. split; vm_compute; reflexivity. Qed.
