(* ===== verification/ExecutionCoordinator.v ===== *)
(** * Execution control ([adapters/memory/execution_control.go], [application/execution_coordinator.go])

    A coordinator reserves an execution, has its start authorised by the command
    handler, and then starts, stops, inspects or reconciles it in an external
    engine, recording each step in a control store by compare-and-swap. Every call
    of the store takes its lock, so a coordinator is a program whose calls are
    atomic, and several coordinators interleave between the calls.

    The command service and the engine are interfaces: a call of theirs may return
    any receipt, observation or error, and the engine may act whatever it returns. *)

From S2P Require Import Prelude GoText GoTime GoJson Types Samples Envelope Provenance MemoryStore.

(** ** The control record *)

Definition ExecutionState := string.
Definition ExecutionStarting : ExecutionState := "STARTING".
Definition ExecutionRunning : ExecutionState := "RUNNING".
Definition ExecutionStopping : ExecutionState := "STOPPING".
Definition ExecutionStopped : ExecutionState := "STOPPED".
Definition ExecutionUncertain : ExecutionState := "UNCERTAIN".

Record StartExecutionRequest := mkStartExecution {
  sx_ActorFQN : ActorFQN;
  sx_ExecutionID : UUIDv7;
  sx_FencingEpoch : Z;
  sx_RuntimeIdentity : Digest;
  sx_IdempotencyKey : string
}.
#[global] Instance StartExecutionRequest_eq_dec : EqDecision StartExecutionRequest.
Proof. solve_decision. Defined.

Record ExecutionObservation := mkObservation {
  xo_ActorFQN : ActorFQN;
  xo_ExecutionID : UUIDv7;
  xo_FencingEpoch : Z;
  xo_State : ExecutionState
}.

Definition ExecutionControlState := string.
Definition ControlPendingAuthorization : ExecutionControlState := "PENDING_AUTHORIZATION".
Definition ControlAuthorized : ExecutionControlState := "AUTHORIZED".
Definition ControlStarting : ExecutionControlState := "STARTING".
Definition ControlRunning : ExecutionControlState := "RUNNING".
Definition ControlStopping : ExecutionControlState := "STOPPING".
Definition ControlStopped : ExecutionControlState := "STOPPED".
Definition ControlRejected : ExecutionControlState := "REJECTED".
Definition ControlUncertain : ExecutionControlState := "UNCERTAIN".

(** Durations in nanoseconds. *)
Record ExecutionPolicy := mkExecutionPolicy {
  xp_OperationTimeout : Z;
  xp_MaxActiveTotal : Z;
  xp_MaxActivePerActor : Z;
  xp_MaxStartsPerActorWindow : Z;
  xp_StartWindow : Z;
  xp_MaxReconciliations : Z
}.

Definition ExecutionPolicy_valid (policy : ExecutionPolicy) : bool :=
  (0 <? xp_OperationTimeout policy) && (0 <? xp_MaxActiveTotal policy) && (0 <? xp_MaxActivePerActor policy)
  && (0 <? xp_MaxStartsPerActorWindow policy) && (0 <? xp_StartWindow policy)
  && (0 <? xp_MaxReconciliations policy).

Record ExecutionControlRecord := mkControl {
  ct_Request : StartExecutionRequest;
  ct_AuthorizationCommandID : UUIDv7;
  ct_State : ExecutionControlState;
  ct_Version : Z;
  ct_ReservedAt : Time;
  ct_UpdatedAt : Time;
  ct_AuthorizationReceipt : option CommandReceipt;
  ct_Observation : option ExecutionObservation;
  ct_ReconciliationAttempts : Z;
  ct_FailureCode : string
}.
#[export] Instance eta_ExecutionControlRecord : Eta ExecutionControlRecord := fun r =>
  mkControl (ct_Request r) (ct_AuthorizationCommandID r) (ct_State r) (ct_Version r) (ct_ReservedAt r)
    (ct_UpdatedAt r) (ct_AuthorizationReceipt r) (ct_Observation r) (ct_ReconciliationAttempts r)
    (ct_FailureCode r).
Definition zero_control : ExecutionControlRecord :=
  mkControl (mkStartExecution "" "" 0 "" "") "" "" 0 zero_time zero_time None None 0 "".

Inductive execution_error :=
| ContextError (e : context_error)
| ErrInvalidExecutionPlan | ErrExecutionControlConflict | ErrExecutionLimit | ErrExecutionThrash
| ErrReconciliationExhausted | ErrExecutionObservation
| AuthorizeError (text : string)
| EffectError (text : string).

(** ** The store *)

Abbreviation Controls := (gmap string ExecutionControlRecord).

Definition controlConsumesCapacity (state : ExecutionControlState) : bool :=
  contains [ControlPendingAuthorization; ControlAuthorized; ControlStarting; ControlRunning; ControlStopping;
    ControlUncertain] state.

Definition validControlTransition (current next : ExecutionControlState) : bool :=
  when current == next
    return (current == ControlStarting) || (current == ControlStopping) || (current == ControlUncertain) ;;
  if current == ControlPendingAuthorization then (next == ControlAuthorized) || (next == ControlRejected)
  else if current == ControlAuthorized then next == ControlStarting
  else if current == ControlStarting
  then (next == ControlRunning) || (next == ControlStopped) || (next == ControlUncertain)
  else if current == ControlRunning then (next == ControlStopping) || (next == ControlUncertain)
  else if current == ControlStopping
  then (next == ControlStopped) || (next == ControlRunning) || (next == ControlUncertain)
  else if current == ControlUncertain
  then (next == ControlRunning) || (next == ControlStopped) || (next == ControlStopping)
  else false.

Definition candidate_valid (candidate : ExecutionControlRecord) (policy : ExecutionPolicy) : bool :=
  let request := ct_Request candidate in
  negb (negb (ActorFQN_Valid (sx_ActorFQN request)) || negb (UUIDv7_Valid (sx_ExecutionID request))
    || (sx_FencingEpoch request =? 0) || negb (Digest_Valid (sx_RuntimeIdentity request))
    || (sx_IdempotencyKey request == "") || negb (UUIDv7_Valid (ct_AuthorizationCommandID candidate))
    || (ct_State candidate != ControlPendingAuthorization) || negb (ct_Version candidate =? 1)
    || IsZero (ct_ReservedAt candidate) || (ct_UpdatedAt candidate != ct_ReservedAt candidate)
    || (xp_OperationTimeout policy <=? 0) || (xp_MaxActiveTotal policy =? 0)
    || (xp_MaxActivePerActor policy =? 0) || (xp_MaxStartsPerActorWindow policy =? 0)
    || (xp_StartWindow policy <=? 0) || (xp_MaxReconciliations policy =? 0)).

(** The three counters of the loop over the records, 32-bit words. *)
Definition count_control (candidate : ExecutionControlRecord) (windowStart : Time)
    (counts : Z * Z * Z) (entry : string * ExecutionControlRecord) : Z * Z * Z :=
  let '(activeTotal, activeActor, recentActor) := counts in
  let record := snd entry in
  let same := sx_ActorFQN (ct_Request record) == sx_ActorFQN (ct_Request candidate) in
  let consumes := controlConsumesCapacity (ct_State record) in
  (if consumes then u32 (activeTotal + 1) else activeTotal,
   if consumes && same then u32 (activeActor + 1) else activeActor,
   if same && negb (Before (ct_ReservedAt record) windowStart) then u32 (recentActor + 1) else recentActor).

(** [Time.Add]. *)
Definition Add (t : Time) (d : Z) : Time := mkTime (t_nanos t + d) (t_offset t).

(** The order of the loop over the map does not show in the sums. *)
Definition Prepare (store : Controls) (candidate : ExecutionControlRecord) (policy : ExecutionPolicy)
    : Controls * (execution_error + (ExecutionControlRecord * bool)) :=
  when negb (candidate_valid candidate policy) return (store, inl ErrInvalidExecutionPlan) ;;
  let key := sx_IdempotencyKey (ct_Request candidate) in
  match store !! key with
  | Some prior =>
    when (ct_Request prior != ct_Request candidate)
        || (ct_AuthorizationCommandID prior != ct_AuthorizationCommandID candidate)
      return (store, inl ErrExecutionControlConflict) ;;
    (store, inr (prior, false))
  | None =>
    let windowStart := Add (ct_ReservedAt candidate) (- xp_StartWindow policy) in
    let '(activeTotal, activeActor, recentActor) :=
      foldl (count_control candidate windowStart) (0, 0, 0) (map_to_list store) in
    when (xp_MaxActiveTotal policy <=? activeTotal) || (xp_MaxActivePerActor policy <=? activeActor)
      return (store, inl ErrExecutionLimit) ;;
    when xp_MaxStartsPerActorWindow policy <=? recentActor return (store, inl ErrExecutionThrash) ;;
    (<[key := candidate]> store, inr (candidate, true))
  end.

Definition controls_Load (store : Controls) (key : string) : option ExecutionControlRecord := store !! key.

Definition swap_allowed (current next : ExecutionControlRecord) (expectedVersion : Z) : bool :=
  (ct_Version current =? expectedVersion) && (ct_Version next =? u64 (expectedVersion + 1))
  && (ct_Request next == ct_Request current)
  && (ct_AuthorizationCommandID next == ct_AuthorizationCommandID current)
  && (ct_ReservedAt next == ct_ReservedAt current) && negb (Before (ct_UpdatedAt next) (ct_UpdatedAt current))
  && validControlTransition (ct_State current) (ct_State next).

Definition CompareAndSwap (store : Controls) (key : string) (expectedVersion : Z) (next : ExecutionControlRecord)
    : Controls * option execution_error :=
  match store !! key with
  | None => (store, Some ErrExecutionControlConflict)
  | Some current =>
    when negb (swap_allowed current next expectedVersion) return (store, Some ErrExecutionControlConflict) ;;
    (<[key := next]> store, None)
  end.

(** ** Programs *)

Inductive effect :=
| EngineStart (request : StartExecutionRequest)
| EngineStop (id : UUIDv7)
| EngineInspect (id : UUIDv7)
| EngineReconcile (id : UUIDv7).

(** A coordinator up to its next call. *)
Inductive coord (A : Type) : Type :=
| Return (a : A)
| CallPrepare (candidate : ExecutionControlRecord) (policy : ExecutionPolicy)
    (k : execution_error + (ExecutionControlRecord * bool) -> coord A)
| CallLoad (key : string) (k : execution_error + option ExecutionControlRecord -> coord A)
| CallSwap (key : string) (expectedVersion : Z) (next : ExecutionControlRecord) (k : option execution_error -> coord A)
| CallHandle (command : KernelCommand) (provenance : ProvenanceBasis) (k : execution_error + CommandReceipt -> coord A)
| CallEngine (e : effect) (k : execution_error + ExecutionObservation -> coord A)
| ReadClock (k : Time -> coord A)
| CheckContext (k : Context -> coord A).
Arguments Return {A} a.
Arguments CallPrepare {A} candidate policy k.
Arguments CallLoad {A} key k.
Arguments CallSwap {A} key expectedVersion next k.
Arguments CallHandle {A} command provenance k.
Arguments CallEngine {A} e k.
Arguments ReadClock {A} k.
Arguments CheckContext {A} k.

(** ** The coordinator *)

Record ExecutionStartPlan := mkStartPlan {
  xs_AuthorizationCommand : KernelCommand;
  xs_Provenance : ProvenanceBasis;
  xs_Request : StartExecutionRequest
}.

Record registerPayload := mkRegisterPayload {
  rp_ActorFQN : ActorFQN;
  rp_ExecutionID : UUIDv7;
  rp_FencingEpoch : Z;
  rp_RuntimeIdentity : Digest;
  rp_NewExecutionID : UUIDv7;
  rp_NewFencingEpoch : Z
}.
#[export] Instance eta_registerPayload : Eta registerPayload := fun r =>
  mkRegisterPayload (rp_ActorFQN r) (rp_ExecutionID r) (rp_FencingEpoch r) (rp_RuntimeIdentity r)
    (rp_NewExecutionID r) (rp_NewFencingEpoch r).
Definition fields_register : list (field registerPayload) :=
  [fld "actor_fqn" rp_ActorFQN dec_string; fld "execution_id" rp_ExecutionID dec_string;
   fld "fencing_epoch" rp_FencingEpoch dec_u64; fld "runtime_identity" rp_RuntimeIdentity dec_string;
   fld "new_execution_id" rp_NewExecutionID dec_string; fld "new_fencing_epoch" rp_NewFencingEpoch dec_u64].

Definition validateExecutionPlan (plan : ExecutionStartPlan) : bool :=
  let request := xs_Request plan in
  let command := xs_AuthorizationCommand plan in
  when negb (ActorFQN_Valid (sx_ActorFQN request)) || negb (UUIDv7_Valid (sx_ExecutionID request))
      || (sx_FencingEpoch request =? 0) || negb (Digest_Valid (sx_RuntimeIdentity request))
      || (sx_IdempotencyKey request == "") || (sx_IdempotencyKey request != cmd_IdempotencyKey command)
      || negb (ProvenanceBasis_Valid (xs_Provenance plan))
    return false ;;
  match Unmarshal fields_register (mkRegisterPayload "" "" 0 "" "" 0) (cmd_Payload command) with
  | None => false
  | Some register =>
    when rp_ActorFQN register != sx_ActorFQN request return false ;;
    if cmd_CommandType command == "tekroo.command.execution.register" then
      (rp_ExecutionID register == sx_ExecutionID request)
      && (rp_FencingEpoch register =? sx_FencingEpoch request)
      && (rp_RuntimeIdentity register == sx_RuntimeIdentity request)
    else if cmd_CommandType command == "tekroo.command.execution.replace" then
      (rp_NewExecutionID register == sx_ExecutionID request)
      && (rp_NewFencingEpoch register =? sx_FencingEpoch request)
    else false
  end.

Definition observationMatches (request : StartExecutionRequest) (observation : ExecutionObservation) : bool :=
  (xo_ActorFQN observation == sx_ActorFQN request) && (xo_ExecutionID observation == sx_ExecutionID request)
  && (xo_FencingEpoch observation =? sx_FencingEpoch request).

(** A record and an error, which is [nil] on success. *)
Abbreviation outcome := (ExecutionControlRecord * option execution_error)%type.

(** [advance], with what follows it: the record reached, whether this call made
    the step, and the error. *)
Definition advance {A} (prior next : ExecutionControlRecord)
    (k : ExecutionControlRecord * bool * option execution_error -> coord A) : coord A :=
  let next := next <| ct_Version := u64 (ct_Version prior + 1) |> in
  let key := sx_IdempotencyKey (ct_Request prior) in
  CallSwap key (ct_Version prior) next (fun swapped =>
    match swapped with
    | None => k (next, true, None)
    | Some ErrExecutionControlConflict =>
      CallLoad key (fun loaded =>
        match loaded with
        | inr (Some current) => k (current, false, None)
        | _ => k (zero_control, false, Some ErrExecutionControlConflict)
        end)
    | Some err => k (zero_control, false, Some err)
    end).

(** The context is tested once before the engine is called; afterwards the call
    may end in any way, the timeout included. *)
Definition runExecutionEffect {A} (e : effect) (k : execution_error + ExecutionObservation -> coord A) : coord A :=
  CheckContext (fun ctx =>
    match ctx with
    | Some err => k (inl (ContextError err))
    | None => CallEngine e k
    end).

Definition observed_record (record : ExecutionControlRecord) (now : Time) (observation : ExecutionObservation)
    : ExecutionControlRecord :=
  let next := record <| ct_UpdatedAt := now |> <| ct_Observation := Some observation |> <| ct_FailureCode := "" |> in
  if xo_State observation == ExecutionRunning then next <| ct_State := ControlRunning |>
  else if xo_State observation == ExecutionStopped then next <| ct_State := ControlStopped |>
  else next <| ct_State := ControlUncertain |> <| ct_FailureCode := "PROVIDER_EFFECT_UNCERTAIN" |>.

(** Recording is not cancelled with the caller: its context is derived from one
    that is not, and only its own timeout can end it. *)
Definition recordEffect (record : ExecutionControlRecord) (result : execution_error + ExecutionObservation)
    : coord outcome :=
  ReadClock (fun now =>
    let uncertain := record <| ct_UpdatedAt := now |> <| ct_State := ControlUncertain |>
                       <| ct_FailureCode := "PROVIDER_EFFECT_UNCERTAIN" |> in
    let unsettled err := advance record uncertain (fun '(updated, _, failure) =>
      match failure with
      | Some e => Return (zero_control, Some e)
      | None => Return (updated, Some err)
      end) in
    match result with
    | inl err => unsettled err
    | inr observation =>
      when negb (observationMatches (ct_Request record) observation) return unsettled ErrExecutionObservation ;;
      advance record (observed_record record now observation) (fun '(updated, _, failure) => Return (updated, failure))
    end).

(** From the claim of an authorised execution on. *)
Definition start_claimed (plan : ExecutionStartPlan) (record : ExecutionControlRecord) : coord outcome :=
  when ct_State record != ControlAuthorized return Return (record, None) ;;
  CheckContext (fun ctx =>
    match ctx with
    | Some err => Return (record, Some (ContextError err))
    | None =>
      ReadClock (fun now =>
        advance record (record <| ct_State := ControlStarting |> <| ct_UpdatedAt := now |>)
          (fun '(record, claimed, failure) =>
            match failure with
            | Some err => Return (zero_control, Some err)
            | None =>
              when negb claimed return Return (record, None) ;;
              runExecutionEffect (EngineStart (xs_Request plan)) (recordEffect record)
            end))
    end).

(** The record after the answer of the command service. *)
Definition authorized_record (record : ExecutionControlRecord) (receipt : CommandReceipt) (now : Time)
    : ExecutionControlRecord :=
  let next := record <| ct_AuthorizationReceipt := Some receipt |> <| ct_UpdatedAt := now |> in
  if rc_OutcomeCode receipt != OutcomeApplied
  then next <| ct_State := ControlRejected |> <| ct_FailureCode := rc_ReasonCode receipt |>
  else next <| ct_State := ControlAuthorized |>.

Definition Start (policy : ExecutionPolicy) (plan : ExecutionStartPlan) : coord outcome :=
  when negb (validateExecutionPlan plan) return Return (zero_control, Some ErrInvalidExecutionPlan) ;;
  CheckContext (fun ctx =>
    match ctx with
    | Some err => Return (zero_control, Some (ContextError err))
    | None =>
      ReadClock (fun now =>
        CallPrepare (mkControl (xs_Request plan) (cmd_CommandID (xs_AuthorizationCommand plan))
                       ControlPendingAuthorization 1 now now None None 0 "") policy (fun prepared =>
          match prepared with
          | inl err => Return (zero_control, Some err)
          | inr (record, _) =>
            if ct_State record == ControlPendingAuthorization then
              CallHandle (xs_AuthorizationCommand plan) (xs_Provenance plan) (fun handled =>
                match handled with
                | inl err => Return (record, Some err)
                | inr receipt =>
                  ReadClock (fun now =>
                    advance record (authorized_record record receipt now) (fun '(record, _, failure) =>
                      match failure with
                      | Some err => Return (zero_control, Some err)
                      | None => start_claimed plan record
                      end))
                end)
            else start_claimed plan record
          end))
    end).

Definition Stop (key : string) : coord outcome :=
  CallLoad key (fun loaded =>
    match loaded with
    | inl err => Return (zero_control, Some err)
    | inr None => Return (zero_control, None)
    | inr (Some record) =>
      when ct_State record == ControlStopped return Return (record, None) ;;
      when (ct_State record != ControlRunning) && (ct_State record != ControlUncertain)
        return Return (record, Some ErrExecutionControlConflict) ;;
      ReadClock (fun now =>
        advance record (record <| ct_State := ControlStopping |> <| ct_UpdatedAt := now |>)
          (fun '(record, claimed, failure) =>
            match failure with
            | Some err => Return (record, Some err)
            | None =>
              when negb claimed return Return (record, None) ;;
              runExecutionEffect (EngineStop (sx_ExecutionID (ct_Request record))) (recordEffect record)
            end))
    end).

Definition Inspect (key : string) : coord (execution_error + option ExecutionObservation) :=
  CallLoad key (fun loaded =>
    match loaded with
    | inl err => Return (inl err)
    | inr None => Return (inr None)
    | inr (Some record) =>
      runExecutionEffect (EngineInspect (sx_ExecutionID (ct_Request record))) (fun result =>
        match result with
        | inl err => Return (inl err)
        | inr observation =>
          when negb (observationMatches (ct_Request record) observation) return Return (inl ErrExecutionObservation) ;;
          Return (inr (Some observation))
        end)
    end).

Definition Reconcile (policy : ExecutionPolicy) (key : string) : coord outcome :=
  CallLoad key (fun loaded =>
    match loaded with
    | inl err => Return (zero_control, Some err)
    | inr None => Return (zero_control, None)
    | inr (Some record) =>
      when (ct_State record != ControlUncertain) && (ct_State record != ControlStarting)
           && (ct_State record != ControlStopping)
        return Return (record, None) ;;
      when xp_MaxReconciliations policy <=? ct_ReconciliationAttempts record
        return Return (record, Some ErrReconciliationExhausted) ;;
      ReadClock (fun now =>
        advance record (record <| ct_ReconciliationAttempts := u32 (ct_ReconciliationAttempts record + 1) |>
                               <| ct_UpdatedAt := now |>)
          (fun '(record, claimed, failure) =>
            match failure with
            | Some err => Return (zero_control, Some err)
            | None =>
              when negb claimed return Return (record, None) ;;
              runExecutionEffect (EngineReconcile (sx_ExecutionID (ct_Request record))) (recordEffect record)
            end))
    end).
