(* ===== verification/ExecutionLaws.v ===== *)
(** * Theorems on execution control

    Any number of coordinators share a control store, a command service and an
    engine, and their calls interleave in any order. An execution is started in
    the engine at most once, never before its command was applied, and the
    executions under way stay within the policy's limits. *)

From S2P Require Import Prelude GoText GoTime GoJson Types Samples Envelope Provenance Snapshot EvaluatorLaws MemoryStore ExecutionCoordinator.

#[local] Opaque UUIDv7_Valid ActorFQN_Valid Digest_Valid ProvenanceBasis_Valid validateExecutionPlan.

(** Case analysis on the states a transition compares. *)
Ltac split_states H :=
  repeat match type of H with context [?a == ?b] =>
    destruct (decide (a = b)) as [->|?];
      [rewrite (bool_decide_true _) in H by done|rewrite (bool_decide_false _) in H by done]
  end; try discriminate H.

(** ** Coordinators side by side *)

Abbreviation handled := (KernelCommand * ProvenanceBasis * CommandReceipt)%type.

(** The store, the effects asked of the engine and the receipts the command
    service returned. *)
Record World := mkWorld {
  w_controls : Controls;
  w_effects : list effect;
  w_handled : list handled
}.
#[export] Instance eta_World : Eta World := fun w => mkWorld (w_controls w) (w_effects w) (w_handled w).

(** What a pending call returns: a call of the store depends on the context it
    is given, the others are free to return anything. *)
Inductive answer :=
| AnswerStore (ctx : Context)
| AnswerHandle (result : execution_error + CommandReceipt)
| AnswerEngine (result : execution_error + ExecutionObservation)
| AnswerClock (now : Time)
| AnswerContext (ctx : Context).

Definition proceed {A} (w : World) (p : coord A) (a : answer) : option (World * coord A) :=
  match p, a with
  | CallPrepare _ _ k, AnswerStore (Some e) => Some (w, k (inl (ContextError e)))
  | CallPrepare candidate policy k, AnswerStore None =>
    let (store, result) := Prepare (w_controls w) candidate policy in
    Some (w <| w_controls := store |>, k result)
  | CallLoad _ k, AnswerStore (Some e) => Some (w, k (inl (ContextError e)))
  | CallLoad key k, AnswerStore None => Some (w, k (inr (controls_Load (w_controls w) key)))
  | CallSwap _ _ _ k, AnswerStore (Some e) => Some (w, k (Some (ContextError e)))
  | CallSwap key version next k, AnswerStore None =>
    let (store, result) := CompareAndSwap (w_controls w) key version next in
    Some (w <| w_controls := store |>, k result)
  | CallHandle command provenance k, AnswerHandle (inr receipt) =>
    Some (w <| w_handled := (command, provenance, receipt) :: w_handled w |>, k (inr receipt))
  | CallHandle _ _ k, AnswerHandle (inl e) => Some (w, k (inl e))
  | CallEngine e k, AnswerEngine result => Some (w <| w_effects := e :: w_effects w |>, k result)
  | ReadClock k, AnswerClock now => Some (w, k now)
  | CheckContext k, AnswerContext ctx => Some (w, k ctx)
  | _, _ => None
  end.

Inductive operation :=
| OpStart (plan : ExecutionStartPlan) | OpStop (key : string) | OpInspect (key : string) | OpReconcile (key : string).

Inductive thread :=
| Changing (p : coord outcome)
| Looking (p : coord (execution_error + option ExecutionObservation)).

Definition thread_of (policy : ExecutionPolicy) (op : operation) : thread :=
  match op with
  | OpStart plan => Changing (Start policy plan)
  | OpStop key => Changing (Stop key)
  | OpInspect key => Looking (Inspect key)
  | OpReconcile key => Changing (Reconcile policy key)
  end.

Definition proceed_thread (w : World) (t : thread) (a : answer) : option (World * thread) :=
  match t with
  | Changing p => '(w, p) ← proceed w p a; Some (w, Changing p)
  | Looking p => '(w, p) ← proceed w p a; Some (w, Looking p)
  end.

Inductive move :=
| Spawn (op : operation)
| Resume (i : nat) (a : answer).

Abbreviation System := (World * list thread)%type.

Definition perform (policy : ExecutionPolicy) (s : System) (m : move) : option System :=
  match m with
  | Spawn op => Some (s.1, s.2 ++ [thread_of policy op])
  | Resume i a =>
    t ← s.2 !! i;
    '(w, t) ← proceed_thread s.1 t a;
    Some (w, <[i := t]> s.2)
  end.

Fixpoint perform_all (policy : ExecutionPolicy) (s : System) (schedule : list move) : option System :=
  match schedule with
  | [] => Some s
  | m :: schedule => s ← perform policy s m; perform_all policy s schedule
  end.

Definition idle : System := (mkWorld ∅ [] [], []).

Definition key_of (r : ExecutionControlRecord) : string := sx_IdempotencyKey (ct_Request r).

Definition starts_of (key : string) (es : list effect) : list effect :=
  List.filter (fun e => match e with EngineStart r => sx_IdempotencyKey r == key | _ => false end) es.

(** An applied command that asks for the request. *)
Definition authorises (log : list handled) (id : UUIDv7) (r : StartExecutionRequest) : Prop :=
  exists command provenance receipt, (command, provenance, receipt) ∈ log /\ cmd_CommandID command = id /\
    rc_OutcomeCode receipt = OutcomeApplied /\ validateExecutionPlan (mkStartPlan command provenance r) = true.

(** ** Capacity *)

Definition consuming (r : ExecutionControlRecord) : bool := controlConsumesCapacity (ct_State r).
Definition consuming_for (actor : ActorFQN) (r : ExecutionControlRecord) : bool :=
  consuming r && (sx_ActorFQN (ct_Request r) == actor).
(** The limits are 32-bit words. *)
Definition policy_words (policy : ExecutionPolicy) : Prop :=
  0 <= xp_MaxActiveTotal policy < u32_mod /\ 0 <= xp_MaxActivePerActor policy < u32_mod /\
  0 <= xp_MaxReconciliations policy < u32_mod.

Definition weight (P : ExecutionControlRecord -> bool) (store : Controls) : nat :=
  length (List.filter P (map_to_list store).*2).

Definition within_limits (policy : ExecutionPolicy) (store : Controls) : Prop :=
  Z.of_nat (weight consuming store) <= xp_MaxActiveTotal policy /\
  forall actor, Z.of_nat (weight (consuming_for actor) store) <= xp_MaxActivePerActor policy.

Lemma weight_perm P store l : map_to_list store ≡ₚ l -> weight P store = length (List.filter P l.*2).
Proof. intros H. apply Permutation_length, filter_Permutation_bool. by rewrite H. Qed.

Lemma weight_new P store key r :
  store !! key = None -> weight P (<[key := r]> store) = ((if P r then 1 else 0) + weight P store)%nat.
Proof.
  intros H. rewrite (weight_perm P _ ((key, r) :: map_to_list store)) by (by apply map_to_list_insert).
  unfold weight. cbn. by case_match.
Qed.

Lemma weight_replace P store key q r :
  store !! key = Some q -> (P r = true -> P q = true) -> (weight P (<[key := r]> store) <= weight P store)%nat.
Proof.
  intros H Himp. rewrite <- (insert_delete_id store key q H) at 2. rewrite <- insert_delete_eq.
  rewrite !weight_new by apply lookup_delete_eq. destruct (P r), (P q); lia.
Qed.

(** The counters of [Prepare] hold what they count. *)
Lemma count_control_spec candidate windowStart l a b c :
  0 <= a < u32_mod -> 0 <= b < u32_mod ->
  let '(x, y, _) := foldl (count_control candidate windowStart) (a, b, c) l in
  x = u32 (a + Z.of_nat (length (List.filter consuming l.*2))) /\
  y = u32 (b + Z.of_nat (length (List.filter (consuming_for (sx_ActorFQN (ct_Request candidate))) l.*2))).
Proof.
  assert (forall z k, u32 (u32 (z + 1) + k) = u32 (z + (1 + k))) as Hu.
  { intros z k. unfold u32. rewrite Zplus_mod_idemp_l. f_equal. lia. }
  revert a b c. induction l as [|[k r] l IH]; intros a b c Ha Hb; cbn [foldl fmap list_fmap].
  - split; [by rewrite Z.add_0_r; symmetry; apply Z.mod_small|by rewrite Z.add_0_r; symmetry; apply Z.mod_small].
  - cbn [count_control snd]. specialize (IH
      (if controlConsumesCapacity (ct_State r) then u32 (a + 1) else a)
      (if controlConsumesCapacity (ct_State r) && (sx_ActorFQN (ct_Request r) == sx_ActorFQN (ct_Request candidate)) then u32 (b + 1) else b)
      (if (sx_ActorFQN (ct_Request r) == sx_ActorFQN (ct_Request candidate)) && negb (Before (ct_ReservedAt r) windowStart)
       then u32 (c + 1) else c)).
    destruct (foldl _ _ l) as [[x y] z]. destruct IH as [-> ->].
    { case_match; [|done]. apply Z.mod_pos_bound. reflexivity. }
    { case_match; [|done]. apply Z.mod_pos_bound. reflexivity. }
    change (controlConsumesCapacity (ct_State r)) with (consuming r).
    change (consuming r && (sx_ActorFQN (ct_Request r) == sx_ActorFQN (ct_Request candidate)))
      with (consuming_for (sx_ActorFQN (ct_Request candidate)) r).
    cbn [List.filter snd]. split.
    + destruct (consuming r); [|done]. cbn [length]. rewrite Hu. f_equal. lia.
    + destruct (consuming_for _ r); [|done]. cbn [length]. rewrite Hu. f_equal. lia.
Qed.

Lemma Prepare_within policy store candidate :
  policy_words policy -> within_limits policy store -> within_limits policy (Prepare store candidate policy).1.
Proof.
  intros (H1 & H2 & _) [Ht Ha]. unfold Prepare. case_match; [done|]. case_match eqn:Hp; [by case_match|].
  pose proof (count_control_spec candidate (Add (ct_ReservedAt candidate) (- xp_StartWindow policy)) (map_to_list store) 0 0 0) as Hc.
  destruct (foldl _ _ _) as [[x y] z]. destruct Hc as [Hx Hy]; [done..|]. unfold u32 in Hx, Hy.
  fold (weight consuming store) in Hx. fold (weight (consuming_for (sx_ActorFQN (ct_Request candidate))) store) in Hy.
  specialize (Ha (sx_ActorFQN (ct_Request candidate))) as Ha'.
  rewrite Z.mod_small in Hx, Hy by lia. case_match eqn:E; [done|]. bprop E. case_match; [done|]. cbn [fst]. split.
  - rewrite weight_new by done. case_match; lia.
  - intros actor. rewrite weight_new by done. destruct (consuming_for actor candidate) eqn:Hf; [|apply Ha].
    unfold consuming_for in Hf. bprop Hf. destruct Hf as [_ <-]. lia.
Qed.

Lemma transition_consumes current next :
  validControlTransition current next = true -> controlConsumesCapacity next = true -> controlConsumesCapacity current = true.
Proof.
  unfold validControlTransition. intros H _.
  split_states H; done.
Qed.

Lemma swap_within policy store key current version next :
  store !! key = Some current -> swap_allowed current next version = true -> within_limits policy store ->
  within_limits policy (<[key := next]> store).
Proof.
  intros E Hok [Ht Ha]. unfold swap_allowed in Hok. bprop Hok.
  destruct Hok as ((((((Hv & Hnv) & Hreq) & Hid) & _) & _) & Htr). pose proof (transition_consumes _ _ Htr) as Hc.
  split.
  - pose proof (weight_replace consuming store key current next E Hc). lia.
  - intros actor. specialize (Ha actor).
    assert (weight (consuming_for actor) (<[key:=next]> store) <= weight (consuming_for actor) store)%nat; [|lia].
    apply (weight_replace _ _ _ current); [done|]. unfold consuming_for, consuming. rewrite Hreq.
    intros [H1 H2]%andb_true_iff. by rewrite Hc.
Qed.

(** ** A discipline for programs

    What a program holds: the right to one start, the records it has seen and the
    receipts it was given. Claiming an authorised record gives the right, and a
    start in the engine uses it up. *)

Section discipline.
Variable policy : ExecutionPolicy.
Hypothesis words : policy_words policy.

Definition beyond_authorisation (state : ExecutionControlState) : bool :=
  negb (contains [ControlPendingAuthorization; ControlRejected] state).
Definition beyond_claim (state : ExecutionControlState) : bool :=
  negb (contains [ControlPendingAuthorization; ControlAuthorized] state).

Definition same_execution (a b : ExecutionControlRecord) : Prop :=
  key_of a = key_of b -> ct_Request a = ct_Request b /\ ct_AuthorizationCommandID a = ct_AuthorizationCommandID b.

Record lawful_step (seen : list handled) (prior next : ExecutionControlRecord) : Prop := {
  ls_authorised : beyond_authorisation (ct_State next) = true ->
    beyond_authorisation (ct_State prior) = true \/
    authorises seen (ct_AuthorizationCommandID prior) (ct_Request prior);
  ls_attempts : 0 <= ct_ReconciliationAttempts prior <= xp_MaxReconciliations policy ->
    0 <= ct_ReconciliationAttempts next <= xp_MaxReconciliations policy
}.

Fixpoint safe {A} (right : option StartExecutionRequest) (known : list ExecutionControlRecord) (seen : list handled)
    (p : coord A) : Prop :=
  match p with
  | Return _ => True
  | CallPrepare c pol k =>
    pol = policy /\ ct_ReconciliationAttempts c = 0 /\ (forall e, safe right known seen (k (inl e))) /\
    forall r b, ct_Request r = ct_Request c -> ct_AuthorizationCommandID r = ct_AuthorizationCommandID c ->
      safe right (r :: known) seen (k (inr (r, b)))
  | CallLoad key k =>
    (forall e, safe right known seen (k (inl e))) /\ safe right known seen (k (inr None)) /\
    forall r, key_of r = key -> Forall (same_execution r) known -> safe right (r :: known) seen (k (inr (Some r)))
  | CallSwap key version next k =>
    (forall e, safe right known seen (k (Some e))) /\
    exists prior, prior ∈ known /\ key_of prior = key /\ ct_Version prior = version /\ lawful_step seen prior next /\
      safe (if ct_State prior == ControlAuthorized then Some (ct_Request prior) else right) (next :: known) seen (k None)
  | CallHandle command provenance k =>
    (forall e, safe right known seen (k (inl e))) /\
    forall receipt, safe right known ((command, provenance, receipt) :: seen) (k (inr receipt))
  | CallEngine e k =>
    match e with EngineStart r => right = Some r | _ => True end /\ forall result, safe None known seen (k result)
  | ReadClock k => forall now, safe right known seen (k now)
  | CheckContext k => forall ctx, safe right known seen (k ctx)
  end.

(** *** The coordinator follows it *)

Lemma safe_advance {A} right known seen prior next (k : _ -> coord A) :
  prior ∈ known -> (forall v, lawful_step seen prior (next <| ct_Version := v |>)) ->
  safe (if ct_State prior == ControlAuthorized then Some (ct_Request prior) else right)
    (next <| ct_Version := u64 (ct_Version prior + 1) |> :: known) seen
    (k (next <| ct_Version := u64 (ct_Version prior + 1) |>, true, None)) ->
  (forall r, key_of r = key_of prior -> Forall (same_execution r) known ->
    safe right (r :: known) seen (k (r, false, None))) ->
  (forall e, safe right known seen (k (zero_control, false, Some e))) ->
  safe right known seen (advance prior next k).
Proof.
  intros Hin Hlaw Hok Hlost Herr. unfold advance. cbn [safe]. split.
  - intros e. destruct e; try apply Herr. cbn [safe]. split_and!; [intros; apply Herr|apply Herr|]. auto.
  - exists prior. auto.
Qed.

Lemma safe_effect {A} right known seen e (k : _ -> coord A) :
  match e with EngineStart r => right = Some r | _ => True end ->
  (forall right' result, safe right' known seen (k result)) -> safe right known seen (runExecutionEffect e k).
Proof. intros He Hk. cbn [safe runExecutionEffect]. intros [?|]; cbn [safe]; auto. Qed.

Lemma safe_recordEffect right known seen record result :
  record ∈ known -> beyond_authorisation (ct_State record) = true -> safe right known seen (recordEffect record result).
Proof.
  intros Hin Hst. unfold recordEffect. cbn [safe]. intros now.
  assert (forall next (k : _ -> coord outcome), (forall right' known' x, safe right' known' seen (k x)) ->
      ct_ReconciliationAttempts next = ct_ReconciliationAttempts record ->
      safe right known seen (advance record next k)) as H.
  { intros next k Hk Ha. apply safe_advance; [done| | | |].
    - intros v. split; [by left|]. change (ct_ReconciliationAttempts (next <| ct_Version := v |>)) with (ct_ReconciliationAttempts next). lia.
    - apply Hk.
    - intros r _ _. apply Hk.
    - intros e. apply Hk. }
  destruct result as [e|o]; [|destruct (observationMatches (ct_Request record) o); cbn [negb]];
    (apply H; [intros ? ? [[? ?] [?|]]; exact I|try done]).
  unfold observed_record. by repeat case_match.
Qed.

Lemma safe_start_claimed right known seen plan record :
  record ∈ known -> ct_Request record = xs_Request plan -> safe right known seen (start_claimed plan record).
Proof.
  intros Hin Hreq. unfold start_claimed. case_match eqn:E; [done|]. bprop E.
  assert (ct_State record = ControlAuthorized) as Hst by exact E.
  cbn [safe]. intros [?|]; [done|]. cbn [safe]. intros now. apply safe_advance; [done| | | |].
  - intros v. split; [|done]. intros _. left. by rewrite Hst.
  - rewrite Hst, bool_decide_true by done. cbn [negb]. apply safe_effect; [by rewrite Hreq|].
    intros right' result. by apply safe_recordEffect; [left|].
  - done.
  - done.
Qed.

Lemma safe_Start plan : safe None [] [] (Start policy plan).
Proof.
  unfold Start. case_match eqn:Hv; [done|]. apply negb_false_iff in Hv.
  cbn [safe]. intros [?|]; [done|]. cbn [safe]. intros now. split_and!; [done..|].
  cbn [ct_Request ct_AuthorizationCommandID]. intros record _ Hreq Hid. case_match.
  - cbn [safe]. split; [done|]. intros receipt. cbn [safe]. intros now2. apply safe_advance; [by left| | | |done].
    + intros v. split; [|unfold authorized_record; by case_match].
      intros Hb. right. rewrite Hreq, Hid. exists (xs_AuthorizationCommand plan), (xs_Provenance plan), receipt.
      split_and!; [by left|done| |by destruct plan].
      revert Hb. unfold authorized_record. case_match eqn:Ho; [done|]. bprop Ho. by intros _.
    + apply safe_start_claimed; [by left|]. rewrite <- Hreq. unfold authorized_record. by case_match.
    + intros r Hk Hsame. apply safe_start_claimed; [by left|]. inversion Hsame as [|? ? Hr _]; subst.
      rewrite <- Hreq. by apply Hr.
  - by apply safe_start_claimed; [left|].
Qed.

Lemma safe_Stop key : safe None [] [] (Stop key).
Proof.
  unfold Stop. cbn [safe]. split_and!; [done..|]. intros record Hk _.
  case_match; [done|]. case_match eqn:E; [done|]. cbn [safe]. intros now.
  assert (ct_State record = ControlRunning \/ ct_State record = ControlUncertain) as Hst.
  { apply andb_false_iff in E as [E|E]; bprop E; [by left|by right]. }
  apply safe_advance; [by left| |  |done|done].
  - intros v. split; [|done]. intros _. left. by destruct Hst as [-> | ->].
  - cbn [negb]. apply safe_effect; [done|]. intros. by apply safe_recordEffect; [left|].
Qed.

Lemma safe_Inspect key : safe None [] [] (Inspect key).
Proof.
  unfold Inspect. cbn [safe]. split_and!; [done..|]. intros record Hk _. apply safe_effect; [done|].
  intros right' [?|?]; [done|]. by case_match.
Qed.

Lemma safe_Reconcile key : safe None [] [] (Reconcile policy key).
Proof.
  unfold Reconcile. cbn [safe]. split_and!; [done..|]. intros record Hk _.
  case_match eqn:E; [done|]. case_match eqn:E2; [done|]. cbn [safe]. intros now.
  assert (beyond_authorisation (ct_State record) = true) as Hst.
  { rewrite !andb_false_iff, !negb_false_iff, !bool_decide_eq_true in E. by destruct E as [[-> | ->] | ->]. }
  apply safe_advance; [by left| | |done|done].
  - intros v. split; [by left|]. intros Ha. apply Z.leb_gt in E2.
    change (0 <= u32 (ct_ReconciliationAttempts record + 1) <= xp_MaxReconciliations policy). unfold u32.
    pose proof (Z.mod_pos_bound (ct_ReconciliationAttempts record + 1) u32_mod eq_refl).
    pose proof (Z.mod_le (ct_ReconciliationAttempts record + 1) u32_mod ltac:(lia) eq_refl). lia.
  - cbn [negb]. apply safe_effect; [done|]. intros. by apply safe_recordEffect; [left|].
Qed.

(** *** What holds of the store

    [history] collects every record the store has held; [rights] counts the rights
    to start an execution that programs hold. *)

Definition charge (right : option StartExecutionRequest) (key : string) : nat :=
  match right with Some r => if sx_IdempotencyKey r == key then 1 else 0 | None => 0 end.

Definition claimed (store : Controls) (key : string) : nat :=
  match store !! key with Some r => if beyond_claim (ct_State r) then 1 else 0 | None => 0 end.

Definition started (history : list ExecutionControlRecord) (r : StartExecutionRequest) : Prop :=
  exists q, q ∈ history /\ ct_Request q = r /\ beyond_authorisation (ct_State q) = true.

Record consistent (n : Z) (history : list ExecutionControlRecord) (w : World) (rights : string -> nat) : Prop := {
  co_current : forall key r, w_controls w !! key = Some r -> r ∈ history /\ key_of r = key;
  co_latest : forall q, q ∈ history -> exists r, w_controls w !! key_of q = Some r /\ ct_Version q <= ct_Version r /\
    ct_Request q = ct_Request r /\ ct_AuthorizationCommandID q = ct_AuthorizationCommandID r;
  co_unique : forall q r, q ∈ history -> r ∈ history -> key_of q = key_of r -> ct_Version q = ct_Version r -> q = r;
  co_versions : forall q, q ∈ history -> 1 <= ct_Version q <= n + 1;
  co_authorised : forall q, q ∈ history -> beyond_authorisation (ct_State q) = true ->
    authorises (w_handled w) (ct_AuthorizationCommandID q) (ct_Request q);
  co_attempts : forall q, q ∈ history -> 0 <= ct_ReconciliationAttempts q <= xp_MaxReconciliations policy;
  co_once : forall key, (length (starts_of key (w_effects w)) + rights key <= claimed (w_controls w) key)%nat;
  co_effects : forall r, EngineStart r ∈ w_effects w -> started history r;
  co_limits : within_limits policy (w_controls w)
}.

Record holds (history : list ExecutionControlRecord) (w : World) (right : option StartExecutionRequest)
    (known : list ExecutionControlRecord) (seen : list handled) : Prop := {
  ho_right : forall r, right = Some r -> started history r;
  ho_known : forall q, q ∈ known -> q ∈ history;
  ho_seen : forall x, x ∈ seen -> x ∈ w_handled w
}.

Lemma authorises_mono log log' id r : log ⊆ log' -> authorises log id r -> authorises log' id r.
Proof. intros Hl (c & p & x & Hin & H). exists c, p, x. split; [by apply Hl|done]. Qed.

Lemma started_mono history history' r : history ⊆ history' -> started history r -> started history' r.
Proof. intros Hl (q & Hin & H). exists q. split; [by apply Hl|done]. Qed.

Lemma consistent_later n n' history w rights rights' :
  n <= n' -> (forall key, (rights' key <= rights key)%nat) -> consistent n history w rights -> consistent n' history w rights'.
Proof.
  intros Hn Hr []. split; try done.
  - intros q Hq. specialize (co_versions0 q Hq). lia.
  - intros key. specialize (co_once0 key). specialize (Hr key). lia.
Qed.

Lemma holds_mono history history' w w' right known seen :
  history ⊆ history' -> w_handled w ⊆ w_handled w' -> holds history w right known seen -> holds history' w' right known seen.
Proof. intros Hh Hl []. split; eauto using started_mono. Qed.

Lemma holds_cons history w right known seen r : holds history w right known seen -> r ∈ history -> holds history w right (r :: known) seen.
Proof. intros [] Hr. split; [done| |done]. intros q [->|Hq]%elem_of_cons; auto. Qed.

Lemma holds_handled history w right known seen x :
  holds history w right known seen -> holds history (w <| w_handled := x :: w_handled w |>) right known (x :: seen).
Proof.
  intros []. split; [done..|]. intros y [->|Hy]%elem_of_cons; [by left|]. right. by apply ho_seen0.
Qed.

(** A new reservation. *)
Lemma consistent_reserve n history w rights r :
  consistent n history w rights -> 0 <= n -> within_limits policy (<[key_of r := r]> (w_controls w)) ->
  w_controls w !! key_of r = None -> ct_Version r = 1 -> ct_State r = ControlPendingAuthorization ->
  ct_ReconciliationAttempts r = 0 ->
  consistent n (r :: history) (w <| w_controls := <[key_of r := r]> (w_controls w) |>) rights.
Proof.
  intros [] Hn Hlim Hnew Hv Hst Ha. destruct words as (_ & _ & Hm).
  assert (forall q, q ∈ history -> key_of q <> key_of r) as Hfresh.
  { intros q Hq E. destruct (co_latest0 q Hq) as (x & Hx & _). rewrite E, Hnew in Hx. discriminate. }
  split; cbn [w_controls w_effects w_handled setf] in *.
  - intros key x [[<- <-]|[Hne Hx]]%lookup_insert_Some; [by split; [left|]|].
    destruct (co_current0 key x Hx). by split; [right|].
  - intros q [->|Hq]%elem_of_cons; [exists r; by rewrite lookup_insert_eq|].
    rewrite lookup_insert_ne by (apply not_eq_sym; auto). auto.
  - intros q x [->|Hq]%elem_of_cons [->|Hx]%elem_of_cons; intros Hk Hvv; try done; try (by edestruct Hfresh). auto.
  - intros q [->|Hq]%elem_of_cons; [lia|auto].
  - intros q [->|Hq]%elem_of_cons; [by rewrite Hst|auto].
  - intros q [->|Hq]%elem_of_cons; [lia|auto].
  - intros key. specialize (co_once0 key). unfold claimed in *. destruct (decide (key_of r = key)) as [<-|Hne].
    + rewrite Hnew in co_once0. rewrite lookup_insert_eq. lia.
    + by rewrite lookup_insert_ne.
  - intros x Hx. eapply started_mono; [|by apply co_effects0]. set_solver.
  - done.
Qed.

Lemma transition_claims current next :
  validControlTransition current next = true ->
  if current == ControlAuthorized then beyond_claim current = false /\ beyond_claim next = true
  else if beyond_claim current then beyond_claim next = true else True.
Proof.
  unfold validControlTransition. intros H.
  split_states H; try done; by repeat case_match.
Qed.

(** A swap that succeeds, made by a program that has seen the record it replaces. *)
Lemma consistent_swap n history w rest right known seen prior next :
  consistent n history w (fun key => rest key + charge right key)%nat -> 0 <= n -> n + 2 < u64_mod ->
  holds history w right known seen -> prior ∈ known ->
  (exists current, w_controls w !! key_of prior = Some current /\ swap_allowed current next (ct_Version prior) = true) ->
  lawful_step seen prior next ->
  let right' := if ct_State prior == ControlAuthorized then Some (ct_Request prior) else right in
  let w' := w <| w_controls := <[key_of prior := next]> (w_controls w) |> in
  consistent (n + 1) (next :: history) w' (fun key => rest key + charge right' key)%nat /\
  holds (next :: history) w' right' (next :: known) seen.
Proof.
  intros Hc Hn Hmax Hh Hin (current & Hcur & Hok) Hlaw. cbv zeta.
  pose proof Hc as []. destruct (co_current0 _ _ Hcur) as [Hmem Hk].
  pose proof (swap_within policy _ _ _ _ _ Hcur Hok co_limits0) as Hlim.
  unfold swap_allowed in Hok. bprop Hok. destruct Hok as ((((((Hv & Hnv) & Hreq) & Hid) & _) & _) & Htr).
  assert (current = prior) as ->.
  { apply co_unique0; [done|by eapply ho_known|done|done]. }
  pose proof (co_versions0 prior Hmem) as Hpv. rewrite u64_id in Hnv by (unfold is_u64; lia).
  assert (key_of next = key_of prior) as Hkn by (unfold key_of; by rewrite Hreq).
  assert (forall q, q ∈ history -> key_of q = key_of prior -> ct_Version q <= ct_Version prior) as Hlast.
  { intros q Hq E. destruct (co_latest0 q Hq) as (x & Hx & Hle & _). rewrite E, Hcur in Hx. by simplify_eq. }
  assert (beyond_authorisation (ct_State next) = true -> authorises (w_handled w) (ct_AuthorizationCommandID next) (ct_Request next)) as Hauth.
  { intros Hb. rewrite Hreq, Hid. destruct (ls_authorised _ _ _ Hlaw Hb) as [Hp|Hs]; [by apply co_authorised0|].
    eapply authorises_mono; [|done]. intros x Hx. by eapply ho_seen. }
  pose proof (transition_claims _ _ Htr) as Hcl.
  split; [split|split]; cbn [w_controls w_effects w_handled setf] in *.
  - intros key x [[<- <-]|[Hne Hx]]%lookup_insert_Some; [by split; [left|]|].
    destruct (co_current0 key x Hx). by split; [right|].
  - intros q Hq. destruct (decide (key_of q = key_of prior)) as [E|Hne].
    + rewrite E, lookup_insert_eq. exists next. split; [done|]. apply elem_of_cons in Hq as [->|Hq]; [done|].
      specialize (Hlast q Hq E). destruct (co_latest0 q Hq) as (x & Hx & _ & Hr & Hi). rewrite E, Hcur in Hx.
      simplify_eq. rewrite Hreq, Hid. split_and!; [lia|done..].
    + rewrite lookup_insert_ne by congruence. apply elem_of_cons in Hq as [->|Hq]; [by destruct Hne|]. auto.
  - assert (forall q, q ∈ history -> key_of q = key_of next -> ct_Version q <> ct_Version next) as Hnew.
    { intros q Hq E. specialize (Hlast q Hq ltac:(congruence)). lia. }
    intros q x [->|Hq]%elem_of_cons [->|Hx]%elem_of_cons HK HV; [done|by edestruct (Hnew x)|by edestruct (Hnew q)|auto].
  - intros q [->|Hq]%elem_of_cons; [lia|]. specialize (co_versions0 q Hq). lia.
  - intros q [->|Hq]%elem_of_cons; auto.
  - intros q [->|Hq]%elem_of_cons; [|auto]. apply (ls_attempts _ _ _ Hlaw). auto.
  - intros key. specialize (co_once0 key). unfold claimed in *. destruct (decide (key_of prior = key)) as [<-|Hne].
    + rewrite lookup_insert_eq. rewrite Hcur in co_once0. revert Hcl.
      destruct (ct_State prior == ControlAuthorized).
      { intros [E1 E2]. rewrite E1 in co_once0. rewrite E2. cbn [charge].
        fold (key_of prior). case_match; lia. }
      destruct (beyond_claim (ct_State prior)); [intros ->; lia|intros _]. lia.
    + rewrite lookup_insert_ne by done. destruct (ct_State prior == ControlAuthorized); [|done]. cbn.
      rewrite bool_decide_false by exact Hne. lia.
  - intros x Hx. eapply started_mono; [|by apply co_effects0]. set_solver.
  - exact Hlim.
  - intros r Hr. destruct (ct_State prior == ControlAuthorized) eqn:H; [|eapply started_mono; [|by eapply ho_right]; set_solver]. simplify_eq.
    exists prior. split_and!; [by right|done|]. bprop H. by rewrite H.
  - intros q [->|Hq]%elem_of_cons; [by left|]. right. by eapply ho_known.
  - by apply Hh.
Qed.

Lemma consistent_handled n history w rights x :
  consistent n history w rights -> consistent n history (w <| w_handled := x :: w_handled w |>) rights.
Proof.
  intros []. split; try done. intros q Hq Hb. eapply authorises_mono; [|by apply co_authorised0]. cbn. set_solver.
Qed.

(** A start uses up the right to it. *)
Lemma consistent_effect n history w rest right known seen e :
  consistent n history w (fun key => rest key + charge right key)%nat -> holds history w right known seen ->
  match e with EngineStart r => right = Some r | _ => True end ->
  consistent n history (w <| w_effects := e :: w_effects w |>) (fun key => rest key + charge None key)%nat.
Proof.
  intros [] Hh He. split; try done; cbn [w_controls w_effects setf charge] in *.
  - intros key. specialize (co_once0 key). unfold starts_of in *.
    destruct e as [r| | |]; cbn [List.filter] in *; try (destruct right; cbn in *; lia).
    subst right. cbn [charge] in co_once0. revert co_once0. destruct (sx_IdempotencyKey r == key); cbn [length]; lia.
  - intros r [E|E]%elem_of_cons; [subst e|auto]. by eapply ho_right.
Qed.

Lemma world_same w : w <| w_controls := w_controls w |> = w.
Proof. by destruct w. Qed.

(** The call changes nothing. *)
Ltac keep := rewrite ?world_same in *; simplify_eq; do 4 eexists; split_and!; [reflexivity|reflexivity|eassumption|eassumption|naive_solver].

(** A call that returns. *)
Lemma proceed_consistent {A} n history w rest right known seen (p : coord A) a w' p' :
  consistent n history w (fun key => rest key + charge right key)%nat -> 0 <= n -> n + 2 < u64_mod ->
  holds history w right known seen -> safe right known seen p -> proceed w p a = Some (w', p') ->
  exists history' right' known' seen', history ⊆ history' /\ w_handled w ⊆ w_handled w' /\
    consistent (n + 1) history' w' (fun key => rest key + charge right' key)%nat /\
    holds history' w' right' known' seen' /\ safe right' known' seen' p'.
Proof.
  intros Hc Hn Hmax Hh Hs Hr.
  assert (consistent (n + 1) history w (fun key => rest key + charge right key)%nat) as Hc1
    by (eapply consistent_later; [..|done]; [lia|done]).
  destruct p as [x|candidate pol k|key k|key version next k|command provenance k|e k|k|k]; [done|..];
    destruct a as [ctx|result|result|now|ctx]; try discriminate Hr; cbn [safe proceed] in *.
  - destruct ctx as [err|]; [keep|].
    destruct Hs as (-> & Ha & He & Hk). pose proof (Prepare_within policy _ candidate words (co_limits _ _ _ _ Hc)) as Hlim.
    unfold Prepare in Hr, Hlim.
    destruct (candidate_valid candidate policy) eqn:Hv; cbn [negb] in Hr, Hlim; [|keep].
    fold (key_of candidate) in Hr, Hlim. destruct (w_controls w !! key_of candidate) as [prior|] eqn:Hp.
    { destruct (_ || _) eqn:Hx in Hr; rewrite world_same in Hr; [keep|]. simplify_eq. bprop Hx. destruct Hx as [Hx1 Hx2].
      exists history, right, (prior :: known), seen. split_and!; [done..| |by apply Hk].
      apply holds_cons; [done|]. by apply (co_current _ _ _ _ Hc) in Hp as [? _]. }
    destruct (foldl _ _ _) as [[total actor] recent]. do 2 (match type of Hr with context [if ?b then _ else _] => destruct b end; [keep|]).
    simplify_eq. unfold candidate_valid in Hv. bprop Hv. split_ands.
    exists (candidate :: history), right, (candidate :: known), seen.
    split_and!; [set_solver|done|by apply consistent_reserve; [done|lia|..]| |by apply Hk].
    apply holds_cons; [|by left]. eapply holds_mono; [..|done]; [set_solver|done].
  - destruct ctx as [err|]; [keep|]. simplify_eq.
    destruct Hs as (He & Hnone & Hk). unfold controls_Load. destruct (w_controls w' !! key) as [r|] eqn:Hl; [|keep].
    destruct (co_current _ _ _ _ Hc _ _ Hl) as [Hmem <-]. exists history, right, (r :: known), seen.
    split_and!; [done..|by apply holds_cons|]. apply Hk; [done|]. apply Forall_forall. intros q Hq E.
    destruct (co_latest _ _ _ _ Hc q) as (x & Hx & _ & E1 & E2); [by eapply ho_known|]. rewrite <- E, Hl in Hx. by simplify_eq.
  - destruct ctx as [err|]; [keep|].
    destruct Hs as (He & prior & Hin & <- & <- & Hlaw & Hk). unfold CompareAndSwap in Hr.
    destruct (w_controls w !! key_of prior) as [current|] eqn:Hcur; [|keep].
    destruct (swap_allowed current next (ct_Version prior)) eqn:Hok; cbn [negb] in Hr; [simplify_eq|keep].
    edestruct (consistent_swap n history w rest right known seen prior next) as [H1 H2]; eauto.
    eexists _, _, _, _. split_and!; [..|exact H1|exact H2|exact Hk]; [set_solver|done].
  - destruct Hs as [He Hk]. destruct result as [err|receipt]; simplify_eq; [keep|].
    exists history, right, known, ((command, provenance, receipt) :: seen). split_and!; [done|set_solver| |by apply holds_handled|done].
    by apply consistent_handled.
  - destruct Hs as [He Hk]. simplify_eq. exists history, None, known, seen.
    split_and!; [done..| |by destruct Hh|done].
    by apply (consistent_effect _ _ _ _ right known seen).
  - keep.
  - keep.
Qed.

(** *** Systems of coordinators *)

Definition total (rights : list (option StartExecutionRequest)) (key : string) : nat :=
  sum_list_with (fun right => charge right key) rights.

Lemma total_split rights i right :
  rights !! i = Some right ->
  exists rest, (forall key, total rights key = rest key + charge right key)%nat /\
    forall right' key, (total (<[i := right']> rights) key = rest key + charge right' key)%nat.
Proof.
  intros H. exists (total (delete i rights)).
  assert (forall r key, rights !! i = Some r -> total rights key = total (delete i rights) key + charge r key)%nat as E.
  { clear. intros r key. revert i. induction rights as [|x l IH]; intros [|i] H; [done..| |].
    - injection H as ->. unfold total. simpl. lia.
    - specialize (IH i H). unfold total in *. simpl. lia. }
  split; [auto|]. clear E. intros r key. revert i H. induction rights as [|x l IH]; intros [|i] H; [done..| |].
  - unfold total. simpl. lia.
  - specialize (IH i H). unfold total in *. simpl. lia.
Qed.

Definition thread_ok (history : list ExecutionControlRecord) (w : World) (right : option StartExecutionRequest) (t : thread) : Prop :=
  exists known seen, holds history w right known seen /\
    match t with Changing p => safe right known seen p | Looking p => safe right known seen p end.

Lemma thread_ok_mono history history' w w' right t :
  history ⊆ history' -> w_handled w ⊆ w_handled w' -> thread_ok history w right t -> thread_ok history' w' right t.
Proof. intros Hh Hl (known & seen & H & Ht). exists known, seen. eauto using holds_mono. Qed.

Definition sound (n : Z) (s : System) : Prop :=
  exists history rights, consistent n history s.1 (total rights) /\ Forall2 (thread_ok history s.1) rights s.2.

Lemma thread_of_ok history w op : thread_ok history w None (thread_of policy op).
Proof.
  exists [], []. split; [split; [done|intros ? []%elem_of_nil..]|].
  destruct op; [apply safe_Start|apply safe_Stop|apply safe_Inspect|apply safe_Reconcile].
Qed.

Lemma proceed_thread_ok n history w rest right t a w' t' :
  consistent n history w (fun key => rest key + charge right key)%nat -> 0 <= n -> n + 2 < u64_mod ->
  thread_ok history w right t -> proceed_thread w t a = Some (w', t') ->
  exists history' right', history ⊆ history' /\ w_handled w ⊆ w_handled w' /\
    consistent (n + 1) history' w' (fun key => rest key + charge right' key)%nat /\ thread_ok history' w' right' t'.
Proof.
  intros Hc Hn Hmax (known & seen & Hh & Ht) Hr.
  destruct t as [p|p]; cbn in Hr; destruct (proceed w p a) as [[w1 p1]|] eqn:E; try done; cbn in Hr; simplify_eq;
    destruct (proceed_consistent _ _ _ _ _ _ _ _ _ _ _ Hc Hn Hmax Hh Ht E) as (h' & r' & k' & s' & ? & ? & ? & ? & ?);
    exists h', r'; (split_and!; [done..|by exists k', s']).
Qed.

Lemma perform_sound n s m s' :
  sound n s -> 0 <= n -> n + 2 < u64_mod -> perform policy s m = Some s' -> sound (n + 1) s'.
Proof.
  intros (history & rights & Hc & Ht) Hn Hmax H. destruct s as [w threads], m as [op|i a]; cbn in *.
  - simplify_eq. exists history, (rights ++ [None]). split.
    + eapply consistent_later; [..|done]; [lia|]. intros key. unfold total. rewrite sum_list_with_app. cbn. lia.
    + apply Forall2_app; [done|]. constructor; [apply thread_of_ok|done].
  - destruct (threads !! i) as [t|] eqn:Hi; [|done]. cbn in H.
    destruct (proceed_thread w t a) as [[w' t']|] eqn:E; [|done]. cbn in H. simplify_eq.
    destruct (Forall2_lookup_r _ _ _ _ _ Ht Hi) as (right & Hri & Hok).
    destruct (total_split _ _ _ Hri) as (rest & Htot & Hupd).
    assert (consistent n history w (fun key => rest key + charge right key)%nat) as Hc0.
    { eapply consistent_later; [..|exact Hc]; [lia|]. intros key. by rewrite Htot. }
    eapply proceed_thread_ok in E as (history' & right' & Hh & Hl & Hc' & Hok'); [|done..].
    exists history', (<[i := right']> rights). cbn. split.
    + eapply consistent_later; [..|exact Hc']; [lia|]. intros key. by rewrite Hupd.
    + apply Forall2_insert; [|done]. eapply Forall2_impl; [exact Ht|]. intros r x. by apply thread_ok_mono.
Qed.

Lemma perform_all_sound n s schedule s' :
  sound n s -> 0 <= n -> n + 1 + Z.of_nat (length schedule) < u64_mod ->
  perform_all policy s schedule = Some s' -> sound (n + Z.of_nat (length schedule)) s'.
Proof.
  revert n s. induction schedule as [|m schedule IH]; intros n s Hs Hn Hmax H; cbn in *.
  - simplify_eq. by rewrite Z.add_0_r.
  - destruct (perform policy s m) as [s1|] eqn:E; [|done]. cbn in H.
    eapply perform_sound in E; [|done..|lia]. eapply IH in H; [|done|lia|lia].
    by replace (n + Z.of_nat (S (length schedule))) with (n + 1 + Z.of_nat (length schedule)) by lia.
Qed.

Lemma idle_sound : sound 0 idle.
Proof.
  exists [], []. split; [|constructor]. split; intros; try set_solver; try done.
  destruct words as ([? _] & [? _] & _). split; [done|by intros actor].
Qed.
End discipline.

(** ** The theorems *)

(** [C4] Whatever the interleaving of coordinators that start, stop, inspect and
    reconcile executions over one store, and whatever the command service, the
    engine, the clock and the contexts answer, the engine is asked to start the
    execution of an idempotency key at most once (in fewer than 2^64 - 1 steps, so
    that no version wraps around). *)
Theorem execution_started_at_most_once policy schedule s :
  policy_words policy -> 1 + Z.of_nat (length schedule) < u64_mod -> perform_all policy idle schedule = Some s ->
  forall key, (length (starts_of key (w_effects s.1)) <= 1)%nat.
Proof.
  intros Hw Hn H key. eapply perform_all_sound in H as (history & rights & Hc & _); [|done|by apply idle_sound|lia|lia].
  pose proof (co_once _ _ _ _ _ Hc key) as Ho. unfold claimed in Ho. repeat case_match; lia.
Qed.

(** [C5] No execution is started in the engine before a command that registers or
    replaces exactly that execution was applied: whenever the engine has been
    asked to start a request, the command service had returned an applied receipt
    for a command that the request's plan validates against. *)
Theorem execution_started_after_authorization policy schedule s request :
  policy_words policy -> 1 + Z.of_nat (length schedule) < u64_mod -> perform_all policy idle schedule = Some s ->
  EngineStart request ∈ w_effects s.1 ->
  exists command provenance receipt, (command, provenance, receipt) ∈ w_handled s.1 /\
    rc_OutcomeCode receipt = OutcomeApplied /\ validateExecutionPlan (mkStartPlan command provenance request) = true.
Proof.
  intros Hw Hn H Hin. eapply perform_all_sound in H as (history & rights & Hc & _); [|done|by apply idle_sound|lia|lia].
  destruct (co_effects _ _ _ _ _ Hc _ Hin) as (q & Hq & <- & Hb).
  destruct (co_authorised _ _ _ _ _ Hc q Hq Hb) as (c & p & r & H1 & _ & H2 & H3). by exists c, p, r.
Qed.

(** [C6] The executions that hold capacity never exceed the policy's limits, in
    total and for each actor, and no execution is reconciled more often than the
    policy allows. *)
Theorem executions_within_limits policy schedule s :
  policy_words policy -> 1 + Z.of_nat (length schedule) < u64_mod -> perform_all policy idle schedule = Some s ->
  Z.of_nat (weight consuming (w_controls s.1)) <= xp_MaxActiveTotal policy /\
  (forall actor, Z.of_nat (weight (consuming_for actor) (w_controls s.1)) <= xp_MaxActivePerActor policy) /\
  forall key r, w_controls s.1 !! key = Some r -> 0 <= ct_ReconciliationAttempts r <= xp_MaxReconciliations policy.
Proof.
  intros Hw Hn H. eapply perform_all_sound in H as (history & rights & Hc & _); [|done|by apply idle_sound|lia|lia].
  destruct (co_limits _ _ _ _ _ Hc) as [Ht Ha]. split_and!; [done..|]. intros key r Hr.
  apply (co_attempts _ _ _ _ _ Hc). by apply (co_current _ _ _ _ _ Hc) in Hr as [? _].
Qed.

(** *** An undisturbed start *)

Fixpoint drive {A} (w : World) (p : coord A) (answers : list answer) : option (World * coord A) :=
  match answers with
  | [] => Some (w, p)
  | a :: answers => '(w, p) ← proceed w p a; drive w p answers
  end.

Definition reservation (plan : ExecutionStartPlan) (now : Time) : ExecutionControlRecord :=
  mkControl (xs_Request plan) (cmd_CommandID (xs_AuthorizationCommand plan)) ControlPendingAuthorization 1 now now None None 0 "".

Definition running_record (plan : ExecutionStartPlan) (reserved now : Time) (receipt : CommandReceipt)
    (observation : ExecutionObservation) : ExecutionControlRecord :=
  mkControl (xs_Request plan) (cmd_CommandID (xs_AuthorizationCommand plan)) ControlRunning 4 reserved now
    (Some receipt) (Some observation) 0 "".

Lemma proceed_swap {A} w key (version : Z) current next (k : option execution_error -> coord A) :
  w_controls w !! key = Some current -> swap_allowed current next version = true ->
  proceed w (CallSwap key version next k) (AnswerStore None) = Some (w <| w_controls := <[key := next]> (w_controls w) |>, k None).
Proof. intros H1 H2. cbn. unfold CompareAndSwap. by rewrite H1, H2. Qed.

(** The record at each step of the start. *)
Definition held_record (plan : ExecutionStartPlan) (state : ExecutionControlState) (version : Z) (reserved now : Time)
    (receipt : CommandReceipt) : ExecutionControlRecord :=
  mkControl (xs_Request plan) (cmd_CommandID (xs_AuthorizationCommand plan)) state version reserved now (Some receipt) None 0 "".

Lemma swap_allowed_update prior next version :
  ct_Version prior = version -> ct_Version next = u64 (version + 1) -> ct_Request next = ct_Request prior ->
  ct_AuthorizationCommandID next = ct_AuthorizationCommandID prior -> ct_ReservedAt next = ct_ReservedAt prior ->
  Before (ct_UpdatedAt next) (ct_UpdatedAt prior) = false ->
  validControlTransition (ct_State prior) (ct_State next) = true -> swap_allowed prior next version = true.
Proof.
  intros H1 H2 H3 H4 H5 H6 H7. unfold swap_allowed.
  by rewrite H1, H2, H3, H4, H5, H6, H7, !Z.eqb_refl, !bool_decide_true.
Qed.

Lemma Prepare_granted store candidate policy :
  (Prepare store candidate policy).2 = inr (candidate, true) ->
  store !! key_of candidate = None /\ candidate_valid candidate policy = true /\
  Prepare store candidate policy = (<[key_of candidate := candidate]> store, inr (candidate, true)).
Proof.
  unfold Prepare, key_of. destruct (candidate_valid candidate policy); [|done]. cbn [negb].
  destruct (store !! _); [by case_match|]. destruct (foldl _ _ _) as [[x y] z]. by repeat (case_match; [done|]).
Qed.

(** A swap by [advance], when the record is the stored one. *)
Lemma proceed_advance {A} w prior next (k : _ -> coord A) :
  let next' := next <| ct_Version := u64 (ct_Version prior + 1) |> in
  w_controls w !! key_of prior = Some prior -> swap_allowed prior next' (ct_Version prior) = true ->
  proceed w (advance prior next k) (AnswerStore None) =
  Some (w <| w_controls := <[key_of prior := next']> (w_controls w) |>, k (next', true, None)).
Proof. cbv zeta. intros H1 H2. unfold advance. by rewrite (proceed_swap w _ _ prior _ _ H1 H2). Qed.

(** When the reservation is granted, the command applied and the engine
    reports the execution running, [Start] returns the record in state RUNNING
    with that receipt and observation, having started the engine once; and a
    later [Start] of the same plan returns the same record and asks nothing of the
    command service or the engine. *)
Theorem start_reaches_running policy plan w t1 t2 t3 t4 t5 receipt observation :
  let key := sx_IdempotencyKey (xs_Request plan) in
  let final := running_record plan t1 t4 receipt observation in
  let w' := mkWorld (<[key := final]> (w_controls w)) (EngineStart (xs_Request plan) :: w_effects w)
              ((xs_AuthorizationCommand plan, xs_Provenance plan, receipt) :: w_handled w) in
  validateExecutionPlan plan = true ->
  (Prepare (w_controls w) (reservation plan t1) policy).2 = inr (reservation plan t1, true) ->
  rc_OutcomeCode receipt = OutcomeApplied ->
  observationMatches (xs_Request plan) observation = true -> xo_State observation = ExecutionRunning ->
  Before t2 t1 = false -> Before t3 t2 = false -> Before t4 t3 = false -> IsZero t5 = false ->
  drive w (Start policy plan)
    [AnswerContext None; AnswerClock t1; AnswerStore None; AnswerHandle (inr receipt); AnswerClock t2; AnswerStore None;
     AnswerContext None; AnswerClock t3; AnswerStore None; AnswerContext None; AnswerEngine (inr observation);
     AnswerClock t4; AnswerStore None] = Some (w', Return (final, None)) /\
  drive w' (Start policy plan) [AnswerContext None; AnswerClock t5; AnswerStore None] = Some (w', Return (final, None)).
Proof.
  intros key final w' Hplan Hgrant Happlied Hmatch Hrun H21 H32 H43 H5.
  apply Prepare_granted in Hgrant as (Hfree & Hvalid & Hprep).
  split.
  - unfold Start. rewrite Hplan. cbn [negb drive proceed mbind option_bind]. fold (reservation plan t1). rewrite Hprep.
    cbn [drive proceed mbind option_bind]. rewrite (bool_decide_true (ct_State _ = _)) by done.
    cbn [drive proceed mbind option_bind].
    rewrite proceed_advance; [|by apply lookup_insert_eq|].
    2: { unfold authorized_record. rewrite bool_decide_true by done. by apply swap_allowed_update. }
    replace ((authorized_record _ _ _) <| ct_Version := _ |>) with (held_record plan ControlAuthorized 2 t1 t2 receipt)
      by (unfold authorized_record; by rewrite bool_decide_true by done).
    unfold start_claimed. rewrite (bool_decide_true (ct_State _ = _)) by done. cbn [negb drive proceed mbind option_bind].
    rewrite proceed_advance; [|by apply lookup_insert_eq|by apply swap_allowed_update].
    change (_ <| ct_Version := _ |>) with (held_record plan ControlStarting 3 t1 t3 receipt).
    cbn [drive proceed mbind option_bind negb runExecutionEffect recordEffect].
    change (ct_Request (held_record _ _ _ _ _ _)) with (xs_Request plan). rewrite Hmatch. cbn [negb]. unfold observed_record. rewrite Hrun, bool_decide_true by done.
    rewrite proceed_advance; [|by apply lookup_insert_eq|by apply swap_allowed_update].
    cbn [drive mbind option_bind]. do 2 f_equal. unfold w', key. cbn. f_equal. by rewrite !insert_insert_eq.
  - unfold Start. rewrite Hplan. cbn [negb drive proceed mbind option_bind]. fold (reservation plan t5).
    unfold Prepare.
    assert (candidate_valid (reservation plan t5) policy = true) as ->.
    { revert Hvalid. unfold candidate_valid. cbn. rewrite H5, !neqb_refl.
      intros Hv. autorewrite with gobool in *. tauto. }
    change (sx_IdempotencyKey (ct_Request (reservation plan t5))) with key. cbn [w_controls negb].
    unfold w'. cbn [w_controls]. rewrite lookup_insert_eq, !neqb_refl. done.
Qed.

(** ** A race of two coordinators *)

Definition sample_execution_policy : ExecutionPolicy := mkExecutionPolicy 1000 2 1 5 3600000000000 3.
Definition sample_request : StartExecutionRequest := mkStartExecution actor_a (uid "1") 1 (dig "a") "start".
Definition sample_plan : ExecutionStartPlan :=
  mkStartPlan
    (zero_command <| cmd_CommandID := uid "3" |> <| cmd_CommandType := "tekroo.command.execution.register" |>
       <| cmd_IdempotencyKey := "start" |>
       <| cmd_Payload := jdoc [("actor_fqn", qs actor_a); ("execution_id", qs (uid "1")); ("fencing_epoch", "1");
                               ("runtime_identity", qs (dig "a"))] |>)
    (dc_Provenance sample_context) sample_request.
Definition sample_receipt : CommandReceipt := de_Receipt sample_decision.
Definition sample_observation : ExecutionObservation := mkObservation actor_a (uid "1") 1 ExecutionRunning.

(** Both coordinators are answered alike; the second loses both swaps. *)
Definition sample_race : list move :=
  let both a := [Resume 0 a; Resume 1 a] in
  [Spawn (OpStart sample_plan); Spawn (OpStart sample_plan)] ++
  both (AnswerContext None) ++ both (AnswerClock sample_time) ++ both (AnswerStore None) ++
  both (AnswerHandle (inr sample_receipt)) ++ both (AnswerClock sample_time) ++ both (AnswerStore None) ++
  [Resume 1 (AnswerStore None)] ++
  both (AnswerContext None) ++ both (AnswerClock sample_time) ++ both (AnswerStore None) ++
  [Resume 1 (AnswerStore None); Resume 0 (AnswerContext None); Resume 0 (AnswerEngine (inr sample_observation));
   Resume 0 (AnswerClock sample_time); Resume 0 (AnswerStore None)].

Definition sample_raced : World :=
  mkWorld {[ "start" := running_record sample_plan sample_time sample_time sample_receipt sample_observation ]}
    [EngineStart sample_request]
    [(xs_AuthorizationCommand sample_plan, xs_Provenance sample_plan, sample_receipt);
     (xs_AuthorizationCommand sample_plan, xs_Provenance sample_plan, sample_receipt)].

Definition sample_threads : list thread :=
  [Changing (Return (running_record sample_plan sample_time sample_time sample_receipt sample_observation, None));
   Changing (Return (held_record sample_plan ControlStarting 3 sample_time sample_time sample_receipt, None))].

Lemma sample_race_ends : perform_all sample_execution_policy idle sample_race = Some (sample_raced, sample_threads).
Proof. vm_compute. reflexivity. Qed.

Lemma sample_limits_words : policy_words sample_execution_policy.
Proof. by split_and!. Qed.

Lemma execution_started_at_most_once_witness :
  (length (starts_of "start" (w_effects sample_raced)) <= 1)%nat.
Proof.
  apply (execution_started_at_most_once sample_execution_policy sample_race (sample_raced, sample_threads));
    [exact sample_limits_words|reflexivity|exact sample_race_ends].
Defined.

Lemma execution_started_after_authorization_witness :
  exists command provenance receipt, (command, provenance, receipt) ∈ w_handled sample_raced /\
    rc_OutcomeCode receipt = OutcomeApplied /\ validateExecutionPlan (mkStartPlan command provenance sample_request) = true.
Proof.
  apply (execution_started_after_authorization sample_execution_policy sample_race (sample_raced, sample_threads));
    [exact sample_limits_words|reflexivity|exact sample_race_ends|left].
Defined.

Lemma executions_within_limits_witness :
  Z.of_nat (weight consuming (w_controls sample_raced)) <= xp_MaxActiveTotal sample_execution_policy.
Proof.
  pose proof (executions_within_limits sample_execution_policy sample_race (sample_raced, sample_threads)
    sample_limits_words eq_refl sample_race_ends) as [H _].
  exact H.
Defined.

Lemma start_reaches_running_witness :
  drive sample_raced (Start sample_execution_policy sample_plan)
    [AnswerContext None; AnswerClock sample_time; AnswerStore None] =
  Some (sample_raced, Return (running_record sample_plan sample_time sample_time sample_receipt sample_observation, None)).
Proof.
  pose proof (start_reaches_running sample_execution_policy sample_plan
    (mkWorld ∅ [] [(xs_AuthorizationCommand sample_plan, xs_Provenance sample_plan, sample_receipt)])
    sample_time sample_time sample_time sample_time sample_time sample_receipt sample_observation
    ltac:(vm_compute; reflexivity) ltac:(vm_compute; reflexivity) eq_refl eq_refl eq_refl eq_refl eq_refl eq_refl eq_refl) as [_ H].
  exact H.
Defined.
