(* ===== verification/OperationalExecution.v ===== *)
(** * Operational executions ([application/operational_execution.go], [application/role_handler_validation.go])

    What an agent runtime is given for one admitted invocation: the context read
    from the store and its validation, the grounding of the role, the handler of
    the admitted message, and the execution brief with its digest. The validator
    of JSON schemas is a third-party package and a parameter here. *)

From S2P Require Import Prelude GoText GoTime GoJson GoMarshal GoJsonLaws GoMarshalLaws Types Samples.
From S2P Require Import Sha256 Payload Envelope State WorkProfile Assignment WorkInvocation Fingerprint Provenance.

(** ** White space ([strings.TrimSpace]) *)

(** The bytes of the white-space character a text starts with, if it does. *)
Definition space_length (s : list Z) : nat :=
  match s with
  | 194 :: b :: _ => if (b =? 133) || (b =? 160) then 2 else 0
  | 225 :: 154 :: 128 :: _ => 3
  | 226 :: 128 :: b :: _ => if (128 <=? b) && (b <=? 138) || (b =? 168) || (b =? 169) || (b =? 175) then 3 else 0
  | 226 :: 129 :: 159 :: _ => 3
  | 227 :: 128 :: 128 :: _ => 3
  | b :: _ => if (9 <=? b) && (b <=? 13) || (b =? 32) then 1 else 0
  | [] => 0
  end.

(** The same at the end, on the reversed text. *)
Definition space_length_last (s : list Z) : nat :=
  match s with
  | 128 :: 154 :: 225 :: _ => 3
  | 159 :: 129 :: 226 :: _ => 3
  | 128 :: 128 :: 227 :: _ => 3
  | b :: 128 :: 226 :: _ => if (128 <=? b) && (b <=? 138) || (b =? 168) || (b =? 169) || (b =? 175) then 3 else 0
  | b :: 194 :: _ => if (b =? 133) || (b =? 160) then 2 else 0
  | b :: _ => if (9 <=? b) && (b <=? 13) || (b =? 32) then 1 else 0
  | [] => 0
  end.

Fixpoint trim_with (width : list Z -> nat) (fuel : nat) (s : list Z) : list Z :=
  match fuel with
  | O => s
  | S fuel => match width s with O => s | n => trim_with width fuel (skipn n s) end
  end.

Definition TrimSpace (s : string) : string :=
  let bytes := trim_with space_length (String.length s) (bytes_of s) in
  bytes_str (rev (trim_with space_length_last (length bytes) (rev bytes))).

Example TrimSpace_ex : TrimSpace (js "  a b") = "a b" /\ TrimSpace "   " = "".
Proof. split; reflexivity. Qed.

(** ** The specification of a task *)

Record TaskExecutionSpecification := mkTaskExecutionSpecification {
  tsp_TaskID : UUIDv7;
  tsp_CreatedEventID : UUIDv7;
  tsp_SourceDigest : Digest;
  tsp_StoryID : UUIDv7;
  tsp_Title : string;
  tsp_Description : string;
  tsp_AcceptanceCriteria : list string;
  tsp_DependsOn : list UUIDv7
}.

#[export] Instance eta_TaskExecutionSpecification : Eta TaskExecutionSpecification := fun r =>
  mkTaskExecutionSpecification
    (tsp_TaskID r) (tsp_CreatedEventID r) (tsp_SourceDigest r) (tsp_StoryID r)
    (tsp_Title r) (tsp_Description r) (tsp_AcceptanceCriteria r) (tsp_DependsOn r).

Definition zero_TaskExecutionSpecification : TaskExecutionSpecification :=
  mkTaskExecutionSpecification
    "" "" "" "" "" "" [] [].

#[global] Instance TaskExecutionSpecification_eq_dec : EqDecision TaskExecutionSpecification.
Proof. solve_decision. Defined.

Record taskCreatedPayload := mktaskCreatedPayload {
  tcp_StoryID : UUIDv7;
  tcp_Title : string;
  tcp_Description : string;
  tcp_AcceptanceCriteria : list string;
  tcp_DependsOn : list UUIDv7
}.

#[export] Instance eta_taskCreatedPayload : Eta taskCreatedPayload := fun r =>
  mktaskCreatedPayload
    (tcp_StoryID r) (tcp_Title r) (tcp_Description r) (tcp_AcceptanceCriteria r)
    (tcp_DependsOn r).

Definition zero_taskCreatedPayload : taskCreatedPayload :=
  mktaskCreatedPayload
    "" "" "" [] [].

Definition fields_taskCreatedPayload : list (field taskCreatedPayload) :=
  [
    fld "story_id" tcp_StoryID dec_string;
    fld "title" tcp_Title dec_string;
    fld "description" tcp_Description dec_string;
    fld "acceptance_criteria" tcp_AcceptanceCriteria (dec_slice "" dec_string);
    fld "depends_on" tcp_DependsOn (dec_slice "" dec_string)
  ].

Definition TaskExecutionSpecification_Valid (s : TaskExecutionSpecification) : bool :=
  when negb (UUIDv7_Valid (tsp_TaskID s)) || negb (UUIDv7_Valid (tsp_CreatedEventID s))
       || negb (Digest_Valid (tsp_SourceDigest s)) || negb (UUIDv7_Valid (tsp_StoryID s))
       || (tsp_Title s == "") || (256 <? slen (tsp_Title s)) || (65536 <? slen (tsp_Description s))
       || (llen (tsp_AcceptanceCriteria s) =? 0) || (64 <? llen (tsp_AcceptanceCriteria s))
       || (64 <? llen (tsp_DependsOn s))
    return false ;;
  when negb (check_unique (fun value => negb ((value == "") || (4096 <? slen value))) ∅ (tsp_AcceptanceCriteria s))
    return false ;;
  check_unique UUIDv7_Valid ∅ (tsp_DependsOn s).

Definition contentDigest (content : string) : Digest := sha256_hex content.

Definition TaskExecutionSpecificationFromEvent (event : DomainEvent) : option TaskExecutionSpecification :=
  when (ev_EventType event != "tekroo.event.task.created") || (ref_Kind (ev_Aggregate event) != AggregateTask)
       || negb (UUIDv7_Valid (ev_EventID event))
    return None ;;
  try payload <- Unmarshal fields_taskCreatedPayload zero_taskCreatedPayload (ev_Payload event) ;;
  let specification :=
    mkTaskExecutionSpecification (ref_ID (ev_Aggregate event)) (ev_EventID event) (sha256_hex (ev_Payload event))
      (tcp_StoryID payload) (tcp_Title payload) (tcp_Description payload) (tcp_AcceptanceCriteria payload)
      (tcp_DependsOn payload) in
  when negb (TaskExecutionSpecification_Valid specification) return None ;;
  Some specification.

(** ** Directives, messages and groundings *)

Record ExecutionRecoveryDirective := mkExecutionRecoveryDirective {
  rdv_SourceEventID : UUIDv7;
  rdv_Reason : string;
  rdv_Evidence : list EvidenceRef
}.

#[export] Instance eta_ExecutionRecoveryDirective : Eta ExecutionRecoveryDirective := fun r =>
  mkExecutionRecoveryDirective
    (rdv_SourceEventID r) (rdv_Reason r) (rdv_Evidence r).

Definition zero_ExecutionRecoveryDirective : ExecutionRecoveryDirective :=
  mkExecutionRecoveryDirective
    "" "" [].

#[global] Instance ExecutionRecoveryDirective_eq_dec : EqDecision ExecutionRecoveryDirective.
Proof. solve_decision. Defined.

(** Strictly ascending in the evidence identifiers, and every reference valid. *)
Fixpoint directive_evidence_valid (previous : option UUIDv7) (l : list EvidenceRef) : bool :=
  match l with
  | [] => true
  | e :: l =>
    when negb (UUIDv7_Valid (er_EvidenceID e)) || negb (Digest_Valid (er_SHA256 e))
         || match previous with Some p => String.leb (er_EvidenceID e) p | None => false end
      return false ;;
    directive_evidence_valid (Some (er_EvidenceID e)) l
  end.

Definition ExecutionRecoveryDirective_Valid (d : ExecutionRecoveryDirective) : bool :=
  when negb (UUIDv7_Valid (rdv_SourceEventID d)) || (TrimSpace (rdv_Reason d) == "") || (4096 <? slen (rdv_Reason d))
       || (llen (rdv_Evidence d) =? 0) || (64 <? llen (rdv_Evidence d))
    return false ;;
  directive_evidence_valid None (rdv_Evidence d).

Record AdmittedMessage := mkAdmittedMessage {
  adm_ID : UUIDv7;
  adm_Type : string;
  adm_Purpose : string;
  adm_Body : string
}.

#[export] Instance eta_AdmittedMessage : Eta AdmittedMessage := fun r =>
  mkAdmittedMessage
    (adm_ID r) (adm_Type r) (adm_Purpose r) (adm_Body r).

Definition zero_AdmittedMessage : AdmittedMessage :=
  mkAdmittedMessage
    "" "" "" "".

#[global] Instance AdmittedMessage_eq_dec : EqDecision AdmittedMessage.
Proof. solve_decision. Defined.

Definition AdmittedMessage_Valid (m : AdmittedMessage) (binding : HandlerDispatchBinding) : bool :=
  (adm_ID m == hb_MessageID binding) && (adm_Type m == hb_MessageType binding)
  && (adm_Purpose m == hb_MessagePurpose binding) && (0 <? slen (adm_Body m))
  && (contentDigest (adm_Body m) == hb_MessageBodyDigest binding).

Record RoleExecutionGrounding := mkRoleExecutionGrounding {
  rgr_ActorFQN : ActorFQN;
  rgr_RoleFQRN : string;
  rgr_BundleVersion : string;
  rgr_BundleDigest : Digest;
  rgr_Capabilities : list string;
  rgr_Permissions : list string;
  rgr_Instructions : string;
  rgr_TeamInstructions : string
}.

#[export] Instance eta_RoleExecutionGrounding : Eta RoleExecutionGrounding := fun r =>
  mkRoleExecutionGrounding
    (rgr_ActorFQN r) (rgr_RoleFQRN r) (rgr_BundleVersion r) (rgr_BundleDigest r)
    (rgr_Capabilities r) (rgr_Permissions r) (rgr_Instructions r) (rgr_TeamInstructions r).

Definition zero_RoleExecutionGrounding : RoleExecutionGrounding :=
  mkRoleExecutionGrounding
    "" "" "" "" [] [] "" "".

#[global] Instance RoleExecutionGrounding_eq_dec : EqDecision RoleExecutionGrounding.
Proof. solve_decision. Defined.

(** [slices.IsSorted]. *)
Fixpoint is_sorted (l : list string) : bool :=
  match l with
  | x :: ((y :: _) as l') => String.leb x y && is_sorted l'
  | _ => true
  end.

(** The loop over each list of names: not empty, each above the one before. *)
Fixpoint above (previous : string) (l : list string) : bool :=
  match l with
  | [] => true
  | value :: l => when (value == "") || String.leb value previous return false ;; above value l
  end.

Definition RoleExecutionGrounding_Valid (g : RoleExecutionGrounding) (actor : ActorFQN) : bool :=
  match RoleFQRNFromActor actor with
  | None => false
  | Some fqrn =>
    when (rgr_ActorFQN g != actor) || (rgr_RoleFQRN g != fqrn) || (rgr_BundleVersion g == "")
         || negb (Digest_Valid (rgr_BundleDigest g)) || (TrimSpace (rgr_Instructions g) == "")
         || (1048576 <? slen (rgr_Instructions g)) || (65536 <? slen (rgr_TeamInstructions g))
         || (llen (rgr_Capabilities g) =? 0) || (llen (rgr_Permissions g) =? 0)
         || negb (is_sorted (rgr_Capabilities g)) || negb (is_sorted (rgr_Permissions g))
      return false ;;
    above "" (rgr_Capabilities g) && above "" (rgr_Permissions g)
  end.

Record MessageHandlerGrounding := mkMessageHandlerGrounding {
  mhg_MessageID : UUIDv7;
  mhg_MessageType : string;
  mhg_MessagePurpose : string;
  mhg_SubscriptionPurpose : string;
  mhg_CharterDigest : Digest;
  mhg_HandlerDigest : Digest;
  mhg_Instructions : string;
  mhg_InputSchemaDigest : Digest;
  mhg_InputSchema : string;
  mhg_ResultSchemaDigest : Digest;
  mhg_ResultSchema : string;
  mhg_AllowedResults : list string;
  mhg_AllowedMessageProposals : list string
}.

#[export] Instance eta_MessageHandlerGrounding : Eta MessageHandlerGrounding := fun r =>
  mkMessageHandlerGrounding
    (mhg_MessageID r) (mhg_MessageType r) (mhg_MessagePurpose r)
    (mhg_SubscriptionPurpose r) (mhg_CharterDigest r) (mhg_HandlerDigest r)
    (mhg_Instructions r) (mhg_InputSchemaDigest r) (mhg_InputSchema r)
    (mhg_ResultSchemaDigest r) (mhg_ResultSchema r) (mhg_AllowedResults r)
    (mhg_AllowedMessageProposals r).

Definition zero_MessageHandlerGrounding : MessageHandlerGrounding :=
  mkMessageHandlerGrounding
    "" "" "" "" "" "" "" "" "" "" "" [] [].

#[global] Instance MessageHandlerGrounding_eq_dec : EqDecision MessageHandlerGrounding.
Proof. solve_decision. Defined.

Definition MessageHandlerGrounding_Valid (g : MessageHandlerGrounding) (binding : HandlerDispatchBinding) (charter : string)
    : bool :=
  when negb (HandlerDispatchBinding_Valid binding) || (mhg_MessageID g != hb_MessageID binding)
       || (mhg_MessageType g != hb_MessageType binding) || (mhg_MessagePurpose g != hb_MessagePurpose binding)
       || (mhg_SubscriptionPurpose g != hb_SubscriptionPurpose binding)
       || (mhg_CharterDigest g != hb_CharterDigest binding) || (mhg_HandlerDigest g != hb_HandlerDigest binding)
       || (mhg_InputSchemaDigest g != hb_InputSchemaDigest binding)
       || (mhg_ResultSchemaDigest g != hb_ResultSchemaDigest binding)
       || (mhg_AllowedResults g != nslice_list (hb_AllowedResults binding))
       || (mhg_AllowedMessageProposals g != nslice_list (hb_AllowedMessageProposals binding))
       || (TrimSpace (mhg_Instructions g) == "") || (1048576 <? slen (mhg_Instructions g))
       || (slen (mhg_InputSchema g) =? 0) || (slen (mhg_ResultSchema g) =? 0)
    return false ;;
  (contentDigest charter == mhg_CharterDigest g) && (contentDigest (mhg_Instructions g) == mhg_HandlerDigest g)
  && (contentDigest (mhg_InputSchema g) == mhg_InputSchemaDigest g)
  && (contentDigest (mhg_ResultSchema g) == mhg_ResultSchemaDigest g).

(** ** The context of an execution *)

Record OperationalExecutionContext := mkOperationalExecutionContext {
  oec_Invocation : WorkInvocation;
  oec_AdmittedMessage : option AdmittedMessage;
  oec_RetryOfConversationID : option string;
  oec_Task : AggregateState;
  oec_Budget : WorkBudgetAccount;
  oec_TaskBudget : TaskWorkBudgetBinding;
  oec_Scope : TaskOperationalScope;
  oec_Profile : WorkProfileSnapshot;
  oec_Assignment : QualifiedAssignmentAuthorization;
  oec_CurrentExecution : ExecutionTuple;
  oec_Specification : TaskExecutionSpecification;
  oec_Evidence : list EvidenceRef;
  oec_RecoveryDirective : option ExecutionRecoveryDirective;
  oec_AuthorizationEventSeen : bool;
  oec_ParentEventSeen : bool
}.
#[export] Instance eta_OperationalExecutionContext : Eta OperationalExecutionContext := fun r =>
  mkOperationalExecutionContext (oec_Invocation r) (oec_AdmittedMessage r) (oec_RetryOfConversationID r) (oec_Task r)
    (oec_Budget r) (oec_TaskBudget r) (oec_Scope r) (oec_Profile r) (oec_Assignment r) (oec_CurrentExecution r)
    (oec_Specification r) (oec_Evidence r) (oec_RecoveryDirective r) (oec_AuthorizationEventSeen r) (oec_ParentEventSeen r).

Definition counter (c : PurposeCounters) (purpose : WorkPurpose) : Z := default 0 (c !! purpose).

Definition invalid_retry_context (c : OperationalExecutionContext) : bool :=
  match iv_RetryOfInvocationID (oec_Invocation c), oec_RetryOfConversationID c with
  | None, Some _ => true
  | Some invocation, Some conversation => conversation != invocation
  | _, None => false
  end.

Definition invalid_admitted_message (c : OperationalExecutionContext) : bool :=
  match iv_HandlerDispatch (oec_Invocation c), oec_AdmittedMessage c with
  | None, Some _ => true
  | Some binding, Some message => negb (AdmittedMessage_Valid message binding)
  | Some _, None => true
  | None, None => false
  end.

Definition task_current (c : OperationalExecutionContext) : bool :=
  let invocation := oec_Invocation c in
  let task := oec_Task c in
  negb (negb (WorkInvocation_Valid invocation) || invalid_retry_context c || invalid_admitted_message c
    || (as_Kind task != AggregateTask) || (as_ID task != iv_TaskID invocation)
    || (as_Revision task != iv_TaskRevision invocation) || (as_LifecycleEpoch task != iv_LifecycleEpoch invocation)
    || (as_ScopeRevision task != iv_ScopeRevision invocation) || (as_Phase task != PhaseActive)
    || (as_Condition task != ConditionRunnable) || negb (oec_AuthorizationEventSeen c) || negb (oec_ParentEventSeen c)).

Definition budget_current (c : OperationalExecutionContext) (now : Time) : bool :=
  let invocation := oec_Invocation c in
  let budget := oec_Budget c in
  negb (negb (WorkBudgetAccount_Valid budget) || (ba_ID budget != iv_BudgetAccountID invocation)
    || (ba_PolicyRevision budget != iv_AdmissionPolicyRevision invocation)
    || (ba_PolicyDigest budget != iv_AdmissionPolicyDigest invocation)
    || (ba_ModelInvocationsUsed budget <? iv_GlobalDebitOrdinal invocation)
    || (counter (ba_PurposeUsed budget) (iv_Purpose invocation) <? iv_PurposeDebitOrdinal invocation)
    || negb (Before now (ba_DeadlineAt budget)) || negb (Before now (iv_DeadlineAt invocation))).

Definition task_budget_current (c : OperationalExecutionContext) : bool :=
  let invocation := oec_Invocation c in
  let budget := oec_TaskBudget c in
  negb (negb (TaskWorkBudgetBinding_Valid budget) || (tb_TaskID budget != iv_TaskID invocation)
    || (tb_BudgetAccountID budget != iv_BudgetAccountID invocation)
    || (tb_LifecycleEpoch budget != iv_LifecycleEpoch invocation)
    || (tb_ScopeRevision budget != iv_ScopeRevision invocation) || (tb_ModelInvocationsUsed budget == 0)
    || (counter (tb_PurposeUsed budget) (iv_Purpose invocation) == 0)).

Definition scope_current (c : OperationalExecutionContext) : bool :=
  let invocation := oec_Invocation c in
  let scope := oec_Scope c in
  negb (negb (TaskOperationalScope_Valid scope) || (os_TaskID scope != iv_TaskID invocation)
    || (os_LifecycleEpoch scope != iv_LifecycleEpoch invocation) || (os_ScopeRevision scope != iv_ScopeRevision invocation)
    || (os_OwnerFQN scope != iv_ActorFQN invocation) || (os_Execution scope != iv_Execution invocation)
    || (os_WorkspaceID scope != iv_WorkspaceID invocation)).

Definition assignment_current (c : OperationalExecutionContext) : bool :=
  let invocation := oec_Invocation c in
  let profile := ws_Profile (oec_Profile c) in
  let assignment := oec_Assignment c in
  negb (negb (WorkProfileSnapshot_Valid (oec_Profile c)) || (Binding profile != iv_WorkProfile invocation)
    || (wp_TaskID profile != iv_TaskID invocation) || negb (QualifiedAssignmentAuthorization_Valid assignment)
    || (qa_AssignmentID assignment != iv_QualifiedAssignmentID invocation)
    || (qa_TaskID assignment != iv_TaskID invocation) || (qa_WorkProfile assignment != iv_WorkProfile invocation)
    || (qa_SelectedActorFQN assignment != iv_ActorFQN invocation)
    || (SelectedExecution assignment != iv_Execution invocation)
    || (qa_ModelProfileDigest assignment != iv_ModelProfileDigest invocation)
    || (qa_RuntimeIdentityDigest assignment != iv_RuntimeIdentityDigest invocation)
    || (oec_CurrentExecution c != iv_Execution invocation)).

(** The identifiers the loops collect in [required]. *)
Definition required_evidence (scope : TaskOperationalScope) (profile : WorkProfileSnapshot)
    (assignment : QualifiedAssignmentAuthorization) : list UUIDv7 :=
  os_InterfaceEvidenceIDs scope ++ wp_ClassificationEvidenceIDs (ws_Profile profile) ++ qa_EvidenceIDs assignment.

Definition evidence_reference_valid (e : EvidenceRef) : bool :=
  UUIDv7_Valid (er_EvidenceID e) && Digest_Valid (er_SHA256 e).

Definition evidence_complete (c : OperationalExecutionContext) : bool :=
  forallb evidence_reference_valid (oec_Evidence c)
  && forallb (contains (map er_EvidenceID (oec_Evidence c)))
       (required_evidence (oec_Scope c) (oec_Profile c) (oec_Assignment c)).

(** [true] is a [nil] error; every failure is [ErrStaleWorkInvocation]. *)
Definition OperationalExecutionContext_Validate (c : OperationalExecutionContext) (now : Time) : bool :=
  when negb (task_current c) return false ;;
  when negb (budget_current c now) return false ;;
  when negb (task_budget_current c) return false ;;
  when negb (scope_current c) return false ;;
  when negb (assignment_current c) return false ;;
  when negb (TaskExecutionSpecification_Valid (oec_Specification c))
       || (tsp_TaskID (oec_Specification c) != iv_TaskID (oec_Invocation c))
    return false ;;
  evidence_complete c.

(** ** The texts given to every execution *)

Definition semanticContextForbiddenEffects : list string :=
  ["ACCEPTANCE";
   "ASSIGNMENT";
   "BUDGET";
   "COMPLETION";
   "INVOCATION_AUTHORITY";
   "LEASE";
   "OWNERSHIP";
   "RELEASE";
   "REVIEW";
   "ROUTING";
   "STORY_STATE";
   "TASK_STATE"].

Definition sharedExecutionGuidance : list string :=
  ["Before acting, inspect role_grounding: actor_fqn identifies this running instance, role_fqrn identifies its signed role bundle, and the bundle instructions, capabilities, and permissions define the role you must perform.";
   "Stay inside the authorized workspace and task scope."].

Definition repositoryExecutionGuidance : list string :=
  ["If repository inspection is needed for this assignment, read AGENTS.md before source files. Use only the repository tools exposed for this invocation; do not inspect the repository merely because tools are available.";
   "Every inspection must resolve a concrete open question in the assigned task. When a search identifies the relevant implementation and tests, inspect those files and stop discovery; do not enumerate unrelated directories to prove absence.";
   "Read accepted CONTRACTS packages only when they directly resolve an open question in the assigned task. Never modify accepted CONTRACTS packages."].

Definition editableExecutionGuidance : list string :=
  ["Inspect enough current code and tests to justify the change, then make the smallest cohesive edit. If the task remains ambiguous after the relevant surfaces are exhausted, report the concrete blocker.";
   "Ground code decisions in the relevant source and tests. A search result locates evidence but does not replace reading the source before relying on a name, signature, or field.";
   "Run each focused test once per repository change. Do not re-run an equivalent passing build or test more than twice without an intervening code change, and do not re-run a failing test unchanged: read its output, repair the root cause, then run it again once.";
   "Map and extend existing interfaces before adding a parallel abstraction.";
   "When the task requires a new artifact of a kind the repository already contains (a test, fixture, handler, or wiring), locate the closest existing example and adapt it rather than reconstructing it from the internals it depends on.";
   "Implement in cohesive increments and run focused tests after each increment.";
   "Before reporting success, commit the intended changes and tests on the assigned branch and leave Git status clean. Validators receive only the committed candidate."].

Definition noRepositoryExecutionGuidance : list string :=
  ["This invocation grants no repository tools. Every repository inspection, test, and deterministic gate listed in the work profile is executed by later tasks owned by repository-authorized roles; treat that list as a downstream obligation, not a requirement on this result.";
   "Work only from the admitted request, this brief, and the task's acceptance criteria. Do not claim repository-grounded observations you cannot make, and do not block or request a decision because repository access is absent.";
   "Return the required structured result through result_protocol."].

Definition readOnlyExecutionGuidance : list string :=
  ["This task does not authorize repository edits. Do not edit repository files or create implementation artifacts.";
   "Use only the repository evidence needed for the assigned result; if relevant surfaces are exhausted and evidence remains insufficient, report the concrete blocker.";
   "Inspect current interfaces and relevant tests only when needed to perform the assigned role, then return the required result through result_protocol.";
   "When you write a command, CLI, or API example in planning text, use a placeholder operand (for example <actor-fqn> or <alias>) rather than a concrete agent instance FQN such as teams::coder-2; naming a specific running instance is a routing decision Teams owns, and an invented instance FQN in a plan or refinement is rejected.";
   "When the task requires a structured result, validate it against result_protocol and every required field in the task's result schema before submitting it."].

Definition validationExecutionGuidance : list string :=
  ["Act as an independent engineering validator, not only as a test runner. Candidate-authored tests, builds, vet, and race checks are necessary evidence but do not by themselves prove that the implementation matches an acceptance criterion.";
   "For every acceptance criterion, trace the relevant production control or data path and test a concrete plausible near-miss against that path. A cited test supports a criterion only when its assertions distinguish the required behavior from that near-miss.";
   "Return PASS only when every criterion is supported by the inspected production behavior and distinguishing verification. Return FAIL for an observed contradiction and INCONCLUSIVE when the available evidence cannot distinguish compliance from a plausible near-miss; never convert missing evidence into PASS."].

Definition reviewExecutionGuidance : list string :=
  ["Perform only the review defined by the task acceptance criteria and the signed role's capabilities. Implementation details and test results may be inspected as evidence, but they do not expand the review's authority.";
   "Report evidence-backed findings within that review boundary. Do not assume ownership of implementation, architecture, general functional validation, product acceptance, or release unless the task and signed role explicitly assign it.";
   "Return PASS only when every review criterion is supported by relevant inspected or executed evidence. Return FAIL for an observed contradiction and INCONCLUSIVE when the available evidence is insufficient; never convert missing evidence into PASS."].

Definition sharedRetainedRetryExecutionGuidance : list string :=
  ["This is a bounded retry. Reuse the current workspace and retained task evidence; do not restart repository discovery from the beginning.";
   "The prior OpenHands conversation is retained in this retry. Do not reread AGENTS.md or repeat inspections already present in that history.";
   "Continue from the retained checkpoint. Distinct, relevant inspections are allowed; exact repeated actions without an intervening state change are rejected."].

Definition editableRetainedRetryExecutionGuidance : list string :=
  ["Make the smallest justified code or test edit from the retained findings, using additional distinct inspections only where the checkpoint leaves a concrete gap."].

Definition readOnlyRetainedRetryExecutionGuidance : list string :=
  ["Produce the assigned plan, review, or report immediately from the retained findings. Do not perform implementation edits."].

Definition sharedExplicitRecoveryExecutionGuidance : list string :=
  ["This explicit recovery starts a clean OpenHands conversation. Prior conversational history is not available; use the current workspace and task evidence as the durable recovery state.";
   "The recovery_directive records the exact condition that made the preceding result unacceptable. Address it before re-evaluating the original acceptance criteria; satisfying the original task without resolving the directive is not a successful recovery."].

Definition editableExplicitRecoveryExecutionGuidance : list string :=
  ["Use the workspace-bound repository_status and read_file_diff tools to inspect the current candidate before reading source broadly. The workspace may already contain a completed implementation from the failed invocation.";
   "Do not restart implementation or force a new edit when the current committed work already satisfies the task. Verify the existing result against the acceptance criteria and submit promptly.";
   "If the existing workspace does not satisfy the task, make the smallest justified code or test correction, then run focused verification. If it already satisfies the task, run focused verification and submit without changing it.";
   "Map and extend existing interfaces before adding a parallel abstraction.";
   "Implement in cohesive increments and run focused tests after each increment."].

Definition readOnlyExplicitRecoveryExecutionGuidance : list string :=
  ["This task does not authorize repository edits. Do not edit repository files or create implementation artifacts.";
   "Start from the admitted request, recovery directive, task evidence, selected handler, and result schema. Do not inspect the workspace broadly; use repository evidence only when the assigned result specifically requires it.";
   "If the preceding result was rejected by a deterministic result validator, preserve its supported engineering conclusions and regenerate the complete structured result from the authoritative task schema. Before submitting, verify every required object field is present and every required value is non-empty.";
   "Produce the assigned plan, review, or report from the current workspace and task evidence, then return the result through result_protocol."].

Definition ValidationResultMarker : string := "TEKROO_VALIDATION_RESULT:".

Definition OrganizationalResultMarker : string := "TEKROO_ORGANIZATIONAL_RESULT:".

Definition evidenceOnlyCoordinationRule : string := "RETURN_EVIDENCE_AND_PROPOSALS_TO_TEAMS_ONLY;DO_NOT_ADDRESS_OR_INVOKE_ANOTHER_AGENT".

Definition SemanticContextLabel : string := "NON_AUTHORITATIVE_SEMANTIC_MEMORY_CONTEXT".

Definition SemanticContextUse : string := "ORIENTATION_AND_EVIDENCE_ONLY".

Definition SemanticContextPrecedence : string := "CURRENT_TEAMS_STATE_AND_CURRENT_TASK_EVIDENCE_ALWAYS_PREVAIL".

Definition handlerInstruction : string :=
  "The submit_result tool is the only result channel Teams consumes for this invocation. Call submit_result exactly once, passing the result envelope as structured parameters. The outer schema_version is fixed at 1.0.0 and Teams supplies it if omitted; any supplied value must match. Put any task-specific structured result required by the admitted work inside work_product, not beside the envelope. Return only results and message proposals allowed by the selected handler. Teams validates the result against message_handler.result_schema and remains the sole authority that records state changes or dispatches successor work.".

Definition validationInstruction : string :=
  "The OpenHands finish tool message is the result consumed by Teams. Set finish.message to the marker on its own line followed by exactly one JSON object containing schema_version, outcome, and non-empty reasons. For PASS, reasons must cover every acceptance criterion and identify the inspected production control or data path plus verification that distinguishes the required behavior from a plausible near-miss; test names or aggregate test commands alone are insufficient. Do not summarize or paraphrase the result in finish.message. Teams will reject missing or malformed results.".

Definition reviewInstruction : string :=
  "The OpenHands finish tool message is the result consumed by Teams. Set finish.message to the marker on its own line followed by exactly one JSON object containing schema_version, outcome, and non-empty reasons. For PASS, reasons must cover every assigned review criterion with evidence inside the signed role's review boundary. Do not make a broader implementation, architecture, product-acceptance, release, or workflow determination. Do not summarize or paraphrase the result in finish.message. Teams will reject missing or malformed results.".

Definition promotionInstruction : string :=
  "Act as the product owner. The OpenHands finish tool message is the result consumed by Teams. Set finish.message to the marker on its own line followed by exactly one JSON object containing schema_version, outcome, and non-empty reasons. Do not summarize or paraphrase the result in finish.message. PASS means every story acceptance criterion is supported by the supplied completion evidence; Teams remains the authority that records acceptance and release state.".

Definition handoffInstruction : string :=
  "The OpenHands finish tool message is the result consumed by Teams. Set finish.message to the marker on its own line followed by exactly one JSON object conforming to the result schema in the task description. Do not summarize or paraphrase the result in finish.message. Teams will reject missing, malformed, or extra fields.".

(** ** The result of a handler ([role_handler_validation.go]) *)

Record RoleHandlerMessageProposal := mkRoleHandlerMessageProposal {
  rhp_Type : string;
  rhp_Recipient : ActorFQN
}.

#[export] Instance eta_RoleHandlerMessageProposal : Eta RoleHandlerMessageProposal := fun r =>
  mkRoleHandlerMessageProposal
    (rhp_Type r) (rhp_Recipient r).

Definition zero_RoleHandlerMessageProposal : RoleHandlerMessageProposal :=
  mkRoleHandlerMessageProposal
    "" "".

Definition fields_RoleHandlerMessageProposal : list (field RoleHandlerMessageProposal) :=
  [
    fld "type" rhp_Type dec_string;
    fld "recipient" rhp_Recipient dec_string
  ].

(** Whether the member [body] is present: a raw message is empty only when its
    member is missing. *)
Record handlerProposal := mkHandlerProposal {
  hpr_Proposal : RoleHandlerMessageProposal;
  hpr_Body : bool
}.
Definition dec_handlerProposal : decoder handlerProposal := fun j cur =>
  try proposal <- dec_struct fields_RoleHandlerMessageProposal j (hpr_Proposal cur) ;;
  Some (mkHandlerProposal proposal
    (hpr_Body cur || match j with JObject ms => existsb (fun kv => fold_name (unquote (fst kv)) == "body") ms | _ => false end)).

Record resultEnvelope := mkResultEnvelope {
  ren_Outcome : string;
  ren_MessageProposals : list handlerProposal
}.
#[export] Instance eta_resultEnvelope : Eta resultEnvelope := fun r => mkResultEnvelope (ren_Outcome r) (ren_MessageProposals r).
Definition fields_resultEnvelope : list (field resultEnvelope) :=
  [fld "outcome" ren_Outcome dec_string;
   fld "message_proposals" ren_MessageProposals
     (dec_slice (mkHandlerProposal zero_RoleHandlerMessageProposal false) dec_handlerProposal)].

(** The text after the marker, when it is one JSON object. *)
Definition markedJSON (output marker : string) : option string :=
  let trimmed := TrimSpace output in
  when negb (has_prefix trimmed marker) return None ;;
  let trimmed := TrimSpace (drop (String.length marker) trimmed) in
  match json_parse trimmed with
  | Some (JObject _) => Some trimmed
  | _ => None
  end.

Section handlers.

(** Validation against a schema by the [jsonschema] package: the schema decodes
    and compiles, the instance decodes and satisfies it. *)
Variable schema_accepts : string -> string -> bool.

Definition validateJSONInstance (schemaBytes instanceBytes : string) : bool :=
  when (slen schemaBytes =? 0) || (slen instanceBytes =? 0) return false ;;
  schema_accepts schemaBytes instanceBytes.

Definition ValidateRoleHandlerInput (handler : MessageHandlerGrounding) (message : AdmittedMessage) : bool :=
  validateJSONInstance (mhg_InputSchema handler) (adm_Body message).

Definition proposal_allowed (handler : MessageHandlerGrounding) (p : handlerProposal) : bool :=
  contains (mhg_AllowedMessageProposals handler) (rhp_Type (hpr_Proposal p))
  && ActorFQN_Valid (rhp_Recipient (hpr_Proposal p)) && hpr_Body p.

(** Whether the result is accepted. *)
Definition ValidateRoleHandlerResult (handler : MessageHandlerGrounding) (output : string) : bool :=
  match markedJSON output OrganizationalResultMarker with
  | None => false
  | Some raw =>
    when negb (validateJSONInstance (mhg_ResultSchema handler) raw) return false ;;
    match Unmarshal fields_resultEnvelope (mkResultEnvelope "" []) raw with
    | None => false
    | Some envelope =>
      contains (mhg_AllowedResults handler) (ren_Outcome envelope)
      && forallb (proposal_allowed handler) (ren_MessageProposals envelope)
    end
  end.

End handlers.

(** ** The brief *)

Record ExecutionResultProtocol := mkExecutionResultProtocol {
  rpt_SchemaVersion : string;
  rpt_Marker : string;
  rpt_Outcomes : list string;
  rpt_Instruction : string
}.

#[export] Instance eta_ExecutionResultProtocol : Eta ExecutionResultProtocol := fun r =>
  mkExecutionResultProtocol
    (rpt_SchemaVersion r) (rpt_Marker r) (rpt_Outcomes r) (rpt_Instruction r).

#[global] Instance ExecutionResultProtocol_eq_dec : EqDecision ExecutionResultProtocol.
Proof. solve_decision. Defined.

Record SemanticContextRequest := mkSemanticContextRequest {
  scr_Label : string;
  scr_AllowedUse : string;
  scr_CurrentRealityRule : string;
  scr_NonAuthoritative : bool;
  scr_NoTeamsAuthorityFallback : bool;
  scr_InvocationID : UUIDv7;
  scr_AuthorizationEventID : UUIDv7;
  scr_ParentEventID : UUIDv7;
  scr_TaskID : UUIDv7;
  scr_StoryID : UUIDv7;
  scr_TaskCreatedEventID : UUIDv7;
  scr_TaskCreatedSourceDigest : Digest;
  scr_TaskRevision : Z;
  scr_LifecycleEpoch : Z;
  scr_ScopeRevision : Z;
  scr_OperationalScopeEventID : UUIDv7;
  scr_AssignmentID : UUIDv7;
  scr_ActorFQN : ActorFQN;
  scr_Execution : ExecutionTuple;
  scr_WorkspaceID : string;
  scr_WorktreeID : string;
  scr_BaselineSHA : string;
  scr_WorkProfile : WorkProfileBinding;
  scr_ModelProfileDigest : Digest;
  scr_RuntimeIdentityDigest : Digest;
  scr_ToolPolicyDigest : Digest;
  scr_EffectPolicyDigest : Digest;
  scr_Evidence : list EvidenceRef;
  scr_ForbiddenEffects : list string
}.

#[export] Instance eta_SemanticContextRequest : Eta SemanticContextRequest := fun r =>
  mkSemanticContextRequest
    (scr_Label r) (scr_AllowedUse r) (scr_CurrentRealityRule r) (scr_NonAuthoritative r)
    (scr_NoTeamsAuthorityFallback r) (scr_InvocationID r) (scr_AuthorizationEventID r)
    (scr_ParentEventID r) (scr_TaskID r) (scr_StoryID r) (scr_TaskCreatedEventID r)
    (scr_TaskCreatedSourceDigest r) (scr_TaskRevision r) (scr_LifecycleEpoch r)
    (scr_ScopeRevision r) (scr_OperationalScopeEventID r) (scr_AssignmentID r)
    (scr_ActorFQN r) (scr_Execution r) (scr_WorkspaceID r) (scr_WorktreeID r)
    (scr_BaselineSHA r) (scr_WorkProfile r) (scr_ModelProfileDigest r)
    (scr_RuntimeIdentityDigest r) (scr_ToolPolicyDigest r) (scr_EffectPolicyDigest r)
    (scr_Evidence r) (scr_ForbiddenEffects r).

Record ExecutionBrief := mkExecutionBrief {
  brf_ContractManifest : string;
  brf_InvocationID : UUIDv7;
  brf_AuthorizationEventID : UUIDv7;
  brf_ParentEventID : UUIDv7;
  brf_Task : TaskExecutionSpecification;
  brf_TaskRevision : Z;
  brf_LifecycleEpoch : Z;
  brf_ScopeRevision : Z;
  brf_Purpose : WorkPurpose;
  brf_AttemptFamily : string;
  brf_AttemptOrdinal : Z;
  brf_RetryOfInvocationID : option UUIDv7;
  brf_RetryOfConversationID : option string;
  brf_RetryOrdinal : Z;
  brf_ConditionDigest : Digest;
  brf_OutputPredicateDigest : Digest;
  brf_ToolPolicyDigest : Digest;
  brf_EffectPolicyDigest : Digest;
  brf_WorkProfile : WorkRiskProfile;
  brf_AssignmentID : UUIDv7;
  brf_DecisionRoute : DecisionRoute;
  brf_ActorFQN : ActorFQN;
  brf_RoleGrounding : RoleExecutionGrounding;
  brf_MessageHandler : option MessageHandlerGrounding;
  brf_AdmittedMessage : option AdmittedMessage;
  brf_Execution : ExecutionTuple;
  brf_ModelProfileDigest : Digest;
  brf_RuntimeIdentityDigest : Digest;
  brf_Scope : TaskOperationalScope;
  brf_Evidence : list EvidenceRef;
  brf_RemainingGlobalBudget : Z;
  brf_RemainingPurposeBudget : Z;
  brf_DeadlineAt : Time;
  brf_CoordinationRule : string;
  brf_ExecutionGuidance : list string;
  brf_RecoveryDirective : option ExecutionRecoveryDirective;
  brf_ResultProtocol : option ExecutionResultProtocol;
  brf_SemanticContext : SemanticContextRequest
}.

#[export] Instance eta_ExecutionBrief : Eta ExecutionBrief := fun r =>
  mkExecutionBrief
    (brf_ContractManifest r) (brf_InvocationID r) (brf_AuthorizationEventID r)
    (brf_ParentEventID r) (brf_Task r) (brf_TaskRevision r) (brf_LifecycleEpoch r)
    (brf_ScopeRevision r) (brf_Purpose r) (brf_AttemptFamily r) (brf_AttemptOrdinal r)
    (brf_RetryOfInvocationID r) (brf_RetryOfConversationID r) (brf_RetryOrdinal r)
    (brf_ConditionDigest r) (brf_OutputPredicateDigest r) (brf_ToolPolicyDigest r)
    (brf_EffectPolicyDigest r) (brf_WorkProfile r) (brf_AssignmentID r)
    (brf_DecisionRoute r) (brf_ActorFQN r) (brf_RoleGrounding r) (brf_MessageHandler r)
    (brf_AdmittedMessage r) (brf_Execution r) (brf_ModelProfileDigest r)
    (brf_RuntimeIdentityDigest r) (brf_Scope r) (brf_Evidence r)
    (brf_RemainingGlobalBudget r) (brf_RemainingPurposeBudget r) (brf_DeadlineAt r)
    (brf_CoordinationRule r) (brf_ExecutionGuidance r) (brf_RecoveryDirective r)
    (brf_ResultProtocol r) (brf_SemanticContext r).

(** [slices.BinarySearch]; the interval shrinks in every round. *)
Fixpoint binary_search (fuel : nat) (l : list string) (target : string) (i j : nat) : nat :=
  match fuel with
  | O => i
  | S fuel =>
    if (j <=? i)%nat then i
    else let h := ((i + j) / 2)%nat in
         if String.ltb (nth h l "") target then binary_search fuel l target (S h) j
         else binary_search fuel l target i h
  end.

Definition hasExecutionPermission (permissions : list string) (required : string) : bool :=
  let i := binary_search (length permissions) permissions required 0 (length permissions) in
  (i <? length permissions)%nat && (nth i permissions "" == required).

Definition buildSemanticContextRequest (current : OperationalExecutionContext) (evidence : list EvidenceRef)
    : SemanticContextRequest :=
  let invocation := oec_Invocation current in
  let scope := oec_Scope current in
  {| scr_Label := SemanticContextLabel; scr_AllowedUse := SemanticContextUse;
     scr_CurrentRealityRule := SemanticContextPrecedence; scr_NonAuthoritative := true;
     scr_NoTeamsAuthorityFallback := true; scr_InvocationID := iv_ID invocation;
     scr_AuthorizationEventID := iv_AuthorizationEventID invocation; scr_ParentEventID := iv_ParentEventID invocation;
     scr_TaskID := iv_TaskID invocation; scr_StoryID := tsp_StoryID (oec_Specification current);
     scr_TaskCreatedEventID := tsp_CreatedEventID (oec_Specification current);
     scr_TaskCreatedSourceDigest := tsp_SourceDigest (oec_Specification current);
     scr_TaskRevision := iv_TaskRevision invocation; scr_LifecycleEpoch := iv_LifecycleEpoch invocation;
     scr_ScopeRevision := iv_ScopeRevision invocation; scr_OperationalScopeEventID := os_BoundEventID scope;
     scr_AssignmentID := iv_QualifiedAssignmentID invocation; scr_ActorFQN := iv_ActorFQN invocation;
     scr_Execution := iv_Execution invocation; scr_WorkspaceID := os_WorkspaceID scope;
     scr_WorktreeID := os_WorktreeID scope; scr_BaselineSHA := os_BaselineSHA scope;
     scr_WorkProfile := iv_WorkProfile invocation; scr_ModelProfileDigest := iv_ModelProfileDigest invocation;
     scr_RuntimeIdentityDigest := iv_RuntimeIdentityDigest invocation;
     scr_ToolPolicyDigest := iv_ToolPolicyDigest invocation; scr_EffectPolicyDigest := iv_EffectPolicyDigest invocation;
     scr_Evidence := evidence; scr_ForbiddenEffects := semanticContextForbiddenEffects |}.

Definition SemanticContextRequest_Valid (r : SemanticContextRequest) : bool :=
  when (scr_Label r != SemanticContextLabel) || (scr_AllowedUse r != SemanticContextUse)
       || (scr_CurrentRealityRule r != SemanticContextPrecedence) || negb (scr_NonAuthoritative r)
       || negb (scr_NoTeamsAuthorityFallback r) || negb (UUIDv7_Valid (scr_InvocationID r))
       || negb (UUIDv7_Valid (scr_AuthorizationEventID r)) || negb (UUIDv7_Valid (scr_ParentEventID r))
       || negb (UUIDv7_Valid (scr_TaskID r)) || negb (UUIDv7_Valid (scr_StoryID r))
       || negb (UUIDv7_Valid (scr_TaskCreatedEventID r)) || negb (Digest_Valid (scr_TaskCreatedSourceDigest r))
       || (scr_TaskRevision r =? 0) || (scr_LifecycleEpoch r =? 0) || (scr_ScopeRevision r =? 0)
       || negb (UUIDv7_Valid (scr_OperationalScopeEventID r)) || negb (UUIDv7_Valid (scr_AssignmentID r))
       || negb (ActorFQN_Valid (scr_ActorFQN r)) || negb (ExecutionTuple_Valid (scr_Execution r))
       || (scr_WorkspaceID r == "") || (scr_WorktreeID r == "") || negb (slen (scr_BaselineSHA r) =? 40)
       || negb (WorkProfileBinding_Valid (scr_WorkProfile r)) || negb (Digest_Valid (scr_ModelProfileDigest r))
       || negb (Digest_Valid (scr_RuntimeIdentityDigest r)) || negb (Digest_Valid (scr_ToolPolicyDigest r))
       || negb (Digest_Valid (scr_EffectPolicyDigest r))
       || negb (llen (scr_ForbiddenEffects r) =? llen semanticContextForbiddenEffects)
    return false ;;
  when scr_ForbiddenEffects r != semanticContextForbiddenEffects return false ;;
  forallb evidence_reference_valid (scr_Evidence r).

Definition SemanticContextValid (b : ExecutionBrief) : bool :=
  let r := brf_SemanticContext b in
  when negb (SemanticContextRequest_Valid r) || (scr_InvocationID r != brf_InvocationID b)
       || (scr_AuthorizationEventID r != brf_AuthorizationEventID b) || (scr_ParentEventID r != brf_ParentEventID b)
       || (scr_TaskID r != tsp_TaskID (brf_Task b)) || (scr_StoryID r != tsp_StoryID (brf_Task b))
       || (scr_TaskCreatedEventID r != tsp_CreatedEventID (brf_Task b))
       || (scr_TaskCreatedSourceDigest r != tsp_SourceDigest (brf_Task b))
       || (scr_TaskRevision r != brf_TaskRevision b) || (scr_LifecycleEpoch r != brf_LifecycleEpoch b)
       || (scr_ScopeRevision r != brf_ScopeRevision b)
       || (scr_OperationalScopeEventID r != os_BoundEventID (brf_Scope b)) || (scr_AssignmentID r != brf_AssignmentID b)
       || (scr_ActorFQN r != brf_ActorFQN b) || (scr_Execution r != brf_Execution b)
       || (scr_WorkspaceID r != os_WorkspaceID (brf_Scope b)) || (scr_WorktreeID r != os_WorktreeID (brf_Scope b))
       || (scr_BaselineSHA r != os_BaselineSHA (brf_Scope b)) || (scr_WorkProfile r != Binding (brf_WorkProfile b))
       || (scr_ModelProfileDigest r != brf_ModelProfileDigest b)
       || (scr_RuntimeIdentityDigest r != brf_RuntimeIdentityDigest b)
       || (scr_ToolPolicyDigest r != brf_ToolPolicyDigest b) || (scr_EffectPolicyDigest r != brf_EffectPolicyDigest b)
       || negb (llen (scr_Evidence r) =? llen (brf_Evidence b))
    return false ;;
  scr_Evidence r == brf_Evidence b.

(** *** Its text *)

(** A raw message inside a marshalled value: compacted, with HTML characters and
    line separators escaped. *)
Fixpoint escape_raw (s : string) : string :=
  match s with
  | EmptyString => ""
  | String c s' =>
    if (c == "<"%char) || (c == ">"%char) || (c == "&"%char)
    then esc ("u00" +:+ str1 (hex_char (byte_of c / 16)) +:+ str1 (hex_char (byte_of c mod 16)) +:+ escape_raw s')
    else match is_line_sep s, s' with
         | Some d, String _ (String _ rest) => esc ("u202" +:+ str1 (hex_char d) +:+ escape_raw rest)
         | _, _ => String c (escape_raw s')
         end
  end.

Fixpoint escape_tree (j : json) : json :=
  match j with
  | JString raw => JString (escape_raw raw)
  | JArray l => JArray (map escape_tree l)
  | JObject ms => JObject (map (fun kv => (escape_raw (fst kv), escape_tree (snd kv))) ms)
  | _ => j
  end.

Definition json_raw (raw : string) : option json := try j <- json_parse raw ;; Some (escape_tree j).

Definition json_specification (s : TaskExecutionSpecification) : json :=
  obj [("task_id", marshal (tsp_TaskID s)); ("created_event_id", marshal (tsp_CreatedEventID s));
       ("source_digest", marshal (tsp_SourceDigest s)); ("story_id", marshal (tsp_StoryID s));
       ("title", marshal (tsp_Title s)); ("description", marshal (tsp_Description s));
       ("acceptance_criteria", marshal (tsp_AcceptanceCriteria s)); ("depends_on", marshal (tsp_DependsOn s))].

Definition json_binding (b : WorkProfileBinding) : json :=
  obj [("profile_id", marshal (wb_ProfileID b)); ("profile_revision", marshal (wb_ProfileRevision b));
       ("profile_digest", marshal (wb_ProfileDigest b)); ("lifecycle_epoch", marshal (wb_LifecycleEpoch b));
       ("scope_revision", marshal (wb_ScopeRevision b))].

Definition json_budgets (b : FiniteWorkBudgets) : option json :=
  marshal_struct
    [field_of "attempt_limit" (fb_AttemptLimit b); field_of "review_round_limit" (fb_ReviewRoundLimit b);
     field_of "promotion_limit" (fb_PromotionLimit b); field_of "escalation_limit" (fb_EscalationLimit b);
     ("deadline_at", marshal_time (fb_DeadlineAt b))].

Definition json_profile (p : WorkRiskProfile) : option json :=
  marshal_struct
    [field_of "task_id" (wp_TaskID p); field_of "profile_id" (wp_ProfileID p);
     field_of "profile_revision" (wp_ProfileRevision p); field_of "profile_digest" (wp_ProfileDigest p);
     field_of "lifecycle_epoch" (wp_LifecycleEpoch p); field_of "scope_revision" (wp_ScopeRevision p);
     field_of "work_kind" (wp_WorkKind p); field_of "ambiguity" (wp_Ambiguity p); field_of "novelty" (wp_Novelty p);
     field_of "blast_radius" (wp_BlastRadius p); field_of "security_sensitivity" (wp_SecuritySensitivity p);
     field_of "minimum_decision_route" (wp_MinimumDecisionRoute p);
     field_of "acceptance_criteria_digest" (wp_AcceptanceCriteriaDigest p);
     field_of "required_deterministic_gate_ids" (wp_RequiredDeterministicGateIDs p);
     field_of "required_validation_branches" (wp_RequiredValidationBranches p);
     field_of "required_independence_dimensions" (wp_RequiredIndependenceDimensions p);
     field_of "implementation_variant_count" (wp_ImplementationVariantCount p);
     field_of "valid_candidate_quorum" (wp_ValidCandidateQuorum p);
     field_of "verification_topology_digest" (wp_VerificationTopologyDigest p);
     field_of "classification_policy_revision" (wp_ClassificationPolicyRevision p);
     field_of "classification_policy_digest" (wp_ClassificationPolicyDigest p);
     field_of "promotion_policy_revision" (wp_PromotionPolicyRevision p);
     field_of "promotion_policy_digest" (wp_PromotionPolicyDigest p); ("budgets", json_budgets (wp_Budgets p));
     field_of "classification_authority" (wp_ClassificationAuthority p);
     field_of "classification_evidence_ids" (wp_ClassificationEvidenceIDs p);
     ("supersedes_profile_id", Some (marshal_pointer (wp_SupersedesProfileID p)))].

(** [TaskOperationalScope] has no tags: the names of its fields are used. *)
Definition json_scope (s : TaskOperationalScope) : json :=
  obj [("TaskID", marshal (os_TaskID s)); ("TaskRevision", marshal (os_TaskRevision s));
       ("LifecycleEpoch", marshal (os_LifecycleEpoch s)); ("ScopeRevision", marshal (os_ScopeRevision s));
       ("OwnerFQN", marshal (os_OwnerFQN s)); ("Execution", marshal (os_Execution s));
       ("WorkspaceID", marshal (os_WorkspaceID s)); ("WorktreeID", marshal (os_WorktreeID s));
       ("Branch", marshal (os_Branch s)); ("BaselineSHA", marshal (os_BaselineSHA s));
       ("WritablePaths", marshal (os_WritablePaths s)); ("InterfaceEvidenceIDs", marshal (os_InterfaceEvidenceIDs s));
       ("BoundEventID", marshal (os_BoundEventID s))].

Definition omit_blank (name value : string) : list (string * json) := if value == "" then [] else [(name, marshal value)].

Definition json_grounding (g : RoleExecutionGrounding) : json :=
  obj ([("actor_fqn", marshal (rgr_ActorFQN g)); ("role_fqrn", marshal (rgr_RoleFQRN g));
        ("bundle_version", marshal (rgr_BundleVersion g)); ("bundle_digest", marshal (rgr_BundleDigest g));
        ("capabilities", marshal (rgr_Capabilities g)); ("permissions", marshal (rgr_Permissions g));
        ("instructions", marshal (rgr_Instructions g))] ++ omit_blank "team_instructions" (rgr_TeamInstructions g)).

Definition json_handler (g : MessageHandlerGrounding) : option json :=
  marshal_struct
    [field_of "message_id" (mhg_MessageID g); field_of "message_type" (mhg_MessageType g);
     field_of "message_purpose" (mhg_MessagePurpose g); field_of "subscription_purpose" (mhg_SubscriptionPurpose g);
     field_of "charter_digest" (mhg_CharterDigest g); field_of "handler_digest" (mhg_HandlerDigest g);
     field_of "instructions" (mhg_Instructions g); field_of "input_schema_digest" (mhg_InputSchemaDigest g);
     ("input_schema", json_raw (mhg_InputSchema g)); field_of "result_schema_digest" (mhg_ResultSchemaDigest g);
     ("result_schema", json_raw (mhg_ResultSchema g)); field_of "allowed_results" (mhg_AllowedResults g);
     field_of "allowed_message_proposals" (mhg_AllowedMessageProposals g)].

Definition json_message (m : AdmittedMessage) : option json :=
  marshal_struct
    [field_of "id" (adm_ID m); field_of "type" (adm_Type m); field_of "purpose" (adm_Purpose m);
     ("body", json_raw (adm_Body m))].

Definition json_directive (d : ExecutionRecoveryDirective) : json :=
  obj [("source_event_id", marshal (rdv_SourceEventID d)); ("reason", marshal (rdv_Reason d));
       ("evidence", marshal (rdv_Evidence d))].

Definition json_protocol (p : ExecutionResultProtocol) : json :=
  obj [("schema_version", marshal (rpt_SchemaVersion p)); ("marker", marshal (rpt_Marker p));
       ("outcomes", marshal (rpt_Outcomes p)); ("instruction", marshal (rpt_Instruction p))].

Definition json_semantic (r : SemanticContextRequest) : json :=
  obj [("label", marshal (scr_Label r)); ("allowed_use", marshal (scr_AllowedUse r));
       ("current_reality_rule", marshal (scr_CurrentRealityRule r)); ("non_authoritative", marshal (scr_NonAuthoritative r));
       ("no_teams_authority_fallback", marshal (scr_NoTeamsAuthorityFallback r));
       ("invocation_id", marshal (scr_InvocationID r)); ("authorization_event_id", marshal (scr_AuthorizationEventID r));
       ("parent_event_id", marshal (scr_ParentEventID r)); ("task_id", marshal (scr_TaskID r));
       ("story_id", marshal (scr_StoryID r)); ("task_created_event_id", marshal (scr_TaskCreatedEventID r));
       ("task_created_source_digest", marshal (scr_TaskCreatedSourceDigest r));
       ("task_revision", marshal (scr_TaskRevision r)); ("lifecycle_epoch", marshal (scr_LifecycleEpoch r));
       ("scope_revision", marshal (scr_ScopeRevision r));
       ("operational_scope_event_id", marshal (scr_OperationalScopeEventID r));
       ("assignment_id", marshal (scr_AssignmentID r)); ("actor_fqn", marshal (scr_ActorFQN r));
       ("execution", marshal (scr_Execution r)); ("workspace_id", marshal (scr_WorkspaceID r));
       ("worktree_id", marshal (scr_WorktreeID r)); ("baseline_sha", marshal (scr_BaselineSHA r));
       ("work_profile", json_binding (scr_WorkProfile r)); ("model_profile_digest", marshal (scr_ModelProfileDigest r));
       ("runtime_identity_digest", marshal (scr_RuntimeIdentityDigest r));
       ("tool_policy_digest", marshal (scr_ToolPolicyDigest r)); ("effect_policy_digest", marshal (scr_EffectPolicyDigest r));
       ("evidence", marshal (scr_Evidence r)); ("forbidden_effects", marshal (scr_ForbiddenEffects r))].

(** An [omitempty] pointer to a value that may fail to marshal. *)
Definition omit_nil {A} (name : string) (enc : A -> option json) (o : option A) : list (string * option json) :=
  match o with Some x => [(name, enc x)] | None => [] end.

Definition json_brief (b : ExecutionBrief) : option json :=
  marshal_struct (
    [field_of "contract_manifest" (brf_ContractManifest b); field_of "invocation_id" (brf_InvocationID b);
     field_of "authorization_event_id" (brf_AuthorizationEventID b); field_of "parent_event_id" (brf_ParentEventID b);
     ("task", Some (json_specification (brf_Task b))); field_of "task_revision" (brf_TaskRevision b);
     field_of "lifecycle_epoch" (brf_LifecycleEpoch b); field_of "scope_revision" (brf_ScopeRevision b);
     field_of "purpose" (brf_Purpose b); field_of "attempt_family" (brf_AttemptFamily b);
     field_of "attempt_ordinal" (brf_AttemptOrdinal b);
     ("retry_of_invocation_id", Some (marshal_pointer (brf_RetryOfInvocationID b)))]
    ++ omit_nil "retry_of_conversation_id" (fun s => Some (marshal s)) (brf_RetryOfConversationID b) ++
    [field_of "retry_ordinal" (brf_RetryOrdinal b); field_of "condition_digest" (brf_ConditionDigest b);
     field_of "output_predicate_digest" (brf_OutputPredicateDigest b);
     field_of "tool_policy_digest" (brf_ToolPolicyDigest b); field_of "effect_policy_digest" (brf_EffectPolicyDigest b);
     ("work_profile", json_profile (brf_WorkProfile b)); field_of "assignment_id" (brf_AssignmentID b);
     field_of "decision_route" (brf_DecisionRoute b); field_of "actor_fqn" (brf_ActorFQN b);
     ("role_grounding", Some (json_grounding (brf_RoleGrounding b)))]
    ++ omit_nil "message_handler" json_handler (brf_MessageHandler b)
    ++ omit_nil "admitted_message" json_message (brf_AdmittedMessage b) ++
    [field_of "execution" (brf_Execution b); field_of "model_profile_digest" (brf_ModelProfileDigest b);
     field_of "runtime_identity_digest" (brf_RuntimeIdentityDigest b); ("scope", Some (json_scope (brf_Scope b)));
     field_of "evidence" (brf_Evidence b); field_of "remaining_global_budget" (brf_RemainingGlobalBudget b);
     field_of "remaining_purpose_budget" (brf_RemainingPurposeBudget b); ("deadline_at", marshal_time (brf_DeadlineAt b));
     field_of "coordination_rule" (brf_CoordinationRule b); field_of "execution_guidance" (brf_ExecutionGuidance b)]
    ++ omit_nil "recovery_directive" (fun d => Some (json_directive d)) (brf_RecoveryDirective b)
    ++ omit_nil "result_protocol" (fun p => Some (json_protocol p)) (brf_ResultProtocol b)
    ++ [("semantic_context", Some (json_semantic (brf_SemanticContext b)))]).

(** *** Building it *)

Definition evidence_le (a b : EvidenceRef) : Prop := str_le (er_EvidenceID a) (er_EvidenceID b).
#[global] Instance evidence_le_dec : RelDecision evidence_le.
Proof. intros a b. unfold evidence_le. apply _. Defined.

Definition mutation_authorized (invocation : WorkInvocation) (grounding : RoleExecutionGrounding) : bool :=
  hasExecutionPermission (rgr_Permissions grounding) "repository.edit"
  && ((iv_Purpose invocation == PurposeImplementation) || (iv_Purpose invocation == PurposeRepair)).

Definition explicit_recovery (current : OperationalExecutionContext) : bool :=
  negb (is_nil (wp_SupersedesProfileID (ws_Profile (oec_Profile current))))
  && (negb (is_nil (oec_RecoveryDirective current)) || (iv_Purpose (oec_Invocation current) == PurposeRepair)).

(** The map of the evidence, in which a later reference replaces an earlier one. *)
Definition available_evidence (evidence : list EvidenceRef) : gmap UUIDv7 Digest :=
  foldl (fun m e => <[er_EvidenceID e := er_SHA256 e]> m) ∅ evidence.

(** The directive of an explicit recovery; [None] is an error. *)
Definition recovery_directive (current : OperationalExecutionContext) (evidence : list EvidenceRef)
    : option (option ExecutionRecoveryDirective) :=
  when negb (explicit_recovery current) return Some None ;;
  match oec_RecoveryDirective current with
  | None => None
  | Some directive =>
    when negb (ExecutionRecoveryDirective_Valid directive) return None ;;
    when negb (forallb (fun e => default "" (available_evidence evidence !! er_EvidenceID e) == er_SHA256 e)
                 (rdv_Evidence directive))
      return None ;;
    Some (Some directive)
  end.

Definition recovery_guidance (mutation : bool) : list string :=
  sharedExplicitRecoveryExecutionGuidance
  ++ (if mutation then editableExplicitRecoveryExecutionGuidance else readOnlyExplicitRecoveryExecutionGuidance).

Definition ordinary_guidance (grounding : RoleExecutionGrounding) (mutation : bool) (retry : Z) : list string :=
  let repository := hasExecutionPermission (rgr_Permissions grounding) "repository.read"
                    || hasExecutionPermission (rgr_Permissions grounding) "repository.edit" in
  (if repository then repositoryExecutionGuidance else [])
  ++ (if mutation then editableExecutionGuidance
      else if repository then readOnlyExecutionGuidance else noRepositoryExecutionGuidance)
  ++ (if 0 <? retry
      then sharedRetainedRetryExecutionGuidance
           ++ (if mutation then editableRetainedRetryExecutionGuidance else readOnlyRetainedRetryExecutionGuidance)
      else []).

Definition purpose_guidance (handler : option MessageHandlerGrounding) (purpose : WorkPurpose) : list string :=
  match handler with
  | Some _ => []
  | None =>
    if purpose == PurposeValidation then validationExecutionGuidance
    else if purpose == PurposeReview then reviewExecutionGuidance else []
  end.

Definition verdicts : list string := ["PASS"; "FAIL"; "BLOCKED"; "INCONCLUSIVE"].

Definition result_protocol (handler : option MessageHandlerGrounding) (purpose : WorkPurpose)
    : option ExecutionResultProtocol :=
  match handler with
  | Some h => Some (mkExecutionResultProtocol "1.0.0" OrganizationalResultMarker (mhg_AllowedResults h) handlerInstruction)
  | None =>
    if purpose == PurposeValidation
    then Some (mkExecutionResultProtocol "1.0.0" ValidationResultMarker verdicts validationInstruction)
    else if purpose == PurposeReview
    then Some (mkExecutionResultProtocol "1.0.0" ValidationResultMarker verdicts reviewInstruction)
    else if purpose == PurposePromotion
    then Some (mkExecutionResultProtocol "1.0.0" ValidationResultMarker verdicts promotionInstruction)
    else if (purpose == PurposeHandoff) || (purpose == PurposeReplan)
    then Some (mkExecutionResultProtocol "1.0.0" OrganizationalResultMarker ["STRUCTURED_HANDOFF"] handoffInstruction)
    else None
  end.

Definition assembled_brief (current : OperationalExecutionContext) (grounding : RoleExecutionGrounding)
    (handler : option MessageHandlerGrounding) (evidence : list EvidenceRef)
    (directive : option ExecutionRecoveryDirective) : ExecutionBrief :=
  let invocation := oec_Invocation current in
  let mutation := mutation_authorized invocation grounding in
  {| brf_ContractManifest := ContractIdentity; brf_InvocationID := iv_ID invocation;
     brf_AuthorizationEventID := iv_AuthorizationEventID invocation; brf_ParentEventID := iv_ParentEventID invocation;
     brf_Task := oec_Specification current; brf_TaskRevision := iv_TaskRevision invocation;
     brf_LifecycleEpoch := iv_LifecycleEpoch invocation; brf_ScopeRevision := iv_ScopeRevision invocation;
     brf_Purpose := iv_Purpose invocation; brf_AttemptFamily := iv_AttemptFamily invocation;
     brf_AttemptOrdinal := iv_AttemptOrdinal invocation; brf_RetryOfInvocationID := iv_RetryOfInvocationID invocation;
     brf_RetryOfConversationID := oec_RetryOfConversationID current; brf_RetryOrdinal := iv_RetryOrdinal invocation;
     brf_ConditionDigest := iv_ConditionDigest invocation; brf_OutputPredicateDigest := iv_OutputPredicateDigest invocation;
     brf_ToolPolicyDigest := iv_ToolPolicyDigest invocation; brf_EffectPolicyDigest := iv_EffectPolicyDigest invocation;
     brf_WorkProfile := ws_Profile (oec_Profile current); brf_AssignmentID := iv_QualifiedAssignmentID invocation;
     brf_DecisionRoute := qa_SelectedDecisionRoute (oec_Assignment current); brf_ActorFQN := iv_ActorFQN invocation;
     brf_RoleGrounding := grounding; brf_MessageHandler := handler; brf_AdmittedMessage := oec_AdmittedMessage current;
     brf_Execution := iv_Execution invocation; brf_ModelProfileDigest := iv_ModelProfileDigest invocation;
     brf_RuntimeIdentityDigest := iv_RuntimeIdentityDigest invocation; brf_Scope := oec_Scope current;
     brf_Evidence := evidence; brf_RemainingGlobalBudget := iv_RemainingGlobalBudget invocation;
     brf_RemainingPurposeBudget := iv_RemainingPurposeBudget invocation; brf_DeadlineAt := iv_DeadlineAt invocation;
     brf_CoordinationRule := evidenceOnlyCoordinationRule;
     brf_ExecutionGuidance := sharedExecutionGuidance
       ++ (if explicit_recovery current then recovery_guidance mutation
           else ordinary_guidance grounding mutation (iv_RetryOrdinal invocation))
       ++ purpose_guidance handler (iv_Purpose invocation);
     brf_RecoveryDirective := directive; brf_ResultProtocol := result_protocol handler (iv_Purpose invocation);
     brf_SemanticContext := buildSemanticContextRequest current evidence |}.

(** Whether the handler fits the invocation. *)
Definition handler_matches (current : OperationalExecutionContext) (grounding : RoleExecutionGrounding)
    (handler : option MessageHandlerGrounding) : bool :=
  match iv_HandlerDispatch (oec_Invocation current) with
  | None => is_nil handler && is_nil (oec_AdmittedMessage current)
  | Some binding =>
    match handler, oec_AdmittedMessage current with
    | Some h, Some message =>
      AdmittedMessage_Valid message binding && (rgr_BundleDigest grounding == hb_RoleBundleDigest binding)
      && MessageHandlerGrounding_Valid h binding (rgr_Instructions grounding)
    | _, _ => false
    end
  end.

(** [ErrInvalidOperationalExecution] and [ErrRoleHandlerSchemaViolation]. *)
Inductive brief_error := InvalidBrief | SchemaViolation.

Section briefs.
Variable schema_accepts : string -> string -> bool.

Definition handler_input_valid (handler : option MessageHandlerGrounding) (message : option AdmittedMessage) : bool :=
  match handler, message with
  | Some h, Some m => ValidateRoleHandlerInput schema_accepts h m
  | _, _ => true
  end.

Definition BuildExecutionBriefWithHandler (current : OperationalExecutionContext) (grounding : RoleExecutionGrounding)
    (handler : option MessageHandlerGrounding) (maximumBytes : Z) : brief_error + (ExecutionBrief * Digest) :=
  when (maximumBytes <=? 0) || (1048576 <? maximumBytes) return inl InvalidBrief ;;
  when negb (RoleExecutionGrounding_Valid grounding (iv_ActorFQN (oec_Invocation current))) return inl InvalidBrief ;;
  when negb (handler_matches current grounding handler) return inl InvalidBrief ;;
  when negb (handler_input_valid handler (oec_AdmittedMessage current)) return inl SchemaViolation ;;
  let evidence := merge_sort evidence_le (oec_Evidence current) in
  match recovery_directive current evidence with
  | None => inl InvalidBrief
  | Some directive =>
    let brief := assembled_brief current grounding handler evidence directive in
    when negb (SemanticContextValid brief) return inl InvalidBrief ;;
    match json_brief brief with
    | None => inl InvalidBrief
    | Some tree =>
      let encoded := render tree in
      when maximumBytes <? slen encoded return inl InvalidBrief ;;
      inr (brief, sha256_hex encoded)
    end
  end.

Definition BuildExecutionBrief (current : OperationalExecutionContext) (grounding : RoleExecutionGrounding)
    (maximumBytes : Z) : brief_error + (ExecutionBrief * Digest) :=
  BuildExecutionBriefWithHandler current grounding None maximumBytes.

End briefs.
