(* ===== verification/OperationalCoordinator.v ===== *)
(** * The operational coordinator ([application/operational_execution_coordinator.go], [application/execution_evidence_recorder.go])

    [Process] drives one authorised invocation: it claims it, starts or reconciles
    the external execution, records that it started, and records its end with the
    evidence. The store, the command service, the role resolver, the execution
    boundary, the blob store and the clock are interfaces: a program is a tree of
    calls, and a call may return anything of its type. *)

From S2P Require Import Prelude GoText GoTime GoJson GoMarshal GoJsonLaws GoMarshalLaws Types Samples.
From S2P Require Import Sha256 Payload Envelope State WorkProfile Assignment WorkInvocation Fingerprint Provenance MemoryStore.
From S2P Require Import OperationalExecution.

Definition SchemaVersion : string := "1.6.0".
Definition OperationalSchemaVersion : string := "1.7.0".
Definition CatalogueRevision : Z := 8.

(** ** External executions *)

Definition ExternalExecutionState := string.
Definition ExternalAbsent : ExternalExecutionState := "ABSENT".
Definition ExternalRunning : ExternalExecutionState := "RUNNING".
Definition ExternalSucceeded : ExternalExecutionState := "SUCCEEDED".
Definition ExternalFailed : ExternalExecutionState := "FAILED".
Definition ExternalTimedOut : ExternalExecutionState := "TIMED_OUT".
Definition ExternalCancelled : ExternalExecutionState := "CANCELLED".
Definition ExternalRejected : ExternalExecutionState := "START_REJECTED".
Definition ExternalUnknown : ExternalExecutionState := "UNKNOWN".

Record ExecutionEvidence := mkExecutionEvidence {
  evd_EvidenceID : UUIDv7;
  evd_Kind : string;
  evd_MediaType : string;
  evd_SourceTimestamp : Time;
  evd_Content : string
}.

#[export] Instance eta_ExecutionEvidence : Eta ExecutionEvidence := fun r =>
  mkExecutionEvidence
    (evd_EvidenceID r) (evd_Kind r) (evd_MediaType r) (evd_SourceTimestamp r)
    (evd_Content r).

Record ExternalExecutionObservation := mkExternalExecutionObservation {
  obs_InvocationID : UUIDv7;
  obs_RequestDigest : Digest;
  obs_ConversationID : string;
  obs_State : ExternalExecutionState;
  obs_ActorFQN : ActorFQN;
  obs_Execution : ExecutionTuple;
  obs_ModelProfileDigest : Digest;
  obs_RuntimeIdentityDigest : Digest;
  obs_WorkspaceID : string;
  obs_ToolPolicyDigest : Digest;
  obs_EffectPolicyDigest : Digest;
  obs_Retryable : bool;
  obs_Evidence : list ExecutionEvidence;
  obs_Output : string
}.

#[export] Instance eta_ExternalExecutionObservation : Eta ExternalExecutionObservation := fun r =>
  mkExternalExecutionObservation
    (obs_InvocationID r) (obs_RequestDigest r) (obs_ConversationID r) (obs_State r)
    (obs_ActorFQN r) (obs_Execution r) (obs_ModelProfileDigest r)
    (obs_RuntimeIdentityDigest r) (obs_WorkspaceID r) (obs_ToolPolicyDigest r)
    (obs_EffectPolicyDigest r) (obs_Retryable r) (obs_Evidence r) (obs_Output r).

Definition externalObservationMatches (brief : ExecutionBrief) (requestDigest : Digest) (o : ExternalExecutionObservation)
    : bool :=
  (obs_InvocationID o == brf_InvocationID brief) && (obs_RequestDigest o == requestDigest)
  && (obs_ActorFQN o == brf_ActorFQN brief) && (obs_Execution o == brf_Execution brief)
  && (obs_ModelProfileDigest o == brf_ModelProfileDigest brief)
  && (obs_RuntimeIdentityDigest o == brf_RuntimeIdentityDigest brief)
  && (obs_WorkspaceID o == os_WorkspaceID (brf_Scope brief)) && (obs_ToolPolicyDigest o == brf_ToolPolicyDigest brief)
  && (obs_EffectPolicyDigest o == brf_EffectPolicyDigest brief).

(** ** Errors and results *)

(** An error of a collaborator carries its text. A joined error is the first of
    its parts. *)
Inductive operational_error :=
| ErrInvalidOperationalExecution
| ErrStaleWorkInvocation
| ErrExternalOutcomeUnknown
| ErrRoleHandlerSchemaViolation (detail : string)
| ErrContextDone (e : context_error)
| ErrCollaborator (text : string)
| NilDereference.

(** [Error()]. *)
Definition error_text (e : operational_error) : string :=
  match e with
  | ErrInvalidOperationalExecution => "invalid operational execution"
  | ErrStaleWorkInvocation => "work invocation authority is stale"
  | ErrExternalOutcomeUnknown => "external execution outcome is unknown"
  | ErrRoleHandlerSchemaViolation detail => "role handler schema violation" +:+ str1 (chr 10) +:+ detail
  | ErrContextDone Canceled => "context canceled"
  | ErrContextDone DeadlineExceeded => "context deadline exceeded"
  | ErrCollaborator text => text
  | NilDereference => "runtime error: invalid memory address or nil pointer dereference"
  end.

Record OperationalExecutionResult := mkOperationalResult {
  opr_InvocationID : UUIDv7;
  opr_State : WorkInvocationState;
  opr_ConversationID : string;
  opr_Evidence : list EvidenceRef;
  opr_Receipt : option CommandReceipt
}.
#[export] Instance eta_OperationalExecutionResult : Eta OperationalExecutionResult := fun r =>
  mkOperationalResult (opr_InvocationID r) (opr_State r) (opr_ConversationID r) (opr_Evidence r) (opr_Receipt r).
Definition zero_OperationalExecutionResult : OperationalExecutionResult := mkOperationalResult "" "" "" [] None.

(** A result and an error, which is [nil] on success. *)
Abbreviation processed := (OperationalExecutionResult * option operational_error)%type.

(** ** Programs *)

(** Calls of the execution boundary. *)
Inductive boundary_call :=
| BoundaryStart (brief : ExecutionBrief) (request : Digest)
| BoundaryReconcileStart (brief : ExecutionBrief) (request : Digest)
| BoundaryInspect (brief : ExecutionBrief) (conversation : string) (request : Digest)
| BoundaryReconcileSuperseded (brief : ExecutionBrief) (conversation : string) (original replacement : Digest)
| BoundaryCancel (brief : ExecutionBrief) (conversation : string) (request : Digest).

Record BlobReceipt := mkBlobReceipt {
  blb_Locator : string;
  blb_SHA256 : Digest;
  blb_ByteLength : Z
}.

Inductive calls (A : Type) : Type :=
| Done (a : A)
| AskContext (k : Context -> calls A)
| AskClock (k : Time -> calls A)
| LoadByEvent (event : UUIDv7) (k : operational_error + OperationalExecutionContext -> calls A)
| LoadInvocation (id : UUIDv7) (k : operational_error + OperationalExecutionContext -> calls A)
| ResolveRole (actor : ActorFQN) (k : operational_error + RoleExecutionGrounding -> calls A)
| ResolveHandler (actor : ActorFQN) (binding : HandlerDispatchBinding)
    (k : operational_error + (RoleExecutionGrounding * MessageHandlerGrounding) -> calls A)
| EffectiveDeadline (invocation : WorkInvocation) (now : Time) (k : operational_error + Time -> calls A)
| AskBoundary (c : boundary_call) (k : operational_error + ExternalExecutionObservation -> calls A)
| RecordEvidence (invocation : WorkInvocation) (items : list ExecutionEvidence)
    (k : operational_error + list EvidenceRef -> calls A)
| PutBlob (id : UUIDv7) (content : string) (k : operational_error + BlobReceipt -> calls A)
| HandleCommand (command : KernelCommand) (provenance : ProvenanceBasis)
    (k : CommandReceipt * option operational_error -> calls A).
Arguments Done {A} a.
Arguments AskContext {A} k.
Arguments AskClock {A} k.
Arguments LoadByEvent {A} event k.
Arguments LoadInvocation {A} id k.
Arguments ResolveRole {A} actor k.
Arguments ResolveHandler {A} actor binding k.
Arguments EffectiveDeadline {A} invocation now k.
Arguments AskBoundary {A} c k.
Arguments RecordEvidence {A} invocation items k.
Arguments PutBlob {A} id content k.
Arguments HandleCommand {A} command provenance k.

(** ** Identities and commands *)

(** The first 32 hexadecimal digits of a hash of the parts, each preceded by a
    zero byte, as a version 7 UUID. *)
Definition deterministicUUID (parts : list string) : UUIDv7 :=
  let text := foldr (fun part s => String (chr 0) (part +:+ s)) "" parts in
  let value := str_take 32 (sha256_hex text) in
  let value := str_take 12 value +:+ "7" +:+ substring 13 3 value +:+ "8" +:+ substring 17 15 value in
  str_take 8 value +:+ "-" +:+ substring 8 4 value +:+ "-" +:+ substring 12 4 value +:+ "-"
  +:+ substring 16 4 value +:+ "-" +:+ substring 20 12 value.

Record OperationalExecutionPolicy := mkOperationalPolicy {
  opp_OperationTimeout : Z;
  opp_MaximumBriefBytes : Z;
  opp_ConsumerID : string;
  opp_PolicyRevision : Z;
  opp_ServiceAuthority : PrincipalRef;
  opp_ExpiryAuthority : PrincipalRef;
  opp_Provenance : ProvenanceBasis
}.

Definition OperationalExecutionPolicy_valid (p : OperationalExecutionPolicy) : bool :=
  (0 <? opp_OperationTimeout p) && (0 <? opp_MaximumBriefBytes p) && (opp_MaximumBriefBytes p <=? 1048576)
  && (opp_ConsumerID p != "") && (slen (opp_ConsumerID p) <=? 256) && (0 <? opp_PolicyRevision p)
  && (pr_Kind (opp_ServiceAuthority p) == PrincipalService) && PrincipalRef_Valid (opp_ServiceAuthority p)
  && (pr_Kind (opp_ExpiryAuthority p) == PrincipalPolicy) && PrincipalRef_Valid (opp_ExpiryAuthority p)
  && ProvenanceBasis_Valid (opp_Provenance p).

(** [json.Marshal] with its error dropped: a failure leaves no bytes. *)
Definition payload_text (tree : option json) : string := default "" (render <$> tree).

Definition invocationBudgetRef (invocation : WorkInvocation) : AggregateRef :=
  mkRef AggregateWorkBudget (iv_BudgetAccountID invocation).

Definition terminalOutcome (state : ExternalExecutionState) : WorkInvocationState :=
  if state == ExternalSucceeded then InvocationSucceeded
  else if state == ExternalFailed then InvocationFailed
  else if state == ExternalTimedOut then InvocationTimedOut
  else if state == ExternalCancelled then InvocationCancelled
  else "".

Definition stableEvidenceTime (invocation : WorkInvocation) : Time :=
  match iv_StartedAt invocation, iv_ClaimedAt invocation with
  | Some t, _ => t
  | None, Some t => t
  | None, None => iv_DeadlineAt invocation
  end.

(** The payloads of the coordinator's commands. *)
Definition claim_payload (policy : OperationalExecutionPolicy) (invocation : WorkInvocation) (claim : UUIDv7) (now : Time)
    : string :=
  payload_text (marshal_struct
    [field_of "invocation_id" (iv_ID invocation); field_of "expected_invocation_revision" (iv_Revision invocation);
     field_of "claim_id" claim; field_of "actor_fqn" (iv_ActorFQN invocation);
     field_of "execution_id" (ex_ExecutionID (iv_Execution invocation));
     field_of "fencing_epoch" (ex_FencingEpoch (iv_Execution invocation));
     field_of "model_profile_digest" (iv_ModelProfileDigest invocation);
     field_of "runtime_identity_digest" (iv_RuntimeIdentityDigest invocation);
     field_of "consumer_id" (opp_ConsumerID policy); ("claimed_at", marshal_time now)]).

Definition expire_payload (policy : OperationalExecutionPolicy) (invocation : WorkInvocation) (now : Time) : string :=
  payload_text (marshal_struct
    [field_of "invocation_id" (iv_ID invocation); field_of "expected_invocation_revision" (iv_Revision invocation);
     ("deadline_at", marshal_time (iv_DeadlineAt invocation)); ("observed_at", marshal_time now);
     field_of "authority" (opp_ExpiryAuthority policy)]).

Definition started_payload (invocation : WorkInvocation) (claim : UUIDv7) (o : ExternalExecutionObservation) (now : Time)
    : string :=
  payload_text (marshal_struct
    [field_of "invocation_id" (iv_ID invocation); field_of "expected_invocation_revision" (iv_Revision invocation);
     field_of "claim_id" claim; field_of "conversation_id" (obs_ConversationID o);
     field_of "request_digest" (obs_RequestDigest o); ("started_at", marshal_time now)]).

(** The slice made for the identifiers is never [nil]. *)
Definition terminal_payload (invocation : WorkInvocation) (claim : UUIDv7) (outcome : WorkInvocationState)
    (retryable : bool) (evidence : list UUIDv7) (output : Digest) (now : Time) : string :=
  payload_text (marshal_struct
    [field_of "invocation_id" (iv_ID invocation); field_of "expected_invocation_revision" (iv_Revision invocation);
     field_of "claim_id" claim; field_of "outcome" outcome; field_of "retryable" retryable;
     ("evidence_ids", Some (marshal_nslice (Some evidence))); field_of "output_digest" output;
     ("finished_at", marshal_time now)]).

Definition command (policy : OperationalExecutionPolicy) (invocation : WorkInvocation) (commandType payload : string)
    (evidence : list EvidenceRef) (authority : PrincipalRef) : KernelCommand :=
  let digest := sha256_hex payload in
  {| cmd_ContractManifest := ContractIdentity;
     cmd_CommandID := deterministicUUID
       ["operational-command"; iv_ID invocation; commandType; enc_uint (iv_Revision invocation); digest];
     cmd_CommandType := commandType; cmd_CommandVersion := OperationalSchemaVersion;
     cmd_Target := WorkInvocation_Ref invocation; cmd_Authority := authority; cmd_ActorFQN := None; cmd_Execution := None;
     cmd_ExpectedRevision := NewExpectedRevision (iv_Revision invocation); cmd_Preconditions := [];
     cmd_ExpectedLifecycleEpoch := None; cmd_ExpectedPolicyRevision := opp_PolicyRevision policy;
     cmd_ExpectedCatalogueRevision := CatalogueRevision;
     cmd_IdempotencyKey := "work-invocation/" +:+ iv_ID invocation +:+ "/" +:+ commandType +:+ "/"
       +:+ enc_uint (iv_Revision invocation) +:+ "/" +:+ digest;
     cmd_CorrelationID := iv_ID invocation;
     cmd_Causation := [mkParent (iv_LastEventID invocation) EdgeCausal]; cmd_IssuedAt := None;
     cmd_Payload := payload; cmd_EvidenceRefs := evidence |}.

(** A command that was neither applied nor without effect is a stale one. *)
Definition apply {A} (policy : OperationalExecutionPolicy) (c : KernelCommand)
    (k : CommandReceipt * option operational_error -> calls A) : calls A :=
  HandleCommand c (opp_Provenance policy) (fun '(receipt, err) =>
    match err with
    | Some e => k (receipt, Some e)
    | None =>
      when (rc_OutcomeCode receipt != OutcomeApplied) && (rc_OutcomeCode receipt != OutcomeNoChange)
        return k (receipt, Some ErrStaleWorkInvocation) ;;
      k (receipt, None)
    end).

Definition claim_command (policy : OperationalExecutionPolicy) (intent : OutboxIntent) (current : OperationalExecutionContext)
    (now : Time) : KernelCommand :=
  let invocation := oec_Invocation current in
  (command policy invocation "tekroo.command.work-invocation.claim"
     (claim_payload policy invocation (oi_IntentID intent) now) [] (opp_ServiceAuthority policy))
    <| cmd_ActorFQN := Some (iv_ActorFQN invocation) |> <| cmd_Execution := Some (iv_Execution invocation) |>
    <| cmd_Preconditions :=
         [mkPre (mkRef AggregateTask (iv_TaskID invocation)) (NewExpectedRevision (as_Revision (oec_Task current)));
          mkPre (invocationBudgetRef invocation) (NewExpectedRevision (ba_Revision (oec_Budget current)))] |>.

Definition claim {A} (policy : OperationalExecutionPolicy) (intent : OutboxIntent) (current : OperationalExecutionContext)
    (k : CommandReceipt * option operational_error -> calls A) : calls A :=
  AskClock (fun now => apply policy (claim_command policy intent current now) k).

Definition expire {A} (policy : OperationalExecutionPolicy) (invocation : WorkInvocation)
    (k : CommandReceipt * option operational_error -> calls A) : calls A :=
  AskClock (fun now =>
    apply policy (command policy invocation "tekroo.command.work-invocation.expire" (expire_payload policy invocation now)
                    [] (opp_ExpiryAuthority policy)) k).

Definition recordStarted (policy : OperationalExecutionPolicy) (invocation : WorkInvocation)
    (o : ExternalExecutionObservation) (result : OperationalExecutionResult)
    (k : CommandReceipt * option operational_error -> calls processed) : calls processed :=
  match iv_ClaimID invocation with
  | None => Done (result, Some NilDereference)
  | Some claim =>
    AskClock (fun now =>
      apply policy (command policy invocation "tekroo.command.work-invocation.record-started"
                      (started_payload invocation claim o now) [] (opp_ServiceAuthority policy)) k)
  end.

(** ** Recording the end *)

Definition provider_receipt_content (o : ExternalExecutionObservation) : string :=
  render (obj
    [("invocation_id", marshal (obs_InvocationID o)); ("request_digest", marshal (obs_RequestDigest o));
     ("conversation_id", marshal (obs_ConversationID o)); ("state", marshal (obs_State o));
     ("actor_fqn", marshal (obs_ActorFQN o)); ("execution", marshal (obs_Execution o));
     ("model_profile_digest", marshal (obs_ModelProfileDigest o));
     ("runtime_identity_digest", marshal (obs_RuntimeIdentityDigest o)); ("workspace_id", marshal (obs_WorkspaceID o));
     ("tool_policy_digest", marshal (obs_ToolPolicyDigest o)); ("effect_policy_digest", marshal (obs_EffectPolicyDigest o))]).

(** The marshalled struct has no value that can fail. *)
Definition providerReceiptEvidence (invocation : WorkInvocation) (o : ExternalExecutionObservation) : ExecutionEvidence :=
  mkExecutionEvidence
    (deterministicUUID ["provider-receipt"; iv_ID invocation; obs_RequestDigest o; obs_State o])
    "PROVIDER_RECEIPT" "application/json" (stableEvidenceTime invocation) (provider_receipt_content o).

Definition output_evidence (invocation : WorkInvocation) (o : ExternalExecutionObservation) : list ExecutionEvidence :=
  if 0 <? slen (obs_Output o)
  then [mkExecutionEvidence
          (deterministicUUID ["provider-output"; iv_ID invocation; obs_RequestDigest o; obs_State o; obs_Output o])
          (if obs_State o == ExternalRejected then "EXTERNAL_OBSERVATION" else "MODEL_OUTPUT")
          "application/octet-stream" (stableEvidenceTime invocation) (obs_Output o)]
  else [].

(** The references, sorted: valid and without repetition. *)
Definition references_valid (references : list EvidenceRef) : bool :=
  negb ((llen references =? 0) || (64 <? llen references))
  && forallb evidence_reference_valid references && negb (adjacent_key er_EvidenceID references).

Definition recordTerminalObservation (policy : OperationalExecutionPolicy) (current : OperationalExecutionContext)
    (o : ExternalExecutionObservation) (outcome : WorkInvocationState) : calls processed :=
  let invocation := oec_Invocation current in
  let result := mkOperationalResult (iv_ID invocation) (iv_State invocation) (obs_ConversationID o) [] None in
  when negb (contains (iv_AllowedTerminalOutcomes invocation) outcome)
    return Done (result, Some ErrInvalidOperationalExecution) ;;
  let receiptEvidence := providerReceiptEvidence invocation o in
  RecordEvidence invocation (obs_Evidence o ++ output_evidence invocation o ++ [receiptEvidence]) (fun recorded =>
    match recorded with
    | inl err => Done (result, Some err)
    | inr references =>
      let references := merge_sort evidence_le references in
      when negb (references_valid references) return Done (result, Some ErrInvalidOperationalExecution) ;;
      let result := result <| opr_Evidence := references |> in
      let output := if slen (obs_Output o) =? 0 then evd_Content receiptEvidence else obs_Output o in
      match iv_ClaimID invocation with
      | None => Done (result, Some NilDereference)
      | Some claim =>
        AskClock (fun now =>
          apply policy (command policy invocation "tekroo.command.work-invocation.record-terminal"
              (terminal_payload invocation claim outcome (obs_Retryable o) (map er_EvidenceID references)
                 (sha256_hex output) now) references (opp_ServiceAuthority policy))
            (fun '(receipt, err) =>
              let result := result <| opr_Receipt := Some receipt |> in
              match err with
              | Some e => Done (result, Some e)
              | None => Done (result <| opr_State := outcome |>, None)
              end))
      end
    end).

(** ** The coordinator *)

Section coordinator.
Variable schema_accepts : string -> string -> bool.
(** The text of the error of a schema validation that fails. *)
Variable schema_error : string -> string -> string.
(** Whether the role resolver also resolves handlers, and whether the reader also
    extends deadlines. *)
Variables resolves_handlers extends_deadlines : bool.
Variable policy : OperationalExecutionPolicy.

Definition brief_failure (message : option AdmittedMessage) (handler : option MessageHandlerGrounding) (e : brief_error)
    : operational_error :=
  match e, handler, message with
  | SchemaViolation, Some h, Some m => ErrRoleHandlerSchemaViolation (schema_error (mhg_InputSchema h) (adm_Body m))
  | _, _, _ => ErrInvalidOperationalExecution
  end.

Definition built {A} (current : OperationalExecutionContext) (grounding : RoleExecutionGrounding)
    (handler : option MessageHandlerGrounding) (k : operational_error + (ExecutionBrief * Digest) -> calls A) : calls A :=
  match BuildExecutionBriefWithHandler schema_accepts current grounding handler (opp_MaximumBriefBytes policy) with
  | inl e => k (inl (brief_failure (oec_AdmittedMessage current) handler e))
  | inr b => k (inr b)
  end.

Definition buildBrief {A} (current : OperationalExecutionContext)
    (k : operational_error + (ExecutionBrief * Digest) -> calls A) : calls A :=
  let invocation := oec_Invocation current in
  match iv_HandlerDispatch invocation with
  | Some binding =>
    when negb resolves_handlers return k (inl ErrInvalidOperationalExecution) ;;
    ResolveHandler (iv_ActorFQN invocation) (HandlerDispatchBinding_Clone binding) (fun resolved =>
      match resolved with
      | inl e => k (inl e)
      | inr (grounding, handler) => built current grounding (Some handler) k
      end)
  | None =>
    ResolveRole (iv_ActorFQN invocation) (fun resolved =>
      match resolved with
      | inl e => k (inl e)
      | inr grounding => built current grounding None k
      end)
  end.

Definition validateHandlerObservation (brief : ExecutionBrief) (o : ExternalExecutionObservation)
    : ExternalExecutionObservation :=
  match brf_MessageHandler brief with
  | None => o
  | Some handler =>
    when obs_State o != ExternalSucceeded return o ;;
    when ValidateRoleHandlerResult schema_accepts handler (obs_Output o) return o ;;
    o <| obs_State := ExternalFailed |> <| obs_Retryable := true |>
  end.

Definition effectiveDeadline {A} (invocation : WorkInvocation) (k : operational_error + Time -> calls A) : calls A :=
  when negb extends_deadlines return k (inr (iv_DeadlineAt invocation)) ;;
  AskClock (fun now =>
    EffectiveDeadline invocation now (fun answer =>
      match answer with
      | inl e => k (inl e)
      | inr deadline =>
        when Before deadline (iv_DeadlineAt invocation) return k (inl ErrInvalidOperationalExecution) ;;
        k (inr deadline)
      end)).

Definition reconcile_start {A} (brief : ExecutionBrief) (request : Digest)
    (k : operational_error + ExternalExecutionObservation -> calls A) : calls A :=
  AskBoundary (BoundaryReconcileStart brief request) (fun answer =>
    match answer with
    | inl _ => k (inl ErrExternalOutcomeUnknown)
    | inr o =>
      when obs_State o != ExternalAbsent return k (inr o) ;;
      AskBoundary (BoundaryStart brief request) (fun answer =>
        match answer with
        | inl _ => k (inl ErrExternalOutcomeUnknown)
        | inr o => k (inr o)
        end)
    end).

Definition startOrReconcile {A} (brief : ExecutionBrief) (request : Digest) (claimedThisCall : bool)
    (k : operational_error + ExternalExecutionObservation -> calls A) : calls A :=
  when negb claimedThisCall return reconcile_start brief request k ;;
  AskBoundary (BoundaryStart brief request) (fun answer =>
    match answer with
    | inr o => k (inr o)
    | inl _ => reconcile_start brief request k
    end).

Definition rejected_observation (invocation : WorkInvocation) (request : Digest) (cause : operational_error)
    : ExternalExecutionObservation :=
  {| obs_InvocationID := iv_ID invocation; obs_RequestDigest := request; obs_ConversationID := "";
     obs_State := ExternalRejected; obs_ActorFQN := iv_ActorFQN invocation; obs_Execution := iv_Execution invocation;
     obs_ModelProfileDigest := iv_ModelProfileDigest invocation;
     obs_RuntimeIdentityDigest := iv_RuntimeIdentityDigest invocation; obs_WorkspaceID := iv_WorkspaceID invocation;
     obs_ToolPolicyDigest := iv_ToolPolicyDigest invocation; obs_EffectPolicyDigest := iv_EffectPolicyDigest invocation;
     obs_Retryable := false; obs_Evidence := []; obs_Output := error_text cause |}.

(** The digest of the brief, if there is one, identifies the request. *)
Definition recordKnownStartFailure (current : OperationalExecutionContext) (cause : operational_error) : calls processed :=
  let invocation := oec_Invocation current in
  buildBrief current (fun brief =>
    let request := match brief with inr (_, digest) => digest | inl _ => "" end in
    let request :=
      if Digest_Valid request then request
      else sha256_hex (render (obj [("invocation_id", marshal (iv_ID invocation)); ("reason", marshal (error_text cause))])) in
    recordTerminalObservation policy current (rejected_observation invocation request cause) InvocationStartFailed).

Definition result_of (invocation : WorkInvocation) : OperationalExecutionResult :=
  mkOperationalResult (iv_ID invocation) (iv_State invocation) (default "" (iv_ConversationID invocation)) [] None.

(** What follows a command: the invocation is read again. *)
Definition reload (invocation : WorkInvocation) (result : OperationalExecutionResult)
    (answer : CommandReceipt * option operational_error) (k : OperationalExecutionContext -> calls processed) : calls processed :=
  let '(receipt, err) := answer in
  let result := result <| opr_Receipt := Some receipt |> in
  match err with
  | Some e => Done (result, Some e)
  | None =>
    LoadInvocation (iv_ID invocation) (fun loaded =>
      match loaded with
      | inl e => Done (result, Some e)
      | inr current => k current
      end)
  end.

(** The cases of the loop; [again] is its next round. *)
Definition process_authorized (intent : OutboxIntent) (current : OperationalExecutionContext) (claimedThisCall : bool)
    (again : bool -> OperationalExecutionContext -> calls processed) : calls processed :=
  let invocation := oec_Invocation current in
  let result := result_of invocation in
  AskClock (fun now =>
    if negb (Before now (iv_DeadlineAt invocation))
    then expire policy invocation (fun answer => reload invocation result answer (again claimedThisCall))
    else
      AskClock (fun now =>
        when negb (OperationalExecutionContext_Validate current now) return Done (result, Some ErrStaleWorkInvocation) ;;
        claim policy intent current (fun answer => reload invocation result answer (again true)))).

Definition started_state (state : ExternalExecutionState) : bool :=
  contains [ExternalRunning; ExternalSucceeded; ExternalFailed; ExternalTimedOut; ExternalCancelled] state.

Definition process_observed (current : OperationalExecutionContext) (brief : ExecutionBrief) (request : Digest)
    (claimedThisCall : bool) (again : bool -> OperationalExecutionContext -> calls processed)
    (o : ExternalExecutionObservation) : calls processed :=
  let invocation := oec_Invocation current in
  let result := result_of invocation in
  when negb (externalObservationMatches brief request o) return Done (result, Some ErrExternalOutcomeUnknown) ;;
  if obs_State o == ExternalRejected then recordTerminalObservation policy current o InvocationStartFailed
  else if started_state (obs_State o) then
    when obs_ConversationID o == "" return Done (result, Some ErrExternalOutcomeUnknown) ;;
    let o := validateHandlerObservation brief o in
    recordStarted policy invocation o result (fun answer =>
      reload invocation result answer (fun current =>
        if obs_State o != ExternalRunning
        then recordTerminalObservation policy current o (terminalOutcome (obs_State o))
        else again claimedThisCall current))
  else Done (result, Some ErrExternalOutcomeUnknown).

Definition process_claimed (current : OperationalExecutionContext) (claimedThisCall : bool)
    (again : bool -> OperationalExecutionContext -> calls processed) : calls processed :=
  let result := result_of (oec_Invocation current) in
  AskClock (fun now =>
    when negb (OperationalExecutionContext_Validate current now)
      return recordKnownStartFailure current ErrStaleWorkInvocation ;;
    buildBrief current (fun brief =>
      match brief with
      | inl e => recordKnownStartFailure current e
      | inr (brief, request) =>
        startOrReconcile brief request claimedThisCall (fun answer =>
          match answer with
          | inl e => Done (result, Some e)
          | inr o => process_observed current brief request claimedThisCall again o
          end)
      end)).

(** The output of an execution whose brief was replaced. *)
Definition superseded_output (original replacement : Digest) : string :=
  render (obj [("reason", marshal "EXECUTION_BRIEF_SUPERSEDED"); ("original_request_digest", marshal original);
               ("replacement_request_digest", marshal replacement)]).

Definition superseded_observation (o : ExternalExecutionObservation) (cancelling late : bool) (original replacement : Digest)
    : ExternalExecutionObservation :=
  if (obs_State o != ExternalSucceeded) && negb cancelling && negb late
  then o <| obs_State := ExternalFailed |> <| obs_Retryable := true |>
         <| obs_Output := superseded_output original replacement |>
  else o.

(** The observation of a started execution. *)
Definition observe_started {A} (invocation : WorkInvocation) (brief : ExecutionBrief) (conversation : string)
    (request current : Digest) (late : bool) (k : operational_error + ExternalExecutionObservation -> calls A) : calls A :=
  let cancelling := negb (is_nil (iv_CancellationRequestedAt invocation)) in
  if request != current then
    AskBoundary (BoundaryReconcileSuperseded brief conversation request current) (fun answer =>
      match answer with
      | inl e => k (inl e)
      | inr o => k (inr (superseded_observation o cancelling late request current))
      end)
  else if cancelling || late then AskBoundary (BoundaryCancel brief conversation request) k
  else AskBoundary (BoundaryInspect brief conversation request) k.

Definition process_started (current : OperationalExecutionContext) : calls processed :=
  let invocation := oec_Invocation current in
  let result := result_of invocation in
  buildBrief current (fun built =>
    match built, iv_ConversationID invocation, iv_RequestDigest invocation with
    | inr (brief, currentRequest), Some conversation, Some request =>
      effectiveDeadline invocation (fun deadline =>
        match deadline with
        | inl e => Done (result, Some e)
        | inr deadline =>
          AskClock (fun now =>
            let late := negb (Before now deadline) in
            observe_started invocation brief conversation request currentRequest late (fun answer =>
              match answer with
              | inl _ => Done (result, Some ErrExternalOutcomeUnknown)
              | inr o =>
                when negb (externalObservationMatches brief request o) || (obs_ConversationID o != conversation)
                     || (obs_State o == ExternalAbsent) || (obs_State o == ExternalUnknown)
                     || (obs_State o == ExternalRejected)
                  return Done (result, Some ErrExternalOutcomeUnknown) ;;
                when obs_State o == ExternalRunning return Done (result, None) ;;
                let o := validateHandlerObservation brief o in
                if late && (obs_State o == ExternalCancelled)
                then recordTerminalObservation policy current (o <| obs_Retryable := true |>) InvocationTimedOut
                else recordTerminalObservation policy current o (terminalOutcome (obs_State o))
              end))
        end)
    | _, _, _ => Done (result, Some ErrInvalidOperationalExecution)
    end).

Fixpoint process_loop (transitions : nat) (intent : OutboxIntent) (claimedThisCall : bool)
    (current : OperationalExecutionContext) : calls processed :=
  let invocation := oec_Invocation current in
  match transitions with
  | O => Done (mkOperationalResult (iv_ID invocation) (iv_State invocation) "" [] None, Some ErrInvalidOperationalExecution)
  | S transitions =>
    when Terminal (iv_State invocation) return Done (result_of invocation, None) ;;
    if iv_State invocation == InvocationAuthorized
    then process_authorized intent current claimedThisCall (process_loop transitions intent)
    else if iv_State invocation == InvocationClaimed
    then process_claimed current claimedThisCall (process_loop transitions intent)
    else if iv_State invocation == InvocationStarted then process_started current
    else Done (result_of invocation, Some ErrInvalidOperationalExecution)
  end.

Definition workInvocationOutboxKind : string := "WORK_INVOCATION_AUTHORIZED".

Definition Process (intent : OutboxIntent) : calls processed :=
  AskContext (fun ctx =>
    match ctx with
    | Some e => Done (zero_OperationalExecutionResult, Some (ErrContextDone e))
    | None =>
      when negb (UUIDv7_Valid (oi_IntentID intent)) || negb (UUIDv7_Valid (oi_EventID intent))
           || (oi_Kind intent != workInvocationOutboxKind)
        return Done (zero_OperationalExecutionResult, Some ErrInvalidOperationalExecution) ;;
      LoadByEvent (oi_EventID intent) (fun loaded =>
        match loaded with
        | inl e => Done (zero_OperationalExecutionResult, Some e)
        | inr current =>
          when iv_AuthorizationEventID (oec_Invocation current) != oi_EventID intent
            return Done (zero_OperationalExecutionResult, Some ErrInvalidOperationalExecution) ;;
          process_loop 5 intent false current
        end)
    end).

End coordinator.

(** ** The evidence recorder *)

Record CommandEvidenceRecorderPolicy := mkRecorderPolicy {
  crp_PolicyRevision : Z;
  crp_Authority : PrincipalRef;
  crp_Provenance : ProvenanceBasis;
  crp_ProducingVersion : string;
  crp_RetentionPolicy : string
}.

Definition validExecutionEvidenceKind (value : string) : bool :=
  contains ["SOURCE_SNAPSHOT"; "SOURCE_DIFF"; "TEST_RESULT"; "TOOL_RESULT"; "ARTIFACT"; "PROVIDER_RECEIPT"; "MODEL_OUTPUT";
    "DECISION_RECORD"; "EXTERNAL_OBSERVATION"] value.

Definition item_valid (item : ExecutionEvidence) (previous : option UUIDv7) : bool :=
  negb (negb (UUIDv7_Valid (evd_EvidenceID item)) || negb (validExecutionEvidenceKind (evd_Kind item))
    || (evd_MediaType item == "") || (255 <? slen (evd_MediaType item)) || IsZero (evd_SourceTimestamp item)
    || (16777216 <? slen (evd_Content item))
    || match previous with Some id => evd_EvidenceID item == id | None => false end).

(** The map is marshalled with its keys in order. *)
Definition evidence_payload (policy : CommandEvidenceRecorderPolicy) (invocation : WorkInvocation) (item : ExecutionEvidence)
    (locator : string) (digest : Digest) : option json :=
  marshal_struct
    [field_of "access_partition" (iv_WorkspaceID invocation); field_of "availability" "AVAILABLE";
     field_of "byte_length" (slen (evd_Content item)); field_of "canonical_digest" digest; ("computation", Some JNull);
     ("deletion_tombstone", Some JNull); field_of "evidence_kind" (evd_Kind item);
     field_of "integrity_state" "DIGEST_VERIFIED"; field_of "locator" locator; field_of "locator_immutable" true;
     field_of "media_type" (evd_MediaType item);
     field_of "producing_component" "teams-openhands-operational-coordinator";
     field_of "producing_version" (crp_ProducingVersion policy); ("redacts", Some JNull);
     field_of "retention_policy" (crp_RetentionPolicy policy); field_of "sensitivity" "INTERNAL"; field_of "sha256" digest;
     ("source_evidence_ids", Some (JArray [])); ("source_timestamp", marshal_time (evd_SourceTimestamp item));
     field_of "transport_provenance" "qualified-openhands-execution-boundary"].

Definition evidence_command (policy : CommandEvidenceRecorderPolicy) (invocation : WorkInvocation) (item : ExecutionEvidence)
    (digest : Digest) (payload : string) : KernelCommand :=
  {| cmd_ContractManifest := ContractIdentity;
     cmd_CommandID := deterministicUUID ["execution-evidence-command"; iv_ID invocation; evd_EvidenceID item; digest];
     cmd_CommandType := "tekroo.command.evidence.register"; cmd_CommandVersion := SchemaVersion;
     cmd_Target := mkRef AggregateEvidence (evd_EvidenceID item); cmd_Authority := crp_Authority policy;
     cmd_ActorFQN := None; cmd_Execution := None; cmd_ExpectedRevision := MustNotExist; cmd_Preconditions := [];
     cmd_ExpectedLifecycleEpoch := None; cmd_ExpectedPolicyRevision := crp_PolicyRevision policy;
     cmd_ExpectedCatalogueRevision := CatalogueRevision;
     cmd_IdempotencyKey := "execution-evidence/" +:+ iv_ID invocation +:+ "/" +:+ evd_EvidenceID item +:+ "/" +:+ digest;
     cmd_CorrelationID := iv_ID invocation;
     cmd_Causation := [mkParent (iv_LastEventID invocation) EdgeCausal]; cmd_IssuedAt := None;
     cmd_Payload := payload; cmd_EvidenceRefs := [] |}.

Fixpoint record_items (policy : CommandEvidenceRecorderPolicy) (invocation : WorkInvocation) (previous : option UUIDv7)
    (items : list ExecutionEvidence) (result : list EvidenceRef) : calls (operational_error + list EvidenceRef) :=
  match items with
  | [] => Done (inr result)
  | item :: items =>
    when negb (item_valid item previous) return Done (inl ErrInvalidOperationalExecution) ;;
    PutBlob (evd_EvidenceID item) (evd_Content item) (fun put =>
      match put with
      | inl e => Done (inl e)
      | inr blob =>
        let digest := sha256_hex (evd_Content item) in
        when (blb_Locator blob == "") || (blb_SHA256 blob != digest) || negb (blb_ByteLength blob =? slen (evd_Content item))
          return Done (inl ErrInvalidOperationalExecution) ;;
        match evidence_payload policy invocation item (blb_Locator blob) digest with
        | None => Done (inl (ErrCollaborator "json: error calling MarshalJSON for type time.Time"))
        | Some tree =>
          HandleCommand (evidence_command policy invocation item digest (render tree)) (crp_Provenance policy)
            (fun '(receipt, err) =>
              match err with
              | Some e => Done (inl e)
              | None =>
                when (rc_OutcomeCode receipt != OutcomeApplied) && (rc_OutcomeCode receipt != OutcomeNoChange)
                  return Done (inl (ErrCollaborator ("record execution evidence: " +:+ rc_ReasonCode receipt))) ;;
                record_items policy invocation (Some (evd_EvidenceID item)) items
                  (result ++ [mkEvidence (evd_EvidenceID item) digest])
              end)
        end
      end)
  end.

Definition item_le (a b : ExecutionEvidence) : Prop := str_le (evd_EvidenceID a) (evd_EvidenceID b).
#[global] Instance item_le_dec : RelDecision item_le.
Proof. intros a b. unfold item_le. apply _. Defined.

Definition RecordExecutionEvidence (policy : CommandEvidenceRecorderPolicy) (invocation : WorkInvocation)
    (items : list ExecutionEvidence) : calls (operational_error + list EvidenceRef) :=
  AskContext (fun ctx =>
    match ctx with
    | Some e => Done (inl (ErrContextDone e))
    | None =>
      when negb (WorkInvocation_Valid invocation) || (llen items =? 0) || (64 <? llen items)
        return Done (inl ErrInvalidOperationalExecution) ;;
      record_items policy invocation None (merge_sort item_le items) []
    end).
