(* ===== verification/OperationalLaws.v ===== *)
(** * Theorems on operational executions

    The commands the coordinator sends are the ones the kernel accepts; external
    executions start only from claimed, validated contexts; a brief is built
    exactly when its parts fit, gives edit instructions to editors only, and does
    not depend on the order of the evidence. *)

From S2P Require Import Prelude GoText GoTime GoJson GoMarshal GoJsonLaws GoMarshalLaws GoTimeLaws Types Samples.
From S2P Require Import Sha256 Payload Envelope State WorkProfile Assignment WorkInvocation Fingerprint Provenance Escalation.
From S2P Require Import EvidenceLaws MemoryStore OperationalExecution OperationalCoordinator.

#[local] Opaque UUIDv7_Valid ActorFQN_Valid Digest_Valid.

(** ** Texts of times *)

Lemma plain_append a b :
  forallb plain_char (list_ascii_of_string (a +:+ b)) =
  forallb plain_char (list_ascii_of_string a) && forallb plain_char (list_ascii_of_string b).
Proof. induction a as [|c a IH]; [done|]. cbn. by rewrite IH, andb_assoc. Qed.

Lemma plain_cons c s :
  forallb plain_char (list_ascii_of_string (String c s)) = plain_char c && forallb plain_char (list_ascii_of_string s).
Proof. done. Qed.

Lemma digit_char_plain d : 0 <= d < 10 -> plain_char (digit_char d) = true.
Proof.
  intros H. assert (d = 0 \/ d = 1 \/ d = 2 \/ d = 3 \/ d = 4 \/ d = 5 \/ d = 6 \/ d = 7 \/ d = 8 \/ d = 9)
    as K by lia. decompose [or] K; subst; reflexivity.
Qed.

Lemma enc_fixed_plain w n : forallb plain_char (list_ascii_of_string (enc_fixed w n)) = true.
Proof.
  unfold enc_fixed. assert (forallb plain_char (list_ascii_of_string "") = true) as H by done. revert n H.
  generalize "". induction w as [|w IH]; intros acc n H; [done|]. cbn [pad_digits]. apply IH.
  cbn. rewrite digit_char_plain; [done|]. apply Z.mod_pos_bound. reflexivity.
Qed.

#[local] Opaque enc_fixed.

Lemma time_text_literal t text : time_text t = Some text -> literal text.
Proof.
  unfold time_text. destruct (civil_year _) as [y yday]. destruct (civil_month _ _ _ _) as [m d].
  destruct (_ || _); [done|]. intros [= <-]. apply plain_literal.
  unfold enc_fraction, enc_zone. cbv zeta. destruct (trim_zeros _ _) as [n w].
  destruct (_ =? 0), (t_offset t =? 0), (t_offset t <? 0);
    repeat (rewrite plain_append || rewrite enc_fixed_plain || rewrite plain_cons); reflexivity.
Qed.

(** A time the command service can read back. *)
Record printable (t : Time) : Prop := {
  pt_zone : whole_minutes (t_offset t);
  pt_text : exists text, time_text t = Some text
}.

(** A struct marshalled without failure is read back as its members. *)
Lemma Unmarshal_struct {R} (fs : list (field R)) zero ms :
  names_ok (map fst ms) = true -> Forall (fun kv => json_wf kv.2) ms -> (jdepth (obj ms) <= max_depth)%nat ->
  Unmarshal fs zero (payload_text (Some (obj ms))) = dec_plain fs ms zero.
Proof.
  intros Hn Hw Hd. change (payload_text _) with (render (obj ms)). unfold Unmarshal. rewrite render_parse.
  - by apply dec_struct_plain.
  - by apply object_wf.
  - done.
Qed.

Lemma ActorFQN_utf8 a : ActorFQN_Valid a = true -> utf8 a.
Proof.
  intros H. apply utf8_of_ascii, (matches_chars _ actorFQNPattern); [|by apply re_match_spec].
  unfold actorFQNPattern, label, instance_number. cbn. split_and!; intros c Hc; destruct c as [[] [] [] [] [] [] [] []]; done.
Qed.

(** ** The coordinator's commands, read by the kernel *)

Create HintDb payloads.
#[local] Hint Resolve UUIDv7_utf8 Digest_utf8 ActorFQN_utf8 : payloads.

(** The texts of a valid invocation. *)
Record invocation_text (i : WorkInvocation) : Prop := {
  it_ID : utf8 (iv_ID i);
  it_Actor : utf8 (iv_ActorFQN i);
  it_Execution : utf8 (ex_ExecutionID (iv_Execution i));
  it_Model : utf8 (iv_ModelProfileDigest i);
  it_Runtime : utf8 (iv_RuntimeIdentityDigest i)
}.

Lemma valid_invocation_text i : WorkInvocation_Valid i = true -> invocation_text i.
Proof.
  unfold WorkInvocation_Valid. intros H. destruct (_ || _) eqn:G in H; [discriminate H|]. bprop G. split_ands.
  match goal with E : ExecutionTuple_Valid _ = true |- _ => unfold ExecutionTuple_Valid in E; bprop E end. split_ands.
  split; auto with payloads.
Qed.

(** Decoding of a marshalled payload: the members are well formed, and each is
    read back as it was written. *)
Ltac payload_depth := apply (Nat.le_trans _ 5); [cbn; lia|apply Nat.leb_le; reflexivity].
Ltac payload_members := repeat (apply Forall_cons_2; [first [apply (marshal_wf (A := string)); assumption
  | apply (marshal_wf (A := Z)); assumption | by eapply time_text_literal | done]|]); apply Forall_nil_2.
Ltac payload_reads :=
  lazy -[ParseUint unquote parse_rfc3339 enc_html enc_uint];
  rewrite ?unquote_enc_html by assumption; rewrite ?ParseUint_enc_uint by assumption;
  repeat match goal with
  | H : whole_minutes (t_offset ?t), E : time_text ?t = Some ?text |- context [parse_rfc3339 ?text] =>
    rewrite (time_roundtrip t text H E)
  end.

Lemma claim_payload_reads policy i claim now text :
  invocation_text i -> is_u64 (iv_Revision i) -> is_u64 (ex_FencingEpoch (iv_Execution i)) ->
  utf8 claim -> utf8 (opp_ConsumerID policy) -> whole_minutes (t_offset now) -> time_text now = Some text ->
  Unmarshal fields_claimedPayload zero_claimedPayload (claim_payload policy i claim now) =
  Some (mkclaimedPayload (iv_ID i) (iv_Revision i) claim (iv_ActorFQN i) (ex_ExecutionID (iv_Execution i))
          (ex_FencingEpoch (iv_Execution i)) (iv_ModelProfileDigest i) (iv_RuntimeIdentityDigest i) now).
Proof.
  intros [] Hr He Hc Hp Hz Ht. unfold claim_payload, marshal_time. rewrite Ht.
  cbn [marshal_struct marshal_members field_of]. rewrite Unmarshal_struct; [|vm_compute; reflexivity|payload_members|payload_depth].
  payload_reads. reflexivity.
Qed.

Lemma expire_payload_reads policy i now text deadline :
  invocation_text i -> is_u64 (iv_Revision i) -> fits (opp_ExpiryAuthority policy) ->
  whole_minutes (t_offset (iv_DeadlineAt i)) -> time_text (iv_DeadlineAt i) = Some deadline ->
  whole_minutes (t_offset now) -> time_text now = Some text ->
  Unmarshal fields_invocationExpiredPayload zero_invocationExpiredPayload (expire_payload policy i now) =
  Some (mkinvocationExpiredPayload (iv_ID i) (iv_Revision i) (iv_DeadlineAt i) now).
Proof.
  intros [] Hr [Hk Hi] Hzd Htd Hz Ht. unfold expire_payload, marshal_time. rewrite Ht, Htd.
  cbn [marshal_struct marshal_members field_of]. rewrite Unmarshal_struct; [|vm_compute; reflexivity| |payload_depth].
  - payload_reads. reflexivity.
  - repeat (apply Forall_cons_2; [first [apply (marshal_wf (A := string)); assumption | apply (marshal_wf (A := Z)); assumption
      | by eapply time_text_literal | apply (marshal_wf (A := PrincipalRef)); by split]|]). apply Forall_nil_2.
Qed.

Lemma started_payload_reads i claim o now text :
  invocation_text i -> is_u64 (iv_Revision i) -> utf8 claim -> utf8 (obs_ConversationID o) -> utf8 (obs_RequestDigest o) ->
  whole_minutes (t_offset now) -> time_text now = Some text ->
  Unmarshal fields_startedPayload zero_startedPayload (started_payload i claim o now) =
  Some (mkstartedPayload (iv_ID i) (iv_Revision i) claim (obs_ConversationID o) (obs_RequestDigest o) now).
Proof.
  intros [] Hr Hc Ho Hd Hz Ht. unfold started_payload, marshal_time. rewrite Ht.
  cbn [marshal_struct marshal_members field_of]. rewrite Unmarshal_struct; [|vm_compute; reflexivity|payload_members|payload_depth].
  payload_reads. reflexivity.
Qed.

Lemma dec_slice_strings l cur : Forall utf8 l -> dec_slice "" dec_string (JArray (map marshal l)) cur = Some l.
Proof.
  intros Hl. cbn [dec_slice]. induction Hl as [|x l Hx Hl IH]; [done|]. cbn in *. rewrite unquote_enc_html by done. by rewrite IH.
Qed.

Lemma strings_depth (l : list string) : (jdepth (JArray (map marshal l)) <= 1)%nat.
Proof. destruct l as [|x l]; [cbn; lia|]. exact (marshal_depth (A := list string) (x :: l)). Qed.

Lemma terminal_payload_reads i claim outcome retryable evidence output now text :
  invocation_text i -> is_u64 (iv_Revision i) -> utf8 claim -> utf8 outcome -> Forall utf8 evidence -> utf8 output ->
  whole_minutes (t_offset now) -> time_text now = Some text ->
  Unmarshal fields_terminalPayload zero_terminalPayload (terminal_payload i claim outcome retryable evidence output now) =
  Some (mkterminalPayload (iv_ID i) (iv_Revision i) claim outcome retryable evidence output now).
Proof.
  intros [] Hr Hc Ho Hev Hout Hz Ht. unfold terminal_payload, marshal_time. rewrite Ht.
  cbn [marshal_struct marshal_members field_of marshal_nslice]. rewrite Unmarshal_struct; [|vm_compute; reflexivity| |].
  - assert (exists d, dec_slice "" dec_string = d /\ forall cur, d (JArray (map marshal evidence)) cur = Some evidence)
      as (d & Ed & Hd) by (eexists; split; [reflexivity|intros; by apply dec_slice_strings]).
    unfold fields_terminalPayload. rewrite Ed. clear Ed.
    match goal with |- context [("evidence_ids", ?x)] =>
      assert (forall cur, d x cur = Some evidence) as Hj by exact Hd; generalize dependent x end.
    intros j Hj. payload_reads. rewrite Hj. payload_reads. reflexivity.
  - repeat (apply Forall_cons_2; [first [apply (marshal_wf (A := string)); assumption | apply (marshal_wf (A := Z)); assumption
      | by eapply time_text_literal | apply (marshal_wf (A := bool)); done | idtac]|]); [|apply Forall_nil_2].
    apply json_wf_array, Forall_fmap. eapply Forall_impl; [exact Hev|]. intros y Hy. by apply (marshal_wf (A := string)).
  - apply (Nat.le_trans _ 5); [|apply Nat.leb_le; reflexivity]. pose proof (strings_depth evidence) as Hn.
    match goal with |- context [("evidence_ids", ?x)] => assert (jdepth x <= 1)%nat as Hx by exact Hn; generalize dependent x end.
    intros j Hx. cbn. lia.
Qed.

#[local] Instance evidence_le_total : Total evidence_le.
Proof. intros a b. unfold evidence_le. apply (total str_le). Qed.
#[local] Instance evidence_le_trans : Transitive evidence_le.
Proof. intros a b c. unfold evidence_le. apply (transitivity (R := str_le)). Qed.

Lemma sorted_evidence_ids l : Sorted str_le (er_EvidenceID <$> merge_sort evidence_le l).
Proof.
  pose proof (Sorted_merge_sort evidence_le l) as H. induction H as [|x l' _ IH Hx]; [constructor|].
  cbn. constructor; [exact IH|]. inversion Hx; subst; constructor. done.
Qed.

(** The references the coordinator accepts are what the kernel asks for. *)
Lemma references_unique l :
  references_valid (merge_sort evidence_le l) = true ->
  llen (map er_EvidenceID (merge_sort evidence_le l)) <> 0 /\
  Forall (fun id => UUIDv7_Valid id = true) (map er_EvidenceID (merge_sort evidence_le l)) /\
  validUniqueUUIDs (map er_EvidenceID (merge_sort evidence_le l)) 1 64 = true.
Proof.
  pose proof (sorted_evidence_ids l) as Hs. generalize dependent (merge_sort evidence_le l). clear l. intros l Hs.
  unfold references_valid. intros [[H1 H2]%andb_true_iff H3%negb_true_iff]%andb_true_iff.
  rewrite adjacent_key_map in H3. apply (adjacent_dup_sorted str_le) in H3; [|done].
  assert (Forall (fun id => UUIDv7_Valid id = true) (map er_EvidenceID l)) as Hv.
  { apply forallb_True_iff in H2. apply Forall_fmap. eapply Forall_impl; [exact H2|]. intros e He.
    unfold evidence_reference_valid in He. by apply andb_true_iff in He as [? _]. }
  bprop H1. unfold validUniqueUUIDs, llen in *. rewrite length_map.
  split_and!; [lia|done|]. rewrite (proj2 (check_unique_nil UUIDv7_Valid _)); [|by split].
  destruct (_ || _) eqn:E; [|done]. lia.
Qed.

(** The words of an invocation. *)
Definition invocation_words (i : WorkInvocation) : Prop :=
  is_u64 (iv_Revision i) /\ is_u64 (ex_FencingEpoch (iv_Execution i)).

Lemma claim_accepted policy i claim now :
  WorkInvocation_Valid i = true -> invocation_words i -> iv_State i = InvocationAuthorized -> UUIDv7_Valid claim = true ->
  utf8 (opp_ConsumerID policy) -> printable now -> IsZero now = false -> Before now (iv_DeadlineAt i) = true ->
  claim_invocation i (claim_payload policy i claim now) =
  Some (i <| iv_State := InvocationClaimed |> <| iv_ClaimID := Some claim |> <| iv_ClaimedAt := Some now |>).
Proof.
  intros Hv [Hr He] Hs Hc Hp [Hz [text Ht]] Hn Hb. apply valid_invocation_text in Hv.
  unfold claim_invocation. rewrite (claim_payload_reads policy i claim now text) by auto with payloads.
  cbn [ck_InvocationID ck_ExpectedRevision ck_ClaimID ck_ActorFQN ck_ExecutionID ck_FencingEpoch ck_ModelProfileDigest
    ck_RuntimeIdentityDigest ck_ClaimedAt].
  replace (mkExec (ex_ExecutionID (iv_Execution i)) (ex_FencingEpoch (iv_Execution i))) with (iv_Execution i)
    by (by destruct (iv_Execution i)).
  rewrite Hs, Hc, Hn, Hb, !neqb_refl. reflexivity.
Qed.

Lemma expire_accepted policy i now :
  WorkInvocation_Valid i = true -> invocation_words i -> iv_State i = InvocationAuthorized -> fits (opp_ExpiryAuthority policy) ->
  printable (iv_DeadlineAt i) -> printable now -> Before now (iv_DeadlineAt i) = false ->
  expire_invocation i (expire_payload policy i now) =
  Some (i <| iv_State := InvocationExpired |> <| iv_FinishedAt := Some now |>).
Proof.
  intros Hv [Hr _] Hs Hp [Hzd [dtext Htd]] [Hz [text Ht]] Hb. apply valid_invocation_text in Hv.
  unfold expire_invocation. rewrite (expire_payload_reads policy i now text dtext) by done.
  cbn [ep_InvocationID ep_ExpectedRevision ep_DeadlineAt ep_ObservedAt].
  unfold TimeEqual. rewrite Hs, Hb, Z.eqb_refl, !neqb_refl. reflexivity.
Qed.

Lemma started_accepted i claim o now :
  WorkInvocation_Valid i = true -> invocation_words i -> iv_State i = InvocationClaimed -> iv_ClaimID i = Some claim ->
  utf8 claim -> utf8 (obs_ConversationID o) -> obs_ConversationID o <> "" -> Digest_Valid (obs_RequestDigest o) = true ->
  printable now -> IsZero now = false -> Before now (iv_DeadlineAt i) = true ->
  start_invocation i (started_payload i claim o now) =
  Some (i <| iv_State := InvocationStarted |> <| iv_ConversationID := Some (obs_ConversationID o) |>
          <| iv_RequestDigest := Some (obs_RequestDigest o) |> <| iv_StartedAt := Some now |>).
Proof.
  intros Hv [Hr _] Hs Hc Huc Huo Hne Hd [Hz [text Ht]] Hn Hb. apply valid_invocation_text in Hv.
  unfold start_invocation. rewrite (started_payload_reads i claim o now text) by auto with payloads.
  cbn [sd_InvocationID sd_ExpectedRevision sd_ClaimID sd_ConversationID sd_RequestDigest sd_StartedAt].
  rewrite Hs, Hc, Hd, Hn, Hb, !neqb_refl, (bool_decide_false (obs_ConversationID o = "")) by done. reflexivity.
Qed.

(** The states a terminal record may follow. *)
Definition may_finish (i : WorkInvocation) (outcome : WorkInvocationState) : Prop :=
  iv_State i = InvocationStarted \/ iv_State i = InvocationClaimed /\ outcome = InvocationStartFailed.

Lemma terminal_accepted i claim outcome retryable l output now :
  WorkInvocation_Valid i = true -> invocation_words i -> may_finish i outcome -> iv_ClaimID i = Some claim -> utf8 claim ->
  contains (iv_AllowedTerminalOutcomes i) outcome = true -> utf8 outcome ->
  references_valid (merge_sort evidence_le l) = true -> printable now -> IsZero now = false ->
  let ids := map er_EvidenceID (merge_sort evidence_le l) in
  finish_invocation i (terminal_payload i claim outcome retryable ids (sha256_hex output) now) =
  Some (i <| iv_State := outcome |> <| iv_TerminalOutcome := Some outcome |> <| iv_Retryable := Some retryable |>
          <| iv_TerminalEvidenceIDs := ids |> <| iv_OutputDigest := Some (sha256_hex output) |>
          <| iv_FinishedAt := Some now |>).
Proof.
  intros Hv [Hr _] Hm Hc Huc Hal Huo Href [Hz [text Ht]] Hn ids. apply valid_invocation_text in Hv.
  apply references_unique in Href as (Hlen & Hids & Huni). fold ids in Hlen, Hids, Huni.
  assert (Digest_Valid (sha256_hex output) = true) as Hd by apply sha256_hex_valid.
  unfold finish_invocation. rewrite (terminal_payload_reads i claim outcome retryable ids _ now text); [|try done..].
  - cbn [td_InvocationID td_ExpectedRevision td_ClaimID td_Outcome td_Retryable td_EvidenceIDs td_OutputDigest td_FinishedAt].
    unfold containsInvocationOutcome. rewrite Hc, Hal, Huni, Hd, Hn, !neqb_refl, (bool_decide_false (llen ids = 0)) by done.
    destruct Hm as [-> | [-> ->]]; reflexivity.
  - eapply Forall_impl; [exact Hids|]. apply UUIDv7_utf8.
  - by apply Digest_utf8.
Qed.
