(* ===== verification/OperationalRuns.v ===== *)
(** * Runs of the operational coordinator

    What holds of every run of [Process], whatever the store, the command service,
    the role resolver and the execution boundary answer. *)

From S2P Require Import Prelude GoText GoTime GoJson GoMarshal GoJsonLaws GoMarshalLaws GoTimeLaws Types Samples.
From S2P Require Import Sha256 Payload Envelope State WorkProfile Assignment WorkInvocation InvocationLaws Fingerprint Provenance.
From S2P Require Import EvaluatorLaws MemoryStore OperationalExecution OperationalCoordinator OperationalLaws.

#[local] Opaque UUIDv7_Valid ActorFQN_Valid Digest_Valid.

(** ** Conversations *)

Inductive reply :=
| RepContext (ctx : Context)
| RepClock (now : Time)
| RepExecution (r : operational_error + OperationalExecutionContext)
| RepRole (r : operational_error + RoleExecutionGrounding)
| RepHandler (r : operational_error + (RoleExecutionGrounding * MessageHandlerGrounding))
| RepDeadline (r : operational_error + Time)
| RepObservation (r : operational_error + ExternalExecutionObservation)
| RepReferences (r : operational_error + list EvidenceRef)
| RepBlob (r : operational_error + BlobReceipt)
| RepReceipt (r : CommandReceipt * option operational_error).

(** A call with its answer. *)
Inductive exchange :=
| SawContext (ctx : Context)
| SawClock (now : Time)
| Loaded (r : operational_error + OperationalExecutionContext)
| Resolved (r : operational_error + RoleExecutionGrounding)
| ResolvedHandler (r : operational_error + (RoleExecutionGrounding * MessageHandlerGrounding))
| SawDeadline (r : operational_error + Time)
| Asked (c : boundary_call) (r : operational_error + ExternalExecutionObservation)
| Recorded (invocation : WorkInvocation) (items : list ExecutionEvidence) (r : operational_error + list EvidenceRef)
| Stored (id : UUIDv7) (content : string) (r : operational_error + BlobReceipt)
| Sent (c : KernelCommand) (r : CommandReceipt * option operational_error).

Definition respond {A} (p : calls A) (r : reply) : option (exchange * calls A) :=
  match p, r with
  | AskContext k, RepContext ctx => Some (SawContext ctx, k ctx)
  | AskClock k, RepClock now => Some (SawClock now, k now)
  | LoadByEvent _ k, RepExecution r => Some (Loaded r, k r)
  | LoadInvocation _ k, RepExecution r => Some (Loaded r, k r)
  | ResolveRole _ k, RepRole r => Some (Resolved r, k r)
  | ResolveHandler _ _ k, RepHandler r => Some (ResolvedHandler r, k r)
  | EffectiveDeadline _ _ k, RepDeadline r => Some (SawDeadline r, k r)
  | AskBoundary c k, RepObservation r => Some (Asked c r, k r)
  | RecordEvidence i items k, RepReferences r => Some (Recorded i items r, k r)
  | PutBlob id content k, RepBlob r => Some (Stored id content r, k r)
  | HandleCommand c _ k, RepReceipt r => Some (Sent c r, k r)
  | _, _ => None
  end.

Fixpoint converse {A} (p : calls A) (replies : list reply) : option (list exchange * calls A) :=
  match replies with
  | [] => Some ([], p)
  | r :: replies =>
    '(e, p) ← respond p r;
    '(log, p) ← converse p replies;
    Some (e :: log, p)
  end.

(** [P log c] holds whenever the boundary is asked [c] after the exchanges [log]. *)
Fixpoint asks_only {A} (P : list exchange -> boundary_call -> Prop) (log : list exchange) (p : calls A) : Prop :=
  match p with
  | Done _ => True
  | AskContext k => forall ctx, asks_only P (log ++ [SawContext ctx]) (k ctx)
  | AskClock k => forall now, asks_only P (log ++ [SawClock now]) (k now)
  | LoadByEvent _ k => forall r, asks_only P (log ++ [Loaded r]) (k r)
  | LoadInvocation _ k => forall r, asks_only P (log ++ [Loaded r]) (k r)
  | ResolveRole _ k => forall r, asks_only P (log ++ [Resolved r]) (k r)
  | ResolveHandler _ _ k => forall r, asks_only P (log ++ [ResolvedHandler r]) (k r)
  | EffectiveDeadline _ _ k => forall r, asks_only P (log ++ [SawDeadline r]) (k r)
  | AskBoundary c k => P log c /\ forall r, asks_only P (log ++ [Asked c r]) (k r)
  | RecordEvidence i items k => forall r, asks_only P (log ++ [Recorded i items r]) (k r)
  | PutBlob id content k => forall r, asks_only P (log ++ [Stored id content r]) (k r)
  | HandleCommand c _ k => forall r, asks_only P (log ++ [Sent c r]) (k r)
  end.

Lemma asks_only_step {A} P log (p : calls A) r e p' :
  asks_only P log p -> respond p r = Some (e, p') -> asks_only P (log ++ [e]) p' /\ forall c o, e = Asked c o -> P log c.
Proof.
  intros Hp H. destruct p, r; try discriminate H; cbn in H; simplify_eq; cbn in Hp; split; auto; try (by intros c o Heq); try apply Hp.
  intros c' o [= <- <-]. apply Hp.
Qed.

Lemma asks_only_converse {A} P log (p : calls A) replies said p' :
  asks_only P log p -> converse p replies = Some (said, p') ->
  forall before c o after, said = before ++ Asked c o :: after -> P (log ++ before) c.
Proof.
  revert log p said. induction replies as [|r replies IH]; intros log p said Hp H before c o after Hs; cbn in H.
  - simplify_eq. by destruct before.
  - destruct (respond p r) as [[e p1]|] eqn:E; [|done]. cbn in H.
    destruct (converse p1 replies) as [[said1 p2]|] eqn:E2; [|done]. cbn in H. simplify_eq.
    destruct (asks_only_step P log p r e p1 Hp E) as [Hp1 He]. destruct before as [|x before]; cbn in *; simplify_eq.
    + rewrite app_nil_r. by eapply He.
    + eapply IH in Hp1; [|done..]. by rewrite <- app_assoc in Hp1.
Qed.

(** ** What the boundary is asked *)

Section runs.
Context (schema_accepts : string -> string -> bool) (schema_error : string -> string -> string).
Context (resolves_handlers extends_deadlines : bool) (policy : OperationalExecutionPolicy).

Definition builds (current : OperationalExecutionContext) (brief : ExecutionBrief) (request : Digest) : Prop :=
  exists grounding handler,
    BuildExecutionBriefWithHandler schema_accepts current grounding handler (opp_MaximumBriefBytes policy) = inr (brief, request).

(** A call about a start: from a claimed context that was valid at a reading of
    the clock. *)
Definition start_justified (log : list exchange) (brief : ExecutionBrief) (request : Digest) : Prop :=
  exists current now, Loaded (inr current) ∈ log /\ SawClock now ∈ log /\
    iv_State (oec_Invocation current) = InvocationClaimed /\ OperationalExecutionContext_Validate current now = true /\
    builds current brief request.

(** A call about a started execution: the recorded conversation and request. *)
Definition started_justified (log : list exchange) (brief : ExecutionBrief) (conversation : string) (request current : Digest)
    (why : WorkInvocation -> Prop) : Prop :=
  exists c, Loaded (inr c) ∈ log /\ iv_State (oec_Invocation c) = InvocationStarted /\
    iv_ConversationID (oec_Invocation c) = Some conversation /\ iv_RequestDigest (oec_Invocation c) = Some request /\
    builds c brief current /\ why (oec_Invocation c).

Definition asked_with_cause (log : list exchange) (c : boundary_call) : Prop :=
  match c with
  | BoundaryStart brief request | BoundaryReconcileStart brief request => start_justified log brief request
  | BoundaryInspect brief conversation request =>
    started_justified log brief conversation request request (fun i => iv_CancellationRequestedAt i = None)
  | BoundaryCancel brief conversation request =>
    started_justified log brief conversation request request (fun i =>
      iv_CancellationRequestedAt i <> None \/
      exists now, SawClock now ∈ log /\ Before now (iv_DeadlineAt i) = false)
  | BoundaryReconcileSuperseded brief conversation original replacement =>
    original <> replacement /\ started_justified log brief conversation original replacement (fun _ => True)
  end.

Abbreviation justified := (asks_only asked_with_cause).

Lemma in_log {x : exchange} {log y} : x ∈ log -> x ∈ log ++ [y].
Proof. intros H. apply elem_of_app. by left. Qed.
Lemma last_in_log (x : exchange) log : x ∈ log ++ [x].
Proof. apply elem_of_app. right. by left. Qed.
#[local] Hint Resolve in_log last_in_log : core.

Definition extends (log log' : list exchange) : Prop := forall x, x ∈ log -> x ∈ log'.

Lemma justified_apply {A} log c (k : _ -> calls A) :
  (forall log' r, extends log log' -> justified log' (k r)) -> justified log (apply policy c k).
Proof.
  intros H. unfold apply. cbn [asks_only]. intros [receipt [e|]]; [apply H; intros x; auto|].
  case_match; apply H; intros x; auto.
Qed.

Lemma justified_recordTerminal log current o outcome : justified log (recordTerminalObservation policy current o outcome).
Proof.
  unfold recordTerminalObservation. case_match; [done|]. cbn [asks_only]. intros [e|references]; [done|].
  case_match; [done|]. case_match; [|done]. cbn [asks_only]. intros now. apply justified_apply. intros log' [receipt [e|]] _; done.
Qed.

Lemma justified_buildBrief {A} log current (k : _ -> calls A) :
  (forall log', extends log log' -> forall e, justified log' (k (inl e))) ->
  (forall log', extends log log' -> forall brief request, builds current brief request ->
    justified log' (k (inr (brief, request)))) ->
  justified log (buildBrief schema_accepts schema_error resolves_handlers policy current k).
Proof.
  intros Hl Hr. unfold buildBrief, built. case_match.
  - case_match; [by apply Hl; intros x|]. cbn [asks_only]. intros [e|[grounding handler]]; [by apply Hl; intros x; auto|].
    destruct (BuildExecutionBriefWithHandler _ _ _ _ _) as [e|[brief request]] eqn:E; [by apply Hl; intros x; auto|].
    apply Hr; [intros x; by auto|]. by exists grounding, (Some handler).
  - cbn [asks_only]. intros [e|grounding]; [by apply Hl; intros x; auto|].
    destruct (BuildExecutionBriefWithHandler _ _ _ _ _) as [e|[brief request]] eqn:E; [by apply Hl; intros x; auto|].
    apply Hr; [intros x; by auto|]. by exists grounding, None.
Qed.

Lemma justified_reload log invocation result answer k :
  (forall log' current, extends log log' -> Loaded (inr current) ∈ log' -> justified log' (k current)) ->
  justified log (reload invocation result answer k).
Proof.
  intros H. unfold reload. destruct answer as [receipt [e|]]; [done|]. cbn [asks_only]. intros [e|current]; [done|].
  apply H; [intros x|]; auto.
Qed.

Lemma start_justified_extends log log' brief request : extends log log' -> start_justified log brief request -> start_justified log' brief request.
Proof. intros He (c & now & H1 & H2 & H3). exists c, now. auto. Qed.

Lemma justified_startOrReconcile {A} log brief request claimedThisCall (k : _ -> calls A) :
  start_justified log brief request -> (forall log' r, extends log log' -> justified log' (k r)) ->
  justified log (startOrReconcile brief request claimedThisCall k).
Proof.
  intros Hs Hk.
  assert (forall log', extends log log' -> justified log' (reconcile_start brief request k)) as Hr.
  { intros log' He. unfold reconcile_start. cbn [asks_only asked_with_cause]. split; [by eapply start_justified_extends|].
    intros [e|o]; [apply Hk; intros x; auto|]. case_match; [apply Hk; intros x; auto|]. cbn [asks_only asked_with_cause].
    split; [eapply start_justified_extends; [|exact Hs]; intros x; auto|]. intros [e|o']; apply Hk; intros x; auto. }
  unfold startOrReconcile. case_match; [apply Hr; by intros x|]. cbn [asks_only asked_with_cause]. split; [done|].
  intros [e|o]; [apply Hr|apply Hk]; intros x; auto.
Qed.

Section loop.
Context (again : bool -> OperationalExecutionContext -> calls processed).
Context (Hagain : forall log claimedThisCall current, Loaded (inr current) ∈ log -> justified log (again claimedThisCall current)).

Lemma justified_authorized log intent current claimedThisCall :
  justified log (process_authorized policy intent current claimedThisCall again).
Proof.
  unfold process_authorized. cbn [asks_only]. intros now. case_match.
  - unfold expire. cbn [asks_only]. intros now'. apply justified_apply. intros log' r _. apply justified_reload. auto.
  - cbn [asks_only]. intros now'. case_match; [done|]. unfold claim. cbn [asks_only]. intros now''.
    apply justified_apply. intros log' r _. apply justified_reload. auto.
Qed.

Lemma justified_observed log current brief request claimedThisCall o :
  justified log (process_observed schema_accepts policy current brief request claimedThisCall again o).
Proof.
  unfold process_observed. case_match; [done|]. case_match; [apply justified_recordTerminal|]. case_match; [|done].
  case_match; [done|]. unfold recordStarted. case_match; [|done]. cbn [asks_only]. intros now.
  apply justified_apply. intros log' r _. apply justified_reload. intros log2 current' _ Hin.
  case_match; [apply justified_recordTerminal|by apply Hagain].
Qed.

Lemma justified_known_failure log current cause :
  justified log (recordKnownStartFailure schema_accepts schema_error resolves_handlers policy current cause).
Proof.
  unfold recordKnownStartFailure. apply justified_buildBrief; intros; apply justified_recordTerminal.
Qed.

Lemma justified_claimed log current claimedThisCall :
  Loaded (inr current) ∈ log -> iv_State (oec_Invocation current) = InvocationClaimed ->
  justified log (process_claimed schema_accepts schema_error resolves_handlers policy current claimedThisCall again).
Proof.
  intros Hin Hst. unfold process_claimed. cbn [asks_only]. intros now. case_match eqn:Hv; [apply justified_known_failure|].
  apply negb_false_iff in Hv. apply justified_buildBrief; [intros; apply justified_known_failure|].
  intros log' He brief request Hb. apply justified_startOrReconcile.
  - exists current, now. split_and!; auto.
  - intros log2 [e|o] _; [done|]. apply justified_observed.
Qed.
End loop.

Lemma justified_effectiveDeadline {A} log invocation (k : _ -> calls A) :
  (forall log' r, extends log log' -> (forall d, r = inr d -> Before d (iv_DeadlineAt invocation) = false) -> justified log' (k r)) ->
  justified log (effectiveDeadline extends_deadlines invocation k).
Proof.
  intros H. unfold effectiveDeadline. case_match.
  - apply H; [by intros x|]. intros d [= <-]. unfold Before. lia.
  - cbn [asks_only]. intros now [e|d]; [apply H; [intros x; auto|done]|]. case_match eqn:E; apply H; try (intros x; by auto); try done.
    by intros d' [= <-].
Qed.

Lemma justified_started log current :
  Loaded (inr current) ∈ log -> iv_State (oec_Invocation current) = InvocationStarted ->
  justified log (process_started schema_accepts schema_error resolves_handlers extends_deadlines policy current).
Proof.
  intros Hin Hst. unfold process_started. apply justified_buildBrief; [done|]. intros log1 H1 brief request Hb.
  destruct (iv_ConversationID (oec_Invocation current)) as [conversation|] eqn:Hconv; [|done].
  destruct (iv_RequestDigest (oec_Invocation current)) as [recorded|] eqn:Hreq; [|done].
  apply justified_effectiveDeadline. intros log2 [e|deadline] H2 Hd; [done|]. cbn [asks_only]. intros now.
  assert (forall k : operational_error + ExternalExecutionObservation -> calls processed, (forall log r, justified log (k r)) ->
    justified (log2 ++ [SawClock now])
      (observe_started (oec_Invocation current) brief conversation recorded request (negb (Before now deadline)) k)) as Hobs.
  { intros k Hk. unfold observe_started. case_match eqn:Eq.
    - cbn [asks_only asked_with_cause]. split; [|intros [e|o]; apply Hk]. split; [by bprop Eq|].
      exists current. split_and!; auto.
    - bprop Eq. subst recorded. destruct (_ || _) eqn:Ec; cbn [asks_only asked_with_cause]; (split; [|intros r; apply Hk]);
        exists current; (split_and!; [by auto..|]).
      + apply orb_true_iff in Ec as [Ec|Ec]; [left|right].
        * by destruct (iv_CancellationRequestedAt (oec_Invocation current)).
        * exists now. split; [by auto|]. specialize (Hd deadline eq_refl). unfold Before in *. lia.
      + apply orb_false_iff in Ec as [Ec _]. by destruct (iv_CancellationRequestedAt (oec_Invocation current)). }
  apply Hobs. intros log3 [e|o]; [done|]. case_match; [done|]. case_match; [done|]. case_match; apply justified_recordTerminal.
Qed.

Lemma justified_loop n intent log claimedThisCall current :
  Loaded (inr current) ∈ log ->
  justified log (process_loop schema_accepts schema_error resolves_handlers extends_deadlines policy n intent claimedThisCall current).
Proof.
  revert log claimedThisCall current. induction n as [|n IH]; intros log claimed current Hin; [done|]. cbn [process_loop].
  case_match; [done|]. case_match; [by apply justified_authorized|]. case_match eqn:E2; [bprop E2; by apply justified_claimed|].
  case_match eqn:E3; [bprop E3; by apply justified_started|done].
Qed.

Lemma justified_Process intent :
  justified [] (Process schema_accepts schema_error resolves_handlers extends_deadlines policy intent).
Proof.
  unfold Process. cbn [asks_only]. intros [e|]; [done|]. case_match; [done|]. cbn [asks_only]. intros [e|current]; [done|].
  case_match; [done|]. apply justified_loop. auto.
Qed.

(** [C8] The execution boundary is only asked with cause. In every run of
    [Process], whatever its collaborators answer: an external execution is started,
    or its start reconciled, only for a claimed invocation whose context passed its
    validation at a reading of the clock and whose brief was built from that
    context; it is inspected, cancelled or reconciled only under the conversation
    and the request recorded when it started, and cancelled only when cancellation
    was requested or the clock had reached the deadline. *)
Theorem boundary_calls_justified intent replies log p before c o after :
  converse (Process schema_accepts schema_error resolves_handlers extends_deadlines policy intent) replies = Some (log, p) ->
  log = before ++ Asked c o :: after ->
  asked_with_cause before c.
Proof. intros H Hs. exact (asks_only_converse _ [] _ _ _ _ (justified_Process intent) H before c o after Hs). Qed.

End runs.

(** ** A sample execution *)

Definition sample_granted : QualifiedAssignmentAuthorization :=
  mkQualifiedAssignmentAuthorization (uid "8") (uid "a") 4 (Binding first_profile) RouteBoundedExecution RouteBoundedExecution
    actor_a (uid "7") 1 (dig "c") (dig "d")
    (mkAssignmentQualificationReceipt (uid "1") (dig "1") (dig "2") (dig "c") RouteBoundedExecution "builder"
       QualificationPass sample_time)
    1 (dig "6") [mkHardConstraintResult "privacy" ConstraintPass [uid "2"]] ["qualified"] [uid "2"] (uid "f").

Definition one_implementation : PurposeCounters := <[PurposeImplementation := 1]> zeroPurposeCounters.

Definition sample_authorized : OperationalExecutionContext :=
  {| oec_Invocation := sample_invocation; oec_AdmittedMessage := None; oec_RetryOfConversationID := None;
     oec_Task := sample_task;
     oec_Budget := sample_account <| ba_ModelInvocationsUsed := 2 |>
                                  <| ba_PurposeUsed := <[PurposeReview := 1]> one_implementation |>;
     oec_TaskBudget := sample_binding <| tb_ModelInvocationsUsed := 1 |> <| tb_PurposeUsed := one_implementation |>;
     oec_Scope := sample_scope; oec_Profile := mkProfileSnapshot first_profile (uid "f") 4; oec_Assignment := sample_granted;
     oec_CurrentExecution := mkExec (uid "7") 1;
     oec_Specification := mkTaskExecutionSpecification (uid "a") (uid "4") (dig "a") (uid "6") "Title" "Text" ["works"] [];
     oec_Evidence := [mkEvidence (uid "e") (dig "e"); mkEvidence (uid "2") (dig "2")]; oec_RecoveryDirective := None;
     oec_AuthorizationEventSeen := true; oec_ParentEventSeen := true |}.

Definition sample_grounding : RoleExecutionGrounding :=
  mkRoleExecutionGrounding actor_a "builder" "1" (dig "a") ["build"] ["repository.edit"; "repository.read"] "Build it." "".

Definition sample_claimed : OperationalExecutionContext :=
  sample_authorized <| oec_Invocation := sample_invocation <| iv_State := InvocationClaimed |> <| iv_ClaimID := Some (uid "c") |>
                                           <| iv_ClaimedAt := Some (later_time 5) |> |>.

Definition sample_intent : OutboxIntent := mkIntent (uid "c") (iv_AuthorizationEventID sample_invocation) "WORK_INVOCATION_AUTHORIZED".

Definition sample_coordinator : OperationalExecutionPolicy :=
  mkOperationalPolicy 1000 65536 "teams" 1 (mkPrincipal PrincipalService "teams") (mkPrincipal PrincipalPolicy "expiry")
    (dc_Provenance EvaluatorLaws.sample_context).

(** A start that is reconciled: the run asks the boundary once. *)
Definition sample_conversation : option (list exchange * calls processed) :=
  converse (Process (fun _ _ => true) (fun _ _ => "") true false sample_coordinator sample_intent)
    [RepContext None; RepExecution (inr sample_claimed); RepClock (later_time 10); RepRole (inr sample_grounding);
     RepObservation (inl (ErrCollaborator "unreachable"))].

Definition reconciles (run : option (list exchange * calls processed)) : bool :=
  match run with
  | Some ([_; _; _; _; Asked (BoundaryReconcileStart _ _) _], Done (_, Some ErrExternalOutcomeUnknown)) => true
  | _ => false
  end.
Example sample_conversation_reconciles : reconciles sample_conversation = true.
Proof. vm_compute. reflexivity. Qed.

Lemma boundary_calls_justified_witness :
  exists log brief request, start_justified (fun _ _ => true) sample_coordinator log brief request.
Proof.
  pose proof sample_conversation_reconciles as H. destruct sample_conversation as [[log p]|] eqn:E; [|done].
  destruct log as [|e1 [|e2 [|e3 [|e4 [|[] [|]]]]]]; try discriminate H; destruct c; try discriminate H.
  exists [e1; e2; e3; e4], brief, request.
  exact (boundary_calls_justified _ _ _ _ _ _ _ _ _ [e1; e2; e3; e4] (BoundaryReconcileStart brief request) r [] E eq_refl).
Defined.
