(* ===== verification/OperationalService.v ===== *)
(** * The coordinator with the kernel

    [Process] served by a store that holds one invocation, by the kernel's own
    policy for the commands, and by a boundary whose start is observed to end. The
    invocation runs from AUTHORIZED to the outcome observed. *)

From S2P Require Import Prelude GoText GoTime GoJson GoMarshal GoJsonLaws GoMarshalLaws GoTimeLaws Types Samples.
From S2P Require Import Sha256 Payload Envelope State WorkProfile Assignment WorkInvocation InvocationLaws Fingerprint Provenance.
From S2P Require Import Escalation EvidenceLaws Snapshot HumanPolicy WorkPolicy EvaluatorLaws MemoryStore.
From S2P Require Import OperationalExecution OperationalCoordinator OperationalLaws OperationalRuns.

#[local] Opaque UUIDv7_Valid ActorFQN_Valid Digest_Valid enc_fixed.

(** ** Serving a program *)

Record World := mkWorld {
  wd_Current : OperationalExecutionContext;
  wd_Readings : nat;
  wd_Decisions : nat;
  wd_Asked : list boundary_call
}.
#[export] Instance eta_World : Eta World := fun r => mkWorld (wd_Current r) (wd_Readings r) (wd_Decisions r) (wd_Asked r).

Section service.
Context (clock : nat -> Time) (base : Snapshot) (decisions : nat -> DecisionContext).
Context (grounding : RoleExecutionGrounding) (handler : option MessageHandlerGrounding).
Context (boundary : boundary_call -> operational_error + ExternalExecutionObservation).
Context (recorder : list ExecutionEvidence -> list EvidenceRef).

(** What the store gives the kernel for a command on the invocation. *)
Definition snapshot_of (i : WorkInvocation) : Snapshot :=
  base <| sn_Exists := true |> <| sn_Revision := iv_Revision i |> <| sn_WorkInvocations := {[ WorkInvocation_Ref i := i ]} |>.

Definition receipt_of (c : KernelCommand) (code : OutcomeCode) (reason : string) (context : DecisionContext) : CommandReceipt :=
  mkReceipt ContractIdentity (cmd_CommandID c) (cmd_CommandType c) (cmd_Target c) code reason (code == OutcomeApplied) None
    (if code == OutcomeApplied then [dc_EventID context] else []) (dc_ReceivedAt context) (dc_DecidedAt context)
    (dc_ProvenanceDigest context).

(** The kernel's policy decides; the event it commits is applied to the invocation. *)
Definition handle (w : World) (c : KernelCommand) : World * CommandReceipt :=
  let i := oec_Invocation (wd_Current w) in
  let context := decisions (wd_Decisions w) in
  let w := w <| wd_Decisions := S (wd_Decisions w) |> in
  match evaluatePhase4Command c (snapshot_of i) context, invocationEventType (cmd_CommandType c) with
  | Some (inr _), Some type =>
    let next := fst (ApplyWorkInvocationEvent i (next_event c (snapshot_of i) context type)) in
    (w <| wd_Current := (wd_Current w) <| oec_Invocation := next |> |>, receipt_of c OutcomeApplied "APPLIED" context)
  | Some (inl (code, reason)), _ => (w, receipt_of c code reason context)
  | _, _ => (w, receipt_of c OutcomeRejectedPolicy "UNSUPPORTED" context)
  end.

Fixpoint serve {A} (w : World) (p : calls A) : World * A :=
  match p with
  | Done a => (w, a)
  | AskContext k => serve w (k None)
  | AskClock k => serve (w <| wd_Readings := S (wd_Readings w) |>) (k (clock (wd_Readings w)))
  | LoadByEvent _ k | LoadInvocation _ k => serve w (k (inr (wd_Current w)))
  | ResolveRole _ k => serve w (k (inr grounding))
  | ResolveHandler _ _ k =>
    serve w (k (match handler with Some h => inr (grounding, h) | None => inl (ErrCollaborator "no handler") end))
  | EffectiveDeadline i _ k => serve w (k (inr (iv_DeadlineAt i)))
  | AskBoundary c k => serve (w <| wd_Asked := wd_Asked w ++ [c] |>) (k (boundary c))
  | RecordEvidence _ items k => serve w (k (inr (recorder items)))
  | PutBlob _ _ k => serve w (k (inl (ErrCollaborator "no blobs")))
  | HandleCommand c _ k => let '(w, receipt) := handle w c in serve w (k (receipt, None))
  end.

(** ** Commands the kernel accepts *)

(** The invocation after an event of its life. *)
Definition advanced (i j : WorkInvocation) (event : UUIDv7) : WorkInvocation :=
  j <| iv_Revision := u64 (iv_Revision i + 1) |> <| iv_LastEventID := event |>.

Lemma handle_accepted w c type j :
  let i := oec_Invocation (wd_Current w) in
  let context := decisions (wd_Decisions w) in
  cmd_Target c = WorkInvocation_Ref i -> invocationEventType (cmd_CommandType c) = Some type ->
  evaluatePhase4Command c (snapshot_of i) context = Some (invocation_policy c (snapshot_of i) context type) ->
  WorkInvocation_Valid i = true -> Terminal (iv_State i) = false ->
  invocation_case i (next_event c (snapshot_of i) context type) = Some j ->
  WorkInvocation_Valid (advanced i j (dc_EventID context)) = true ->
  handle w c =
  (w <| wd_Decisions := S (wd_Decisions w) |>
     <| wd_Current := (wd_Current w) <| oec_Invocation := advanced i j (dc_EventID context) |> |>,
   receipt_of c OutcomeApplied "APPLIED" context).
Proof.
  intros i context Ht Hk He Hv Hn Hj Hw.
  assert (ApplyWorkInvocationEvent i (next_event c (snapshot_of i) context type) = (advanced i j (dc_EventID context), true)) as HA.
  { unfold ApplyWorkInvocationEvent. rewrite Hj, Hn. cbn [ev_Aggregate ev_AggregateRevision next_event bare_event ev_EventID].
    rewrite Ht, !neqb_refl. cbn [orb]. by rewrite <- Hw. }
  unfold handle. fold i context. rewrite He, Hk. unfold invocation_policy.
  replace (sn_WorkInvocations (snapshot_of i) !! cmd_Target c) with (Some i) by (rewrite Ht; symmetry; apply lookup_singleton_eq).
  rewrite Hv. cbn [negb]. rewrite HA. reflexivity.
Qed.

(** ** A run to the end *)

Context (schema_accepts : string -> string -> bool) (schema_error : string -> string -> string).
Context (resolves_handlers extends_deadlines : bool) (policy : OperationalExecutionPolicy) (intent : OutboxIntent).

(** The collaborators do their part: the context stays valid, the brief is built,
    the start is observed to end, and the evidence is recorded. *)
Record cooperative (c : OperationalExecutionContext) (brief : ExecutionBrief) (request : Digest)
    (o : ExternalExecutionObservation) : Prop := {
  cp_valid : forall n, OperationalExecutionContext_Validate c (clock n) = true;
  cp_clock : forall n, printable (clock n) /\ IsZero (clock n) = false;
  cp_events : forall n, UUIDv7_Valid (dc_EventID (decisions n)) = true;
  cp_state : iv_State (oec_Invocation c) = InvocationAuthorized;
  cp_revision : 0 < iv_Revision (oec_Invocation c) < u64_mod - 3;
  cp_epoch : is_u64 (ex_FencingEpoch (iv_Execution (oec_Invocation c)));
  cp_handler : match iv_HandlerDispatch (oec_Invocation c) with
               | Some _ => resolves_handlers = true /\ handler <> None
               | None => handler = None
               end;
  cp_brief : BuildExecutionBriefWithHandler schema_accepts c grounding handler (opp_MaximumBriefBytes policy) = inr (brief, request);
  cp_start : boundary (BoundaryStart brief request) = inr o;
  cp_matches : externalObservationMatches brief request o = true;
  cp_ended : obs_State o ∈ [ExternalSucceeded; ExternalFailed; ExternalTimedOut; ExternalCancelled];
  cp_conversation : obs_ConversationID o <> "" /\ utf8 (obs_ConversationID o);
  cp_result : validateHandlerObservation schema_accepts brief o = o;
  cp_outcome : contains (iv_AllowedTerminalOutcomes (oec_Invocation c)) (terminalOutcome (obs_State o)) = true;
  cp_evidence : forall items, references_valid (merge_sort evidence_le (recorder items)) = true;
  cp_consumer : utf8 (opp_ConsumerID policy);
  cp_intent : UUIDv7_Valid (oi_IntentID intent) = true /\ UUIDv7_Valid (oi_EventID intent) = true;
  cp_kind : oi_Kind intent = workInvocationOutboxKind;
  cp_event : iv_AuthorizationEventID (oec_Invocation c) = oi_EventID intent
}.

(** What the life of an invocation does not change. *)
Definition permanent (i : WorkInvocation) : WorkInvocation :=
  i <| iv_Revision := 0 |> <| iv_LastEventID := "" |> <| iv_State := "" |> <| iv_ClaimID := None |> <| iv_ClaimedAt := None |>
    <| iv_ConversationID := None |> <| iv_RequestDigest := None |> <| iv_StartedAt := None |>
    <| iv_TerminalOutcome := None |> <| iv_Retryable := None |> <| iv_TerminalEvidenceIDs := [] |> <| iv_OutputDigest := None |>
    <| iv_FinishedAt := None |>.

(** Invocations of one grant, at revisions that can still be followed. *)
Record same_grant (i j : WorkInvocation) : Prop := {
  sg_permanent : permanent j = permanent i;
  sg_revision : 0 < iv_Revision j < u64_mod;
  sg_event : UUIDv7_Valid (iv_LastEventID j) = true
}.

Lemma permanent_projection {A} (f : WorkInvocation -> A) i j :
  (forall i, f i = f (permanent i)) -> permanent j = permanent i -> f j = f i.
Proof. intros Hf H. by rewrite (Hf j), (Hf i), H. Qed.

Lemma valid_elsewhere i revision event :
  iv_Revision i <> 0 -> revision <> 0 -> UUIDv7_Valid (iv_LastEventID i) = true -> UUIDv7_Valid event = true ->
  WorkInvocation_Valid (i <| iv_Revision := revision |> <| iv_LastEventID := event |>) = WorkInvocation_Valid i.
Proof.
  intros H1 H2 H3 H4. unfold WorkInvocation_Valid.
  cbn -[bool_decide WorkProfileBinding_Valid WorkPurpose_Valid ExecutionTuple_Valid IsZero llen opt_all].
  rewrite H3, H4, (bool_decide_false (iv_Revision i = 0)), (bool_decide_false (revision = 0)) by done. reflexivity.
Qed.

Lemma valid_revision i : WorkInvocation_Valid i = true -> iv_Revision i <> 0 /\ UUIDv7_Valid (iv_LastEventID i) = true.
Proof.
  unfold WorkInvocation_Valid. intros H. destruct (_ || _) eqn:G in H; [discriminate H|]. bprop G. split_ands. done.
Qed.

Lemma same_grant_valid i j : same_grant i j -> WorkInvocation_Valid i = true -> WorkInvocation_Valid j = true.
Proof.
  intros [Hp Hr He] Hv. destruct (valid_revision i Hv) as [H1 H2].
  rewrite <- (valid_elsewhere j 1 (iv_LastEventID j)), <- Hv, <- (valid_elsewhere i 1 (iv_LastEventID j)) by (done || lia).
  by apply (permanent_projection (fun k => WorkInvocation_Valid (k <| iv_Revision := 1 |> <| iv_LastEventID := iv_LastEventID j |>))).
Qed.

Lemma same_grant_advanced i j k event :
  same_grant i j -> permanent k = permanent j -> iv_Revision j < u64_mod - 1 -> UUIDv7_Valid event = true ->
  same_grant i (advanced j k event).
Proof.
  intros [Hp Hr _] Hk Hlt He. split.
  - change (permanent (advanced j k event)) with (permanent k). by rewrite Hk.
  - cbn. unfold u64. rewrite Z.mod_small; lia.
  - done.
Qed.

(** The context of an invocation of one grant stays valid. *)
Lemma validate_elsewhere c i revision event now :
  WorkInvocation_Valid (i <| iv_Revision := revision |> <| iv_LastEventID := event |>) = WorkInvocation_Valid i ->
  OperationalExecutionContext_Validate (c <| oec_Invocation := i <| iv_Revision := revision |> <| iv_LastEventID := event |> |>) now =
  OperationalExecutionContext_Validate (c <| oec_Invocation := i |>) now.
Proof.
  set (k := i <| iv_Revision := revision |> <| iv_LastEventID := event |>). intros H.
  unfold OperationalExecutionContext_Validate, task_current. change (oec_Invocation (c <| oec_Invocation := k |>)) with k.
  change (oec_Invocation (c <| oec_Invocation := i |>)) with i. rewrite H. reflexivity.
Qed.

Lemma validate_invocation c now :
  OperationalExecutionContext_Validate c now = true -> WorkInvocation_Valid (oec_Invocation c) = true.
Proof.
  unfold OperationalExecutionContext_Validate. destruct (task_current c) eqn:E; [intros _|done]. unfold task_current in E.
  bprop E. split_ands. done.
Qed.

Lemma same_grant_validate c j now :
  same_grant (oec_Invocation c) j ->
  OperationalExecutionContext_Validate c now = true -> OperationalExecutionContext_Validate (c <| oec_Invocation := j |>) now = true.
Proof.
  intros Hj Hv. pose proof (validate_invocation c now Hv) as Hi. pose proof (same_grant_valid _ _ Hj Hi) as Hw.
  destruct (valid_revision _ Hi) as [H1 H2], (valid_revision _ Hw) as [H3 H4], Hj as [Hp _ _].
  rewrite <- Hv, <- (validate_elsewhere c j 1 (iv_LastEventID j)) by (by apply valid_elsewhere).
  replace c with (c <| oec_Invocation := oec_Invocation c |>) at 2 by (by destruct c).
  rewrite <- (validate_elsewhere c (oec_Invocation c) 1 (iv_LastEventID j)) by (by apply valid_elsewhere).
  by apply (permanent_projection (fun k => OperationalExecutionContext_Validate
    (c <| oec_Invocation := k <| iv_Revision := 1 |> <| iv_LastEventID := iv_LastEventID j |> |>) now)).
Qed.

Lemma same_grant_brief c j :
  same_grant (oec_Invocation c) j ->
  BuildExecutionBriefWithHandler schema_accepts (c <| oec_Invocation := j |>) grounding handler (opp_MaximumBriefBytes policy) =
  BuildExecutionBriefWithHandler schema_accepts c grounding handler (opp_MaximumBriefBytes policy).
Proof.
  intros [Hp _ _]. replace c with (c <| oec_Invocation := oec_Invocation c |>) at 2 by (by destruct c).
  by apply (permanent_projection (fun k => BuildExecutionBriefWithHandler schema_accepts (c <| oec_Invocation := k |>)
    grounding handler (opp_MaximumBriefBytes policy))).
Qed.

(** ** The steps of the run *)

(** A command that moves the invocation to [j], within its grant. *)
Definition kernel_accepts (w : World) (c : KernelCommand) (j : WorkInvocation) : Prop :=
  let i := oec_Invocation (wd_Current w) in
  exists w' receipt event, handle w c = (w', receipt) /\ rc_OutcomeCode receipt = OutcomeApplied /\ wd_Asked w' = wd_Asked w /\
    wd_Current w' = (wd_Current w) <| oec_Invocation := advanced i j event |> /\
    UUIDv7_Valid event = true.

Lemma accepted_step w c type j :
  let i := oec_Invocation (wd_Current w) in
  (forall n, UUIDv7_Valid (dc_EventID (decisions n)) = true) ->
  cmd_Target c = WorkInvocation_Ref i ->
  (cmd_CommandType c, type) ∈ [("tekroo.command.work-invocation.claim", "tekroo.event.work-invocation.claimed");
     ("tekroo.command.work-invocation.record-started", "tekroo.event.work-invocation.started");
     ("tekroo.command.work-invocation.record-terminal", "tekroo.event.work-invocation.terminal-recorded")] ->
  WorkInvocation_Valid i = true -> Terminal (iv_State i) = false -> 0 < iv_Revision i < u64_mod - 1 ->
  invocation_case i (next_event c (snapshot_of i) (decisions (wd_Decisions w)) type) = Some j -> permanent j = permanent i ->
  kernel_accepts w c j.
Proof.
  intros i He Ht Hc Hv Hn Hr Hj Hp. assert (same_grant i (advanced i j (dc_EventID (decisions (wd_Decisions w))))) as Hg.
  { apply same_grant_advanced; [|done|lia|done]. split; [done|lia|]. by apply valid_revision in Hv as [_ ?]. }
  assert (forall s context, evaluatePhase4Command c s context = Some (invocation_policy c s context type) /\
    invocationEventType (cmd_CommandType c) = Some type) as Hk.
  { intros s context. unfold evaluatePhase4Command. rewrite !elem_of_cons, elem_of_nil in Hc.
    destruct Hc as [[= -> ->]|[[= -> ->]|[[= -> ->]|[]]]]; by split. }
  eexists _, _, _. split.
  - apply (handle_accepted w c type j); try done; [apply (Hk base (decisions 0))|apply Hk|by eapply same_grant_valid].
  - by split_and!.
Qed.

Lemma serve_apply {A} w c j (k : _ -> calls A) :
  kernel_accepts w c j ->
  exists w' receipt event, serve w (apply policy c k) = serve w' (k (receipt, None)) /\ wd_Asked w' = wd_Asked w /\
    wd_Current w' = (wd_Current w) <| oec_Invocation := advanced (oec_Invocation (wd_Current w)) j event |> /\
    UUIDv7_Valid event = true.
Proof.
  intros (w' & receipt & event & Hh & Hr & Ha & Hw & He). exists w', receipt, event. split; [|done].
  cbn [apply serve]. rewrite Hh. cbn [serve]. by rewrite Hr.
Qed.

Section run.
Context (c : OperationalExecutionContext) (brief : ExecutionBrief) (request : Digest) (o : ExternalExecutionObservation).
Context (Hc : cooperative c brief request o).
#[local] Abbreviation i0 := (oec_Invocation c).
#[local] Abbreviation outcome := (terminalOutcome (obs_State o)).

(** An invocation of the grant, claimed by the intent, with room for more events. *)
Record at_stage (i : WorkInvocation) (state : WorkInvocationState) (room : Z) : Prop := {
  st_grant : same_grant i0 i;
  st_state : iv_State i = state;
  st_claim : iv_ClaimID i = Some (oi_IntentID intent);
  st_room : iv_Revision i < u64_mod - room
}.

Lemma grant_valid i : same_grant i0 i -> WorkInvocation_Valid i = true.
Proof. intros H. apply (same_grant_valid _ _ H), (validate_invocation _ (clock 0)), Hc. Qed.

Lemma deadline_ahead i n : same_grant i0 i -> Before (clock n) (iv_DeadlineAt i) = true.
Proof.
  intros [Hp _ _]. rewrite (permanent_projection iv_DeadlineAt i0 i) by done. pose proof (cp_valid _ _ _ _ Hc n) as H.
  unfold OperationalExecutionContext_Validate in H. destruct (task_current c); [|done]. cbn [negb] in H.
  destruct (budget_current c (clock n)) eqn:E; [|done]. unfold budget_current in E. bprop E. by split_ands.
Qed.

Lemma grant_words i : same_grant i0 i -> invocation_words i.
Proof.
  intros [Hp Hr _]. split; [unfold is_u64; lia|]. rewrite (permanent_projection iv_Execution i0 i) by done. apply Hc.
Qed.

Lemma stage_advances i j state room event :
  same_grant i0 i -> permanent j = permanent i -> iv_State j = state -> iv_ClaimID j = Some (oi_IntentID intent) ->
  iv_Revision i < u64_mod - (room + 1) -> 0 <= room -> UUIDv7_Valid event = true -> at_stage (advanced i j event) state room.
Proof.
  intros Hg Hp Hs Hi Hr Hk He. split; [apply same_grant_advanced; (done || lia)|done|done|].
  destruct Hg as [_ Hr' _]. cbn. unfold u64. rewrite Z.mod_small; lia.
Qed.

Lemma grant_start : same_grant i0 i0.
Proof.
  split; [done|pose proof (cp_revision _ _ _ _ Hc); lia|].
  apply valid_revision, (validate_invocation _ (clock 0)), Hc.
Qed.

(** The kernel accepts the three commands of the run. *)
Lemma claim_step w t n :
  wd_Current w = c -> t = clock n ->
  kernel_accepts w (claim_command policy intent c t)
    (i0 <| iv_State := InvocationClaimed |> <| iv_ClaimID := Some (oi_IntentID intent) |> <| iv_ClaimedAt := Some t |>).
Proof.
  intros Hw ->. pose proof grant_start as Hg. pose proof (cp_revision _ _ _ _ Hc) as Hr. pose proof (cp_clock _ _ _ _ Hc n) as [Hp Hz].
  apply (accepted_step w _ "tekroo.event.work-invocation.claimed"); rewrite ?Hw.
  - apply Hc.
  - reflexivity.
  - by left.
  - by apply grant_valid.
  - by rewrite (cp_state _ _ _ _ Hc).
  - lia.
  - apply claim_accepted; [by apply grant_valid|by apply grant_words|apply Hc..|done|done|by apply deadline_ahead].
  - reflexivity.
Qed.

Lemma observed_request : obs_RequestDigest o = request /\ Digest_Valid request = true.
Proof.
  split.
  - pose proof (cp_matches _ _ _ _ Hc) as H. unfold externalObservationMatches in H. bprop H. by split_ands.
  - pose proof (cp_brief _ _ _ _ Hc) as H. unfold BuildExecutionBriefWithHandler in H. cbv zeta in H. unwhen H.
    destruct (recovery_directive _ _); [|discriminate H]. unwhen H. destruct (json_brief _); [|discriminate H]. unwhen H.
    injection H as _ <-. apply sha256_hex_valid.
Qed.

Lemma start_step w i t n :
  wd_Current w = c <| oec_Invocation := i |> -> at_stage i InvocationClaimed 2 -> t = clock n ->
  kernel_accepts w (command policy i "tekroo.command.work-invocation.record-started" (started_payload i (oi_IntentID intent) o t) []
                      (opp_ServiceAuthority policy))
    (i <| iv_State := InvocationStarted |> <| iv_ConversationID := Some (obs_ConversationID o) |>
       <| iv_RequestDigest := Some (obs_RequestDigest o) |> <| iv_StartedAt := Some t |>).
Proof.
  intros Hw [Hg Hs Hi Hr] ->. pose proof (cp_clock _ _ _ _ Hc n) as [Hp Hz].
  apply (accepted_step w _ "tekroo.event.work-invocation.started"); rewrite ?Hw.
  - apply Hc.
  - reflexivity.
  - right. by left.
  - by apply grant_valid.
  - cbn. by rewrite Hs.
  - pose proof (sg_revision _ _ Hg). cbn. lia.
  - destruct (cp_conversation _ _ _ _ Hc) as [H1 H2]. destruct (cp_intent _ _ _ _ Hc) as [H3 _].
    destruct observed_request as [H4 H5]. rewrite <- H4 in H5.
    apply started_accepted; try assumption; [by apply grant_valid|by apply grant_words|by apply UUIDv7_utf8|by apply deadline_ahead].
  - reflexivity.
Qed.

Lemma finish_step w i t n l output :
  wd_Current w = c <| oec_Invocation := i |> -> at_stage i InvocationStarted 1 -> t = clock n ->
  references_valid (merge_sort evidence_le l) = true ->
  let ids := map er_EvidenceID (merge_sort evidence_le l) in
  kernel_accepts w (command policy i "tekroo.command.work-invocation.record-terminal"
      (terminal_payload i (oi_IntentID intent) outcome (obs_Retryable o) ids (sha256_hex output) t)
      (merge_sort evidence_le l) (opp_ServiceAuthority policy))
    (i <| iv_State := outcome |> <| iv_TerminalOutcome := Some outcome |> <| iv_Retryable := Some (obs_Retryable o) |>
       <| iv_TerminalEvidenceIDs := ids |> <| iv_OutputDigest := Some (sha256_hex output) |> <| iv_FinishedAt := Some t |>).
Proof.
  intros Hw [Hg Hs Hi Hr] -> Hl ids. pose proof (cp_clock _ _ _ _ Hc n) as [Hp Hz].
  apply (accepted_step w _ "tekroo.event.work-invocation.terminal-recorded"); rewrite ?Hw.
  - apply Hc.
  - reflexivity.
  - do 2 right. by left.
  - by apply grant_valid.
  - cbn. by rewrite Hs.
  - pose proof (sg_revision _ _ Hg). cbn. lia.
  - destruct (cp_intent _ _ _ _ Hc) as [H3 _].
    apply terminal_accepted; try assumption; [by apply grant_valid|by apply grant_words|by left|by apply UUIDv7_utf8| |].
    + rewrite (permanent_projection iv_AllowedTerminalOutcomes i0 i) by (reflexivity || apply Hg). apply Hc.
    + unfold terminalOutcome. repeat case_match; apply utf8_of_ascii; reflexivity.
  - reflexivity.
Qed.

(** A claimed invocation, in the world that holds it. *)
Lemma serve_authorized w again :
  wd_Current w = c ->
  exists w' i, serve w (process_authorized policy intent c false again) = serve w' (again true (c <| oec_Invocation := i |>)) /\
    wd_Current w' = c <| oec_Invocation := i |> /\ wd_Asked w' = wd_Asked w /\ at_stage i InvocationClaimed 2.
Proof.
  intros Hw. unfold process_authorized. cbn [serve]. rewrite (deadline_ahead _ _ grant_start). cbn [negb serve].
  rewrite (cp_valid _ _ _ _ Hc). cbn [negb]. unfold claim. cbn [serve].
  match goal with |- context [serve ?w0 (apply policy (claim_command policy intent c ?now) ?k)] =>
    destruct (serve_apply w0 _ _ k (claim_step w0 now _ Hw eq_refl)) as (w' & receipt & event & Hs & Ha & Hcur & He);
    change (wd_Current w0) with (wd_Current w) in Hcur end.
  rewrite Hw in Hcur. rewrite Hs. cbn [reload serve]. rewrite Hcur.
  eexists w', _. split; [reflexivity|]. split; [done|]. split; [done|].
  apply stage_advances; [apply grant_start|reflexivity..| |lia|done]. pose proof (cp_revision _ _ _ _ Hc). lia.
Qed.

Lemma serve_brief {A} w i (k : _ -> calls A) :
  same_grant i0 i ->
  serve w (buildBrief schema_accepts schema_error resolves_handlers policy (c <| oec_Invocation := i |>) k) =
  serve w (k (inr (brief, request))).
Proof.
  intros Hg. pose proof (cp_handler _ _ _ _ Hc) as Hh. unfold buildBrief, built.
  change (oec_Invocation (c <| oec_Invocation := i |>)) with i.
  rewrite (permanent_projection iv_HandlerDispatch i0 i) by (reflexivity || apply Hg).
  pose proof (same_grant_brief c i Hg) as Hb. rewrite (cp_brief _ _ _ _ Hc) in Hb.
  destruct (iv_HandlerDispatch i0).
  - destruct Hh as [-> Hh]. cbn [negb serve]. destruct handler; [by rewrite Hb|done].
  - rewrite Hh in Hb. cbn [serve]. by rewrite Hb.
Qed.

Lemma serve_claimed w i again :
  wd_Current w = c <| oec_Invocation := i |> -> at_stage i InvocationClaimed 2 ->
  exists w' j, serve w (process_claimed schema_accepts schema_error resolves_handlers policy (c <| oec_Invocation := i |>) true again) =
      serve w' (recordTerminalObservation policy (c <| oec_Invocation := j |>) o outcome) /\
    wd_Current w' = c <| oec_Invocation := j |> /\ wd_Asked w' = wd_Asked w ++ [BoundaryStart brief request] /\
    at_stage j InvocationStarted 1.
Proof.
  intros Hw Hi. destruct Hi as [Hg Hs Hcl Hr]. unfold process_claimed. cbn [serve].
  rewrite (same_grant_validate c i _ Hg (cp_valid _ _ _ _ Hc _)). cbn [negb].
  rewrite (serve_brief _ i _ Hg). cbn [startOrReconcile negb serve]. rewrite (cp_start _ _ _ _ Hc).
  unfold process_observed. rewrite (cp_matches _ _ _ _ Hc), (cp_result _ _ _ _ Hc). cbn [negb].
  destruct (cp_conversation _ _ _ _ Hc) as [Hne _]. rewrite (bool_decide_false (obs_ConversationID o = "")) by done.
  assert ((obs_State o == ExternalRejected) = false /\ started_state (obs_State o) = true /\
          (obs_State o != ExternalRunning) = true) as (-> & -> & Hend).
  { pose proof (cp_ended _ _ _ _ Hc) as H. rewrite !elem_of_cons, elem_of_nil in H. destruct H as [-> |[-> |[-> |[-> |[]]]]]; done. }
  unfold recordStarted. change (oec_Invocation (c <| oec_Invocation := i |>)) with i. rewrite Hcl. cbn [serve].
  match goal with |- context [serve ?w0 (apply policy (command _ _ _ (started_payload _ _ _ ?now) _ _) ?k)] =>
    destruct (serve_apply w0 _ _ k (start_step w0 i now _ Hw (Build_at_stage _ _ _ Hg Hs Hcl Hr) eq_refl))
      as (w' & receipt & event & Hserve & Ha & Hcur & He);
    change (wd_Current w0) with (wd_Current w) in Hcur end.
  rewrite Hw in Hcur. rewrite Hserve. cbn [reload serve]. rewrite Hcur, Hend.
  eexists w', _. split; [reflexivity|]. split; [done|]. split; [done|].
  apply stage_advances; [exact Hg|reflexivity|reflexivity|exact Hcl|cbn; lia|lia|exact He].
Qed.

Lemma serve_terminal w i :
  wd_Current w = c <| oec_Invocation := i |> -> at_stage i InvocationStarted 1 ->
  exists w' references receipt, serve w (recordTerminalObservation policy (c <| oec_Invocation := i |>) o outcome) =
      (w', (mkOperationalResult (iv_ID i0) outcome (obs_ConversationID o) references (Some receipt), None)) /\
    wd_Asked w' = wd_Asked w /\ iv_State (oec_Invocation (wd_Current w')) = outcome /\
    iv_TerminalEvidenceIDs (oec_Invocation (wd_Current w')) = map er_EvidenceID references.
Proof.
  intros Hw Hi. destruct Hi as [Hg Hs Hcl Hr]. unfold recordTerminalObservation.
  change (oec_Invocation (c <| oec_Invocation := i |>)) with i.
  rewrite (permanent_projection iv_AllowedTerminalOutcomes i0 i) by (reflexivity || apply Hg).
  rewrite (cp_outcome _ _ _ _ Hc). cbn [negb serve]. rewrite (cp_evidence _ _ _ _ Hc). cbn [negb]. rewrite Hcl. cbn [serve].
  match goal with |- context [serve ?w0 (apply policy (command _ _ _ (terminal_payload _ _ _ _ (map _ (merge_sort _ ?l)) (sha256_hex ?out) ?now) _ _) ?k)] =>
    destruct (serve_apply w0 _ _ k (finish_step w0 i now _ l out Hw (Build_at_stage _ _ _ Hg Hs Hcl Hr) eq_refl
      (cp_evidence _ _ _ _ Hc _))) as (w' & receipt & event & Hserve & Ha & Hcur & He) end.
  rewrite Hserve. cbn [serve]. rewrite (permanent_projection iv_ID i0 i) by (reflexivity || apply Hg).
  eexists w', _, receipt. split; [reflexivity|]. rewrite Hcur. done.
Qed.

End run.

Lemma loop_authorized n claimed current :
  iv_State (oec_Invocation current) = InvocationAuthorized ->
  process_loop schema_accepts schema_error resolves_handlers extends_deadlines policy (S n) intent claimed current =
  process_authorized policy intent current claimed
    (process_loop schema_accepts schema_error resolves_handlers extends_deadlines policy n intent).
Proof. intros H. cbn [process_loop]. by rewrite H. Qed.

Lemma loop_claimed n claimed current :
  iv_State (oec_Invocation current) = InvocationClaimed ->
  process_loop schema_accepts schema_error resolves_handlers extends_deadlines policy (S n) intent claimed current =
  process_claimed schema_accepts schema_error resolves_handlers policy current claimed
    (process_loop schema_accepts schema_error resolves_handlers extends_deadlines policy n intent).
Proof. intros H. cbn [process_loop]. by rewrite H. Qed.


End service.

(** ** The sample execution *)

Definition sample_brief : ExecutionBrief :=
  assembled_brief sample_authorized sample_grounding None (merge_sort evidence_le (oec_Evidence sample_authorized)) None.
Definition sample_brief_digest : Digest := sha256_hex (payload_text (json_brief sample_brief)).

Definition sample_ended : ExternalExecutionObservation :=
  {| obs_InvocationID := brf_InvocationID sample_brief; obs_RequestDigest := sample_brief_digest; obs_ConversationID := "run-1";
     obs_State := ExternalSucceeded; obs_ActorFQN := brf_ActorFQN sample_brief; obs_Execution := brf_Execution sample_brief;
     obs_ModelProfileDigest := brf_ModelProfileDigest sample_brief;
     obs_RuntimeIdentityDigest := brf_RuntimeIdentityDigest sample_brief; obs_WorkspaceID := os_WorkspaceID (brf_Scope sample_brief);
     obs_ToolPolicyDigest := brf_ToolPolicyDigest sample_brief; obs_EffectPolicyDigest := brf_EffectPolicyDigest sample_brief;
     obs_Retryable := false; obs_Evidence := []; obs_Output := "done" |}.

Lemma sample_cooperative :
  cooperative (fun _ => later_time 10) (fun _ => EvaluatorLaws.sample_context) sample_grounding None (fun _ => inr sample_ended)
    (fun _ => [mkEvidence (uid "3") (dig "3")]) (fun _ _ => true) true sample_coordinator sample_intent
    sample_authorized sample_brief sample_brief_digest sample_ended.
Proof.
  assert (printable (later_time 10)) as Hp.
  { split; [vm_compute; intuition congruence|]. eexists. vm_compute. reflexivity. }
  split; try (intros; vm_compute; reflexivity).
  - intros _. split; [exact Hp|vm_compute; reflexivity].
  - vm_compute. split; reflexivity.
  - vm_compute. split; [discriminate|reflexivity].
  - by left.
  - split; [done|]. apply utf8_of_ascii. reflexivity.
  - apply utf8_of_ascii. reflexivity.
  - vm_compute. split; reflexivity.
Qed.

