(* ===== verification/OperationalDefects.v ===== *)
(** * Executions whose outcome is lost

    Two behaviours of the operational coordinator that the theorems of
    [OperationalRuns] do not exclude. An invocation that was claimed and whose
    context is no longer valid, for instance because its deadline passed, is
    recorded as START_FAILED without a call of the boundary, also when an earlier
    call of [Process] asked for its start and got no answer. And evidence that was
    recorded once cannot be recorded again after another event of the invocation. *)

From S2P Require Import Prelude GoText GoTime GoJson GoMarshal GoJsonLaws GoMarshalLaws GoTimeLaws Types Samples.
From S2P Require Import Sha256 Payload Envelope State Authorization WorkProfile Assignment WorkInvocation InvocationLaws Fingerprint.
From S2P Require Import Provenance Escalation EvidenceLaws Snapshot Evaluator EvaluatorLaws Phase4Store MemoryStore.
From S2P Require Import OperationalExecution OperationalCoordinator OperationalLaws OperationalRuns.

#[local] Opaque UUIDv7_Valid ActorFQN_Valid Digest_Valid sha256_hex.

(** ** Late claims *)

(** Every exchange of every run satisfies [P]. *)
Fixpoint always {A} (P : exchange -> Prop) (p : calls A) : Prop :=
  match p with
  | Done _ => True
  | AskContext k => forall ctx, P (SawContext ctx) /\ always P (k ctx)
  | AskClock k => forall now, P (SawClock now) /\ always P (k now)
  | LoadByEvent _ k => forall r, P (Loaded r) /\ always P (k r)
  | LoadInvocation _ k => forall r, P (Loaded r) /\ always P (k r)
  | ResolveRole _ k => forall r, P (Resolved r) /\ always P (k r)
  | ResolveHandler _ _ k => forall r, P (ResolvedHandler r) /\ always P (k r)
  | EffectiveDeadline _ _ k => forall r, P (SawDeadline r) /\ always P (k r)
  | AskBoundary c k => forall r, P (Asked c r) /\ always P (k r)
  | RecordEvidence i items k => forall r, P (Recorded i items r) /\ always P (k r)
  | PutBlob id content k => forall r, P (Stored id content r) /\ always P (k r)
  | HandleCommand c _ k => forall r, P (Sent c r) /\ always P (k r)
  end.

Lemma always_respond {A} P (p : calls A) r e p' : always P p -> respond p r = Some (e, p') -> P e /\ always P p'.
Proof. intros Hp H. destruct p, r; try discriminate H; cbn in H; simplify_eq; apply Hp. Qed.

Lemma always_converse {A} P (p : calls A) replies log p' :
  always P p -> converse p replies = Some (log, p') -> Forall P log.
Proof.
  revert p log. induction replies as [|r replies IH]; intros p log Hp H; cbn in H; [by simplify_eq|].
  destruct (respond p r) as [[e q]|] eqn:E; [|done]. cbn in H. destruct (always_respond P p r e q Hp E) as [He Hq].
  destruct (converse q replies) as [[log' q']|] eqn:E2; [|done]. cbn in H. simplify_eq. constructor; [done|by eapply IH].
Qed.

(** No call of the boundary, and no command but the record of a failed start. *)
Definition settles (i : WorkInvocation) (e : exchange) : Prop :=
  match e with
  | Asked _ _ => False
  | Sent c _ =>
    cmd_CommandType c = "tekroo.command.work-invocation.record-terminal" /\
    exists claim ids output now, cmd_Payload c = terminal_payload i claim InvocationStartFailed false ids output now
  | _ => True
  end.

Section late.
Context (schema_accepts : string -> string -> bool) (schema_error : string -> string -> string).
Context (resolves_handlers extends_deadlines : bool) (policy : OperationalExecutionPolicy).

Lemma settles_terminal current o :
  obs_Retryable o = false ->
  always (settles (oec_Invocation current)) (recordTerminalObservation policy current o InvocationStartFailed).
Proof.
  intros Hr. unfold recordTerminalObservation. case_match; [done|]. cbn [always]. intros r. split; [done|].
  destruct r as [e|references]; [done|]. case_match; [done|]. destruct (iv_ClaimID _) as [claim|]; [|done].
  cbn [always]. intros now. split; [done|]. unfold apply. cbn [always]. intros [receipt err]. split.
  - split; [done|]. rewrite Hr. by eexists _, _, _, _.
  - destruct err; [done|]. by case_match.
Qed.

Lemma settles_brief {A} i current (k : _ -> calls A) :
  (forall r, always (settles i) (k r)) ->
  always (settles i) (buildBrief schema_accepts schema_error resolves_handlers policy current k).
Proof.
  intros Hk. unfold buildBrief, built. destruct (iv_HandlerDispatch _).
  - case_match; [apply Hk|]. cbn [always]. intros r. split; [done|]. destruct r as [e|[grounding handler]]; [apply Hk|].
    case_match; apply Hk.
  - cbn [always]. intros r. split; [done|]. destruct r as [e|grounding]; [apply Hk|]. case_match; apply Hk.
Qed.

(** [C39] A claimed invocation whose context is not valid when [Process] looks at it,
    for instance because its deadline has passed, is settled without asking the
    boundary: in every run the only command is the record of a failed start, also
    when an earlier call of [Process] asked the boundary to start the execution and
    never learned what became of it. *)
Theorem late_claim_settled_unasked intent current now replies log p :
  converse (Process schema_accepts schema_error resolves_handlers extends_deadlines policy intent)
    (RepContext None :: RepExecution (inr current) :: RepClock now :: replies) = Some (log, p) ->
  iv_State (oec_Invocation current) = InvocationClaimed -> OperationalExecutionContext_Validate current now = false ->
  Forall (settles (oec_Invocation current)) log.
Proof.
  intros H Hs Hv.
  set (sent := recordKnownStartFailure schema_accepts schema_error resolves_handlers policy current ErrStaleWorkInvocation).
  assert (always (settles (oec_Invocation current)) sent) as Hf.
  { unfold sent, recordKnownStartFailure. apply settles_brief. intros r. by apply settles_terminal. }
  assert (exists rest, converse sent replies = Some (rest, p) /\
    log = SawContext None :: Loaded (inr current) :: SawClock now :: rest) as (rest & Hr & ->).
  { cbn [converse respond Process] in H. unfold Process in H. cbn [respond] in H.
    destruct (negb _ || _ || _) in H; [by destruct replies|]. cbn [mbind option_bind respond converse] in H.
    destruct (iv_AuthorizationEventID _ != _) in H; [by destruct replies|]. cbn [process_loop] in H. rewrite Hs in H.
    change (Terminal InvocationClaimed) with false in H. eval_tests_in H. unfold process_claimed in H.
    cbn [mbind option_bind respond] in H. rewrite Hv in H. cbn [negb] in H. fold sent in H.
    destruct (converse sent replies) as [[rest q]|]; [|done]. cbn in H. simplify_eq. by exists rest. }
  repeat (constructor; [done|]). by eapply always_converse.
Qed.

End late.

(** The sample invocation, found claimed at its deadline. *)
Definition sample_late : option (list exchange * calls processed) :=
  converse (Process (fun _ _ => true) (fun _ _ => "") true false sample_coordinator sample_intent)
    [RepContext None; RepExecution (inr sample_claimed); RepClock (later_time 1800); RepRole (inr sample_grounding);
     RepReferences (inr [mkEvidence (uid "3") (dig "3")]); RepClock (later_time 1801);
     RepReceipt (de_Receipt sample_decision, None)].

Definition recorded_failed (run : option (list exchange * calls processed)) : bool :=
  match run with
  | Some ([_; _; _; _; _; _; Sent _ _], Done (r, None)) => opr_State r == InvocationStartFailed
  | _ => false
  end.
Example sample_late_recorded : recorded_failed sample_late = true.
Proof. vm_compute. reflexivity. Qed.

Lemma late_claim_settled_unasked_witness :
  exists log p, recorded_failed (Some (log, p)) = true /\ Forall (settles (oec_Invocation sample_claimed)) log.
Proof.
  pose proof sample_late_recorded as H. destruct sample_late as [[log p]|] eqn:E; [|discriminate H].
  exists log, p. split; [exact H|]. unfold sample_late in E.
  refine (late_claim_settled_unasked _ _ _ _ _ _ sample_claimed (later_time 1800) _ log p E _ _).
  - reflexivity.
  - vm_compute. reflexivity.
Defined.

(** ** Evidence recorded again *)

(** The store holds the receipt and the identity of a command. *)
Definition recorded (s : MemStore) (c : KernelCommand) : Prop :=
  exists receipt fingerprint scope, CommandFingerprint c = Some fingerprint /\ IdempotencyScopeDigest c = Some scope /\
    ms_receipts s !! cmd_CommandID c = Some receipt /\
    ms_commandBindings s !! cmd_CommandID c = Some (mkIdentity (cmd_CommandID c) fingerprint scope).

(** The texts of two different requests with one hash. *)
Definition collision (c d : KernelCommand) : Prop :=
  exists t u, command_text c = Some t /\ command_text d = Some u /\ t <> u /\ sha256_hex t = sha256_hex u.

Lemma different_meaning c d :
  command_fits c -> payload_shallow c -> command_fits d -> payload_shallow d -> command_meaning c <> command_meaning d ->
  exists t u, command_text c = Some t /\ command_text d = Some u /\ t <> u.
Proof.
  intros Hc Pc Hd Pd Hne. unfold command_text. destruct (meaning_text _ (command_meaning_fits c Hc Pc)) as (t & -> & Ht).
  destruct (meaning_text _ (command_meaning_fits d Hd Pd)) as (u & -> & Hu).
  exists t, u. split_and!; [done..|]. intros ->. apply Hne. congruence.
Qed.

(** What the command of an item takes from the invocation. *)
Lemma evidence_command_identity policy i j item digest payload :
  iv_ID j = iv_ID i ->
  let first := evidence_command policy i item digest payload in
  let second := evidence_command policy j item digest payload in
  cmd_CommandID second = cmd_CommandID first /\ cmd_IdempotencyKey second = cmd_IdempotencyKey first /\
  IdempotencyScopeDigest second = IdempotencyScopeDigest first /\ cmd_Payload second = cmd_Payload first.
Proof.
  intros Hid. unfold IdempotencyScopeDigest, evidence_command.
  cbn [cmd_CommandID cmd_IdempotencyKey cmd_ContractManifest cmd_Authority cmd_CommandType cmd_Target cmd_Payload].
  rewrite Hid. split_and!; reflexivity.
Qed.

Lemma evidence_command_cause policy i item digest payload :
  cm_Causation (command_meaning (evidence_command policy i item digest payload)) = [mkParent (iv_LastEventID i) EdgeCausal].
Proof. reflexivity. Qed.

#[local] Opaque command_text IdempotencyScopeDigest evidence_command command_meaning canReadReceipt.

(** A command with the identity of a recorded one, but another meaning. *)
Lemma reused_identity first second s at_ :
  cmd_CommandID second = cmd_CommandID first -> IdempotencyScopeDigest second = IdempotencyScopeDigest first ->
  cmd_Payload second = cmd_Payload first -> command_meaning first <> command_meaning second ->
  command_fits first -> command_fits second -> payload_shallow first ->
  recorded s first -> canReadReceipt s second at_ = true ->
  LookupReceipt None s second at_ = inl ErrCommandIdentityConflict \/ collision first second.
Proof.
  intros Eid Escope Epay Hne Hf Hs Hp (receipt & fingerprint & scope & Hfp & Hsc & Hr & Hb) Hread.
  assert (payload_shallow second) as Hp2 by (unfold payload_shallow; by rewrite Epay).
  destruct (different_meaning first second Hf Hp Hs Hp2 Hne) as (t & u & Ht & Hu & Htu).
  destruct (decide (sha256_hex t = sha256_hex u)) as [Heq|Hdiff]; [right; exists t, u; split_and!; assumption|left].
  assert (CommandFingerprint second = Some (sha256_hex u)) as Hfu by (unfold CommandFingerprint; rewrite Hu; reflexivity).
  assert (fingerprint = sha256_hex t) as -> by (unfold CommandFingerprint in Hfp; rewrite Ht in Hfp; congruence).
  unfold LookupReceipt. rewrite Hfu, Escope, Hsc, Eid, Hr, Hread. cbn [negb]. unfold mget. rewrite Hb. cbn [di_Fingerprint di_Scope].
  rewrite (bool_decide_false (sha256_hex t = sha256_hex u)) by exact Hdiff. reflexivity.
Qed.

(** [C40] Evidence is not recorded a second time after another event. When the
    evidence of an invocation is on record and the invocation has moved to another
    event since (a cancellation was requested, or the record of its end was
    refused and read again), the recorder's command for the same item carries the
    same command identifier and idempotency key but names another cause: the store
    answers it with an identity conflict, or the two requests are a collision of
    SHA-256. *)
Theorem rerecorded_evidence_conflicts policy i j item digest payload s at_ :
  let first := evidence_command policy i item digest payload in
  let second := evidence_command policy j item digest payload in
  iv_ID j = iv_ID i -> iv_LastEventID j <> iv_LastEventID i ->
  command_fits first -> command_fits second -> payload_shallow first ->
  recorded s first -> canReadReceipt s second at_ = true ->
  cmd_CommandID second = cmd_CommandID first /\ cmd_IdempotencyKey second = cmd_IdempotencyKey first /\
  (LookupReceipt None s second at_ = inl ErrCommandIdentityConflict \/ collision first second).
Proof.
  cbv zeta. intros Hid Hev Hf Hs Hp Hrec Hread.
  destruct (evidence_command_identity policy i j item digest payload Hid) as (Eid & Ekey & Escope & Epay).
  split; [exact Eid|]. split; [exact Ekey|]. refine (reused_identity _ _ s at_ Eid Escope Epay _ Hf Hs Hp Hrec Hread).
  intros H. apply (f_equal cm_Causation) in H. rewrite !evidence_command_cause in H. congruence.
Qed.

#[local] Transparent command_text IdempotencyScopeDigest evidence_command command_meaning canReadReceipt sha256_hex
  UUIDv7_Valid ActorFQN_Valid Digest_Valid.

(** The receipt of an execution, recorded, and recorded again after a cancellation
    was requested. *)
Definition sample_service : PrincipalRef := mkPrincipal PrincipalService "recorder".
Definition sample_recorder : CommandEvidenceRecorderPolicy :=
  mkRecorderPolicy 1 sample_service (dc_Provenance EvaluatorLaws.sample_context) "1" "keep".
Definition sample_item : ExecutionEvidence := mkExecutionEvidence (uid "3") "PROVIDER_RECEIPT" "application/json" sample_time "{}".
Definition sample_cancelled : WorkInvocation :=
  sample_invocation <| iv_LastEventID := uid "1" |> <| iv_CancellationRequestedAt := Some (later_time 20) |>.
Definition sample_evidence (i : WorkInvocation) : KernelCommand := evidence_command sample_recorder i sample_item (dig "3") "{}".

Definition sample_recorded : MemStore :=
  (NewStore [mkPolicy (dig "a") 1 (mkRequirements 0 0 false ∅ false)
     [mkGrant (dig "b") sample_service
        (mkScope ["tekroo.command.evidence.register"] [AggregateEvidence] [uid "3"] true false false) None false false] []])
    <| ms_receipts := {[ cmd_CommandID (sample_evidence sample_invocation) := de_Receipt sample_decision ]} |>
    <| ms_commandBindings := {[ cmd_CommandID (sample_evidence sample_invocation) :=
         mkIdentity (cmd_CommandID (sample_evidence sample_invocation))
           (default "" (CommandFingerprint (sample_evidence sample_invocation)))
           (default "" (IdempotencyScopeDigest (sample_evidence sample_invocation))) ]} |>.

Lemma sample_evidence_fits : command_fits (sample_evidence sample_invocation) /\ command_fits (sample_evidence sample_cancelled).
Proof. split; fits_by_evaluation. Qed.

Lemma sample_evidence_shallow : payload_shallow (sample_evidence sample_invocation).
Proof. intros j H. vm_compute in H. injection H as <-. cbn. pose proof max_depth_large. lia. Qed.

Lemma sample_evidence_recorded : recorded sample_recorded (sample_evidence sample_invocation).
Proof. unfold recorded. eexists _, _, _. split_and!; vm_compute; reflexivity. Qed.

Lemma rerecorded_evidence_conflicts_witness :
  LookupReceipt None sample_recorded (sample_evidence sample_cancelled) sample_time = inl ErrCommandIdentityConflict \/
  collision (sample_evidence sample_invocation) (sample_evidence sample_cancelled).
Proof.
  destruct (rerecorded_evidence_conflicts sample_recorder sample_invocation sample_cancelled sample_item (dig "3") "{}"
    sample_recorded sample_time eq_refl) as (_ & _ & H).
  - vm_compute. discriminate.
  - exact (proj1 sample_evidence_fits).
  - exact (proj2 sample_evidence_fits).
  - exact sample_evidence_shallow.
  - exact sample_evidence_recorded.
  - vm_compute. reflexivity.
  - exact H.
Defined.
