(* ===== verification/Base64.v ===== *)
(** * Base64 and HMAC ([encoding/base64], [encoding/binary], [crypto/hmac])

    The encodings the event export uses: [base64.StdEncoding] with padding,
    [base64.RawURLEncoding] without, and HMAC over SHA-256. Bytes are integers
    below 256; a decoded text is the bytes it stood for. *)

From S2P Require Import Prelude GoText GoTime GoJson GoMarshal Types Sha256.

Definition alphabet_with (c62 c63 : ascii) (n : Z) : ascii :=
  if n <? 26 then chr (65 + n) else if n <? 52 then chr (71 + n) else if n <? 62 then chr (n - 4)
  else if n =? 62 then c62 else c63.
Definition std_char : Z -> ascii := alphabet_with "+" "/".
Definition url_char : Z -> ascii := alphabet_with "-" "_".

Definition url_value (c : ascii) : option Z :=
  if in_range "A" "Z" c then Some (byte_of c - 65)
  else if in_range "a" "z" c then Some (byte_of c - 71)
  else if in_range "0" "9" c then Some (byte_of c + 4)
  else if c == "-"%char then Some 62
  else if c == "_"%char then Some 63
  else None.

(** Three bytes are four digits of six bits; [pad] ends an incomplete group. *)
Fixpoint encode64 (char : Z -> ascii) (pad : string) (bytes : list Z) : string :=
  match bytes with
  | [] => ""
  | [x] => String (char (x / 4)) (String (char (x mod 4 * 16)) (pad +:+ pad))
  | [x; y] => String (char (x / 4)) (String (char (x mod 4 * 16 + y / 16)) (String (char (y mod 16 * 4)) pad))
  | x :: y :: z :: rest =>
    String (char (x / 4)) (String (char (x mod 4 * 16 + y / 16)) (String (char (y mod 16 * 4 + z / 64))
      (String (char (z mod 64)) (encode64 char pad rest))))
  end.

Definition StdEncoding : list Z -> string := encode64 std_char "=".
Definition RawURLEncoding : list Z -> string := encode64 url_char "".

(** Line ends are skipped; a last group of one digit is refused, and the bits a
    last group does not need are ignored. *)
Definition line_end (c : ascii) : bool := (byte_of c =? 10) || (byte_of c =? 13).

Fixpoint skip_line_ends (s : string) : string :=
  match s with
  | EmptyString => ""
  | String c s => if line_end c then skip_line_ends s else String c (skip_line_ends s)
  end.

Fixpoint decode64 (s : string) : option (list Z) :=
  match s with
  | EmptyString => Some []
  | String a (String b EmptyString) =>
    try p <- url_value a ;; try q <- url_value b ;; Some [p * 4 + q / 16]
  | String a (String b (String c EmptyString)) =>
    try p <- url_value a ;; try q <- url_value b ;; try r <- url_value c ;; Some [p * 4 + q / 16; q mod 16 * 16 + r / 4]
  | String a (String b (String c (String d rest))) =>
    try p <- url_value a ;; try q <- url_value b ;; try r <- url_value c ;; try t <- url_value d ;;
    try bytes <- decode64 rest ;;
    Some (p * 4 + q / 16 :: q mod 16 * 16 + r / 4 :: r mod 4 * 64 + t :: bytes)
  | _ => None
  end.
Definition RawURLDecode (s : string) : option (list Z) := decode64 (skip_line_ends s).

Example base64_ex :
  StdEncoding (bytes_of "light w") = "bGlnaHQgdw==" /\ RawURLEncoding [251; 255; 254; 0] = "-__-AA" /\
  RawURLDecode "-__-AA" = Some [251; 255; 254; 0] /\ RawURLDecode "-__-A" = None.
Proof. vm_compute. split_and!; reflexivity. Qed.

(** [binary.BigEndian.PutUint64] and [binary.BigEndian.Uint64]. *)
Definition PutUint64 (n : Z) : list Z := big_endian 8 n [].
Definition Uint64 (bytes : list Z) : Z := foldl (fun n b => n * 256 + b) 0 bytes.

(** A key longer than a block is hashed, and shorter ones are filled with zeros. *)
Definition hmac_block (key : list Z) : list Z :=
  let key := if 64 <? llen key then Sum256 (bytes_str key) else key in
  key ++ repeat 0 (64 - length key).
Definition hmac_sha256 (key message : list Z) : list Z :=
  let block := hmac_block key in
  Sum256 (bytes_str (map (Z.lxor 92) block ++ Sum256 (bytes_str (map (Z.lxor 54) block ++ message)))).

Example hmac_ex :
  hex_encode (hmac_sha256 (bytes_of "key") (bytes_of "The quick brown fox jumps over the lazy dog"))
  = "f7bc83f430538424b13298e6aa6fb143ef4d59a14946175997479dbc2d1a3cd8".
Proof. vm_compute. reflexivity. Qed.

(** ** Round trips *)

#[local] Ltac Zify.zify_post_hook ::= Z.to_euclidean_division_equations.

Lemma url_value_char n : 0 <= n < 64 -> url_value (url_char n) = Some n.
Proof.
  intros H. assert (forallb (fun n => url_value (url_char n) == Some n) (seqZ 0 64) = true) as K by (vm_compute; reflexivity).
  apply forallb_True_iff in K. rewrite Forall_forall in K. specialize (K n). rewrite elem_of_seqZ in K.
  specialize (K ltac:(lia)). by apply bool_decide_eq_true_1 in K.
Qed.

(** No character of the URL alphabet is a line end or a dot. *)
Definition url_safe (c : ascii) : bool := negb (line_end c) && negb (c == "."%char).

Lemma url_char_safe n : 0 <= n < 64 -> url_safe (url_char n) = true.
Proof.
  intros H. assert (forallb (fun n => url_safe (url_char n)) (seqZ 0 64) = true) as K by (vm_compute; reflexivity).
  apply forallb_True_iff in K. rewrite Forall_forall in K. apply K, elem_of_seqZ. lia.
Qed.

(** Induction three elements at a time. *)
Lemma triples_ind {A} (P : list A -> Prop) :
  P [] -> (forall x, P [x]) -> (forall x y, P [x; y]) -> (forall x y z l, P l -> P (x :: y :: z :: l)) -> forall l, P l.
Proof.
  intros H0 H1 H2 H3. refine (fix go l := match l with [] => H0 | [x] => H1 x | [x; y] => H2 x y | x :: y :: z :: l' => H3 x y z l' (go l') end).
Qed.

Ltac read_digits :=
  repeat match goal with |- context [url_value (url_char ?n)] => rewrite (url_value_char n) by lia end.

Lemma decode64_encode bytes : Forall is_byte bytes -> decode64 (encode64 url_char "" bytes) = Some bytes.
Proof.
  unfold is_byte. induction bytes as [|x|x y|x y z l IH] using triples_ind; intros H; rewrite ?Forall_cons in H; cbn [encode64 decode64 String.append].
  - done.
  - read_digits. do 2 f_equal. lia.
  - read_digits. do 3 f_equal; [lia|f_equal; lia].
  - destruct H as (Hx & Hy & Hz & Hl). rewrite (IH Hl). read_digits. f_equal. f_equal; [lia|]. f_equal; [lia|]. f_equal. lia.
Qed.

Lemma encode64_safe bytes : Forall is_byte bytes -> all_chars url_safe (RawURLEncoding bytes) = true.
Proof.
  unfold is_byte, RawURLEncoding. induction bytes as [|x|x y|x y z l IH] using triples_ind; intros H; rewrite ?Forall_cons in H;
    cbn [encode64 all_chars String.append]; rewrite ?url_char_safe by lia; try done. apply IH, H.
Qed.

Lemma skip_safe s : all_chars url_safe s = true -> skip_line_ends s = s.
Proof.
  induction s as [|c s IH]; [done|]. cbn. intros [Hc Hs]%andb_true_iff. unfold url_safe in Hc.
  apply andb_true_iff in Hc as [Hc%negb_true_iff _]. by rewrite Hc, IH.
Qed.

Lemma RawURL_roundtrip bytes : Forall is_byte bytes -> RawURLDecode (RawURLEncoding bytes) = Some bytes.
Proof. intros H. unfold RawURLDecode. rewrite skip_safe by (by apply encode64_safe). by apply decode64_encode. Qed.

Lemma Uint64_big_endian n z acc : 0 <= z < 256 ^ Z.of_nat n -> Uint64 (big_endian n z acc) = foldl (fun n b => n * 256 + b) z acc.
Proof.
  revert z acc. induction n as [|n IH]; intros z acc H; cbn [big_endian].
  - unfold Uint64. f_equal. lia.
  - rewrite Nat2Z.inj_succ, Z.pow_succ_r in H by lia. rewrite IH by lia. cbn [foldl]. f_equal. lia.
Qed.

Lemma Uint64_Put z : is_u64 z -> Uint64 (PutUint64 z) = z.
Proof. intros H. unfold PutUint64. rewrite Uint64_big_endian; [done|]. exact H. Qed.

Lemma PutUint64_bytes z : Forall is_byte (PutUint64 z) /\ length (PutUint64 z) = 8%nat.
Proof. apply (big_endian_bytes 8 z []). constructor. Qed.

Lemma bytes_str_of s : bytes_str (bytes_of s) = s.
Proof.
  unfold bytes_str, bytes_of. induction s as [|c s IH]; [done|]. cbn. rewrite IH. f_equal.
  unfold chr, byte_of. by rewrite N2Z.id, ascii_N_embedding.
Qed.

Lemma hmac_bytes key message : Forall is_byte (hmac_sha256 key message).
Proof. unfold hmac_sha256. cbv zeta. apply Sum256_bytes. Qed.
