(* ===== verification/EventExport.v ===== *)
(** * Event export ([eventexport/types.go], [eventexport/service.go], [adapters/memory/event_export.go])

    Authenticated clients read the stored events of a source in pages. A page
    starts at a cursor the service issued: a signed text that names the source,
    the client, a position and an expiry. The source, its feeds, the clock and the
    telemetry are interfaces: [Export] is a tree of calls. The in-memory source
    answers them. *)

From S2P Require Import Prelude GoText GoTime GoJson GoMarshal GoJsonLaws GoMarshalLaws Types Samples.
From S2P Require Import Sha256 Base64 Payload Envelope State Evidence Variant Fingerprint Provenance MemoryStore OperationalExecution.

(** ** Identities ([adapters/protocol/invocation.go]) *)

Record AuthenticatedContext := mkAuthenticatedContext {
  aut_Principal : PrincipalRef;
  aut_ActorFQN : option ActorFQN;
  aut_Execution : option ExecutionTuple
}.

#[export] Instance eta_AuthenticatedContext : Eta AuthenticatedContext := fun r =>
  mkAuthenticatedContext
    (aut_Principal r) (aut_ActorFQN r) (aut_Execution r).

Definition zero_AuthenticatedContext : AuthenticatedContext :=
  mkAuthenticatedContext
    zero_principal None None.

Definition fields_AuthenticatedContext : list (field AuthenticatedContext) :=
  [
    fld "principal" aut_Principal dec_PrincipalRef;
    fld "actor_fqn" aut_ActorFQN (dec_ptr "" dec_string);
    fld "execution" aut_Execution (dec_ptr zero_exec dec_ExecutionTuple)
  ].
Definition dec_AuthenticatedContext : decoder AuthenticatedContext := dec_struct fields_AuthenticatedContext.

#[global] Instance AuthenticatedContext_eq_dec : EqDecision AuthenticatedContext.
Proof. solve_decision. Defined.

Definition AuthenticatedContext_Valid (identity : AuthenticatedContext) : bool :=
  when negb (PrincipalRef_Valid (aut_Principal identity)) return false ;;
  match aut_ActorFQN identity with
  | None => is_nil (aut_Execution identity)
  | Some actor =>
    when negb (ActorFQN_Valid actor) return false ;;
    opt_all ExecutionTuple_Valid (aut_Execution identity)
  end.

(** Pointers are compared by what they point to. *)
Definition AuthenticatedContext_Equal (identity other : AuthenticatedContext) : bool :=
  (aut_Principal identity == aut_Principal other) && (aut_ActorFQN identity == aut_ActorFQN other)
  && (aut_Execution identity == aut_Execution other).

(** ** Requests, records and responses *)

Definition ProtocolVersion : string := "1.0.0".
Definition SourceManifestSHA256 : string := "e2b9b5224a860a3eaa07451cf48fb5ac16a440b22b8dd592ff1662c1cff67f16".
Definition MaximumLimit : Z := 1000.
Definition MaximumWait : Z := 30 * 1000000000.

Inductive export_error :=
| ErrInvalidRequest | ErrUnauthorized | ErrInvalidCursor | ErrResyncRequired | ErrCaughtUp | ErrCorruptEvent
| ErrExportContext (e : context_error) | ErrMarshalCursor | ErrFeed (text : string).

Definition StatusRecords : string := "RECORDS".
Definition StatusCaughtUp : string := "CAUGHT_UP".
Definition StatusResyncRequired : string := "RESYNC_REQUIRED".

Record ExportRequest := mkExportRequest {
  exq_ProtocolVersion : string;
  exq_RequestID : UUIDv7;
  exq_SourceID : string;
  exq_Cursor : string;
  exq_Limit : Z;
  exq_WaitMillis : Z
}.

#[export] Instance eta_ExportRequest : Eta ExportRequest := fun r =>
  mkExportRequest
    (exq_ProtocolVersion r) (exq_RequestID r) (exq_SourceID r) (exq_Cursor r) (exq_Limit r)
    (exq_WaitMillis r).

Record ExportRecord := mkExportRecord {
  exr_EventID : UUIDv7;
  exr_ContractManifest : string;
  exr_EventType : string;
  exr_EventVersion : string;
  exr_EventBytesBase64 : string;
  exr_EventBytesSHA256 : Digest;
  exr_EventBytesLength : Z;
  exr_Cursor : string
}.

#[export] Instance eta_ExportRecord : Eta ExportRecord := fun r =>
  mkExportRecord
    (exr_EventID r) (exr_ContractManifest r) (exr_EventType r) (exr_EventVersion r)
    (exr_EventBytesBase64 r) (exr_EventBytesSHA256 r) (exr_EventBytesLength r)
    (exr_Cursor r).

Record ExportResponse := mkExportResponse {
  exs_ProtocolVersion : string;
  exs_RequestID : UUIDv7;
  exs_SourceID : string;
  exs_SourceContractManifest : string;
  exs_SourceContractManifestSHA256 : Digest;
  exs_Status : string;
  exs_Records : list ExportRecord;
  exs_NextCursor : string;
  exs_ReasonCode : string
}.

#[export] Instance eta_ExportResponse : Eta ExportResponse := fun r =>
  mkExportResponse
    (exs_ProtocolVersion r) (exs_RequestID r) (exs_SourceID r)
    (exs_SourceContractManifest r) (exs_SourceContractManifestSHA256 r) (exs_Status r)
    (exs_Records r) (exs_NextCursor r) (exs_ReasonCode r).

Record TelemetryRecord := mkTelemetryRecord {
  tel_Status : string;
  tel_SourceID : string;
  tel_Principal : PrincipalRef;
  tel_RecordCount : Z;
  tel_Duration : Z;
  tel_CursorDigest : Digest
}.

#[export] Instance eta_TelemetryRecord : Eta TelemetryRecord := fun r =>
  mkTelemetryRecord
    (tel_Status r) (tel_SourceID r) (tel_Principal r) (tel_RecordCount r) (tel_Duration r)
    (tel_CursorDigest r).

(** [Bytes] and [Position]. *)
Record RawRecord := mkRawRecord { raw_Bytes : string; raw_Position : list Z }.

(** *** Stored events *)

#[export] Instance eta_DagParent : Eta DagParent := fun r => mkParent (dp_ParentEventID r) (dp_EdgeKind r).
Definition dec_DagParent : decoder DagParent :=
  dec_struct [fld "parent_event_id" dp_ParentEventID dec_string; fld "edge_kind" dp_EdgeKind dec_string].

#[export] Instance eta_DomainEvent : Eta DomainEvent := fun r =>
  mkEvent (ev_ContractManifest r) (ev_EventID r) (ev_EventType r) (ev_EventVersion r) (ev_Aggregate r)
    (ev_AggregateRevision r) (ev_LifecycleEpoch r) (ev_CommandID r) (ev_Authority r) (ev_ActorFQN r) (ev_Execution r)
    (ev_Parents r) (ev_CommittedAt r) (ev_Payload r) (ev_ProvenanceDigest r).
Definition zero_DomainEvent : DomainEvent :=
  mkEvent "" "" "" "" zero_ref 0 0 "" zero_principal None None [] zero_time "" "".

(** A raw message is the text of its value, here without the white space between
    its tokens; it is empty only when the member is missing. *)
Definition dec_raw : decoder string := fun j _ => Some (render j).

Definition fields_DomainEvent : list (field DomainEvent) :=
  [fld "contract_manifest" ev_ContractManifest dec_string; fld "event_id" ev_EventID dec_string;
   fld "event_type" ev_EventType dec_string; fld "event_version" ev_EventVersion dec_string;
   fld "aggregate" ev_Aggregate dec_AggregateRef; fld "aggregate_revision" ev_AggregateRevision dec_u64;
   fld "lifecycle_epoch" ev_LifecycleEpoch dec_u64; fld "command_id" ev_CommandID dec_string;
   fld "authority" ev_Authority dec_PrincipalRef; fld "actor_fqn" ev_ActorFQN (dec_ptr "" dec_string);
   fld "execution" ev_Execution (dec_ptr zero_exec dec_ExecutionTuple);
   fld "parents" ev_Parents (dec_slice (mkParent "" "") dec_DagParent); fld "committed_at" ev_CommittedAt dec_time;
   fld "payload" ev_Payload dec_raw; fld "provenance_digest" ev_ProvenanceDigest dec_string].

Definition json_valid (text : string) : bool := negb (is_nil (json_parse text)).

Definition DecodeDomainEvent (bytes : string) : option DomainEvent :=
  when (slen bytes =? 0) || negb (json_valid bytes) return None ;;
  try event <- Unmarshal fields_DomainEvent zero_DomainEvent bytes ;;
  when (ev_ContractManifest event != ContractIdentity) || negb (UUIDv7_Valid (ev_EventID event)) || (ev_EventType event == "")
       || (ev_EventVersion event == "") || negb (AggregateRef_Valid (ev_Aggregate event)) || (ev_AggregateRevision event =? 0)
       || (ev_LifecycleEpoch event =? 0) || negb (UUIDv7_Valid (ev_CommandID event))
       || negb (PrincipalRef_Valid (ev_Authority event)) || IsZero (ev_CommittedAt event)
       || negb (Digest_Valid (ev_ProvenanceDigest event)) || negb (json_valid (ev_Payload event))
    return None ;;
  Some event.

(** ** The service *)

(** Times and durations are in nanoseconds; a key is a list of bytes. *)
Record Config := mkConfig {
  cfg_Source : bool;
  cfg_Authorizer : bool;
  cfg_CursorKey : list Z;
  cfg_CursorTTL : Z;
  cfg_MaximumLimit : Z;
  cfg_MaximumWait : Z;
  cfg_Telemetry : bool
}.

Record Service := mkService {
  sv_cursorKey : list Z;
  sv_cursorTTL : Z;
  sv_maximumLimit : Z;
  sv_maximumWait : Z;
  sv_telemetry : bool
}.

Definition NewService (config : Config) : option Service :=
  when negb (cfg_Source config) || negb (cfg_Authorizer config) || (llen (cfg_CursorKey config) <? 32)
       || (cfg_CursorTTL config <=? 0)
    return None ;;
  let limit := if (cfg_MaximumLimit config <=? 0) || (MaximumLimit <? cfg_MaximumLimit config) then MaximumLimit
               else cfg_MaximumLimit config in
  let wait := if (cfg_MaximumWait config <=? 0) || (MaximumWait <? cfg_MaximumWait config) then MaximumWait
              else cfg_MaximumWait config in
  Some (mkService (cfg_CursorKey config) (cfg_CursorTTL config) limit wait (cfg_Telemetry config)).

(** Calls of the clock, the source, its open feed and the telemetry. *)
Inductive export_calls (A : Type) : Type :=
| Finished (a : A)
| ReadClock (k : Time -> export_calls A)
| OpenFeed (sourceID : string) (position : list Z) (k : option export_error -> export_calls A)
| NextRecord (k : export_error + RawRecord -> export_calls A)
| FeedPosition (k : list Z -> export_calls A)
| CloseFeed (k : export_calls A)
| Observe (record : TelemetryRecord) (k : export_calls A).
Arguments Finished {A} a.
Arguments ReadClock {A} k.
Arguments OpenFeed {A} sourceID position k.
Arguments NextRecord {A} k.
Arguments FeedPosition {A} k.
Arguments CloseFeed {A} k.
Arguments Observe {A} record k.

Abbreviation exported := (ExportResponse * option export_error)%type.

(** *** Cursors *)

Record cursorEnvelope := mkcursorEnvelope {
  cue_Version : string;
  cue_SourceID : string;
  cue_Identity : AuthenticatedContext;
  cue_Position : string;
  cue_ExpiresAt : Time
}.

#[export] Instance eta_cursorEnvelope : Eta cursorEnvelope := fun r =>
  mkcursorEnvelope
    (cue_Version r) (cue_SourceID r) (cue_Identity r) (cue_Position r) (cue_ExpiresAt r).

Definition zero_cursorEnvelope : cursorEnvelope :=
  mkcursorEnvelope
    "" "" zero_AuthenticatedContext "" zero_time.

Definition fields_cursorEnvelope : list (field cursorEnvelope) :=
  [
    fld "v" cue_Version dec_string;
    fld "s" cue_SourceID dec_string;
    fld "i" cue_Identity dec_AuthenticatedContext;
    fld "p" cue_Position dec_string;
    fld "e" cue_ExpiresAt dec_time
  ].

Definition json_identity (identity : AuthenticatedContext) : json :=
  obj [("principal", marshal (aut_Principal identity)); ("actor_fqn", marshal_pointer (aut_ActorFQN identity));
       ("execution", marshal_pointer (aut_Execution identity))].

Definition json_envelope (e : cursorEnvelope) : option json :=
  marshal_struct [field_of "v" (cue_Version e); field_of "s" (cue_SourceID e); ("i", Some (json_identity (cue_Identity e)));
                  field_of "p" (cue_Position e); ("e", marshal_time (cue_ExpiresAt e))].

Definition new_envelope (identity : AuthenticatedContext) (sourceID : string) (position : list Z) (expires : Time)
    : cursorEnvelope :=
  mkcursorEnvelope ProtocolVersion sourceID identity (RawURLEncoding position) expires.

(** [UTC] drops the zone. *)
Definition expiry (sv : Service) (now : Time) : Time := mkTime (t_nanos now + sv_cursorTTL sv) 0.

Definition cursor_text (key : list Z) (envelope : cursorEnvelope) : option string :=
  try tree <- json_envelope envelope ;;
  let payload := bytes_of (render tree) in
  Some (RawURLEncoding payload +:+ "." +:+ RawURLEncoding (hmac_sha256 key payload)).

Definition encodeCursor {A} (sv : Service) (identity : AuthenticatedContext) (sourceID : string) (position : list Z)
    (k : option string -> export_calls A) : export_calls A :=
  ReadClock (fun now => k (cursor_text (sv_cursorKey sv) (new_envelope identity sourceID position (expiry sv now)))).

(** [strings.Split] gives two parts when there is exactly one dot. *)
Definition split_cursor (cursor : string) : option (string * string) :=
  try parts <- str_cut "." cursor ;;
  when str_contains (snd parts) "." return None ;;
  Some parts.

(** The signed envelope of a cursor. *)
Definition read_cursor (key : list Z) (cursor : string) : option cursorEnvelope :=
  try parts <- split_cursor cursor ;;
  match RawURLDecode (fst parts), RawURLDecode (snd parts) with
  | Some payload, Some signature =>
    when signature != hmac_sha256 key payload return None ;;
    Unmarshal fields_cursorEnvelope zero_cursorEnvelope (bytes_str payload)
  | _, _ => None
  end.

(** The clock is read last; [None] is [ErrInvalidCursor]. *)
Definition decodeCursor {A} (sv : Service) (cursor : string) (identity : AuthenticatedContext) (sourceID : string)
    (k : option (list Z) -> export_calls A) : export_calls A :=
  match read_cursor (sv_cursorKey sv) cursor with
  | None => k None
  | Some envelope =>
    when (cue_Version envelope != ProtocolVersion) || (cue_SourceID envelope != sourceID)
         || negb (AuthenticatedContext_Equal (cue_Identity envelope) identity)
      return k None ;;
    ReadClock (fun now =>
      when negb (Before now (cue_ExpiresAt envelope)) return k None ;;
      k (RawURLDecode (cue_Position envelope)))
  end.

(** *** Exporting a page *)

Section export.
(** [Authorizer.Allow]. *)
Variable allow : AuthenticatedContext -> string -> bool.
Variable sv : Service.

Definition validate (identity : AuthenticatedContext) (request : ExportRequest) : option export_error :=
  when negb (AuthenticatedContext_Valid identity) || (exq_ProtocolVersion request != ProtocolVersion)
       || negb (UUIDv7_Valid (exq_RequestID request)) || (TrimSpace (exq_SourceID request) != exq_SourceID request)
       || (exq_SourceID request == "") || (256 <? slen (exq_SourceID request)) || (exq_Limit request <=? 0)
       || (sv_maximumLimit sv <? exq_Limit request) || (exq_WaitMillis request =? 0)
       || (sv_maximumWait sv <? exq_WaitMillis request * 1000000)
    return Some ErrInvalidRequest ;;
  when negb (allow identity (exq_SourceID request)) return Some ErrUnauthorized ;;
  None.

Definition failure_status (response : ExportResponse) (err : option export_error) : string :=
  match err with
  | None => exs_Status response
  | Some ErrInvalidRequest => "INVALID_REQUEST"
  | Some ErrUnauthorized => "UNAUTHORIZED"
  | Some ErrInvalidCursor => "INVALID_CURSOR"
  | Some (ErrExportContext _) => "DEADLINE_EXCEEDED"
  | Some _ => "SOURCE_FAILURE"
  end.

(** [Time.Sub] saturates. *)
Definition Time_Sub (t u : Time) : Z := Z.max (- 2 ^ 63) (Z.min (2 ^ 63 - 1) (t_nanos t - t_nanos u)).

(** The deferred call at every return. *)
Definition observe_export (identity : AuthenticatedContext) (started : Time) (response : ExportResponse) (err : option export_error)
    : export_calls exported :=
  when negb (sv_telemetry sv) return Finished (response, err) ;;
  ReadClock (fun now =>
    Observe (mkTelemetryRecord (failure_status response err) (exs_SourceID response) (aut_Principal identity)
               (llen (exs_Records response)) (Time_Sub now started) (sha256_hex (exs_NextCursor response)))
      (Finished (response, err))).

Definition empty_response (request : ExportRequest) : ExportResponse :=
  {| exs_ProtocolVersion := ProtocolVersion; exs_RequestID := exq_RequestID request; exs_SourceID := exq_SourceID request;
     exs_SourceContractManifest := ContractIdentity; exs_SourceContractManifestSHA256 := SourceManifestSHA256;
     exs_Status := ""; exs_Records := []; exs_NextCursor := ""; exs_ReasonCode := "" |}.

Definition export_record (event : DomainEvent) (bytes cursor : string) : ExportRecord :=
  {| exr_EventID := ev_EventID event; exr_ContractManifest := ev_ContractManifest event; exr_EventType := ev_EventType event;
     exr_EventVersion := ev_EventVersion event; exr_EventBytesBase64 := StdEncoding (bytes_of bytes);
     exr_EventBytesSHA256 := sha256_hex bytes; exr_EventBytesLength := slen bytes; exr_Cursor := cursor |}.

Section page.
Variable identity : AuthenticatedContext.
Variable sourceID : string.
(** What follows the return: the deferred calls. *)
Variable return_ : ExportResponse -> option export_error -> export_calls exported.

Definition resync (response : ExportResponse) : export_calls exported :=
  let response := response <| exs_Status := StatusResyncRequired |> <| exs_ReasonCode := "SOURCE_CURSOR_HISTORY_LOST" |> in
  encodeCursor sv identity sourceID [] (fun cursor =>
    match cursor with
    | None => return_ (response <| exs_NextCursor := "" |>) (Some ErrMarshalCursor)
    | Some text => return_ (response <| exs_NextCursor := text |>) None
    end).

Definition end_page (response : ExportResponse) : export_calls exported :=
  FeedPosition (fun position =>
    encodeCursor sv identity sourceID position (fun cursor =>
      match cursor with
      | None => return_ (response <| exs_NextCursor := "" |>) (Some ErrMarshalCursor)
      | Some text =>
        let response := response <| exs_NextCursor := text |> in
        return_ (response <| exs_Status := if llen (exs_Records response) =? 0 then StatusCaughtUp else StatusRecords |>) None
      end)).

(** [room] is the limit less the records the page has. *)
Fixpoint read_page (room : nat) (response : ExportResponse) : export_calls exported :=
  match room with
  | O => end_page response
  | S room =>
    NextRecord (fun answer =>
      match answer with
      | inl ErrCaughtUp | inl (ErrExportContext DeadlineExceeded) => end_page response
      | inl ErrResyncRequired => resync response
      | inl e => return_ response (Some e)
      | inr raw =>
        match DecodeDomainEvent (raw_Bytes raw) with
        | None => return_ response (Some ErrCorruptEvent)
        | Some event =>
          encodeCursor sv identity sourceID (raw_Position raw) (fun cursor =>
            match cursor with
            | None => return_ response (Some ErrMarshalCursor)
            | Some text =>
              read_page room
                (response <| exs_Records := exs_Records response ++ [export_record event (raw_Bytes raw) text] |>)
            end)
        end
      end)
  end.
End page.

Definition Export (identity : AuthenticatedContext) (request : ExportRequest) : export_calls exported :=
  ReadClock (fun started =>
    let finish := observe_export identity started in
    let response := empty_response request in
    match validate identity request with
    | Some e => finish response (Some e)
    | None =>
      let open_at position :=
        OpenFeed (exq_SourceID request) position (fun opened =>
          match opened with
          | Some ErrResyncRequired => resync identity (exq_SourceID request) finish response
          | Some e => finish response (Some e)
          | None =>
            read_page identity (exq_SourceID request) (fun response err => CloseFeed (finish response err))
              (Z.to_nat (exq_Limit request)) response
          end) in
      if exq_Cursor request == "" then open_at []
      else decodeCursor sv (exq_Cursor request) identity (exq_SourceID request) (fun position =>
        match position with
        | None => finish response (Some ErrInvalidCursor)
        | Some position => open_at position
        end)
    end).
End export.

(** ** The in-memory source *)

(** [es_onOpen] tells whether an observer is set; its calls change nothing here. *)
Record EventExportSource := mkExportSource {
  es_sourceID : string;
  es_generation : Z;
  es_records : list string;
  es_onOpen : bool
}.
#[export] Instance eta_EventExportSource : Eta EventExportSource := fun r =>
  mkExportSource (es_sourceID r) (es_generation r) (es_records r) (es_onOpen r).

Definition NewEventExportSource (sourceID : string) : option EventExportSource :=
  when sourceID == "" return None ;; Some (mkExportSource sourceID 1 [] false).

(** [false] is an error. *)
Definition source_Append (source : EventExportSource) (eventBytes : string) : EventExportSource * bool :=
  match DecodeDomainEvent eventBytes with
  | None => (source, false)
  | Some _ => (source <| es_records := es_records source ++ [eventBytes] |>, true)
  end.

Definition ResetHistory (source : EventExportSource) : EventExportSource :=
  source <| es_generation := u64 (es_generation source + 1) |>.

Definition SetOpenObserver (source : EventExportSource) (observer : bool) : EventExportSource :=
  source <| es_onOpen := observer |>.

Record memoryEventFeed := mkMemoryFeed {
  mf_generation : Z;
  mf_index : Z;
  mf_backlogEnd : Z;
  mf_closed : bool
}.
#[export] Instance eta_memoryEventFeed : Eta memoryEventFeed := fun r =>
  mkMemoryFeed (mf_generation r) (mf_index r) (mf_backlogEnd r) (mf_closed r).

(** The index a position stands for; [None] when history was lost. *)
Definition position_index (source : EventExportSource) (position : list Z) : option Z :=
  when llen position <=? 0 return Some 0 ;;
  when negb (llen position =? 16) || negb (Uint64 (firstn 8 position) =? es_generation source) return None ;;
  let index := Uint64 (skipn 8 position) in
  when llen (es_records source) <? index return None ;;
  Some index.

Definition source_Open (ctx : Context) (source : EventExportSource) (sourceID : string) (position : list Z)
    : export_error + memoryEventFeed :=
  match ctx with
  | Some e => inl (ErrExportContext e)
  | None =>
    when sourceID != es_sourceID source return inl ErrUnauthorized ;;
    match position_index source position with
    | None => inl ErrResyncRequired
    | Some index => inr (mkMemoryFeed (es_generation source) index (llen (es_records source)) false)
    end
  end.

Definition positionLocked (feed : memoryEventFeed) : list Z := PutUint64 (mf_generation feed) ++ PutUint64 (mf_index feed).

Definition feed_Next (ctx : Context) (source : EventExportSource) (feed : memoryEventFeed)
    : (export_error + RawRecord) * memoryEventFeed :=
  match ctx with
  | Some e => (inl (ErrExportContext e), feed)
  | None =>
    when mf_closed feed return (inl (ErrFeed "event export feed is closed"), feed) ;;
    when negb (mf_generation feed =? es_generation source) return (inl ErrResyncRequired, feed) ;;
    match es_records source !! Z.to_nat (mf_index feed) with
    | None => (inl ErrCaughtUp, feed)
    | Some bytes =>
      let feed := feed <| mf_index := u64 (mf_index feed + 1) |> in
      (inr (mkRawRecord bytes (positionLocked feed)), feed)
    end
  end.

Definition feed_Close (feed : memoryEventFeed) : memoryEventFeed := feed <| mf_closed := true |>.
