(* ===== verification/EventExportLaws.v ===== *)
(** * Theorems on event export

    A cursor is accepted exactly for the client and the source it was issued to,
    before it expires, and stands for the position it was issued for; a client
    that follows its cursors receives every stored event once and in order. *)

From S2P Require Import Prelude GoText GoTime GoJson GoMarshal GoJsonLaws GoMarshalLaws GoTimeLaws Types Samples.
From S2P Require Import Sha256 Base64 Payload Envelope State Evidence Variant Fingerprint Provenance MemoryStore.
From S2P Require Import OperationalExecution OperationalCoordinator OperationalLaws EventExport.

#[local] Opaque UUIDv7_Valid ActorFQN_Valid Digest_Valid hmac_sha256 enc_fixed.

(** ** Cursors *)

(** An identity whose texts are UTF-8, with its words. *)
Definition identity_fits (identity : AuthenticatedContext) : Prop :=
  fits (aut_Principal identity) /\ (forall a, aut_ActorFQN identity = Some a -> utf8 a) /\
  (forall e, aut_Execution identity = Some e -> fits e).

Definition envelope_fits (e : cursorEnvelope) : Prop :=
  utf8 (cue_Version e) /\ utf8 (cue_SourceID e) /\ identity_fits (cue_Identity e) /\ utf8 (cue_Position e) /\
  t_offset (cue_ExpiresAt e) = 0.

Lemma pointer_wf {A} `{CodecLaws A} (o : option A) : (forall x, o = Some x -> fits x) -> json_wf (marshal_pointer o).
Proof. intros Ho. destruct o as [x|]; [by apply marshal_wf, Ho|done]. Qed.

Lemma identity_wf identity : identity_fits identity -> json_wf (json_identity identity).
Proof.
  intros (Hp & Ha & He). apply object_wf; [vm_compute; reflexivity|].
  repeat (apply Forall_cons_2; [first [by apply (marshal_wf (A := PrincipalRef))
    | by apply (pointer_wf (A := string)) | by apply (pointer_wf (A := ExecutionTuple))]|]). apply Forall_nil_2.
Qed.

Lemma principal_reads p cur : fits p -> dec_PrincipalRef (marshal p) cur = Some p.
Proof.
  destruct p as [k i], cur as [k' i']. intros [Hk Hi]. cbn in Hk, Hi. unfold dec_PrincipalRef. cbn [marshal principal_codec]. unfold obj.
  rewrite dec_struct_plain by (vm_compute; reflexivity). payload_reads. reflexivity.
Qed.

Lemma execution_reads e cur : fits e -> dec_ExecutionTuple (marshal e) cur = Some e.
Proof.
  destruct e as [i n], cur as [i' n']. intros [Hi Hn]. cbn in Hi, Hn. unfold dec_ExecutionTuple. cbn [marshal execution_codec]. unfold obj.
  rewrite dec_struct_plain by (vm_compute; reflexivity). payload_reads. reflexivity.
Qed.

Lemma string_reads s cur : utf8 s -> dec_string (JString (enc_html s)) cur = Some s.
Proof. intros H. payload_reads. reflexivity. Qed.

Lemma pointer_reads {A} `{Codec A} (zero : A) (d : decoder A) (o : option A) :
  (forall x, marshal x <> JNull) -> (forall x, o = Some x -> d (marshal x) zero = Some x) ->
  dec_ptr zero d (marshal_pointer o) None = Some o.
Proof.
  intros Hn Hd. destruct o as [x|]; [|done]. cbn [marshal_pointer]. specialize (Hd x eq_refl). specialize (Hn x).
  unfold dec_ptr. destruct (marshal x); try done; by rewrite Hd.
Qed.

Lemma identity_reads identity :
  identity_fits identity -> dec_AuthenticatedContext (json_identity identity) zero_AuthenticatedContext = Some identity.
Proof.
  intros (Hp & Ha & He). unfold dec_AuthenticatedContext, json_identity, obj. rewrite dec_struct_plain by (vm_compute; reflexivity).
  assert (forall s : string, marshal s <> JNull) as N1 by done. assert (forall e : ExecutionTuple, marshal e <> JNull) as N2 by done.
  pose proof (principal_reads (aut_Principal identity) zero_principal Hp) as E1.
  pose proof (pointer_reads (A := ActorFQN) "" dec_string (aut_ActorFQN identity) N1
    (fun x Hx => string_reads x "" (Ha x Hx))) as E2.
  pose proof (pointer_reads zero_exec dec_ExecutionTuple (aut_Execution identity) N2
    (fun x Hx => execution_reads x zero_exec (He x Hx))) as E3.
  generalize dependent (marshal (aut_Principal identity)). intros j1 E1.
  generalize dependent (marshal_pointer (aut_ActorFQN identity)). intros j2 E2.
  generalize dependent (marshal_pointer (aut_Execution identity)). intros j3 E3.
  destruct identity as [p a e]. cbn [aut_Principal aut_ActorFQN aut_Execution] in E1, E2, E3. unfold ActorFQN in E2.
  lazy -[dec_PrincipalRef dec_ptr zero_principal zero_exec dec_string dec_ExecutionTuple]. rewrite E1.
  lazy -[dec_PrincipalRef dec_ptr zero_principal zero_exec dec_string dec_ExecutionTuple]. rewrite E2.
  lazy -[dec_PrincipalRef dec_ptr zero_principal zero_exec dec_string dec_ExecutionTuple]. rewrite E3. reflexivity.
Qed.

Lemma envelope_reads e tree :
  envelope_fits e -> json_envelope e = Some tree -> Unmarshal fields_cursorEnvelope zero_cursorEnvelope (render tree) = Some e.
Proof.
  intros (Hv & Hs & Hi & Hp & Hz) H. unfold json_envelope, marshal_struct, marshal_time in H.
  destruct (time_text (cue_ExpiresAt e)) as [text|] eqn:Ht; [|done]. cbn [marshal_members field_of] in H. injection H as <-.
  pose proof (time_roundtrip (cue_ExpiresAt e) text ltac:(rewrite Hz; split; [reflexivity|lia]) Ht) as Hr.
  match goal with |- Unmarshal _ _ (render ?j) = _ => change (render j) with (payload_text (Some j)) end.
  rewrite Unmarshal_struct; [|vm_compute; reflexivity| |].
  - pose proof (identity_reads (cue_Identity e) Hi) as E3. pose proof (string_reads (cue_Version e) "" Hv) as E1.
    pose proof (string_reads (cue_SourceID e) "" Hs) as E2. pose proof (string_reads (cue_Position e) "" Hp) as E4.
    generalize dependent (json_identity (cue_Identity e)). intros j3 E3.
    destruct e as [v s i p t]. cbn [cue_Version cue_SourceID cue_Identity cue_Position cue_ExpiresAt] in E1, E2, E3, E4, Hr |- *.
    assert (find_field fields_cursorEnvelope "v" = Some (fld "v" cue_Version dec_string)) as F1 by reflexivity.
    assert (find_field fields_cursorEnvelope "s" = Some (fld "s" cue_SourceID dec_string)) as F2 by reflexivity.
    assert (find_field fields_cursorEnvelope "i" = Some (fld "i" cue_Identity dec_AuthenticatedContext)) as F3 by reflexivity.
    assert (find_field fields_cursorEnvelope "p" = Some (fld "p" cue_Position dec_string)) as F4 by reflexivity.
    assert (find_field fields_cursorEnvelope "e" = Some (fld "e" cue_ExpiresAt dec_time)) as F5 by reflexivity.
    cbn [dec_plain]. rewrite F1, F2, F3, F4, F5. unfold fld. cbn [snd].
    change (cue_Version zero_cursorEnvelope) with "". rewrite E1.
    change (cue_SourceID (zero_cursorEnvelope <| cue_Version := v |>)) with "". rewrite E2.
    set (r2 := zero_cursorEnvelope <| cue_Version := v |> <| cue_SourceID := s |>).
    change (cue_Identity r2) with zero_AuthenticatedContext. rewrite E3.
    change (cue_Position (r2 <| cue_Identity := i |>)) with "". rewrite E4.
    cbn [dec_time]. rewrite Hr. reflexivity.
  - apply Forall_cons_2; [exact (marshal_wf (A := string) (cue_Version e) Hv)|].
    apply Forall_cons_2; [exact (marshal_wf (A := string) (cue_SourceID e) Hs)|].
    apply Forall_cons_2; [exact (identity_wf (cue_Identity e) Hi)|].
    apply Forall_cons_2; [exact (marshal_wf (A := string) (cue_Position e) Hp)|].
    apply Forall_cons_2; [exact (time_text_literal _ _ Ht)|]. apply Forall_nil_2.
  - apply (Nat.le_trans _ 5); [|apply Nat.leb_le; reflexivity]. cbn. destruct (aut_ActorFQN _), (aut_Execution _); cbn; lia.
Qed.

Lemma url_ascii n : 0 <= n < 64 -> (byte_of (url_char n) <? 128) = true.
Proof.
  intros H. assert (forallb (fun n => byte_of (url_char n) <? 128) (seqZ 0 64) = true) as K by (vm_compute; reflexivity).
  apply forallb_True_iff in K. rewrite Forall_forall in K. apply K, elem_of_seqZ. lia.
Qed.

Lemma RawURL_utf8 bytes : Forall is_byte bytes -> utf8 (RawURLEncoding bytes).
Proof.
  intros H. apply utf8_of_ascii. revert H. unfold is_byte, RawURLEncoding.
  induction bytes as [|x|x y|x y z l IH] using triples_ind; intros H; rewrite ?Forall_cons in H;
    cbn [encode64 all_chars String.append]; rewrite ?url_ascii by (Z.to_euclidean_division_equations; lia); try done. apply IH, H.
Qed.

Lemma no_dots s : all_chars url_safe s = true -> all_chars (fun d => d != "."%char) s = true.
Proof. apply all_chars_impl. intros c. unfold url_safe. by intros [_ ?]%andb_true_iff. Qed.

Lemma no_dots_contains s : all_chars url_safe s = true -> str_contains s "." = false.
Proof.
  intros H%no_dots. unfold str_contains. induction s as [|c s IH]; [done|]. cbn [all_chars] in H.
  apply andb_true_iff in H as [Hc Hs]. cbn [str_cut has_prefix]. bprop Hc.
  rewrite (bool_decide_false ("."%char = c)) by congruence. cbn [andb]. specialize (IH Hs). by destruct (str_cut "." s) as [[]|].
Qed.

Lemma cursor_reads key e text : envelope_fits e -> cursor_text key e = Some text -> read_cursor key text = Some e.
Proof.
  intros He H. unfold cursor_text in H. destruct (json_envelope e) as [tree|] eqn:Et; [|done]. injection H as <-.
  pose proof (encode64_safe _ (bytes_of_bytes (render tree))) as H1. pose proof (encode64_safe _ (hmac_bytes key (bytes_of (render tree)))) as H2.
  unfold read_cursor, split_cursor.
  match goal with |- context [str_cut "." ?text] => change text with
    (RawURLEncoding (bytes_of (render tree)) ++ "." ++ RawURLEncoding (hmac_sha256 key (bytes_of (render tree))))%string end.
  rewrite str_cut_app by (by apply no_dots). cbn [fst snd]. rewrite no_dots_contains by done. cbn [fst snd].
  rewrite !RawURL_roundtrip by first [apply bytes_of_bytes|apply hmac_bytes]. rewrite neqb_refl, bytes_str_of.
  by apply envelope_reads.
Qed.

(** What a program that only reads the clock returns when the clock stands still. *)
Fixpoint at_time {A} (now : Time) (p : export_calls A) : option A :=
  match p with
  | Finished a => Some a
  | ReadClock k => at_time now (k now)
  | _ => None
  end.

Lemma new_envelope_fits identity sourceID position expires :
  identity_fits identity -> utf8 sourceID -> Forall is_byte position -> t_offset expires = 0 ->
  envelope_fits (new_envelope identity sourceID position expires).
Proof. intros Hi Hs Hp He. split_and!; try done; [apply utf8_of_ascii; reflexivity|by apply RawURL_utf8]. Qed.

Lemma AuthenticatedContext_Equal_spec a b : AuthenticatedContext_Equal a b = (a == b).
Proof.
  unfold AuthenticatedContext_Equal. destruct (a == b) eqn:E; bprop E; [subst b; by rewrite !bool_decide_refl|].
  apply not_true_is_false. intros H. bprop H. split_ands. apply E. destruct a, b. cbn in *. congruence.
Qed.

(** A cursor that was issued, with the position it stands for. *)
Lemma decode_issued {A} sv identity sourceID position expires cursor identity' sourceID' (k : _ -> export_calls A) :
  identity_fits identity -> utf8 sourceID -> Forall is_byte position -> t_offset expires = 0 ->
  cursor_text (sv_cursorKey sv) (new_envelope identity sourceID position expires) = Some cursor ->
  decodeCursor sv cursor identity' sourceID' k =
  if (sourceID != sourceID') || (identity != identity') then k None
  else ReadClock (fun now => if negb (Before now expires) then k None else k (Some position)).
Proof.
  intros Hi Hs Hp He Hc. unfold decodeCursor.
  rewrite (cursor_reads _ _ _ (new_envelope_fits identity sourceID position expires Hi Hs Hp He) Hc).
  cbn [cue_Version cue_SourceID cue_Identity cue_Position cue_ExpiresAt new_envelope].
  rewrite AuthenticatedContext_Equal_spec, neqb_refl, RawURL_roundtrip by done. reflexivity.
Qed.

(** [C11] A cursor is good for exactly what it was issued for. The text that
    [encodeCursor] issues at one time for a client, a source and a position is
    decoded at another time, on behalf of a client and a source, to that position
    if they are the same client and the same source and the cursor has not
    expired, and is refused in every other case. *)
Theorem cursor_roundtrip sv identity sourceID position issued identity' sourceID' now text :
  identity_fits identity -> utf8 sourceID -> Forall is_byte position ->
  at_time issued (encodeCursor sv identity sourceID position Finished) = Some (Some text) ->
  at_time now (decodeCursor sv text identity' sourceID' Finished) =
  Some (if (sourceID == sourceID') && (identity == identity') && (t_nanos now <? t_nanos issued + sv_cursorTTL sv)
        then Some position else None).
Proof.
  intros Hi Hs Hp H. cbn [encodeCursor at_time] in H. injection H as H.
  rewrite (decode_issued sv identity sourceID position (expiry sv issued)) by done.
  destruct (sourceID == sourceID'), (identity == identity'); cbn [negb orb andb at_time]; try done.
  unfold Before, expiry. cbn [t_nanos]. by destruct (_ <? _).
Qed.

(** ** Reading page by page *)

(** What happens to the source between two calls, the state of the context and
    the reading of the clock. *)
Inductive source_op := OpAppend (bytes : string) | OpReset.
Definition apply_op (s : EventExportSource) (op : source_op) : EventExportSource :=
  match op with OpAppend bytes => fst (source_Append s bytes) | OpReset => ResetHistory s end.
Record moment := mkMoment { mo_ops : list source_op; mo_ctx : Context; mo_now : Time }.

Definition at_moment (m : moment) (s : EventExportSource) : EventExportSource := foldl apply_op s (mo_ops m).

(** The in-memory source and its open feed serve the calls. *)
Fixpoint run_export {A} (moments : nat -> moment) (n : nat) (s : EventExportSource) (feed : option memoryEventFeed)
    (p : export_calls A) : EventExportSource * A :=
  let m := moments n in
  match p with
  | Finished a => (s, a)
  | ReadClock k => run_export moments (S n) (at_moment m s) feed (k (mo_now m))
  | OpenFeed sourceID position k =>
    match source_Open (mo_ctx m) (at_moment m s) sourceID position with
    | inl e => run_export moments (S n) (at_moment m s) None (k (Some e))
    | inr f => run_export moments (S n) (at_moment m s) (Some f) (k None)
    end
  | NextRecord k =>
    match feed with
    | None => run_export moments (S n) (at_moment m s) None (k (inl (ErrFeed "no feed")))
    | Some f =>
      let '(answer, f) := feed_Next (mo_ctx m) (at_moment m s) f in run_export moments (S n) (at_moment m s) (Some f) (k answer)
    end
  | FeedPosition k => run_export moments (S n) (at_moment m s) feed (k (match feed with Some f => positionLocked f | None => [] end))
  | CloseFeed k => run_export moments (S n) (at_moment m s) (option_map feed_Close feed) k
  | Observe _ k => run_export moments (S n) (at_moment m s) feed k
  end.

(** A client keeps its cursor and what it has received: it takes the next cursor
    of a page, starts over when asked to, and tries again after an error. *)
Record client := mkClient { cl_cursor : string; cl_received : list ExportRecord }.

Definition take_response (c : client) (answer : exported) : client :=
  match answer with
  | (_, Some _) => c
  | (response, None) =>
    mkClient (exs_NextCursor response)
      ((if exs_Status response == StatusResyncRequired then [] else cl_received c ++ exs_Records response))
  end.

Definition client_step (allow : AuthenticatedContext -> string -> bool) (sv : Service) (identity : AuthenticatedContext)
    (c : client) (s : EventExportSource) (step : ExportRequest * (nat -> moment)) : client * EventExportSource :=
  let '(request, moments) := step in
  let '(s, answer) := run_export moments 0 s None (Export allow sv identity (request <| exq_Cursor := cl_cursor c |>)) in
  (take_response c answer, s).

Fixpoint client_run (allow : AuthenticatedContext -> string -> bool) (sv : Service) (identity : AuthenticatedContext)
    (c : client) (s : EventExportSource) (steps : list (ExportRequest * (nat -> moment))) : client * EventExportSource :=
  match steps with
  | [] => (c, s)
  | step :: steps => let '(c, s) := client_step allow sv identity c s step in client_run allow sv identity c s steps
  end.

(** What a record says of an event, and what it should say. *)
Definition content (r : ExportRecord) : string * Digest * Z :=
  (exr_EventBytesBase64 r, exr_EventBytesSHA256 r, exr_EventBytesLength r).
Definition content_of (bytes : string) : string * Digest * Z := (StdEncoding (bytes_of bytes), sha256_hex bytes, slen bytes).

(** *** The source only grows *)

Definition source_grows (s s' : EventExportSource) : Prop :=
  es_records s `prefix_of` es_records s' /\ (is_u64 (es_generation s) -> is_u64 (es_generation s')).

#[local] Instance source_grows_refl : Reflexive source_grows.
Proof. intros s. by split. Qed.
#[local] Instance source_grows_trans : Transitive source_grows.
Proof. intros a b c [H1 H2] [H3 H4]. split; [by etrans|auto]. Qed.

Lemma at_moment_grows m s : source_grows s (at_moment m s).
Proof.
  unfold at_moment. generalize (mo_ops m). intros ops. revert s. induction ops as [|op ops IH]; intros s; [done|].
  cbn [foldl]. etrans; [|apply IH]. destruct op as [bytes|]; cbn [apply_op].
  - unfold source_Append. destruct (DecodeDomainEvent bytes); [|done]. split; [by apply prefix_app_r|done].
  - split; [done|]. intros _. cbn. apply u64_range.
Qed.
#[local] Hint Resolve at_moment_grows : core.

Lemma run_grows {A} moments n s feed (p : export_calls A) : source_grows s (fst (run_export moments n s feed p)).
Proof.
  revert n s feed. induction p as [a|k IH|id position k IH|k IH|k IH|k IH|record k IH]; intros n s feed; cbn [run_export];
    try (etrans; [apply at_moment_grows|apply IH]).
  - done.
  - destruct (source_Open _ _ _ _); (etrans; [apply at_moment_grows|apply IH]).
  - destruct feed as [f|]; [|etrans; [apply at_moment_grows|apply IH]].
    destruct (feed_Next _ _ _). etrans; [apply at_moment_grows|apply IH].
Qed.

(** *** Pages *)

Definition slice {A} (i j : nat) (l : list A) : list A := firstn (j - i) (skipn i l).

Lemma slice_prefix {A} i j (l l' : list A) : l `prefix_of` l' -> (i <= j <= length l)%nat -> slice i j l' = slice i j l.
Proof.
  intros [tail ->] H. unfold slice. rewrite skipn_app, firstn_app. rewrite length_skipn.
  replace (j - i - (length l - i))%nat with O by lia. cbn [firstn]. by rewrite app_nil_r.
Qed.

Lemma slice_snoc {A} i j (l : list A) x : (i <= j)%nat -> l !! j = Some x -> slice i (S j) l = slice i j l ++ [x].
Proof.
  intros Hij Hx. unfold slice. replace (S j - i)%nat with (S (j - i)) by lia.
  rewrite (take_S_r _ _ x); [done|]. rewrite lookup_drop. by replace (i + (j - i))%nat with j by lia.
Qed.

Lemma slice_app {A} i j k (l : list A) : (i <= j <= k)%nat -> slice i j l ++ slice j k l = slice i k l.
Proof.
  intros H. unfold slice. replace (k - i)%nat with ((j - i) + (k - j))%nat by lia. rewrite <- take_take_drop, drop_drop.
  by replace (i + (j - i))%nat with j by lia.
Qed.

Section pages.
Context (allow : AuthenticatedContext -> string -> bool) (sv : Service) (identity : AuthenticatedContext) (sourceID : string).
Context (Hidentity : identity_fits identity) (Hsource : utf8 sourceID).

(** A position that stands for the first [n] events of a source. *)
Definition at_position (position : list Z) (n : nat) : Prop :=
  position = [] /\ n = O \/
  exists generation, is_u64 generation /\ is_u64 (Z.of_nat n) /\ position = PutUint64 generation ++ PutUint64 (Z.of_nat n).

(** A cursor issued to the client for the first [n] events. *)
Definition at_cursor (cursor : string) (n : nat) : Prop :=
  exists position expires, t_offset expires = 0 /\
    cursor_text (sv_cursorKey sv) (new_envelope identity sourceID position expires) = Some cursor /\
    at_position position n.

Lemma at_position_bytes position n : at_position position n -> Forall is_byte position.
Proof. intros [[-> _]|(g & _ & _ & ->)]; [constructor|]. apply Forall_app. split; apply PutUint64_bytes. Qed.

Lemma at_cursor_text cursor n : at_cursor cursor n -> cursor <> "".
Proof.
  intros (p & e & _ & H & _) ->. unfold cursor_text in H. destruct (json_envelope _) as [tree|]; [|done]. injection H as H.
  revert H. generalize (RawURLEncoding (bytes_of (render tree))). intros [|? ?]; intros H; discriminate H.
Qed.

(** What an answer says of the events from [i] on. *)
Definition page_of (i : nat) (s : EventExportSource) (answer : exported) : Prop :=
  let '(response, err) := answer in
  err = None ->
  if exs_Status response == StatusResyncRequired then at_cursor (exs_NextCursor response) 0
  else exists j, (i <= j <= length (es_records s))%nat /\
    map content (exs_Records response) = map content_of (slice i j (es_records s)) /\
    at_cursor (exs_NextCursor response) j.

(** Continuations that only end the call. *)
Definition ends (return_ : ExportResponse -> option export_error -> export_calls exported) : Prop :=
  forall response err moments n s feed, snd (run_export moments n s feed (return_ response err)) = (response, err).

Lemma observe_ends started : ends (observe_export sv identity started).
Proof. intros response err moments n s feed. unfold observe_export. by destruct (sv_telemetry sv). Qed.

Lemma close_ends return_ : ends return_ -> ends (fun response err => CloseFeed (return_ response err)).
Proof. intros H response err moments n s feed. cbn [run_export]. apply H. Qed.

Lemma resync_page return_ moments n s feed response i :
  ends return_ ->
  let '(s', answer) := run_export moments n s feed (resync sv identity sourceID return_ response) in page_of i s' answer.
Proof.
  intros He. unfold resync, encodeCursor. cbn [run_export].
  destruct (cursor_text _ _) as [text|] eqn:Ht;
    match goal with |- context [run_export ?ms ?k ?s1 ?f (return_ ?r ?e)] =>
      pose proof (He r e ms k s1 f) as Hr; destruct (run_export ms k s1 f (return_ r e)) as [s' answer] end;
    cbn [snd] in Hr; subst answer; [|done].
  intros _. cbn [exs_Status exs_NextCursor]. eval_tests. cbv iota. eexists [], _. split; [|split; [exact Ht|by left]]. done.
Qed.

(** The position of a feed that has read up to [j]. *)
Lemma feed_cursor f j now text :
  is_u64 (mf_generation f) -> is_u64 (Z.of_nat j) -> mf_index f = Z.of_nat j ->
  cursor_text (sv_cursorKey sv) (new_envelope identity sourceID (positionLocked f) (expiry sv now)) = Some text ->
  at_cursor text j.
Proof.
  intros Hg Hj Hi H. exists (positionLocked f), (expiry sv now). split; [done|]. split; [done|].
  right. exists (mf_generation f). unfold positionLocked. by rewrite Hi.
Qed.

Lemma end_page_of return_ moments n s f response i j :
  ends return_ -> exs_Status response = "" ->
  is_u64 (mf_generation f) -> is_u64 (Z.of_nat j) -> mf_index f = Z.of_nat j ->
  (i <= j <= length (es_records s))%nat ->
  map content (exs_Records response) = map content_of (slice i j (es_records s)) ->
  let '(s', answer) := run_export moments n s (Some f) (end_page sv identity sourceID return_ response) in page_of i s' answer.
Proof.
  intros He Hst Hg Hj Hf Hij Hrec.
  pose proof (run_grows moments n s (Some f) (end_page sv identity sourceID return_ response)) as [Hgr _].
  unfold end_page, encodeCursor in *. cbn [run_export] in *.
  destruct (cursor_text _ _) as [text|] eqn:Ht;
    match goal with |- context [run_export ?ms ?k ?s1 ?f (return_ ?r ?e)] =>
      pose proof (He r e ms k s1 f) as Hr; destruct (run_export ms k s1 f (return_ r e)) as [s' answer] end;
    cbn [snd fst] in Hr, Hgr; subst answer; [|done].
  intros _. destruct Hgr as [tail Htail]. cbn [exs_Status exs_NextCursor exs_Records].
  rewrite (bool_decide_false (_ = StatusResyncRequired)) by (by case_match).
  exists j. assert (length (es_records s) <= length (es_records s'))%nat by (rewrite Htail, length_app; lia).
  split; [lia|]. split; [|by eapply feed_cursor].
  rewrite (slice_prefix i j (es_records s)); [exact Hrec|by exists tail|lia].
Qed.

Lemma next_index s f ctx answer f' j :
  feed_Next ctx s f = (answer, f') -> mf_index f = Z.of_nat j -> llen (es_records s) < u64_mod ->
  mf_generation f' = mf_generation f /\
  match answer with
  | inl _ => f' = f
  | inr raw => es_records s !! j = Some (raw_Bytes raw) /\ mf_index f' = Z.of_nat (S j) /\ raw_Position raw = positionLocked f'
  end.
Proof.
  unfold feed_Next. intros H Hj Hu. destruct ctx as [e|]; [by simplify_eq|]. unwhen H; try (by simplify_eq).
  rewrite Hj, Nat2Z.id in H. destruct (es_records s !! j) as [bytes|] eqn:Elk; [|by simplify_eq]. simplify_eq.
  split_and!; try done. pose proof (lookup_lt_Some _ _ _ Elk). change (u64 (Z.of_nat j + 1) = Z.of_nat (S j)).
  unfold u64, llen in *. rewrite Z.mod_small; lia.
Qed.

Lemma run_length {A} moments n s feed (p : export_calls A) :
  (length (es_records s) <= length (es_records (fst (run_export moments n s feed p))))%nat.
Proof. apply prefix_length, run_grows. Qed.

Lemma at_moment_length m s : (length (es_records s) <= length (es_records (at_moment m s)))%nat.
Proof. apply prefix_length, at_moment_grows. Qed.

Lemma at_moment_slice m s i j :
  (i <= j <= length (es_records s))%nat -> slice i j (es_records (at_moment m s)) = slice i j (es_records s).
Proof. apply slice_prefix, at_moment_grows. Qed.

Lemma return_page return_ moments n s feed response err i :
  ends return_ -> err <> None ->
  let '(s', answer) := run_export moments n s feed (return_ response err) in page_of i s' answer.
Proof.
  intros He Hn. pose proof (He response err moments n s feed) as Hr. destruct (run_export _ _ _ _ _) as [s' answer].
  cbn [snd] in Hr. subst answer. by intros ->.
Qed.

Lemma read_page_of return_ moments room n s f response i j :
  ends return_ -> exs_Status response = "" ->
  is_u64 (mf_generation f) -> mf_index f = Z.of_nat j -> (i <= j <= length (es_records s))%nat ->
  llen (es_records (fst (run_export moments n s (Some f) (read_page sv identity sourceID return_ room response)))) < u64_mod ->
  map content (exs_Records response) = map content_of (slice i j (es_records s)) ->
  let '(s', answer) := run_export moments n s (Some f) (read_page sv identity sourceID return_ room response) in page_of i s' answer.
Proof.
  intros He. revert n s f response j. induction room as [|room IH]; intros n s f response j Hst Hg Hf Hij Hlen Hrec;
    cbn [read_page] in *.
  { pose proof (run_length moments n s (Some f) (end_page sv identity sourceID return_ response)).
    eapply end_page_of; try done. unfold llen, is_u64 in *. lia. }
  cbn [run_export] in *. set (s1 := at_moment (moments n) s) in *. set (ctx := mo_ctx (moments n)) in *.
  pose proof (at_moment_length (moments n) s) as Hl. fold s1 in Hl.
  rewrite <- (at_moment_slice (moments n) s i j Hij) in Hrec. fold s1 in Hrec.
  assert (i <= j <= length (es_records s1))%nat as Hij1 by lia.
  destruct (feed_Next ctx s1 f) as [answer f'] eqn:En.
  assert (llen (es_records s1) < u64_mod) as Hlen1.
  { eapply Z.le_lt_trans; [|exact Hlen]. apply inj_le, run_length. }
  destruct (next_index _ _ _ _ _ j En Hf Hlen1) as [Hg' Hnext].
  assert (is_u64 (Z.of_nat j)) as Hj by (unfold is_u64, llen in *; lia).
  destruct answer as [e|raw].
  { subst f'. destruct e as [| | | | | |[]| |]; 
      lazymatch goal with
      | |- context [end_page] => eapply end_page_of; eassumption
      | |- context [resync] => apply resync_page; assumption
      | |- _ => apply return_page; [assumption|discriminate]
      end. }
  destruct Hnext as (Hlk & Hf' & Hpos). destruct (DecodeDomainEvent (raw_Bytes raw)) as [event|]; [|apply return_page; [assumption|discriminate]].
  unfold encodeCursor in *. cbn [run_export] in *. destruct (cursor_text _ _) as [text|]; [|apply return_page; [assumption|discriminate]].
  pose proof (lookup_lt_Some _ _ _ Hlk) as Hlt. pose proof (at_moment_length (moments (S n)) s1) as Hl2.
  eapply (IH _ _ _ _ (S j)); first [assumption|congruence|lia|idtac].
  rewrite at_moment_slice, (slice_snoc i j _ (raw_Bytes raw)) by first [done|lia].
  change (map content (exs_Records response ++ [export_record event (raw_Bytes raw) text]) =
          map content_of (slice i j (es_records s1) ++ [raw_Bytes raw])).
  rewrite !map_app, Hrec. reflexivity.
Qed.

(** The index the source reads from a position it was given. *)
Lemma position_index_put s generation n :
  is_u64 generation -> is_u64 (Z.of_nat n) ->
  position_index s (PutUint64 generation ++ PutUint64 (Z.of_nat n)) =
  if (generation =? es_generation s) && negb (llen (es_records s) <? Z.of_nat n) then Some (Z.of_nat n) else None.
Proof.
  intros Hg Hn. destruct (PutUint64_bytes generation) as [_ L1]. destruct (PutUint64_bytes (Z.of_nat n)) as [_ L2].
  unfold position_index. unfold llen at 1 2. rewrite length_app, L1, L2. change (Z.of_nat (8 + 8)) with 16.
  change (16 <=? 0) with false. change (16 =? 16) with true. cbn [negb orb].
  rewrite take_app_length', drop_app_length', !Uint64_Put by done. by destruct (_ =? _), (_ <? _).
Qed.

Lemma position_opens s position n index :
  at_position position n -> position_index s position = Some index -> index = Z.of_nat n /\ (n <= length (es_records s))%nat.
Proof.
  intros [[-> ->]|(g & Hg & Hn & ->)] H.
  - cbn in H. injection H as <-. split; [done|lia].
  - rewrite position_index_put in H by done. destruct (_ && _) eqn:K; [|done]. injection H as <-. split; [done|].
    bprop K. unfold llen in *. lia.
Qed.

Lemma open_page moments n s request started position i :
  exq_SourceID request = sourceID -> at_position position i -> is_u64 (es_generation s) ->
  let finish := observe_export sv identity started in
  let program := OpenFeed sourceID position (fun opened =>
    match opened with
    | Some ErrResyncRequired => resync sv identity sourceID finish (empty_response request)
    | Some e => finish (empty_response request) (Some e)
    | None =>
      read_page sv identity sourceID (fun response err => CloseFeed (finish response err))
        (Z.to_nat (exq_Limit request)) (empty_response request)
    end) in
  llen (es_records (fst (run_export moments n s None program))) < u64_mod ->
  let '(s', answer) := run_export moments n s None program in page_of i s' answer.
Proof.
  intros Hreq Hpos Hgen finish program Hlen. subst program. cbn [run_export] in *. pose proof (observe_ends started) as He. fold finish in He.
  destruct (source_Open _ _ _ _) as [e|f] eqn:Eo.
  { destruct e as [| | | | | |[]| |]; 
      lazymatch goal with
      | |- context [resync] => apply resync_page; assumption
      | |- _ => apply return_page; [assumption|discriminate]
      end. }
  unfold source_Open in Eo. destruct (mo_ctx (moments n)); [done|]. unwhen Eo.
  destruct (position_index _ _) as [index|] eqn:Ei; [|done]. injection Eo as <-.
  destruct (position_opens _ _ _ _ Hpos Ei) as [-> Hle].
  eapply read_page_of with (j := i); [by apply close_ends|done| |done|lia|exact Hlen|].
  - by apply (at_moment_grows (moments n) s).
  - unfold slice. by rewrite Nat.sub_diag.
Qed.

Lemma export_page moments s request i :
  exq_SourceID request = sourceID -> (exq_Cursor request = "" /\ i = O \/ at_cursor (exq_Cursor request) i) -> is_u64 (es_generation s) ->
  llen (es_records (fst (run_export moments 0 s None (Export allow sv identity request)))) < u64_mod ->
  let '(s', answer) := run_export moments 0 s None (Export allow sv identity request) in page_of i s' answer.
Proof.
  intros Hreq Hcur Hgen Hlen. unfold Export in *. cbn [run_export] in *. rewrite Hreq in *.
  set (s1 := at_moment (moments O) s) in *. set (started := mo_now (moments O)) in *.
  pose proof (observe_ends started) as He.
  assert (is_u64 (es_generation s1)) as Hgen1 by (by apply (at_moment_grows (moments O) s)).
  destruct (validate _ _ _ _) as [e|]; [by apply return_page|].
  destruct Hcur as [[Hc ->]|Hcur].
  - rewrite Hc in *. rewrite bool_decide_true in * by done. by eapply open_page; [|left| |].
  - rewrite (bool_decide_false (exq_Cursor request = "")) in * by (by eapply at_cursor_text).
    destruct Hcur as (position & expires & Hexp & Ht & Hpos). pose proof (at_position_bytes _ _ Hpos) as Hb.
    rewrite (decode_issued sv identity sourceID position expires) in * by done. rewrite !neqb_refl in *. cbn [orb run_export] in *.
    destruct (negb _); [by apply return_page|]. eapply open_page; try done.
    apply (at_moment_grows (moments 1%nat) s1), Hgen1.
Qed.

(** What a client has is a beginning of the stored events, and its cursor stands
    right after it. *)
Definition in_step (c : client) (s : EventExportSource) : Prop :=
  exists n, (n <= length (es_records s))%nat /\ map content (cl_received c) = map content_of (firstn n (es_records s)) /\
    (cl_cursor c = "" /\ n = O \/ at_cursor (cl_cursor c) n).

Lemma client_step_in c s step :
  exq_SourceID (fst step) = sourceID -> is_u64 (es_generation s) ->
  llen (es_records (snd (client_step allow sv identity c s step))) < u64_mod ->
  in_step c s -> in_step (fst (client_step allow sv identity c s step)) (snd (client_step allow sv identity c s step)).
Proof.
  destruct step as [request moments]. cbn [fst client_step]. intros Hreq Hgen Hlen (n & Hn & Hrec & Hcur).
  set (request' := request <| exq_Cursor := cl_cursor c |>) in *.
  pose proof (export_page moments s request' n Hreq Hcur Hgen) as Hpage.
  pose proof (run_grows moments 0 s None (Export allow sv identity request')) as [Hgr _].
  destruct (run_export _ _ _ _ _) as [s' [response err]]. cbn [fst snd] in *. specialize (Hpage Hlen).
  pose proof (prefix_length _ _ Hgr) as Hl.
  assert (firstn n (es_records s') = firstn n (es_records s)) as Hfirst.
  { pose proof (slice_prefix 0 n _ _ Hgr ltac:(lia)) as Hs. unfold slice in Hs. by rewrite Nat.sub_0_r in Hs. }
  destruct err as [e|]; cbn [take_response].
  { exists n. rewrite Hfirst. split; [lia|done]. }
  specialize (Hpage eq_refl). cbn [cl_received cl_cursor]. destruct (_ == _).
  { exists O. split; [lia|]. split; [done|by right]. }
  destruct Hpage as (j & Hj & Hnew & Hat). exists j. split; [lia|]. split; [|by right].
  cbn [cl_received]. rewrite map_app, Hrec, Hnew, <- Hfirst, <- map_app. f_equal.
  pose proof (slice_app 0 n j (es_records s') ltac:(lia)) as Hs. unfold slice in Hs at 1 3. by rewrite !Nat.sub_0_r in Hs.
Qed.

Lemma client_step_grows c s step : source_grows s (snd (client_step allow sv identity c s step)).
Proof.
  destruct step as [request moments]. cbn [client_step].
  pose proof (run_grows moments 0 s None (Export allow sv identity (request <| exq_Cursor := cl_cursor c |>))) as H.
  by destruct (run_export _ _ _ _ _).
Qed.

Lemma client_run_grows c s steps : source_grows s (snd (client_run allow sv identity c s steps)).
Proof.
  revert c s. induction steps as [|step steps IH]; intros c s; [done|]. cbn [client_run].
  pose proof (client_step_grows c s step) as H. destruct (client_step _ _ _ _ _ _) as [c' s']. by etrans.
Qed.

Lemma client_run_in c s steps :
  Forall (fun step => exq_SourceID (fst step) = sourceID) steps -> is_u64 (es_generation s) ->
  llen (es_records (snd (client_run allow sv identity c s steps))) < u64_mod ->
  in_step c s -> in_step (fst (client_run allow sv identity c s steps)) (snd (client_run allow sv identity c s steps)).
Proof.
  intros Hsteps. revert c s. induction Hsteps as [|step steps Hstep _ IH]; intros c s Hgen Hlen Hin; [done|].
  cbn [client_run] in *. pose proof (client_step_in c s step Hstep Hgen) as Hs. pose proof (client_step_grows c s step) as [Hgr Hg].
  destruct (client_step _ _ _ _ _ _) as [c' s'] eqn:Es. cbn [fst snd] in *.
  pose proof (client_run_grows c' s' steps) as [Hgr' _]. apply IH; [auto|exact Hlen|]. apply Hs; [|done].
  eapply Z.le_lt_trans; [|exact Hlen]. apply inj_le, prefix_length, Hgr'.
Qed.
End pages.

(** [C9] A client that reads page by page misses nothing and receives nothing twice.
    It starts with no cursor, takes the next cursor of every page, repeats a
    request that failed and starts over when the service asks for it; meanwhile
    events are appended, history is reset, calls are cancelled and time passes
    at every call of every request. After any number of requests the records it
    holds are, in order and byte for byte, the first events the source stores. *)
Theorem export_exactly_once allow sv identity sourceID s steps :
  identity_fits identity -> utf8 sourceID -> is_u64 (es_generation s) ->
  Forall (fun step => exq_SourceID (fst step) = sourceID) steps ->
  let '(c, s') := client_run allow sv identity (mkClient "" []) s steps in
  llen (es_records s') < u64_mod ->
  exists n, (n <= length (es_records s'))%nat /\
    map content (cl_received c) = map content_of (firstn n (es_records s')).
Proof.
  intros Hi Hs Hg Hsteps.
  pose proof (client_run_in allow sv identity sourceID Hi Hs (mkClient "" []) s steps Hsteps Hg) as H.
  destruct (client_run _ _ _ _ _ _) as [c s']. intros Hlen. cbn [fst snd] in H. destruct H as (n & Hn & Hr & _); [done| |by exists n].
  exists O. split; [lia|]. split; [done|by left].
Qed.

(** ** Undisturbed reading *)

(** A call that nothing disturbs, before the cursors issued since [start] expire. *)
Definition quiet (sv : Service) (start : Time) (m : moment) : Prop :=
  mo_ops m = [] /\ mo_ctx m = None /\ t_nanos start <= t_nanos (mo_now m) < t_nanos start + sv_cursorTTL sv /\
  is_Some (time_text (expiry sv (mo_now m))).

Lemma quiet_source sv start m s : quiet sv start m -> at_moment m s = s.
Proof. intros [H _]. unfold at_moment. by rewrite H. Qed.

Lemma quiet_run {A} sv start moments n s feed (p : export_calls A) :
  (forall n, quiet sv start (moments n)) -> fst (run_export moments n s feed p) = s.
Proof.
  intros Hq. revert n feed. induction p as [a|k IH|id position k IH|k IH|k IH|k IH|record k IH]; intros n feed; cbn [run_export];
    rewrite ?(quiet_source sv start) by apply Hq; auto.
  - destruct (source_Open _ _ _ _); auto.
  - destruct feed as [f|]; [|auto]. destruct (feed_Next _ _ _). auto.
Qed.

Section undisturbed.
Context (allow : AuthenticatedContext -> string -> bool) (sv : Service) (identity : AuthenticatedContext) (s : EventExportSource).
Context (start : Time) (Hidentity : identity_fits identity) (Hsource : utf8 (es_sourceID s)).
Context (Hgen : is_u64 (es_generation s)) (Hlen : llen (es_records s) < u64_mod).
Context (Hdec : Forall (fun bytes => is_Some (DecodeDomainEvent bytes)) (es_records s)).

(** A cursor issued since [start] for the first [n] events. *)
Definition fresh_cursor (cursor : string) (n : nat) : Prop :=
  exists issued, t_nanos start <= t_nanos issued /\
    cursor_text (sv_cursorKey sv) (new_envelope identity (es_sourceID s)
      (PutUint64 (es_generation s) ++ PutUint64 (Z.of_nat n)) (expiry sv issued)) = Some cursor.

Lemma fresh_at cursor n : (n <= length (es_records s))%nat -> fresh_cursor cursor n -> at_cursor sv identity (es_sourceID s) cursor n.
Proof.
  intros Hn (issued & _ & Ht). exists (PutUint64 (es_generation s) ++ PutUint64 (Z.of_nat n)), (expiry sv issued).
  split; [done|]. split; [exact Ht|]. right. exists (es_generation s). split_and!; try done. unfold is_u64, llen in *. lia.
Qed.

Lemma quiet_cursor m position :
  quiet sv start m -> is_Some (cursor_text (sv_cursorKey sv) (new_envelope identity (es_sourceID s) position (expiry sv (mo_now m)))).
Proof.
  intros (_ & _ & _ & [text Ht]). unfold cursor_text, json_envelope, marshal_struct, marshal_time. cbn [cue_ExpiresAt new_envelope].
  rewrite Ht. cbn [marshal_members field_of]. eauto.
Qed.

(** The answer with the events from [i] to [j]. *)
Definition full_page (i j : nat) (answer : exported) : Prop :=
  let '(response, err) := answer in
  err = None /\ exs_Status response <> StatusResyncRequired /\ fresh_cursor (exs_NextCursor response) j /\
  map content (exs_Records response) = map content_of (slice i j (es_records s)).

Context (moments : nat -> moment) (Hq : forall n, quiet sv start (moments n)).

Lemma end_page_full return_ n f response i j :
  ends return_ -> mf_generation f = es_generation s -> mf_index f = Z.of_nat j ->
  map content (exs_Records response) = map content_of (slice i j (es_records s)) ->
  full_page i j (snd (run_export moments n s (Some f) (end_page sv identity (es_sourceID s) return_ response))).
Proof.
  intros He Hg Hf Hrec. unfold end_page, encodeCursor. cbn [run_export].
  destruct (quiet_cursor (moments (S n)) (positionLocked f) (Hq _)) as [text Ht]. rewrite Ht, He.
  split; [done|]. cbn [exs_Status exs_NextCursor exs_Records]. split; [by case_match|]. split; [|exact Hrec].
  exists (mo_now (moments (S n))). split; [apply (Hq (S n))|]. unfold positionLocked in Ht. by rewrite Hg, Hf in Ht.
Qed.

Lemma feed_Next_quiet f j :
  mf_closed f = false -> mf_generation f = es_generation s -> mf_index f = Z.of_nat j ->
  feed_Next None s f =
  match es_records s !! j with
  | None => (inl ErrCaughtUp, f)
  | Some bytes =>
    let f' := f <| mf_index := Z.of_nat (S j) |> in (inr (mkRawRecord bytes (positionLocked f')), f')
  end.
Proof.
  intros Hc Hg Hf. unfold feed_Next. rewrite Hc, Hg, Z.eqb_refl, Hf, Nat2Z.id. cbn [negb].
  destruct (es_records s !! j) as [bytes|] eqn:Elk; [|done]. pose proof (lookup_lt_Some _ _ _ Elk).
  replace (u64 (Z.of_nat j + 1)) with (Z.of_nat (S j)); [done|]. unfold u64, llen in *. rewrite Z.mod_small; lia.
Qed.

Lemma read_page_full return_ room n f response i j :
  ends return_ -> mf_closed f = false -> mf_generation f = es_generation s -> mf_index f = Z.of_nat j ->
  (i <= j <= length (es_records s))%nat ->
  map content (exs_Records response) = map content_of (slice i j (es_records s)) ->
  full_page i (Nat.min (j + room) (length (es_records s)))
    (snd (run_export moments n s (Some f) (read_page sv identity (es_sourceID s) return_ room response))).
Proof.
  intros He. revert n f response j. induction room as [|room IH]; intros n f response j Hc Hg Hf Hij Hrec; cbn [read_page].
  { replace (Nat.min (j + 0) _) with j by lia. by apply end_page_full. }
  cbn [run_export]. rewrite (quiet_source sv start) by apply Hq. pose proof (Hq n) as (_ & Hctx & _). rewrite Hctx.
  rewrite (feed_Next_quiet f j) by done. destruct (es_records s !! j) as [bytes|] eqn:Elk.
  - cbn [raw_Bytes raw_Position]. destruct (proj1 (Forall_lookup _ _) Hdec j bytes Elk) as [event Hev]. rewrite Hev.
    unfold encodeCursor. cbn [run_export]. rewrite (quiet_source sv start) by apply Hq.
    destruct (quiet_cursor (moments (S n)) (positionLocked (f <| mf_index := Z.of_nat (S j) |>)) (Hq _)) as [text Ht].
    rewrite Ht. pose proof (lookup_lt_Some _ _ _ Elk). replace (j + S room)%nat with (S j + room)%nat by lia.
    apply IH; [exact Hc|exact Hg|reflexivity|lia|]. rewrite (slice_snoc i j _ bytes) by first [exact Elk|lia].
    change (map content (exs_Records response ++ [export_record event bytes text]) =
            map content_of (slice i j (es_records s) ++ [bytes])). rewrite !map_app, Hrec. reflexivity.
  - apply lookup_ge_None in Elk. replace (Nat.min (j + S room) _) with j by lia. by apply end_page_full.
Qed.

Lemma Export_full request i :
  validate allow sv identity request = None -> exq_SourceID request = es_sourceID s ->
  (exq_Cursor request = "" /\ i = O \/ fresh_cursor (exq_Cursor request) i) -> (i <= length (es_records s))%nat ->
  full_page i (Nat.min (i + Z.to_nat (exq_Limit request)) (length (es_records s)))
    (snd (run_export moments 0 s None (Export allow sv identity request))).
Proof.
  intros Hv Hreq Hcur Hi. unfold Export. cbn [run_export]. rewrite (quiet_source sv start), Hv, Hreq by apply Hq.
  pose proof (close_ends _ (observe_ends sv identity (mo_now (moments O)))) as He. destruct Hcur as [[Hc ->]|Hcur].
  - rewrite bool_decide_true by exact Hc. cbn [run_export]. rewrite (quiet_source sv start) by apply Hq.
    destruct (Hq 1%nat) as (_ & Hctx & _). rewrite Hctx. unfold source_Open. rewrite neqb_refl. cbn [position_index].
    change (position_index s []) with (Some 0). apply read_page_full; try done.
  - pose proof (fresh_at _ _ Hi Hcur) as Hat. rewrite (bool_decide_false (_ = "")) by (by eapply at_cursor_text).
    destruct Hcur as (issued & Hissued & Ht). assert (is_u64 (Z.of_nat i)) as Hu by (unfold is_u64, llen in *; lia).
    rewrite (decode_issued sv identity (es_sourceID s) (PutUint64 (es_generation s) ++ PutUint64 (Z.of_nat i)) (expiry sv issued))
      by first [done|apply (at_position_bytes _ i); right; eauto].
    rewrite !neqb_refl. cbn [orb run_export]. destruct (Hq 1%nat) as (_ & _ & Hnow & _).
    unfold Before, expiry. cbn [t_nanos]. rewrite (proj2 (Z.ltb_lt _ _)) by lia. cbn [negb run_export].
    rewrite !(quiet_source sv start) by apply Hq. destruct (Hq 2%nat) as (_ & Hctx & _). rewrite Hctx.
    unfold source_Open. rewrite neqb_refl, position_index_put, Z.eqb_refl by done.
    rewrite (proj2 (Z.ltb_ge _ _)) by (unfold llen; lia). apply read_page_full; try done.
    unfold slice. by rewrite Nat.sub_diag.
Qed.
End undisturbed.

(** The number of events the requests ask for. *)
Definition asked (steps : list (ExportRequest * (nat -> moment))) : nat :=
  list_sum (map (fun step => Z.to_nat (exq_Limit (fst step))) steps).

Lemma client_run_full allow sv identity s start c steps n :
  identity_fits identity -> utf8 (es_sourceID s) -> is_u64 (es_generation s) -> llen (es_records s) < u64_mod ->
  Forall (fun bytes => is_Some (DecodeDomainEvent bytes)) (es_records s) ->
  Forall (fun step => validate allow sv identity (fst step) = None /\ exq_SourceID (fst step) = es_sourceID s /\
                      (forall n, quiet sv start (snd step n))) steps ->
  (n <= length (es_records s))%nat -> map content (cl_received c) = map content_of (firstn n (es_records s)) ->
  (cl_cursor c = "" /\ n = O \/ fresh_cursor sv identity s start (cl_cursor c) n) ->
  let '(c', s') := client_run allow sv identity c s steps in
  s' = s /\ map content (cl_received c') = map content_of (firstn (n + asked steps) (es_records s)).
Proof.
  intros Hid Hs Hg Hl Hdec Hsteps. revert c n. induction Hsteps as [|[request moments] steps (Hv & Hreq & Hq) _ IH];
    intros c n Hn Hrec Hcur; cbn [client_run client_step fst snd] in *.
  { split; [done|]. by rewrite Nat.add_0_r. }
  set (request' := request <| exq_Cursor := cl_cursor c |>).
  pose proof (Export_full allow sv identity s start Hid Hs Hg Hl Hdec moments Hq request' n Hv Hreq Hcur Hn) as Hpage.
  pose proof (quiet_run sv start moments 0 s None (Export allow sv identity request') Hq) as Hsame.
  destruct (run_export _ _ _ _ _) as [s' [response err]]. cbn [fst snd] in *. subst s'.
  destruct Hpage as (-> & Hst & Hfresh & Hnew). cbn [take_response]. rewrite bool_decide_false by exact Hst.
  change (exq_Limit request') with (exq_Limit request) in *.
  set (m := Nat.min (n + Z.to_nat (exq_Limit request)) (length (es_records s))) in *.
  specialize (IH (mkClient (exs_NextCursor response) (cl_received c ++ exs_Records response)) m).
  destruct (client_run _ _ _ _ _ _) as [c' s']. destruct IH as [-> IH]; [lia| |by right|].
  - cbn [cl_received]. rewrite map_app, Hrec, Hnew, <- map_app. f_equal.
    pose proof (slice_app 0 n m (es_records s) ltac:(lia)) as Hj. unfold slice in Hj at 1 3. by rewrite !Nat.sub_0_r in Hj.
  - split; [done|]. rewrite IH. f_equal. change (asked ((request, moments) :: steps)) with (Z.to_nat (exq_Limit request) + asked steps)%nat.
    destruct (decide (n + Z.to_nat (exq_Limit request) <= length (es_records s))%nat).
    + f_equal. lia.
    + rewrite !firstn_all2; [done|lia..].
Qed.

(** [C10] A client that is left alone receives everything. When no call is disturbed
    and no cursor expires, valid requests with limits l1, l2, ... leave the client,
    starting with no cursor, with exactly the first l1 + l2 + ... events of the
    source, so with all of them as soon as the limits add up to their number, and
    leave the source as it is. *)
Theorem export_delivers_all allow sv identity s start steps :
  identity_fits identity -> utf8 (es_sourceID s) -> is_u64 (es_generation s) -> llen (es_records s) < u64_mod ->
  Forall (fun bytes => is_Some (DecodeDomainEvent bytes)) (es_records s) ->
  Forall (fun step => validate allow sv identity (fst step) = None /\ exq_SourceID (fst step) = es_sourceID s /\
                      (forall n, quiet sv start (snd step n))) steps ->
  let '(c, s') := client_run allow sv identity (mkClient "" []) s steps in
  s' = s /\ map content (cl_received c) = map content_of (firstn (asked steps) (es_records s)).
Proof.
  intros Hid Hs Hg Hl Hdec Hsteps.
  apply (client_run_full allow sv identity s start (mkClient "" []) steps 0); try done; [lia|by left].
Qed.

(** ** Witnesses *)

Definition stored_event (n : ascii) : string :=
  jdoc [("contract_manifest", qs ContractIdentity); ("event_id", qs (uid n)); ("event_type", qs "work.created");
        ("event_version", qs "1.0.0"); ("aggregate", jobj [("kind", qs "task"); ("id", qs (uid "a"))]);
        ("aggregate_revision", "1"); ("lifecycle_epoch", "1"); ("command_id", qs (uid "b"));
        ("authority", jobj [("kind", qs "HUMAN"); ("id", qs "operator")]); ("parents", "[]");
        ("committed_at", qs "2026-07-18T16:00:00Z"); ("payload", "{}"); ("provenance_digest", qs (dig "a"))].
Definition sample_source : EventExportSource :=
  mkExportSource "ledger" 1 [stored_event "1"; stored_event "2"; stored_event "3"] false.
Definition sample_exporter : Service := mkService (repeat 7 32) 60000000000 1000 30000000000 true.
Definition sample_identity : AuthenticatedContext :=
  mkAuthenticatedContext (mkPrincipal PrincipalActor "reader") (Some actor_a) (Some (mkExec (uid "e") 3)).
Definition sample_export (limit : Z) : ExportRequest := mkExportRequest ProtocolVersion (uid "9") "ledger" "" limit 1000.
Definition sample_moments : nat -> moment := fun _ => mkMoment [] None sample_time.

Lemma sample_identity_fits : identity_fits sample_identity.
Proof.
  split; [split; apply utf8_of_ascii; reflexivity|]. split; intros x [= <-]; [by apply utf8_of_ascii|].
  split; [apply utf8_of_ascii; vm_compute; reflexivity|vm_compute; split; [discriminate|reflexivity]].
Qed.

Lemma sample_quiet n : quiet sample_exporter sample_time (sample_moments n).
Proof.
  split; [reflexivity|]. split; [reflexivity|]. split; [vm_compute; split; [discriminate|reflexivity]|].
  eexists. vm_compute. reflexivity.
Qed.

Lemma sample_decodes : Forall (fun bytes => is_Some (DecodeDomainEvent bytes)) (es_records sample_source).
Proof. unfold sample_source. cbn [es_records]. repeat (apply Forall_cons_2; [eexists; vm_compute; reflexivity|]). apply Forall_nil_2. Qed.

Definition sample_issue : option (option string) :=
  at_time sample_time (encodeCursor sample_exporter sample_identity "ledger" [1; 2; 3] Finished).
Definition sample_cursor : string := match sample_issue with Some (Some text) => text | _ => "" end.

Lemma cursor_roundtrip_witness :
  at_time sample_time (decodeCursor sample_exporter sample_cursor sample_identity "ledger" Finished) = Some (Some [1; 2; 3]).
Proof.
  assert (sample_issue = Some (Some sample_cursor)) as H by (vm_compute; reflexivity).
  exact (cursor_roundtrip sample_exporter sample_identity "ledger" [1; 2; 3] sample_time sample_identity "ledger" sample_time
           sample_cursor sample_identity_fits ltac:(by apply utf8_of_ascii) ltac:(by repeat constructor) H).
Defined.

(** Three events, one more while the client reads, a lost history and a cancelled call. *)
Definition busy_moments (ops : list source_op) (ctx : Context) : nat -> moment :=
  fun n => mkMoment (if n =? 3 then ops else [])%nat ctx sample_time.
Definition busy_steps : list (ExportRequest * (nat -> moment)) :=
  [(sample_export 2, busy_moments [OpAppend (stored_event "4")] None); (sample_export 1, busy_moments [] (Some Canceled));
   (sample_export 1, busy_moments [] None); (sample_export 5, busy_moments [OpReset] None);
   (sample_export 5, busy_moments [] None)].

Lemma export_exactly_once_witness :
  let '(c, s') := client_run (fun _ _ => true) sample_exporter sample_identity (mkClient "" []) sample_source busy_steps in
  exists n, (n <= length (es_records s'))%nat /\
    map content (cl_received c) = map content_of (firstn n (es_records s')).
Proof.
  pose proof (export_exactly_once (fun _ _ => true) sample_exporter sample_identity "ledger" sample_source busy_steps
    sample_identity_fits ltac:(by apply utf8_of_ascii) ltac:(vm_compute; split; [discriminate|reflexivity])
    ltac:(by repeat constructor)) as H.
  assert (llen (es_records (snd (client_run (fun _ _ => true) sample_exporter sample_identity (mkClient "" []) sample_source busy_steps)))
          < u64_mod) as Hl by (vm_compute; reflexivity).
  destruct (client_run _ _ _ _ _ _) as [c s']. exact (H Hl).
Defined.

Definition sample_steps : list (ExportRequest * (nat -> moment)) :=
  [(sample_export 2, sample_moments); (sample_export 1, sample_moments)].

Lemma sample_steps_valid :
  Forall (fun step => validate (fun _ _ => true) sample_exporter sample_identity (fst step) = None /\
                      exq_SourceID (fst step) = es_sourceID sample_source /\
                      (forall n, quiet sample_exporter sample_time (snd step n))) sample_steps.
Proof.
  repeat (apply Forall_cons_2; [split; [vm_compute; reflexivity|split; [reflexivity|exact sample_quiet]]|]). apply Forall_nil_2.
Qed.

Lemma export_delivers_all_witness :
  let '(c, s') := client_run (fun _ _ => true) sample_exporter sample_identity (mkClient "" []) sample_source
    sample_steps in
  s' = sample_source /\ map content (cl_received c) = map content_of (es_records sample_source).
Proof.
  exact (export_delivers_all (fun _ _ => true) sample_exporter sample_identity sample_source sample_time
    sample_steps sample_identity_fits
    ltac:(by apply utf8_of_ascii) ltac:(vm_compute; split; [discriminate|reflexivity]) ltac:(vm_compute; reflexivity) sample_decodes
    sample_steps_valid).
Defined.

Example busy_run :
  let '(c, s') := client_run (fun _ _ => true) sample_exporter sample_identity (mkClient "" []) sample_source busy_steps in
  (map exr_EventID (cl_received c), length (es_records s')) = ([uid "1"; uid "2"; uid "3"; uid "4"], 4%nat).
Proof. vm_compute. reflexivity. Qed.
