(* ===== verification/ReleaseCoordinator.v ===== *)
(** * The release coordinator ([application/release_coordinator.go], [kernel/ports.go])

    The coordinator carries out the next merge of a release plan: it has the
    intent recorded by a command, asks the provider to merge, and has what it
    observed recorded by a second command. An answer that is lost or does not fit
    is recorded as UNKNOWN and settled later by an authoritative read. The command
    service and the provider are interfaces: an operation is a tree of calls. *)

From S2P Require Import Prelude GoText GoTime GoJson GoMarshal GoJsonLaws GoMarshalLaws Types Samples.
From S2P Require Import Payload Envelope State Evidence Fingerprint Provenance Release OperationalCoordinator.

(** ** Requests and observations *)

Record ReleaseMergeRequest := mkReleaseMergeRequest {
  mrq_ReleasePlanID : UUIDv7;
  mrq_PlanDigest : Digest;
  mrq_MergeID : UUIDv7;
  mrq_AttemptID : UUIDv7;
  mrq_Round : Z;
  mrq_ProviderIdempotencyKey : string;
  mrq_RepositoryURL : string;
  mrq_BaseRef : string;
  mrq_BaseCommit : string;
  mrq_ChangeRef : string;
  mrq_HeadCommit : string;
  mrq_MergeStrategy : string;
  mrq_GitVersion : string;
  mrq_ConflictPolicy : string
}.

#[export] Instance eta_ReleaseMergeRequest : Eta ReleaseMergeRequest := fun r =>
  mkReleaseMergeRequest
    (mrq_ReleasePlanID r) (mrq_PlanDigest r) (mrq_MergeID r) (mrq_AttemptID r)
    (mrq_Round r) (mrq_ProviderIdempotencyKey r) (mrq_RepositoryURL r) (mrq_BaseRef r)
    (mrq_BaseCommit r) (mrq_ChangeRef r) (mrq_HeadCommit r) (mrq_MergeStrategy r)
    (mrq_GitVersion r) (mrq_ConflictPolicy r).

Definition ReleaseMergeRequest_Valid (r : ReleaseMergeRequest) : bool :=
  UUIDv7_Valid (mrq_ReleasePlanID r) && Digest_Valid (mrq_PlanDigest r) && UUIDv7_Valid (mrq_MergeID r)
  && UUIDv7_Valid (mrq_AttemptID r) && (0 <? mrq_Round r) && (mrq_ProviderIdempotencyKey r != "")
  && (mrq_RepositoryURL r != "") && (mrq_BaseRef r != "") && (mrq_BaseCommit r != "") && (mrq_ChangeRef r != "")
  && (mrq_HeadCommit r != "") && (mrq_MergeStrategy r == "FF_ONLY_ORDERED") && (mrq_GitVersion r != "")
  && (mrq_ConflictPolicy r == "FAIL_NO_IMPROVISATION").

Record ReleaseProviderObservation := mkReleaseProviderObservation {
  rpo_ReleasePlanID : UUIDv7;
  rpo_MergeID : UUIDv7;
  rpo_AttemptID : UUIDv7;
  rpo_State : ReleaseProviderState;
  rpo_Outcome : ReleaseOutcome;
  rpo_BaseCommit : string;
  rpo_HeadCommit : string;
  rpo_TreeDigest : string;
  rpo_Reasons : list string
}.

#[export] Instance eta_ReleaseProviderObservation : Eta ReleaseProviderObservation := fun r =>
  mkReleaseProviderObservation
    (rpo_ReleasePlanID r) (rpo_MergeID r) (rpo_AttemptID r) (rpo_State r) (rpo_Outcome r)
    (rpo_BaseCommit r) (rpo_HeadCommit r) (rpo_TreeDigest r) (rpo_Reasons r).

Definition zero_ReleaseProviderObservation : ReleaseProviderObservation :=
  mkReleaseProviderObservation
    "" "" "" "" "" "" "" "" [].

Record ReleaseCommandTemplate := mkReleaseCommandTemplate {
  rct_CommandID : UUIDv7;
  rct_Authority : PrincipalRef;
  rct_ExpectedPolicyRevision : Z;
  rct_IdempotencyKey : string;
  rct_CorrelationID : UUIDv7;
  rct_EvidenceRefs : (list EvidenceRef)
}.

#[export] Instance eta_ReleaseCommandTemplate : Eta ReleaseCommandTemplate := fun r =>
  mkReleaseCommandTemplate
    (rct_CommandID r) (rct_Authority r) (rct_ExpectedPolicyRevision r)
    (rct_IdempotencyKey r) (rct_CorrelationID r) (rct_EvidenceRefs r).

Record ReleaseExecutionPlan := mkReleaseExecutionPlan {
  rep_Plan : ReleasePlanSnapshot;
  rep_AttemptID : UUIDv7;
  rep_ProviderKey : string;
  rep_Request : ReleaseCommandTemplate;
  rep_RequestProvenance : ProvenanceBasis;
  rep_Result : ReleaseCommandTemplate;
  rep_ResultProvenance : ProvenanceBasis;
  rep_ObservedAt : Time
}.

#[export] Instance eta_ReleaseExecutionPlan : Eta ReleaseExecutionPlan := fun r =>
  mkReleaseExecutionPlan
    (rep_Plan r) (rep_AttemptID r) (rep_ProviderKey r) (rep_Request r)
    (rep_RequestProvenance r) (rep_Result r) (rep_ResultProvenance r) (rep_ObservedAt r).

Record ReleaseReconciliationPlan := mkReleaseReconciliationPlan {
  rrp_Plan : ReleasePlanSnapshot;
  rrp_Command : ReleaseCommandTemplate;
  rrp_Provenance : ProvenanceBasis;
  rrp_ObservedAt : Time
}.

#[export] Instance eta_ReleaseReconciliationPlan : Eta ReleaseReconciliationPlan := fun r =>
  mkReleaseReconciliationPlan
    (rrp_Plan r) (rrp_Command r) (rrp_Provenance r) (rrp_ObservedAt r).

Record ReleaseCoordinationResult := mkReleaseCoordinationResult {
  rcr_RequestReceipt : option CommandReceipt;
  rcr_ResultReceipt : option CommandReceipt;
  rcr_Observation : ReleaseProviderObservation
}.

#[export] Instance eta_ReleaseCoordinationResult : Eta ReleaseCoordinationResult := fun r =>
  mkReleaseCoordinationResult
    (rcr_RequestReceipt r) (rcr_ResultReceipt r) (rcr_Observation r).
Definition zero_ReleaseCoordinationResult : ReleaseCoordinationResult :=
  mkReleaseCoordinationResult None None zero_ReleaseProviderObservation.

(** An error that is wrapped keeps the text of its cause. *)
Inductive release_error :=
| ErrInvalidReleaseOperation | ErrReleaseObservation | ErrReleaseResultRejected (reason : string)
| ErrPersist (what cause : string) | ErrProvider (text : string).

(** ** Checks *)

Definition effectiveReleaseResultEventID (r : ReleaseResult) : option UUIDv7 :=
  let eventID := if rr_Reconciled r then rr_ReconciliationEventID r else rr_ResultEventID r in
  when negb (UUIDv7_Valid eventID) return None ;; Some eventID.

(** A missing result has no event. *)
Definition result_event (plan : ReleasePlanSnapshot) (merge : ReleaseMergePlan) : option UUIDv7 :=
  try r <- results plan !! rm_MergeID merge ;; effectiveReleaseResultEventID r.

Definition response_to (eventID : UUIDv7) : DagParent := mkParent eventID EdgeResponse.

(** The cause of a first request: the qualification, or the result of the merge before. *)
Definition first_round_parent (plan : ReleasePlanSnapshot) : option DagParent :=
  when rp_NextRound plan != 1 return None ;;
  match (if rp_NextMergeIndex plan == 0
         then try q <- rp_Qualification plan ;;
              when negb (UUIDv7_Valid (rq_EventID q)) return None ;; Some (rq_EventID q)
         else try merge <- rp_OrderedMerges plan !! Z.to_nat (rp_NextMergeIndex plan - 1) ;; result_event plan merge) with
  | Some eventID => Some (response_to eventID)
  | None => None
  end.

Definition executionRequestParent (plan : ReleasePlanSnapshot) : option DagParent :=
  match first_round_parent plan with
  | Some parent => Some parent
  | None => try merge <- next_merge plan ;; try eventID <- result_event plan merge ;; Some (response_to eventID)
  end.

Fixpoint distinct_evidence (seen : gset UUIDv7) (refs : list EvidenceRef) : bool :=
  match refs with
  | [] => true
  | r :: refs =>
    when negb (UUIDv7_Valid (er_EvidenceID r)) || negb (Digest_Valid (er_SHA256 r)) return false ;;
    when bool_decide (er_EvidenceID r ∈ seen) return false ;;
    distinct_evidence ({[er_EvidenceID r]} ∪ seen) refs
  end.

Definition validReleaseTemplate (t : ReleaseCommandTemplate) : bool :=
  when negb (UUIDv7_Valid (rct_CommandID t)) || negb (PrincipalRef_Valid (rct_Authority t))
       || (rct_ExpectedPolicyRevision t =? 0) || (rct_IdempotencyKey t == "") || negb (UUIDv7_Valid (rct_CorrelationID t))
       || (llen (rct_EvidenceRefs t) =? 0) || (64 <? llen (rct_EvidenceRefs t))
    return false ;;
  distinct_evidence ∅ (rct_EvidenceRefs t).

Definition evidenceIDs (refs : list EvidenceRef) : list UUIDv7 := map er_EvidenceID refs.

Fixpoint distinct_reasons (seen : gset string) (reasons : list string) : bool :=
  match reasons with
  | [] => true
  | reason :: reasons =>
    when (reason == "") || (4096 <? slen reason) return false ;;
    when bool_decide (reason ∈ seen) return false ;;
    distinct_reasons ({[reason]} ∪ seen) reasons
  end.

Definition validReleaseReasons (reasons : list string) : bool :=
  when (llen reasons =? 0) || (64 <? llen reasons) return false ;; distinct_reasons ∅ reasons.

Definition unlocated (o : ReleaseProviderObservation) : bool :=
  (rpo_BaseCommit o == "") && (rpo_HeadCommit o == "") && (rpo_TreeDigest o == "").

Definition releaseObservationMatches (request : ReleaseMergeRequest) (o : ReleaseProviderObservation) : bool :=
  when (rpo_ReleasePlanID o != mrq_ReleasePlanID request) || (rpo_MergeID o != mrq_MergeID request)
       || (rpo_AttemptID o != mrq_AttemptID request) || negb (validReleaseReasons (rpo_Reasons o))
    return false ;;
  if merged (rpo_Outcome o)
  then (rpo_State o == ReleaseProviderMerged) && (rpo_BaseCommit o == mrq_BaseCommit request)
       && (rpo_HeadCommit o == mrq_HeadCommit request) && (rpo_TreeDigest o != "")
  else if rpo_Outcome o == ReleaseOutcomeFailed
  then ((rpo_State o == ReleaseProviderOpen) || (rpo_State o == ReleaseProviderClosedUnmerged)
        || (rpo_State o == ReleaseProviderMissing)) && unlocated o
  else if rpo_Outcome o == ReleaseOutcomeUnknown
  then (rpo_State o == ReleaseProviderUnavailable) && unlocated o
  else false.

Definition uncertainReleaseObservation (request : ReleaseMergeRequest) (reason : string) : ReleaseProviderObservation :=
  mkReleaseProviderObservation (mrq_ReleasePlanID request) (mrq_MergeID request) (mrq_AttemptID request)
    ReleaseProviderUnavailable ReleaseOutcomeUnknown "" "" "" [reason].

(** The round of the request: an attempt under reconciliation keeps its own. *)
Definition request_round (plan : ReleasePlanSnapshot) (merge : ReleaseMergePlan) (attemptID : UUIDv7) (providerKey : string)
    : option Z :=
  when rp_State plan != ReleaseReconciling return Some (rp_NextRound plan) ;;
  try active <- rp_ActiveAttempt plan ;;
  when (ra_MergeID active != rm_MergeID merge) || (ra_AttemptID active != attemptID)
       || (ra_ProviderIdempotencyKey active != providerKey)
    return None ;;
  Some (ra_Round active).

Definition releaseProviderRequest (plan : ReleasePlanSnapshot) (attemptID : UUIDv7) (providerKey : string)
    : option (ReleaseMergeRequest * ReleaseMergePlan) :=
  when negb (ReleasePlanSnapshot_Valid plan)
       || (rp_State plan != ReleaseQualified) && (rp_State plan != ReleaseReconciling)
       || (llen (rp_OrderedMerges plan) <=? rp_NextMergeIndex plan) || negb (UUIDv7_Valid attemptID) || (providerKey == "")
    return None ;;
  try merge <- next_merge plan ;;
  try round <- request_round plan merge attemptID providerKey ;;
  let request := mkReleaseMergeRequest (rp_ReleasePlanID plan) (rp_PlanDigest plan) (rm_MergeID merge) attemptID round
                   providerKey (rp_RepositoryURL plan) (rp_BaseRef plan) (rp_BaseCommit plan) (rm_ChangeRef merge)
                   (rm_HeadCommit merge) (rp_MergeStrategy plan) (rp_GitVersion plan) (rp_ConflictPolicy plan) in
  when negb (ReleaseMergeRequest_Valid request) return None ;;
  Some (request, merge).

(** ** Commands *)

Definition releaseCommand (t : ReleaseCommandTemplate) (commandType : string) (planID : UUIDv7) (revision : Z)
    (parents : list DagParent) (payload : string) : KernelCommand :=
  {| cmd_ContractManifest := ContractIdentity; cmd_CommandID := rct_CommandID t; cmd_CommandType := commandType;
     cmd_CommandVersion := SchemaVersion; cmd_Target := mkRef AggregateReleasePlan planID; cmd_Authority := rct_Authority t;
     cmd_ActorFQN := None; cmd_Execution := None; cmd_ExpectedRevision := NewExpectedRevision revision;
     cmd_Preconditions := []; cmd_ExpectedLifecycleEpoch := None; cmd_ExpectedPolicyRevision := rct_ExpectedPolicyRevision t;
     cmd_ExpectedCatalogueRevision := CatalogueRevision; cmd_IdempotencyKey := rct_IdempotencyKey t;
     cmd_CorrelationID := rct_CorrelationID t; cmd_Causation := parents; cmd_IssuedAt := None; cmd_Payload := payload;
     cmd_EvidenceRefs := rct_EvidenceRefs t |}.

(** The slice made for the identifiers is never [nil]; nothing in these payloads
    can fail to marshal. *)
Definition request_payload (plan : ReleasePlanSnapshot) (request : ReleaseMergeRequest) (t : ReleaseCommandTemplate) : string :=
  render (obj
    [("release_plan_id", marshal (rp_ReleasePlanID plan)); ("expected_release_revision", marshal (rp_Revision plan));
     ("plan_digest", marshal (rp_PlanDigest plan)); ("merge_id", marshal (mrq_MergeID request));
     ("attempt_id", marshal (mrq_AttemptID request)); ("round", marshal (mrq_Round request));
     ("provider_idempotency_key", marshal (mrq_ProviderIdempotencyKey request));
     ("evidence_ids", marshal_nslice (Some (evidenceIDs (rct_EvidenceRefs t))))]).

Definition executionRequestCommand (plan : ReleasePlanSnapshot) (request : ReleaseMergeRequest) (t : ReleaseCommandTemplate)
    : option KernelCommand :=
  try parent <- executionRequestParent plan ;;
  Some (releaseCommand t "tekroo.command.release-plan.request-execution" (rp_ReleasePlanID plan) (rp_Revision plan) [parent]
          (request_payload plan request t)).

(** [Time.UTC] and [Time.Format] with [time.RFC3339Nano]: any year is printed. *)
Definition year_text (y : Z) : string :=
  let digits := if Z.abs y <? 10000 then enc_fixed 4 (Z.abs y) else enc_uint (Z.abs y) in
  if y <? 0 then "-" +:+ digits else digits.

Definition utc_text (t : Time) : string :=
  let secs := t_nanos t / 1000000000 in
  let sod := secs mod 86400 in
  let (y, yday) := civil_year (secs / 86400) in
  let (m, d) := civil_month 12 1 y yday in
  year_text y +:+ "-" +:+ enc_fixed 2 m +:+ "-" +:+ enc_fixed 2 d +:+ "T"
    +:+ enc_fixed 2 (sod / 3600) +:+ ":" +:+ enc_fixed 2 (sod / 60 mod 60) +:+ ":"
    +:+ enc_fixed 2 (sod mod 60) +:+ enc_fraction (t_nanos t mod 1000000000) +:+ "Z".

(** An [omitempty] member. *)
Definition unless_empty (k s : string) : list (string * json) := if s == "" then [] else [(k, marshal s)].

Definition observed_members (o : ReleaseProviderObservation) : list (string * json) :=
  unless_empty "observed_base_commit" (rpo_BaseCommit o) ++ unless_empty "observed_head_commit" (rpo_HeadCommit o)
  ++ unless_empty "observed_tree_digest" (rpo_TreeDigest o).

Definition result_payload (plan : ReleasePlanSnapshot) (merge : ReleaseMergePlan) (request : ReleaseMergeRequest)
    (o : ReleaseProviderObservation) (expectedRevision : Z) (t : ReleaseCommandTemplate) (observedAt : Time) : string :=
  render (obj (
    [("release_plan_id", marshal (rp_ReleasePlanID plan)); ("expected_release_revision", marshal expectedRevision);
     ("plan_digest", marshal (rp_PlanDigest plan)); ("merge_id", marshal (rm_MergeID merge));
     ("attempt_id", marshal (mrq_AttemptID request)); ("reasons", marshal_nslice (Some (rpo_Reasons o)));
     ("evidence_ids", marshal_nslice (Some (evidenceIDs (rct_EvidenceRefs t)))); ("observed_at", marshal (utc_text observedAt));
     ("outcome", marshal (rpo_Outcome o))] ++ observed_members o)).

Definition releaseResultCommand (plan : ReleasePlanSnapshot) (merge : ReleaseMergePlan) (request : ReleaseMergeRequest)
    (o : ReleaseProviderObservation) (expectedRevision : Z) (requestEventID : UUIDv7) (t : ReleaseCommandTemplate)
    (observedAt : Time) : KernelCommand :=
  releaseCommand t "tekroo.command.release-plan.record-result" (rp_ReleasePlanID plan) expectedRevision
    [response_to requestEventID] (result_payload plan merge request o expectedRevision t observedAt).

Definition reconciliation_payload (plan : ReleasePlanSnapshot) (priorResultEventID : UUIDv7) (request : ReleaseMergeRequest)
    (o : ReleaseProviderObservation) (t : ReleaseCommandTemplate) (observedAt : Time) : string :=
  render (obj (
    [("release_plan_id", marshal (rp_ReleasePlanID plan)); ("expected_release_revision", marshal (rp_Revision plan));
     ("plan_digest", marshal (rp_PlanDigest plan)); ("merge_id", marshal (mrq_MergeID request));
     ("attempt_id", marshal (mrq_AttemptID request)); ("reconciliation_id", marshal (rct_CommandID t));
     ("supersedes_result_event_id", marshal priorResultEventID); ("reasons", marshal_nslice (Some (rpo_Reasons o)));
     ("evidence_ids", marshal_nslice (Some (evidenceIDs (rct_EvidenceRefs t)))); ("observed_at", marshal (utc_text observedAt));
     ("provider_state", marshal (rpo_State o)); ("outcome", marshal (rpo_Outcome o))] ++ observed_members o)).

Definition releaseReconciliationCommand (plan : ReleasePlanSnapshot) (priorResultEventID : UUIDv7)
    (request : ReleaseMergeRequest) (o : ReleaseProviderObservation) (t : ReleaseCommandTemplate) (observedAt : Time)
    : KernelCommand :=
  releaseCommand t "tekroo.command.release-plan.record-reconciliation" (rp_ReleasePlanID plan) (rp_Revision plan)
    [response_to priorResultEventID] (reconciliation_payload plan priorResultEventID request o t observedAt).

(** ** Operations *)

(** The texts of errors of the services come with the answers. *)
Inductive release_calls (A : Type) : Type :=
| Released (a : A)
| SubmitCommand (command : KernelCommand) (provenance : ProvenanceBasis) (k : CommandReceipt * option string -> release_calls A)
| ProviderMerge (request : ReleaseMergeRequest) (k : ReleaseProviderObservation * option string -> release_calls A)
| ProviderReconcile (request : ReleaseMergeRequest) (k : ReleaseProviderObservation * option string -> release_calls A).
Arguments Released {A} a.
Arguments SubmitCommand {A} command provenance k.
Arguments ProviderMerge {A} request k.
Arguments ProviderReconcile {A} request k.

Abbreviation coordinated := (ReleaseCoordinationResult * option release_error)%type.

(** What is recorded for an answer, and the error the operation ends with. *)
Definition settled_observation (request : ReleaseMergeRequest) (mismatch unavailable : string)
    (answer : ReleaseProviderObservation * option string) : ReleaseProviderObservation * option release_error :=
  let '(observation, err) := answer in
  let err := option_map ErrProvider err in
  let '(observation, err) :=
    if releaseObservationMatches request observation then (observation, err)
    else (uncertainReleaseObservation request mismatch, Some (match err with Some e => e | None => ErrReleaseObservation end)) in
  (if is_nil err then observation else uncertainReleaseObservation request unavailable, err).

Definition record_observation (command : KernelCommand) (provenance : ProvenanceBasis) (what : string)
    (result : ReleaseCoordinationResult) (effectErr : option release_error) : release_calls coordinated :=
  SubmitCommand command provenance (fun answer =>
    let '(receipt, err) := answer in
    let result := result <| rcr_ResultReceipt := Some receipt |> in
    match err with
    | Some cause => Released (result, Some (ErrPersist what cause))
    | None =>
      when rc_OutcomeCode receipt != OutcomeApplied
        return Released (result, Some (ErrReleaseResultRejected (rc_ReasonCode receipt))) ;;
      Released (result, effectErr)
    end).

Definition ExecuteNext (operation : ReleaseExecutionPlan) : release_calls coordinated :=
  let plan := rep_Plan operation in
  let refused := Released (zero_ReleaseCoordinationResult, Some ErrInvalidReleaseOperation) in
  match releaseProviderRequest plan (rep_AttemptID operation) (rep_ProviderKey operation) with
  | None => refused
  | Some (request, merge) =>
    when negb (validReleaseTemplate (rep_Request operation)) || negb (validReleaseTemplate (rep_Result operation))
         || negb (ProvenanceBasis_Valid (rep_RequestProvenance operation))
         || negb (ProvenanceBasis_Valid (rep_ResultProvenance operation)) || IsZero (rep_ObservedAt operation)
      return refused ;;
    match executionRequestCommand plan request (rep_Request operation) with
    | None => refused
    | Some command =>
      SubmitCommand command (rep_RequestProvenance operation) (fun answer =>
        let '(receipt, err) := answer in
        let result := mkReleaseCoordinationResult (Some receipt) None zero_ReleaseProviderObservation in
        match err with
        | Some cause => Released (result, Some (ErrPersist "release execution intent" cause))
        | None =>
          when rc_OutcomeCode receipt != OutcomeApplied return Released (result, None) ;;
          match rc_ResultingRevision receipt, rc_EventIDs receipt with
          | Some revision, [requestEventID] =>
            when revision != u64 (rp_Revision plan + 1) return Released (result, Some ErrInvalidReleaseOperation) ;;
            ProviderMerge request (fun answer =>
              let '(observation, effectErr) :=
                settled_observation request "provider observation did not match the persisted release plan"
                  "provider merge acknowledgement is uncertain" answer in
              record_observation
                (releaseResultCommand plan merge request observation revision requestEventID (rep_Result operation)
                   (rep_ObservedAt operation))
                (rep_ResultProvenance operation) "release provider result"
                (result <| rcr_Observation := observation |>) effectErr)
          | _, _ => Released (result, Some ErrInvalidReleaseOperation)
          end
        end)
    end
  end.

Definition ReleaseCoordinator_Reconcile (operation : ReleaseReconciliationPlan) : release_calls coordinated :=
  let plan := rrp_Plan operation in
  let refused := Released (zero_ReleaseCoordinationResult, Some ErrInvalidReleaseOperation) in
  match rp_ActiveAttempt plan with
  | None => refused
  | Some active =>
    when negb (ReleasePlanSnapshot_Valid plan) || (rp_State plan != ReleaseReconciling)
         || negb (validReleaseTemplate (rrp_Command operation)) || negb (ProvenanceBasis_Valid (rrp_Provenance operation))
         || IsZero (rrp_ObservedAt operation)
      return refused ;;
    match releaseProviderRequest plan (ra_AttemptID active) (ra_ProviderIdempotencyKey active) with
    | None => refused
    | Some (request, _) =>
      match results plan !! mrq_MergeID request with
      | None => refused
      | Some prior =>
        when (rr_Outcome prior != ReleaseOutcomeUnknown) || negb (UUIDv7_Valid (rr_ResultEventID prior)) return refused ;;
        ProviderReconcile request (fun answer =>
          let '(observation, effectErr) :=
            settled_observation request "provider reconciliation did not match the persisted release plan"
              "release provider is unavailable for reconciliation" answer in
          record_observation
            (releaseReconciliationCommand plan (rr_ResultEventID prior) request observation (rrp_Command operation)
               (rrp_ObservedAt operation))
            (rrp_Provenance operation) "release reconciliation"
            (mkReleaseCoordinationResult None None observation) effectErr)
      end
    end
  end.
