(* ===== verification/ReleaseCoordinatorLaws.v ===== *)
(** * Theorems on the release coordinator

    The commands the coordinator builds are read back by the kernel as they were
    meant; with the kernel's policy deciding them, every attempt is settled or left
    for reconciliation, and a plan whose provider eventually tells what happened is
    carried out to the end. *)

From S2P Require Import Prelude GoText GoTime GoJson GoMarshal GoJsonLaws GoMarshalLaws GoTimeLaws Types Samples.
From S2P Require Import Sha256 Payload Envelope State Evidence Fingerprint Provenance Release Escalation EvidenceLaws.
From S2P Require Import Snapshot HumanPolicy CommandPolicy MemoryStore OperationalExecution OperationalCoordinator.
From S2P Require Import OperationalLaws ReleaseCoordinator.

#[local] Opaque UUIDv7_Valid ActorFQN_Valid Digest_Valid PrincipalRef_Valid.

(** ** Payloads as objects *)

Lemma members_lookup_from ms (m : gmap string json) k :
  Forall (fun kv => unquote (fst kv) = fst kv) ms -> NoDup (map fst ms) ->
  foldl (fun m kv => <[unquote (fst kv) := snd kv]> m) m ms !! k =
  match assoc k ms with Some j => Some j | None => m !! k end.
Proof.
  revert m. induction ms as [|[k' j] ms IH]; intros m Hu Hn; [done|]. apply Forall_cons in Hu as [Hk Hu].
  cbn [map fst] in Hn, Hk. apply NoDup_cons in Hn as [Hin Hn]. cbn [foldl fst snd assoc]. rewrite IH, Hk by done.
  destruct (String.eqb_spec k' k) as [->|Hne]; [|by rewrite lookup_insert_ne].
  assert (assoc k ms = None) as ->; [|by rewrite lookup_insert_eq].
  clear -Hin. induction ms as [|[k' j'] ms IH]; [done|]. cbn in *. apply not_elem_of_cons in Hin as [H1 H2].
  destruct (String.eqb_spec k' k) as [->|_]; [done|auto].
Qed.

(** A payload that is printed is decoded to its members. *)
Lemma payload_object ms :
  names_ok (map fst ms) = true -> Forall (fun kv => json_wf kv.2) ms -> (jdepth (obj ms) <= max_depth)%nat ->
  exists o, decodePayloadObject (render (obj ms)) = Some o /\ forall k, o !! k = assoc k ms.
Proof.
  intros Hn Hw Hd. exists (members_map ms). pose proof (render_parse (obj ms) (object_wf ms Hn Hw) Hd) as Hp. split.
  - unfold json_parse in Hp. unfold decodePayloadObject. destruct (json_decode _) as [[j r]|]; [|discriminate Hp].
    cbn [fst snd] in Hp. destruct (_ == _) in Hp; [|discriminate Hp]. by injection Hp as ->.
  - intros k. destruct (names_ok_spec _ Hn) as [Hu Hnd]. unfold members_map. rewrite members_lookup_from; [|clear Hnd|done].
    + by destruct (assoc k ms).
    + apply Forall_fmap in Hu. eapply Forall_impl; [exact Hu|]. by intros kv [? _].
Qed.

Lemma all_strings_marshal l : Forall utf8 l -> all_strings (map marshal l) = Some l.
Proof. induction 1 as [|x l Hx _ IH]; [done|]. cbn in *. rewrite unquote_enc_html by done. by rewrite IH. Qed.

Lemma evidence_object (o : object) refs :
  o !! "evidence_ids" = Some (JArray (map marshal (evidenceIDs refs))) ->
  Forall (fun r => UUIDv7_Valid (er_EvidenceID r) = true) refs -> payloadEvidenceMatches o refs = true.
Proof.
  intros Ho Hr. assert (Forall (fun id => UUIDv7_Valid id = true) (evidenceIDs refs)) as Hv by (by apply Forall_fmap).
  unfold payloadEvidenceMatches, payloadEvidenceFieldMatches, uuidArrayField, stringArrayField. rewrite Ho. cbn [as_array].
  rewrite all_strings_marshal by (eapply Forall_impl; [exact Hv|apply UUIDv7_utf8]).
  rewrite (proj2 (forallb_True_iff _ _) Hv). unfold evidenceIDs, llen. rewrite length_map, neqb_refl. by apply bool_decide_true.
Qed.

Lemma distinct_evidence_valid seen refs : distinct_evidence seen refs = true -> Forall (fun r => UUIDv7_Valid (er_EvidenceID r) = true) refs.
Proof.
  revert seen. induction refs as [|r refs IH]; intros seen H; [done|]. cbn [distinct_evidence] in H. unwhen H. bprop E. split_ands.
  constructor; [done|eauto].
Qed.

(** What a valid template guarantees. *)
Record template_ok (t : ReleaseCommandTemplate) : Prop := {
  tk_id : UUIDv7_Valid (rct_CommandID t) = true;
  tk_refs : Forall (fun r => UUIDv7_Valid (er_EvidenceID r) = true) (rct_EvidenceRefs t);
  tk_some : llen (evidenceIDs (rct_EvidenceRefs t)) <> 0
}.

Lemma template_valid t : validReleaseTemplate t = true -> template_ok t.
Proof.
  unfold validReleaseTemplate. intros H. unwhen H. bprop E. split_ands. split; [done|by eapply distinct_evidence_valid|].
  unfold evidenceIDs, llen in *. by rewrite length_map.
Qed.

(** *** Reading the payloads back *)

Lemma strings_wf l : Forall utf8 l -> json_wf (JArray (map marshal l)).
Proof. intros H. apply json_wf_array, Forall_fmap. eapply Forall_impl; [exact H|]. intros y Hy. by apply (marshal_wf (A := string)). Qed.

Lemma ids_utf8 refs : Forall (fun r => UUIDv7_Valid (er_EvidenceID r) = true) refs -> Forall utf8 (evidenceIDs refs).
Proof. intros H. apply Forall_fmap. eapply Forall_impl; [exact H|]. intros r. apply UUIDv7_utf8. Qed.

Ltac members_wf := repeat (apply Forall_cons_2; [first [apply (marshal_wf (A := string)); assumption
  | apply (marshal_wf (A := Z)); assumption | by apply strings_wf]|]); apply Forall_nil_2.

(** The two ways the kernel reads a payload. *)
Lemma payload_reads_both {R} (fs : list (field R)) zero ms r ids :
  names_ok (map fst ms) = true -> Forall (fun kv => json_wf kv.2) ms -> (jdepth (obj ms) <= max_depth)%nat ->
  dec_plain fs ms zero = Some r -> assoc "lifecycle_epoch" ms = None -> assoc "evidence_ids" ms = Some ids ->
  Unmarshal fs zero (render (obj ms)) = Some r /\
  exists o, decodePayloadObject (render (obj ms)) = Some o /\ o !! "lifecycle_epoch" = None /\ o !! "evidence_ids" = Some ids.
Proof.
  intros Hn Hw Hd Hr Hl Hi. split.
  - change (render (obj ms)) with (payload_text (Some (obj ms))). by rewrite Unmarshal_struct.
  - destruct (payload_object ms Hn Hw Hd) as (o & Ho & Hk). exists o. by rewrite !Hk.
Qed.

(** The list of identifiers becomes a variable, so that the other members can be computed. *)
Ltac slice_reads ids :=
  let d := fresh "d" in let Ed := fresh "Ed" in let Hds := fresh "Hds" in let j := fresh "j" in let Hj := fresh "Hj" in
  unfold fields_releaseAttemptPayload, fields_ReleaseResultTransition;
  assert (exists d, dec_slice "" dec_string = d /\ forall cur, d (JArray (map marshal ids)) cur = Some ids)
    as (d & Ed & Hds) by (eexists; split; [reflexivity|intros; by apply dec_slice_strings]);
  rewrite Ed; clear Ed;
  match goal with |- context [("evidence_ids", ?x)] =>
    assert (forall cur, d x cur = Some ids) as Hj by exact Hds; generalize dependent x end;
  intros j Hj; payload_reads; rewrite Hj; payload_reads; reflexivity.

Ltac depth_of l :=
  match goal with |- context [(_, JArray (?f l))] =>
    let x := constr:(JArray (f l)) in assert (jdepth x <= 1)%nat by exact (strings_depth l); generalize dependent x; intros end.
Ltac flat_payload := apply (Nat.le_trans _ 5); [cbn; lia|apply Nat.leb_le; reflexivity].

Lemma request_payload_reads plan request t :
  utf8 (rp_ReleasePlanID plan) -> is_u64 (rp_Revision plan) -> utf8 (rp_PlanDigest plan) -> utf8 (mrq_MergeID request) ->
  utf8 (mrq_AttemptID request) -> is_u64 (mrq_Round request) -> utf8 (mrq_ProviderIdempotencyKey request) ->
  Forall utf8 (evidenceIDs (rct_EvidenceRefs t)) ->
  Unmarshal fields_releaseAttemptPayload zero_releaseAttemptPayload (request_payload plan request t) =
  Some (mkreleaseAttemptPayload (rp_ReleasePlanID plan) (rp_Revision plan) (rp_PlanDigest plan) (mrq_MergeID request)
          (mrq_AttemptID request) (mrq_Round request) (mrq_ProviderIdempotencyKey request) (evidenceIDs (rct_EvidenceRefs t))) /\
  exists o, decodePayloadObject (request_payload plan request t) = Some o /\
    o !! "lifecycle_epoch" = None /\ o !! "evidence_ids" = Some (JArray (map marshal (evidenceIDs (rct_EvidenceRefs t)))).
Proof.
  intros. unfold request_payload. cbn [marshal_nslice]. set (ids := evidenceIDs (rct_EvidenceRefs t)) in *.
  apply payload_reads_both; [vm_compute; reflexivity|members_wf|depth_of ids; flat_payload|slice_reads ids|done|done].
Qed.

Definition ascii_text (s : string) : bool := all_chars (fun c => byte_of c <? 128) s.

Lemma ascii_append a b : ascii_text (a +:+ b) = ascii_text a && ascii_text b.
Proof. apply all_chars_app. Qed.

Lemma ascii_digit n s : ascii_text (String (digit_char (n mod 10)) s) = ascii_text s.
Proof.
  unfold ascii_text. cbn [all_chars]. pose proof (Z.mod_pos_bound n 10 ltac:(lia)) as H.
  assert (forallb (fun d => byte_of (digit_char d) <? 128) (seqZ 0 10) = true) as K by (vm_compute; reflexivity).
  apply forallb_True_iff in K. rewrite Forall_forall in K. rewrite K; [done|]. apply elem_of_seqZ. lia.
Qed.

Lemma ascii_fixed w n : ascii_text (enc_fixed w n) = true.
Proof.
  unfold enc_fixed. assert (ascii_text "" = true) as H by done. revert n H. generalize "".
  induction w as [|w IH]; intros acc n H; [done|]. cbn [pad_digits]. apply IH. by rewrite ascii_digit.
Qed.

#[local] Opaque enc_fixed.

Lemma ascii_uint n : ascii_text (enc_uint n) = true.
Proof.
  unfold enc_uint. assert (ascii_text "" = true) as H by done. revert n H. generalize "" 20%nat. intros acc w. revert acc.
  induction w as [|w IH]; intros acc n H; [done|]. cbn [dec_aux]. destruct (_ <? _); [|apply IH]; by rewrite ascii_digit.
Qed.

Lemma utc_text_utf8 t : utf8 (utc_text t).
Proof.
  apply utf8_of_ascii. change (ascii_text (utc_text t) = true). unfold utc_text, year_text, enc_fraction.
  destruct (civil_year _) as [y yday]. destruct (civil_month _ _ _ _) as [m d]. cbv zeta. destruct (trim_zeros _ _) as [n w].
  destruct (Z.abs y <? 10000), (y <? 0), (_ =? 0); repeat (rewrite ascii_append || rewrite ascii_fixed || rewrite ascii_uint); reflexivity.
Qed.

(** The texts of an observation; it names the commits and the tree, or none of them. *)
Record observation_text (o : ReleaseProviderObservation) : Prop := {
  ot_state : utf8 (rpo_State o);
  ot_outcome : utf8 (rpo_Outcome o);
  ot_base : utf8 (rpo_BaseCommit o);
  ot_head : utf8 (rpo_HeadCommit o);
  ot_tree : utf8 (rpo_TreeDigest o);
  ot_reasons : Forall utf8 (rpo_Reasons o);
  ot_located : rpo_BaseCommit o <> "" /\ rpo_HeadCommit o <> "" /\ rpo_TreeDigest o <> "" \/ unlocated o = true
}.

Lemma observed_members_cases o :
  observation_text o ->
  observed_members o = [("observed_base_commit", marshal (rpo_BaseCommit o)); ("observed_head_commit", marshal (rpo_HeadCommit o));
                        ("observed_tree_digest", marshal (rpo_TreeDigest o))] \/
  rpo_BaseCommit o = "" /\ rpo_HeadCommit o = "" /\ rpo_TreeDigest o = "" /\ observed_members o = [].
Proof.
  intros [_ _ _ _ _ _ Hl]. unfold observed_members, unless_empty. destruct Hl as [(H1 & H2 & H3)|Hl].
  - left. by rewrite !bool_decide_false by done.
  - right. unfold unlocated in Hl. bprop Hl. destruct Hl as [[-> ->] ->]. by split_and!.
Qed.

Section outcome_payload.
Context (plan : ReleasePlanSnapshot) (merge : ReleaseMergePlan) (request : ReleaseMergeRequest) (o : ReleaseProviderObservation).
Context (t : ReleaseCommandTemplate) (observedAt : Time).
Context (Hplan : utf8 (rp_ReleasePlanID plan)) (Hdigest : utf8 (rp_PlanDigest plan)) (Hmerge : utf8 (rm_MergeID merge)).
Context (Hrequest : utf8 (mrq_MergeID request)) (Hattempt : utf8 (mrq_AttemptID request)) (Hcommand : utf8 (rct_CommandID t)).
Context (Hids : Forall utf8 (evidenceIDs (rct_EvidenceRefs t))) (Ho : observation_text o).

Lemma result_payload_reads revision :
  is_u64 revision ->
  let payload := result_payload plan merge request o revision t observedAt in
  Unmarshal fields_ReleaseResultTransition zero_ReleaseResultTransition payload =
  Some (mkReleaseResultTransition (rp_ReleasePlanID plan) revision (rp_PlanDigest plan) (rm_MergeID merge)
          (mrq_AttemptID request) (rpo_Outcome o) (evidenceIDs (rct_EvidenceRefs t)) "" "" ""
          (rpo_BaseCommit o) (rpo_HeadCommit o) (rpo_TreeDigest o)) /\
  exists object, decodePayloadObject payload = Some object /\ object !! "lifecycle_epoch" = None /\
    object !! "evidence_ids" = Some (JArray (map marshal (evidenceIDs (rct_EvidenceRefs t)))).
Proof.
  intros Hr payload. subst payload. unfold result_payload. cbn [marshal_nslice]. set (ids := evidenceIDs (rct_EvidenceRefs t)) in *.
  pose proof (utc_text_utf8 observedAt) as Htime. destruct Ho as [H1 H2 H3 H4 H5 H6 _].
  destruct (observed_members_cases o Ho) as [E|(Eb & Eh & Et & E)]; [|rewrite Eb, Eh, Et]; rewrite E; cbn [app];
    (apply payload_reads_both; [vm_compute; reflexivity|members_wf|depth_of ids; depth_of (rpo_Reasons o); flat_payload|slice_reads ids|done|done]).
Qed.

Lemma reconciliation_payload_reads prior :
  is_u64 (rp_Revision plan) -> utf8 prior ->
  let payload := reconciliation_payload plan prior request o t observedAt in
  Unmarshal fields_ReleaseResultTransition zero_ReleaseResultTransition payload =
  Some (mkReleaseResultTransition (rp_ReleasePlanID plan) (rp_Revision plan) (rp_PlanDigest plan) (mrq_MergeID request)
          (mrq_AttemptID request) (rpo_Outcome o) (evidenceIDs (rct_EvidenceRefs t)) prior (rct_CommandID t) (rpo_State o)
          (rpo_BaseCommit o) (rpo_HeadCommit o) (rpo_TreeDigest o)) /\
  exists object, decodePayloadObject payload = Some object /\ object !! "lifecycle_epoch" = None /\
    object !! "evidence_ids" = Some (JArray (map marshal (evidenceIDs (rct_EvidenceRefs t)))).
Proof.
  intros Hr Hprior payload. subst payload. unfold reconciliation_payload. cbn [marshal_nslice].
  set (ids := evidenceIDs (rct_EvidenceRefs t)) in *. pose proof (utc_text_utf8 observedAt) as Htime.
  destruct Ho as [H1 H2 H3 H4 H5 H6 _].
  destruct (observed_members_cases o Ho) as [E|(Eb & Eh & Et & E)]; [|rewrite Eb, Eh, Et]; rewrite E; cbn [app];
    (apply payload_reads_both; [vm_compute; reflexivity|members_wf|depth_of ids; depth_of (rpo_Reasons o); flat_payload|slice_reads ids|done|done]).
Qed.
End outcome_payload.

(** ** Accepted events *)

(** A plan that stays as created is valid again when what events change is. *)
Lemma valid_again s s' :
  ReleasePlanSnapshot_Valid s = true -> rp_Mode s = ReleaseModeCode -> rp_State s <> ReleasePlanned ->
  plan_part s' = plan_part s -> rp_Qualification s' = rp_Qualification s -> rp_Revision s' <> 0 ->
  rp_NextMergeIndex s' <= llen (rp_OrderedMerges s) -> rp_NextRound s' <> 0 -> rp_NextRound s' <= rp_ExecutionRoundLimit s ->
  is_nil (rp_Results s') = false -> forallb result_entry_ok (map_to_list (results s')) = true -> state_valid s' = true ->
  ReleasePlanSnapshot_Valid s' = true.
Proof.
  intros H Hm Hst Hp Hq Hrev Hix Hr0 Hr Hres Hent Hsv.
  unfold ReleasePlanSnapshot_Valid, qualification_ok, head_commits, Key in *.
  pose proof (f_equal rp_ReleasePlanID Hp) as E1. pose proof (f_equal rp_OpeningEventID Hp) as E2.
  pose proof (f_equal rp_Mode Hp) as E3. pose proof (f_equal rp_Story Hp) as E4. pose proof (f_equal rp_StoryLifecycleEpoch Hp) as E5.
  pose proof (f_equal rp_ExpectedStoryRevision Hp) as E6. pose proof (f_equal rp_Author Hp) as E7.
  pose proof (f_equal rp_AuthorApprovalEventID Hp) as E8. pose proof (f_equal rp_AuthorApprovalRevision Hp) as E9.
  pose proof (f_equal rp_PolicyRevision Hp) as E10. pose proof (f_equal rp_PlanDigest Hp) as E11.
  pose proof (f_equal rp_EvidenceIDs Hp) as E12. pose proof (f_equal rp_RepositoryURL Hp) as E13.
  pose proof (f_equal rp_BaseRef Hp) as E14. pose proof (f_equal rp_BaseCommit Hp) as E15.
  pose proof (f_equal rp_OrderedMerges Hp) as E16. pose proof (f_equal rp_MergeStrategy Hp) as E17.
  pose proof (f_equal rp_ConflictPolicy Hp) as E18. pose proof (f_equal rp_ContractManifest Hp) as E19.
  pose proof (f_equal rp_ManifestSHA256 Hp) as E20. pose proof (f_equal rp_ExpectedQualifiedTree Hp) as E21.
  pose proof (f_equal rp_ExecutionRoundLimit Hp) as E22. unfold plan_part in *. cbn in E1, E2, E3, E4, E5, E6, E7, E8, E9, E10, E11, E12,
    E13, E14, E15, E16, E17, E18, E19, E20, E21, E22.
  rewrite E1, E2, E3, E4, E5, E6, E7, E8, E9, E10, E11, E12, E13, E14, E15, E16, E17, E18, E19, E20, E21, E22, Hq, Hent, Hres.
  rewrite (bool_decide_false (rp_Revision s' = 0)) by done. rewrite (bool_decide_false (rp_NextRound s' = 0)) by done.
  rewrite (proj2 (Z.ltb_ge _ _) Hix), (proj2 (Z.ltb_ge _ _) Hr).
  rewrite (bool_decide_false (rp_Mode s = ReleaseModeNotRequired)) in * by (by rewrite Hm).
  rewrite (bool_decide_false (rp_State s = ReleasePlanned)) in H by done.
  destruct (rp_Qualification s) as [q|]; [|cbn [is_nil negb andb] in H; unwhen H; done].
  cbn [is_nil] in *. rewrite !andb_false_r in *. cbv iota in H |- *. unwhen H.
  match goal with |- (if ?g then _ else _) = _ => assert (g = false) as -> end.
  { rewrite !orb_false_iff in *. split_ands. by split_and!. }
  repeat match goal with K : ?g = false |- (if ?g then _ else _) = _ => rewrite K end. exact Hsv.
Qed.

Lemma release_applied plan e n next :
  ReleasePlanSnapshot_Valid plan = true -> ref_ID (ev_Aggregate e) = rp_ReleasePlanID plan ->
  ev_AggregateRevision e = u64 (rp_Revision plan + 1) -> UUIDv7_Valid (ev_EventID e) = true -> IsZero (ev_CommittedAt e) = false ->
  release_case plan e = Some n -> next = n <| rp_Revision := u64 (rp_Revision n + 1) |> ->
  ReleasePlanSnapshot_Valid next = true -> ApplyReleaseEvent plan e = (next, true).
Proof.
  intros Hv Hid Hrev He Ht Hn -> Hv'. unfold ApplyReleaseEvent.
  rewrite Hv, Hid, Hrev, He, Ht, !neqb_refl, Hn. cbn [negb orb]. by rewrite Hv'.
Qed.

Lemma valid_results s :
  ReleasePlanSnapshot_Valid s = true -> rp_Mode s <> ReleaseModeNotRequired ->
  is_nil (rp_Results s) = false /\ forallb result_entry_ok (map_to_list (results s)) = true.
Proof.
  unfold ReleasePlanSnapshot_Valid. intros H Hm. rewrite (bool_decide_eq_false_2 _ Hm) in H. unwhen H.
  rewrite !orb_false_iff in *. split_ands. split; [done|]. by apply negb_false_iff.
Qed.

(** *** Outcomes *)

Lemma result_entries s r :
  forallb result_entry_ok (map_to_list (results s)) = true -> result_entry_ok (rr_MergeID r, r) = true ->
  forallb result_entry_ok (map_to_list (<[rr_MergeID r := r]> (results s))) = true.
Proof.
  rewrite !forallb_True_iff, !Forall_forall. intros H Hr [k v] Hin. apply elem_of_map_to_list in Hin.
  destruct (decide (k = rr_MergeID r)) as [->|Hne].
  - rewrite lookup_insert_eq in Hin. by injection Hin as <-.
  - rewrite lookup_insert_ne in Hin by done. apply H. by apply elem_of_map_to_list.
Qed.

Lemma resting_valid s :
  rp_State s = ReleaseQualified \/ rp_State s = ReleaseFailed -> rp_ActiveAttempt s = None -> rp_FinalizationEventID s = "" ->
  state_valid s = true.
Proof. intros Hs Ha Hf. unfold state_valid. rewrite Ha, Hf. by destruct Hs as [-> | ->]. Qed.

Lemma attempting_valid s a :
  rp_State s = ReleaseExecuting \/ rp_State s = ReleaseReconciling -> rp_ActiveAttempt s = Some a -> attempt_ok a = true ->
  rp_FinalizationEventID s = "" -> state_valid s = true.
Proof. intros Hs Ha Hk Hf. unfold state_valid. rewrite Ha, Hk, Hf. by destruct Hs as [-> | ->]. Qed.

(** The plan after an outcome is recorded. *)
Definition outcome_recorded (s : ReleasePlanSnapshot) (r : ReleaseResult) : ReleasePlanSnapshot :=
  (applyReleaseOutcome (s <| rp_Results := Some (<[rr_MergeID r := r]> (results s)) |>) r (rp_NextRound s))
    <| rp_Revision := rp_Revision s + 1 |>.

Lemma recorded_valid s r a :
  ReleasePlanSnapshot_Valid s = true -> rp_Mode s = ReleaseModeCode ->
  rp_State s = ReleaseExecuting \/ rp_State s = ReleaseReconciling -> rp_ActiveAttempt s = Some a ->
  0 <= rp_NextMergeIndex s < llen (rp_OrderedMerges s) -> llen (rp_OrderedMerges s) < u64_mod -> 0 < rp_NextRound s ->
  0 < rp_Revision s -> result_entry_ok (rr_MergeID r, r) = true -> ReleasePlanSnapshot_Valid (outcome_recorded s r) = true.
Proof.
  intros Hv Hc Hst Ha Hix Hlen Hround Hrev Hr. assert (rp_Mode s <> ReleaseModeNotRequired) as Hmode by (by rewrite Hc).
  destruct (valid_code s Hv Hmode) as (_ & _ & _ & Hmax & Hlimit & Hr0 & _ & Hsv). destruct (valid_results s Hv Hmode) as [Hres Hent].
  assert (rp_State s <> ReleasePlanned) as Hpl by (by destruct Hst as [-> | ->]).
  assert (attempt_ok a = true /\ rp_FinalizationEventID s = "") as [Hao Hfin].
  { unfold state_valid in Hsv. rewrite Ha in Hsv. destruct Hst as [E|E]; rewrite E in Hsv; eval_tests_in Hsv; cbn [orb] in Hsv; cbv iota in Hsv;
      bprop Hsv; by split_ands. }
  assert (1000 < u64_mod) as H1000 by reflexivity. pose proof (result_entries s r Hent Hr) as Hent'.
  assert (known_outcome (rr_Outcome r) = true) as Hk by (unfold result_entry_ok in Hr; bprop Hr; by split_ands).
  assert (u64 (rp_NextMergeIndex s + 1) = rp_NextMergeIndex s + 1) as Hu by (apply u64_id; unfold is_u64; lia).
  assert (forall n, n < 1001 -> 0 < n -> u64 n = n) as Hun by (intros; apply u64_id; unfold is_u64; lia).
  unfold outcome_recorded. set (s1 := s <| rp_Results := Some (<[rr_MergeID r := r]> (results s)) |>).
  destruct (applyReleaseOutcome_cases s1 r (rp_NextRound s) Hk) as [[_ E]|[[_ E]|[(_ & _ & E)|(_ & Hlt & E)]]]; rewrite E; subst s1;
    eapply (valid_again s); try done; try (cbn; lia).
  - by apply (attempting_valid _ a); [right| | |].
  - by apply resting_valid; [left| |].
  - by apply resting_valid; [right| |].
  - change (u64 (rp_NextRound s + 1) <> 0). change (rp_ExecutionRoundLimit _) with (rp_ExecutionRoundLimit s) in Hlt. rewrite Hun; lia.
  - change (u64 (rp_NextRound s + 1) <= rp_ExecutionRoundLimit s).
    change (rp_ExecutionRoundLimit _) with (rp_ExecutionRoundLimit s) in Hlt. rewrite Hun; lia.
  - by apply resting_valid; [left| |].
Qed.

(** *** Observations *)

Lemma uncertain_matches request reason :
  reason <> "" -> slen reason <= 4096 -> releaseObservationMatches request (uncertainReleaseObservation request reason) = true.
Proof.
  intros H1 H2. unfold releaseObservationMatches, uncertainReleaseObservation, validReleaseReasons.
  cbn [rpo_ReleasePlanID rpo_MergeID rpo_AttemptID rpo_Reasons rpo_Outcome rpo_State]. rewrite !neqb_refl. cbn [distinct_reasons].
  rewrite (bool_decide_false (reason = "")), (proj2 (Z.ltb_ge _ _) H2) by done.
  rewrite bool_decide_false by set_solver. reflexivity.
Qed.

Lemma settled_cases request mismatch unavailable answer :
  settled_observation request mismatch unavailable answer =
  if releaseObservationMatches request (fst answer) && is_nil (snd answer) then (fst answer, None)
  else (uncertainReleaseObservation request unavailable,
        Some (match snd answer with Some text => ErrProvider text | None => ErrReleaseObservation end)).
Proof. destruct answer as [o [text|]]; unfold settled_observation; cbn [fst snd]; by destruct (releaseObservationMatches request o). Qed.

Lemma settled_matches request mismatch unavailable answer :
  unavailable <> "" -> slen unavailable <= 4096 ->
  releaseObservationMatches request (fst (settled_observation request mismatch unavailable answer)) = true.
Proof.
  intros H1 H2. rewrite settled_cases. destruct (releaseObservationMatches request (fst answer)) eqn:E; cbn [andb].
  - destruct (is_nil (snd answer)); [done|by apply uncertain_matches].
  - by apply uncertain_matches.
Qed.

Lemma matches_cases request o :
  releaseObservationMatches request o = true ->
  rpo_AttemptID o = mrq_AttemptID request /\
  (merged (rpo_Outcome o) = true /\ rpo_State o = ReleaseProviderMerged /\ rpo_BaseCommit o = mrq_BaseCommit request /\
     rpo_HeadCommit o = mrq_HeadCommit request /\ rpo_TreeDigest o <> "" \/
   rpo_Outcome o = ReleaseOutcomeFailed /\ rpo_State o ∈ [ReleaseProviderOpen; ReleaseProviderClosedUnmerged; ReleaseProviderMissing] /\
     unlocated o = true \/
   rpo_Outcome o = ReleaseOutcomeUnknown /\ rpo_State o = ReleaseProviderUnavailable /\ unlocated o = true).
Proof.
  unfold releaseObservationMatches. intros H. destruct (_ || _) eqn:G in H; [discriminate H|]. bprop G. split_ands. split; [done|].
  destruct (merged (rpo_Outcome o)) eqn:Em; [left; bprop H; by split_ands|]. case_bool_decide as Ef.
  - right. left. bprop H. destruct H as [Hs Hl]. split_and!; [done| |done]. rewrite !orb_true_iff, !bool_decide_eq_true in Hs. rewrite !elem_of_cons. tauto.
  - case_bool_decide as Eu; [|discriminate H]. right. right. bprop H. by split_ands.
Qed.

Lemma matches_text request o :
  releaseObservationMatches request o = true -> mrq_BaseCommit request <> "" -> mrq_HeadCommit request <> "" ->
  utf8 (mrq_BaseCommit request) -> utf8 (mrq_HeadCommit request) -> utf8 (rpo_TreeDigest o) -> Forall utf8 (rpo_Reasons o) ->
  observation_text o.
Proof.
  intros Hm Hb0 Hh0 Hb Hh Ht Hr. destruct (matches_cases _ _ Hm) as (_ & [(Ho & Hs & Eb & Eh & Hn)|[(Ho & Hs & Hl)|(Ho & Hs & Hl)]]).
  - unfold merged in Ho. rewrite orb_true_iff, !bool_decide_eq_true in Ho. split; rewrite ?Hs, ?Eb, ?Eh; auto; [by apply utf8_of_ascii|].
    destruct Ho as [-> | ->]; by apply utf8_of_ascii.
  - assert (utf8 (rpo_State o)). { rewrite !elem_of_cons, elem_of_nil in Hs. destruct Hs as [-> |[-> |[-> |[]]]]; by apply utf8_of_ascii. }
    pose proof Hl as Hl'. unfold unlocated in Hl'. bprop Hl'. destruct Hl' as [[Eb Eh] _].
    split; rewrite ?Ho, ?Eb, ?Eh; auto; by apply utf8_of_ascii.
  - pose proof Hl as Hl'. unfold unlocated in Hl'. bprop Hl'. destruct Hl' as [[Eb Eh] _].
    split; rewrite ?Ho, ?Hs, ?Eb, ?Eh; auto; by apply utf8_of_ascii.
Qed.

Lemma result_fits request o merge attempt event tree (reconciled : bool) reconciliation :
  releaseObservationMatches request o = true -> UUIDv7_Valid merge = true -> UUIDv7_Valid attempt = true -> UUIDv7_Valid event = true ->
  (if reconciled then UUIDv7_Valid reconciliation = true else True) ->
  result_entry_ok (merge, mkReleaseResult merge attempt (rpo_Outcome o) event tree reconciled reconciliation) = true.
Proof.
  intros Hm H1 H2 H3 H4. unfold result_entry_ok. cbn [rr_MergeID rr_AttemptID rr_Outcome rr_ResultEventID rr_Reconciled rr_ReconciliationEventID].
  rewrite H1, H2, H3, bool_decide_true by done.
  assert (known_outcome (rpo_Outcome o) = true) as ->.
  { unfold known_outcome. destruct (matches_cases _ _ Hm) as (_ & [(Ho & _)|[(-> & _)|(-> & _)]]); [|done..].
    unfold merged in Ho. by rewrite Ho. }
  destruct reconciled; [by rewrite H4|done].
Qed.

Lemma outcome_revision s r round : rp_Revision (applyReleaseOutcome s r round) = rp_Revision s.
Proof. unfold applyReleaseOutcome. repeat case_match; reflexivity. Qed.

(** The kernel reads an observation that fits its request. *)
Lemma outcome_read payload (reconciliation : bool) v request o :
  Unmarshal fields_ReleaseResultTransition zero_ReleaseResultTransition payload = Some v ->
  releaseObservationMatches request o = true -> mrq_BaseCommit request <> "" -> mrq_HeadCommit request <> "" ->
  rt_Outcome v = rpo_Outcome o -> rt_ObservedBase v = rpo_BaseCommit o -> rt_ObservedHead v = rpo_HeadCommit o ->
  rt_ObservedTree v = rpo_TreeDigest o ->
  UUIDv7_Valid (rt_ReleasePlanID v) = true -> Digest_Valid (rt_PlanDigest v) = true -> UUIDv7_Valid (rt_MergeID v) = true ->
  UUIDv7_Valid (rt_AttemptID v) = true -> rt_ExpectedRevision v <> 0 -> llen (rt_EvidenceIDs v) <> 0 ->
  (if reconciliation then UUIDv7_Valid (rt_SupersedesResultEventID v) = true /\ UUIDv7_Valid (rt_ReconciliationID v) = true /\
     rt_ProviderState v = rpo_State o else True) ->
  ReleaseResultFromPayload payload reconciliation = Some v.
Proof.
  intros Hv Hm Hb Hh Eo Eb Eh Et H1 H2 H3 H4 H5 H6 H7. unfold ReleaseResultFromPayload. rewrite Hv, H1, H2, H3, H4, Eo, Eb, Eh, Et.
  rewrite !(bool_decide_false (_ = 0)) by done. cbn [negb orb]. destruct (matches_cases _ _ Hm) as (_ & Hc).
  assert (reconciliation = true -> UUIDv7_Valid (rt_SupersedesResultEventID v) = true /\ UUIDv7_Valid (rt_ReconciliationID v) = true /\
    rt_ProviderState v = rpo_State o) as K by (intros ->; exact H7). clear H7.
  assert (reconciliation && (negb (UUIDv7_Valid (rt_SupersedesResultEventID v)) || negb (UUIDv7_Valid (rt_ReconciliationID v))) = false) as ->.
  { destruct reconciliation; [|done]. by destruct (K eq_refl) as (-> & -> & _). }
  assert (reconciliation = false \/ rt_ProviderState v = rpo_State o) as Hs by (destruct reconciliation; [right; apply K; done|by left]).
  destruct Hc as [(Ho & Hst & Hbc & Hhc & Hn)|[(Ho & Hst & Hl)|(Ho & Hst & Hl)]].
  - assert (known_outcome (rpo_Outcome o) = true) as -> by (unfold known_outcome, merged in *; by rewrite Ho).
    rewrite Ho, Hbc, Hhc, !(bool_decide_false (_ = "")) by done. unfold merged in Ho. rewrite orb_true_iff, !bool_decide_eq_true in Ho.
    destruct Ho as [-> | ->]; destruct Hs as [-> | ->]; rewrite ?Hst, ?andb_false_r; reflexivity.
  - unfold unlocated in Hl. bprop Hl. destruct Hl as [[-> ->] ->]. rewrite Ho. rewrite !elem_of_cons, elem_of_nil in Hst.
    destruct Hs as [-> | ->]; [reflexivity|]. destruct Hst as [-> |[-> |[-> |[]]]]; by rewrite ?andb_false_r.
  - unfold unlocated in Hl. bprop Hl. destruct Hl as [[-> ->] ->]. rewrite Ho.
    destruct Hs as [-> | ->]; [reflexivity|]. rewrite Hst. by rewrite ?andb_false_r.
Qed.

(** What a request stands for. *)
Record planned (plan : ReleasePlanSnapshot) (request : ReleaseMergeRequest) (merge : ReleaseMergePlan) (round : Z) : Prop := {
  pl_valid : ReleasePlanSnapshot_Valid plan = true;
  pl_code : rp_Mode plan = ReleaseModeCode;
  pl_merge : next_merge plan = Some merge;
  pl_plan_id : UUIDv7_Valid (rp_ReleasePlanID plan) = true;
  pl_digest : Digest_Valid (rp_PlanDigest plan) = true;
  pl_merge_id : UUIDv7_Valid (rm_MergeID merge) = true;
  pl_attempt : UUIDv7_Valid (mrq_AttemptID request) = true;
  pl_key : mrq_ProviderIdempotencyKey request <> "";
  pl_round : 0 < round;
  pl_commits : rp_BaseCommit plan <> "" /\ rm_HeadCommit merge <> "";
  pl_request : request = mkReleaseMergeRequest (rp_ReleasePlanID plan) (rp_PlanDigest plan) (rm_MergeID merge)
    (mrq_AttemptID request) round (mrq_ProviderIdempotencyKey request) (rp_RepositoryURL plan) (rp_BaseRef plan) (rp_BaseCommit plan)
    (rm_ChangeRef merge) (rm_HeadCommit merge) (rp_MergeStrategy plan) (rp_GitVersion plan) (rp_ConflictPolicy plan)
}.

Lemma planned_fields plan request merge round :
  planned plan request merge round ->
  mrq_ReleasePlanID request = rp_ReleasePlanID plan /\ mrq_MergeID request = rm_MergeID merge /\ mrq_Round request = round /\
  mrq_BaseCommit request = rp_BaseCommit plan /\ mrq_HeadCommit request = rm_HeadCommit merge.
Proof. intros H. pose proof (pl_request _ _ _ _ H) as E. rewrite E. done. Qed.

Lemma next_merge_code plan merge : ReleasePlanSnapshot_Valid plan = true -> next_merge plan = Some merge -> rp_Mode plan = ReleaseModeCode.
Proof.
  intros Hv Hm. destruct (decide (rp_Mode plan = ReleaseModeNotRequired)) as [E|E].
  - apply valid_no_release in E as (Hn & _); [|done]. apply next_merge_some in Hm as [_ Hm]. rewrite Hn in Hm. by rewrite lookup_nil in Hm.
  - by apply valid_code in E as [? _].
Qed.

Lemma provider_request_planned plan attemptID key request merge :
  releaseProviderRequest plan attemptID key = Some (request, merge) ->
  exists round, request_round plan merge attemptID key = Some round /\ planned plan request merge round /\
    mrq_AttemptID request = attemptID /\ mrq_ProviderIdempotencyKey request = key.
Proof.
  unfold releaseProviderRequest. intros H. destruct (_ || _) eqn:G in H; [discriminate H|]. bprop G. split_ands.
  destruct (next_merge plan) as [m|] eqn:Em; [|discriminate H]. destruct (request_round _ _ _ _) as [round|] eqn:Er; [|discriminate H].
  cbv zeta in H. destruct (negb _) eqn:Ev in H; [discriminate H|]. injection H as <- <-. exists round. split; [done|].
  apply negb_false_iff in Ev. unfold ReleaseMergeRequest_Valid in Ev. bprop Ev. split_ands.
  cbn [mrq_ReleasePlanID mrq_PlanDigest mrq_MergeID mrq_AttemptID mrq_Round mrq_ProviderIdempotencyKey mrq_BaseCommit mrq_HeadCommit] in *.
  split; [|done]. constructor; cbn [mrq_AttemptID mrq_ProviderIdempotencyKey]; try done. by eapply next_merge_code.
Qed.

(** ** The kernel decides *)

Section kernel.
Context (order : iteration) (base : Snapshot) (decisions : Z -> DecisionContext).

(** What the store gives the kernel for a command on the plan. *)
Definition plan_ref (plan : ReleasePlanSnapshot) : AggregateRef := mkRef AggregateReleasePlan (rp_ReleasePlanID plan).
Definition plan_snapshot (plan : ReleasePlanSnapshot) : Snapshot :=
  base <| sn_Exists := true |> <| sn_Revision := rp_Revision plan |> <| sn_ReleasePlans := {[ plan_ref plan := plan ]} |>.

Definition release_receipt (c : KernelCommand) (v : verdict) (revision : option Z) (events : list UUIDv7) (context : DecisionContext)
    : CommandReceipt :=
  mkReceipt ContractIdentity (cmd_CommandID c) (cmd_CommandType c) (cmd_Target c) (fst v) (snd v) (fst v == OutcomeApplied) revision
    events (dc_ReceivedAt context) (dc_DecidedAt context) (dc_ProvenanceDigest context).

(** The policy of the kernel decides the command; the event it commits is applied to the plan. *)
Definition decide_release (plan : ReleasePlanSnapshot) (c : KernelCommand) : ReleasePlanSnapshot * CommandReceipt :=
  let context := decisions (rp_Revision plan) in
  let v := validateCommandPolicy order c (plan_snapshot plan) context in
  match releaseEventTypeForCommand (cmd_CommandType c), fst v == OutcomeApplied with
  | Some type, true =>
    (fst (ApplyReleaseEvent plan (dated_event c (plan_snapshot plan) context type)),
     release_receipt c v (Some (u64 (rp_Revision plan + 1))) [dc_EventID context] context)
  | _, _ => (plan, release_receipt c v None [] context)
  end.

Definition release_types : list (string * string) :=
  [("tekroo.command.release-plan.request-execution", execution_requested);
   ("tekroo.command.release-plan.record-result", result_recorded);
   ("tekroo.command.release-plan.record-reconciliation", reconciliation_recorded)].

Lemma decide_accepted plan c type next :
  (cmd_CommandType c, type) ∈ release_types -> cmd_Target c = plan_ref plan ->
  (exists o, decodePayloadObject (cmd_Payload c) = Some o /\ o !! "lifecycle_epoch" = None /\
     o !! "evidence_ids" = Some (JArray (map marshal (evidenceIDs (cmd_EvidenceRefs c))))) ->
  Forall (fun r => UUIDv7_Valid (er_EvidenceID r) = true) (cmd_EvidenceRefs c) ->
  ApplyReleaseEvent plan (dated_event c (plan_snapshot plan) (decisions (rp_Revision plan)) type) = (next, true) ->
  decide_release plan c =
  (next, release_receipt c pass (Some (u64 (rp_Revision plan + 1))) [dc_EventID (decisions (rp_Revision plan))]
           (decisions (rp_Revision plan))) /\ exists e, ApplyReleaseEvent plan e = (next, true).
Proof.
  intros Htype Ht (o & Ho & Hl & He) Hr Ha. set (context := decisions (rp_Revision plan)) in *.
  assert (releaseEventTypeForCommand (cmd_CommandType c) = Some type /\
    validateCommandPolicy order c (plan_snapshot plan) context = release_policy c (plan_snapshot plan) context o) as [Hk Hp].
  { unfold validateCommandPolicy, validateOperatorHumanContinuityCommand. rewrite Ho, Hl. cbn [is_nil negb andb].
    unfold command_case. unfold release_types in Htype.
    repeat (apply elem_of_cons in Htype as [[= -> ->]|Htype]; [split; reflexivity|]). by apply elem_of_nil in Htype. }
  assert (validateCommandPolicy order c (plan_snapshot plan) context = pass) as Hv.
  { rewrite Hp. unfold release_policy, evidence_matches. rewrite Hk.
    replace (sn_ReleasePlans (plan_snapshot plan) !! cmd_Target c) with (Some plan) by (rewrite Ht; symmetry; apply lookup_singleton_eq).
    rewrite (evidence_object o) by done. change (sn_Revision (plan_snapshot plan)) with (rp_Revision plan).
    rewrite neqb_refl, Ha. reflexivity. }
  split; [|by eexists]. unfold decide_release. fold context. rewrite Hk, Hv, Ha. reflexivity.
Qed.

Lemma qualified_open s : state_valid s = true -> rp_State s = ReleaseQualified -> rp_FinalizationEventID s = "".
Proof. unfold state_valid. intros H Hs. rewrite Hs in H. eval_tests_in H. bprop H. by split_ands. Qed.

(** The plan after an accepted request. *)
Definition requested (plan : ReleasePlanSnapshot) (request : ReleaseMergeRequest) (event : UUIDv7) : ReleasePlanSnapshot :=
  plan <| rp_State := ReleaseExecuting |>
       <| rp_ActiveAttempt := Some (mkReleaseAttempt (mrq_MergeID request) (mrq_AttemptID request) (mrq_Round request)
            (mrq_ProviderIdempotencyKey request) event) |>
       <| rp_Revision := rp_Revision plan + 1 |>.

Lemma executing_valid plan request event :
  UUIDv7_Valid (mrq_MergeID request) = true -> UUIDv7_Valid (mrq_AttemptID request) = true -> 0 < mrq_Round request ->
  mrq_ProviderIdempotencyKey request <> "" -> UUIDv7_Valid event = true -> rp_FinalizationEventID plan = "" ->
  state_valid (requested plan request event) = true.
Proof.
  intros Hm Ha Hr Hk He Hf. eapply attempting_valid; [by left|reflexivity| |exact Hf]. unfold attempt_ok. cbn.
  rewrite Hm, Ha, He, (proj2 (Z.ltb_lt _ _) Hr), bool_decide_false by done. reflexivity.
Qed.

Context (Hevents : forall n, UUIDv7_Valid (dc_EventID (decisions n)) = true /\ IsZero (dc_DecidedAt (decisions n)) = false).

Lemma request_accepted plan request merge t parent :
  planned plan request merge (rp_NextRound plan) -> rp_State plan = ReleaseQualified -> template_ok t ->
  utf8 (mrq_ProviderIdempotencyKey request) -> 0 < rp_Revision plan < u64_mod - 1 ->
  let context := decisions (rp_Revision plan) in
  let c := releaseCommand t "tekroo.command.release-plan.request-execution" (rp_ReleasePlanID plan) (rp_Revision plan) [parent]
             (request_payload plan request t) in
  decide_release plan c =
  (requested plan request (dc_EventID context), release_receipt c pass (Some (rp_Revision plan + 1)) [dc_EventID context] context) /\
  exists e, ApplyReleaseEvent plan e = (requested plan request (dc_EventID context), true).
Proof.
  intros Hpl Hst [_ Hrefs Hsome] Hkey Hrev context c. destruct (Hevents (rp_Revision plan)) as [Hev Hat].
  assert (rp_Mode plan <> ReleaseModeNotRequired) as Hmode by (by rewrite (pl_code _ _ _ _ Hpl)).
  destruct (valid_code plan (pl_valid _ _ _ _ Hpl) Hmode) as (_ & _ & Hix & Hround & Hlimit & Hr0 & _ & Hsv).
  destruct (planned_fields _ _ _ _ Hpl) as (_ & Em & Er & _). destruct Hpl as [Hv Hc Hmerge Hid Hdg Hmid Hat' Hk0 Hr1 _ _].
  destruct (valid_results plan Hv Hmode) as [Hres Hent].
  assert (1000 < u64_mod) as H1000 by reflexivity.
  destruct (request_payload_reads plan request t) as [Hread Hobj];
    rewrite ?Em, ?Er; auto using UUIDv7_utf8, Digest_utf8, ids_utf8; try (unfold is_u64; lia).
  assert (u64 (rp_Revision plan + 1) = rp_Revision plan + 1) as Hu by (apply u64_id; unfold is_u64; lia).
  pose proof (decide_accepted plan c execution_requested (requested plan request (dc_EventID context))) as Hda.
  rewrite Hu in Hda. apply Hda; clear Hda; [left|done|exact Hobj|exact Hrefs|].
  eapply (release_applied plan _ (plan <| rp_State := ReleaseExecuting |> <| rp_ActiveAttempt := Some (mkReleaseAttempt (mrq_MergeID request)
      (mrq_AttemptID request) (mrq_Round request) (mrq_ProviderIdempotencyKey request) (dc_EventID context)) |>));
    [exact Hv|done|done|exact Hev|exact Hat| |unfold requested; rewrite <- Hu; reflexivity|].
  - match goal with |- release_case ?p ?e = _ => change (release_case p e) with (request_execution p e) end.
    unfold request_execution, ReleaseAttemptFromPayload. change (ev_Payload _) with (request_payload plan request t).
    rewrite Hread. cbn [rap_ReleasePlanID rap_ExpectedRevision rap_PlanDigest rap_MergeID rap_AttemptID
      rap_Round rap_Key rap_EvidenceIDs ra_MergeID ra_AttemptID ra_Round ra_ProviderIdempotencyKey].
    rewrite Em, Er, Hid, Hdg, Hmid, Hat', Hmerge, Hst, !neqb_refl.
    rewrite !(bool_decide_false (_ = 0)), (bool_decide_false (_ = "")) by first [done|lia]. cbn [negb orb].
    cbn [ra_MergeID ra_Round]. change (rm_MergeID <$> Some merge) with (Some (rm_MergeID merge)). rewrite !neqb_refl.
    apply next_merge_some in Hmerge as [Hlt _]. rewrite (proj2 (Z.leb_gt _ _) Hlt), (proj2 (Z.ltb_ge _ _) Hround). reflexivity.
  - eapply (valid_again plan); [exact Hv|exact Hc|by rewrite Hst|reflexivity|reflexivity|cbn; lia|exact Hix|exact Hr0|exact Hround|exact Hres|exact Hent|].
    apply executing_valid; [by rewrite Em|done|by rewrite Er|done|done|]. eapply qualified_open; done.
Qed.

Ltac transition_fields :=
  cbn [rt_ReleasePlanID rt_ExpectedRevision rt_PlanDigest rt_MergeID rt_AttemptID rt_Outcome rt_EvidenceIDs rt_SupersedesResultEventID
       rt_ReconciliationID rt_ProviderState rt_ObservedBase rt_ObservedHead rt_ObservedTree];
  first [assumption | reflexivity | exact I | split_and!; first [assumption|reflexivity]].

(** An attempt of the next merge is under way. *)
Record under_way (s : ReleasePlanSnapshot) (request : ReleaseMergeRequest) (merge : ReleaseMergePlan) (a : ReleaseAttempt) : Prop := {
  uw_planned : planned s request merge (rp_NextRound s);
  uw_active : rp_ActiveAttempt s = Some a;
  uw_merge : ra_MergeID a = rm_MergeID merge;
  uw_attempt : ra_AttemptID a = mrq_AttemptID request;
  uw_round : ra_Round a = rp_NextRound s;
  uw_index : 0 <= rp_NextMergeIndex s;
  uw_length : llen (rp_OrderedMerges s) < u64_mod;
  uw_revision : 0 < rp_Revision s < u64_mod - 1
}.

Lemma under_way_valid s request merge a r :
  under_way s request merge a -> rp_State s = ReleaseExecuting \/ rp_State s = ReleaseReconciling ->
  result_entry_ok (rr_MergeID r, r) = true -> ReleasePlanSnapshot_Valid (outcome_recorded s r) = true.
Proof.
  intros [[Hv Hc Hm _ _ _ _ _ Hr _ _] Ha _ _ _ Hi Hl Hrev] Hst Hok. apply next_merge_some in Hm as [Hlt _].
  eapply recorded_valid; try done; lia.
Qed.

Lemma identity_fits_plan s request merge a o v :
  under_way s request merge a -> releaseObservationMatches request o = true -> rt_MergeID v = rm_MergeID merge ->
  rt_Outcome v = rpo_Outcome o -> rt_ObservedBase v = rpo_BaseCommit o -> rt_ObservedHead v = rpo_HeadCommit o ->
  releaseResultIdentityMatches s v = true.
Proof.
  intros [Hp _ _ _ _ _ _ _] Hm E1 E2 E3 E4. unfold releaseResultIdentityMatches. rewrite (pl_merge _ _ _ _ Hp), E1, E2, E3, E4, neqb_refl.
  destruct (merged (rpo_Outcome o)) eqn:Em; [|done].
  destruct (planned_fields _ _ _ _ Hp) as (_ & _ & _ & Eb & Eh).
  destruct (matches_cases _ _ Hm) as (_ & [(_ & _ & -> & -> & _)|[(Ho & _)|(Ho & _)]]); [|by rewrite Ho in Em..].
  rewrite Eb, Eh. by rewrite !bool_decide_true.
Qed.

Lemma result_accepted s request merge a t o observedAt parent :
  under_way s request merge a -> rp_State s = ReleaseExecuting -> template_ok t ->
  releaseObservationMatches request o = true -> observation_text o ->
  let context := decisions (rp_Revision s) in
  let c := releaseCommand t "tekroo.command.release-plan.record-result" (rp_ReleasePlanID s) (rp_Revision s) [parent]
             (result_payload s merge request o (rp_Revision s) t observedAt) in
  let r := mkReleaseResult (rm_MergeID merge) (mrq_AttemptID request) (rpo_Outcome o) (dc_EventID context) (rpo_TreeDigest o) false "" in
  decide_release s c =
  (outcome_recorded s r, release_receipt c pass (Some (rp_Revision s + 1)) [dc_EventID context] context) /\
  exists e, ApplyReleaseEvent s e = (outcome_recorded s r, true).
Proof.
  intros Huw Hst [Htid Hrefs Hsome] Hmatch Htext context c r. pose proof Huw as [Hp Ha Hm Hatt Hround Hi Hl Hrev].
  destruct (Hevents (rp_Revision s)) as [Hev Hat]. destruct (planned_fields _ _ _ _ Hp) as (_ & Em & _ & Eb & Eh).
  pose proof Hp as [Hv Hc Hmerge Hid Hdg Hmid Hat' Hk0 Hr1 [Hb0 Hh0] _].
  assert (u64 (rp_Revision s + 1) = rp_Revision s + 1) as Hu by (apply u64_id; unfold is_u64; lia).
  assert (rp_Revision s <> 0) as Hrev0 by lia. assert (UUIDv7_Valid (mrq_MergeID request) = true) as Hmrq by (by rewrite Em).
  assert (mrq_BaseCommit request <> "") as Hb1 by (by rewrite Eb). assert (mrq_HeadCommit request <> "") as Hh1 by (by rewrite Eh).
  destruct (result_payload_reads s merge request o t observedAt) with (revision := rp_Revision s) as [Hread Hobj];
    rewrite ?Em; auto using UUIDv7_utf8, Digest_utf8, ids_utf8; try (unfold is_u64; lia).
  pose proof (decide_accepted s c result_recorded (outcome_recorded s r)) as Hda. rewrite Hu in Hda.
  apply Hda; clear Hda; [right; left|done|exact Hobj|exact Hrefs|].
  eapply (release_applied s _ (applyReleaseOutcome (s <| rp_Results := Some (<[rr_MergeID r := r]> (results s)) |>) r (rp_NextRound s)));
    [exact Hv|done|done|exact Hev|exact Hat| | |].
  - match goal with |- release_case ?p ?e = _ => change (release_case p e) with (record_result p e) end.
    unfold record_result. change (ev_Payload _) with (result_payload s merge request o (rp_Revision s) t observedAt).
    erewrite (outcome_read _ false _ request o Hread Hmatch) by transition_fields.
    rewrite Ha, Hst. cbn [rt_ReleasePlanID rt_ExpectedRevision rt_PlanDigest rt_AttemptID rt_MergeID rt_Outcome rt_ObservedTree].
    rewrite Hm, Hatt, !neqb_refl. erewrite (identity_fits_plan s request merge a o) by done. rewrite Hround. reflexivity.
  - unfold outcome_recorded. rewrite outcome_revision. f_equal. cbn. by rewrite Hu.
  - eapply under_way_valid; [exact Huw|by left|]. by eapply result_fits.
Qed.

Lemma reconciliation_accepted s request merge a t o observedAt prior :
  under_way s request merge a -> rp_State s = ReleaseReconciling -> template_ok t ->
  results s !! rm_MergeID merge = Some prior -> rr_Outcome prior = ReleaseOutcomeUnknown ->
  UUIDv7_Valid (rr_ResultEventID prior) = true ->
  releaseObservationMatches request o = true -> observation_text o ->
  let context := decisions (rp_Revision s) in
  let c := releaseReconciliationCommand s (rr_ResultEventID prior) request o t observedAt in
  let r := mkReleaseResult (rm_MergeID merge) (mrq_AttemptID request) (rpo_Outcome o) (rr_ResultEventID prior) (rpo_TreeDigest o) true
             (dc_EventID context) in
  decide_release s c =
  (outcome_recorded s r, release_receipt c pass (Some (rp_Revision s + 1)) [dc_EventID context] context) /\
  exists e, ApplyReleaseEvent s e = (outcome_recorded s r, true).
Proof.
  intros Huw Hst [Htid Hrefs Hsome] Hprior Hunknown Hpid Hmatch Htext context c r. pose proof Huw as [Hp Ha Hm Hatt Hround Hi Hl Hrev].
  destruct (Hevents (rp_Revision s)) as [Hev Hat]. destruct (planned_fields _ _ _ _ Hp) as (_ & Em & _ & Eb & Eh).
  pose proof Hp as [Hv Hc Hmerge Hid Hdg Hmid Hat' Hk0 Hr1 [Hb0 Hh0] _].
  assert (u64 (rp_Revision s + 1) = rp_Revision s + 1) as Hu by (apply u64_id; unfold is_u64; lia).
  assert (rp_Revision s <> 0) as Hrev0 by lia. assert (UUIDv7_Valid (mrq_MergeID request) = true) as Hmrq by (by rewrite Em).
  assert (mrq_BaseCommit request <> "") as Hb1 by (by rewrite Eb). assert (mrq_HeadCommit request <> "") as Hh1 by (by rewrite Eh).
  destruct (reconciliation_payload_reads s request o t observedAt) with (prior := rr_ResultEventID prior) as [Hread Hobj];
    rewrite ?Em; auto using UUIDv7_utf8, Digest_utf8, ids_utf8; try (unfold is_u64; lia).
  pose proof (decide_accepted s c reconciliation_recorded (outcome_recorded s r)) as Hda. rewrite Hu in Hda.
  apply Hda; clear Hda; [right; right; left|done|exact Hobj|exact Hrefs|].
  eapply (release_applied s _ (applyReleaseOutcome (s <| rp_Results := Some (<[rr_MergeID r := r]> (results s)) |>) r (rp_NextRound s)));
    [exact Hv|done|done|exact Hev|exact Hat| | |].
  - match goal with |- release_case ?p ?e = _ => change (release_case p e) with (record_reconciliation p e) end.
    unfold record_reconciliation. change (ev_Payload _) with (reconciliation_payload s (rr_ResultEventID prior) request o t observedAt).
    erewrite (outcome_read _ true _ request o Hread Hmatch) by transition_fields.
    cbn [rt_ReleasePlanID rt_ExpectedRevision rt_PlanDigest rt_AttemptID rt_MergeID rt_Outcome rt_ObservedTree rt_SupersedesResultEventID].
    rewrite Em, Hprior, Ha, Hst. rewrite Hatt, Hunknown, !neqb_refl.
    erewrite (identity_fits_plan s request merge a o) by (done || by cbn). rewrite Hround. reflexivity.
  - unfold outcome_recorded. rewrite outcome_revision. f_equal. cbn. by rewrite Hu.
  - eapply under_way_valid; [exact Huw|by right|]. by eapply result_fits.
Qed.
End kernel.
