(* ===== verification/ReleaseRuns.v ===== *)
(** * Release plans carried out

    The coordinator's operations served by the kernel's policy and by a provider:
    what one operation does to the plan, and a plan carried out to its last merge
    although acknowledgements get lost. *)

From S2P Require Import Prelude GoText GoTime GoJson GoMarshal GoJsonLaws GoMarshalLaws Types Samples.
From S2P Require Import Payload Envelope State Fingerprint Provenance Release Snapshot HumanPolicy CommandPolicy EvaluatorLaws.
From S2P Require Import OperationalCoordinator ReleaseCoordinator ReleaseCoordinatorLaws.

#[local] Opaque UUIDv7_Valid ActorFQN_Valid Digest_Valid PrincipalRef_Valid.

(** ** What is asked, whatever the answers *)

Inductive release_action :=
| Submitted (command : KernelCommand) (answer : CommandReceipt * option string)
| AskedMerge (request : ReleaseMergeRequest) (answer : ReleaseProviderObservation * option string)
| AskedReconcile (request : ReleaseMergeRequest) (answer : ReleaseProviderObservation * option string).

(** A run: the services answer as they like, also depending on what happened before. *)
Fixpoint run_release {A} (commands : list release_action -> KernelCommand -> CommandReceipt * option string)
    (provider : list release_action -> bool -> ReleaseMergeRequest -> ReleaseProviderObservation * option string)
    (log : list release_action) (p : release_calls A) : list release_action * A :=
  match p with
  | Released a => (log, a)
  | SubmitCommand c _ k =>
    let answer := commands log c in run_release commands provider (log ++ [Submitted c answer]) (k answer)
  | ProviderMerge r k =>
    let answer := provider log true r in run_release commands provider (log ++ [AskedMerge r answer]) (k answer)
  | ProviderReconcile r k =>
    let answer := provider log false r in run_release commands provider (log ++ [AskedReconcile r answer]) (k answer)
  end.

(** A receipt that tells that the intent is on record. *)
Definition intent_recorded (plan : ReleasePlanSnapshot) (receipt : CommandReceipt) (event : UUIDv7) : Prop :=
  rc_OutcomeCode receipt = OutcomeApplied /\ rc_ResultingRevision receipt = Some (u64 (rp_Revision plan + 1)) /\
  rc_EventIDs receipt = [event].

Definition intent_command (operation : ReleaseExecutionPlan) (request : ReleaseMergeRequest) (parent : DagParent) : KernelCommand :=
  releaseCommand (rep_Request operation) "tekroo.command.release-plan.request-execution" (rp_ReleasePlanID (rep_Plan operation))
    (rp_Revision (rep_Plan operation)) [parent] (request_payload (rep_Plan operation) request (rep_Request operation)).

Definition settled_merge (request : ReleaseMergeRequest) (answer : ReleaseProviderObservation * option string)
    : ReleaseProviderObservation * option release_error :=
  settled_observation request "provider observation did not match the persisted release plan"
    "provider merge acknowledgement is uncertain" answer.

Lemma settled_merge_fits request answer :
  releaseObservationMatches request (fst (settled_merge request answer)) = true /\
  (snd (settled_merge request answer) = None -> fst (settled_merge request answer) = fst answer).
Proof.
  split; [by apply settled_matches|]. unfold settled_merge. rewrite settled_cases. by destruct (_ && _).
Qed.

Ltac stopped answer :=
  cbn [run_release]; right; lazymatch goal with
  | H : planned _ ?request ?merge _ |- context [intent_command _ _ ?parent] =>
    exists request, merge, parent, answer; split; [done|]; split; [done|]; left; split; [reflexivity|]; cbn [fst snd]
  end.

(** [C13] A merge follows its recorded intent and is itself recorded. Whatever the
    command service and the provider answer, [ExecuteNext] refuses the operation,
    or submits the request command and stops unless the service answers that it is
    applied at the next revision of the plan; only then the provider is asked, once,
    for the next merge of the plan with the planned base, head, repository and
    strategy; and then the command is submitted that records the observation, or
    UNKNOWN when the answer is an error or does not fit. The operation succeeds
    after a merge only when that command is applied. *)
Theorem merge_follows_intent commands provider operation :
  let plan := rep_Plan operation in
  let '(log, (result, err)) := run_release commands provider [] (ExecuteNext operation) in
  log = [] /\ err = Some ErrInvalidReleaseOperation \/
  exists request merge parent answer,
    releaseProviderRequest plan (rep_AttemptID operation) (rep_ProviderKey operation) = Some (request, merge) /\
    planned plan request merge (mrq_Round request) /\
    (log = [Submitted (intent_command operation request parent) answer] /\
       (forall event, snd answer = None -> ~ intent_recorded plan (fst answer) event) \/
     exists event observed recorded_answer,
       snd answer = None /\ intent_recorded plan (fst answer) event /\
       let '(settled, effect) := settled_merge request observed in
       releaseObservationMatches request settled = true /\ (effect = None -> settled = fst observed) /\
       log = [Submitted (intent_command operation request parent) answer; AskedMerge request observed;
              Submitted (releaseResultCommand plan merge request settled (u64 (rp_Revision plan + 1)) event (rep_Result operation)
                (rep_ObservedAt operation)) recorded_answer] /\
       (err = None -> effect = None /\ snd recorded_answer = None /\ rc_OutcomeCode (fst recorded_answer) = OutcomeApplied)).
Proof.
  cbv zeta. unfold ExecuteNext. cbv zeta.
  destruct (releaseProviderRequest _ _ _) as [[request merge]|] eqn:Er; [|by left]. destruct (_ || _); [by left|].
  destruct (executionRequestCommand _ _ _) as [c|] eqn:Ec; [|by left].
  unfold executionRequestCommand in Ec. destruct (executionRequestParent _) as [parent|]; [|discriminate Ec]. injection Ec as <-.
  destruct (provider_request_planned _ _ _ _ _ Er) as (round & _ & Hp & _). pose proof (planned_fields _ _ _ _ Hp) as (_ & _ & <- & _).
  fold (intent_command operation request parent). cbn [run_release]. generalize (commands [] (intent_command operation request parent)).
  intros [receipt err]. cbn [app]. destruct err as [cause|]; [stopped (receipt, Some cause); by intros event [=]|].
  destruct (negb _) eqn:Eo; bprop Eo; [stopped (receipt, @None string); by intros event _ (H & _)|].
  destruct (rc_ResultingRevision receipt) as [revision|] eqn:Erev; [|stopped (receipt, @None string); intros event _ (_ & H & _); cbn in H; congruence].
  destruct (rc_EventIDs receipt) as [|event [|? ?]] eqn:Eev; [| |].
  1, 3: stopped (receipt, @None string); intros ev _ (_ & _ & H); cbn in H; congruence.
  destruct (negb _) eqn:En; bprop En; [stopped (receipt, @None string); intros ev _ (_ & H & _); cbn in H; congruence|]. subst revision.
  cbn [run_release app]. generalize (provider [Submitted (intent_command operation request parent) (receipt, None)] true request).
  intros observed. fold (settled_merge request observed). pose proof (settled_merge_fits request observed) as [Hm He].
  destruct (settled_merge request observed) as [settled effect] eqn:Es. cbn [fst snd] in Hm, He.
  cbn [run_release record_observation app]. match goal with |- context [commands ?l ?c] => generalize (commands l c) end.
  intros [receipt' err']. assert (intent_recorded (rep_Plan operation) receipt event) as Hint by (by split_and!).
  destruct err' as [cause|]; [|destruct (negb _) eqn:Eo'; bprop Eo']; cbn [run_release]; right;
    exists request, merge, parent, (receipt, None); (split; [done|]); (split; [done|]); right.
  - exists event, observed, (receipt', Some cause). rewrite Es. by split_and!.
  - exists event, observed, (receipt', None). rewrite Es. by split_and!.
  - exists event, observed, (receipt', None). rewrite Es. by split_and!.
Qed.

(** ** With the kernel *)

Section served.
Context (order : iteration) (base : Snapshot) (decisions : Z -> DecisionContext).
Context (merges reads : ReleasePlanSnapshot -> ReleaseMergeRequest -> ReleaseProviderObservation * option string).

(** The kernel's policy decides the commands on the plan; the provider answers. *)
Fixpoint serve_release {A} (plan : ReleasePlanSnapshot) (p : release_calls A) : ReleasePlanSnapshot * A :=
  match p with
  | Released a => (plan, a)
  | SubmitCommand c _ k => let '(plan, receipt) := decide_release order base decisions plan c in serve_release plan (k (receipt, None))
  | ProviderMerge request k => serve_release plan (k (merges plan request))
  | ProviderReconcile request k => serve_release plan (k (reads plan request))
  end.

Context (Hevents : forall n, UUIDv7_Valid (dc_EventID (decisions n)) = true /\ IsZero (dc_DecidedAt (decisions n)) = false).

(** The texts the provider answers with, and those of the plan. *)
Context (Htexts : forall plan request, (utf8 (rpo_TreeDigest (fst (merges plan request))) /\ Forall utf8 (rpo_Reasons (fst (merges plan request)))) /\
  (utf8 (rpo_TreeDigest (fst (reads plan request))) /\ Forall utf8 (rpo_Reasons (fst (reads plan request))))).

Record plan_text (plan : ReleasePlanSnapshot) : Prop := {
  px_base : utf8 (rp_BaseCommit plan);
  px_heads : Forall (fun merge => utf8 (rm_HeadCommit merge)) (rp_OrderedMerges plan);
  px_length : llen (rp_OrderedMerges plan) < u64_mod
}.

Lemma settled_text request plan merge round mismatch unavailable answer :
  planned plan request merge round -> plan_text plan -> unavailable <> "" -> slen unavailable <= 4096 -> utf8 unavailable ->
  utf8 (rpo_TreeDigest (fst answer)) -> Forall utf8 (rpo_Reasons (fst answer)) ->
  observation_text (fst (settled_observation request mismatch unavailable answer)).
Proof.
  intros Hp [Hb Hh _] Hu0 Hu1 Hu Ht Hr. pose proof (planned_fields _ _ _ _ Hp) as (_ & _ & _ & Eb & Eh).
  destruct Hp as [_ _ Hm _ _ _ _ _ _ [Hb0 Hh0] _]. apply next_merge_some in Hm as [_ Hm].
  pose proof (proj1 (Forall_lookup _ _) Hh _ _ Hm) as Hhead. cbn beta in Hhead.
  apply (matches_text request); [by apply settled_matches|by rewrite Eb|by rewrite Eh|by rewrite Eb|by rewrite Eh| |];
    rewrite settled_cases; destruct (_ && _); cbn [fst uncertainReleaseObservation rpo_TreeDigest rpo_Reasons]; try done; [|].
  - by apply utf8_of_ascii.
  - by repeat constructor.
Qed.

(** An operation on a plan that is ready for its next merge. *)
Record ready_operation (operation : ReleaseExecutionPlan) (request : ReleaseMergeRequest) (merge : ReleaseMergePlan) : Prop := {
  ro_state : rp_State (rep_Plan operation) = ReleaseQualified;
  ro_request : releaseProviderRequest (rep_Plan operation) (rep_AttemptID operation) (rep_ProviderKey operation) = Some (request, merge);
  ro_parent : is_Some (executionRequestParent (rep_Plan operation));
  ro_templates : validReleaseTemplate (rep_Request operation) = true /\ validReleaseTemplate (rep_Result operation) = true;
  ro_provenance : ProvenanceBasis_Valid (rep_RequestProvenance operation) = true /\ ProvenanceBasis_Valid (rep_ResultProvenance operation) = true;
  ro_time : IsZero (rep_ObservedAt operation) = false;
  ro_key : utf8 (rep_ProviderKey operation);
  ro_text : plan_text (rep_Plan operation);
  ro_index : 0 <= rp_NextMergeIndex (rep_Plan operation);
  ro_revision : 0 < rp_Revision (rep_Plan operation) < u64_mod - 2
}.

(** What is recorded of an attempt. *)
Definition attempt_result (merge : ReleaseMergePlan) (request : ReleaseMergeRequest) (o : ReleaseProviderObservation) (event : UUIDv7)
    : ReleaseResult :=
  mkReleaseResult (rm_MergeID merge) (mrq_AttemptID request) (rpo_Outcome o) event (rpo_TreeDigest o) false "".

Lemma requested_under_way plan request merge event :
  planned plan request merge (rp_NextRound plan) -> plan_text plan -> 0 <= rp_NextMergeIndex plan ->
  0 < rp_Revision plan < u64_mod - 2 -> ReleasePlanSnapshot_Valid (requested plan request event) = true ->
  under_way (requested plan request event) request merge
    (mkReleaseAttempt (mrq_MergeID request) (mrq_AttemptID request) (mrq_Round request) (mrq_ProviderIdempotencyKey request) event).
Proof.
  intros Hp [_ _ Hl] Hi Hr Hv. pose proof (planned_fields _ _ _ _ Hp) as (_ & Em & Er & _ & _). split; try done.
  - destruct Hp as [_ Hc Hm Hid Hdg Hmid Hat Hk Hround Hcommits Hreq]. by split.
  - cbn. lia.
Qed.

Lemma ExecuteNext_served operation request merge :
  ready_operation operation request merge ->
  let plan := rep_Plan operation in
  let middle := requested plan request (dc_EventID (decisions (rp_Revision plan))) in
  let '(settled, effect) := settled_merge request (merges middle request) in
  let after := outcome_recorded middle (attempt_result merge request settled (dc_EventID (decisions (rp_Revision plan + 1)))) in
  (exists result, serve_release plan (ExecuteNext operation) = (after, (result, effect)) /\ rcr_Observation result = settled) /\
  (exists e, ApplyReleaseEvent plan e = (middle, true)) /\ exists e, ApplyReleaseEvent middle e = (after, true).
Proof.
  intros [Hst Hreq [parent Hpar] [Ht1 Ht2] [Hp1 Hp2] Htime Hkey Htext Hi Hrev] plan middle.
  fold plan in Hst, Hreq, Hpar, Htext, Hi, Hrev.
  destruct (provider_request_planned _ _ _ _ _ Hreq) as (round & Hround & Hp & Ha & Hk).
  assert (round = rp_NextRound plan) as ->.
  { unfold request_round in Hround. rewrite Hst in Hround. by injection Hround as <-. }
  destruct (request_accepted order base decisions Hevents plan request merge (rep_Request operation) parent Hp Hst
    (template_valid _ Ht1) ltac:(by rewrite Hk) ltac:(lia)) as [Hdec [e1 He1]]. fold middle in Hdec, He1.
  assert (ReleasePlanSnapshot_Valid middle = true) as Hvm by (by apply ApplyReleaseEvent_inv in He1 as (_ & ? & _)).
  pose proof (requested_under_way plan request merge _ Hp Htext Hi ltac:(lia) Hvm) as Huw. fold middle in Huw.
  pose proof (settled_merge_fits request (merges middle request)) as [Hm _].
  pose proof (Htexts middle request) as [[Htree Hreasons] _].
  pose proof (settled_text request plan merge (rp_NextRound plan) "provider observation did not match the persisted release plan"
    "provider merge acknowledgement is uncertain" (merges middle request) Hp Htext ltac:(done) ltac:(done)
    ltac:(by apply utf8_of_ascii) Htree Hreasons) as Hot. fold (settled_merge request (merges middle request)) in Hot.
  destruct (settled_merge request (merges middle request)) as [settled effect] eqn:Es. cbn [fst snd] in *.
  destruct (result_accepted order base decisions Hevents middle request merge _ (rep_Result operation) settled (rep_ObservedAt operation)
    (response_to (dc_EventID (decisions (rp_Revision plan)))) Huw eq_refl (template_valid _ Ht2) Hm Hot) as [Hdec2 He2].
  split; [|by split; [exists e1|]].
  unfold ExecuteNext. fold plan. cbv zeta. rewrite Hreq, Ht1, Ht2, Hp1, Hp2, Htime. cbn [negb orb].
  unfold executionRequestCommand. rewrite Hpar. cbn [serve_release]. rewrite Hdec.
  cbn [release_receipt rc_OutcomeCode rc_ResultingRevision rc_EventIDs fst pass]. change (negb (OutcomeApplied == OutcomeApplied)) with false.
  cbv iota. assert (u64 (rp_Revision plan + 1) = rp_Revision plan + 1) as Hu by (apply u64_id; unfold is_u64; lia).
  rewrite Hu, neqb_refl. cbn [serve_release]. fold (settled_merge request (merges middle request)). rewrite Es.
  cbn [serve_release record_observation]. unfold releaseResultCommand.
  change (rp_Revision middle) with (rp_Revision plan + 1) in Hdec2.
  change (result_payload middle) with (result_payload plan) in Hdec2. change (rp_ReleasePlanID middle) with (rp_ReleasePlanID plan) in Hdec2.
  rewrite Hdec2. cbn [release_receipt rc_OutcomeCode fst pass]. change (negb (OutcomeApplied == OutcomeApplied)) with false.
  cbv iota. cbn [serve_release]. eexists. split; [reflexivity|done].
Qed.

Definition settled_read (request : ReleaseMergeRequest) (answer : ReleaseProviderObservation * option string)
    : ReleaseProviderObservation * option release_error :=
  settled_observation request "provider reconciliation did not match the persisted release plan"
    "release provider is unavailable for reconciliation" answer.

(** An operation on a plan whose last attempt has an unknown outcome. *)
Record ready_reconciliation (operation : ReleaseReconciliationPlan) (request : ReleaseMergeRequest) (merge : ReleaseMergePlan)
    (a : ReleaseAttempt) (prior : ReleaseResult) : Prop := {
  rr_state : rp_State (rrp_Plan operation) = ReleaseReconciling;
  rr_active : rp_ActiveAttempt (rrp_Plan operation) = Some a;
  rr_round : ra_Round a = rp_NextRound (rrp_Plan operation);
  rr_request : releaseProviderRequest (rrp_Plan operation) (ra_AttemptID a) (ra_ProviderIdempotencyKey a) = Some (request, merge);
  rr_prior : results (rrp_Plan operation) !! rm_MergeID merge = Some prior;
  rr_unknown : rr_Outcome prior = ReleaseOutcomeUnknown /\ UUIDv7_Valid (rr_ResultEventID prior) = true;
  rr_template : validReleaseTemplate (rrp_Command operation) = true;
  rr_provenance : ProvenanceBasis_Valid (rrp_Provenance operation) = true;
  rr_time : IsZero (rrp_ObservedAt operation) = false;
  rr_text : plan_text (rrp_Plan operation);
  rr_index : 0 <= rp_NextMergeIndex (rrp_Plan operation);
  rr_revision : 0 < rp_Revision (rrp_Plan operation) < u64_mod - 1
}.

Definition reconciled_result (merge : ReleaseMergePlan) (request : ReleaseMergeRequest) (prior : ReleaseResult)
    (o : ReleaseProviderObservation) (event : UUIDv7) : ReleaseResult :=
  mkReleaseResult (rm_MergeID merge) (mrq_AttemptID request) (rpo_Outcome o) (rr_ResultEventID prior) (rpo_TreeDigest o) true event.

Lemma Reconcile_served operation request merge a prior :
  ready_reconciliation operation request merge a prior ->
  let plan := rrp_Plan operation in
  let '(settled, effect) := settled_read request (reads plan request) in
  let after := outcome_recorded plan (reconciled_result merge request prior settled (dc_EventID (decisions (rp_Revision plan)))) in
  (exists result, serve_release plan (ReleaseCoordinator_Reconcile operation) = (after, (result, effect)) /\ rcr_Observation result = settled) /\
  exists e, ApplyReleaseEvent plan e = (after, true).
Proof.
  intros [Hst Ha Hr Hreq Hprior [Hun Hev] Ht Hpv Htime Htext Hi Hrev] plan.
  fold plan in Hst, Ha, Hr, Hreq, Hprior, Htext, Hi, Hrev.
  destruct (provider_request_planned _ _ _ _ _ Hreq) as (round & Hround & Hp & Hatt & Hk).
  assert (round = rp_NextRound plan /\ ra_MergeID a = rm_MergeID merge) as [-> Hmid].
  { unfold request_round in Hround. rewrite Hst, Ha in Hround. change (negb (ReleaseReconciling == ReleaseReconciling)) with false in Hround.
    cbv iota in Hround. destruct (_ || _) eqn:G in Hround; [discriminate Hround|]. injection Hround as <-.
    rewrite !orb_false_iff, !negb_false_iff, !bool_decide_eq_true in G. by split_ands. }
  assert (under_way plan request merge a) as Huw by (split; try done; by apply Htext).
  pose proof (Htexts plan request) as [_ [Htree Hreasons]].
  assert (releaseObservationMatches request (fst (settled_read request (reads plan request))) = true) as Hm by (by apply settled_matches).
  pose proof (settled_text request plan merge (rp_NextRound plan) "provider reconciliation did not match the persisted release plan"
    "release provider is unavailable for reconciliation" (reads plan request) Hp Htext ltac:(done) ltac:(done)
    ltac:(by apply utf8_of_ascii) Htree Hreasons) as Hot. fold (settled_read request (reads plan request)) in Hot.
  destruct (settled_read request (reads plan request)) as [settled effect] eqn:Es. cbn [fst snd] in *.
  destruct (reconciliation_accepted order base decisions Hevents plan request merge a (rrp_Command operation) settled
    (rrp_ObservedAt operation) prior Huw Hst (template_valid _ Ht) Hprior Hun Hev Hm Hot) as [Hdec He].
  split; [|exact He]. pose proof (planned_fields _ _ _ _ Hp) as (_ & Em & _).
  unfold ReleaseCoordinator_Reconcile. fold plan. cbv zeta. rewrite Ha, (pl_valid _ _ _ _ Hp), Hst, Ht, Hpv, Htime.
  change (negb (ReleaseReconciling == ReleaseReconciling)) with false. cbn [negb orb]. rewrite Hreq, Em, Hprior, Hun, Hev.
  change (negb (ReleaseOutcomeUnknown == ReleaseOutcomeUnknown)) with false. cbn [negb orb serve_release].
  fold (settled_read request (reads plan request)). rewrite Es. cbn [serve_release record_observation]. rewrite Hdec.
  cbn [release_receipt rc_OutcomeCode fst pass]. change (negb (OutcomeApplied == OutcomeApplied)) with false.
  cbv iota. cbn [serve_release]. eexists. split; [reflexivity|done].
Qed.

(** ** Recorded outcomes *)

Lemma recorded_merged s r :
  merged (rr_Outcome r) = true ->
  outcome_recorded s r =
  s <| rp_Results := Some (<[rr_MergeID r := r]> (results s)) |> <| rp_State := ReleaseQualified |>
    <| rp_ProviderTreeDigest := rr_ObservedTree r |> <| rp_NextMergeIndex := u64 (rp_NextMergeIndex s + 1) |>
    <| rp_NextRound := 1 |> <| rp_ActiveAttempt := None |> <| rp_Revision := rp_Revision s + 1 |>.
Proof.
  intros H. unfold outcome_recorded, applyReleaseOutcome. rewrite H. unfold merged in H.
  rewrite bool_decide_false; [done|]. intros E. by rewrite E in H.
Qed.

Lemma recorded_unknown s r :
  rr_Outcome r = ReleaseOutcomeUnknown ->
  outcome_recorded s r =
  s <| rp_Results := Some (<[rr_MergeID r := r]> (results s)) |> <| rp_State := ReleaseReconciling |> <| rp_Revision := rp_Revision s + 1 |>.
Proof. intros H. unfold outcome_recorded, applyReleaseOutcome. by rewrite bool_decide_true. Qed.

(** ** A plan carried out to the end *)

Context (execute : ReleasePlanSnapshot -> ReleaseExecutionPlan) (reconcile : ReleasePlanSnapshot -> ReleaseReconciliationPlan).

(** The operator calls the coordinator as long as there is something to do. *)
Definition drive_plan (plan : ReleasePlanSnapshot) : ReleasePlanSnapshot :=
  if (rp_State plan == ReleaseQualified) && (rp_NextMergeIndex plan <? llen (rp_OrderedMerges plan))
  then fst (serve_release plan (ExecuteNext (execute plan)))
  else if rp_State plan == ReleaseReconciling then fst (serve_release plan (ReleaseCoordinator_Reconcile (reconcile plan)))
  else plan.

Record operator_ok : Prop := {
  ok_execute : forall plan, rep_Plan (execute plan) = plan;
  ok_attempt : forall plan, UUIDv7_Valid (rep_AttemptID (execute plan)) = true;
  ok_key : forall plan, rep_ProviderKey (execute plan) <> "" /\ utf8 (rep_ProviderKey (execute plan));
  ok_templates : forall plan, validReleaseTemplate (rep_Request (execute plan)) = true /\ validReleaseTemplate (rep_Result (execute plan)) = true;
  ok_provenance : forall plan, ProvenanceBasis_Valid (rep_RequestProvenance (execute plan)) = true /\
    ProvenanceBasis_Valid (rep_ResultProvenance (execute plan)) = true;
  ok_time : forall plan, IsZero (rep_ObservedAt (execute plan)) = false;
  ok_reconcile : forall plan, rrp_Plan (reconcile plan) = plan;
  ok_template : forall plan, validReleaseTemplate (rrp_Command (reconcile plan)) = true;
  ok_basis : forall plan, ProvenanceBasis_Valid (rrp_Provenance (reconcile plan)) = true;
  ok_read_time : forall plan, IsZero (rrp_ObservedAt (reconcile plan)) = false
}.

(** The provider does not refuse a merge, but may lose or garble its answer;
    an authoritative read tells that the merge is in. *)
Record provider_ok : Prop := {
  pv_merges : forall plan request, releaseObservationMatches request (fst (merges plan request)) = true ->
    rpo_Outcome (fst (merges plan request)) <> ReleaseOutcomeFailed;
  pv_reads : forall plan request, releaseObservationMatches request (fst (reads plan request)) = true /\
    snd (reads plan request) = None /\ merged (rpo_Outcome (fst (reads plan request))) = true
}.

(** A plan on its way. *)
Record on_track (plan : ReleasePlanSnapshot) : Prop := {
  tr_valid : ReleasePlanSnapshot_Valid plan = true;
  tr_code : rp_Mode plan = ReleaseModeCode;
  tr_inv : release_inv plan;
  tr_round : rp_NextRound plan = 1;
  tr_git : rp_GitVersion plan <> "";
  tr_text : plan_text plan;
  tr_revision : 0 < rp_Revision plan;
  tr_state : rp_State plan = ReleaseQualified \/
    rp_State plan = ReleaseReconciling /\ exists a merge prior, rp_ActiveAttempt plan = Some a /\ next_merge plan = Some merge /\
      ra_MergeID a = rm_MergeID merge /\ results plan !! rm_MergeID merge = Some prior /\ rr_Outcome prior = ReleaseOutcomeUnknown
}.

Lemma entry_event plan k r :
  ReleasePlanSnapshot_Valid plan = true -> rp_Mode plan = ReleaseModeCode -> results plan !! k = Some r ->
  UUIDv7_Valid (rr_ResultEventID r) = true /\ is_Some (effectiveReleaseResultEventID r).
Proof.
  intros Hv Hc Hr. destruct (valid_results plan Hv ltac:(by rewrite Hc)) as [_ Hent]. rewrite forallb_True_iff, Forall_forall in Hent.
  assert (result_entry_ok (k, r) = true) as H by (by apply Hent, elem_of_map_to_list). unfold result_entry_ok in H. bprop H. split_ands.
  split; [done|]. unfold effectiveReleaseResultEventID.
  destruct (rr_Reconciled r); cbn [andb] in *.
  - destruct (UUIDv7_Valid (rr_ReconciliationEventID r)); [by eexists|done].
  - match goal with K : UUIDv7_Valid (rr_ResultEventID r) = true |- _ => rewrite K end. by eexists.
Qed.

(** A plan that is ready for a merge has an event to answer to. *)
Lemma parent_found plan :
  on_track plan -> rp_State plan = ReleaseQualified -> is_Some (executionRequestParent plan).
Proof.
  intros Htr Hst. unfold executionRequestParent, first_round_parent. rewrite (tr_round _ Htr). change (negb (1 == 1)) with false. cbv iota.
  destruct (tr_inv _ Htr) as [Hix Hdone _ _ _ _ _]. case_bool_decide as E0.
  - destruct (rp_Qualification plan) as [q|] eqn:Eq.
    + destruct (valid_code plan (tr_valid _ Htr) ltac:(by rewrite (tr_code _ Htr))) as (_ & _ & _ & _ & _ & _ & Hq & _).
      specialize (Hq q Eq). unfold qualification_ok in Hq. bprop Hq. split_ands.
      match goal with K : UUIDv7_Valid (rq_EventID q) = true |- _ => rewrite K end. by eexists.
    + pose proof (tr_valid _ Htr) as Hv. unfold ReleasePlanSnapshot_Valid in Hv. rewrite Eq, Hst, (tr_code _ Htr) in Hv.
      change (negb (ReleaseQualified == ReleasePlanned)) with true in Hv. cbn [is_nil andb] in Hv. unwhen Hv; done.
  - destruct (rp_OrderedMerges plan !! Z.to_nat (rp_NextMergeIndex plan - 1)) as [merge|] eqn:Em.
    + destruct (Hdone _ _ Em ltac:(lia)) as (r & Hr & _). unfold result_event. rewrite Hr.
      destruct (entry_event plan _ r (tr_valid _ Htr) (tr_code _ Htr) Hr) as [_ [id ->]]. by eexists.
    + apply lookup_ge_None in Em. unfold llen in *. lia.
Qed.

Lemma merges_loop_ok seen l merge :
  merges_loop seen l = true -> merge ∈ l ->
  UUIDv7_Valid (rm_MergeID merge) = true /\ rm_ChangeRef merge <> "" /\ rm_HeadCommit merge <> "".
Proof.
  revert seen. induction l as [|m l IH]; intros seen H Hin; [by apply elem_of_nil in Hin|]. cbn [merges_loop] in H. unwhen H.
  bprop E. split_ands. apply elem_of_cons in Hin as [-> |Hin]; [done|by eapply IH].
Qed.

Lemma request_found plan attempt key merge round :
  ReleasePlanSnapshot_Valid plan = true -> rp_Mode plan = ReleaseModeCode -> rp_GitVersion plan <> "" ->
  rp_State plan = ReleaseQualified \/ rp_State plan = ReleaseReconciling -> next_merge plan = Some merge ->
  UUIDv7_Valid attempt = true -> key <> "" -> request_round plan merge attempt key = Some round -> 0 < round ->
  exists request, releaseProviderRequest plan attempt key = Some (request, merge).
Proof.
  intros Hv Hc Hg Hst Hm Ha Hk Hround Hr. eexists. unfold releaseProviderRequest. rewrite Hv, Ha, Hm, Hround.
  destruct (next_merge_some _ _ Hm) as [Hlt Hlk]. rewrite (proj2 (Z.leb_gt _ _) Hlt), (bool_decide_false (key = "")) by done.
  assert ((rp_State plan != ReleaseQualified) && (rp_State plan != ReleaseReconciling) = false) as -> by (by destruct Hst as [-> | ->]).
  cbn [negb orb]. cbv zeta. match goal with |- (if negb ?v then _ else _) = _ => assert (v = true) as -> end; [|reflexivity].
  unfold ReleasePlanSnapshot_Valid in Hv. rewrite (bool_decide_false (rp_Mode plan = ReleaseModeNotRequired)) in Hv by (by rewrite Hc).
  destruct (_ || _) eqn:G1 in Hv; [discriminate Hv|]. bprop G1. destruct (_ || _) eqn:G2 in Hv; [discriminate Hv|]. bprop G2.
  destruct (negb (merges_loop _ _)) eqn:G3 in Hv; [discriminate Hv|]. apply negb_false_iff in G3. clear Hv. split_ands.
  destruct (merges_loop_ok _ _ _ G3 (list_elem_of_lookup_2 _ _ _ Hlk)) as (Hmid & Hcr & Hhc).
  unfold ReleaseMergeRequest_Valid. cbn [mrq_ReleasePlanID mrq_PlanDigest mrq_MergeID mrq_AttemptID mrq_Round mrq_ProviderIdempotencyKey
    mrq_RepositoryURL mrq_BaseRef mrq_BaseCommit mrq_ChangeRef mrq_HeadCommit mrq_MergeStrategy mrq_GitVersion mrq_ConflictPolicy].
  rewrite !andb_true_iff, !negb_true_iff, !bool_decide_eq_false, !bool_decide_eq_true, Z.ltb_lt. by split_and!.
Qed.

(** The calls that are left when every merge is acknowledged at the second try. *)
Definition left_to_do (plan : ReleasePlanSnapshot) : Z :=
  2 * (llen (rp_OrderedMerges plan) - rp_NextMergeIndex plan) - (if rp_State plan == ReleaseReconciling then 1 else 0).

Definition progresses (plan next : ReleasePlanSnapshot) : Prop :=
  on_track next /\ left_to_do next < left_to_do plan /\ rp_Revision next <= rp_Revision plan + 2.

Lemma on_track_kept plan middle next e e' :
  on_track plan -> ApplyReleaseEvent plan e = (middle, true) -> ApplyReleaseEvent middle e' = (next, true) ->
  ReleasePlanSnapshot_Valid next = true /\ release_inv next /\ plan_part next = plan_part plan.
Proof.
  intros Htr H1 H2. destruct (release_step_inv _ _ _ (px_length _ (tr_text _ Htr)) (tr_inv _ Htr) H1) as (_ & Hi & Hp).
  assert (llen (rp_OrderedMerges middle) < u64_mod) as Hl.
  { apply plan_part_fields in Hp as (-> & _). apply (tr_text _ Htr). }
  destruct (release_step_inv _ _ _ Hl Hi H2) as (Hv & Hi' & Hp'). split_and!; [done|done|congruence].
Qed.

Lemma track_again plan next :
  on_track plan -> ReleasePlanSnapshot_Valid next = true -> release_inv next -> plan_part next = plan_part plan ->
  rp_NextRound next = 1 -> rp_Revision plan <= rp_Revision next ->
  (rp_State next = ReleaseQualified \/
   rp_State next = ReleaseReconciling /\ exists a merge prior, rp_ActiveAttempt next = Some a /\ next_merge next = Some merge /\
     ra_MergeID a = rm_MergeID merge /\ results next !! rm_MergeID merge = Some prior /\ rr_Outcome prior = ReleaseOutcomeUnknown) ->
  on_track next.
Proof.
  intros [Hv Hc Hi Hr Hg [Hb Hh Hl] Hrev _] Hv' Hi' Hp Hr' Hrev' Hst.
  pose proof (f_equal rp_Mode Hp) as E1. pose proof (f_equal rp_GitVersion Hp) as E2. pose proof (f_equal rp_BaseCommit Hp) as E3.
  pose proof (f_equal rp_OrderedMerges Hp) as E4.
  change (rp_Mode next = rp_Mode plan) in E1. change (rp_GitVersion next = rp_GitVersion plan) in E2.
  change (rp_BaseCommit next = rp_BaseCommit plan) in E3. change (rp_OrderedMerges next = rp_OrderedMerges plan) in E4.
  split; try done; [by rewrite E1|by rewrite E2| |lia]. split; [by rewrite E3|by rewrite E4|by rewrite E4].
Qed.

Lemma settled_not_failed plan request :
  provider_ok -> rpo_Outcome (fst (settled_merge request (merges plan request))) <> ReleaseOutcomeFailed.
Proof.
  intros Hpv. unfold settled_merge. rewrite settled_cases. destruct (releaseObservationMatches request (fst (merges plan request))) eqn:E; cbn [andb].
  - destruct (is_nil _); [by apply (pv_merges Hpv)|done].
  - done.
Qed.

Lemma recorded_progress plan middle merge a r :
  on_track plan -> release_inv (outcome_recorded middle r) -> ReleasePlanSnapshot_Valid (outcome_recorded middle r) = true ->
  plan_part (outcome_recorded middle r) = plan_part plan -> rp_OrderedMerges middle = rp_OrderedMerges plan ->
  rp_NextMergeIndex middle = rp_NextMergeIndex plan -> rp_NextRound middle = 1 -> rp_Revision plan <= rp_Revision middle <= rp_Revision plan + 1 ->
  next_merge middle = Some merge -> rp_ActiveAttempt middle = Some a -> ra_MergeID a = rm_MergeID merge -> rr_MergeID r = rm_MergeID merge ->
  merged (rr_Outcome r) = true \/ rr_Outcome r = ReleaseOutcomeUnknown /\ rp_State plan = ReleaseQualified ->
  progresses plan (outcome_recorded middle r).
Proof.
  intros Htr Hi Hv Hp Eo Ei Er Hrev Hm Ha Hmid Hrm Hout. destruct (next_merge_some _ _ Hm) as [Hlt _].
  pose proof (ri_index _ (tr_inv _ Htr)) as Hix. pose proof (px_length _ (tr_text _ Htr)) as Hl.
  destruct Hout as [Hmg|[Hun Hq]].
  - rewrite (recorded_merged _ _ Hmg) in *. split; [|split; [|cbn; lia]].
    + eapply (track_again plan); try done; [cbn; lia|by left].
    + unfold left_to_do. cbn -[Z.mul]. rewrite Eo, Ei, (u64_id (rp_NextMergeIndex plan + 1)) by (unfold is_u64; rewrite Eo, Ei in Hlt; lia).
      change (bool_decide (ReleaseQualified = ReleaseReconciling)) with false. cbv iota. destruct (_ == _); lia.
  - rewrite (recorded_unknown _ _ Hun) in *. split; [|split; [|cbn; lia]].
    + eapply (track_again plan); try done; [cbn; lia|]. right. split; [done|]. exists a, merge, r. split_and!; try done.
      cbn. rewrite <- Hrm. apply lookup_insert_eq.
    + unfold left_to_do. cbn -[Z.mul]. rewrite Eo, Ei, Hq. eval_tests. cbv iota. lia.
Qed.

Context (Hop : operator_ok) (Hpv : provider_ok).

Lemma drive_executes plan :
  on_track plan -> rp_State plan = ReleaseQualified -> rp_NextMergeIndex plan < llen (rp_OrderedMerges plan) ->
  rp_Revision plan < u64_mod - 2 -> progresses plan (drive_plan plan).
Proof.
  intros Htr Hst Hlt Hrev. pose proof (ri_index _ (tr_inv _ Htr)) as Hix.
  assert (exists merge, next_merge plan = Some merge) as [merge Hm].
  { unfold next_merge. rewrite (proj2 (Z.leb_gt _ _) Hlt). apply lookup_lt_is_Some_2. unfold llen in *. lia. }
  assert (request_round plan merge (rep_AttemptID (execute plan)) (rep_ProviderKey (execute plan)) = Some 1) as Hround
    by (unfold request_round; rewrite Hst, (tr_round _ Htr); reflexivity).
  destruct (request_found plan _ _ merge 1 (tr_valid _ Htr) (tr_code _ Htr) (tr_git _ Htr) (or_introl Hst) Hm (ok_attempt Hop plan)
    (proj1 (ok_key Hop plan)) Hround ltac:(lia)) as [request Hreq].
  assert (ready_operation (execute plan) request merge) as Hready.
  { pose proof (tr_revision _ Htr). split; rewrite ?(ok_execute Hop); [exact Hst|exact Hreq|by apply parent_found|apply Hop|apply Hop|
      apply Hop|apply Hop|apply Htr|lia|lia]. }
  pose proof (ExecuteNext_served _ _ _ Hready) as Hserved. rewrite (ok_execute Hop) in Hserved. cbv zeta in Hserved.
  set (middle := requested plan request _) in Hserved. pose proof (settled_merge_fits request (merges middle request)) as [Hfit _].
  pose proof (settled_not_failed middle request Hpv) as Hnf.
  destruct (settled_merge request (merges middle request)) as [settled effect]. cbn [fst] in Hfit, Hnf.
  destruct Hserved as ((result & Hserve & _) & [e1 H1] & [e2 H2]).
  destruct (on_track_kept _ _ _ _ _ Htr H1 H2) as (Hv & Hi & Hp).
  assert (drive_plan plan = outcome_recorded middle (attempt_result merge request settled (dc_EventID (decisions (rp_Revision plan + 1))))) as ->.
  { unfold drive_plan. rewrite bool_decide_true, (proj2 (Z.ltb_lt _ _) Hlt) by done. cbn [andb]. by rewrite Hserve. }
  destruct (provider_request_planned _ _ _ _ _ Hreq) as (round & _ & Hpl & _).
  eapply recorded_progress with (merge := merge); try done; [apply Htr|cbn; lia|by apply (planned_fields _ _ _ _ Hpl)|].
  destruct (matches_cases _ _ Hfit) as (_ & [(Ho & _)|[(Ho & _)|(Ho & _)]]); [by left|done|by right].
Qed.

Lemma drive_reconciles plan :
  on_track plan -> rp_State plan = ReleaseReconciling -> rp_Revision plan < u64_mod - 2 -> progresses plan (drive_plan plan).
Proof.
  intros Htr Hst Hrev. destruct (tr_state _ Htr) as [E|(_ & a & merge & prior & Ha & Hm & Hmid & Hprior & Hun)]; [by rewrite E in Hst|].
  pose proof (ri_active _ (tr_inv _ Htr) a Ha) as Har.
  assert (attempt_ok a = true) as Hao.
  { destruct (valid_code plan (tr_valid _ Htr) ltac:(by rewrite (tr_code _ Htr))) as (_ & _ & _ & _ & _ & _ & _ & Hsv).
    unfold state_valid in Hsv. rewrite Ha, Hst in Hsv. eval_tests_in Hsv. cbn [orb] in Hsv. cbv iota in Hsv. bprop Hsv. by split_ands. }
  unfold attempt_ok in Hao. bprop Hao. split_ands.
  assert (request_round plan merge (ra_AttemptID a) (ra_ProviderIdempotencyKey a) = Some (ra_Round a)) as Hround
    by (unfold request_round; rewrite Hst, Ha, Hmid, !neqb_refl; reflexivity).
  destruct (request_found plan (ra_AttemptID a) (ra_ProviderIdempotencyKey a) merge (ra_Round a) (tr_valid _ Htr) (tr_code _ Htr)
    (tr_git _ Htr) (or_intror Hst) Hm ltac:(done) ltac:(done) Hround ltac:(rewrite Har, (tr_round _ Htr); lia)) as [request Hreq].
  assert (ready_reconciliation (reconcile plan) request merge a prior) as Hready.
  { pose proof (ri_index _ (tr_inv _ Htr)). pose proof (tr_revision _ Htr).
    destruct (entry_event plan _ prior (tr_valid _ Htr) (tr_code _ Htr) Hprior) as [Hpev _].
    split; rewrite ?(ok_reconcile Hop); [exact Hst|exact Ha|exact Har|exact Hreq|exact Hprior|exact (conj Hun Hpev)|
      apply Hop|apply Hop|apply Hop|apply Htr|lia|lia]. }
  pose proof (Reconcile_served _ _ _ _ _ Hready) as Hserved. rewrite (ok_reconcile Hop) in Hserved. cbv zeta in Hserved.
  destruct (pv_reads Hpv plan request) as (Hfit & Hnone & Hmerged).
  assert (settled_read request (reads plan request) = (fst (reads plan request), None)) as Es
    by (unfold settled_read; rewrite settled_cases, Hfit, Hnone; reflexivity).
  rewrite Es in Hserved. destruct Hserved as ((result & Hserve & _) & [e He]).
  destruct (release_step_inv _ _ _ (px_length _ (tr_text _ Htr)) (tr_inv _ Htr) He) as (Hv & Hi & Hp).
  assert (drive_plan plan = outcome_recorded plan (reconciled_result merge request prior (fst (reads plan request)) (dc_EventID (decisions (rp_Revision plan))))) as ->.
  { unfold drive_plan. rewrite Hst. eval_tests. cbn [andb]. cbv iota. by rewrite Hserve. }
  eapply recorded_progress with (merge := merge); try done; [apply Htr|lia|by left].
Qed.

Fixpoint drive_for (n : nat) (plan : ReleasePlanSnapshot) : ReleasePlanSnapshot :=
  match n with O => plan | S n => drive_for n (drive_plan plan) end.

Lemma drive_for_finishes n plan :
  on_track plan -> left_to_do plan <= Z.of_nat n -> rp_Revision plan + 2 * Z.of_nat n < u64_mod ->
  let plan' := drive_for n plan in
  on_track plan' /\ rp_State plan' = ReleaseQualified /\ rp_NextMergeIndex plan' = llen (rp_OrderedMerges plan').
Proof.
  revert plan. induction n as [|n IH]; intros plan Htr Hleft Hrev; cbn [drive_for].
  - assert (rp_State plan = ReleaseQualified /\ rp_NextMergeIndex plan = llen (rp_OrderedMerges plan)) as [H1 H2]; [|done].
    pose proof (ri_index _ (tr_inv _ Htr)) as Hix. unfold left_to_do in Hleft.
    destruct (tr_state _ Htr) as [E|(E & a & merge & _ & _ & Hm & _)]; rewrite E in Hleft; eval_tests_in Hleft; cbv iota in Hleft; [split; [done|lia]|].
    apply next_merge_some in Hm as [Hlt _]. lia.
  - destruct (tr_state _ Htr) as [E|(E & _)].
    + destruct (decide (rp_NextMergeIndex plan < llen (rp_OrderedMerges plan))) as [Hlt|Hge].
      * destruct (drive_executes plan Htr E Hlt ltac:(lia)) as (Htr' & Hless & Hr'). apply IH; [done|lia|lia].
      * assert (drive_plan plan = plan) as Hd.
        { unfold drive_plan. rewrite E, (proj2 (Z.ltb_ge _ _)) by lia. by rewrite andb_false_r. }
        rewrite Hd. pose proof (ri_index _ (tr_inv _ Htr)) as Hix. apply IH; [done| |lia].
        unfold left_to_do. rewrite E. eval_tests. cbv iota. lia.
    + destruct (drive_reconciles plan Htr E ltac:(lia)) as (Htr' & Hless & Hr'). apply IH; [done|lia|lia].
Qed.
End served.

Lemma event_plan_part s e s' : ApplyReleaseEvent s e = (s', true) -> plan_part s' = plan_part s.
Proof. intros H. apply ApplyReleaseEvent_inv in H as (_ & _ & n & _ & He & ->). rewrite <- (effect_plan_part s e n He). by destruct n. Qed.


Lemma run_merges s es s' : release_run s es s' -> rp_OrderedMerges s' = rp_OrderedMerges s.
Proof.
  induction 1 as [|s e s1 es s2 Ha _ IH]; [done|]. rewrite IH. by apply event_plan_part, plan_part_fields in Ha as [? _].
Qed.


(** ** Witnesses *)

Definition git_payload : string :=
  jdoc (plan_head ++
    [("release_mode", qs ReleaseModeCode); ("repository_url", qs "url"); ("base_ref", qs "main");
     ("base_commit", qs "b0"); ("ordered_merges", jarr [merge_json "5" "h1"; merge_json "6" "h2"]);
     ("merge_strategy", qs "FF_ONLY_ORDERED"); ("git_version", qs "2.45"); ("conflict_policy", qs "FAIL_NO_IMPROVISATION");
     ("contract_manifest", qs ContractIdentity); ("manifest_sha256", qs (dig "b"));
     ("required_profiles", jarr [qs "core"]); ("expected_qualified_tree", qs "tree");
     ("execution_round_limit", "2")]).
Definition git_created : ReleasePlanSnapshot := Eval vm_compute in created git_payload.
Definition git_plan : ReleasePlanSnapshot := Eval vm_compute in fst (ApplyReleaseEvent git_created first_event).

Definition release_template : ReleaseCommandTemplate :=
  mkReleaseCommandTemplate (uid "c") (mkPrincipal PrincipalPolicy "release") 1 "key" (uid "d") [mkEvidence (uid "4") (dig "a")].
Definition sample_execute (plan : ReleasePlanSnapshot) : ReleaseExecutionPlan :=
  mkReleaseExecutionPlan plan (uid "a") "attempt" release_template (dc_Provenance EvaluatorLaws.sample_context) release_template
    (dc_Provenance EvaluatorLaws.sample_context) sample_time.
Definition sample_reconcile (plan : ReleasePlanSnapshot) : ReleaseReconciliationPlan :=
  mkReleaseReconciliationPlan plan release_template (dc_Provenance EvaluatorLaws.sample_context) sample_time.

(** The merge is in; the answer for the second merge is lost. *)
Definition merged_observation (r : ReleaseMergeRequest) : ReleaseProviderObservation :=
  mkReleaseProviderObservation (mrq_ReleasePlanID r) (mrq_MergeID r) (mrq_AttemptID r) ReleaseProviderMerged ReleaseOutcomeMerged
    (mrq_BaseCommit r) (mrq_HeadCommit r) "tree" ["merged"].
Definition sample_merges (_ : ReleasePlanSnapshot) (r : ReleaseMergeRequest) : ReleaseProviderObservation * option string :=
  (merged_observation r, if mrq_MergeID r == uid "6" then Some "connection reset" else None).
Definition sample_reads (_ : ReleasePlanSnapshot) (r : ReleaseMergeRequest) : ReleaseProviderObservation * option string :=
  (merged_observation r, None).
Definition sample_decisions (n : Z) : DecisionContext := EvaluatorLaws.sample_context.

Lemma merged_observation_fits r : releaseObservationMatches r (merged_observation r) = true.
Proof.
  unfold releaseObservationMatches, merged_observation. cbn [rpo_ReleasePlanID rpo_MergeID rpo_AttemptID rpo_Outcome rpo_State rpo_BaseCommit
    rpo_HeadCommit rpo_TreeDigest rpo_Reasons]. rewrite !neqb_refl, !(bool_decide_true (mrq_BaseCommit r = _)), !(bool_decide_true (mrq_HeadCommit r = _)) by done.
  reflexivity.
Qed.

Lemma sample_events_ok n :
  UUIDv7_Valid (dc_EventID (sample_decisions n)) = true /\ IsZero (dc_DecidedAt (sample_decisions n)) = false.
Proof. split; vm_compute; reflexivity. Qed.

Lemma sample_texts_ok (plan : ReleasePlanSnapshot) request :
  (utf8 (rpo_TreeDigest (fst (sample_merges plan request))) /\ Forall utf8 (rpo_Reasons (fst (sample_merges plan request)))) /\
  (utf8 (rpo_TreeDigest (fst (sample_reads plan request))) /\ Forall utf8 (rpo_Reasons (fst (sample_reads plan request)))).
Proof.
  assert (utf8 "tree") by (by apply utf8_of_ascii). assert (utf8 "merged") by (by apply utf8_of_ascii).
  repeat split; cbn; try done; by repeat constructor.
Qed.

Lemma git_plan_text : plan_text git_plan.
Proof. split; [by apply utf8_of_ascii| |vm_compute; reflexivity]. repeat (apply Forall_cons_2; [by apply utf8_of_ascii|]). apply Forall_nil_2. Qed.

Lemma sample_operator : operator_ok sample_execute sample_reconcile.
Proof. split; intros plan; first [reflexivity | vm_compute; reflexivity | split; vm_compute; reflexivity | split; [done|by apply utf8_of_ascii]]. Qed.

Lemma sample_provider : provider_ok sample_merges sample_reads.
Proof. split; [done|]. intros plan request. split; [apply merged_observation_fits|done]. Qed.

Lemma git_plan_created : ReleasePlanFromCreatePayload git_payload (uid "0") = Some git_created.
Proof. vm_compute. reflexivity. Qed.

Lemma git_plan_run : release_run git_created [first_event] git_plan.
Proof. apply replay_run. vm_compute. reflexivity. Qed.


Definition git_request : option (ReleaseMergeRequest * ReleaseMergePlan) :=
  Eval vm_compute in releaseProviderRequest git_plan (uid "a") "attempt".
Definition first_request : ReleaseMergeRequest :=
  match git_request with
  | Some (request, _) => request
  | None => mkReleaseMergeRequest "" "" "" "" 0 "" "" "" "" "" "" "" "" ""
  end.
Definition first_merge : ReleaseMergePlan := match git_request with Some (_, merge) => merge | None => zero_ReleaseMergePlan end.

Lemma git_ready : ready_operation (sample_execute git_plan) first_request first_merge.
Proof.
  split; try (vm_compute; reflexivity).
  - eexists. vm_compute. reflexivity.
  - split; vm_compute; reflexivity.
  - split; vm_compute; reflexivity.
  - by apply utf8_of_ascii.
  - exact git_plan_text.
  - vm_compute. discriminate.
  - split; vm_compute; reflexivity.
Qed.

(** The answer is lost. *)
Definition lost_merges (_ : ReleasePlanSnapshot) (r : ReleaseMergeRequest) : ReleaseProviderObservation * option string :=
  (merged_observation r, Some "connection reset").

Lemma lost_texts_ok (plan : ReleasePlanSnapshot) request :
  (utf8 (rpo_TreeDigest (fst (lost_merges plan request))) /\ Forall utf8 (rpo_Reasons (fst (lost_merges plan request)))) /\
  (utf8 (rpo_TreeDigest (fst (sample_reads plan request))) /\ Forall utf8 (rpo_Reasons (fst (sample_reads plan request)))).
Proof. exact (sample_texts_ok plan request). Qed.

